(* ===== verification/_CoqProject ===== *)
-Q . S2P
Prelude.v
PyFloat.v
Json.v
Sha256.v
Effects.v
StateMachine.v
Rbac.v
Actions.v
Risk.v
Redaction.v
Models.v
World.v
Config.v
AuditLog.v
History.v
Memory.v
Notifications.v
ApprovalRequests.v
Incidents.v
JsonParse.v
JsonRound.v
Kubernetes.v
Opa.v
Approvals.v
Execution.v
Mutations.v
Verification.v
Runbooks.v
Pipeline.v
PipelineRuns.v
Tickets.v
Alerts.v
Telemetry.v
GitOps.v
Reliability.v
WebhookAuth.v
Security.v
Quarantine.v
AiContext.v
Diagnosis.v
DiagnosisRuns.v
AiGate.v
Encoding.v
GitHubPolicy.v
GitHub.v
GitHubRuns.v
Url.v
Delivery.v
PyNumber.v
FinOpsEngine.v
FinOpsProviders.v
FinOps.v
FinOpsApi.v
FinOpsRuns.v
FinOpsAnalysis.v
Scenarios.v
IncidentLab.v
Reconcile.v
LabFrames.v
LabRuns.v
LabStart.v
LabLife.v
ClusterAgent.v
AgentRuns.v
