(* ===== verification/Prelude.v ===== *)
(** * CloudWard verification library

    CloudWard is an incident-response control plane: it receives alerts and
    runtime-security reports, opens incidents, collects evidence, matches a runbook,
    scores the risk of the action it names, asks a policy engine, requests approvals,
    changes a Kubernetes cluster or a GitOps repository through a closed set of typed
    operations, verifies the outcome from several signals, and records everything it
    did.  This library is a shallow embedding of its core ([src/backend/app]) with the
    theorems that make it correct.

    ** How a handler is modelled

    A handler is a function of the monad [Effects.M] over [World.World X]: the session
    ([work], what the session sees), the durable database ([committed], what the last
    [commit] left), the metrics of the process, a ghost trace of the calls that leave
    it, and the environment [X].  As in Python an exception keeps the changes made
    before it; only [rollback] undoes them, and a theorem that speaks of durability
    speaks of [committed].  An ORM object is named by its primary key and read through
    the session whenever an attribute is read, so aliases see each other's changes.
    A row is inserted when the code adds it, with its identifier and timestamp, and
    its primary key, uniqueness and check constraints are checked there.  Numbers are
    unbounded as Python's; a float is a binary64 of the Standard Library's [SpecFloat]
    with Python's rounding and printing ([PyFloat]).  Strings are sequences of code
    points below 256, encoded in UTF-8 where the code encodes them.  Times are
    microseconds since the epoch.  [asyncio.gather] runs its arguments in order.

    What is not in the repository is a class of functions on [X]: clock, identifiers
    and broker ([World.Runtime]), API server ([Kubernetes.KubeApi]), policy engine
    ([Opa.PolicyServer]), telemetry ([Verification.TelemetryServer]), git
    ([GitOps.GitRepository]), the identifiers the broker gives its messages
    ([IncidentLab.TaskResults]), Redis and the host clocks ([WebhookAuth.GuardEnv]), the
    language model ([Diagnosis.LlmServer]), GitHub ([GitHub.GitHubServer]), Teams
    ([Delivery.TeamsServer]), OpenCost and Prometheus for the FinOps engine
    ([FinOpsProviders.FinOpsServer]), PyYAML ([FinOps.YamlLibrary]), the standard
    library's treatment of IP literals ([Url.UrlLibrary]), pydantic's lax conversions and
    serialization ([Effects.Pydantic], [AiContext.PydanticDump], [FinOpsEngine.FinOpsDump]).
    Theorems hold for every
    instance; the few that rely on behaviour of the environment name it in a class of
    their own (clocks that do not run backwards, [Verification.Clock] and
    [Quarantine.WaitingClock]; a memory of nonces, [WebhookAuth.NonceMemory], which the
    process's dictionaries and Redis implement).  Concrete instances run the examples
    and the witnesses.

    ** Files

    - [Prelude], [PyFloat], [Json], [JsonParse], [JsonRound], [Sha256], [Effects]: tactics, hint databases,
      floats, JSON values with [json.dumps] and [json.loads] and their round trip,
      SHA-256 and HMAC, the monad and its preservation calculus ([evolves]).
    - [StateMachine] (incidents/state_machine.py), [Rbac] (rbac/, auth/schemas.py),
      [Actions] (remediation/actions.py), [Risk] (risk/engine.py), [Redaction]
      (security/redaction.py): the pure core.
    - [Models] (db/models.py and the tables of ai/ and incident_memory/), [World],
      [Config] (config.py), [AuditLog] (audit/, events/), [History]: rows, session,
      settings, the append-only logs, and the invariants every operation preserves.
    - [Incidents] (incidents/service.py), [Memory] (incident_memory/),
      [Notifications] (notifications/), [ApprovalRequests] and [Approvals]
      (approvals/service.py), [Execution] (remediation/execution.py), [Verification]
      (verification/, observability/providers.py), [Tickets]: the services, and the
      ledger of single-use tickets they refine.
    - [Kubernetes] (kubernetes/executor.py), [Opa] (policies/opa.py), [GitOps]
      (remediation/gitops.py, gitops/drift.py), [Telemetry] (observability/): the
      clients, with their guards.
    - [Runbooks] (runbooks/), [Pipeline] and [PipelineRuns] (remediation/pipeline.py,
      evidence/collector.py), [Alerts] (alerts/), [Reliability]
      (reliability/workflow.py), [Mutations]: the two remediation workflows, composed
      of the services the way the code composes them.
    - [WebhookAuth] (security/webhook_auth.py, rate_limit.py), [Security]
      (security/schemas.py, normalization.py, service.py), [Quarantine]
      (security/quarantine.py): the intake of runtime-security events and the
      containment of a pod.
    - [AiContext], [Diagnosis], [DiagnosisRuns] (ai/context.py, incident_context.py,
      schemas.py, provider.py, openrouter.py, safety.py, persistence.py, service.py,
      application.py), [AiGate] (ai/action_boundary.py): the bounded context, the
      diagnosis with its budget, retries and checks, and the gate a suggested action
      goes through.
    - [Encoding], [Url] (base64, quoting and UTF-8, [urlsplit]); [GitHubPolicy],
      [GitHub], [GitHubRuns] (github/): the allowlists, the client, issues and change
      proposals made once; [Delivery] (notifications/notifiers.py and [deliver]): the
      sending of a notification over its channel.
    - [PyNumber] (Python's numbers), [FinOpsEngine] (finops/engine.py, schemas.py),
      [FinOpsProviders] (finops/providers.py), [FinOps] (finops/service.py),
      [FinOpsApi] (api/finops.py), [FinOpsRuns], [FinOpsAnalysis]: the rightsizing of
      workloads from observed use, its bounded readers, the stored recommendation and
      the pull request it becomes, and what runs of the handlers do.
    - [Scenarios] (demo/scenarios.py, demo/executor.py, policies/chaos.py), [IncidentLab]
      (api/incident_lab.py), [Reconcile] (api/internal_reliability.py): the catalog, the
      policy it is put to, the chaos objects, the handlers of an execution and the
      callbacks of the worker; [LabFrames], [LabRuns], [LabStart], [LabLife]: what runs
      of them do, what a start does outside, and the life of an execution.
    ** What the theorems show

    - Authority.  A call that changes the cluster or the repository is issued only
      after a permission of the policy engine obtained in the same run, for that
      action and target ([Pipeline.deletions_permitted], [Reliability.actions_sanctioned],
      [Quarantine.requests_authorised]); the executor and the writer stay inside their
      namespaces, objects and branch whatever they are asked ([Kubernetes.executor_confined],
      [GitOps.writer_confined]); approvals are decided once, by a principal who may, on
      what they were requested for, and spent once ([Approvals], [Execution],
      [Tickets.services_refine_ledger]); the policy client fails closed ([Opa]).
    - Truth.  A success is reported only by checks that saw it ([Verification],
      [Quarantine.containment_ends]); an incident's event log replays to its state
      ([Incidents.event_log_explains_state]); what is stored is redacted ([Redaction]).
    - Progress.  Runs end settled and durable ([PipelineRuns.run_settles]); the waiting
      loops end within their timeout ([Verification.verify_until_returns],
      [Quarantine.waits_end]).
    - Intake.  Replays and floods are refused ([WebhookAuth]); repeated alerts and
      reports are grouped, not repeated ([Alerts], [Security.ingest_settles],
      [Reliability.process_once]).
    - Advice.  A model only advises: a diagnosis changes nothing that acts, stays
      within its budget and cites only what it was given ([DiagnosisRuns]); a suggested
      action is put to the policy and proposed, never executed ([AiGate]).
    - Outside.  GitHub is asked only what the allowlists grant, a change is a branch, a
      file and a pull request, once ([GitHubRuns]); a notification is delivered within
      its retries and disturbs nothing ([Delivery]); settings of a deployment that
      validate have no development access and distinct secrets
      ([Config.deployed_settings_safe]).
    - Cost.  An analysis stores only recommendations that rest on enough evidence and
      lower requests, never below observed use with its headroom
      ([FinOpsAnalysis.analysis_only_lowers]); a pull request is made only of a current
      one ([FinOpsRuns.pr_only_if_current]), and a recommendation goes nowhere else
      ([FinOpsRuns.recommendation_lifecycle]).
    - The Incident Lab.  A start changes something outside only under a permission and
      within the bounds of its scenario ([LabStart.scenario_sanctioned]); a round of the
      worker tells the truth ([LabLife.reconcile_truthful]); an execution only moves
      forward, and a scenario has one at a time ([LabLife.execution_lifecycle], for
      handlers that run one after another: the code takes no lock for this).
    ** Bounds and fuel

    [Json] parsing takes the length of the text as fuel, redaction the depth bound of
    the code; [Verification.verify_fuel] and [Quarantine.wait_fuel] are
    [timeout / poll + 2] rounds, proved enough for a clock that does not run
    backwards; the retries of the pipeline recurse on the attempts that remain (at
    most three); regular expressions on the length of the text.

    ** Not modelled

    HTTP routes and dependency injection ([api/], [auth/routes.py]), start-up,
    middleware, logging handlers and Celery wiring: configuration of frameworks.  The
    migrations are generated.  The worker, the security forwarder and the demo
    services are loops over other programs' interfaces.  Code points above 255, YAML
    tags and the in-process wake-up of streaming clients are outside the model.

    In [github/app.py] the minting of the installation token is not modelled. *)

From Stdlib Require Export ZArith Lia.
From Stdlib Require Export String Ascii.
From stdpp Require Export base tactics list gmap strings option sorting.

#[global] Open Scope Z_scope.

(** ** Scope and hint databases of the development *)

Declare Scope cw_scope.
Delimit Scope cw_scope with cw.
#[global] Open Scope cw_scope.

(** [cw_rw] rewrites with the defining equations of the operations, [cw_pres]
    closes preservation goals ([evolves], see [Effects]). *)
Create Rewrite HintDb cw_rw.
Create HintDb cw_pres.

(** ** Tactics *)

(** Case analysis on the innermost scrutinee of the goal or a hypothesis. *)
Ltac case_goal :=
  match goal with
  | |- context [match ?x with _ => _ end] =>
      lazymatch x with context [match _ with _ => _ end] => fail | _ => destruct x eqn:? end
  end.
Ltac case_hyp :=
  match goal with
  | H : context [match ?x with _ => _ end] |- _ =>
      lazymatch x with context [match _ with _ => _ end] => fail | _ => destruct x eqn:? end
  end.

(** Turn the boolean tests of the code into propositions. *)
Ltac boolify :=
  repeat match goal with
  | H : andb _ _ = true |- _ => apply andb_true_iff in H as [? ?]
  | H : andb _ _ = false |- _ => apply andb_false_iff in H
  | H : orb _ _ = false |- _ => apply orb_false_iff in H as [? ?]
  | H : orb _ _ = true |- _ => apply orb_true_iff in H
  | H : negb _ = true |- _ => apply negb_true_iff in H
  | H : negb _ = false |- _ => apply negb_false_iff in H
  | H : (_ <? _)%Z = true |- _ => apply Z.ltb_lt in H
  | H : (_ <? _)%Z = false |- _ => apply Z.ltb_ge in H
  | H : (_ <=? _)%Z = true |- _ => apply Z.leb_le in H
  | H : (_ <=? _)%Z = false |- _ => apply Z.leb_gt in H
  | H : (_ =? _)%Z = true |- _ => apply Z.eqb_eq in H
  | H : (_ =? _)%Z = false |- _ => apply Z.eqb_neq in H
  | H : bool_decide _ = true |- _ => apply bool_decide_eq_true in H
  | H : bool_decide _ = false |- _ => apply bool_decide_eq_false in H
  | H : String.eqb _ _ = true |- _ => apply String.eqb_eq in H
  | H : String.eqb _ _ = false |- _ => apply String.eqb_neq in H
  | H : Is_true _ |- _ => apply Is_true_eq_true in H
  end.

(** ** Strings as sequences of code points *)

(** A Python [str] is modelled by the sequence of its code points below 256,
    one [ascii] each. *)
Definition code_of (c : ascii) : Z := Z.of_N (N_of_ascii c).

Definition in_range (lo hi : Z) (c : ascii) : bool :=
  (lo <=? code_of c) && (code_of c <=? hi).

Definition is_upper : ascii → bool := in_range 65 90.
Definition is_lower : ascii → bool := in_range 97 122.
Definition is_digit : ascii → bool := in_range 48 57.
Definition is_alpha (c : ascii) : bool := is_upper c || is_lower c.
Definition is_alnum (c : ascii) : bool := is_alpha c || is_digit c.

Definition to_lower (c : ascii) : ascii :=
  if is_upper c then ascii_of_N (N_of_ascii c + 32) else c.

(** [str.lower] on the ASCII range. *)
Fixpoint lower (s : string) : string :=
  match s with
  | EmptyString => EmptyString
  | String.String c s => String.String (to_lower c) (lower s)
  end.

Fixpoint str_forallb (p : ascii → bool) (s : string) : bool :=
  match s with
  | EmptyString => true
  | String.String c s => p c && str_forallb p s
  end.

Definition str_len (s : string) : Z := Z.of_nat (String.length s).

(** [s.startswith(p)] and [s.endswith(p)]. *)
Definition starts_with (p s : string) : bool := String.prefix p s.
Definition ends_with (p s : string) : bool :=
  let n := String.length s in
  let k := String.length p in
  if decide (k ≤ n)%nat then String.eqb (String.substring (n - k)%nat k s) p else false.

(** [part in s]. *)
Fixpoint contains (part s : string) : bool :=
  String.prefix part s ||
  match s with EmptyString => false | String.String _ s' => contains part s' end.

Lemma app_cons_str c (s t : string) : String.String c s +:+ t = String.String c (s +:+ t).
Proof. done. Qed.

Lemma app_nil_str (t : string) : EmptyString +:+ t = t.
Proof. done. Qed.

Lemma app_assoc_str (a b c : string) : (a +:+ b) +:+ c = a +:+ (b +:+ c).
Proof. induction a as [|x a IH]; [done|]. by rewrite !app_cons_str, IH. Qed.

Lemma app_nil_r_str (a : string) : a +:+ EmptyString = a.
Proof. induction a as [|x a IH]; [done|]. by rewrite app_cons_str, IH. Qed.

(** Replace one character ([str.replace] with single characters). *)
Fixpoint replace_char (a b : ascii) (s : string) : string :=
  match s with
  | EmptyString => EmptyString
  | String.String c s =>
      String.String (if Ascii.eqb c a then b else c) (replace_char a b s)
  end.

(** [s[:n]]. *)
Definition str_take (n : nat) (s : string) : string := String.substring 0 n s.

(** [str.join]. *)
Definition join (sep : string) (l : list string) : string := String.concat sep l.

(** [s.strip(chars)] for a single character. *)
Fixpoint lstrip (c : ascii) (s : string) : string :=
  match s with
  | String.String d s' => if Ascii.eqb c d then lstrip c s' else s
  | EmptyString => EmptyString
  end.
Definition str_rev (s : string) : string :=
  string_of_list_ascii (rev (list_ascii_of_string s)).
Definition rstrip (c : ascii) (s : string) : string := str_rev (lstrip c (str_rev s)).
Definition strip (c : ascii) (s : string) : string := rstrip c (lstrip c s).

Lemma list_of_str_rev s :
  list_ascii_of_string (str_rev s) = rev (list_ascii_of_string s).
Proof. unfold str_rev. apply list_ascii_of_string_of_list_ascii. Qed.

Lemma str_rev_involutive s : str_rev (str_rev s) = s.
Proof.
  unfold str_rev. rewrite list_ascii_of_string_of_list_ascii, rev_involutive.
  apply string_of_list_ascii_of_string.
Qed.

Lemma str_forallb_list p s : str_forallb p s = forallb p (list_ascii_of_string s).
Proof. induction s; simpl; congruence. Qed.

Lemma str_forallb_rev p s : str_forallb p (str_rev s) = str_forallb p s.
Proof.
  rewrite !str_forallb_list, list_of_str_rev.
  apply eq_true_iff_eq. rewrite !forallb_forall. by setoid_rewrite <- in_rev.
Qed.

Lemma str_forallb_app p a b : str_forallb p (a +:+ b) = str_forallb p a && str_forallb p b.
Proof. induction a as [|c a IH]; simpl; [done|]. by rewrite IH, andb_assoc. Qed.

Lemma of_list_app a b :
  string_of_list_ascii (a ++ b) = string_of_list_ascii a +:+ string_of_list_ascii b.
Proof. induction a as [|x a IH]; [done|]. by apply (f_equal (String.String x)). Qed.

Lemma str_rev_cons c s : str_rev (String.String c s) = str_rev s +:+ String.String c EmptyString.
Proof. unfold str_rev. simpl. by rewrite of_list_app. Qed.

(** Decimal and hexadecimal numerals. *)
Definition digit_char (d : N) : ascii :=
  ascii_of_N (if (d <? 10)%N then d + 48 else d + 87)%N.

Fixpoint digits_fuel (fuel : nat) (base n : N) (acc : string) : string :=
  match fuel with
  | O => acc
  | S fuel =>
      let acc := String.String (digit_char (n mod base)) acc in
      if (n <? base)%N then acc else digits_fuel fuel base (n / base) acc
  end.

(** [N.size n + 1] digits are enough in any base of at least two. *)
Definition digits (base n : N) : string :=
  digits_fuel (S (N.to_nat (N.size n))) base n EmptyString.

Definition str_of_N (n : N) : string := digits 10 n.
Definition str_of_Z (z : Z) : string :=
  if z <? 0 then "-" +:+ str_of_N (Z.to_N (- z)) else str_of_N (Z.to_N z).

Fixpoint zeros (n : nat) : string :=
  match n with O => EmptyString | S n => String.String "0" (zeros n) end.

(** Left-pad with zeros to a width. *)
Definition zpad (w : nat) (s : string) : string := zeros (w - String.length s) +:+ s.

Definition hex_pad (w : nat) (n : N) : string := zpad w (digits 16 n).

(** ** Python truthiness and optional values *)

Definition truthy_str (s : string) : bool := negb (String.eqb s "").
(** [a or b] on strings. *)
Definition str_or (a b : string) : string := if truthy_str a then a else b.
(** [a or b] where [a] may be [None]. *)
Definition opt_str_or (a : option string) (b : string) : string :=
  match a with Some s => str_or s b | None => b end.

Definition b2s (b : bool) : string := if b then "True" else "False".

(** ** Lists *)

(** First element satisfying a test: Python's [next(gen, None)]. *)
Definition first_such {A} (p : A → bool) : list A → option A :=
  fix go l := match l with
              | [] => None
              | x :: l => if p x then Some x else go l
              end.

Lemma first_such_Some {A} (p : A → bool) (l : list A) x :
  first_such p l = Some x → x ∈ l ∧ p x = true.
Proof.
  induction l as [|y l IH]; simpl; [done|].
  destruct (p y) eqn:Hy; intros H; simplify_eq; [split; [left|done]|].
  destruct (IH H). split; [by right|done].
Qed.

Lemma first_such_None {A} (p : A → bool) (l : list A) :
  first_such p l = None ↔ ∀ x, x ∈ l → p x = false.
Proof.
  induction l as [|y l IH]; simpl.
  - split; [by intros _ x ?%not_elem_of_nil|done].
  - destruct (p y) eqn:Hy; split; intros H; try done.
    + specialize (H y). rewrite Hy in H. by discriminate H; left.
    + intros x [->|Hx]%elem_of_cons; [done|]. by apply IH.
    + apply IH. intros x Hx. apply H. by right.
Qed.

Lemma existsb_elem_of {A} (p : A → bool) (l : list A) :
  existsb p l = true ↔ ∃ x, x ∈ l ∧ p x = true.
Proof.
  rewrite existsb_exists. split; intros (x & H & ?); exists x;
    (split; [|done]); by apply list_elem_of_In.
Qed.

Lemma forallb_elem_of {A} (p : A → bool) (l : list A) :
  forallb p l = true ↔ ∀ x, x ∈ l → p x = true.
Proof.
  rewrite forallb_forall. split; intros H x Hx; apply H; by apply list_elem_of_In.
Qed.

Lemma filter_all {A} (f : A → bool) l : Forall (λ x, f x = true) l → List.filter f l = l.
Proof. induction 1 as [|x l Hx Hl IH]; simpl; [done|]. by rewrite Hx, IH. Qed.

Lemma filter_elem {A} (p : A → bool) l x : x ∈ List.filter p l ↔ x ∈ l ∧ p x = true.
Proof. by rewrite !list_elem_of_In, filter_In. Qed.

Lemma list_filter_perm {A} (f : A → bool) l l' :
  Permutation l l' → Permutation (List.filter f l) (List.filter f l').
Proof.
  induction 1; simpl; repeat case_match; eauto using Permutation.
Qed.

(** Last element: the newest row of an append-only table. *)
Definition newest {A} (p : A → bool) (l : list A) : option A := first_such p (rev l).

Lemma newest_Some {A} (p : A → bool) (l : list A) x :
  newest p l = Some x → x ∈ l ∧ p x = true.
Proof.
  intros [H ?]%first_such_Some. split; [|done].
  apply list_elem_of_In, in_rev. by apply list_elem_of_In.
Qed.

Definition sumZ (l : list Z) : Z := foldr Z.add 0 l.

Lemma sumZ_app l1 l2 : sumZ (l1 ++ l2) = sumZ l1 + sumZ l2.
Proof. induction l1; simpl; lia. Qed.

(** Stable insertion sort: Python's [sorted] with a boolean order. *)
Section insertion_sort.
Context {A : Type} (leb : A → A → bool).

Fixpoint insert_sorted (x : A) (l : list A) : list A :=
  match l with
  | [] => [x]
  | y :: l' => if leb x y then x :: l else y :: insert_sorted x l'
  end.

Fixpoint isort (l : list A) : list A :=
  match l with
  | [] => []
  | x :: l => insert_sorted x (isort l)
  end.

Lemma insert_sorted_perm x l : Permutation (insert_sorted x l) (x :: l).
Proof.
  induction l as [|y l IH]; simpl; [done|].
  destruct (leb x y); [done|]. rewrite IH. apply perm_swap.
Qed.

Lemma isort_perm l : Permutation (isort l) l.
Proof.
  induction l as [|x l IH]; simpl; [done|]. by rewrite insert_sorted_perm, IH.
Qed.

Lemma isort_elem x l : x ∈ isort l ↔ x ∈ l.
Proof. by rewrite isort_perm. Qed.
End insertion_sort.
