(* ===== verification/PyFloat.v ===== *)
(** * Python floats

    IEEE-754 binary64 values as [SpecFloat.spec_float] (53 bits of precision,
    maximal exponent 1024), with the operations the code under [src/backend]
    applies to them: the arithmetic operators, comparisons, [round], [math.floor]
    and [math.ceil], conversions from integers and decimal literals, and [repr]
    (the shortest decimal numeral that reads back as the same float), which
    [json.dumps] uses. *)

From Stdlib Require Import SpecFloat.
From S2P Require Import Prelude.

Definition float := spec_float.

Definition prec : Z := 53.
Definition emax : Z := 1024.

Definition float_of_Z (z : Z) : float := binary_normalize prec emax z 0 false.

(** The float nearest to the rational [p / q]. *)
Definition float_of_ratio (neg : bool) (p q : positive) : float :=
  let '(mz, ez, lz) := SFdiv_core_binary prec emax (Zpos p) 0 (Zpos q) 0 in
  binary_round_aux prec emax neg mz ez lz.

Definition pow10 (n : nat) : positive := Pos.pow 10 (Pos.of_nat n).

(** The float denoted by the decimal numeral [m * 10 ^ e]. *)
Definition float_of_decimal (m : Z) (e : Z) : float :=
  match m with
  | Z0 => S754_zero false
  | Zpos p =>
      if e <? 0 then float_of_ratio false p (Z.to_pos (10 ^ (- e)))
      else float_of_ratio false (p * Z.to_pos (10 ^ e)) 1
  | Zneg p =>
      if e <? 0 then float_of_ratio true p (Z.to_pos (10 ^ (- e)))
      else float_of_ratio true (p * Z.to_pos (10 ^ e)) 1
  end.

Definition fadd : float → float → float := SFadd prec emax.
Definition fsub : float → float → float := SFsub prec emax.
Definition fmul : float → float → float := SFmul prec emax.
Definition fdiv : float → float → float := SFdiv prec emax.
Definition fltb : float → float → bool := SFltb.
Definition fleb : float → float → bool := SFleb.
Definition feqb : float → float → bool := SFeqb.

Definition fzero : float := S754_zero false.
Definition fone : float := float_of_Z 1.

(** Python's [min] and [max] return the first argument on ties. *)
Definition fmin (a b : float) : float := if fltb b a then b else a.
Definition fmax (a b : float) : float := if fltb a b then b else a.

Definition is_finite (f : float) : bool :=
  match f with S754_zero _ | S754_finite _ _ _ => true | _ => false end.

(** The value of a finite float as a fraction [(num, den)]. *)
Definition to_ratio (f : float) : Z * positive :=
  match f with
  | S754_finite s m e =>
      let n := cond_Zopp s (Zpos m) in
      if 0 <=? e then (n * 2 ^ e, 1%positive) else (n, Z.to_pos (2 ^ (- e)))
  | _ => (0, 1%positive)
  end.

(** Round half to even of the fraction [n / d]. *)
Definition round_half_even (n : Z) (d : positive) : Z :=
  let q := n / Zpos d in
  let r := n mod Zpos d in
  match (2 * r ?= Zpos d) with
  | Lt => q
  | Gt => q + 1
  | Eq => if Z.even q then q else q + 1
  end.

(** [round(x)], [math.floor(x)] and [math.ceil(x)] on finite floats. *)
Definition fround (f : float) : Z :=
  let '(n, d) := to_ratio f in round_half_even n d.
(** [int(f)], [math.floor(f)] and [math.ceil(f)]. *)
Definition ftrunc (f : float) : Z := let '(n, d) := to_ratio f in Z.quot n (Zpos d).
Definition ffloor (f : float) : Z := let '(n, d) := to_ratio f in n / Zpos d.
Definition fceil (f : float) : Z := let '(n, d) := to_ratio f in - ((- n) / Zpos d).

(** [round(x, k)] for [k > 0]: the exact decimal rounding, read back. *)
Definition fround_digits (f : float) (k : nat) : float :=
  match f with
  | S754_finite s _ _ =>
      let '(n, d) := to_ratio f in
      match round_half_even (n * 10 ^ Z.of_nat k) d with
      | Z0 => S754_zero s
      | z => float_of_decimal z (- Z.of_nat k)
      end
  | _ => f
  end.

(** ** [repr] *)

(** The integer nearest to [|f| * 10 ^ k]. *)
Definition scaled (f : float) (k : Z) : Z :=
  let '(n, d) := to_ratio (SFabs f) in
  if 0 <=? k then round_half_even (n * 10 ^ k) d
  else round_half_even n (d * Z.to_pos (10 ^ (- k))).

(** Decimal exponent: the [e] with [10 ^ (e-1) <= |f| < 10 ^ e]. *)
Definition decimal_exponent (f : float) : Z :=
  let '(n, d) := to_ratio (SFabs f) in
  let guess := (Z.log2 n - Z.log2 (Zpos d)) * 30103 / 100000 in
  let lt10 (e : Z) := if 0 <=? e then n <? 10 ^ e * Zpos d
                      else n * 10 ^ (- e) <? Zpos d in
  if lt10 (guess - 1) then guess - 1
  else if lt10 guess then guess
  else if lt10 (guess + 1) then guess + 1
  else guess + 2.

(** The shortest significand (at most 17 digits) that reads back as [f]: the
    pair of the significand and its exponent of ten. *)
Fixpoint shortest_from (fuel : nat) (len : Z) (f : float) (e : Z) : Z * Z :=
  let k := len - e in
  let z := scaled f k in
  match fuel with
  | O => (z, - k)
  | S fuel =>
      if feqb (float_of_decimal z (- k)) (SFabs f) then (z, - k)
      else shortest_from fuel (len + 1) f e
  end.

Definition strip_zeros (z e : Z) : Z * Z :=
  (fix go (fuel : nat) (z e : Z) : Z * Z :=
     match fuel with
     | O => (z, e)
     | S fuel => if (z =? 0) || negb (z mod 10 =? 0) then (z, e) else go fuel (z / 10) (e + 1)
     end) 20%nat z e.

Definition exponent_str (x : Z) : string :=
  if x <? 0 then "e-" +:+ zpad 2 (str_of_Z (- x)) else "e+" +:+ zpad 2 (str_of_Z x).

(** Fixed notation for [-4 <= exponent < 16], scientific otherwise. *)
Definition repr_digits (z e : Z) : string :=
  let ds := str_of_Z z in
  let nd := Z.of_nat (String.length ds) in
  let pt := nd + e in
  if (-4 <? pt) && (pt <=? 16) then
    if pt <=? 0 then "0." +:+ zeros (Z.to_nat (- pt)) +:+ ds
    else if pt <? nd then
      String.substring 0 (Z.to_nat pt) ds +:+ "." +:+
        String.substring (Z.to_nat pt) (Z.to_nat (nd - pt)) ds
    else ds +:+ zeros (Z.to_nat (pt - nd)) +:+ ".0"
  else
    String.substring 0 1 ds +:+
      (if nd =? 1 then "" else "." +:+ String.substring 1 (Z.to_nat (nd - 1)) ds) +:+
      exponent_str (pt - 1).

Definition float_repr (f : float) : string :=
  match f with
  | S754_zero s => if s then "-0.0" else "0.0"
  | S754_infinity s => if s then "-Infinity" else "Infinity"
  | S754_nan => "NaN"
  | S754_finite s m e =>
      let '(z, x) := shortest_from 16 1 f (decimal_exponent f) in
      let '(z, x) := strip_zeros z x in
      (if s then "-" else "") +:+ repr_digits z x
  end.

Example repr_098 : float_repr (float_of_decimal 98 (-2)) = "0.98".
Proof. vm_compute. reflexivity. Qed.
Example repr_sum : float_repr (fadd (float_of_decimal 1 (-1)) (float_of_decimal 2 (-1)))
                   = "0.30000000000000004".
Proof. vm_compute. reflexivity. Qed.
Example repr_big : float_repr (float_of_decimal 1 22) = "1e+22".
Proof. vm_compute. reflexivity. Qed.
Example repr_int : float_repr (float_of_Z 67108864) = "67108864.0".
Proof. vm_compute. reflexivity. Qed.
Example repr_small : float_repr (float_of_decimal 12345 (-10)) = "1.2345e-06".
Proof. vm_compute. reflexivity. Qed.
(** [(1 - 0.9) * 15] is below one and a half in binary64: it rounds to 1. *)
Example round_09 : fround (fmul (fsub fone (float_of_decimal 9 (-1))) (float_of_Z 15)) = 1.
Proof. vm_compute. reflexivity. Qed.

(** ** Order facts used by the components *)

Lemma fmin_cases a b : fmin a b = a ∨ fmin a b = b.
Proof. unfold fmin. destruct (fltb b a); auto. Qed.

#[global] Instance float_eq_dec : EqDecision float.
Proof. solve_decision. Defined.

(** ** Rounding stays below representable bounds

    [below K f]: [f] is a non-negative float of value at most the integer [K].
    Rounding a value at most [K], for [K] of at most 53 bits, stays at most [K];
    this bounds products and differences without computing them. *)

Definition below (K : Z) (f : float) : Prop :=
  match f with
  | S754_zero _ => True
  | S754_finite false m e => e ≤ 0 ∧ Zpos m ≤ K * 2 ^ (- e)
  | _ => False
  end.

Lemma iter_pos_iter {A} (f : A → A) n x :
  SpecFloat.iter_pos f n x = Nat.iter (Pos.to_nat n) f x.
Proof.
  revert x. induction n as [n IH|n IH|]; intros x; simpl SpecFloat.iter_pos; [| |done].
  - rewrite !IH, Pos2Nat.inj_xI. rewrite <- Nat.iter_add.
    replace (S (2 * Pos.to_nat n))%nat with ((Pos.to_nat n + Pos.to_nat n) + 1)%nat by lia.
    by rewrite (Nat.iter_add (Pos.to_nat n + Pos.to_nat n) 1).
  - rewrite !IH, Pos2Nat.inj_xO, <- Nat.iter_add. f_equal. lia.
Qed.

(** [r] is [m] shifted right by [k] bits; a remainder is never invented. *)
Definition shr_inv (m : Z) (k : Z) (r : shr_record) : Prop :=
  shr_m r = m / 2 ^ k ∧ (loc_of_shr_record r ≠ loc_Exact → m mod 2 ^ k ≠ 0).

Lemma pow2_succ k : 0 ≤ k → 2 ^ (k + 1) = 2 * 2 ^ k.
Proof. intros. rewrite Z.pow_add_r by lia. lia. Qed.

Lemma shr_1_step q b s : 0 ≤ q →
  shr_m (shr_1 (Build_shr_record q b s)) = q / 2 ∧
  (loc_of_shr_record (shr_1 (Build_shr_record q b s)) ≠ loc_Exact →
   q mod 2 ≠ 0 ∨ loc_of_shr_record (Build_shr_record q b s) ≠ loc_Exact).
Proof.
  intros Hq. destruct q as [|[p|p|]|]; [..|lia]; cbn [shr_1 shr_m].
  - split; [done|]. destruct b, s; simpl; intros H; auto.
  - split; [rewrite Pos2Z.inj_xI, <- Z.div2_div; by destruct p|]. intros _. left.
    rewrite Pos2Z.inj_xI, Zmod_odd. by rewrite Z.odd_add, Z.odd_mul.
  - split; [rewrite Pos2Z.inj_xO, <- Z.div2_div; by destruct p|]. destruct b, s; simpl; auto.
  - split; [done|]. intros _. by left.
Qed.

Lemma shr_1_inv m k r : 0 ≤ m → 0 ≤ k → shr_inv m k r → shr_inv m (k + 1) (shr_1 r).
Proof.
  intros Hm Hk [Hq Hx]. destruct r as [q b s]; simpl in Hq.
  assert (0 < 2 ^ k) by (apply Z.pow_pos_nonneg; lia).
  destruct (shr_1_step q b s) as [Hq2 Hx2]; [subst q; apply Z.div_pos; lia|].
  unfold shr_inv. rewrite Hq2, pow2_succ by lia. split.
  - rewrite Hq, Z.div_div by lia. f_equal. lia.
  - intros Hl. rewrite (Z.mul_comm 2), Z.rem_mul_r, <- Hq by lia.
    pose proof (Z.mod_pos_bound m (2 ^ k)). pose proof (Z.mod_pos_bound q 2).
    destruct (Hx2 Hl) as [?|?%Hx]; nia.
Qed.

Lemma shr_iter_inv m n : 0 ≤ m →
  shr_inv m (Z.of_nat n) (Nat.iter n shr_1 (Build_shr_record m false false)).
Proof.
  intros Hm. induction n as [|n IH]; simpl Nat.iter.
  - split; simpl; [by rewrite Z.div_1_r|done].
  - replace (Z.of_nat (S n)) with (Z.of_nat n + 1) by lia. apply shr_1_inv; [done|lia|done].
Qed.

Lemma digits2_bounds p :
  2 ^ (Zpos (digits2_pos p) - 1) ≤ Zpos p < 2 ^ Zpos (digits2_pos p).
Proof.
  induction p as [p IH|p IH|]; simpl digits2_pos; [| |by split].
  - rewrite Pos2Z.inj_succ, Pos2Z.inj_xI.
    replace (Z.succ (Zpos (digits2_pos p)) - 1) with (Zpos (digits2_pos p) - 1 + 1) by lia.
    unfold Z.succ. rewrite !pow2_succ by lia. lia.
  - rewrite Pos2Z.inj_succ, Pos2Z.inj_xO.
    replace (Z.succ (Zpos (digits2_pos p)) - 1) with (Zpos (digits2_pos p) - 1 + 1) by lia.
    unfold Z.succ. rewrite !pow2_succ by lia. lia.
Qed.

Lemma iter_xO m n : Zpos (Pos.iter xO m n) = Zpos m * 2 ^ Zpos n.
Proof. pose proof (Zpower.shift_pos_correct n m) as H. unfold Zpower.shift_pos in H. lia. Qed.

Section rounding_bound.
Context (K : Z) (HK : 0 < K < 2 ^ 53).

Lemma digits_exponent m e : 0 ≤ m → e ≤ 0 → m ≤ K * 2 ^ (- e) → Zdigits2 m + e ≤ 53.
Proof.
  intros Hm He Hle. destruct m as [|p|]; simpl; [lia| |lia].
  pose proof (digits2_bounds p) as [Hd _].
  assert (2 ^ (Zpos (digits2_pos p) - 1) < 2 ^ (53 - e)) as Hlt.
  { eapply Z.le_lt_trans; [exact Hd|]. eapply Z.le_lt_trans; [exact Hle|].
    unfold Z.sub. rewrite Z.pow_add_r by lia. apply Z.mul_lt_mono_pos_r; [|lia].
    apply Z.pow_pos_nonneg; lia. }
  apply Z.pow_lt_mono_r_iff in Hlt; lia.
Qed.

(** One [shr_fexp] on an exact value: the exponent stays non-positive, the
    quotient stays under the bound, strictly when something was lost. *)
Lemma shr_fexp_bound m e r e' :
  0 ≤ m → e ≤ 0 → m ≤ K * 2 ^ (- e) → shr_fexp prec emax m e loc_Exact = (r, e') →
  e' ≤ 0 ∧ 0 ≤ shr_m r ≤ K * 2 ^ (- e') ∧
  (loc_of_shr_record r ≠ loc_Exact → shr_m r + 1 ≤ K * 2 ^ (- e')).
Proof.
  intros Hm He Hle. pose proof (digits_exponent m e Hm He Hle) as Hdig.
  unfold shr_fexp, shr, fexp; simpl shr_record_of_loc. fold (SpecFloat.emin prec emax).
  set (d := Z.max (Zdigits2 m + e - prec) (SpecFloat.emin prec emax)).
  assert (d ≤ 0) by (unfold d, SpecFloat.emin, prec, emax; lia).
  destruct (d - e) as [|n|n] eqn:Hn; intros Heq; simplify_eq; simpl.
  - split_and!; [lia..|done].
  - rewrite iter_pos_iter. pose proof (shr_iter_inv m (Pos.to_nat n) Hm) as [Hq Hx].
    rewrite positive_nat_Z in Hq, Hx. set (r := Nat.iter _ _ _) in *.
    assert (0 < 2 ^ Zpos n) by (apply Z.pow_pos_nonneg; lia).
    assert (K * 2 ^ (- e) = K * 2 ^ (- (e + Zpos n)) * 2 ^ Zpos n) as HB.
    { rewrite <- Z.mul_assoc, <- Z.pow_add_r by lia. do 2 f_equal. lia. }
    set (B := K * 2 ^ (- (e + Zpos n))) in *.
    pose proof (Z.div_mod m (2 ^ Zpos n)) as Hdiv.
    pose proof (Z.mod_pos_bound m (2 ^ Zpos n)).
    split_and!; [lia|rewrite Hq; apply Z.div_pos; lia| |].
    + rewrite Hq. apply Z.div_le_upper_bound; lia.
    + intros Hl%Hx. rewrite Hq. nia.
  - split_and!; [lia..|done].
Qed.

Lemma round_nearest_even_cases q l :
  round_nearest_even q l = q ∨ (round_nearest_even q l = q + 1 ∧ l ≠ loc_Exact).
Proof. destruct l as [|[]]; simpl; auto; destruct (Z.even q); auto. Qed.

Lemma binary_round_aux_below m e :
  0 ≤ m → e ≤ 0 → m ≤ K * 2 ^ (- e) →
  below K (binary_round_aux prec emax false m e loc_Exact).
Proof.
  intros Hm He Hle. unfold binary_round_aux.
  destruct (shr_fexp prec emax m e loc_Exact) as [r1 e1] eqn:E1.
  destruct (shr_fexp_bound _ _ _ _ Hm He Hle E1) as (He1 & [Hq1 Hle1] & Hlt1).
  set (m2 := round_nearest_even _ _).
  assert (0 ≤ m2 ≤ K * 2 ^ (- e1)) as [Hm2 Hle2].
  { unfold m2. destruct (round_nearest_even_cases (shr_m r1) (loc_of_shr_record r1))
      as [->|[-> Hl]]; [lia|]. specialize (Hlt1 Hl). lia. }
  destruct (shr_fexp prec emax m2 e1 loc_Exact) as [r2 e2] eqn:E2.
  destruct (shr_fexp_bound _ _ _ _ Hm2 He1 Hle2 E2) as (He2 & [Hq2 Hle3] & _).
  destruct (shr_m r2) as [|p|p]; simpl; [done| |lia].
  replace (e2 <=? emax - prec) with true; [by split|].
  symmetry. apply Z.leb_le. unfold emax, prec. lia.
Qed.

Lemma binary_normalize_below m e :
  0 ≤ m → e ≤ 0 → m ≤ K * 2 ^ (- e) → below K (binary_normalize prec emax m e false).
Proof.
  intros Hm He Hle. destruct m as [|p|p]; simpl; [done| |lia].
  unfold binary_round, shl_align.
  destruct (fexp prec emax (Zpos (digits2_pos p) + e) - e) as [|n|n] eqn:Hn;
    [by apply binary_round_aux_below..|].
  apply binary_round_aux_below; [lia|lia|]. rewrite iter_xO.
  replace (- fexp prec emax (Zpos (digits2_pos p) + e)) with (- e + Zpos n) by lia.
  rewrite Z.pow_add_r by lia. pose proof (Z.pow_pos_nonneg 2 (Zpos n)). nia.
Qed.
End rounding_bound.

Lemma round_half_even_bounds n d lo hi :
  lo * Zpos d ≤ n ≤ hi * Zpos d → lo ≤ round_half_even n d ≤ hi.
Proof.
  intros [Hlo Hhi]. unfold round_half_even.
  pose proof (Z.div_mod n (Zpos d)). pose proof (Z.mod_pos_bound n (Zpos d)).
  destruct (Z.compare_spec (2 * (n mod Zpos d)) (Zpos d)); [destruct (Z.even _)|..]; nia.
Qed.

Lemma fround_below K f : 0 ≤ K → below K f → 0 ≤ fround f ≤ K.
Proof.
  intros HK. destruct f as [| | |[] m e]; try done.
  intros [He Hle]. unfold fround, to_ratio. simpl cond_Zopp.
  destruct (0 <=? e) eqn:Hz; boolify; cbv beta iota; apply round_half_even_bounds.
  - replace e with 0 in * by lia. simpl in Hle. lia.
  - rewrite Z2Pos.id by (apply Z.pow_pos_nonneg; lia). lia.
Qed.

(** A binary64 value: [valid_binary] holds of every value the processor has. *)
Definition valid (f : float) : bool := valid_binary prec emax f.

(** The values between 0 and 1: zero, one, and fractions with a negative
    exponent and a numerator at most the denominator. *)
Lemma unit_interval_cases c :
  valid c = true → fleb fzero c = true → fleb c fone = true →
  (∃ s, c = S754_zero s) ∨
  ∃ m e, c = S754_finite false m e ∧ e ≤ -52 ∧ Zpos m ≤ 2 ^ (- e).
Proof.
  intros Hv Hlo Hhi. destruct c as [s|[]| |[] m e]; try done; [by left; exists s|]. right.
  exists m, e. split; [done|].
  change fone with (S754_finite false 4503599627370496 (-52)) in Hhi.
  unfold valid, valid_binary, SpecFloat.bounded, canonical_mantissa, fexp in Hv.
  apply andb_true_iff in Hv as [Hc%Z.eqb_eq _].
  pose proof (digits2_bounds m) as [_ Hd].
  unfold fleb, SFleb, SFcompare in Hhi.
  destruct (Z.compare_spec e (-52)) as [->|Hlt|Hgt]; [| |done].
  - clear Hd Hc Hlo. split; [done|]. change (- -52) with 52. change (2 ^ 52) with 4503599627370496.
    pose proof (Pos.compare_spec m 4503599627370496) as Hs. unfold Pos.compare in Hs.
    destruct Hs as [Hs|Hs|Hs]; [lia|by apply Z.lt_le_incl, Pos2Z.pos_lt_pos|discriminate Hhi].
  - split; [lia|]. assert (Zpos (digits2_pos m) ≤ - e) as Hdig.
    { unfold prec, SpecFloat.emin, emax in Hc. lia. }
    pose proof (Z.pow_le_mono_r 2 _ _ ltac:(lia) Hdig). lia.
Qed.

(** [1 - c] for a probability [c] is between 0 and 1. *)
Lemma one_minus_below c :
  valid c = true → fleb fzero c = true → fleb c fone = true → below 1 (fsub fone c).
Proof.
  intros Hv Hlo Hhi.
  change fone with (S754_finite false 4503599627370496 (-52)).
  destruct (unit_interval_cases c Hv Hlo Hhi) as [[s ->]|(m & e & -> & He & Hm)].
  { by destruct s. }
  unfold fsub, SFsub. rewrite (Z.min_r (-52) e) by lia.
  assert (Zpos (fst (shl_align 4503599627370496 (-52) e)) = 2 ^ (- e)) as ->.
  { unfold shl_align. destruct (e - -52) as [|n|n] eqn:Hn; [|lia|]; simpl fst.
    - replace (- e) with 52 by lia. done.
    - rewrite iter_xO. replace (- e) with (52 + Zpos n) by lia.
      rewrite Z.pow_add_r by lia. done. }
  assert (Zpos (fst (shl_align m e e)) = Zpos m) as ->.
  { unfold shl_align. by rewrite Z.sub_diag. }
  simpl cond_Zopp. apply binary_normalize_below; lia.
Qed.

(** Multiplying a value at most 1 by a small integer. *)
Lemma fmul_below f :
  below 1 f → below 15 (fmul f (float_of_Z 15)).
Proof.
  change (float_of_Z 15) with (S754_finite false 8444249301319680 (-49)).
  destruct f as [s| | |[] m e]; simpl; try done. intros [He Hm].
  apply binary_round_aux_below; [lia|lia|lia|].
  replace (- (e + -49)) with (- e + 49) by lia. rewrite Z.pow_add_r by lia.
  change (2 ^ 49) with 562949953421312. nia.
Qed.
