(* ===== verification/Json.v ===== *)
(** * JSON values and Python dictionaries

    The values the program stores in JSON columns, sends to OPA and hashes.  A
    dictionary is the list of its entries in insertion order, as in Python; the
    canonical encoder sorts the keys ([json.dumps(..., sort_keys=True,
    separators=(",", ":"))]). *)

From S2P Require Import Prelude PyFloat.

Inductive json : Type :=
| JNull
| JBool (b : bool)
| JInt (z : Z)
| JFloat (f : float)
| JStr (s : string)
| JArr (l : list json)
| JObj (d : list (string * json)).

Abbreviation dict := (list (string * json)).

(** ** Dictionary operations *)

Fixpoint dict_get {A} (k : string) (d : list (string * A)) : option A :=
  match d with
  | [] => None
  | (k', v) :: d => if String.eqb k' k then Some v else dict_get k d
  end.

Definition dict_has {A} (k : string) (d : list (string * A)) : bool :=
  match dict_get k d with Some _ => true | None => false end.

(** [d[k] = v]: in place for a known key, at the end otherwise. *)
Fixpoint dict_set {A} (k : string) (v : A) (d : list (string * A)) : list (string * A) :=
  match d with
  | [] => [(k, v)]
  | (k', v') :: d => if String.eqb k' k then (k, v) :: d else (k', v') :: dict_set k v d
  end.

(** [{**d, **e}]. *)
Definition dict_update {A} (d e : list (string * A)) : list (string * A) :=
  foldl (λ acc kv, dict_set kv.1 kv.2 acc) d e.

Lemma dict_get_set_eq {A} k (v : A) d : dict_get k (dict_set k v d) = Some v.
Proof.
  induction d as [|[k' v'] d IH]; simpl; [by rewrite String.eqb_refl|].
  destruct (String.eqb k' k) eqn:E; simpl; [by rewrite String.eqb_refl|by rewrite E].
Qed.

Lemma dict_get_set_ne {A} k k2 (v : A) d :
  k ≠ k2 → dict_get k2 (dict_set k v d) = dict_get k2 d.
Proof.
  intros Hne. assert (String.eqb k k2 = false) as Hk by by apply String.eqb_neq.
  induction d as [|[k' v'] d IH]; simpl; [by rewrite Hk|].
  destruct (String.eqb k' k) eqn:E; simpl.
  - apply String.eqb_eq in E as ->. by rewrite Hk.
  - by rewrite IH.
Qed.

#[export] Hint Rewrite @dict_get_set_eq : cw_rw.

Definition opt_json {A} (f : A → json) (o : option A) : json :=
  match o with Some a => f a | None => JNull end.
Definition JOptStr : option string → json := opt_json JStr.
Definition JOptInt : option Z → json := opt_json JInt.

(** Python truthiness of a JSON value ([x or y], [if x]). *)
Definition truthy (j : json) : bool :=
  match j with
  | JNull => false
  | JBool b => b
  | JInt z => negb (z =? 0)
  | JFloat f => negb (feqb f fzero)
  | JStr s => truthy_str s
  | JArr l => negb (bool_decide (length l = 0%nat))
  | JObj d => negb (bool_decide (length d = 0%nat))
  end.

Definition get_truthy (k : string) (d : dict) : option json :=
  match dict_get k d with
  | Some j => if truthy j then Some j else None
  | None => None
  end.

(** Python equality between values of one kind: dictionaries compare without
    regard to order (the cross-type equalities [1 == True == 1.0] are not used). *)
Fixpoint json_eqb (a b : json) {struct a} : bool :=
  match a, b with
  | JNull, JNull => true
  | JBool x, JBool y => Bool.eqb x y
  | JInt x, JInt y => x =? y
  | JFloat x, JFloat y => feqb x y
  | JStr x, JStr y => String.eqb x y
  | JArr x, JArr y =>
      (fix go (l1 l2 : list json) : bool :=
         match l1, l2 with
         | [], [] => true
         | j1 :: l1, j2 :: l2 => json_eqb j1 j2 && go l1 l2
         | _, _ => false
         end) x y
  | JObj x, JObj y =>
      bool_decide (length x = length y) &&
      (fix go (d : list (string * json)) : bool :=
         match d with
         | [] => true
         | (k, v) :: d =>
             match dict_get k y with Some w => json_eqb v w | None => false end && go d
         end) x
  | _, _ => false
  end.

(** ** Canonical encoding *)

Definition str_leb (a b : string) : bool :=
  match String.compare a b with Gt => false | _ => true end.

Definition dquote : string := String.String "034" EmptyString.

Definition escape_char (c : ascii) : string :=
  let n := N_of_ascii c in
  if (n =? 34)%N then String.String "\" dquote
  else if (n =? 92)%N then String.String "\" (String.String "\" EmptyString)
  else if (n =? 8)%N then "\b"
  else if (n =? 9)%N then "\t"
  else if (n =? 10)%N then "\n"
  else if (n =? 12)%N then "\f"
  else if (n =? 13)%N then "\r"
  else if ((n <? 32) || (126 <? n))%N then "\u" +:+ hex_pad 4 n
  else String.String c EmptyString.

Fixpoint escape (s : string) : string :=
  match s with
  | EmptyString => EmptyString
  | String.String c s => escape_char c +:+ escape s
  end.

Definition quote (s : string) : string := dquote +:+ escape s +:+ dquote.

(** [json.dumps(v, sort_keys=True, separators=(",", ":"))]: every dictionary is
    printed with its keys in increasing order. *)
Fixpoint dumps (j : json) : string :=
  match j with
  | JNull => "null"
  | JBool b => if b then "true" else "false"
  | JInt z => str_of_Z z
  | JFloat f => float_repr f
  | JStr s => quote s
  | JArr l => "[" +:+ join "," (map dumps l) +:+ "]"
  | JObj d =>
      let entries :=
        isort (λ a b : string * string, str_leb a.1 b.1)
          ((fix go (d : list (string * json)) : list (string * string) :=
              match d with
              | [] => []
              | (k, v) :: d => (k, quote k +:+ ":" +:+ dumps v) :: go d
              end) d) in
      "{" +:+ join "," (map snd entries) +:+ "}"
  end.

Example dumps_sorted :
  dumps (JObj [("b", JInt 2); ("a", JArr [JNull; JBool true; JInt (-3)])]) =
  "{" +:+ dquote +:+ "a" +:+ dquote +:+ ":[null,true,-3]," +:+
  dquote +:+ "b" +:+ dquote +:+ ":2}".
Proof. vm_compute. reflexivity. Qed.

(** [repr(v)] and [str(v)]. *)
Definition py_quote (s : string) : string :=
  let q : ascii := if contains "'" s && negb (contains dquote s) then "034"%char else "'"%char in
  let fix go (s : string) : string :=
    match s with
    | EmptyString => EmptyString
    | String.String c s =>
        (if Ascii.eqb c q then String.String "\" (String.String c EmptyString)
         else if Ascii.eqb c "\"%char then "\\"
         else if Ascii.eqb c "010"%char then "\n"
         else if Ascii.eqb c "013"%char then "\r"
         else if Ascii.eqb c "009"%char then "\t"
         else if in_range 0 31 c || in_range 127 160 c || Ascii.eqb c "173"%char
         then "\x" +:+ hex_pad 2 (N_of_ascii c)
         else String.String c EmptyString) +:+ go s
    end in
  String.String q (go s) +:+ String.String q EmptyString.

Fixpoint py_repr (j : json) : string :=
  match j with
  | JStr s => py_quote s
  | JInt z => str_of_Z z
  | JBool b => b2s b
  | JNull => "None"
  | JFloat f => float_repr f
  | JArr l => "[" +:+ join ", " (map py_repr l) +:+ "]"
  | JObj d =>
      "{" +:+ join ", " ((fix go (d : list (string * json)) : list string :=
                            match d with
                            | [] => []
                            | (k, v) :: d => (py_quote k +:+ ": " +:+ py_repr v) :: go d
                            end) d) +:+ "}"
  end.

Definition py_str (j : json) : string :=
  match j with JStr s => s | _ => py_repr j end.

Example py_repr_dict :
  py_repr (JObj [("a", JArr [JInt 1; JNull]); ("b'c", JStr "x\y")]) =
  "{'a': [1, None], " +:+ dquote +:+ "b'c" +:+ dquote +:+ ": 'x\\y'}".
Proof. vm_compute. reflexivity. Qed.
