(* ===== verification/Sha256.v ===== *)
(** * SHA-256

    [hashlib.sha256(s.encode()).hexdigest()] on the strings the program hashes:
    idempotency keys, context digests, policy-input digests and fingerprints.
    Words are 32-bit values of [N]; the additions wrap modulo [2 ^ 32]. *)

From S2P Require Import Prelude.

#[local] Open Scope N_scope.

Definition word_mod : N := 4294967296.

Definition wadd (a b : N) : N := (a + b) mod word_mod.
Definition rotr (n x : N) : N :=
  N.lor (N.shiftr x n) (N.shiftl x (32 - n) mod word_mod).
Definition wnot (x : N) : N := N.lxor x 4294967295.

Definition ch (x y z : N) : N := N.lxor (N.land x y) (N.land (wnot x) z).
Definition maj (x y z : N) : N :=
  N.lxor (N.lxor (N.land x y) (N.land x z)) (N.land y z).
Definition big_sigma0 (x : N) : N := N.lxor (N.lxor (rotr 2 x) (rotr 13 x)) (rotr 22 x).
Definition big_sigma1 (x : N) : N := N.lxor (N.lxor (rotr 6 x) (rotr 11 x)) (rotr 25 x).
Definition sigma0 (x : N) : N := N.lxor (N.lxor (rotr 7 x) (rotr 18 x)) (N.shiftr x 3).
Definition sigma1 (x : N) : N := N.lxor (N.lxor (rotr 17 x) (rotr 19 x)) (N.shiftr x 10).

Definition round_constants : list N :=
  [1116352408; 1899447441; 3049323471; 3921009573; 961987163; 1508970993;
   2453635748; 2870763221; 3624381080; 310598401; 607225278; 1426881987;
   1925078388; 2162078206; 2614888103; 3248222580; 3835390401; 4022224774;
   264347078; 604807628; 770255983; 1249150122; 1555081692; 1996064986;
   2554220882; 2821834349; 2952996808; 3210313671; 3336571891; 3584528711;
   113926993; 338241895; 666307205; 773529912; 1294757372; 1396182291;
   1695183700; 1986661051; 2177026350; 2456956037; 2730485921; 2820302411;
   3259730800; 3345764771; 3516065817; 3600352804; 4094571909; 275423344;
   430227734; 506948616; 659060556; 883997877; 958139571; 1322822218;
   1537002063; 1747873779; 1955562222; 2024104815; 2227730452; 2361852424;
   2428436474; 2756734187; 3204031479; 3329325298].

Definition initial_hash : list N :=
  [1779033703; 3144134277; 1013904242; 2773480762;
   1359893119; 2600822924; 528734635; 1541459225].

(** The message schedule: the last sixteen words, newest first. *)
Fixpoint schedule (fuel : nat) (win : list N) (acc : list N) : list N :=
  match fuel with
  | O => rev acc
  | S fuel =>
      let w := wadd (wadd (sigma1 (nth 1 win 0)) (nth 6 win 0))
                    (wadd (sigma0 (nth 14 win 0)) (nth 15 win 0)) in
      schedule fuel (w :: removelast win) (w :: acc)
  end.

Definition expand (block : list N) : list N := block ++ schedule 48 (rev block) [].

Definition step (s : list N) (kw : N * N) : list N :=
  match s with
  | [a; b; c; d; e; f; g; h] =>
      let t1 := wadd (wadd (wadd h (big_sigma1 e)) (wadd (ch e f g) kw.1)) kw.2 in
      let t2 := wadd (big_sigma0 a) (maj a b c) in
      [wadd t1 t2; a; b; c; wadd d t1; e; f; g]
  | _ => s
  end.

Definition compress (s block : list N) : list N :=
  zip_with wadd s (foldl step s (combine round_constants (expand block))).

(** ** Padding and parsing of the message *)

(** [s.encode()]: UTF-8, on code points below 256. *)
Definition utf8 (c : ascii) : list N :=
  let n := N_of_ascii c in if n <? 128 then [n] else [192 + n / 64; 128 + n mod 64].
Definition bytes_of (s : string) : list N := flat_map utf8 (list_ascii_of_string s).

Definition be_bytes (n : nat) (x : N) : list N :=
  map (λ i, N.shiftr x (8 * N.of_nat i) mod 256) (rev (seq 0 n)).

Definition pad (m : list N) : list N :=
  let len := length m in
  let k := ((119 - len mod 64) mod 64)%nat in
  m ++ [128] ++ repeat 0 k ++ be_bytes 8 (8 * N.of_nat len).

Fixpoint words (l : list N) : list N :=
  match l with
  | a :: b :: c :: d :: l => (a * 16777216 + b * 65536 + c * 256 + d) :: words l
  | _ => []
  end.

Fixpoint chunks (fuel n : nat) (l : list N) : list (list N) :=
  match fuel with
  | O => []
  | S fuel => match l with [] => [] | _ => firstn n l :: chunks fuel n (skipn n l) end
  end.

(** The eight words of the digest; there are fewer blocks than words. *)
Definition sha256_words (m : list N) : list N :=
  let ws := words (pad m) in foldl compress initial_hash (chunks (length ws) 16 ws).

(** [sha256(s.encode()).hexdigest()]. *)
Definition sha256_hex (s : string) : string :=
  join "" (map (hex_pad 8) (sha256_words (bytes_of s))).

Example sha256_abc :
  sha256_hex "abc" = "ba7816bf8f01cfea414140de5dae2223b00361a396177a9cb410ff61f20015ad".
Proof. vm_compute. reflexivity. Qed.

Example sha256_two_blocks :
  sha256_hex "abcdbcdecdefdefgefghfghighijhijkijkljklmklmnlmnomnopnopq" =
  "248d6a61d20638b8e5c026930c3e6039a33ce45964ff2167f6ecedd419db06c1".
Proof. vm_compute. reflexivity. Qed.

(** ** HMAC *)

Definition sha256_digest (m : list N) : list N := flat_map (be_bytes 4) (sha256_words m).

(** [hmac.new(key, message, hashlib.sha256).hexdigest()]. *)
Definition hmac_sha256 (key message : list N) : string :=
  let k := if (64 <? length key)%nat then sha256_digest key else key in
  let k := k ++ repeat 0 (64 - length k) in
  let xored x := map (N.lxor x) k in
  join "" (map (hex_pad 8)
    (sha256_words (xored 92 ++ sha256_digest (xored 54 ++ message)))).

Example hmac_fox :
  hmac_sha256 (bytes_of "key") (bytes_of "The quick brown fox jumps over the lazy dog") =
  "f7bc83f430538424b13298e6aa6fb143ef4d59a14946175997479dbc2d1a3cd8".
Proof. vm_compute. reflexivity. Qed.

Example sha256_utf8 :
  sha256_hex (String.String "233" EmptyString) =
  "4a99557e4033c3539de2eb65472017cad5f9557f7a0625a09f1c3f6e2ba69c4c".
Proof. vm_compute. reflexivity. Qed.

#[global] Opaque sha256_hex hmac_sha256.
