(* ===== verification/Effects.v ===== *)
(** * Effects: exceptions and mutable state

    Handlers run over a mutable world and may raise.  As in Python, the changes
    made before an exception stay in memory: only [session.rollback()] undoes
    them (see [World]).  [evolves R m] says that every run of [m], whether it
    returns or raises, relates the world before to the world after by the
    preorder [R]; invariants and monotonicity properties are instances. *)

From S2P Require Import Prelude Json.

(** ** Exceptions *)

(** [CloudWardError] of [errors.py], and the exceptions of the language and of
    the libraries, by class name. *)
Inductive exn : Type :=
| CloudWardError (code message : string) (status_code : Z) (details : json)
| PyError (cls message : string).

(** The default [status_code=400, details=None]. *)
Definition cw_error (code message : string) : exn := CloudWardError code message 400 JNull.
Definition cw_error_status (code message : string) (status : Z) : exn :=
  CloudWardError code message status JNull.

Definition error_code (e : exn) : string :=
  match e with CloudWardError c _ _ _ => c | PyError c _ => c end.

Definition is_cloudward_error (e : exn) : bool :=
  match e with CloudWardError _ _ _ _ => true | PyError _ _ => false end.

Inductive res (A : Type) : Type :=
| Ok (a : A)
| Raise (e : exn).
Arguments Ok {A} a.
Arguments Raise {A} e.

Definition res_bind {A B} (r : res A) (f : A → res B) : res B :=
  match r with Ok a => f a | Raise e => Raise e end.

Definition is_ok {A} (r : res A) : bool := match r with Ok _ => true | Raise _ => false end.

Definition validation_error (model : string) : exn := PyError "ValidationError" model.

(** A pydantic constructor: the value, or a [ValidationError]. *)
Definition validated {A} (model : string) (valid : A → bool) (a : A) : res A :=
  if valid a then Ok a else Raise (validation_error model).

(** The conversions pydantic applies in its lax mode to a field of type [bool],
    [int] or [float].  What the code relies on: a value of the type is itself,
    and a field that is neither a number, a boolean nor a string is refused. *)
Class Pydantic := {
  lax_bool : json → option bool;
  lax_int : json → option Z;
  lax_bool_bool b : lax_bool (JBool b) = Some b;
  lax_int_int z : lax_int (JInt z) = Some z;
  lax_bool_null : lax_bool JNull = None;
  lax_bool_object d : lax_bool (JObj d) = None;
  lax_bool_array l : lax_bool (JArr l) = None;
}.

(** The conversions that accept only the type itself. *)
Program Definition strict_pydantic : Pydantic := {|
  lax_bool j := match j with JBool b => Some b | _ => None end;
  lax_int j := match j with JInt z => Some z | _ => None end;
|}.
Solve Obligations with done.

(** ** The monad *)

Section monad.
Context {S : Type}.

Definition M (A : Type) : Type := S → res A * S.

Definition ret {A} (a : A) : M A := λ s, (Ok a, s).
Definition raise {A} (e : exn) : M A := λ s, (Raise e, s).
Definition bind {A B} (m : M A) (k : A → M B) : M B := λ s,
  match m s with
  | (Ok a, s') => k a s'
  | (Raise e, s') => (Raise e, s')
  end.
Definition get : M S := λ s, (Ok s, s).
Definition put (s : S) : M unit := λ _, (Ok tt, s).
Definition modify (f : S → S) : M unit := λ s, (Ok tt, f s).
Definition gets {A} (f : S → A) : M A := λ s, (Ok (f s), s).
Definition lift {A} (r : res A) : M A := λ s, (r, s).

(** [try: m except e: h e]. *)
Definition catch {A} (m : M A) (h : exn → M A) : M A := λ s,
  match m s with
  | (Ok a, s') => (Ok a, s')
  | (Raise e, s') => h e s'
  end.

(** [if c: raise e]. *)
Definition raise_if (c : bool) (e : exn) : M unit := if c then raise e else ret tt.

(** [if c: m]. *)
Definition when (c : bool) (m : M unit) : M unit := if c then m else ret tt.

Fixpoint for_each {A} (l : list A) (f : A → M unit) : M unit :=
  match l with
  | [] => ret tt
  | x :: l => bind (f x) (λ _, for_each l f)
  end.

Fixpoint map_m {A B} (f : A → M B) (l : list A) : M (list B) :=
  match l with
  | [] => ret []
  | x :: l => bind (f x) (λ y, bind (map_m f l) (λ ys, ret (y :: ys)))
  end.
End monad.
Arguments M S A : clear implicits.

Notation "'let!' x := m 'in' k" := (bind m (λ x, k))
  (at level 10, x name, m at level 200, k at level 200,
   format "'[v' 'let!'  x  :=  m  'in'  '/' k ']'") : cw_scope.
Notation "'let!' ' p := m 'in' k" := (bind m (λ x, match x with p => k end))
  (at level 10, p pattern, m at level 200, k at level 200) : cw_scope.
Notation "'do!' m ; k" := (bind m (λ _, k))
  (at level 10, m at level 199, k at level 200,
   format "'[v' 'do!'  m ;  '/' k ']'") : cw_scope.

(** ** Equations of the monad *)

Lemma res_bind_ok {A B} (r : res A) (f : A → res B) b :
  res_bind r f = Ok b → ∃ a, r = Ok a ∧ f a = Ok b.
Proof. destruct r; [by eexists|done]. Qed.

Section laws.
Context {S : Type}.

Lemma bind_ret {A B} (a : A) (k : A → M S B) s : bind (ret a) k s = k a s.
Proof. done. Qed.

Lemma bind_raise {A B} e (k : A → M S B) s : bind (raise e) k s = (Raise e, s).
Proof. done. Qed.

Lemma bind_assoc {A B C} (m : M S A) (f : A → M S B) (g : B → M S C) s :
  bind (bind m f) g s = bind m (λ a, bind (f a) g) s.
Proof. unfold bind. by destruct (m s) as [[a|e] s']. Qed.

Lemma bind_step {A B} (m : M S A) (k : A → M S B) s a s' :
  m s = (Ok a, s') → bind m k s = k a s'.
Proof. unfold bind. by intros ->. Qed.

Lemma bind_step_raise {A B} (m : M S A) (k : A → M S B) s e s' :
  m s = (Raise e, s') → bind m k s = (Raise e, s').
Proof. unfold bind. by intros ->. Qed.

(** Inversion of a run that returned. *)
Lemma bind_ok {A B} (m : M S A) (k : A → M S B) s b s' :
  bind m k s = (Ok b, s') → ∃ a s1, m s = (Ok a, s1) ∧ k a s1 = (Ok b, s').
Proof. unfold bind. destruct (m s) as [[a|e] s1]; [eauto|done]. Qed.

(** Inversion of a run that raised. *)
Lemma bind_raised {A B} (m : M S A) (k : A → M S B) s e s' :
  bind m k s = (Raise e, s') →
  m s = (Raise e, s') ∨ ∃ a s1, m s = (Ok a, s1) ∧ k a s1 = (Raise e, s').
Proof. unfold bind. destruct (m s) as [[a|e'] s1]; intros; simplify_eq; eauto. Qed.

Lemma raise_if_ok c e (s : S) u s' : raise_if c e s = (Ok u, s') → c = false ∧ s' = s.
Proof. destruct c; unfold raise_if, raise, ret; intros; by simplify_eq. Qed.

Lemma raise_if_raised c e (s : S) e' s' :
  raise_if c e s = (Raise e', s') → c = true ∧ e' = e ∧ s' = s.
Proof. destruct c; unfold raise_if, raise, ret; intros; by simplify_eq. Qed.

Lemma lift_ok {A} (r : res A) (s : S) a s' : lift r s = (Ok a, s') → r = Ok a ∧ s' = s.
Proof. unfold lift. by intros [= -> ->]. Qed.

Lemma ret_ok {A} (a b : A) (s s' : S) : ret a s = (Ok b, s') → b = a ∧ s' = s.
Proof. unfold ret. by intros; simplify_eq. Qed.

Lemma catch_ok_inv {A} (m : M S A) h s a s' :
  catch m h s = (Ok a, s') →
  m s = (Ok a, s') ∨ ∃ e s1, m s = (Raise e, s1) ∧ h e s1 = (Ok a, s').
Proof. unfold catch. destruct (m s) as [[b|e] s1]; intros; simplify_eq; eauto. Qed.
End laws.

(** Break a hypothesis [run = (Ok _, _)] into the runs of its steps; [run_hook]
    knows the primitives of later files. *)
Ltac run_hook H := fail.
Ltac run_inv H :=
  repeat lazymatch type of H with
  | bind _ _ _ = (Ok _, _) =>
      let a := fresh "v" in let s := fresh "w" in let Hm := fresh "Hrun" in
      apply bind_ok in H as (a & s & Hm & H); run_inv Hm
  | raise_if _ _ _ = (Ok _, _) => apply raise_if_ok in H as [? ?]; subst
  | ret _ _ = (Ok _, _) => apply ret_ok in H as [? ?]; subst
  | raise _ _ = (Ok _, _) => discriminate H
  | gets _ _ = (Ok _, _) => injection H as ? ?; subst
  | modify _ _ = (Ok _, _) => injection H as ? ?; subst
  | get _ = (Ok _, _) => injection H as ? ?; subst
  | _ => run_hook H
  end.

(** ** Preservation *)

Class Evolution {S} (R : relation S) := evolution_preorder : PreOrder R.
#[export] Hint Mode Evolution ! ! : typeclass_instances.

Definition evolves {S A} (R : relation S) (m : M S A) : Prop := ∀ s, R s (m s).2.

Section evolves.
Context {S : Type} (R : relation S) `{!Evolution R}.

Lemma evolves_refl s : R s s.
Proof. apply evolution_preorder. Qed.

Lemma evolves_trans s1 s2 s3 : R s1 s2 → R s2 s3 → R s1 s3.
Proof. apply evolution_preorder. Qed.

Lemma evolves_ret {A} (a : A) : evolves R (ret a).
Proof. intros s. apply evolves_refl. Qed.

Lemma evolves_raise {A} e : evolves R (raise (A:=A) e).
Proof. intros s. apply evolves_refl. Qed.

Lemma evolves_get : evolves R get.
Proof. intros s. apply evolves_refl. Qed.

Lemma evolves_gets {A} (f : S → A) : evolves R (gets f).
Proof. intros s. apply evolves_refl. Qed.

Lemma evolves_lift {A} (r : res A) : evolves R (lift r).
Proof. intros s. apply evolves_refl. Qed.

Lemma evolves_bind {A B} (m : M S A) (k : A → M S B) :
  evolves R m → (∀ a, evolves R (k a)) → evolves R (bind m k).
Proof.
  intros Hm Hk s. unfold bind. specialize (Hm s).
  destruct (m s) as [[a|e] s']; simpl in *; [|done].
  eapply evolves_trans; [done|]. apply Hk.
Qed.

(** The continuation may use what the run that reached it established. *)
Lemma evolves_bind_post {A B} (m : M S A) (k : A → M S B) :
  evolves R m → (∀ s a s', m s = (Ok a, s') → evolves R (k a)) → evolves R (bind m k).
Proof.
  intros Hm Hk s. unfold bind. specialize (Hm s). specialize (Hk s).
  destruct (m s) as [[a|e] s']; simpl in *; [|done].
  eapply evolves_trans; [done|]. by apply (Hk a s').
Qed.

(** A guard, and what follows under what it established. *)
Lemma evolves_lift_bind {A B} (r : res A) (k : A → M S B) :
  (∀ a, r = Ok a → evolves R (k a)) → evolves R (bind (lift r) k).
Proof.
  intros Hk s. unfold bind, lift. destruct r as [a|e]; [by apply Hk|apply evolves_refl].
Qed.

Lemma evolves_catch {A} (m : M S A) (h : exn → M S A) :
  evolves R m → (∀ e, evolves R (h e)) → evolves R (catch m h).
Proof.
  intros Hm Hk s. unfold catch. specialize (Hm s).
  destruct (m s) as [[a|e] s']; simpl in *; [done|].
  eapply evolves_trans; [done|]. apply Hk.
Qed.

Lemma evolves_raise_if c e : evolves R (raise_if c e).
Proof. destruct c; [apply evolves_raise|apply evolves_ret]. Qed.

Lemma evolves_when c m : evolves R m → evolves R (when c m).
Proof. destruct c; [done|intros _; apply evolves_ret]. Qed.

Lemma evolves_modify f : (∀ s, R s (f s)) → evolves R (modify f).
Proof. intros H s. apply H. Qed.

Lemma evolves_for_each {A} (l : list A) f :
  (∀ x, evolves R (f x)) → evolves R (for_each l f).
Proof.
  intros Hf. induction l as [|x l IH]; simpl; [apply evolves_ret|].
  apply evolves_bind; [apply Hf|done].
Qed.

Lemma evolves_map_m {A B} (f : A → M S B) l :
  (∀ x, evolves R (f x)) → evolves R (map_m f l).
Proof.
  intros Hf. induction l as [|x l IH]; simpl; [apply evolves_ret|].
  apply evolves_bind; [apply Hf|intros y].
  apply evolves_bind; [done|intros ys; apply evolves_ret].
Qed.

Lemma evolves_run {A} (m : M S A) s r s' : evolves R m → m s = (r, s') → R s s'.
Proof. intros Hm E. specialize (Hm s). by rewrite E in Hm. Qed.
End evolves.

(** An invariant as an evolution. *)
Definition keeps {S} (I : S → Prop) : relation S := λ s s', I s → I s'.
#[export] Instance keeps_evolution {S} (I : S → Prop) : Evolution (keeps I).
Proof. split; [by intros s ?|intros s1 s2 s3 H1 H2 ?; by apply H2, H1]. Qed.

(** An observation that does not change. *)
Definition stable {S A} (f : S → A) : relation S := λ s s', f s' = f s.
#[export] Instance stable_evolution {S A} (f : S → A) : Evolution (stable f).
Proof. split; [done|]. intros s1 s2 s3 H1 H2. unfold stable in *. congruence. Qed.

#[export] Hint Resolve evolves_ret evolves_raise evolves_get evolves_gets evolves_lift
  evolves_raise_if evolves_when : cw_pres.

(** Close a preservation goal by following the structure of the program; the
    lemmas of the operations it calls come from the hint database. *)
Ltac evolve_step :=
  lazymatch goal with
  | |- evolves _ (bind _ _) => apply evolves_bind; [tc_solve| |intros ?]
  | |- evolves _ (catch _ _) => apply evolves_catch; [tc_solve| |intros ?]
  | |- evolves _ (when _ _) => apply evolves_when; [tc_solve|]
  | |- evolves _ (for_each _ _) => apply evolves_for_each; [tc_solve|intros ?]
  | |- evolves _ (map_m _ _) => apply evolves_map_m; [tc_solve|intros ?]
  | |- evolves _ (ret _) => apply evolves_ret; tc_solve
  | |- evolves _ (raise _) => apply evolves_raise; tc_solve
  | |- evolves _ (raise_if _ _) => apply evolves_raise_if; tc_solve
  | |- evolves _ (gets _) => apply evolves_gets; tc_solve
  | |- evolves _ get => apply evolves_get; tc_solve
  | |- evolves _ (lift _) => apply evolves_lift; tc_solve
  | |- evolves _ (match ?x with _ => _ end) => destruct x
  | |- evolves _ (let _ := _ in _) => cbv zeta
  end.
Ltac evolve := repeat (first [ evolve_step | solve [eauto with cw_pres] ]).
