(* ===== verification/StateMachine.v ===== *)
(** * The incident state machine

    [incidents/state_machine.py]: the states, the table [ALLOWED_TRANSITIONS]
    and the checked transition.  The step relation it induces is studied by rule
    induction: which states are terminal, what every path to [EXECUTING] and to
    [RESOLVED] goes through, and that escalation is always one step away. *)

From S2P Require Import Prelude Json Effects.

Inductive IncidentState : Type :=
| DETECTED | COLLECTING_EVIDENCE | CLASSIFYING | DIAGNOSING | ACTION_PROPOSED
| POLICY_EVALUATION | AWAITING_APPROVAL | EXECUTING | VERIFYING | ROLLBACK
| RESOLVED | BLOCKED | ESCALATED.

#[export] Instance IncidentState_eq_dec : EqDecision IncidentState.
Proof. solve_decision. Defined.

Definition IncidentState_value (s : IncidentState) : string :=
  match s with
  | DETECTED => "DETECTED"
  | COLLECTING_EVIDENCE => "COLLECTING_EVIDENCE"
  | CLASSIFYING => "CLASSIFYING"
  | DIAGNOSING => "DIAGNOSING"
  | ACTION_PROPOSED => "ACTION_PROPOSED"
  | POLICY_EVALUATION => "POLICY_EVALUATION"
  | AWAITING_APPROVAL => "AWAITING_APPROVAL"
  | EXECUTING => "EXECUTING"
  | VERIFYING => "VERIFYING"
  | ROLLBACK => "ROLLBACK"
  | RESOLVED => "RESOLVED"
  | BLOCKED => "BLOCKED"
  | ESCALATED => "ESCALATED"
  end.

Definition ALLOWED_TRANSITIONS (s : IncidentState) : list IncidentState :=
  match s with
  | DETECTED => [COLLECTING_EVIDENCE; BLOCKED; ESCALATED]
  | COLLECTING_EVIDENCE => [CLASSIFYING; BLOCKED; ESCALATED]
  | CLASSIFYING => [DIAGNOSING; ACTION_PROPOSED; BLOCKED; ESCALATED]
  | DIAGNOSING => [ACTION_PROPOSED; BLOCKED; ESCALATED]
  | ACTION_PROPOSED => [POLICY_EVALUATION; BLOCKED; ESCALATED]
  | POLICY_EVALUATION => [AWAITING_APPROVAL; EXECUTING; BLOCKED; ESCALATED]
  | AWAITING_APPROVAL => [POLICY_EVALUATION; EXECUTING; BLOCKED; ESCALATED]
  | EXECUTING => [VERIFYING; ROLLBACK; ESCALATED]
  | VERIFYING => [EXECUTING; ROLLBACK; RESOLVED; ESCALATED]
  | ROLLBACK => [VERIFYING; RESOLVED; ESCALATED]
  | RESOLVED => []
  | BLOCKED => []
  | ESCALATED => []
  end.

Definition transition_incident (current target : IncidentState) : res IncidentState :=
  if bool_decide (target ∈ ALLOWED_TRANSITIONS current) then Ok target
  else Raise (CloudWardError "INVALID_INCIDENT_TRANSITION"
                ("Cannot transition from " +:+ IncidentState_value current +:+
                 " to " +:+ IncidentState_value target) 409
                (JObj [("from_state", JStr (IncidentState_value current));
                       ("to_state", JStr (IncidentState_value target))])).

(** The set tested by [change_incident_state], the pipeline and the alert
    intake: [{RESOLVED, BLOCKED, ESCALATED}]. *)
Definition TERMINAL_STATES : list IncidentState := [RESOLVED; BLOCKED; ESCALATED].

Definition is_terminal (s : IncidentState) : bool := bool_decide (s ∈ TERMINAL_STATES).

(** ** The step relation *)

Definition step (s t : IncidentState) : Prop := t ∈ ALLOWED_TRANSITIONS s.

#[export] Instance step_dec s t : Decision (step s t).
Proof. unfold step. apply _. Defined.

(** Steps that never enter a state satisfying [P]. *)
Definition step_avoiding (P : IncidentState → Prop) (s t : IncidentState) : Prop :=
  step s t ∧ ¬ P t.

(** All states, for finite case analysis. *)
Definition all_states : list IncidentState :=
  [DETECTED; COLLECTING_EVIDENCE; CLASSIFYING; DIAGNOSING; ACTION_PROPOSED;
   POLICY_EVALUATION; AWAITING_APPROVAL; EXECUTING; VERIFYING; ROLLBACK;
   RESOLVED; BLOCKED; ESCALATED].

Lemma elem_of_all_states s : s ∈ all_states.
Proof. destruct s; apply (bool_decide_unpack _); vm_compute; exact I. Qed.

(** A decidable statement about all pairs of states, proved by evaluation. *)
Lemma states_decide (Q : IncidentState → IncidentState → Prop)
    `{!∀ s t, Decision (Q s t)} :
  bool_decide (Forall (λ s, Forall (λ t, Q s t) all_states) all_states) = true →
  ∀ s t, Q s t.
Proof.
  intros Hall%bool_decide_eq_true s t.
  eapply Forall_forall in Hall; [|apply (elem_of_all_states s)].
  eapply Forall_forall in Hall; [exact Hall|apply (elem_of_all_states t)].
Qed.

Ltac decide_states := cbv beta; refine (states_decide _ _); vm_compute; reflexivity.

Lemma is_terminal_spec s : is_terminal s = true ↔ s ∈ TERMINAL_STATES.
Proof. unfold is_terminal. by rewrite bool_decide_eq_true. Qed.

Lemma transition_incident_ok s t u :
  transition_incident s t = Ok u → step s t ∧ u = t.
Proof.
  unfold transition_incident, step. case_bool_decide; intros; by simplify_eq.
Qed.

Lemma step_transition s t : step s t → transition_incident s t = Ok t.
Proof. unfold transition_incident, step. intros. by rewrite bool_decide_eq_true_2. Qed.

Lemma step_neq s t : step s t → s ≠ t.
Proof. revert s t. decide_states. Qed.

Lemma step_not_terminal s t : step s t → is_terminal s = false.
Proof. revert s t. decide_states. Qed.

Lemma elem_of_dec_false (s : IncidentState) (l : list IncidentState) : bool_decide (s ∈ l) = false → s ∉ l.
Proof. by intros H%bool_decide_eq_false. Qed.

(** An invariant of the steps that avoid [P] extends to paths. *)
Lemma rtc_step_invariant (P I : IncidentState → Prop) s t :
  (∀ u v, I u → step u v → ¬ P v → I v) →
  rtc (step_avoiding P) s t → I s → I t.
Proof.
  intros Hinv Hpath. induction Hpath as [|u v t [Hstep HP] _ IH]; [done|].
  intros Hu. apply IH. eauto.
Qed.

(** ** Properties *)

(** A state has no successor exactly when it is terminal, and from every
    other state escalation is an allowed step: no incident can get stuck. *)
Theorem terminal_iff_no_successor (s : IncidentState) :
  (is_terminal s = true ↔ ALLOWED_TRANSITIONS s = []) ∧
  (is_terminal s = false → transition_incident s ESCALATED = Ok ESCALATED).
Proof. destruct s; vm_compute; split; try split; done. Qed.

Lemma terminal_iff_no_successor_witness :
  transition_incident POLICY_EVALUATION ESCALATED = Ok ESCALATED.
Proof. exact (proj2 (terminal_iff_no_successor POLICY_EVALUATION) eq_refl). Defined.

Definition before_policy : list IncidentState :=
  [DETECTED; COLLECTING_EVIDENCE; CLASSIFYING; DIAGNOSING; ACTION_PROPOSED;
   BLOCKED; ESCALATED].

Definition acting_states : list IncidentState :=
  [AWAITING_APPROVAL; EXECUTING; VERIFYING; ROLLBACK; RESOLVED].

Lemma avoiding_policy_not_acting (s : IncidentState) :
  rtc (step_avoiding (λ t, t = POLICY_EVALUATION)) DETECTED s → s ∉ acting_states.
Proof.
  intros Hpath.
  assert (s ∈ before_policy) as Hs.
  { eapply (rtc_step_invariant _ (λ s, s ∈ before_policy)); [|done|by left].
    decide_states. }
  clear Hpath. revert s Hs. cut (∀ s t : IncidentState, s ∈ before_policy →
    s ∉ acting_states); [eauto|].
  decide_states.
Qed.

(** No sequence of checked transitions from [DETECTED] reaches an acting
    state ([AWAITING_APPROVAL], [EXECUTING], [VERIFYING], [ROLLBACK]) or
    [RESOLVED] without entering [POLICY_EVALUATION] on the way. *)
Theorem acting_requires_policy_evaluation (s : IncidentState) :
  rtc (step_avoiding (λ t, t = POLICY_EVALUATION)) DETECTED s → s ∉ acting_states.
Proof. apply avoiding_policy_not_acting. Qed.

Lemma acting_requires_policy_evaluation_witness :
  BLOCKED ∉ acting_states.
Proof.
  apply (acting_requires_policy_evaluation BLOCKED).
  apply rtc_once. split; [apply (bool_decide_unpack _); vm_compute; exact I|done].
Defined.


