(* ===== verification/Rbac.v ===== *)
(** * Role-based access control

    [rbac/policy.py]: the roles, the permissions, the table [ROLE_PERMISSIONS]
    and the dependency [require_permission]; [auth/schemas.py]: the principal. *)

From S2P Require Import Prelude Json Effects.

Inductive Role : Type := VIEWER | OPERATOR | ADMIN.

Inductive Permission : Type :=
| PLATFORM_READ | INCIDENT_READ | AUDIT_READ | INCIDENT_CREATE
| ACTION_APPROVE_STANDARD | ACTION_REJECT | DEMO_TRIGGER | ROLE_MANAGE
| SETTINGS_MANAGE | POLICY_MANAGE | ACTION_APPROVE_HIGHER_RISK.

#[export] Instance Role_eq_dec : EqDecision Role.
Proof. solve_decision. Defined.
#[export] Instance Permission_eq_dec : EqDecision Permission.
Proof. solve_decision. Defined.

Definition Role_value (r : Role) : string :=
  match r with VIEWER => "Viewer" | OPERATOR => "Operator" | ADMIN => "Admin" end.

Definition Permission_value (p : Permission) : string :=
  match p with
  | PLATFORM_READ => "platform:read"
  | INCIDENT_READ => "incident:read"
  | AUDIT_READ => "audit:read"
  | INCIDENT_CREATE => "incident:create"
  | ACTION_APPROVE_STANDARD => "action:approve-standard"
  | ACTION_REJECT => "action:reject"
  | DEMO_TRIGGER => "demo:trigger"
  | ROLE_MANAGE => "role:manage"
  | SETTINGS_MANAGE => "settings:manage"
  | POLICY_MANAGE => "policy:manage"
  | ACTION_APPROVE_HIGHER_RISK => "action:approve-higher-risk"
  end.

(** [frozenset(Permission)]. *)
Definition all_permissions : list Permission :=
  [PLATFORM_READ; INCIDENT_READ; AUDIT_READ; INCIDENT_CREATE;
   ACTION_APPROVE_STANDARD; ACTION_REJECT; DEMO_TRIGGER; ROLE_MANAGE;
   SETTINGS_MANAGE; POLICY_MANAGE; ACTION_APPROVE_HIGHER_RISK].

Definition ROLE_PERMISSIONS (r : Role) : list Permission :=
  match r with
  | VIEWER => [PLATFORM_READ; INCIDENT_READ; AUDIT_READ]
  | OPERATOR => [PLATFORM_READ; INCIDENT_READ; AUDIT_READ; INCIDENT_CREATE;
                 ACTION_APPROVE_STANDARD; ACTION_REJECT; DEMO_TRIGGER]
  | ADMIN => all_permissions
  end.

Definition has_permission (role : Role) (permission : Permission) : bool :=
  bool_decide (permission ∈ ROLE_PERMISSIONS role).

Record Principal := {
  user_id : N;
  login : string;
  role : Role;
  persisted : bool;
}.

(** [require_permission(permission)]: the dependency applied to a principal. *)
Definition require_permission (permission : Permission) (principal : Principal)
  : res Principal :=
  if has_permission principal.(role) permission then Ok principal
  else Raise (cw_error_status "FORBIDDEN"
                ("Role " +:+ Role_value principal.(role) +:+ " lacks permission " +:+
                 Permission_value permission) 403).

(** The order of the roles: Viewer, Operator, Admin. *)
Definition role_rank (r : Role) : Z :=
  match r with VIEWER => 0 | OPERATOR => 1 | ADMIN => 2 end.

(** Permissions grow with the role (Viewer, Operator, Admin), the
    administrator has all of them, and exactly the administrator may manage
    roles, settings and policies or give a higher-risk approval. *)
Theorem role_permissions_monotone (r1 r2 : Role) (p : Permission) :
  (role_rank r1 ≤ role_rank r2 → has_permission r1 p = true → has_permission r2 p = true) ∧
  has_permission ADMIN p = true ∧
  (p ∈ [ROLE_MANAGE; SETTINGS_MANAGE; POLICY_MANAGE; ACTION_APPROVE_HIGHER_RISK] →
   has_permission r1 p = bool_decide (r1 = ADMIN)).
Proof.
  destruct r1, r2, p; vm_compute; (split; [naive_solver|split; [done|]]);
    intros Hin; try done;
    exfalso; repeat (apply elem_of_cons in Hin as [Hin|Hin]; [done|]);
    by apply elem_of_nil in Hin.
Qed.

Lemma role_permissions_monotone_witness : has_permission ADMIN DEMO_TRIGGER = true.
Proof.
  exact (proj1 (role_permissions_monotone OPERATOR ADMIN DEMO_TRIGGER)
           ltac:(vm_compute; discriminate) eq_refl).
Defined.
