(* ===== verification/Actions.v ===== *)
(** * The action registry

    [remediation/actions.py]: the closed set of action types, their immutable
    metadata and the two guards every execution goes through. *)

From S2P Require Import Prelude Json Effects Rbac.

Inductive ActionType : Type :=
| DELETE_UNHEALTHY_POD | RESTART_POD | SCALE_STAGING_DEPLOYMENT | SCALE_WORKLOAD
| REVERT_IMAGE | ROLLBACK_DEPLOYMENT | APPLY_QUARANTINE | QUARANTINE_WORKLOAD
| REMOVE_QUARANTINE | CREATE_GITOPS_PR | CREATE_TERRAFORM_PR | CREATE_GITHUB_ISSUE
| REQUEST_APPROVAL | NO_ACTION.

#[export] Instance ActionType_eq_dec : EqDecision ActionType.
Proof. solve_decision. Defined.

Definition ActionType_value (a : ActionType) : string :=
  match a with
  | DELETE_UNHEALTHY_POD => "DELETE_UNHEALTHY_POD"
  | RESTART_POD => "RESTART_POD"
  | SCALE_STAGING_DEPLOYMENT => "SCALE_STAGING_DEPLOYMENT"
  | SCALE_WORKLOAD => "SCALE_WORKLOAD"
  | REVERT_IMAGE => "REVERT_IMAGE"
  | ROLLBACK_DEPLOYMENT => "ROLLBACK_DEPLOYMENT"
  | APPLY_QUARANTINE => "APPLY_QUARANTINE"
  | QUARANTINE_WORKLOAD => "QUARANTINE_WORKLOAD"
  | REMOVE_QUARANTINE => "REMOVE_QUARANTINE"
  | CREATE_GITOPS_PR => "CREATE_GITOPS_PR"
  | CREATE_TERRAFORM_PR => "CREATE_TERRAFORM_PR"
  | CREATE_GITHUB_ISSUE => "CREATE_GITHUB_ISSUE"
  | REQUEST_APPROVAL => "REQUEST_APPROVAL"
  | NO_ACTION => "NO_ACTION"
  end.

Definition all_actions : list ActionType :=
  [DELETE_UNHEALTHY_POD; RESTART_POD; SCALE_STAGING_DEPLOYMENT; SCALE_WORKLOAD;
   REVERT_IMAGE; ROLLBACK_DEPLOYMENT; APPLY_QUARANTINE; QUARANTINE_WORKLOAD;
   REMOVE_QUARANTINE; CREATE_GITOPS_PR; CREATE_TERRAFORM_PR; CREATE_GITHUB_ISSUE;
   REQUEST_APPROVAL; NO_ACTION].

(** [ActionType(value)]. *)
Definition ActionType_of_value (s : string) : option ActionType :=
  first_such (λ a, String.eqb (ActionType_value a) s) all_actions.

Inductive VerificationStrategy : Type :=
| STRATEGY_NONE | KUBERNETES_AND_HTTP | DEPLOYMENT_ROLLOUT | POLICY_STATE | EXTERNAL_RECORD.

Record ActionMetadata := {
  action_type : ActionType;
  reversible : bool;
  persistent : bool;
  allowed_environments : list string;
  required_permission : Permission;
  verification_strategy : VerificationStrategy;
  rollback_capable : bool;
  implemented : bool;
}.

Definition ACTION_REGISTRY (a : ActionType) : ActionMetadata :=
  let local_staging := ["local"; "staging"] in
  let everywhere := ["local"; "staging"; "production"] in
  match a with
  | DELETE_UNHEALTHY_POD =>
      Build_ActionMetadata DELETE_UNHEALTHY_POD true false local_staging
        DEMO_TRIGGER KUBERNETES_AND_HTTP false true
  | RESTART_POD =>
      Build_ActionMetadata RESTART_POD true false everywhere
        DEMO_TRIGGER KUBERNETES_AND_HTTP false true
  | SCALE_STAGING_DEPLOYMENT =>
      Build_ActionMetadata SCALE_STAGING_DEPLOYMENT true false local_staging
        ACTION_APPROVE_STANDARD DEPLOYMENT_ROLLOUT true true
  | SCALE_WORKLOAD =>
      Build_ActionMetadata SCALE_WORKLOAD true false everywhere
        ACTION_APPROVE_STANDARD DEPLOYMENT_ROLLOUT true true
  | REVERT_IMAGE =>
      Build_ActionMetadata REVERT_IMAGE true true everywhere
        ACTION_APPROVE_HIGHER_RISK DEPLOYMENT_ROLLOUT true true
  | ROLLBACK_DEPLOYMENT =>
      Build_ActionMetadata ROLLBACK_DEPLOYMENT true true everywhere
        ACTION_APPROVE_HIGHER_RISK DEPLOYMENT_ROLLOUT true true
  | APPLY_QUARANTINE =>
      Build_ActionMetadata APPLY_QUARANTINE true false everywhere
        ACTION_APPROVE_HIGHER_RISK POLICY_STATE true true
  | QUARANTINE_WORKLOAD =>
      Build_ActionMetadata QUARANTINE_WORKLOAD true false everywhere
        ACTION_APPROVE_HIGHER_RISK POLICY_STATE true true
  | REMOVE_QUARANTINE =>
      Build_ActionMetadata REMOVE_QUARANTINE true false everywhere
        ACTION_APPROVE_HIGHER_RISK POLICY_STATE true true
  | CREATE_GITOPS_PR =>
      Build_ActionMetadata CREATE_GITOPS_PR true true everywhere
        ACTION_APPROVE_STANDARD EXTERNAL_RECORD true false
  | CREATE_TERRAFORM_PR =>
      Build_ActionMetadata CREATE_TERRAFORM_PR true true everywhere
        ACTION_APPROVE_HIGHER_RISK EXTERNAL_RECORD true false
  | CREATE_GITHUB_ISSUE =>
      Build_ActionMetadata CREATE_GITHUB_ISSUE true true everywhere
        ACTION_APPROVE_STANDARD EXTERNAL_RECORD true false
  | REQUEST_APPROVAL =>
      Build_ActionMetadata REQUEST_APPROVAL true false everywhere
        ACTION_APPROVE_STANDARD STRATEGY_NONE false false
  | NO_ACTION =>
      Build_ActionMetadata NO_ACTION true false everywhere
        PLATFORM_READ STRATEGY_NONE false true
  end.

(** The argument [action: ActionType | str]. *)
Definition get_action_metadata (action : ActionType + string) : res ActionMetadata :=
  match action with
  | inl a => Ok (ACTION_REGISTRY a)
  | inr s =>
      match ActionType_of_value s with
      | Some a => Ok (ACTION_REGISTRY a)
      | None => Raise (cw_error_status "UNKNOWN_ACTION"
                         ("Action " +:+ s +:+ " is not registered") 422)
      end
  end.

Definition require_executable_action (action : ActionType + string) (environment : string)
  : res ActionMetadata :=
  res_bind (get_action_metadata action) (λ metadata,
    if negb (bool_decide (environment ∈ metadata.(allowed_environments))) then
      Raise (cw_error_status "ACTION_ENVIRONMENT_DENIED"
               (ActionType_value metadata.(action_type) +:+ " is not allowed in " +:+
                environment) 403)
    else if negb metadata.(implemented) then
      Raise (cw_error_status "ACTION_NOT_IMPLEMENTED"
               (ActionType_value metadata.(action_type) +:+
                " is registered but not executable in Part 1") 501)
    else Ok metadata).

Lemma ActionType_of_value_value a : ActionType_of_value (ActionType_value a) = Some a.
Proof. by destruct a. Qed.

Lemma ActionType_of_value_Some s a : ActionType_of_value s = Some a → s = ActionType_value a.
Proof. intros [_ H]%first_such_Some. by apply String.eqb_eq in H as ->. Qed.

Lemma registry_action_type a : (ACTION_REGISTRY a).(action_type) = a.
Proof. by destruct a. Qed.

(** The two ways of naming an action agree, every action type is registered
    under itself, and a name outside the enumeration is the only cause of
    [UNKNOWN_ACTION]. *)
Theorem get_action_metadata_total (a : ActionType) (s : string) :
  get_action_metadata (inl a) = Ok (ACTION_REGISTRY a) ∧
  (ACTION_REGISTRY a).(action_type) = a ∧
  get_action_metadata (inr (ActionType_value a)) = get_action_metadata (inl a) ∧
  (is_ok (get_action_metadata (inr s)) = true ↔ ∃ b, s = ActionType_value b).
Proof.
  split_and!; [done|apply registry_action_type|by destruct a|].
  simpl. destruct (ActionType_of_value s) as [b|] eqn:E; simpl.
  - split; [|done]. intros _. exists b. by apply ActionType_of_value_Some.
  - split; [done|]. intros [b ->]. by rewrite ActionType_of_value_value in E.
Qed.

(** An action may execute exactly in the environments of its metadata and
    only if it is implemented; in particular deleting a pod and scaling the
    staging deployment are refused in production, and no external-record action
    (pull requests, issues) is executable anywhere. *)
Theorem require_executable_action_spec (a : ActionType) (env : string) (m : ActionMetadata) :
  (require_executable_action (inl a) env = Ok m ↔
     m = ACTION_REGISTRY a ∧ env ∈ m.(allowed_environments) ∧ m.(implemented) = true) ∧
  (a = DELETE_UNHEALTHY_POD ∨ a = SCALE_STAGING_DEPLOYMENT →
     is_ok (require_executable_action (inl a) "production") = false) ∧
  ((ACTION_REGISTRY a).(verification_strategy) = EXTERNAL_RECORD →
     is_ok (require_executable_action (inl a) env) = false).
Proof.
  split_and!.
  - unfold require_executable_action. simpl.
    case_bool_decide as Henv; simpl.
    + destruct (implemented (ACTION_REGISTRY a)) eqn:Hi; simpl;
        (split; [intros; by simplify_eq|intros (-> & ? & ?); congruence]).
    + split; [done|intros (-> & ? & ?); done].
  - by intros [-> | ->].
  - unfold require_executable_action; simpl. case_bool_decide; [|done].
    by destruct a.
Qed.

Lemma require_executable_action_spec_witness :
  is_ok (require_executable_action (inl DELETE_UNHEALTHY_POD) "production") = false ∧
  is_ok (require_executable_action (inl CREATE_GITOPS_PR) "staging") = false.
Proof.
  split.
  - exact (proj1 (proj2 (require_executable_action_spec DELETE_UNHEALTHY_POD "production"
             (ACTION_REGISTRY NO_ACTION))) (or_introl eq_refl)).
  - exact (proj2 (proj2 (require_executable_action_spec CREATE_GITOPS_PR "staging"
             (ACTION_REGISTRY NO_ACTION))) eq_refl).
Defined.
