(* ===== verification/Risk.v ===== *)
(** * The risk engine

    [risk/engine.py]: the six bounded factors, their sum, the classification and
    the recommended mode, with the validation the pydantic models perform.  The
    confidence is a binary64 value and the uncertainty factor is computed with
    float arithmetic and Python's [round]. *)

From S2P Require Import Prelude PyFloat Json Effects Rbac Actions.

Inductive RiskClassification : Type := RISK_LOW | RISK_MEDIUM | RISK_HIGH.
Inductive RecommendedMode : Type := AUTO_EXECUTE | APPROVAL_REQUIRED | BLOCK_AND_ESCALATE.
Inductive Sensitivity : Type := SENS_NONE | SENS_LOW | SENS_MODERATE | SENS_HIGH.

Definition RiskClassification_value (c : RiskClassification) : string :=
  match c with RISK_LOW => "LOW" | RISK_MEDIUM => "MEDIUM" | RISK_HIGH => "HIGH" end.
Definition RecommendedMode_value (m : RecommendedMode) : string :=
  match m with
  | AUTO_EXECUTE => "AUTO_EXECUTE"
  | APPROVAL_REQUIRED => "APPROVAL_REQUIRED"
  | BLOCK_AND_ESCALATE => "BLOCK_AND_ESCALATE"
  end.

Record RiskContext := {
  ctx_environment : string;
  ctx_action : ActionType;
  ctx_target_count : Z;
  ctx_reversible : option bool;
  ctx_confidence : float;
  ctx_sensitivity : Sensitivity;
  ctx_destructive_override : bool;
}.

(** [target_count >= 1] and [0 <= confidence <= 1]. *)
Definition RiskContext_valid (c : RiskContext) : bool :=
  (1 <=? c.(ctx_target_count)) &&
  fleb fzero c.(ctx_confidence) && fleb c.(ctx_confidence) fone.

Record RiskFactors := {
  f_environment : Z;
  f_blast_radius : Z;
  f_destructiveness : Z;
  f_reversibility : Z;
  f_uncertainty : Z;
  f_sensitivity : Z;
}.

Definition bounded (lo hi z : Z) : bool := (lo <=? z) && (z <=? hi).

Definition RiskFactors_valid (f : RiskFactors) : bool :=
  bounded 0 15 f.(f_environment) && bounded 0 25 f.(f_blast_radius) &&
  bounded 0 20 f.(f_destructiveness) && bounded 0 15 f.(f_reversibility) &&
  bounded 0 15 f.(f_uncertainty) && bounded 0 10 f.(f_sensitivity).

(** [sum(factors.model_dump().values())]. *)
Definition factor_sum (f : RiskFactors) : Z :=
  f.(f_environment) + f.(f_blast_radius) + f.(f_destructiveness) +
  f.(f_reversibility) + f.(f_uncertainty) + f.(f_sensitivity).

Record RiskResult := {
  score : Z;
  classification : RiskClassification;
  recommended_mode : RecommendedMode;
  factors : RiskFactors;
}.

Definition RiskResult_valid (r : RiskResult) : bool :=
  bounded 0 100 r.(score) && (r.(score) =? factor_sum r.(factors)).

Definition DESTRUCTIVENESS (a : ActionType) : Z :=
  match a with
  | DELETE_UNHEALTHY_POD => 3
  | RESTART_POD => 3
  | SCALE_STAGING_DEPLOYMENT => 5
  | SCALE_WORKLOAD => 5
  | REVERT_IMAGE => 8
  | ROLLBACK_DEPLOYMENT => 8
  | APPLY_QUARANTINE => 9
  | QUARANTINE_WORKLOAD => 9
  | REMOVE_QUARANTINE => 7
  | CREATE_GITOPS_PR => 2
  | CREATE_TERRAFORM_PR => 4
  | CREATE_GITHUB_ISSUE => 0
  | REQUEST_APPROVAL => 0
  | NO_ACTION => 0
  end.

Definition environment_factor (env : string) : Z :=
  if String.eqb env "local" then 1
  else if String.eqb env "development" then 1
  else if String.eqb env "staging" then 4
  else if String.eqb env "production" then 15
  else 10.

Definition blast_radius_factor (n : Z) : Z :=
  if n =? 1 then 3 else if n <=? 3 then 8 else if n <=? 10 then 15 else 25.

(** [round((1 - confidence) * 15)]. *)
Definition uncertainty_factor (confidence : float) : Z :=
  fround (fmul (fsub fone confidence) (float_of_Z 15)).

Definition sensitivity_factor (s : Sensitivity) : Z :=
  match s with SENS_NONE => 0 | SENS_LOW => 2 | SENS_MODERATE => 6 | SENS_HIGH => 10 end.

Definition classify (score : Z) : RiskClassification * RecommendedMode :=
  if score <=? 30 then (RISK_LOW, AUTO_EXECUTE)
  else if score <=? 69 then (RISK_MEDIUM, APPROVAL_REQUIRED)
  else (RISK_HIGH, BLOCK_AND_ESCALATE).

Definition risk_factors (context : RiskContext) : RiskFactors :=
  let metadata := ACTION_REGISTRY context.(ctx_action) in
  let reversible := match context.(ctx_reversible) with
                    | None => metadata.(reversible)
                    | Some b => b
                    end in
  {| f_environment := environment_factor context.(ctx_environment);
     f_blast_radius := blast_radius_factor context.(ctx_target_count);
     f_destructiveness := if context.(ctx_destructive_override) then 20
                          else DESTRUCTIVENESS context.(ctx_action);
     f_reversibility := if reversible then 2 else 15;
     f_uncertainty := uncertainty_factor context.(ctx_confidence);
     f_sensitivity := sensitivity_factor context.(ctx_sensitivity) |}.

(** [RiskEngine.calculate]: the factors are validated when they are built, and
    so is the result. *)
Definition calculate (context : RiskContext) : res RiskResult :=
  res_bind (validated "RiskFactors" RiskFactors_valid (risk_factors context)) (λ factors,
    let score := factor_sum factors in
    let '(classification, mode) := classify score in
    validated "RiskResult" RiskResult_valid
      {| score := score; classification := classification;
         recommended_mode := mode; factors := factors |}).

(** [RiskEngine.calculate(RiskContext(...))]: the context is validated too. *)
Definition calculate_risk (context : RiskContext) : res RiskResult :=
  res_bind (validated "RiskContext" RiskContext_valid context) calculate.

(** [model_dump(mode="json")]. *)
Definition RiskFactors_dump (f : RiskFactors) : json :=
  JObj [("environment", JInt f.(f_environment));
        ("blast_radius", JInt f.(f_blast_radius));
        ("destructiveness", JInt f.(f_destructiveness));
        ("reversibility", JInt f.(f_reversibility));
        ("uncertainty", JInt f.(f_uncertainty));
        ("sensitivity", JInt f.(f_sensitivity))].

Definition RiskResult_dump (r : RiskResult) : json :=
  JObj [("score", JInt r.(score));
        ("classification", JStr (RiskClassification_value r.(classification)));
        ("recommended_mode", JStr (RecommendedMode_value r.(recommended_mode)));
        ("factors", RiskFactors_dump r.(factors))].

(** [RiskFactors.model_validate]: integers within bounds, no other key. *)
Definition field_int `{!Pydantic} (k : string) (lo hi : Z) (d : dict) : option Z :=
  match dict_get k d with
  | Some j => match lax_int j with
              | Some z => if bounded lo hi z then Some z else None
              | None => None
              end
  | None => None
  end.

Definition RiskFactors_validate `{!Pydantic} (j : json) : option RiskFactors :=
  match j with
  | JObj d =>
      match field_int "environment" 0 15 d, field_int "blast_radius" 0 25 d,
            field_int "destructiveness" 0 20 d, field_int "reversibility" 0 15 d,
            field_int "uncertainty" 0 15 d, field_int "sensitivity" 0 10 d with
      | Some e, Some b, Some x, Some r, Some u, Some s =>
          if bool_decide (length d = 6%nat) then Some (Build_RiskFactors e b x r u s) else None
      | _, _, _, _, _, _ => None
      end
  | _ => None
  end.

(** ** Bounds of the individual factors *)

Lemma bounded_spec lo hi z : bounded lo hi z = true ↔ lo ≤ z ≤ hi.
Proof. unfold bounded. rewrite andb_true_iff, !Z.leb_le. lia. Qed.

Lemma environment_factor_bounds env : 1 ≤ environment_factor env ≤ 15.
Proof. unfold environment_factor. repeat case_match; lia. Qed.

Lemma blast_radius_factor_bounds n : 3 ≤ blast_radius_factor n ≤ 25.
Proof. unfold blast_radius_factor. repeat case_match; lia. Qed.

Lemma blast_radius_factor_mono n m :
  1 ≤ n → n ≤ m → blast_radius_factor n ≤ blast_radius_factor m.
Proof. unfold blast_radius_factor. intros. repeat case_match; boolify; lia. Qed.

Lemma DESTRUCTIVENESS_bounds a : 0 ≤ DESTRUCTIVENESS a ≤ 9.
Proof. destruct a; simpl; lia. Qed.

Lemma sensitivity_factor_bounds s : 0 ≤ sensitivity_factor s ≤ 10.
Proof. destruct s; simpl; lia. Qed.

Lemma risk_factors_valid c :
  0 ≤ uncertainty_factor c.(ctx_confidence) ≤ 15 →
  RiskFactors_valid (risk_factors c) = true.
Proof.
  intros Hu. unfold RiskFactors_valid, risk_factors; simpl.
  pose proof (environment_factor_bounds c.(ctx_environment)).
  pose proof (blast_radius_factor_bounds c.(ctx_target_count)).
  pose proof (DESTRUCTIVENESS_bounds c.(ctx_action)).
  pose proof (sensitivity_factor_bounds c.(ctx_sensitivity)).
  rewrite !andb_true_iff, !bounded_spec.
  split_and!; try lia; repeat case_match; lia.
Qed.

Lemma factor_sum_bounds f : RiskFactors_valid f = true → 0 ≤ factor_sum f ≤ 100.
Proof.
  unfold RiskFactors_valid, factor_sum. rewrite !andb_true_iff, !bounded_spec. lia.
Qed.

Lemma calculate_Ok c r :
  calculate c = Ok r ↔
  RiskFactors_valid (risk_factors c) = true ∧
  r = let s := factor_sum (risk_factors c) in
      {| score := s; classification := (classify s).1;
         recommended_mode := (classify s).2; factors := risk_factors c |}.
Proof.
  unfold calculate, validated.
  destruct (RiskFactors_valid (risk_factors c)) eqn:Hv; simpl; [|naive_solver].
  assert (RiskResult_valid
    {| score := factor_sum (risk_factors c);
       classification := (classify (factor_sum (risk_factors c))).1;
       recommended_mode := (classify (factor_sum (risk_factors c))).2;
       factors := risk_factors c |} = true) as Hr.
  { unfold RiskResult_valid; simpl. rewrite Z.eqb_refl, andb_true_r, bounded_spec.
    by apply factor_sum_bounds. }
  destruct (classify (factor_sum (risk_factors c))) as [k m]; simpl in *.
  rewrite Hr. split; [intros; by simplify_eq|by intros [_ ->]].
Qed.

Lemma RiskFactors_validate_dump `{!Pydantic} f :
  RiskFactors_valid f = true → RiskFactors_validate (RiskFactors_dump f) = Some f.
Proof.
  destruct f. unfold RiskFactors_valid; simpl. rewrite !andb_true_iff.
  intros [[[[[H1 H2] H3] H4] H5] H6]. unfold field_int; simpl.
  by rewrite !lax_int_int, H1, H2, H3, H4, H5, H6.
Qed.

Lemma uncertainty_factor_bounds c :
  valid c.(ctx_confidence) = true → RiskContext_valid c = true →
  0 ≤ uncertainty_factor c.(ctx_confidence) ≤ 15.
Proof.
  unfold RiskContext_valid. intros Hv [[_ Hlo]%andb_true_iff Hhi]%andb_true_iff.
  apply (fround_below 15); [lia|]. apply fmul_below. by apply one_minus_below.
Qed.

Lemma calculate_risk_valid c :
  valid c.(ctx_confidence) = true → RiskContext_valid c = true →
  calculate_risk c = calculate c ∧ RiskFactors_valid (risk_factors c) = true.
Proof.
  intros Hv Hc. split; [unfold calculate_risk, validated; by rewrite Hc|].
  apply risk_factors_valid. by apply uncertainty_factor_bounds.
Qed.

Lemma classify_spec s :
  ((classify s).2 = AUTO_EXECUTE ↔ s ≤ 30) ∧
  ((classify s).2 = APPROVAL_REQUIRED ↔ 30 < s ≤ 69) ∧
  ((classify s).2 = BLOCK_AND_ESCALATE ↔ 69 < s) ∧
  ((classify s).1 = RISK_HIGH ↔ (classify s).2 = BLOCK_AND_ESCALATE).
Proof.
  unfold classify. destruct (s <=? 30) eqn:?; [|destruct (s <=? 69) eqn:?];
    boolify; simpl; split_and!; split; intros; first [done|lia].
Qed.

Definition with_targets (c : RiskContext) (n : Z) : RiskContext :=
  {| ctx_environment := ctx_environment c; ctx_action := ctx_action c;
     ctx_target_count := n; ctx_reversible := ctx_reversible c;
     ctx_confidence := ctx_confidence c; ctx_sensitivity := ctx_sensitivity c;
     ctx_destructive_override := ctx_destructive_override c |}.

(** ** Properties *)

Section properties.
(** A confidence is a binary64 value. *)
Context (c : RiskContext) (Hbin : valid c.(ctx_confidence) = true).

(** The risk engine is total on validated contexts: the float
    uncertainty stays within its bound, so the factor validation never fires;
    the score is the sum of the factors, lies between 0 and 100, and decides
    the mode by the thresholds 30 and 69.  Every other context is rejected. *)
Theorem calculate_risk_total :
  (RiskContext_valid c = true →
     ∃ r, calculate_risk c = Ok r ∧ r.(factors) = risk_factors c ∧
       r.(score) = factor_sum r.(factors) ∧ 0 ≤ r.(score) ≤ 100 ∧
       (r.(recommended_mode) = AUTO_EXECUTE ↔ r.(score) ≤ 30) ∧
       (r.(recommended_mode) = BLOCK_AND_ESCALATE ↔ 69 < r.(score)) ∧
       (r.(classification) = RISK_HIGH ↔ r.(recommended_mode) = BLOCK_AND_ESCALATE)) ∧
  (RiskContext_valid c = false →
     calculate_risk c = Raise (validation_error "RiskContext")).
Proof.
  split; intros Hc.
  - destruct (calculate_risk_valid c Hbin Hc) as [-> Hf].
    eexists. split; [apply calculate_Ok; by split|]. simpl.
    destruct (classify_spec (factor_sum (risk_factors c))) as (? & _ & ? & ?).
    split_and!; try done; by apply factor_sum_bounds.
  - unfold calculate_risk, validated. by rewrite Hc.
Qed.

(** An irreversible or destructive action in production is never
    recommended for automatic execution, whatever its other factors; and an
    irreversible destructive one against more than ten highly sensitive
    production targets is always blocked. *)
Theorem production_risk_never_automatic r :
  calculate_risk c = Ok r → ctx_environment c = "production" →
  ctx_reversible c = Some false ∨ ctx_destructive_override c = true →
  r.(recommended_mode) ≠ AUTO_EXECUTE ∧
  (ctx_reversible c = Some false → ctx_destructive_override c = true →
   10 < ctx_target_count c → ctx_sensitivity c = SENS_HIGH →
   r.(recommended_mode) = BLOCK_AND_ESCALATE).
Proof.
  intros Hrun Henv Hirr.
  assert (RiskContext_valid c = true) as Hc.
  { unfold calculate_risk, validated in Hrun. by destruct (RiskContext_valid c). }
  destruct (calculate_risk_valid c Hbin Hc) as [Heq Hf].
  rewrite Heq in Hrun. apply calculate_Ok in Hrun as [_ ->]. simpl.
  pose proof (uncertainty_factor_bounds c Hbin Hc).
  pose proof (blast_radius_factor_bounds (ctx_target_count c)).
  pose proof (sensitivity_factor_bounds (ctx_sensitivity c)).
  pose proof (DESTRUCTIVENESS_bounds (ctx_action c)).
  destruct (classify_spec (factor_sum (risk_factors c))) as (Hauto & _ & Hblock & _).
  rewrite Hauto, Hblock. unfold factor_sum, risk_factors; simpl. rewrite Henv.
  change (environment_factor "production") with 15. split.
  - destruct Hirr as [Hr|Hd]; [rewrite Hr|rewrite Hd]; repeat case_match; lia.
  - intros Hr Hd Ht Hs. rewrite Hr, Hd, Hs. simpl.
    assert (blast_radius_factor (ctx_target_count c) = 25) as ->; [|lia].
    unfold blast_radius_factor. repeat case_match; boolify; lia.
Qed.

(** More targets never lower the score: the blast radius is monotone,
    so a recommendation of approval or of blocking cannot be relaxed by
    widening the action. *)
Theorem risk_monotone_in_targets n r1 r2 :
  calculate_risk c = Ok r1 → ctx_target_count c ≤ n →
  calculate_risk (with_targets c n) = Ok r2 →
  r1.(score) ≤ r2.(score) ∧
  (r1.(recommended_mode) ≠ AUTO_EXECUTE → r2.(recommended_mode) ≠ AUTO_EXECUTE) ∧
  (r1.(recommended_mode) = BLOCK_AND_ESCALATE → r2.(recommended_mode) = BLOCK_AND_ESCALATE).
Proof.
  unfold calculate_risk, validated. intros H1 Hn H2.
  destruct (RiskContext_valid c) eqn:Hc; [|done]. simpl in H1.
  destruct (RiskContext_valid (with_targets c n)); [|done]. simpl in H2.
  apply calculate_Ok in H1 as [_ ->], H2 as [_ ->]. simpl.
  assert (blast_radius_factor (ctx_target_count c) ≤ blast_radius_factor n).
  { apply blast_radius_factor_mono; [|done]. unfold RiskContext_valid in Hc.
    apply andb_true_iff in Hc as [Hc _]. apply andb_true_iff in Hc as [Hc _].
    by apply Z.leb_le. }
  match goal with |- factor_sum (risk_factors ?a) ≤ factor_sum (risk_factors ?b) ∧ _ =>
    assert (factor_sum (risk_factors a) ≤ factor_sum (risk_factors b)) as Hle
      by (unfold factor_sum, risk_factors; simpl; lia);
    destruct (classify_spec (factor_sum (risk_factors a))) as (Ha & _ & Hb & _);
    destruct (classify_spec (factor_sum (risk_factors b))) as (Ha' & _ & Hb' & _)
  end.
  rewrite Ha, Ha', Hb, Hb'. lia.
Qed.
End properties.

Definition witness_context (env : string) (n : Z) : RiskContext :=
  {| ctx_environment := env; ctx_action := RESTART_POD; ctx_target_count := n;
     ctx_reversible := Some false; ctx_confidence := float_of_decimal 98 (-2);
     ctx_sensitivity := SENS_MODERATE; ctx_destructive_override := false |}.

Lemma calculate_risk_total_witness :
  calculate_risk (witness_context "staging" 0) = Raise (validation_error "RiskContext").
Proof.
  apply (proj2 (calculate_risk_total (witness_context "staging" 0)
                  ltac:(vm_compute; reflexivity))).
  vm_compute. reflexivity.
Defined.

Definition witness_result (n : Z) : RiskResult :=
  let f := risk_factors (witness_context "production" n) in
  {| score := factor_sum f; classification := (classify (factor_sum f)).1;
     recommended_mode := (classify (factor_sum f)).2; factors := f |}.

Lemma production_risk_never_automatic_witness :
  recommended_mode (witness_result 1) ≠ AUTO_EXECUTE.
Proof.
  refine (proj1 (production_risk_never_automatic (witness_context "production" 1)
    ltac:(vm_compute; reflexivity) (witness_result 1) ltac:(vm_compute; reflexivity)
    eq_refl (or_introl eq_refl))).
Defined.

Lemma risk_monotone_in_targets_witness :
  score (witness_result 1) ≤ score (witness_result 4).
Proof.
  refine (proj1 (risk_monotone_in_targets (witness_context "production" 1) 4
    (witness_result 1) (witness_result 4) ltac:(vm_compute; reflexivity)
    ltac:(vm_compute; discriminate) ltac:(vm_compute; reflexivity))).
Defined.
