(* ===== verification/Redaction.v ===== *)
(** * Secret redaction

    [security/redaction.py] (and its alias [logging.redact]): the twelve
    credential patterns, applied in order with the semantics of Python's [re]
    (leftmost match, greedy with backtracking), and the recursive redaction of
    JSON values with its bound on the depth. *)

From S2P Require Import Prelude PyFloat Json.

(** ** Regular expressions *)

(** [RMark] is the end of the group kept by the substitution. *)
Inductive regex : Type :=
| RChr (p : ascii → bool)
| REps
| RMark
| RWordB
| RSeq (a b : regex)
| RAlt (a b : regex)
| RStar (greedy : bool) (r : regex).

(** A position: the character before it, the text after it, and the text after
    the end of the kept group, once known. *)
Record position := { prev : option ascii; rest : list ascii; mark : option (list ascii) }.

(** [str.isalnum] below 256, and the underscore. *)
Definition is_word (c : ascii) : bool :=
  let n := code_of c in
  is_alnum c || (n =? 95) || bool_decide (n ∈ [170; 178; 179; 181; 185; 186; 188; 189; 190]) ||
  (in_range 192 255 c && negb (n =? 215) && negb (n =? 247)).

Definition is_space (c : ascii) : bool :=
  in_range 9 13 c || in_range 28 32 c || (code_of c =? 133) || (code_of c =? 160).

Definition at_boundary (p : position) : bool :=
  let before := match p.(prev) with Some c => is_word c | None => false end in
  let after := match p.(rest) with c :: _ => is_word c | [] => false end in
  xorb before after.

(** Matching in continuation style: alternatives and repetitions are tried in
    Python's order, the first success of the continuation wins.  Every body of a
    repetition consumes a character, so the remaining length bounds the number
    of iterations. *)
Fixpoint rmatch (r : regex) (p : position) (k : position → option position)
  : option position :=
  match r with
  | RChr t =>
      match p.(rest) with
      | c :: s => if t c then k {| prev := Some c; rest := s; mark := p.(mark) |} else None
      | [] => None
      end
  | REps => k p
  | RMark => k {| prev := p.(prev); rest := p.(rest); mark := Some p.(rest) |}
  | RWordB => if at_boundary p then k p else None
  | RSeq a b => rmatch a p (λ q, rmatch b q k)
  | RAlt a b => match rmatch a p k with Some q => Some q | None => rmatch b p k end
  | RStar greedy r0 =>
      (fix star (n : nat) (p : position) : option position :=
         match n with
         | O => k p
         | S n =>
             let more := λ _ : unit, rmatch r0 p (star n) in
             if greedy then match more tt with Some q => Some q | None => k p end
             else match k p with Some q => Some q | None => more tt end
         end) (length p.(rest)) p
  end.

(** [pattern.sub]: the matched text, less the kept group, becomes [repl]. *)
Fixpoint rsub (fuel : nat) (r : regex) (repl : list ascii) (before : option ascii)
    (s : list ascii) : list ascii :=
  match fuel with
  | O => s
  | S fuel =>
      match s with
      | [] => []
      | c :: s' =>
          match rmatch r {| prev := before; rest := s; mark := None |} Some with
          | Some q =>
              let kept := match q.(mark) with
                          | Some m => take (length s - length m)%nat s
                          | None => []
                          end in
              kept ++ repl ++ rsub fuel r repl q.(prev) q.(rest)
          | None => c :: rsub fuel r repl (Some c) s'
          end
      end
  end.

(** *** Derived forms *)

Definition RSeqs : list regex → regex := foldr RSeq REps.
Definition RAlts (l : list regex) : regex :=
  match l with [] => REps | r :: l => foldl RAlt r l end.
Definition ROpt (r : regex) : regex := RAlt r REps.
Definition RPlus (r : regex) : regex := RSeq r (RStar true r).
Fixpoint RTimes (n : nat) (r : regex) : regex :=
  match n with O => REps | S n => RSeq r (RTimes n r) end.
(** [r{n,}] and [r{n,m}]. *)
Definition RAtLeast (n : nat) (r : regex) : regex := RSeq (RTimes n r) (RStar true r).
Fixpoint RUpTo (n : nat) (r : regex) : regex :=
  match n with O => REps | S n => ROpt (RSeq r (RUpTo n r)) end.
Definition RBetween (n m : nat) (r : regex) : regex := RSeq (RTimes n r) (RUpTo (m - n) r).

(** A literal, without and with [(?i)]. *)
Definition RLit (s : string) : regex :=
  RSeqs (map (λ c, RChr (Ascii.eqb c)) (list_ascii_of_string s)).
Definition RLitI (s : string) : regex :=
  RSeqs (map (λ c, RChr (λ d, Ascii.eqb (to_lower c) (to_lower d))) (list_ascii_of_string s)).

Definition one_of (s : string) (c : ascii) : bool :=
  bool_decide (c ∈ list_ascii_of_string s).
Definition RSpaces : regex := RStar true (RChr is_space).
Definition RNot (p : ascii → bool) : regex := RChr (λ c, negb (p c)).

(** ** The patterns *)

Definition REDACTED : string := "[REDACTED]".
Definition MAX_REDACTION_DEPTH : nat := 16.

Definition SENSITIVE_KEY_PARTS : list string :=
  ["authorization"; "api_key"; "apikey"; "cookie"; "credential"; "database_url";
   "private_key"; "password"; "secret"; "session"; "token"; "webhook_url"].

Definition key_block (word : string) : regex :=
  RSeqs [RLitI ("-----" +:+ word +:+ " ");
         ROpt (RAlts [RLitI "RSA "; RLitI "EC "; RLitI "OPENSSH "]);
         RLitI "PRIVATE KEY-----"].

Definition STRING_PATTERNS : list regex :=
  let alnum (extra : string) := RChr (λ c, is_alnum c || one_of extra c) in
  let spaces1 := RPlus (RChr is_space) in
  let not_delim := RPlus (RNot (λ c, is_space c || one_of ",;" c)) in
  let assign := RChr (one_of ":=") in
  [ (* (authorization\s*[:=]\s*(?:bearer|basic)\s+)[^\s,;]+ *)
    RSeqs [RLitI "authorization"; RSpaces; assign; RSpaces;
           RAlt (RLitI "bearer") (RLitI "basic"); spaces1; RMark; not_delim];
    (* \bBearer\s+[A-Za-z0-9._~+/=-]{8,} *)
    RSeqs [RWordB; RLitI "Bearer"; spaces1; RAtLeast 8 (alnum "._~+/=-")];
    (* \b(?:ghp|gho|ghu|ghs|ghr)_[A-Za-z0-9_]{8,} *)
    RSeqs [RWordB; RAlts [RLitI "ghp"; RLitI "gho"; RLitI "ghu"; RLitI "ghs"; RLitI "ghr"];
           RLitI "_"; RAtLeast 8 (alnum "_")];
    (* \bgithub_pat_[A-Za-z0-9_]{8,} *)
    RSeqs [RWordB; RLitI "github_pat_"; RAtLeast 8 (alnum "_")];
    (* \bsk-(?:or-v1-)?[A-Za-z0-9_-]{8,} *)
    RSeqs [RWordB; RLitI "sk-"; ROpt (RLitI "or-v1-"); RAtLeast 8 (alnum "_-")];
    (* \b(?:AKIA|ASIA)[0-9A-Z]{12,20}\b *)
    RSeqs [RWordB; RAlt (RLit "AKIA") (RLit "ASIA");
           RBetween 12 20 (RChr (λ c, is_digit c || is_upper c)); RWordB];
    (* \beyJ[A-Za-z0-9_-]{8,}\.[A-Za-z0-9_-]{8,}\.[A-Za-z0-9_-]{8,}\b *)
    RSeqs [RWordB; RLit "eyJ"; RAtLeast 8 (alnum "_-"); RLit ".";
           RAtLeast 8 (alnum "_-"); RLit "."; RAtLeast 8 (alnum "_-"); RWordB];
    (* -----BEGIN (?:RSA |EC |OPENSSH )?PRIVATE KEY-----.*?-----END ... *)
    RSeqs [key_block "BEGIN"; RStar false (RChr (λ _, true)); key_block "END"];
    (* \b(?:postgres(?:ql)?|mysql|mariadb|mongodb(?:\+srv)?|redis)://[^\s]+ *)
    RSeqs [RWordB;
           RAlts [RSeq (RLitI "postgres") (ROpt (RLitI "ql")); RLitI "mysql"; RLitI "mariadb";
                  RSeq (RLitI "mongodb") (ROpt (RLitI "+srv")); RLitI "redis"];
           RLitI "://"; RPlus (RNot is_space)];
    (* \b(?:https?|amqps?|kafka)://[^\s/@:]+:[^\s/@]+@[^\s]+ *)
    RSeqs [RWordB;
           RAlts [RSeq (RLitI "http") (ROpt (RLitI "s")); RSeq (RLitI "amqp") (ROpt (RLitI "s"));
                  RLitI "kafka"];
           RLitI "://"; RPlus (RNot (λ c, is_space c || one_of "/@:" c)); RLitI ":";
           RPlus (RNot (λ c, is_space c || one_of "/@" c)); RLitI "@"; RPlus (RNot is_space)];
    (* \b(?:password|passwd|pwd|api[_-]?key|secret|token)\s*[:=]\s*[^\s,;]+ *)
    RSeqs [RWordB;
           RAlts [RLitI "password"; RLitI "passwd"; RLitI "pwd";
                  RSeqs [RLitI "api"; ROpt (RChr (one_of "_-")); RLitI "key"];
                  RLitI "secret"; RLitI "token"];
           RSpaces; assign; RSpaces; not_delim];
    (* \b(?:cookie|set-cookie)\s*:\s*[^\r\n]+ *)
    RSeqs [RWordB; RAlt (RLitI "cookie") (RLitI "set-cookie"); RSpaces; RLitI ":"; RSpaces;
           RPlus (RNot (λ c, (code_of c =? 13) || (code_of c =? 10)))] ].

(** ** Redaction *)

(** [_sensitive_key]. *)
Definition sensitive_key (key : string) : bool :=
  let normalized := replace_char " " "_" (replace_char "-" "_" (lower key)) in
  existsb (λ part, contains part normalized) SENSITIVE_KEY_PARTS.

Definition redact_text (value : string) : string :=
  string_of_list_ascii
    (foldl (λ s r, rsub (length s) r (list_ascii_of_string REDACTED) None s)
       (list_ascii_of_string value) STRING_PATTERNS).

(** [redact_untrusted(value, _depth=d)], by the number of levels that remain:
    [levels = MAX_REDACTION_DEPTH - d]. *)
Fixpoint redact_untrusted (levels : nat) (value : json) : json :=
  match levels with
  | O => JStr "[TRUNCATED_DEPTH]"
  | S levels =>
      match value with
      | JStr s => JStr (redact_text s)
      | JObj d =>
          JObj (map (λ kv, (kv.1, if sensitive_key kv.1 then JStr REDACTED
                                  else redact_untrusted levels kv.2)) d)
      | JArr l => JArr (map (redact_untrusted levels) l)
      | _ => value
      end
  end.

Definition redact (value : json) : json := redact_untrusted MAX_REDACTION_DEPTH value.

Example redact_bearer :
  redact_text "call with Authorization: Bearer abc.def, ok" =
  "call with Authorization: Bearer [REDACTED], ok".
Proof. vm_compute. reflexivity. Qed.
Example redact_password :
  redact_text "db password = hunter2; user=bob" = "db [REDACTED]; user=bob".
Proof. vm_compute. reflexivity. Qed.
Example redact_url :
  redact_text "see redis://x:y@h/0 and task-12345678" = "see [REDACTED] and task-12345678".
Proof. vm_compute. reflexivity. Qed.

(** ** What a redacted value cannot contain *)

(** Every value under a sensitive key, at any depth, is the marker. *)
Fixpoint keys_hidden (j : json) : bool :=
  match j with
  | JArr l => forallb keys_hidden l
  | JObj d =>
      forallb (λ kv : string * json,
        if sensitive_key kv.1 then json_eqb kv.2 (JStr REDACTED) else keys_hidden kv.2) d
  | _ => true
  end.

(** Nesting depth: scalars have depth 0. *)
Fixpoint json_depth (j : json) : nat :=
  match j with
  | JArr l => S (foldr (λ x acc, Nat.max (json_depth x) acc) 0%nat l)
  | JObj d => S (foldr (λ kv acc, Nat.max (json_depth kv.2) acc) 0%nat d)
  | _ => 0%nat
  end.

Lemma foldr_max_le {A} (f : A → nat) (n : nat) l :
  (∀ x, x ∈ l → (f x ≤ n)%nat) → (foldr (λ x acc, Nat.max (f x) acc) 0%nat l ≤ n)%nat.
Proof.
  induction l as [|x l IH]; intros H; simpl; [lia|].
  apply Nat.max_lub; [apply H; by left|apply IH; intros y Hy; apply H; by right].
Qed.

Lemma redact_keys_hidden levels j : keys_hidden (redact_untrusted levels j) = true.
Proof.
  revert j. induction levels as [|n IH]; intros j; [done|]. destruct j as [| | | | |l|d]; try done.
  - simpl. apply forallb_elem_of. intros x (y & -> & _)%list_elem_of_fmap. apply IH.
  - simpl. apply forallb_elem_of. intros x ([k v] & -> & _)%list_elem_of_fmap. simpl.
    destruct (sensitive_key k) eqn:Hk; simpl; by rewrite ?Hk.
Qed.

Lemma redact_depth levels j : (json_depth (redact_untrusted levels j) ≤ levels)%nat.
Proof.
  revert j. induction levels as [|n IH]; intros j; [done|]. destruct j as [| | | | |l|d]; simpl; try lia.
  - apply le_n_S, foldr_max_le. intros x (y & -> & _)%list_elem_of_fmap. apply IH.
  - apply le_n_S, (foldr_max_le (λ kv : string * json, json_depth kv.2)).
    intros x ([k v] & -> & _)%list_elem_of_fmap. simpl.
    destruct (sensitive_key k); simpl; [lia|apply IH].
Qed.

(** What the audit log and the outbox may store. *)
Definition redacted (j : json) : bool :=
  keys_hidden j && (json_depth j <=? MAX_REDACTION_DEPTH)%nat.

Lemma redact_levels j : redact j = redact_untrusted MAX_REDACTION_DEPTH j.
Proof. done. Qed.

Lemma redact_redacted j : redacted (redact j) = true.
Proof.
  unfold redacted, redact. rewrite redact_keys_hidden. apply Nat.leb_le, redact_depth.
Qed.

(** C38: redaction is total and hides every sensitive key at any depth: the
    result has no other value than the marker under a sensitive key, is nested
    at most [MAX_REDACTION_DEPTH] levels, keeps exactly the keys of an object in
    their order, the length of an array, and every scalar other than a string. *)
Theorem redact_hides_sensitive (j : json) :
  keys_hidden (redact j) = true ∧
  (json_depth (redact j) ≤ MAX_REDACTION_DEPTH)%nat ∧
  match j, redact j with
  | JObj d, JObj d' =>
      map fst d' = map fst d ∧
      (∀ k, sensitive_key k = true → dict_get k d' = (λ _, JStr REDACTED) <$> dict_get k d)
  | JArr l, JArr l' => length l' = length l
  | JStr s, j' => j' = JStr (redact_text s)
  | _, j' => j' = j
  end.
Proof.
  split_and!; [apply redact_keys_hidden|apply redact_depth|].
  unfold redact, MAX_REDACTION_DEPTH. generalize 15%nat as n. intros n.
  destruct j as [| | | | |l|d]; try done; simpl.
  - by rewrite length_fmap.
  - split; [by rewrite map_map; apply map_ext; intros []|].
    intros k Hk. induction d as [|[k' v] d IH]; simpl; [done|].
    destruct (String.eqb k' k) eqn:E; [|apply IH].
    apply String.eqb_eq in E as ->. by rewrite Hk.
Qed.

(** Redaction of a dictionary, entry by entry. *)
Lemma redact_object d :
  redact (JObj d) =
  JObj (map (λ kv, (kv.1, if sensitive_key kv.1 then JStr REDACTED
                          else redact_untrusted 15 kv.2)) d).
Proof. reflexivity. Qed.

#[global] Opaque redact.
