(* ===== verification/Models.v ===== *)
(** * The persistence model

    [db/models.py], with the tables of [ai/models.py] and
    [incident_memory/models.py] that the modelled services read or write: one
    record per row, one enumeration per database enumeration.  Identifiers are
    the 128-bit numbers of UUIDs, timestamps are microseconds since the epoch
    (always UTC, as [utc_now] returns them).  The [updated_at] bookkeeping column
    is left out: no modelled operation reads it. *)

From S2P Require Import Prelude PyFloat Json Effects Actions StateMachine.

Definition uuid : Type := N.
Definition datetime : Type := Z.

(** [str(uuid)]. *)
Definition uuid_str (u : uuid) : string :=
  let h := hex_pad 32 u in
  String.substring 0 8 h +:+ "-" +:+ String.substring 8 4 h +:+ "-" +:+
  String.substring 12 4 h +:+ "-" +:+ String.substring 16 4 h +:+ "-" +:+
  String.substring 20 12 h.

Definition seconds (n : Z) : Z := n * 1000000.

(** The civil date of a day number counted from 1970-01-01: year, month, day. *)
Definition civil_of_days (days : Z) : Z * Z * Z :=
  let z := days + 719468 in
  let era := z / 146097 in
  let doe := z - era * 146097 in
  let yoe := (doe - doe / 1460 + doe / 36524 - doe / 146096) / 365 in
  let doy := doe - (365 * yoe + yoe / 4 - yoe / 100) in
  let mp := (5 * doy + 2) / 153 in
  let d := doy - (153 * mp + 2) / 5 + 1 in
  let m := if mp <? 10 then mp + 3 else mp - 9 in
  let y := yoe + era * 400 + (if m <=? 2 then 1 else 0) in
  (y, m, d).

(** [datetime.isoformat()] of an aware UTC value. *)
Definition isoformat (t : datetime) : string :=
  let s := t / 1000000 in
  let us := t mod 1000000 in
  let day := s / 86400 in
  let r := s mod 86400 in
  let '(y, m, d) := civil_of_days day in
  let p2 (n : Z) := zpad 2 (str_of_Z n) in
  zpad 4 (str_of_Z y) +:+ "-" +:+ p2 m +:+ "-" +:+ p2 d +:+ "T" +:+
  p2 (r / 3600) +:+ ":" +:+ p2 ((r / 60) mod 60) +:+ ":" +:+ p2 (r mod 60) +:+
  (if us =? 0 then EmptyString else "." +:+ zpad 6 (str_of_Z us)) +:+ "+00:00".

Example isoformat_1 : isoformat 1709208000123456 = "2024-02-29T12:00:00.123456+00:00".
Proof. vm_compute. reflexivity. Qed.
Example isoformat_2 : isoformat (seconds 951782399) = "2000-02-28T23:59:59+00:00".
Proof. vm_compute. reflexivity. Qed.
Example uuid_str_1 : uuid_str 24197857203266734864629346612071973665%N
                     = "12345678-9abc-def0-0fed-cba987654321".
Proof. vm_compute. reflexivity. Qed.

(** ** Enumerations *)

Inductive Environment : Type :=
| ENV_LOCAL | ENV_STAGING | ENV_PRODUCTION.

#[export] Instance Environment_eq_dec : EqDecision Environment.
Proof. solve_decision. Defined.

Definition Environment_value (x : Environment) : string :=
  match x with
  | ENV_LOCAL => "local"
  | ENV_STAGING => "staging"
  | ENV_PRODUCTION => "production"
  end.

Inductive ActorType : Type :=
| ACTOR_SYSTEM | ACTOR_USER | ACTOR_SERVICE.

#[export] Instance ActorType_eq_dec : EqDecision ActorType.
Proof. solve_decision. Defined.

Definition ActorType_value (x : ActorType) : string :=
  match x with
  | ACTOR_SYSTEM => "SYSTEM"
  | ACTOR_USER => "USER"
  | ACTOR_SERVICE => "SERVICE"
  end.

Inductive RecordStatus : Type :=
| PENDING | RUNNING | SUCCEEDED | FAILED | REJECTED | CANCELLED.

#[export] Instance RecordStatus_eq_dec : EqDecision RecordStatus.
Proof. solve_decision. Defined.

Definition RecordStatus_value (x : RecordStatus) : string :=
  match x with
  | PENDING => "PENDING"
  | RUNNING => "RUNNING"
  | SUCCEEDED => "SUCCEEDED"
  | FAILED => "FAILED"
  | REJECTED => "REJECTED"
  | CANCELLED => "CANCELLED"
  end.

Inductive ResolutionSource : Type :=
| CLOUDWARD_REMEDIATION | PLATFORM_SELF_HEALING | HUMAN_ACTION | EXTERNAL_SYSTEM | SOURCE_UNKNOWN.

#[export] Instance ResolutionSource_eq_dec : EqDecision ResolutionSource.
Proof. solve_decision. Defined.

Definition ResolutionSource_value (x : ResolutionSource) : string :=
  match x with
  | CLOUDWARD_REMEDIATION => "CLOUDWARD_REMEDIATION"
  | PLATFORM_SELF_HEALING => "PLATFORM_SELF_HEALING"
  | HUMAN_ACTION => "HUMAN_ACTION"
  | EXTERNAL_SYSTEM => "EXTERNAL_SYSTEM"
  | SOURCE_UNKNOWN => "UNKNOWN"
  end.

Inductive AlertStatus : Type :=
| ALERT_FIRING | ALERT_RESOLVED.

#[export] Instance AlertStatus_eq_dec : EqDecision AlertStatus.
Proof. solve_decision. Defined.

Definition AlertStatus_value (x : AlertStatus) : string :=
  match x with
  | ALERT_FIRING => "firing"
  | ALERT_RESOLVED => "resolved"
  end.

Inductive EvidencePhase : Type :=
| PHASE_BEFORE | PHASE_INCIDENT | PHASE_AFTER.

#[export] Instance EvidencePhase_eq_dec : EqDecision EvidencePhase.
Proof. solve_decision. Defined.

Definition EvidencePhase_value (x : EvidencePhase) : string :=
  match x with
  | PHASE_BEFORE => "BEFORE"
  | PHASE_INCIDENT => "INCIDENT"
  | PHASE_AFTER => "AFTER"
  end.

Inductive EvidenceType : Type :=
| KUBERNETES_STATE | KUBERNETES_EVENT | HEALTH_CHECK | EVIDENCE_METRIC | METRIC_SUMMARY | EVIDENCE_LOG | LOG_SUMMARY | EVIDENCE_TRACE | TRACE_SUMMARY | EVIDENCE_DEPLOYMENT | DEPLOYMENT_STATE | GIT_CHANGE | SECURITY_EVENT | EVIDENCE_FINOPS.

#[export] Instance EvidenceType_eq_dec : EqDecision EvidenceType.
Proof. solve_decision. Defined.

Definition EvidenceType_value (x : EvidenceType) : string :=
  match x with
  | KUBERNETES_STATE => "KUBERNETES_STATE"
  | KUBERNETES_EVENT => "KUBERNETES_EVENT"
  | HEALTH_CHECK => "HEALTH_CHECK"
  | EVIDENCE_METRIC => "METRIC"
  | METRIC_SUMMARY => "METRIC_SUMMARY"
  | EVIDENCE_LOG => "LOG"
  | LOG_SUMMARY => "LOG_SUMMARY"
  | EVIDENCE_TRACE => "TRACE"
  | TRACE_SUMMARY => "TRACE_SUMMARY"
  | EVIDENCE_DEPLOYMENT => "DEPLOYMENT"
  | DEPLOYMENT_STATE => "DEPLOYMENT_STATE"
  | GIT_CHANGE => "GIT_CHANGE"
  | SECURITY_EVENT => "SECURITY_EVENT"
  | EVIDENCE_FINOPS => "FINOPS"
  end.

Inductive ApprovalDecision : Type :=
| DECISION_PENDING | APPROVED | DECISION_REJECTED | EXPIRED | INVALIDATED.

#[export] Instance ApprovalDecision_eq_dec : EqDecision ApprovalDecision.
Proof. solve_decision. Defined.

Definition ApprovalDecision_value (x : ApprovalDecision) : string :=
  match x with
  | DECISION_PENDING => "PENDING"
  | APPROVED => "APPROVED"
  | DECISION_REJECTED => "REJECTED"
  | EXPIRED => "EXPIRED"
  | INVALIDATED => "INVALIDATED"
  end.

Inductive SecurityCategory : Type :=
| SUSPICIOUS_PROCESS | UNEXPECTED_EGRESS | PRIVILEGE_BEHAVIOR.

#[export] Instance SecurityCategory_eq_dec : EqDecision SecurityCategory.
Proof. solve_decision. Defined.

Definition SecurityCategory_value (x : SecurityCategory) : string :=
  match x with
  | SUSPICIOUS_PROCESS => "SUSPICIOUS_PROCESS"
  | UNEXPECTED_EGRESS => "UNEXPECTED_EGRESS"
  | PRIVILEGE_BEHAVIOR => "PRIVILEGE_BEHAVIOR"
  end.

Inductive ExperimentStatus : Type :=
| EXPERIMENT_PENDING | EXPERIMENT_RUNNING | EXPERIMENT_STOPPING | EXPERIMENT_SUCCEEDED
| EXPERIMENT_FAILED | EXPERIMENT_TIMED_OUT | EXPERIMENT_CANCELLED.

#[export] Instance ExperimentStatus_eq_dec : EqDecision ExperimentStatus.
Proof. solve_decision. Defined.

Definition ExperimentStatus_value (x : ExperimentStatus) : string :=
  match x with
  | EXPERIMENT_PENDING => "PENDING"
  | EXPERIMENT_RUNNING => "RUNNING"
  | EXPERIMENT_STOPPING => "STOPPING"
  | EXPERIMENT_SUCCEEDED => "SUCCEEDED"
  | EXPERIMENT_FAILED => "FAILED"
  | EXPERIMENT_TIMED_OUT => "TIMED_OUT"
  | EXPERIMENT_CANCELLED => "CANCELLED"
  end.

Inductive FinOpsStatus : Type :=
| FINOPS_DETECTED | FINOPS_ANALYZED | FINOPS_RECOMMENDED | FINOPS_PR_CREATED
| FINOPS_APPROVED | FINOPS_REJECTED | FINOPS_APPLIED | FINOPS_VERIFIED | FINOPS_EXPIRED.

#[export] Instance FinOpsStatus_eq_dec : EqDecision FinOpsStatus.
Proof. solve_decision. Defined.

Definition FinOpsStatus_value (x : FinOpsStatus) : string :=
  match x with
  | FINOPS_DETECTED => "DETECTED"
  | FINOPS_ANALYZED => "ANALYZED"
  | FINOPS_RECOMMENDED => "RECOMMENDED"
  | FINOPS_PR_CREATED => "PR_CREATED"
  | FINOPS_APPROVED => "APPROVED"
  | FINOPS_REJECTED => "REJECTED"
  | FINOPS_APPLIED => "APPLIED"
  | FINOPS_VERIFIED => "VERIFIED"
  | FINOPS_EXPIRED => "EXPIRED"
  end.

Inductive ContainmentStatus : Type :=
| NOT_PROPOSED | PROPOSED | CONTAINMENT_AWAITING_APPROVAL | APPLYING | CONTAINED
| VERIFICATION_FAILED | REMOVING | REMOVED.

#[export] Instance ContainmentStatus_eq_dec : EqDecision ContainmentStatus.
Proof. solve_decision. Defined.

Definition ContainmentStatus_value (x : ContainmentStatus) : string :=
  match x with
  | NOT_PROPOSED => "NOT_PROPOSED"
  | PROPOSED => "PROPOSED"
  | CONTAINMENT_AWAITING_APPROVAL => "AWAITING_APPROVAL"
  | APPLYING => "APPLYING"
  | CONTAINED => "CONTAINED"
  | VERIFICATION_FAILED => "VERIFICATION_FAILED"
  | REMOVING => "REMOVING"
  | REMOVED => "REMOVED"
  end.

(** ** Rows *)

Record Cluster : Type := {
  clu_id : uuid;
  clu_name : string;
  clu_environment : Environment;
}.

Record Service : Type := {
  svc_id : uuid;
  svc_cluster_id : uuid;
  svc_name : string;
  svc_namespace : string;
  svc_deployment_name : string;
  svc_criticality : string;
  svc_labels : json;
}.

Record Incident : Type := {
  inc_id : uuid;
  inc_created_at : datetime;
  inc_correlation_id : string;
  inc_cluster_id : option uuid;
  inc_service_id : option uuid;
  inc_incident_type : string;
  inc_title : string;
  inc_summary : option string;
  inc_environment : Environment;
  inc_state : IncidentState;
  inc_severity : string;
  inc_risk_score : option Z;
  inc_retry_count : Z;
  inc_runbook_id : option string;
  inc_runbook_version : option Z;
  inc_resolved_at : option datetime;
  inc_resolution_source : option ResolutionSource;
}.

Record IncidentEvent : Type := {
  iev_id : uuid;
  iev_incident_id : uuid;
  iev_created_at : datetime;
  iev_correlation_id : string;
  iev_event_type : string;
  iev_from_state : option IncidentState;
  iev_to_state : option IncidentState;
  iev_actor : string;
  iev_actor_type : ActorType;
  iev_details : json;
}.

Record EvidenceSnapshot : Type := {
  evd_id : uuid;
  evd_incident_id : uuid;
  evd_created_at : datetime;
  evd_correlation_id : string;
  evd_evidence_type : EvidenceType;
  evd_summary : string;
  evd_reference : option string;
  evd_query : option string;
  evd_window_start : option datetime;
  evd_window_end : option datetime;
  evd_phase : EvidencePhase;
  evd_payload : json;
  evd_collected_by : string;
}.

Record ActionProposal : Type := {
  prop_id : uuid;
  prop_created_at : datetime;
  prop_incident_id : uuid;
  prop_correlation_id : string;
  prop_action_type : ActionType;
  prop_parameters : dict;
  prop_status : RecordStatus;
  prop_risk_score : Z;
  prop_risk_calculation : dict;
  prop_proposed_by : string;
}.

Record ActionExecution : Type := {
  exec_id : uuid;
  exec_created_at : datetime;
  exec_incident_id : uuid;
  exec_proposal_id : uuid;
  exec_correlation_id : string;
  exec_action_type : ActionType;
  exec_attempt : Z;
  exec_status : RecordStatus;
  exec_result : dict;
  exec_error_code : option string;
  exec_started_at : datetime;
  exec_completed_at : option datetime;
  exec_idempotency_key : option string;
  exec_rollback_of_execution_id : option uuid;
  exec_rolled_back_at : option datetime;
}.

Record AlertRecord : Type := {
  alr_id : uuid;
  alr_created_at : datetime;
  alr_incident_id : option uuid;
  alr_source : string;
  alr_fingerprint : string;
  alr_payload_digest : string;
  alr_alert_name : string;
  alr_status : AlertStatus;
  alr_severity : string;
  alr_service : string;
  alr_environment : Environment;
  alr_namespace : option string;
  alr_labels : json;
  alr_annotations : json;
  alr_starts_at : datetime;
  alr_ends_at : option datetime;
  alr_last_received_at : datetime;
  alr_repeat_count : Z;
}.

Record VerificationRecord : Type := {
  ver_id : uuid;
  ver_created_at : datetime;
  ver_incident_id : uuid;
  ver_action_execution_id : option uuid;
  ver_attempt : Z;
  ver_success : bool;
  ver_checks : list json;
  ver_before_values : dict;
  ver_after_values : dict;
  ver_started_at : datetime;
  ver_completed_at : datetime;
}.

Record StreamEvent : Type := {
  str_id : Z;
  str_created_at : datetime;
  str_event_type : string;
  str_incident_id : option uuid;
  str_payload : json;
}.

Record Approval : Type := {
  app_id : uuid;
  app_created_at : datetime;
  app_incident_id : uuid;
  app_proposal_id : uuid;
  app_actor_id : option uuid;
  app_decision : ApprovalDecision;
  app_reason : option string;
  app_action : string;
  app_environment : Environment;
  app_risk_score : Z;
  app_blast_radius : Z;
  app_reversible : bool;
  app_requested_by : string;
  app_runbook : option string;
  app_proposal_version : Z;
  app_target_reference : string;
  app_expected_state : dict;
  app_context_digest : string;
  app_expires_at : datetime;
  app_decided_at : option datetime;
  app_decided_by : option string;
  app_decision_comment : option string;
  app_invalidated_reason : option string;
  app_execution_claimed_at : option datetime;
  app_execution_reference : option string;
}.

Record PolicyDecision : Type := {
  pol_id : uuid;
  pol_created_at : datetime;
  pol_incident_id : uuid;
  pol_proposal_id : uuid;
  pol_correlation_id : string;
  pol_policy_path : string;
  pol_allowed : bool;
  pol_requires_approval : bool;
  pol_reason : string;
  pol_input_digest : string;
  pol_result : json;
}.

Record RunbookExecution : Type := {
  rbx_id : uuid;
  rbx_created_at : datetime;
  rbx_incident_id : uuid;
  rbx_runbook_id : string;
  rbx_runbook_version : Z;
  rbx_status : RecordStatus;
  rbx_context : json;
}.

Record Notification : Type := {
  ntf_id : uuid;
  ntf_created_at : datetime;
  ntf_incident_id : option uuid;
  ntf_channel : string;
  ntf_status : RecordStatus;
  ntf_destination_reference : option string;
  ntf_event_type : string;
  ntf_dedupe_key : string;
  ntf_attempts : Z;
  ntf_max_attempts : Z;
  ntf_last_error : option string;
  ntf_delivered_at : option datetime;
  ntf_next_attempt_at : option datetime;
  ntf_payload : json;
}.

Record AuditEvent : Type := {
  aud_id : uuid;
  aud_created_at : datetime;
  aud_actor : string;
  aud_actor_type : ActorType;
  aud_actor_id : option uuid;
  aud_incident_id : option uuid;
  aud_correlation_id : string;
  aud_event_type : string;
  aud_action : option string;
  aud_risk_score : option Z;
  aud_policy_decision : option string;
  aud_result : string;
  aud_event_metadata : json;
}.

Record AIDiagnosisRecord : Type := {
  dia_id : uuid;
  dia_created_at : datetime;
  dia_incident_id : uuid;
  dia_status : string;
  dia_suspected_root_cause : option string;
  dia_root_cause_category : option string;
  dia_confidence : option float;
  dia_evidence_refs : list string;
  dia_related_change : option json;
  dia_suggested_runbook : option string;
  dia_action_candidates : list string;
  dia_explanation : option string;
  dia_model : option string;
  dia_fallback_used : bool;
  dia_escalation_used : bool;
  dia_failure_code : option string;
}.

Record ModelInvocation : Type := {
  inv_id : uuid;
  inv_created_at : datetime;
  inv_incident_id : option uuid;
  inv_provider : string;
  inv_model : string;
  inv_purpose : string;
  inv_status : string;
  inv_input_digest : string;
  inv_usage : dict;
}.

Record ClusterAgentState : Type := {
  cas_cluster_id : uuid;
  cas_report_id : uuid;
  cas_report_digest : string;
  cas_observed_at : datetime;
  cas_received_at : datetime;
  cas_status : string;
  cas_payload : json;
}.

Record GitHubAutomationRecord : Type := {
  gar_id : uuid;
  gar_created_at : datetime;
  gar_dedupe_key : string;
  gar_incident_id : option uuid;
  gar_operation : string;
  gar_repository : string;
  gar_external_number : option Z;
  gar_external_url : option string;
  gar_status : string;
  gar_title : option string;
  gar_summary : option string;
  gar_details : dict;
}.

Record ChaosExecution : Type := {
  chx_id : uuid;
  chx_created_at : datetime;
  chx_scenario_id : string;
  chx_status : ExperimentStatus;
  chx_requested_by : string;
  chx_target_namespace : string;
  chx_target_selector : list (string * string);
  chx_expected_alert : string;
  chx_expected_runbook : string;
  chx_resource_kind : option string;
  chx_resource_name : option string;
  chx_max_runtime_seconds : Z;
  chx_cleanup_deadline : datetime;
  chx_started_at : option datetime;
  chx_completed_at : option datetime;
  chx_cleanup_completed_at : option datetime;
  chx_failure_reason : option string;
  chx_details : dict;
}.

Record FinOpsRecommendation : Type := {
  fin_id : uuid;
  fin_created_at : datetime;
  fin_service : string;
  fin_environment : Environment;
  fin_recommendation_type : string;
  fin_status : FinOpsStatus;
  fin_estimated_monthly_savings : option float;
  fin_current_config : dict;
  fin_recommended_config : dict;
  fin_evidence : dict;
  fin_estimated_savings : dict;
  fin_risk_score : Z;
  fin_confidence : float;
  fin_limitations : list string;
  fin_evidence_window_start : datetime;
  fin_evidence_window_end : datetime;
  fin_source_fingerprint : string;
  fin_proposal_version : Z;
  fin_expected_state_digest : string;
  fin_expires_at : datetime;
  fin_pr_reference : option string;
  fin_pr_url : option string;
  fin_approved_at : option datetime;
  fin_rejected_at : option datetime;
  fin_details : dict;
}.

Record IncidentMemoryRecord : Type := {
  mem_id : uuid;
  mem_incident_id : uuid;
  mem_fingerprint : string;
  mem_service_key : string;
  mem_environment : string;
  mem_incident_type : string;
  mem_alert_name : string;
  mem_namespace : option string;
  mem_root_cause_category : option string;
  mem_stable_labels : list (string * string);
  mem_runbook_id : option string;
  mem_action : option string;
  mem_result : string;
  mem_verification_success : option bool;
  mem_duration_seconds : option Z;
  mem_model : option string;
  mem_confidence : option float;
  mem_successful : bool;
  mem_resolved_at : datetime;
  mem_evidence_summary : dict;
  mem_operator_summary : option string;
}.

Record SecurityEvent : Type := {
  sev_id : uuid;
  sev_created_at : datetime;
  sev_correlation_id : string;
  sev_incident_id : option uuid;
  sev_source : string;
  sev_fingerprint : string;
  sev_event_type : SecurityCategory;
  sev_severity : string;
  sev_environment : Environment;
  sev_namespace : string;
  sev_pod : string;
  sev_workload : option string;
  sev_container_name : string;
  sev_policy : string;
  sev_evidence_ref : string;
  sev_occurred_at : datetime;
  sev_last_seen_at : datetime;
  sev_dedup_count : Z;
  sev_risk_score : option Z;
  sev_policy_decision : option string;
  sev_containment_status : ContainmentStatus;
  sev_payload : json;
}.

Record QuarantineRecord : Type := {
  qrt_id : uuid;
  qrt_created_at : datetime;
  qrt_incident_id : uuid;
  qrt_security_event_id : uuid;
  qrt_namespace : string;
  qrt_pod : string;
  qrt_workload : option string;
  qrt_policy_name : string;
  qrt_selector : json;
  qrt_reason : string;
  qrt_risk_score : Z;
  qrt_opa_decision : string;
  qrt_status : ContainmentStatus;
  qrt_verification : dict;
  qrt_applied_at : option datetime;
  qrt_removed_at : option datetime;
}.

(** Attribute assignment on a [Incident]. *)
Definition set_inc_title (v : string) (r : Incident) : Incident :=
  {| inc_id := r.(inc_id); inc_created_at := r.(inc_created_at);
     inc_correlation_id := r.(inc_correlation_id); inc_cluster_id := r.(inc_cluster_id);
     inc_service_id := r.(inc_service_id); inc_incident_type := r.(inc_incident_type);
     inc_title := v; inc_summary := r.(inc_summary); inc_environment := r.(inc_environment);
     inc_state := r.(inc_state); inc_severity := r.(inc_severity);
     inc_risk_score := r.(inc_risk_score); inc_retry_count := r.(inc_retry_count);
     inc_runbook_id := r.(inc_runbook_id); inc_runbook_version := r.(inc_runbook_version);
     inc_resolved_at := r.(inc_resolved_at);
     inc_resolution_source := r.(inc_resolution_source) |}.

Definition set_inc_summary (v : option string) (r : Incident) : Incident :=
  {| inc_id := r.(inc_id); inc_created_at := r.(inc_created_at);
     inc_correlation_id := r.(inc_correlation_id); inc_cluster_id := r.(inc_cluster_id);
     inc_service_id := r.(inc_service_id); inc_incident_type := r.(inc_incident_type);
     inc_title := r.(inc_title); inc_summary := v; inc_environment := r.(inc_environment);
     inc_state := r.(inc_state); inc_severity := r.(inc_severity);
     inc_risk_score := r.(inc_risk_score); inc_retry_count := r.(inc_retry_count);
     inc_runbook_id := r.(inc_runbook_id); inc_runbook_version := r.(inc_runbook_version);
     inc_resolved_at := r.(inc_resolved_at);
     inc_resolution_source := r.(inc_resolution_source) |}.

Definition set_inc_state (v : IncidentState) (r : Incident) : Incident :=
  {| inc_id := r.(inc_id); inc_created_at := r.(inc_created_at);
     inc_correlation_id := r.(inc_correlation_id); inc_cluster_id := r.(inc_cluster_id);
     inc_service_id := r.(inc_service_id); inc_incident_type := r.(inc_incident_type);
     inc_title := r.(inc_title); inc_summary := r.(inc_summary);
     inc_environment := r.(inc_environment); inc_state := v; inc_severity := r.(inc_severity);
     inc_risk_score := r.(inc_risk_score); inc_retry_count := r.(inc_retry_count);
     inc_runbook_id := r.(inc_runbook_id); inc_runbook_version := r.(inc_runbook_version);
     inc_resolved_at := r.(inc_resolved_at);
     inc_resolution_source := r.(inc_resolution_source) |}.

Definition set_inc_severity (v : string) (r : Incident) : Incident :=
  {| inc_id := r.(inc_id); inc_created_at := r.(inc_created_at);
     inc_correlation_id := r.(inc_correlation_id); inc_cluster_id := r.(inc_cluster_id);
     inc_service_id := r.(inc_service_id); inc_incident_type := r.(inc_incident_type);
     inc_title := r.(inc_title); inc_summary := r.(inc_summary);
     inc_environment := r.(inc_environment); inc_state := r.(inc_state); inc_severity := v;
     inc_risk_score := r.(inc_risk_score); inc_retry_count := r.(inc_retry_count);
     inc_runbook_id := r.(inc_runbook_id); inc_runbook_version := r.(inc_runbook_version);
     inc_resolved_at := r.(inc_resolved_at);
     inc_resolution_source := r.(inc_resolution_source) |}.

Definition set_inc_risk_score (v : option Z) (r : Incident) : Incident :=
  {| inc_id := r.(inc_id); inc_created_at := r.(inc_created_at);
     inc_correlation_id := r.(inc_correlation_id); inc_cluster_id := r.(inc_cluster_id);
     inc_service_id := r.(inc_service_id); inc_incident_type := r.(inc_incident_type);
     inc_title := r.(inc_title); inc_summary := r.(inc_summary);
     inc_environment := r.(inc_environment); inc_state := r.(inc_state);
     inc_severity := r.(inc_severity); inc_risk_score := v;
     inc_retry_count := r.(inc_retry_count); inc_runbook_id := r.(inc_runbook_id);
     inc_runbook_version := r.(inc_runbook_version); inc_resolved_at := r.(inc_resolved_at);
     inc_resolution_source := r.(inc_resolution_source) |}.

Definition set_inc_retry_count (v : Z) (r : Incident) : Incident :=
  {| inc_id := r.(inc_id); inc_created_at := r.(inc_created_at);
     inc_correlation_id := r.(inc_correlation_id); inc_cluster_id := r.(inc_cluster_id);
     inc_service_id := r.(inc_service_id); inc_incident_type := r.(inc_incident_type);
     inc_title := r.(inc_title); inc_summary := r.(inc_summary);
     inc_environment := r.(inc_environment); inc_state := r.(inc_state);
     inc_severity := r.(inc_severity); inc_risk_score := r.(inc_risk_score);
     inc_retry_count := v; inc_runbook_id := r.(inc_runbook_id);
     inc_runbook_version := r.(inc_runbook_version); inc_resolved_at := r.(inc_resolved_at);
     inc_resolution_source := r.(inc_resolution_source) |}.

Definition set_inc_runbook_id (v : option string) (r : Incident) : Incident :=
  {| inc_id := r.(inc_id); inc_created_at := r.(inc_created_at);
     inc_correlation_id := r.(inc_correlation_id); inc_cluster_id := r.(inc_cluster_id);
     inc_service_id := r.(inc_service_id); inc_incident_type := r.(inc_incident_type);
     inc_title := r.(inc_title); inc_summary := r.(inc_summary);
     inc_environment := r.(inc_environment); inc_state := r.(inc_state);
     inc_severity := r.(inc_severity); inc_risk_score := r.(inc_risk_score);
     inc_retry_count := r.(inc_retry_count); inc_runbook_id := v;
     inc_runbook_version := r.(inc_runbook_version); inc_resolved_at := r.(inc_resolved_at);
     inc_resolution_source := r.(inc_resolution_source) |}.

Definition set_inc_runbook_version (v : option Z) (r : Incident) : Incident :=
  {| inc_id := r.(inc_id); inc_created_at := r.(inc_created_at);
     inc_correlation_id := r.(inc_correlation_id); inc_cluster_id := r.(inc_cluster_id);
     inc_service_id := r.(inc_service_id); inc_incident_type := r.(inc_incident_type);
     inc_title := r.(inc_title); inc_summary := r.(inc_summary);
     inc_environment := r.(inc_environment); inc_state := r.(inc_state);
     inc_severity := r.(inc_severity); inc_risk_score := r.(inc_risk_score);
     inc_retry_count := r.(inc_retry_count); inc_runbook_id := r.(inc_runbook_id);
     inc_runbook_version := v; inc_resolved_at := r.(inc_resolved_at);
     inc_resolution_source := r.(inc_resolution_source) |}.

Definition set_inc_resolved_at (v : option datetime) (r : Incident) : Incident :=
  {| inc_id := r.(inc_id); inc_created_at := r.(inc_created_at);
     inc_correlation_id := r.(inc_correlation_id); inc_cluster_id := r.(inc_cluster_id);
     inc_service_id := r.(inc_service_id); inc_incident_type := r.(inc_incident_type);
     inc_title := r.(inc_title); inc_summary := r.(inc_summary);
     inc_environment := r.(inc_environment); inc_state := r.(inc_state);
     inc_severity := r.(inc_severity); inc_risk_score := r.(inc_risk_score);
     inc_retry_count := r.(inc_retry_count); inc_runbook_id := r.(inc_runbook_id);
     inc_runbook_version := r.(inc_runbook_version); inc_resolved_at := v;
     inc_resolution_source := r.(inc_resolution_source) |}.

Definition set_inc_resolution_source (v : option ResolutionSource) (r : Incident) : Incident :=
  {| inc_id := r.(inc_id); inc_created_at := r.(inc_created_at);
     inc_correlation_id := r.(inc_correlation_id); inc_cluster_id := r.(inc_cluster_id);
     inc_service_id := r.(inc_service_id); inc_incident_type := r.(inc_incident_type);
     inc_title := r.(inc_title); inc_summary := r.(inc_summary);
     inc_environment := r.(inc_environment); inc_state := r.(inc_state);
     inc_severity := r.(inc_severity); inc_risk_score := r.(inc_risk_score);
     inc_retry_count := r.(inc_retry_count); inc_runbook_id := r.(inc_runbook_id);
     inc_runbook_version := r.(inc_runbook_version); inc_resolved_at := r.(inc_resolved_at);
     inc_resolution_source := v |}.

(** Attribute assignment on a [ActionProposal]. *)
Definition set_prop_status (v : RecordStatus) (r : ActionProposal) : ActionProposal :=
  {| prop_id := r.(prop_id); prop_created_at := r.(prop_created_at);
     prop_incident_id := r.(prop_incident_id); prop_correlation_id := r.(prop_correlation_id);
     prop_action_type := r.(prop_action_type); prop_parameters := r.(prop_parameters);
     prop_status := v; prop_risk_score := r.(prop_risk_score);
     prop_risk_calculation := r.(prop_risk_calculation);
     prop_proposed_by := r.(prop_proposed_by) |}.

(** Attribute assignment on a [ActionExecution]. *)
Definition set_exec_status (v : RecordStatus) (r : ActionExecution) : ActionExecution :=
  {| exec_id := r.(exec_id); exec_created_at := r.(exec_created_at);
     exec_incident_id := r.(exec_incident_id); exec_proposal_id := r.(exec_proposal_id);
     exec_correlation_id := r.(exec_correlation_id); exec_action_type := r.(exec_action_type);
     exec_attempt := r.(exec_attempt); exec_status := v; exec_result := r.(exec_result);
     exec_error_code := r.(exec_error_code); exec_started_at := r.(exec_started_at);
     exec_completed_at := r.(exec_completed_at);
     exec_idempotency_key := r.(exec_idempotency_key);
     exec_rollback_of_execution_id := r.(exec_rollback_of_execution_id);
     exec_rolled_back_at := r.(exec_rolled_back_at) |}.

Definition set_exec_result (v : dict) (r : ActionExecution) : ActionExecution :=
  {| exec_id := r.(exec_id); exec_created_at := r.(exec_created_at);
     exec_incident_id := r.(exec_incident_id); exec_proposal_id := r.(exec_proposal_id);
     exec_correlation_id := r.(exec_correlation_id); exec_action_type := r.(exec_action_type);
     exec_attempt := r.(exec_attempt); exec_status := r.(exec_status); exec_result := v;
     exec_error_code := r.(exec_error_code); exec_started_at := r.(exec_started_at);
     exec_completed_at := r.(exec_completed_at);
     exec_idempotency_key := r.(exec_idempotency_key);
     exec_rollback_of_execution_id := r.(exec_rollback_of_execution_id);
     exec_rolled_back_at := r.(exec_rolled_back_at) |}.

Definition set_exec_error_code (v : option string) (r : ActionExecution) : ActionExecution :=
  {| exec_id := r.(exec_id); exec_created_at := r.(exec_created_at);
     exec_incident_id := r.(exec_incident_id); exec_proposal_id := r.(exec_proposal_id);
     exec_correlation_id := r.(exec_correlation_id); exec_action_type := r.(exec_action_type);
     exec_attempt := r.(exec_attempt); exec_status := r.(exec_status);
     exec_result := r.(exec_result); exec_error_code := v;
     exec_started_at := r.(exec_started_at); exec_completed_at := r.(exec_completed_at);
     exec_idempotency_key := r.(exec_idempotency_key);
     exec_rollback_of_execution_id := r.(exec_rollback_of_execution_id);
     exec_rolled_back_at := r.(exec_rolled_back_at) |}.

Definition set_exec_completed_at (v : option datetime) (r : ActionExecution) : ActionExecution :=
  {| exec_id := r.(exec_id); exec_created_at := r.(exec_created_at);
     exec_incident_id := r.(exec_incident_id); exec_proposal_id := r.(exec_proposal_id);
     exec_correlation_id := r.(exec_correlation_id); exec_action_type := r.(exec_action_type);
     exec_attempt := r.(exec_attempt); exec_status := r.(exec_status);
     exec_result := r.(exec_result); exec_error_code := r.(exec_error_code);
     exec_started_at := r.(exec_started_at); exec_completed_at := v;
     exec_idempotency_key := r.(exec_idempotency_key);
     exec_rollback_of_execution_id := r.(exec_rollback_of_execution_id);
     exec_rolled_back_at := r.(exec_rolled_back_at) |}.

Definition set_exec_rolled_back_at (v : option datetime) (r : ActionExecution) : ActionExecution :=
  {| exec_id := r.(exec_id); exec_created_at := r.(exec_created_at);
     exec_incident_id := r.(exec_incident_id); exec_proposal_id := r.(exec_proposal_id);
     exec_correlation_id := r.(exec_correlation_id); exec_action_type := r.(exec_action_type);
     exec_attempt := r.(exec_attempt); exec_status := r.(exec_status);
     exec_result := r.(exec_result); exec_error_code := r.(exec_error_code);
     exec_started_at := r.(exec_started_at); exec_completed_at := r.(exec_completed_at);
     exec_idempotency_key := r.(exec_idempotency_key);
     exec_rollback_of_execution_id := r.(exec_rollback_of_execution_id);
     exec_rolled_back_at := v |}.

(** Attribute assignment on a [Approval]. *)
Definition set_app_decision (v : ApprovalDecision) (r : Approval) : Approval :=
  {| app_id := r.(app_id); app_created_at := r.(app_created_at);
     app_incident_id := r.(app_incident_id); app_proposal_id := r.(app_proposal_id);
     app_actor_id := r.(app_actor_id); app_decision := v; app_reason := r.(app_reason);
     app_action := r.(app_action); app_environment := r.(app_environment);
     app_risk_score := r.(app_risk_score); app_blast_radius := r.(app_blast_radius);
     app_reversible := r.(app_reversible); app_requested_by := r.(app_requested_by);
     app_runbook := r.(app_runbook); app_proposal_version := r.(app_proposal_version);
     app_target_reference := r.(app_target_reference);
     app_expected_state := r.(app_expected_state); app_context_digest := r.(app_context_digest);
     app_expires_at := r.(app_expires_at); app_decided_at := r.(app_decided_at);
     app_decided_by := r.(app_decided_by); app_decision_comment := r.(app_decision_comment);
     app_invalidated_reason := r.(app_invalidated_reason);
     app_execution_claimed_at := r.(app_execution_claimed_at);
     app_execution_reference := r.(app_execution_reference) |}.

Definition set_app_actor_id (v : option uuid) (r : Approval) : Approval :=
  {| app_id := r.(app_id); app_created_at := r.(app_created_at);
     app_incident_id := r.(app_incident_id); app_proposal_id := r.(app_proposal_id);
     app_actor_id := v; app_decision := r.(app_decision); app_reason := r.(app_reason);
     app_action := r.(app_action); app_environment := r.(app_environment);
     app_risk_score := r.(app_risk_score); app_blast_radius := r.(app_blast_radius);
     app_reversible := r.(app_reversible); app_requested_by := r.(app_requested_by);
     app_runbook := r.(app_runbook); app_proposal_version := r.(app_proposal_version);
     app_target_reference := r.(app_target_reference);
     app_expected_state := r.(app_expected_state); app_context_digest := r.(app_context_digest);
     app_expires_at := r.(app_expires_at); app_decided_at := r.(app_decided_at);
     app_decided_by := r.(app_decided_by); app_decision_comment := r.(app_decision_comment);
     app_invalidated_reason := r.(app_invalidated_reason);
     app_execution_claimed_at := r.(app_execution_claimed_at);
     app_execution_reference := r.(app_execution_reference) |}.

Definition set_app_decided_at (v : option datetime) (r : Approval) : Approval :=
  {| app_id := r.(app_id); app_created_at := r.(app_created_at);
     app_incident_id := r.(app_incident_id); app_proposal_id := r.(app_proposal_id);
     app_actor_id := r.(app_actor_id); app_decision := r.(app_decision);
     app_reason := r.(app_reason); app_action := r.(app_action);
     app_environment := r.(app_environment); app_risk_score := r.(app_risk_score);
     app_blast_radius := r.(app_blast_radius); app_reversible := r.(app_reversible);
     app_requested_by := r.(app_requested_by); app_runbook := r.(app_runbook);
     app_proposal_version := r.(app_proposal_version);
     app_target_reference := r.(app_target_reference);
     app_expected_state := r.(app_expected_state); app_context_digest := r.(app_context_digest);
     app_expires_at := r.(app_expires_at); app_decided_at := v;
     app_decided_by := r.(app_decided_by); app_decision_comment := r.(app_decision_comment);
     app_invalidated_reason := r.(app_invalidated_reason);
     app_execution_claimed_at := r.(app_execution_claimed_at);
     app_execution_reference := r.(app_execution_reference) |}.

Definition set_app_decided_by (v : option string) (r : Approval) : Approval :=
  {| app_id := r.(app_id); app_created_at := r.(app_created_at);
     app_incident_id := r.(app_incident_id); app_proposal_id := r.(app_proposal_id);
     app_actor_id := r.(app_actor_id); app_decision := r.(app_decision);
     app_reason := r.(app_reason); app_action := r.(app_action);
     app_environment := r.(app_environment); app_risk_score := r.(app_risk_score);
     app_blast_radius := r.(app_blast_radius); app_reversible := r.(app_reversible);
     app_requested_by := r.(app_requested_by); app_runbook := r.(app_runbook);
     app_proposal_version := r.(app_proposal_version);
     app_target_reference := r.(app_target_reference);
     app_expected_state := r.(app_expected_state); app_context_digest := r.(app_context_digest);
     app_expires_at := r.(app_expires_at); app_decided_at := r.(app_decided_at);
     app_decided_by := v; app_decision_comment := r.(app_decision_comment);
     app_invalidated_reason := r.(app_invalidated_reason);
     app_execution_claimed_at := r.(app_execution_claimed_at);
     app_execution_reference := r.(app_execution_reference) |}.

Definition set_app_decision_comment (v : option string) (r : Approval) : Approval :=
  {| app_id := r.(app_id); app_created_at := r.(app_created_at);
     app_incident_id := r.(app_incident_id); app_proposal_id := r.(app_proposal_id);
     app_actor_id := r.(app_actor_id); app_decision := r.(app_decision);
     app_reason := r.(app_reason); app_action := r.(app_action);
     app_environment := r.(app_environment); app_risk_score := r.(app_risk_score);
     app_blast_radius := r.(app_blast_radius); app_reversible := r.(app_reversible);
     app_requested_by := r.(app_requested_by); app_runbook := r.(app_runbook);
     app_proposal_version := r.(app_proposal_version);
     app_target_reference := r.(app_target_reference);
     app_expected_state := r.(app_expected_state); app_context_digest := r.(app_context_digest);
     app_expires_at := r.(app_expires_at); app_decided_at := r.(app_decided_at);
     app_decided_by := r.(app_decided_by); app_decision_comment := v;
     app_invalidated_reason := r.(app_invalidated_reason);
     app_execution_claimed_at := r.(app_execution_claimed_at);
     app_execution_reference := r.(app_execution_reference) |}.

Definition set_app_invalidated_reason (v : option string) (r : Approval) : Approval :=
  {| app_id := r.(app_id); app_created_at := r.(app_created_at);
     app_incident_id := r.(app_incident_id); app_proposal_id := r.(app_proposal_id);
     app_actor_id := r.(app_actor_id); app_decision := r.(app_decision);
     app_reason := r.(app_reason); app_action := r.(app_action);
     app_environment := r.(app_environment); app_risk_score := r.(app_risk_score);
     app_blast_radius := r.(app_blast_radius); app_reversible := r.(app_reversible);
     app_requested_by := r.(app_requested_by); app_runbook := r.(app_runbook);
     app_proposal_version := r.(app_proposal_version);
     app_target_reference := r.(app_target_reference);
     app_expected_state := r.(app_expected_state); app_context_digest := r.(app_context_digest);
     app_expires_at := r.(app_expires_at); app_decided_at := r.(app_decided_at);
     app_decided_by := r.(app_decided_by); app_decision_comment := r.(app_decision_comment);
     app_invalidated_reason := v; app_execution_claimed_at := r.(app_execution_claimed_at);
     app_execution_reference := r.(app_execution_reference) |}.

Definition set_app_execution_claimed_at (v : option datetime) (r : Approval) : Approval :=
  {| app_id := r.(app_id); app_created_at := r.(app_created_at);
     app_incident_id := r.(app_incident_id); app_proposal_id := r.(app_proposal_id);
     app_actor_id := r.(app_actor_id); app_decision := r.(app_decision);
     app_reason := r.(app_reason); app_action := r.(app_action);
     app_environment := r.(app_environment); app_risk_score := r.(app_risk_score);
     app_blast_radius := r.(app_blast_radius); app_reversible := r.(app_reversible);
     app_requested_by := r.(app_requested_by); app_runbook := r.(app_runbook);
     app_proposal_version := r.(app_proposal_version);
     app_target_reference := r.(app_target_reference);
     app_expected_state := r.(app_expected_state); app_context_digest := r.(app_context_digest);
     app_expires_at := r.(app_expires_at); app_decided_at := r.(app_decided_at);
     app_decided_by := r.(app_decided_by); app_decision_comment := r.(app_decision_comment);
     app_invalidated_reason := r.(app_invalidated_reason); app_execution_claimed_at := v;
     app_execution_reference := r.(app_execution_reference) |}.

Definition set_app_execution_reference (v : option string) (r : Approval) : Approval :=
  {| app_id := r.(app_id); app_created_at := r.(app_created_at);
     app_incident_id := r.(app_incident_id); app_proposal_id := r.(app_proposal_id);
     app_actor_id := r.(app_actor_id); app_decision := r.(app_decision);
     app_reason := r.(app_reason); app_action := r.(app_action);
     app_environment := r.(app_environment); app_risk_score := r.(app_risk_score);
     app_blast_radius := r.(app_blast_radius); app_reversible := r.(app_reversible);
     app_requested_by := r.(app_requested_by); app_runbook := r.(app_runbook);
     app_proposal_version := r.(app_proposal_version);
     app_target_reference := r.(app_target_reference);
     app_expected_state := r.(app_expected_state); app_context_digest := r.(app_context_digest);
     app_expires_at := r.(app_expires_at); app_decided_at := r.(app_decided_at);
     app_decided_by := r.(app_decided_by); app_decision_comment := r.(app_decision_comment);
     app_invalidated_reason := r.(app_invalidated_reason);
     app_execution_claimed_at := r.(app_execution_claimed_at); app_execution_reference := v |}.

(** Attribute assignment on a [RunbookExecution]. *)
Definition set_rbx_status (v : RecordStatus) (r : RunbookExecution) : RunbookExecution :=
  {| rbx_id := r.(rbx_id); rbx_created_at := r.(rbx_created_at);
     rbx_incident_id := r.(rbx_incident_id); rbx_runbook_id := r.(rbx_runbook_id);
     rbx_runbook_version := r.(rbx_runbook_version); rbx_status := v;
     rbx_context := r.(rbx_context) |}.

(** Attribute assignment on a [Notification]. *)
Definition set_ntf_status (v : RecordStatus) (r : Notification) : Notification :=
  {| ntf_id := r.(ntf_id); ntf_created_at := r.(ntf_created_at);
     ntf_incident_id := r.(ntf_incident_id); ntf_channel := r.(ntf_channel); ntf_status := v;
     ntf_destination_reference := r.(ntf_destination_reference);
     ntf_event_type := r.(ntf_event_type); ntf_dedupe_key := r.(ntf_dedupe_key);
     ntf_attempts := r.(ntf_attempts); ntf_max_attempts := r.(ntf_max_attempts);
     ntf_last_error := r.(ntf_last_error); ntf_delivered_at := r.(ntf_delivered_at);
     ntf_next_attempt_at := r.(ntf_next_attempt_at); ntf_payload := r.(ntf_payload) |}.

Definition set_ntf_destination_reference (v : option string) (r : Notification) : Notification :=
  {| ntf_id := r.(ntf_id); ntf_created_at := r.(ntf_created_at);
     ntf_incident_id := r.(ntf_incident_id); ntf_channel := r.(ntf_channel);
     ntf_status := r.(ntf_status); ntf_destination_reference := v;
     ntf_event_type := r.(ntf_event_type); ntf_dedupe_key := r.(ntf_dedupe_key);
     ntf_attempts := r.(ntf_attempts); ntf_max_attempts := r.(ntf_max_attempts);
     ntf_last_error := r.(ntf_last_error); ntf_delivered_at := r.(ntf_delivered_at);
     ntf_next_attempt_at := r.(ntf_next_attempt_at); ntf_payload := r.(ntf_payload) |}.

Definition set_ntf_attempts (v : Z) (r : Notification) : Notification :=
  {| ntf_id := r.(ntf_id); ntf_created_at := r.(ntf_created_at);
     ntf_incident_id := r.(ntf_incident_id); ntf_channel := r.(ntf_channel);
     ntf_status := r.(ntf_status); ntf_destination_reference := r.(ntf_destination_reference);
     ntf_event_type := r.(ntf_event_type); ntf_dedupe_key := r.(ntf_dedupe_key);
     ntf_attempts := v; ntf_max_attempts := r.(ntf_max_attempts);
     ntf_last_error := r.(ntf_last_error); ntf_delivered_at := r.(ntf_delivered_at);
     ntf_next_attempt_at := r.(ntf_next_attempt_at); ntf_payload := r.(ntf_payload) |}.

Definition set_ntf_last_error (v : option string) (r : Notification) : Notification :=
  {| ntf_id := r.(ntf_id); ntf_created_at := r.(ntf_created_at);
     ntf_incident_id := r.(ntf_incident_id); ntf_channel := r.(ntf_channel);
     ntf_status := r.(ntf_status); ntf_destination_reference := r.(ntf_destination_reference);
     ntf_event_type := r.(ntf_event_type); ntf_dedupe_key := r.(ntf_dedupe_key);
     ntf_attempts := r.(ntf_attempts); ntf_max_attempts := r.(ntf_max_attempts);
     ntf_last_error := v; ntf_delivered_at := r.(ntf_delivered_at);
     ntf_next_attempt_at := r.(ntf_next_attempt_at); ntf_payload := r.(ntf_payload) |}.

Definition set_ntf_delivered_at (v : option datetime) (r : Notification) : Notification :=
  {| ntf_id := r.(ntf_id); ntf_created_at := r.(ntf_created_at);
     ntf_incident_id := r.(ntf_incident_id); ntf_channel := r.(ntf_channel);
     ntf_status := r.(ntf_status); ntf_destination_reference := r.(ntf_destination_reference);
     ntf_event_type := r.(ntf_event_type); ntf_dedupe_key := r.(ntf_dedupe_key);
     ntf_attempts := r.(ntf_attempts); ntf_max_attempts := r.(ntf_max_attempts);
     ntf_last_error := r.(ntf_last_error); ntf_delivered_at := v;
     ntf_next_attempt_at := r.(ntf_next_attempt_at); ntf_payload := r.(ntf_payload) |}.

Definition set_ntf_next_attempt_at (v : option datetime) (r : Notification) : Notification :=
  {| ntf_id := r.(ntf_id); ntf_created_at := r.(ntf_created_at);
     ntf_incident_id := r.(ntf_incident_id); ntf_channel := r.(ntf_channel);
     ntf_status := r.(ntf_status); ntf_destination_reference := r.(ntf_destination_reference);
     ntf_event_type := r.(ntf_event_type); ntf_dedupe_key := r.(ntf_dedupe_key);
     ntf_attempts := r.(ntf_attempts); ntf_max_attempts := r.(ntf_max_attempts);
     ntf_last_error := r.(ntf_last_error); ntf_delivered_at := r.(ntf_delivered_at);
     ntf_next_attempt_at := v; ntf_payload := r.(ntf_payload) |}.

(** Attribute assignment on a [SecurityEvent]. *)
Definition set_sev_last_seen_at (v : datetime) (r : SecurityEvent) : SecurityEvent :=
  {| sev_id := r.(sev_id); sev_created_at := r.(sev_created_at);
     sev_correlation_id := r.(sev_correlation_id); sev_incident_id := r.(sev_incident_id);
     sev_source := r.(sev_source); sev_fingerprint := r.(sev_fingerprint);
     sev_event_type := r.(sev_event_type); sev_severity := r.(sev_severity);
     sev_environment := r.(sev_environment); sev_namespace := r.(sev_namespace);
     sev_pod := r.(sev_pod); sev_workload := r.(sev_workload);
     sev_container_name := r.(sev_container_name); sev_policy := r.(sev_policy);
     sev_evidence_ref := r.(sev_evidence_ref); sev_occurred_at := r.(sev_occurred_at);
     sev_last_seen_at := v; sev_dedup_count := r.(sev_dedup_count);
     sev_risk_score := r.(sev_risk_score); sev_policy_decision := r.(sev_policy_decision);
     sev_containment_status := r.(sev_containment_status); sev_payload := r.(sev_payload) |}.

Definition set_sev_dedup_count (v : Z) (r : SecurityEvent) : SecurityEvent :=
  {| sev_id := r.(sev_id); sev_created_at := r.(sev_created_at);
     sev_correlation_id := r.(sev_correlation_id); sev_incident_id := r.(sev_incident_id);
     sev_source := r.(sev_source); sev_fingerprint := r.(sev_fingerprint);
     sev_event_type := r.(sev_event_type); sev_severity := r.(sev_severity);
     sev_environment := r.(sev_environment); sev_namespace := r.(sev_namespace);
     sev_pod := r.(sev_pod); sev_workload := r.(sev_workload);
     sev_container_name := r.(sev_container_name); sev_policy := r.(sev_policy);
     sev_evidence_ref := r.(sev_evidence_ref); sev_occurred_at := r.(sev_occurred_at);
     sev_last_seen_at := r.(sev_last_seen_at); sev_dedup_count := v;
     sev_risk_score := r.(sev_risk_score); sev_policy_decision := r.(sev_policy_decision);
     sev_containment_status := r.(sev_containment_status); sev_payload := r.(sev_payload) |}.

Definition set_sev_risk_score (v : option Z) (r : SecurityEvent) : SecurityEvent :=
  {| sev_id := r.(sev_id); sev_created_at := r.(sev_created_at);
     sev_correlation_id := r.(sev_correlation_id); sev_incident_id := r.(sev_incident_id);
     sev_source := r.(sev_source); sev_fingerprint := r.(sev_fingerprint);
     sev_event_type := r.(sev_event_type); sev_severity := r.(sev_severity);
     sev_environment := r.(sev_environment); sev_namespace := r.(sev_namespace);
     sev_pod := r.(sev_pod); sev_workload := r.(sev_workload);
     sev_container_name := r.(sev_container_name); sev_policy := r.(sev_policy);
     sev_evidence_ref := r.(sev_evidence_ref); sev_occurred_at := r.(sev_occurred_at);
     sev_last_seen_at := r.(sev_last_seen_at); sev_dedup_count := r.(sev_dedup_count);
     sev_risk_score := v; sev_policy_decision := r.(sev_policy_decision);
     sev_containment_status := r.(sev_containment_status); sev_payload := r.(sev_payload) |}.

Definition set_sev_policy_decision (v : option string) (r : SecurityEvent) : SecurityEvent :=
  {| sev_id := r.(sev_id); sev_created_at := r.(sev_created_at);
     sev_correlation_id := r.(sev_correlation_id); sev_incident_id := r.(sev_incident_id);
     sev_source := r.(sev_source); sev_fingerprint := r.(sev_fingerprint);
     sev_event_type := r.(sev_event_type); sev_severity := r.(sev_severity);
     sev_environment := r.(sev_environment); sev_namespace := r.(sev_namespace);
     sev_pod := r.(sev_pod); sev_workload := r.(sev_workload);
     sev_container_name := r.(sev_container_name); sev_policy := r.(sev_policy);
     sev_evidence_ref := r.(sev_evidence_ref); sev_occurred_at := r.(sev_occurred_at);
     sev_last_seen_at := r.(sev_last_seen_at); sev_dedup_count := r.(sev_dedup_count);
     sev_risk_score := r.(sev_risk_score); sev_policy_decision := v;
     sev_containment_status := r.(sev_containment_status); sev_payload := r.(sev_payload) |}.

Definition set_sev_containment_status (v : ContainmentStatus) (r : SecurityEvent) : SecurityEvent :=
  {| sev_id := r.(sev_id); sev_created_at := r.(sev_created_at);
     sev_correlation_id := r.(sev_correlation_id); sev_incident_id := r.(sev_incident_id);
     sev_source := r.(sev_source); sev_fingerprint := r.(sev_fingerprint);
     sev_event_type := r.(sev_event_type); sev_severity := r.(sev_severity);
     sev_environment := r.(sev_environment); sev_namespace := r.(sev_namespace);
     sev_pod := r.(sev_pod); sev_workload := r.(sev_workload);
     sev_container_name := r.(sev_container_name); sev_policy := r.(sev_policy);
     sev_evidence_ref := r.(sev_evidence_ref); sev_occurred_at := r.(sev_occurred_at);
     sev_last_seen_at := r.(sev_last_seen_at); sev_dedup_count := r.(sev_dedup_count);
     sev_risk_score := r.(sev_risk_score); sev_policy_decision := r.(sev_policy_decision);
     sev_containment_status := v; sev_payload := r.(sev_payload) |}.

(** Attribute assignment on a [QuarantineRecord]. *)
Definition set_qrt_status (v : ContainmentStatus) (r : QuarantineRecord) : QuarantineRecord :=
  {| qrt_id := r.(qrt_id); qrt_created_at := r.(qrt_created_at);
     qrt_incident_id := r.(qrt_incident_id); qrt_security_event_id := r.(qrt_security_event_id);
     qrt_namespace := r.(qrt_namespace); qrt_pod := r.(qrt_pod);
     qrt_workload := r.(qrt_workload); qrt_policy_name := r.(qrt_policy_name);
     qrt_selector := r.(qrt_selector); qrt_reason := r.(qrt_reason);
     qrt_risk_score := r.(qrt_risk_score); qrt_opa_decision := r.(qrt_opa_decision);
     qrt_status := v; qrt_verification := r.(qrt_verification);
     qrt_applied_at := r.(qrt_applied_at); qrt_removed_at := r.(qrt_removed_at) |}.

Definition set_qrt_verification (v : dict) (r : QuarantineRecord) : QuarantineRecord :=
  {| qrt_id := r.(qrt_id); qrt_created_at := r.(qrt_created_at);
     qrt_incident_id := r.(qrt_incident_id); qrt_security_event_id := r.(qrt_security_event_id);
     qrt_namespace := r.(qrt_namespace); qrt_pod := r.(qrt_pod);
     qrt_workload := r.(qrt_workload); qrt_policy_name := r.(qrt_policy_name);
     qrt_selector := r.(qrt_selector); qrt_reason := r.(qrt_reason);
     qrt_risk_score := r.(qrt_risk_score); qrt_opa_decision := r.(qrt_opa_decision);
     qrt_status := r.(qrt_status); qrt_verification := v; qrt_applied_at := r.(qrt_applied_at);
     qrt_removed_at := r.(qrt_removed_at) |}.

Definition set_qrt_applied_at (v : option datetime) (r : QuarantineRecord) : QuarantineRecord :=
  {| qrt_id := r.(qrt_id); qrt_created_at := r.(qrt_created_at);
     qrt_incident_id := r.(qrt_incident_id); qrt_security_event_id := r.(qrt_security_event_id);
     qrt_namespace := r.(qrt_namespace); qrt_pod := r.(qrt_pod);
     qrt_workload := r.(qrt_workload); qrt_policy_name := r.(qrt_policy_name);
     qrt_selector := r.(qrt_selector); qrt_reason := r.(qrt_reason);
     qrt_risk_score := r.(qrt_risk_score); qrt_opa_decision := r.(qrt_opa_decision);
     qrt_status := r.(qrt_status); qrt_verification := r.(qrt_verification);
     qrt_applied_at := v; qrt_removed_at := r.(qrt_removed_at) |}.

Definition set_qrt_removed_at (v : option datetime) (r : QuarantineRecord) : QuarantineRecord :=
  {| qrt_id := r.(qrt_id); qrt_created_at := r.(qrt_created_at);
     qrt_incident_id := r.(qrt_incident_id); qrt_security_event_id := r.(qrt_security_event_id);
     qrt_namespace := r.(qrt_namespace); qrt_pod := r.(qrt_pod);
     qrt_workload := r.(qrt_workload); qrt_policy_name := r.(qrt_policy_name);
     qrt_selector := r.(qrt_selector); qrt_reason := r.(qrt_reason);
     qrt_risk_score := r.(qrt_risk_score); qrt_opa_decision := r.(qrt_opa_decision);
     qrt_status := r.(qrt_status); qrt_verification := r.(qrt_verification);
     qrt_applied_at := r.(qrt_applied_at); qrt_removed_at := v |}.

(** Attribute assignment on a [GitHubAutomationRecord]. *)
Definition set_gar_external_number (v : option Z) (r : GitHubAutomationRecord) : GitHubAutomationRecord :=
  {| gar_id := r.(gar_id); gar_created_at := r.(gar_created_at);
     gar_dedupe_key := r.(gar_dedupe_key); gar_incident_id := r.(gar_incident_id);
     gar_operation := r.(gar_operation); gar_repository := r.(gar_repository);
     gar_external_number := v; gar_external_url := r.(gar_external_url);
     gar_status := r.(gar_status); gar_title := r.(gar_title); gar_summary := r.(gar_summary);
     gar_details := r.(gar_details) |}.

Definition set_gar_external_url (v : option string) (r : GitHubAutomationRecord) : GitHubAutomationRecord :=
  {| gar_id := r.(gar_id); gar_created_at := r.(gar_created_at);
     gar_dedupe_key := r.(gar_dedupe_key); gar_incident_id := r.(gar_incident_id);
     gar_operation := r.(gar_operation); gar_repository := r.(gar_repository);
     gar_external_number := r.(gar_external_number); gar_external_url := v;
     gar_status := r.(gar_status); gar_title := r.(gar_title); gar_summary := r.(gar_summary);
     gar_details := r.(gar_details) |}.

Definition set_gar_status (v : string) (r : GitHubAutomationRecord) : GitHubAutomationRecord :=
  {| gar_id := r.(gar_id); gar_created_at := r.(gar_created_at);
     gar_dedupe_key := r.(gar_dedupe_key); gar_incident_id := r.(gar_incident_id);
     gar_operation := r.(gar_operation); gar_repository := r.(gar_repository);
     gar_external_number := r.(gar_external_number); gar_external_url := r.(gar_external_url);
     gar_status := v; gar_title := r.(gar_title); gar_summary := r.(gar_summary);
     gar_details := r.(gar_details) |}.

Definition set_gar_title (v : option string) (r : GitHubAutomationRecord) : GitHubAutomationRecord :=
  {| gar_id := r.(gar_id); gar_created_at := r.(gar_created_at);
     gar_dedupe_key := r.(gar_dedupe_key); gar_incident_id := r.(gar_incident_id);
     gar_operation := r.(gar_operation); gar_repository := r.(gar_repository);
     gar_external_number := r.(gar_external_number); gar_external_url := r.(gar_external_url);
     gar_status := r.(gar_status); gar_title := v; gar_summary := r.(gar_summary);
     gar_details := r.(gar_details) |}.

Definition set_gar_summary (v : option string) (r : GitHubAutomationRecord) : GitHubAutomationRecord :=
  {| gar_id := r.(gar_id); gar_created_at := r.(gar_created_at);
     gar_dedupe_key := r.(gar_dedupe_key); gar_incident_id := r.(gar_incident_id);
     gar_operation := r.(gar_operation); gar_repository := r.(gar_repository);
     gar_external_number := r.(gar_external_number); gar_external_url := r.(gar_external_url);
     gar_status := r.(gar_status); gar_title := r.(gar_title); gar_summary := v;
     gar_details := r.(gar_details) |}.

Definition set_gar_details (v : dict) (r : GitHubAutomationRecord) : GitHubAutomationRecord :=
  {| gar_id := r.(gar_id); gar_created_at := r.(gar_created_at);
     gar_dedupe_key := r.(gar_dedupe_key); gar_incident_id := r.(gar_incident_id);
     gar_operation := r.(gar_operation); gar_repository := r.(gar_repository);
     gar_external_number := r.(gar_external_number); gar_external_url := r.(gar_external_url);
     gar_status := r.(gar_status); gar_title := r.(gar_title); gar_summary := r.(gar_summary);
     gar_details := v |}.


(** Attribute assignment on a [ChaosExecution]. *)
Definition set_chx_status (v : ExperimentStatus) (r : ChaosExecution) : ChaosExecution :=
  {| chx_id := r.(chx_id); chx_created_at := r.(chx_created_at);
     chx_scenario_id := r.(chx_scenario_id); chx_status := v;
     chx_requested_by := r.(chx_requested_by); chx_target_namespace := r.(chx_target_namespace);
     chx_target_selector := r.(chx_target_selector);
     chx_expected_alert := r.(chx_expected_alert);
     chx_expected_runbook := r.(chx_expected_runbook);
     chx_resource_kind := r.(chx_resource_kind); chx_resource_name := r.(chx_resource_name);
     chx_max_runtime_seconds := r.(chx_max_runtime_seconds);
     chx_cleanup_deadline := r.(chx_cleanup_deadline); chx_started_at := r.(chx_started_at);
     chx_completed_at := r.(chx_completed_at);
     chx_cleanup_completed_at := r.(chx_cleanup_completed_at);
     chx_failure_reason := r.(chx_failure_reason); chx_details := r.(chx_details) |}.

Definition set_chx_resource_kind (v : option string) (r : ChaosExecution) : ChaosExecution :=
  {| chx_id := r.(chx_id); chx_created_at := r.(chx_created_at);
     chx_scenario_id := r.(chx_scenario_id); chx_status := r.(chx_status);
     chx_requested_by := r.(chx_requested_by); chx_target_namespace := r.(chx_target_namespace);
     chx_target_selector := r.(chx_target_selector);
     chx_expected_alert := r.(chx_expected_alert);
     chx_expected_runbook := r.(chx_expected_runbook); chx_resource_kind := v;
     chx_resource_name := r.(chx_resource_name);
     chx_max_runtime_seconds := r.(chx_max_runtime_seconds);
     chx_cleanup_deadline := r.(chx_cleanup_deadline); chx_started_at := r.(chx_started_at);
     chx_completed_at := r.(chx_completed_at);
     chx_cleanup_completed_at := r.(chx_cleanup_completed_at);
     chx_failure_reason := r.(chx_failure_reason); chx_details := r.(chx_details) |}.

Definition set_chx_resource_name (v : option string) (r : ChaosExecution) : ChaosExecution :=
  {| chx_id := r.(chx_id); chx_created_at := r.(chx_created_at);
     chx_scenario_id := r.(chx_scenario_id); chx_status := r.(chx_status);
     chx_requested_by := r.(chx_requested_by); chx_target_namespace := r.(chx_target_namespace);
     chx_target_selector := r.(chx_target_selector);
     chx_expected_alert := r.(chx_expected_alert);
     chx_expected_runbook := r.(chx_expected_runbook);
     chx_resource_kind := r.(chx_resource_kind); chx_resource_name := v;
     chx_max_runtime_seconds := r.(chx_max_runtime_seconds);
     chx_cleanup_deadline := r.(chx_cleanup_deadline); chx_started_at := r.(chx_started_at);
     chx_completed_at := r.(chx_completed_at);
     chx_cleanup_completed_at := r.(chx_cleanup_completed_at);
     chx_failure_reason := r.(chx_failure_reason); chx_details := r.(chx_details) |}.

Definition set_chx_started_at (v : option datetime) (r : ChaosExecution) : ChaosExecution :=
  {| chx_id := r.(chx_id); chx_created_at := r.(chx_created_at);
     chx_scenario_id := r.(chx_scenario_id); chx_status := r.(chx_status);
     chx_requested_by := r.(chx_requested_by); chx_target_namespace := r.(chx_target_namespace);
     chx_target_selector := r.(chx_target_selector);
     chx_expected_alert := r.(chx_expected_alert);
     chx_expected_runbook := r.(chx_expected_runbook);
     chx_resource_kind := r.(chx_resource_kind); chx_resource_name := r.(chx_resource_name);
     chx_max_runtime_seconds := r.(chx_max_runtime_seconds);
     chx_cleanup_deadline := r.(chx_cleanup_deadline); chx_started_at := v;
     chx_completed_at := r.(chx_completed_at);
     chx_cleanup_completed_at := r.(chx_cleanup_completed_at);
     chx_failure_reason := r.(chx_failure_reason); chx_details := r.(chx_details) |}.

Definition set_chx_completed_at (v : option datetime) (r : ChaosExecution) : ChaosExecution :=
  {| chx_id := r.(chx_id); chx_created_at := r.(chx_created_at);
     chx_scenario_id := r.(chx_scenario_id); chx_status := r.(chx_status);
     chx_requested_by := r.(chx_requested_by); chx_target_namespace := r.(chx_target_namespace);
     chx_target_selector := r.(chx_target_selector);
     chx_expected_alert := r.(chx_expected_alert);
     chx_expected_runbook := r.(chx_expected_runbook);
     chx_resource_kind := r.(chx_resource_kind); chx_resource_name := r.(chx_resource_name);
     chx_max_runtime_seconds := r.(chx_max_runtime_seconds);
     chx_cleanup_deadline := r.(chx_cleanup_deadline); chx_started_at := r.(chx_started_at);
     chx_completed_at := v; chx_cleanup_completed_at := r.(chx_cleanup_completed_at);
     chx_failure_reason := r.(chx_failure_reason); chx_details := r.(chx_details) |}.

Definition set_chx_cleanup_completed_at (v : option datetime) (r : ChaosExecution) : ChaosExecution :=
  {| chx_id := r.(chx_id); chx_created_at := r.(chx_created_at);
     chx_scenario_id := r.(chx_scenario_id); chx_status := r.(chx_status);
     chx_requested_by := r.(chx_requested_by); chx_target_namespace := r.(chx_target_namespace);
     chx_target_selector := r.(chx_target_selector);
     chx_expected_alert := r.(chx_expected_alert);
     chx_expected_runbook := r.(chx_expected_runbook);
     chx_resource_kind := r.(chx_resource_kind); chx_resource_name := r.(chx_resource_name);
     chx_max_runtime_seconds := r.(chx_max_runtime_seconds);
     chx_cleanup_deadline := r.(chx_cleanup_deadline); chx_started_at := r.(chx_started_at);
     chx_completed_at := r.(chx_completed_at); chx_cleanup_completed_at := v;
     chx_failure_reason := r.(chx_failure_reason); chx_details := r.(chx_details) |}.

Definition set_chx_failure_reason (v : option string) (r : ChaosExecution) : ChaosExecution :=
  {| chx_id := r.(chx_id); chx_created_at := r.(chx_created_at);
     chx_scenario_id := r.(chx_scenario_id); chx_status := r.(chx_status);
     chx_requested_by := r.(chx_requested_by); chx_target_namespace := r.(chx_target_namespace);
     chx_target_selector := r.(chx_target_selector);
     chx_expected_alert := r.(chx_expected_alert);
     chx_expected_runbook := r.(chx_expected_runbook);
     chx_resource_kind := r.(chx_resource_kind); chx_resource_name := r.(chx_resource_name);
     chx_max_runtime_seconds := r.(chx_max_runtime_seconds);
     chx_cleanup_deadline := r.(chx_cleanup_deadline); chx_started_at := r.(chx_started_at);
     chx_completed_at := r.(chx_completed_at);
     chx_cleanup_completed_at := r.(chx_cleanup_completed_at); chx_failure_reason := v;
     chx_details := r.(chx_details) |}.

Definition set_chx_details (v : dict) (r : ChaosExecution) : ChaosExecution :=
  {| chx_id := r.(chx_id); chx_created_at := r.(chx_created_at);
     chx_scenario_id := r.(chx_scenario_id); chx_status := r.(chx_status);
     chx_requested_by := r.(chx_requested_by); chx_target_namespace := r.(chx_target_namespace);
     chx_target_selector := r.(chx_target_selector);
     chx_expected_alert := r.(chx_expected_alert);
     chx_expected_runbook := r.(chx_expected_runbook);
     chx_resource_kind := r.(chx_resource_kind); chx_resource_name := r.(chx_resource_name);
     chx_max_runtime_seconds := r.(chx_max_runtime_seconds);
     chx_cleanup_deadline := r.(chx_cleanup_deadline); chx_started_at := r.(chx_started_at);
     chx_completed_at := r.(chx_completed_at);
     chx_cleanup_completed_at := r.(chx_cleanup_completed_at);
     chx_failure_reason := r.(chx_failure_reason); chx_details := v |}.

(** Attribute assignment on a [FinOpsRecommendation]. *)
Definition set_fin_status (v : FinOpsStatus) (r : FinOpsRecommendation) : FinOpsRecommendation :=
  {| fin_id := r.(fin_id); fin_created_at := r.(fin_created_at); fin_service := r.(fin_service);
     fin_environment := r.(fin_environment);
     fin_recommendation_type := r.(fin_recommendation_type); fin_status := v;
     fin_estimated_monthly_savings := r.(fin_estimated_monthly_savings);
     fin_current_config := r.(fin_current_config);
     fin_recommended_config := r.(fin_recommended_config); fin_evidence := r.(fin_evidence);
     fin_estimated_savings := r.(fin_estimated_savings); fin_risk_score := r.(fin_risk_score);
     fin_confidence := r.(fin_confidence); fin_limitations := r.(fin_limitations);
     fin_evidence_window_start := r.(fin_evidence_window_start);
     fin_evidence_window_end := r.(fin_evidence_window_end);
     fin_source_fingerprint := r.(fin_source_fingerprint);
     fin_proposal_version := r.(fin_proposal_version);
     fin_expected_state_digest := r.(fin_expected_state_digest);
     fin_expires_at := r.(fin_expires_at); fin_pr_reference := r.(fin_pr_reference);
     fin_pr_url := r.(fin_pr_url); fin_approved_at := r.(fin_approved_at);
     fin_rejected_at := r.(fin_rejected_at); fin_details := r.(fin_details) |}.

Definition set_fin_pr_reference (v : option string) (r : FinOpsRecommendation) : FinOpsRecommendation :=
  {| fin_id := r.(fin_id); fin_created_at := r.(fin_created_at); fin_service := r.(fin_service);
     fin_environment := r.(fin_environment);
     fin_recommendation_type := r.(fin_recommendation_type); fin_status := r.(fin_status);
     fin_estimated_monthly_savings := r.(fin_estimated_monthly_savings);
     fin_current_config := r.(fin_current_config);
     fin_recommended_config := r.(fin_recommended_config); fin_evidence := r.(fin_evidence);
     fin_estimated_savings := r.(fin_estimated_savings); fin_risk_score := r.(fin_risk_score);
     fin_confidence := r.(fin_confidence); fin_limitations := r.(fin_limitations);
     fin_evidence_window_start := r.(fin_evidence_window_start);
     fin_evidence_window_end := r.(fin_evidence_window_end);
     fin_source_fingerprint := r.(fin_source_fingerprint);
     fin_proposal_version := r.(fin_proposal_version);
     fin_expected_state_digest := r.(fin_expected_state_digest);
     fin_expires_at := r.(fin_expires_at); fin_pr_reference := v; fin_pr_url := r.(fin_pr_url);
     fin_approved_at := r.(fin_approved_at); fin_rejected_at := r.(fin_rejected_at);
     fin_details := r.(fin_details) |}.

Definition set_fin_pr_url (v : option string) (r : FinOpsRecommendation) : FinOpsRecommendation :=
  {| fin_id := r.(fin_id); fin_created_at := r.(fin_created_at); fin_service := r.(fin_service);
     fin_environment := r.(fin_environment);
     fin_recommendation_type := r.(fin_recommendation_type); fin_status := r.(fin_status);
     fin_estimated_monthly_savings := r.(fin_estimated_monthly_savings);
     fin_current_config := r.(fin_current_config);
     fin_recommended_config := r.(fin_recommended_config); fin_evidence := r.(fin_evidence);
     fin_estimated_savings := r.(fin_estimated_savings); fin_risk_score := r.(fin_risk_score);
     fin_confidence := r.(fin_confidence); fin_limitations := r.(fin_limitations);
     fin_evidence_window_start := r.(fin_evidence_window_start);
     fin_evidence_window_end := r.(fin_evidence_window_end);
     fin_source_fingerprint := r.(fin_source_fingerprint);
     fin_proposal_version := r.(fin_proposal_version);
     fin_expected_state_digest := r.(fin_expected_state_digest);
     fin_expires_at := r.(fin_expires_at); fin_pr_reference := r.(fin_pr_reference);
     fin_pr_url := v; fin_approved_at := r.(fin_approved_at);
     fin_rejected_at := r.(fin_rejected_at); fin_details := r.(fin_details) |}.
