(* ===== verification/World.v ===== *)
(** * The world a handler runs in

    A session over the database ([work] is what the session sees, [committed]
    what the last [commit] made durable), the in-process metrics, a ghost trace
    of the calls that change something outside, and the environment [X]: the
    clock, the random identifiers, the broker, the cluster, the policy engine.
    The environment is a parameter; each client library is a type class of
    functions on it.

    An ORM object is named by its primary key and read from the session each
    time an attribute is read, as the identity map of a session does.  Inserted
    rows get their identifier and timestamps when they are added; the code
    flushes before anything else can observe the difference.  Primary keys,
    uniqueness and check constraints raise [IntegrityError]; column lengths and
    foreign keys are not modelled. *)

From S2P Require Import Prelude PyFloat Json Effects Actions StateMachine Models.

(** ** Tables *)

Record Database : Type := {
  services : gmap uuid Service;
  incidents : gmap uuid Incident;
  alert_records : gmap uuid AlertRecord;
  ai_diagnoses : list AIDiagnosisRecord;
  action_proposals : gmap uuid ActionProposal;
  action_executions : gmap uuid ActionExecution;
  approvals : gmap uuid Approval;
  runbook_executions : gmap uuid RunbookExecution;
  notifications : gmap uuid Notification;
  incident_memory : gmap uuid IncidentMemoryRecord;
  policy_decisions : list PolicyDecision;
  verification_records : list VerificationRecord;
  evidence_snapshots : list EvidenceSnapshot;
  incident_events : list IncidentEvent;
  audit_events : list AuditEvent;
  stream_events : list StreamEvent;
  security_events : gmap uuid SecurityEvent;
  quarantine_records : gmap uuid QuarantineRecord;
  model_invocations : list ModelInvocation;
  clusters : gmap uuid Cluster;
  cluster_agent_states : gmap uuid ClusterAgentState;
  github_records : gmap uuid GitHubAutomationRecord;
  finops_recommendations : gmap uuid FinOpsRecommendation;
  chaos_executions : gmap uuid ChaosExecution;
}.

Definition upd_incidents (f : gmap uuid Incident → gmap uuid Incident) (db : Database) : Database :=
  {| services := db.(services); incidents := f db.(incidents);
     alert_records := db.(alert_records); ai_diagnoses := db.(ai_diagnoses);
     action_proposals := db.(action_proposals); action_executions := db.(action_executions);
     approvals := db.(approvals); runbook_executions := db.(runbook_executions);
     notifications := db.(notifications); incident_memory := db.(incident_memory);
     policy_decisions := db.(policy_decisions); verification_records := db.(verification_records);
     evidence_snapshots := db.(evidence_snapshots); incident_events := db.(incident_events);
     audit_events := db.(audit_events); stream_events := db.(stream_events);
     security_events := db.(security_events); quarantine_records := db.(quarantine_records);
     model_invocations := db.(model_invocations); clusters := db.(clusters);
     cluster_agent_states := db.(cluster_agent_states); github_records := db.(github_records);
     finops_recommendations := db.(finops_recommendations);
     chaos_executions := db.(chaos_executions) |}.

Definition upd_alert_records (f : gmap uuid AlertRecord → gmap uuid AlertRecord) (db : Database) : Database :=
  {| services := db.(services); incidents := db.(incidents);
     alert_records := f db.(alert_records); ai_diagnoses := db.(ai_diagnoses);
     action_proposals := db.(action_proposals); action_executions := db.(action_executions);
     approvals := db.(approvals); runbook_executions := db.(runbook_executions);
     notifications := db.(notifications); incident_memory := db.(incident_memory);
     policy_decisions := db.(policy_decisions); verification_records := db.(verification_records);
     evidence_snapshots := db.(evidence_snapshots); incident_events := db.(incident_events);
     audit_events := db.(audit_events); stream_events := db.(stream_events);
     security_events := db.(security_events); quarantine_records := db.(quarantine_records);
     model_invocations := db.(model_invocations); clusters := db.(clusters);
     cluster_agent_states := db.(cluster_agent_states); github_records := db.(github_records);
     finops_recommendations := db.(finops_recommendations);
     chaos_executions := db.(chaos_executions) |}.

Definition upd_ai_diagnoses (f : list AIDiagnosisRecord → list AIDiagnosisRecord) (db : Database) : Database :=
  {| services := db.(services); incidents := db.(incidents); alert_records := db.(alert_records);
     ai_diagnoses := f db.(ai_diagnoses); action_proposals := db.(action_proposals);
     action_executions := db.(action_executions); approvals := db.(approvals);
     runbook_executions := db.(runbook_executions); notifications := db.(notifications);
     incident_memory := db.(incident_memory); policy_decisions := db.(policy_decisions);
     verification_records := db.(verification_records);
     evidence_snapshots := db.(evidence_snapshots); incident_events := db.(incident_events);
     audit_events := db.(audit_events); stream_events := db.(stream_events);
     security_events := db.(security_events); quarantine_records := db.(quarantine_records);
     model_invocations := db.(model_invocations); clusters := db.(clusters);
     cluster_agent_states := db.(cluster_agent_states); github_records := db.(github_records);
     finops_recommendations := db.(finops_recommendations);
     chaos_executions := db.(chaos_executions) |}.

Definition upd_action_proposals (f : gmap uuid ActionProposal → gmap uuid ActionProposal) (db : Database) : Database :=
  {| services := db.(services); incidents := db.(incidents); alert_records := db.(alert_records);
     ai_diagnoses := db.(ai_diagnoses); action_proposals := f db.(action_proposals);
     action_executions := db.(action_executions); approvals := db.(approvals);
     runbook_executions := db.(runbook_executions); notifications := db.(notifications);
     incident_memory := db.(incident_memory); policy_decisions := db.(policy_decisions);
     verification_records := db.(verification_records);
     evidence_snapshots := db.(evidence_snapshots); incident_events := db.(incident_events);
     audit_events := db.(audit_events); stream_events := db.(stream_events);
     security_events := db.(security_events); quarantine_records := db.(quarantine_records);
     model_invocations := db.(model_invocations); clusters := db.(clusters);
     cluster_agent_states := db.(cluster_agent_states); github_records := db.(github_records);
     finops_recommendations := db.(finops_recommendations);
     chaos_executions := db.(chaos_executions) |}.

Definition upd_action_executions (f : gmap uuid ActionExecution → gmap uuid ActionExecution) (db : Database) : Database :=
  {| services := db.(services); incidents := db.(incidents); alert_records := db.(alert_records);
     ai_diagnoses := db.(ai_diagnoses); action_proposals := db.(action_proposals);
     action_executions := f db.(action_executions); approvals := db.(approvals);
     runbook_executions := db.(runbook_executions); notifications := db.(notifications);
     incident_memory := db.(incident_memory); policy_decisions := db.(policy_decisions);
     verification_records := db.(verification_records);
     evidence_snapshots := db.(evidence_snapshots); incident_events := db.(incident_events);
     audit_events := db.(audit_events); stream_events := db.(stream_events);
     security_events := db.(security_events); quarantine_records := db.(quarantine_records);
     model_invocations := db.(model_invocations); clusters := db.(clusters);
     cluster_agent_states := db.(cluster_agent_states); github_records := db.(github_records);
     finops_recommendations := db.(finops_recommendations);
     chaos_executions := db.(chaos_executions) |}.

Definition upd_approvals (f : gmap uuid Approval → gmap uuid Approval) (db : Database) : Database :=
  {| services := db.(services); incidents := db.(incidents); alert_records := db.(alert_records);
     ai_diagnoses := db.(ai_diagnoses); action_proposals := db.(action_proposals);
     action_executions := db.(action_executions); approvals := f db.(approvals);
     runbook_executions := db.(runbook_executions); notifications := db.(notifications);
     incident_memory := db.(incident_memory); policy_decisions := db.(policy_decisions);
     verification_records := db.(verification_records);
     evidence_snapshots := db.(evidence_snapshots); incident_events := db.(incident_events);
     audit_events := db.(audit_events); stream_events := db.(stream_events);
     security_events := db.(security_events); quarantine_records := db.(quarantine_records);
     model_invocations := db.(model_invocations); clusters := db.(clusters);
     cluster_agent_states := db.(cluster_agent_states); github_records := db.(github_records);
     finops_recommendations := db.(finops_recommendations);
     chaos_executions := db.(chaos_executions) |}.

Definition upd_runbook_executions (f : gmap uuid RunbookExecution → gmap uuid RunbookExecution) (db : Database) : Database :=
  {| services := db.(services); incidents := db.(incidents); alert_records := db.(alert_records);
     ai_diagnoses := db.(ai_diagnoses); action_proposals := db.(action_proposals);
     action_executions := db.(action_executions); approvals := db.(approvals);
     runbook_executions := f db.(runbook_executions); notifications := db.(notifications);
     incident_memory := db.(incident_memory); policy_decisions := db.(policy_decisions);
     verification_records := db.(verification_records);
     evidence_snapshots := db.(evidence_snapshots); incident_events := db.(incident_events);
     audit_events := db.(audit_events); stream_events := db.(stream_events);
     security_events := db.(security_events); quarantine_records := db.(quarantine_records);
     model_invocations := db.(model_invocations); clusters := db.(clusters);
     cluster_agent_states := db.(cluster_agent_states); github_records := db.(github_records);
     finops_recommendations := db.(finops_recommendations);
     chaos_executions := db.(chaos_executions) |}.

Definition upd_notifications (f : gmap uuid Notification → gmap uuid Notification) (db : Database) : Database :=
  {| services := db.(services); incidents := db.(incidents); alert_records := db.(alert_records);
     ai_diagnoses := db.(ai_diagnoses); action_proposals := db.(action_proposals);
     action_executions := db.(action_executions); approvals := db.(approvals);
     runbook_executions := db.(runbook_executions); notifications := f db.(notifications);
     incident_memory := db.(incident_memory); policy_decisions := db.(policy_decisions);
     verification_records := db.(verification_records);
     evidence_snapshots := db.(evidence_snapshots); incident_events := db.(incident_events);
     audit_events := db.(audit_events); stream_events := db.(stream_events);
     security_events := db.(security_events); quarantine_records := db.(quarantine_records);
     model_invocations := db.(model_invocations); clusters := db.(clusters);
     cluster_agent_states := db.(cluster_agent_states); github_records := db.(github_records);
     finops_recommendations := db.(finops_recommendations);
     chaos_executions := db.(chaos_executions) |}.

Definition upd_incident_memory (f : gmap uuid IncidentMemoryRecord → gmap uuid IncidentMemoryRecord) (db : Database) : Database :=
  {| services := db.(services); incidents := db.(incidents); alert_records := db.(alert_records);
     ai_diagnoses := db.(ai_diagnoses); action_proposals := db.(action_proposals);
     action_executions := db.(action_executions); approvals := db.(approvals);
     runbook_executions := db.(runbook_executions); notifications := db.(notifications);
     incident_memory := f db.(incident_memory); policy_decisions := db.(policy_decisions);
     verification_records := db.(verification_records);
     evidence_snapshots := db.(evidence_snapshots); incident_events := db.(incident_events);
     audit_events := db.(audit_events); stream_events := db.(stream_events);
     security_events := db.(security_events); quarantine_records := db.(quarantine_records);
     model_invocations := db.(model_invocations); clusters := db.(clusters);
     cluster_agent_states := db.(cluster_agent_states); github_records := db.(github_records);
     finops_recommendations := db.(finops_recommendations);
     chaos_executions := db.(chaos_executions) |}.

Definition upd_policy_decisions (f : list PolicyDecision → list PolicyDecision) (db : Database) : Database :=
  {| services := db.(services); incidents := db.(incidents); alert_records := db.(alert_records);
     ai_diagnoses := db.(ai_diagnoses); action_proposals := db.(action_proposals);
     action_executions := db.(action_executions); approvals := db.(approvals);
     runbook_executions := db.(runbook_executions); notifications := db.(notifications);
     incident_memory := db.(incident_memory); policy_decisions := f db.(policy_decisions);
     verification_records := db.(verification_records);
     evidence_snapshots := db.(evidence_snapshots); incident_events := db.(incident_events);
     audit_events := db.(audit_events); stream_events := db.(stream_events);
     security_events := db.(security_events); quarantine_records := db.(quarantine_records);
     model_invocations := db.(model_invocations); clusters := db.(clusters);
     cluster_agent_states := db.(cluster_agent_states); github_records := db.(github_records);
     finops_recommendations := db.(finops_recommendations);
     chaos_executions := db.(chaos_executions) |}.

Definition upd_verification_records (f : list VerificationRecord → list VerificationRecord) (db : Database) : Database :=
  {| services := db.(services); incidents := db.(incidents); alert_records := db.(alert_records);
     ai_diagnoses := db.(ai_diagnoses); action_proposals := db.(action_proposals);
     action_executions := db.(action_executions); approvals := db.(approvals);
     runbook_executions := db.(runbook_executions); notifications := db.(notifications);
     incident_memory := db.(incident_memory); policy_decisions := db.(policy_decisions);
     verification_records := f db.(verification_records);
     evidence_snapshots := db.(evidence_snapshots); incident_events := db.(incident_events);
     audit_events := db.(audit_events); stream_events := db.(stream_events);
     security_events := db.(security_events); quarantine_records := db.(quarantine_records);
     model_invocations := db.(model_invocations); clusters := db.(clusters);
     cluster_agent_states := db.(cluster_agent_states); github_records := db.(github_records);
     finops_recommendations := db.(finops_recommendations);
     chaos_executions := db.(chaos_executions) |}.

Definition upd_evidence_snapshots (f : list EvidenceSnapshot → list EvidenceSnapshot) (db : Database) : Database :=
  {| services := db.(services); incidents := db.(incidents); alert_records := db.(alert_records);
     ai_diagnoses := db.(ai_diagnoses); action_proposals := db.(action_proposals);
     action_executions := db.(action_executions); approvals := db.(approvals);
     runbook_executions := db.(runbook_executions); notifications := db.(notifications);
     incident_memory := db.(incident_memory); policy_decisions := db.(policy_decisions);
     verification_records := db.(verification_records);
     evidence_snapshots := f db.(evidence_snapshots); incident_events := db.(incident_events);
     audit_events := db.(audit_events); stream_events := db.(stream_events);
     security_events := db.(security_events); quarantine_records := db.(quarantine_records);
     model_invocations := db.(model_invocations); clusters := db.(clusters);
     cluster_agent_states := db.(cluster_agent_states); github_records := db.(github_records);
     finops_recommendations := db.(finops_recommendations);
     chaos_executions := db.(chaos_executions) |}.

Definition upd_incident_events (f : list IncidentEvent → list IncidentEvent) (db : Database) : Database :=
  {| services := db.(services); incidents := db.(incidents); alert_records := db.(alert_records);
     ai_diagnoses := db.(ai_diagnoses); action_proposals := db.(action_proposals);
     action_executions := db.(action_executions); approvals := db.(approvals);
     runbook_executions := db.(runbook_executions); notifications := db.(notifications);
     incident_memory := db.(incident_memory); policy_decisions := db.(policy_decisions);
     verification_records := db.(verification_records);
     evidence_snapshots := db.(evidence_snapshots); incident_events := f db.(incident_events);
     audit_events := db.(audit_events); stream_events := db.(stream_events);
     security_events := db.(security_events); quarantine_records := db.(quarantine_records);
     model_invocations := db.(model_invocations); clusters := db.(clusters);
     cluster_agent_states := db.(cluster_agent_states); github_records := db.(github_records);
     finops_recommendations := db.(finops_recommendations);
     chaos_executions := db.(chaos_executions) |}.

Definition upd_audit_events (f : list AuditEvent → list AuditEvent) (db : Database) : Database :=
  {| services := db.(services); incidents := db.(incidents); alert_records := db.(alert_records);
     ai_diagnoses := db.(ai_diagnoses); action_proposals := db.(action_proposals);
     action_executions := db.(action_executions); approvals := db.(approvals);
     runbook_executions := db.(runbook_executions); notifications := db.(notifications);
     incident_memory := db.(incident_memory); policy_decisions := db.(policy_decisions);
     verification_records := db.(verification_records);
     evidence_snapshots := db.(evidence_snapshots); incident_events := db.(incident_events);
     audit_events := f db.(audit_events); stream_events := db.(stream_events);
     security_events := db.(security_events); quarantine_records := db.(quarantine_records);
     model_invocations := db.(model_invocations); clusters := db.(clusters);
     cluster_agent_states := db.(cluster_agent_states); github_records := db.(github_records);
     finops_recommendations := db.(finops_recommendations);
     chaos_executions := db.(chaos_executions) |}.

Definition upd_stream_events (f : list StreamEvent → list StreamEvent) (db : Database) : Database :=
  {| services := db.(services); incidents := db.(incidents); alert_records := db.(alert_records);
     ai_diagnoses := db.(ai_diagnoses); action_proposals := db.(action_proposals);
     action_executions := db.(action_executions); approvals := db.(approvals);
     runbook_executions := db.(runbook_executions); notifications := db.(notifications);
     incident_memory := db.(incident_memory); policy_decisions := db.(policy_decisions);
     verification_records := db.(verification_records);
     evidence_snapshots := db.(evidence_snapshots); incident_events := db.(incident_events);
     audit_events := db.(audit_events); stream_events := f db.(stream_events);
     security_events := db.(security_events); quarantine_records := db.(quarantine_records);
     model_invocations := db.(model_invocations); clusters := db.(clusters);
     cluster_agent_states := db.(cluster_agent_states); github_records := db.(github_records);
     finops_recommendations := db.(finops_recommendations);
     chaos_executions := db.(chaos_executions) |}.

Definition upd_security_events (f : gmap uuid SecurityEvent → gmap uuid SecurityEvent) (db : Database) : Database :=
  {| services := db.(services); incidents := db.(incidents); alert_records := db.(alert_records);
     ai_diagnoses := db.(ai_diagnoses); action_proposals := db.(action_proposals);
     action_executions := db.(action_executions); approvals := db.(approvals);
     runbook_executions := db.(runbook_executions); notifications := db.(notifications);
     incident_memory := db.(incident_memory); policy_decisions := db.(policy_decisions);
     verification_records := db.(verification_records);
     evidence_snapshots := db.(evidence_snapshots); incident_events := db.(incident_events);
     audit_events := db.(audit_events); stream_events := db.(stream_events);
     security_events := f db.(security_events); quarantine_records := db.(quarantine_records);
     model_invocations := db.(model_invocations); clusters := db.(clusters);
     cluster_agent_states := db.(cluster_agent_states); github_records := db.(github_records);
     finops_recommendations := db.(finops_recommendations);
     chaos_executions := db.(chaos_executions) |}.

Definition upd_quarantine_records (f : gmap uuid QuarantineRecord → gmap uuid QuarantineRecord) (db : Database) : Database :=
  {| services := db.(services); incidents := db.(incidents); alert_records := db.(alert_records);
     ai_diagnoses := db.(ai_diagnoses); action_proposals := db.(action_proposals);
     action_executions := db.(action_executions); approvals := db.(approvals);
     runbook_executions := db.(runbook_executions); notifications := db.(notifications);
     incident_memory := db.(incident_memory); policy_decisions := db.(policy_decisions);
     verification_records := db.(verification_records);
     evidence_snapshots := db.(evidence_snapshots); incident_events := db.(incident_events);
     audit_events := db.(audit_events); stream_events := db.(stream_events);
     security_events := db.(security_events); quarantine_records := f db.(quarantine_records);
     model_invocations := db.(model_invocations); clusters := db.(clusters);
     cluster_agent_states := db.(cluster_agent_states); github_records := db.(github_records);
     finops_recommendations := db.(finops_recommendations);
     chaos_executions := db.(chaos_executions) |}.

Definition upd_model_invocations (f : list ModelInvocation → list ModelInvocation) (db : Database) : Database :=
  {| services := db.(services); incidents := db.(incidents); alert_records := db.(alert_records);
     ai_diagnoses := db.(ai_diagnoses); action_proposals := db.(action_proposals);
     action_executions := db.(action_executions); approvals := db.(approvals);
     runbook_executions := db.(runbook_executions); notifications := db.(notifications);
     incident_memory := db.(incident_memory); policy_decisions := db.(policy_decisions);
     verification_records := db.(verification_records);
     evidence_snapshots := db.(evidence_snapshots); incident_events := db.(incident_events);
     audit_events := db.(audit_events); stream_events := db.(stream_events);
     security_events := db.(security_events); quarantine_records := db.(quarantine_records);
     model_invocations := f db.(model_invocations); clusters := db.(clusters);
     cluster_agent_states := db.(cluster_agent_states); github_records := db.(github_records);
     finops_recommendations := db.(finops_recommendations);
     chaos_executions := db.(chaos_executions) |}.

Definition upd_cluster_agent_states (f : gmap uuid ClusterAgentState → gmap uuid ClusterAgentState) (db : Database) : Database :=
  {| services := db.(services); incidents := db.(incidents); alert_records := db.(alert_records);
     ai_diagnoses := db.(ai_diagnoses); action_proposals := db.(action_proposals);
     action_executions := db.(action_executions); approvals := db.(approvals);
     runbook_executions := db.(runbook_executions); notifications := db.(notifications);
     incident_memory := db.(incident_memory); policy_decisions := db.(policy_decisions);
     verification_records := db.(verification_records);
     evidence_snapshots := db.(evidence_snapshots); incident_events := db.(incident_events);
     audit_events := db.(audit_events); stream_events := db.(stream_events);
     security_events := db.(security_events); quarantine_records := db.(quarantine_records);
     model_invocations := db.(model_invocations); clusters := db.(clusters);
     cluster_agent_states := f db.(cluster_agent_states); github_records := db.(github_records);
     finops_recommendations := db.(finops_recommendations);
     chaos_executions := db.(chaos_executions) |}.

Definition upd_github_records (f : gmap uuid GitHubAutomationRecord → gmap uuid GitHubAutomationRecord) (db : Database) : Database :=
  {| services := db.(services); incidents := db.(incidents); alert_records := db.(alert_records);
     ai_diagnoses := db.(ai_diagnoses); action_proposals := db.(action_proposals);
     action_executions := db.(action_executions); approvals := db.(approvals);
     runbook_executions := db.(runbook_executions); notifications := db.(notifications);
     incident_memory := db.(incident_memory); policy_decisions := db.(policy_decisions);
     verification_records := db.(verification_records);
     evidence_snapshots := db.(evidence_snapshots); incident_events := db.(incident_events);
     audit_events := db.(audit_events); stream_events := db.(stream_events);
     security_events := db.(security_events); quarantine_records := db.(quarantine_records);
     model_invocations := db.(model_invocations); clusters := db.(clusters);
     cluster_agent_states := db.(cluster_agent_states); github_records := f db.(github_records);
     finops_recommendations := db.(finops_recommendations);
     chaos_executions := db.(chaos_executions) |}.

Definition upd_finops_recommendations (f : gmap uuid FinOpsRecommendation → gmap uuid FinOpsRecommendation) (db : Database) : Database :=
  {| services := db.(services); incidents := db.(incidents); alert_records := db.(alert_records);
     ai_diagnoses := db.(ai_diagnoses); action_proposals := db.(action_proposals);
     action_executions := db.(action_executions); approvals := db.(approvals);
     runbook_executions := db.(runbook_executions); notifications := db.(notifications);
     incident_memory := db.(incident_memory); policy_decisions := db.(policy_decisions);
     verification_records := db.(verification_records);
     evidence_snapshots := db.(evidence_snapshots); incident_events := db.(incident_events);
     audit_events := db.(audit_events); stream_events := db.(stream_events);
     security_events := db.(security_events); quarantine_records := db.(quarantine_records);
     model_invocations := db.(model_invocations); clusters := db.(clusters);
     cluster_agent_states := db.(cluster_agent_states); github_records := db.(github_records);
     finops_recommendations := f db.(finops_recommendations);
     chaos_executions := db.(chaos_executions) |}.

Definition upd_chaos_executions (f : gmap uuid ChaosExecution → gmap uuid ChaosExecution) (db : Database) : Database :=
  {| services := db.(services); incidents := db.(incidents); alert_records := db.(alert_records);
     ai_diagnoses := db.(ai_diagnoses); action_proposals := db.(action_proposals);
     action_executions := db.(action_executions); approvals := db.(approvals);
     runbook_executions := db.(runbook_executions); notifications := db.(notifications);
     incident_memory := db.(incident_memory); policy_decisions := db.(policy_decisions);
     verification_records := db.(verification_records);
     evidence_snapshots := db.(evidence_snapshots); incident_events := db.(incident_events);
     audit_events := db.(audit_events); stream_events := db.(stream_events);
     security_events := db.(security_events); quarantine_records := db.(quarantine_records);
     model_invocations := db.(model_invocations); clusters := db.(clusters);
     cluster_agent_states := db.(cluster_agent_states); github_records := db.(github_records);
     finops_recommendations := db.(finops_recommendations);
     chaos_executions := f db.(chaos_executions) |}.

Definition empty_database : Database :=
  {| services := ∅; incidents := ∅; alert_records := ∅; ai_diagnoses := [];
     action_proposals := ∅; action_executions := ∅; approvals := ∅; runbook_executions := ∅;
     notifications := ∅; incident_memory := ∅; policy_decisions := [];
     verification_records := []; evidence_snapshots := []; incident_events := [];
     audit_events := []; stream_events := []; security_events := ∅; quarantine_records := ∅;
     model_invocations := []; clusters := ∅; cluster_agent_states := ∅; github_records := ∅;
     finops_recommendations := ∅; chaos_executions := ∅ |}.

(** ** Queries *)

Definition rows {R} (t : gmap uuid R) : list R := (map_to_list t).*2.

(** [select(...).where(p).order_by(created_at.desc()).limit(1)]: a row with the
    greatest timestamp. *)
Definition latest {R} (at_ : R → Z) (p : R → bool) (l : list R) : option R :=
  foldl (λ best r, if p r then
                     match best with
                     | Some b => if at_ b <=? at_ r then Some r else best
                     | None => Some r
                     end
                   else best) None l.

(** [select(...).where(p)] followed by [scalar_one_or_none()] on a unique key. *)
Definition select_one {R} (p : R → bool) (t : gmap uuid R) : option R := first_such p (rows t).

Lemma elem_of_rows {R} (t : gmap uuid R) r : r ∈ rows t ↔ ∃ id, t !! id = Some r.
Proof.
  unfold rows. rewrite list_elem_of_fmap. split.
  - intros ([id r'] & -> & H%elem_of_map_to_list). by exists id.
  - intros [id H]. exists (id, r). by rewrite elem_of_map_to_list.
Qed.

Lemma select_one_Some {R} p (t : gmap uuid R) r :
  select_one p t = Some r → p r = true ∧ ∃ id, t !! id = Some r.
Proof. intros [H ?]%first_such_Some. by rewrite elem_of_rows in H. Qed.

Lemma select_one_None {R} p (t : gmap uuid R) :
  select_one p t = None ↔ ∀ id r, t !! id = Some r → p r = false.
Proof.
  unfold select_one. rewrite first_such_None. setoid_rewrite elem_of_rows. naive_solver.
Qed.

(** The only row that satisfies the test is found. *)
Lemma select_one_insert {R} p (t : gmap uuid R) id r :
  select_one p t = None → t !! id = None → p r = true →
  select_one p (<[id:=r]> t) = Some r.
Proof.
  intros Hn Hid Hp. rewrite select_one_None in Hn.
  destruct (select_one p (<[id:=r]> t)) as [m|] eqn:Hs.
  - apply select_one_Some in Hs as [Hq [id' Hl]]. f_equal.
    apply lookup_insert_Some in Hl as [[_ ?]|[_ Hl]]; [done|]. by rewrite (Hn _ _ Hl) in Hq.
  - exfalso. rewrite select_one_None in Hs.
    specialize (Hs id r (lookup_insert_eq _ _ _)). congruence.
Qed.

Lemma latest_snoc {R} (at_ : R → Z) p l r :
  latest at_ p (l ++ [r]) =
  if p r then match latest at_ p l with
              | Some b => if at_ b <=? at_ r then Some r else Some b
              | None => Some r
              end
  else latest at_ p l.
Proof. unfold latest. rewrite foldl_app. simpl. by repeat case_match; simplify_eq. Qed.

Lemma latest_None {R} (at_ : R → Z) p l :
  latest at_ p l = None ↔ ∀ r, r ∈ l → p r = false.
Proof.
  induction l as [|x l IH] using rev_ind.
  { split; [by intros _ r ?%not_elem_of_nil|done]. }
  rewrite latest_snoc. setoid_rewrite elem_of_app. setoid_rewrite list_elem_of_singleton.
  destruct (p x) eqn:Hx; [|rewrite IH; naive_solver].
  split; [destruct (latest at_ p l) as [b|]; [destruct (at_ b <=? at_ x)|]; done|].
  intros H. rewrite (H x) in Hx by auto. done.
Qed.

Lemma latest_Some {R} (at_ : R → Z) p l r :
  latest at_ p l = Some r →
  r ∈ l ∧ p r = true ∧ ∀ s, s ∈ l → p s = true → at_ s ≤ at_ r.
Proof.
  revert r. induction l as [|x l IH] using rev_ind; intros r; [done|].
  rewrite latest_snoc. setoid_rewrite elem_of_app. setoid_rewrite list_elem_of_singleton.
  destruct (p x) eqn:Hx.
  - destruct (latest at_ p l) as [b|] eqn:Hb.
    + destruct (IH b eq_refl) as (Hin & Hp & Hmax).
      destruct (at_ b <=? at_ x) eqn:Hle; boolify; intros; simplify_eq.
      * split_and!; [by right|done|]. intros s [Hs| ->] Hps; [|done].
        specialize (Hmax s Hs Hps). lia.
      * split_and!; [by left|done|]. intros s [Hs| ->] Hps; [by apply Hmax|lia].
    + intros; simplify_eq. split_and!; [by right|done|].
      intros s [Hs| ->] Hps; [|done]. rewrite latest_None in Hb. by rewrite Hb in Hps.
  - intros Hr. destruct (IH r Hr) as (? & ? & Hmax). split_and!; [by left|done|].
    intros s [Hs| ->] Hps; [by apply Hmax|congruence].
Qed.

(** The rows of a table, up to their order. *)
Lemma rows_insert {R} (t : gmap uuid R) id r :
  t !! id = None → Permutation (rows (<[id:=r]> t)) (r :: rows t).
Proof. intros H. unfold rows. by rewrite (map_to_list_insert t id r H). Qed.

Lemma rows_delete {R} (t : gmap uuid R) id r :
  t !! id = Some r → Permutation (rows t) (r :: rows (delete id t)).
Proof.
  intros H. rewrite <- (insert_delete_id t id r H) at 1.
  apply rows_insert, lookup_delete_eq.
Qed.

(** How many rows satisfy a test. *)
Definition count_rows {R} (p : R → bool) (t : gmap uuid R) : Z :=
  Z.of_nat (length (List.filter p (rows t))).

Lemma length_filter_perm {R} (p : R → bool) l l' :
  Permutation l l' → length (List.filter p l) = length (List.filter p l').
Proof. induction 1; simpl; repeat case_match; simpl; congruence || lia. Qed.

Lemma count_rows_insert {R} p (t : gmap uuid R) id r :
  t !! id = None → count_rows p (<[id:=r]> t) = count_rows p t + Z.b2z (p r).
Proof.
  intros H. unfold count_rows. rewrite (length_filter_perm p _ _ (rows_insert t id r H)).
  simpl. destruct (p r); simpl; lia.
Qed.

Lemma count_rows_alter {R} p (t : gmap uuid R) id r f :
  t !! id = Some r →
  count_rows p (alter f id t) = count_rows p t - Z.b2z (p r) + Z.b2z (p (f r)).
Proof.
  intros H. assert (alter f id t = <[id:=f r]> (delete id t)) as ->.
  { apply map_eq. intros k. destruct (decide (id = k)) as [<-|Hne].
    - by rewrite lookup_alter_eq, lookup_insert_eq, H.
    - by rewrite lookup_alter_ne, lookup_insert_ne, lookup_delete_ne. }
  rewrite count_rows_insert by apply lookup_delete_eq.
  unfold count_rows. rewrite (length_filter_perm p _ _ (rows_delete t id r H)). simpl.
  destruct (p r); simpl; lia.
Qed.

(** ** The world *)

(** Calls that change something outside the process, in order.  The trace is
    ghost state: no definition reads it. *)
Inductive call : Type :=
| CallOpa (input : json)
| CallDeletePod (namespace name : string)
| CallScale (namespace name : string) (replicas : Z)
| CallPatchPodLabels (namespace name : string) (labels : dict)
| CallCreateObject (namespace plural : string) (body : json)
| CallDeleteObject (namespace plural name : string)
| CallWriteValues (document : json)
| CallGit (arguments : list string)
| CallLlm (payload : json)
| CallTeams (url : string) (card : json)
| CallGitHub (method path : string) (body : json)
| CallSendTask (task : string) (kwargs : json).

Record World {X : Type} : Type := {
  work : Database;
  committed : Database;
  metrics : gmap (list string) Z;
  trace : list call;
  ext : X;
}.
Arguments World X : clear implicits.

(** [datetime.now(UTC)], [time.monotonic()], [asyncio.sleep], [uuid.uuid4] and
    [Celery.send_task] (which may raise: the class of the exception). *)
Class Runtime (X : Type) := {
  rt_now : X → datetime * X;
  rt_monotonic : X → Z * X;
  rt_sleep : Z → X → X;
  rt_uuid4 : X → uuid * X;
  rt_send_task : string → json → X → option exn * X;
}.

Section world.
Context {X : Type}.
Implicit Types w : World X.

Definition set_work (db : Database) (w : World X) : World X :=
  {| work := db; committed := w.(committed); metrics := w.(metrics);
     trace := w.(trace); ext := w.(ext) |}.
Definition set_metrics (m : gmap (list string) Z) (w : World X) : World X :=
  {| work := w.(work); committed := w.(committed); metrics := m;
     trace := w.(trace); ext := w.(ext) |}.
Definition set_ext (x : X) (w : World X) : World X :=
  {| work := w.(work); committed := w.(committed); metrics := w.(metrics);
     trace := w.(trace); ext := x |}.
Definition add_trace (c : call) (w : World X) : World X :=
  {| work := w.(work); committed := w.(committed); metrics := w.(metrics);
     trace := w.(trace) ++ [c]; ext := w.(ext) |}.

(** A call to the environment. *)
Definition external {A} (f : X → A * X) : M (World X) A := λ w,
  (Ok (f w.(ext)).1, set_ext (f w.(ext)).2 w).

(** Record a call that is about to be made. *)
Definition record_call (c : call) : M (World X) unit := modify (add_trace c).

Definition query {A} (f : Database → A) : M (World X) A := gets (λ w, f w.(work)).
Definition update_db (f : Database → Database) : M (World X) unit :=
  modify (λ w, set_work (f w.(work)) w).

Definition commit : M (World X) unit := modify (λ w,
  {| work := w.(work); committed := w.(work); metrics := w.(metrics);
     trace := w.(trace); ext := w.(ext) |}).
Definition rollback : M (World X) unit := modify (λ w, set_work w.(committed) w).
(** Rows are written when they are added, so a flush has nothing left to do. *)
Definition flush : M (World X) unit := ret tt.

Definition metric (w : World X) (k : list string) : Z := default 0 (w.(metrics) !! k).

(** [METRIC.labels(...).inc()] and [.dec()]. *)
Definition metric_add (k : list string) (d : Z) : M (World X) unit :=
  modify (λ w, set_metrics (<[k := metric w k + d]> w.(metrics)) w).

Definition integrity_error : exn := PyError "IntegrityError" "constraint".

(** Insert a row with a primary key; [ok] are the other constraints. *)
Definition insert_row {R} (table : Database → gmap uuid R)
    (upd : (gmap uuid R → gmap uuid R) → Database → Database)
    (ok : gmap uuid R → bool) (id : uuid) (r : R) : M (World X) unit :=
  let! t := query table in
  do! raise_if (negb (bool_decide (t !! id = None) && ok t)) integrity_error;
  update_db (upd (λ t, <[id := r]> t)).

(** Read the attributes of an object of the identity map; a name that is not
    bound cannot be dereferenced. *)
Definition deref {R} (table : Database → gmap uuid R) (id : uuid) : M (World X) R :=
  let! o := query (λ db, table db !! id) in
  match o with
  | Some r => ret r
  | None => raise (PyError "ObjectDeletedError" "instance")
  end.

Definition assign {R} (upd : (gmap uuid R → gmap uuid R) → Database → Database)
    (id : uuid) (f : R → R) : M (World X) unit :=
  update_db (upd (λ t, alter f id t)).

Lemma insert_row_ok {R} table upd ok id (r : R) w u w' :
  insert_row table upd ok id r w = (Ok u, w') →
  table w.(work) !! id = None ∧ ok (table w.(work)) = true ∧
  w' = set_work (upd (λ t, <[id := r]> t) w.(work)) w.
Proof.
  unfold insert_row, query, gets, bind, raise_if. simpl.
  destruct (bool_decide (table (work w) !! id = None)) eqn:Hn; simpl; [|done].
  destruct (ok _) eqn:Hok; simpl; [|done]. intros [= <-].
  by apply bool_decide_eq_true in Hn.
Qed.

Lemma deref_ok {R} (table : Database → gmap uuid R) id w r w' :
  deref table id w = (Ok r, w') ↔ table w.(work) !! id = Some r ∧ w' = w.
Proof.
  unfold deref, query, gets, bind, ret, raise. simpl.
  destruct (table (work w) !! id); naive_solver.
Qed.

Context `{!Runtime X}.

Definition utc_now : M (World X) datetime := external rt_now.
Definition monotonic : M (World X) Z := external rt_monotonic.
Definition sleep (d : Z) : M (World X) unit := external (λ x, (tt, rt_sleep d x)).
Definition uuid4 : M (World X) uuid := external rt_uuid4.

Definition send_task (task : string) (kwargs : json) : M (World X) unit :=
  do! record_call (CallSendTask task kwargs);
  let! e := external (rt_send_task task kwargs) in
  match e with Some e => raise e | None => ret tt end.
End world.

Ltac run_hook H ::=
  lazymatch type of H with
  | query _ _ = (Ok _, _) => injection H as ? ?; subst
  | update_db _ _ = (Ok _, _) => injection H as ? ?; subst
  | assign _ _ _ _ = (Ok _, _) => injection H as ? ?; subst
  | external _ _ = (Ok _, _) => injection H as ? ?; subst
  | metric_add _ _ _ = (Ok _, _) => injection H as ? ?; subst
  | record_call _ _ = (Ok _, _) => injection H as ? ?; subst
  | flush _ = (Ok _, _) => injection H as ? ?; subst
  | commit _ = (Ok _, _) => injection H as ? ?; subst
  | rollback _ = (Ok _, _) => injection H as ? ?; subst
  | utc_now _ = (Ok _, _) => injection H as ? ?; subst
  | uuid4 _ = (Ok _, _) => injection H as ? ?; subst
  | insert_row _ _ _ _ _ _ = (Ok _, _) =>
      let Hn := fresh "Hnew" in let Hc := fresh "Hok" in let E := fresh in
      apply insert_row_ok in H as (Hn & Hc & E); subst
  | deref _ _ _ = (Ok _, _) =>
      let Hl := fresh "Hlk" in let E := fresh in
      apply deref_ok in H as [Hl E]; subst
  end.

(** Attribute access on the mutable tables. *)
Abbreviation the_incident := (deref incidents).
Abbreviation the_proposal := (deref action_proposals).
Abbreviation the_execution := (deref action_executions).
Abbreviation the_approval := (deref approvals).
Abbreviation the_security_event := (deref security_events).
Abbreviation the_quarantine := (deref quarantine_records).
Abbreviation set_incident := (assign upd_incidents).
Abbreviation set_proposal := (assign upd_action_proposals).
Abbreviation set_execution := (assign upd_action_executions).
Abbreviation set_approval := (assign upd_approvals).
Abbreviation set_security_event := (assign upd_security_events).
Abbreviation set_quarantine := (assign upd_quarantine_records).
Abbreviation set_runbook_execution := (assign upd_runbook_executions).

(** ** A concrete environment

    A counter that is the clock, the identifiers and the monotonic time; the
    broker refuses every third message.  The examples and the instantiations of
    the theorems run on it. *)

Definition bench_runtime : Runtime Z := {|
  rt_now := λ x, (1700000000000000 + x * 1000000, x + 1);
  rt_monotonic := λ x, (x * 1000, x + 1);
  rt_sleep := λ d x, x + d / 1000 + 1;
  rt_uuid4 := λ x, (Z.to_N x, x + 1);
  rt_send_task := λ _ _ x, (if x mod 3 =? 0 then Some (PyError "OperationalError" "broker")
                            else None, x + 1);
|}.

Definition bench_world (db : Database) : World Z :=
  {| work := db; committed := db; metrics := ∅; trace := []; ext := 1 |}.

(** The result of a run that is known to return. *)
Lemma run_of {A} (run : res A * World Z) a : run.1 = Ok a → run = (Ok a, run.2).
Proof. destruct run. by intros [= ->]. Qed.

