(* ===== verification/Config.v ===== *)
(** * Settings

    [config.py]: the fields of [Settings] with their defaults, the constraints
    pydantic enforces on each and the validators over the whole.  The record holds
    the values after validation.  Durations in seconds that are floats are kept in
    microseconds; URLs, paths and secrets are strings. *)

From S2P Require Import Prelude PyFloat Json Effects Models.

Record Settings : Type := {
  app_env : string;
  app_name : string;
  app_version : string;
  debug : bool;
  log_level : string;
  database_url : string;
  redis_url : string;
  opa_url : string;
  opa_decision_path : string;
  opa_chaos_decision_path : string;
  github_client_id : option string;
  github_client_secret : option string;
  github_redirect_uri : string;
  frontend_url : string;
  session_secret : string;
  aws_region : string;
  teams_webhook_url : option string;
  session_cookie_name : string;
  session_max_age_seconds : Z;
  dev_auth_enabled : bool;
  cors_origins : string;
  runbooks_path : string;
  kubernetes_context : option string;
  kubernetes_allowed_namespaces : string;
  inventory_bootstrap_enabled : bool;
  cluster_agent_enabled : bool;
  cluster_agent_cluster_id : option uuid;
  cluster_agent_token : string;
  cluster_agent_freshness_seconds : Z;
  inventory_cluster_name : string;
  inventory_cluster_context : string;
  inventory_cluster_environment : string;
  inventory_aws_region : string;
  verification_timeout : Z;
  verification_poll : Z;
  max_remediation_attempts : Z;
  alertmanager_webhook_token : string;
  worker_internal_token : string;
  prometheus_url : string;
  loki_url : string;
  tempo_url : string;
  telemetry_timeout_seconds : Z;
  telemetry_max_samples : Z;
  evidence_before_seconds : Z;
  evidence_after_seconds : Z;
  alert_replay_tolerance_seconds : Z;
  incident_lab_namespace : string;
  incident_lab_required_label : string;
  chaos_max_runtime_seconds : Z;
  max_temporary_replicas : Z;
  automatic_rollback_max_risk : Z;
  local_gitops_write_enabled : bool;
  local_gitops_repo_url : string;
  local_gitops_timeout_seconds : Z;
  tetragon_webhook_secret : string;
  tetragon_webhook_max_body_bytes : Z;
  tetragon_webhook_max_events_per_minute : Z;
  tetragon_webhook_max_clock_skew_seconds : Z;
  security_dedup_window_seconds : Z;
  security_quarantine_verify_timeout : Z;
  security_quarantine_verify_poll : Z;
  opencost_url : string;
  finops_provider_timeout_seconds : Z;
  finops_max_response_bytes : Z;
  finops_max_samples : Z;
  finops_demo_observation_window_seconds : Z;
  finops_demo_minimum_window_seconds : Z;
  finops_production_minimum_window_seconds : Z;
  finops_query_step_seconds : Z;
  finops_minimum_samples : Z;
  finops_minimum_window_coverage : float;
  finops_cpu_headroom_factor : float;
  finops_memory_headroom_factor : float;
  finops_minimum_cpu_millicores : Z;
  finops_minimum_memory_mib : Z;
  finops_minimum_reduction_percent : Z;
  finops_node_request_threshold : float;
  finops_node_usage_threshold : float;
  finops_recommendation_ttl_seconds : Z;
  finops_demo_namespace : string;
  finops_demo_deployment : string;
  finops_demo_pod_pattern : string;
  finops_gitops_repository : string;
  finops_gitops_values_path : string;
  approval_ttl_seconds : Z;
  teams_workflow_webhook_url : option string;
  teams_dashboard_url : option string;
  notification_timeout_seconds : Z;
  notification_max_attempts : Z;
  notification_events : string;
  ai_diagnosis_enabled : bool;
  cloudward_llm_primary_model : string;
  cloudward_llm_fallback_model : string;
  cloudward_llm_escalation_model : string;
  openrouter_api_key : option string;
  openrouter_primary_model : string;
  openrouter_fallback_model : string;
  openrouter_timeout_seconds : Z;
  openrouter_max_retries : Z;
  openrouter_max_context_tokens : Z;
  ai_max_evidence_chars : Z;
  ai_max_model_calls_per_incident : Z;
  ai_circuit_breaker_failure_threshold : Z;
  ai_circuit_breaker_window_seconds : Z;
  github_app_id : option Z;
  github_app_installation_id : option Z;
  github_app_private_key : option string;
  github_app_read_repositories : string;
  github_app_issue_repositories : string;
  github_app_write_allowlist : string;
}.

Definition within (lo hi z : Z) : bool := (lo <=? z) && (z <=? hi).
Definition length_in (lo hi : Z) (s : string) : bool := within lo hi (str_len s).
Definition float_within (lo hi f : float) : bool := fleb lo f && fleb f hi.

(** The constraints of the fields, from [app_env] to the security settings ... *)
Definition platform_fields_valid (s : Settings) : bool :=
  bool_decide (s.(app_env) ∈ ["development"; "test"; "staging"; "production"]) &&
  within 300 86400 s.(session_max_age_seconds) &&
  within 60 600 s.(cluster_agent_freshness_seconds) &&
  length_in 3 255 s.(inventory_cluster_name) &&
  length_in 1 255 s.(inventory_cluster_context) &&
  bool_decide (s.(inventory_cluster_environment) ∈ ["staging"; "production"]) &&
  length_in 9 32 s.(inventory_aws_region) &&
  within (seconds 1) (seconds 600) s.(verification_timeout) &&
  within 50000 (seconds 30) s.(verification_poll) &&
  within 1 3 s.(max_remediation_attempts) &&
  within 500000 (seconds 30) s.(telemetry_timeout_seconds) &&
  within 1 200 s.(telemetry_max_samples) &&
  within 60 1800 s.(evidence_before_seconds) &&
  within 60 600 s.(evidence_after_seconds) &&
  within 30 900 s.(alert_replay_tolerance_seconds) &&
  within 30 600 s.(chaos_max_runtime_seconds) &&
  within 2 20 s.(max_temporary_replicas) &&
  within 0 30 s.(automatic_rollback_max_risk) &&
  within (seconds 5) (seconds 60) s.(local_gitops_timeout_seconds) &&
  within 1024 1048576 s.(tetragon_webhook_max_body_bytes) &&
  within 1 10000 s.(tetragon_webhook_max_events_per_minute) &&
  within 30 900 s.(tetragon_webhook_max_clock_skew_seconds) &&
  within 10 3600 s.(security_dedup_window_seconds) &&
  within (seconds 1) (seconds 120) s.(security_quarantine_verify_timeout) &&
  within 100000 (seconds 10) s.(security_quarantine_verify_poll).

(** ... and from [opencost_url] to the GitHub App. *)
Definition service_fields_valid (s : Settings) : bool :=
  within (seconds 1) (seconds 30) s.(finops_provider_timeout_seconds) &&
  within 65536 8388608 s.(finops_max_response_bytes) &&
  within 10 5000 s.(finops_max_samples) &&
  within 900 86400 s.(finops_demo_observation_window_seconds) &&
  within 300 86400 s.(finops_demo_minimum_window_seconds) &&
  within 86400 2592000 s.(finops_production_minimum_window_seconds) &&
  within 15 3600 s.(finops_query_step_seconds) &&
  within 5 100 s.(finops_minimum_samples) &&
  float_within (float_of_decimal 5 (-1)) (float_of_decimal 10 (-1))
    s.(finops_minimum_window_coverage) &&
  float_within (float_of_decimal 11 (-1)) (float_of_decimal 30 (-1))
    s.(finops_cpu_headroom_factor) &&
  float_within (float_of_decimal 11 (-1)) (float_of_decimal 30 (-1))
    s.(finops_memory_headroom_factor) &&
  within 10 1000 s.(finops_minimum_cpu_millicores) &&
  within 16 4096 s.(finops_minimum_memory_mib) &&
  within 5 60 s.(finops_minimum_reduction_percent) &&
  float_within (float_of_decimal 1 (-1)) (float_of_decimal 9 (-1))
    s.(finops_node_request_threshold) &&
  float_within (float_of_decimal 5 (-2)) (float_of_decimal 9 (-1))
    s.(finops_node_usage_threshold) &&
  within 900 2592000 s.(finops_recommendation_ttl_seconds) &&
  within 60 86400 s.(approval_ttl_seconds) &&
  within (seconds 1) (seconds 30) s.(notification_timeout_seconds) &&
  within 1 10 s.(notification_max_attempts) &&
  length_in 3 255 s.(cloudward_llm_primary_model) &&
  length_in 3 255 s.(cloudward_llm_fallback_model) &&
  length_in 3 255 s.(cloudward_llm_escalation_model) &&
  length_in 3 255 s.(openrouter_primary_model) &&
  length_in 3 255 s.(openrouter_fallback_model) &&
  within (seconds 1) (seconds 120) s.(openrouter_timeout_seconds) &&
  within 0 3 s.(openrouter_max_retries) &&
  within 512 131072 s.(openrouter_max_context_tokens) &&
  within 5000 60000 s.(ai_max_evidence_chars) &&
  within 1 3 s.(ai_max_model_calls_per_incident) &&
  within 2 20 s.(ai_circuit_breaker_failure_threshold) &&
  within 30 3600 s.(ai_circuit_breaker_window_seconds) &&
  match s.(github_app_id) with Some n => 1 <=? n | None => true end &&
  match s.(github_app_installation_id) with Some n => 1 <=? n | None => true end &&
  length_in 0 10000 s.(github_app_read_repositories) &&
  length_in 0 10000 s.(github_app_issue_repositories) &&
  length_in 0 50000 s.(github_app_write_allowlist).

(** [value.split(",")]. *)
Fixpoint split_comma_aux (s acc : string) : list string :=
  match s with
  | EmptyString => [str_rev acc]
  | String.String c s =>
      if Ascii.eqb c "," then str_rev acc :: split_comma_aux s EmptyString
      else split_comma_aux s (String.String c acc)
  end.
Definition split_comma (s : string) : list string := split_comma_aux s EmptyString.

Definition is_blank (c : ascii) : bool :=
  in_range 9 13 c || in_range 28 32 c || (code_of c =? 133) || (code_of c =? 160).

(** [str.strip()]. *)
Fixpoint drop_blank (s : string) : string :=
  match s with
  | String.String c s' => if is_blank c then drop_blank s' else s
  | EmptyString => EmptyString
  end.
Definition str_strip (s : string) : string := str_rev (drop_blank (str_rev (drop_blank s))).

Definition enabled_notification_events (s : Settings) : list string :=
  List.filter truthy_str (map str_strip (split_comma s.(notification_events))).

Example split_events :
  map str_strip (split_comma " a, b ,,c") = ["a"; "b"; EmptyString; "c"].
Proof. vm_compute. reflexivity. Qed.


(** The field validators [validate_opa_path], [normalize_log_level] and
    [validate_model_identifier], on the normalized values. *)
Definition model_identifier (s : string) : bool :=
  contains "/" s && str_forallb (λ c, negb (is_blank c)) s.

Definition field_validators (s : Settings) : bool :=
  starts_with "/v1/data/" s.(opa_decision_path) &&
  starts_with "/v1/data/" s.(opa_chaos_decision_path) &&
  bool_decide (s.(log_level) ∈ ["DEBUG"; "INFO"; "WARNING"; "ERROR"; "CRITICAL"]) &&
  forallb model_identifier
    [s.(cloudward_llm_primary_model); s.(cloudward_llm_fallback_model);
     s.(cloudward_llm_escalation_model)].

Definition PUBLIC_PLACEHOLDER : string := "replace-me".

(** The secrets that must be distinct outside development. *)
Definition protected_secrets (s : Settings) : list string :=
  [s.(session_secret); s.(alertmanager_webhook_token); s.(worker_internal_token);
   s.(tetragon_webhook_secret)] ++
  (if s.(cluster_agent_enabled) then [s.(cluster_agent_token)] else []).

Definition strong_secret (value : string) : bool :=
  (32 <=? str_len value) &&
  negb (existsb (λ marker, contains marker (lower value))
          ["change-me"; "replace-me"; "local-"; "development"]).

Definition truthy_secret (o : option string) : bool :=
  match o with Some s => truthy_str s | None => false end.

(** [if c: raise ValueError(message)], then the rest. *)
Definition refuse (c : bool) (message : string) (k : res unit) : res unit :=
  if c then Raise (PyError "ValueError" message) else k.

(** The checks of staging and production. *)
Definition deployed_safety (s : Settings) : res unit :=
  refuse s.(dev_auth_enabled) "development authentication cannot be enabled outside local/test"
  (refuse (negb (truthy_secret s.(github_client_id) && truthy_secret s.(github_client_secret)))
     "GitHub OAuth credentials are required outside local development"
  (refuse (bool_decide (s.(github_client_id) = Some PUBLIC_PLACEHOLDER) ||
           bool_decide (s.(github_client_secret) = Some PUBLIC_PLACEHOLDER))
     "placeholder GitHub OAuth credentials are forbidden"
  (refuse (contains "cloudward:cloudward@postgres" s.(database_url))
     "the local default DATABASE_URL is forbidden outside development"
  (refuse (negb (forallb strong_secret (protected_secrets s)))
     "a unique, non-placeholder secret is required"
  (refuse (negb (bool_decide (NoDup (protected_secrets s))))
     "authentication and ingestion secrets must be distinct"
  (refuse (s.(ai_diagnosis_enabled) &&
           match s.(openrouter_api_key) with None => true | Some _ => false end)
     "OPENROUTER_API_KEY is required when AI diagnosis is enabled"
  (refuse (s.(ai_diagnosis_enabled) &&
           match s.(openrouter_api_key) with
           | Some key => negb (truthy_str key) || contains "replace-me" key
           | None => false
           end)
     "placeholder OPENROUTER_API_KEY is forbidden" (Ok tt)))))))).

(** [validate_environment_safety]: the first failing check. *)
Definition validate_environment_safety (s : Settings) : res unit :=
  let token := s.(cluster_agent_token) in
  res_bind (if bool_decide (s.(app_env) ∈ ["staging"; "production"])
            then deployed_safety s else Ok tt) (λ _,
  refuse (s.(cluster_agent_enabled) &&
          (bool_decide (s.(cluster_agent_cluster_id) = None) || (str_len token <? 32) ||
           contains "replace-me" token || contains "change-me" token))
    "cluster agent intake requires a registered cluster ID and a strong dedicated token"
  (refuse (s.(cluster_agent_enabled) &&
           bool_decide (token ∈ [s.(worker_internal_token); s.(alertmanager_webhook_token)]))
     "cluster agent must not share a worker or webhook token"
  (refuse (negb (String.eqb s.(incident_lab_namespace) "cloudward-staging"))
     "Incident Lab may target only cloudward-staging"
  (refuse (negb (String.eqb s.(incident_lab_required_label) "cloudward.io/demo-target=true"))
     "Incident Lab requires the immutable demo-target label selector"
  (refuse (negb (String.eqb s.(finops_demo_namespace) "cloudward-staging"))
     "FinOps demo analysis may target only cloudward-staging"
  (refuse (s.(inventory_bootstrap_enabled) &&
           negb (String.eqb s.(inventory_aws_region) "eu-north-1"))
     "Part 4 configured inventory must target eu-north-1"
  (refuse (negb (String.eqb s.(finops_gitops_values_path)
                   "cloudward-gitops/environments/staging/values.yaml"))
     "FINOPS_GITOPS_VALUES_PATH must be the fixed staging values file"
  (refuse (s.(local_gitops_write_enabled) &&
           negb (bool_decide (s.(app_env) ∈ ["development"; "test"])))
     "the writable local GitOps source is forbidden outside local/test"
  (refuse (s.(local_gitops_write_enabled) &&
           negb (String.eqb s.(local_gitops_repo_url)
                   "git://host.docker.internal:19418/cloudward-gitops.git"))
     "LOCAL_GITOPS_REPO_URL must be the fixed loopback k3d demo source" (Ok tt)))))))))).

Definition Settings_valid (s : Settings) : bool :=
  platform_fields_valid s && service_fields_valid s && field_validators s &&
  is_ok (validate_environment_safety s).

(** The properties of the class. *)
Definition allowed_namespaces (s : Settings) : list string :=
  List.filter truthy_str (map str_strip (split_comma s.(kubernetes_allowed_namespaces))).
Definition cors_origin_list (s : Settings) : list string :=
  List.filter truthy_str (map str_strip (split_comma s.(cors_origins))).
Definition secure_cookies (s : Settings) : bool :=
  bool_decide (s.(app_env) ∈ ["staging"; "production"]).
Definition denied_chaos_namespaces : list string :=
  ["cloudward-production"; "kube-system"; "argocd"; "observability"; "kyverno"; "tetragon";
   "chaos-mesh"].

(** The defaults of the class for an environment, with secrets of their own, every
    notification channel, AI diagnosis, the cluster agent and the GitHub App configured. *)
Definition settings_where (env : string) (gitops_writer : bool) (timeout poll : Z)
    (events_per_minute : Z) : Settings :=
  {| app_env := env; app_name := "CloudWard API"; app_version := "0.5.0"; debug := false;
     log_level := "INFO"; database_url := "postgresql+asyncpg://app:pw@db:5432/app";
     redis_url := "redis://redis:6379/0"; opa_url := "http://opa:8181";
     opa_decision_path := "/v1/data/cloudward/remediation/decision";
     opa_chaos_decision_path := "/v1/data/cloudward/chaos/decision";
     github_client_id := Some "client"; github_client_secret := Some "oauth";
     github_redirect_uri := "http://localhost:8000/api/v1/auth/github/callback";
     frontend_url := "http://localhost:5173";
     session_secret := "0123456789-session-0123456789-abcdef"; aws_region := "eu-north-1";
     teams_webhook_url := None; session_cookie_name := "cloudward_session";
     session_max_age_seconds := 28800; dev_auth_enabled := false;
     cors_origins := "http://localhost:5173"; runbooks_path := "/app/runbooks";
     kubernetes_context := None; kubernetes_allowed_namespaces := "cloudward-staging";
     inventory_bootstrap_enabled := false; cluster_agent_enabled := true;
     cluster_agent_cluster_id := Some 500%N;
     cluster_agent_token := "0123456789-agent-0123456789-abcdef";
     cluster_agent_freshness_seconds := 180; inventory_cluster_name := "cloudward-aws";
     inventory_cluster_context := "cloudward-eks";
     inventory_cluster_environment := "production"; inventory_aws_region := "eu-north-1";
     verification_timeout := timeout; verification_poll := poll; max_remediation_attempts := 3;
     alertmanager_webhook_token := "0123456789-alerts-0123456789-abcdef";
     worker_internal_token := "0123456789-worker-0123456789-abcdef";
     prometheus_url := "http://prometheus.observability.svc.cluster.local:9090";
     loki_url := "http://loki.observability.svc.cluster.local:3100";
     tempo_url := "http://tempo.observability.svc.cluster.local:3200";
     telemetry_timeout_seconds := seconds 8; telemetry_max_samples := 50;
     evidence_before_seconds := 300; evidence_after_seconds := 180;
     alert_replay_tolerance_seconds := 300; incident_lab_namespace := "cloudward-staging";
     incident_lab_required_label := "cloudward.io/demo-target=true";
     chaos_max_runtime_seconds := 300; max_temporary_replicas := 5;
     automatic_rollback_max_risk := 30; local_gitops_write_enabled := gitops_writer;
     local_gitops_repo_url := "git://host.docker.internal:19418/cloudward-gitops.git";
     local_gitops_timeout_seconds := seconds 20;
     tetragon_webhook_secret := "0123456789-tetragon-0123456789-abcdef";
     tetragon_webhook_max_body_bytes := 131072;
     tetragon_webhook_max_events_per_minute := events_per_minute;
     tetragon_webhook_max_clock_skew_seconds := 300; security_dedup_window_seconds := 60;
     security_quarantine_verify_timeout := Z.min timeout (seconds 30);
     security_quarantine_verify_poll := seconds 1;
     opencost_url := "http://opencost.opencost.svc.cluster.local:9003";
     finops_provider_timeout_seconds := seconds 8; finops_max_response_bytes := 1048576;
     finops_max_samples := 1000; finops_demo_observation_window_seconds := 1800;
     finops_demo_minimum_window_seconds := 900;
     finops_production_minimum_window_seconds := 604800; finops_query_step_seconds := 60;
     finops_minimum_samples := 5; finops_minimum_window_coverage := float_of_decimal 8 (-1);
     finops_cpu_headroom_factor := float_of_decimal 15 (-1);
     finops_memory_headroom_factor := float_of_decimal 135 (-2);
     finops_minimum_cpu_millicores := 50; finops_minimum_memory_mib := 64;
     finops_minimum_reduction_percent := 20;
     finops_node_request_threshold := float_of_decimal 45 (-2);
     finops_node_usage_threshold := float_of_decimal 35 (-2);
     finops_recommendation_ttl_seconds := 86400; finops_demo_namespace := "cloudward-staging";
     finops_demo_deployment := "cloudward-demo"; finops_demo_pod_pattern := "cloudward-demo-.*";
     finops_gitops_repository := "biraj49/cloudward-gitops";
     finops_gitops_values_path := "cloudward-gitops/environments/staging/values.yaml";
     approval_ttl_seconds := 1800;
     teams_workflow_webhook_url := Some "https://hook.logic.azure.com/x";
     teams_dashboard_url := Some "https://dash/"; notification_timeout_seconds := seconds 8;
     notification_max_attempts := 5;
     notification_events := "approval_required,incident_escalated,incident_resolved";
     ai_diagnosis_enabled := true; cloudward_llm_primary_model := "openai/gpt-5.6-terra";
     cloudward_llm_fallback_model := "google/gemini-3.5-flash-lite";
     cloudward_llm_escalation_model := "openai/gpt-5.6-sol";
     openrouter_api_key := Some "sk-test";
     openrouter_primary_model := "anthropic/claude-3.7-sonnet";
     openrouter_fallback_model := "openai/gpt-4o"; openrouter_timeout_seconds := seconds 30;
     openrouter_max_retries := 2; openrouter_max_context_tokens := 16000;
     ai_max_evidence_chars := 60000; ai_max_model_calls_per_incident := 3;
     ai_circuit_breaker_failure_threshold := 5; ai_circuit_breaker_window_seconds := 300;
     github_app_id := Some 1; github_app_installation_id := Some 2;
     github_app_private_key := Some "pem";
     github_app_read_repositories := "biraj49/cloudward-gitops";
     github_app_issue_repositories := EmptyString;
     github_app_write_allowlist :=
       "{" +:+ dquote +:+ "biraj49/cloudward-gitops" +:+ dquote +:+ ": [" +:+ dquote +:+
       "cloudward-gitops/environments/staging/values.yaml" +:+ dquote +:+ "]}" |}.

Definition settings_in (env : string) (gitops_writer : bool) : Settings :=
  settings_where env gitops_writer (seconds 120) (seconds 2) 120.
Definition example_settings : Settings := settings_in "staging" false.

Example example_settings_valid : Settings_valid example_settings = true.
Proof. vm_compute. reflexivity. Qed.
Example gitops_settings_valid :
  map Settings_valid [settings_in "test" true; settings_in "staging" true] = [true; false].
Proof. vm_compute. reflexivity. Qed.

(** ** What validated settings promise *)

(** Pick the constraint of one field. *)
Ltac constraint H :=
  let H' := fresh in
  first [ assumption
        | apply andb_true_iff in H as [H H']; first [exact H' | clear H'; constraint H]
        | exact H ].

Lemma within_ok lo hi z : within lo hi z = true ↔ lo ≤ z ≤ hi.
Proof. unfold within. rewrite andb_true_iff, !Z.leb_le. done. Qed.

Lemma settings_fields s : Settings_valid s = true →
  platform_fields_valid s = true ∧ service_fields_valid s = true.
Proof. unfold Settings_valid. rewrite !andb_true_iff. tauto. Qed.

Lemma settings_quarantine_wait s : Settings_valid s = true →
  0 ≤ s.(security_quarantine_verify_timeout) ∧ 0 < s.(security_quarantine_verify_poll).
Proof.
  intros [H _]%settings_fields. unfold platform_fields_valid in H.
  assert (within (seconds 1) (seconds 120) s.(security_quarantine_verify_timeout) = true)
    as Ht%within_ok by constraint H.
  assert (within 100000 (seconds 10) s.(security_quarantine_verify_poll) = true)
    as Hp%within_ok by constraint H.
  unfold seconds in *. lia.
Qed.

Lemma settings_ai s : Settings_valid s = true →
  0 ≤ s.(openrouter_max_retries) ≤ 3 ∧ 1 ≤ s.(ai_max_model_calls_per_incident) ≤ 3 ∧
  2 ≤ s.(ai_circuit_breaker_failure_threshold) ≤ 20.
Proof.
  intros [_ H]%settings_fields. unfold service_fields_valid in H.
  assert (within 0 3 s.(openrouter_max_retries) = true) as ?%within_ok by constraint H.
  assert (within 1 3 s.(ai_max_model_calls_per_incident) = true) as ?%within_ok by constraint H.
  assert (within 2 20 s.(ai_circuit_breaker_failure_threshold) = true) as ?%within_ok
    by constraint H.
  lia.
Qed.

Lemma settings_finops s : Settings_valid s = true →
  10 ≤ s.(finops_minimum_cpu_millicores) ≤ 1000 ∧ 16 ≤ s.(finops_minimum_memory_mib) ≤ 4096 ∧
  5 ≤ s.(finops_minimum_reduction_percent) ≤ 60.
Proof.
  intros [_ H]%settings_fields. unfold service_fields_valid in H.
  assert (within 10 1000 s.(finops_minimum_cpu_millicores) = true) as ?%within_ok by constraint H.
  assert (within 16 4096 s.(finops_minimum_memory_mib) = true) as ?%within_ok by constraint H.
  assert (within 5 60 s.(finops_minimum_reduction_percent) = true) as ?%within_ok by constraint H.
  lia.
Qed.

Lemma is_ok_unit (r : res unit) : is_ok r = true ↔ r = Ok tt.
Proof. destruct r as [[]|]; naive_solver. Qed.

Lemma refuse_ok c m k : refuse c m k = Ok tt ↔ c = false ∧ k = Ok tt.
Proof. unfold refuse. destruct c; naive_solver. Qed.

Lemma deployed_safety_ok s : deployed_safety s = Ok tt →
  s.(dev_auth_enabled) = false ∧ Forall (λ v, strong_secret v = true) (protected_secrets s) ∧
  NoDup (protected_secrets s) ∧
  contains "cloudward:cloudward@postgres" s.(database_url) = false ∧
  (s.(ai_diagnosis_enabled) = true → ∃ key, s.(openrouter_api_key) = Some key ∧ key ≠ "").
Proof.
  unfold deployed_safety. rewrite !refuse_ok.
  intros (Hdev & _ & _ & Hdb & Hstrong & Hdup & Hkey & Hplace & _). boolify.
  split_and!; try done.
  - by apply Forall_forall, forallb_elem_of.
  - intros Hai. rewrite Hai in *. destruct (openrouter_api_key s) as [key|]; [|naive_solver].
    exists key. split; [done|]. intros ->. naive_solver.
Qed.

(** C21: validated settings of staging and production are safe: the development
    identity is off, the local database and the writable GitOps source are
    refused, every protected secret is at least 32 characters long without a
    placeholder marker and no two of them are equal, so no credential of one
    caller opens the door of another; AI diagnosis has a key, and the cluster
    agent an identity and a token of its own. *)
Theorem deployed_settings_safe (s : Settings) :
  Settings_valid s = true → s.(app_env) ∈ ["staging"; "production"] →
  s.(dev_auth_enabled) = false ∧ s.(local_gitops_write_enabled) = false ∧
  NoDup (protected_secrets s) ∧
  (∀ v, v ∈ protected_secrets s → 32 ≤ str_len v ∧
     contains "change-me" (lower v) = false ∧ contains "replace-me" (lower v) = false) ∧
  (s.(ai_diagnosis_enabled) = true → ∃ key, s.(openrouter_api_key) = Some key ∧ key ≠ "") ∧
  (s.(cluster_agent_enabled) = true → (∃ id, s.(cluster_agent_cluster_id) = Some id) ∧
     s.(cluster_agent_token) ≠ s.(worker_internal_token) ∧
     s.(cluster_agent_token) ≠ s.(alertmanager_webhook_token)).
Proof.
  unfold Settings_valid. rewrite !andb_true_iff, is_ok_unit. intros [_ Hsafe] Henv.
  unfold validate_environment_safety in Hsafe.
  rewrite (bool_decide_eq_true_2 _ Henv) in Hsafe.
  destruct (deployed_safety s) as [[]|e] eqn:Hd; [|done]. cbn [res_bind] in Hsafe.
  apply deployed_safety_ok in Hd as (Hdev & Hstrong & Hdup & _ & Hai).
  assert (s.(app_env) ∉ ["development"; "test"]) as Hnot.
  { apply (bool_decide_eq_true_2 _) in Henv.
    intros [E|[E|[]%not_elem_of_nil]%elem_of_cons]%elem_of_cons; by rewrite E in Henv. }
  rewrite (bool_decide_eq_false_2 _ Hnot) in Hsafe.
  rewrite !refuse_ok, !andb_false_iff in Hsafe.
  destruct Hsafe as (Hid & Htok & _ & _ & _ & _ & _ & Hgit & _).
  split_and!; try done.
  - by destruct Hgit.
  - intros v Hv. rewrite Forall_forall in Hstrong. specialize (Hstrong v Hv).
    unfold strong_secret in Hstrong. simpl in Hstrong. boolify. split_and!; [done|..];
      repeat match goal with H : _ = false ∧ _ |- _ => destruct H end; boolify; done.
  - intros Hagent. destruct Hid as [?|Hid], Htok as [?|Htok]; try congruence. boolify.
    destruct (cluster_agent_cluster_id s) as [id|]; [|done].
    split; [by exists id|]. set_solver.
Qed.

Lemma deployed_settings_safe_witness :
  NoDup (protected_secrets example_settings) ∧ example_settings.(dev_auth_enabled) = false.
Proof.
  destruct (deployed_settings_safe example_settings) as (Hdev & _ & Hdup & _);
    [vm_compute; reflexivity|left|by split].
Defined.
