(* ===== verification/AuditLog.v ===== *)
(** * The audit log and the event outbox

    [audit/service.py] and [events/service.py]: the two append-only tables every
    operation writes, with redaction at the persistence boundary.  The in-process
    condition that wakes up streaming clients is not modelled. *)

From S2P Require Import Prelude Json Effects Actions StateMachine Models World Redaction.

Section audit.
Context {X : Type} `{!Runtime X}.

(** [record_audit]; the keyword arguments are positional. *)
Definition record_audit (event_type correlation_id : string) (incident_id : option uuid)
    (actor : string) (actor_type : ActorType) (actor_id : option uuid)
    (action : option string) (risk_score : option Z) (policy_decision : option string)
    (result : string) (metadata : dict) : M (World X) unit :=
  let! id := uuid4 in
  let! now := utc_now in
  do! update_db (upd_audit_events (λ l, l ++
        [{| aud_id := id; aud_created_at := now; aud_actor := actor;
            aud_actor_type := actor_type; aud_actor_id := actor_id;
            aud_incident_id := incident_id; aud_correlation_id := correlation_id;
            aud_event_type := event_type; aud_action := action;
            aud_risk_score := risk_score; aud_policy_decision := policy_decision;
            aud_result := result; aud_event_metadata := redact (JObj metadata) |}]));
  flush.

(** The defaults [actor="cloudward"], [actor_type=SYSTEM], no actor id. *)
Definition record_audit_system (event_type correlation_id : string)
    (incident_id : option uuid) (action : option string) (risk_score : option Z)
    (result : string) (metadata : dict) : M (World X) unit :=
  record_audit event_type correlation_id incident_id "cloudward" ACTOR_SYSTEM None
    action risk_score None result metadata.

Definition append_stream_event (event_type : string) (incident_id : option uuid)
    (payload : dict) : M (World X) unit :=
  let! now := utc_now in
  do! update_db (upd_stream_events (λ l, l ++
        [{| str_id := Z.of_nat (length l) + 1; str_created_at := now;
            str_event_type := event_type; str_incident_id := incident_id;
            str_payload := redact (JObj (dict_update
              [("type", JStr event_type); ("event_type", JStr event_type);
               ("incident_id", opt_json (λ u, JStr (uuid_str u)) incident_id)]
              payload)) |}]));
  flush.
End audit.
