(* ===== verification/History.v ===== *)
(** * What every operation preserves

    The relations between the database before and after an operation that the
    whole service layer satisfies: logs only grow and only by redacted rows, rows
    are never deleted, the identity and the binding of incidents, proposals,
    executions and approvals never change ([db_extends]); the event log of an
    incident replays to its state ([replay]).  Each is a preorder, so an operation
    has it when its steps have it ([evolves]). *)

From S2P Require Import Prelude Json Effects Actions StateMachine Models World Redaction AuditLog.

(** ** Extension of the database *)

Definition log_extends {R} (P : R → Prop) : relation (list R) := λ l l',
  ∃ new, l' = l ++ new ∧ Forall P new.

#[export] Instance log_extends_preorder {R} (P : R → Prop) : PreOrder (log_extends P).
Proof.
  split.
  - intros l. exists []. by rewrite app_nil_r.
  - intros l1 l2 l3 (n1 & -> & H1) (n2 & -> & H2). exists (n1 ++ n2).
    by rewrite app_assoc, Forall_app.
Qed.

Lemma log_extends_snoc {R} (P : R → Prop) l r : P r → log_extends P l (l ++ [r]).
Proof. intros. exists [r]. split; [done|]. by constructor. Qed.

(** Rows stay, related by [K]. *)
Definition table_extends {R} (K : relation R) : relation (gmap uuid R) := λ t t',
  ∀ id r, t !! id = Some r → ∃ r', t' !! id = Some r' ∧ K r r'.

#[export] Instance table_extends_preorder {R} (K : relation R) `{!PreOrder K} :
  PreOrder (table_extends K).
Proof.
  split.
  - intros t id r Hr. exists r. split; [done|reflexivity].
  - intros t1 t2 t3 H1 H2 id r (r2 & (r3 & ? & ?)%H2 & ?)%H1. exists r3.
    split; [done|by etrans].
Qed.

Lemma table_extends_insert {R} (K : relation R) `{!PreOrder K} (t : gmap uuid R) id r :
  t !! id = None → table_extends K t (<[id:=r]> t).
Proof.
  intros Hn id' r' Hr. exists r'. split; [|reflexivity].
  rewrite lookup_insert_ne; [done|]. by intros ->; rewrite Hn in Hr.
Qed.

Lemma table_extends_alter {R} (K : relation R) `{!PreOrder K} (t : gmap uuid R) id f :
  (∀ r, K r (f r)) → table_extends K t (alter f id t).
Proof.
  intros Hf id' r Hr. destruct (decide (id = id')) as [->|Hne].
  - exists (f r). rewrite lookup_alter_eq, Hr. split; [done|apply Hf].
  - exists r. rewrite lookup_alter_ne by done. split; [done|reflexivity].
Qed.

(** Equality of the columns an operation may not change. *)
Definition same {R A} (f : R → A) : relation R := λ r r', f r' = f r.
#[export] Instance same_preorder {R A} (f : R → A) : PreOrder (same f).
Proof. split; [done|]. intros ? ? ?. unfold same. congruence. Qed.

Definition incident_identity (i : Incident) :=
  (i.(inc_id), i.(inc_created_at), i.(inc_correlation_id), i.(inc_incident_type),
   i.(inc_environment), i.(inc_service_id)).
Definition proposal_identity (p : ActionProposal) := set_prop_status PENDING p.
Definition execution_identity (e : ActionExecution) :=
  (e.(exec_id), e.(exec_incident_id), e.(exec_proposal_id), e.(exec_action_type),
   e.(exec_attempt), e.(exec_idempotency_key), e.(exec_rollback_of_execution_id)).
(** What an alert is known by. *)
Definition alert_identity (a : AlertRecord) :=
  (a.(alr_id), a.(alr_source), a.(alr_fingerprint), a.(alr_alert_name), a.(alr_service)).
(** What an approval is bound to. *)
Definition approval_binding (a : Approval) :=
  (a.(app_id), a.(app_incident_id), a.(app_proposal_id), a.(app_action),
   a.(app_environment), a.(app_risk_score), a.(app_blast_radius), a.(app_reversible),
   a.(app_proposal_version), a.(app_target_reference), a.(app_expected_state),
   a.(app_context_digest), a.(app_expires_at)).

Record db_extends (d d' : Database) : Prop := {
  ext_audit : log_extends (λ e, redacted e.(aud_event_metadata) = true)
                d.(audit_events) d'.(audit_events);
  ext_stream : log_extends (λ e, redacted e.(str_payload) = true)
                 d.(stream_events) d'.(stream_events);
  ext_events : log_extends (λ _, True) d.(incident_events) d'.(incident_events);
  ext_policy : log_extends (λ _, True) d.(policy_decisions) d'.(policy_decisions);
  ext_evidence : log_extends (λ _, True) d.(evidence_snapshots) d'.(evidence_snapshots);
  ext_verification : log_extends (λ _, True)
                       d.(verification_records) d'.(verification_records);
  ext_incidents : table_extends (same incident_identity) d.(incidents) d'.(incidents);
  ext_proposals : table_extends (same proposal_identity)
                    d.(action_proposals) d'.(action_proposals);
  ext_executions : table_extends (same execution_identity)
                     d.(action_executions) d'.(action_executions);
  ext_approvals : table_extends (same approval_binding) d.(approvals) d'.(approvals);
  ext_alerts : table_extends (same alert_identity) d.(alert_records) d'.(alert_records);
  ext_diagnoses : log_extends (λ _, True) d.(ai_diagnoses) d'.(ai_diagnoses);
  ext_invocations : log_extends (λ _, True) d.(model_invocations) d'.(model_invocations);
}.

#[export] Instance db_extends_preorder : PreOrder db_extends.
Proof.
  split; [intros d; split; reflexivity|].
  intros d1 d2 d3 [] []. split; by etrans.
Qed.

Section history.
Context {X : Type}.

(** One step of a session: the database grows, nothing becomes durable yet, the
    trace of external calls grows. *)
Definition session_step : relation (World X) := λ w w',
  db_extends w.(work) w'.(work) ∧ w'.(committed) = w.(committed) ∧
  w.(trace) `prefix_of` w'.(trace).

#[global] Instance session_step_evolution : Evolution session_step.
Proof.
  split; [intros w; by split_and!|].
  intros w1 w2 w3 (? & ? & ?) (? & ? & ?). split_and!; [by etrans|congruence|by etrans].
Qed.

(** A run with commits and rollbacks: what was durable stays durable. *)
Definition durable : relation (World X) := λ w w',
  (db_extends w.(committed) w.(work) →
   db_extends w.(committed) w'.(committed) ∧ db_extends w'.(committed) w'.(work)) ∧
  w.(trace) `prefix_of` w'.(trace).

#[global] Instance durable_evolution : Evolution durable.
Proof.
  split; [intros w; split; [intros H; split; [reflexivity|done]|done]|].
  intros w1 w2 w3 [H1 T1] [H2 T2]. split; [|by etrans].
  intros [Ha Hb]%H1. destruct (H2 Hb). split; [by etrans|done].
Qed.

Lemma session_step_durable w w' : session_step w w' → durable w w'.
Proof.
  intros (Hd & Hc & Ht). split; [|done]. rewrite Hc. intros Hw.
  split; [reflexivity|]. by etrans.
Qed.

Lemma durable_of {A} (m : M (World X) A) : evolves session_step m → evolves durable m.
Proof. intros H w. apply session_step_durable, H. Qed.

Lemma commit_durable : evolves durable (commit (X:=X)).
Proof. intros w. split; [|done]. intros H. by split. Qed.

Lemma rollback_durable : evolves durable (rollback (X:=X)).
Proof. intros w. split; [|done]. intros H. by split. Qed.
End history.

(** ** The primitive operations *)

Section steps.
Context {X : Type} `{!Runtime X}.
Abbreviation step_ok m := (evolves (session_step (X:=X)) m).

Lemma ext_only_step {A} (m : M (World X) A) :
  (∀ w, work (m w).2 = work w ∧ committed (m w).2 = committed w ∧
        trace w `prefix_of` trace (m w).2) → step_ok m.
Proof. intros H w. destruct (H w) as (Hw & Hc & ?). split_and!; [by rewrite Hw|done..]. Qed.

Lemma external_step {A} (f : X → A * X) : step_ok (external f).
Proof. by apply ext_only_step. Qed.
Lemma query_step {A} (f : Database → A) : step_ok (query f).
Proof. by apply ext_only_step. Qed.
Lemma metric_add_step k d : step_ok (metric_add k d).
Proof. by apply ext_only_step. Qed.
Lemma record_call_step c : step_ok (record_call c).
Proof. apply ext_only_step. intros w. split_and!; [done..|]. by exists [c]. Qed.
Lemma flush_step : step_ok flush.
Proof. by apply ext_only_step. Qed.

Lemma deref_step {R} (table : Database → gmap uuid R) id : step_ok (deref table id).
Proof.
  apply ext_only_step. intros w. unfold deref, query, bind, gets.
  by destruct (table (work w) !! id).
Qed.

Lemma update_db_step f : (∀ d, db_extends d (f d)) → step_ok (update_db f).
Proof. intros H w. split_and!; [apply H|done..]. Qed.

(** An insertion: the primary key is new. *)
Lemma insert_row_step {R} (table : Database → gmap uuid R) upd ok id r :
  (∀ d, table d !! id = None → db_extends d (upd (λ t, <[id:=r]> t) d)) →
  step_ok (insert_row table upd ok id r).
Proof.
  intros H w. unfold insert_row, query, gets, bind. simpl.
  destruct (bool_decide (table (work w) !! id = None)) eqn:Hn; simpl.
  - destruct (ok (table (work w))); simpl; [|by split_and!].
    apply bool_decide_eq_true in Hn. split_and!; simpl; [by apply H|done..].
  - by split_and!.
Qed.
End steps.

(** The database after an update of one table. *)
Ltac db_ext :=
  intros; split; cbn;
  first [ reflexivity
        | apply log_extends_snoc; first [exact I | apply redact_redacted]
        | apply table_extends_insert; [apply _ | assumption]
        | apply table_extends_alter; [apply _ | intros ?; reflexivity] ].

#[export] Hint Resolve external_step query_step metric_add_step record_call_step
  flush_step deref_step : cw_pres.
#[export] Hint Extern 1 (evolves session_step (update_db _)) =>
  apply update_db_step; db_ext : cw_pres.
#[export] Hint Extern 1 (evolves session_step (assign _ _ _)) =>
  apply update_db_step; db_ext : cw_pres.
#[export] Hint Extern 1 (evolves session_step (insert_row _ _ _ _ _)) =>
  apply insert_row_step; db_ext : cw_pres.

Section audit_steps.
Context {X : Type} `{!Runtime X}.
Abbreviation step_ok m := (evolves (session_step (X:=X)) m).

Lemma utc_now_step : step_ok utc_now.
Proof. apply external_step. Qed.
Lemma monotonic_step : step_ok monotonic.
Proof. apply external_step. Qed.
Lemma sleep_step d : step_ok (sleep d).
Proof. apply external_step. Qed.
Lemma uuid4_step : step_ok uuid4.
Proof. apply external_step. Qed.
Hint Resolve utc_now_step uuid4_step : cw_pres.

Lemma send_task_step t k : step_ok (send_task t k).
Proof. unfold send_task. evolve. Qed.

Lemma record_audit_step et ci ii ac at_ ai a rs pd res md :
  step_ok (record_audit et ci ii ac at_ ai a rs pd res md).
Proof. unfold record_audit. evolve. Qed.

Lemma record_audit_system_step et ci ii a rs res md :
  step_ok (record_audit_system et ci ii a rs res md).
Proof. apply record_audit_step. Qed.

Lemma append_stream_event_step et ii p : step_ok (append_stream_event et ii p).
Proof. unfold append_stream_event. evolve. Qed.
End audit_steps.

#[export] Hint Resolve utc_now_step monotonic_step sleep_step uuid4_step send_task_step
  record_audit_step record_audit_system_step append_stream_event_step : cw_pres.

(** What is durable does not change. *)
Definition same_committed {X} : relation (World X) := stable committed.
#[export] Instance same_committed_evolution {X} : Evolution (same_committed (X:=X)).
Proof. apply stable_evolution. Qed.

Lemma update_db_committed {X} g : evolves same_committed (update_db (X:=X) g).
Proof. by intros w. Qed.
Lemma step_committed {X A} (m : M (World X) A) :
  evolves session_step m → evolves same_committed m.
Proof. intros Hm w. by destruct (Hm w) as (_ & Hc & _). Qed.
Lemma insert_row_committed {X R} (table : Database → gmap uuid R) upd ok id (r : R) :
  evolves same_committed (insert_row (X:=X) table upd ok id r).
Proof.
  intros w. unfold insert_row, query, gets, bind, raise_if. simpl. by destruct (negb _).
Qed.
#[export] Hint Resolve update_db_committed insert_row_committed : cw_pres.
#[export] Hint Extern 1 (evolves same_committed (assign _ _ _)) =>
  apply update_db_committed : cw_pres.
#[export] Hint Extern 3 (evolves same_committed _) =>
  apply step_committed; solve [evolve] : cw_pres.

(** ** Tables an operation leaves alone *)

(** [f] reads the same before and after. *)
Definition same_db {X A} (f : Database → A) : relation (World X) := stable (λ w, f w.(work)).
#[export] Instance same_db_evolution {X A} (f : Database → A) : Evolution (same_db (X:=X) f).
Proof. apply stable_evolution. Qed.

Section same.
Context {X : Type} `{!Runtime X} {A : Type} (f : Database → A).
Abbreviation same_ok m := (evolves (same_db (X:=X) f) m).

Lemma external_same {B} (g : X → B * X) : same_ok (external g).
Proof. by intros w. Qed.
Lemma query_same {B} (g : Database → B) : same_ok (query g).
Proof. by intros w. Qed.
Lemma metric_add_same k d : same_ok (metric_add k d).
Proof. by intros w. Qed.
Lemma record_call_same c : same_ok (record_call c).
Proof. by intros w. Qed.
Lemma flush_same : same_ok flush.
Proof. by intros w. Qed.
Lemma commit_same : same_ok commit.
Proof. by intros w. Qed.
Lemma deref_same {R} (table : Database → gmap uuid R) id : same_ok (deref table id).
Proof.
  intros w. unfold deref, query, bind, gets, same_db, stable.
  by destruct (table (work w) !! id).
Qed.
Lemma utc_now_same : same_ok utc_now.
Proof. apply external_same. Qed.
Lemma monotonic_same : same_ok monotonic.
Proof. apply external_same. Qed.
Lemma sleep_same d : same_ok (sleep d).
Proof. apply external_same. Qed.
Lemma uuid4_same : same_ok uuid4.
Proof. apply external_same. Qed.

Lemma update_db_same g : (∀ d, f (g d) = f d) → same_ok (update_db g).
Proof. intros H w. apply H. Qed.

Lemma insert_row_same {R} (table : Database → gmap uuid R) upd ok id r :
  (∀ g d, f (upd g d) = f d) → same_ok (insert_row table upd ok id r).
Proof.
  intros H w. unfold insert_row, query, gets, bind, raise_if. simpl.
  destruct (negb _); simpl; [done|apply H].
Qed.
End same.

#[export] Hint Resolve external_same query_same metric_add_same record_call_same flush_same
  commit_same deref_same utc_now_same monotonic_same sleep_same uuid4_same : cw_pres.
#[export] Hint Extern 1 (evolves (same_db _) (update_db _)) =>
  apply update_db_same; intros; reflexivity : cw_pres.
#[export] Hint Extern 1 (evolves (same_db _) (assign _ _ _)) =>
  apply update_db_same; intros; reflexivity : cw_pres.
#[export] Hint Extern 1 (evolves (same_db _) (insert_row _ _ _ _ _)) =>
  apply insert_row_same; intros; reflexivity : cw_pres.

(** The audit log and the outbox change nothing but themselves. *)
Section audit_same.
Context {X : Type} `{!Runtime X} {A : Type} (f : Database → A).
Abbreviation same_ok m := (evolves (same_db (X:=X) f) m).

Lemma record_audit_same et ci ii ac at_ ai a rs pd res md :
  (∀ g d, f (upd_audit_events g d) = f d) →
  same_ok (record_audit et ci ii ac at_ ai a rs pd res md).
Proof.
  intros H. unfold record_audit.
  repeat first [evolve_step | apply update_db_same; intros; apply H | eauto with cw_pres].
Qed.

Lemma append_stream_event_same et ii p :
  (∀ g d, f (upd_stream_events g d) = f d) → same_ok (append_stream_event et ii p).
Proof.
  intros H. unfold append_stream_event.
  repeat first [evolve_step | apply update_db_same; intros; apply H | eauto with cw_pres].
Qed.

Lemma send_task_same t k : same_ok (send_task t k).
Proof. unfold send_task. evolve. Qed.
End audit_same.

#[export] Hint Resolve send_task_same : cw_pres.
#[export] Hint Extern 1 (evolves (same_db _) (record_audit _ _ _ _ _ _ _ _ _ _ _)) =>
  apply record_audit_same; intros; reflexivity : cw_pres.
#[export] Hint Extern 1 (evolves (same_db _) (record_audit_system _ _ _ _ _ _ _)) =>
  apply record_audit_same; intros; reflexivity : cw_pres.
#[export] Hint Extern 1 (evolves (same_db _) (append_stream_event _ _ _)) =>
  apply append_stream_event_same; intros; reflexivity : cw_pres.

(** The audit log and the outbox always accept a row. *)
Section total.
Context {X : Type} `{!Runtime X}.

(** [m] returns from every world. *)
Definition returns {A} (m : M (World X) A) : Prop := ∀ w, ∃ a w', m w = (Ok a, w').

Lemma returns_bind {A B} (m : M (World X) A) (k : A → M (World X) B) :
  returns m → (∀ a, returns (k a)) → returns (bind m k).
Proof.
  intros Hm Hk w. destruct (Hm w) as (a & w1 & E). destruct (Hk a w1) as (b & w2 & E2).
  exists b, w2. by rewrite (bind_step _ _ _ _ _ E).
Qed.

Lemma record_audit_returns et ci ii ac at_ ai a rs pd res md :
  returns (record_audit (X:=X) et ci ii ac at_ ai a rs pd res md).
Proof. intros w. unfold record_audit, bind. simpl. eauto. Qed.

Lemma append_stream_event_returns et ii p : returns (append_stream_event (X:=X) et ii p).
Proof. intros w. unfold append_stream_event, bind. simpl. eauto. Qed.
End total.

(** ** Operations that leave the metrics alone *)

Definition same_metrics {X} : relation (World X) := stable metrics.
#[export] Instance same_metrics_evolution {X} : Evolution (same_metrics (X:=X)).
Proof. apply stable_evolution. Qed.

Section metrics.
Context {X : Type} `{!Runtime X}.
Abbreviation metrics_ok m := (evolves (same_metrics (X:=X)) m).

Lemma external_metrics {B} (g : X → B * X) : metrics_ok (external g).
Proof. by intros w. Qed.
Lemma query_metrics {B} (g : Database → B) : metrics_ok (query g).
Proof. by intros w. Qed.
Lemma update_db_metrics g : metrics_ok (update_db g).
Proof. by intros w. Qed.
Lemma record_call_metrics c : metrics_ok (record_call c).
Proof. by intros w. Qed.
Lemma flush_metrics : metrics_ok flush.
Proof. by intros w. Qed.
Lemma deref_metrics {R} (table : Database → gmap uuid R) id : metrics_ok (deref table id).
Proof. intros w. unfold deref, query, bind, gets. by destruct (table (work w) !! id). Qed.
Lemma insert_row_metrics {R} (table : Database → gmap uuid R) upd ok id r :
  metrics_ok (insert_row table upd ok id r).
Proof.
  intros w. unfold insert_row, query, gets, bind, raise_if. simpl. by destruct (negb _).
Qed.
Lemma utc_now_metrics : metrics_ok utc_now.
Proof. apply external_metrics. Qed.
Lemma uuid4_metrics : metrics_ok uuid4.
Proof. apply external_metrics. Qed.
Hint Resolve external_metrics query_metrics update_db_metrics record_call_metrics
  flush_metrics utc_now_metrics uuid4_metrics : cw_pres.
Lemma record_audit_metrics et ci ii ac at_ ai a rs pd res md :
  metrics_ok (record_audit et ci ii ac at_ ai a rs pd res md).
Proof. unfold record_audit. evolve. Qed.
Lemma record_audit_system_metrics et ci ii a rs res md :
  metrics_ok (record_audit_system et ci ii a rs res md).
Proof. apply record_audit_metrics. Qed.
Lemma append_stream_event_metrics et ii p : metrics_ok (append_stream_event et ii p).
Proof. unfold append_stream_event. evolve. Qed.
Lemma send_task_metrics t k : metrics_ok (send_task t k).
Proof. unfold send_task. evolve. Qed.
End metrics.

#[export] Hint Resolve external_metrics query_metrics update_db_metrics record_call_metrics
  flush_metrics deref_metrics insert_row_metrics utc_now_metrics uuid4_metrics
  record_audit_metrics record_audit_system_metrics append_stream_event_metrics
  send_task_metrics : cw_pres.
#[export] Hint Extern 1 (evolves same_metrics (assign _ _ _)) =>
  apply update_db_metrics : cw_pres.

(** ** Operations that call nothing outside *)

Definition same_trace {X} : relation (World X) := stable trace.
#[export] Instance same_trace_evolution {X} : Evolution (same_trace (X:=X)).
Proof. apply stable_evolution. Qed.

Section trace.
Context {X : Type} `{!Runtime X}.
Abbreviation trace_ok m := (evolves (same_trace (X:=X)) m).

Lemma external_trace {B} (g : X → B * X) : trace_ok (external g).
Proof. by intros w. Qed.
Lemma query_trace {B} (g : Database → B) : trace_ok (query g).
Proof. by intros w. Qed.
Lemma update_db_trace g : trace_ok (update_db g).
Proof. by intros w. Qed.
Lemma metric_add_trace k d : trace_ok (metric_add k d).
Proof. by intros w. Qed.
Lemma flush_trace : trace_ok flush.
Proof. by intros w. Qed.
Lemma commit_trace : trace_ok commit.
Proof. by intros w. Qed.
Lemma rollback_trace : trace_ok rollback.
Proof. by intros w. Qed.
Lemma deref_trace {R} (table : Database → gmap uuid R) id : trace_ok (deref table id).
Proof. intros w. unfold deref, query, bind, gets. by destruct (table (work w) !! id). Qed.
Lemma insert_row_trace {R} (table : Database → gmap uuid R) upd ok id r :
  trace_ok (insert_row table upd ok id r).
Proof.
  intros w. unfold insert_row, query, gets, bind, raise_if. simpl. by destruct (negb _).
Qed.
Lemma utc_now_trace : trace_ok utc_now.
Proof. apply external_trace. Qed.
Lemma monotonic_trace : trace_ok monotonic.
Proof. apply external_trace. Qed.
Lemma sleep_trace d : trace_ok (sleep d).
Proof. apply external_trace. Qed.
Lemma uuid4_trace : trace_ok uuid4.
Proof. apply external_trace. Qed.
Hint Resolve external_trace query_trace update_db_trace metric_add_trace flush_trace
  utc_now_trace uuid4_trace : cw_pres.
Lemma record_audit_trace et ci ii ac at_ ai a rs pd res md :
  trace_ok (record_audit et ci ii ac at_ ai a rs pd res md).
Proof. unfold record_audit. evolve. Qed.
Lemma record_audit_system_trace et ci ii a rs res md :
  trace_ok (record_audit_system et ci ii a rs res md).
Proof. apply record_audit_trace. Qed.
Lemma append_stream_event_trace et ii p : trace_ok (append_stream_event et ii p).
Proof. unfold append_stream_event. evolve. Qed.
End trace.

#[export] Hint Resolve external_trace query_trace update_db_trace metric_add_trace
  flush_trace commit_trace rollback_trace deref_trace insert_row_trace utc_now_trace
  monotonic_trace sleep_trace uuid4_trace record_audit_trace record_audit_system_trace
  append_stream_event_trace : cw_pres.
#[export] Hint Extern 1 (evolves same_trace (assign _ _ _)) =>
  apply update_db_trace : cw_pres.
