(* ===== verification/Memory.v ===== *)
(** * Incident memory

    [incident_memory/]: the fingerprint of an incident, the record kept when an
    incident ends ([remember], [capture_terminal_incident]) and the deterministic
    ranking of similar incidents. *)

From S2P Require Import Prelude PyFloat Json Sha256 Effects Actions StateMachine Models.
From S2P Require Import World Redaction Config AuditLog History.

(** ** Fingerprints ([fingerprint.py]) *)

Definition DEFAULT_STABLE_LABELS : list string :=
  ["app"; "app.kubernetes.io/name"; "app.kubernetes.io/component";
   "cloudward.io/scenario"; "team"].

(** Non-string labels and labels outside the stable set are dropped. *)
Definition select_stable_labels (value : json) : list (string * string) :=
  match value with
  | JObj d =>
      omap (λ kv, match kv.2 with
                  | JStr item => if bool_decide (kv.1 ∈ DEFAULT_STABLE_LABELS)
                                 then Some (kv.1, str_take 255 item) else None
                  | _ => None
                  end) d
  | _ => []
  end.

(** [re.sub(r"\s+", "-", s)]: a run of blanks becomes one dash. *)
Fixpoint dash_blanks (in_run : bool) (s : string) : string :=
  match s with
  | EmptyString => EmptyString
  | String.String c s =>
      if is_blank c then if in_run then dash_blanks true s
                         else String.String "-" (dash_blanks true s)
      else String.String c (dash_blanks false s)
  end.

Definition component_char (c : ascii) : bool :=
  is_lower c || is_digit c || bool_decide (c ∈ list_ascii_of_string "._/-").

Fixpoint str_filter (p : ascii → bool) (s : string) : string :=
  match s with
  | EmptyString => EmptyString
  | String.String c s => if p c then String.String c (str_filter p s) else str_filter p s
  end.

Definition normalize_component (value : option string) : string :=
  match value with
  | None => "unknown"
  | Some v =>
      if truthy_str v then
        let normalized := dash_blanks false (lower (str_strip v)) in
        str_or (str_take 255 (str_filter component_char normalized)) "unknown"
      else "unknown"
  end.

Record FingerprintInput : Type := {
  fp_service : string;
  fp_incident_type : string;
  fp_alert_name : string;
  fp_namespace : option string;
  fp_root_cause_category : option string;
  fp_labels : list (string * string);
}.

Definition len_between (lo hi : Z) (s : string) : bool :=
  (lo <=? str_len s) && (str_len s <=? hi).
Definition opt_max (hi : Z) (o : option string) : bool :=
  match o with Some s => str_len s <=? hi | None => true end.

(** The field constraints and [bound_labels]. *)
Definition FingerprintInput_valid (v : FingerprintInput) : bool :=
  len_between 1 255 v.(fp_service) && len_between 1 128 v.(fp_incident_type) &&
  len_between 1 255 v.(fp_alert_name) && opt_max 253 v.(fp_namespace) &&
  opt_max 128 v.(fp_root_cause_category) && (length v.(fp_labels) <=? 50)%nat &&
  forallb (λ kv, (str_len kv.1 <=? 255) && (str_len kv.2 <=? 255)) v.(fp_labels).

Definition stable_labels (v : FingerprintInput) : list (string * string) :=
  map (λ kv, (kv.1, normalize_component (Some kv.2)))
    (List.filter (λ kv, bool_decide (kv.1 ∈ DEFAULT_STABLE_LABELS))
       (isort (λ a b : string * string, str_leb a.1 b.1) v.(fp_labels))).

Definition canonical (v : FingerprintInput) : dict :=
  [("service", JStr (normalize_component (Some v.(fp_service))));
   ("incident_type", JStr (normalize_component (Some v.(fp_incident_type))));
   ("alert_name", JStr (normalize_component (Some v.(fp_alert_name))));
   ("namespace", JStr (normalize_component v.(fp_namespace)));
   ("root_cause_category", JStr (normalize_component v.(fp_root_cause_category)));
   ("labels", JObj (map (λ kv, (kv.1, JStr kv.2)) (stable_labels v)))].

Definition incident_fingerprint (v : FingerprintInput) : string :=
  sha256_hex (dumps (JObj (canonical v))).

(** ** Writing ([schemas.MemoryWrite], [service.remember]) *)

Record MemoryWrite : Type := {
  mw_incident_id : uuid;
  mw_service : string;
  mw_environment : string;
  mw_incident_type : string;
  mw_alert_name : string;
  mw_namespace : option string;
  mw_root_cause_category : option string;
  mw_labels : list (string * string);
  mw_runbook_id : option string;
  mw_action : option ActionType;
  mw_result : string;
  mw_verification_success : option bool;
  mw_duration_seconds : option Z;
  mw_model : option string;
  mw_confidence : option float;
  mw_resolved_at : datetime;
  mw_evidence_summary : dict;
  mw_operator_summary : option string;
}.

Definition MemoryWrite_valid (v : MemoryWrite) : bool :=
  len_between 1 255 v.(mw_service) && len_between 1 32 v.(mw_environment) &&
  len_between 1 128 v.(mw_incident_type) && len_between 1 255 v.(mw_alert_name) &&
  opt_max 253 v.(mw_namespace) && opt_max 128 v.(mw_root_cause_category) &&
  opt_max 255 v.(mw_runbook_id) && len_between 1 64 v.(mw_result) &&
  (match v.(mw_duration_seconds) with Some n => 0 <=? n | None => true end) &&
  opt_max 128 v.(mw_model) &&
  (match v.(mw_confidence) with Some c => fleb fzero c && fleb c fone | None => true end) &&
  opt_max 2000 v.(mw_operator_summary).

(** [str.upper()] of the ASCII letters. *)
Fixpoint upper (s : string) : string :=
  match s with
  | EmptyString => EmptyString
  | String.String c s =>
      String.String (if is_lower c then ascii_of_N (N_of_ascii c - 32) else c) (upper s)
  end.

Definition fingerprint_of_write (v : MemoryWrite) : FingerprintInput :=
  {| fp_service := v.(mw_service); fp_incident_type := v.(mw_incident_type);
     fp_alert_name := v.(mw_alert_name); fp_namespace := v.(mw_namespace);
     fp_root_cause_category := v.(mw_root_cause_category); fp_labels := v.(mw_labels) |}.

Definition memory_record (id : uuid) (v : MemoryWrite) : IncidentMemoryRecord :=
  let fp := fingerprint_of_write v in
  {| mem_id := id; mem_incident_id := v.(mw_incident_id);
     mem_fingerprint := incident_fingerprint fp;
     mem_service_key := normalize_component (Some v.(mw_service));
     mem_environment := v.(mw_environment);
     mem_incident_type := normalize_component (Some v.(mw_incident_type));
     mem_alert_name := normalize_component (Some v.(mw_alert_name));
     mem_namespace := v.(mw_namespace);
     mem_root_cause_category := v.(mw_root_cause_category);
     mem_stable_labels := stable_labels fp;
     mem_runbook_id := v.(mw_runbook_id);
     mem_action := ActionType_value <$> v.(mw_action);
     mem_result := v.(mw_result);
     mem_verification_success := v.(mw_verification_success);
     mem_duration_seconds := v.(mw_duration_seconds);
     mem_model := v.(mw_model); mem_confidence := v.(mw_confidence);
     mem_successful := bool_decide (v.(mw_verification_success) = Some true) &&
       bool_decide (upper v.(mw_result) ∈ ["RESOLVED"; "SUCCEEDED"]);
     mem_resolved_at := v.(mw_resolved_at);
     mem_evidence_summary :=
       match redact (JObj v.(mw_evidence_summary)) with JObj d => d | _ => [] end;
     mem_operator_summary :=
       match opt_json JStr v.(mw_operator_summary) with
       | JStr s => Some (redact_text s)
       | _ => None
       end |}.

Section memory.
Context {X : Type} `{!Runtime X}.

(** [IncidentMemoryService.remember]: one record per incident, rewritten in
    place when the incident ends again. *)
Definition remember (v : MemoryWrite) (correlation_id : string) : M (World X) unit :=
  do! raise_if (negb (FingerprintInput_valid (fingerprint_of_write v)))
        (validation_error "FingerprintInput");
  let! existing := query (λ db, select_one
    (λ r, bool_decide (r.(mem_incident_id) = v.(mw_incident_id))) db.(incident_memory)) in
  let! id := match existing with Some r => ret r.(mem_id) | None => uuid4 end in
  let record := memory_record id v in
  do! update_db (upd_incident_memory (λ t, <[id := record]> t));
  do! flush;
  record_audit_system "INCIDENT_MEMORY_STORED" correlation_id (Some v.(mw_incident_id))
    None None "SUCCEEDED"
    [("fingerprint", JStr record.(mem_fingerprint));
     ("successful", JBool record.(mem_successful)); ("result", JStr record.(mem_result))].

(** *** [capture.py] *)

Definition newest_evidence (n : nat) (incident_id : uuid) (l : list EvidenceSnapshot)
  : list EvidenceSnapshot :=
  take n (isort (λ a b, b.(evd_created_at) <=? a.(evd_created_at))
    (List.filter (λ e, bool_decide (e.(evd_incident_id) = incident_id)) l)).

Definition evidence_item (e : EvidenceSnapshot) : json :=
  JObj [("type", JStr (EvidenceType_value e.(evd_evidence_type)));
        ("summary", JStr e.(evd_summary)); ("reference", JOptStr e.(evd_reference));
        ("phase", JStr (EvidencePhase_value e.(evd_phase)))].

(** [max(0, int((terminal_at - start).total_seconds()))]. *)
Definition duration_between (start terminal : datetime) : Z :=
  Z.max 0 (Z.quot (terminal - start) 1000000).

(** The [MemoryWrite] built from what the queries returned. *)
Definition terminal_memory (incident : Incident) (service : option Service)
    (alert : option AlertRecord) (diagnosis : option AIDiagnosisRecord)
    (execution : option ActionExecution) (proposal : option ActionProposal)
    (verification : option VerificationRecord) (evidence : list EvidenceSnapshot)
    (terminal_at : datetime) : MemoryWrite :=
  let action := match execution, proposal with
                | Some e, _ => Some e.(exec_action_type)
                | None, Some p => Some p.(prop_action_type)
                | None, None => None
                end in
  let result := IncidentState_value incident.(inc_state) in
  {| mw_incident_id := incident.(inc_id);
     mw_service := match service, alert with
                   | Some s, _ => s.(svc_name)
                   | None, Some a => a.(alr_service)
                   | None, None => "unassigned"
                   end;
     mw_environment := Environment_value incident.(inc_environment);
     mw_incident_type := incident.(inc_incident_type);
     mw_alert_name := match alert with Some a => a.(alr_alert_name)
                                     | None => incident.(inc_title) end;
     mw_namespace := match service, alert with
                     | Some s, _ => Some s.(svc_namespace)
                     | None, Some a => a.(alr_namespace)
                     | None, None => None
                     end;
     mw_root_cause_category := match diagnosis with
                               | Some d => d.(dia_root_cause_category)
                               | None => Some incident.(inc_incident_type)
                               end;
     mw_labels := select_stable_labels
       (match service, alert with
        | Some s, _ => s.(svc_labels)
        | None, Some a => a.(alr_labels)
        | None, None => JObj []
        end);
     mw_runbook_id := incident.(inc_runbook_id);
     mw_action := action; mw_result := result;
     mw_verification_success := ver_success <$> verification;
     mw_duration_seconds := Some (duration_between incident.(inc_created_at) terminal_at);
     mw_model := diagnosis ≫= dia_model;
     mw_confidence := diagnosis ≫= dia_confidence;
     mw_resolved_at := terminal_at;
     mw_evidence_summary :=
       [("items", JArr (map evidence_item evidence));
        ("verification", opt_json (λ v, JObj [("success", JBool v.(ver_success));
                                              ("checks", JArr (take 10 v.(ver_checks)))])
           verification);
        ("execution_status",
           opt_json (λ e, JStr (RecordStatus_value e.(exec_status))) execution)];
     mw_operator_summary := Some
       (incident.(inc_title) +:+ "; terminal state " +:+ result +:+ "; action " +:+
        match action with Some a => ActionType_value a | None => "none" end +:+
        "; verification " +:+
        match verification with Some v => b2s v.(ver_success) | None => "not recorded" end) |}.

Definition capture_terminal_incident (incident_id : uuid) : M (World X) unit :=
  let! incident := the_incident incident_id in
  let of_incident {R} (f : R → uuid) := λ r, bool_decide (f r = incident_id) in
  let! service := query (λ db, incident.(inc_service_id) ≫= λ s, db.(services) !! s) in
  let! alert := query (λ db, latest alr_created_at
    (λ a, bool_decide (a.(alr_incident_id) = Some incident_id)) (rows db.(alert_records))) in
  let! diagnosis := query (λ db, latest dia_created_at (of_incident dia_incident_id)
    db.(ai_diagnoses)) in
  let! execution := query (λ db, latest exec_created_at (of_incident exec_incident_id)
    (rows db.(action_executions))) in
  let! proposal := query (λ db, latest prop_created_at (of_incident prop_incident_id)
    (rows db.(action_proposals))) in
  let! verification := query (λ db, latest ver_created_at (of_incident ver_incident_id)
    db.(verification_records)) in
  let! evidence := query (λ db, newest_evidence 12 incident_id db.(evidence_snapshots)) in
  let! existing := query (λ db, select_one
    (λ r, bool_decide (r.(mem_incident_id) = incident_id)) db.(incident_memory)) in
  let! terminal_at := match incident.(inc_resolved_at), existing with
                      | Some t, _ => ret t
                      | None, Some m => ret m.(mem_resolved_at)
                      | None, None => utc_now
                      end in
  let value := terminal_memory incident service alert diagnosis execution proposal
                 verification evidence terminal_at in
  do! raise_if (negb (MemoryWrite_valid value)) (validation_error "MemoryWrite");
  remember value incident.(inc_correlation_id).

Lemma remember_step v c : evolves session_step (remember v c).
Proof. unfold remember. evolve. Qed.
Hint Resolve remember_step : cw_pres.

Lemma capture_terminal_incident_step i : evolves session_step (capture_terminal_incident i).
Proof. unfold capture_terminal_incident. evolve. Qed.
End memory.

#[export] Hint Resolve remember_step capture_terminal_incident_step : cw_pres.

(** ** Ranking ([_rank], [find_similar]) *)

Record RankedMemory : Type := {
  rank_record : IncidentMemoryRecord;
  rank_score : Z;
  rank_reasons : list string;
}.

Definition truthy_opt (o : option string) : bool :=
  match o with Some s => truthy_str s | None => false end.

(** [if c: score += points; reasons.append(reason)]. *)
Definition award (c : bool) (points : Z) (reason : string) (acc : Z * list string)
  : Z * list string :=
  if c then (acc.1 + points, acc.2 ++ [reason]) else acc.

Definition rank (record : IncidentMemoryRecord) (q : FingerprintInput) : RankedMemory :=
  let service := normalize_component (Some q.(fp_service)) in
  if negb (String.eqb record.(mem_service_key) service) then
    {| rank_record := record; rank_score := 0; rank_reasons := [] |}
  else
    let acc := award (String.eqb record.(mem_fingerprint) (incident_fingerprint q))
                 65 "same fingerprint" (0, []) in
    let acc := award (String.eqb record.(mem_service_key) service) 30 "same service" acc in
    let acc := award (String.eqb record.(mem_incident_type)
                 (normalize_component (Some q.(fp_incident_type)))) 20 "same incident type" acc in
    let acc := award (String.eqb record.(mem_alert_name)
                 (normalize_component (Some q.(fp_alert_name)))) 12 "same alert" acc in
    let acc := award (truthy_opt record.(mem_namespace) &&
                 bool_decide (record.(mem_namespace) = q.(fp_namespace)))
                 6 "same namespace" acc in
    let acc := award (truthy_opt record.(mem_root_cause_category) &&
                 bool_decide (record.(mem_root_cause_category) = q.(fp_root_cause_category)))
                 15 "same root cause" acc in
    let acc := award record.(mem_successful) 4 "verified successful outcome" acc in
    {| rank_record := record; rank_score := Z.min acc.1 100; rank_reasons := acc.2 |}.

Record SimilarIncidentResponse : Type := {
  sim_record : IncidentMemoryRecord;
  sim_match_score : Z;
  sim_match_reasons : list string;
  sim_action : option ActionType;
  sim_evidence_summary : dict;
}.

(** [_response]; the fields copied from the record are kept as the record. *)
Definition response (v : RankedMemory) : res SimilarIncidentResponse :=
  let record := v.(rank_record) in
  let evidence := match redact (JObj record.(mem_evidence_summary)) with
                  | JObj d => d | _ => [] end in
  let make a := {| sim_record := record; sim_match_score := v.(rank_score);
                   sim_match_reasons := v.(rank_reasons); sim_action := a;
                   sim_evidence_summary := evidence |} in
  match record.(mem_action) with
  | None => Ok (make None)
  | Some s =>
      if negb (truthy_str s) then Ok (make None)
      else match ActionType_of_value s with
           | Some a => Ok (make (Some a))
           | None => Raise (PyError "ValueError" s)
           end
  end.

(** The sort key [(score, successful, resolved_at)], greatest first. *)
Definition rank_geb (a b : RankedMemory) : bool :=
  let sa := a.(rank_record).(mem_successful) in
  let sb := b.(rank_record).(mem_successful) in
  if a.(rank_score) =? b.(rank_score) then
    if Bool.eqb sa sb then
      b.(rank_record).(mem_resolved_at) <=? a.(rank_record).(mem_resolved_at)
    else sa
  else b.(rank_score) <? a.(rank_score).

Definition select_similar (records : list IncidentMemoryRecord) (q : FingerprintInput)
    (limit : Z) : list RankedMemory :=
  let ranked := List.filter (λ r, 40 <=? r.(rank_score)) (map (λ r, rank r q) records) in
  take (Z.to_nat (Z.min (Z.max limit 1) 20)) (isort rank_geb ranked).

Section similar.
Context {X : Type} `{!Runtime X}.

Definition find_similar (q : FingerprintInput) (exclude : option uuid) (limit : Z)
    (correlation_id : option string) : M (World X) (list SimilarIncidentResponse) :=
  let! records := query (λ db, take 500
    (isort (λ a b, b.(mem_resolved_at) <=? a.(mem_resolved_at))
      (List.filter (λ r, match exclude with
                         | Some e => negb (bool_decide (r.(mem_incident_id) = e))
                         | None => true end) (rows db.(incident_memory))))) in
  let selected := select_similar records q limit in
  do! match correlation_id with
      | Some c =>
          record_audit_system "INCIDENT_MEMORY_MATCHED" c exclude None None "SUCCEEDED"
            [("matches", JInt (Z.of_nat (length selected)));
             ("fingerprints",
                JArr (map (λ r, JStr r.(rank_record).(mem_fingerprint)) selected))]
      | None => ret tt
      end;
  map_m (λ v, lift (response v)) selected.
End similar.

(** *** Facts about the ranking *)

Lemma award_score c p r acc :
  0 ≤ p → acc.1 ≤ (award c p r acc).1 ≤ acc.1 + p ∧
  ((award c p r acc).1 = acc.1 + p ∨ c = false).
Proof. unfold award. destruct c; simpl; lia || auto. Qed.

Lemma rank_bounds record q :
  0 ≤ (rank record q).(rank_score) ≤ 100 ∧
  (rank record q).(rank_record) = record ∧
  (0 < (rank record q).(rank_score) →
     record.(mem_service_key) = normalize_component (Some q.(fp_service))) ∧
  (record.(mem_service_key) = normalize_component (Some q.(fp_service)) →
   record.(mem_fingerprint) = incident_fingerprint q → 95 ≤ (rank record q).(rank_score)).
Proof.
  unfold rank. destruct (String.eqb (mem_service_key record) _) eqn:Hs; simpl; boolify;
    [|split_and!; intros; simpl in *; try done; lia].
  repeat match goal with
  | |- context [award ?c ?p ?r ?acc] =>
      lazymatch acc with
      | context [award _ _ _ _] => fail
      | _ =>
          let H := fresh in
          pose proof (award_score c p r acc ltac:(lia)) as H;
          let a := fresh "acc" in
          set (a := award c p r acc) in *; clearbody a
      end
  end. simpl in *.
  split_and!; try done; try lia. intros _ Hf.
  repeat match goal with
  | H : _ ∧ (_ ∨ String.eqb (mem_fingerprint record) _ = false) |- _ =>
      rewrite Hf, String.eqb_refl in H
  end. destruct_and!. destruct_or!; try done; lia.
Qed.

Lemma insert_sorted_sorted {A} (leb : A → A → bool) (x : A) l :
  (∀ a b, leb a b = true ∨ leb b a = true) →
  Sorted (λ a b, leb a b = true) l → Sorted (λ a b, leb a b = true) (insert_sorted leb x l).
Proof.
  intros Htot. induction 1 as [|y l Hl IH Hd]; simpl; [by repeat constructor|].
  destruct (leb x y) eqn:E; [by repeat constructor|].
  constructor; [done|]. assert (leb y x = true) by (destruct (Htot x y); congruence).
  destruct l as [|z l]; simpl; [by constructor|].
  destruct (leb x z); constructor; [done|]. by inversion Hd.
Qed.

Lemma isort_sorted {A} (leb : A → A → bool) l :
  (∀ a b, leb a b = true ∨ leb b a = true) → Sorted (λ a b, leb a b = true) (isort leb l).
Proof. intros. induction l; simpl; [constructor|by apply insert_sorted_sorted]. Qed.

Lemma Sorted_take {A} (R : A → A → Prop) n l : Sorted R l → Sorted R (take n l).
Proof.
  revert n. induction l as [|x l IH]; intros [|n] H; simpl; try constructor.
  - apply IH. by inversion H.
  - inversion H as [|? ? ? Hd]; subst. destruct l, n; simpl; constructor. by inversion Hd.
Qed.

Lemma rank_geb_total a b : rank_geb a b = true ∨ rank_geb b a = true.
Proof.
  unfold rank_geb. rewrite (Z.eqb_sym (rank_score b)).
  destruct (rank_score a =? rank_score b) eqn:?; [|rewrite !Z.ltb_lt; boolify; lia].
  destruct (mem_successful (rank_record a)), (mem_successful (rank_record b)); simpl; auto;
    rewrite !Z.leb_le; lia.
Qed.

(** The similarity search is sound and bounded: at most twenty results,
    each a candidate record of the same service scoring between 40 and 100, in
    decreasing order of score; a record with the very same fingerprint always
    scores at least 95, and other services always score 0. *)
Theorem select_similar_spec records q limit :
  let found := select_similar records q limit in
  (length found ≤ 20)%nat ∧
  (∀ r, r ∈ found → ∃ m, m ∈ records ∧ r = rank m q ∧ 40 ≤ r.(rank_score) ≤ 100 ∧
     m.(mem_service_key) = normalize_component (Some q.(fp_service))) ∧
  Sorted (λ a b, b.(rank_score) ≤ a.(rank_score)) found ∧
  (∀ m, m.(mem_service_key) = normalize_component (Some q.(fp_service)) →
     m.(mem_fingerprint) = incident_fingerprint q → 95 ≤ (rank m q).(rank_score)).
Proof.
  unfold select_similar. set (ranked := List.filter _ _). simpl. split_and!.
  - rewrite length_take. lia.
  - intros r Hr%elem_of_take. destruct Hr as (i & Hr & _).
    apply list_elem_of_lookup_2, isort_elem, list_elem_of_In, filter_In in Hr as [Hr Hs].
    apply in_map_iff in Hr as (m & <- & Hm%list_elem_of_In). exists m.
    destruct (rank_bounds m q) as (? & ? & Hserv & _). boolify.
    split_and!; try done; try lia. apply Hserv. lia.
  - apply Sorted_take. eapply Sorted_ind with (R := λ a b, rank_geb a b = true).
    + constructor.
    + intros a l _ IH Hd. constructor; [done|]. destruct Hd; constructor.
      unfold rank_geb in *. case_match; boolify; lia.
    + apply isort_sorted, rank_geb_total.
  - intros m ? ?. by apply rank_bounds.
Qed.

Definition witness_write : MemoryWrite :=
  {| mw_incident_id := 1%N; mw_service := "checkout"; mw_environment := "staging";
     mw_incident_type := "reliability"; mw_alert_name := "HighCPUSaturation";
     mw_namespace := None; mw_root_cause_category := None; mw_labels := [];
     mw_runbook_id := None; mw_action := None; mw_result := "RESOLVED";
     mw_verification_success := None; mw_duration_seconds := None; mw_model := None;
     mw_confidence := None; mw_resolved_at := 0; mw_evidence_summary := [];
     mw_operator_summary := None |}.

Lemma select_similar_spec_witness :
  95 ≤ rank_score (rank (memory_record 1%N witness_write) (fingerprint_of_write witness_write)).
Proof.
  refine (proj2 (proj2 (proj2 (select_similar_spec []
    (fingerprint_of_write witness_write) 5))) _ _ _); vm_compute; reflexivity.
Defined.
