(* ===== verification/Notifications.v ===== *)
(** * The notification outbox

    [notifications/service.py]: queueing.  A notification is a row written in the
    same transaction as the change it reports, deduplicated by a digest, and then
    offered to the broker; the row survives when the broker refuses.  [Delivery] holds the
    other half, the sending. *)

From S2P Require Import Prelude PyFloat Json Sha256 Effects Actions StateMachine Models.
From S2P Require Import World Redaction Config AuditLog History Memory.

Record NotificationMessage : Type := {
  msg_event_type : string;
  msg_title : string;
  msg_incident_id : option uuid;
  msg_correlation_id : string;
  msg_severity : string;
  msg_service : string;
  msg_environment : string;
  msg_cause : string;
  msg_risk_score : option Z;
  msg_policy : string;
  msg_current_state : string;
  msg_dashboard_url : option string;
  msg_details : dict;
}.

Definition NotificationMessage_valid (m : NotificationMessage) : bool :=
  len_between 1 128 m.(msg_event_type) && len_between 1 200 m.(msg_title) &&
  len_between 1 128 m.(msg_correlation_id) && len_between 0 16 m.(msg_severity) &&
  len_between 0 255 m.(msg_service) && len_between 0 32 m.(msg_environment) &&
  len_between 0 1000 m.(msg_cause) &&
  match m.(msg_risk_score) with Some s => (0 <=? s) && (s <=? 100) | None => true end &&
  len_between 0 1000 m.(msg_policy) && len_between 0 64 m.(msg_current_state) &&
  opt_max 2048 m.(msg_dashboard_url).

(** [model_dump(mode="json")]. *)
Definition NotificationMessage_dump (m : NotificationMessage) : dict :=
  [("event_type", JStr m.(msg_event_type)); ("title", JStr m.(msg_title));
   ("incident_id", opt_json (λ u, JStr (uuid_str u)) m.(msg_incident_id));
   ("correlation_id", JStr m.(msg_correlation_id)); ("severity", JStr m.(msg_severity));
   ("service", JStr m.(msg_service)); ("environment", JStr m.(msg_environment));
   ("cause", JStr m.(msg_cause)); ("risk_score", JOptInt m.(msg_risk_score));
   ("policy", JStr m.(msg_policy)); ("current_state", JStr m.(msg_current_state));
   ("dashboard_url", JOptStr m.(msg_dashboard_url)); ("details", JObj m.(msg_details))].

Definition NOTIFICATION_TASK : string := "cloudward.tasks.notifications.deliver".

(** [_destination_reference]. *)
Definition destination_reference (channel : string) (settings : Settings) : string :=
  match settings.(teams_workflow_webhook_url) with
  | Some value =>
      if String.eqb channel "teams" then "configured:" +:+ str_take 12 (sha256_hex value)
      else if String.eqb channel "github_issue" then "configured" else "authenticated-sse"
  | None => if String.eqb channel "github_issue" then "configured" else "authenticated-sse"
  end.

(** [f"{event_type}:{message.incident_id}:{message.current_state}:{channel}"]. *)
Definition notification_dedupe_key (event_type : string) (m : NotificationMessage)
    (channel : string) : string :=
  sha256_hex (event_type +:+ ":" +:+
    match m.(msg_incident_id) with Some u => uuid_str u | None => "None" end +:+ ":" +:+
    m.(msg_current_state) +:+ ":" +:+ channel).

(** Uniqueness of the channel and key, and the two check constraints. *)
Definition notification_constraints (n : Notification) (t : gmap uuid Notification) : bool :=
  negb (existsb (λ m, String.eqb m.(ntf_channel) n.(ntf_channel) &&
                      String.eqb m.(ntf_dedupe_key) n.(ntf_dedupe_key)) (rows t)) &&
  (0 <=? n.(ntf_attempts)) && (1 <=? n.(ntf_max_attempts)).

Section notifications.
Context {X : Type} `{!Runtime X}.
Context (settings : Settings).

(** The body of the loop of [NotificationService.queue]. *)
Definition queue_channel (event_type : string) (message : NotificationMessage)
    (channel : string) : M (World X) uuid :=
  let dedupe_key := notification_dedupe_key event_type message channel in
  let! existing := query (λ db, select_one
    (λ n, String.eqb n.(ntf_channel) channel && String.eqb n.(ntf_dedupe_key) dedupe_key)
    db.(notifications)) in
  match existing with
  | Some n => ret n.(ntf_id)
  | None =>
      let! id := uuid4 in
      let! now := utc_now in
      let notification :=
        {| ntf_id := id; ntf_created_at := now; ntf_incident_id := message.(msg_incident_id);
           ntf_channel := channel; ntf_status := PENDING;
           ntf_destination_reference := Some (destination_reference channel settings);
           ntf_event_type := event_type; ntf_dedupe_key := dedupe_key; ntf_attempts := 0;
           ntf_max_attempts := settings.(notification_max_attempts);
           ntf_last_error := None; ntf_delivered_at := None; ntf_next_attempt_at := None;
           ntf_payload := redact (JObj (NotificationMessage_dump message)) |} in
      do! insert_row notifications upd_notifications
            (notification_constraints notification) id notification;
      do! flush;
      do! record_audit_system "NOTIFICATION_QUEUED" message.(msg_correlation_id)
            message.(msg_incident_id) (Some channel) None "PENDING"
            [("notification_id", JStr (uuid_str id));
             ("notification_event", JStr event_type); ("dedupe_key", JStr dedupe_key)];
      do! catch
            (send_task NOTIFICATION_TASK
               (JObj [("notification_id", JStr (uuid_str id))]))
            (λ _, record_audit_system "NOTIFICATION_DISPATCH_DEFERRED"
               message.(msg_correlation_id) message.(msg_incident_id) (Some channel) None
               "FAILED" [("notification_id", JStr (uuid_str id))]);
      ret id
  end.

(** [queue], with a publisher. *)
Definition queue (event_type : string) (message : NotificationMessage)
    (channels : list string) : M (World X) (list uuid) :=
  map_m (queue_channel event_type message) channels.

(** [str(detail.get(key) or default)]. *)
Definition detail_or (key : string) (detail : dict) (default : string) : string :=
  match get_truthy key detail with Some j => py_str j | None => default end.

(** [detail.get("policy_reason") or detail.get("reason") or "See policy audit"]. *)
Definition detail_or2 (key1 key2 : string) (detail : dict) (default : string) : string :=
  match get_truthy key1 detail with
  | Some j => py_str j
  | None => detail_or key2 detail default
  end.

Definition incident_message (event_type : string) (incident : Incident) (detail : dict)
  : NotificationMessage :=
  {| msg_event_type := event_type; msg_title := incident.(inc_title);
     msg_incident_id := Some incident.(inc_id);
     msg_correlation_id := incident.(inc_correlation_id);
     msg_severity := incident.(inc_severity);
     msg_service := detail_or "service" detail incident.(inc_title);
     msg_environment := Environment_value incident.(inc_environment);
     msg_cause := detail_or "cause" detail
                    (opt_str_or incident.(inc_summary) "Not yet established");
     msg_risk_score := incident.(inc_risk_score);
     msg_policy := detail_or2 "policy_reason" "reason" detail "See policy audit";
     msg_current_state := IncidentState_value incident.(inc_state);
     msg_dashboard_url :=
       (λ url, rstrip "/" url +:+ "/incidents/" +:+ uuid_str incident.(inc_id)) <$>
       settings.(teams_dashboard_url);
     msg_details := match redact (JObj detail) with JObj d => d | _ => [] end |}.

Definition notification_channels (event_type : string) : list string :=
  ["dashboard"] ++
  (match settings.(teams_workflow_webhook_url) with Some _ => ["teams"] | None => [] end) ++
  (if bool_decide (event_type ∈ ["incident_escalated"; "remediation_failed"]) &&
      truthy_str settings.(github_app_issue_repositories)
   then ["github_issue"] else []).

Definition queue_incident_notification (event_type : string) (incident_id : uuid)
    (details : option dict) : M (World X) (list uuid) :=
  if negb (bool_decide (event_type ∈ enabled_notification_events settings)) then ret []
  else
    let! incident := the_incident incident_id in
    let message := incident_message event_type incident (default [] details) in
    do! raise_if (negb (NotificationMessage_valid message))
          (validation_error "NotificationMessage");
    queue event_type message (notification_channels event_type).

Lemma queue_channel_step e m c : evolves session_step (queue_channel e m c).
Proof. unfold queue_channel. evolve. Qed.
Hint Resolve queue_channel_step : cw_pres.

Lemma queue_incident_notification_step e i d :
  evolves session_step (queue_incident_notification e i d).
Proof. unfold queue_incident_notification, queue. evolve. Qed.
End notifications.

#[export] Hint Resolve queue_channel_step queue_incident_notification_step : cw_pres.

Section facts.
Context {X : Type} `{!Runtime X}.
Context (settings : Settings).

Definition queued (channel key : string) (n : Notification) : bool :=
  String.eqb n.(ntf_channel) channel && String.eqb n.(ntf_dedupe_key) key.

(** The row is found again by its channel and key. *)
Lemma select_one_inserted (t : gmap uuid Notification) id n :
  notification_constraints n t = true → t !! id = None →
  select_one (queued n.(ntf_channel) n.(ntf_dedupe_key)) (<[id:=n]> t) = Some n.
Proof.
  intros Hc Hid. apply select_one_insert; [|done|unfold queued; by rewrite !String.eqb_refl].
  apply select_one_None. intros id' m Hm. destruct (queued _ _ m) eqn:Hq; [|done].
  revert Hc. unfold notification_constraints. rewrite !andb_true_iff, negb_true_iff.
  intros [[Hc _] _].
  change (existsb (queued n.(ntf_channel) n.(ntf_dedupe_key)) (rows t) = false) in Hc.
  enough (existsb (queued n.(ntf_channel) n.(ntf_dedupe_key)) (rows t) = true) by congruence.
  apply existsb_elem_of. exists m. split; [|done]. apply elem_of_rows. by exists id'.
Qed.

Lemma queue_channel_row e m c (w w' : World X) id :
  queue_channel settings e m c w = (Ok id, w') →
  ∃ n, n.(ntf_id) = id ∧
    select_one (queued c (notification_dedupe_key e m c)) w'.(work).(notifications) = Some n.
Proof.
  unfold queue_channel. fold (queued c (notification_dedupe_key e m c)).
  intros Hrun. apply bind_ok in Hrun as (o & w0 & Hq & Hrun). run_inv Hq.
  destruct (select_one _ _) as [n|] eqn:Hsel in Hrun; [run_inv Hrun; by exists n|].
  apply bind_ok in Hrun as (id1 & w1 & Hid & Hrun).
  apply bind_ok in Hrun as (now & w2 & Hnow & Hrun).
  apply bind_ok in Hrun as (u & w3 & Hins & Hrun). run_inv Hins.
  match type of Hok with notification_constraints ?n _ = _ => exists n end.
  match type of Hrun with _ ?w1' = _ =>
    assert (same_db notifications w1' w') as Hsame
      by (eapply evolves_run; [|exact Hrun]; evolve) end.
  rewrite Hsame. simpl.
  run_inv Hrun. split; [done|].
  by apply (select_one_inserted _ _ _ Hok).
Qed.

(** Queueing is idempotent: queueing the same event again for the same
    channel returns the row already there and changes nothing at all (no second
    row, no second dispatch), whatever the broker did the first time. *)
Theorem queue_channel_idempotent e m c (w w' : World X) id :
  queue_channel settings e m c w = (Ok id, w') →
  queue_channel settings e m c w' = (Ok id, w') ∧
  ∃ n, n.(ntf_id) = id ∧ n.(ntf_channel) = c ∧
    n.(ntf_dedupe_key) = notification_dedupe_key e m c ∧ n ∈ rows w'.(work).(notifications).
Proof.
  intros Hrun.
  destruct (queue_channel_row _ _ _ _ _ _ Hrun) as (n & Hid & Hn).
  split.
  - unfold queue_channel. fold (queued c (notification_dedupe_key e m c)).
    erewrite bind_step by reflexivity. simpl. rewrite Hn. unfold ret. by rewrite Hid.
  - exists n. apply select_one_Some in Hn as [Hq [k Hk]]. unfold queued in Hq.
    apply andb_true_iff in Hq as [?%String.eqb_eq ?%String.eqb_eq].
    split_and!; try done. apply elem_of_rows. by exists k.
Qed.
End facts.

Definition witness_message : NotificationMessage :=
  {| msg_event_type := "incident_resolved"; msg_title := "Unhealthy Demo Pod";
     msg_incident_id := Some 7%N; msg_correlation_id := "c"; msg_severity := "warning";
     msg_service := "demo"; msg_environment := "staging"; msg_cause := "cause";
     msg_risk_score := None; msg_policy := "policy"; msg_current_state := "RESOLVED";
     msg_dashboard_url := None; msg_details := [] |}.

Definition witness_queue (w : World Z) : res uuid * World Z :=
  queue_channel (Runtime0 := bench_runtime) example_settings "incident_resolved" witness_message
    "dashboard" w.

Lemma queue_channel_idempotent_witness :
  let w := (witness_queue (bench_world empty_database)).2 in witness_queue w = (Ok 1%N, w).
Proof.
  refine (proj1 (queue_channel_idempotent (Runtime0 := bench_runtime) example_settings
    "incident_resolved" witness_message "dashboard" (bench_world empty_database) _ 1%N _)).
  vm_compute. reflexivity.
Defined.
