(* ===== verification/ApprovalRequests.v ===== *)
(** * Requesting an approval

    The half of [approvals/service.py] that the incident service calls when an
    incident starts to wait: the digest that binds an approval to its proposal,
    and [ensure_runtime_approval]. *)

From S2P Require Import Prelude PyFloat Json Sha256 Effects Rbac Actions StateMachine.
From S2P Require Import Models World Redaction Config AuditLog History.

(** ** [int(value)] *)

Definition digit_value (c : ascii) : option Z :=
  if is_digit c then Some (code_of c - 48) else None.

(** The decimal digits of [s], single underscores between digits allowed. *)
Fixpoint digits_value (prev_digit : bool) (acc : Z) (s : string) : option Z :=
  match s with
  | EmptyString => if prev_digit then Some acc else None
  | String.String c s =>
      match digit_value c with
      | Some d => digits_value true (10 * acc + d) s
      | None => if Ascii.eqb c "_" && prev_digit then digits_value false acc s else None
      end
  end.

Definition int_of_str (s : string) : option Z :=
  match str_strip s with
  | String.String c s' =>
      if Ascii.eqb c "-" then Z.opp <$> digits_value false 0 s'
      else if Ascii.eqb c "+" then digits_value false 0 s'
      else digits_value false 0 (String.String c s')
  | EmptyString => None
  end.

Definition py_int (j : json) : res Z :=
  match j with
  | JInt z => Ok z
  | JBool b => Ok (if b then 1 else 0)
  | JFloat f => if is_finite f then Ok (let '(n, d) := to_ratio f in Z.quot n (Zpos d))
                else Raise (PyError "ValueError" "cannot convert float to integer")
  | JStr s => match int_of_str s with
              | Some z => Ok z
              | None => Raise (PyError "ValueError" "invalid literal for int()")
              end
  | _ => Raise (PyError "TypeError" "int() argument")
  end.

Example int_of_str_examples :
  map int_of_str [" 42 "; "-1_000"; "1__0"; "x"; "+7"] =
  [Some 42; Some (-1000); None; None; Some 7].
Proof. vm_compute. reflexivity. Qed.

(** ** The bound context *)

(** [_context]. *)
Definition approval_context (incident_id : uuid) (proposal : ActionProposal)
    (proposal_version : Z) : dict :=
  [("incident_id", JStr (uuid_str incident_id));
   ("incident_state", JStr (IncidentState_value AWAITING_APPROVAL));
   ("proposal_id", JStr (uuid_str proposal.(prop_id)));
   ("proposal_version", JInt proposal_version);
   ("action", JStr (ActionType_value proposal.(prop_action_type)));
   ("risk_score", JInt proposal.(prop_risk_score));
   ("parameters", JObj proposal.(prop_parameters))].

(** [_digest]. *)
Definition context_digest (value : dict) : string := sha256_hex (dumps (JObj value)).

(** [_target_reference]. *)
Definition target_reference (parameters : dict) : string :=
  let namespace := match dict_get "namespace" parameters with
                   | Some j => py_str j | None => "unknown" end in
  let name := match get_truthy "deployment" parameters, get_truthy "pod_name" parameters,
                    get_truthy "pod" parameters with
              | Some j, _, _ => py_str j
              | None, Some j, _ => py_str j
              | None, None, Some j => py_str j
              | None, None, None => "unknown"
              end in
  namespace +:+ "/" +:+ name.

(** Uniqueness of the proposal and version, and the two check constraints. *)
Definition approval_constraints (a : Approval) (t : gmap uuid Approval) : bool :=
  negb (existsb (λ b, bool_decide (b.(app_proposal_id) = a.(app_proposal_id)) &&
                      (b.(app_proposal_version) =? a.(app_proposal_version))) (rows t)) &&
  (0 <=? a.(app_risk_score)) && (a.(app_risk_score) <=? 100) &&
  (1 <=? a.(app_proposal_version)).

Definition approval_of (proposal_id : uuid) (version : Z) (a : Approval) : bool :=
  bool_decide (a.(app_proposal_id) = proposal_id) && (a.(app_proposal_version) =? version).

Section requests.
Context {X : Type} `{!Runtime X}.
Context (settings : Settings).

(** [_stream]. *)
Definition stream_approval (approval_id : uuid) : M (World X) unit :=
  let! a := the_approval approval_id in
  append_stream_event "approval.changed" (Some a.(app_incident_id))
    [("approval_id", JStr (uuid_str a.(app_id)));
     ("proposal_id", JStr (uuid_str a.(app_proposal_id)));
     ("decision", JStr (ApprovalDecision_value a.(app_decision)));
     ("action", JStr a.(app_action));
     ("environment", JStr (Environment_value a.(app_environment)));
     ("risk_score", JInt a.(app_risk_score));
     ("expires_at", JStr (isoformat a.(app_expires_at)));
     ("decided_by", JOptStr a.(app_decided_by));
     ("invalidated_reason", JOptStr a.(app_invalidated_reason))].

Definition new_approval (id : uuid) (now : datetime) (incident : Incident)
    (proposal : ActionProposal) (blast_radius : Z) (requested_by : string)
    (reason : option string) : Approval :=
  let context := approval_context incident.(inc_id) proposal 1 in
  {| app_id := id; app_created_at := now; app_incident_id := incident.(inc_id);
     app_proposal_id := proposal.(prop_id); app_actor_id := None;
     app_decision := DECISION_PENDING; app_reason := reason;
     app_action := ActionType_value proposal.(prop_action_type);
     app_environment := incident.(inc_environment);
     app_risk_score := proposal.(prop_risk_score); app_blast_radius := blast_radius;
     app_reversible := (ACTION_REGISTRY proposal.(prop_action_type)).(reversible);
     app_requested_by := requested_by; app_runbook := incident.(inc_runbook_id);
     app_proposal_version := 1;
     app_target_reference := target_reference proposal.(prop_parameters);
     app_expected_state := context; app_context_digest := context_digest context;
     app_expires_at := now + seconds settings.(approval_ttl_seconds);
     app_decided_at := None; app_decided_by := None; app_decision_comment := None;
     app_invalidated_reason := None; app_execution_claimed_at := None;
     app_execution_reference := None |}.

Definition ensure_runtime_approval (incident_id proposal_id : uuid) (requested_by : string)
    (reason : option string) : M (World X) uuid :=
  let! incident := the_incident incident_id in
  let! proposal := the_proposal proposal_id in
  let! existing := query (λ db, select_one (approval_of proposal_id 1) db.(approvals)) in
  match existing with
  | Some a => ret a.(app_id)
  | None =>
      let! metadata := lift (get_action_metadata (inl proposal.(prop_action_type))) in
      let! count := lift (py_int (default (JInt 1)
                           (dict_get "target_count" proposal.(prop_parameters)))) in
      let! now := utc_now in
      let! id := uuid4 in
      let approval := new_approval id now incident proposal (Z.max 1 count)
                        requested_by reason in
      do! insert_row approvals upd_approvals (approval_constraints approval) id approval;
      do! flush;
      do! record_audit "APPROVAL_REQUESTED" incident.(inc_correlation_id)
            (Some incident.(inc_id)) requested_by ACTOR_SYSTEM None
            (Some (ActionType_value proposal.(prop_action_type)))
            (Some proposal.(prop_risk_score)) (Some "APPROVAL_REQUIRED") "PENDING"
            [("approval_id", JStr (uuid_str id));
             ("proposal_id", JStr (uuid_str proposal.(prop_id)));
             ("proposal_version", JInt approval.(app_proposal_version));
             ("target_reference", JStr approval.(app_target_reference));
             ("expires_at", JStr (isoformat approval.(app_expires_at)));
             ("reason", JOptStr reason)];
      do! stream_approval id;
      ret id
  end.

Lemma stream_approval_step id : evolves session_step (stream_approval id).
Proof. unfold stream_approval. evolve. Qed.
Hint Resolve stream_approval_step : cw_pres.

Lemma ensure_runtime_approval_step i p rb r :
  evolves session_step (ensure_runtime_approval i p rb r).
Proof. unfold ensure_runtime_approval. evolve. Qed.

Lemma stream_approval_same {A} (f : Database → A) id :
  (∀ g d, f (upd_stream_events g d) = f d) → evolves (same_db f) (stream_approval id).
Proof.
  intros H. unfold stream_approval.
  repeat first [evolve_step | apply append_stream_event_same; apply H | eauto with cw_pres].
Qed.
End requests.

#[export] Hint Resolve stream_approval_step ensure_runtime_approval_step : cw_pres.
#[export] Hint Extern 1 (evolves (same_db _) (stream_approval _)) =>
  apply stream_approval_same; intros; reflexivity : cw_pres.

Section facts.
Context {X : Type} `{!Runtime X} (settings : Settings).

(** What is known of the approval a proposal has after it was requested. *)
Definition bound_approval (incident : Incident) (proposal : ActionProposal) (a : Approval)
  : Prop :=
  a.(app_proposal_id) = proposal.(prop_id) ∧ a.(app_proposal_version) = 1 ∧
  a.(app_context_digest) = context_digest (approval_context incident.(inc_id) proposal 1).

Lemma ensure_runtime_approval_run i p rb r (w w' : World X) id :
  ensure_runtime_approval settings i p rb r w = (Ok id, w') →
  ∃ incident proposal, w.(work).(incidents) !! i = Some incident ∧
    w.(work).(action_proposals) !! p = Some proposal ∧
    ((∃ a, select_one (approval_of p 1) w.(work).(approvals) = Some a ∧
           a.(app_id) = id ∧ w' = w) ∨
     (select_one (approval_of p 1) w.(work).(approvals) = None ∧
      w.(work).(approvals) !! id = None ∧
      ∃ now count, w'.(work).(approvals) =
        <[id := new_approval settings id now incident proposal (Z.max 1 count) rb r]>
          w.(work).(approvals))).
Proof.
  unfold ensure_runtime_approval. intros Hrun.
  apply bind_ok in Hrun as (incident & w1 & Hi & Hrun). run_inv Hi.
  apply bind_ok in Hrun as (proposal & w2 & Hp & Hrun). run_inv Hp.
  apply bind_ok in Hrun as (o & w3 & Hq & Hrun). run_inv Hq.
  exists incident, proposal. split_and!; [done..|].
  destruct (select_one _ _) as [a|] eqn:Hs in Hrun; [run_inv Hrun; left; by exists a|].
  right. apply bind_ok in Hrun as (m & w4 & Hm & Hrun). injection Hm as _ <-.
  apply bind_ok in Hrun as (count & w5 & Hc & Hrun). injection Hc as _ <-.
  apply bind_ok in Hrun as (now & w6 & Hn & Hrun). injection Hn as _ <-.
  apply bind_ok in Hrun as (id' & w7 & Hu & Hrun). injection Hu as _ <-.
  apply bind_ok in Hrun as (u & w8 & Hins & Hrun). run_inv Hins. simpl in Hnew.
  match type of Hrun with _ ?w1' = _ =>
    assert (same_db approvals w1' w') as Hsame
      by (eapply evolves_run; [|exact Hrun]; evolve) end.
  assert (id = id') as ->.
  { run_inv Hrun. done. }
  split_and!; [done..|]. exists now, count. rewrite Hsame. done.
Qed.
End facts.
