(* ===== verification/Incidents.v ===== *)
(** * The incident service

    [incidents/service.py]: creating an incident, changing its state with all the
    effects of a change (event, outbox, audit, approval request, notification,
    memory), resolving, updating and adding evidence. *)

From S2P Require Import Prelude PyFloat Json Sha256 Effects Rbac Actions StateMachine.
From S2P Require Import Models World Redaction Config AuditLog History Memory.
From S2P Require Import Notifications ApprovalRequests.

Definition INCIDENTS_TOTAL (incident_type environment severity : string) : list string :=
  ["cloudward_incidents_total"; incident_type; environment; severity].
Definition ACTIVE_INCIDENTS (environment : string) : list string :=
  ["cloudward_active_incidents"; environment].

(** The constraint [retry_count BETWEEN 0 AND 3]. *)
Definition incident_constraints (i : Incident) (_ : gmap uuid Incident) : bool :=
  (0 <=? i.(inc_retry_count)) && (i.(inc_retry_count) <=? 3).

(** [d.get(key1) or d.get(key2)] as a text column; every caller passes strings. *)
Definition text_or (key1 key2 : string) (d : dict) : option string :=
  match get_truthy key1 d with
  | Some j => Some (py_str j)
  | None => match dict_get key2 d with
            | Some JNull | None => None
            | Some j => Some (py_str j)
            end
  end.

(** The event a change of state notifies, if any. *)
Definition notification_event (target : IncidentState) (details : dict) : option string :=
  match target with
  | AWAITING_APPROVAL => Some "approval_required"
  | RESOLVED => Some "incident_resolved"
  | ESCALATED => Some (match get_truthy "error_code" details with
                       | Some _ => "remediation_failed"
                       | None => "incident_escalated"
                       end)
  | _ => None
  end.

Section incidents.
Context {X : Type} `{!Runtime X}.
Context (settings : Settings).

(** [session.add(IncidentEvent(...))]. *)
Definition add_incident_event (incident_id : uuid) (correlation_id event_type : string)
    (from_state to_state : option IncidentState) (actor : string) (actor_type : ActorType)
    (details : dict) : M (World X) unit :=
  let! id := uuid4 in
  let! now := utc_now in
  update_db (upd_incident_events (λ l, l ++
    [{| iev_id := id; iev_incident_id := incident_id; iev_created_at := now;
        iev_correlation_id := correlation_id; iev_event_type := event_type;
        iev_from_state := from_state; iev_to_state := to_state; iev_actor := actor;
        iev_actor_type := actor_type; iev_details := JObj details |}])).

(** The column defaults of a new incident: [severity], [retry_count]. *)
Definition new_incident (id : uuid) (now : datetime)
    (correlation_id incident_type title : string)
    (environment : Environment) (summary : option string)
    (service_id cluster_id : option uuid) : Incident :=
  {| inc_id := id; inc_created_at := now; inc_correlation_id := correlation_id;
     inc_cluster_id := cluster_id; inc_service_id := service_id;
     inc_incident_type := incident_type; inc_title := title; inc_summary := summary;
     inc_environment := environment; inc_state := DETECTED; inc_severity := "warning";
     inc_risk_score := None; inc_retry_count := 0; inc_runbook_id := None;
     inc_runbook_version := None; inc_resolved_at := None; inc_resolution_source := None |}.

(** The metrics are incremented before the flush that applies the column
    defaults: [incident.severity] is still [None] then. *)
Definition create_incident (correlation_id incident_type title : string)
    (environment : Environment) (summary : option string)
    (service_id cluster_id : option uuid) (actor : string) (actor_type : ActorType)
  : M (World X) uuid :=
  do! metric_add (INCIDENTS_TOTAL incident_type (Environment_value environment) "None") 1;
  do! metric_add (ACTIVE_INCIDENTS (Environment_value environment)) 1;
  let! id := uuid4 in
  let! now := utc_now in
  let incident := new_incident id now correlation_id incident_type title environment
                    summary service_id cluster_id in
  do! insert_row incidents upd_incidents (incident_constraints incident) id incident;
  do! flush;
  do! add_incident_event id correlation_id "INCIDENT_CREATED" None (Some DETECTED)
        actor actor_type [("incident_type", JStr incident_type)];
  do! append_stream_event "incident.created" (Some id)
        [("state", JStr (IncidentState_value DETECTED));
         ("incident_type", JStr incident_type)];
  do! record_audit "INCIDENT_CREATED" correlation_id (Some id) actor actor_type
        None None None None "SUCCEEDED"
        [("incident_type", JStr incident_type);
         ("state", JStr (IncidentState_value DETECTED))];
  do! flush;
  ret id.

(** *** [change_incident_state], in four parts *)

(** The assignment, the gauge, the event, the outbox and the audit log. *)
Definition record_state_change (incident_id : uuid) (incident : Incident)
    (target : IncidentState) (actor : string) (actor_type : ActorType) (details : dict)
  : M (World X) unit :=
  let previous := incident.(inc_state) in
  do! set_incident incident_id (set_inc_state target);
  do! when (bool_decide (target = RESOLVED))
        (let! now := utc_now in
         set_incident incident_id (set_inc_resolved_at (Some now)));
  do! when (is_terminal target)
        (metric_add (ACTIVE_INCIDENTS (Environment_value incident.(inc_environment))) (-1));
  do! add_incident_event incident_id incident.(inc_correlation_id) "STATE_CHANGED"
        (Some previous) (Some target) actor actor_type details;
  do! append_stream_event "incident.state_changed" (Some incident_id)
        (dict_update [("from_state", JStr (IncidentState_value previous));
                      ("to_state", JStr (IncidentState_value target));
                      ("state", JStr (IncidentState_value target))] details);
  record_audit "INCIDENT_STATE_CHANGED" incident.(inc_correlation_id) (Some incident_id)
    actor actor_type None None None None "SUCCEEDED"
    (dict_update [("from_state", JStr (IncidentState_value previous));
                  ("to_state", JStr (IncidentState_value target))] details).

(** [if target == AWAITING_APPROVAL]: the approval of the latest proposal. *)
Definition request_approval (incident_id : uuid) (actor : string) (details : dict)
  : M (World X) unit :=
  let! proposal := query (λ db, latest prop_created_at
    (λ p, bool_decide (p.(prop_incident_id) = incident_id)) (rows db.(action_proposals))) in
  match proposal with
  | None => ret tt
  | Some p =>
      do! ensure_runtime_approval settings incident_id p.(prop_id) actor
            (text_or "policy_reason" "reason" details);
      ret tt
  end.

(** The notification; any exception it raises is logged and dropped. *)
Definition notify_state_change (incident_id : uuid) (target : IncidentState)
    (details : option dict) : M (World X) unit :=
  match notification_event target (default [] details) with
  | None => ret tt
  | Some event =>
      if String.eqb settings.(app_env) "test" then ret tt
      else catch (do! queue_incident_notification settings event incident_id details; ret tt)
             (λ _, ret tt)
  end.

Definition change_incident_state (incident_id : uuid) (target : IncidentState)
    (actor : string) (actor_type : ActorType) (details : option dict) (force : bool)
  : M (World X) unit :=
  let! incident := the_incident incident_id in
  let previous := incident.(inc_state) in
  if bool_decide (previous = target) then ret tt
  else
    do! (if force then ret tt
         else do! lift (transition_incident previous target); ret tt);
    do! record_state_change incident_id incident target actor actor_type (default [] details);
    do! when (bool_decide (target = AWAITING_APPROVAL))
          (request_approval incident_id actor (default [] details));
    do! notify_state_change incident_id target details;
    do! when (is_terminal target) (capture_terminal_incident incident_id);
    flush.

(** *** The other operations *)

Definition get_incident (incident_id : uuid) : M (World X) Incident :=
  let! o := query (λ db, db.(incidents) !! incident_id) in
  match o with
  | Some i => ret i
  | None => raise (cw_error_status "INCIDENT_NOT_FOUND" "Incident was not found" 404)
  end.

Definition resolve_incident (incident_id : uuid) (actor : string) (actor_type : ActorType)
    (reason : string) (source : ResolutionSource) : M (World X) unit :=
  let! incident := the_incident incident_id in
  if bool_decide (incident.(inc_state) = RESOLVED) then ret tt
  else
    do! set_incident incident_id (set_inc_resolution_source (Some source));
    let! now := utc_now in
    do! set_incident incident_id (set_inc_resolved_at (Some now));
    change_incident_state incident_id RESOLVED actor actor_type
      (Some [("reason", JStr reason);
             ("resolution_source", JStr (ResolutionSource_value source))]) true.

(** One of the three guarded attribute updates of [update_incident]. *)
Definition update_text (incident_id : uuid) (key : string) (value : option string)
    (current : Incident → option string) (assign_to : string → Incident → Incident)
    (changes : dict) : M (World X) dict :=
  let! incident := the_incident incident_id in
  match value with
  | Some v =>
      if bool_decide (Some v = current incident) then ret changes
      else
        do! set_incident incident_id (assign_to v);
        ret (dict_set key (JObj [("from", JOptStr (current incident)); ("to", JStr v)]) changes)
  | None => ret changes
  end.

Definition update_incident (incident_id : uuid) (title summary severity : option string)
    (target_state : option IncidentState) (actor : string) (actor_type : ActorType)
  : M (World X) unit :=
  let! changes := update_text incident_id "title" title
    (λ i, Some i.(inc_title)) set_inc_title [] in
  let! changes := update_text incident_id "summary" summary
    inc_summary (λ v, set_inc_summary (Some v)) changes in
  let! changes := update_text incident_id "severity" severity
    (λ i, Some i.(inc_severity)) set_inc_severity changes in
  let! incident := the_incident incident_id in
  do! match target_state with
      | Some t =>
          when (negb (bool_decide (t = incident.(inc_state))))
            (change_incident_state incident_id t actor actor_type
               (Some [("reason", JStr "Updated via incident update")]) true)
      | None => ret tt
      end;
  do! when (negb (bool_decide (changes = [])))
        (let! incident := the_incident incident_id in
         do! add_incident_event incident_id incident.(inc_correlation_id) "INCIDENT_UPDATED"
               (Some incident.(inc_state)) (Some incident.(inc_state)) actor actor_type
               [("changes", JObj changes)];
         record_audit "INCIDENT_UPDATED" incident.(inc_correlation_id) (Some incident_id)
           actor actor_type None None None None "SUCCEEDED" [("changes", JObj changes)]);
  flush.

Definition add_incident_evidence (incident_id : uuid) (evidence_type : EvidenceType)
    (summary : string) (payload : dict) (source : string) (phase : EvidencePhase)
    (reference query_text : option string) (collected_by : string) : M (World X) uuid :=
  let! incident := the_incident incident_id in
  let! id := uuid4 in
  let! now := utc_now in
  do! update_db (upd_evidence_snapshots (λ l, l ++
        [{| evd_id := id; evd_incident_id := incident_id; evd_created_at := now;
            evd_correlation_id := incident.(inc_correlation_id);
            evd_evidence_type := evidence_type; evd_summary := summary;
            evd_reference := reference; evd_query := query_text;
            evd_window_start := None; evd_window_end := None; evd_phase := phase;
            evd_payload := JObj payload; evd_collected_by := collected_by |}]));
  do! flush;
  do! append_stream_event "incident.evidence_added" (Some incident_id)
        [("evidence_id", JStr (uuid_str id));
         ("evidence_type", JStr (EvidenceType_value evidence_type))];
  do! record_audit "EVIDENCE_COLLECTED" incident.(inc_correlation_id) (Some incident_id)
        collected_by ACTOR_USER None None None None "SUCCEEDED"
        [("evidence_id", JStr (uuid_str id));
         ("evidence_type", JStr (EvidenceType_value evidence_type));
         ("source", JStr source)];
  do! flush;
  ret id.
End incidents.

(** ** Preservation *)

Section preservation.
Context {X : Type} `{!Runtime X} (settings : Settings).
Abbreviation step_ok m := (evolves (session_step (X:=X)) m).

Lemma add_incident_event_step i c e f t a ty d :
  step_ok (add_incident_event i c e f t a ty d).
Proof. unfold add_incident_event. evolve. Qed.
Hint Resolve add_incident_event_step : cw_pres.

Lemma create_incident_step c it t e s sid cid a ty :
  step_ok (create_incident c it t e s sid cid a ty).
Proof. unfold create_incident. evolve. Qed.

Lemma record_state_change_step id i t a ty d : step_ok (record_state_change id i t a ty d).
Proof. unfold record_state_change. evolve. Qed.
Hint Resolve record_state_change_step : cw_pres.

Lemma request_approval_step id a d : step_ok (request_approval settings id a d).
Proof. unfold request_approval. evolve. Qed.
Hint Resolve request_approval_step : cw_pres.

Lemma notify_state_change_step id t d : step_ok (notify_state_change settings id t d).
Proof. unfold notify_state_change. evolve. Qed.
Hint Resolve notify_state_change_step : cw_pres.

Lemma change_incident_state_step id t a ty d f :
  step_ok (change_incident_state settings id t a ty d f).
Proof. unfold change_incident_state. evolve. Qed.
Hint Resolve change_incident_state_step : cw_pres.

Lemma resolve_incident_step id a ty r s : step_ok (resolve_incident settings id a ty r s).
Proof. unfold resolve_incident. evolve. Qed.

Lemma update_text_step id k v c f ch :
  (∀ v i, incident_identity (f v i) = incident_identity i) → step_ok (update_text id k v c f ch).
Proof.
  intros Hf. unfold update_text. repeat first [evolve_step | solve [eauto with cw_pres]].
  apply update_db_step. intros d. split; cbn; try reflexivity.
  apply table_extends_alter; [apply _|]. intros i. apply Hf.
Qed.

Lemma update_incident_step id t s sv ts a ty :
  step_ok (update_incident settings id t s sv ts a ty).
Proof.
  unfold update_incident.
  repeat first [evolve_step | apply update_text_step; reflexivity | solve [eauto with cw_pres]].
Qed.

Lemma add_incident_evidence_step id et s p src ph r q c :
  step_ok (add_incident_evidence id et s p src ph r q c).
Proof. unfold add_incident_evidence. evolve. Qed.
End preservation.

(** A new incident is inserted under a fresh identifier. *)
Lemma create_incident_run {X} `{!Runtime X} c it t e s sid cid a ty (w w' : World X) id :
  create_incident c it t e s sid cid a ty w = (Ok id, w') →
  w.(work).(incidents) !! id = None ∧
  ∃ now, w'.(work).(incidents) =
    <[id := new_incident id now c it t e s sid cid]> w.(work).(incidents).
Proof.
  intros Hrun. unfold create_incident, add_incident_event, append_stream_event, record_audit in Hrun.
  run_inv Hrun. split; [done|]. by eexists.
Qed.

#[export] Hint Resolve add_incident_event_step create_incident_step record_state_change_step
  request_approval_step notify_state_change_step change_incident_state_step
  resolve_incident_step update_incident_step add_incident_evidence_step : cw_pres.

(** ** The event log replays to the state *)

Definition events_of (id : uuid) (l : list IncidentEvent) : list IncidentEvent :=
  List.filter (λ e, bool_decide (e.(iev_incident_id) = id)) l.

(** The events lead from [s] to [t]: each starts where the previous one ended,
    and either stays (an attribute update) or makes a move allowed by [P]. *)
Fixpoint chain (P : relation IncidentState) (s : IncidentState) (l : list IncidentEvent)
    (t : IncidentState) : Prop :=
  match l with
  | [] => t = s
  | e :: l => e.(iev_from_state) = Some s ∧
      ∃ u, e.(iev_to_state) = Some u ∧ (s = u ∨ P s u) ∧ chain P u l t
  end.

Lemma chain_app P s l1 u l2 t : chain P s l1 u → chain P u l2 t → chain P s (l1 ++ l2) t.
Proof.
  revert s. induction l1 as [|e l1 IH]; intros s; simpl; [by intros ->|].
  intros (? & v & ? & ? & ?) ?. split; [done|]. exists v. naive_solver.
Qed.

Lemma chain_rtc P s l t : chain P s l t → rtc P s t.
Proof.
  revert s. induction l as [|e l IH]; intros s; simpl; [by intros ->|].
  intros (_ & v & _ & [->|HP] & Hc%IH); [done|by eapply rtc_l].
Qed.

Lemma events_of_app id l1 l2 : events_of id (l1 ++ l2) = events_of id l1 ++ events_of id l2.
Proof. unfold events_of. by rewrite List.filter_app. Qed.

(** The columns the event log is about. *)
Definition states (d : Database) := (inc_state <$> d.(incidents), d.(incident_events)).

(** The two tables themselves. *)
Definition incident_tables (d : Database) := (d.(incidents), d.(incident_events)).

Definition replays_at {X} (P : relation IncidentState) (id : uuid) : relation (World X) :=
  λ w w', ∀ i, w.(work).(incidents) !! id = Some i →
    ∃ i' new, w'.(work).(incidents) !! id = Some i' ∧
      w'.(work).(incident_events) = w.(work).(incident_events) ++ new ∧
      chain P i.(inc_state) (events_of id new) i'.(inc_state).

#[export] Instance replays_at_evolution {X} P id : Evolution (replays_at (X:=X) P id).
Proof.
  split.
  - intros w i Hi. exists i, []. by rewrite app_nil_r.
  - intros w1 w2 w3 H1 H2 i (i2 & n1 & Hi2 & E1 & C1)%H1.
    destruct (H2 _ Hi2) as (i3 & n2 & Hi3 & E2 & C2). exists i3, (n1 ++ n2).
    split_and!; [done|by rewrite E2, E1, app_assoc|].
    rewrite events_of_app. by eapply chain_app.
Qed.

(** Every incident, each with moves allowed by [P]. *)
Definition replays {X} (P : relation IncidentState) : relation (World X) :=
  λ w w', ∀ id, replays_at P id w w'.

#[export] Instance replays_evolution {X} P : Evolution (replays (X:=X) P).
Proof.
  split; [intros w id; apply evolves_refl; tc_solve|].
  intros w1 w2 w3 H1 H2 id. eapply evolves_trans; [tc_solve|apply H1|apply H2].
Qed.

Section replay.
Context {X : Type} `{!Runtime X}.
Context (P : relation IncidentState).

Lemma replays_at_states id (w w' : World X) :
  states w'.(work) = states w.(work) → replays_at P id w w'.
Proof.
  intros [= Hs He] i Hi. pose proof (f_equal (lookup id) Hs) as Hl.
  rewrite !lookup_fmap, Hi in Hl. simpl in Hl.
  destruct (incidents (work w') !! id) as [i'|] eqn:Hi'; simplify_eq/=.
  exists i', []. by rewrite He, app_nil_r.
Qed.

Lemma replays_same {A} (m : M (World X) A) :
  evolves (same_db states) m → evolves (replays P) m.
Proof. intros H w id. apply replays_at_states, H. Qed.

Lemma replays_tables {A} (m : M (World X) A) :
  evolves (same_db incident_tables) m → evolves (replays P) m.
Proof.
  intros H. apply replays_same. intros w. specialize (H w).
  unfold same_db, stable, incident_tables, states in *. congruence.
Qed.

Lemma assign_states id f :
  (∀ i, inc_state (f i) = inc_state i) → evolves (same_db states) (set_incident id f : M (World X) unit).
Proof.
  intros Hf w. unfold same_db, stable, states. simpl. f_equal. apply map_eq. intros k.
  rewrite !lookup_fmap. destruct (decide (id = k)) as [->|?];
    [rewrite lookup_alter_eq|by rewrite lookup_alter_ne].
  destruct (incidents (work w) !! k); simpl; by rewrite ?Hf.
Qed.

Lemma replay_insert ok id i :
  evolves (replays P) (insert_row (X:=X) incidents upd_incidents ok id i).
Proof.
  intros w k j Hj. unfold insert_row, query, gets, bind, raise_if; simpl.
  destruct (bool_decide (incidents (work w) !! id = None)) eqn:Hn; simpl;
    [destruct (ok _); simpl|]; [|by exists j, []; rewrite app_nil_r..].
  apply bool_decide_eq_true in Hn. exists j, []. rewrite app_nil_r.
  by rewrite lookup_insert_ne by (intros ->; by rewrite Hn in Hj).
Qed.

(** An event of another incident. *)
Lemma replay_event_ne id k c e f t a ty d :
  k ≠ id → evolves (replays_at P k) (add_incident_event (X:=X) id c e f t a ty d).
Proof.
  intros Hne w i Hi. unfold add_incident_event, bind. simpl.
  eexists i, _. split_and!; [done|reflexivity|]. simpl.
  by rewrite bool_decide_eq_false_2.
Qed.
End replay.

#[export] Hint Resolve replay_insert : cw_pres.
#[export] Hint Extern 1 (evolves (same_db states) (assign upd_incidents _ _)) =>
  apply assign_states; reflexivity : cw_pres.

(** The run of the first part of a change. *)
Lemma map_alter_compose_eq {R} (f g : R → R) (m : gmap uuid R) k :
  alter (λ r, f (g r)) k m = alter f k (alter g k m).
Proof.
  apply map_eq. intros j. destruct (decide (k = j)) as [->|];
    [|by rewrite !lookup_alter_ne]. rewrite !lookup_alter_eq. by destruct (m !! j).
Qed.

Section record_change.
Context {X : Type} `{!Runtime X}.

Definition with_state (now : datetime) (target : IncidentState) (i : Incident) : Incident :=
  if bool_decide (target = RESOLVED) then set_inc_resolved_at (Some now) (set_inc_state target i)
  else set_inc_state target i.

Record change_recorded (id : uuid) (incident : Incident) (target : IncidentState)
    (w w' : World X) : Prop := {
  rc_incident : ∃ now, w'.(work).(incidents) =
    alter (with_state now target) id w.(work).(incidents);
  rc_event : ∃ e, w'.(work).(incident_events) = w.(work).(incident_events) ++ [e] ∧
    e.(iev_incident_id) = id ∧ e.(iev_event_type) = "STATE_CHANGED" ∧
    e.(iev_from_state) = Some incident.(inc_state) ∧ e.(iev_to_state) = Some target;
  rc_audit : ∃ a, w'.(work).(audit_events) = w.(work).(audit_events) ++ [a] ∧
    a.(aud_incident_id) = Some id ∧ a.(aud_event_type) = "INCIDENT_STATE_CHANGED" ∧
    a.(aud_result) = "SUCCEEDED";
  rc_gauge : w'.(metrics) =
    if is_terminal target then
      let k := ACTIVE_INCIDENTS (Environment_value incident.(inc_environment)) in
      <[k := metric w k + -1]> w.(metrics)
    else w.(metrics);
}.

Lemma record_state_change_run id incident target actor ty details w :
  ∃ w', record_state_change (X:=X) id incident target actor ty details w = (Ok tt, w') ∧
    change_recorded id incident target w w'.
Proof.
  unfold record_state_change.
  destruct target; eexists; (split; [reflexivity|]); split; cbn;
    try (eexists; split_and!; reflexivity); try reflexivity; try (exists 0; reflexivity).
  all: eexists; unfold with_state; cbn; by rewrite <- map_alter_compose_eq.
Qed.
End record_change.

Section change.
Context {X : Type} `{!Runtime X} (settings : Settings).
Abbreviation states_ok m := (evolves (same_db (X:=X) incident_tables) m).
Abbreviation metrics_ok m := (evolves (same_metrics (X:=X)) m).

Lemma remember_states v c : states_ok (remember v c).
Proof. unfold remember. evolve. Qed.
Hint Resolve remember_states : cw_pres.
Lemma capture_states i : states_ok (capture_terminal_incident i).
Proof. unfold capture_terminal_incident. evolve. Qed.
Lemma queue_channel_states e m c : states_ok (queue_channel settings e m c).
Proof. unfold queue_channel. evolve. Qed.
Hint Resolve queue_channel_states : cw_pres.
Lemma queue_notification_states e i d :
  states_ok (queue_incident_notification settings e i d).
Proof. unfold queue_incident_notification, queue. evolve. Qed.
Hint Resolve queue_notification_states : cw_pres.
Lemma notify_states i t d : states_ok (notify_state_change settings i t d).
Proof. unfold notify_state_change. evolve. Qed.
Lemma ensure_approval_states i p rb r : states_ok (ensure_runtime_approval settings i p rb r).
Proof. unfold ensure_runtime_approval. evolve. Qed.
Hint Resolve ensure_approval_states : cw_pres.
Lemma request_approval_states i a d : states_ok (request_approval settings i a d).
Proof. unfold request_approval. evolve. Qed.
Hint Resolve capture_states notify_states request_approval_states : cw_pres.

(** What follows the first part of a change. *)
Definition after_change (id : uuid) (target : IncidentState) (actor : string)
    (details : option dict) : M (World X) unit :=
  do! when (bool_decide (target = AWAITING_APPROVAL))
        (request_approval settings id actor (default [] details));
  do! notify_state_change settings id target details;
  do! when (is_terminal target) (capture_terminal_incident id);
  flush.

Lemma after_change_states id t a d : states_ok (after_change id t a d).
Proof. unfold after_change. evolve. Qed.

Lemma after_change_metrics id t a d : metrics_ok (after_change id t a d).
Proof.
  unfold after_change, request_approval, ensure_runtime_approval, stream_approval,
    notify_state_change, queue_incident_notification, queue, queue_channel,
    capture_terminal_incident, remember.
  evolve.
Qed.

(** The four ways a change of state can go. *)
Lemma change_incident_state_cases id target actor ty details force (w : World X) :
  let run := change_incident_state settings id target actor ty details force w in
  match w.(work).(incidents) !! id with
  | None => run = (Raise (PyError "ObjectDeletedError" "instance"), w)
  | Some i =>
      if bool_decide (i.(inc_state) = target) then run = (Ok tt, w)
      else if force || bool_decide (step i.(inc_state) target) then
        ∃ w1, change_recorded id i target w w1 ∧ run = after_change id target actor details w1
      else ∃ e, transition_incident i.(inc_state) target = Raise e ∧ run = (Raise e, w)
  end.
Proof.
  simpl. unfold change_incident_state.
  destruct (incidents (work w) !! id) as [i|] eqn:Hi.
  - assert (deref incidents id w = (Ok i, w)) as Hd by by apply deref_ok.
    rewrite (bind_step _ _ _ _ _ Hd). destruct (bool_decide (inc_state i = target)); [done|].
    destruct (record_state_change_run id i target actor ty (default [] details) w)
      as (w1 & Hrun & Hrec).
    assert (∀ k : unit → M (World X) unit, bind (record_state_change id i target actor ty (default [] details)) k w
                 = k tt w1) as Hk by (intros k; by rewrite (bind_step _ _ _ _ _ Hrun)).
    destruct force; simpl.
    + exists w1. split; [done|]. by rewrite bind_ret, Hk.
    + unfold transition_incident, step. destruct (bool_decide _); simpl.
      * exists w1. split; [done|]. rewrite (bind_step _ _ w tt w) by done. by rewrite Hk.
      * eexists. split; [done|]. done.
  - unfold deref, bind, query, gets. simpl. by rewrite Hi.
Qed.

(** An unforced change that returned. *)
Lemma change_incident_state_ok id target actor ty details (w w' : World X) u i :
  change_incident_state settings id target actor ty details false w = (Ok u, w') →
  w.(work).(incidents) !! id = Some i →
  (i.(inc_state) = target ∧ w' = w) ∨
  (step i.(inc_state) target ∧
   ∃ now, w'.(work).(incidents) = alter (with_state now target) id w.(work).(incidents)).
Proof.
  intros Hrun Hi. pose proof (change_incident_state_cases id target actor ty details false w) as Hc.
  cbv zeta in Hc. rewrite Hi, Hrun in Hc. case_bool_decide as Ht; [simplify_eq; auto|]. simpl in Hc.
  case_bool_decide as Hs; [|by destruct Hc as (e & _ & ?)]. right. split; [done|].
  destruct Hc as (w1 & [[now Hinc] _ _ _] & Hr).
  pose proof (after_change_states id target actor details w1) as Hst. rewrite <- Hr in Hst.
  injection Hst as Hst _. exists now. by rewrite Hst.
Qed.

Lemma with_state_state now target i : (with_state now target i).(inc_state) = target.
Proof. unfold with_state. by case_bool_decide. Qed.

(** A change that neither notifies nor waits calls nothing outside. *)
Lemma change_incident_state_trace id t a ty d f :
  t ≠ AWAITING_APPROVAL → (∀ d, notification_event t d = None) →
  evolves same_trace (change_incident_state (X:=X) settings id t a ty d f).
Proof.
  intros Ht Hn. unfold change_incident_state, record_state_change, add_incident_event,
    notify_state_change, capture_terminal_incident, remember.
  rewrite (bool_decide_eq_false_2 _ Ht). cbn [when].
  repeat first [rewrite Hn | evolve_step | solve [eauto with cw_pres]].
Qed.

Lemma change_recorded_replays P id i target (w w1 : World X) :
  w.(work).(incidents) !! id = Some i → P i.(inc_state) target →
  change_recorded id i target w w1 → replays P w w1.
Proof.
  intros Hi HP [[now Hinc] (e & Hev & Hid & _ & Hfrom & Hto) _ _] k j Hj.
  rewrite Hinc, Hev. destruct (decide (id = k)) as [<-|Hne].
  - assert (j = i) as -> by congruence. eexists _, [e].
    rewrite lookup_alter_eq, Hi. split_and!; [done..|].
    simpl. rewrite Hid, bool_decide_eq_true_2 by done. simpl. rewrite Hfrom, Hto.
    split; [done|]. exists target. split_and!; [done|by right|].
    unfold with_state. by case_bool_decide.
  - exists j, [e]. rewrite lookup_alter_ne by done. split_and!; [done..|].
    simpl. by rewrite bool_decide_eq_false_2 by congruence.
Qed.

Lemma change_incident_state_replays (P : relation IncidentState) id t a ty d force :
  (∀ s, step s t → P s t) → (force = true → ∀ s, P s t) →
  evolves (replays P) (change_incident_state (X:=X) settings id t a ty d force).
Proof.
  intros Hstep Hforce w.
  pose proof (change_incident_state_cases id t a ty d force w) as Hc. simpl in Hc.
  destruct (incidents (work w) !! id) as [i|] eqn:Hi; [|rewrite Hc; apply evolves_refl; tc_solve].
  case_bool_decide; [rewrite Hc; apply evolves_refl; tc_solve|].
  destruct (force || bool_decide (step (inc_state i) t)) eqn:Hg.
  - destruct Hc as (w1 & Hrec & ->). eapply evolves_trans; [tc_solve| |].
    + eapply change_recorded_replays; [done| |done].
      apply orb_true_iff in Hg as [?|?%bool_decide_eq_true]; auto.
    + apply replays_tables, after_change_states.
  - destruct Hc as (e & _ & ->). apply evolves_refl; tc_solve.
Qed.
End change.

#[export] Hint Resolve remember_states capture_states queue_channel_states
  queue_notification_states notify_states ensure_approval_states request_approval_states
  : cw_pres.

(** ** Properties *)

Section properties.
Context {X : Type} `{!Runtime X} (settings : Settings).

(** What a change of state does, on every path.  Asking for the current
    state changes nothing; an unforced change the table does not allow is refused
    with 409 and changes nothing; otherwise the incident is in the target state,
    with exactly one new event from the old state to the new one, every other
    incident untouched, and the time of resolution set when it is resolved.
    Neither a broken broker nor a failing notification can make a change fail:
    a change to a state that neither waits for an approval nor ends the incident
    always returns. *)
Theorem change_incident_state_spec id target actor ty details force (w w' : World X) r i :
  w.(work).(incidents) !! id = Some i →
  change_incident_state settings id target actor ty details force w = (r, w') →
  (i.(inc_state) = target → r = Ok tt ∧ w' = w) ∧
  (i.(inc_state) ≠ target → force = false → ¬ step i.(inc_state) target →
     w' = w ∧ ∃ msg d, r = Raise (CloudWardError "INVALID_INCIDENT_TRANSITION" msg 409 d)) ∧
  (i.(inc_state) ≠ target → force = true ∨ step i.(inc_state) target →
     (∃ now, w'.(work).(incidents) = alter (with_state now target) id w.(work).(incidents)) ∧
     (∃ e, w'.(work).(incident_events) = w.(work).(incident_events) ++ [e] ∧
        e.(iev_incident_id) = id ∧ e.(iev_from_state) = Some i.(inc_state) ∧
        e.(iev_to_state) = Some target) ∧
     (is_terminal target = false → target ≠ AWAITING_APPROVAL → r = Ok tt)).
Proof.
  intros Hi Hrun.
  pose proof (change_incident_state_cases settings id target actor ty details force w) as Hc.
  simpl in Hc. rewrite Hi, Hrun in Hc. split_and!.
  - intros E. rewrite bool_decide_eq_true_2 in Hc by done. by simplify_eq.
  - intros E Hf Hs. rewrite bool_decide_eq_false_2 in Hc by done. subst force. simpl in Hc.
    rewrite bool_decide_eq_false_2 in Hc by done. destruct Hc as (e & He & Hr). simplify_eq.
    split; [done|]. unfold transition_incident in He. case_bool_decide; simplify_eq. eauto.
  - intros E Hf. rewrite bool_decide_eq_false_2 in Hc by done.
    assert (force || bool_decide (step (inc_state i) target) = true) as Hg
      by (apply orb_true_iff; rewrite bool_decide_eq_true; tauto).
    rewrite Hg in Hc. destruct Hc as (w1 & [[now Hinc] (e & He & ? & _ & ? & ?) _ _] & Hr).
    pose proof (after_change_states settings id target actor details w1) as Hst.
    rewrite <- Hr in Hst. unfold same_db, stable, incident_tables in Hst. simpl in Hst.
    injection Hst as Hst1 Hst2. rewrite Hst1, Hst2. split_and!; [by exists now|by exists e|].
    intros Ht Ha. revert Hr. unfold after_change, notify_state_change.
    rewrite bool_decide_eq_false_2, Ht by done. destruct target; try done; by intros [= ->].
Qed.

(** Incidents of an environment that are not in a terminal state. *)
Definition is_active (env : string) (i : Incident) : bool :=
  String.eqb (Environment_value i.(inc_environment)) env && negb (is_terminal i.(inc_state)).
Definition active_incidents (env : string) (w : World X) : Z :=
  count_rows (is_active env) w.(work).(incidents).
Definition gauge (env : string) (w : World X) : Z := metric w (ACTIVE_INCIDENTS env).

Lemma is_active_with_state env now target i :
  is_active env (with_state now target i) =
  String.eqb (Environment_value i.(inc_environment)) env && negb (is_terminal target).
Proof. unfold is_active, with_state. by case_bool_decide. Qed.

(** The effect of a change on the gauge and on the number of active incidents. *)
Lemma change_gauge id target actor ty details force (w : World X) i env :
  w.(work).(incidents) !! id = Some i → i.(inc_state) ≠ target →
  force = true ∨ step i.(inc_state) target →
  let w' := (change_incident_state settings id target actor ty details force w).2 in
  let here := Z.b2z (String.eqb (Environment_value i.(inc_environment)) env) in
  gauge env w' = gauge env w - Z.b2z (is_terminal target) * here ∧
  active_incidents env w' = active_incidents env w - Z.b2z (is_active env i)
    + Z.b2z (negb (is_terminal target)) * here.
Proof.
  intros Hi Hne Hf. simpl.
  pose proof (change_incident_state_cases settings id target actor ty details force w) as Hc.
  simpl in Hc. rewrite Hi, bool_decide_eq_false_2 in Hc by done.
  replace (force || bool_decide (step (inc_state i) target)) with true in Hc
    by (symmetry; apply orb_true_iff; rewrite bool_decide_eq_true; tauto).
  destruct Hc as (w1 & [[now Hinc] _ _ Hg] & ->).
  pose proof (after_change_states settings id target actor details w1) as Hst.
  pose proof (after_change_metrics settings id target actor details w1) as Hm.
  unfold same_db, same_metrics, stable, incident_tables in *.
  injection Hst as Hst _. unfold gauge, metric, active_incidents. rewrite Hm, Hst, Hinc, Hg.
  rewrite (count_rows_alter _ _ _ _ _ Hi), is_active_with_state. unfold metric.
  destruct (String.eqb_spec (Environment_value (inc_environment i)) env) as [->|Hn];
    destruct (is_terminal target); simpl;
    rewrite ?lookup_insert_eq, ?lookup_insert_ne by (unfold ACTIVE_INCIDENTS; congruence);
    simpl; lia.
Qed.

(** The gauge of active incidents counts the active incidents: creating an
    incident and every unforced change of state, whether it returns or raises,
    change the gauge and the number of non-terminal incidents by the same amount,
    in every environment. *)
Theorem active_gauge_tracks env (w : World X) :
  (∀ c it t e s sid cid a ty id w',
     create_incident c it t e s sid cid a ty w = (Ok id, w') →
     gauge env w' - gauge env w = active_incidents env w' - active_incidents env w) ∧
  (∀ id target actor ty details,
     let w' := (change_incident_state settings id target actor ty details false w).2 in
     gauge env w' - gauge env w = active_incidents env w' - active_incidents env w).
Proof.
  split.
  - intros c it t e s sid cid a ty id w' Hrun. unfold create_incident in Hrun.
    apply bind_ok in Hrun as (u & w1 & H1 & Hrun). injection H1 as _ <-.
    apply bind_ok in Hrun as (u2 & w2 & H1 & Hrun). injection H1 as _ <-.
    apply bind_ok in Hrun as (id1 & w3 & H1 & Hrun). injection H1 as _ <-.
    apply bind_ok in Hrun as (now & w4 & H1 & Hrun). injection H1 as _ <-.
    apply bind_ok in Hrun as (u3 & w5 & H1 & Hrun). apply insert_row_ok in H1 as (Hn & _ & ->).
    match type of Hrun with _ ?w1' = _ =>
      assert (same_db incidents w1' w') as Hs by
        (eapply evolves_run; [|exact Hrun]; unfold add_incident_event; evolve);
      assert (same_metrics w1' w') as Hm by
        (eapply evolves_run; [|exact Hrun]; unfold add_incident_event; evolve)
    end.
    unfold same_db, same_metrics, stable in *. unfold gauge, metric, active_incidents.
    rewrite Hs, Hm. simpl in *. rewrite count_rows_insert by done.
    unfold is_active; simpl. unfold metric. simpl.
    destruct (String.eqb_spec (Environment_value e) env) as [->|Hne]; simpl;
      rewrite ?lookup_insert_eq, ?lookup_insert_ne by (unfold ACTIVE_INCIDENTS; congruence);
      simpl; rewrite ?lookup_insert_ne by (unfold INCIDENTS_TOTAL, ACTIVE_INCIDENTS; congruence);
      lia.
  - intros id target actor ty details. simpl.
    pose proof (change_incident_state_cases settings id target actor ty details false w) as Hc.
    simpl in Hc. destruct (incidents (work w) !! id) as [i|] eqn:Hi; [|rewrite Hc; simpl; lia].
    destruct (decide (inc_state i = target)) as [E|E];
      [rewrite bool_decide_eq_true_2 in Hc by done; rewrite Hc; simpl; lia|].
    rewrite bool_decide_eq_false_2 in Hc by done.
    destruct (decide (step (inc_state i) target)) as [Hs|Hs].
    + destruct (change_gauge id target actor ty details false w i env Hi E (or_intror Hs))
        as [-> ->]. unfold is_active. rewrite (step_not_terminal _ _ Hs), andb_true_r.
      destruct (is_terminal target), (String.eqb _ _); simpl; lia.
    + rewrite bool_decide_eq_false_2 in Hc by done. destruct Hc as (e & _ & ->). simpl. lia.
Qed.

(** Resolving by hand always ends in [RESOLVED] and is idempotent; but
    applied to an incident that is already [BLOCKED] or [ESCALATED] it decrements
    the gauge of active incidents a second time, so the gauge falls below the
    number of active incidents. *)
Theorem resolve_incident_gauge id actor ty reason source (w : World X) i :
  w.(work).(incidents) !! id = Some i →
  let w' := (resolve_incident settings id actor ty reason source w).2 in
  let env := Environment_value i.(inc_environment) in
  (∃ i', w'.(work).(incidents) !! id = Some i' ∧ i'.(inc_state) = RESOLVED ∧
     incident_identity i' = incident_identity i) ∧
  (i.(inc_state) = RESOLVED → w' = w) ∧
  (is_active env i = true →
     gauge env w' - gauge env w = active_incidents env w' - active_incidents env w) ∧
  (i.(inc_state) = BLOCKED ∨ i.(inc_state) = ESCALATED →
     gauge env w' = gauge env w - 1 ∧ active_incidents env w' = active_incidents env w).
Proof.
  intros Hi. simpl. unfold resolve_incident.
  rewrite (bind_step _ _ w i w) by by apply deref_ok.
  destruct (decide (inc_state i = RESOLVED)) as [E|E].
  { rewrite bool_decide_eq_true_2 by done. simpl. split_and!; [by exists i|done|lia|].
    intros [?|?]; congruence. }
  rewrite bool_decide_eq_false_2 by done.
  match goal with |- context [bind (assign _ _ ?f) _ _] =>
    erewrite bind_step by reflexivity end.
  erewrite bind_step by reflexivity. erewrite bind_step by reflexivity.
  match goal with |- context [change_incident_state _ _ _ _ _ _ _ ?w] => set (w1 := w) end.
  set (i1 := set_inc_resolved_at (Some (rt_now (ext w)).1)
               (set_inc_resolution_source (Some source) i)).
  assert (w1.(work).(incidents) !! id = Some i1) as Hi1
    by (simpl; by rewrite lookup_alter_eq, lookup_alter_eq, Hi).
  assert (∀ env, active_incidents env w1 = active_incidents env w) as Hact.
  { intros env. unfold active_incidents. simpl.
    rewrite (count_rows_alter _ _ _ (set_inc_resolution_source (Some source) i))
      by by rewrite lookup_alter_eq, Hi.
    rewrite (count_rows_alter _ _ _ i) by done. unfold is_active. simpl. lia. }
  destruct (change_gauge id RESOLVED actor ty
    (Some [("reason", JStr reason); ("resolution_source", JStr (ResolutionSource_value source))])
    true w1 i1 (Environment_value (inc_environment i)) Hi1 E (or_introl eq_refl)) as [Hg Ha].
  pose proof (change_incident_state_step settings id RESOLVED actor ty
    (Some [("reason", JStr reason); ("resolution_source", JStr (ResolutionSource_value source))])
    true w1) as (Hext & _ & _).
  destruct (change_incident_state settings id RESOLVED actor ty _ true w1) as [r w'] eqn:Hrun.
  cbn [snd] in *.
  destruct (change_incident_state_spec _ _ _ _ _ _ _ _ _ _ Hi1 Hrun) as (_ & _ & Hspec).
  destruct (Hspec E (or_introl eq_refl)) as ([now Hinc] & _ & _).
  split_and!; [|done| |].
  - exists (with_state now RESOLVED i1). by rewrite Hinc, lookup_alter_eq, Hi1.
  - intros Hact1. rewrite Hg, Ha, Hact. unfold is_active in *. simpl in *.
    rewrite String.eqb_refl in *. simpl in *. rewrite Hact1. simpl. unfold gauge, metric. simpl. lia.
  - intros Hb. rewrite Hg, Ha, Hact. unfold is_active. simpl.
    rewrite String.eqb_refl. unfold gauge, metric; simpl.
    destruct Hb as [-> | ->]; simpl; lia.
Qed.
End properties.

(** ** Reachable worlds *)

Section reachability.
Context {X : Type} `{!Runtime X} (settings : Settings).

(** One call of the service, whether it returns or raises, with any arguments:
    a creation, an unforced change of state, or new evidence. *)
Inductive service_step : relation (World X) :=
| step_create c it t e s sid cid a ty w :
    service_step w (create_incident c it t e s sid cid a ty w).2
| step_change id target a ty d w :
    service_step w (change_incident_state settings id target a ty d false w).2
| step_evidence id et s p src ph r q c w :
    service_step w (add_incident_evidence id et s p src ph r q c w).2.

(** The log of an incident: its creation, then allowed moves to its state; no
    event is about an incident that does not exist. *)
Definition log_complete (w : World X) : Prop :=
  (∀ id i, w.(work).(incidents) !! id = Some i →
     ∃ e l, events_of id w.(work).(incident_events) = e :: l ∧
       e.(iev_event_type) = "INCIDENT_CREATED" ∧ e.(iev_to_state) = Some DETECTED ∧
       chain step DETECTED l i.(inc_state)) ∧
  (∀ id, w.(work).(incidents) !! id = None →
     events_of id w.(work).(incident_events) = []).

Lemma log_complete_replays w w' :
  log_complete w → replays step w w' →
  (∀ id, w.(work).(incidents) !! id = None →
     w'.(work).(incidents) !! id = None ∧
     events_of id w'.(work).(incident_events) = events_of id w.(work).(incident_events)) →
  log_complete w'.
Proof.
  intros [H1 H2] Hr Hnew. split; intros id.
  - intros i' Hi'. destruct (incidents (work w) !! id) as [i|] eqn:Hi.
    + destruct (Hr id i Hi) as (i2 & new & Hi2 & Hev & Hch).
      assert (i2 = i') as -> by congruence.
      destruct (H1 id i Hi) as (e & l & Hl & Ht & Hs & Hc).
      exists e, (l ++ events_of id new). rewrite Hev, events_of_app, Hl.
      split_and!; [done..|]. by eapply chain_app.
    + destruct (Hnew id Hi). congruence.
  - intros Hi'. destruct (incidents (work w) !! id) as [i|] eqn:Hi.
    + destruct (Hr id i Hi) as (i2 & ? & ? & _). congruence.
    + destruct (Hnew id Hi) as [_ ->]. by apply H2.
Qed.

Lemma create_log_complete c it t e s sid cid a ty w :
  log_complete w → log_complete (create_incident c it t e s sid cid a ty w).2.
Proof.
  intros [H1 H2]. unfold create_incident.
  do 4 (erewrite bind_step by reflexivity).
  match goal with |- context [bind (insert_row _ _ ?ok ?id ?i) ?k ?w] =>
    set (new := i); set (nid := id); set (wi := w); set (rest := k) end.
  unfold bind at 1. destruct (insert_row incidents upd_incidents _ nid new wi) as [[u|x] w1] eqn:Hins.
  - pose proof Hins as Hins'. apply insert_row_ok in Hins as (Hn & _ & ->). simpl in Hn.
    unfold rest. erewrite bind_step by reflexivity. erewrite bind_step by reflexivity.
    match goal with |- log_complete (bind _ _ ?w).2 => set (we := w) end.
    match goal with |- log_complete (?m we).2 =>
      assert (evolves (same_db incident_tables) m) as Hrest by evolve end.
    specialize (Hrest we). unfold same_db, stable, incident_tables in Hrest.
    pose proof (f_equal fst Hrest) as Hr1. pose proof (f_equal snd Hrest) as Hr2.
    cbn [fst snd] in Hr1, Hr2. split; intros id; rewrite Hr1, Hr2; simpl.
    + intros i Hi. rewrite events_of_app. simpl. destruct (decide (nid = id)) as [<-|Hne].
      * rewrite lookup_insert_eq in Hi. simplify_eq. rewrite (H2 _ Hn). simpl.
        rewrite bool_decide_eq_true_2 by done. eexists _, []. split_and!; reflexivity.
      * rewrite lookup_insert_ne in Hi by done.
        rewrite bool_decide_eq_false_2, app_nil_r by done. by apply H1.
    + intros Hi. rewrite events_of_app. simpl. destruct (decide (nid = id)) as [<-|Hne];
        [by rewrite lookup_insert_eq in Hi|].
      rewrite lookup_insert_ne in Hi by done.
      rewrite bool_decide_eq_false_2, app_nil_r by done. by apply H2.
  - simpl. assert (work w1 = work wi) as Hw.
    { revert Hins. unfold insert_row, query, gets, bind, raise_if. simpl.
      destruct (negb _); simpl; intros; by simplify_eq. }
    split; intros id; rewrite Hw; simpl; [apply H1|apply H2].
Qed.

Lemma service_step_complete w w' : log_complete w → service_step w w' → log_complete w'.
Proof.
  intros Hw Hs. revert Hw.
  destruct Hs as [c it t e s sid cid a ty w0|id target a ty d w0|id et s p src ph r q c w0];
    intros Hw.
  - by apply create_log_complete.
  - apply (log_complete_replays w0); [done| |].
    + apply change_incident_state_replays; [done..|]. done.
    + intros k Hk.
      pose proof (change_incident_state_cases settings id target a ty d false w0) as Hc.
      simpl in Hc. destruct (incidents (work w0) !! id) as [i|] eqn:Hi; [|by rewrite Hc].
      case_bool_decide; [by rewrite Hc|].
      destruct (bool_decide (step (inc_state i) target)); [|destruct Hc as (? & _ & ->); done].
      destruct Hc as (w1 & [[now Hinc] (e & He & Hid & _) _ _] & ->).
      pose proof (after_change_states settings id target a d w1) as Hst.
      unfold same_db, stable, incident_tables in Hst. injection Hst as -> ->.
      rewrite Hinc, He. assert (id ≠ k) as Hne by congruence.
      rewrite lookup_alter_ne, events_of_app by done. split; [done|]. simpl.
      by rewrite bool_decide_eq_false_2, app_nil_r by congruence.
  - assert (evolves (same_db incident_tables) (add_incident_evidence id et s p src ph r q c))
      as Hst by (unfold add_incident_evidence; evolve).
    specialize (Hst w0). unfold same_db, stable, incident_tables in Hst.
    pose proof (f_equal fst Hst) as H1. pose proof (f_equal snd Hst) as H2.
    cbn [fst snd] in H1, H2. destruct Hw. by split; rewrite H1, H2.
Qed.

(** An empty database, in any environment. *)
Definition initial_world (x : X) : World X :=
  {| work := empty_database; committed := empty_database; metrics := ∅; trace := [];
     ext := x |}.

Lemma chain_avoiding p s l t :
  chain step s l t → (∀ e, e ∈ l → e.(iev_to_state) ≠ Some p) →
  rtc (step_avoiding (λ u, u = p)) s t.
Proof.
  revert s. induction l as [|e l IH]; intros s; simpl; [by intros ->|].
  intros (_ & u & Hu & Hs & Hc) Ha.
  assert (rtc (step_avoiding (λ u, u = p)) u t) by (apply IH; set_solver).
  destruct Hs as [->|Hs]; [done|]. eapply rtc_l; [|done]. split; [done|].
  intros ->. by apply (Ha e); [left|].
Qed.

End reachability.

(** ** The theorems at a concrete world *)

Definition bench_created : World Z :=
  (create_incident (Runtime0 := bench_runtime) "corr-1" "reliability" "Unhealthy Demo Pod"
     ENV_STAGING None None None "cloudward" ACTOR_SYSTEM (bench_world empty_database)).2.

(** The incident of [bench_created], and a copy of that world where it is blocked. *)
Definition bench_incident : Incident :=
  new_incident 1%N 1700000002000000 "corr-1" "reliability" "Unhealthy Demo Pod" ENV_STAGING
    None None None.

Definition bench_change (target : IncidentState) (w : World Z) : res unit * World Z :=
  change_incident_state (Runtime0 := bench_runtime) example_settings 1%N target "cloudward"
    ACTOR_SYSTEM None false w.

Lemma change_incident_state_spec_witness :
  (bench_change COLLECTING_EVIDENCE bench_created).1 = Ok tt ∧
  (bench_change EXECUTING bench_created).2 = bench_created.
Proof.
  split.
  - refine (proj2 (proj2 (proj2 (proj2 (change_incident_state_spec
      (Runtime0 := bench_runtime) example_settings 1%N COLLECTING_EVIDENCE "cloudward"
      ACTOR_SYSTEM None false bench_created _ _ bench_incident _ (surjective_pairing _)))
      _ _)) _ _).
    + vm_compute. reflexivity.
    + discriminate.
    + right. apply (bool_decide_unpack _). vm_compute. exact I.
    + reflexivity.
    + discriminate.
  - refine (proj1 (proj1 (proj2 (change_incident_state_spec
      (Runtime0 := bench_runtime) example_settings 1%N EXECUTING "cloudward"
      ACTOR_SYSTEM None false bench_created _ _ bench_incident _ (surjective_pairing _)))
      _ _ _)).
    + vm_compute. reflexivity.
    + discriminate.
    + reflexivity.
    + apply (bool_decide_unpack _). vm_compute. exact I.
Defined.

Lemma active_gauge_tracks_witness :
  gauge "staging" bench_created - gauge "staging" (bench_world empty_database) =
  active_incidents "staging" bench_created -
  active_incidents "staging" (bench_world empty_database).
Proof.
  refine (proj1 (active_gauge_tracks (Runtime0 := bench_runtime) example_settings "staging"
    (bench_world empty_database)) "corr-1" "reliability" "Unhealthy Demo Pod" ENV_STAGING
    None None None "cloudward" ACTOR_SYSTEM 1%N bench_created _).
  vm_compute. reflexivity.
Defined.

Definition bench_blocked : World Z := (bench_change BLOCKED bench_created).2.

Lemma resolve_incident_gauge_witness :
  gauge "staging" (resolve_incident (Runtime0 := bench_runtime) example_settings 1%N "op"
    ACTOR_USER "done" HUMAN_ACTION bench_blocked).2 = gauge "staging" bench_blocked - 1.
Proof.
  refine (proj1 (proj2 (proj2 (proj2 (resolve_incident_gauge (Runtime0 := bench_runtime)
    example_settings 1%N "op" ACTOR_USER "done" HUMAN_ACTION bench_blocked
    (set_inc_state BLOCKED bench_incident) _))) _)).
  - vm_compute. reflexivity.
  - left. reflexivity.
Defined.

