(* ===== verification/JsonParse.v ===== *)
(** * [json.loads]

    The standard library's decoder on the documents the Kubernetes proxy returns:
    recursive descent on the text, the fuel being its length.  Code points above
    255 in escapes are outside the string model and become a question mark. *)

From S2P Require Import Prelude PyFloat Json Effects Models Config.

Definition json_space (c : ascii) : bool := bool_decide (code_of c ∈ [32; 9; 10; 13]).

Fixpoint skip_space (s : string) : string :=
  match s with
  | String.String c s' => if json_space c then skip_space s' else s
  | EmptyString => EmptyString
  end.

Definition hex_value (c : ascii) : option Z :=
  if is_digit c then Some (code_of c - 48)
  else if in_range 97 102 c then Some (code_of c - 87)
  else if in_range 65 70 c then Some (code_of c - 55)
  else None.

Definition escaped (c : ascii) : option ascii :=
  match code_of c with
  | 34 => Some "034"%char | 92 => Some "092"%char | 47 => Some "047"%char
  | 98 => Some "008"%char | 102 => Some "012"%char | 110 => Some "010"%char
  | 114 => Some "013"%char | 116 => Some "009"%char
  | _ => None
  end.

(** The rest of a string literal after its opening quote. *)
Fixpoint parse_chars (fuel : nat) (s : string) : option (string * string) :=
  match fuel with
  | O => None
  | S fuel =>
      let more (c : ascii) (s : string) :=
        match parse_chars fuel s with
        | Some (t, rest) => Some (String.String c t, rest)
        | None => None
        end in
      match s with
      | EmptyString => None
      | String.String c s =>
          if code_of c =? 34 then Some (EmptyString, s)
          else if code_of c =? 92 then
            match s with
            | String.String "u" (String.String a (String.String b
                (String.String c2 (String.String d s)))) =>
                match hex_value a, hex_value b, hex_value c2, hex_value d with
                | Some a, Some b, Some c2, Some d =>
                    let n := ((a * 16 + b) * 16 + c2) * 16 + d in
                    more (if n <? 256 then ascii_of_N (Z.to_N n) else "?"%char) s
                | _, _, _, _ => None
                end
            | String.String e s => match escaped e with Some e => more e s | None => None end
            | EmptyString => None
            end
          else if code_of c <? 32 then None
          else more c s
      end
  end.

(** A run of digits: its value, its length and what follows. *)
Fixpoint take_digits (acc : Z) (n : Z) (s : string) : Z * Z * string :=
  match s with
  | String.String c s' =>
      if is_digit c then take_digits (10 * acc + (code_of c - 48)) (n + 1) s'
      else (acc, n, s)
  | EmptyString => (acc, n, EmptyString)
  end.

Definition parse_exponent (s : string) : option (Z * string) :=
  match s with
  | String.String c s' =>
      if Ascii.eqb (to_lower c) "e" then
        let '(sign, s'') := match s' with
                            | String.String "-" t => (-1, t)
                            | String.String "+" t => (1, t)
                            | _ => (1, s')
                            end in
        let '(v, n, rest) := take_digits 0 0 s'' in
        if n =? 0 then None else Some (sign * v, rest)
      else None
  | EmptyString => None
  end.

Definition parse_number (s : string) : option (json * string) :=
  let '(neg, s) := match s with String.String "-" t => (true, t) | _ => (false, s) end in
  let sign z := if neg : bool then - z else z in
  let '(v, n, rest) := match s with
                       | String.String "0" t => (0, 1, t)
                       | _ => take_digits 0 0 s
                       end in
  if n =? 0 then None
  else
    let '(m, k, rest', frac) :=
      match rest with
      | String.String "." t =>
          let '(v', k, rest') := take_digits v 0 t in
          if k =? 0 then (v, 0, rest, false) else (v', k, rest', true)
      | _ => (v, 0, rest, false)
      end in
    let signf f := if neg : bool then SpecFloat.SFopp f else f in
    match parse_exponent rest' with
    | Some (e, rest'') => Some (JFloat (signf (float_of_decimal m (e - k))), rest'')
    | None => if frac : bool then Some (JFloat (signf (float_of_decimal m (- k))), rest')
              else Some (JInt (sign v), rest)
    end.

Definition keyword (k : string) (j : json) (s : string) : option (json * string) :=
  if String.prefix k s
  then Some (j, String.substring (String.length k) (String.length s - String.length k) s)
  else None.

Definition or_else {A} (a b : option A) : option A := match a with Some _ => a | None => b end.

(** The loops over the items of an array and the members of an object, after the
    first bracket; [value] reads one value. *)
Section loops.
Context (value : string → option (json * string)).

Fixpoint parse_items (n : nat) (acc : list json) (t : string) : option (json * string) :=
  match n with
  | O => None
  | S n =>
      match value (skip_space t) with
      | None => None
      | Some (v, t) =>
          match skip_space t with
          | String.String c t =>
              if Ascii.eqb c "," then parse_items n (v :: acc) t
              else if Ascii.eqb c "]" then Some (JArr (rev (v :: acc)), t)
              else None
          | EmptyString => None
          end
      end
  end.

Definition parse_array (n : nat) (t : string) : option (json * string) :=
  match skip_space t with
  | String.String c rest =>
      if Ascii.eqb c "]" then Some (JArr [], rest) else parse_items n [] (String.String c rest)
  | EmptyString => None
  end.

(** One member: its key, its value and what follows. *)
Definition parse_member (t : string) : option (string * json * string) :=
  match skip_space t with
  | String.String q t =>
      if negb (code_of q =? 34) then None
      else match parse_chars (S (String.length t)) t with
           | None => None
           | Some (k, t) =>
               match skip_space t with
               | String.String c t =>
                   if Ascii.eqb c ":" then
                     match value (skip_space t) with
                     | Some (v, t) => Some (k, v, t)
                     | None => None
                     end
                   else None
               | EmptyString => None
               end
           end
  | EmptyString => None
  end.

Fixpoint parse_members (n : nat) (acc : dict) (t : string) : option (json * string) :=
  match n with
  | O => None
  | S n =>
      match parse_member t with
      | None => None
      | Some (k, v, t) =>
          let acc := dict_set k v acc in
          match skip_space t with
          | String.String c t =>
              if Ascii.eqb c "," then parse_members n acc t
              else if Ascii.eqb c "}" then Some (JObj acc, t)
              else None
          | EmptyString => None
          end
      end
  end.

Definition parse_object (n : nat) (t : string) : option (json * string) :=
  match skip_space t with
  | String.String c rest =>
      if Ascii.eqb c "}" then Some (JObj [], rest)
      else parse_members n [] (String.String c rest)
  | EmptyString => None
  end.
End loops.

Definition parse_literal (s : string) : option (json * string) :=
  or_else (keyword "null" JNull s) (or_else (keyword "true" (JBool true) s)
    (or_else (keyword "false" (JBool false) s)
      (or_else (keyword "NaN" (JFloat SpecFloat.S754_nan) s)
        (or_else (keyword "Infinity" (JFloat (SpecFloat.S754_infinity false)) s)
          (or_else (keyword "-Infinity" (JFloat (SpecFloat.S754_infinity true)) s)
            (parse_number s)))))).

Fixpoint parse_value (fuel : nat) (s : string) : option (json * string) :=
  match fuel with
  | O => None
  | S fuel =>
      match s with
      | String.String c t =>
          if code_of c =? 34 then
            match parse_chars (S (String.length t)) t with
            | Some (str, rest) => Some (JStr str, rest)
            | None => None
            end
          else if Ascii.eqb c "[" then parse_array (parse_value fuel) fuel t
          else if Ascii.eqb c "{" then parse_object (parse_value fuel) fuel t
          else parse_literal s
      | EmptyString => None
      end
  end.

(** [json.loads(s)]; [None] is a [ValueError]. *)
Definition json_loads (s : string) : option json :=
  match parse_value (S (String.length s)) (skip_space s) with
  | Some (j, rest) => if String.eqb (skip_space rest) EmptyString then Some j else None
  | None => None
  end.

Definition roundtrip_value : json :=
  JObj [("reachable", JBool true); ("n", JArr [JInt (-12); JFloat (float_of_decimal 25 (-1));
        JNull; JStr (dquote +:+ "\x")]); ("o", JObj [])].

Example loads_dumps : option_map dumps (json_loads (dumps roundtrip_value))
                      = Some (dumps roundtrip_value).
Proof. vm_compute. reflexivity. Qed.
Example loads_bad : map json_loads ["[1,]"; "01"; "{}x"; EmptyString] = [None; None; None; None].
Proof. vm_compute. reflexivity. Qed.

(** ** [float(value)] *)

(** Underscores only between digits. *)
Fixpoint drop_underscores (prev_digit : bool) (s : string) : option string :=
  match s with
  | EmptyString => Some EmptyString
  | String.String c s' =>
      if Ascii.eqb c "_" then
        match s' with
        | String.String d _ => if prev_digit && is_digit d then drop_underscores false s' else None
        | EmptyString => None
        end
      else String.String c <$> drop_underscores (is_digit c) s'
  end.

Definition unsigned_float (s : string) : option float :=
  if bool_decide (lower s ∈ ["inf"; "infinity"]) then Some (SpecFloat.S754_infinity false)
  else if String.eqb (lower s) "nan" then Some SpecFloat.S754_nan
  else
    let '(v, n, rest) := take_digits 0 0 s in
    let '(m, k, rest) := match rest with
                         | String.String "." t => take_digits v 0 t
                         | _ => (v, 0, rest)
                         end in
    if n + k =? 0 then None
    else match rest with
         | EmptyString => Some (float_of_decimal m (- k))
         | _ => match parse_exponent rest with
                | Some (e, EmptyString) => Some (float_of_decimal m (e - k))
                | _ => None
                end
         end.

Definition float_of_str (s : string) : option float :=
  match drop_underscores false (str_strip s) with
  | Some (String.String "-" t) => SpecFloat.SFopp <$> unsigned_float t
  | Some (String.String "+" t) => unsigned_float t
  | Some t => unsigned_float t
  | None => None
  end.

Definition py_float (j : json) : res float :=
  match j with
  | JFloat f => Ok f
  | JInt z => if is_finite (float_of_Z z) then Ok (float_of_Z z)
              else Raise (PyError "OverflowError" "int too large to convert to float")
  | JBool b => Ok (float_of_Z (Z.b2z b))
  | JStr s => match float_of_str s with
              | Some f => Ok f
              | None => Raise (PyError "ValueError" "could not convert string to float")
              end
  | _ => Raise (PyError "TypeError" "float() argument")
  end.

Example float_of_str_examples :
  map (option_map float_repr) (map float_of_str [" 0.98 "; "-1_0e-1"; "1__0"; ".5"; "-"; "1."]) =
  [Some "0.98"; Some "-1.0"; None; Some "0.5"; None; Some "1.0"].
Proof. vm_compute. reflexivity. Qed.
