(* ===== verification/JsonRound.v ===== *)
(** * Reading back what was written

    [json.loads] inverts [json.dumps] on the documents the program exchanges: values
    without floats whose objects have distinct keys.  The writer sorts the keys, so
    what is read back is the value with its keys sorted. *)

From S2P Require Import Prelude PyFloat Json Effects Models Config JsonParse.

(** ** Values *)

(** Induction through arrays and objects. *)
Section induction.
Context (P : json → Prop).
Context (Hnull : P JNull) (Hbool : ∀ b, P (JBool b)) (Hint : ∀ z, P (JInt z)).
Context (Hfloat : ∀ f, P (JFloat f)) (Hstr : ∀ s, P (JStr s)).
Context (Harr : ∀ l, Forall P l → P (JArr l)).
Context (Hobj : ∀ d, Forall (λ kv, P kv.2) d → P (JObj d)).

Fixpoint json_nested_ind (j : json) : P j :=
  match j with
  | JNull => Hnull | JBool b => Hbool b | JInt z => Hint z | JFloat f => Hfloat f
  | JStr s => Hstr s
  | JArr l =>
      Harr l ((fix go l : Forall P l :=
                 match l with [] => Forall_nil_2 P | j :: l => Forall_cons_2 P j l (json_nested_ind j) (go l) end) l)
  | JObj d =>
      Hobj d ((fix go d : Forall (λ kv, P kv.2) d :=
                 match d with
                 | [] => Forall_nil_2 _
                 | kv :: d => Forall_cons_2 _ kv d (json_nested_ind kv.2) (go d)
                 end) d)
  end.
End induction.

Definition key_leb {A} (a b : string * A) : bool := str_leb a.1 b.1.

(** A value with the keys of its objects sorted. *)
Fixpoint canon (j : json) : json :=
  match j with
  | JArr l => JArr (map canon l)
  | JObj d => JObj (isort key_leb (map (λ kv, (kv.1, canon kv.2)) d))
  | _ => j
  end.

(** No floats, and distinct keys. *)
Fixpoint plain (j : json) : bool :=
  match j with
  | JFloat _ => false
  | JArr l => forallb plain l
  | JObj d => bool_decide (NoDup (map fst d)) && forallb (λ kv, plain kv.2) d
  | _ => true
  end.

Lemma insert_sorted_map {A B} (f : A → B) leb leb' x l :
  (∀ a b, leb' (f a) (f b) = leb a b) →
  insert_sorted leb' (f x) (map f l) = map f (insert_sorted leb x l).
Proof.
  intros H. induction l as [|y l IH]; simpl; [done|]. rewrite H. destruct (leb x y); simpl; [done|].
  by rewrite IH.
Qed.

Lemma isort_map {A B} (f : A → B) leb leb' l :
  (∀ a b, leb' (f a) (f b) = leb a b) → isort leb' (map f l) = map f (isort leb l).
Proof.
  intros H. induction l as [|x l IH]; simpl; [done|]. rewrite IH. by apply insert_sorted_map.
Qed.

Definition entry (kv : string * json) : string := quote kv.1 +:+ ":" +:+ dumps kv.2.

Lemma dumps_obj d : dumps (JObj d) = "{" +:+ join "," (map entry (isort key_leb d)) +:+ "}".
Proof.
  simpl. do 2 f_equal.
  set (go := fix go d := match d with [] => [] | (k, v) :: d => _ end).
  assert (go d = map (λ kv, (kv.1, entry kv)) d) as ->.
  { induction d as [|[k v] d IH]; simpl; [done|]. by rewrite IH. }
  rewrite (isort_map _ key_leb) by done. by rewrite map_map.
Qed.

Lemma canon_obj d :
  canon (JObj d) = JObj (map (λ kv, (kv.1, canon kv.2)) (isort key_leb d)).
Proof. simpl. by rewrite (isort_map _ key_leb). Qed.

(** ** Strings *)


Lemma length_app_str (a b : string) :
  String.length (a +:+ b) = (String.length a + String.length b)%nat.
Proof. induction a as [|x a IH]; [done|]. rewrite app_cons_str. simpl. by rewrite IH. Qed.

Lemma parse_escaped c fuel s :
  parse_chars (S fuel) (escape_char c +:+ s) =
  match parse_chars fuel s with Some (t, rest) => Some (String.String c t, rest) | None => None end.
Proof. by destruct c as [[] [] [] [] [] [] [] []]. Qed.

Lemma parse_chars_escape s fuel rest :
  (String.length s < fuel)%nat → parse_chars fuel (escape s +:+ dquote +:+ rest) = Some (s, rest).
Proof.
  revert fuel. induction s as [|c s IH]; intros [|fuel]; simpl String.length; try lia; intros Hf.
  - done.
  - simpl escape. rewrite app_assoc_str, parse_escaped, IH by lia. done.
Qed.

Lemma escape_char_length c : (1 ≤ String.length (escape_char c))%nat.
Proof. apply Nat.ltb_lt. by destruct c as [[] [] [] [] [] [] [] []]. Qed.

Lemma escape_length s : (String.length s ≤ String.length (escape s))%nat.
Proof.
  induction s as [|c s IH]; simpl; [done|]. rewrite length_app_str.
  pose proof (escape_char_length c). lia.
Qed.

Lemma parse_quoted s t :
  parse_chars (S (String.length (escape s +:+ dquote +:+ t))) (escape s +:+ dquote +:+ t)
  = Some (s, t).
Proof. apply parse_chars_escape. rewrite length_app_str. pose proof (escape_length s). lia. Qed.

(** ** Numbers *)

Lemma digits_fuel_app f n acc rest :
  digits_fuel f 10 n acc +:+ rest = digits_fuel f 10 n (acc +:+ rest).
Proof.
  revert n acc. induction f as [|f IH]; intros n acc; simpl; [done|].
  destruct (n <? 10)%N; [done|]. by rewrite IH.
Qed.

Lemma digit_char_cases (P : N → ascii → Prop) d :
  (d < 10)%N →
  P 0%N "0"%char → P 1%N "1"%char → P 2%N "2"%char → P 3%N "3"%char → P 4%N "4"%char →
  P 5%N "5"%char → P 6%N "6"%char → P 7%N "7"%char → P 8%N "8"%char → P 9%N "9"%char →
  P d (digit_char d).
Proof.
  intros Hd. destruct d as [|p]; [done|].
  do 4 (destruct p as [p|p|]; try lia; try done).
Qed.

Lemma take_digit d v k s :
  (d < 10)%N →
  take_digits v k (String.String (digit_char d) s) = take_digits (10 * v + Z.of_N d) (k + 1) s.
Proof.
  intros Hd. pattern d, (digit_char d). by apply digit_char_cases.
Qed.

Lemma take_digits_fuel f n :
  (n < 10 ^ N.of_nat f)%N → (0 < f)%nat →
  ∃ len, 1 ≤ len ∧ ∀ v k s,
    take_digits v k (digits_fuel f 10 n s) = take_digits (v * 10 ^ len + Z.of_N n) (k + len) s.
Proof.
  revert n. induction f as [|f IH]; intros n Hn Hf; [lia|]. simpl.
  destruct (n <? 10)%N eqn:Hs.
  - apply N.ltb_lt in Hs. exists 1. split; [lia|]. intros v k s. rewrite take_digit, N.mod_small by
      (try apply N.mod_lt; lia). f_equal. lia.
  - apply N.ltb_ge in Hs.
    assert (0 < f)%nat as Hf'.
    { destruct f; [|lia]. change (10 ^ N.of_nat 1)%N with 10%N in Hn. lia. }
    destruct (IH (n / 10)%N) as (len & Hlen & Htake); [|done|].
    { apply N.Div0.div_lt_upper_bound. rewrite <- N.pow_succ_r'. by rewrite <- Nat2N.inj_succ. }
    exists (len + 1). split; [lia|]. intros v k s.
    rewrite Htake, take_digit by (apply N.mod_lt; lia).
    rewrite Z.pow_add_r by lia. f_equal; [|lia].
    pose proof (N.div_mod n 10 ltac:(lia)). lia.
Qed.

Lemma digits_fuel_head f n s :
  (0 < n < 10 ^ N.of_nat f)%N →
  ∃ d t, (1 ≤ d < 10)%N ∧ digits_fuel f 10 n s = String.String (digit_char d) t.
Proof.
  revert n s. induction f as [|f IH]; intros n s [Hn Hf]; [simpl in Hf; lia|]. simpl.
  destruct (n <? 10)%N eqn:Hs.
  - apply N.ltb_lt in Hs. exists n, s. rewrite N.mod_small by lia. split; [lia|done].
  - apply N.ltb_ge in Hs. apply IH. split.
    + apply N.div_str_pos. lia.
    + apply N.Div0.div_lt_upper_bound. rewrite <- N.pow_succ_r'. by rewrite <- Nat2N.inj_succ.
Qed.

Lemma size_fuel n : (n < 10 ^ N.of_nat (S (N.to_nat (N.size n))))%N.
Proof.
  rewrite Nat2N.inj_succ, N2Nat.id. pose proof (N.size_gt n).
  pose proof (N.pow_le_mono_l 2 10 (N.size n) ltac:(lia)).
  rewrite N.pow_succ_r'. lia.
Qed.

(** What may follow a value. *)
Definition delimited (rest : string) : Prop :=
  match rest with
  | EmptyString => True
  | String.String c _ => c ∈ [","; "]"; "}"]%char
  end.

Lemma delimited_cases (P : string → Prop) rest :
  delimited rest → P EmptyString →
  (∀ r, P (String.String "," r)) → (∀ r, P (String.String "]" r)) →
  (∀ r, P (String.String "}" r)) → P rest.
Proof.
  destruct rest as [|c r]; [done|]. unfold delimited. intros Hc ????.
  rewrite !elem_of_cons, elem_of_nil in Hc. by destruct Hc as [->|[->|[->|[]]]].
Qed.

(** A positive numeral after an optional sign. *)
Lemma parse_numeral n rest :
  (0 < n)%N → delimited rest →
  ∃ d t, (1 ≤ d < 10)%N ∧ str_of_N n +:+ rest = String.String (digit_char d) t ∧
    ∃ len, 1 ≤ len ∧
      take_digits 0 0 (String.String (digit_char d) t) = (Z.of_N n, len, rest).
Proof.
  intros Hn Hrest. unfold str_of_N, digits. rewrite digits_fuel_app. simpl append.
  destruct (digits_fuel_head (S (N.to_nat (N.size n))) n rest) as (d & t & Hd & Heq).
  { split; [done|]. apply size_fuel. }
  exists d, t. split; [done|]. split; [exact Heq|]. rewrite <- Heq.
  destruct (take_digits_fuel (S (N.to_nat (N.size n))) n) as (len & Hlen & Htake);
    [apply size_fuel|lia|].
  exists len. split; [done|]. rewrite Htake. rewrite Z.mul_0_l, !Z.add_0_l.
  by apply (delimited_cases (λ r, take_digits (Z.of_N n) len r = (Z.of_N n, len, r)) rest).
Qed.

(** A positive numeral, alone or after a minus sign. *)
Lemma parse_number_positive d t n len rest :
  (1 ≤ d < 10)%N → 1 ≤ len → delimited rest →
  take_digits 0 0 (String.String (digit_char d) t) = (n, len, rest) →
  parse_number (String.String (digit_char d) t) = Some (JInt n, rest) ∧
  parse_number (String.String "-" (String.String (digit_char d) t)) = Some (JInt (- n), rest).
Proof.
  intros Hd Hlen Hrest Ht. assert (len =? 0 = false) as Hl by (apply Z.eqb_neq; lia).
  assert (d < 10)%N as Hd' by lia. revert Hd Ht. pattern d, (digit_char d).
  apply digit_char_cases; [done|lia|..]; intros _ Ht;
    unfold parse_number; rewrite Ht; cbv beta iota zeta; rewrite Hl;
    clear Ht; pattern rest; by apply delimited_cases.
Qed.

Lemma parse_str_of_Z z rest :
  delimited rest → parse_literal (str_of_Z z +:+ rest) = Some (JInt z, rest) ∧
  ∃ c t, str_of_Z z +:+ rest = String.String c t ∧ c ≠ "034"%char ∧ c ≠ "["%char ∧
    c ≠ "{"%char ∧ c ≠ "]"%char ∧ json_space c = false.
Proof.
  intros Hrest. unfold str_of_Z. destruct (z <? 0) eqn:Hz; boolify.
  - destruct (parse_numeral (Z.to_N (- z)) rest) as (d & t & Hd & Heq & len & Hlen & Ht); [lia|done|].
    rewrite !app_cons_str, app_nil_str, Heq. split; [|by eexists _, _; split_and!].
    destruct (parse_number_positive d t _ len rest Hd Hlen Hrest Ht) as [_ Hp].
    rewrite Z2N.id, Z.opp_involutive in Hp by lia. unfold parse_literal. rewrite Hp.
    assert (d < 10)%N as Hd' by lia. revert Hd. pattern d, (digit_char d).
    by apply digit_char_cases.
  - destruct (decide (z = 0)) as [->|Hnz].
    { split; [|by eexists _, _; split_and!]. by apply (delimited_cases (λ r, _ (_ +:+ r) = Some (_, r)) rest). }
    destruct (parse_numeral (Z.to_N z) rest) as (d & t & Hd & Heq & len & Hlen & Ht); [lia|done|].
    rewrite Heq.
    destruct (parse_number_positive d t _ len rest Hd Hlen Hrest Ht) as [Hp _].
    rewrite Z2N.id in Hp by lia. unfold parse_literal. rewrite Hp. clear Heq Ht Hp.
    assert (d < 10)%N as Hd' by lia. revert Hd. pattern d, (digit_char d).
    apply digit_char_cases; [done|..]; intros ?; (split; [done|by eexists _, _; split_and!]).
Qed.

(** ** Lists of texts *)

Lemma join_cons x y l : join "," (x :: y :: l) = x +:+ String.String "," (join "," (y :: l)).
Proof. done. Qed.

Lemma length_cons_str c s : String.length (String.String c s) = S (String.length s).
Proof. done. Qed.

Lemma join_elem x l : x ∈ l → (String.length x ≤ String.length (join "," l))%nat.
Proof.
  induction l as [|y [|z l] IH]; [by intros ?%elem_of_nil|by intros ->%list_elem_of_singleton|].
  rewrite join_cons, length_app_str, length_cons_str.
  intros [->|Hx]%elem_of_cons; [lia|]. specialize (IH Hx). lia.
Qed.

Lemma join_count l : (length l ≤ S (String.length (join "," l)))%nat.
Proof.
  induction l as [|y [|z l] IH]; [simpl; lia..|].
  rewrite join_cons, length_app_str, length_cons_str. simpl length in *. lia.
Qed.

(** ** The loops *)

Section loops.
Context (value : string → option (json * string)).

(** [value] reads [j] back, whatever follows. *)
Definition reads (j : json) : Prop :=
  ∀ rest, delimited rest → value (skip_space (dumps j +:+ rest)) = Some (canon j, rest).

Lemma parse_items_dumps l n acc rest :
  Forall reads l → l ≠ [] → (length l < n)%nat →
  parse_items value n acc (join "," (map dumps l) +:+ String.String "]" rest)
  = Some (JArr (rev acc ++ map canon l), rest).
Proof.
  intros Hl. revert n acc. induction Hl as [|j l Hj Hl IH]; intros [|n] acc Hne Hn;
    simpl length in Hn; try done; try lia. cbn [parse_items].
  destruct l as [|j' l].
  - change (join "," (map dumps [j])) with (dumps j).
    rewrite Hj by (unfold delimited; set_solver). by cbn.
  - change (map dumps (j :: j' :: l)) with (dumps j :: dumps j' :: map dumps l).
    rewrite join_cons, app_assoc_str, Hj by (unfold delimited; set_solver). rewrite app_cons_str.
    transitivity (parse_items value n (canon j :: acc)
                    (join "," (map dumps (j' :: l)) +:+ String.String "]" rest)); [done|].
    rewrite (IH n (canon j :: acc)) by (done || simpl length in *; lia).
    simpl. by rewrite <- app_assoc.
Qed.

Lemma parse_member_entry k j rest :
  reads j → delimited rest → parse_member value (entry (k, j) +:+ rest) = Some (k, canon j, rest).
Proof.
  intros Hj Hrest. unfold entry, quote. cbn [fst snd]. rewrite !app_assoc_str.
  set (tail := escape k +:+ dquote +:+ String.String ":" (dumps j +:+ rest)).
  transitivity (match parse_chars (S (String.length tail)) tail with
                | None => None
                | Some (k, t) =>
                    match skip_space t with
                    | String.String c t =>
                        if Ascii.eqb c ":" then
                          match value (skip_space t) with
                          | Some (v, t) => Some (k, v, t)
                          | None => None
                          end
                        else None
                    | EmptyString => None
                    end
                end); [done|].
  unfold tail. rewrite parse_quoted.
  transitivity (match value (skip_space (dumps j +:+ rest)) with
                | Some (v, t) => Some (k, v, t) | None => None end); [done|].
  by rewrite Hj.
Qed.

Lemma dict_set_new {A} k (v : A) d : k ∉ map fst d → dict_set k v d = d ++ [(k, v)].
Proof.
  induction d as [|[k' v'] d IH]; simpl; [done|]. intros [Hne Hnin]%not_elem_of_cons.
  assert (String.eqb k' k = false) as -> by (apply String.eqb_neq; congruence). by rewrite IH.
Qed.

Definition canon_entry (kv : string * json) : string * json := (kv.1, canon kv.2).

Lemma parse_members_dumps d n acc rest :
  Forall (λ kv, reads kv.2) d → d ≠ [] → (length d < n)%nat →
  NoDup (map fst acc ++ map fst d) →
  parse_members value n acc (join "," (map entry d) +:+ String.String "}" rest)
  = Some (JObj (acc ++ map canon_entry d), rest).
Proof.
  intros Hd. revert n acc. induction Hd as [|[k j] d Hj Hd IH]; intros [|n] acc Hne Hn Hnd;
    simpl length in Hn; try done; try lia. cbn [parse_members].
  assert (k ∉ map fst acc) as Hk by (apply NoDup_app in Hnd; set_solver).
  destruct d as [|[k' j'] d].
  - change (join "," (map entry [(k, j)])) with (entry (k, j)).
    rewrite parse_member_entry by (done || unfold delimited; set_solver).
    by rewrite dict_set_new.
  - change (map entry ((k, j) :: (k', j') :: d))
      with (entry (k, j) :: entry (k', j') :: map entry d).
    rewrite join_cons, app_assoc_str.
    rewrite parse_member_entry by (done || rewrite app_cons_str; unfold delimited; set_solver).
    transitivity (parse_members value n (dict_set k (canon j) acc)
      (join "," (map entry ((k', j') :: d)) +:+ String.String "}" rest)); [done|].
    rewrite dict_set_new by done. rewrite IH; [|done|simpl length in *; lia|].
    + by rewrite <- app_assoc.
    + rewrite map_app, <- app_assoc. exact Hnd.
Qed.
End loops.

(** ** The round trip *)

(** The first character of a value. *)
Lemma dumps_head j rest :
  plain j = true → delimited rest →
  ∃ c t, dumps j +:+ rest = String.String c t ∧ json_space c = false ∧ c ≠ "]"%char.
Proof.
  intros Hj Hrest. destruct j as [|[]|z|f|s|l|d]; try done; try by eexists _, _; split_and!.
  destruct (parse_str_of_Z z rest Hrest) as [_ (c & t & Heq & ? & ? & ? & ? & ?)].
  by exists c, t.
Qed.

Lemma skip_dumps j rest :
  plain j = true → delimited rest → skip_space (dumps j +:+ rest) = dumps j +:+ rest.
Proof.
  intros Hj Hrest. destruct (dumps_head j rest Hj Hrest) as (c & t & -> & Hc & _).
  simpl. by rewrite Hc.
Qed.

Lemma dumps_arr l : dumps (JArr l) = "[" +:+ join "," (map dumps l) +:+ "]".
Proof. done. Qed.

Lemma isort_nil {A} leb (l : list A) : isort leb l = [] → l = [].
Proof. intros H. apply Permutation_nil_r. rewrite <- H. symmetry. apply isort_perm. Qed.

Lemma substring_all s : String.substring 0 (String.length s) s = s.
Proof. induction s as [|c s IH]; [done|]. simpl. by rewrite IH. Qed.

Lemma substring_skip k rest :
  String.substring (String.length k) (String.length rest) (k +:+ rest) = rest.
Proof. induction k as [|c k IH]; [apply substring_all|]. by rewrite app_cons_str. Qed.

Lemma prefix_app k rest : String.prefix k (k +:+ rest) = true.
Proof.
  induction k as [|c k IH]; [by destruct rest|]. rewrite app_cons_str. simpl.
  by destruct (ascii_dec c c).
Qed.

Lemma keyword_app k j rest : keyword k j (k +:+ rest) = Some (j, rest).
Proof.
  unfold keyword. rewrite prefix_app, length_app_str.
  replace (_ + _ - _)%nat with (String.length rest) by lia. by rewrite substring_skip.
Qed.

Lemma parse_null rest : parse_literal ("null" +:+ rest) = Some (JNull, rest).
Proof. unfold parse_literal. by rewrite keyword_app. Qed.

Lemma parse_bool b rest :
  parse_literal (dumps (JBool b) +:+ rest) = Some (JBool b, rest).
Proof.
  destruct b; cbn [dumps]; unfold parse_literal; rewrite keyword_app; done.
Qed.

(** [parse_value] with enough fuel reads the value back. *)
Definition read_back (j : json) : Prop := ∀ fuel rest,
  plain j = true → (String.length (dumps j) < fuel)%nat → delimited rest →
  parse_value fuel (dumps j +:+ rest) = Some (canon j, rest).

Lemma read_back_reads fuel j :
  read_back j → plain j = true → (String.length (dumps j) < fuel)%nat → reads (parse_value fuel) j.
Proof. intros Hr Hp Hf rest Hrest. rewrite skip_dumps by done. by apply Hr. Qed.

Lemma read_array l fuel rest :
  Forall read_back l → forallb plain l = true →
  (S (String.length (join "," (map dumps l))) < fuel)%nat → delimited rest →
  parse_value (S fuel) ("[" +:+ join "," (map dumps l) +:+ "]" +:+ rest)
  = Some (canon (JArr l), rest).
Proof.
  intros Hl Hp Hf Hrest. rewrite forallb_elem_of in Hp.
  transitivity (parse_array (parse_value fuel) fuel (join "," (map dumps l) +:+ "]" +:+ rest)); [done|].
  destruct l as [|j l]; [done|]. unfold parse_array.
  assert (Forall (reads (parse_value fuel)) (j :: l)) as Hreads.
  { rewrite Forall_forall in *. intros j' Hj'. apply read_back_reads; [auto..|].
    pose proof (join_elem (dumps j') (map dumps (j :: l))) as Hle.
    rewrite list_elem_of_fmap in Hle. specialize (Hle ltac:(eauto)). lia. }
  assert (∃ more, join "," (map dumps (j :: l)) +:+ "]" +:+ rest = dumps j +:+ more ∧ delimited more)
    as (more & Heq & Hmore).
  { destruct l as [|j' l]; [exists ("]" +:+ rest); split; [done|unfold delimited; set_solver]|].
    eexists. change (map dumps (j :: j' :: l)) with (dumps j :: dumps j' :: map dumps l).
    rewrite join_cons, app_assoc_str. split; [done|]. rewrite app_cons_str. unfold delimited. set_solver. }
  rewrite Heq, skip_dumps by (done || (apply Hp; left)).
  destruct (dumps_head j more) as (c & t & Hct & _ & Hne); [apply Hp; left|done|].
  rewrite Hct, (proj2 (Ascii.eqb_neq _ _) Hne), <- Hct, <- Heq.
  apply (parse_items_dumps _ (j :: l) fuel [] rest); [done|done|].
  pose proof (join_count (map dumps (j :: l))). rewrite length_map in *. lia.
Qed.

Lemma read_object d fuel rest :
  Forall (λ kv, read_back kv.2) d → Forall (λ kv, plain kv.2 = true) d → NoDup (map fst d) →
  (S (String.length (join "," (map entry d))) < fuel)%nat → delimited rest →
  parse_value (S fuel) ("{" +:+ join "," (map entry d) +:+ "}" +:+ rest)
  = Some (JObj (map canon_entry d), rest).
Proof.
  intros Hd Hp Hnd Hf Hrest.
  transitivity (parse_object (parse_value fuel) fuel (join "," (map entry d) +:+ "}" +:+ rest)); [done|].
  destruct d as [|[k j] d]; [done|]. unfold parse_object.
  assert (Forall (λ kv, reads (parse_value fuel) kv.2) ((k, j) :: d)) as Hreads.
  { rewrite Forall_forall in *. intros kv Hkv. apply read_back_reads; [auto..|].
    pose proof (join_elem (entry kv) (map entry ((k, j) :: d))) as Hle.
    rewrite list_elem_of_fmap in Hle. specialize (Hle ltac:(eauto)).
    unfold entry in Hle at 1. rewrite !length_app_str in Hle. lia. }
  assert (∃ more, join "," (map entry ((k, j) :: d)) +:+ "}" +:+ rest = String.String "034" more)
    as (more & Heq) by (destruct d; eexists; reflexivity).
  rewrite Heq. change (skip_space (String.String "034" more)) with (String.String "034" more).
  change (Ascii.eqb "034" "}") with false. cbv iota. rewrite <- Heq.
  apply (parse_members_dumps _ ((k, j) :: d) fuel [] rest); [done|done| |done].
  pose proof (join_count (map entry ((k, j) :: d))). rewrite length_map in *. lia.
Qed.

Lemma parse_dumps j : read_back j.
Proof.
  induction j as [|b|z|f|s|l IH|d IH] using json_nested_ind;
    intros [|fuel] rest Hj Hf Hrest; try lia; try done.
  - exact (parse_null rest).
  - transitivity (parse_literal (dumps (JBool b) +:+ rest)); [by destruct b|apply parse_bool].
  - destruct (parse_str_of_Z z rest Hrest) as [Hp (c & t & Heq & Hq & Hb & Ho & _ & _)].
    cbn [dumps canon]. rewrite <- Hp, Heq. cbn [parse_value].
    assert (code_of c =? 34 = false) as ->.
    { apply Z.eqb_neq. intros E. apply Hq. unfold code_of in E.
      rewrite <- (ascii_N_embedding c). by rewrite (N2Z.inj _ 34%N E). }
    by rewrite (proj2 (Ascii.eqb_neq _ _) Hb), (proj2 (Ascii.eqb_neq _ _) Ho).
  - change (dumps (JStr s) +:+ rest) with (String.String "034" ((escape s +:+ dquote) +:+ rest)).
    rewrite app_assoc_str. cbn [parse_value].
    change (code_of "034" =? 34) with true. cbv iota. by rewrite parse_quoted.
  - rewrite dumps_arr in *. rewrite app_assoc_str, app_assoc_str. apply read_array; [done|done| |done].
    rewrite !length_app_str in Hf. simpl String.length in Hf. lia.
  - rewrite dumps_obj in *. rewrite app_assoc_str, app_assoc_str, canon_obj.
    cbn [plain] in Hj. boolify. rewrite forallb_elem_of in *. pose proof (isort_perm key_leb d) as Hperm.
    apply read_object; [by rewrite Hperm| |by rewrite Hperm| |done].
    + apply Forall_forall. intros kv Hkv. rewrite Hperm in Hkv. auto.
    + rewrite !length_app_str in Hf. simpl String.length in Hf. lia.
Qed.

(** [json.loads(json.dumps(v))] is [v] with its keys sorted. *)
Lemma loads_dumps_plain j : plain j = true → json_loads (dumps j) = Some (canon j).
Proof.
  intros Hj. unfold json_loads.
  rewrite <- (app_nil_r_str (dumps j)), skip_dumps, parse_dumps by (done || rewrite app_nil_r_str; lia).
  done.
Qed.

(** ** Looking up in what was read *)

Lemma dict_get_None {A} k (d : list (string * A)) : dict_get k d = None ↔ k ∉ map fst d.
Proof.
  induction d as [|[k' v] d IH]; simpl; [split; [by intros _ ?%elem_of_nil|done]|].
  rewrite not_elem_of_cons. destruct (String.eqb k' k) eqn:E; boolify.
  - subst. naive_solver.
  - rewrite IH. naive_solver.
Qed.

Lemma dict_get_app {A} k (d e : list (string * A)) :
  dict_get k (d ++ e) = match dict_get k d with Some v => Some v | None => dict_get k e end.
Proof. induction d as [|[k' v] d IH]; simpl; [done|]. by destruct (String.eqb k' k). Qed.

Lemma dict_get_In {A} k v (d : list (string * A)) :
  NoDup (map fst d) → dict_get k d = Some v ↔ (k, v) ∈ d.
Proof.
  intros Hnd. induction d as [|[k' v'] d IH]; simpl in *; [split; [done|by intros ?%elem_of_nil]|].
  apply NoDup_cons in Hnd as [Hnin Hnd]. rewrite elem_of_cons.
  destruct (String.eqb k' k) eqn:E; boolify.
  - subst. split; [intros [= ->]; by left|]. intros [[= ->]|Hin]; [done|].
    destruct Hnin. apply list_elem_of_fmap. by exists (k, v).
  - rewrite IH by done. split; [by right|]. intros [[= ??]|?]; congruence.
Qed.

Lemma dict_get_perm {A} k (d d' : list (string * A)) :
  NoDup (map fst d) → Permutation d d' → dict_get k d = dict_get k d'.
Proof.
  intros Hnd Hp. assert (NoDup (map fst d')) as Hnd' by by rewrite <- Hp.
  destruct (dict_get k d) as [v|] eqn:E.
  - symmetry. apply dict_get_In; [done|]. rewrite <- Hp. by apply dict_get_In.
  - symmetry. apply dict_get_None. rewrite <- Hp. by apply dict_get_None.
Qed.

Lemma dict_get_canon k d : dict_get k (map canon_entry d) = canon <$> dict_get k d.
Proof.
  induction d as [|[k' v] d IH]; simpl; [done|]. by destruct (String.eqb k' k).
Qed.

(** The fields of an object that was read back. *)
Lemma dict_get_read k d :
  NoDup (map fst d) → dict_get k (map canon_entry (isort key_leb d)) = canon <$> dict_get k d.
Proof.
  intros Hnd. rewrite dict_get_canon. f_equal. symmetry. apply dict_get_perm; [done|].
  symmetry. apply isort_perm.
Qed.
