(* ===== verification/Kubernetes.v ===== *)
(** * The Kubernetes executor

    [kubernetes/executor.py]: the closed set of typed operations the control
    plane may perform on a cluster, with their guards.  The client library is the
    class [KubeApi]; every call that changes the cluster is recorded in the ghost
    trace when it is issued. *)

From S2P Require Import Prelude PyFloat Json JsonParse Effects Actions StateMachine.
From S2P Require Import Models World Redaction Config AuditLog History.

(** ** The client library *)

Record OwnerReference := { own_kind : string; own_controller : option bool }.
Record PodCondition := { con_type : string; con_status : json }.
Record Termination := { ter_reason : option string; ter_exit_code : Z }.
Record ContainerStatus := { cst_restart_count : option Z; cst_terminated : option Termination }.

Record V1Pod := {
  v1_namespace : string;
  v1_name : string;
  v1_labels : option (list (string * string));
  v1_owners : option (list OwnerReference);
  v1_phase : option string;
  v1_conditions : option (list PodCondition);
  v1_statuses : option (list ContainerStatus);
}.

Record V1Deployment := {
  v1d_replicas : option Z;
  v1d_template_labels : option (list (string * string));
  v1d_images : option (list string);
  v1d_ready : option Z;
  v1d_available : option Z;
  v1d_observed_generation : option Z;
}.

Record V1Event := {
  v1e_reason : option string;
  v1e_type : option string;
  v1e_message : option string;
  v1e_count : option Z;
}.

(** How a client call fails: an [ApiException] with its status, the expiry of an
    enclosing [asyncio.timeout], any other exception. *)
Inductive api_error : Type :=
| ApiException (status : option Z)
| ApiTimeout
| ApiOther (cls message : string).

Class KubeApi (X : Type) := {
  read_namespaced_pod : string → string → X → (V1Pod + api_error) * X;
  list_namespaced_pod : string → string → X → (list V1Pod + api_error) * X;
  delete_namespaced_pod : string → string → X → (unit + api_error) * X;
  patch_namespaced_pod : string → string → dict → X → (unit + api_error) * X;
  read_namespaced_deployment : string → string → X → (V1Deployment + api_error) * X;
  patch_namespaced_deployment_scale : string → string → Z → X → (unit + api_error) * X;
  list_namespaced_event : string → string → X → (list V1Event + api_error) * X;
  service_proxy_get : string → string → string → X → (json + api_error) * X;
  pod_proxy_get : option Z → string → string → string → X → (json + api_error) * X;
  get_custom_object : string → string → string → string → string → X →
    (json + api_error) * X;
  create_custom_object : string → string → string → string → json → X →
    (json + api_error) * X;
  delete_custom_object : string → string → string → string → string → X →
    (unit + api_error) * X;
}.

(** ** Typed states ([DeploymentState] ... [ArgoApplicationState]) *)

Record DeploymentState := {
  ds_namespace : string;
  ds_name : string;
  desired_replicas : Z;
  ready_replicas : Z;
  available_replicas : Z;
  observed_generation : option Z;
  container_images : list string;
}.

Record PodState := {
  ps_namespace : string;
  ps_name : string;
  phase : string;
  ready : bool;
  labels : list (string * string);
  controller_managed : bool;
  controller_kind : option string;
  restart_count : Z;
  termination_reasons : list string;
  exit_codes : list Z;
}.

Record PodDeletionResult := {
  pd_namespace : string;
  pd_pod_name : string;
  pd_accepted : bool;
  pd_controller_reconciles_replacement : bool;
}.

Record DeploymentScaleResult := {
  dsr_namespace : string;
  dsr_deployment : string;
  previous_replicas : Z;
  requested_replicas : Z;
  dsr_accepted : bool;
}.

Record ServiceHealth := {
  sh_namespace : string;
  sh_service_name : string;
  sh_path : string;
  healthy : bool;
  sh_payload : json;
}.

Record ControlledEgressProbe := {
  cep_namespace : string;
  cep_pod_name : string;
  reachable : bool;
}.

Record QuarantinePolicyResult := {
  qpr_namespace : string;
  qpr_pod_name : string;
  qpr_policy_name : string;
  qpr_quarantine_id : string;
  qpr_applied : bool;
}.

Record QuarantinePolicyState := {
  qps_namespace : string;
  qps_pod_name : string;
  qps_policy_name : string;
  policy_exists : bool;
  target_label_matches : bool;
  deny_all_egress : bool;
}.

Definition enforced (s : QuarantinePolicyState) : bool :=
  s.(policy_exists) && s.(target_label_matches) && s.(deny_all_egress).

Record SecurityScenarioTriggerResult := {
  sst_scenario_id : string;
  sst_namespace : string;
  sst_pod_name : string;
  sst_endpoint : string;
  sst_result : dict;
}.

Record ArgoApplicationState := {
  argo_name : string;
  target_revision : string;
  observed_revision : option string;
  sync_status : string;
  health_status : string;
  operation_phase : option string;
  reconciled_at : option string;
  out_of_sync_resources : list dict;
}.

Definition has_persistent_drift (s : ArgoApplicationState) : bool :=
  negb (String.eqb s.(sync_status) "Synced") ||
  negb (bool_decide (length s.(out_of_sync_resources) = 0%nat)).

(** [to_dict()]. *)
Definition labels_json (l : list (string * string)) : json :=
  JObj (map (λ kv, (kv.1, JStr kv.2)) l).

Definition DeploymentState_dict (s : DeploymentState) : dict :=
  [("namespace", JStr s.(ds_namespace)); ("name", JStr s.(ds_name));
   ("desired_replicas", JInt s.(desired_replicas));
   ("ready_replicas", JInt s.(ready_replicas));
   ("available_replicas", JInt s.(available_replicas));
   ("observed_generation", JOptInt s.(observed_generation));
   ("container_images", JArr (map JStr s.(container_images)))].

Definition PodState_dict (s : PodState) : dict :=
  [("namespace", JStr s.(ps_namespace)); ("name", JStr s.(ps_name));
   ("phase", JStr s.(phase)); ("ready", JBool s.(ready)); ("labels", labels_json s.(labels));
   ("controller_managed", JBool s.(controller_managed));
   ("controller_kind", JOptStr s.(controller_kind));
   ("restart_count", JInt s.(restart_count));
   ("termination_reasons", JArr (map JStr s.(termination_reasons)));
   ("exit_codes", JArr (map JInt s.(exit_codes)))].

Definition PodDeletionResult_dict (s : PodDeletionResult) : dict :=
  [("namespace", JStr s.(pd_namespace)); ("pod_name", JStr s.(pd_pod_name));
   ("accepted", JBool s.(pd_accepted));
   ("controller_reconciles_replacement", JBool s.(pd_controller_reconciles_replacement))].

Definition DeploymentScaleResult_dict (s : DeploymentScaleResult) : dict :=
  [("namespace", JStr s.(dsr_namespace)); ("deployment", JStr s.(dsr_deployment));
   ("previous_replicas", JInt s.(previous_replicas));
   ("requested_replicas", JInt s.(requested_replicas)); ("accepted", JBool s.(dsr_accepted))].

Definition ServiceHealth_dict (s : ServiceHealth) : dict :=
  [("namespace", JStr s.(sh_namespace)); ("service_name", JStr s.(sh_service_name));
   ("path", JStr s.(sh_path)); ("healthy", JBool s.(healthy)); ("payload", s.(sh_payload))].

(** ** Validation *)

Definition dns_edge (c : ascii) : bool := is_lower c || is_digit c.
Definition dns_inner (c : ascii) : bool :=
  dns_edge c || Ascii.eqb c "-" || Ascii.eqb c ".".

(** [DNS_LABEL.fullmatch]: [^[a-z0-9](?:[-a-z0-9.]*[a-z0-9])?$]. *)
Definition dns_label (s : string) : bool :=
  match list_ascii_of_string s with
  | [] => false
  | c :: l => dns_edge c && forallb dns_inner l && dns_edge (List.last l c)
  end.

Definition valid_name (value : string) : bool := (str_len value <=? 253) && dns_label value.

Definition selector_char (c : ascii) : bool :=
  is_alnum c || bool_decide (c ∈ list_ascii_of_string "./_=,!() -").
Definition safe_selector (s : string) : bool :=
  (1 <=? str_len s) && (str_len s <=? 512) && str_forallb selector_char s.

Definition path_char (c : ascii) : bool :=
  is_alnum c || bool_decide (c ∈ list_ascii_of_string "._~/-").
Definition safe_path (s : string) : bool :=
  (1 <=? str_len s) && (str_len s <=? 256) && str_forallb path_char s.

Definition DEMO_TARGET_LABEL : string := "cloudward.io/demo-target".
Definition QUARANTINE_LABEL : string := "cloudward.io/quarantine-id".

Definition SECURITY_SCENARIO_PATHS (scenario_id : string) : option string :=
  dict_get scenario_id
    [("security.suspicious-shell-pattern", "demo/security/suspicious-shell");
     ("security.unexpected-egress", "demo/security/unexpected-egress");
     ("security.privilege-related-behavior", "demo/security/privilege-attempt")].

(** [_pod_state]. *)
Definition pod_state (pod : V1Pod) : PodState :=
  let conditions := default [] pod.(v1_conditions) in
  let controller := first_such (λ o, bool_decide (o.(own_controller) = Some true))
                      (default [] pod.(v1_owners)) in
  let statuses := default [] pod.(v1_statuses) in
  let terminated := omap cst_terminated statuses in
  {| ps_namespace := pod.(v1_namespace); ps_name := pod.(v1_name);
     phase := opt_str_or pod.(v1_phase) "Unknown";
     ready := existsb (λ c, String.eqb c.(con_type) "Ready" &&
                            String.eqb (lower (py_str c.(con_status))) "true") conditions;
     labels := default [] pod.(v1_labels);
     controller_managed := match controller with Some _ => true | None => false end;
     controller_kind := own_kind <$> controller;
     restart_count := sumZ (map (λ s, default 0 s.(cst_restart_count)) statuses);
     termination_reasons := map (λ t, opt_str_or t.(ter_reason) "Unknown") terminated;
     exit_codes := map ter_exit_code terminated |}.

Definition is_demo_target (l : list (string * string)) : bool :=
  bool_decide (dict_get DEMO_TARGET_LABEL l = Some "true").

(** The executor's own state: [allowed_namespaces] and whether there is a client
    for custom resources. *)
Record Executor := {
  allowed_namespaces : list string;
  has_custom_api : bool;
}.

(** ** Operations *)

Section executor.
Context {X : Type} `{!KubeApi X}.
Context (exe : Executor).

(** [try: await api(...) except ApiException as exc: ...]. *)
Definition api {A} (f : X → (A + api_error) * X) (on_exception : option Z → M (World X) A)
  : M (World X) A :=
  let! r := external f in
  match r with
  | inl a => ret a
  | inr (ApiException status) => on_exception status
  | inr ApiTimeout => raise (PyError "TimeoutError" EmptyString)
  | inr (ApiOther cls message) => raise (PyError cls message)
  end.

(** A client call outside any [try]. *)
Definition api_raw {A} (f : X → (A + api_error) * X) : M (World X) A :=
  api f (λ status, raise (PyError "ApiException" (match status with
                                                   | Some s => str_of_Z s | None => "None" end))).

Definition api_failure {A} (code message : string) (extra : dict) (status : option Z)
  : M (World X) A :=
  raise (CloudWardError code message 502 (JObj (("status", JOptInt status) :: extra))).

Definition validate_name (value label : string) : M (World X) unit :=
  raise_if (negb (valid_name value))
    (cw_error_status "INVALID_KUBERNETES_TARGET" ("Invalid " +:+ label) 422).

Definition require_namespace (namespace : string) : M (World X) unit :=
  do! validate_name namespace "namespace";
  raise_if (negb (bool_decide (namespace ∈ exe.(allowed_namespaces))))
    (cw_error_status "KUBERNETES_NAMESPACE_DENIED"
       ("Automated actions are not allowed in namespace " +:+ namespace) 403).

Definition require_custom (code message : string) : M (World X) unit :=
  raise_if (negb exe.(has_custom_api)) (cw_error_status code message 503).

Definition get_deployment (namespace name : string) : M (World X) DeploymentState :=
  do! validate_name namespace "namespace";
  do! validate_name name "deployment name";
  let! d := api (read_namespaced_deployment name namespace)
              (api_failure "KUBERNETES_API_ERROR" "Unable to read Kubernetes deployment" []) in
  ret {| ds_namespace := namespace; ds_name := name;
         desired_replicas := default 0 d.(v1d_replicas);
         ready_replicas := default 0 d.(v1d_ready);
         available_replicas := default 0 d.(v1d_available);
         observed_generation := d.(v1d_observed_generation);
         container_images := default [] d.(v1d_images) |}.

(** [value.get(key) or {}] on a JSON value that must be an object. *)
Definition get_object (key : string) (d : dict) : M (World X) dict :=
  match get_truthy key d with
  | None => ret []
  | Some (JObj o) => ret o
  | Some _ => raise (PyError "AttributeError" "get")
  end.

(** [str(value.get(key) or default)]. *)
Definition get_text (key default : string) (d : dict) : string :=
  match get_truthy key d with Some j => py_str j | None => default end.

(** [value.get(key) == text]. *)
Definition field_is (key text : string) (d : dict) : bool :=
  match dict_get key d with Some (JStr s) => String.eqb s text | _ => false end.

Definition out_of_sync (resource : json) : M (World X) (option dict) :=
  match resource with
  | JObj r =>
      if field_is "status" "Synced" r then ret None
      else ret (Some [("group", JStr (get_text "group" EmptyString r));
                      ("kind", JStr (get_text "kind" EmptyString r));
                      ("namespace", JStr (get_text "namespace" EmptyString r));
                      ("name", JStr (get_text "name" EmptyString r));
                      ("status", JStr (get_text "status" "Unknown" r))])
  | _ => raise (PyError "AttributeError" "get")
  end.

Definition get_argocd_application (name : string) : M (World X) ArgoApplicationState :=
  do! validate_name name "Argo CD application name";
  do! require_custom "KUBERNETES_CLIENT_UNAVAILABLE"
        "The Kubernetes custom resources client is unavailable";
  let! application := api
    (get_custom_object "argoproj.io" "v1alpha1" "argocd" "applications" name)
    (api_failure "ARGOCD_API_ERROR" "Unable to read Argo CD application status"
       [("application", JStr name)]) in
  let! application := match application with
                      | JObj d => ret d | _ => raise (PyError "AttributeError" "get") end in
  let! spec := get_object "spec" application in
  let! status := get_object "status" application in
  let! source := get_object "source" spec in
  let! sync := get_object "sync" status in
  let! health := get_object "health" status in
  let! operation_state := get_object "operationState" status in
  let! resources := match get_truthy "resources" status with
                    | None => ret []
                    | Some (JArr l) => ret l
                    | Some (JStr _) | Some (JObj _) => raise (PyError "AttributeError" "get")
                    | Some _ => raise (PyError "TypeError" "not iterable")
                    end in
  let! marked := map_m out_of_sync resources in
  ret {| argo_name := name;
         target_revision := get_text "targetRevision" EmptyString source;
         observed_revision := py_str <$> get_truthy "revision" sync;
         sync_status := get_text "status" "Unknown" sync;
         health_status := get_text "status" "Unknown" health;
         operation_phase := py_str <$> get_truthy "phase" operation_state;
         reconciled_at := py_str <$> get_truthy "reconciledAt" status;
         out_of_sync_resources := omap id marked |}.

Definition get_pods (namespace label_selector : string) : M (World X) (list PodState) :=
  do! validate_name namespace "namespace";
  do! raise_if (negb (safe_selector label_selector))
        (cw_error "INVALID_KUBERNETES_SELECTOR" "Invalid label selector");
  let! items := api (list_namespaced_pod namespace label_selector)
                  (api_failure "KUBERNETES_API_ERROR" "Unable to list Kubernetes pods" []) in
  ret (map pod_state items).

Definition get_pod_health (namespace name : string) : M (World X) PodState :=
  do! validate_name namespace "namespace";
  do! validate_name name "pod name";
  let! pod := api (read_namespaced_pod name namespace)
                (api_failure "KUBERNETES_API_ERROR" "Unable to read Kubernetes pod" []) in
  ret (pod_state pod).

Definition target_denied (message : string) : exn :=
  cw_error_status "KUBERNETES_TARGET_DENIED" message 403.

Definition delete_pod (namespace name : string) : M (World X) PodDeletionResult :=
  do! require_namespace namespace;
  let! pod := get_pod_health namespace name in
  do! raise_if (negb (is_demo_target pod.(labels)))
        (target_denied "Pod is not labeled as a CloudWard demo target");
  do! raise_if (negb pod.(controller_managed) ||
                negb (bool_decide (pod.(controller_kind) = Some "ReplicaSet")))
        (target_denied "Pod is not managed by a ReplicaSet controller");
  do! raise_if pod.(ready)
        (cw_error_status "KUBERNETES_TARGET_HEALTHY" "Refusing to delete a ready pod" 409);
  do! record_call (CallDeletePod namespace name);
  do! api (delete_namespaced_pod name namespace)
        (api_failure "KUBERNETES_ACTION_FAILED"
           "Kubernetes rejected the typed pod deletion" []);
  ret {| pd_namespace := namespace; pd_pod_name := name; pd_accepted := true;
         pd_controller_reconciles_replacement := true |}.

Definition scale_staging_deployment (namespace name : string) (replicas maximum_replicas : Z)
    (expected_current_replicas : option Z) : M (World X) DeploymentScaleResult :=
  do! require_namespace namespace;
  do! validate_name name "deployment name";
  do! raise_if (negb (String.eqb namespace "cloudward-staging"))
        (target_denied "Automatic scale is staging-only");
  do! raise_if ((replicas <? 1) || (maximum_replicas <? 1) || (maximum_replicas <? replicas))
        (cw_error_status "SCALE_BOUND_EXCEEDED"
           "Requested replica count exceeds the configured automatic scale bound" 422);
  let! d := api (read_namespaced_deployment name namespace)
              (api_failure "KUBERNETES_API_ERROR" "Unable to read Kubernetes deployment" []) in
  do! raise_if (negb (is_demo_target (default [] d.(v1d_template_labels))))
        (target_denied "Deployment is not labeled as a CloudWard demo target");
  let current := default 0 d.(v1d_replicas) in
  do! match expected_current_replicas with
      | Some expected =>
          raise_if (negb (current =? expected))
            (CloudWardError "STALE_ACTION_TARGET"
               "Deployment replicas changed after the action was proposed" 409
               (JObj [("expected", JInt expected); ("actual", JInt current)]))
      | None => ret tt
      end;
  do! record_call (CallScale namespace name replicas);
  do! api (patch_namespaced_deployment_scale name namespace replicas)
        (api_failure "KUBERNETES_ACTION_FAILED"
           "Kubernetes rejected the bounded scale action" []);
  ret {| dsr_namespace := namespace; dsr_deployment := name; previous_replicas := current;
         requested_replicas := replicas; dsr_accepted := true |}.

(** [response.items[-50:]]. *)
Definition last_items {A} (n : nat) (l : list A) : list A := drop (length l - n) l.

Definition get_events (namespace object_name : string) : M (World X) (list dict) :=
  do! validate_name namespace "namespace";
  do! validate_name object_name "object name";
  let! items := api
    (list_namespaced_event namespace ("involvedObject.name=" +:+ object_name))
    (api_failure "KUBERNETES_API_ERROR" "Unable to list Kubernetes events" []) in
  ret (map (λ e, [("reason", JOptStr e.(v1e_reason)); ("type", JOptStr e.(v1e_type));
                  ("message", JOptStr e.(v1e_message)); ("count", JOptInt e.(v1e_count))])
         (last_items 50 items)).

(** [payload.get("status", payload.get("state", "ok"))]. *)
Definition health_word (payload : dict) : string :=
  lower (py_str (match dict_get "status" payload with
                 | Some j => j
                 | None => default (JStr "ok") (dict_get "state" payload)
                 end)).

Definition get_service_health (namespace service_name path : string)
  : M (World X) ServiceHealth :=
  do! validate_name namespace "namespace";
  do! validate_name service_name "service name";
  let normalized_path := strip "/" path in
  do! raise_if (negb (truthy_str normalized_path) || negb (safe_path normalized_path))
        (cw_error "INVALID_HEALTH_PATH" "Invalid service health path");
  let result ok payload :=
    {| sh_namespace := namespace; sh_service_name := service_name;
       sh_path := normalized_path; healthy := ok; sh_payload := payload |} in
  let! r := external (service_proxy_get service_name namespace normalized_path) in
  match r with
  | inr (ApiException status) => ret (result false (JObj [("status", JOptInt status)]))
  | inr ApiTimeout => raise (PyError "TimeoutError" EmptyString)
  | inr (ApiOther cls message) => raise (PyError cls message)
  | inl payload =>
      let ok := match payload with
                | JObj d => bool_decide (health_word d ∈
                              ["ok"; "healthy"; "ready"; "up"; "true"])
                | _ => true
                end in
      ret (result ok payload)
  end.

(** [if isinstance(payload, str): json.loads(payload)], then an object. *)
Definition decode_payload (payload : json) : option json :=
  match payload with JStr s => json_loads s | j => Some j end.

Definition probe_controlled_security_egress (namespace pod_name : string)
  : M (World X) ControlledEgressProbe :=
  do! require_namespace namespace;
  do! validate_name pod_name "pod name";
  let! pod := get_pod_health namespace pod_name in
  do! raise_if (negb (is_demo_target pod.(labels)))
        (target_denied "Pod is not labeled as a CloudWard demo target");
  let! payload := api (pod_proxy_get None pod_name namespace "demo/security/egress-probe")
    (api_failure "SECURITY_PROBE_FAILED" "Unable to execute the controlled egress probe" []) in
  match decode_payload payload with
  | Some (JObj d) =>
      match dict_get "reachable" d with
      | Some (JBool b) =>
          ret {| cep_namespace := namespace; cep_pod_name := pod_name; reachable := b |}
      | _ => raise (cw_error_status "SECURITY_PROBE_INVALID"
                      "Controlled egress probe returned an invalid response" 502)
      end
  | _ => raise (cw_error_status "SECURITY_PROBE_INVALID"
                  "Controlled egress probe returned an invalid response" 502)
  end.

(** [str(payload.get(key, default))] and [bool(payload.get(key, default))]. *)
Definition payload_str (key : string) (d : dict) : string :=
  match dict_get key d with Some j => py_str j | None => EmptyString end.
Definition payload_bool (key : string) (default : bool) (d : dict) : bool :=
  match dict_get key d with Some j => truthy j | None => default end.

(** [_security_scenario_result]. *)
Definition security_scenario_result (scenario_id : string) (payload : dict) : res dict :=
  let '(result, safe) :=
    if String.eqb scenario_id "security.suspicious-shell-pattern" then
      let shell := payload_str "shell_signal" payload in
      let internal := payload_bool "internal_simulator_reachable" false payload in
      let outside := payload_bool "external_connection" true payload in
      ([("shell_signal", JStr shell); ("internal_simulator_reachable", JBool internal);
        ("external_connection", JBool outside)],
       String.eqb shell "completed" && internal && negb outside)
    else if String.eqb scenario_id "security.unexpected-egress" then
      let target := payload_str "target" payload in
      let reach := payload_bool "reachable" false payload in
      let outside := payload_bool "external_connection" true payload in
      ([("target", JStr target); ("reachable", JBool reach);
        ("external_connection", JBool outside)],
       String.eqb target "internal-c2-simulator" && reach && negb outside)
    else
      let operation := payload_str "operation" payload in
      let denied := payload_bool "denied" false payload in
      let exploit := payload_bool "exploit_attempted" true payload in
      ([("operation", JStr operation); ("denied", JBool denied);
        ("exploit_attempted", JBool exploit)],
       String.eqb operation "controlled-read-/proc/1/mem" && denied && negb exploit) in
  if safe : bool then Ok result
  else Raise (cw_error_status "SECURITY_SCENARIO_SAFETY_CHECK_FAILED"
                "Controlled security scenario did not satisfy its fixed safety contract" 502).

(** [timeout] is in microseconds. *)
Definition trigger_controlled_security_scenario (namespace pod_name scenario_id : string)
    (timeout : Z) : M (World X) SecurityScenarioTriggerResult :=
  let invalid := cw_error_status "SECURITY_SCENARIO_RESPONSE_INVALID"
                   "Controlled security scenario returned an invalid response" 502 in
  do! require_namespace namespace;
  do! raise_if (negb (String.eqb namespace "cloudward-staging"))
        (cw_error_status "SECURITY_SCENARIO_NAMESPACE_DENIED"
           "Runtime-security scenarios are restricted to cloudward-staging" 403);
  do! validate_name pod_name "pod name";
  match SECURITY_SCENARIO_PATHS scenario_id with
  | None =>
      raise (cw_error_status "SECURITY_SCENARIO_DENIED"
               "Security scenario is not in the fixed executable catalog" 422)
  | Some endpoint =>
      let! pod := get_pod_health namespace pod_name in
      do! raise_if (negb (is_demo_target pod.(labels)) || negb pod.(controller_managed))
            (target_denied "Security scenario target is outside the controlled demo boundary");
      do! raise_if (negb ((seconds 1 <=? timeout) && (timeout <=? seconds 10)))
            (cw_error_status "SECURITY_SCENARIO_TIMEOUT_INVALID"
               "Security scenario timeout is outside the fixed bound" 422);
      let! r := external (pod_proxy_get (Some timeout) pod_name namespace endpoint) in
      let! payload := match r with
                      | inl payload => ret payload
                      | inr ApiTimeout =>
                          raise (cw_error_status "SECURITY_SCENARIO_TRIGGER_TIMEOUT"
                                   "Controlled security scenario trigger timed out" 504)
                      | inr (ApiException status) =>
                          api_failure "SECURITY_SCENARIO_TRIGGER_FAILED"
                            "Kubernetes rejected the controlled security scenario trigger"
                            [] status
                      | inr (ApiOther cls message) => raise (PyError cls message)
                      end in
      match decode_payload payload with
      | Some (JObj d) =>
          do! raise_if (negb (field_is "scenario" scenario_id d)) invalid;
          let! safe_result := lift (security_scenario_result scenario_id d) in
          ret {| sst_scenario_id := scenario_id; sst_namespace := namespace;
                 sst_pod_name := pod_name; sst_endpoint := "/" +:+ endpoint;
                 sst_result := safe_result |}
      | _ => raise invalid
      end
  end.

(** *** Quarantine *)

Definition quarantine_body (namespace pod_name policy_name quarantine_id incident_id : string)
  : json :=
  JObj [("apiVersion", JStr "cilium.io/v2"); ("kind", JStr "CiliumNetworkPolicy");
        ("metadata", JObj
          [("name", JStr policy_name); ("namespace", JStr namespace);
           ("labels", JObj [("app.kubernetes.io/managed-by", JStr "cloudward")]);
           ("annotations", JObj [("cloudward.io/incident-id", JStr incident_id);
                                 ("cloudward.io/target-pod", JStr pod_name)])]);
        ("spec", JObj
          [("endpointSelector", JObj [("matchLabels",
              JObj [(QUARANTINE_LABEL, JStr quarantine_id)])]);
           ("egressDeny", JArr [JObj [("toEntities", JArr [JStr "all"])]])])].

(** [value.get(key, {})] on an object that may be absent. *)
Definition get_default_object (key : string) (d : dict) : M (World X) dict :=
  match dict_get key d with
  | None => ret []
  | Some (JObj o) => ret o
  | Some _ => raise (PyError "AttributeError" "get")
  end.

(** [element in value] for a JSON container. *)
Definition member (element : json) (value : option json) : M (World X) bool :=
  match value with
  | None => ret false
  | Some (JArr l) => ret (existsb (json_eqb element) l)
  | Some _ => raise (PyError "TypeError" "in")
  end.

Definition get_quarantine_policy_state (namespace pod_name policy_name quarantine_id : string)
  : M (World X) QuarantinePolicyState :=
  do! require_namespace namespace;
  do! validate_name pod_name "pod name";
  do! validate_name policy_name "policy name";
  do! validate_name quarantine_id "quarantine id";
  do! require_custom "KUBERNETES_ACTION_UNAVAILABLE"
        "Cilium quarantine client is unavailable";
  let! found := api
    (λ x, let '(r, x) := get_custom_object "cilium.io" "v2" namespace
                           "ciliumnetworkpolicies" policy_name x in
          (match r with
           | inl policy => inl (Some policy)
           | inr (ApiException (Some 404)) => inl None
           | inr e => inr e
           end, x))
    (api_failure "KUBERNETES_API_ERROR" "Unable to read the Cilium quarantine policy" []) in
  let! pod := get_pod_health namespace pod_name in
  let policy := match found with Some (JObj d) => d | _ => [] end in
  let! spec := get_default_object "spec" policy in
  let! endpoint_selector := get_default_object "endpointSelector" spec in
  let selector_matches :=
    match dict_get "matchLabels" endpoint_selector with
    | Some j => json_eqb j (JObj [(QUARANTINE_LABEL, JStr quarantine_id)])
    | None => false
    end in
  let! deny_all := member (JObj [("toEntities", JArr [JStr "all"])])
                     (dict_get "egressDeny" spec) in
  ret {| qps_namespace := namespace; qps_pod_name := pod_name; qps_policy_name := policy_name;
         policy_exists := (match found with Some _ => true | None => false end) &&
                          selector_matches;
         target_label_matches :=
           bool_decide (dict_get QUARANTINE_LABEL pod.(labels) = Some quarantine_id);
         deny_all_egress := deny_all |}.

(** [core_api.patch_namespaced_pod] with one label. *)
Definition patch_label (namespace pod_name : string) (value : json) : M (World X) unit :=
  let l := [(QUARANTINE_LABEL, value)] in
  do! record_call (CallPatchPodLabels namespace pod_name l);
  api_raw (patch_namespaced_pod pod_name namespace l).

Definition apply_quarantine_policy (namespace pod_name quarantine_id incident_id : string)
  : M (World X) QuarantinePolicyResult :=
  do! require_namespace namespace;
  do! raise_if (negb (String.eqb namespace "cloudward-staging"))
        (cw_error_status "QUARANTINE_NAMESPACE_DENIED"
           "Part 2 quarantine is restricted to cloudward-staging" 403);
  do! validate_name pod_name "pod name";
  do! validate_name quarantine_id "quarantine id";
  let! pod := get_pod_health namespace pod_name in
  do! raise_if (negb (is_demo_target pod.(labels)))
        (target_denied "Pod is not labeled as a CloudWard demo target");
  do! raise_if (negb pod.(controller_managed))
        (target_denied "Quarantine target must be a controller-managed demo pod");
  do! require_custom "KUBERNETES_ACTION_UNAVAILABLE"
        "Cilium quarantine client is unavailable";
  let policy_name := "cloudward-quarantine-" +:+ quarantine_id in
  do! validate_name policy_name "policy name";
  let body := quarantine_body namespace pod_name policy_name quarantine_id incident_id in
  do! patch_label namespace pod_name (JStr quarantine_id);
  do! record_call (CallCreateObject namespace "ciliumnetworkpolicies" body);
  let! r := external (create_custom_object "cilium.io" "v2" namespace
                        "ciliumnetworkpolicies" body) in
  do! match r with
      | inl _ => ret tt
      | inr (ApiException (Some 409)) =>
          let! state := get_quarantine_policy_state namespace pod_name policy_name
                          quarantine_id in
          raise_if (negb (enforced state))
            (cw_error_status "QUARANTINE_CONFLICT"
               "An incompatible quarantine policy already exists" 409)
      | inr (ApiException status) =>
          do! patch_label namespace pod_name JNull;
          api_failure "KUBERNETES_ACTION_FAILED"
            "Kubernetes rejected the typed Cilium quarantine" [] status
      | inr ApiTimeout => raise (PyError "TimeoutError" EmptyString)
      | inr (ApiOther cls message) => raise (PyError cls message)
      end;
  ret {| qpr_namespace := namespace; qpr_pod_name := pod_name; qpr_policy_name := policy_name;
         qpr_quarantine_id := quarantine_id; qpr_applied := true |}.

(** A deletion that accepts [404]. *)
Definition delete_object (namespace name group version plural : string)
    (on_exception : option Z → M (World X) unit) : M (World X) unit :=
  do! record_call (CallDeleteObject namespace plural name);
  api (delete_custom_object group version namespace plural name)
    (λ status, if bool_decide (status = Some 404) then ret tt else on_exception status).

Definition remove_quarantine_policy (namespace pod_name policy_name quarantine_id : string)
  : M (World X) QuarantinePolicyState :=
  do! require_namespace namespace;
  do! validate_name pod_name "pod name";
  do! validate_name policy_name "policy name";
  do! validate_name quarantine_id "quarantine id";
  do! require_custom "KUBERNETES_ACTION_UNAVAILABLE"
        "Cilium quarantine client is unavailable";
  let! state := get_quarantine_policy_state namespace pod_name policy_name quarantine_id in
  do! when state.(policy_exists)
        (delete_object namespace policy_name "cilium.io" "v2" "ciliumnetworkpolicies"
           (api_failure "KUBERNETES_ACTION_FAILED"
              "Kubernetes rejected removal of the recorded quarantine" []));
  do! patch_label namespace pod_name JNull;
  get_quarantine_policy_state namespace pod_name policy_name quarantine_id.

(** *** Other custom resources *)

Definition create_typed_custom_object (namespace group version plural : string) (body : json)
  : M (World X) dict :=
  do! require_namespace namespace;
  do! require_custom "KUBERNETES_ACTION_UNAVAILABLE" "Custom Objects client is unavailable";
  do! record_call (CallCreateObject namespace plural body);
  let! result := api (create_custom_object group version namespace plural body)
    (api_failure "KUBERNETES_ACTION_FAILED" "Kubernetes rejected the typed custom resource"
       [("resource", JStr plural)]) in
  ret (match result with JObj d => d | _ => [] end).

Definition delete_typed_custom_object (namespace name group version plural : string)
  : M (World X) unit :=
  do! require_namespace namespace;
  do! validate_name name "custom resource name";
  do! require_custom "KUBERNETES_ACTION_UNAVAILABLE" "Custom Objects client is unavailable";
  delete_object namespace name group version plural
    (api_failure "KUBERNETES_ACTION_FAILED" "Kubernetes rejected custom resource cleanup"
       [("resource", JStr plural)]).
End executor.

(** ** Confinement *)

(** The namespace a call on the cluster is made in. *)
Definition call_namespace (c : call) : option string :=
  match c with
  | CallDeletePod ns _ | CallScale ns _ _ | CallPatchPodLabels ns _ _
  | CallCreateObject ns _ _ | CallDeleteObject ns _ _ => Some ns
  | CallOpa _ | CallWriteValues _ | CallGit _ | CallLlm _ | CallTeams _ _
  | CallGitHub _ _ _ | CallSendTask _ _ => None
  end.

Definition in_allowed (allowed : list string) (c : call) : Prop :=
  match call_namespace c with
  | Some ns => ns ∈ allowed ∧ valid_name ns = true
  | None => True
  end.

(** The executor changes neither the database nor the metrics, and every call it
    issues is in an allowed namespace. *)
Definition confined {X} (allowed : list string) : relation (World X) := λ w w',
  w'.(work) = w.(work) ∧ w'.(committed) = w.(committed) ∧ w'.(metrics) = w.(metrics) ∧
  log_extends (in_allowed allowed) w.(trace) w'.(trace).

#[export] Instance confined_evolution {X} allowed : Evolution (confined (X:=X) allowed).
Proof.
  split; [intros w; by split_and!|].
  intros w1 w2 w3 (? & ? & ? & ?) (? & ? & ? & ?).
  split_and!; [congruence..|by etrans].
Qed.

Section confinement.
Context {X : Type} `{!KubeApi X} (exe : Executor).
Abbreviation ok m := (evolves (confined (X:=X) exe.(allowed_namespaces)) m).

Lemma external_confined {A} (f : X → A * X) : ok (external f).
Proof. intros w. by split_and!. Qed.
Hint Resolve external_confined : cw_pres.

Lemma record_call_confined c : in_allowed exe.(allowed_namespaces) c → ok (record_call c).
Proof. intros H w. split_and!; [done..|]. by apply log_extends_snoc. Qed.

Lemma api_confined {A} (f : X → (A + api_error) * X) h :
  (∀ s, ok (h s)) → ok (api f h).
Proof. intros Hh. unfold api. repeat first [evolve_step | apply Hh | eauto with cw_pres]. Qed.

Lemma api_failure_confined {A} c m e s : ok (api_failure (A:=A) c m e s).
Proof. unfold api_failure. evolve. Qed.
Hint Resolve api_failure_confined : cw_pres.
Hint Extern 1 (evolves _ (api _ _)) => apply api_confined; intros ? : cw_pres.

Lemma validate_name_confined v l : ok (validate_name v l).
Proof. unfold validate_name. evolve. Qed.
Hint Resolve validate_name_confined : cw_pres.
Lemma require_custom_confined c m : ok (require_custom exe c m).
Proof. unfold require_custom. evolve. Qed.
Hint Resolve require_custom_confined : cw_pres.

(** Past the guard, the namespace is allowed. *)
Lemma require_namespace_confined {A} ns (k : unit → M (World X) A) :
  (ns ∈ exe.(allowed_namespaces) → valid_name ns = true → ok (k tt)) →
  ok (bind (require_namespace exe ns) k).
Proof.
  intros Hk w. unfold require_namespace, validate_name, raise_if.
  destruct (valid_name ns) eqn:Hv; simpl; [|apply evolves_refl; tc_solve].
  case_bool_decide; unfold bind, ret, raise; simpl; [by apply Hk|].
  apply evolves_refl; tc_solve.
Qed.

Ltac confine :=
  repeat first
    [ apply require_namespace_confined; intros ? ?
    | apply record_call_confined; by split
    | evolve_step | solve [eauto with cw_pres]
    | apply api_confined; intros ? ].

Lemma get_deployment_confined ns n : ok (get_deployment ns n).
Proof. unfold get_deployment. confine. Qed.
Lemma out_of_sync_confined j : ok (out_of_sync j).
Proof. unfold out_of_sync. confine. Qed.
Lemma get_object_confined k d : ok (get_object k d).
Proof. unfold get_object. confine. Qed.
Hint Resolve out_of_sync_confined get_object_confined : cw_pres.
Lemma get_argocd_application_confined n : ok (get_argocd_application exe n).
Proof. unfold get_argocd_application. confine. Qed.
Lemma get_pods_confined ns s : ok (get_pods ns s).
Proof. unfold get_pods. confine. Qed.
Lemma get_pod_health_confined ns n : ok (get_pod_health ns n).
Proof. unfold get_pod_health. confine. Qed.
Hint Resolve get_pod_health_confined : cw_pres.
Lemma delete_pod_confined ns n : ok (delete_pod exe ns n).
Proof. unfold delete_pod. confine. Qed.
Lemma scale_confined ns n r m e : ok (scale_staging_deployment exe ns n r m e).
Proof. unfold scale_staging_deployment. confine. Qed.
Lemma get_events_confined ns n : ok (get_events ns n).
Proof. unfold get_events. confine. Qed.
Lemma get_service_health_confined ns s p : ok (get_service_health ns s p).
Proof. unfold get_service_health. confine. Qed.
Lemma probe_confined ns p : ok (probe_controlled_security_egress exe ns p).
Proof. unfold probe_controlled_security_egress. confine. Qed.
Lemma trigger_confined ns p s t : ok (trigger_controlled_security_scenario exe ns p s t).
Proof. unfold trigger_controlled_security_scenario. confine. Qed.
Lemma get_default_object_confined k d : ok (get_default_object k d).
Proof. unfold get_default_object. confine. Qed.
Lemma member_confined e v : ok (member e v).
Proof. unfold member. confine. Qed.
Hint Resolve get_default_object_confined member_confined : cw_pres.
Lemma get_quarantine_confined ns p n q : ok (get_quarantine_policy_state exe ns p n q).
Proof. unfold get_quarantine_policy_state. confine. Qed.
Hint Resolve get_quarantine_confined : cw_pres.

Lemma patch_label_confined ns p v :
  ns ∈ exe.(allowed_namespaces) → valid_name ns = true → ok (patch_label ns p v).
Proof. intros. unfold patch_label, api_raw. confine. Qed.
Lemma delete_object_confined ns n g v p h :
  ns ∈ exe.(allowed_namespaces) → valid_name ns = true → (∀ s, ok (h s)) →
  ok (delete_object ns n g v p h).
Proof.
  intros ? ? Hh. unfold delete_object. confine; apply Hh.
Qed.
Hint Resolve patch_label_confined delete_object_confined : cw_pres.

Lemma apply_quarantine_confined ns p q i : ok (apply_quarantine_policy exe ns p q i).
Proof. unfold apply_quarantine_policy. confine. Qed.
Lemma remove_quarantine_confined ns p n q : ok (remove_quarantine_policy exe ns p n q).
Proof. unfold remove_quarantine_policy. confine. Qed.
Lemma create_typed_confined ns g v p b : ok (create_typed_custom_object exe ns g v p b).
Proof. unfold create_typed_custom_object. confine. Qed.
Lemma delete_typed_confined ns n g v p : ok (delete_typed_custom_object exe ns n g v p).
Proof. unfold delete_typed_custom_object. confine. Qed.
End confinement.

(** ** The executor as seen by its callers *)

Section callers.
Context {X : Type} {A : Type}.

Lemma confined_session_step allowed (m : M (World X) A) :
  evolves (confined allowed) m → evolves session_step m.
Proof.
  intros H w. destruct (H w) as (Hw & Hc & _ & new & Ht & _).
  split_and!; [by rewrite Hw|done|by exists new].
Qed.

Lemma confined_same {B} (f : Database → B) allowed (m : M (World X) A) :
  evolves (confined allowed) m → evolves (same_db f) m.
Proof. intros H w. destruct (H w) as (Hw & _). unfold same_db, stable. by rewrite Hw. Qed.

Lemma confined_metrics allowed (m : M (World X) A) :
  evolves (confined allowed) m → evolves same_metrics m.
Proof. intros H w. by destruct (H w) as (_ & _ & Hm & _). Qed.
End callers.

(** Reading the cluster issues no mutating call. *)
Section reads.
Context {X : Type} `{!KubeApi X}.
Abbreviation trace_ok m := (evolves (same_trace (X:=X)) m).

Lemma api_trace {A} (f : X → (A + api_error) * X) h :
  (∀ s, trace_ok (h s)) → trace_ok (api f h).
Proof. intros Hh. unfold api. repeat first [evolve_step | apply Hh | eauto with cw_pres]. Qed.

Lemma api_failure_trace {A} c m e s : trace_ok (api_failure (A:=A) c m e s).
Proof. unfold api_failure. evolve. Qed.
Hint Resolve api_failure_trace : cw_pres.
Hint Extern 1 (evolves _ (api _ _)) => apply api_trace; intros ? : cw_pres.

Lemma get_deployment_trace ns n : trace_ok (get_deployment ns n).
Proof. unfold get_deployment, validate_name. evolve. Qed.
Lemma get_pods_trace ns s : trace_ok (get_pods ns s).
Proof. unfold get_pods, validate_name. evolve. Qed.
Lemma get_pod_health_trace ns n : trace_ok (get_pod_health ns n).
Proof. unfold get_pod_health, validate_name. evolve. Qed.
Lemma get_events_trace ns n : trace_ok (get_events ns n).
Proof. unfold get_events, validate_name. evolve. Qed.
Lemma get_service_health_trace ns s p : trace_ok (get_service_health ns s p).
Proof. unfold get_service_health, validate_name. evolve. Qed.
End reads.

#[export] Hint Resolve get_deployment_trace get_pods_trace get_pod_health_trace
  get_events_trace get_service_health_trace : cw_pres.

Definition any_executor : Executor := {| allowed_namespaces := []; has_custom_api := false |}.

Ltac executor_operation :=
  first [ apply (get_deployment_confined any_executor) | apply (get_pods_confined any_executor)
        | apply (get_pod_health_confined any_executor) | apply delete_pod_confined
        | apply scale_confined | apply (get_service_health_confined any_executor)
        | apply (get_events_confined any_executor) | apply get_argocd_application_confined
        | apply probe_confined | apply get_quarantine_confined | apply apply_quarantine_confined
        | apply remove_quarantine_confined ].

#[export] Hint Extern 2 (evolves session_step _) =>
  eapply confined_session_step; executor_operation : cw_pres.
#[export] Hint Extern 2 (evolves (same_db _) _) =>
  eapply confined_same; executor_operation : cw_pres.
#[export] Hint Extern 2 (evolves same_metrics _) =>
  eapply confined_metrics; executor_operation : cw_pres.

(** ** Properties *)

Section properties.
Context {X : Type} `{!KubeApi X} (exe : Executor).

(** One call of any operation of the executor, with any arguments. *)
Inductive executor_step : relation (World X) :=
| ex_get_deployment ns n w : executor_step w (get_deployment ns n w).2
| ex_get_argocd n w : executor_step w (get_argocd_application exe n w).2
| ex_get_pods ns s w : executor_step w (get_pods ns s w).2
| ex_get_pod_health ns n w : executor_step w (get_pod_health ns n w).2
| ex_delete_pod ns n w : executor_step w (delete_pod exe ns n w).2
| ex_scale ns n r m e w : executor_step w (scale_staging_deployment exe ns n r m e w).2
| ex_get_events ns n w : executor_step w (get_events ns n w).2
| ex_get_service_health ns s p w : executor_step w (get_service_health ns s p w).2
| ex_probe ns p w : executor_step w (probe_controlled_security_egress exe ns p w).2
| ex_trigger ns p s t w :
    executor_step w (trigger_controlled_security_scenario exe ns p s t w).2
| ex_quarantine_state ns p n q w :
    executor_step w (get_quarantine_policy_state exe ns p n q w).2
| ex_apply_quarantine ns p q i w : executor_step w (apply_quarantine_policy exe ns p q i w).2
| ex_remove_quarantine ns p n q w : executor_step w (remove_quarantine_policy exe ns p n q w).2
| ex_create_typed ns g v p b w : executor_step w (create_typed_custom_object exe ns g v p b w).2
| ex_delete_typed ns n g v p w : executor_step w (delete_typed_custom_object exe ns n g v p w).2.

(** C30: no sequence of operations of the executor, whatever its arguments and
    whatever the API server answers, issues a deletion, a scaling, a patch, or
    the creation or deletion of an object outside the allowed namespaces; none of
    them touches the database or the metrics. *)
Theorem executor_confined (w w' : World X) :
  rtc executor_step w w' →
  w'.(work) = w.(work) ∧ w'.(committed) = w.(committed) ∧ w'.(metrics) = w.(metrics) ∧
  ∃ new, w'.(trace) = w.(trace) ++ new ∧
    Forall (λ c, ∀ ns, call_namespace c = Some ns →
                       ns ∈ exe.(allowed_namespaces) ∧ valid_name ns = true) new.
Proof.
  intros Hsteps. assert (confined exe.(allowed_namespaces) w w') as (Hw & Hc & Hm & new & Ht & Hf).
  { induction Hsteps as [w|w w1 w2 Hs _ IH]; [apply evolves_refl; tc_solve|].
    eapply evolves_trans; [tc_solve| |exact IH]. clear IH.
    destruct Hs; first
      [ apply get_deployment_confined | apply get_argocd_application_confined
      | apply get_pods_confined | apply get_pod_health_confined | apply delete_pod_confined
      | apply scale_confined | apply get_events_confined | apply get_service_health_confined
      | apply probe_confined | apply trigger_confined | apply get_quarantine_confined
      | apply apply_quarantine_confined | apply remove_quarantine_confined
      | apply create_typed_confined | apply delete_typed_confined ]. }
  split_and!; [done..|]. exists new. split; [done|].
  eapply Forall_impl; [exact Hf|]. intros c Hin ns Hns. unfold in_allowed in Hin.
  by rewrite Hns in Hin.
Qed.

(** What [delete_pod] must see before it deletes. *)
Definition deletable (namespace name : string) (w : World X) : Prop :=
  namespace ∈ exe.(allowed_namespaces) ∧ valid_name namespace = true ∧ valid_name name = true ∧
  ∃ pod, (read_namespaced_pod name namespace w.(ext)).1 = inl pod ∧
    is_demo_target (pod_state pod).(labels) = true ∧
    (pod_state pod).(controller_managed) = true ∧
    (pod_state pod).(controller_kind) = Some "ReplicaSet" ∧ (pod_state pod).(ready) = false.

Ltac refuse := eexists _, _; split; [reflexivity|]; split; [reflexivity|].

(** The two ways a guarded operation can go. *)
Lemma no_growth {A} (l : list A) a : l ≠ l ++ [a].
Proof. intros Hl%(f_equal length). rewrite length_app in Hl. simpl in Hl. lia. Qed.

Definition guarded {A} (D : Prop) (c : call) (Q : A → Prop) (run : res A * World X)
    (w : World X) : Prop :=
  (∃ e w', run = (Raise e, w') ∧ w'.(trace) = w.(trace) ∧ ¬ D) ∨
  (∃ r w', run = (r, w') ∧ w'.(trace) = w.(trace) ++ [c] ∧ D ∧ ∀ a, r = Ok a → Q a).

Lemma guarded_spec {A} D c (Q : A → Prop) run w :
  guarded D c Q run w →
  (D ↔ run.2.(trace) = w.(trace) ++ [c]) ∧
  (¬ D → run.2.(trace) = w.(trace) ∧ is_ok run.1 = false) ∧ (∀ a, run.1 = Ok a → Q a).
Proof.
  intros [(e & w' & -> & Ht & HD)|(r & w' & -> & Ht & HD & HQ)]; simpl.
  - rewrite Ht. split_and!; [split; [done|by intros []%no_growth]|done|done].
  - naive_solver.
Qed.

#[local] Opaque pod_state.

Lemma delete_pod_cases (namespace name : string) (w : World X) :
  guarded (deletable namespace name w) (CallDeletePod namespace name)
    (λ r, r.(pd_namespace) = namespace ∧ r.(pd_pod_name) = name)
    (delete_pod exe namespace name w) w.
Proof.
  unfold delete_pod, require_namespace, get_pod_health, validate_name, api, raise_if.
  destruct (valid_name namespace) eqn:Hns; unfold bind, ret, raise, external; simpl;
    [|left; refuse; intros (? & ? & _); congruence].
  case_bool_decide as Hall; simpl;
    [|left; refuse; by intros (? & _)].
  destruct (valid_name name) eqn:Hn; simpl;
    [|left; refuse; intros (? & ? & ? & _); congruence].
  destruct (read_namespaced_pod name namespace (ext w)) as [[pod|e] x] eqn:Hr; simpl.
  2: { left. destruct e; refuse;
         intros (_ & _ & _ & pod & Hp & _); by rewrite Hr in Hp. }
  assert (∀ P : Prop, (is_demo_target (pod_state pod).(labels) = true →
    (pod_state pod).(controller_managed) = true →
    (pod_state pod).(controller_kind) = Some "ReplicaSet" →
    (pod_state pod).(ready) = false → P) → deletable namespace name w → P) as Hdel.
  { intros P HP (_ & _ & _ & pod' & Hp & ? & ? & ? & ?). rewrite Hr in Hp.
    injection Hp as <-. by apply HP. }
  destruct (is_demo_target (pod_state pod).(labels)) eqn:Hd; simpl;
    [|left; refuse; refine (Hdel False _); congruence].
  destruct (controller_managed (pod_state pod)) eqn:Hc; simpl;
    [|left; refuse; refine (Hdel False _); congruence].
  case_bool_decide as Hk; simpl;
    [|left; refuse; refine (Hdel False _); congruence].
  destruct (ready (pod_state pod)) eqn:Hready; simpl;
    [left; refuse; refine (Hdel False _); congruence|].
  right. match goal with |- context [delete_namespaced_pod ?a ?b ?c] =>
    destruct (delete_namespaced_pod a b c) as [[[]|[]] x2] end; simpl;
    eexists _, _; (split_and!; [done|done| |by intros ? [= <-]]);
    (split_and!; [done..|]); exists pod; by rewrite Hr.
Qed.

#[local] Transparent pod_state.

(** A pod is deleted exactly when it is an unready demo pod of a ReplicaSet,
    read just before, in an allowed namespace under valid names: then exactly one
    deletion, of that pod, is issued; otherwise none is and the operation fails. *)
Theorem delete_pod_guarded (namespace name : string) (w : World X) :
  let run := delete_pod exe namespace name w in
  (deletable namespace name w ↔
     run.2.(trace) = w.(trace) ++ [CallDeletePod namespace name]) ∧
  (¬ deletable namespace name w → run.2.(trace) = w.(trace) ∧ is_ok run.1 = false) ∧
  (∀ r, run.1 = Ok r → r.(pd_namespace) = namespace ∧ r.(pd_pod_name) = name).
Proof.
  apply guarded_spec, delete_pod_cases.
Qed.

(** What [scale_staging_deployment] must see before it scales. *)
Definition scalable (namespace name : string) (replicas maximum : Z) (expected : option Z)
    (w : World X) : Prop :=
  namespace = "cloudward-staging" ∧ namespace ∈ exe.(allowed_namespaces) ∧
  valid_name name = true ∧ 1 ≤ replicas ≤ maximum ∧
  ∃ d, (read_namespaced_deployment name namespace w.(ext)).1 = inl d ∧
    is_demo_target (default [] d.(v1d_template_labels)) = true ∧
    ∀ e, expected = Some e → default 0 d.(v1d_replicas) = e.

Lemma scale_cases namespace name replicas maximum expected (w : World X) :
  guarded (scalable namespace name replicas maximum expected w)
    (CallScale namespace name replicas)
    (λ r, r.(requested_replicas) = replicas ∧ 1 ≤ replicas ≤ maximum ∧
          ∀ e, expected = Some e → r.(previous_replicas) = e)
    (scale_staging_deployment exe namespace name replicas maximum expected w) w.
Proof.
  unfold scale_staging_deployment, require_namespace, validate_name, api, raise_if.
  destruct (valid_name namespace) eqn:Hns; unfold bind, ret, raise, external; simpl.
  2: { left; refuse. by intros (-> & _). }
  case_bool_decide as Hall; simpl;
    [|left; refuse; by intros (? & ? & _)].
  destruct (valid_name name) eqn:Hn; simpl;
    [|left; refuse; intros (? & ? & ? & _); congruence].
  destruct (String.eqb_spec namespace "cloudward-staging") as [Hst|Hst]; simpl;
    [|left; refuse; by intros (? & _)].
  destruct ((replicas <? 1) || (maximum <? 1) || (maximum <? replicas)) eqn:Hb; simpl.
  { left; refuse. intros (_ & _ & _ & ? & _).
    rewrite !orb_true_iff, !Z.ltb_lt in Hb. lia. }
  rewrite !orb_false_iff, !Z.ltb_ge in Hb.
  destruct (read_namespaced_deployment name namespace (ext w)) as [[d|e] x] eqn:Hr; simpl.
  2: { left. destruct e; refuse;
         intros (_ & _ & _ & _ & d & Hp & _); by rewrite Hr in Hp. }
  destruct (is_demo_target (default [] (v1d_template_labels d))) eqn:Hd; simpl.
  2: { left; refuse. intros (_ & _ & _ & _ & d' & Hp & ? & _).
       rewrite Hr in Hp. injection Hp as <-. congruence. }
  destruct (match expected with
            | Some e => if negb (default 0 (v1d_replicas d) =? e) then Some e else None
            | None => None end) as [e|] eqn:He.
  - left. destruct expected as [e'|]; [|done].
    destruct (Z.eqb_spec (default 0 (v1d_replicas d)) e') as [|Hne]; [done|]. simpl.
    refuse. intros (_ & _ & _ & _ & d' & Hp & _ & He').
    rewrite Hr in Hp. injection Hp as <-. by apply Hne, He'.
  - assert (∀ e, expected = Some e → default 0 (v1d_replicas d) = e) as Hexp.
    { intros e ->. destruct (Z.eqb_spec (default 0 (v1d_replicas d)) e); done. }
    assert (scalable namespace name replicas maximum expected w) as HD.
    { split_and!; [done|done|done|lia|lia|]. exists d. by rewrite Hr. }
    clear He. right. destruct expected as [e|]; simpl;
      [rewrite (proj2 (Z.eqb_eq _ _) (Hexp e eq_refl)); simpl|];
      match goal with |- context [patch_namespaced_deployment_scale ?a ?b ?c ?y] =>
        destruct (patch_namespaced_deployment_scale a b c y) as [[[]|[]] x2] end; simpl;
      eexists _, _; (split; [reflexivity|]); (split; [reflexivity|]); (split; [done|]);
      intros a Ha; simplify_eq/=; (split_and!; [done|lia|lia|]); try done; intros ? [= <-];
      by apply Hexp.
Qed.

(** A scaling is issued exactly when every guard holds: staging only,
    between one replica and the maximum, on a demo deployment whose replica count
    is still the expected one.  It requests what was asked, and the result records
    the count read just before, which is what a rollback restores. *)
Theorem scale_staging_guarded namespace name replicas maximum expected (w : World X) :
  let run := scale_staging_deployment exe namespace name replicas maximum expected w in
  let D := scalable namespace name replicas maximum expected w in
  (D ↔ run.2.(trace) = w.(trace) ++ [CallScale namespace name replicas]) ∧
  (¬ D → run.2.(trace) = w.(trace) ∧ is_ok run.1 = false) ∧
  (∀ r, run.1 = Ok r →
     r.(requested_replicas) = replicas ∧ 1 ≤ replicas ≤ maximum ∧
     (∀ e, expected = Some e → r.(previous_replicas) = e)).
Proof. apply guarded_spec, scale_cases. Qed.
End properties.

(** ** A concrete cluster *)

Definition bench_pod : V1Pod :=
  {| v1_namespace := "cloudward-staging"; v1_name := "demo-7f9c";
     v1_labels := Some [("cloudward.io/demo-target", "true")];
     v1_owners := Some [{| own_kind := "ReplicaSet"; own_controller := Some true |}];
     v1_phase := Some "Running";
     v1_conditions := Some [{| con_type := "Ready"; con_status := JStr "False" |}];
     v1_statuses := Some [{| cst_restart_count := Some 7; cst_terminated := None |}] |}.

Definition bench_deployment : V1Deployment :=
  {| v1d_replicas := Some 2; v1d_template_labels := Some [("cloudward.io/demo-target", "true")];
     v1d_images := Some ["demo:1"]; v1d_ready := Some 2; v1d_available := Some 2;
     v1d_observed_generation := Some 4 |}.

(** A server that holds one unready demo pod and one demo deployment. *)
#[export] Instance bench_kube : KubeApi Z := {|
  read_namespaced_pod _ _ x := (inl bench_pod, x);
  list_namespaced_pod _ _ x := (inl [bench_pod], x);
  delete_namespaced_pod _ _ x := (inl tt, x);
  patch_namespaced_pod _ _ _ x := (inl tt, x);
  read_namespaced_deployment _ _ x := (inl bench_deployment, x);
  patch_namespaced_deployment_scale _ _ _ x := (inl tt, x);
  list_namespaced_event _ _ x := (inl [], x);
  service_proxy_get _ _ _ x := (inl (JObj [("status", JStr "ok")]), x);
  pod_proxy_get _ _ _ _ x := (inl (JObj []), x);
  get_custom_object _ _ _ _ _ x := (inr (ApiException (Some 404)), x);
  create_custom_object _ _ _ _ _ x := (inl JNull, x);
  delete_custom_object _ _ _ _ _ x := (inl tt, x);
|}.

Definition bench_executor : Executor :=
  {| allowed_namespaces := ["cloudward-staging"]; has_custom_api := true |}.

Lemma executor_confined_witness :
  let w0 := bench_world empty_database in
  let w1 := (delete_pod bench_executor "cloudward-staging" "demo-7f9c" w0).2 in
  let w2 := (delete_pod bench_executor "kube-system" "demo-7f9c" w1).2 in
  w1.(trace) = [CallDeletePod "cloudward-staging" "demo-7f9c"] ∧ w2.(trace) = w1.(trace) ∧
  w2.(work) = w0.(work).
Proof.
  split; [by vm_compute|]. split; [by vm_compute|].
  refine (proj1 (executor_confined (X := Z) bench_executor _ _ _)).
  eapply rtc_l; [apply ex_delete_pod|]. eapply rtc_l; [apply ex_delete_pod|]. apply rtc_refl.
Defined.
