(* ===== verification/Opa.v ===== *)
(** * The policy client

    [policies/opa.py]: the input document, the decision and the fail-closed
    client of the policy server.  The server is the class [PolicyServer]; the text
    of its answer is decoded by [JsonParse.json_loads]. *)

From S2P Require Import Prelude PyFloat Json JsonParse JsonRound Sha256 Effects Actions Risk.
From S2P Require Import StateMachine Models World Redaction Config AuditLog History.

(** ** The input document *)

Record ApprovalInput := {
  ai_approved : bool;
  ai_approval_id : option string;
  ai_approved_by : option string;
}.
Definition no_approval : ApprovalInput :=
  {| ai_approved := false; ai_approval_id := None; ai_approved_by := None |}.

Record TargetInput := {
  ti_namespace : string;
  ti_pod_name : string;
  ti_labels : list (string * string);
  ti_controller_managed : bool;
  ti_target_pods : Z;
}.
Definition TargetInput_valid (t : TargetInput) : bool := bounded 0 1000 t.(ti_target_pods).

Record PolicyInput := {
  pi_environment : string;
  pi_action : ActionType;
  pi_risk_score : Z;
  pi_risk_factors : RiskFactors;
  pi_confidence : float;
  pi_blast_radius : Z;
  pi_reversible : bool;
  pi_service_criticality : string;
  pi_target : TargetInput;
  pi_approval : ApprovalInput;
}.
Definition PolicyInput_valid (p : PolicyInput) : bool :=
  TargetInput_valid p.(pi_target) && bounded 0 100 p.(pi_risk_score) &&
  fleb fzero p.(pi_confidence) && fleb p.(pi_confidence) fone && (0 <=? p.(pi_blast_radius)).

(** [model_dump(mode="json")]. *)
Definition PolicyInput_dump (p : PolicyInput) : json :=
  let t := p.(pi_target) in
  let a := p.(pi_approval) in
  JObj
    [("environment", JStr p.(pi_environment));
     ("action", JStr (ActionType_value p.(pi_action)));
     ("risk_score", JInt p.(pi_risk_score));
     ("risk_factors", RiskFactors_dump p.(pi_risk_factors));
     ("confidence", JFloat p.(pi_confidence));
     ("blast_radius", JInt p.(pi_blast_radius));
     ("reversible", JBool p.(pi_reversible));
     ("service_criticality", JStr p.(pi_service_criticality));
     ("target", JObj
        [("namespace", JStr t.(ti_namespace)); ("pod_name", JStr t.(ti_pod_name));
         ("labels", JObj (map (λ kv, (kv.1, JStr kv.2)) t.(ti_labels)));
         ("controller_managed", JBool t.(ti_controller_managed));
         ("target_pods", JInt t.(ti_target_pods))]);
     ("approval", JObj
        [("approved", JBool a.(ai_approved)); ("approval_id", JOptStr a.(ai_approval_id));
         ("approved_by", JOptStr a.(ai_approved_by))])].

Definition policy_digest (p : PolicyInput) : string := sha256_hex (dumps (PolicyInput_dump p)).

(** ** The decision *)

(** [pr_extra] holds the keys the schema does not name ([extra="allow"]). *)
Record PolicyResult := {
  pr_allowed : bool;
  pr_requires_approval : bool;
  pr_reason : string;
  pr_decision_id : option string;
  pr_error_code : option string;
  pr_extra : dict;
}.

Definition denied (reason error_code : string) : PolicyResult :=
  {| pr_allowed := false; pr_requires_approval := false; pr_reason := reason; pr_decision_id := None;
     pr_error_code := Some error_code; pr_extra := [] |}.

Definition PolicyResult_dump (r : PolicyResult) : json :=
  JObj ([("allowed", JBool r.(pr_allowed)); ("requires_approval", JBool r.(pr_requires_approval));
         ("reason", JStr r.(pr_reason)); ("decision_id", JOptStr r.(pr_decision_id));
         ("error_code", JOptStr r.(pr_error_code))] ++ r.(pr_extra)).

Section client.
Context `{!Pydantic}.

Definition required_bool (k : string) (d : dict) : option bool :=
  match dict_get k d with Some j => lax_bool j | None => None end.

(** [str | None = None]. *)
Definition optional_str (k : string) (d : dict) : option (option string) :=
  match dict_get k d with
  | None | Some JNull => Some None
  | Some (JStr s) => Some (Some s)
  | Some _ => None
  end.

Definition bounded_str (k : string) (lo hi : Z) (d : dict) : option string :=
  match dict_get k d with
  | Some (JStr s) => if bounded lo hi (str_len s) then Some s else None
  | _ => None
  end.

Definition result_fields : list string :=
  ["allowed"; "requires_approval"; "reason"; "decision_id"; "error_code"].

(** [PolicyResult.model_validate]; [None] is a [ValidationError]. *)
Definition PolicyResult_validate (j : json) : option PolicyResult :=
  match j with
  | JObj d =>
      match required_bool "allowed" d, required_bool "requires_approval" d,
            bounded_str "reason" 1 2000 d, optional_str "decision_id" d,
            optional_str "error_code" d with
      | Some a, Some q, Some r, Some i, Some e =>
          Some {| pr_allowed := a; pr_requires_approval := q; pr_reason := r; pr_decision_id := i;
                  pr_error_code := e;
                  pr_extra := List.filter
                             (λ kv, negb (bool_decide (kv.1 ∈ result_fields))) d |}
      | _, _, _, _, _ => None
      end
  | _ => None
  end.

(** How a request ends: an [httpx.HTTPError] or a [ValueError], any other
    exception, or a response. *)
Inductive http_answer : Type :=
| HttpError (cls : string)
| HttpOther (e : exn)
| HttpResponse (status : Z) (content : string).

Class PolicyServer (X : Type) := opa_post : string → json → X → http_answer * X.
#[global] Hint Mode PolicyServer ! : typeclass_instances.

Record OPAClient := { opa_client_url : string }.

(** [OPAClient(settings.opa_url, settings.opa_decision_path)]. *)
Definition opa_client (base_url decision_path : string) : OPAClient :=
  {| opa_client_url := rstrip "/" base_url +:+ decision_path |}.

Definition undefined_decision : PolicyResult :=
  denied "OPA returned no decision" "OPA_UNDEFINED_DECISION".
Definition invalid_decision : PolicyResult :=
  denied "OPA returned an invalid decision" "OPA_INVALID_RESPONSE".
Definition unavailable : PolicyResult :=
  denied "Policy engine unavailable; action denied" "OPA_UNAVAILABLE".

(** [response.raise_for_status(); response.json(); ...]. *)
Definition decision_of (status : Z) (content : string) : PolicyResult :=
  if negb ((200 <=? status) && (status <? 300)) then unavailable
  else match json_loads content with
       | None => unavailable
       | Some (JObj payload) =>
           match dict_get "result" payload with
           | None => undefined_decision
           | Some result =>
               match PolicyResult_validate result with
               | Some r => r
               | None => invalid_decision
               end
           end
       | Some _ => undefined_decision
       end.

Context {X : Type} `{!PolicyServer X}.

Definition evaluate (opa : OPAClient) (policy_input : PolicyInput) : M (World X) PolicyResult :=
  let document := JObj [("input", PolicyInput_dump policy_input)] in
  do! record_call (CallOpa document);
  let! answer := external (opa_post opa.(opa_client_url) document) in
  match answer with
  | HttpError _ => ret unavailable
  | HttpOther e => raise e
  | HttpResponse status content => ret (decision_of status content)
  end.

Lemma evaluate_step opa p : evolves session_step (evaluate opa p).
Proof. unfold evaluate. evolve. Qed.

Lemma evaluate_same {A} (f : Database → A) opa p : evolves (same_db f) (evaluate opa p).
Proof. unfold evaluate. evolve. Qed.

Lemma evaluate_metrics opa p : evolves same_metrics (evaluate opa p).
Proof. unfold evaluate. evolve. Qed.

(** A run that returned: one call was made and nothing else changed. *)
Lemma evaluate_run opa p (w w' : World X) r :
  evaluate opa p w = (Ok r, w') →
  w'.(work) = w.(work) ∧ w'.(committed) = w.(committed) ∧ w'.(metrics) = w.(metrics) ∧
  w'.(trace) = w.(trace) ++ [CallOpa (JObj [("input", PolicyInput_dump p)])].
Proof.
  unfold evaluate. intros Hrun. run_inv Hrun.
  destruct (opa_post _ _ _).1; run_inv Hrun; done.
Qed.

(** The answer of the server grants the action: a successful response whose body
    is an object with a well-formed decision, and that decision says so. *)
Definition grants (answer : http_answer) (r : PolicyResult) : Prop :=
  ∃ status content payload result,
    answer = HttpResponse status content ∧ 200 ≤ status < 300 ∧
    json_loads content = Some (JObj payload) ∧ dict_get "result" payload = Some (JObj result) ∧
    required_bool "allowed" result = Some true ∧
    required_bool "requires_approval" result = Some r.(pr_requires_approval) ∧
    dict_get "reason" result = Some (JStr r.(pr_reason)) ∧
    1 ≤ str_len r.(pr_reason) ≤ 2000.

Lemma PolicyResult_validate_allowed j r :
  PolicyResult_validate j = Some r → r.(pr_allowed) = true →
  ∃ d, j = JObj d ∧ required_bool "allowed" d = Some true ∧
    required_bool "requires_approval" d = Some r.(pr_requires_approval) ∧
    dict_get "reason" d = Some (JStr r.(pr_reason)) ∧ 1 ≤ str_len r.(pr_reason) ≤ 2000.
Proof.
  destruct j as [| | | | | |d]; try done. unfold PolicyResult_validate.
  destruct (required_bool "allowed" d) as [a|] eqn:Ha; [|done].
  destruct (required_bool "requires_approval" d) as [q|] eqn:Hq; [|done].
  destruct (bounded_str "reason" 1 2000 d) as [s|] eqn:Hs; [|done].
  destruct (optional_str "decision_id" d), (optional_str "error_code" d); try done.
  intros [= <-] Hr. simpl in *. subst a. exists d. split_and!; try done.
  all: unfold bounded_str in Hs; destruct (dict_get "reason" d) as [[| | | |s'| |]|]; try done;
    destruct (bounded 1 2000 (str_len s')) eqn:Hb; [|done];
    apply bounded_spec in Hb; simplify_eq; lia || done.
Qed.

Lemma decision_of_allowed status content :
  (decision_of status content).(pr_allowed) = true →
  grants (HttpResponse status content) (decision_of status content).
Proof.
  unfold decision_of. destruct (_ && _) eqn:Hst; simpl; [|done].
  rewrite andb_true_iff, Z.leb_le, Z.ltb_lt in Hst.
  destruct (json_loads content) as [[| | | | | |payload]|] eqn:Hj; try done.
  destruct (dict_get "result" payload) as [result|] eqn:Hr; [|done].
  destruct (PolicyResult_validate result) as [r|] eqn:Hv; [|done]. intros Ha.
  destruct (PolicyResult_validate_allowed _ _ Hv Ha) as (d & -> & ? & ? & ? & ?).
  by exists status, content, payload, d.
Qed.

(** C35: the client fails closed.  An action is allowed only by a successful
    response carrying a well-formed decision that allows it: a transport error, an
    error status, a body that is not JSON, a missing or malformed decision all
    yield a denial that names the failure.  Only an exception outside httpx's own
    escapes, and every evaluation sends exactly one document and writes nothing. *)
Theorem evaluate_fails_closed (opa : OPAClient) (p : PolicyInput) (w : World X) :
  let document := JObj [("input", PolicyInput_dump p)] in
  let answer := (opa_post opa.(opa_client_url) document w.(ext)).1 in
  let run := evaluate opa p w in
  run.2.(work) = w.(work) ∧ run.2.(trace) = w.(trace) ++ [CallOpa document] ∧
  match run.1 with
  | Raise e => answer = HttpOther e
  | Ok r => (r.(pr_allowed) = true → grants answer r) ∧
            ((∀ r', ¬ grants answer r') → r.(pr_allowed) = false) ∧
            (∀ cls, answer = HttpError cls → r.(pr_error_code) = Some "OPA_UNAVAILABLE") ∧
            (∀ status content, answer = HttpResponse status content →
               json_loads content = None ∨ ¬ 200 ≤ status < 300 →
               r.(pr_error_code) = Some "OPA_UNAVAILABLE")
  end.
Proof.
  unfold evaluate, bind, record_call, modify, external. simpl.
  destruct (opa_post _ _ _) as [[cls|e|status content] x]; simpl; (split; [done|split; [done|]]).
  - split_and!; done.
  - done.
  - pose proof (decision_of_allowed status content) as Hgrant. split; [done|split; [|split; [done|]]].
    { intros Hn. destruct (pr_allowed _) eqn:Ha; [|done]. by destruct (Hn _ (Hgrant eq_refl)). }
    intros status' content' [= <- <-] Hbad. unfold decision_of.
    destruct (_ && _) eqn:Hst; simpl; [|done].
    rewrite andb_true_iff, Z.leb_le, Z.ltb_lt in Hst.
    destruct Hbad as [->|Hbad]; [done|lia].
Qed.
(** A decision the schema accepts: the extra keys are distinct from the named ones
    and hold no floats. *)
Definition serialisable (r : PolicyResult) : Prop :=
  1 ≤ str_len r.(pr_reason) ≤ 2000 ∧ NoDup (result_fields ++ map fst r.(pr_extra)) ∧
  Forall (λ kv, plain kv.2 = true) r.(pr_extra).

(** The two decisions agree, their extra keys as dictionaries. *)
Definition same_decision (r' r : PolicyResult) : Prop :=
  r'.(pr_allowed) = r.(pr_allowed) ∧ r'.(pr_requires_approval) = r.(pr_requires_approval) ∧
  r'.(pr_reason) = r.(pr_reason) ∧ r'.(pr_decision_id) = r.(pr_decision_id) ∧
  r'.(pr_error_code) = r.(pr_error_code) ∧
  ∀ k, dict_get k r'.(pr_extra) = canon <$> dict_get k r.(pr_extra).

Definition result_dict (r : PolicyResult) : dict :=
  [("allowed", JBool r.(pr_allowed)); ("requires_approval", JBool r.(pr_requires_approval));
   ("reason", JStr r.(pr_reason)); ("decision_id", JOptStr r.(pr_decision_id));
   ("error_code", JOptStr r.(pr_error_code))] ++ r.(pr_extra).

Lemma dict_get_filter {A} (p : string → bool) k (d : list (string * A)) :
  dict_get k (List.filter (λ kv, p kv.1) d) = if p k then dict_get k d else None.
Proof.
  induction d as [|[k' v] d IH]; simpl; [by destruct (p k)|].
  destruct (p k') eqn:Hp; simpl; destruct (String.eqb k' k) eqn:E; boolify; subst;
    rewrite ?Hp, ?IH; try done; by destruct (p k).
Qed.

Lemma dict_get_extra k (r : PolicyResult) :
  k ∉ result_fields → dict_get k (result_dict r) = dict_get k r.(pr_extra).
Proof.
  intros Hk. unfold result_dict. rewrite dict_get_app.
  match goal with |- match dict_get k ?d with _ => _ end = _ =>
    assert (dict_get k d = None) as -> by by apply dict_get_None end. done.
Qed.

Lemma validate_read r d :
  serialisable r → (∀ k, dict_get k d = canon <$> dict_get k (result_dict r)) →
  ∃ r', PolicyResult_validate (JObj d) = Some r' ∧ same_decision r' r.
Proof.
  intros (Hlen & Hnd & _) Hd. unfold PolicyResult_validate, required_bool, bounded_str, optional_str.
  rewrite !Hd. cbn [dict_get result_dict app fst snd String.eqb Ascii.eqb Bool.eqb fmap option_fmap
    option_map canon]. rewrite !lax_bool_bool.
  assert (bounded 1 2000 (str_len r.(pr_reason)) = true) as -> by by apply bounded_spec.
  assert (∀ k, dict_get k (List.filter (λ kv, negb (bool_decide (kv.1 ∈ result_fields))) d)
               = canon <$> dict_get k r.(pr_extra)) as Hextra.
  { intros k. etrans; [exact (dict_get_filter (λ k, negb (bool_decide (k ∈ result_fields))) k d)|].
    case_bool_decide as Hk; simpl; [|by rewrite Hd, dict_get_extra].
    apply NoDup_app in Hnd as (_ & Hnin & _).
    by rewrite (proj2 (dict_get_None _ _)) by by apply Hnin. }
  destruct (pr_decision_id r) eqn:Hi, (pr_error_code r) eqn:He; eexists; (split; [reflexivity|]);
    unfold same_decision; cbn; by split_and!.
Qed.

(** A stored decision reads back.  If the engine answers with the document the
    program stores for a decision ([model_dump]), whatever its strings, evaluating
    returns that decision: the same permission, reason and identifiers, and the same
    extra keys with the same values. *)
Theorem decision_roundtrip (opa : OPAClient) (p : PolicyInput) (r : PolicyResult) status
    (w : World X) :
  serialisable r → 200 ≤ status < 300 →
  (opa_post opa.(opa_client_url) (JObj [("input", PolicyInput_dump p)]) w.(ext)).1 =
    HttpResponse status (dumps (JObj [("result", PolicyResult_dump r)])) →
  ∃ r', (evaluate opa p w).1 = Ok r' ∧ same_decision r' r.
Proof.
  intros Hr Hst Hanswer. pose proof Hr as (_ & Hnd & Hplain).
  remember (dumps (JObj [("result", PolicyResult_dump r)])) as content eqn:Hc.
  assert (plain (JObj (result_dict r)) = true) as Hp.
  { cbn [plain]. apply andb_true_iff. split.
    - by apply bool_decide_eq_true.
    - apply forallb_elem_of. intros kv Hkv. rewrite Forall_forall in Hplain.
      unfold result_dict in Hkv. apply elem_of_app in Hkv as [Hkv|Hkv]; [|by apply Hplain].
      rewrite !elem_of_cons, elem_of_nil in Hkv. destruct Hkv as [->|[->|[->|[->|[->|[]]]]]]; try done.
      + by destruct (pr_decision_id r).
      + by destruct (pr_error_code r). }
  assert (plain (JObj [("result", JObj (result_dict r))]) = true) as Hp'.
  { change (bool_decide (NoDup ["result"]) && (plain (JObj (result_dict r)) && true) = true).
    by rewrite Hp, bool_decide_eq_true_2 by apply NoDup_singleton. }
  destruct (validate_read r (map canon_entry (isort key_leb (result_dict r))) Hr)
    as (r' & Hv & Hs); [intros k; by apply dict_get_read|].
  exists r'. split; [|done]. unfold evaluate, bind, record_call, modify, external. simpl.
  destruct (opa_post _ _ _) as [a x]. cbn [fst] in Hanswer. subst a. unfold ret. cbn [fst].
  unfold decision_of. assert ((200 <=? status) && (status <? 300) = true) as -> by lia.
  cbn [negb]. change (PolicyResult_dump r) with (JObj (result_dict r)) in Hc.
  rewrite Hc, loads_dumps_plain by exact Hp'.
  assert (canon (JObj [("result", JObj (result_dict r))]) =
          JObj [("result", JObj (map canon_entry (isort key_leb (result_dict r))))]) as ->
    by by rewrite <- canon_obj.
  change (dict_get "result" [("result", ?x)]) with (Some x). cbv iota. by rewrite Hv.
Qed.
End client.

#[export] Hint Resolve evaluate_step evaluate_same evaluate_metrics : cw_pres.

(** ** A concrete server *)

Definition json_field (k v : string) : string := dquote +:+ k +:+ dquote +:+ ":" +:+ v.

(** Allows with every request. *)
Definition allow_body : string :=
  "{" +:+ json_field "result" ("{" +:+ json_field "allowed" "true" +:+ "," +:+
    json_field "requires_approval" "false" +:+ "," +:+
    json_field "reason" (dquote +:+ "ok" +:+ dquote) +:+ "}") +:+ "}".
#[export] Instance bench_opa : PolicyServer Z := λ _ _ x, (HttpResponse 200 allow_body, x).

Example allow_body_allows :
  @decision_of strict_pydantic 200 allow_body =
  {| pr_allowed := true; pr_requires_approval := false; pr_reason := "ok"; pr_decision_id := None;
     pr_error_code := None; pr_extra := [] |}.
Proof. vm_compute. reflexivity. Qed.

(** A server that refuses with a reason that needs escapes, and one extra key. *)
Definition spoken_denial : PolicyResult :=
  {| pr_allowed := false; pr_requires_approval := true; pr_reason := dquote +:+ "a\b";
     pr_decision_id := Some "d-1"; pr_error_code := None;
     pr_extra := [("violations", JArr [JInt (-3); JStr "x"])] |}.
Definition denying_opa : PolicyServer Z := λ _ _ x,
  (HttpResponse 200 (dumps (JObj [("result", PolicyResult_dump spoken_denial)])), x).

Definition bench_input : PolicyInput :=
  {| pi_environment := "staging"; pi_action := DELETE_UNHEALTHY_POD; pi_risk_score := 0;
     pi_risk_factors := {| f_environment := 0; f_blast_radius := 0; f_destructiveness := 0;
                           f_reversibility := 0; f_uncertainty := 0; f_sensitivity := 0 |};
     pi_confidence := fone; pi_blast_radius := 1; pi_reversible := true;
     pi_service_criticality := "low";
     pi_target := {| ti_namespace := "cloudward-staging"; ti_pod_name := "api-1"; ti_labels := [];
                     ti_controller_managed := true; ti_target_pods := 1 |};
     pi_approval := no_approval |}.

Lemma decision_roundtrip_witness :
  serialisable spoken_denial ∧
  ∃ r', (@evaluate strict_pydantic Z denying_opa {| opa_client_url := "http://opa" |} bench_input
           (bench_world empty_database)).1 = Ok r' ∧ same_decision r' spoken_denial.
Proof.
  assert (serialisable spoken_denial) as Hs.
  { split_and!; [done|done| |by repeat constructor].
    apply (bool_decide_unpack _). vm_compute. exact I. }
  split; [exact Hs|].
  apply (@decision_roundtrip strict_pydantic Z denying_opa {| opa_client_url := "http://opa" |}
    bench_input spoken_denial 200 (bench_world empty_database) Hs); [lia|reflexivity].
Defined.
