(* ===== verification/Approvals.v ===== *)
(** * Deciding an approval

    The class [ApprovalService] of [approvals/service.py]: a pending approval is
    decided once, by a principal who may, against the live target, the digest of
    the proposal it was requested for and a fresh policy decision. *)

From S2P Require Import Prelude PyFloat Json JsonParse Sha256 Effects Rbac Actions Risk.
From S2P Require Import StateMachine Models World Redaction Config AuditLog History Memory.
From S2P Require Import Notifications ApprovalRequests Incidents Kubernetes Opa.

(** The dictionary [_live_target] returns. *)
Record LiveTarget := {
  lt_namespace : string;
  lt_name : string;
  lt_labels : list (string * string);
  lt_controller_managed : bool;
  lt_stale_reason : option string;
}.

Definition stale_target (namespace name : string) (managed : bool) (reason : string)
  : LiveTarget :=
  {| lt_namespace := namespace; lt_name := name; lt_labels := [];
     lt_controller_managed := managed; lt_stale_reason := Some reason |}.

Definition live_pod (namespace : string) (pod : PodState) : LiveTarget :=
  {| lt_namespace := namespace; lt_name := pod.(ps_name); lt_labels := pod.(labels);
     lt_controller_managed := pod.(controller_managed); lt_stale_reason := None |}.

(** [isinstance(value, str)] and [isinstance(value, int)] ([bool] is an [int]). *)
Definition as_str (o : option json) : option string :=
  match o with Some (JStr s) => Some s | _ => None end.
Definition as_int (o : option json) : option Z :=
  match o with
  | Some (JInt z) => Some z
  | Some (JBool b) => Some (Z.b2z b)
  | _ => None
  end.

Section service.
Context {X : Type} `{!Runtime X, !KubeApi X, !Pydantic, !PolicyServer X}.
Context (settings : Settings) (opa : OPAClient).

(** [_live_target]. *)
Definition live_deployment (parameters : dict) (namespace deployment_name : string)
  : M (World X) LiveTarget :=
  let! deployment := get_deployment namespace deployment_name in
  let replicas_changed :=
    match as_int (dict_get "observed_replicas" parameters) with
    | Some z => negb (deployment.(desired_replicas) =? z) | None => false end in
  let revision_changed :=
    match as_str (dict_get "expected_current_tag" parameters) with
    | Some tag => negb (existsb (ends_with (":" +:+ tag)) deployment.(container_images))
    | None => false end in
  if replicas_changed then
    ret (stale_target namespace deployment_name true
           "Deployment replica state changed after proposal")
  else if revision_changed then
    ret (stale_target namespace deployment_name true
           "Deployment image revision changed after proposal")
  else
    let! pods := get_pods namespace "cloudward.io/demo-target=true" in
    match pods with
    | [] => ret (stale_target namespace deployment_name true
                   "Deployment has no live demo target pods")
    | pod :: _ => ret (live_pod namespace pod)
    end.

Definition live_target (proposal : ActionProposal) : M (World X) LiveTarget :=
  let parameters := proposal.(prop_parameters) in
  match as_str (dict_get "namespace" parameters) with
  | None => ret (stale_target "unknown" "unknown" false "Proposal has no bound namespace")
  | Some namespace =>
      match as_str (dict_get "deployment" parameters) with
      | Some name => live_deployment parameters namespace name
      | None =>
          let pod_name := match get_truthy "pod_name" parameters with
                          | Some j => Some j | None => dict_get "pod" parameters end in
          match as_str pod_name with
          | Some name =>
              let! pod := get_pod_health namespace name in
              ret (live_pod namespace pod)
          | None => ret (stale_target namespace "unknown" false
                           "Proposal target is not bound to a typed workload")
          end
      end
  end.

(** The document the approval is re-evaluated with. *)
Definition approval_policy_input (approval : Approval) (incident : Incident)
    (proposal : ActionProposal) (risk_factors : RiskFactors) (confidence : float)
    (target : LiveTarget) (principal : Principal) : PolicyInput :=
  {| pi_environment := Environment_value incident.(inc_environment);
     pi_action := proposal.(prop_action_type);
     pi_risk_score := proposal.(prop_risk_score);
     pi_risk_factors := risk_factors;
     pi_confidence := confidence;
     pi_blast_radius := Z.max 1 approval.(app_blast_radius);
     pi_reversible := approval.(app_reversible);
     pi_service_criticality := "low";
     pi_target := {| ti_namespace := target.(lt_namespace); ti_pod_name := target.(lt_name);
                     ti_labels := target.(lt_labels);
                     ti_controller_managed := target.(lt_controller_managed);
                     ti_target_pods := Z.max 1 approval.(app_blast_radius) |};
     pi_approval := {| ai_approved := true;
                       ai_approval_id := Some (uuid_str approval.(app_id));
                       ai_approved_by := Some principal.(login) |} |}.

(** The last part of [_stale_reason]: a fresh policy decision. *)
Definition policy_stale_reason (approval : Approval) (incident : Incident)
    (proposal : ActionProposal) (target : LiveTarget) (principal : Principal)
  : M (World X) (option string) :=
  match match dict_get "factors" proposal.(prop_risk_calculation) with
        | Some j => RiskFactors_validate j | None => None end with
  | None => ret (Some "Stored risk factors are invalid")
  | Some risk_factors =>
      let! confidence := lift (py_float (default (JFloat fone)
                           (dict_get "confidence" proposal.(prop_risk_calculation)))) in
      let! policy_input := lift (validated "PolicyInput" PolicyInput_valid
        (approval_policy_input approval incident proposal risk_factors confidence
           target principal)) in
      let! policy := evaluate opa policy_input in
      if negb policy.(pr_allowed)
      then ret (Some ("Policy no longer allows execution: " +:+ policy.(pr_reason)))
      else ret None
  end.

Definition of_proposal (id : uuid) (e : ActionExecution) : bool :=
  bool_decide (e.(exec_proposal_id) = id).
Definition decision_of_proposal (id : uuid) (d : PolicyDecision) : bool :=
  bool_decide (d.(pol_proposal_id) = id).

(** [_stale_reason]. *)
Definition stale_reason (approval : Approval) (incident : Incident)
    (proposal : ActionProposal) (principal : Principal) : M (World X) (option string) :=
  let! now := utc_now in
  if approval.(app_expires_at) <=? now then ret (Some "Approval expired before decision")
  else if negb (bool_decide (incident.(inc_state) = AWAITING_APPROVAL)) then
    ret (Some ("Incident state changed to " +:+ IncidentState_value incident.(inc_state)))
  else if negb (bool_decide (proposal.(prop_status) = PENDING)) then
    ret (Some ("Proposal status changed to " +:+ RecordStatus_value proposal.(prop_status)))
  else
    let! execution := query (λ db, select_one (of_proposal proposal.(prop_id))
                                     db.(action_executions)) in
    match execution with
    | Some _ => ret (Some "Proposal already has an action execution")
    | None =>
        if negb (String.eqb (context_digest (approval_context incident.(inc_id) proposal
                               approval.(app_proposal_version)))
                   approval.(app_context_digest)) then
          ret (Some "Proposal version, target, expected state, or risk context changed")
        else
          let! target := live_target proposal in
          match target.(lt_stale_reason) with
          | Some reason => ret (Some reason)
          | None =>
              let! latest_policy := query (λ db, latest pol_created_at
                (decision_of_proposal proposal.(prop_id)) db.(policy_decisions)) in
              match latest_policy with
              | Some p =>
                  if p.(pol_requires_approval)
                  then policy_stale_reason approval incident proposal target principal
                  else ret (Some "Policy context no longer requires this approval")
              | None => ret (Some "Policy context no longer requires this approval")
              end
          end
    end.

(** [_invalidate]. *)
Definition invalidated (decision : ApprovalDecision) (reason : string) (now : datetime)
    (a : Approval) : Approval :=
  set_app_invalidated_reason (Some reason)
    (set_app_decided_by (Some "cloudward-approval-guard")
       (set_app_decided_at (Some now) (set_app_decision decision a))).

Definition invalidate (approval_id : uuid) (reason : string) : M (World X) unit :=
  let! approval := the_approval approval_id in
  let! now := utc_now in
  let decision := if approval.(app_expires_at) <=? now then EXPIRED else INVALIDATED in
  let! now := utc_now in
  set_approval approval_id (invalidated decision reason now).

(** [_move_incident]. *)
Definition move_incident (incident_id : uuid) (state : IncidentState) (actor : string)
    (approval_id : uuid) : M (World X) unit :=
  let! approval := the_approval approval_id in
  change_incident_state settings incident_id state actor ACTOR_USER
    (Some [("approval_id", JStr (uuid_str approval.(app_id)));
           ("decision", JStr (ApprovalDecision_value approval.(app_decision)));
           ("proposal_version", JInt approval.(app_proposal_version))]) false.

Definition actor_of (principal : Principal) : option uuid :=
  if principal.(persisted) then Some principal.(user_id) else None.

(** [_audit_decision]. *)
Definition audit_decision (approval_id incident_id : uuid) (principal : Principal)
    (result : string) : M (World X) unit :=
  let! approval := the_approval approval_id in
  let! incident := the_incident incident_id in
  record_audit ("APPROVAL_" +:+ result) incident.(inc_correlation_id)
    (Some incident.(inc_id)) principal.(login) ACTOR_USER (actor_of principal)
    (Some approval.(app_action)) (Some approval.(app_risk_score)) None result
    [("approval_id", JStr (uuid_str approval.(app_id)));
     ("proposal_id", JStr (uuid_str approval.(app_proposal_id)));
     ("proposal_version", JInt approval.(app_proposal_version));
     ("comment", JOptStr approval.(app_decision_comment));
     ("invalidated_reason", JOptStr approval.(app_invalidated_reason))].

(** The assignments shared by an approval and a rejection. *)
Definition decided (decision : ApprovalDecision) (principal : Principal)
    (comment : option string) (now : datetime) (a : Approval) : Approval :=
  set_app_decision_comment comment
    (set_app_decided_at (Some now)
       (set_app_decided_by (Some principal.(login))
          (set_app_actor_id (actor_of principal) (set_app_decision decision a)))).

Definition record_decision (approval_id : uuid) (decision : ApprovalDecision)
    (principal : Principal) (comment : option string) : M (World X) unit :=
  let! now := utc_now in
  set_approval approval_id (decided decision principal comment now).

(** The common end of the three branches. *)
Definition conclude (approval_id incident_id : uuid) (principal : Principal)
    (result : string) : M (World X) uuid :=
  do! audit_decision approval_id incident_id principal result;
  do! stream_approval approval_id;
  ret approval_id.

(** *** The three branches of [decide] *)

Definition reject (approval_id incident_id proposal_id : uuid) (principal : Principal)
    (comment : option string) : M (World X) uuid :=
  do! set_proposal proposal_id (set_prop_status REJECTED);
  do! record_decision approval_id DECISION_REJECTED principal comment;
  do! move_incident incident_id BLOCKED principal.(login) approval_id;
  conclude approval_id incident_id principal "REJECTED".

Definition discard (approval_id incident_id proposal_id : uuid) (incident : Incident)
    (principal : Principal) (reason : string) : M (World X) uuid :=
  do! set_proposal proposal_id (set_prop_status REJECTED);
  do! invalidate approval_id reason;
  do! when (bool_decide (incident.(inc_state) = AWAITING_APPROVAL))
        (move_incident incident_id BLOCKED "cloudward-approval-guard" approval_id);
  conclude approval_id incident_id principal "INVALIDATED".

Definition approve (approval_id incident_id proposal_id : uuid) (principal : Principal)
    (comment : option string) : M (World X) uuid :=
  do! record_decision approval_id APPROVED principal comment;
  do! set_proposal proposal_id (set_prop_status PENDING);
  do! move_incident incident_id POLICY_EVALUATION principal.(login) approval_id;
  conclude approval_id incident_id principal "APPROVED".

(** The guards on the principal and the risk score. *)
Definition authorize (proposal : ActionProposal) (principal : Principal) : M (World X) unit :=
  let! metadata := lift (get_action_metadata (inl proposal.(prop_action_type))) in
  do! raise_if (negb (has_permission principal.(role) metadata.(required_permission)))
        (cw_error_status "APPROVAL_ROLE_INSUFFICIENT"
           "This action requires an administrator-level approval" 403);
  raise_if (70 <=? proposal.(prop_risk_score))
    (cw_error_status "HIGH_RISK_ACTION_BLOCKED"
       "Actions scoring 70 or higher cannot be approved" 403).

Definition decide_pending (approval_id : uuid) (approval : Approval)
    (decision : ApprovalDecision) (principal : Principal) (comment : option string)
  : M (World X) uuid :=
  let incident_id := approval.(app_incident_id) in
  let proposal_id := approval.(app_proposal_id) in
  let! incident := query (λ db, db.(incidents) !! incident_id) in
  let! proposal := query (λ db, db.(action_proposals) !! proposal_id) in
  match incident, proposal with
  | Some incident, Some proposal =>
      if bool_decide (decision = DECISION_REJECTED) then
        reject approval_id incident_id proposal_id principal comment
      else
        do! authorize proposal principal;
        let! stale := stale_reason approval incident proposal principal in
        match stale with
        | Some reason => discard approval_id incident_id proposal_id incident principal reason
        | None => approve approval_id incident_id proposal_id principal comment
        end
  | _, _ =>
      do! invalidate approval_id "Bound incident or proposal no longer exists";
      raise (cw_error_status "APPROVAL_CONTEXT_MISSING"
               "Approval context no longer exists" 409)
  end.

Definition decide_approval (approval_id : uuid) (decision : ApprovalDecision)
    (principal : Principal) (comment : option string) : M (World X) uuid :=
  do! raise_if (negb (bool_decide (decision ∈ [APPROVED; DECISION_REJECTED])))
        (cw_error "INVALID_APPROVAL_DECISION" "Decision must approve or reject");
  let! approval := query (λ db, db.(approvals) !! approval_id) in
  match approval with
  | None => raise (cw_error_status "APPROVAL_NOT_FOUND" "Approval was not found" 404)
  | Some approval =>
      do! raise_if (negb (bool_decide (approval.(app_decision) = DECISION_PENDING)))
            (cw_error_status "APPROVAL_ALREADY_DECIDED"
               "Approval has already been decided and cannot execute twice" 409);
      decide_pending approval_id approval decision principal comment
  end.
End service.

(** ** What the parts touch *)

(** The tables a state change leaves alone unless it starts to wait. *)
Definition approval_tables (d : Database) :=
  (d.(approvals), d.(action_proposals), d.(action_executions), d.(policy_decisions)).

Section frames.
Context {X : Type} `{!Runtime X, !KubeApi X, !Pydantic, !PolicyServer X}.
Context (settings : Settings) (opa : OPAClient).

Lemma live_target_same {A} (f : Database → A) p :
  evolves (same_db f) (live_target (X:=X) p).
Proof. unfold live_target, live_deployment. evolve. Qed.

Lemma live_target_trace p : evolves same_trace (live_target (X:=X) p).
Proof. unfold live_target, live_deployment. evolve. Qed.
Hint Resolve live_target_same : cw_pres.

Lemma stale_reason_same {A} (f : Database → A) a i p pr :
  evolves (same_db f) (stale_reason (X:=X) opa a i p pr).
Proof. unfold stale_reason, policy_stale_reason. evolve. Qed.

Lemma remember_approvals v c : evolves (same_db approval_tables) (remember (X:=X) v c).
Proof. unfold remember. evolve. Qed.
Hint Resolve remember_approvals : cw_pres.
Lemma queue_channel_approvals e m c :
  evolves (same_db approval_tables) (queue_channel (X:=X) settings e m c).
Proof. unfold queue_channel. evolve. Qed.
Hint Resolve queue_channel_approvals : cw_pres.

(** A state change that does not start to wait. *)
Lemma change_incident_state_approvals id t a ty d f :
  t ≠ AWAITING_APPROVAL →
  evolves (same_db approval_tables) (change_incident_state (X:=X) settings id t a ty d f).
Proof.
  intros Ht. unfold change_incident_state, record_state_change, add_incident_event,
    notify_state_change, queue_incident_notification, queue, capture_terminal_incident.
  rewrite (bool_decide_eq_false_2 _ Ht). cbn [when]. evolve.
Qed.

Lemma move_incident_approvals i s actor id :
  s ≠ AWAITING_APPROVAL →
  evolves (same_db approval_tables) (move_incident (X:=X) settings i s actor id).
Proof.
  intros Hs. unfold move_incident.
  repeat first [evolve_step | by apply change_incident_state_approvals | eauto with cw_pres].
Qed.

Lemma audit_decision_same {A} (f : Database → A) id i pr r :
  (∀ g d, f (upd_audit_events g d) = f d) →
  evolves (same_db f) (audit_decision (X:=X) id i pr r).
Proof.
  intros Hf. unfold audit_decision.
  repeat first [evolve_step | apply record_audit_same; apply Hf | eauto with cw_pres].
Qed.

Lemma conclude_same {A} (f : Database → A) id i pr r :
  (∀ g d, f (upd_audit_events g d) = f d) → (∀ g d, f (upd_stream_events g d) = f d) →
  evolves (same_db f) (conclude (X:=X) id i pr r).
Proof.
  intros H1 H2. unfold conclude.
  repeat first [evolve_step | by apply audit_decision_same | by apply stream_approval_same
               | eauto with cw_pres].
Qed.
End frames.

(** ** When an approval may be granted *)

Section grant.
Context {X : Type} `{!Runtime X, !KubeApi X, !Pydantic, !PolicyServer X}.
Context (settings : Settings) (opa : OPAClient).

(** The policy server was asked about [input] and allowed it. *)
Definition policy_allowed (input : PolicyInput) : Prop :=
  ∃ (x : X) r, grants (opa_post opa.(opa_client_url) (JObj [("input", PolicyInput_dump input)]) x).1 r.

(** Everything the database must say for an approval to be granted. *)
Record approvable (a : Approval) (i : Incident) (p : ActionProposal) (principal : Principal)
    (d : Database) : Prop := {
  apv_permission :
    has_permission principal.(role)
      (ACTION_REGISTRY p.(prop_action_type)).(required_permission) = true;
  apv_risk : p.(prop_risk_score) < 70;
  apv_waiting : i.(inc_state) = AWAITING_APPROVAL;
  apv_proposal : p.(prop_status) = PENDING;
  apv_unexecuted : ∀ id e, d.(action_executions) !! id = Some e →
                     e.(exec_proposal_id) ≠ p.(prop_id);
  apv_digest : context_digest (approval_context i.(inc_id) p a.(app_proposal_version)) =
               a.(app_context_digest);
  apv_policy : ∃ pd, latest pol_created_at (decision_of_proposal p.(prop_id))
                       d.(policy_decisions) = Some pd ∧ pd.(pol_requires_approval) = true;
}.

(** The one policy evaluation of an approval, with the approval in the document. *)
Definition evaluated (a : Approval) (i : Incident) (p : ActionProposal)
    (principal : Principal) (w w' : World X) : Prop :=
  ∃ factors confidence target,
    let input := approval_policy_input a i p factors confidence target principal in
    PolicyInput_valid input = true ∧ target.(lt_stale_reason) = None ∧
    policy_allowed input ∧
    w'.(trace) = w.(trace) ++ [CallOpa (JObj [("input", PolicyInput_dump input)])].

Lemma evaluate_allowed input (w w' : World X) r :
  evaluate opa input w = (Ok r, w') → r.(pr_allowed) = true → policy_allowed input.
Proof.
  unfold evaluate. intros Hrun Ha. run_inv Hrun.
  destruct (opa_post _ _ _) as [[|e|status content] x] eqn:Hp; simpl in Hrun; run_inv Hrun;
    [done|].
  eexists _, _. rewrite Hp. by apply decision_of_allowed.
Qed.

Lemma policy_stale_reason_none a i p target principal (w w' : World X) :
  policy_stale_reason opa a i p target principal w = (Ok None, w') →
  target.(lt_stale_reason) = None → evaluated a i p principal w w'.
Proof.
  unfold policy_stale_reason. intros Hrun Ht.
  destruct (match dict_get "factors" _ with Some j => _ | None => _ end) as [factors|]; [|run_inv Hrun; done].
  apply bind_ok in Hrun as (confidence & w1 & Hc & Hrun). injection Hc as _ <-.
  apply bind_ok in Hrun as (input & w2 & Hi & Hrun). injection Hi as Hi <-.
  apply bind_ok in Hrun as (r & w3 & He & Hrun).
  unfold validated in Hi. destruct (PolicyInput_valid _) eqn:Hv; [|done]. injection Hi as <-.
  destruct (pr_allowed r) eqn:Ha; simpl in Hrun; run_inv Hrun; [|done].
  exists factors, confidence, target. split_and!; [done|done|by eapply evaluate_allowed|].
  by apply evaluate_run in He as (_ & _ & _ & ?).
Qed.

(** No stale reason means that every guard of [_stale_reason] passed. *)
Lemma stale_reason_none a i p principal (w w' : World X) :
  stale_reason opa a i p principal w = (Ok None, w') →
  (rt_now w.(ext)).1 < a.(app_expires_at) ∧
  i.(inc_state) = AWAITING_APPROVAL ∧ p.(prop_status) = PENDING ∧
  (∀ id e, w.(work).(action_executions) !! id = Some e → e.(exec_proposal_id) ≠ p.(prop_id)) ∧
  context_digest (approval_context i.(inc_id) p a.(app_proposal_version)) =
    a.(app_context_digest) ∧
  (∃ pd, latest pol_created_at (decision_of_proposal p.(prop_id)) w.(work).(policy_decisions)
           = Some pd ∧ pd.(pol_requires_approval) = true) ∧
  evaluated a i p principal w w'.
Proof.
  unfold stale_reason. intros Hrun.
  apply bind_ok in Hrun as (now & w1 & Hn & Hrun). injection Hn as <- <-.
  destruct (_ <=? _) eqn:Hexp in Hrun; [run_inv Hrun; done|]. apply Z.leb_gt in Hexp.
  case_bool_decide as Hst; simpl in Hrun; [|run_inv Hrun; done].
  case_bool_decide as Hps; simpl in Hrun; [|run_inv Hrun; done].
  apply bind_ok in Hrun as (o & w2 & Hq & Hrun). injection Hq as Hq <-.
  destruct o as [e|]; [run_inv Hrun; done|].
  destruct (String.eqb_spec (context_digest (approval_context i.(inc_id) p
    a.(app_proposal_version))) a.(app_context_digest)) as [Hd|]; simpl in Hrun;
    [|run_inv Hrun; done].
  apply bind_ok in Hrun as (target & w3 & Ht & Hrun).
  destruct (lt_stale_reason target) eqn:Hts; [run_inv Hrun; done|].
  apply bind_ok in Hrun as (o & w4 & Hl & Hrun). injection Hl as Hl <-.
  destruct o as [pd|]; [|run_inv Hrun; done].
  destruct (pol_requires_approval pd) eqn:Hpd; [|run_inv Hrun; done].
  assert (work w3 = w.(work)) as Hw3.
  { pose proof (live_target_same (λ d, d) p) as Hs. by apply (evolves_run _ _ _ _ _ Hs) in Ht. }
  assert (trace w3 = w.(trace)) as Ht3.
  { pose proof (live_target_trace p) as Hs. by apply (evolves_run _ _ _ _ _ Hs) in Ht. }
  rewrite Hw3 in Hl. split_and!; [done..| |done| |].
  - intros id e He Heq. apply (proj1 (select_one_None _ _) Hq) in He.
    unfold of_proposal in He. by rewrite bool_decide_eq_true_2 in He.
  - by exists pd.
  - destruct (policy_stale_reason_none _ _ _ _ _ _ _ Hrun Hts) as (f & c & t & ? & ? & ? & Htr).
    exists f, c, t. by rewrite Htr, Ht3.
Qed.

Lemma authorize_ok p principal (w w' : World X) u :
  authorize p principal w = (Ok u, w') →
  w' = w ∧ p.(prop_risk_score) < 70 ∧
  has_permission principal.(role)
    (ACTION_REGISTRY p.(prop_action_type)).(required_permission) = true.
Proof.
  unfold authorize. intros Hrun.
  apply bind_ok in Hrun as (m & w1 & Hm & Hrun). injection Hm as <- <-.
  apply bind_ok in Hrun as (u1 & w2 & Hp & Hrun). run_inv Hp. run_inv Hrun. boolify.
  split_and!; [done|lia|done].
Qed.
End grant.

(** ** The three branches *)

Section branches.
Context {X : Type} `{!Runtime X, !KubeApi X, !Pydantic, !PolicyServer X}.
Context (settings : Settings) (opa : OPAClient).

(** The approval [id] changed by [f], the proposal [pid] by [g], nothing else of
    the tables of an approval. *)
Definition decision_written (id pid : uuid) (f : Approval → Approval)
    (g : ActionProposal → ActionProposal) (d d' : Database) : Prop :=
  approval_tables d' =
    (alter f id d.(approvals), alter g pid d.(action_proposals), d.(action_executions),
     d.(policy_decisions)).

Lemma conclude_tables id i pr result (w : World X) :
  approval_tables (conclude id i pr result w).2.(work) = approval_tables w.(work).
Proof. exact (conclude_same approval_tables id i pr result (λ _ _, eq_refl) (λ _ _, eq_refl) w). Qed.

(** What follows the assignments of a branch leaves them alone. *)
Lemma branch_end i s actor id pr result (w : World X) :
  s ≠ AWAITING_APPROVAL →
  approval_tables (bind (move_incident settings i s actor id)
                     (λ _, conclude id i pr result) w).2.(work) = approval_tables w.(work).
Proof.
  intros Hs. refine (evolves_bind (same_db approval_tables) _ _ _ _ w).
  - by apply move_incident_approvals.
  - intros ?. by apply conclude_same.
Qed.

Lemma reject_tables id iid pid pr c (w : World X) :
  ∃ now, decision_written id pid (decided DECISION_REJECTED pr c now) (set_prop_status REJECTED)
    w.(work) (reject settings id iid pid pr c w).2.(work).
Proof.
  unfold reject, record_decision, bind at 1 2 3, assign, update_db, modify, utc_now, external.
  simpl. eexists. unfold decision_written. by rewrite branch_end.
Qed.

Lemma approve_tables id iid pid pr c (w : World X) :
  ∃ now, decision_written id pid (decided APPROVED pr c now) (set_prop_status PENDING)
    w.(work) (approve settings id iid pid pr c w).2.(work).
Proof.
  unfold approve, record_decision, bind at 1 2 3, assign, update_db, modify, utc_now, external.
  simpl. eexists. unfold decision_written. by rewrite branch_end.
Qed.

Lemma discard_tables id iid pid i pr reason a (w : World X) :
  w.(work).(approvals) !! id = Some a →
  ∃ now now' d, d = (if a.(app_expires_at) <=? now then EXPIRED else INVALIDATED) ∧
    decision_written id pid (invalidated d reason now') (set_prop_status REJECTED)
      w.(work) (discard settings id iid pid i pr reason w).2.(work).
Proof.
  intros Ha. unfold discard, invalidate, bind at 1 2 3 4 5, assign, update_db, modify, utc_now,
    external, deref, query, gets. simpl. unfold bind at 1. simpl. rewrite Ha. simpl.
  eexists _, _, _. split; [reflexivity|].
  case_bool_decide; simpl; unfold decision_written; [by rewrite branch_end|].
  by rewrite bind_ret, conclude_tables.
Qed.

(** An approval that returned: the incident is handed back to the policy step and
    nothing is called. *)
Lemma approve_ok id iid pid pr c i (w w' : World X) r :
  approve settings id iid pid pr c w = (Ok r, w') →
  w.(work).(incidents) !! iid = Some i → i.(inc_state) = AWAITING_APPROVAL →
  (inc_state <$> w'.(work).(incidents) !! iid) = Some POLICY_EVALUATION ∧
  w'.(trace) = w.(trace).
Proof.
  unfold approve. intros Hrun Hi Hst.
  apply bind_ok in Hrun as (u1 & w1 & H1 & Hrun). unfold record_decision in H1. run_inv H1.
  apply bind_ok in Hrun as (u2 & w2 & H2 & Hrun). run_inv H2.
  apply bind_ok in Hrun as (u3 & w3 & H3 & Hrun).
  unfold move_incident in H3. apply bind_ok in H3 as (a & w4 & Ha & H3). run_inv Ha.
  pose proof (change_incident_state_trace settings iid POLICY_EVALUATION pr.(login) ACTOR_USER
    (Some [("approval_id", JStr (uuid_str a.(app_id)));
           ("decision", JStr (ApprovalDecision_value a.(app_decision)));
           ("proposal_version", JInt a.(app_proposal_version))]) false
    ltac:(done) ltac:(done)) as Htr.
  apply (evolves_run _ _ _ _ _ Htr) in H3 as Htr3. clear Htr.
  destruct (change_incident_state_ok _ _ _ _ _ _ _ _ _ _ H3 Hi) as [[? _]|(_ & now & Hinc)];
    [congruence|].
  pose proof (conclude_same incidents id iid pr "APPROVED" (λ _ _, eq_refl) (λ _ _, eq_refl)) as Hc.
  apply (evolves_run _ _ _ _ _ Hc) in Hrun as Hc'. clear Hc. split.
  - rewrite Hc', Hinc, lookup_alter_eq.
    trans (inc_state <$> (with_state now POLICY_EVALUATION <$> Some i)); [by do 2 f_equal|].
    exact (f_equal Some (with_state_state now POLICY_EVALUATION i)).
  - assert (evolves same_trace (conclude (X:=X) id iid pr "APPROVED")) as Hq.
    { unfold conclude, audit_decision, stream_approval. evolve. }
    apply (evolves_run _ _ _ _ _ Hq) in Hrun. unfold same_trace, stable in *. by rewrite Hrun, Htr3.
Qed.
End branches.

(** ** Properties *)

Section properties.
Context {X : Type} `{!Runtime X, !KubeApi X, !Pydantic, !PolicyServer X}.
Context (settings : Settings) (opa : OPAClient).
Abbreviation decide_run := (decide_approval (X:=X) settings opa).

Lemma stale_reason_tables a i p pr (w : World X) r w' :
  stale_reason opa a i p pr w = (r, w') → w'.(work) = w.(work).
Proof. intros E. by apply (evolves_run _ _ _ _ _ (stale_reason_same opa (λ d, d) a i p pr)) in E. Qed.

(** How a run that returned went. *)
Lemma decide_approval_ok id decision principal comment (w w' : World X) r :
  decide_run id decision principal comment w = (Ok r, w') →
  ∃ a i p, w.(work).(approvals) !! id = Some a ∧ a.(app_decision) = DECISION_PENDING ∧
    w.(work).(incidents) !! a.(app_incident_id) = Some i ∧
    w.(work).(action_proposals) !! a.(app_proposal_id) = Some p ∧
    let iid := a.(app_incident_id) in
    let pid := a.(app_proposal_id) in
    (decision = DECISION_REJECTED ∧
     reject settings id iid pid principal comment w = (Ok r, w')) ∨
    (decision = APPROVED ∧ p.(prop_risk_score) < 70 ∧
     has_permission principal.(role)
       (ACTION_REGISTRY p.(prop_action_type)).(required_permission) = true ∧
     ∃ stale w1, stale_reason opa a i p principal w = (Ok stale, w1) ∧
       match stale with
       | Some reason => discard settings id iid pid i principal reason
       | None => approve settings id iid pid principal comment
       end w1 = (Ok r, w')).
Proof.
  unfold decide_approval. intros Hrun.
  apply bind_ok in Hrun as (u1 & w1 & H1 & Hrun). run_inv H1.
  apply bind_ok in Hrun as (o & w2 & H2 & Hrun). injection H2 as H2 <-.
  destruct o as [a|]; [|done].
  apply bind_ok in Hrun as (u3 & w3 & H3 & Hrun). run_inv H3. boolify.
  unfold decide_pending in Hrun.
  apply bind_ok in Hrun as (oi & w4 & H4 & Hrun). injection H4 as H4 <-.
  apply bind_ok in Hrun as (op & w5 & H5 & Hrun). injection H5 as H5 <-.
  destruct oi as [i|], op as [p|];
    [|by apply bind_ok in Hrun as (? & ? & ? & ?)..].
  exists a, i, p. split_and!; [done..|].
  case_bool_decide as Hd; [by left|right].
  apply bind_ok in Hrun as (u6 & w6 & H6 & Hrun). apply authorize_ok in H6 as (-> & ? & ?).
  apply bind_ok in Hrun as (stale & w7 & H7 & Hrun).
  split_and!; [|done..|by exists stale, w7].
  set_solver.
Qed.


(** Whether an execution claimed the approval, and which. *)
Definition approval_use (a : Approval) :=
  (a.(app_execution_claimed_at), a.(app_execution_reference)).

(** A pending approval is changed, by a function that decides it and keeps what
    it is bound to. *)
Definition decides (id : uuid) (a : Approval) (d d' : Database) : Prop :=
  ∃ f, (f a).(app_decision) ≠ DECISION_PENDING ∧ (f a).(app_decided_at) ≠ None ∧
    approval_binding (f a) = approval_binding a ∧ approval_use (f a) = approval_use a ∧
    d'.(approvals) = alter f id d.(approvals) ∧ d'.(action_executions) = d.(action_executions).

Lemma decide_approval_run id decision principal comment (w : World X) :
  (∃ e, decide_run id decision principal comment w = (Raise e, w)) ∨
  ∃ a, w.(work).(approvals) !! id = Some a ∧ a.(app_decision) = DECISION_PENDING ∧
    decide_run id decision principal comment w =
    decide_pending settings opa id a decision principal comment w.
Proof.
  unfold decide_approval. destruct (decide (decision ∈ [APPROVED; DECISION_REJECTED])) as [Hd|Hd];
    [rewrite (bool_decide_eq_true_2 _ Hd)|left; rewrite (bool_decide_eq_false_2 _ Hd); by eexists].
  cbn [negb raise_if]. rewrite bind_ret.
  rewrite (bind_step _ _ w (w.(work).(approvals) !! id) w) by done.
  destruct (approvals (work w) !! id) as [a|] eqn:Ha; [|left; by eexists].
  destruct (decide (app_decision a = DECISION_PENDING)) as [Hp|Hp].
  - right. exists a. by rewrite (bool_decide_eq_true_2 _ Hp).
  - left. rewrite (bool_decide_eq_false_2 _ Hp). by eexists.
Qed.

Lemma invalidate_decides id reason a (w : World X) :
  w.(work).(approvals) !! id = Some a →
  decides id a w.(work) (invalidate id reason w).2.(work).
Proof.
  intros Ha. unfold invalidate. rewrite (bind_step _ _ w a w) by by apply deref_ok.
  unfold bind, utc_now, external, assign, update_db, modify. simpl. eexists.
  split_and!; [| | | |reflexivity|reflexivity]; [simpl; by destruct (_ <=? _)|done..].
Qed.

Lemma bind_after_raise {A B} (m : M (World X) A) e (w : World X) :
  (bind m (λ _, raise (A:=B) e) w).2 = (m w).2.
Proof. unfold bind, raise. by destruct (m w) as [[|] ?]. Qed.

Lemma authorize_world p principal (w : World X) : (authorize p principal w).2 = w.
Proof.
  unfold authorize, bind, lift, raise_if. simpl. by destruct (negb _), (70 <=? _).
Qed.

(** What a call, returning or raising, does to the table of approvals. *)
Lemma decide_pending_tables id a decision principal comment (w : World X) :
  w.(work).(approvals) !! id = Some a →
  let d' := (decide_pending settings opa id a decision principal comment w).2.(work) in
  d' = w.(work) ∨ decides id a w.(work) d'.
Proof.
  intros Ha. cbv zeta. unfold decide_pending.
  rewrite (bind_step _ _ w (w.(work).(incidents) !! app_incident_id a) w) by done.
  rewrite (bind_step _ _ w (w.(work).(action_proposals) !! app_proposal_id a) w) by done.
  destruct (incidents (work w) !! app_incident_id a) as [i|],
    (action_proposals (work w) !! app_proposal_id a) as [p|].
  2-4: right; rewrite bind_after_raise; by apply invalidate_decides.
  destruct (decide (decision = DECISION_REJECTED)) as [Hd|Hd];
    [rewrite (bool_decide_eq_true_2 _ Hd)|rewrite (bool_decide_eq_false_2 _ Hd)].
  { right. destruct (reject_tables settings id (app_incident_id a) (app_proposal_id a) principal
      comment w) as (now & Hw). injection Hw as Hw _ He _.
    eexists. by split_and!; [| | | |exact Hw|exact He]. }
  pose proof (authorize_world p principal w) as Hau.
  destruct (authorize p principal w) as [[[]|e] w0] eqn:Hr; simpl in Hau; subst w0;
    [rewrite (bind_step _ _ _ _ _ Hr)|left; by rewrite (bind_step_raise _ _ _ _ _ Hr)].
  destruct (stale_reason opa a i p principal w) as [[stale|e] w1] eqn:Hsr;
    apply stale_reason_tables in Hsr as Hs;
    [rewrite (bind_step _ _ _ _ _ Hsr); right|left; by rewrite (bind_step_raise _ _ _ _ _ Hsr)].
  rewrite <- Hs in Ha |- *.
  destruct stale as [reason|].
  - destruct (discard_tables settings id (app_incident_id a) (app_proposal_id a) i principal
      reason a w1 Ha) as (now & now' & d & -> & Hw). injection Hw as Hw _ He _.
    eexists. split_and!; [| | | |exact Hw|exact He]; [simpl; by destruct (_ <=? _)|done..].
  - destruct (approve_tables settings id (app_incident_id a) (app_proposal_id a) principal
      comment w1) as (now & Hw). injection Hw as Hw _ He _.
    eexists. by split_and!; [| | | |exact Hw|exact He].
Qed.

(** One call of [decide], by anyone, on any approval, however it ends. *)
Inductive decide_step : relation (World X) :=
| decide_any id decision principal comment w :
    decide_step w (decide_run id decision principal comment w).2.

(** An approval is decided once.  Along any sequence of calls of [decide], on
    any approvals and by any principals, returning or raising, a decided approval
    keeps its row (decision, actor, time and comment), and what a pending one is
    bound to (proposal, version, digest, target, expiry) never changes; a decision
    always records when it was taken. *)
Theorem decided_once (w w' : World X) id a :
  rtc decide_step w w' → w.(work).(approvals) !! id = Some a →
  ∃ a', w'.(work).(approvals) !! id = Some a' ∧ approval_binding a' = approval_binding a ∧
    (a.(app_decision) ≠ DECISION_PENDING → a' = a) ∧
    (a'.(app_decision) ≠ a.(app_decision) → a'.(app_decided_at) ≠ None).
Proof.
  intros Hsteps. revert a. induction Hsteps as [w|w w1 w2 Hs _ IH]; intros a Ha;
    [exists a; split_and!; done|].
  destruct Hs as [k decision principal comment w].
  destruct (decide_approval_run k decision principal comment w) as [[e Hr]|(b & Hb & Hpend & Hr)];
    rewrite Hr in IH; [by apply IH|].
  destruct (decide_pending_tables k b decision principal comment w Hb)
    as [Hd|(f & Hdone & Hat & Hbind & _ & Hd & _)]; [apply IH; by rewrite Hd|].
  rewrite Hd in IH. destruct (decide (k = id)) as [->|Hne].
  - rewrite Ha in Hb. injection Hb as <-.
    destruct (IH (f a)) as (a' & Ha' & Hb' & Hsame & _); [by rewrite lookup_alter_eq, Ha|].
    rewrite (Hsame Hdone) in *. exists (f a). split_and!; [done|done|by intros ?|done].
  - apply IH. by rewrite lookup_alter_ne.
Qed.
End properties.

(** ** A concrete approval *)

Definition waiting_incident : Incident :=
  set_inc_state AWAITING_APPROVAL
    (new_incident 1%N 1700000000000000 "corr-1" "pod_unhealthy" "Demo unhealthy" ENV_STAGING
       None None None).

Definition waiting_proposal : ActionProposal :=
  {| prop_id := 2%N; prop_created_at := 1700000000000000; prop_incident_id := 1%N;
     prop_correlation_id := "corr-1"; prop_action_type := SCALE_STAGING_DEPLOYMENT;
     prop_parameters := [("namespace", JStr "cloudward-staging"); ("deployment", JStr "demo");
                         ("observed_replicas", JInt 2); ("expected_current_tag", JStr "1")];
     prop_status := PENDING; prop_risk_score := 34;
     prop_risk_calculation :=
       [("score", JInt 34); ("factors", RiskFactors_dump (Build_RiskFactors 4 3 10 2 15 0));
        ("confidence", JFloat (float_of_decimal 95 (-2)))];
     prop_proposed_by := "cloudward" |}.

Definition waiting_approval : Approval :=
  new_approval example_settings 3%N 1700000000000000 waiting_incident waiting_proposal 1
    "cloudward" None.

Definition waiting_decision : PolicyDecision :=
  {| pol_id := 4%N; pol_created_at := 1700000000000000; pol_incident_id := 1%N;
     pol_proposal_id := 2%N; pol_correlation_id := "corr-1"; pol_policy_path := "/v1/data/x";
     pol_allowed := false; pol_requires_approval := true; pol_reason := "approval required";
     pol_input_digest := "d"; pol_result := JNull |}.

Definition waiting_world : World Z :=
  bench_world
    (upd_incidents (λ _, {[1%N := waiting_incident]})
       (upd_action_proposals (λ _, {[2%N := waiting_proposal]})
          (upd_approvals (λ _, {[3%N := waiting_approval]})
             (upd_policy_decisions (λ _, [waiting_decision]) empty_database)))).

Definition operator : Principal :=
  {| user_id := 9%N; login := "op"; role := OPERATOR; persisted := true |}.
Definition viewer : Principal :=
  {| user_id := 8%N; login := "v"; role := VIEWER; persisted := true |}.

Definition bench_decide (decision : ApprovalDecision) (principal : Principal) (w : World Z)
  : res uuid * World Z :=
  decide_approval (Runtime0 := bench_runtime) (H := strict_pydantic) example_settings
    (opa_client "http://opa:8181/" "/v1/data/d") 3%N decision principal None w.

Example viewer_is_refused :
  (bench_decide APPROVED viewer waiting_world).1 =
  Raise (cw_error_status "APPROVAL_ROLE_INSUFFICIENT"
           "This action requires an administrator-level approval" 403).
Proof. vm_compute. reflexivity. Qed.


Lemma decided_once_witness :
  let w1 := (bench_decide DECISION_REJECTED operator waiting_world).2 in
  let w2 := (bench_decide APPROVED operator w1).2 in
  w2.(work).(approvals) !! 3%N =
    Some (decided DECISION_REJECTED operator None 1700000001000000 waiting_approval).
Proof.
  destruct (decided_once (Runtime0 := bench_runtime) (H := strict_pydantic)
    example_settings (opa_client "http://opa:8181/" "/v1/data/d")
    (bench_decide DECISION_REJECTED operator waiting_world).2
    (bench_decide APPROVED operator (bench_decide DECISION_REJECTED operator waiting_world).2).2
    3%N (decided DECISION_REJECTED operator None 1700000001000000 waiting_approval))
    as (a' & Ha' & _ & Hsame & _).
  - apply rtc_once. apply decide_any.
  - vm_compute. reflexivity.
  - rewrite (Hsame ltac:(discriminate)) in Ha'. exact Ha'.
Defined.
