(* ===== verification/Execution.v ===== *)
(** * Claiming, finishing and rolling back executions

    [remediation/execution.py]: the idempotent claim of an attempt, its end, the
    decision about a rollback and the rollback of a scaling. *)

From S2P Require Import Prelude PyFloat Json Sha256 Effects Rbac Actions StateMachine Models.
From S2P Require Import World Redaction Config AuditLog History Memory Notifications.
From S2P Require Import ApprovalRequests Incidents Kubernetes Opa Approvals.

(** ** Claims *)

(** [ExecutionClaim]: the execution, by its identifier. *)
Record ExecutionClaim := { claim_execution : uuid; claimed : bool }.

Definition action_idempotency_key (incident_id : uuid) (runbook_id : string)
    (action : ActionType) (target : dict) (attempt : Z) : string :=
  sha256_hex (uuid_str incident_id +:+ ":" +:+ runbook_id +:+ ":" +:+
              ActionType_value action +:+ ":" +:+ str_of_Z attempt +:+ ":" +:+
              dumps (JObj target)).

(** The constraints of the table: one execution per incident and attempt, one per
    key, attempts between one and three. *)
Definition execution_constraints (e : ActionExecution) (t : gmap uuid ActionExecution) : bool :=
  negb (existsb (λ b, bool_decide (b.(exec_incident_id) = e.(exec_incident_id)) &&
                      (b.(exec_attempt) =? e.(exec_attempt))) (rows t)) &&
  negb (existsb (λ b, bool_decide (b.(exec_idempotency_key) = e.(exec_idempotency_key)) &&
                      negb (bool_decide (e.(exec_idempotency_key) = None))) (rows t)) &&
  (1 <=? e.(exec_attempt)) && (e.(exec_attempt) <=? 3).

Definition REMEDIATION_ACTIONS_TOTAL (action result : string) : list string :=
  ["cloudward_remediation_actions_total"; action; result].
Definition REMEDIATION_FAILURES_TOTAL (action : string) : list string :=
  ["cloudward_remediation_failures_total"; action].

Definition attempt_limit (message : string) : exn :=
  cw_error_status "REMEDIATION_ATTEMPT_LIMIT" message 409.

Definition has_key (key : string) (e : ActionExecution) : bool :=
  bool_decide (e.(exec_idempotency_key) = Some key).
Definition approval_for (proposal_id : uuid) (a : Approval) : bool :=
  bool_decide (a.(app_proposal_id) = proposal_id).

(** A row as it is inserted: [RUNNING], no result yet. *)
Definition new_execution (id : uuid) (now : datetime) (incident : Incident)
    (proposal_id : uuid) (action : ActionType) (attempt : Z) (key : option string)
    (rollback_of : option uuid) : ActionExecution :=
  {| exec_id := id; exec_created_at := now; exec_incident_id := incident.(inc_id);
     exec_proposal_id := proposal_id; exec_correlation_id := incident.(inc_correlation_id);
     exec_action_type := action; exec_attempt := attempt; exec_status := RUNNING;
     exec_result := []; exec_error_code := None; exec_started_at := now;
     exec_completed_at := None; exec_idempotency_key := key;
     exec_rollback_of_execution_id := rollback_of; exec_rolled_back_at := None |}.

Section execution.
Context {X : Type} `{!Runtime X}.

Definition insert_execution (e : ActionExecution) : M (World X) unit :=
  insert_row action_executions upd_action_executions (execution_constraints e) e.(exec_id) e.

(** The approval, when there is one, must be approved and not yet used. *)
Definition require_unclaimed (approval : option Approval) : M (World X) unit :=
  match approval with
  | None => ret tt
  | Some a =>
      do! raise_if (negb (bool_decide (a.(app_decision) = APPROVED)))
            (cw_error_status "ACTION_APPROVAL_REQUIRED"
               "The proposal does not have a current approved decision" 409);
      raise_if (negb (bool_decide (a.(app_execution_claimed_at) = None)))
        (cw_error_status "APPROVED_ACTION_ALREADY_CLAIMED"
           "The approved proposal was already claimed for execution" 409)
  end.

(** [approval.execution_claimed_at = utc_now(); approval.execution_reference = ...]. *)
Definition mark_claimed (now : datetime) (execution_id : uuid) (a : Approval) : Approval :=
  set_app_execution_reference (Some (uuid_str execution_id))
    (set_app_execution_claimed_at (Some now) a).

Definition claim_approval (approval : option Approval) (execution_id : uuid)
  : M (World X) unit :=
  match approval with
  | None => ret tt
  | Some a =>
      let! now := utc_now in
      set_approval a.(app_id) (mark_claimed now execution_id)
  end.

(** The claim of a key that nobody holds. *)
Definition claim_new (incident_id : uuid) (incident : Incident) (proposal : ActionProposal)
    (key : string) (attempt : Z) : M (World X) ExecutionClaim :=
  let! approval := query (λ db, latest app_proposal_version
                                  (approval_for proposal.(prop_id)) (rows db.(approvals))) in
  do! require_unclaimed approval;
  let! id := uuid4 in
  let! now := utc_now in
  do! set_incident incident_id (set_inc_retry_count attempt);
  do! insert_execution (new_execution id now incident proposal.(prop_id)
                          proposal.(prop_action_type) attempt (Some key) None);
  do! flush;
  do! claim_approval approval id;
  do! record_audit_system "ACTION_EXECUTION_CLAIMED" incident.(inc_correlation_id)
        (Some incident.(inc_id)) (Some (ActionType_value proposal.(prop_action_type)))
        (Some proposal.(prop_risk_score)) "SUCCEEDED"
        [("execution_id", JStr (uuid_str id)); ("attempt", JInt attempt);
         ("idempotency_key", JStr key)];
  do! append_stream_event "remediation.progress" (Some incident.(inc_id))
        [("execution_id", JStr (uuid_str id));
         ("action", JStr (ActionType_value proposal.(prop_action_type)));
         ("attempt", JInt attempt); ("status", JStr (RecordStatus_value RUNNING))];
  ret {| claim_execution := id; claimed := true |}.

Definition claim_action_execution (incident_id proposal_id : uuid) (runbook_id : string)
    (target : dict) (attempt : Z) : M (World X) ExecutionClaim :=
  do! raise_if ((attempt <? 1) || (3 <? attempt))
        (attempt_limit "Automatic remediation is limited to three attempts per incident");
  let! incident := the_incident incident_id in
  let! proposal := the_proposal proposal_id in
  let key := action_idempotency_key incident.(inc_id) runbook_id proposal.(prop_action_type)
               target attempt in
  let! existing := query (λ db, select_one (has_key key) db.(action_executions)) in
  match existing with
  | Some e => ret {| claim_execution := e.(exec_id); claimed := false |}
  | None => claim_new incident_id incident proposal key attempt
  end.

Definition finished (succeeded : bool) (result : dict) (error_code : option string)
    (now : datetime) (e : ActionExecution) : ActionExecution :=
  set_exec_completed_at (Some now)
    (set_exec_error_code error_code
       (set_exec_result result
          (set_exec_status (if succeeded then SUCCEEDED else FAILED) e))).

Definition finish_action_execution (incident_id execution_id : uuid) (succeeded : bool)
    (result : dict) (error_code : option string) : M (World X) unit :=
  let! incident := the_incident incident_id in
  let! now := utc_now in
  do! set_execution execution_id (finished succeeded result error_code now);
  let! e := the_execution execution_id in
  let action := ActionType_value e.(exec_action_type) in
  let status := RecordStatus_value e.(exec_status) in
  do! metric_add (REMEDIATION_ACTIONS_TOTAL action status) 1;
  do! when (negb succeeded) (metric_add (REMEDIATION_FAILURES_TOTAL action) 1);
  do! record_audit_system "ACTION_EXECUTED" incident.(inc_correlation_id)
        (Some incident.(inc_id)) (Some action) None status
        [("execution_id", JStr (uuid_str e.(exec_id))); ("attempt", JInt e.(exec_attempt));
         ("error_code", JOptStr error_code); ("result", JObj result)];
  do! append_stream_event "remediation.progress" (Some incident.(inc_id))
        [("execution_id", JStr (uuid_str e.(exec_id))); ("action", JStr action);
         ("attempt", JInt e.(exec_attempt)); ("status", JStr status);
         ("error_code", JOptStr error_code)];
  flush.
End execution.

(** ** Rollbacks *)

Inductive RollbackDisposition : Type :=
| AUTOMATIC | ROLLBACK_AWAITING_APPROVAL | ESCALATE | NOT_AVAILABLE.
#[export] Instance RollbackDisposition_eq_dec : EqDecision RollbackDisposition.
Proof. solve_decision. Defined.

Record RollbackCoordinator := { automatic_max_risk : Z }.

(** [RollbackCoordinator.decide]. *)
Definition decide_rollback (c : RollbackCoordinator) (action : ActionType) (risk_score : Z)
    (rollback_enabled policy_allows_rollback : bool) : RollbackDisposition :=
  let metadata := ACTION_REGISTRY action in
  if negb rollback_enabled || negb metadata.(reversible) || negb metadata.(rollback_capable)
  then NOT_AVAILABLE
  else if negb policy_allows_rollback then ESCALATE
  else if metadata.(persistent) then
    if risk_score <? 70 then ROLLBACK_AWAITING_APPROVAL else ESCALATE
  else if risk_score <=? c.(automatic_max_risk) then AUTOMATIC
  else if risk_score <? 70 then ROLLBACK_AWAITING_APPROVAL
  else ESCALATE.

(** [int(result.get(key, 0))] and [str(result.get(key, ""))]. *)
Definition result_int (key : string) (result : dict) : res Z :=
  py_int (default (JInt 0) (dict_get key result)).
Definition result_str (key : string) (result : dict) : string :=
  match dict_get key result with Some j => py_str j | None => EmptyString end.

Section rollback.
Context {X : Type} `{!Runtime X, !KubeApi X} (exe : Executor).

(** The audit event and the outbox event of a rollback. *)
Definition report_rollback (incident : Incident) (failed_id id : uuid) (previous : Z)
  : M (World X) unit :=
  do! record_audit "ACTION_ROLLED_BACK" incident.(inc_correlation_id)
        (Some incident.(inc_id)) "cloudward-rollback" ACTOR_SYSTEM None
        (Some (ActionType_value SCALE_STAGING_DEPLOYMENT)) None None "SUCCEEDED"
        [("execution_id", JStr (uuid_str id)); ("rollback_of", JStr (uuid_str failed_id));
         ("restored_replicas", JInt previous)];
  append_stream_event "remediation.progress" (Some incident.(inc_id))
    [("execution_id", JStr (uuid_str id)); ("rollback_of", JStr (uuid_str failed_id));
     ("action", JStr (ActionType_value SCALE_STAGING_DEPLOYMENT));
     ("status", JStr (RecordStatus_value SUCCEEDED))].

(** From the insertion of the execution that undoes [failed] on. *)
Definition perform_rollback (incident : Incident) (failed_id : uuid) (failed : ActionExecution)
    (proposal_id : uuid) (previous requested maximum_replicas : Z) : M (World X) uuid :=
  let! id := uuid4 in
  let! now := utc_now in
  do! insert_execution
        (new_execution id now incident proposal_id SCALE_STAGING_DEPLOYMENT
           (failed.(exec_attempt) + 1)
           (Some (sha256_hex ("rollback:" +:+ uuid_str failed.(exec_id) +:+ ":" +:+
                              str_of_Z previous)))
           (Some failed.(exec_id)));
  do! flush;
  let! scaled := scale_staging_deployment exe (result_str "namespace" failed.(exec_result))
                   (result_str "deployment" failed.(exec_result)) previous
                   maximum_replicas (Some requested) in
  let! now := utc_now in
  do! set_execution id (finished true (DeploymentScaleResult_dict scaled) None now);
  let! now := utc_now in
  do! set_execution failed_id (set_exec_rolled_back_at (Some now));
  do! report_rollback incident failed.(exec_id) id previous;
  do! flush;
  ret id.

Definition rollback_scale (incident_id failed_id : uuid) (maximum_replicas : Z)
  : M (World X) uuid :=
  let! incident := the_incident incident_id in
  do! lift (require_executable_action (inl SCALE_STAGING_DEPLOYMENT)
              (Environment_value incident.(inc_environment)));
  let! failed := the_execution failed_id in
  let! previous := lift (result_int "previous_replicas" failed.(exec_result)) in
  let! requested := lift (result_int "requested_replicas" failed.(exec_result)) in
  do! raise_if ((previous <? 1) || (requested <? 1))
        (cw_error_status "ROLLBACK_STATE_UNAVAILABLE"
           "Recorded scale execution is missing a valid previous state" 409);
  let! proposal := query (λ db, db.(action_proposals) !! failed.(exec_proposal_id)) in
  match proposal with
  | None => raise (cw_error_status "ACTION_PROPOSAL_NOT_FOUND"
                     "Rollback proposal was not found" 404)
  | Some proposal =>
      do! raise_if (3 <=? failed.(exec_attempt))
            (attempt_limit "No rollback attempt remains after the third automatic action");
      perform_rollback incident failed_id failed proposal.(prop_id) previous requested
        maximum_replicas
  end.
End rollback.

(** ** Runs of a claim *)

Section claims.
Context {X : Type} `{!Runtime X}.

Definition use_tables (d : Database) := (d.(approvals), d.(action_executions)).

Lemma require_unclaimed_world o (w : World X) : (require_unclaimed o w).2 = w.
Proof.
  destruct o as [a|]; [|done]. unfold require_unclaimed, bind, raise_if.
  by destruct (negb _), (negb _).
Qed.

(** The approval may be used: there is none, or it is approved and unused. *)
Definition usable (o : option Approval) : Prop :=
  ∀ a, o = Some a → a.(app_decision) = APPROVED ∧ a.(app_execution_claimed_at) = None.

Lemma require_unclaimed_ok o (w w' : World X) u :
  require_unclaimed o w = (Ok u, w') → usable o ∧ w' = w.
Proof.
  destruct o as [a|]; [|by intros [= _ ->]].
  intros Hrun. unfold require_unclaimed in Hrun. run_inv Hrun. boolify.
  split; [|done]. by intros ? [= <-].
Qed.

(** What a successful claim writes. *)
Definition claim_written (incident_id : uuid) (incident : Incident)
    (proposal : ActionProposal) (key : string) (attempt : Z) (id : uuid) (d d' : Database)
  : Prop :=
  ∃ approval now,
    let e := new_execution id now incident proposal.(prop_id) proposal.(prop_action_type)
               attempt (Some key) None in
    latest app_proposal_version (approval_for proposal.(prop_id)) (rows d.(approvals)) = approval ∧
    usable approval ∧ d.(action_executions) !! id = None ∧
    execution_constraints e d.(action_executions) = true ∧
    d'.(action_executions) = <[id := e]> d.(action_executions) ∧
    match approval with
    | None => d'.(approvals) = d.(approvals)
    | Some a => ∃ now, d'.(approvals) = alter (mark_claimed now id) a.(app_id) d.(approvals)
    end ∧
    d'.(incidents) = alter (set_inc_retry_count attempt) incident_id d.(incidents) ∧
    d'.(action_proposals) = d.(action_proposals).

Lemma claim_approval_run o id (w : World X) :
  ∃ w', claim_approval o id w = (Ok tt, w') ∧
    w'.(work).(action_executions) = w.(work).(action_executions) ∧
    w'.(work).(incidents) = w.(work).(incidents) ∧
    w'.(work).(action_proposals) = w.(work).(action_proposals) ∧
    match o with
    | None => w'.(work).(approvals) = w.(work).(approvals)
    | Some a => ∃ now, w'.(work).(approvals) =
                  alter (mark_claimed now id) a.(app_id) w.(work).(approvals)
    end.
Proof. destruct o as [a|]; eexists; split_and!; try reflexivity. by eexists. Qed.

(** Either the claim raises and leaves the two tables alone, or it is written. *)
Lemma claim_new_run iid i p key attempt (w : World X) :
  let run := claim_new iid i p key attempt w in
  (∃ e, run.1 = Raise e ∧ use_tables run.2.(work) = use_tables w.(work)) ∨
  (∃ id, run.1 = Ok {| claim_execution := id; claimed := true |} ∧
     claim_written iid i p key attempt id w.(work) run.2.(work)).
Proof.
  cbv zeta. unfold claim_new.
  set (o := latest app_proposal_version (approval_for (prop_id p)) (rows (approvals (work w)))).
  rewrite (bind_step _ _ w o w) by done.
  destruct (require_unclaimed o w) as [[[]|e] w0] eqn:Hr.
  2: { pose proof (require_unclaimed_world o w) as Hw. rewrite Hr in Hw. simpl in Hw. subst w0.
       left. exists e. by rewrite (bind_step_raise _ _ _ _ _ Hr). }
  rewrite (bind_step _ _ _ _ _ Hr). apply require_unclaimed_ok in Hr as [Hu ->].
  set (w1 := set_ext (rt_uuid4 w.(ext)).2 w). set (id := (rt_uuid4 w.(ext)).1).
  rewrite (bind_step _ _ w id w1) by done.
  set (now := (rt_now w1.(ext)).1). set (w2 := set_ext (rt_now w1.(ext)).2 w1).
  rewrite (bind_step _ _ w1 now w2) by done.
  set (w3 := (set_incident iid (set_inc_retry_count attempt) w2).2).
  rewrite (bind_step _ _ w2 tt w3) by done.
  set (e := new_execution id now i (prop_id p) (prop_action_type p) attempt (Some key) None).
  destruct (insert_execution e w3) as [[[]|x] w4] eqn:Hins.
  2: { left. exists x. rewrite (bind_step_raise _ _ _ _ _ Hins). split; [done|].
       revert Hins. unfold insert_execution, insert_row, query, gets, bind, raise_if. simpl.
       destruct (negb _); [|done]. by intros [= _ <-]. }
  rewrite (bind_step _ _ _ _ _ Hins). right. exists id.
  apply insert_row_ok in Hins as (Hfresh & Hok & ->).
  rewrite (bind_step flush _ _ tt _ eq_refl).
  destruct (claim_approval_run o id (set_work (upd_action_executions (λ t, <[id:=e]> t) w3.(work)) w3))
    as (w5 & H5 & He & Hi & Hp & Ha).
  rewrite (bind_step _ _ _ _ _ H5). split; [done|]. exists o, now.
  split_and!; [done|done|done|done|done| |done|done]. by destruct o.
Qed.

Definition key_for (iid : Incident) (p : ActionProposal) (runbook_id : string) (target : dict)
    (attempt : Z) : string :=
  action_idempotency_key iid.(inc_id) runbook_id p.(prop_action_type) target attempt.

Lemma claim_missing iid pid rb target attempt (w : World X) :
  w.(work).(incidents) !! iid = None ∨ w.(work).(action_proposals) !! pid = None →
  ∃ e, (claim_action_execution iid pid rb target attempt w).1 = Raise e ∧
    use_tables (claim_action_execution iid pid rb target attempt w).2.(work) = use_tables w.(work).
Proof.
  intros Hn. unfold claim_action_execution, raise_if, bind, deref, query, gets.
  destruct (_ || _); simpl; [by eexists|]. unfold bind. simpl.
  destruct (incidents (work w) !! iid) as [i|]; simpl; [|by eexists]. unfold bind. simpl.
  destruct (action_proposals (work w) !! pid) as [p|]; simpl; [by destruct Hn|by eexists].
Qed.

(** A call with an attempt in range and known objects reaches the lookup of the key. *)
Lemma claim_reaches iid pid rb target attempt i p (w : World X) :
  w.(work).(incidents) !! iid = Some i → w.(work).(action_proposals) !! pid = Some p →
  1 ≤ attempt ≤ 3 →
  let key := key_for i p rb target attempt in
  claim_action_execution iid pid rb target attempt w =
  match select_one (has_key key) w.(work).(action_executions) with
  | Some e => (Ok {| claim_execution := e.(exec_id); claimed := false |}, w)
  | None => claim_new iid i p key attempt w
  end.
Proof.
  intros Hi Hp Hatt. cbv zeta. unfold claim_action_execution.
  destruct ((attempt <? 1) || (3 <? attempt)) eqn:Hb;
    [rewrite orb_true_iff, !Z.ltb_lt in Hb; lia|]. cbn [raise_if]. rewrite bind_ret.
  rewrite (bind_step _ _ w i w) by by apply deref_ok.
  rewrite (bind_step _ _ w p w) by by apply deref_ok.
  fold (key_for i p rb target attempt).
  rewrite (bind_step _ _ w (select_one (has_key (key_for i p rb target attempt))
             w.(work).(action_executions)) w) by done.
  by destruct (select_one _ _).
Qed.

Lemma claim_run iid pid rb target attempt (w : World X) :
  let run := claim_action_execution iid pid rb target attempt w in
  (∃ e, run.1 = Raise e ∧ use_tables run.2.(work) = use_tables w.(work)) ∨
  (∃ i p, w.(work).(incidents) !! iid = Some i ∧ w.(work).(action_proposals) !! pid = Some p ∧
     1 ≤ attempt ≤ 3 ∧
     let key := key_for i p rb target attempt in
     match select_one (has_key key) w.(work).(action_executions) with
     | Some e => run = (Ok {| claim_execution := e.(exec_id); claimed := false |}, w)
     | None => ∃ id, run.1 = Ok {| claim_execution := id; claimed := true |} ∧
                 claim_written iid i p key attempt id w.(work) run.2.(work)
     end).
Proof.
  cbv zeta. destruct (decide (1 ≤ attempt ≤ 3)) as [Hatt|Hatt].
  2: { left. unfold claim_action_execution.
       assert ((attempt <? 1) || (3 <? attempt) = true) as ->
         by (rewrite orb_true_iff, !Z.ltb_lt; lia). by eexists. }
  destruct (incidents (work w) !! iid) as [i|] eqn:Hi; [|left; apply claim_missing; by left].
  destruct (action_proposals (work w) !! pid) as [p|] eqn:Hp; [|left; apply claim_missing; by right].
  rewrite (claim_reaches _ _ _ _ _ _ _ _ Hi Hp Hatt). cbv zeta.
  destruct (select_one _ _) as [e|] eqn:Hs.
  - right. exists i, p. split_and!; [done..|lia|lia|]. by rewrite Hs.
  - destruct (claim_new_run iid i p (key_for i p rb target attempt) attempt w) as [Hr|Hr];
      [by left|right]. exists i, p. split_and!; [done..|lia|lia|]. by rewrite Hs.
Qed.
End claims.

(** ** Properties of claims *)

Section claim_properties.
Context {X : Type} `{!Runtime X}.

(** A claim is idempotent.  Repeating a claim that returned gives the same
    execution, claims nothing the second time and changes nothing. *)
Theorem claim_idempotent iid pid rb target attempt (w w' : World X) c :
  claim_action_execution iid pid rb target attempt w = (Ok c, w') →
  claim_action_execution iid pid rb target attempt w' =
    (Ok {| claim_execution := c.(claim_execution); claimed := false |}, w').
Proof.
  intros Hrun. pose proof (claim_run iid pid rb target attempt w) as Hc. cbv zeta in Hc.
  rewrite Hrun in Hc. destruct Hc as [(e & He & _)|(i & p & Hi & Hp & Hatt & Hc)]; [done|].
  destruct (select_one _ _) as [e|] eqn:Hs in Hc; [by simplify_eq|].
  destruct Hc as (id & Hid & o & now & _ & _ & Hfresh & _ & He & _ & Hinc & Hprop).
  injection Hid as ->. simpl in He, Hinc, Hprop.
  assert (w'.(work).(incidents) !! iid = Some (set_inc_retry_count attempt i)) as Hi'
    by by rewrite Hinc, lookup_alter_eq, Hi.
  assert (w'.(work).(action_proposals) !! pid = Some p) as Hp' by by rewrite Hprop.
  set (key := key_for i p rb target attempt) in *.
  assert (∃ e, select_one (has_key key) w'.(work).(action_executions) = Some e ∧
            e.(exec_id) = id) as (e & Hsel & Heid).
  { eexists. rewrite He. split; [apply select_one_insert; [done|done|]|done].
    by apply bool_decide_eq_true. }
  rewrite (claim_reaches _ _ _ _ _ _ _ _ Hi' Hp' Hatt). cbv zeta.
  change (key_for (set_inc_retry_count attempt i) p rb target attempt) with key.
  by rewrite Hsel, Heid.
Qed.
End claim_properties.


(** ** An approval is used once *)

Section once.
Context {X : Type} `{!Runtime X, !KubeApi X, !Pydantic, !PolicyServer X}.
Context (settings : Settings) (opa : OPAClient).

(** One call of [decide], of a claim or of the end of an execution, with any
    arguments and however it ends. *)
Inductive action_step : relation (World X) :=
| act_decide id decision principal comment w :
    action_step w (decide_approval settings opa id decision principal comment w).2
| act_claim iid pid rb target attempt w :
    action_step w (claim_action_execution iid pid rb target attempt w).2
| act_finish iid eid ok result code w :
    action_step w (finish_action_execution iid eid ok result code w).2.

(** The executions of a proposal. *)
Definition executes (pid : uuid) (d : Database) (id : uuid) : Prop :=
  ∃ e, d.(action_executions) !! id = Some e ∧ e.(exec_proposal_id) = pid.

Definition at_most_one_execution (pid : uuid) (d : Database) : Prop :=
  ∀ id1 id2, executes pid d id1 → executes pid d id2 → id1 = id2.

(** Rows are stored under their primary key. *)
Definition keyed (d : Database) : Prop :=
  ∀ id a, d.(approvals) !! id = Some a → a.(app_id) = id.

(** [aid] is the only approval of the proposal. *)
Definition sole_approval (aid pid : uuid) (d : Database) : Prop :=
  ∀ id a, d.(approvals) !! id = Some a → a.(app_proposal_id) = pid ↔ id = aid.

(** Unused and unexecuted, or approved and used by the one execution there is. *)
Definition used_once (aid pid : uuid) (d : Database) : Prop :=
  keyed d ∧ sole_approval aid pid d ∧
  ∃ a, d.(approvals) !! aid = Some a ∧
    ((a.(app_execution_claimed_at) = None ∧ ∀ id, ¬ executes pid d id) ∨
     (a.(app_decision) = APPROVED ∧ ∃ eid at_,
        approval_use a = (Some at_, Some (uuid_str eid)) ∧
        ∀ id, executes pid d id → id = eid)).

(** Updates of one approval that keep its identity, proposal and use. *)
Lemma used_once_decides aid pid id a d d' :
  used_once aid pid d → d.(approvals) !! id = Some a → a.(app_decision) = DECISION_PENDING →
  decides id a d d' → used_once aid pid d'.
Proof.
  intros (Hk & Hs & b & Hb & Hcase) Ha Hpend (f & _ & _ & Hbind & Huse & Ht & Hx).
  assert (∀ k c, alter f id d.(approvals) !! k = Some c →
    ∃ c0, d.(approvals) !! k = Some c0 ∧ app_id c = app_id c0 ∧
          app_proposal_id c = app_proposal_id c0) as Hsame.
  { intros k c. destruct (decide (id = k)) as [<-|Hne].
    - rewrite lookup_alter_eq, Ha. intros [= <-]. exists a.
      by injection Hbind as ? ? ? ? ? ? ? ? ? ? ? ? ?.
    - rewrite lookup_alter_ne by done. eauto. }
  split_and!.
  - intros k c. rewrite Ht. intros (c0 & Hc0 & -> & _)%Hsame. by apply Hk.
  - intros k c. rewrite Ht. intros (c0 & Hc0 & _ & ->)%Hsame. exact (Hs _ _ Hc0).
  - assert (∀ k, executes pid d' k → executes pid d k) as Hex
      by (intros k (e & He & ?); exists e; by rewrite <- Hx).
    rewrite Ht. destruct (decide (id = aid)) as [->|Hne].
    + rewrite Ha in Hb. injection Hb as <-. exists (f a). rewrite lookup_alter_eq, Ha.
      split; [done|]. destruct Hcase as [[Hc Hn]|[? _]]; [|congruence].
      left. split; [|naive_solver]. unfold approval_use in Huse. congruence.
    + exists b. rewrite lookup_alter_ne by done. split; [done|].
      destruct Hcase as [[Hc Hn]|(? & eid & at_ & ? & Hu)]; [left; naive_solver|right].
      split; [done|]. exists eid, at_. split; [done|]. intros k Hke. by apply Hu, Hex.
Qed.

Lemma executes_insert pid d d' id e k :
  d'.(action_executions) = <[id := e]> d.(action_executions) →
  executes pid d' k → (k = id ∧ e.(exec_proposal_id) = pid) ∨ executes pid d k.
Proof.
  intros Hx (e' & He & Hp). rewrite Hx in He.
  apply lookup_insert_Some in He as [[-> ->]|[_ He]]; [by left|right; by exists e'].
Qed.

Lemma used_once_claim aid pid iid i p key attempt id d d' :
  used_once aid pid d → claim_written iid i p key attempt id d d' → used_once aid pid d'.
Proof.
  intros (Hk & Hs & b & Hb & Hcase) (o & now & Ho & Hus & _ & _ & Hx & Happ & _ & _).
  assert (∀ k, executes pid d' k → (k = id ∧ p.(prop_id) = pid) ∨ executes pid d k) as Hex
    by (intros k; exact (executes_insert pid d d' id _ k Hx)).
  destruct o as [a|].
  - apply latest_Some in Ho as (Hin & Hfor & _). apply bool_decide_eq_true in Hfor.
    apply elem_of_rows in Hin as [k Hka]. rewrite (Hk k a Hka) in Happ.
    destruct Happ as [at_ Happ]. destruct (Hus a eq_refl) as [Happr Hun].
    assert (∀ j c, d'.(approvals) !! j = Some c → ∃ c0, d.(approvals) !! j = Some c0 ∧
      app_id c = app_id c0 ∧ app_proposal_id c = app_proposal_id c0) as Hsame.
    { intros j c. rewrite Happ. destruct (decide (k = j)) as [<-|Hne].
      - rewrite lookup_alter_eq, Hka. intros [= <-]. by exists a.
      - rewrite lookup_alter_ne by done. eauto. }
    split_and!.
    + intros j c (c0 & Hc0 & -> & _)%Hsame. by apply Hk.
    + intros j c (c0 & Hc0 & _ & ->)%Hsame. exact (Hs _ _ Hc0).
    + rewrite Happ. destruct (decide (k = aid)) as [->|Hne].
      * rewrite Hka in Hb. injection Hb as <-. exists (mark_claimed at_ id a).
        rewrite lookup_alter_eq, Hka. split; [done|]. right. split; [done|].
        exists id, at_. split; [done|]. destruct Hcase as [[_ Hn]|(_ & eid & at' & Hu & _)].
        -- intros j [[-> _]|Hj]%Hex; [done|by apply Hn in Hj].
        -- unfold approval_use in Hu. congruence.
      * exists b. rewrite lookup_alter_ne by done. split; [done|].
        assert (p.(prop_id) ≠ pid) as Hpid by (rewrite <- Hfor; by intros ?%(Hs k a Hka)).
        destruct Hcase as [[Hc Hn]|(? & eid & at' & ? & Hu)]; [left|right].
        -- split; [done|]. intros j [[_ ?]|Hj]%Hex; [done|by apply Hn in Hj].
        -- split; [done|]. exists eid, at'. split; [done|].
           intros j [[_ ?]|Hj]%Hex; [done|by apply Hu].
  - rewrite latest_None in Ho.
    assert (p.(prop_id) ≠ pid) as Hpid.
    { intros <-. specialize (Ho b). unfold approval_for in Ho.
      rewrite bool_decide_eq_true_2 in Ho by (by apply (Hs aid b Hb)).
      assert (b ∈ rows d.(approvals)) by (apply elem_of_rows; by exists aid). by discriminate Ho. }
    split_and!; [intros j c; rewrite Happ; by apply Hk|intros j c; rewrite Happ; by apply Hs|].
    exists b. rewrite Happ. split; [done|].
    destruct Hcase as [[Hc Hn]|(? & eid & at' & ? & Hu)]; [left|right].
    + split; [done|]. intros j [[_ ?]|Hj]%Hex; [done|by apply Hn in Hj].
    + split; [done|]. exists eid, at'. split; [done|].
      intros j [[_ ?]|Hj]%Hex; [done|by apply Hu].
Qed.

(** Ending an execution. *)
Definition used (aid pid : uuid) (w : World X) : Prop := used_once aid pid w.(work).

Lemma used_tables aid pid d d' :
  use_tables d' = use_tables d → used_once aid pid d → used_once aid pid d'.
Proof.
  intros [= Ha He]. unfold used_once, keyed, sole_approval, executes. by rewrite Ha, He.
Qed.

Lemma used_same aid pid {A} (m : M (World X) A) :
  evolves (same_db use_tables) m → evolves (keeps (used aid pid)) m.
Proof. intros Hm w. exact (used_tables aid pid _ _ (Hm w)). Qed.

Lemma used_set_execution aid pid eid f :
  (∀ e, (f e).(exec_proposal_id) = e.(exec_proposal_id)) →
  evolves (keeps (used aid pid)) (set_execution eid f).
Proof.
  intros Hf w (Hk & Hs & b & Hb & Hcase).
  assert (∀ k, executes pid (set_execution eid f w).2.(work) k → executes pid w.(work) k) as Hex.
  { intros k (e & He & <-). simpl in He. destruct (decide (eid = k)) as [<-|Hne].
    - rewrite lookup_alter_eq in He. apply fmap_Some in He as (e0 & He0 & ->). by exists e0.
    - rewrite lookup_alter_ne in He by done. by exists e. }
  split_and!; [exact Hk|exact Hs|]. exists b. split; [exact Hb|].
  destruct Hcase as [[Hc Hn]|(? & eid' & at_ & ? & Hu)]; [left|right].
  - split; [done|]. intros k Hk'%Hex. by apply Hn in Hk'.
  - split; [done|]. exists eid', at_. split; [done|]. intros k Hk'%Hex. by apply Hu.
Qed.

Lemma finish_used aid pid iid eid ok result code :
  evolves (keeps (used aid pid)) (finish_action_execution iid eid ok result code).
Proof.
  unfold finish_action_execution.
  repeat first [ evolve_step | apply used_set_execution; done
               | apply used_same; solve [eauto with cw_pres] ].
Qed.

Lemma action_step_used aid pid w w' :
  action_step w w' → used_once aid pid w.(work) → used_once aid pid w'.(work).
Proof.
  intros [id decision principal comment w1|iid p rb target attempt w1|iid eid ok result code w1] Hu.
  - destruct (decide_approval_run settings opa id decision principal comment w1)
      as [[e ->]|(a & Ha & Hp & ->)]; [done|].
    destruct (decide_pending_tables settings opa id a decision principal comment w1 Ha)
      as [->|Hd]; [done|]. by eapply used_once_decides.
  - destruct (claim_run iid p rb target attempt w1) as [(e & _ & Ht)|(i & q & _ & _ & _ & Hc)].
    + by apply used_tables with w1.(work).
    + cbv zeta in Hc. destruct (select_one (has_key _) _) in Hc; [by rewrite Hc|].
      destruct Hc as (id & _ & Hw). by eapply used_once_claim.
  - by apply finish_used.
Qed.

(** C33: an approval is used once.  Start from a proposal with one unused approval
    and no execution; along any sequence of decisions, claims (with any runbook,
    target and attempt) and ends of executions, the proposal gets at most one
    execution, and it gets one only when that approval has been approved, marked
    as claimed and bound to that very execution. *)
Theorem approved_executed_once (w w' : World X) aid a pid :
  keyed w.(work) → sole_approval aid pid w.(work) → w.(work).(approvals) !! aid = Some a →
  a.(app_execution_claimed_at) = None → (∀ id, ¬ executes pid w.(work) id) →
  rtc action_step w w' →
  at_most_one_execution pid w'.(work) ∧
  (∀ id, executes pid w'.(work) id → ∃ a' at_, w'.(work).(approvals) !! aid = Some a' ∧
     a'.(app_decision) = APPROVED ∧ approval_use a' = (Some at_, Some (uuid_str id))).
Proof.
  intros Hk Hs Ha Hc Hn Hsteps.
  assert (used_once aid pid w'.(work)) as (_ & _ & b & Hb & Hcase).
  { assert (used_once aid pid w.(work)) as Hu
      by (split_and!; [done|done|]; exists a; split; [done|by left]).
    clear -Hsteps Hu. induction Hsteps as [|w w1 w2 Hstep _ IH]; [done|].
    by eapply IH, action_step_used. }
  destruct Hcase as [[_ Hno]|(Hd & eid & at_ & Huse & Huniq)].
  - split; [intros ?? []%Hno|intros ? []%Hno].
  - split; [intros id1 id2 ->%Huniq ->%Huniq; done|].
    intros id ->%Huniq. by exists b, at_.
Qed.
End once.

(** ** At most three attempts *)

Section attempts.
Context {X : Type} `{!Runtime X, !KubeApi X} (exe : Executor).

(** The constraints of the table, as a property of its rows. *)
Definition attempts_ok (d : Database) : Prop :=
  ∀ id e, d.(action_executions) !! id = Some e → 1 ≤ e.(exec_attempt) ≤ 3 ∧
    ∀ id' e', d.(action_executions) !! id' = Some e' →
      e'.(exec_incident_id) = e.(exec_incident_id) →
      e'.(exec_attempt) = e.(exec_attempt) → id' = id.

Definition attempts_hold (w : World X) : Prop := attempts_ok w.(work).
Abbreviation attempts_kept m := (evolves (keeps attempts_hold) m).

Lemma attempts_same {A} (m : M (World X) A) :
  evolves (same_db action_executions) m → attempts_kept m.
Proof.
  intros Hm w. specialize (Hm w). unfold same_db, stable in Hm.
  unfold keeps, attempts_hold, attempts_ok. by rewrite Hm.
Qed.

Lemma attempts_set_execution eid f :
  (∀ e, execution_identity (f e) = execution_identity e) → attempts_kept (set_execution eid f).
Proof.
  intros Hf w Hok.
  assert (∀ k e, (set_execution eid f w).2.(work).(action_executions) !! k = Some e →
    ∃ e0, w.(work).(action_executions) !! k = Some e0 ∧
      e.(exec_incident_id) = e0.(exec_incident_id) ∧ e.(exec_attempt) = e0.(exec_attempt)) as Hold.
  { intros k e He. simpl in He. destruct (decide (eid = k)) as [<-|Hne].
    - rewrite lookup_alter_eq in He. apply fmap_Some in He as (e0 & He0 & ->). exists e0.
      specialize (Hf e0). by injection Hf as _ -> _ _ -> _ _.
    - rewrite lookup_alter_ne in He by done. by exists e. }
  intros k e (e0 & He0 & Hi & Ha)%Hold. destruct (Hok _ _ He0) as [Hb Hu]. rewrite Hi, Ha.
  split; [done|]. intros k' e' (e1 & He1 & -> & ->)%Hold. by apply Hu.
Qed.

Lemma attempts_insert e : attempts_kept (insert_execution e).
Proof.
  intros w Hok. unfold insert_execution.
  destruct (insert_row action_executions upd_action_executions (execution_constraints e)
    (exec_id e) e w) as [[[]|x] w'] eqn:Hins; simpl.
  2: { revert Hins. unfold insert_row, query, gets, bind, raise_if. simpl.
       destruct (negb _); [|done]. by intros [= _ <-]. }
  apply insert_row_ok in Hins as (Hfresh & Hc & ->). unfold execution_constraints in Hc.
  rewrite !andb_true_iff, negb_true_iff, !Z.leb_le in Hc. destruct Hc as [[[Hdup _] H1] H3].
  assert (∀ k b, w.(work).(action_executions) !! k = Some b →
    b.(exec_incident_id) = e.(exec_incident_id) → b.(exec_attempt) ≠ e.(exec_attempt)) as Hno.
  { intros k b Hb Hi Ha. apply not_true_iff_false in Hdup. apply Hdup, existsb_elem_of.
    exists b. split; [apply elem_of_rows; by exists k|].
    rewrite Hi, Ha, bool_decide_eq_true_2 by done. apply Z.eqb_refl. }
  unfold attempts_hold, attempts_ok. simpl.
  intros k b [[<- <-]|[Hk Hb]]%lookup_insert_Some.
  - split; [done|]. intros k' b' [[<- <-]|[_ Hb']]%lookup_insert_Some; [done|].
    intros Hi Ha. by destruct (Hno _ _ Hb' Hi).
  - destruct (Hok _ _ Hb) as [Hr Hu]. split; [done|].
    intros k' b' [[<- <-]|[_ Hb']]%lookup_insert_Some; [|by apply Hu].
    intros Hi Ha. by destruct (Hno _ _ Hb (eq_sym Hi)).
Qed.

Ltac attempts :=
  repeat first [ evolve_step | apply attempts_insert | apply attempts_set_execution; done
               | apply attempts_same; solve [eauto with cw_pres] ].

Lemma claim_attempts iid pid rb target attempt :
  attempts_kept (claim_action_execution iid pid rb target attempt).
Proof.
  unfold claim_action_execution, claim_new, require_unclaimed, claim_approval. attempts.
Qed.

Lemma finish_attempts iid eid ok result code :
  attempts_kept (finish_action_execution iid eid ok result code).
Proof. unfold finish_action_execution. attempts. Qed.

Lemma rollback_attempts iid eid maximum : attempts_kept (rollback_scale exe iid eid maximum).
Proof. unfold rollback_scale, perform_rollback, report_rollback. attempts. Qed.

(** One claim, end or rollback, with any arguments and however it ends. *)
Inductive execution_step : relation (World X) :=
| exec_claim iid pid rb target attempt w :
    execution_step w (claim_action_execution iid pid rb target attempt w).2
| exec_finish iid eid ok result code w :
    execution_step w (finish_action_execution iid eid ok result code w).2
| exec_rollback iid eid maximum w :
    execution_step w (rollback_scale exe iid eid maximum w).2.

Definition of_incident (iid : uuid) (e : ActionExecution) : bool :=
  bool_decide (e.(exec_incident_id) = iid).

Lemma length_filter_snd {K R} (p : R → bool) (m : list (K * R)) :
  length (List.filter p m.*2) = length (List.filter (λ kv, p kv.2) m).
Proof.
  induction m as [|kv m IH]; [done|]. cbn. destruct (p kv.2); cbn; [f_equal|]; exact IH.
Qed.

(** Distinct attempts between one and three: at most three rows. *)
Lemma attempts_count d iid :
  attempts_ok d → count_rows (of_incident iid) d.(action_executions) ≤ 3.
Proof.
  intros Hok. unfold count_rows, rows.
  set (l := List.filter (λ kv : uuid * ActionExecution, of_incident iid kv.2)
              (map_to_list d.(action_executions))).
  assert (length (List.filter (of_incident iid) (map_to_list d.(action_executions)).*2) =
          length l) as -> by apply length_filter_snd.
  assert (∀ kv, kv ∈ l → d.(action_executions) !! kv.1 = Some kv.2 ∧
                         kv.2.(exec_incident_id) = iid) as Hl.
  { intros [k e] [Hin Hp]%list_elem_of_In%filter_In. simpl in *.
    apply bool_decide_eq_true in Hp. split; [|done].
    by apply elem_of_map_to_list, list_elem_of_In. }
  assert (NoDup (map (λ kv, exec_attempt kv.2) l)) as Hnd.
  { apply NoDup_fmap_2_strong.
    - intros [k e] [k' e'] [Hk Hi]%Hl [Hk' Hi']%Hl Ha. simpl in *.
      destruct (Hok _ _ Hk) as [_ Hu]. assert (k' = k) as -> by (apply (Hu _ _ Hk'); congruence).
      by simplify_eq.
    - apply NoDup_ListNoDup, List.NoDup_filter, NoDup_ListNoDup, NoDup_map_to_list. }
  assert (map (λ kv, exec_attempt kv.2) l ⊆+ [1; 2; 3]) as Hsub.
  { apply NoDup_submseteq; [done|]. intros z Hz.
    apply list_elem_of_fmap in Hz as ([k e] & -> & Hin). destruct (Hl _ Hin) as [Hk _].
    destruct (Hok _ _ Hk) as [Hr _]. simpl in *.
    assert (exec_attempt e = 1 ∨ exec_attempt e = 2 ∨ exec_attempt e = 3) as [->|[->| ->]] by lia;
      set_solver. }
  apply submseteq_length in Hsub. rewrite length_map in Hsub. simpl in Hsub. lia.
Qed.

(** An incident never gets a fourth execution.  Along any sequence of claims,
    ends and rollbacks, however they end, the executions of an incident number at
    most three, with distinct attempts between one and three. *)
Theorem at_most_three_executions (w w' : World X) iid :
  attempts_ok w.(work) → rtc execution_step w w' →
  attempts_ok w'.(work) ∧ count_rows (of_incident iid) w'.(work).(action_executions) ≤ 3.
Proof.
  intros Hok Hsteps. assert (attempts_ok w'.(work)) as Hok'; [|by split; [|apply attempts_count]].
  induction Hsteps as [w|w w1 w2 Hstep _ IH]; [done|]. apply IH. clear IH.
  destruct Hstep; [by apply claim_attempts|by apply finish_attempts|by apply rollback_attempts].
Qed.
End attempts.

(** ** Rollbacks *)

(** The actions that can be undone without leaving a trace. *)
Definition transient_actions : list ActionType :=
  [SCALE_STAGING_DEPLOYMENT; SCALE_WORKLOAD; APPLY_QUARANTINE; QUARANTINE_WORKLOAD;
   REMOVE_QUARANTINE].

Lemma transient_spec action :
  action ∈ transient_actions ↔
  (ACTION_REGISTRY action).(rollback_capable) = true ∧
  (ACTION_REGISTRY action).(persistent) = false.
Proof.
  rewrite <- (bool_decide_eq_true (action ∈ transient_actions)).
  destruct action; vm_compute; naive_solver.
Qed.

Lemma registry_reversible action : (ACTION_REGISTRY action).(reversible) = true.
Proof. by destruct action. Qed.

(** The decision about a rollback.  It runs unattended only when rollback is
    enabled, policy allows it, the action can be undone and is not persistent, and
    the risk is within the configured bound; it is not available exactly when it is
    disabled or the action cannot be undone; a risk of 70 or more never waits for an
    approval, and lowering the risk never takes an automatic rollback away. *)
Theorem decide_rollback_spec (c : RollbackCoordinator) (action : ActionType)
    (risk : Z) (enabled allows : bool) :
  (decide_rollback c action risk enabled allows = AUTOMATIC ↔
     enabled = true ∧ allows = true ∧ risk ≤ c.(automatic_max_risk) ∧
     action ∈ transient_actions) ∧
  (decide_rollback c action risk enabled allows = NOT_AVAILABLE ↔
     enabled = false ∨ (ACTION_REGISTRY action).(rollback_capable) = false) ∧
  (decide_rollback c action risk enabled allows = ROLLBACK_AWAITING_APPROVAL → risk < 70) ∧
  (∀ risk', risk' ≤ risk → decide_rollback c action risk enabled allows = AUTOMATIC →
     decide_rollback c action risk' enabled allows = AUTOMATIC).
Proof.
  rewrite transient_spec. unfold decide_rollback. rewrite registry_reversible. simpl.
  destruct enabled, (rollback_capable _), allows, (persistent _); simpl;
    destruct (Z.ltb_spec risk 70), (Z.leb_spec risk (automatic_max_risk c));
    (split_and!; [naive_solver lia|naive_solver|done|]); intros risk' Hle Ha; try done;
    by destruct (Z.leb_spec risk' (automatic_max_risk c)); [|lia].
Qed.

Section rollback_runs.
Context {X : Type} `{!Runtime X, !KubeApi X} (exe : Executor).

Lemma insert_execution_trace e : evolves same_trace (insert_execution (X:=X) e).
Proof. unfold insert_execution. evolve. Qed.

Lemma report_rollback_same i f id p : evolves (same_db action_executions) (report_rollback i f id p).
Proof. unfold report_rollback. evolve. Qed.
Lemma report_rollback_trace i f id p : evolves same_trace (report_rollback i f id p).
Proof. unfold report_rollback. evolve. Qed.

(** What a rollback that returned did. *)
Lemma perform_rollback_ok i fid failed pid previous requested maximum (w w' : World X) id :
  perform_rollback exe i fid failed pid previous requested maximum w = (Ok id, w') →
  w.(work).(action_executions) !! fid = Some failed →
  let namespace := result_str "namespace" failed.(exec_result) in
  let deployment := result_str "deployment" failed.(exec_result) in
  namespace = "cloudward-staging" ∧ 1 ≤ previous ≤ maximum ∧
  w'.(trace) = w.(trace) ++ [CallScale namespace deployment previous] ∧
  (∃ e, w'.(work).(action_executions) !! id = Some e ∧ e.(exec_status) = SUCCEEDED ∧
     e.(exec_attempt) = failed.(exec_attempt) + 1 ∧
     e.(exec_rollback_of_execution_id) = Some failed.(exec_id) ∧
     dict_get "previous_replicas" e.(exec_result) = Some (JInt requested) ∧
     dict_get "requested_replicas" e.(exec_result) = Some (JInt previous)) ∧
  (∃ at_, w'.(work).(action_executions) !! fid = Some (set_exec_rolled_back_at (Some at_) failed)).
Proof.
  unfold perform_rollback. intros Hrun Hf.
  apply bind_ok in Hrun as (id' & w1 & H1 & Hrun). injection H1 as _ <-.
  apply bind_ok in Hrun as (now & w2 & H2 & Hrun). injection H2 as _ <-.
  apply bind_ok in Hrun as ([] & w3 & H3 & Hrun).
  apply insert_row_ok in H3 as (Hfresh & _ & ->). simpl in Hfresh.
  apply bind_ok in Hrun as (u4 & w4 & H4 & Hrun). run_inv H4.
  apply bind_ok in Hrun as (scaled & w5 & H5 & Hrun).
  match type of H5 with _ ?wi = _ =>
    pose proof (scale_cases exe (result_str "namespace" failed.(exec_result))
      (result_str "deployment" failed.(exec_result)) previous maximum (Some requested) wi) as Hg;
    pose proof (evolves_run _ _ _ _ _ (confined_same action_executions _ _
      (scale_confined exe _ _ _ _ _)) H5) as Hsame end.
  rewrite H5 in Hg. destruct Hg as [(e & w6 & He & _)|(r & w6 & He & Htr & Hs & Hq)]; [done|].
  injection He as <- <-. destruct (Hq scaled eq_refl) as (Hreq & _ & Hprev).
  specialize (Hprev requested eq_refl).
  apply bind_ok in Hrun as (n1 & w7 & H7 & Hrun). injection H7 as _ <-.
  apply bind_ok in Hrun as (u8 & w8 & H8 & Hrun). run_inv H8.
  apply bind_ok in Hrun as (n2 & w9 & H9 & Hrun). injection H9 as _ <-.
  apply bind_ok in Hrun as (u10 & w10 & H10 & Hrun). run_inv H10.
  apply bind_ok in Hrun as (u11 & w11 & H11 & Hrun). run_inv Hrun.
  pose proof (evolves_run _ _ _ _ _ (report_rollback_same i _ _ _) H11) as Hx.
  pose proof (evolves_run _ _ _ _ _ (report_rollback_trace i _ _ _) H11) as Ht.
  unfold same_db, same_trace, stable in *. simpl in *. rewrite Hx, Ht, Htr, Hsame.
  assert (id' ≠ fid) as Hne by congruence.
  split_and!; [apply Hs..|done| |].
  - rewrite lookup_alter_ne, lookup_alter_eq, lookup_insert_eq by done. simpl. eexists.
    split; [reflexivity|]. done.
  - rewrite lookup_alter_eq, lookup_alter_ne, lookup_insert_ne, Hf by done. by eexists.
Qed.

(** A rollback that returns has scaled the deployment of the failed execution
    back: exactly one scaling was issued, in the staging namespace, to the replica
    count recorded before the failed action, and only because the deployment still
    had the count that action had requested.  The rollback is itself a recorded,
    successful execution with the next attempt number (never a fourth), and the
    failed one is marked as rolled back. *)
Theorem rollback_restores iid fid maximum (w w' : World X) id :
  rollback_scale exe iid fid maximum w = (Ok id, w') →
  ∃ failed previous requested, w.(work).(action_executions) !! fid = Some failed ∧
    result_int "previous_replicas" failed.(exec_result) = Ok previous ∧
    result_int "requested_replicas" failed.(exec_result) = Ok requested ∧
    1 ≤ previous ≤ maximum ∧ 1 ≤ requested ∧ failed.(exec_attempt) < 3 ∧
    result_str "namespace" failed.(exec_result) = "cloudward-staging" ∧
    w'.(trace) = w.(trace) ++
      [CallScale "cloudward-staging" (result_str "deployment" failed.(exec_result)) previous] ∧
    (∃ e, w'.(work).(action_executions) !! id = Some e ∧ e.(exec_status) = SUCCEEDED ∧
       e.(exec_attempt) = failed.(exec_attempt) + 1 ∧
       e.(exec_rollback_of_execution_id) = Some failed.(exec_id) ∧
       dict_get "previous_replicas" e.(exec_result) = Some (JInt requested) ∧
       dict_get "requested_replicas" e.(exec_result) = Some (JInt previous)) ∧
    (∃ at_, w'.(work).(action_executions) !! fid =
              Some (set_exec_rolled_back_at (Some at_) failed)).
Proof.
  unfold rollback_scale. intros Hrun.
  apply bind_ok in Hrun as (i & w1 & Hi & Hrun). run_inv Hi.
  apply bind_ok in Hrun as (m & w2 & Hm & Hrun). injection Hm as _ <-.
  apply bind_ok in Hrun as (failed & w3 & Hf & Hrun). run_inv Hf.
  apply bind_ok in Hrun as (previous & w4 & Hp & Hrun). injection Hp as Hp <-.
  apply bind_ok in Hrun as (requested & w5 & Hq & Hrun). injection Hq as Hq <-.
  apply bind_ok in Hrun as (u & w6 & Hb & Hrun). run_inv Hb. boolify.
  apply bind_ok in Hrun as (o & w7 & Hprop & Hrun). injection Hprop as Hprop <-.
  destruct o as [proposal|]; [|done].
  apply bind_ok in Hrun as (u2 & w8 & Hatt & Hrun). run_inv Hatt. boolify.
  apply perform_rollback_ok in Hrun as (Hns & Hb & Ht & He & Hr); [|done].
  exists failed, previous, requested. rewrite Hns in Ht. split_and!; try done; lia.
Qed.
End rollback_runs.

(** ** Concrete executions *)

Definition approved_world : World Z := (bench_decide APPROVED operator waiting_world).2.
Definition bench_claim (attempt : Z) (w : World Z) : res ExecutionClaim * World Z :=
  claim_action_execution (Runtime0 := bench_runtime) 1%N 2%N "rb" [("namespace", JStr "n")]
    attempt w.

Lemma claim_idempotent_witness :
  let w := (bench_claim 1 approved_world).2 in
  ∃ id, bench_claim 1 w = (Ok {| claim_execution := id; claimed := false |}, w).
Proof.
  assert (∃ c, (bench_claim 1 approved_world).1 = Ok c) as [c Hc]
    by (eexists; vm_compute; reflexivity).
  exists c.(claim_execution).
  exact (claim_idempotent (Runtime0 := bench_runtime) 1%N 2%N "rb" [("namespace", JStr "n")]
    1 approved_world _ c (run_of _ _ Hc)).
Defined.

Definition failed_execution : ActionExecution :=
  finished false [("namespace", JStr "cloudward-staging"); ("deployment", JStr "demo");
                  ("previous_replicas", JInt 1); ("requested_replicas", JInt 2)]
    (Some "VERIFICATION_FAILED") 1700000001000000
    (new_execution 5%N 1700000000000000 waiting_incident 2%N SCALE_STAGING_DEPLOYMENT 1
       (Some "k") None).
Definition failed_world : World Z :=
  set_work (upd_action_executions (λ _, {[5%N := failed_execution]}) waiting_world.(work))
    waiting_world.

Definition bench_rollback : res uuid * World Z :=
  rollback_scale (Runtime0 := bench_runtime) bench_executor 1%N 5%N 5 failed_world.

Lemma rollback_restores_witness :
  bench_rollback.2.(trace) = [CallScale "cloudward-staging" "demo" 1].
Proof.
  assert (∃ id, bench_rollback.1 = Ok id) as [id Hr] by (eexists; vm_compute; reflexivity).
  apply run_of in Hr. unfold bench_rollback at 1 in Hr.
  apply rollback_restores in Hr.
  destruct Hr as (failed & previous & requested & Hf & Hp & _ & _ & _ & _ & _ & Ht & _).
  vm_compute in Hf. injection Hf as <-. vm_compute in Hp. injection Hp as <-. exact Ht.
Defined.

Lemma failed_only id e :
  failed_world.(work).(action_executions) !! id = Some e → id = 5%N ∧ e = failed_execution.
Proof.
  intros He. change (({[5%N := failed_execution]} : gmap uuid ActionExecution) !! id = Some e) in He.
  by apply lookup_singleton_Some in He as [<- <-].
Qed.

Lemma waiting_only id a :
  waiting_world.(work).(approvals) !! id = Some a → id = 3%N ∧ a = waiting_approval.
Proof.
  intros Ha. change (({[3%N := waiting_approval]} : gmap uuid Approval) !! id = Some a) in Ha.
  by apply lookup_singleton_Some in Ha as [<- <-].
Qed.

Lemma at_most_three_executions_witness :
  let w := (bench_claim 2 (bench_claim 1 failed_world).2).2 in
  count_rows (of_incident 1%N) w.(work).(action_executions) ≤ 3.
Proof.
  refine (proj2 (at_most_three_executions (Runtime0 := bench_runtime) bench_executor
    failed_world _ 1%N _ _)).
  - intros id e [-> ->]%failed_only. split; [vm_compute; split; discriminate|].
    intros id' e' [-> _]%failed_only _ _. reflexivity.
  - eapply rtc_l; [|apply rtc_once]; apply (exec_claim (Runtime0 := bench_runtime)
      bench_executor 1%N 2%N "rb" [("namespace", JStr "n")]).
Defined.

(** The approval decided, then claimed under two keys. *)
Lemma approved_executed_once_witness :
  let w := (bench_claim 2 (bench_claim 1 approved_world).2).2 in
  at_most_one_execution 2%N w.(work).
Proof.
  refine (proj1 (approved_executed_once (Runtime0 := bench_runtime) (H := strict_pydantic)
    example_settings (opa_client "http://opa:8181/" "/v1/data/d") waiting_world _ 3%N
    waiting_approval 2%N _ _ _ _ _ _)).
  - intros id a [-> ->]%waiting_only. reflexivity.
  - intros id a [-> ->]%waiting_only. split; reflexivity.
  - vm_compute. reflexivity.
  - reflexivity.
  - intros id (e & He & _). exact (lookup_empty_Some (M := gmap uuid) id e He).
  - eapply rtc_l; [apply (act_decide (Runtime0 := bench_runtime) (H := strict_pydantic)
      example_settings (opa_client "http://opa:8181/" "/v1/data/d") 3%N APPROVED operator None)|].
    eapply rtc_l; [|apply rtc_once]; apply (act_claim (Runtime0 := bench_runtime)
      (H := strict_pydantic) example_settings (opa_client "http://opa:8181/" "/v1/data/d")
      1%N 2%N "rb" [("namespace", JStr "n")]).
Defined.
