(* ===== verification/Mutations.v ===== *)
(** * Calls that change the cluster

    The part of the trace that changes the cluster or the repository, as opposed to
    questions to the policy engine and messages to the broker, and what the shared
    services leave alone: they issue no such call, and they write only the tables
    of their own. *)

From S2P Require Import Prelude Json Effects Actions Risk StateMachine Models World Redaction.
From S2P Require Import Config AuditLog History Memory Notifications ApprovalRequests Incidents.
From S2P Require Import Kubernetes Opa Approvals Execution.

(** The calls that change the cluster or the repository. *)
Definition is_mutation (c : call) : bool :=
  match c with
  | CallOpa _ | CallSendTask _ _ | CallLlm _ | CallTeams _ _ => false
  | CallGitHub method _ _ => negb (String.eqb method "GET")
  | _ => true
  end.

Section mutations.
Context {X : Type}.

Definition mutations (w : World X) : list call := List.filter is_mutation w.(trace).

(** New mutations satisfy [P]. *)
Definition mutates (P : call → Prop) : relation (World X) := λ w w',
  log_extends P (mutations w) (mutations w').

#[global] Instance mutates_evolution P : Evolution (mutates P).
Proof.
  split; [intros w; by unfold mutates|]. intros w1 w2 w3 H1 H2. unfold mutates in *. by etrans.
Qed.

Lemma mutates_same_trace {A} P (m : M (World X) A) : evolves same_trace m → evolves (mutates P) m.
Proof. intros Hm w. unfold mutates, mutations. by rewrite (Hm w). Qed.

Lemma record_call_mutates P c :
  (is_mutation c = true → P c) → evolves (mutates P) (record_call (X:=X) c).
Proof.
  intros Hc w. unfold mutates, mutations. simpl. rewrite List.filter_app. simpl.
  destruct (is_mutation c); [|by rewrite app_nil_r]. apply log_extends_snoc. auto.
Qed.

Lemma mutates_weaken (P Q : call → Prop) w w' :
  (∀ c, P c → Q c) → mutates P w w' → mutates Q w w'.
Proof. intros HPQ (l & Hl & HP). exists l. split; [done|]. by eapply Forall_impl. Qed.
End mutations.

#[export] Hint Extern 2 (evolves (mutates _) _) =>
  apply mutates_same_trace; solve [evolve] : cw_pres.
#[export] Hint Extern 1 (evolves (mutates _) (record_call (CallSendTask _ _))) =>
  apply record_call_mutates; discriminate : cw_pres.
#[export] Hint Extern 1 (evolves (mutates _) (record_call (CallOpa _))) =>
  apply record_call_mutates; discriminate : cw_pres.

(** ** The shared services *)

(** Unfold a change of state down to the primitives. *)
Ltac unfold_change :=
  unfold change_incident_state, record_state_change, add_incident_event, notify_state_change,
    request_approval, capture_terminal_incident, remember.

Section services.
Context {X : Type} `{!Runtime X, !Pydantic, !PolicyServer X}.
Context (settings : Settings).
Abbreviation mutates_ok P m := (evolves (mutates (X:=X) P) m).

Lemma queue_channel_mutates P e m c : mutates_ok P (queue_channel settings e m c).
Proof. unfold queue_channel, send_task. evolve. Qed.
Hint Resolve queue_channel_mutates : cw_pres.
Lemma queue_notification_mutates P e i d :
  mutates_ok P (queue_incident_notification settings e i d).
Proof. unfold queue_incident_notification, queue. evolve. Qed.
Hint Resolve queue_notification_mutates : cw_pres.
Lemma ensure_approval_mutates P i p rb r :
  mutates_ok P (ensure_runtime_approval settings i p rb r).
Proof. unfold ensure_runtime_approval, stream_approval. evolve. Qed.
Hint Resolve ensure_approval_mutates : cw_pres.
Lemma change_incident_state_mutates P i s a ty d f :
  mutates_ok P (change_incident_state settings i s a ty d f).
Proof. unfold_change. evolve. Qed.
Lemma evaluate_mutates P opa p : mutates_ok P (evaluate opa p).
Proof. unfold evaluate. evolve. Qed.
Lemma finish_mutates P i e ok r c : mutates_ok P (finish_action_execution i e ok r c).
Proof. unfold finish_action_execution. evolve. Qed.
Lemma claim_mutates P i p rb t n : mutates_ok P (claim_action_execution i p rb t n).
Proof.
  unfold claim_action_execution, claim_new, require_unclaimed, claim_approval,
    insert_execution. evolve.
Qed.

(** A change of state leaves the proposals, the executions, the security events and
    the quarantines alone. *)
Abbreviation same_ok f m := (evolves (same_db (X:=X) f) m).
Ltac frame :=
  repeat first [ evolve_step | solve [eauto with cw_pres]
    | progress unfold queue_incident_notification, queue, queue_channel, ensure_runtime_approval ].

Lemma change_incident_state_proposals i s a ty d f :
  same_ok action_proposals (change_incident_state settings i s a ty d f).
Proof. unfold_change. frame. Qed.
Lemma change_incident_state_executions i s a ty d f :
  same_ok action_executions (change_incident_state settings i s a ty d f).
Proof. unfold_change. frame. Qed.
Lemma change_incident_state_events i s a ty d f :
  same_ok security_events (change_incident_state settings i s a ty d f).
Proof. unfold_change. frame. Qed.
Lemma change_incident_state_quarantines i s a ty d f :
  same_ok quarantine_records (change_incident_state settings i s a ty d f).
Proof. unfold_change. frame. Qed.
Lemma change_incident_state_decisions i s a ty d f :
  same_ok policy_decisions (change_incident_state settings i s a ty d f).
Proof. unfold_change. frame. Qed.

(** A change that returned reached its target. *)
Lemma change_incident_state_reached i s a ty d (w w' : World X) u :
  change_incident_state settings i s a ty d false w = (Ok u, w') →
  ∃ j, w'.(work).(incidents) !! i = Some j ∧ j.(inc_state) = s.
Proof.
  intros Hrun. pose proof (change_incident_state_cases settings i s a ty d false w) as Hc.
  simpl in Hc. rewrite Hrun in Hc.
  destruct (w.(work).(incidents) !! i) as [j|] eqn:Hj; [|done]. clear Hc.
  destruct (change_incident_state_ok settings i s a ty d w w' u j Hrun Hj)
    as [[Hs ->]|[_ [now Hinc]]]; [by exists j|].
  exists (with_state now s j). rewrite Hinc, lookup_alter_eq, Hj. split; [done|].
  unfold with_state. by destruct (bool_decide _).
Qed.
End services.

#[export] Hint Resolve queue_channel_mutates queue_notification_mutates ensure_approval_mutates
  change_incident_state_mutates evaluate_mutates finish_mutates claim_mutates
  change_incident_state_proposals change_incident_state_executions change_incident_state_events
  change_incident_state_quarantines change_incident_state_decisions : cw_pres.
