(* ===== verification/Verification.v ===== *)
(** * Verification

    [verification/engine.py]: the checks made after a remediation and the bounded
    loop that repeats them; [verification/multisignal.py]: the multi-signal check
    and the resolution it decides; [observability/providers.py]: the metrics client
    the check reads.  Durations are exact microseconds. *)

From S2P Require Import Prelude PyFloat Json JsonParse Effects Rbac Actions StateMachine Models.
From S2P Require Import World Redaction Config AuditLog History Memory Notifications.
From S2P Require Import ApprovalRequests Incidents Kubernetes Opa Approvals.

(** ** The engine *)

Record VerificationCheck := {
  vc_type : string;
  vc_expected : json;
  vc_actual : json;
  vc_passed : bool;
  vc_detail : option string;
}.

Record VerificationResult := {
  vr_success : bool;
  vr_checks : list VerificationCheck;
  vr_attempts : Z;
}.

Definition VerificationCheck_dump (c : VerificationCheck) : json :=
  JObj [("type", JStr c.(vc_type)); ("expected", c.(vc_expected)); ("actual", c.(vc_actual));
        ("passed", JBool c.(vc_passed)); ("detail", JOptStr c.(vc_detail))].

Definition VerificationResult_dump (r : VerificationResult) : dict :=
  [("success", JBool r.(vr_success));
   ("checks", JArr (map VerificationCheck_dump r.(vr_checks)));
   ("attempts", JInt r.(vr_attempts))].

(** [type(exc).__name__]. *)
Definition class_name (e : exn) : string :=
  match e with CloudWardError _ _ _ _ => "CloudWardError" | PyError cls _ => cls end.

(** [sum(1 for pod in pods if pod.ready)]. *)
Definition count_ready (pods : list PodState) : Z :=
  Z.of_nat (length (List.filter ready pods)).

(** What is verified. *)
Record VerificationTarget := {
  vt_namespace : string;
  vt_deployment : string;
  vt_label_selector : string;
  vt_expected_replicas : Z;
  vt_service_name : string;
  vt_health_path : string;
}.

Section engine.
Context {X : Type} `{!Runtime X, !KubeApi X}.

(** [try: m except Exception as exc: ...], as a value. *)
Definition attempt {A} (m : M (World X) A) : M (World X) (A + exn) :=
  catch (let! a := m in ret (inl a)) (λ e, ret (inr e)).

Definition passed_check (type : string) (expected actual : json) (passed : bool)
  : VerificationCheck :=
  {| vc_type := type; vc_expected := expected; vc_actual := actual; vc_passed := passed;
     vc_detail := None |}.
Definition failed_check (type : string) (expected : json) (e : exn) : VerificationCheck :=
  {| vc_type := type; vc_expected := expected; vc_actual := JNull; vc_passed := false;
     vc_detail := Some (class_name e) |}.

(** The first [try]: the deployment and its pods. *)
Definition workload_checks (t : VerificationTarget) : M (World X) (list VerificationCheck) :=
  let expected := JInt t.(vt_expected_replicas) in
  let failed e := [failed_check "ready_replicas" expected e;
                   failed_check "pod_readiness" expected e] in
  let! d := attempt (get_deployment t.(vt_namespace) t.(vt_deployment)) in
  match d with
  | inr e => ret (failed e)
  | inl d =>
      let replicas := passed_check "ready_replicas" expected (JInt d.(ready_replicas))
                        (d.(ready_replicas) =? t.(vt_expected_replicas)) in
      let! pods := attempt (get_pods t.(vt_namespace) t.(vt_label_selector)) in
      match pods with
      | inr e => ret (replicas :: failed e)
      | inl pods =>
          ret [replicas; passed_check "pod_readiness" expected (JInt (count_ready pods))
                           (count_ready pods =? t.(vt_expected_replicas))]
      end
  end.

(** The second [try]: the health endpoint. *)
Definition health_check (t : VerificationTarget) : M (World X) VerificationCheck :=
  let! h := attempt (get_service_health t.(vt_namespace) t.(vt_service_name)
                       t.(vt_health_path)) in
  match h with
  | inr e => ret (failed_check "health_endpoint" (JStr "healthy") e)
  | inl h => ret (passed_check "health_endpoint" (JStr "healthy")
                    (JStr (if h.(healthy) then "healthy" else "unhealthy")) h.(healthy))
  end.

Definition check_once (t : VerificationTarget) : M (World X) VerificationResult :=
  let! workload := workload_checks t in
  let! health := health_check t in
  let checks := workload ++ [health] in
  ret {| vr_success := forallb vc_passed checks; vr_checks := checks; vr_attempts := 1 |}.

(** The loop of [verify_until], [attempts] iterations done; [None] when the fuel
    runs out. *)
Fixpoint verify_loop (fuel : nat) (t : VerificationTarget) (deadline poll attempts : Z)
  : M (World X) (option VerificationResult) :=
  match fuel with
  | O => ret None
  | S fuel =>
      let attempts := attempts + 1 in
      let! last := check_once t in
      let done_ := ret (Some {| vr_success := last.(vr_success); vr_checks := last.(vr_checks);
                                vr_attempts := attempts |}) in
      if last.(vr_success) then done_
      else
        let! now := monotonic in
        if deadline <=? now then done_
        else
          let! now := monotonic in
          do! sleep (Z.min poll (Z.max 0 (deadline - now)));
          verify_loop fuel t deadline poll attempts
  end.

(** Enough iterations for every clock that does not run backwards
    ([verify_until_returns]). *)
Definition verify_fuel (timeout poll : Z) : nat := Z.to_nat (timeout / poll) + 2.

Definition out_of_fuel : exn := PyError "OutOfFuel" "verify_until".

Definition verify_until (t : VerificationTarget) (timeout poll : Z)
  : M (World X) VerificationResult :=
  let! start := monotonic in
  let! r := verify_loop (verify_fuel timeout poll) t (start + timeout) poll 0 in
  match r with
  | Some r => ret r
  | None => raise out_of_fuel
  end.
End engine.

(** ** The metrics client *)

Record TelemetryWindow := { tw_start : datetime; tw_end : datetime; tw_step_seconds : Z }.

Definition TelemetryWindow_valid (w : TelemetryWindow) : bool :=
  (1 <=? w.(tw_step_seconds)) && (w.(tw_step_seconds) <=? 300) &&
  (w.(tw_start) <? w.(tw_end)) && (w.(tw_end) - w.(tw_start) <=? seconds 3600).

(** [datetime.timestamp()]. *)
Definition timestamp (t : datetime) : float := fdiv (float_of_Z t) (float_of_Z 1000000).

Record TelemetryResult := {
  tr_provider : string;
  tr_query : string;
  tr_window : TelemetryWindow;
  tr_samples : list dict;
  tr_truncated : bool;
  tr_reference : option string;
}.

(** [GET base_url path?params], read under the timeout; [HttpError] is an
    exception of the classes [_get] handles. *)
Class TelemetryServer (X : Type) := telemetry_get : string → string → dict → X → http_answer * X.
#[export] Hint Mode TelemetryServer ! : typeclass_instances.

Record HTTPProvider := { base_url : string; max_samples : Z; provider_class : string }.

Definition MAX_RESPONSE_BYTES : Z := 1048576.

Definition telemetry_unavailable (p : HTTPProvider) (reason : string) : exn :=
  CloudWardError "TELEMETRY_PROVIDER_UNAVAILABLE"
    "An observability provider could not satisfy the bounded evidence query" 502
    (JObj [("provider", JStr p.(provider_class)); ("reason", JStr reason)]).

Definition invalid_telemetry (message : string) : exn :=
  cw_error "INVALID_TELEMETRY_RESPONSE" message.

(** [_get] after the request: status, size, JSON, object. *)
Definition telemetry_payload (p : HTTPProvider) (status : Z) (content : string) : res dict :=
  if negb ((200 <=? status) && (status <? 300)) then
    Raise (telemetry_unavailable p "HTTPStatusError")
  else if MAX_RESPONSE_BYTES <? str_len content then
    Raise (telemetry_unavailable p "ValueError")
  else match json_loads content with
       | None => Raise (telemetry_unavailable p "JSONDecodeError")
       | Some (JObj d) => Ok d
       | Some _ => Raise (invalid_telemetry "Telemetry response was not an object")
       end.

(** [_bounded]. *)
Definition as_object (j : json) : option dict := match j with JObj d => Some d | _ => None end.
Definition bounded_samples (p : HTTPProvider) (samples : list json) : list dict * bool :=
  let limit := Z.to_nat p.(max_samples) in
  let bounded := take (S limit) (omap as_object samples) in
  (omap as_object (map (λ s, redact (JObj s)) (take limit bounded)),
   bool_decide (limit < length bounded)%nat).

(** [_result]. *)
Definition telemetry_result (payload : dict) : res (list json) :=
  match dict_get "data" payload with
  | Some (JObj data) =>
      match dict_get "result" data with
      | Some (JArr l) => Ok l
      | _ => Raise (invalid_telemetry "Telemetry result was not a list")
      end
  | _ => Raise (invalid_telemetry "Telemetry result was not a list")
  end.

Section providers.
Context {X : Type} `{!TelemetryServer X}.

(** [_get]. *)
Definition http_get (p : HTTPProvider) (path : string) (params : dict) : M (World X) dict :=
  let! answer := external (telemetry_get p.(base_url) path params) in
  match answer with
  | HttpError cls => raise (telemetry_unavailable p cls)
  | HttpOther e => raise e
  | HttpResponse status content => lift (telemetry_payload p status content)
  end.

(** [PrometheusMetricsProvider.query_range]. *)
Definition query_range (p : HTTPProvider) (q : string) (window : TelemetryWindow)
  : M (World X) TelemetryResult :=
  let! payload := http_get p "/api/v1/query_range"
    [("query", JStr q); ("start", JFloat (timestamp window.(tw_start)));
     ("end", JFloat (timestamp window.(tw_end))); ("step", JInt window.(tw_step_seconds))] in
  do! raise_if (negb (field_is "status" "success" payload))
        (invalid_telemetry "Prometheus rejected the query");
  let! result := lift (telemetry_result payload) in
  let '(samples, truncated) := bounded_samples p result in
  ret {| tr_provider := "prometheus"; tr_query := q; tr_window := window;
         tr_samples := samples; tr_truncated := truncated;
         tr_reference := Some (p.(base_url) +:+ "/graph") |}.
End providers.

(** ** Properties of the engine *)

Section engine_properties.
Context {X : Type} `{!Runtime X, !KubeApi X}.

Lemma attempt_run {A} (m : M (World X) A) w :
  attempt m w = (Ok (match (m w).1 with Ok a => inl a | Raise e => inr e end), (m w).2).
Proof. unfold attempt, catch, bind, ret. by destruct (m w) as [[a|e] w']. Qed.

Lemma attempt_evolves {A} (R : relation (World X)) `{!Evolution R} (m : M (World X) A) :
  evolves R m → evolves R (attempt m).
Proof. intros Hm w. rewrite attempt_run. apply Hm. Qed.
Hint Extern 1 (evolves _ (attempt _)) => apply attempt_evolves; [tc_solve|] : cw_pres.

(** The verification reads: it changes neither the database nor the metrics and
    issues no mutating call. *)
Lemma check_once_same {A} (f : Database → A) t : evolves (same_db f) (check_once (X:=X) t).
Proof. unfold check_once, workload_checks, health_check. evolve. Qed.
Lemma check_once_metrics t : evolves same_metrics (check_once (X:=X) t).
Proof. unfold check_once, workload_checks, health_check. evolve. Qed.
Lemma check_once_trace t : evolves same_trace (check_once (X:=X) t).
Proof. unfold check_once, workload_checks, health_check. evolve. Qed.
Lemma check_once_step t : evolves session_step (check_once (X:=X) t).
Proof. unfold check_once, workload_checks, health_check. evolve. Qed.

(** Every signal read from the cluster is as expected. *)
Definition workload_healthy (t : VerificationTarget) (w w' : World X) : Prop :=
  ∃ d w1 pods w2 h,
    get_deployment t.(vt_namespace) t.(vt_deployment) w = (Ok d, w1) ∧
    get_pods t.(vt_namespace) t.(vt_label_selector) w1 = (Ok pods, w2) ∧
    get_service_health t.(vt_namespace) t.(vt_service_name) t.(vt_health_path) w2 = (Ok h, w') ∧
    d.(ready_replicas) = t.(vt_expected_replicas) ∧
    count_ready pods = t.(vt_expected_replicas) ∧ h.(healthy) = true.

Lemma workload_checks_run t (w : World X) :
  ∃ checks w', workload_checks t w = (Ok checks, w') ∧
    (forallb vc_passed checks = true ↔
     ∃ d w1 pods, get_deployment t.(vt_namespace) t.(vt_deployment) w = (Ok d, w1) ∧
       get_pods t.(vt_namespace) t.(vt_label_selector) w1 = (Ok pods, w') ∧
       d.(ready_replicas) = t.(vt_expected_replicas) ∧
       count_ready pods = t.(vt_expected_replicas)).
Proof.
  unfold workload_checks. rewrite (bind_step _ _ _ _ _ (attempt_run _ w)).
  destruct (get_deployment _ _ w) as [[d|e] w1] eqn:Hd; simpl.
  2: { eexists _, w1. split; [reflexivity|]. simpl. split; [done|].
       by intros (d & w2 & pods & [=] & _). }
  rewrite (bind_step _ _ _ _ _ (attempt_run _ w1)).
  destruct (get_pods _ _ w1) as [[pods|e] w2] eqn:Hp; simpl.
  2: { eexists _, w2. split; [reflexivity|]. simpl. rewrite andb_false_r. split; [done|].
       intros (d' & w1' & pods & [= <- <-] & Hp' & _). by rewrite Hp in Hp'. }
  eexists _, w2. split; [reflexivity|]. simpl. rewrite andb_true_r, andb_true_iff, !Z.eqb_eq.
  split; [intros []; by exists d, w1, pods|].
  intros (d' & w1' & pods' & [= <- <-] & Hp' & ? & ?). rewrite Hp in Hp'. by simplify_eq.
Qed.

Lemma health_check_run t (w : World X) :
  ∃ c w', health_check t w = (Ok c, w') ∧
    (c.(vc_passed) = true ↔
     ∃ h, get_service_health t.(vt_namespace) t.(vt_service_name) t.(vt_health_path) w =
            (Ok h, w') ∧ h.(healthy) = true).
Proof.
  unfold health_check. rewrite (bind_step _ _ _ _ _ (attempt_run _ w)).
  destruct (get_service_health _ _ _ w) as [[h|e] w1]; simpl;
    (eexists _, w1; split; [reflexivity|]); simpl; naive_solver.
Qed.

(** A check always returns: a failure of the cluster is a failed check, not an
    exception; and it succeeds exactly when the deployment, the pods and the health
    endpoint, read one after the other, are all as expected. *)
Theorem check_once_spec t (w : World X) :
  ∃ r w', check_once t w = (Ok r, w') ∧ (r.(vr_success) = true ↔ workload_healthy t w w') ∧
    w'.(work) = w.(work) ∧ w'.(trace) = w.(trace).
Proof.
  pose proof (check_once_same (λ d, d) t w) as Hs. pose proof (check_once_trace t w) as Ht.
  unfold same_db, same_trace, stable in *. revert Hs Ht.
  destruct (workload_checks_run t w) as (checks & w1 & H1 & Hw).
  destruct (health_check_run t w1) as (c & w2 & H2 & Hh).
  unfold check_once. rewrite (bind_step _ _ _ _ _ H1), (bind_step _ _ _ _ _ H2). intros Hs Ht.
  eexists _, w2. split; [reflexivity|]. split; [|done]. simpl.
  rewrite forallb_app, andb_true_iff. simpl. rewrite andb_true_r, Hw, Hh.
  unfold workload_healthy. split.
  - intros ((d & w1' & pods & ? & ? & ? & ?) & h & ? & ?). by exists d, w1', pods, w1, h.
  - intros (d & w1' & pods & w1'' & h & Hd & Hp & Hg & ? & ? & ?).
    assert (w1'' = w1) as ->.
    { revert H1. unfold workload_checks.
      rewrite (bind_step _ _ _ _ _ (attempt_run _ w)), Hd. simpl.
      rewrite (bind_step _ _ _ _ _ (attempt_run _ w1')), Hp. simpl. by intros [= _ ->]. }
    split; [by exists d, w1', pods|by exists h].
Qed.
End engine_properties.

(** ** Termination of the loop *)

(** What the loop relies on: [time.monotonic()] does not run backwards, not even
    during a request, and [asyncio.sleep(d)] takes at least [d]. *)
Class Clock (X : Type) `{!Runtime X, !KubeApi X} := {
  clock : X → Z;
  clock_monotonic x : clock x ≤ (rt_monotonic x).1 ≤ clock (rt_monotonic x).2;
  clock_sleep d x : 0 ≤ d → clock x + d ≤ clock (rt_sleep d x);
  clock_deployment name ns x : clock x ≤ clock (read_namespaced_deployment name ns x).2;
  clock_pods ns selector x : clock x ≤ clock (list_namespaced_pod ns selector x).2;
  clock_health service ns path x : clock x ≤ clock (service_proxy_get service ns path x).2;
}.

(** The clock of the examples: a thousand microseconds per call. *)
#[export] Program Instance bench_clock : @Clock Z bench_runtime bench_kube :=
  {| clock := λ x : Z, x * 1000 |}.
Next Obligation. intros x. cbn. lia. Qed.
Next Obligation.
  intros d x Hd. cbn. pose proof (Z.div_mod d 1000). pose proof (Z.mod_pos_bound d 1000). lia.
Qed.
Next Obligation. intros name ns x. cbn. lia. Qed.
Next Obligation. intros ns selector x. cbn. lia. Qed.
Next Obligation. intros service ns path x. cbn. lia. Qed.

Section termination.
Context {X : Type} `{!Runtime X, !KubeApi X, !Clock X}.

Definition later : relation (World X) := λ w w', clock w.(ext) ≤ clock w'.(ext).
#[local] Instance later_evolution : Evolution later.
Proof. split; [intros w|intros w1 w2 w3]; unfold later; lia. Qed.

Lemma external_later {A} (f : X → A * X) :
  (∀ x, clock x ≤ clock (f x).2) → evolves later (external f).
Proof. intros Hf w. apply Hf. Qed.

Lemma api_later {A} (f : X → (A + api_error) * X) h :
  (∀ x, clock x ≤ clock (f x).2) → (∀ s, evolves later (h s)) → evolves later (api f h).
Proof.
  intros Hf Hh. unfold api.
  repeat first [evolve_step | by apply external_later | apply Hh].
Qed.

Lemma check_once_later t : evolves later (check_once (X:=X) t).
Proof.
  unfold check_once, workload_checks, health_check, get_deployment, get_pods,
    get_service_health, validate_name, api_failure.
  repeat first
    [ evolve_step | apply attempt_evolves; [tc_solve|]
    | apply api_later; [intros; apply clock_deployment || apply clock_pods|intros ?]
    | apply external_later; intros; apply clock_health ].
Qed.

Lemma monotonic_later (w : World X) :
  clock w.(ext) ≤ (rt_monotonic w.(ext)).1 ≤ clock (monotonic w).2.(ext).
Proof. apply clock_monotonic. Qed.

Lemma verify_loop_returns t deadline poll k n a (w : World X) :
  0 < poll → deadline - clock w.(ext) ≤ Z.of_nat k * poll → (k < n)%nat →
  ∃ r w', verify_loop n t deadline poll a w = (Ok (Some r), w') ∧
    a + 1 ≤ r.(vr_attempts) ≤ a + 1 + Z.of_nat k ∧
    w'.(work) = w.(work) ∧ w'.(trace) = w.(trace) ∧
    (if r.(vr_success) then ∃ w1, workload_healthy t w1 w' else deadline ≤ clock w'.(ext)).
Proof.
  intros Hpoll. revert n a w. induction k as [|k IH]; intros n a w Hk Hn;
    (destruct n as [|n]; [lia|]); cbn [verify_loop];
    destruct (check_once_spec t w) as (r & w1 & Hc & Hs & Hw & Ht);
    pose proof (evolves_run _ _ _ _ _ (check_once_later t) Hc) as Hlater; unfold later in Hlater;
    rewrite (bind_step _ _ _ _ _ Hc); destruct (vr_success r) eqn:Hr.
  1, 3: eexists _, w1; split; [reflexivity|]; cbn [vr_attempts vr_success]; (split; [lia|]); split_and!; [done|done|];
    exists w; by apply Hs.
  all: pose proof (monotonic_later w1) as [Hm1 Hm2];
    set (now := (rt_monotonic w1.(ext)).1) in *; set (w2 := (monotonic w1).2) in *;
    rewrite (bind_step _ _ w1 now w2) by done; destruct (Z.leb_spec deadline now) as [Hd|Hd].
  1, 3: eexists _, w2; split; [reflexivity|]; cbn [vr_attempts vr_success]; (split; [lia|]); split_and!; [done|done|lia].
  - lia.
  - pose proof (monotonic_later w2) as [Hm3 Hm4].
    set (now2 := (rt_monotonic w2.(ext)).1) in *. set (w3 := (monotonic w2).2) in *.
    rewrite (bind_step _ _ w2 now2 w3) by done.
    set (d := Z.min poll (Z.max 0 (deadline - now2))).
    set (w4 := set_ext (rt_sleep d w3.(ext)) w3).
    rewrite (bind_step (sleep d) _ w3 tt w4) by done.
    assert (clock w3.(ext) + d ≤ clock w4.(ext)) as Hsleep by (apply clock_sleep; lia).
    destruct (IH n (a + 1) w4) as (r' & w' & Hrun & Hatt & Hw' & Ht' & Hres); [|lia|].
    { destruct (Z.le_gt_cases (deadline - now2) poll); unfold d in Hsleep; nia. }
    exists r', w'. split; [exact Hrun|]. split; [lia|]. split_and!; [by rewrite Hw'|by rewrite Ht'|done].
Qed.

(** The verification loop terminates and tells the truth.  For any clock that
    does not run backwards, any timeout and any positive poll interval it returns
    after at most [timeout / poll + 2] checks, without touching the database or the
    cluster; it reports success only when its last check found everything as
    expected, and failure only once the timeout has elapsed. *)
Theorem verify_until_returns t timeout poll (w : World X) :
  0 ≤ timeout → 0 < poll →
  ∃ r w', verify_until t timeout poll w = (Ok r, w') ∧
    1 ≤ r.(vr_attempts) ≤ timeout / poll + 2 ∧
    w'.(work) = w.(work) ∧ w'.(trace) = w.(trace) ∧
    (if r.(vr_success) then ∃ w1, workload_healthy t w1 w'
     else clock w.(ext) + timeout ≤ clock w'.(ext)).
Proof.
  intros Ht Hp. unfold verify_until. pose proof (monotonic_later w) as [Hm1 Hm2].
  set (start := (rt_monotonic w.(ext)).1) in *. set (w1 := (monotonic w).2) in *.
  rewrite (bind_step _ _ w start w1) by done.
  assert (0 ≤ timeout / poll) as Hq by (apply Z.div_pos; lia).
  pose proof (Z.div_mod timeout poll). pose proof (Z.mod_pos_bound timeout poll).
  destruct (verify_loop_returns t (start + timeout) poll (Z.to_nat (timeout / poll) + 1)
    (verify_fuel timeout poll) 0 w1) as (r & w' & Hrun & Hatt & Hw & Htr & Hres);
    [done|nia|unfold verify_fuel; lia|].
  rewrite (bind_step _ _ _ _ _ Hrun). exists r, w'. split; [done|]. split; [lia|].
  split_and!; [done|done|]. destruct (vr_success r); [done|lia].
Qed.
End termination.

Definition bench_target : VerificationTarget :=
  {| vt_namespace := "cloudward-staging"; vt_deployment := "demo";
     vt_label_selector := "app=demo"; vt_expected_replicas := 2; vt_service_name := "demo";
     vt_health_path := "health/ready" |}.

(** The pod of [bench_kube] is never ready. *)
Lemma verify_until_returns_witness :
  ∃ r w', verify_until (Runtime0 := bench_runtime) bench_target (seconds 1) 200000
            (bench_world empty_database) = (Ok r, w') ∧ r.(vr_attempts) ≤ 7.
Proof.
  destruct (verify_until_returns (Runtime0 := bench_runtime) bench_target (seconds 1) 200000
    (bench_world empty_database)) as (r & w' & Hrun & [_ Hatt] & _);
    [vm_compute; discriminate|vm_compute; reflexivity|].
  exists r, w'. split; [exact Hrun|]. exact Hatt.
Defined.

(** ** The multi-signal check *)

Inductive SignalType : Type :=
| READY_REPLICAS | POD_READINESS | ERROR_RATE | P95_LATENCY | RESTART_COUNT
| HEALTH_ENDPOINT | SYNTHETIC_HTTP.

Definition SignalType_value (s : SignalType) : string :=
  match s with
  | READY_REPLICAS => "ready_replicas"
  | POD_READINESS => "pod_readiness"
  | ERROR_RATE => "error_rate"
  | P95_LATENCY => "p95_latency"
  | RESTART_COUNT => "restart_count"
  | HEALTH_ENDPOINT => "health_endpoint"
  | SYNTHETIC_HTTP => "synthetic_http"
  end.

(** [float | int | str | bool | None]. *)
Definition scalar (j : json) : bool := match j with JArr _ | JObj _ => false | _ => true end.

Record SignalCheck := {
  sc_type : SignalType;
  sc_required : bool;
  sc_passed : bool;
  sc_before : json;
  sc_after : json;
  sc_threshold : json;
  sc_detail : option string;
}.
Definition SignalCheck_valid (c : SignalCheck) : bool :=
  scalar c.(sc_before) && scalar c.(sc_after) && scalar c.(sc_threshold).

Record MultiSignalResult := {
  ms_success : bool;
  ms_checks : list SignalCheck;
  ms_before_values : dict;
  ms_after_values : dict;
}.
Definition MultiSignalResult_valid (r : MultiSignalResult) : bool :=
  forallb (λ kv, scalar kv.2) r.(ms_before_values) &&
  forallb (λ kv, scalar kv.2) r.(ms_after_values).

Record VerificationPlan := {
  vp_namespace : string;
  vp_deployment : string;
  vp_label_selector : string;
  vp_service_name : string;
  vp_expected_replicas : Z;
  error_rate_threshold : float;
  p95_latency_threshold_seconds : float;
  vp_health_path : string;
}.
Definition VerificationPlan_valid (p : VerificationPlan) : bool :=
  (1 <=? p.(vp_expected_replicas)) && (p.(vp_expected_replicas) <=? 20) &&
  fleb fzero p.(error_rate_threshold) && fleb p.(error_rate_threshold) fone &&
  fleb (float_of_decimal 1 (-2)) p.(p95_latency_threshold_seconds) &&
  fleb p.(p95_latency_threshold_seconds) (float_of_Z 30).

(** Values are dumped in JSON mode: a number that is not finite becomes [null]. *)
Definition scalar_dump (j : json) : json :=
  match j with JFloat f => if is_finite f then j else JNull | _ => j end.

Definition SignalCheck_dump (c : SignalCheck) : json :=
  JObj [("type", JStr (SignalType_value c.(sc_type))); ("required", JBool c.(sc_required));
        ("passed", JBool c.(sc_passed)); ("before", scalar_dump c.(sc_before));
        ("after", scalar_dump c.(sc_after)); ("threshold", scalar_dump c.(sc_threshold));
        ("detail", JOptStr c.(sc_detail))].

(** [sum(values)] on floats: compensated summation, as CPython has it since 3.12. *)
Definition fabs : float → float := SpecFloat.SFabs.
Definition compensated_step (acc : float * float) (x : float) : float * float :=
  let '(s, c) := acc in
  let t := fadd s x in
  (t, if fleb (fabs x) (fabs s) then fadd c (fadd (fsub s t) x)
      else fadd c (fadd (fsub x t) s)).
Definition float_sum (l : list float) : float :=
  let '(s, c) := foldl compensated_step (fzero, fzero) l in
  if negb (feqb c fzero) && is_finite c then fadd s c else s.

(** The number of a sample [[time, value]]: a conversion that fails with a
    [TypeError] or a [ValueError] is skipped. *)
Definition sample_value (point : json) : res (option (option float)) :=
  match point with
  | JArr [_; v] =>
      match py_float v with
      | Ok f => Ok (Some (Some f))
      | Raise e => if bool_decide (class_name e ∈ ["TypeError"; "ValueError"])
                   then Ok (Some None) else Raise e
      end
  | _ => Ok None
  end.

(** The last of the points of a range. *)
Definition last_point (series : dict) : option json :=
  match dict_get "values" series with
  | Some (JArr l) => last l
  | _ => None
  end.

Definition series_values (series : dict) : res (list float) :=
  res_bind (match last_point series with Some p => sample_value p | None => Ok None end) (λ v,
    match v with
    | Some None => Ok []
    | _ =>
        let first := match v with Some (Some f) => [f] | _ => [] end in
        res_bind (match dict_get "value" series with Some p => sample_value p | None => Ok None end)
          (λ u, Ok (first ++ match u with Some (Some f) => [f] | _ => [] end))
    end).

Fixpoint all_values (samples : list dict) : res (list float) :=
  match samples with
  | [] => Ok []
  | s :: samples =>
      res_bind (series_values s) (λ v, res_bind (all_values samples) (λ vs, Ok (v ++ vs)))
  end.

(** [_latest_scalar]. *)
Definition latest_scalar (samples : list dict) : res (option float) :=
  res_bind (all_values samples) (λ values,
    Ok (match values with [] => None | _ => Some (float_sum values) end)).

Definition in_quotes (s : string) : string := dquote +:+ s +:+ dquote.
Definition error_query (service : string) : string :=
  "sum(rate(cloudward_demo_http_requests_total{service=" +:+ in_quotes service +:+
  ",status_code=~" +:+ in_quotes "5.." +:+ "}[2m])) / clamp_min(sum(rate(" +:+
  "cloudward_demo_http_requests_total{service=" +:+ in_quotes service +:+ "}[2m])), 0.001)".
Definition latency_query (service : string) : string :=
  "histogram_quantile(0.95, sum by (le) (rate(" +:+
  "cloudward_demo_http_request_duration_seconds_bucket{service=" +:+ in_quotes service +:+
  "}[2m])))".

Definition VERIFICATION_FAILURES_TOTAL (strategy : string) : list string :=
  ["cloudward_verification_failures_total"; strategy].

(** [value is not None and value <= threshold]. *)
Definition at_most (value : option float) (threshold : float) : bool :=
  match value with Some v => fleb v threshold | None => false end.
Definition JOptFloat : option float → json := opt_json JFloat.

Section multisignal.
Context {X : Type} `{!Runtime X, !KubeApi X, !TelemetryServer X}.
Context (metrics : HTTPProvider) (plan : VerificationPlan) (before_values : dict).

(** [SignalCheck(...)], with the value recorded before the action. *)
Definition signal (type : SignalType) (required passed : bool) (after threshold : json)
    (detail : option string) : M (World X) SignalCheck :=
  lift (validated "SignalCheck" SignalCheck_valid
    {| sc_type := type; sc_required := required; sc_passed := passed;
       sc_before := default JNull (dict_get (SignalType_value type) before_values);
       sc_after := after; sc_threshold := threshold; sc_detail := detail |}).

(** The three checks on the cluster, with the values they record. *)
Definition cluster_signals : M (World X) (list SignalCheck * dict) :=
  let expected := plan.(vp_expected_replicas) in
  let! d := get_deployment plan.(vp_namespace) plan.(vp_deployment) in
  let! replicas := signal READY_REPLICAS true (expected <=? d.(ready_replicas))
                     (JInt d.(ready_replicas)) (JInt expected) None in
  let! pods := get_pods plan.(vp_namespace) plan.(vp_label_selector) in
  let ready_pods := count_ready pods in
  let restarts := sumZ (map restart_count pods) in
  let! readiness := signal POD_READINESS true (expected <=? ready_pods) (JInt ready_pods)
                      (JInt expected) None in
  let! restart := signal RESTART_COUNT false true (JInt restarts) JNull
    (Some "Restart count is recorded for comparison but is not a sole recovery signal") in
  ret ([replicas; readiness; restart],
       [("ready_replicas", JInt d.(ready_replicas)); ("pod_readiness", JInt ready_pods);
        ("restart_count", JInt restarts)]).

(** One query over the last three minutes. *)
Definition scalar_query (q : string) (window : TelemetryWindow) : M (World X) (option float) :=
  let! r := query_range metrics q window in
  lift (latest_scalar r.(tr_samples)).

(** The two checks on the metrics. *)
Definition telemetry_signals : M (World X) (list SignalCheck * dict) :=
  let! now := utc_now in
  let! window := lift (validated "TelemetryWindow" TelemetryWindow_valid
    {| tw_start := now - seconds 180; tw_end := now; tw_step_seconds := 15 |}) in
  let! error_rate := scalar_query (error_query plan.(vp_service_name)) window in
  let! latency := scalar_query (latency_query plan.(vp_service_name)) window in
  let! errors := signal ERROR_RATE true (at_most error_rate plan.(error_rate_threshold))
    (JOptFloat error_rate) (JFloat plan.(error_rate_threshold))
    (match error_rate with
     | Some _ => None | None => Some "Prometheus returned no error-rate sample" end) in
  let! slow := signal P95_LATENCY true (at_most latency plan.(p95_latency_threshold_seconds))
    (JOptFloat latency) (JFloat plan.(p95_latency_threshold_seconds))
    (match latency with
     | Some _ => None | None => Some "Prometheus returned no p95 sample" end) in
  ret ([errors; slow],
       [("error_rate", JOptFloat error_rate); ("p95_latency", JOptFloat latency)]).

(** The two checks on the health endpoint. *)
Definition health_signals : M (World X) (list SignalCheck * dict) :=
  let! h := get_service_health plan.(vp_namespace) plan.(vp_service_name)
              plan.(vp_health_path) in
  let! endpoint := signal HEALTH_ENDPOINT true h.(healthy) (JBool h.(healthy)) (JBool true)
                     None in
  let! synthetic := signal SYNTHETIC_HTTP true h.(healthy) (JBool h.(healthy)) (JBool true)
    (Some "Synthetic request executed through the Kubernetes service proxy") in
  ret ([endpoint; synthetic],
       [("health_endpoint", JBool h.(healthy)); ("synthetic_http", JBool h.(healthy))]).

(** [all(check.passed for check in checks if check.required)]. *)
Definition required_passed (checks : list SignalCheck) : bool :=
  forallb sc_passed (List.filter sc_required checks).

Definition verify_signals : M (World X) MultiSignalResult :=
  let! '(cluster, after1) := cluster_signals in
  let! '(telemetry, after2) := telemetry_signals in
  let! '(health, after3) := health_signals in
  let checks := cluster ++ telemetry ++ health in
  let success := required_passed checks in
  do! when (negb success) (metric_add (VERIFICATION_FAILURES_TOTAL "multi_signal") 1);
  lift (validated "MultiSignalResult" MultiSignalResult_valid
    {| ms_success := success; ms_checks := checks; ms_before_values := before_values;
       ms_after_values := after1 ++ after2 ++ after3 |}).
End multisignal.

(** ** The resolution *)

(** Uniqueness of the incident and attempt, attempts between one and three. *)
Definition verification_constraints (r : VerificationRecord) (l : list VerificationRecord)
  : bool :=
  negb (existsb (λ b, bool_decide (b.(ver_incident_id) = r.(ver_incident_id)) &&
                      (b.(ver_attempt) =? r.(ver_attempt))) l) &&
  (1 <=? r.(ver_attempt)) && (r.(ver_attempt) <=? 3).

Section resolution.
Context {X : Type} `{!Runtime X} (settings : Settings).

Definition new_verification (id : uuid) (now : datetime) (incident_id : uuid)
    (result : MultiSignalResult) (attempt : Z) (execution_id : option uuid)
  : VerificationRecord :=
  {| ver_id := id; ver_created_at := now; ver_incident_id := incident_id;
     ver_action_execution_id := execution_id; ver_attempt := attempt;
     ver_success := result.(ms_success);
     ver_checks := map SignalCheck_dump result.(ms_checks);
     ver_before_values := result.(ms_before_values);
     ver_after_values := result.(ms_after_values);
     ver_started_at := now; ver_completed_at := now |}.

(** [session.add(record); await session.flush()]. *)
Definition insert_verification (r : VerificationRecord) : M (World X) unit :=
  let! l := query verification_records in
  do! raise_if (negb (verification_constraints r l)) integrity_error;
  update_db (upd_verification_records (λ l, l ++ [r])).

(** A failed revert is never undone automatically. *)
Definition withhold_rollback (incident : Incident) (verification_id : uuid) (success : bool)
    (execution : option ActionExecution) : M (World X) unit :=
  match execution with
  | Some e =>
      when (negb success && bool_decide (e.(exec_action_type) = REVERT_IMAGE))
        (record_audit "PERSISTENT_ROLLBACK_WITHHELD" incident.(inc_correlation_id)
           (Some incident.(inc_id)) "cloudward-verifier" ACTOR_SYSTEM None
           (Some (ActionType_value REVERT_IMAGE)) None None "ESCALATION_REQUIRED"
           [("verification_id", JStr (uuid_str verification_id));
            ("reason", JStr
               "automatic rollback would reintroduce the controlled bad revision");
            ("approval_required", JBool true)])
  | None => ret tt
  end.

(** The state change a verification decides. *)
Definition apply_verification (incident_id verification_id : uuid) (success : bool)
    (attempt : Z) (source : ResolutionSource) : M (World X) unit :=
  if success then
    do! set_incident incident_id (set_inc_resolution_source (Some source));
    change_incident_state settings incident_id RESOLVED "cloudward-verifier" ACTOR_SYSTEM
      (Some [("verification_id", JStr (uuid_str verification_id));
             ("resolution_source", JStr (ResolutionSource_value source))]) false
  else if 3 <=? attempt then
    change_incident_state settings incident_id ESCALATED "cloudward-verifier" ACTOR_SYSTEM
      (Some [("verification_id", JStr (uuid_str verification_id));
             ("reason", JStr "attempt_limit_reached")]) false
  else ret tt.

Definition persist_verification (incident_id : uuid) (result : MultiSignalResult) (attempt : Z)
    (execution_id : option uuid) (source : ResolutionSource) : M (World X) uuid :=
  let! incident := the_incident incident_id in
  let! now := utc_now in
  let! id := uuid4 in
  do! insert_verification (new_verification id now incident.(inc_id) result attempt execution_id);
  do! append_stream_event "verification.progress" (Some incident.(inc_id))
        [("verification_id", JStr (uuid_str id));
         ("action_execution_id", JOptStr (uuid_str <$> execution_id));
         ("attempt", JInt attempt); ("success", JBool result.(ms_success));
         ("resolution_source", JStr (ResolutionSource_value source))];
  let! execution := match execution_id with
                    | Some e => query (λ db, db.(action_executions) !! e)
                    | None => ret None end in
  do! withhold_rollback incident id result.(ms_success) execution;
  do! apply_verification incident_id id result.(ms_success) attempt source;
  ret id.
End resolution.

(** ** Properties of the multi-signal check *)

Section multisignal_properties.
Context {X : Type} `{!Runtime X, !KubeApi X, !TelemetryServer X}.
Context (metrics_api : HTTPProvider) (plan : VerificationPlan) (before : dict).
Abbreviation verify := (verify_signals (X:=X) metrics_api plan before).

Lemma signal_same_world t r p a th d (w w' : World X) c :
  signal before t r p a th d w = (Ok c, w') →
  w' = w ∧ c.(sc_required) = r ∧ c.(sc_passed) = p.
Proof.
  unfold signal, lift, validated. destruct (SignalCheck_valid _); [|done]. by intros [= <- <-].
Qed.

(** The signals, as they are read one after the other. *)
Definition signals_read (d : DeploymentState) (pods : list PodState)
    (error_rate latency : option float) (h : ServiceHealth) (w w' : World X) : Prop :=
  ∃ w1 w2 w3 w4,
    let window := {| tw_start := (rt_now w2.(ext)).1 - seconds 180;
                     tw_end := (rt_now w2.(ext)).1; tw_step_seconds := 15 |} in
    get_deployment plan.(vp_namespace) plan.(vp_deployment) w = (Ok d, w1) ∧
    get_pods plan.(vp_namespace) plan.(vp_label_selector) w1 = (Ok pods, w2) ∧
    scalar_query metrics_api (error_query plan.(vp_service_name)) window (utc_now w2).2 =
      (Ok error_rate, w3) ∧
    scalar_query metrics_api (latency_query plan.(vp_service_name)) window w3 =
      (Ok latency, w4) ∧
    get_service_health plan.(vp_namespace) plan.(vp_service_name) plan.(vp_health_path) w4 =
      (Ok h, w').

(** The five signals that must hold. *)
Definition signals_hold (d : DeploymentState) (pods : list PodState)
    (error_rate latency : option float) (h : ServiceHealth) : Prop :=
  plan.(vp_expected_replicas) ≤ d.(ready_replicas) ∧
  plan.(vp_expected_replicas) ≤ count_ready pods ∧
  (∃ e, error_rate = Some e ∧ fleb e plan.(error_rate_threshold) = true) ∧
  (∃ l, latency = Some l ∧ fleb l plan.(p95_latency_threshold_seconds) = true) ∧
  h.(healthy) = true.

Lemma at_most_spec o th : at_most o th = true ↔ ∃ v, o = Some v ∧ fleb v th = true.
Proof. destruct o; simpl; naive_solver. Qed.

Lemma cluster_signals_ok (w w' : World X) l after :
  cluster_signals plan before w = (Ok (l, after), w') →
  ∃ d w1 pods, get_deployment plan.(vp_namespace) plan.(vp_deployment) w = (Ok d, w1) ∧
    get_pods plan.(vp_namespace) plan.(vp_label_selector) w1 = (Ok pods, w') ∧
    (required_passed l = true ↔ plan.(vp_expected_replicas) ≤ d.(ready_replicas) ∧
                                plan.(vp_expected_replicas) ≤ count_ready pods).
Proof.
  unfold cluster_signals. intros Hrun.
  apply bind_ok in Hrun as (d & w1 & Hd & Hrun).
  apply bind_ok in Hrun as (c1 & w2 & [-> [Hr1 Hp1]]%signal_same_world & Hrun).
  apply bind_ok in Hrun as (pods & w3 & Hp & Hrun).
  apply bind_ok in Hrun as (c2 & w4 & [-> [Hr2 Hp2]]%signal_same_world & Hrun).
  apply bind_ok in Hrun as (c3 & w5 & [-> [Hr3 Hp3]]%signal_same_world & Hrun).
  injection Hrun as <- _ <-. exists d, w1, pods. split; [done|]. split; [done|].
  unfold required_passed. simpl. rewrite Hr1, Hr2, Hr3. simpl.
  rewrite Hp1, Hp2, andb_true_r, andb_true_iff, !Z.leb_le. done.
Qed.

Lemma telemetry_signals_ok (w w' : World X) l after :
  telemetry_signals metrics_api plan before w = (Ok (l, after), w') →
  ∃ er w1 la,
    let window := {| tw_start := (rt_now w.(ext)).1 - seconds 180;
                     tw_end := (rt_now w.(ext)).1; tw_step_seconds := 15 |} in
    scalar_query metrics_api (error_query plan.(vp_service_name)) window (utc_now w).2 =
      (Ok er, w1) ∧
    scalar_query metrics_api (latency_query plan.(vp_service_name)) window w1 = (Ok la, w') ∧
    (required_passed l = true ↔ at_most er plan.(error_rate_threshold) = true ∧
                                at_most la plan.(p95_latency_threshold_seconds) = true).
Proof.
  unfold telemetry_signals. intros Hrun.
  apply bind_ok in Hrun as (now & w1 & Hn & Hrun). injection Hn as <- <-.
  apply bind_ok in Hrun as (window & w2 & Hw & Hrun). unfold lift, validated in Hw.
  destruct (TelemetryWindow_valid _); [|done]. injection Hw as <- <-.
  apply bind_ok in Hrun as (er & w3 & He & Hrun).
  apply bind_ok in Hrun as (la & w4 & Hl & Hrun).
  apply bind_ok in Hrun as (c1 & w5 & [-> [Hr1 Hp1]]%signal_same_world & Hrun).
  apply bind_ok in Hrun as (c2 & w6 & [-> [Hr2 Hp2]]%signal_same_world & Hrun).
  injection Hrun as <- _ <-. exists er, w3, la. split; [exact He|]. split; [exact Hl|].
  unfold required_passed. simpl. rewrite Hr1, Hr2. simpl.
  by rewrite Hp1, Hp2, andb_true_r, andb_true_iff.
Qed.

Lemma health_signals_ok (w w' : World X) l after :
  health_signals plan before w = (Ok (l, after), w') →
  ∃ h, get_service_health plan.(vp_namespace) plan.(vp_service_name) plan.(vp_health_path) w =
         (Ok h, w') ∧ (required_passed l = true ↔ h.(healthy) = true).
Proof.
  unfold health_signals. intros Hrun.
  apply bind_ok in Hrun as (h & w1 & Hh & Hrun).
  apply bind_ok in Hrun as (c1 & w2 & [-> [Hr1 Hp1]]%signal_same_world & Hrun).
  apply bind_ok in Hrun as (c2 & w3 & [-> [Hr2 Hp2]]%signal_same_world & Hrun).
  injection Hrun as <- _ <-. exists h. split; [done|].
  unfold required_passed. simpl. rewrite Hr1, Hr2. simpl.
  rewrite Hp1, Hp2, andb_true_r, andb_true_iff. tauto.
Qed.

Lemma required_passed_app l1 l2 :
  required_passed (l1 ++ l2) = required_passed l1 && required_passed l2.
Proof. unfold required_passed. by rewrite List.filter_app, forallb_app. Qed.

Lemma failures_counted (b : bool) (w w' : World X) u :
  when b (metric_add (VERIFICATION_FAILURES_TOTAL "multi_signal") 1) w = (Ok u, w') →
  w'.(work) = w.(work) ∧ w'.(trace) = w.(trace) ∧
  metric w' (VERIFICATION_FAILURES_TOTAL "multi_signal") =
    metric w (VERIFICATION_FAILURES_TOTAL "multi_signal") + Z.b2z b.
Proof.
  destruct b; intros [= _ <-]; split_and!; try done; simpl; [|lia].
  unfold metric. simpl. by rewrite lookup_insert_eq.
Qed.

(** A multi-signal verification that returns is a success exactly when every
    required signal was read and holds: enough ready replicas and ready pods, an
    error rate and a latency that were both measured and are within their
    thresholds, a healthy endpoint.  A signal Prometheus has no sample for fails
    it; the restart count never decides; each failure is counted once. *)
Theorem verify_signals_truthful (w w' : World X) r :
  verify w = (Ok r, w') →
  ∃ d pods er la h w1, signals_read d pods er la h w w1 ∧
    (r.(ms_success) = true ↔ signals_hold d pods er la h) ∧
    w'.(work) = w1.(work) ∧ w'.(trace) = w1.(trace) ∧
    metric w' (VERIFICATION_FAILURES_TOTAL "multi_signal") =
      metric w1 (VERIFICATION_FAILURES_TOTAL "multi_signal") + Z.b2z (negb r.(ms_success)).
Proof.
  unfold verify_signals. intros Hrun.
  apply bind_ok in Hrun as ([l1 a1] & w1 & (d & wd & pods & Hd & Hp & Hc)%cluster_signals_ok & Hrun).
  apply bind_ok in Hrun as ([l2 a2] & w2 & (er & we & la & He & Hl & Ht)%telemetry_signals_ok & Hrun).
  apply bind_ok in Hrun as ([l3 a3] & w3 & (h & Hh & Hg)%health_signals_ok & Hrun).
  apply bind_ok in Hrun as (u & w4 & (Hw & Htr & Hm)%failures_counted & Hrun).
  unfold lift, validated in Hrun. destruct (MultiSignalResult_valid _); [|done].
  injection Hrun as <- <-. exists d, pods, er, la, h, w3. cbn [ms_success].
  split; [by exists wd, w1, we, w2|]. split; [|done].
  rewrite !required_passed_app, !andb_true_iff, Hc, Ht, Hg, !at_most_spec.
  unfold signals_hold. tauto.
Qed.
End multisignal_properties.

(** ** The resolution *)

Section resolution_properties.
Context {X : Type} `{!Runtime X} (settings : Settings).

(** The three ways [apply_verification] can return. *)
Lemma apply_verification_ok iid vid success att src i (w w' : World X) u :
  apply_verification settings iid vid success att src w = (Ok u, w') →
  w.(work).(incidents) !! iid = Some i →
  ∃ i', w'.(work).(incidents) !! iid = Some i' ∧
    if success then i'.(inc_state) = RESOLVED ∧ i'.(inc_resolution_source) = Some src ∧
                    (i.(inc_state) = RESOLVED ∨ step i.(inc_state) RESOLVED)
    else if 3 <=? att then i'.(inc_state) = ESCALATED else w' = w.
Proof.
  unfold apply_verification. intros Hrun Hi. destruct success.
  - apply bind_ok in Hrun as (u1 & w1 & H1 & Hrun). run_inv H1.
    set (i1 := set_inc_resolution_source (Some src) i).
    match type of Hrun with _ ?wi = _ =>
      assert (wi.(work).(incidents) !! iid = Some i1) as Hi1
        by (simpl; by rewrite lookup_alter_eq, Hi) end.
    destruct (change_incident_state_ok _ _ _ _ _ _ _ _ _ _ Hrun Hi1)
      as [[Hst ->]|(Hst & now & Hinc)]; [by exists i1; split_and!; auto|].
    exists (with_state now RESOLVED i1). rewrite Hinc, lookup_alter_eq, Hi1.
    split; [done|]. split_and!; [apply with_state_state|done|by right].
  - destruct (3 <=? att); [|injection Hrun as _ <-; by exists i].
    destruct (change_incident_state_ok _ _ _ _ _ _ _ _ _ _ Hrun Hi)
      as [[Hst ->]|(_ & now & Hinc)]; [by exists i|].
    exists (with_state now ESCALATED i). rewrite Hinc, lookup_alter_eq, Hi.
    split; [done|]. apply with_state_state.
Qed.

Lemma withhold_rollback_same i id s e :
  evolves (same_db (λ d, (d.(incidents), d.(verification_records))))
    (withhold_rollback (X:=X) i id s e).
Proof. unfold withhold_rollback. evolve. Qed.

Lemma apply_verification_records iid vid s att src :
  evolves (same_db verification_records) (apply_verification (X:=X) settings iid vid s att src).
Proof.
  unfold apply_verification, change_incident_state, record_state_change, add_incident_event,
    notify_state_change, queue_incident_notification, queue, queue_channel, request_approval,
    ensure_runtime_approval, capture_terminal_incident, remember.
  evolve.
Qed.

(** C34: resolution is truthful.  A verification that is stored adds exactly one
    record for its incident and attempt (never a second one, never outside one to
    three); the incident is resolved exactly by a successful one, with the source
    of the resolution; a failed third attempt escalates it; any other failure
    leaves the incident as it is. *)
Theorem persist_verification_truthful iid result att execution src (w w' : World X) id i :
  w.(work).(incidents) !! iid = Some i →
  persist_verification settings iid result att execution src w = (Ok id, w') →
  1 ≤ att ≤ 3 ∧
  (∃ now, w'.(work).(verification_records) = w.(work).(verification_records) ++
     [new_verification id now i.(inc_id) result att execution]) ∧
  (∀ b, b ∈ w.(work).(verification_records) → b.(ver_incident_id) = i.(inc_id) →
     b.(ver_attempt) ≠ att) ∧
  ∃ i', w'.(work).(incidents) !! iid = Some i' ∧
    if result.(ms_success) then
      i'.(inc_state) = RESOLVED ∧ i'.(inc_resolution_source) = Some src ∧
      (i.(inc_state) = RESOLVED ∨ step i.(inc_state) RESOLVED)
    else if 3 <=? att then i'.(inc_state) = ESCALATED else i' = i.
Proof.
  intros Hi Hrun. unfold persist_verification in Hrun.
  apply bind_ok in Hrun as (i0 & w1 & H1 & Hrun). run_inv H1. simplify_eq.
  apply bind_ok in Hrun as (now & w2 & H2 & Hrun). injection H2 as _ <-.
  apply bind_ok in Hrun as (id' & w3 & H3 & Hrun). injection H3 as _ <-.
  apply bind_ok in Hrun as (u4 & w4 & H4 & Hrun). unfold insert_verification in H4. run_inv H4.
  unfold verification_constraints in *. boolify. simpl in *.
  apply bind_ok in Hrun as (u5 & w5 & H5 & Hrun).
  apply bind_ok in Hrun as (e & w6 & H6 & Hrun).
  apply bind_ok in Hrun as (u7 & w7 & H7 & Hrun).
  apply bind_ok in Hrun as (u8 & w8 & H8 & Hrun). run_inv Hrun.
  pose proof (evolves_run _ _ _ _ _ (append_stream_event_same
    (λ d, (d.(incidents), d.(verification_records))) _ _ _ (λ _ _, eq_refl)) H5) as Hs5.
  assert (w6 = w5) as -> by (destruct execution; by injection H6 as _ <-).
  pose proof (evolves_run _ _ _ _ _ (withhold_rollback_same _ _ _ _) H7) as Hs7.
  pose proof (evolves_run _ _ _ _ _ (apply_verification_records _ _ _ _ _) H8) as Hs8.
  unfold same_db, stable in *. injection Hs5 as Hi5 Hv5. injection Hs7 as Hi7 Hv7. simpl in *.
  assert (w7.(work).(incidents) !! iid = Some i) as Hi8 by by rewrite Hi7, Hi5.
  destruct (apply_verification_ok _ _ _ _ _ _ _ _ _ H8 Hi8) as (i' & Hi' & Hres).
  split; [done|]. split; [exists now; by rewrite Hs8, Hv7, Hv5|]. split.
  - intros b Hb Hbi Hba.
    match goal with H : existsb _ _ = false |- _ => apply not_true_iff_false in H; apply H end.
    apply existsb_elem_of. exists b. split; [done|].
    rewrite bool_decide_eq_true_2 by done. by apply Z.eqb_eq.
  - exists i'. split; [done|]. destruct (ms_success result); [done|].
    destruct (3 <=? att); [done|]. rewrite Hres in Hi'. congruence.
Qed.
End resolution_properties.

(** ** Concrete verifications *)

(** One series: an error rate and a latency of [0.01]. *)
Definition prometheus_body : string :=
  dumps (JObj [("status", JStr "success");
    ("data", JObj [("result", JArr [JObj [("values",
       JArr [JArr [JInt 1; JStr "0.5"]; JArr [JInt 2; JStr "0.01"]])]])])]).
#[export] Instance bench_telemetry : TelemetryServer Z :=
  λ _ _ _ x, (HttpResponse 200 prometheus_body, x).

(** The server of the examples, with its pod ready. *)
Definition ready_pod : V1Pod :=
  {| v1_namespace := bench_pod.(v1_namespace); v1_name := bench_pod.(v1_name);
     v1_labels := bench_pod.(v1_labels); v1_owners := bench_pod.(v1_owners);
     v1_phase := Some "Running";
     v1_conditions := Some [{| con_type := "Ready"; con_status := JStr "True" |}];
     v1_statuses := bench_pod.(v1_statuses) |}.
Definition ready_kube : KubeApi Z := {|
  read_namespaced_pod _ _ x := (inl ready_pod, x);
  list_namespaced_pod _ _ x := (inl [ready_pod], x);
  delete_namespaced_pod := delete_namespaced_pod;
  patch_namespaced_pod := patch_namespaced_pod;
  read_namespaced_deployment := read_namespaced_deployment;
  patch_namespaced_deployment_scale := patch_namespaced_deployment_scale;
  list_namespaced_event := list_namespaced_event;
  service_proxy_get := service_proxy_get;
  pod_proxy_get := pod_proxy_get;
  get_custom_object := get_custom_object;
  create_custom_object := create_custom_object;
  delete_custom_object := delete_custom_object;
|}.

Definition bench_plan : VerificationPlan :=
  {| vp_namespace := "cloudward-staging"; vp_deployment := "demo"; vp_label_selector := "app=demo";
     vp_service_name := "demo"; vp_expected_replicas := 1;
     error_rate_threshold := float_of_decimal 5 (-2);
     p95_latency_threshold_seconds := float_of_decimal 5 (-1); vp_health_path := "/health" |}.
Definition prometheus : HTTPProvider :=
  {| base_url := "http://prometheus:9090"; max_samples := 100;
     provider_class := "PrometheusMetricsProvider" |}.

Definition bench_signals (api : KubeApi Z) (w : World Z) : res MultiSignalResult * World Z :=
  verify_signals (Runtime0 := bench_runtime) (KubeApi0 := api) prometheus bench_plan [] w.

Example unready_pod_fails :
  exists r, (bench_signals bench_kube (bench_world empty_database)).1 = Ok r /\
    r.(ms_success) = false.
Proof. eexists. split; vm_compute; reflexivity. Qed.

Lemma verify_signals_truthful_witness :
  exists d pods er la h, signals_hold bench_plan d pods er la h.
Proof.
  assert (∃ r, (bench_signals ready_kube (bench_world empty_database)).1 = Ok r ∧
            r.(ms_success) = true) as (r & Hr & Hs)
    by (eexists; split; vm_compute; reflexivity).
  apply run_of in Hr. unfold bench_signals at 1 in Hr. apply verify_signals_truthful in Hr.
  destruct Hr as (d & pods & er & la & h & w1 & _ & Hiff & _).
  exists d, pods, er, la, h. by apply Hiff.
Defined.

Definition verifying_world : World Z :=
  set_work (upd_incidents (λ _, {[1%N := set_inc_state VERIFYING waiting_incident]})
              waiting_world.(work)) waiting_world.
Definition healthy_result : MultiSignalResult :=
  {| ms_success := true; ms_checks := []; ms_before_values := []; ms_after_values := [] |}.
Definition bench_persist : res uuid * World Z :=
  persist_verification (Runtime0 := bench_runtime) example_settings 1%N healthy_result 1 None
    CLOUDWARD_REMEDIATION verifying_world.

Lemma persist_verification_truthful_witness :
  ∃ i, bench_persist.2.(work).(incidents) !! 1%N = Some i ∧ i.(inc_state) = RESOLVED.
Proof.
  assert (∃ id, bench_persist.1 = Ok id) as [id Hr] by (eexists; vm_compute; reflexivity).
  apply run_of in Hr. unfold bench_persist at 1 in Hr.
  apply (persist_verification_truthful (Runtime0 := bench_runtime) example_settings 1%N
    healthy_result 1 None CLOUDWARD_REMEDIATION verifying_world _ id
    (set_inc_state VERIFYING waiting_incident)) in Hr; [|reflexivity].
  destruct Hr as (_ & _ & _ & i & Hi & Hst & _). exists i. split; [exact Hi|exact Hst].
Defined.
