(* ===== verification/Runbooks.v ===== *)
(** * Runbooks

    [runbooks/schema.py] and [runbooks/loader.py]: the mapping constructor that
    refuses duplicate keys, the refusal of executable fields, the strict schema,
    the loader and the deterministic match.  The files and the YAML parser below
    the constructor are third-party: a file is given as the node the parser
    composes, or the exception it raises. *)

From S2P Require Import Prelude PyFloat Json JsonParse Effects Actions Models Config ApprovalRequests.

(** ** The schema *)

Inductive RequiredEvidence : Type :=
| EV_KUBERNETES_STATE | EV_KUBERNETES_EVENT | EV_READINESS | EV_HEALTH_CHECK | EV_ERROR_RATE
| EV_LATENCY | EV_CPU_SATURATION | EV_MEMORY_WORKING_SET | EV_CONTAINER_TERMINATION
| EV_RESTART_COUNT | EV_RESOURCE_CONFIGURATION | EV_LOGS | EV_TRACES | EV_DEPLOYMENT_STATE
| EV_PREVIOUS_REVISION | EV_RUNTIME_SECURITY_EVENT | EV_CILIUM_POLICY_STATE
| EV_CONTROLLED_EGRESS_PROBE.

Definition RequiredEvidence_values : list (string * RequiredEvidence) :=
  [("kubernetes_state", EV_KUBERNETES_STATE); ("kubernetes_event", EV_KUBERNETES_EVENT);
   ("readiness", EV_READINESS); ("health_check", EV_HEALTH_CHECK);
   ("error_rate", EV_ERROR_RATE); ("latency", EV_LATENCY);
   ("cpu_saturation", EV_CPU_SATURATION); ("memory_working_set", EV_MEMORY_WORKING_SET);
   ("container_termination", EV_CONTAINER_TERMINATION); ("restart_count", EV_RESTART_COUNT);
   ("resource_configuration", EV_RESOURCE_CONFIGURATION); ("logs", EV_LOGS);
   ("traces", EV_TRACES); ("deployment_state", EV_DEPLOYMENT_STATE);
   ("previous_revision", EV_PREVIOUS_REVISION);
   ("runtime_security_event", EV_RUNTIME_SECURITY_EVENT);
   ("cilium_policy_state", EV_CILIUM_POLICY_STATE);
   ("controlled_egress_probe", EV_CONTROLLED_EGRESS_PROBE)].

(** [RunbookEnvironment] has the values of [Environment]. *)
Definition RunbookEnvironment_values : list (string * Environment) :=
  [("local", ENV_LOCAL); ("staging", ENV_STAGING); ("production", ENV_PRODUCTION)].

Record MatchSchema := { match_incident_type : string; match_conditions : list string }.
Record PreconditionsSchema := { max_target_pods : Z; pre_controller_managed : bool }.
Record VerificationSchema := { verify_timeout : string; verify_conditions : list string }.

Record RunbookDocument := {
  rb_id : string;
  rb_version : Z;
  rb_environments : list Environment;
  rb_match : MatchSchema;
  rb_evidence : list RequiredEvidence;
  rb_preconditions : PreconditionsSchema;
  rb_action : ActionType;
  rb_verify : VerificationSchema;
  rb_rollback : bool;
}.

(** *** Durations *)

Definition str_drop_last (s : string) : string :=
  match str_rev s with String.String _ r => str_rev r | EmptyString => EmptyString end.

(** [re.fullmatch(r"(?:[1-9]\d*)(?:s|m)", value)]. *)
Definition duration_format (s : string) : bool :=
  (ends_with "s" s || ends_with "m" s) &&
  match str_drop_last s with
  | String.String c r => in_range 49 57 c && str_forallb is_digit r
  | EmptyString => false
  end.

(** [int(value[:-1]) * (60 if value.endswith("m") else 1)]. *)
Definition duration_seconds (s : string) : Z :=
  default 0 (int_of_str (str_drop_last s)) * (if ends_with "m" s then 60 else 1).

Definition duration_valid (s : string) : bool :=
  duration_format s && (duration_seconds s <=? 600).

Definition timeout_seconds (v : VerificationSchema) : Z := duration_seconds v.(verify_timeout).

(** *** Validation of the fields *)

(** [^[a-z0-9_.-]+$], without the length. *)
Definition type_char (c : ascii) : bool :=
  is_lower c || is_digit c || bool_decide (c ∈ ["_"; "."; "-"]%char).

(** [^[a-z0-9]+(?:[.-][a-z0-9]+)*$]; [after] holds after a letter or a digit. *)
Fixpoint slug (after : bool) (s : string) : bool :=
  match s with
  | EmptyString => after
  | String.String c s =>
      if is_lower c || is_digit c then slug true s
      else bool_decide (c ∈ ["."; "-"]%char) && after && slug false s
  end.

Section schema.
Context `{!Pydantic}.

(** A model with [extra="forbid"]. *)
Definition fields_of (names : list string) (j : json) : option dict :=
  match j with
  | JObj d => if forallb (λ kv, bool_decide (kv.1 ∈ names)) d then Some d else None
  | _ => None
  end.
Definition field {A} (k : string) (f : json → option A) (d : dict) : option A :=
  match dict_get k d with Some j => f j | None => None end.
Definition checked {A} (p : A → bool) (f : json → option A) (j : json) : option A :=
  match f j with Some a => if p a then Some a else None | None => None end.

Definition a_string (j : json) : option string := match j with JStr s => Some s | _ => None end.
Definition member {A} (values : list (string * A)) (j : json) : option A :=
  match j with JStr s => dict_get s values | _ => None end.
Fixpoint all_of {A} (f : json → option A) (l : list json) : option (list A) :=
  match l with
  | [] => Some []
  | j :: l => match f j, all_of f l with Some a, Some r => Some (a :: r) | _, _ => None end
  end.
Definition list_of {A} (f : json → option A) (j : json) : option (list A) :=
  match j with JArr l => all_of f l | _ => None end.
Definition lengths {A} (lo hi : nat) (l : list A) : bool :=
  bool_decide (lo ≤ length l ∧ length l ≤ hi)%nat.

Definition MatchSchema_validate (j : json) : option MatchSchema :=
  match fields_of ["incident_type"; "conditions"] j with
  | None => None
  | Some d =>
      match field "incident_type" (checked (λ s, (1 <=? str_len s) && (str_len s <=? 64) &&
                                              str_forallb type_char s) a_string) d,
            field "conditions" (checked (lengths 1 20) (list_of a_string)) d with
      | Some t, Some c => Some {| match_incident_type := t; match_conditions := c |}
      | _, _ => None
      end
  end.

Definition EvidenceSchema_validate (j : json) : option (list RequiredEvidence) :=
  match fields_of ["required"] j with
  | Some d => field "required" (checked (lengths 1 20)
                                  (list_of (member RequiredEvidence_values))) d
  | None => None
  end.

Definition PreconditionsSchema_validate (j : json) : option PreconditionsSchema :=
  match fields_of ["max_target_pods"; "controller_managed"] j with
  | None => None
  | Some d =>
      match field "max_target_pods" (checked (λ z, (1 <=? z) && (z <=? 10)) lax_int) d,
            field "controller_managed" lax_bool d with
      | Some n, Some c => Some {| max_target_pods := n; pre_controller_managed := c |}
      | _, _ => None
      end
  end.

Definition ActionSchema_validate (j : json) : option ActionType :=
  match fields_of ["type"] j with
  | Some d => field "type" (λ j, match j with JStr s => ActionType_of_value s | _ => None end) d
  | None => None
  end.

Definition VerificationSchema_validate (j : json) : option VerificationSchema :=
  match fields_of ["timeout"; "conditions"] j with
  | None => None
  | Some d =>
      match field "timeout" (checked duration_valid a_string) d,
            field "conditions" (checked (lengths 1 20) (list_of a_string)) d with
      | Some t, Some c => Some {| verify_timeout := t; verify_conditions := c |}
      | _, _ => None
      end
  end.

Definition RollbackSchema_validate (j : json) : option bool :=
  match fields_of ["enabled"] j with Some d => field "enabled" lax_bool d | None => None end.

(** [validate_action_contract]. *)
Definition action_contract (r : RunbookDocument) : bool :=
  let metadata := ACTION_REGISTRY r.(rb_action) in
  forallb (λ e, bool_decide (Environment_value e ∈ metadata.(allowed_environments)))
    r.(rb_environments) &&
  (negb r.(rb_rollback) || metadata.(rollback_capable)).

Definition document_fields : list string :=
  ["id"; "version"; "environments"; "match"; "evidence"; "preconditions"; "action"; "verify";
   "rollback"].

(** [RunbookDocument.model_validate]; [None] is a [ValidationError]. *)
Definition RunbookDocument_validate (j : json) : option RunbookDocument :=
  match fields_of document_fields j with
  | None => None
  | Some d =>
      match field "id" (checked (λ s, (3 <=? str_len s) && (str_len s <=? 255) && slug false s)
                          a_string) d,
            field "version" (checked (Z.leb 1) lax_int) d,
            field "environments" (checked (λ l, negb (bool_decide (l = [])))
                                    (list_of (member RunbookEnvironment_values))) d,
            field "match" MatchSchema_validate d, field "evidence" EvidenceSchema_validate d,
            field "preconditions" PreconditionsSchema_validate d,
            field "action" ActionSchema_validate d,
            field "verify" VerificationSchema_validate d,
            field "rollback" RollbackSchema_validate d with
      | Some i, Some v, Some es, Some m, Some ev, Some p, Some a, Some vf, Some rb =>
          let r := {| rb_id := i; rb_version := v; rb_environments := es; rb_match := m;
                      rb_evidence := ev; rb_preconditions := p; rb_action := a;
                      rb_verify := vf; rb_rollback := rb |} in
          if action_contract r then Some r else None
      | _, _, _, _, _, _, _, _, _ => None
      end
  end.
End schema.

(** ** The YAML document *)

(** What the parser composes: a scalar of the JSON types (by its tag), a scalar
    of another type by its [str] (a timestamp), a sequence or a mapping. *)
Inductive yaml_node : Type :=
| NodeScalar (j : json)
| NodeOther (text : string)
| NodeSequence (l : list yaml_node)
| NodeMapping (l : list (yaml_node * yaml_node)).

Inductive yaml : Type :=
| YScalar (j : json)
| YOther (text : string)
| YList (l : list yaml)
| YDict (l : list (yaml * yaml)).

(** [key in mapping]: equality of hashable keys, across the numeric types. *)
Definition as_ratio (j : json) : option (Z * positive) :=
  match j with
  | JInt z => Some (z, 1%positive)
  | JBool b => Some (Z.b2z b, 1%positive)
  | JFloat f => if is_finite f then Some (to_ratio f) else None
  | _ => None
  end.
Definition key_eqb (a b : yaml) : bool :=
  match a, b with
  | YScalar i, YScalar j =>
      match as_ratio i, as_ratio j with
      | Some (n, d), Some (m, e) => n * Zpos e =? m * Zpos d
      | _, _ => json_eqb i j
      end
  | YOther s, YOther t => String.eqb s t
  | _, _ => false
  end.
Definition hashable (k : yaml) : bool :=
  match k with YScalar _ | YOther _ => true | _ => false end.

Definition duplicate_key : exn := PyError "ConstructorError" "duplicate key".
Definition unhashable_key : exn := PyError "TypeError" "unhashable type".

(** [UniqueKeyLoader]: [_construct_mapping] for the mappings.  The loader fills
    sequences after the mapping around them, so of several errors of one document
    it may report another one than the first. *)
Fixpoint construct (n : yaml_node) : res yaml :=
  match n with
  | NodeScalar j => Ok (YScalar j)
  | NodeOther s => Ok (YOther s)
  | NodeSequence l =>
      res_bind ((fix go l := match l with
                 | [] => Ok []
                 | x :: l => res_bind (construct x) (λ v,
                               res_bind (go l) (λ vs, Ok (v :: vs)))
                 end) l) (λ vs, Ok (YList vs))
  | NodeMapping l =>
      res_bind ((fix go (mapping : list (yaml * yaml)) l := match l with
                 | [] => Ok mapping
                 | (k, v) :: l =>
                     res_bind (construct k) (λ key,
                       if negb (hashable key) then Raise unhashable_key
                       else if existsb (λ kv, key_eqb kv.1 key) mapping then Raise duplicate_key
                       else res_bind (construct v) (λ value, go (mapping ++ [(key, value)]) l))
                 end) [] l) (λ d, Ok (YDict d))
  end.

Definition FORBIDDEN_KEYS : list string :=
  ["shell"; "command"; "commands"; "exec"; "script"; "kubectl"].

(** [str(key)] and [str(key).lower().replace("-", "_")]. *)
Definition key_str (k : yaml) : string :=
  match k with YScalar j => py_str j | YOther s => s | _ => EmptyString end.
Definition normalized (k : yaml) : string := replace_char "-" "_" (lower (key_str k)).

Definition executable_field (path : string) : exn :=
  cw_error_status "INVALID_RUNBOOK"
    ("Executable field " +:+ path +:+ " is forbidden in declarative runbooks") 422.

(** [_reject_executable_content]. *)
Fixpoint reject_executable_content (v : yaml) (path : string) : res unit :=
  match v with
  | YDict l =>
      (fix go l := match l with
       | [] => Ok tt
       | (k, child) :: l =>
           let below := path +:+ "." +:+ key_str k in
           if bool_decide (normalized k ∈ FORBIDDEN_KEYS) then Raise (executable_field below)
           else res_bind (reject_executable_content child below) (λ _, go l)
       end) l
  | YList l =>
      (fix go (index : Z) l := match l with
       | [] => Ok tt
       | child :: l =>
           res_bind (reject_executable_content child (path +:+ "[" +:+ str_of_Z index +:+ "]"))
             (λ _, go (index + 1) l)
       end) 0 l
  | _ => Ok tt
  end.

(** The document as pydantic reads it: every mapping is a model, whose keys must
    be strings, and no field takes a timestamp. *)
Fixpoint yaml_json (v : yaml) : option json :=
  match v with
  | YScalar j => Some j
  | YOther _ => None
  | YList l =>
      match (fix go l := match l with
             | [] => Some []
             | x :: l => match yaml_json x, go l with
                         | Some j, Some r => Some (j :: r) | _, _ => None end
             end) l with Some r => Some (JArr r) | None => None end
  | YDict l =>
      match (fix go l := match l with
             | [] => Some []
             | (k, x) :: l => match k, yaml_json x, go l with
                              | YScalar (JStr s), Some j, Some r => Some ((s, j) :: r)
                              | _, _, _ => None end
             end) l with Some r => Some (JObj r) | None => None end
  end.

(** ** The loader *)

Definition MAX_RUNBOOK_BYTES : Z := 256 * 1024.

(** [self._runbooks], a dictionary by identifier and version, in its order. *)
Record RunbookLoader := { loaded_runbooks : list RunbookDocument }.

Definition same_key (a b : RunbookDocument) : bool :=
  String.eqb a.(rb_id) b.(rb_id) && (a.(rb_version) =? b.(rb_version)).

(** A file: its size, or the failure of [stat], and what reading and composing it
    gives. *)
Record RunbookFile := { file_name : string; file_size : res Z; file_root : res yaml_node }.

(** Classes caught by [except (OSError, ValueError, ValidationError, YAMLError)]. *)
Definition read_errors : list string :=
  ["OSError"; "FileNotFoundError"; "PermissionError"; "IsADirectoryError"; "ValueError";
   "UnicodeDecodeError"; "ValidationError"; "YAMLError"; "ConstructorError"; "ComposerError";
   "ParserError"; "ScannerError"; "ReaderError"].

Section loader.
Context `{!Pydantic}.

(** The body of the [try]. *)
Definition document_of (f : RunbookFile) : res RunbookDocument :=
  res_bind f.(file_root) (λ node, res_bind (construct node) (λ raw,
    match raw with
    | YDict _ =>
        res_bind (reject_executable_content raw "root") (λ _,
          match match yaml_json raw with Some j => RunbookDocument_validate j | None => None end
          with
          | Some document => Ok document
          | None => Raise (validation_error "RunbookDocument")
          end)
    | _ => Raise (PyError "ValueError" "document root must be an object")
    end)).

Definition load_file (f : RunbookFile) : res RunbookDocument :=
  res_bind f.(file_size) (λ size,
    if MAX_RUNBOOK_BYTES <? size then
      Raise (cw_error "INVALID_RUNBOOK" ("Runbook too large: " +:+ f.(file_name)))
    else match document_of f with
         | Ok document => Ok document
         | Raise (PyError cls message) =>
             if bool_decide (cls ∈ read_errors) then
               Raise (cw_error_status "INVALID_RUNBOOK"
                        ("Invalid runbook " +:+ f.(file_name) +:+ ": " +:+ message) 422)
             else Raise (PyError cls message)
         | Raise e => Raise e
         end).

Fixpoint load_files (files : list RunbookFile) (loaded : list RunbookDocument)
  : res (list RunbookDocument) :=
  match files with
  | [] => Ok loaded
  | f :: files =>
      res_bind (load_file f) (λ document,
        if existsb (same_key document) loaded then
          Raise (cw_error "DUPLICATE_RUNBOOK"
                   ("Duplicate runbook " +:+ document.(rb_id) +:+ " v" +:+
                    str_of_Z document.(rb_version)))
        else load_files files (loaded ++ [document]))
  end.

(** [(runbook.id, runbook.version)] and [(runbook.version, runbook.id)]. *)
Definition id_leb (a b : RunbookDocument) : bool :=
  if String.eqb a.(rb_id) b.(rb_id) then a.(rb_version) <=? b.(rb_version)
  else str_leb a.(rb_id) b.(rb_id).
Definition version_geb (a b : RunbookDocument) : bool :=
  if a.(rb_version) =? b.(rb_version) then str_leb b.(rb_id) a.(rb_id)
  else b.(rb_version) <=? a.(rb_version).

Definition runbooks (l : RunbookLoader) : list RunbookDocument :=
  isort id_leb l.(loaded_runbooks).

Definition is_runbook_file (f : RunbookFile) : bool :=
  ends_with ".yaml" f.(file_name) || ends_with ".yml" f.(file_name).

(** [load]; [None] is a path that is not a directory. *)
Definition load (path : string) (directory : option (list RunbookFile))
  : M RunbookLoader (list RunbookDocument) :=
  match directory with
  | None => raise (cw_error_status "RUNBOOK_PATH_UNAVAILABLE"
                     ("Runbook directory does not exist: " +:+ path) 503)
  | Some files =>
      let! loaded := lift (load_files (isort (λ a b, str_leb a.(file_name) b.(file_name))
                                         (List.filter is_runbook_file files)) []) in
      do! put {| loaded_runbooks := loaded |};
      gets runbooks
  end.
End loader.

Definition applicable (incident_type : string) (conditions : list string) (environment : string)
    (r : RunbookDocument) : bool :=
  String.eqb r.(rb_match).(match_incident_type) incident_type &&
  forallb (λ c, bool_decide (c ∈ conditions)) r.(rb_match).(match_conditions) &&
  bool_decide (environment ∈ map Environment_value r.(rb_environments)).

Definition runbook_not_found : exn :=
  cw_error_status "RUNBOOK_NOT_FOUND" "No deterministic runbook matches the incident evidence" 422.

(** [match]. *)
Definition match_runbook (l : RunbookLoader) (incident_type : string) (conditions : list string)
    (environment : string) : res RunbookDocument :=
  match isort version_geb
          (List.filter (applicable incident_type conditions environment) l.(loaded_runbooks)) with
  | [] => Raise runbook_not_found
  | r :: _ => Ok r
  end.

(** ** The order of the candidates *)

Lemma str_leb_cons a s b t :
  str_leb (String.String a s) (String.String b t) = true ↔
  (N_of_ascii a < N_of_ascii b)%N ∨ (a = b ∧ str_leb s t = true).
Proof.
  unfold str_leb. simpl. destruct (Ascii.compare a b) eqn:E.
  - apply Ascii.compare_eq_iff in E as ->. split; [by right|]. intros [Hlt|[_ Hs]]; [lia|done].
  - split; [intros _; left|done]. unfold Ascii.compare in E. by apply N.compare_lt_iff.
  - split; [done|]. unfold Ascii.compare in E. apply N.compare_gt_iff in E.
    intros [Hlt|[-> _]]; lia.
Qed.

Lemma str_leb_trans a b c : str_leb a b = true → str_leb b c = true → str_leb a c = true.
Proof.
  revert b c. induction a as [|x a IH]; intros [|y b] [|z c]; try done.
  rewrite !str_leb_cons. intros [H1|[-> H1]] [H2|[-> H2]];
    [left; lia|by left|by left|right; split; [done|by apply (IH b)]].
Qed.

Lemma str_leb_total a b : str_leb a b = true ∨ str_leb b a = true.
Proof.
  unfold str_leb. rewrite (String.compare_antisym b a).
  destruct (String.compare a b); simpl; auto.
Qed.

Lemma version_geb_total a b : version_geb a b = true ∨ version_geb b a = true.
Proof.
  unfold version_geb. rewrite (Z.eqb_sym b.(rb_version)).
  destruct (Z.eqb_spec a.(rb_version) b.(rb_version)); [apply str_leb_total|].
  rewrite !Z.leb_le. lia.
Qed.

Lemma version_geb_spec a b :
  version_geb a b = true ↔
  b.(rb_version) < a.(rb_version) ∨
  (b.(rb_version) = a.(rb_version) ∧ str_leb b.(rb_id) a.(rb_id) = true).
Proof.
  unfold version_geb. destruct (Z.eqb_spec a.(rb_version) b.(rb_version)) as [->|Hne].
  - naive_solver lia.
  - rewrite Z.leb_le. naive_solver lia.
Qed.

Lemma version_geb_trans a b c :
  version_geb a b = true → version_geb b c = true → version_geb a c = true.
Proof.
  rewrite !version_geb_spec. intros [|[H1 H1']] [|[H2 H2']]; [left; lia..|].
  right. split; [lia|]. by apply (str_leb_trans _ b.(rb_id)).
Qed.

(** The head of a sorted list is a first element. *)
Lemma isort_head {A} (leb : A → A → bool) l x r :
  (∀ a b, leb a b = true ∨ leb b a = true) →
  (∀ a b c, leb a b = true → leb b c = true → leb a c = true) →
  isort leb l = x :: r → ∀ y, y ∈ l → leb x y = true.
Proof.
  intros Htot Htr. revert x r. induction l as [|z l IH]; intros x r Hs y Hy; [done|].
  simpl in Hs. destruct (isort leb l) as [|h s] eqn:El.
  - simpl in Hs. injection Hs as <- _. apply elem_of_cons in Hy as [->|Hy].
    + by destruct (Htot z z).
    + exfalso. rewrite <- (isort_elem leb), El in Hy. by apply elem_of_nil in Hy.
  - simpl in Hs. specialize (IH h s eq_refl). destruct (leb z h) eqn:Ezh; injection Hs as <- _.
    + apply elem_of_cons in Hy as [->|Hy]; [by destruct (Htot z z)|].
      by apply (Htr _ h), IH.
    + apply elem_of_cons in Hy as [->|Hy]; [|by apply IH].
      destruct (Htot z h); congruence.
Qed.

(** C29: the match is deterministic and maximal: it gives a loaded runbook that
    applies (same incident type, all of its conditions observed, the environment
    among its own) such that no loaded runbook that applies has a greater version,
    or the same version and a greater identifier; and it fails, with
    [RUNBOOK_NOT_FOUND], exactly when none applies. *)
Theorem match_runbook_maximal (l : RunbookLoader) (incident_type : string)
    (conditions : list string) (environment : string) :
  match match_runbook l incident_type conditions environment with
  | Ok r =>
      r ∈ l.(loaded_runbooks) ∧ applicable incident_type conditions environment r = true ∧
      ∀ o, o ∈ l.(loaded_runbooks) → applicable incident_type conditions environment o = true →
        o.(rb_version) < r.(rb_version) ∨
        (o.(rb_version) = r.(rb_version) ∧ str_leb o.(rb_id) r.(rb_id) = true)
  | Raise e =>
      e = runbook_not_found ∧
      ∀ o, o ∈ l.(loaded_runbooks) → applicable incident_type conditions environment o = false
  end.
Proof.
  unfold match_runbook. set (p := applicable incident_type conditions environment).
  assert (∀ o, o ∈ l.(loaded_runbooks) → p o = true → o ∈ List.filter p l.(loaded_runbooks))
    as Hin by (intros o ? ?; rewrite list_elem_of_In; apply filter_In; by rewrite <- list_elem_of_In).
  destruct (isort version_geb _) as [|r s] eqn:E.
  - split; [done|]. intros o Ho. apply not_true_iff_false. intros Hp.
    specialize (Hin o Ho Hp). rewrite <- (isort_elem version_geb), E in Hin.
    by apply elem_of_nil in Hin.
  - assert (r ∈ List.filter p l.(loaded_runbooks)) as Hr
      by (rewrite <- (isort_elem version_geb), E; apply elem_of_cons; by left).
    rewrite list_elem_of_In in Hr. apply filter_In in Hr as [Hr Hp].
    rewrite <- list_elem_of_In in Hr. split_and!; [done|done|]. intros o Ho Hpo.
    apply version_geb_spec, (isort_head _ _ _ _ version_geb_total version_geb_trans E).
    by apply Hin.
Qed.

(** ** Durations are positive *)

Lemma digit_not_blank c : is_digit c = true → is_blank c = false.
Proof. destruct c as [[] [] [] [] [] [] [] []]; vm_compute; congruence. Qed.

Lemma drop_blank_digits s : str_forallb is_digit s = true → drop_blank s = s.
Proof.
  destruct s as [|c s]; [done|]. simpl. intros [Hc _]%andb_true_iff.
  by rewrite digit_not_blank.
Qed.

Lemma str_strip_digits s : str_forallb is_digit s = true → str_strip s = s.
Proof.
  intros Hs. unfold str_strip. rewrite (drop_blank_digits s) by done.
  rewrite drop_blank_digits by (by rewrite str_forallb_rev). apply str_rev_involutive.
Qed.

Lemma digits_value_digits prev acc s :
  str_forallb is_digit s = true → (prev = true ∨ s ≠ EmptyString) → 0 ≤ acc →
  ∃ z, digits_value prev acc s = Some z ∧ acc ≤ z.
Proof.
  revert prev acc. induction s as [|c s IH]; intros prev acc Hs Hp Ha.
  - destruct Hp as [->|]; [by exists acc|done].
  - simpl in *. apply andb_true_iff in Hs as [Hc Hs]. unfold digit_value. rewrite Hc.
    unfold is_digit, in_range in Hc. rewrite andb_true_iff, !Z.leb_le in Hc.
    destruct (IH true (10 * acc + (code_of c - 48)) Hs) as (z & Hz & Hle); [by left|lia|].
    exists z. split; [done|lia].
Qed.

Lemma int_of_digits c s :
  in_range 49 57 c = true → str_forallb is_digit s = true →
  ∃ z, int_of_str (String.String c s) = Some z ∧ 1 ≤ z.
Proof.
  intros Hc Hs. assert (is_digit c = true) as Hd.
  { unfold is_digit, in_range in *. rewrite andb_true_iff, !Z.leb_le in *. lia. }
  unfold int_of_str. rewrite str_strip_digits by (simpl; by rewrite Hd).
  assert (Ascii.eqb c "-" = false ∧ Ascii.eqb c "+" = false) as [-> ->].
  { split; apply Ascii.eqb_neq; intros ->; done. }
  simpl. unfold digit_value. rewrite Hd. unfold in_range in Hc.
  rewrite andb_true_iff, !Z.leb_le in Hc.
  destruct (digits_value_digits true (code_of c - 48) s Hs) as (z & Hz & Hle); [by left|lia|].
  exists z. split; [exact Hz|lia].
Qed.

Lemma duration_valid_bounds s : duration_valid s = true → 1 ≤ duration_seconds s ≤ 600.
Proof.
  unfold duration_valid, duration_format, duration_seconds. intros Hd.
  rewrite !andb_true_iff, Z.leb_le in Hd. destruct Hd as [[_ Hf] Hmax]. split; [|done].
  destruct (str_drop_last s) as [|c r]; [done|]. apply andb_true_iff in Hf as [Hc Hr].
  destruct (int_of_digits c r Hc Hr) as (z & -> & Hz). simpl. destruct (ends_with _ _); lia.
Qed.

(** ** Validated documents *)

Lemma field_checked {A} k (p : A → bool) f d a : field k (checked p f) d = Some a → p a = true.
Proof. unfold field, checked. intros. repeat case_match; by simplify_eq. Qed.

(** What the schema guarantees. *)
Record well_formed (r : RunbookDocument) : Prop := {
  wf_version : 1 ≤ r.(rb_version);
  wf_environments : r.(rb_environments) ≠ [];
  wf_supported e : e ∈ r.(rb_environments) →
    Environment_value e ∈ (ACTION_REGISTRY r.(rb_action)).(allowed_environments);
  wf_rollback : r.(rb_rollback) = true → (ACTION_REGISTRY r.(rb_action)).(rollback_capable) = true;
  wf_timeout : 1 ≤ timeout_seconds r.(rb_verify) ≤ 600;
  wf_targets : 1 ≤ r.(rb_preconditions).(max_target_pods) ≤ 10;
  wf_conditions : (1 ≤ length r.(rb_match).(match_conditions) ≤ 20)%nat;
}.

Section validated.
Context `{!Pydantic}.

Lemma MatchSchema_validate_conditions j m :
  MatchSchema_validate j = Some m → (1 ≤ length m.(match_conditions) ≤ 20)%nat.
Proof.
  unfold MatchSchema_validate. intros Hm. repeat (case_match; [|done]). simplify_eq. simpl.
  match goal with H : field "conditions" _ _ = Some _ |- _ => apply field_checked in H end.
  unfold lengths in *. by boolify.
Qed.

Lemma VerificationSchema_validate_timeout j v :
  VerificationSchema_validate j = Some v → 1 ≤ timeout_seconds v ≤ 600.
Proof.
  unfold VerificationSchema_validate. intros Hm. repeat (case_match; [|done]). simplify_eq.
  match goal with H : field "timeout" _ _ = Some _ |- _ => apply field_checked in H end.
  by apply duration_valid_bounds.
Qed.

Lemma PreconditionsSchema_validate_targets j p :
  PreconditionsSchema_validate j = Some p → 1 ≤ p.(max_target_pods) ≤ 10.
Proof.
  unfold PreconditionsSchema_validate. intros Hm. repeat (case_match; [|done]). simplify_eq.
  match goal with H : field "max_target_pods" _ _ = Some _ |- _ => apply field_checked in H end.
  simpl. by rewrite andb_true_iff, !Z.leb_le in *.
Qed.

Lemma field_some {A} k f d (a : A) : field k f d = Some a → ∃ j, f j = Some a.
Proof. unfold field. case_match; [eauto|done]. Qed.

Lemma RunbookDocument_validate_wf j r : RunbookDocument_validate j = Some r → well_formed r.
Proof.
  unfold RunbookDocument_validate. intros Hr. repeat (case_match; [|done]). simplify_eq.
  match goal with H : action_contract _ = true |- _ => unfold action_contract in H end. boolify.
  repeat match goal with
  | H : field "version" _ _ = Some _ |- _ => apply field_checked in H
  | H : field "environments" _ _ = Some _ |- _ => apply field_checked in H
  | H : field "match" _ _ = Some _ |- _ =>
      apply field_some in H as [? H]; apply MatchSchema_validate_conditions in H
  | H : field "preconditions" _ _ = Some _ |- _ =>
      apply field_some in H as [? H]; apply PreconditionsSchema_validate_targets in H
  | H : field "verify" _ _ = Some _ |- _ =>
      apply field_some in H as [? H]; apply VerificationSchema_validate_timeout in H
  end.
  split; simpl in *; try done.
  - by apply Z.leb_le.
  - by boolify.
  - intros e He. rewrite list_elem_of_In in He.
    match goal with H : forallb _ _ = true |- _ => rewrite forallb_forall in H; specialize (H e He) end.
    by boolify.
  - intros ->. by match goal with H : _ ∨ _ |- _ => destruct H end.
Qed.
End validated.

(** ** Forbidden content *)

(** The key [k] occurs in [v], at any depth. *)
Inductive occurs (k : yaml) : yaml → Prop :=
| occurs_here l x : (k, x) ∈ l → occurs k (YDict l)
| occurs_child l k' x : (k', x) ∈ l → occurs k x → occurs k (YDict l)
| occurs_item l x : x ∈ l → occurs k x → occurs k (YList l).

(** Induction through the lists of values. *)
Fixpoint yaml_nested_ind (P : yaml → Prop)
    (Hs : ∀ j, P (YScalar j)) (Ho : ∀ s, P (YOther s))
    (Hl : ∀ l, Forall P l → P (YList l))
    (Hd : ∀ l, Forall (λ kv, P kv.2) l → P (YDict l)) (v : yaml) : P v :=
  match v with
  | YScalar j => Hs j
  | YOther s => Ho s
  | YList l =>
      Hl l ((fix go l : Forall P l := match l with
             | [] => Forall_nil_2 _
             | x :: l => Forall_cons_2 _ _ _ (yaml_nested_ind P Hs Ho Hl Hd x) (go l)
             end) l)
  | YDict l =>
      Hd l ((fix go l : Forall (λ kv, P kv.2) l := match l with
             | [] => Forall_nil_2 _
             | (k, x) :: l => Forall_cons_2 _ (k, x) _ (yaml_nested_ind P Hs Ho Hl Hd x) (go l)
             end) l)
  end.

Definition clean (v : yaml) : Prop := ∀ k, occurs k v → normalized k ∉ FORBIDDEN_KEYS.

Lemma reject_executable_content_clean v path :
  reject_executable_content v path = Ok tt → clean v.
Proof.
  revert path. induction v as [j|s|l IH|l IH] using yaml_nested_ind; intros path Hr k Hk.
  - inversion Hk.
  - inversion Hk.
  - inversion Hk as [| |l' x Hx Hin]; subst. clear Hk. simpl in Hr.
    revert Hr. generalize 0. induction IH as [|y l Hy IH IHl]; [by apply elem_of_nil in Hx|].
    intros z [u [H1 H2]]%res_bind_ok. destruct u. apply elem_of_cons in Hx as [->|Hx].
    + by eapply Hy.
    + by eapply IHl.
  - assert (∃ k' x, (k', x) ∈ l ∧ (k = k' ∨ occurs k x)) as (k' & x & Hin & Hkx).
    { inversion Hk; subst; [by exists k, x; auto|by exists k', x; auto]. }
    clear Hk. simpl in Hr. induction IH as [|[k0 y] l Hy IH IHl]; [by apply elem_of_nil in Hin|].
    case_bool_decide as Hf; [done|]. apply res_bind_ok in Hr as ([] & H1 & H2).
    apply elem_of_cons in Hin as [[= -> ->]|Hin]; [|by apply IHl].
    destruct Hkx as [->|Hkx]; [done|]. by eapply Hy.
Qed.

(** ** Loading *)

Section loading.
Context `{!Pydantic}.

(** A document read from a file: a small enough mapping free of executable
    fields at any depth, that satisfies the schema. *)
Definition read_from (f : RunbookFile) (r : RunbookDocument) : Prop :=
  ∃ size node raw j, f.(file_size) = Ok size ∧ size ≤ MAX_RUNBOOK_BYTES ∧
    f.(file_root) = Ok node ∧ construct node = Ok raw ∧ clean raw ∧
    yaml_json raw = Some j ∧ RunbookDocument_validate j = Some r.

Lemma load_file_ok f r : load_file f = Ok r → read_from f r.
Proof.
  unfold load_file. intros (size & Hsize & Hr)%res_bind_ok.
  destruct (Z.ltb_spec MAX_RUNBOOK_BYTES size); [done|].
  destruct (document_of f) as [r'|e] eqn:Hd; [|by destruct e; [|case_bool_decide]].
  injection Hr as ->. unfold document_of in Hd.
  apply res_bind_ok in Hd as (node & Hn & (raw & Hraw & Hd)%res_bind_ok).
  destruct raw as [| | |d]; try done.
  apply res_bind_ok in Hd as ([] & Hclean%reject_executable_content_clean & Hd).
  destruct (yaml_json (YDict d)) as [j|] eqn:Hj; [|done].
  destruct (RunbookDocument_validate j) eqn:Hv; [|done]. injection Hd as ->.
  exists size, node, (YDict d), j. by split_and!.
Qed.

Definition key_of (r : RunbookDocument) : string * Z := (r.(rb_id), r.(rb_version)).

Lemma same_key_spec a b : same_key a b = true ↔ key_of a = key_of b.
Proof.
  unfold same_key, key_of. rewrite andb_true_iff, String.eqb_eq, Z.eqb_eq.
  split; [by intros [-> ->]|by intros [= -> ->]].
Qed.

Lemma load_files_ok files loaded l :
  load_files files loaded = Ok l → NoDup (map key_of loaded) →
  NoDup (map key_of l) ∧
  (∀ r, r ∈ l ↔ r ∈ loaded ∨ ∃ f, f ∈ files ∧ load_file f = Ok r) ∧
  length l = (length loaded + length files)%nat.
Proof.
  revert loaded. induction files as [|f files IH]; intros loaded Hl Hnd.
  { injection Hl as <-. split_and!; [done| |simpl; lia]. intros r.
    split; [by left|]. intros [Hr|(f & Hf & _)]; [done|by apply elem_of_nil in Hf]. }
  simpl in Hl. apply res_bind_ok in Hl as (r & Hr & Hl).
  destruct (existsb (same_key r) loaded) eqn:Hdup; [done|].
  destruct (IH _ Hl) as (Hnd' & Hin & Hlen).
  - rewrite map_app. apply NoDup_app. split_and!; [done| |simpl; apply NoDup_singleton].
    intros k Hk Hkr. simpl in Hkr. apply list_elem_of_singleton in Hkr as ->.
    apply list_elem_of_In, in_map_iff in Hk as (a & Hka & Ha).
    apply not_true_iff_false in Hdup. apply Hdup, existsb_exists. exists a.
    split; [done|]. by apply same_key_spec.
  - split_and!; [done| |rewrite Hlen, length_app; simpl; lia]. intros o. rewrite Hin.
    setoid_rewrite elem_of_app. setoid_rewrite elem_of_cons. split.
    + intros [[Ho|[->|?%elem_of_nil]]|(g & Hg & Ho)];
        [by left|right; exists f; auto|done|right; exists g; auto].
    + intros [Ho|(g & [->|Hg] & Ho)]; [by left; left| |right; by exists g].
      left. right. left. congruence.
Qed.

(** C28: loading is all or nothing.  When it returns, the loader holds exactly the
    documents of the YAML files of the directory, one per file, with distinct
    identifier and version; each comes from a file of bounded size with no
    executable field at any depth and satisfies the schema (a positive timeout of
    at most ten minutes, at most ten target pods, an action that supports every
    environment and, if rollback is enabled, can be undone).  When it raises, the
    runbooks loaded before stay as they are. *)
Theorem load_sound (path : string) (directory : option (list RunbookFile)) (l : RunbookLoader) :
  match load path directory l with
  | (Ok docs, l') =>
      docs = runbooks l' ∧ NoDup (map key_of l'.(loaded_runbooks)) ∧
      ∃ files, directory = Some files ∧
        length l'.(loaded_runbooks) = length (List.filter is_runbook_file files) ∧
        ∀ r, r ∈ l'.(loaded_runbooks) → well_formed r ∧
          ∃ f, f ∈ files ∧ is_runbook_file f = true ∧ read_from f r
  | (Raise _, l') => l' = l
  end.
Proof.
  destruct directory as [files|]; [|done]. unfold load, bind, lift, put, gets.
  set (sorted := isort _ (List.filter is_runbook_file files)).
  destruct (load_files sorted []) as [docs|e] eqn:Hl; [|done].
  apply load_files_ok in Hl as (Hnd & Hin & Hlen); [|apply NoDup_nil_2].
  split_and!; [done|done|]. exists files. split_and!; [done| |].
  - simpl. rewrite Hlen. apply Permutation_length, isort_perm.
  - simpl. intros r Hr. apply Hin in Hr as [?%elem_of_nil|(f & Hf & Hr)]; [done|].
    apply load_file_ok in Hr. split.
    + destruct Hr as (? & ? & ? & ? & _ & _ & _ & _ & _ & _ & Hv).
      by apply RunbookDocument_validate_wf in Hv.
    + exists f. unfold sorted in Hf. rewrite isort_elem, list_elem_of_In in Hf.
      apply filter_In in Hf as [Hf Hy]. rewrite <- list_elem_of_In in Hf. done.
Qed.
End loading.

(** ** A concrete runbook *)

Definition scalar_str (s : string) : yaml_node := NodeScalar (JStr s).
Definition mapping (l : list (string * yaml_node)) : yaml_node :=
  NodeMapping (map (λ kv, (scalar_str kv.1, kv.2)) l).

(** [runbooks/reliability.unhealthy-pod.yaml]. *)
Definition unhealthy_pod_node : yaml_node :=
  mapping
    [("id", scalar_str "reliability.unhealthy-pod"); ("version", NodeScalar (JInt 1));
     ("environments", NodeSequence [scalar_str "local"; scalar_str "staging"]);
     ("match", mapping [("incident_type", scalar_str "reliability");
                        ("conditions", NodeSequence [scalar_str "pod_unhealthy"])]);
     ("evidence", mapping [("required", NodeSequence [scalar_str "kubernetes_state";
                                                      scalar_str "readiness"])]);
     ("preconditions", mapping [("max_target_pods", NodeScalar (JInt 1));
                                ("controller_managed", NodeScalar (JBool true))]);
     ("action", mapping [("type", scalar_str "DELETE_UNHEALTHY_POD")]);
     ("verify", mapping [("timeout", scalar_str "120s");
                         ("conditions", NodeSequence [scalar_str "ready_replicas_restored";
                                                scalar_str "health_endpoint_healthy"])]);
     ("rollback", mapping [("enabled", NodeScalar (JBool false))])].
Definition unhealthy_pod_file : RunbookFile :=
  {| file_name := "reliability.unhealthy-pod.yaml"; file_size := Ok 512;
     file_root := Ok unhealthy_pod_node |}.

Definition bench_load (files : list RunbookFile) : res (list RunbookDocument) * RunbookLoader :=
  load (H := strict_pydantic) "runbooks" (Some files) {| loaded_runbooks := [] |}.

Example unhealthy_pod_loads :
  res_bind (bench_load [unhealthy_pod_file]).1 (λ l, Ok (map rb_action l)) =
  Ok [DELETE_UNHEALTHY_POD].
Proof. vm_compute. reflexivity. Qed.

Example shell_is_refused :
  (bench_load [unhealthy_pod_file;
               {| file_name := "x.yml"; file_size := Ok 9;
                  file_root := Ok (mapping [("steps", NodeSequence
                    [mapping [("Shell", scalar_str "rm")]])]) |}]).1 =
  Raise (executable_field "root.steps[0].Shell").
Proof. vm_compute. reflexivity. Qed.

Example duplicate_is_refused :
  (bench_load [unhealthy_pod_file; unhealthy_pod_file]).2 = {| loaded_runbooks := [] |}.
Proof. vm_compute. reflexivity. Qed.
