(* ===== verification/Pipeline.v ===== *)
(** * The unhealthy-pod pipeline

    [remediation/pipeline.py] with the collector of [evidence/collector.py]:
    evidence, runbook, risk, policy, deletion, verification, with retries; every
    commit is where the code has it, and a failure rolls back and escalates. *)

From S2P Require Import Prelude PyFloat Json JsonParse Effects Rbac Actions Risk StateMachine.
From S2P Require Import Models World Redaction Config AuditLog History Memory Notifications.
From S2P Require Import ApprovalRequests Incidents Kubernetes Opa Approvals Execution.
From S2P Require Import Verification Runbooks.

(** ** The evidence *)

Record KubernetesEvidence := { ev_deployment : DeploymentState; ev_pods : list PodState }.

Definition unhealthy_pods (e : KubernetesEvidence) : list PodState :=
  List.filter (λ p, negb p.(ready)) e.(ev_pods).

Definition evidence_payload (e : KubernetesEvidence) : dict :=
  [("deployment", JObj (DeploymentState_dict e.(ev_deployment)));
   ("pods", JArr (map (λ p, JObj (PodState_dict p)) e.(ev_pods)));
   ("unhealthy_pod_count", JInt (Z.of_nat (length (unhealthy_pods e))))].

(** ** The target and the outcome *)

Record UnhealthyPodTarget := {
  t_namespace : string;
  t_deployment : string;
  t_service_name : string;
  t_label_selector : string;
  t_pod_name : option string;
  t_expected_replicas : Z;
  t_environment : Environment;
  t_health_path : string;
}.

Definition length_within (lo hi : Z) (s : string) : bool :=
  (lo <=? str_len s) && (str_len s <=? hi).

Definition UnhealthyPodTarget_valid (t : UnhealthyPodTarget) : bool :=
  length_within 1 253 t.(t_namespace) && length_within 1 253 t.(t_deployment) &&
  length_within 1 253 t.(t_service_name) && length_within 1 512 t.(t_label_selector) &&
  match t.(t_pod_name) with Some n => length_within 1 253 n | None => true end &&
  (1 <=? t.(t_expected_replicas)) && (t.(t_expected_replicas) <=? 20) &&
  length_within 1 256 t.(t_health_path).

(** The defaults of [UnhealthyPodTarget]. *)
Definition default_target : UnhealthyPodTarget :=
  {| t_namespace := "cloudward-staging"; t_deployment := "cloudward-demo";
     t_service_name := "cloudward-demo";
     t_label_selector := "app.kubernetes.io/name=cloudward-demo"; t_pod_name := None;
     t_expected_replicas := 2; t_environment := ENV_STAGING; t_health_path := "health/ready" |}.

Record PipelineOutcome := {
  out_incident_id : uuid;
  out_state : IncidentState;
  out_risk_score : option Z;
  out_policy : option PolicyResult;
  out_verification : option VerificationResult;
  out_attempts : Z;
}.

(** ** The guards *)

(** [_select_unhealthy_pod]. *)
Definition select_unhealthy_pod (e : KubernetesEvidence) (requested_name : option string)
  : res PodState :=
  let candidates :=
    match requested_name with
    | Some n => List.filter (λ p, String.eqb p.(ps_name) n) (unhealthy_pods e)
    | None => unhealthy_pods e
    end in
  match candidates with
  | [p] => Ok p
  | _ => Raise (cw_error_status "UNSAFE_TARGET_COUNT"
                  ("Expected exactly one unhealthy target pod, found " +:+
                   str_of_Z (Z.of_nat (length candidates))) 409)
  end.

(** [_validate_preconditions]. *)
Definition validate_preconditions (r : RunbookDocument) (e : KubernetesEvidence) (p : PodState)
  : res unit :=
  if r.(rb_preconditions).(max_target_pods) <? Z.of_nat (length (unhealthy_pods e)) then
    Raise (cw_error "RUNBOOK_PRECONDITION_FAILED" "Too many target pods")
  else if r.(rb_preconditions).(pre_controller_managed) && negb p.(controller_managed) then
    Raise (cw_error "RUNBOOK_PRECONDITION_FAILED" "Target is not controller managed")
  else Ok tt.

Definition JStrDict (d : list (string * string)) : json :=
  JObj (map (λ kv, (kv.1, JStr kv.2)) d).

(** [_proposal_parameters]. *)
Definition proposal_parameters (t : UnhealthyPodTarget) (p : PodState) : dict :=
  [("namespace", JStr t.(t_namespace)); ("deployment", JStr t.(t_deployment));
   ("service_name", JStr t.(t_service_name)); ("label_selector", JStr t.(t_label_selector));
   ("pod_name", JStr p.(ps_name)); ("expected_replicas", JInt t.(t_expected_replicas));
   ("labels", JStrDict p.(labels)); ("controller_managed", JBool p.(controller_managed))].

Definition confidence_098 : float := float_of_decimal 98 (-2).

(** [_policy_input]. *)
Definition pipeline_policy_input (t : UnhealthyPodTarget) (p : PodState) (action : ActionType)
    (risk : RiskResult) : PolicyInput :=
  {| pi_environment := Environment_value t.(t_environment); pi_action := action;
     pi_risk_score := risk.(score); pi_risk_factors := risk.(factors);
     pi_confidence := confidence_098; pi_blast_radius := 1; pi_reversible := true;
     pi_service_criticality := "low";
     pi_target := {| ti_namespace := t.(t_namespace); ti_pod_name := p.(ps_name);
                     ti_labels := p.(labels); ti_controller_managed := p.(controller_managed);
                     ti_target_pods := 1 |};
     pi_approval := no_approval |}.

Definition pipeline_risk_context (t : UnhealthyPodTarget) (action : ActionType)
    (metadata : ActionMetadata) : RiskContext :=
  {| ctx_environment := Environment_value t.(t_environment); ctx_action := action;
     ctx_target_count := 1; ctx_reversible := Some metadata.(reversible);
     ctx_confidence := confidence_098; ctx_sensitivity := SENS_NONE;
     ctx_destructive_override := false |}.

(** [risk.model_dump(mode="json")] as a dictionary. *)
Definition risk_dict (r : RiskResult) : dict :=
  match RiskResult_dump r with JObj d => d | _ => [] end.

(** What the stages after the policy share. *)
Record Plan := {
  p_runbook : RunbookDocument;
  p_runbook_execution : uuid;
  p_proposal : uuid;
  p_risk : RiskResult;
}.
Definition p_action (p : Plan) : ActionType := p.(p_runbook).(rb_action).

(** ** The stages of [_process] *)

Section pipeline.
Context {X : Type} `{!Runtime X, !KubeApi X, !Pydantic, !PolicyServer X}.
Context (settings : Settings) (exe : Executor) (opa : OPAClient) (loader : RunbookLoader).
Context (target : UnhealthyPodTarget) (actor : string) (actor_type : ActorType).

(** [EvidenceCollector.collect_kubernetes_state]. *)
Definition collect_kubernetes_state (namespace deployment label_selector : string)
  : M (World X) KubernetesEvidence :=
  let! d := get_deployment namespace deployment in
  let! pods := get_pods namespace label_selector in
  ret {| ev_deployment := d; ev_pods := pods |}.

Definition collect_target : M (World X) KubernetesEvidence :=
  collect_kubernetes_state target.(t_namespace) target.(t_deployment) target.(t_label_selector).

Section incident.
Context (incident_id : uuid).

(** [session.add(EvidenceSnapshot(...))], with the column defaults. *)
Definition add_snapshot (evidence_type : EvidenceType) (summary : string) (payload : dict)
  : M (World X) unit :=
  let! incident := the_incident incident_id in
  let! id := uuid4 in
  let! now := utc_now in
  update_db (upd_evidence_snapshots (λ l, l ++
    [{| evd_id := id; evd_incident_id := incident.(inc_id); evd_created_at := now;
        evd_correlation_id := incident.(inc_correlation_id);
        evd_evidence_type := evidence_type; evd_summary := summary; evd_reference := None;
        evd_query := None;
        evd_window_start := None; evd_window_end := None; evd_phase := PHASE_INCIDENT; evd_payload := JObj payload;
        evd_collected_by := "cloudward" |}])).

Definition audit (event : string) (action : option ActionType) (risk : option Z)
    (decision : option string) (result : string) (metadata : dict) : M (World X) unit :=
  let! incident := the_incident incident_id in
  record_audit event incident.(inc_correlation_id) (Some incident.(inc_id)) actor actor_type
    None (ActionType_value <$> action) risk decision result metadata.

Definition move (state : IncidentState) (details : option dict) : M (World X) unit :=
  change_incident_state settings incident_id state actor actor_type details false.

(** Collect and store the evidence. *)
Definition gather : M (World X) KubernetesEvidence :=
  do! move COLLECTING_EVIDENCE None;
  let! evidence := collect_target in
  do! add_snapshot KUBERNETES_STATE "Deployment and pod readiness snapshot"
        (evidence_payload evidence);
  let! health := get_service_health target.(t_namespace) target.(t_service_name)
                   target.(t_health_path) in
  do! add_snapshot HEALTH_CHECK "Application health through Kubernetes service proxy"
        (ServiceHealth_dict health);
  do! audit "EVIDENCE_COLLECTED" None None None "SUCCEEDED"
        [("evidence_types", JArr [JStr (EvidenceType_value KUBERNETES_STATE);
                                  JStr (EvidenceType_value HEALTH_CHECK)]);
         ("unhealthy_pod_count", JInt (Z.of_nat (length (unhealthy_pods evidence))))];
  do! commit;
  ret evidence.

Definition runbook_details (r : RunbookDocument) : dict :=
  [("runbook_id", JStr r.(rb_id)); ("runbook_version", JInt r.(rb_version))].

(** Select the target and the runbook. *)
Definition classify_target (evidence : KubernetesEvidence)
  : M (World X) (PodState * RunbookDocument * uuid) :=
  let! pod := lift (select_unhealthy_pod evidence target.(t_pod_name)) in
  do! move CLASSIFYING (Some [("classification", JStr "pod_unhealthy")]);
  let! runbook := lift (match_runbook loader "reliability" ["pod_unhealthy"]
                          (Environment_value target.(t_environment))) in
  do! lift (validate_preconditions runbook evidence pod);
  do! set_incident incident_id (λ i, set_inc_runbook_version (Some runbook.(rb_version))
                                       (set_inc_runbook_id (Some runbook.(rb_id)) i));
  let! id := uuid4 in
  let! now := utc_now in
  do! insert_row runbook_executions upd_runbook_executions (λ _, true) id
        {| rbx_id := id; rbx_created_at := now; rbx_incident_id := incident_id;
           rbx_runbook_id := runbook.(rb_id); rbx_runbook_version := runbook.(rb_version);
           rbx_status := RUNNING;
           rbx_context := JObj [("conditions", JArr [JStr "pod_unhealthy"])] |};
  do! audit "RUNBOOK_SELECTED" (Some runbook.(rb_action)) None None "SUCCEEDED"
        (runbook_details runbook);
  do! move ACTION_PROPOSED (Some (runbook_details runbook));
  ret (pod, runbook, id).

(** Compute the risk and propose the action. *)
Definition propose (pod : PodState) (runbook : RunbookDocument) (runbook_execution : uuid)
  : M (World X) Plan :=
  let action := runbook.(rb_action) in
  let! metadata := lift (require_executable_action (inl action)
                           (Environment_value target.(t_environment))) in
  let! risk := lift (calculate_risk (pipeline_risk_context target action metadata)) in
  do! set_incident incident_id (set_inc_risk_score (Some risk.(score)));
  let! incident := the_incident incident_id in
  let! id := uuid4 in
  let! now := utc_now in
  do! insert_row action_proposals upd_action_proposals
        (λ _, (0 <=? risk.(score)) && (risk.(score) <=? 100)) id
        {| prop_id := id; prop_created_at := now; prop_incident_id := incident.(inc_id);
           prop_correlation_id := incident.(inc_correlation_id); prop_action_type := action;
           prop_parameters := proposal_parameters target pod; prop_status := PENDING;
           prop_risk_score := risk.(score); prop_risk_calculation := risk_dict risk;
           prop_proposed_by := "cloudward" |};
  do! audit "ACTION_PROPOSED" (Some action) (Some risk.(score)) None "SUCCEEDED"
        [("proposal_id", JStr (uuid_str id))];
  do! audit "RISK_CALCULATED" (Some action) (Some risk.(score)) None "SUCCEEDED"
        (risk_dict risk);
  ret {| p_runbook := runbook; p_runbook_execution := runbook_execution; p_proposal := id;
         p_risk := risk |}.

(** [session.add(PolicyDecision(...))]. *)
Definition add_decision (plan : Plan) (policy_input : PolicyInput) (policy : PolicyResult)
  : M (World X) unit :=
  let! incident := the_incident incident_id in
  let! id := uuid4 in
  let! now := utc_now in
  update_db (upd_policy_decisions (λ l, l ++
    [{| pol_id := id; pol_created_at := now; pol_incident_id := incident.(inc_id);
        pol_proposal_id := plan.(p_proposal);
        pol_correlation_id := incident.(inc_correlation_id);
        pol_policy_path := settings.(opa_decision_path); pol_allowed := policy.(pr_allowed);
        pol_requires_approval := policy.(pr_requires_approval);
        pol_reason := policy.(pr_reason); pol_input_digest := policy_digest policy_input;
        pol_result := PolicyResult_dump policy |}])).

(** Build the document for a pod, evaluate it and store the decision. *)
Definition evaluate_pod (plan : Plan) (pod : PodState)
  : M (World X) (PolicyInput * PolicyResult) :=
  let! policy_input := lift (validated "PolicyInput" PolicyInput_valid
    (pipeline_policy_input target pod (p_action plan) plan.(p_risk))) in
  let! policy := evaluate opa policy_input in
  do! add_decision plan policy_input policy;
  ret (policy_input, policy).

Definition decide_policy (plan : Plan) (pod : PodState) : M (World X) PolicyResult :=
  do! move POLICY_EVALUATION None;
  let! '(policy_input, policy) := evaluate_pod plan pod in
  do! audit "OPA_EVALUATED" (Some (p_action plan)) (Some plan.(p_risk).(score))
        (Some (if policy.(pr_allowed) then "ALLOW" else "DENY")) "SUCCEEDED"
        [("requires_approval", JBool policy.(pr_requires_approval));
         ("reason", JStr policy.(pr_reason));
         ("input_digest", JStr (policy_digest policy_input))];
  ret policy.

Definition outcome (state : IncidentState) (plan : Plan) (policy : PolicyResult)
    (verification : option VerificationResult) (attempts : Z) : PipelineOutcome :=
  {| out_incident_id := incident_id; out_state := state;
     out_risk_score := Some plan.(p_risk).(score); out_policy := Some policy;
     out_verification := verification; out_attempts := attempts |}.

(** The policy does not allow the action. *)
Definition withhold (plan : Plan) (policy : PolicyResult) : M (World X) PipelineOutcome :=
  let waits := policy.(pr_requires_approval) in
  let state := if waits then AWAITING_APPROVAL else BLOCKED in
  let status := if waits then PENDING else REJECTED in
  do! move state (Some [("policy_reason", JStr policy.(pr_reason))]);
  do! set_proposal plan.(p_proposal) (set_prop_status status);
  do! set_runbook_execution plan.(p_runbook_execution) (set_rbx_status status);
  do! when waits
        (audit "APPROVAL_REQUESTED" (Some (p_action plan)) (Some plan.(p_risk).(score))
           (Some "APPROVAL_REQUIRED") "PENDING"
           [("proposal_id", JStr (uuid_str plan.(p_proposal)));
            ("reason", JStr policy.(pr_reason))]);
  do! commit;
  ret (outcome state plan policy None 0).

Definition begin (plan : Plan) : M (World X) unit :=
  do! set_proposal plan.(p_proposal) (set_prop_status RUNNING);
  do! move EXECUTING None;
  commit.

(** The execution row of an attempt. *)
Definition start_execution (plan : Plan) (attempt : Z) : M (World X) uuid :=
  do! set_incident incident_id (set_inc_retry_count attempt);
  let! incident := the_incident incident_id in
  let! id := uuid4 in
  let! now := utc_now in
  do! insert_execution (new_execution id now incident plan.(p_proposal) DELETE_UNHEALTHY_POD
                          attempt None None);
  ret id.

(** The deletion, or its record when no target is left. *)
Definition act (plan : Plan) (attempt : Z) (current_pod : option PodState) (id : uuid)
  : M (World X) unit :=
  match current_pod with
  | Some pod =>
      let! deletion := delete_pod exe target.(t_namespace) pod.(ps_name) in
      let! now := utc_now in
      do! set_execution id (finished true (PodDeletionResult_dict deletion) None now);
      audit "ACTION_EXECUTED" (Some (p_action plan)) (Some plan.(p_risk).(score))
        (Some "ALLOW") "SUCCEEDED"
        (dict_update [("attempt", JInt attempt)] (PodDeletionResult_dict deletion))
  | None =>
      let! now := utc_now in
      set_execution id (finished false
        [("detail", JStr "No unhealthy pod remained for action retry")]
        (Some "NO_UNHEALTHY_TARGET") now)
  end.

Definition execute_attempt (plan : Plan) (attempt : Z) (current_pod : option PodState)
  : M (World X) unit :=
  let! id := start_execution plan attempt in
  do! act plan attempt current_pod id;
  do! move VERIFYING (Some [("attempt", JInt attempt)]);
  commit.

Definition verification_target : VerificationTarget :=
  {| vt_namespace := target.(t_namespace); vt_deployment := target.(t_deployment);
     vt_label_selector := target.(t_label_selector);
     vt_expected_replicas := target.(t_expected_replicas);
     vt_service_name := target.(t_service_name); vt_health_path := target.(t_health_path) |}.

Definition verify_attempt (plan : Plan) (attempt : Z) : M (World X) VerificationResult :=
  let! v := verify_until verification_target
              (Z.min (seconds (timeout_seconds plan.(p_runbook).(rb_verify)))
                 settings.(verification_timeout)) settings.(verification_poll) in
  do! add_snapshot HEALTH_CHECK
        ("Post-remediation verification attempt " +:+ str_of_Z attempt)
        (VerificationResult_dump v);
  do! audit "VERIFICATION_COMPLETED" (Some (p_action plan)) (Some plan.(p_risk).(score)) None
        (if v.(vr_success) then "SUCCEEDED" else "FAILED")
        (dict_update [("attempt", JInt attempt)] (VerificationResult_dump v));
  ret v.

(** The last assignments of a run. *)
Definition close (plan : Plan) (status : RecordStatus) (state : IncidentState) (details : dict)
    (event : string) (result : string) (metadata : dict) : M (World X) unit :=
  do! set_proposal plan.(p_proposal) (set_prop_status status);
  do! set_runbook_execution plan.(p_runbook_execution) (set_rbx_status status);
  do! move state (Some details);
  do! audit event None None None result metadata;
  commit.

Definition resolve (plan : Plan) (attempt : Z) : M (World X) unit :=
  close plan SUCCEEDED RESOLVED [("verification_attempt", JInt attempt)]
    "INCIDENT_RESOLVED" "SUCCEEDED" [].

Definition run_out (plan : Plan) : M (World X) unit :=
  close plan FAILED ESCALATED [("reason", JStr "maximum remediation attempts reached")]
    "INCIDENT_ESCALATED" "FAILED" [("attempts", JInt settings.(max_remediation_attempts))].

(** Between two attempts: look again, and ask the policy about the new target. *)
Definition prepare_retry (plan : Plan) (attempt : Z) : M (World X) (option PodState) :=
  do! move EXECUTING (Some [("retry", JInt (attempt + 1))]);
  let! refreshed := collect_target in
  let current_pod := match unhealthy_pods refreshed with [p] => Some p | _ => None end in
  do! match current_pod with
      | Some pod =>
          let! '(_, policy) := evaluate_pod plan pod in
          raise_if (negb policy.(pr_allowed))
            (cw_error_status "RETRY_POLICY_DENIED"
               "Policy denied the newly discovered retry target" 403)
      | None => ret tt
      end;
  do! commit;
  ret current_pod.

(** The loop [for attempt in range(1, max_remediation_attempts + 1)]; [remaining]
    iterations are left. *)
Fixpoint remediate (remaining : nat) (plan : Plan) (policy : PolicyResult) (attempt : Z)
    (current_pod : option PodState) (last : option VerificationResult)
  : M (World X) PipelineOutcome :=
  match remaining with
  | O =>
      do! run_out plan;
      ret (outcome ESCALATED plan policy last settings.(max_remediation_attempts))
  | S remaining =>
      do! execute_attempt plan attempt current_pod;
      let! v := verify_attempt plan attempt in
      if v.(vr_success) then
        do! resolve plan attempt;
        ret (outcome RESOLVED plan policy (Some v) attempt)
      else if attempt <? settings.(max_remediation_attempts) then
        let! current_pod := prepare_retry plan attempt in
        remediate remaining plan policy (attempt + 1) current_pod (Some v)
      else remediate remaining plan policy (attempt + 1) current_pod (Some v)
  end.

(** [_process]. *)
Definition process : M (World X) PipelineOutcome :=
  let! evidence := gather in
  let! '(pod, runbook, runbook_execution) := classify_target evidence in
  let! plan := propose pod runbook runbook_execution in
  let! policy := decide_policy plan pod in
  if negb policy.(pr_allowed) then withhold plan policy
  else
    do! begin plan;
    remediate (Z.to_nat settings.(max_remediation_attempts)) plan policy 1 (Some pod) None.

(** [except CloudWardError]: roll back, and escalate unless it is over already. *)
Definition escalate_failure (code message : string) : M (World X) PipelineOutcome :=
  do! rollback;
  let! incident := the_incident incident_id in
  do! when (negb (bool_decide (incident.(inc_state) ∈ [RESOLVED; BLOCKED; ESCALATED])))
        (do! move ESCALATED (Some [("error_code", JStr code)]);
         do! audit "INCIDENT_ESCALATED" None None None "FAILED"
               [("error_code", JStr code); ("message", JStr message)];
         commit);
  let! incident := the_incident incident_id in
  ret {| out_incident_id := incident_id; out_state := incident.(inc_state);
         out_risk_score := incident.(inc_risk_score); out_policy := None;
         out_verification := None; out_attempts := incident.(inc_retry_count) |}.
End incident.

Definition run_pipeline (correlation_id : string) : M (World X) PipelineOutcome :=
  let! incident_id := create_incident correlation_id "reliability" "Unhealthy Demo Pod"
    target.(t_environment) (Some "A controlled CloudWard demo pod failed readiness") None None
    actor actor_type in
  do! commit;
  catch (process incident_id) (λ e,
    match e with
    | CloudWardError code message _ _ => escalate_failure incident_id code message
    | PyError _ _ => raise e
    end).
End pipeline.

(** ** What the stages preserve *)

Section frames.
Context {X : Type} `{!Runtime X, !KubeApi X, !Pydantic, !PolicyServer X}.
Context (settings : Settings) (exe : Executor) (opa : OPAClient) (loader : RunbookLoader).
Context (target : UnhealthyPodTarget) (actor : string) (actor_type : ActorType) (iid : uuid).

Lemma add_snapshot_step et s p : evolves session_step (add_snapshot (X:=X) iid et s p).
Proof. unfold add_snapshot. evolve. Qed.
Lemma audit_step e a r d res md : evolves session_step (audit (X:=X) actor actor_type iid e a r d res md).
Proof. unfold audit. evolve. Qed.
Lemma add_decision_step plan i p : evolves session_step (add_decision (X:=X) settings iid plan i p).
Proof. unfold add_decision. evolve. Qed.
Lemma collect_target_step : evolves session_step (collect_target (X:=X) target).
Proof. unfold collect_target, collect_kubernetes_state. evolve. Qed.
Hint Resolve add_snapshot_step audit_step add_decision_step collect_target_step evaluate_step : cw_pres.
Lemma evaluate_pod_step plan p :
  evolves session_step (evaluate_pod (X:=X) settings opa target iid plan p).
Proof. unfold evaluate_pod. evolve. Qed.
Hint Resolve evaluate_pod_step : cw_pres.
Lemma classify_target_step e :
  evolves session_step (classify_target (X:=X) settings loader target actor actor_type iid e).
Proof. unfold classify_target, move. evolve. Qed.
Lemma propose_step pod r rbx :
  evolves session_step (propose (X:=X) target actor actor_type iid pod r rbx).
Proof. unfold propose. evolve. Qed.
Lemma decide_policy_step plan pod :
  evolves session_step (decide_policy (X:=X) settings opa target actor actor_type iid plan pod).
Proof. unfold decide_policy, move. evolve. Qed.
Lemma verify_loop_step n t dl p a : evolves session_step (verify_loop (X:=X) n t dl p a).
Proof.
  revert a. induction n as [|n IH]; intros a; simpl; [evolve|].
  repeat first [evolve_step | apply check_once_step | apply IH | solve [eauto with cw_pres]].
Qed.
Lemma verify_attempt_step plan a :
  evolves session_step (verify_attempt (X:=X) settings target actor actor_type iid plan a).
Proof.
  unfold verify_attempt, verify_until.
  repeat first [evolve_step | apply verify_loop_step | solve [eauto with cw_pres]].
Qed.

(** *** Deletions *)

Definition deletion_of (c : call) : option (string * string) :=
  match c with CallDeletePod ns name => Some (ns, name) | _ => None end.
(** The pods whose deletion was issued, in order. *)
Definition deletions (w : World X) : list (string * string) := omap deletion_of w.(trace).
Definition no_deletion : relation (World X) := stable deletions.

Lemma no_deletion_of {A} (m : M (World X) A) : evolves same_trace m → evolves no_deletion m.
Proof. intros Hm w. unfold no_deletion, stable, deletions. by rewrite (Hm w). Qed.

Lemma add_snapshot_trace et s p : evolves same_trace (add_snapshot (X:=X) iid et s p).
Proof. unfold add_snapshot. evolve. Qed.
Lemma audit_trace e a r d res md :
  evolves same_trace (audit (X:=X) actor actor_type iid e a r d res md).
Proof. unfold audit. evolve. Qed.
Lemma collect_target_trace : evolves same_trace (collect_target (X:=X) target).
Proof. unfold collect_target, collect_kubernetes_state. evolve. Qed.
Hint Resolve add_snapshot_trace audit_trace collect_target_trace : cw_pres.
Hint Extern 2 (evolves no_deletion _) => apply no_deletion_of; solve [evolve] : cw_pres.

Lemma send_task_no_deletion t k : evolves no_deletion (send_task (X:=X) t k).
Proof.
  unfold send_task. apply evolves_bind; [tc_solve| |intros _].
  - intros w. unfold no_deletion, stable, deletions. simpl. rewrite omap_app. apply app_nil_r.
  - apply no_deletion_of. evolve.
Qed.
Hint Resolve send_task_no_deletion : cw_pres.
Lemma queue_channel_no_deletion e m c : evolves no_deletion (queue_channel (X:=X) settings e m c).
Proof. unfold queue_channel. evolve. Qed.
Hint Resolve queue_channel_no_deletion : cw_pres.
Lemma queue_no_deletion e m cs : evolves no_deletion (queue (X:=X) settings e m cs).
Proof. unfold queue. evolve. Qed.
Hint Resolve queue_no_deletion : cw_pres.
Lemma queue_notification_no_deletion e i d :
  evolves no_deletion (queue_incident_notification (X:=X) settings e i d).
Proof. unfold queue_incident_notification. evolve. Qed.
Hint Resolve queue_notification_no_deletion : cw_pres.
Lemma ensure_approval_no_deletion i p rb r :
  evolves no_deletion (ensure_runtime_approval (X:=X) settings i p rb r).
Proof. unfold ensure_runtime_approval, stream_approval. evolve. Qed.
Hint Resolve ensure_approval_no_deletion : cw_pres.
Lemma move_no_deletion st d :
  evolves no_deletion (move (X:=X) settings actor actor_type iid st d).
Proof.
  unfold move, change_incident_state, record_state_change, add_incident_event,
    notify_state_change, request_approval, capture_terminal_incident, remember. evolve.
Qed.
Hint Resolve move_no_deletion : cw_pres.

Lemma create_incident_no_deletion c it t e s sid cid a ty :
  evolves no_deletion (create_incident (X:=X) c it t e s sid cid a ty).
Proof. unfold create_incident, add_incident_event. evolve. Qed.

Lemma gather_no_deletion : evolves no_deletion (gather (X:=X) settings target actor actor_type iid).
Proof. unfold gather. evolve. Qed.
Lemma classify_target_no_deletion e :
  evolves no_deletion (classify_target (X:=X) settings loader target actor actor_type iid e).
Proof. unfold classify_target. evolve. Qed.
Lemma propose_no_deletion pod r rbx :
  evolves no_deletion (propose (X:=X) target actor actor_type iid pod r rbx).
Proof. unfold propose. evolve. Qed.
Lemma withhold_no_deletion plan p :
  evolves no_deletion (withhold (X:=X) settings actor actor_type iid plan p).
Proof. unfold withhold. evolve. Qed.
Lemma begin_no_deletion plan : evolves no_deletion (begin (X:=X) settings actor actor_type iid plan).
Proof. unfold begin. evolve. Qed.
Lemma close_no_deletion plan s st d e r md :
  evolves no_deletion (close (X:=X) settings actor actor_type iid plan s st d e r md).
Proof. unfold close. evolve. Qed.
Lemma verify_loop_no_deletion n t dl p a : evolves no_deletion (verify_loop (X:=X) n t dl p a).
Proof.
  revert a. induction n as [|n IH]; intros a; simpl; [evolve|].
  repeat first [evolve_step | apply no_deletion_of, check_once_trace | apply IH | solve [eauto with cw_pres]].
Qed.
Lemma verify_attempt_no_deletion plan a :
  evolves no_deletion (verify_attempt (X:=X) settings target actor actor_type iid plan a).
Proof.
  unfold verify_attempt, verify_until.
  repeat first [evolve_step | apply verify_loop_no_deletion | solve [eauto with cw_pres]].
Qed.
Lemma start_execution_no_deletion plan a : evolves no_deletion (start_execution (X:=X) iid plan a).
Proof. unfold start_execution, insert_execution. evolve. Qed.
Lemma escalate_failure_no_deletion c m :
  evolves no_deletion (escalate_failure (X:=X) settings actor actor_type iid c m).
Proof. unfold escalate_failure. evolve. Qed.

Lemma evaluate_no_deletion p : evolves no_deletion (evaluate (X:=X) opa p).
Proof.
  unfold evaluate. apply evolves_bind; [tc_solve| |intros _].
  - intros w. unfold no_deletion, stable, deletions. simpl. rewrite omap_app. apply app_nil_r.
  - apply no_deletion_of. evolve.
Qed.
Hint Resolve evaluate_no_deletion : cw_pres.
Lemma add_decision_trace plan i p :
  evolves same_trace (add_decision (X:=X) settings iid plan i p).
Proof. unfold add_decision. evolve. Qed.
Hint Resolve add_decision_trace : cw_pres.
Lemma evaluate_pod_no_deletion plan p :
  evolves no_deletion (evaluate_pod (X:=X) settings opa target iid plan p).
Proof. unfold evaluate_pod. evolve. Qed.
Hint Resolve evaluate_pod_no_deletion : cw_pres.
Lemma decide_policy_no_deletion plan pod :
  evolves no_deletion (decide_policy (X:=X) settings opa target actor actor_type iid plan pod).
Proof. unfold decide_policy. evolve. Qed.
Lemma prepare_retry_no_deletion plan a :
  evolves no_deletion (prepare_retry (X:=X) settings opa target actor actor_type iid plan a).
Proof. unfold prepare_retry. evolve. Qed.

(** *** What is durable stays durable *)

Hint Resolve commit_durable rollback_durable : cw_pres.
Hint Resolve classify_target_step propose_step decide_policy_step verify_attempt_step : cw_pres.
Lemma start_execution_step plan a :
  evolves session_step (start_execution (X:=X) iid plan a).
Proof. unfold start_execution, insert_execution. evolve. Qed.
Lemma act_step plan a p id :
  evolves session_step (act (X:=X) exe target actor actor_type iid plan a p id).
Proof. unfold act. evolve. Qed.
Lemma move_step st d : evolves session_step (move (X:=X) settings actor actor_type iid st d).
Proof. unfold move. evolve. Qed.
Hint Resolve start_execution_step act_step move_step : cw_pres.
Hint Extern 2 (evolves durable _) => apply durable_of; solve [evolve] : cw_pres.

Lemma gather_durable : evolves durable (gather (X:=X) settings target actor actor_type iid).
Proof. unfold gather. evolve. Qed.
Lemma withhold_durable plan p :
  evolves durable (withhold (X:=X) settings actor actor_type iid plan p).
Proof. unfold withhold. evolve. Qed.
Lemma begin_durable plan : evolves durable (begin (X:=X) settings actor actor_type iid plan).
Proof. unfold begin. evolve. Qed.
Lemma execute_attempt_durable plan a p :
  evolves durable (execute_attempt (X:=X) settings exe target actor actor_type iid plan a p).
Proof. unfold execute_attempt. evolve. Qed.
Lemma close_durable plan s st d e r md :
  evolves durable (close (X:=X) settings actor actor_type iid plan s st d e r md).
Proof. unfold close. evolve. Qed.
Lemma prepare_retry_durable plan a :
  evolves durable (prepare_retry (X:=X) settings opa target actor actor_type iid plan a).
Proof. unfold prepare_retry. evolve. Qed.
Lemma escalate_failure_durable c m :
  evolves durable (escalate_failure (X:=X) settings actor actor_type iid c m).
Proof. unfold escalate_failure. evolve. Qed.
Hint Resolve gather_durable withhold_durable begin_durable execute_attempt_durable
  close_durable prepare_retry_durable escalate_failure_durable : cw_pres.

Lemma remediate_durable n plan policy a p v :
  evolves durable (remediate (X:=X) settings exe opa target actor actor_type iid n plan policy a p v).
Proof.
  revert a p v. induction n as [|n IH]; intros a p v; simpl; unfold run_out, resolve;
    repeat first [evolve_step | apply IH | solve [eauto with cw_pres]].
Qed.
Hint Resolve remediate_durable : cw_pres.
Lemma process_durable :
  evolves durable (process (X:=X) settings exe opa loader target actor actor_type iid).
Proof. unfold process. evolve. Qed.

(** *** Authorization *)

Context (nd nt : nat).

(** A database and a trace that hold, after their first [nd] decisions and [nt]
    calls, an allowing decision on a document that names the pod: the call was
    made, the decision stored with its digest. *)
Definition granted (db : Database) (t : list call) (name : string) : Prop :=
  ∃ pod action risk d,
    let document := pipeline_policy_input target pod action risk in
    pod.(ps_name) = name ∧ d ∈ drop nd db.(policy_decisions) ∧ d.(pol_allowed) = true ∧
    d.(pol_input_digest) = policy_digest document ∧
    CallOpa (JObj [("input", PolicyInput_dump document)]) ∈ drop nt t.

Definition asked (name : string) (w : World X) : Prop := granted w.(work) w.(trace) name.
(** The decision is durable. *)
Definition authorized (name : string) (w : World X) : Prop :=
  granted w.(committed) w.(trace) name.
(** What is durable is part of the session, and includes what was there before. *)
Definition consistent (w : World X) : Prop :=
  db_extends w.(committed) w.(work) ∧ (nd ≤ length w.(committed).(policy_decisions))%nat ∧
  (nt ≤ length w.(trace))%nat.

Lemma elem_of_drop_app {A} n (x : A) l u : x ∈ drop n l → x ∈ drop n (l ++ u).
Proof. rewrite drop_app, elem_of_app. by left. Qed.

Lemma granted_mono db db' t t' name :
  db_extends db db' → t `prefix_of` t' → granted db t name → granted db' t' name.
Proof.
  intros Hdb [u ->] (pod & action & risk & d & Hn & Hd & Ha & Hg & Ht).
  exists pod, action, risk, d. split_and!; [done| |done|done|by apply elem_of_drop_app].
  destruct (ext_policy _ _ Hdb) as (l & -> & _). by apply elem_of_drop_app.
Qed.

Lemma asked_step name w w' : session_step w w' → asked name w → asked name w'.
Proof. intros (Hdb & _ & Ht). by apply granted_mono. Qed.

Lemma authorized_durable name w w' :
  consistent w → durable w w' → authorized name w → authorized name w'.
Proof. intros [Hw _] [Hd Ht]. destruct (Hd Hw). by apply granted_mono. Qed.

Lemma policies_grow d d' :
  db_extends d d' → (length d.(policy_decisions) ≤ length d'.(policy_decisions))%nat.
Proof. intros [_ _ _ (l & -> & _) _ _ _ _ _ _]. rewrite length_app. lia. Qed.

Lemma consistent_durable w w' : durable w w' → consistent w → consistent w'.
Proof.
  intros [Hd Ht%prefix_length] (Hw & Hl & Hn). destruct (Hd Hw) as [Hc Hk].
  split; [done|]. apply policies_grow in Hc. lia.
Qed.

Lemma evaluate_pod_ok plan pod (w w' : World X) i p :
  evaluate_pod settings opa target iid plan pod w = (Ok (i, p), w') →
  consistent w → p.(pr_allowed) = true → asked pod.(ps_name) w'.
Proof.
  unfold evaluate_pod. intros Hrun (Hw0%policies_grow & Hl & Hn) Hp.
  apply bind_ok in Hrun as (i' & w1 & H1 & Hrun). unfold lift, validated in H1.
  destruct (PolicyInput_valid _); [|done]. injection H1 as <- <-.
  apply bind_ok in Hrun as (p' & w2 & H2 & Hrun).
  apply evaluate_run in H2 as (Hw & _ & _ & Ht).
  apply bind_ok in Hrun as (u & w3 & H3 & Hrun). injection Hrun as <- <- <-.
  unfold add_decision in H3. run_inv H3.
  do 3 eexists. eexists. split_and!; [done| | | |].
  - simpl. rewrite Hw, drop_app_le by lia. apply elem_of_app. right.
    by apply list_elem_of_singleton.
  - exact Hp.
  - done.
  - simpl. rewrite Ht, drop_app_le by lia. apply elem_of_app. right.
    by apply list_elem_of_singleton.
Qed.

Lemma decide_policy_ok plan pod (w w' : World X) p :
  decide_policy settings opa target actor actor_type iid plan pod w = (Ok p, w') →
  consistent w → p.(pr_allowed) = true → asked pod.(ps_name) w'.
Proof.
  unfold decide_policy. intros Hrun Hw Hp.
  apply bind_ok in Hrun as (u & w1 & H1 & Hrun).
  apply bind_ok in Hrun as ([i p'] & w2 & H2 & Hrun).
  apply bind_ok in Hrun as (u' & w3 & H3 & Hrun). injection Hrun as <- <-.
  apply (asked_step _ w2); [by apply (evolves_run _ _ _ _ _ (audit_step _ _ _ _ _ _) H3)|].
  apply (evaluate_pod_ok _ _ _ _ _ _ H2); [|done].
  by apply (consistent_durable _ _ (evolves_run _ _ _ _ _ (durable_of _ (move_step _ _)) H1)).
Qed.

Lemma begin_ok plan name (w w' : World X) u :
  begin settings actor actor_type iid plan w = (Ok u, w') → asked name w → authorized name w'.
Proof.
  unfold begin. intros Hrun Ha.
  apply bind_ok in Hrun as (u1 & w1 & H1 & Hrun). run_inv H1.
  apply bind_ok in Hrun as (u2 & w2 & H2 & Hrun). run_inv Hrun.
  apply (evolves_run _ _ _ _ _ (move_step _ _)) in H2. by apply (asked_step _ _ _ H2).
Qed.

Lemma prepare_retry_ok plan a pod (w w' : World X) :
  prepare_retry settings opa target actor actor_type iid plan a w = (Ok (Some pod), w') →
  consistent w → authorized pod.(ps_name) w'.
Proof.
  unfold prepare_retry. intros Hrun Hw.
  apply bind_ok in Hrun as (u1 & w1 & H1 & Hrun).
  apply bind_ok in Hrun as (e & w2 & H2 & Hrun). cbv zeta in Hrun.
  apply (evolves_run _ _ _ _ _ (durable_of _ (move_step _ _))), consistent_durable in H1; [|done].
  apply (evolves_run _ _ _ _ _ (durable_of _ collect_target_step)), consistent_durable in H2;
    [|done].
  apply bind_ok in Hrun as (u3 & w3 & H3 & Hrun).
  apply bind_ok in Hrun as (u4 & w4 & H4 & Hrun). run_inv H4.
  injection Hrun as Hpod <-. rewrite Hpod in H3.
  apply bind_ok in H3 as ([i p] & w4 & H3 & Hp). apply raise_if_ok in Hp as [Hp ->].
  apply negb_false_iff in Hp. by apply (evaluate_pod_ok _ _ _ _ _ _ H3).
Qed.

(** *** The deletions of a run *)

Lemma bind_run {A B} (m : M (World X) A) (k : A → M (World X) B) w r w' :
  bind m k w = (r, w') →
  (∃ e, m w = (Raise e, w') ∧ r = Raise e) ∨ ∃ a w1, m w = (Ok a, w1) ∧ k a w1 = (r, w').
Proof.
  unfold bind. destruct (m w) as [[a|e] w1]; [intros Hk; right; by eauto|].
  intros [= <- <-]. left. by eauto.
Qed.

Definition deletes (P : string * string → Prop) (n : nat) (w w' : World X) : Prop :=
  ∃ l, deletions w' = deletions w ++ l ∧ (length l ≤ n)%nat ∧ Forall P l.

Lemma deletes_none P n w w' : no_deletion w w' → deletes P n w w'.
Proof. intros Hw. exists []. rewrite app_nil_r. split_and!; [done|simpl; lia|constructor]. Qed.

Lemma deletes_trans P n m w1 w2 w3 :
  deletes P n w1 w2 → deletes P m w2 w3 → deletes P (n + m) w1 w3.
Proof.
  intros (l1 & H1 & Hn & HP) (l2 & H2 & Hm & HQ). exists (l1 ++ l2).
  rewrite H2, H1, app_assoc, length_app, Forall_app. split_and!; [done|lia|done|done].
Qed.

Lemma deletes_weaken (P Q : string * string → Prop) n m w w' :
  deletes P n w w' → (∀ d, P d → Q d) → (n ≤ m)%nat → deletes Q m w w'.
Proof.
  intros (l & H1 & Hn & HP) HPQ Hle. exists l. split_and!; [done|lia|].
  by eapply Forall_impl.
Qed.

Definition targets (p : option PodState) (d : string * string) : Prop :=
  d.1 = target.(t_namespace) ∧ d.1 ∈ exe.(allowed_namespaces) ∧
  ∃ pod, p = Some pod ∧ d.2 = pod.(ps_name).

Lemma act_deletes plan a p id (w w' : World X) r :
  act exe target actor actor_type iid plan a p id w = (r, w') → deletes (targets p) 1 w w'.
Proof.
  destruct p as [pod|]; simpl; intros Hrun.
  - assert (∀ u, evolves no_deletion
      (let! now := utc_now in
       do! set_execution id (finished true (PodDeletionResult_dict u) None now);
       audit (X:=X) actor actor_type iid "ACTION_EXECUTED" (Some (p_action plan))
         (Some plan.(p_risk).(score)) (Some "ALLOW") "SUCCEEDED"
         (dict_update [("attempt", JInt a)] (PodDeletionResult_dict u)))) as Hrest
      by (intros u; evolve).
    apply bind_run in Hrun.
    destruct (delete_pod_cases exe target.(t_namespace) pod.(ps_name) w)
      as [(e & w1 & Hdel & Ht & _)|(r1 & w1 & Hdel & Ht & Hok & _)]; rewrite Hdel in Hrun;
      (assert (no_deletion w1 w') as Hw1
         by (destruct Hrun as [(e' & Heq & _)|(u & w2 & Heq & Hrun)]; simplify_eq;
             try done; by apply (evolves_run _ _ _ _ _ (Hrest _) Hrun))).
    + apply deletes_none. unfold no_deletion, stable, deletions in *. by rewrite Hw1, Ht.
    + exists [(target.(t_namespace), pod.(ps_name))]. unfold no_deletion, stable, deletions in *.
      rewrite Hw1, Ht, omap_app. split_and!; [done|simpl; lia|]. apply Forall_singleton.
      split_and!; [done|by destruct Hok|by exists pod].
  - apply deletes_none. revert Hrun. apply evolves_run. evolve.
Qed.

Lemma execute_attempt_deletes plan a p (w w' : World X) r :
  execute_attempt settings exe target actor actor_type iid plan a p w = (r, w') →
  deletes (targets p) 1 w w'.
Proof.
  unfold execute_attempt. intros Hrun.
  apply bind_run in Hrun as [(e & Hrun & _)|(id & w1 & H1 & Hrun)].
  { apply deletes_none. by apply (evolves_run _ _ _ _ _ (start_execution_no_deletion _ _) Hrun). }
  apply (deletes_trans _ 0 1 _ w1).
  { apply deletes_none. by apply (evolves_run _ _ _ _ _ (start_execution_no_deletion _ _) H1). }
  apply bind_run in Hrun as [(e & Hrun & _)|(u & w2 & H2 & Hrun)]; [by apply act_deletes in Hrun|].
  apply (deletes_trans _ 1 0 _ w2); [by apply act_deletes in H2|].
  apply deletes_none. revert Hrun. apply evolves_run. evolve.
Qed.

(** A deletion of the target, backed by a durable decision. *)
Definition permitted (w : World X) (d : string * string) : Prop :=
  d.1 = target.(t_namespace) ∧ d.1 ∈ exe.(allowed_namespaces) ∧ authorized d.2 w.

Lemma permitted_durable w w' d : consistent w → durable w w' → permitted w d → permitted w' d.
Proof. intros Hw Hd (? & ? & Ha). split_and!; [done|done|by apply (authorized_durable _ _ _ Hw Hd)]. Qed.

Lemma execute_attempt_permitted plan a p (w w' : World X) r :
  execute_attempt settings exe target actor actor_type iid plan a p w = (r, w') →
  consistent w → (∀ pod, p = Some pod → authorized pod.(ps_name) w) →
  deletes (permitted w') 1 w w'.
Proof.
  intros Hrun Hw Hp. eapply deletes_weaken; [by apply execute_attempt_deletes in Hrun| |lia].
  intros d (? & ? & pod & Hpod & Hd). split_and!; [done|done|]. rewrite Hd.
  eapply authorized_durable; [done| |by apply Hp].
  by apply (evolves_run _ _ _ _ _ (execute_attempt_durable _ _ _) Hrun).
Qed.

Lemma durable_trans (w1 w2 w3 : World X) : durable w1 w2 → durable w2 w3 → durable w1 w3.
Proof. apply evolves_trans. tc_solve. Qed.

Lemma deletes_durable n m w1 w2 w3 :
  consistent w2 → durable w2 w3 → deletes (permitted w2) n w1 w2 →
  deletes (permitted w3) m w2 w3 → deletes (permitted w3) (n + m) w1 w3.
Proof.
  intros Hw Hd H1 H2. eapply deletes_trans; [|done]. eapply deletes_weaken; [done| |done].
  intros d. by apply permitted_durable.
Qed.

(** A run without deletions, before a run with some. *)
Lemma deletes_after {A} (m : M (World X) A) n w1 w2 w3 r :
  evolves no_deletion m → m w1 = (r, w2) →
  deletes (permitted w3) n w2 w3 → deletes (permitted w3) n w1 w3.
Proof.
  intros Hm Hrun H2. apply (deletes_trans _ 0 n _ w2); [|done].
  apply deletes_none. by apply (evolves_run _ _ _ _ _ Hm Hrun).
Qed.

Hint Resolve verify_attempt_no_deletion prepare_retry_no_deletion decide_policy_no_deletion
  close_no_deletion gather_no_deletion classify_target_no_deletion propose_no_deletion
  withhold_no_deletion begin_no_deletion create_incident_no_deletion
  escalate_failure_no_deletion : cw_pres.

Lemma remediate_permitted n plan policy a p v (w w' : World X) r :
  remediate settings exe opa target actor actor_type iid n plan policy a p v w = (r, w') →
  consistent w → (∀ pod, p = Some pod → authorized pod.(ps_name) w) →
  deletes (permitted w') n w w'.
Proof.
  revert a p v w. induction n as [|n IH]; intros a p v w Hrun Hw Hp; simpl in Hrun.
  { apply deletes_none. revert Hrun. apply evolves_run. unfold run_out. evolve. }
  assert (durable w w') as Hdur.
  { refine (evolves_run _ _ _ _ _ (remediate_durable (S n) plan policy a p v) _).
    exact Hrun. }
  apply bind_run in Hrun as [(e & Hrun & _)|(u & w1 & H1 & Hrun)].
  { eapply deletes_weaken; [by eapply execute_attempt_permitted|done|lia]. }
  pose proof (evolves_run _ _ _ _ _ (execute_attempt_durable _ _ _) H1) as Hd1.
  pose proof (consistent_durable _ _ Hd1 Hw) as Hw1.
  assert (deletes (permitted w1) 1 w w1) as Hdel by by eapply execute_attempt_permitted.
  assert (∀ m, durable w1 w' → deletes (permitted w') m w1 w' → deletes (permitted w') (S m) w w')
    as Hcut by (intros m Hd Hm; by apply (deletes_durable 1 m _ w1)).
  apply bind_run in Hrun as [(e & Hrun & _)|(v' & w2 & H2 & Hrun)].
  { apply Hcut; [by apply session_step_durable, (evolves_run _ _ _ _ _ (verify_attempt_step _ _) Hrun)|].
    apply deletes_none. revert Hrun. apply evolves_run. evolve. }
  pose proof (evolves_run _ _ _ _ _ (durable_of _ (verify_attempt_step _ _)) H2) as Hd2.
  assert (∀ m, durable w2 w' → deletes (permitted w') m w2 w' → deletes (permitted w') (S m) w w')
    as Hcut2.
  { intros m Hd Hm. apply Hcut; [by apply (durable_trans _ w2)|].
    by apply (deletes_after _ _ _ _ _ _ (verify_attempt_no_deletion plan a) H2). }
  clear Hcut. pose proof (consistent_durable _ _ Hd2 Hw1) as Hw2.
  destruct (vr_success v').
  - apply Hcut2.
    + revert Hrun. apply evolves_run. unfold resolve. evolve.
    + apply deletes_none. revert Hrun. apply evolves_run. unfold resolve. evolve.
  - destruct (a <? _).
    + apply bind_run in Hrun as [(e & Hrun & _)|(p' & w3 & H3 & Hrun)].
      { apply Hcut2; [by apply (evolves_run _ _ _ _ _ (prepare_retry_durable _ _) Hrun)|].
        apply deletes_none. revert Hrun. apply evolves_run. evolve. }
      pose proof (evolves_run _ _ _ _ _ (prepare_retry_durable _ _) H3) as Hd3.
      apply Hcut2; [apply (durable_trans _ w3); [exact Hd3|]; by apply (evolves_run _ _ _ _ _ (remediate_durable _ _ _ _ _ _) Hrun)|].
      apply (deletes_after _ _ _ _ _ _ (prepare_retry_no_deletion plan a) H3).
      apply (IH _ _ _ _ Hrun); [by apply (consistent_durable _ _ Hd3)|].
      intros pod ->. by apply (prepare_retry_ok _ _ _ _ _ H3).
    + apply Hcut2; [by apply (evolves_run _ _ _ _ _ (remediate_durable _ _ _ _ _ _) Hrun)|].
      apply (IH _ _ _ _ Hrun Hw2). intros pod ->.
      apply (authorized_durable _ w); [done|by apply (durable_trans _ w1)|by apply Hp].
Qed.

Lemma process_permitted (w w' : World X) r :
  process settings exe opa loader target actor actor_type iid w = (r, w') → consistent w →
  deletes (permitted w') (Z.to_nat settings.(max_remediation_attempts)) w w'.
Proof.
  unfold process. intros Hrun Hw.
  assert (∀ u : World X, no_deletion u w' → deletes (permitted w')
    (Z.to_nat settings.(max_remediation_attempts)) u w') as Hnone
    by (intros u Hu; by apply deletes_none).
  apply bind_run in Hrun as [(e & Hrun & _)|(ev & w1 & H1 & Hrun)].
  { apply Hnone. by apply (evolves_run _ _ _ _ _ gather_no_deletion Hrun). }
  apply (deletes_after _ _ _ _ _ _ gather_no_deletion H1).
  apply (evolves_run _ _ _ _ _ gather_durable), consistent_durable in H1 as Hw1; [|done].
  apply bind_run in Hrun as [(e & Hrun & _)|([[pod rb] rbx] & w2 & H2 & Hrun)].
  { apply Hnone. by apply (evolves_run _ _ _ _ _ (classify_target_no_deletion _) Hrun). }
  apply (deletes_after _ _ _ _ _ _ (classify_target_no_deletion _) H2).
  apply (evolves_run _ _ _ _ _ (durable_of _ (classify_target_step _))), consistent_durable
    in H2 as Hw2; [|done].
  apply bind_run in Hrun as [(e & Hrun & _)|(plan & w3 & H3 & Hrun)].
  { apply Hnone. by apply (evolves_run _ _ _ _ _ (propose_no_deletion _ _ _) Hrun). }
  apply (deletes_after _ _ _ _ _ _ (propose_no_deletion _ _ _) H3).
  apply (evolves_run _ _ _ _ _ (durable_of _ (propose_step _ _ _))), consistent_durable
    in H3 as Hw3; [|done].
  apply bind_run in Hrun as [(e & Hrun & _)|(policy & w4 & H4 & Hrun)].
  { apply Hnone. by apply (evolves_run _ _ _ _ _ (decide_policy_no_deletion _ _) Hrun). }
  apply (deletes_after _ _ _ _ _ _ (decide_policy_no_deletion _ _) H4).
  pose proof (decide_policy_ok _ _ _ _ _ H4 Hw3) as Hasked.
  apply (evolves_run _ _ _ _ _ (durable_of _ (decide_policy_step _ _))), consistent_durable
    in H4 as Hw4; [|done].
  destruct (pr_allowed policy) eqn:Hp; simpl in Hrun.
  2: { apply Hnone. by apply (evolves_run _ _ _ _ _ (withhold_no_deletion _ _) Hrun). }
  apply bind_run in Hrun as [(e & Hrun & _)|(u & w5 & H5 & Hrun)].
  { apply Hnone. by apply (evolves_run _ _ _ _ _ (begin_no_deletion _) Hrun). }
  apply (deletes_after _ _ _ _ _ _ (begin_no_deletion _) H5).
  pose proof (begin_ok _ _ _ _ _ H5 (Hasked eq_refl)) as Hauth.
  apply (evolves_run _ _ _ _ _ (begin_durable _)), consistent_durable in H5 as Hw5; [|done].
  apply (remediate_permitted _ _ _ _ _ _ _ _ _ Hrun Hw5). by intros pod' [= <-].
Qed.
End frames.

(** ** Every deletion of a run is permitted *)

Section runs.
Context {X : Type} `{!Runtime X, !KubeApi X, !Pydantic, !PolicyServer X}.
Context (settings : Settings) (exe : Executor) (opa : OPAClient) (loader : RunbookLoader).
Context (target : UnhealthyPodTarget) (actor : string) (actor_type : ActorType).

(** C2: every pod the pipeline deletes was allowed, durably, first.  However a run
    ends, the deletions it issued are at most the configured number of attempts;
    each is in the target's namespace, one of the executor's, and for each there
    are a call of the policy engine made during the run about a document naming
    that pod, and a committed decision of the run, with the digest of that
    document, that allows it. *)
Theorem deletions_permitted correlation_id (w w' : World X) r :
  db_extends w.(committed) w.(work) →
  run_pipeline settings exe opa loader target actor actor_type correlation_id w = (r, w') →
  ∃ l, deletions w' = deletions w ++ l ∧
    (length l ≤ Z.to_nat settings.(max_remediation_attempts))%nat ∧
    Forall (λ d, d.1 = target.(t_namespace) ∧ d.1 ∈ exe.(allowed_namespaces) ∧
                 granted target (length w.(work).(policy_decisions)) (length w.(trace))
                   w'.(committed) w'.(trace) d.2) l.
Proof.
  unfold run_pipeline. intros Hw Hrun.
  set (nd := length w.(work).(policy_decisions)). set (nt := length w.(trace)).
  change (deletes (permitted exe target nd nt w') (Z.to_nat settings.(max_remediation_attempts)) w w').
  apply bind_run in Hrun as [(e & Hrun & _)|(iid & w1 & H1 & Hrun)].
  { apply deletes_none.
    by apply (evolves_run _ _ _ _ _ (create_incident_no_deletion _ _ _ _ _ _ _ _ _) Hrun). }
  eapply deletes_after; [apply create_incident_no_deletion|exact H1|].
  apply (evolves_run _ _ _ _ _ (create_incident_step _ _ _ _ _ _ _ _ _)) in H1 as (Hdb & _ & Ht).
  apply bind_run in Hrun as [(e & Hrun & _)|(u & w2 & H2 & Hrun)]; [done|]. injection H2 as _ <-.
  set (w2 := {| work := w1.(work); committed := w1.(work); metrics := w1.(metrics);
                trace := w1.(trace); ext := w1.(ext) |}) in *.
  apply (deletes_trans _ 0 (Z.to_nat settings.(max_remediation_attempts)) _ w2);
    [by apply deletes_none|].
  assert (consistent nd nt w2) as Hw2
    by (split; [done|split; [by apply policies_grow|by apply prefix_length]]).
  unfold catch in Hrun.
  destruct (process _ _ _ _ _ _ _ _ w2) as [[o|e] w3] eqn:Hp;
    eapply process_permitted with (nd := nd) (nt := nt) in Hp as Hdel; try done.
  { by injection Hrun as _ <-. }
  destruct e as [code msg st d|cls msg]; [|by injection Hrun as _ <-].
  apply (evolves_run _ _ _ _ _ (process_durable _ _ _ _ _ _ _ _)), consistent_durable
    with (nd := nd) (nt := nt) in Hp as Hw3; [|done].
  rewrite <- (Nat.add_0_r (Z.to_nat (max_remediation_attempts settings))). eapply deletes_durable; [done| |done|].
  - by apply (evolves_run _ _ _ _ _ (escalate_failure_durable _ _ _ _ _ _) Hrun).
  - apply deletes_none.
    by apply (evolves_run _ _ _ _ _ (escalate_failure_no_deletion _ _ _ _ _ _) Hrun).
Qed.
End runs.
