(* ===== verification/PipelineRuns.v ===== *)
(** * How a run of the pipeline ends

    A run of [Pipeline.run_pipeline] that returns leaves its incident settled and
    committed, in the state it reports; it reports a resolution only after a
    successful verification.  Concrete runs instantiate the theorems. *)

From S2P Require Import Prelude PyFloat Json JsonParse Effects Rbac Actions Risk StateMachine.
From S2P Require Import Models World Redaction Config AuditLog History Memory Notifications.
From S2P Require Import ApprovalRequests Incidents Kubernetes Opa Approvals Execution.
From S2P Require Import Verification Runbooks Pipeline.

(** The state of an incident. *)
Definition state_in (id : uuid) (d : Database) : option IncidentState :=
  inc_state <$> d.(incidents) !! id.

Section settles.
Context {X : Type} `{!Runtime X, !KubeApi X, !Pydantic, !PolicyServer X}.
Context (settings : Settings) (exe : Executor) (opa : OPAClient) (loader : RunbookLoader).
Context (target : UnhealthyPodTarget) (actor : string) (actor_type : ActorType) (iid : uuid).

Hint Resolve add_snapshot_step audit_step add_decision_step collect_target_step evaluate_step
  evaluate_pod_step classify_target_step propose_step decide_policy_step verify_attempt_step
  start_execution_step act_step move_step : cw_pres.

(** The parts that do not touch the incidents. *)
Lemma collect_target_same : evolves (same_db states) (collect_target (X:=X) target).
Proof. unfold collect_target, collect_kubernetes_state. evolve. Qed.
Lemma add_snapshot_same et s p : evolves (same_db states) (add_snapshot (X:=X) iid et s p).
Proof. unfold add_snapshot. evolve. Qed.
Lemma audit_same e a r d res md :
  evolves (same_db states) (audit (X:=X) actor actor_type iid e a r d res md).
Proof. unfold audit. evolve. Qed.
Lemma add_decision_same plan i p :
  evolves (same_db states) (add_decision (X:=X) settings iid plan i p).
Proof. unfold add_decision. evolve. Qed.
Hint Resolve collect_target_same add_snapshot_same audit_same add_decision_same evaluate_same
  : cw_pres.
Lemma evaluate_pod_same plan p :
  evolves (same_db states) (evaluate_pod (X:=X) settings opa target iid plan p).
Proof. unfold evaluate_pod. evolve. Qed.
Lemma propose_same pod r rbx :
  evolves (same_db states) (propose (X:=X) target actor actor_type iid pod r rbx).
Proof. unfold propose. evolve. Qed.
Lemma start_execution_same plan a :
  evolves (same_db states) (start_execution (X:=X) iid plan a).
Proof. unfold start_execution, insert_execution. evolve. Qed.
Lemma act_same plan a p id :
  evolves (same_db states) (act (X:=X) exe target actor actor_type iid plan a p id).
Proof. unfold act. evolve. Qed.
Lemma verify_loop_same n t dl p a : evolves (same_db states) (verify_loop (X:=X) n t dl p a).
Proof.
  revert a. induction n as [|n IH]; intros a; simpl; [evolve|].
  repeat first [evolve_step | apply check_once_same | apply IH | solve [eauto with cw_pres]].
Qed.
Lemma verify_attempt_same plan a :
  evolves (same_db states) (verify_attempt (X:=X) settings target actor actor_type iid plan a).
Proof.
  unfold verify_attempt, verify_until.
  repeat first [evolve_step | apply verify_loop_same | solve [eauto with cw_pres]].
Qed.
Hint Resolve evaluate_pod_same propose_same start_execution_same act_same verify_attempt_same
  : cw_pres.

(** Not resolved, in the session and durably. *)
Definition unresolved (w : World X) : Prop :=
  state_in iid w.(work) ≠ Some RESOLVED ∧ state_in iid w.(committed) ≠ Some RESOLVED.

Lemma state_in_same d d' : states d' = states d → state_in iid d' = state_in iid d.
Proof.
  intros [= Hs _]. unfold state_in. pose proof (f_equal (lookup iid) Hs) as Hl.
  by rewrite !lookup_fmap in Hl.
Qed.

Lemma unresolved_of {A} (m : M (World X) A) :
  evolves session_step m → evolves (same_db states) m → evolves (keeps unresolved) m.
Proof.
  intros Hm Hs w [Hw Hc]. destruct (Hm w) as (_ & Hcom & _).
  split; [ |by rewrite Hcom]. specialize (Hs w). unfold same_db, stable in Hs.
  by rewrite (state_in_same _ _ Hs).
Qed.

(** A change of state leaves the state or sets it. *)
Lemma move_state st d (w w' : World X) r :
  move settings actor actor_type iid st d w = (r, w') →
  (state_in iid w'.(work) = state_in iid w.(work) ∨ state_in iid w'.(work) = Some st) ∧
  (is_ok r = true → state_in iid w'.(work) = Some st).
Proof.
  unfold move. intros Hrun.
  pose proof (change_incident_state_cases settings iid st actor actor_type d false w) as Hc.
  cbv zeta in Hc. rewrite Hrun in Hc. unfold state_in in *.
  destruct (incidents (work w) !! iid) as [i|] eqn:Hi; simpl in *.
  2: { injection Hc as -> ->. rewrite Hi. split; [by left|done]. }
  case_bool_decide as Ht.
  { injection Hc as -> ->. rewrite Hi. simpl. by rewrite Ht; auto. }
  simpl in Hc. case_bool_decide as Hs.
  2: { destruct Hc as (e & _ & Hc). simplify_eq. rewrite Hi. split; [by left|done]. }
  destruct Hc as (w1 & [[now Hinc] _ _ _] & Hr).
  pose proof (after_change_states settings iid st actor d w1) as Hst. rewrite <- Hr in Hst.
  injection Hst as Hst _. simpl in Hst.
  assert (inc_state <$> incidents (work w') !! iid = Some st) as ->; [|auto].
  rewrite Hst, Hinc, lookup_alter_eq, Hi. simpl. by rewrite with_state_state.
Qed.

Lemma move_unresolved st d :
  st ≠ RESOLVED → evolves (keeps unresolved) (move (X:=X) settings actor actor_type iid st d).
Proof.
  intros Hst w [Hw Hc].
  destruct (move settings actor actor_type iid st d w) as [r w'] eqn:Hrun.
  destruct (evolves_run _ _ _ _ _ (move_step _ _ _ _ _ _) Hrun) as (_ & Hcom & _).
  apply move_state in Hrun as [Hor _]. simpl. split; [|by rewrite Hcom].
  destruct Hor as [E|E]; rewrite E; [done|congruence].
Qed.

Lemma commit_unresolved : evolves (keeps unresolved) (commit (X:=X)).
Proof. intros w [Hw _]. by split. Qed.

Hint Resolve commit_unresolved : cw_pres.
Hint Extern 1 (evolves (keeps unresolved) (move _ _ _ _ _ _)) =>
  apply move_unresolved; done : cw_pres.
Hint Extern 2 (evolves (keeps unresolved) _) =>
  apply unresolved_of; [solve [evolve]|solve [evolve]] : cw_pres.

Lemma gather_unresolved :
  evolves (keeps unresolved) (gather (X:=X) settings target actor actor_type iid).
Proof. unfold gather. evolve. Qed.
Lemma classify_target_unresolved e :
  evolves (keeps unresolved)
    (classify_target (X:=X) settings loader target actor actor_type iid e).
Proof. unfold classify_target. evolve. Qed.
Lemma propose_unresolved pod r rbx :
  evolves (keeps unresolved) (propose (X:=X) target actor actor_type iid pod r rbx).
Proof. unfold propose. evolve. Qed.
Lemma decide_policy_unresolved plan pod :
  evolves (keeps unresolved)
    (decide_policy (X:=X) settings opa target actor actor_type iid plan pod).
Proof. unfold decide_policy. evolve. Qed.
Lemma begin_unresolved plan :
  evolves (keeps unresolved) (begin (X:=X) settings actor actor_type iid plan).
Proof. unfold begin. evolve. Qed.
Lemma execute_attempt_unresolved plan a p :
  evolves (keeps unresolved)
    (execute_attempt (X:=X) settings exe target actor actor_type iid plan a p).
Proof. unfold execute_attempt. evolve. Qed.
Lemma verify_attempt_unresolved plan a :
  evolves (keeps unresolved)
    (verify_attempt (X:=X) settings target actor actor_type iid plan a).
Proof. evolve. Qed.
Lemma prepare_retry_unresolved plan a :
  evolves (keeps unresolved)
    (prepare_retry (X:=X) settings opa target actor actor_type iid plan a).
Proof. unfold prepare_retry. evolve. Qed.

(** *** The last stage of a run *)

(** A part that ends with a commit, if it raises, has made nothing durable. *)
Definition commits_last {A} (m : M (World X) A) : Prop :=
  ∀ w e w', m w = (Raise e, w') → w'.(committed) = w.(committed).

Lemma commits_last_bind {A B} (m : M (World X) A) (k : A → M (World X) B) :
  evolves session_step m → (∀ a, commits_last (k a)) → commits_last (bind m k).
Proof.
  intros Hm Hk w e w' Hrun. apply bind_run in Hrun as [(e' & Hrun & _)|(a & w1 & H1 & Hrun)].
  - by destruct (evolves_run _ _ _ _ _ Hm Hrun) as (_ & Hc & _).
  - destruct (evolves_run _ _ _ _ _ Hm H1) as (_ & Hc & _).
    rewrite <- Hc. by apply Hk in Hrun.
Qed.

Lemma commits_last_commit {B} (b : B) : commits_last (bind (commit (X:=X)) (λ _, ret b)).
Proof. by intros w e w'. Qed.
Lemma commits_last_only : commits_last (commit (X:=X)).
Proof. by intros w e w'. Qed.

Lemma close_raised plan s st d e r md :
  commits_last (close (X:=X) settings actor actor_type iid plan s st d e r md).
Proof.
  unfold close. repeat (apply commits_last_bind; [solve [evolve]|intros ?]).
  apply commits_last_only.
Qed.

Lemma withhold_raised plan p :
  commits_last (withhold (X:=X) settings actor actor_type iid plan p).
Proof.
  unfold withhold. repeat (apply commits_last_bind; [solve [evolve]|intros ?]).
  apply commits_last_commit.
Qed.

(** Everything is durable, and the incident is in the given state. *)
Definition settled (st : IncidentState) (w : World X) : Prop :=
  w.(committed) = w.(work) ∧ state_in iid w.(work) = Some st.

Lemma close_settled plan s st d e r md (w w' : World X) u :
  close settings actor actor_type iid plan s st d e r md w = (Ok u, w') → settled st w'.
Proof.
  unfold close. intros Hrun.
  apply bind_ok in Hrun as (u1 & w1 & H1 & Hrun).
  apply bind_ok in Hrun as (u2 & w2 & H2 & Hrun).
  apply bind_ok in Hrun as (u3 & w3 & H3 & Hrun).
  apply bind_ok in Hrun as (u4 & w4 & H4 & Hrun). injection Hrun as _ <-.
  split; [done|]. simpl. apply move_state in H3 as [_ H3].
  rewrite (state_in_same _ _ (evolves_run _ _ _ _ _ (audit_same _ _ _ _ _ _) H4)).
  by apply H3.
Qed.

Lemma withhold_settled plan p (w w' : World X) o :
  withhold settings actor actor_type iid plan p w = (Ok o, w') →
  settled o.(out_state) w' ∧ o.(out_incident_id) = iid ∧
  (o.(out_state) = AWAITING_APPROVAL ∨ o.(out_state) = BLOCKED).
Proof.
  unfold withhold. cbv zeta. intros Hrun.
  apply bind_ok in Hrun as (u1 & w1 & H1 & Hrun).
  apply bind_ok in Hrun as (u2 & w2 & H2 & Hrun).
  apply bind_ok in Hrun as (u3 & w3 & H3 & Hrun).
  apply bind_ok in Hrun as (u4 & w4 & H4 & Hrun). injection Hrun as <- <-. simpl.
  apply move_state in H1 as [_ H1]. specialize (H1 eq_refl).
  split_and!; [|done|by destruct (pr_requires_approval p); auto].
  split; [done|]. simpl. run_inv H2. run_inv H3. simpl in *.
  assert (∀ b m (v v' : World X) u, when b m v = (Ok u, v') → evolves (same_db states) m →
    state_in iid v'.(work) = state_in iid v.(work)) as Hwhen.
  { intros [] m v v' u Hm Hs; [|by injection Hm as _ <-].
    by rewrite (state_in_same _ _ (evolves_run _ _ _ _ _ Hs Hm)). }
  rewrite (Hwhen _ _ _ _ _ H4 (audit_same _ _ _ _ _ _)). exact H1.
Qed.

(** What a run of the loop, or of the whole process, promises. *)
Definition ends_well (r : res PipelineOutcome) (w' : World X) : Prop :=
  match r with
  | Ok o =>
      settled o.(out_state) w' ∧ o.(out_incident_id) = iid ∧
      o.(out_state) ∈ [RESOLVED; BLOCKED; ESCALATED; AWAITING_APPROVAL] ∧
      (o.(out_state) = RESOLVED → ∃ v, o.(out_verification) = Some v ∧
        v.(vr_success) = true ∧ 1 ≤ o.(out_attempts) ≤ settings.(max_remediation_attempts))
  | Raise _ => state_in iid w'.(committed) ≠ Some RESOLVED
  end.

Lemma raised_unresolved {A} (m : M (World X) A) e w w' :
  evolves (keeps unresolved) m → unresolved w → m w = (Raise e, w') →
  state_in iid w'.(committed) ≠ Some RESOLVED.
Proof. intros Hm Hw Hrun. by apply (evolves_run _ _ _ _ _ Hm Hrun Hw). Qed.

Lemma remediate_ends n plan policy a p v (w w' : World X) r :
  remediate settings exe opa target actor actor_type iid n plan policy a p v w = (r, w') →
  unresolved w → 1 ≤ a → a + Z.of_nat n = settings.(max_remediation_attempts) + 1 →
  ends_well r w'.
Proof.
  revert a p v w. induction n as [|n IH]; intros a p v w Hrun Hw Ha Hn; cbn [remediate] in Hrun.
  { apply bind_run in Hrun as [(e & Hrun & ->)|(u & w1 & H1 & Hrun)].
    - apply close_raised in Hrun. simpl. rewrite Hrun. apply Hw.
    - injection Hrun as <- <-. apply close_settled in H1.
      split_and!; [done|done|by repeat constructor|done]. }
  apply bind_run in Hrun as [(e & Hrun & ->)|(u & w1 & H1 & Hrun)].
  { by apply (raised_unresolved _ _ _ _ (execute_attempt_unresolved _ _ _) Hw Hrun). }
  pose proof (evolves_run _ _ _ _ _ (execute_attempt_unresolved _ _ _) H1 Hw) as Hw1.
  apply bind_run in Hrun as [(e & Hrun & ->)|(v' & w2 & H2 & Hrun)].
  { by apply (raised_unresolved _ _ _ _ (verify_attempt_unresolved _ _) Hw1 Hrun). }
  pose proof (evolves_run _ _ _ _ _ (verify_attempt_unresolved _ _) H2 Hw1) as Hw2.
  destruct (vr_success v') eqn:Hs.
  - apply bind_run in Hrun as [(e & Hrun & ->)|(u' & w3 & H3 & Hrun)].
    + apply close_raised in Hrun. simpl. rewrite Hrun. apply Hw2.
    + injection Hrun as <- <-. apply close_settled in H3.
      split_and!; [done|done|by repeat constructor|]. intros _. exists v'. simpl.
      split_and!; [done|done|lia|lia].
  - destruct (a <? _); [|by apply (IH _ _ _ _ Hrun Hw2); lia].
    apply bind_run in Hrun as [(e & Hrun & ->)|(p' & w3 & H3 & Hrun)].
    { by apply (raised_unresolved _ _ _ _ (prepare_retry_unresolved _ _) Hw2 Hrun). }
    apply (IH _ _ _ _ Hrun); [|lia|lia].
    by apply (evolves_run _ _ _ _ _ (prepare_retry_unresolved _ _) H3).
Qed.

Lemma process_ends (w w' : World X) r :
  process settings exe opa loader target actor actor_type iid w = (r, w') →
  unresolved w → 0 ≤ settings.(max_remediation_attempts) → ends_well r w'.
Proof.
  unfold process. intros Hrun Hw Hmax.
  apply bind_run in Hrun as [(e & Hrun & ->)|(ev & w1 & H1 & Hrun)].
  { by apply (raised_unresolved _ _ _ _ gather_unresolved Hw Hrun). }
  apply (evolves_run _ _ _ _ _ gather_unresolved) in H1; apply H1 in Hw; clear H1.
  apply bind_run in Hrun as [(e & Hrun & ->)|([[pod rb] rbx] & w2 & H2 & Hrun)].
  { by apply (raised_unresolved _ _ _ _ (classify_target_unresolved _) Hw Hrun). }
  apply (evolves_run _ _ _ _ _ (classify_target_unresolved _)) in H2; apply H2 in Hw; clear H2.
  apply bind_run in Hrun as [(e & Hrun & ->)|(plan & w3 & H3 & Hrun)].
  { by apply (raised_unresolved _ _ _ _ (propose_unresolved _ _ _) Hw Hrun). }
  apply (evolves_run _ _ _ _ _ (propose_unresolved _ _ _)) in H3; apply H3 in Hw; clear H3.
  apply bind_run in Hrun as [(e & Hrun & ->)|(policy & w4 & H4 & Hrun)].
  { by apply (raised_unresolved _ _ _ _ (decide_policy_unresolved _ _) Hw Hrun). }
  apply (evolves_run _ _ _ _ _ (decide_policy_unresolved _ _)) in H4; apply H4 in Hw; clear H4.
  destruct (pr_allowed policy); cbn [negb] in Hrun.
  - apply bind_run in Hrun as [(e & Hrun & ->)|(u & w5 & H5 & Hrun)].
    { by apply (raised_unresolved _ _ _ _ (begin_unresolved _) Hw Hrun). }
    apply (evolves_run _ _ _ _ _ (begin_unresolved _)) in H5; apply H5 in Hw; clear H5.
    apply (remediate_ends _ _ _ _ _ _ _ _ _ Hrun Hw); lia.
  - destruct r as [o|e]; [|apply withhold_raised in Hrun; simpl; rewrite Hrun; apply Hw].
    apply withhold_settled in Hrun as (Hs & Hi & Ho). split_and!; [done|done| |].
    + destruct Ho as [E|E]; rewrite E; by repeat constructor.
    + destruct Ho as [E|E]; by rewrite E.
Qed.

Lemma escalate_failure_settled code msg (w w' : World X) o :
  escalate_failure settings actor actor_type iid code msg w = (Ok o, w') →
  state_in iid w.(committed) ≠ Some RESOLVED →
  settled o.(out_state) w' ∧ o.(out_incident_id) = iid ∧
  (o.(out_state) = BLOCKED ∨ o.(out_state) = ESCALATED).
Proof.
  unfold escalate_failure. intros Hrun Hw.
  apply bind_ok in Hrun as (u1 & w1 & H1 & Hrun). injection H1 as _ <-.
  apply bind_ok in Hrun as (i & w2 & H2 & Hrun). run_inv H2. simpl in Hlk.
  apply bind_ok in Hrun as (u3 & w3 & H3 & Hrun).
  apply bind_ok in Hrun as (i' & w4 & H4 & Hrun). run_inv H4. injection Hrun as <- <-. simpl.
  assert (state_in iid w.(committed) = Some i.(inc_state)) as Hst
    by (unfold state_in; by rewrite Hlk).
  assert (state_in iid w3.(work) = Some i'.(inc_state)) as Hst'
    by (unfold state_in; by rewrite Hlk0).
  case_bool_decide as Hin; cbn [negb when] in H3.
  - injection H3 as _ <-. simpl in Hst'. rewrite Hst in Hst'. injection Hst' as Hst'.
    split_and!; [split; [done|]; simpl; by rewrite Hst, Hst'|done|].
    rewrite <- Hst'. rewrite Hst in Hw.
    repeat (apply elem_of_cons in Hin as [Hin|Hin]; [rewrite Hin in *; by auto|]).
    by apply elem_of_nil in Hin.
  - apply bind_ok in H3 as (u5 & w5 & H5 & H3).
    apply bind_ok in H3 as (u6 & w6 & H6 & H3). injection H3 as _ <-. simpl in *.
    apply move_state in H5 as [_ H5]. specialize (H5 eq_refl).
    pose proof (state_in_same _ _ (evolves_run _ _ _ _ _ (audit_same _ _ _ _ _ _) H6)) as H7.
    rewrite H7, H5 in Hst'. injection Hst' as <-.
    split_and!; [split; [done|]; simpl; by rewrite H7|done|by right].
Qed.
End settles.

Section runs.
Context {X : Type} `{!Runtime X, !KubeApi X, !Pydantic, !PolicyServer X}.
Context (settings : Settings) (exe : Executor) (opa : OPAClient) (loader : RunbookLoader).
Context (target : UnhealthyPodTarget) (actor : string) (actor_type : ActorType).

Lemma create_incident_detected c it t e s sid cid a ty (w w' : World X) id :
  create_incident c it t e s sid cid a ty w = (Ok id, w') →
  state_in id w'.(work) = Some DETECTED.
Proof.
  unfold create_incident. intros Hrun.
  apply bind_ok in Hrun as (u1 & w1 & _ & Hrun).
  apply bind_ok in Hrun as (u2 & w2 & _ & Hrun).
  apply bind_ok in Hrun as (id' & w3 & _ & Hrun).
  apply bind_ok in Hrun as (now & w4 & _ & Hrun).
  apply bind_ok in Hrun as (u5 & w5 & (_ & _ & ->)%insert_row_ok & Hrun).
  apply bind_ok in Hrun as (u6 & w6 & H6 & Hrun). injection H6 as _ <-.
  assert (∀ A (m : M (World X) A) v v' r, m v = (r, v') → evolves (same_db incidents) m →
    v'.(work).(incidents) = v.(work).(incidents)) as Hsame
    by (intros A m v v' r Hr Hm; by apply (evolves_run _ _ _ _ _ Hm Hr)).
  apply bind_ok in Hrun as (u7 & w7 & H7 & Hrun).
  apply Hsame in H7; [|unfold add_incident_event; evolve].
  apply bind_ok in Hrun as (u8 & w8 & H8 & Hrun). apply Hsame in H8; [|evolve].
  apply bind_ok in Hrun as (u9 & w9 & H9 & Hrun). apply Hsame in H9; [|evolve].
  injection Hrun as <- <-. unfold state_in. rewrite H9, H8, H7. simpl.
  by rewrite lookup_insert_eq.
Qed.

(** C3: a run that returns leaves nothing in flight and tells the truth.  All its
    work is committed; the incident it names is, durably, in the state it reports,
    one of resolved, blocked, escalated or awaiting approval; and it reports a
    resolution only with the successful verification that justifies it, within the
    configured number of attempts. *)
Theorem run_settles correlation_id (w w' : World X) o :
  0 ≤ settings.(max_remediation_attempts) →
  run_pipeline settings exe opa loader target actor actor_type correlation_id w = (Ok o, w') →
  w'.(committed) = w'.(work) ∧
  state_in o.(out_incident_id) w'.(committed) = Some o.(out_state) ∧
  o.(out_state) ∈ [RESOLVED; BLOCKED; ESCALATED; AWAITING_APPROVAL] ∧
  (o.(out_state) = RESOLVED → ∃ v, o.(out_verification) = Some v ∧ v.(vr_success) = true ∧
     1 ≤ o.(out_attempts) ≤ settings.(max_remediation_attempts)).
Proof.
  unfold run_pipeline. intros Hmax Hrun.
  apply bind_ok in Hrun as (iid & w1 & H1 & Hrun).
  apply create_incident_detected in H1 as Hdet.
  apply bind_ok in Hrun as (u & w2 & H2 & Hrun). injection H2 as _ <-.
  set (w2 := {| work := w1.(work); committed := w1.(work); metrics := w1.(metrics);
                trace := w1.(trace); ext := w1.(ext) |}) in *.
  assert (unresolved iid w2) as Hw2 by (split; simpl; rewrite Hdet; done).
  unfold catch in Hrun.
  destruct (process _ _ _ _ _ _ _ _ w2) as [[o'|e] w3] eqn:Hp;
    eapply process_ends in Hp; try done.
  - injection Hrun as <- <-. destruct Hp as ([Hc Hs] & Hi & Hin & Hv).
    split_and!; [done|by rewrite Hi, Hc|done|done].
  - destruct e as [code msg st d|]; [|done].
    eapply escalate_failure_settled in Hrun; [|exact Hp].
    destruct Hrun as ([Hc Hs] & Hi & Ho).
    split_and!; [done|by rewrite Hi, Hc| |].
    + destruct Ho as [E|E]; rewrite E; by repeat constructor.
    + destruct Ho as [E|E]; by rewrite E.
Qed.
End runs.

(** ** A concrete run *)

Definition bench_loader : RunbookLoader := (bench_load [unhealthy_pod_file]).2.
Definition bench_target : UnhealthyPodTarget := default_target.
(** The settings of the examples with a short verification. *)
Definition short_settings : Settings :=
  settings_where "staging" false (seconds 1) (seconds 1) 120.
(** A cluster whose demo pod is not ready until it is deleted, with a second,
    ready one. *)
Definition healing_kube : KubeApi Z := {|
  read_namespaced_pod _ _ x := (inl bench_pod, x);
  list_namespaced_pod _ _ x :=
    (inl [if 1000000 <=? x then ready_pod else bench_pod; ready_pod], x);
  delete_namespaced_pod _ _ x := (inl tt, x + 1000000);
  patch_namespaced_pod := patch_namespaced_pod;
  read_namespaced_deployment := read_namespaced_deployment;
  patch_namespaced_deployment_scale := patch_namespaced_deployment_scale;
  list_namespaced_event := list_namespaced_event;
  service_proxy_get := service_proxy_get;
  pod_proxy_get := pod_proxy_get;
  get_custom_object := get_custom_object;
  create_custom_object := create_custom_object;
  delete_custom_object := delete_custom_object;
|}.

Definition bench_opa_client : OPAClient :=
  opa_client "http://opa:8181/" "/v1/data/cloudward/remediation/decision".
Definition bench_run (api : KubeApi Z) (loader : RunbookLoader) (w : World Z)
  : res PipelineOutcome * World Z :=
  run_pipeline (Runtime0 := bench_runtime) (KubeApi0 := api) (H := strict_pydantic)
    short_settings bench_executor bench_opa_client loader bench_target "cloudward"
    ACTOR_SYSTEM "corr-7" w.
Definition healing_run : res PipelineOutcome * World Z :=
  bench_run healing_kube bench_loader (bench_world empty_database).

Lemma run_settles_witness :
  ∃ o, healing_run.1 = Ok o ∧ o.(out_state) = RESOLVED ∧
    state_in o.(out_incident_id) healing_run.2.(committed) = Some RESOLVED ∧
    ∃ v, o.(out_verification) = Some v ∧ v.(vr_success) = true.
Proof.
  assert (∃ o, healing_run.1 = Ok o ∧ o.(out_state) = RESOLVED) as (o & Ho & Hst)
    by (eexists; split; vm_compute; reflexivity).
  exists o. split; [exact Ho|]. split; [exact Hst|].
  apply run_of in Ho. unfold healing_run at 1 in Ho. unfold bench_run in Ho.
  apply (run_settles (Runtime0 := bench_runtime) (KubeApi0 := healing_kube)
           (H := strict_pydantic)) in Ho; [|vm_compute; discriminate].
  destruct Ho as (_ & Hs & _ & Hv). destruct (Hv Hst) as (v & Hv1 & Hv2 & _).
  split; [rewrite <- Hst; exact Hs|]. exists v. split; [exact Hv1|exact Hv2].
Defined.

(** The bench server allows everything and its pod is never ready: three attempts,
    one deletion each. *)
Definition failing_run : res PipelineOutcome * World Z :=
  bench_run bench_kube bench_loader (bench_world empty_database).

Lemma deletions_permitted_witness :
  deletions failing_run.2 = replicate 3 ("cloudward-staging", "demo-7f9c") ∧
  (length (deletions failing_run.2) ≤ 3)%nat.
Proof.
  split; [vm_compute; reflexivity|].
  destruct (deletions_permitted (Runtime0 := bench_runtime) (H := strict_pydantic)
    short_settings bench_executor bench_opa_client bench_loader bench_target "cloudward"
    ACTOR_SYSTEM "corr-7" (bench_world empty_database) failing_run.2 failing_run.1)
    as (l & Hl & Hlen & _); [reflexivity|apply surjective_pairing|].
  rewrite Hl. exact Hlen.
Defined.

(** The pipeline deletes whatever the action of the matched runbook is: here the
    policy is asked about a scaling. *)
Definition scaling_loader : RunbookLoader :=
  {| loaded_runbooks := map (λ r,
       {| rb_id := r.(rb_id); rb_version := r.(rb_version);
          rb_environments := [ENV_STAGING]; rb_match := r.(rb_match);
          rb_evidence := r.(rb_evidence); rb_preconditions := r.(rb_preconditions);
          rb_action := SCALE_STAGING_DEPLOYMENT; rb_verify := r.(rb_verify);
          rb_rollback := false |}) bench_loader.(loaded_runbooks) |}.

Example scaling_runbook_deletes :
  let w := (bench_run healing_kube scaling_loader (bench_world empty_database)).2 in
  map prop_action_type (rows w.(committed).(action_proposals)) = [SCALE_STAGING_DEPLOYMENT] ∧
  deletions w = [("cloudward-staging", "demo-7f9c")].
Proof. vm_compute. split; reflexivity. Qed.
