(* ===== verification/Tickets.v ===== *)
(** * The contract of approvals: a ledger of single-use tickets

    An abstract specification of [approvals/service.py] and of the claims of
    [remediation/execution.py], and the proof that the detailed operations refine
    it.  A ticket waits for a decision, is granted or refused once, and a granted
    one is spent by one execution.  The operations work on rows, digests, live
    targets and events; none of that is visible in the ledger. *)

From S2P Require Import Prelude PyFloat Json Effects StateMachine Rbac Actions Models World.
From S2P Require Import History Config ApprovalRequests Kubernetes Opa.
From S2P Require Import Approvals Execution.

(** ** The abstract system *)

Inductive ticket : Type :=
| Waiting | Granted | Refused | Spent (execution : string).

Abbreviation ledger := (gmap uuid ticket).

Inductive event : Type :=
| Request (id : uuid) | Grant (id : uuid) | Refuse (id : uuid) | Spend (id eid : uuid).

Inductive ledger_step : ledger → event → ledger → Prop :=
| step_request l id : l !! id = None → ledger_step l (Request id) (<[id := Waiting]> l)
| step_grant l id : l !! id = Some Waiting → ledger_step l (Grant id) (<[id := Granted]> l)
| step_refuse l id : l !! id = Some Waiting → ledger_step l (Refuse id) (<[id := Refused]> l)
| step_spend l id eid : l !! id = Some Granted →
    ledger_step l (Spend id eid) (<[id := Spent (uuid_str eid)]> l).

Inductive ledger_trace : ledger → list event → ledger → Prop :=
| trace_nil l : ledger_trace l [] l
| trace_cons l1 e l2 tr l3 :
    ledger_step l1 e l2 → ledger_trace l2 tr l3 → ledger_trace l1 (e :: tr) l3.

Lemma trace_one l e l' : ledger_step l e l' → ledger_trace l [e] l'.
Proof. intros. by eapply trace_cons; [|apply trace_nil]. Qed.

Lemma trace_app l1 tr1 l2 tr2 l3 :
  ledger_trace l1 tr1 l2 → ledger_trace l2 tr2 l3 → ledger_trace l1 (tr1 ++ tr2) l3.
Proof. induction 1; simpl; [done|]. intros. eapply trace_cons; eauto. Qed.

(** What the abstract system promises. *)
Definition is_spend (id : uuid) (e : event) : bool :=
  match e with Spend k _ => bool_decide (k = id) | _ => false end.
Definition spends (id : uuid) (tr : list event) : nat := length (List.filter (is_spend id) tr).

Definition spent (t : option ticket) : Prop := ∃ r, t = Some (Spent r).

Lemma step_spent id l e l' :
  ledger_step l e l' → spent (l !! id) → spent (l' !! id) ∧ is_spend id e = false.
Proof.
  intros Hs [r Hr]. destruct Hs as [l k Hk|l k Hk|l k Hk|l k eid Hk]; simpl;
    (destruct (decide (k = id)) as [->|Hne]; [congruence|]);
    rewrite lookup_insert_ne by done; (split; [by exists r|]); try done.
  by apply bool_decide_eq_false.
Qed.

Lemma spent_no_spend id l tr l' : ledger_trace l tr l' → spent (l !! id) → spends id tr = 0%nat.
Proof.
  induction 1 as [l|l1 e l2 tr l3 Hs Ht IH]; intros Hsp; [done|].
  destruct (step_spent id _ _ _ Hs Hsp) as [Hsp' He].
  unfold spends in *. simpl. rewrite He. by apply IH.
Qed.

(** A ticket is spent at most once along any trace. *)
Lemma spends_once id l tr l' : ledger_trace l tr l' → (spends id tr ≤ 1)%nat.
Proof.
  induction 1 as [l|l1 e l2 tr l3 Hs Ht IH]; [unfold spends; simpl; lia|].
  unfold spends in *. simpl. destruct (is_spend id e) eqn:He; [|done].
  destruct Hs as [l k Hk|l k Hk|l k Hk|l k eid Hk]; try done.
  apply bool_decide_eq_true in He as ->. simpl. apply le_n_S.
  assert (spends id tr = 0%nat) as E
    by (eapply spent_no_spend; [exact Ht|]; eexists; apply lookup_insert_eq).
  unfold spends in E. lia.
Qed.

(** ** The abstraction of the database *)

Definition ticket_of (a : Approval) : ticket :=
  match a.(app_decision) with
  | DECISION_PENDING => Waiting
  | APPROVED =>
      match a.(app_execution_claimed_at) with
      | None => Granted
      | Some _ => Spent (default "" a.(app_execution_reference))
      end
  | _ => Refused
  end.

Definition ledger_of (d : Database) : ledger := ticket_of <$> d.(approvals).

(** Rows are stored under their key and a pending approval is unused. *)
Definition ledger_ok (d : Database) : Prop :=
  ∀ id a, d.(approvals) !! id = Some a →
    a.(app_id) = id ∧ (a.(app_decision) = DECISION_PENDING → a.(app_execution_claimed_at) = None).

Definition has_approval (pid : uuid) (d : Database) : Prop :=
  ∃ id a, d.(approvals) !! id = Some a ∧ a.(app_proposal_id) = pid.

(** What an execution is for: its proposal, and the execution it undoes. *)
Definition execution_link (e : ActionExecution) :=
  (e.(exec_proposal_id), e.(exec_rollback_of_execution_id)).

(** Approvals and executions stay, for the same proposal. *)
Definition keeps_rows (d d' : Database) : Prop :=
  (∀ id a, d.(approvals) !! id = Some a →
     ∃ a', d'.(approvals) !! id = Some a' ∧ a'.(app_proposal_id) = a.(app_proposal_id)) ∧
  (∀ eid e, d.(action_executions) !! eid = Some e →
     ∃ e', d'.(action_executions) !! eid = Some e' ∧
           execution_link e' = execution_link e).

(** Every new execution of a proposal that had an approval spends a ticket, unless
    it undoes another, and every ticket spent pays for an execution of its
    proposal. *)
Definition accounted (tr : list event) (d d' : Database) : Prop :=
  (∀ eid e, d'.(action_executions) !! eid = Some e → has_approval e.(exec_proposal_id) d →
     e.(exec_rollback_of_execution_id) = None →
     d.(action_executions) !! eid ≠ None ∨ ∃ id, Spend id eid ∈ tr) ∧
  (∀ id eid, Spend id eid ∈ tr → ∃ a e, d'.(approvals) !! id = Some a ∧
     d'.(action_executions) !! eid = Some e ∧ e.(exec_proposal_id) = a.(app_proposal_id)).

Definition simulated (d d' : Database) : Prop :=
  ledger_ok d' ∧ keeps_rows d d' ∧
  ∃ tr, ledger_trace (ledger_of d) tr (ledger_of d') ∧ accounted tr d d'.

Definition refines {X} : relation (World X) := λ w w',
  ledger_ok w.(work) → simulated w.(work) w'.(work).

Lemma keeps_rows_refl d : keeps_rows d d.
Proof. split; eauto. Qed.

Lemma has_approval_keeps pid d d' : keeps_rows d d' → has_approval pid d → has_approval pid d'.
Proof.
  intros [Ha _] (id & a & Hl & <-). destruct (Ha id a Hl) as (a' & Hl' & E).
  by exists id, a'.
Qed.

Lemma simulated_trans d1 d2 d3 : simulated d1 d2 → simulated d2 d3 → simulated d1 d3.
Proof.
  intros (_ & K1 & tr1 & T1 & N1 & P1) (H3 & K2 & tr2 & T2 & N2 & P2).
  split_and!; [done| |].
  - destruct K1 as [A1 E1], K2 as [A2 E2]. split.
    + intros id a Ha. destruct (A1 id a Ha) as (a1 & Ha1 & <-). by apply A2.
    + intros id e He. destruct (E1 id e He) as (e1 & He1 & <-). by apply E2.
  - exists (tr1 ++ tr2). split; [by eapply trace_app|]. split.
    + intros eid e He Hp Hrb. setoid_rewrite elem_of_app.
      destruct (N2 eid e He (has_approval_keeps _ _ _ K1 Hp) Hrb) as [Hn|[id Hid]]; [|eauto].
      destruct (d2.(action_executions) !! eid) as [e2|] eqn:He2; [|done].
      destruct K2 as [_ E2]. destruct (E2 eid e2 He2) as (e' & He' & Hlink).
      rewrite He in He'. injection He' as <-. injection Hlink as Hpid Hr.
      rewrite Hpid in Hp. rewrite Hr in Hrb.
      destruct (N1 eid e2 He2 Hp Hrb) as [|[id Hid]]; eauto.
    + intros id eid [Hs|Hs]%elem_of_app; [|by apply P2].
      destruct (P1 id eid Hs) as (a & e & Ha & He & Hpid). destruct K2 as [A2 E2].
      destruct (A2 id a Ha) as (a' & Ha' & Hpa), (E2 eid e He) as (e' & He' & Hpe).
      injection Hpe as Hpe _. exists a', e'. split_and!; [done..|congruence].
Qed.

#[export] Instance refines_evolution {X} : Evolution (@refines X).
Proof.
  split.
  - intros w Hw. split_and!; [done|apply keeps_rows_refl|]. exists [].
    split; [apply trace_nil|]. split; [intros ? ? -> _ _; by left|by intros ? ? ?%elem_of_nil].
  - intros w1 w2 w3 H12 H23 H1. pose proof (H12 H1) as S12.
    eapply simulated_trans; [exact S12|]. apply H23, S12.
Qed.

(** Operations that leave both tables alone refine the empty trace. *)
Lemma simulated_same d d' : ledger_ok d → use_tables d' = use_tables d → simulated d d'.
Proof.
  intros Hd [= Ha He]. unfold simulated, ledger_ok, keeps_rows, ledger_of, accounted.
  rewrite Ha, He. split_and!; [done|eauto|eauto|]. exists []. split; [apply trace_nil|].
  split; [intros ? ? -> _ _; by left|by intros ? ? ?%elem_of_nil].
Qed.

Lemma refines_same {X A} (m : M (World X) A) :
  evolves (same_db use_tables) m → evolves refines m.
Proof. intros Hm w Hw. exact (simulated_same _ _ Hw (Hm w)). Qed.

(** ** The operations refine the ledger *)

Section database_steps.
Implicit Types d : Database.

Lemma ledger_alter d d' id f a :
  d.(approvals) !! id = Some a → d'.(approvals) = alter f id d.(approvals) →
  ledger_of d' = <[id := ticket_of (f a)]> (ledger_of d).
Proof.
  intros Ha E. unfold ledger_of. rewrite E. apply map_eq. intros k.
  destruct (decide (id = k)) as [<-|Hne].
  - by rewrite lookup_insert_eq, lookup_fmap, lookup_alter_eq, Ha.
  - by rewrite lookup_insert_ne, !lookup_fmap, lookup_alter_ne.
Qed.

Lemma ledger_lookup d id a : d.(approvals) !! id = Some a → ledger_of d !! id = Some (ticket_of a).
Proof. intros Ha. unfold ledger_of. by rewrite lookup_fmap, Ha. Qed.

(** One approval changes, without changing its identity and proposal. *)
Lemma approvals_altered d d' id f a :
  d.(approvals) !! id = Some a → d'.(approvals) = alter f id d.(approvals) →
  (f a).(app_proposal_id) = a.(app_proposal_id) →
  ∀ k b, d.(approvals) !! k = Some b →
    ∃ b', d'.(approvals) !! k = Some b' ∧ b'.(app_proposal_id) = b.(app_proposal_id).
Proof.
  intros Ha E Hf k b Hb. rewrite E. destruct (decide (id = k)) as [<-|Hne].
  - rewrite lookup_alter_eq, Hb. assert (b = a) as -> by congruence. by exists (f a).
  - rewrite lookup_alter_ne by done. by exists b.
Qed.

Lemma ok_altered d d' id f a :
  ledger_ok d → d.(approvals) !! id = Some a → d'.(approvals) = alter f id d.(approvals) →
  (f a).(app_id) = a.(app_id) → (f a).(app_decision) ≠ DECISION_PENDING → ledger_ok d'.
Proof.
  intros Hd Ha E Hid Hdec k b. rewrite E. destruct (decide (id = k)) as [<-|Hne].
  - rewrite lookup_alter_eq, Ha. intros [= <-]. rewrite Hid. split; [|done]. by apply Hd.
  - rewrite lookup_alter_ne by done. apply Hd.
Qed.

Lemma simulated_decides d d' id a :
  ledger_ok d → d.(approvals) !! id = Some a → a.(app_decision) = DECISION_PENDING →
  decides id a d d' → simulated d d'.
Proof.
  intros Hd Ha Hp (f & Hdone & _ & Hbind & Huse & Et & Ex).
  injection Hbind as Hid _ Hprop _ _ _ _ _ _ _ _ _ _.
  destruct (Hd id a Ha) as [_ Hfree]. specialize (Hfree Hp).
  injection Huse as Hcl _. rewrite Hfree in Hcl.
  pose proof (ledger_lookup d id a Ha) as Hw. unfold ticket_of in Hw. rewrite Hp in Hw.
  split_and!; [by eapply ok_altered| |].
  { split; [by eapply approvals_altered|]. rewrite Ex. eauto. }
  assert (∃ ev, ledger_step (ledger_of d) ev (ledger_of d') ∧ ∀ k eid, Spend k eid ≠ ev)
    as (ev & Hst & Hns).
  { rewrite (ledger_alter d d' id f a Ha Et). unfold ticket_of at 1. rewrite Hcl.
    destruct (app_decision (f a)); [done|exists (Grant id)|exists (Refuse id)..];
      (split; [by constructor|done]). }
  exists [ev]. split; [by apply trace_one|]. split.
  - rewrite Ex. intros ? ? -> _ _. by left.
  - intros k eid Hs%list_elem_of_singleton. by apply Hns in Hs.
Qed.

Lemma simulated_request d d' id a :
  ledger_ok d → d.(approvals) !! id = None → a.(app_id) = id →
  a.(app_decision) = DECISION_PENDING → a.(app_execution_claimed_at) = None →
  d'.(approvals) = <[id := a]> d.(approvals) →
  d'.(action_executions) = d.(action_executions) → simulated d d'.
Proof.
  intros Hd Hn Hid Hp Hc Et Ex. split_and!.
  - intros k b. rewrite Et. intros [[<- <-]|[_ Hb]]%lookup_insert_Some; [done|by apply Hd].
  - split; [|rewrite Ex; eauto]. intros k b Hb. rewrite Et.
    rewrite lookup_insert_ne by congruence. eauto.
  - exists [Request id]. split.
    + apply trace_one. unfold ledger_of. rewrite Et, fmap_insert. unfold ticket_of at 2. rewrite Hp.
      constructor. by rewrite lookup_fmap, Hn.
    + split; [rewrite Ex; intros ? ? -> _ _; by left|by intros ? ? ?%list_elem_of_singleton].
Qed.

Lemma simulated_set_execution d d' eid f :
  ledger_ok d → (∀ e, execution_link (f e) = execution_link e) →
  d'.(approvals) = d.(approvals) →
  d'.(action_executions) = alter f eid d.(action_executions) → simulated d d'.
Proof.
  intros Hd Hf Et Ex. split_and!; [unfold ledger_ok; by rewrite Et| |].
  - split; [rewrite Et; eauto|]. intros k e He. rewrite Ex.
    destruct (decide (eid = k)) as [<-|Hne].
    + rewrite lookup_alter_eq, He. by exists (f e).
    + rewrite lookup_alter_ne by done. eauto.
  - exists []. unfold ledger_of. rewrite Et. split; [apply trace_nil|].
    split; [|by intros ? ? ?%elem_of_nil]. rewrite Ex. intros k e He _ _. left. intros Hn.
    destruct (decide (eid = k)) as [<-|Hne];
      [by rewrite lookup_alter_eq, Hn in He|by rewrite lookup_alter_ne, Hn in He].
Qed.

(** An execution that undoes another. *)
Lemma simulated_undo d d' id e :
  ledger_ok d → d.(action_executions) !! id = None →
  e.(exec_rollback_of_execution_id) ≠ None → d'.(approvals) = d.(approvals) →
  d'.(action_executions) = <[id := e]> d.(action_executions) → simulated d d'.
Proof.
  intros Hd Hn Hr Et Ex. split_and!; [unfold ledger_ok; by rewrite Et| |].
  - split; [rewrite Et; eauto|]. intros k e' He. rewrite Ex, lookup_insert_ne by congruence.
    eauto.
  - exists []. unfold ledger_of. rewrite Et. split; [apply trace_nil|].
    split; [|by intros ? ? ?%elem_of_nil]. rewrite Ex.
    intros k e' [[<- <-]|[_ He]]%lookup_insert_Some _ Hrb; [done|left; congruence].
Qed.

Lemma simulated_claim d d' iid i p key attempt id :
  ledger_ok d → claim_written iid i p key attempt id d d' → simulated d d'.
Proof.
  intros Hd (o & now & Ho & Hus & Hfresh & _ & Ex & Et & _ & _).
  assert (∀ eid e, d.(action_executions) !! eid = Some e →
    ∃ e', d'.(action_executions) !! eid = Some e' ∧ execution_link e' = execution_link e)
    as Hkx by (intros k e He; rewrite Ex, lookup_insert_ne by congruence; eauto).
  destruct o as [a|].
  - apply latest_Some in Ho as (Hin & Hfor & _). apply bool_decide_eq_true in Hfor.
    apply elem_of_rows in Hin as [k Hka]. destruct (Hd k a Hka) as [Hk _]. rewrite Hk in Et.
    destruct Et as [at_ Et], (Hus a eq_refl) as [Happr Hun].
    split_and!; [| |exists [Spend k id]; split].
    + eapply ok_altered; [done..|]. simpl. by rewrite Happr.
    + split; [by eapply approvals_altered|done].
    + apply trace_one. rewrite (ledger_alter d d' k _ a Hka Et).
      assert (ticket_of (mark_claimed at_ id a) = Spent (uuid_str id)) as ->
        by (unfold ticket_of; simpl; by rewrite Happr).
      constructor. rewrite (ledger_lookup d k a Hka). unfold ticket_of. by rewrite Happr, Hun.
    + split.
      * intros eid e. rewrite Ex. intros [[<- <-]|[_ He]]%lookup_insert_Some _ _;
          [right; exists k; by left|left; congruence].
      * intros k' eid [= -> ->]%list_elem_of_singleton. eexists _, _.
        rewrite Et, Ex, lookup_insert_eq, lookup_alter_eq, Hka. split_and!; [done..|]. by simpl.
  - rewrite latest_None in Ho. split_and!; [unfold ledger_ok; by rewrite Et| |].
    + split; [rewrite Et; eauto|done].
    + exists []. unfold ledger_of. rewrite Et. split; [apply trace_nil|].
      split; [|by intros ? ? ?%elem_of_nil]. intros eid e. rewrite Ex.
      intros [[<- <-]|[_ He]]%lookup_insert_Some; [|left; congruence].
      intros (k & b & Hb & Hpid) _. exfalso. specialize (Ho b). unfold approval_for in Ho.
      rewrite bool_decide_eq_true_2 in Ho by done.
      assert (b ∈ rows d.(approvals)) by (apply elem_of_rows; by exists k). by discriminate Ho.
Qed.
End database_steps.

Section operations.
Context {X : Type} `{!Runtime X, !KubeApi X, !Pydantic, !PolicyServer X}.
Context (settings : Settings) (opa : OPAClient) (exe : Executor).

Lemma request_refines i p rb r :
  evolves refines (ensure_runtime_approval (X:=X) settings i p rb r).
Proof.
  unfold ensure_runtime_approval.
  repeat first [ evolve_step | apply refines_same; solve [eauto with cw_pres] ].
  intros w Hw. unfold insert_row, bind, query, gets, raise_if. simpl.
  destruct (negb _) eqn:Hc; simpl; [by apply simulated_same|]. boolify.
  match goal with |- context [<[?k := ?v]> _] => by apply (simulated_request _ _ k v) end.
Qed.

Lemma decide_refines id decision principal comment :
  evolves refines (decide_approval (X:=X) settings opa id decision principal comment).
Proof.
  intros w Hw. destruct (decide_approval_run settings opa id decision principal comment w)
    as [[e ->]|(a & Ha & Hp & ->)]; [by apply simulated_same|].
  destruct (decide_pending_tables settings opa id a decision principal comment w Ha)
    as [->|Hd]; [by apply simulated_same|by eapply simulated_decides].
Qed.

Lemma claim_refines iid pid rb target attempt :
  evolves refines (claim_action_execution (X:=X) iid pid rb target attempt).
Proof.
  intros w Hw. destruct (claim_run iid pid rb target attempt w)
    as [(e & _ & Ht)|(i & q & _ & _ & _ & Hc)]; [by apply simulated_same|].
  cbv zeta in Hc. destruct (select_one (has_key _) _) in Hc; [rewrite Hc; by apply simulated_same|].
  destruct Hc as (id & _ & Hc). by eapply simulated_claim.
Qed.

Lemma set_execution_refines eid f :
  (∀ e, execution_link (f e) = execution_link e) →
  evolves refines (set_execution eid f : M (World X) unit).
Proof. intros Hf w Hw. by eapply simulated_set_execution. Qed.

Lemma finish_refines iid eid ok result code :
  evolves refines (finish_action_execution (X:=X) iid eid ok result code).
Proof.
  unfold finish_action_execution.
  repeat first [ evolve_step | apply set_execution_refines; done
               | apply refines_same; solve [eauto with cw_pres] ].
Qed.

Lemma insert_undo_refines e :
  e.(exec_rollback_of_execution_id) ≠ None →
  evolves refines (insert_execution e : M (World X) unit).
Proof.
  intros He w Hw. unfold insert_execution, insert_row, bind, query, gets, raise_if. simpl.
  destruct (negb _) eqn:Hc; simpl; [by apply simulated_same|]. boolify.
  by eapply simulated_undo.
Qed.

Lemma rollback_refines iid eid maximum :
  evolves refines (rollback_scale exe iid eid maximum : M (World X) uuid).
Proof.
  unfold rollback_scale, perform_rollback, report_rollback.
  repeat first [ evolve_step | apply set_execution_refines; done | apply insert_undo_refines; done
               | apply refines_same; solve [eauto with cw_pres] ].
Qed.

(** One call of an operation, with any arguments and however it ends. *)
Inductive service_step : relation (World X) :=
| serve_request i p rb r w :
    service_step w (ensure_runtime_approval settings i p rb r w).2
| serve_decide id decision principal comment w :
    service_step w (decide_approval settings opa id decision principal comment w).2
| serve_claim iid pid rb target attempt w :
    service_step w (claim_action_execution iid pid rb target attempt w).2
| serve_finish iid eid ok result code w :
    service_step w (finish_action_execution iid eid ok result code w).2
| serve_rollback iid eid maximum w :
    service_step w (rollback_scale exe iid eid maximum w).2.

Lemma service_step_refines w w' : service_step w w' → refines w w'.
Proof.
  intros []; [apply request_refines|apply decide_refines|apply claim_refines
             |apply finish_refines|apply rollback_refines].
Qed.

(** C32: the services refine the ledger of single-use tickets.  From any state whose
    pending approvals are unused, any sequence of requests, decisions, claims, ends
    of executions and rollbacks, each returning or raising, is matched by a trace of
    the ledger between the two states: an approval waits, is granted or refused
    once, and a granted one is spent at most once.  Every execution made meanwhile
    for a proposal that had an approval, unless it undoes another, spends a ticket,
    and every ticket spent paid for an execution of its own proposal. *)
Theorem services_refine_ledger (w w' : World X) :
  ledger_ok w.(work) → rtc service_step w w' →
  ∃ tr, ledger_trace (ledger_of w.(work)) tr (ledger_of w'.(work)) ∧
    accounted tr w.(work) w'.(work) ∧ ∀ id, (spends id tr ≤ 1)%nat.
Proof.
  intros Hok Hsteps. assert (refines w w') as Hr.
  { clear Hok. induction Hsteps as [w|w w1 w2 Hs _ IH]; [apply evolves_refl; apply _|].
    eapply evolves_trans; [apply _|by apply service_step_refines|done]. }
  destruct (Hr Hok) as (_ & _ & tr & Htr & Hac). exists tr. split_and!; [done..|].
  intros id. by eapply spends_once.
Qed.
End operations.

(** The approval of [waiting_world], granted and then claimed. *)
Lemma services_refine_ledger_witness :
  let w := (bench_claim 1 approved_world).2 in
  ∃ tr, ledger_trace {[3%N := Waiting]} tr (ledger_of w.(work)) ∧
    spent (ledger_of w.(work) !! 3%N) ∧ (spends 3%N tr ≤ 1)%nat.
Proof.
  destruct (services_refine_ledger (Runtime0 := bench_runtime) (H := strict_pydantic)
    example_settings (opa_client "http://opa:8181/" "/v1/data/d") bench_executor waiting_world
    (bench_claim 1 approved_world).2) as (tr & Htr & _ & Hsp).
  - intros id a [-> ->]%waiting_only. split; reflexivity.
  - eapply rtc_l; [apply (serve_decide (Runtime0 := bench_runtime) (H := strict_pydantic)
      example_settings (opa_client "http://opa:8181/" "/v1/data/d") bench_executor 3%N APPROVED
      operator None)|].
    apply rtc_once, (serve_claim (Runtime0 := bench_runtime)
      (H := strict_pydantic) example_settings (opa_client "http://opa:8181/" "/v1/data/d")
      bench_executor 1%N 2%N "rb" [("namespace", JStr "n")]).
  - exists tr. split; [exact Htr|]. split; [|apply Hsp]. eexists. vm_compute. reflexivity.
Defined.
