(* ===== verification/Alerts.v ===== *)
(** * Alert ingestion

    [alerts/schemas.py] and [alerts/service.py]: the bounds on what Alertmanager
    may send, the normalized alert with its fingerprint and digest, and the
    idempotent ingestion that groups repeated alerts and opens incidents.  Pydantic
    has turned the request into the fields of the schema: a timestamp is the instant
    it denotes and its [isoformat()]. *)

From S2P Require Import Prelude PyFloat Json Sha256 Effects Actions StateMachine Models World.
From S2P Require Import Redaction Config AuditLog History Notifications Incidents.

(** ** The wire schema *)

Definition MAX_LABELS : nat := 64.
Definition MAX_ANNOTATIONS : nat := 32.
Definition MAX_VALUE_LENGTH : Z := 2048.
Definition STABLE_LABELS : list string :=
  ["alertname"; "service"; "environment"; "namespace"; "cluster"; "deployment"].

Record WireTime : Type := { instant : datetime; iso_text : string }.

Abbreviation text_dict := (list (string * string)).

Record AlertmanagerAlert : Type := {
  am_status : AlertStatus;
  am_labels : text_dict;
  am_annotations : text_dict;
  am_starts_at : WireTime;
  am_ends_at : option WireTime;
  am_generator_url : string;
  am_fingerprint : option string;
}.

Definition bounded_entry (e : string * string) : bool :=
  (str_len e.1 <=? 128) && (str_len e.2 <=? MAX_VALUE_LENGTH).

Definition bounded_labels (value : text_dict) : bool :=
  negb (bool_decide (value = [])) && (length value <=? MAX_LABELS)%nat &&
  forallb bounded_entry value.

Definition bounded_annotations (value : text_dict) : bool :=
  (length value <=? MAX_ANNOTATIONS)%nat && forallb bounded_entry value.

Definition AlertmanagerAlert_valid (a : AlertmanagerAlert) : bool :=
  bounded_labels a.(am_labels) && bounded_annotations a.(am_annotations) &&
  (str_len a.(am_generator_url) <=? 4096) &&
  match a.(am_fingerprint) with Some f => str_len f <=? 256 | None => true end.

Record AlertmanagerPayload : Type := {
  amp_version : string;
  amp_group_key : string;
  amp_truncated_alerts : Z;
  amp_status : AlertStatus;
  amp_receiver : string;
  amp_group_labels : text_dict;
  amp_common_labels : text_dict;
  amp_common_annotations : text_dict;
  amp_external_url : string;
  amp_alerts : list AlertmanagerAlert;
}.

Definition AlertmanagerPayload_valid (p : AlertmanagerPayload) : bool :=
  String.eqb p.(amp_version) "4" && (str_len p.(amp_group_key) <=? 2048) &&
  (0 <=? p.(amp_truncated_alerts)) && (str_len p.(amp_receiver) <=? 255) &&
  (str_len p.(amp_external_url) <=? 4096) &&
  (1 <=? length p.(amp_alerts))%nat && (length p.(amp_alerts) <=? 100)%nat &&
  forallb AlertmanagerAlert_valid p.(amp_alerts).

(** ** The normalized alert *)

Record NormalizedAlert : Type := {
  al_source : string;
  al_alert_name : string;
  al_status : AlertStatus;
  al_severity : string;
  al_service : string;
  al_environment : Environment;
  al_namespace : option string;
  al_starts_at : datetime;
  al_ends_at : option datetime;
  al_labels : text_dict;
  al_annotations : dict;
  al_fingerprint : string;
  al_payload_digest : string;
}.

Definition text_json (d : text_dict) : dict := map (λ kv, (kv.1, JStr kv.2)) d.

(** [labels.get(key, default)]. *)
Definition label (key default_value : string) (labels : text_dict) : string :=
  default default_value (dict_get key labels).

Definition environments : list (string * Environment) :=
  [("local", ENV_LOCAL); ("staging", ENV_STAGING); ("production", ENV_PRODUCTION)].

Definition alert_environment (labels : text_dict) : Environment :=
  default ENV_STAGING (dict_get (lower (label "environment" "staging" labels)) environments).

(** [(labels.get("service") or labels.get("job") or "unknown")[:255]]. *)
Definition alert_service (labels : text_dict) : string :=
  str_take 255 (str_or (label "service" "" labels) (str_or (label "job" "" labels) "unknown")).

Definition stable_text (labels : text_dict) : string :=
  join (String.String "031" EmptyString) (map (λ key, label key "" labels) STABLE_LABELS).

Definition safe_annotations (annotations : text_dict) : dict :=
  match redact (JObj (text_json annotations)) with JObj d => d | _ => [] end.

Definition digest_payload (a : AlertmanagerAlert) : json :=
  JObj [("status", JStr (AlertStatus_value a.(am_status)));
        ("starts_at", JStr a.(am_starts_at).(iso_text));
        ("ends_at", JOptStr (iso_text <$> a.(am_ends_at)));
        ("labels", JObj (text_json a.(am_labels)));
        ("annotations", JObj (safe_annotations a.(am_annotations)))].

(** [NormalizedAlert.from_alertmanager]. *)
Definition from_alertmanager (a : AlertmanagerAlert) : NormalizedAlert :=
  let labels := a.(am_labels) in
  {| al_source := "prometheus";
     al_alert_name := str_take 128 (label "alertname" "UnknownPrometheusAlert" labels);
     al_status := a.(am_status);
     al_severity := str_take 16 (label "severity" "warning" labels);
     al_service := alert_service labels;
     al_environment := alert_environment labels;
     al_namespace := match dict_get "namespace" labels with
                     | Some n => if truthy_str n then Some (str_take 253 n) else None
                     | None => None
                     end;
     al_starts_at := a.(am_starts_at).(instant);
     al_ends_at := instant <$> a.(am_ends_at);
     al_labels := labels;
     al_annotations := safe_annotations a.(am_annotations);
     al_fingerprint := sha256_hex (stable_text labels);
     al_payload_digest := sha256_hex (dumps (digest_payload a)) |}.

(** ** Ingestion *)

Definition ALERT_INCIDENT_TYPES : list (string * string) :=
  [("HighHTTPErrorRate", "reliability.bad-deployment");
   ("HighCPUSaturation", "reliability.cpu-saturation");
   ("ContainerOOMKilled", "reliability.memory-pressure");
   ("WorkloadUnavailable", "reliability.platform-self-healing")].

Definition alert_incident_type (name : string) : string :=
  default "reliability.prometheus-alert" (dict_get name ALERT_INCIDENT_TYPES).

Record AlertIngestionResult : Type := {
  air_alert_id : string;
  air_incident_id : option string;
  air_duplicate : bool;
  air_created_incident : bool;
  air_status : string;
}.

(** The key of a record. *)
Definition known_as (source fingerprint : string) (r : AlertRecord) : bool :=
  String.eqb r.(alr_source) source && String.eqb r.(alr_fingerprint) fingerprint.

Definition alert_constraints (r : AlertRecord) (t : gmap uuid AlertRecord) : bool :=
  negb (existsb (known_as r.(alr_source) r.(alr_fingerprint)) (rows t)).

(** [annotations.get(key)] when it is a non-empty text. *)
Definition annotation (key : string) (a : NormalizedAlert) : option string :=
  match dict_get key a.(al_annotations) with Some (JStr s) => Some s | _ => None end.

(** [annotations.get("summary") or annotations.get("description")]. *)
Definition alert_summary (a : NormalizedAlert) : option string :=
  match annotation "summary" a with
  | Some s => if truthy_str s then Some s else annotation "description" a
  | None => annotation "description" a
  end.

Definition repeat_received (now : datetime) (r : AlertRecord) : AlertRecord :=
  {| alr_id := r.(alr_id); alr_created_at := r.(alr_created_at);
     alr_incident_id := r.(alr_incident_id); alr_source := r.(alr_source);
     alr_fingerprint := r.(alr_fingerprint); alr_payload_digest := r.(alr_payload_digest);
     alr_alert_name := r.(alr_alert_name); alr_status := r.(alr_status);
     alr_severity := r.(alr_severity); alr_service := r.(alr_service);
     alr_environment := r.(alr_environment); alr_namespace := r.(alr_namespace);
     alr_labels := r.(alr_labels); alr_annotations := r.(alr_annotations);
     alr_starts_at := r.(alr_starts_at); alr_ends_at := r.(alr_ends_at);
     alr_last_received_at := now; alr_repeat_count := r.(alr_repeat_count) + 1 |}.

(** The assignments to a record that is already there. *)
Definition refreshed (incident_id : option uuid) (a : NormalizedAlert) (now : datetime)
    (r : AlertRecord) : AlertRecord :=
  {| alr_id := r.(alr_id); alr_created_at := r.(alr_created_at);
     alr_incident_id := match incident_id with Some i => Some i | None => r.(alr_incident_id) end;
     alr_source := r.(alr_source); alr_fingerprint := r.(alr_fingerprint);
     alr_payload_digest := a.(al_payload_digest);
     alr_alert_name := r.(alr_alert_name); alr_status := a.(al_status);
     alr_severity := a.(al_severity); alr_service := r.(alr_service);
     alr_environment := r.(alr_environment); alr_namespace := r.(alr_namespace);
     alr_labels := JObj (text_json a.(al_labels)); alr_annotations := JObj a.(al_annotations);
     alr_starts_at := r.(alr_starts_at); alr_ends_at := a.(al_ends_at);
     alr_last_received_at := now; alr_repeat_count := r.(alr_repeat_count) + 1 |}.

Definition new_alert_record (id : uuid) (incident_id : option uuid) (a : NormalizedAlert)
    (received now : datetime) : AlertRecord :=
  {| alr_id := id; alr_created_at := now; alr_incident_id := incident_id;
     alr_source := a.(al_source); alr_fingerprint := a.(al_fingerprint);
     alr_payload_digest := a.(al_payload_digest); alr_alert_name := a.(al_alert_name);
     alr_status := a.(al_status); alr_severity := a.(al_severity);
     alr_service := a.(al_service); alr_environment := a.(al_environment);
     alr_namespace := a.(al_namespace); alr_labels := JObj (text_json a.(al_labels));
     alr_annotations := JObj a.(al_annotations); alr_starts_at := a.(al_starts_at);
     alr_ends_at := a.(al_ends_at); alr_last_received_at := received;
     alr_repeat_count := 1 |}.

Section ingestion.
Context {X : Type} `{!Runtime X}.
Context (settings : Settings) (correlation_id : string).
Abbreviation the_alert := (deref alert_records).
Abbreviation set_alert := (assign upd_alert_records).

(** The branch of a known digest. *)
Definition deduplicate (id : uuid) (a : NormalizedAlert) : M (World X) AlertIngestionResult :=
  let! now := utc_now in
  do! set_alert id (repeat_received now);
  let! r := the_alert id in
  do! record_audit "ALERT_DEDUPLICATED" correlation_id r.(alr_incident_id) "cloudward"
        ACTOR_SERVICE None None None None "SUCCEEDED"
        [("fingerprint", JStr a.(al_fingerprint)); ("repeat_count", JInt r.(alr_repeat_count))];
  ret {| air_alert_id := uuid_str r.(alr_id); air_incident_id := uuid_str <$> r.(alr_incident_id);
         air_duplicate := true; air_created_incident := false;
         air_status := AlertStatus_value r.(alr_status) |}.

(** [create_incident] with the severity of the alert, and the notification of a
    critical one. *)
Definition open_incident (a : NormalizedAlert) : M (World X) uuid :=
  let! id := create_incident correlation_id (alert_incident_type a.(al_alert_name))
               (a.(al_alert_name) +:+ " on " +:+ a.(al_service)) a.(al_environment)
               (alert_summary a) None None "alertmanager" ACTOR_SERVICE in
  do! set_incident id (set_inc_severity a.(al_severity));
  do! when (String.eqb (lower a.(al_severity)) "critical")
        (do! queue_incident_notification settings "critical_incident_detected" id
               (Some [("service", JStr a.(al_service));
                      ("cause", JOptStr (annotation "summary" a))]);
         ret tt);
  ret id.

(** The incident the alert belongs to, and whether it was opened now. *)
Definition incident_for (existing : option AlertRecord) (a : NormalizedAlert)
  : M (World X) (option uuid * bool) :=
  let! incident := match existing ≫= alr_incident_id with
                   | Some id => query (λ db, db.(incidents) !! id)
                   | None => ret None
                   end in
  let over := match incident with Some i => is_terminal i.(inc_state) | None => true end in
  if bool_decide (a.(al_status) = ALERT_FIRING) && over then
    let! id := open_incident a in ret (Some id, true)
  else ret (inc_id <$> incident, false).

(** Insert or refresh the record. *)
Definition write_record (existing : option AlertRecord) (incident_id : option uuid)
    (a : NormalizedAlert) : M (World X) uuid :=
  match existing with
  | None =>
      let! received := utc_now in
      let! id := uuid4 in
      let! now := utc_now in
      let record := new_alert_record id incident_id a received now in
      do! insert_row alert_records upd_alert_records (alert_constraints record) id record;
      do! flush;
      ret id
  | Some r =>
      let! now := utc_now in
      do! set_alert r.(alr_id) (refreshed incident_id a now);
      ret r.(alr_id)
  end.

Definition report_alert (alert_id incident_id : uuid) (a : NormalizedAlert) : M (World X) unit :=
  let event_type := if bool_decide (a.(al_status) = ALERT_FIRING) then "ALERT_RECEIVED"
                    else "ALERT_RESOLVED" in
  let details := [("alert_id", JStr (uuid_str alert_id));
                  ("alert_name", JStr a.(al_alert_name));
                  ("fingerprint", JStr a.(al_fingerprint)); ("service", JStr a.(al_service));
                  ("status", JStr (AlertStatus_value a.(al_status)))] in
  let! incident := the_incident incident_id in
  do! add_incident_event incident_id correlation_id event_type (Some incident.(inc_state))
        (Some incident.(inc_state)) "alertmanager" ACTOR_SERVICE details;
  record_audit event_type correlation_id (Some incident_id) "alertmanager" ACTOR_SERVICE
    None None None None "SUCCEEDED" details.

(** [existing.payload_digest == alert.payload_digest]. *)
Definition same_payload (a : NormalizedAlert) (r : AlertRecord) : option AlertRecord :=
  if String.eqb r.(alr_payload_digest) a.(al_payload_digest) then Some r else None.

Definition ingest_one (a : NormalizedAlert) : M (World X) AlertIngestionResult :=
  let! existing := query (λ db, select_one (known_as a.(al_source) a.(al_fingerprint))
                                  db.(alert_records)) in
  match existing ≫= same_payload a with
  | Some r => deduplicate r.(alr_id) a
  | None =>
      let! '(incident_id, created) := incident_for existing a in
      let! alert_id := write_record existing incident_id a in
      do! match incident_id with
          | Some i => report_alert alert_id i a
          | None => ret tt
          end;
      ret {| air_alert_id := uuid_str alert_id; air_incident_id := uuid_str <$> incident_id;
             air_duplicate := false; air_created_incident := created;
             air_status := AlertStatus_value a.(al_status) |}
  end.

Definition ingest_alerts (alerts : list NormalizedAlert)
  : M (World X) (list AlertIngestionResult) :=
  let! results := map_m ingest_one alerts in
  do! flush;
  ret results.
End ingestion.

(** ** One record per alert *)

(** Records are stored under their identifier, one per source and fingerprint. *)
Definition records_ok (t : gmap uuid AlertRecord) : Prop :=
  ∀ id r, t !! id = Some r → r.(alr_id) = id ∧
    ∀ id' r', t !! id' = Some r' →
      known_as r.(alr_source) r.(alr_fingerprint) r' = true → id' = id.

Lemma known_as_spec s f r :
  known_as s f r = true ↔ r.(alr_source) = s ∧ r.(alr_fingerprint) = f.
Proof. unfold known_as. by rewrite andb_true_iff, !String.eqb_eq. Qed.

Lemma known_as_refl r : known_as r.(alr_source) r.(alr_fingerprint) r = true.
Proof. by apply known_as_spec. Qed.

(** Two records, related by what they are known by, have the same key. *)
Lemma records_ok_alter t id f :
  (∀ r, alert_identity (f r) = alert_identity r) → records_ok t → records_ok (alter f id t).
Proof.
  intros Hf Ht.
  assert (∀ k r, alter f id t !! k = Some r → ∃ r0, t !! k = Some r0 ∧
    alert_identity r = alert_identity r0) as Hback.
  { intros k r. destruct (decide (id = k)) as [<-|Hne].
    - rewrite lookup_alter_eq. intros (r0 & ? & ->)%fmap_Some. eauto.
    - rewrite lookup_alter_ne by done. eauto. }
  intros k r (r0 & Hr0 & E)%Hback. destruct (Ht k r0 Hr0) as [Hid Huniq].
  injection E as Ei Es Ef _ _. split; [congruence|].
  intros k' r' (r1 & Hr1 & E1)%Hback. injection E1 as _ Es1 Ef1 _ _.
  rewrite known_as_spec. intros [? ?]. apply (Huniq k' r1 Hr1), known_as_spec. split; congruence.
Qed.

Lemma records_ok_insert t id r :
  records_ok t → t !! id = None → r.(alr_id) = id → alert_constraints r t = true →
  records_ok (<[id := r]> t).
Proof.
  intros Ht Hn Hid Hc. unfold alert_constraints in Hc. apply negb_true_iff in Hc.
  assert (∀ k r', t !! k = Some r' → known_as r.(alr_source) r.(alr_fingerprint) r' = false)
    as Hnew.
  { intros k r' Hr'. destruct (known_as _ _ r') eqn:E; [|done]. exfalso.
    apply not_true_iff_false in Hc. apply Hc, existsb_elem_of. exists r'. split; [|done].
    apply elem_of_rows. by exists k. }
  intros k r1 [[<- <-]|[Hne Hr1]]%lookup_insert_Some.
  - split; [done|]. intros k' r' [[<- <-]|[_ Hr']]%lookup_insert_Some; [done|].
    by rewrite (Hnew _ _ Hr').
  - destruct (Ht k r1 Hr1) as [Hk Hu]. split; [done|].
    intros k' r' [[<- <-]|[_ Hr']]%lookup_insert_Some; [|by apply Hu].
    rewrite known_as_spec. intros [Es Ef]. specialize (Hnew k r1 Hr1).
    rewrite Es, Ef, known_as_refl in Hnew. done.
Qed.

(** The record of an alert is the one found by its key. *)
Lemma records_ok_select t id r :
  records_ok t → t !! id = Some r →
  select_one (known_as r.(alr_source) r.(alr_fingerprint)) t = Some r.
Proof.
  intros Ht Hr. destruct (select_one _ t) as [r'|] eqn:Hs.
  - apply select_one_Some in Hs as [Hk [id' Hr']].
    assert (id' = id) as -> by by eapply (Ht id r Hr). congruence.
  - rewrite select_one_None in Hs. specialize (Hs id r Hr). by rewrite known_as_refl in Hs.
Qed.

(** ** Runs of an ingestion *)

Section runs.
Context {X : Type} `{!Runtime X}.
Context (settings : Settings) (correlation_id : string).
Abbreviation ingest := (ingest_one (X:=X) settings correlation_id).

Definition alert_tables (d : Database) := (d.(alert_records), d.(incidents)).

(** Incidents are stored under their identifier. *)
Definition incidents_ok (t : gmap uuid Incident) : Prop :=
  ∀ id i, t !! id = Some i → i.(inc_id) = id.

Lemma queue_channel_alerts e m c :
  evolves (same_db alert_tables) (queue_channel (X:=X) settings e m c).
Proof. unfold queue_channel. evolve. Qed.
Hint Resolve queue_channel_alerts : cw_pres.

Lemma queue_notification_alerts e i d :
  evolves (same_db alert_tables) (queue_incident_notification (X:=X) settings e i d).
Proof. unfold queue_incident_notification, queue. evolve. Qed.
Hint Resolve queue_notification_alerts : cw_pres.

Lemma report_alert_alerts aid iid a :
  evolves (same_db alert_tables) (report_alert (X:=X) correlation_id aid iid a).
Proof. unfold report_alert, add_incident_event. evolve. Qed.

(** The incident that is opened is new, and not over. *)
Lemma open_incident_run a (w w' : World X) id :
  open_incident settings correlation_id a w = (Ok id, w') →
  w.(work).(incidents) !! id = None ∧
  w'.(work).(alert_records) = w.(work).(alert_records) ∧
  ∃ i, w'.(work).(incidents) = <[id := i]> w.(work).(incidents) ∧
    i.(inc_id) = id ∧ i.(inc_state) = DETECTED ∧ i.(inc_severity) = a.(al_severity).
Proof.
  intros Hrun. unfold open_incident in Hrun.
  apply bind_ok in Hrun as (id1 & w1 & H1 & Hrun).
  assert (w1.(work).(alert_records) = w.(work).(alert_records)) as Hrec.
  { refine (evolves_run (same_db alert_records) _ _ _ _ _ H1).
    unfold create_incident, add_incident_event. evolve. }
  apply create_incident_run in H1 as (Hn & now & Hinc).
  apply bind_ok in Hrun as (u & w2 & H2 & Hrun). run_inv H2.
  match type of Hrun with bind _ _ ?w2' = _ => assert (same_db alert_tables w2' w') as Hs end.
  { refine (evolves_run _ _ _ _ _ _ Hrun). evolve. }
  apply bind_ok in Hrun as (u' & w3 & _ & Hrun). apply ret_ok in Hrun as [-> _].
  injection Hs as Hr Hi. rewrite Hr, Hi. simpl. rewrite Hinc, alter_insert_eq.
  split_and!; [done|done|]. eexists. by split_and!.
Qed.

(** The incident a record names. *)
Definition named_incident (existing : option AlertRecord) (d : Database) : option Incident :=
  match existing ≫= alr_incident_id with Some id => d.(incidents) !! id | None => None end.

(** The incident of an alert: an open one that is there already, or a new one. *)
Lemma incident_for_run existing a (w w' : World X) o created :
  incident_for settings correlation_id existing a w = (Ok (o, created), w') →
  let old := named_incident existing w.(work) in
  w'.(work).(alert_records) = w.(work).(alert_records) ∧
  created = bool_decide (a.(al_status) = ALERT_FIRING) &&
            match old with Some i => is_terminal i.(inc_state) | None => true end ∧
  if created then
    ∃ id i, o = Some id ∧ w.(work).(incidents) !! id = None ∧ i.(inc_id) = id ∧
      i.(inc_state) = DETECTED ∧ w'.(work).(incidents) = <[id := i]> w.(work).(incidents)
  else o = inc_id <$> old ∧ w'.(work).(incidents) = w.(work).(incidents).
Proof.
  intros Hrun old. unfold incident_for in Hrun.
  apply bind_ok in Hrun as (i & w1 & H1 & Hrun).
  assert (i = old ∧ w1 = w) as [-> ->].
  { unfold old, named_incident. by destruct (existing ≫= alr_incident_id); run_inv H1. }
  destruct (_ && _) eqn:Hc in Hrun; rewrite Hc.
  - apply bind_ok in Hrun as (id & w2 & H2 & Hrun). apply ret_ok in Hrun as [[= -> ->] ->].
    apply open_incident_run in H2 as (Hn & Hr & i & Hi & ? & ? & _).
    split_and!; [done..|]. by exists id, i.
  - apply ret_ok in Hrun as [[= -> ->] ->]. by split_and!.
Qed.

Lemma write_record_run existing o a (w w' : World X) id :
  write_record existing o a w = (Ok id, w') → records_ok w.(work).(alert_records) →
  select_one (known_as a.(al_source) a.(al_fingerprint)) w.(work).(alert_records) = existing →
  w'.(work).(incidents) = w.(work).(incidents) ∧ records_ok w'.(work).(alert_records) ∧
  ∃ r, select_one (known_as a.(al_source) a.(al_fingerprint)) w'.(work).(alert_records) = Some r ∧
    w'.(work).(alert_records) !! id = Some r ∧ r.(alr_payload_digest) = a.(al_payload_digest) ∧
    r.(alr_incident_id) = match o with Some i => Some i | None => existing ≫= alr_incident_id end.
Proof.
  intros Hrun Hok Hsel. destruct existing as [r|]; simpl in Hrun.
  - apply bind_ok in Hrun as (now & w1 & H1 & Hrun). injection H1 as _ <-.
    run_inv Hrun. simpl. apply select_one_Some in Hsel as [Hk [id Hr]].
    destruct (Hok id r Hr) as [<- _]. apply known_as_spec in Hk as [<- <-].
    assert (records_ok (alter (refreshed o a now) (alr_id r) w.(work).(alert_records))) as Hok'
      by by apply records_ok_alter.
    assert (alter (refreshed o a now) (alr_id r) w.(work).(alert_records) !! alr_id r =
            Some (refreshed o a now r)) as Hl by by rewrite lookup_alter_eq, Hr.
    split_and!; [done|done|]. exists (refreshed o a now r). split_and!; [|done|done|by destruct o].
    exact (records_ok_select _ _ _ Hok' Hl).
  - apply bind_ok in Hrun as (received & w1 & H1 & Hrun). injection H1 as _ <-.
    apply bind_ok in Hrun as (id1 & w2 & H2 & Hrun). injection H2 as _ <-.
    apply bind_ok in Hrun as (now & w3 & H3 & Hrun). injection H3 as _ <-.
    run_inv Hrun. simpl. set (r := new_alert_record id1 o a received now) in *.
    assert (records_ok (<[id1 := r]> w.(work).(alert_records))) as Hok'
      by by apply records_ok_insert.
    assert ((<[id1 := r]> w.(work).(alert_records)) !! id1 = Some r) as Hl by apply lookup_insert_eq.
    split_and!; [done|done|]. exists r. split_and!; [|done|done|by destruct o].
    exact (records_ok_select _ _ _ Hok' Hl).
Qed.

(** A known payload: only the time and the count of the record change. *)
Lemma deduplicate_run r a (w : World X) :
  w.(work).(alert_records) !! r.(alr_id) = Some r →
  ∃ now w', deduplicate correlation_id r.(alr_id) a w =
    (Ok {| air_alert_id := uuid_str r.(alr_id);
           air_incident_id := uuid_str <$> r.(alr_incident_id); air_duplicate := true;
           air_created_incident := false; air_status := AlertStatus_value r.(alr_status) |}, w') ∧
    w'.(work).(alert_records) =
      alter (repeat_received now) r.(alr_id) w.(work).(alert_records) ∧
    w'.(work).(incidents) = w.(work).(incidents) ∧
    w'.(work).(incident_events) = w.(work).(incident_events) ∧
    w'.(work).(notifications) = w.(work).(notifications) ∧ w'.(trace) = w.(trace).
Proof.
  intros Hr. unfold deduplicate.
  rewrite (bind_step utc_now _ w (rt_now w.(ext)).1 (set_ext (rt_now w.(ext)).2 w)) by done.
  set (now := (rt_now (ext w)).1). set (w1 := set_ext _ w).
  set (w2 := set_work (upd_alert_records (alter (repeat_received now) (alr_id r))
                         w1.(work)) w1).
  rewrite (bind_step _ _ w1 tt w2) by done.
  rewrite (bind_step _ _ w2 (repeat_received now r) w2)
    by (apply deref_ok; simpl; by rewrite lookup_alter_eq, Hr).
  exists now. unfold record_audit, bind, ret, uuid4, utc_now, external, update_db, modify, flush.
  simpl. eexists. by split_and!.
Qed.

(** A payload that is new for its fingerprint. *)
Lemma ingest_new_run a (w w' : World X) res :
  ingest a w = (Ok res, w') → records_ok w.(work).(alert_records) →
  let old := select_one (known_as a.(al_source) a.(al_fingerprint)) w.(work).(alert_records) in
  old ≫= same_payload a = None →
  let live := match named_incident old w.(work) with
              | Some i => negb (is_terminal i.(inc_state)) | None => false end in
  records_ok w'.(work).(alert_records) ∧
  res.(air_created_incident) = bool_decide (a.(al_status) = ALERT_FIRING) && negb live ∧
  ∃ r, select_one (known_as a.(al_source) a.(al_fingerprint)) w'.(work).(alert_records) = Some r ∧
    r.(alr_payload_digest) = a.(al_payload_digest) ∧
    w'.(work).(alert_records) !! r.(alr_id) = Some r ∧
    res.(air_alert_id) = uuid_str r.(alr_id) ∧ res.(air_duplicate) = false ∧
    if res.(air_created_incident) then
      ∃ id i, r.(alr_incident_id) = Some id ∧ res.(air_incident_id) = Some (uuid_str id) ∧
        w.(work).(incidents) !! id = None ∧ i.(inc_state) = DETECTED ∧
        w'.(work).(incidents) = <[id := i]> w.(work).(incidents)
    else
      w'.(work).(incidents) = w.(work).(incidents) ∧
      res.(air_incident_id) = uuid_str ∘ inc_id <$> named_incident old w.(work) ∧
      r.(alr_incident_id) = match named_incident old w.(work) with
                            | Some i => Some i.(inc_id) | None => old ≫= alr_incident_id end.
Proof.
  intros Hrun Hok old Hnew live. unfold ingest_one in Hrun.
  apply bind_ok in Hrun as (o & w0 & H0 & Hrun). injection H0 as <- <-. fold old in Hrun. rewrite Hnew in Hrun.
  apply bind_ok in Hrun as ([iid created] & w1 & H1 & Hrun).
  apply incident_for_run in H1 as (Hrec & Hcr & Hinc).
  apply bind_ok in Hrun as (aid & w2 & H2 & Hrun).
  rewrite <- Hrec in Hok. apply write_record_run in H2 as (Hi2 & Hok2 & r & Hsel & Hl & Hd & Hri);
    [|done|by rewrite Hrec].
  assert (same_db alert_tables w2 w') as Hs.
  { refine (evolves_run _ _ _ _ _ _ Hrun). destruct iid; evolve. apply report_alert_alerts. }
  injection Hs as Hsr Hsi. rewrite <- Hsr in Hsel, Hl, Hok2. rewrite <- Hsi in Hi2.
  apply bind_ok in Hrun as (u & w3 & _ & Hrun). apply ret_ok in Hrun as [-> _]. simpl.
  assert (aid = r.(alr_id)) as -> by (symmetry; apply (Hok2 aid r Hl)).
  split_and!; [done| |exists r; split_and!; try done].
  - rewrite Hcr. unfold live. by destruct (named_incident old w.(work));
      rewrite ?negb_involutive.
  - rewrite Hi2. destruct created.
    + destruct Hinc as (id & i & -> & Hn & _ & Hst & Hw). exists id, i. by split_and!.
    + destruct Hinc as [-> Hw]. split_and!; [done| |].
      * by destruct (named_incident old _).
      * rewrite Hri. by destruct (named_incident old _).
Qed.
End runs.

(** ** Properties *)

Section properties.
Context {X : Type} `{!Runtime X}.
Context (settings : Settings) (correlation_id : string).
Abbreviation ingest := (ingest_one (X:=X) settings correlation_id).

(** The record an alert has. *)
Definition record_of (a : NormalizedAlert) (d : Database) : option AlertRecord :=
  select_one (known_as a.(al_source) a.(al_fingerprint)) d.(alert_records).

Lemma same_payload_Some a r r' : same_payload a r = Some r' ↔
  r' = r ∧ r.(alr_payload_digest) = a.(al_payload_digest).
Proof.
  unfold same_payload. destruct (String.eqb _ _) eqn:E; boolify; naive_solver.
Qed.

(** What a repeated delivery does: it returns the record and its incident, and
    counts. *)
Lemma ingest_known_run a r (w : World X) :
  records_ok w.(work).(alert_records) → record_of a w.(work) = Some r →
  r.(alr_payload_digest) = a.(al_payload_digest) →
  ∃ now w', ingest a w =
    (Ok {| air_alert_id := uuid_str r.(alr_id);
           air_incident_id := uuid_str <$> r.(alr_incident_id); air_duplicate := true;
           air_created_incident := false; air_status := AlertStatus_value r.(alr_status) |}, w') ∧
    w'.(work).(alert_records) =
      alter (repeat_received now) r.(alr_id) w.(work).(alert_records) ∧
    w'.(work).(incidents) = w.(work).(incidents) ∧
    w'.(work).(incident_events) = w.(work).(incident_events) ∧
    w'.(work).(notifications) = w.(work).(notifications) ∧ w'.(trace) = w.(trace).
Proof.
  intros Hok Hr Hd. unfold ingest_one. fold (record_of a).
  rewrite (bind_step _ _ w (record_of a w.(work)) w) by done. rewrite Hr. simpl.
  assert (same_payload a r = Some r) as -> by by apply same_payload_Some.
  apply deduplicate_run. apply select_one_Some in Hr as [_ [id Hr]].
  by destruct (Hok id r Hr) as [-> _].
Qed.

(** The record of a known payload is found again after it was counted. *)
Lemma record_of_repeat a r now d d' :
  records_ok d.(alert_records) → record_of a d = Some r →
  d'.(alert_records) = alter (repeat_received now) r.(alr_id) d.(alert_records) →
  records_ok d'.(alert_records) ∧ record_of a d' = Some (repeat_received now r).
Proof.
  intros Hok Hr E. unfold record_of in *. rewrite E.
  assert (records_ok (alter (repeat_received now) r.(alr_id) d.(alert_records))) as Hok'
    by by apply records_ok_alter.
  split; [done|]. apply select_one_Some in Hr as [Hk [id Hr]].
  destruct (Hok id r Hr) as [<- _]. apply known_as_spec in Hk as [<- <-].
  apply (records_ok_select _ r.(alr_id) (repeat_received now r)); [done|].
  by rewrite lookup_alter_eq, Hr.
Qed.


(** An incident is opened exactly when it is needed.  An ingestion that returns
    keeps one record per source and fingerprint; it is a duplicate exactly when the
    record holds the same payload digest already; it opens an incident exactly when
    the alert fires, is no duplicate, and its record names no incident that is still
    open, and otherwise leaves the incidents alone.  A firing alert that is no
    duplicate always ends linked to an open incident. *)
Theorem ingest_opens_when_needed a (w w' : World X) res :
  records_ok w.(work).(alert_records) → incidents_ok w.(work).(incidents) →
  ingest a w = (Ok res, w') →
  let old := record_of a w.(work) in
  let live := match named_incident old w.(work) with
              | Some i => negb (is_terminal i.(inc_state)) | None => false end in
  records_ok w'.(work).(alert_records) ∧
  (res.(air_duplicate) = true ↔
     alr_payload_digest <$> old = Some a.(al_payload_digest)) ∧
  (res.(air_created_incident) = true ↔
     a.(al_status) = ALERT_FIRING ∧ res.(air_duplicate) = false ∧ live = false) ∧
  (res.(air_created_incident) = false → w'.(work).(incidents) = w.(work).(incidents)) ∧
  (a.(al_status) = ALERT_FIRING → res.(air_duplicate) = false →
     ∃ r id i, record_of a w'.(work) = Some r ∧ r.(alr_incident_id) = Some id ∧
       w'.(work).(incidents) !! id = Some i ∧ is_terminal i.(inc_state) = false).
Proof.
  intros Hok Hiok Hrun old live. destruct (old ≫= same_payload a) as [r|] eqn:Hold.
  - destruct old as [r0|] eqn:Hr0; [|done]. simpl in Hold.
    apply same_payload_Some in Hold as [-> Hd].
    destruct (ingest_known_run a r0 w Hok Hr0 Hd) as (now & w2 & Hrun' & E & Hi & _).
    rewrite Hrun in Hrun'. injection Hrun' as -> <-. simpl.
    split_and!; [by eapply record_of_repeat|by rewrite Hd|by split; [|intros (_ & ? & _)]|done|done].
  - destruct (ingest_new_run settings correlation_id a w w' res Hrun Hok Hold)
      as (Hok' & Hcr & r & Hsel & _ & _ & _ & Hdup & Hcase).
    change (select_one _ _) with old in Hcr, Hcase. fold live in Hcr. split_and!.
    + done.
    + rewrite Hdup. split; [done|]. destruct old as [r0|]; [|done]. intros [= E].
      assert (same_payload a r0 = Some r0) as E' by by apply same_payload_Some.
      simpl in Hold. congruence.
    + rewrite Hcr, andb_true_iff, bool_decide_eq_true, negb_true_iff. naive_solver.
    + intros E. rewrite E in Hcase. by destruct Hcase as [-> _].
    + intros Hf _. rewrite (bool_decide_eq_true_2 _ Hf) in Hcr. simpl in Hcr.
      exists r. destruct (air_created_incident res).
      * destruct Hcase as (id & i & Hri & _ & _ & Hst & ->). exists id, i.
        rewrite lookup_insert_eq, Hst. by split_and!.
      * destruct Hcase as (-> & _ & Hri). unfold live in Hcr.
        destruct (named_incident old w.(work)) as [i|] eqn:Hn; [|done].
        exists i.(inc_id), i. split_and!; [done|done| |by destruct (is_terminal _)].
        unfold named_incident in Hn. destruct (old ≫= alr_incident_id) as [id|]; [|done].
        by rewrite (Hiok id i Hn).
Qed.
End properties.

(** ** What normalization guarantees *)

Lemma str_take_len n s : str_len (str_take n s) ≤ Z.of_nat n.
Proof.
  unfold str_len, str_take. apply inj_le. revert s.
  induction n as [|n IH]; intros [|c s]; simpl; [lia..|]. apply le_n_S, IH.
Qed.

Lemma str_take_nonempty n s : truthy_str s = true → truthy_str (str_take (S n) s) = true.
Proof. by destruct s. Qed.

Lemma str_or_truthy a b : truthy_str b = true → truthy_str (str_or a b) = true.
Proof. intros Hb. unfold str_or. by destruct (truthy_str a) eqn:Ha. Qed.

Lemma redacted_texts d :
  ∃ d', redact (JObj (text_json d)) = JObj d' ∧
    map fst d' = map fst d ∧
    (∀ k v, (k, v) ∈ d' → ∃ s, v = JStr s ∧ (sensitive_key k = true → s = REDACTED)).
Proof.
  exists (map (λ kv, (kv.1, if sensitive_key kv.1 then JStr REDACTED
                             else JStr (redact_text kv.2))) d).
  unfold text_json. rewrite redact_object, !map_map. split_and!; [done|done|].
  intros k v Hin%list_elem_of_In. apply in_map_iff in Hin as ([k' s] & [= <- <-] & _).
  cbn [fst snd]. destruct (sensitive_key k'); [by exists REDACTED|by eexists].
Qed.

(** A normalized alert fits its row and carries no secret annotation.  Whatever
    Alertmanager sent, the name, severity, service and namespace are no longer than
    their columns, service and namespace are not empty, every annotation is a text
    under the key it came with, and an annotation under a sensitive key is hidden;
    alerts that agree on the six stable labels have the same fingerprint. *)
Theorem normalized_alert_bounded (a b : AlertmanagerAlert) :
  let n := from_alertmanager a in
  str_len n.(al_alert_name) ≤ 128 ∧ str_len n.(al_severity) ≤ 16 ∧
  str_len n.(al_service) ≤ 255 ∧ truthy_str n.(al_service) = true ∧
  (∀ s, n.(al_namespace) = Some s → str_len s ≤ 253 ∧ truthy_str s = true) ∧
  map fst n.(al_annotations) = map fst a.(am_annotations) ∧
  (∀ k v, (k, v) ∈ n.(al_annotations) →
     ∃ s, v = JStr s ∧ (sensitive_key k = true → s = REDACTED)) ∧
  ((∀ k, k ∈ STABLE_LABELS → label k "" a.(am_labels) = label k "" b.(am_labels)) →
   (from_alertmanager b).(al_fingerprint) = n.(al_fingerprint)).
Proof.
  cbv zeta. cbn [from_alertmanager al_alert_name al_severity al_service al_namespace
    al_annotations al_fingerprint].
  destruct (redacted_texts a.(am_annotations)) as (d & Hd & Hk & Hv).
  assert (safe_annotations a.(am_annotations) = d) as ->
    by (unfold safe_annotations; by rewrite Hd).
  split_and!; [apply str_take_len..| | |done|done|].
  - apply (str_take_nonempty 254). by do 2 apply str_or_truthy.
  - intros s. destruct (dict_get "namespace" _) as [n|]; [|done].
    destruct (truthy_str n) eqn:Hn; [|done]. intros [= <-].
    split; [apply str_take_len|by apply (str_take_nonempty 252)].
  - intros Hsame. f_equal. unfold stable_text. f_equal.
    apply map_ext_in. intros k Hin%list_elem_of_In. by rewrite Hsame.
Qed.

(** The title of the incident is not bounded by its column of 255 characters. *)
Fixpoint repeated (n : nat) : string :=
  match n with O => EmptyString | S n => String.String "a" (repeated n) end.

Example title_can_overflow :
  let n := from_alertmanager
    {| am_status := ALERT_FIRING;
       am_labels := [("alertname", repeated 200); ("service", repeated 300)];
       am_annotations := []; am_starts_at := {| instant := 0; iso_text := "" |};
       am_ends_at := None; am_generator_url := ""; am_fingerprint := None |} in
  str_len (n.(al_alert_name) +:+ " on " +:+ n.(al_service)) = 387.
Proof. vm_compute. reflexivity. Qed.

(** ** A concrete alert *)

Definition cpu_alert : NormalizedAlert := from_alertmanager
  {| am_status := ALERT_FIRING;
     am_labels := [("alertname", "HighCPUSaturation"); ("service", "api");
                   ("severity", "critical"); ("environment", "Production")];
     am_annotations := [("summary", "CPU above 90%"); ("api_token", "abc")];
     am_starts_at := {| instant := 1700000000000000; iso_text := "2023-11-14T22:13:20+00:00" |};
     am_ends_at := None; am_generator_url := "http://prometheus"; am_fingerprint := None |}.

Definition bench_ingest (w : World Z) : res AlertIngestionResult * World Z :=
  ingest_one (Runtime0 := bench_runtime) example_settings "corr" cpu_alert w.

Definition ingested : World Z := (bench_ingest (bench_world empty_database)).2.


Lemma ingest_opens_when_needed_witness :
  ∃ res, (bench_ingest (bench_world empty_database)).1 = Ok res ∧
    res.(air_created_incident) = true.
Proof.
  assert (∃ res, (bench_ingest (bench_world empty_database)).1 = Ok res) as [res Hr]
    by (eexists; vm_compute; reflexivity).
  exists res. split; [exact Hr|].
  destruct (ingest_opens_when_needed (Runtime0 := bench_runtime) example_settings "corr"
    cpu_alert (bench_world empty_database) ingested res) as (_ & Hdup & Hcr & _ & _).
  - intros id r Hl. by destruct (lookup_empty_Some (M := gmap uuid) id r Hl).
  - intros id i Hl. by destruct (lookup_empty_Some (M := gmap uuid) id i Hl).
  - exact (run_of _ _ Hr).
  - apply Hcr. split_and!; [reflexivity| |reflexivity].
    destruct (air_duplicate res); [|reflexivity]. by discriminate (proj1 Hdup eq_refl).
Defined.
