(* ===== verification/Telemetry.v ===== *)
(** * Evidence from the telemetry backends

    The log and trace clients of [observability/providers.py] (the metrics client is
    in [Verification]) and the evidence service of [observability/evidence.py]:
    five queries from fixed templates over one bounded window, all asked before
    anything is written.  [asyncio.gather] is modelled by asking them in the order
    in which they are started. *)

From S2P Require Import Prelude PyFloat Json Effects Actions StateMachine Models World.
From S2P Require Import Redaction AuditLog History Kubernetes Opa Verification.

(** ** The log and trace clients *)

(** [str(int(t.timestamp() * 1_000_000_000))] and [int(t.timestamp())]. *)
Definition nanoseconds (t : datetime) : string :=
  str_of_Z (ftrunc (fmul (timestamp t) (float_of_Z 1000000000))).
Definition whole_seconds (t : datetime) : Z := ftrunc (timestamp t).

(** The entries of one stream that are pairs. *)
Definition loki_entry (labels : json) (value : json) : option json :=
  match value with
  | JArr [at_; line] =>
      Some (JObj [("timestamp_ns", at_); ("line", line); ("labels", labels)])
  | _ => None
  end.

Definition loki_samples (streams : list json) : list json :=
  flat_map (λ stream,
    match stream with
    | JObj d =>
        match dict_get "values" d with
        | Some (JArr values) => omap (loki_entry (default (JObj []) (dict_get "stream" d))) values
        | _ => []
        end
    | _ => []
    end) streams.

Definition tempo_query (service namespace : string) : string :=
  "{ resource.service.name = " +:+ quote service +:+
  " && resource.k8s.namespace.name = " +:+ quote namespace +:+ " }".

Definition tempo_traces (payload : dict) : list json :=
  match dict_get "traces" payload with Some (JArr l) => l | _ => [] end.

Section clients.
Context {X : Type} `{!TelemetryServer X}.

(** [LokiLogsProvider.query_range]. *)
Definition loki_query_range (p : HTTPProvider) (q : string) (window : TelemetryWindow)
  : M (World X) TelemetryResult :=
  let! payload := http_get p "/loki/api/v1/query_range"
    [("query", JStr q); ("start", JStr (nanoseconds window.(tw_start)));
     ("end", JStr (nanoseconds window.(tw_end))); ("limit", JInt (p.(max_samples) + 1));
     ("direction", JStr "backward")] in
  do! raise_if (negb (field_is "status" "success" payload))
        (invalid_telemetry "Loki rejected the query");
  let! streams := lift (telemetry_result payload) in
  let '(samples, truncated) := bounded_samples p (loki_samples streams) in
  ret {| tr_provider := "loki"; tr_query := q; tr_window := window;
         tr_samples := samples; tr_truncated := truncated;
         tr_reference := Some (p.(base_url) +:+ "/loki/api/v1/query_range") |}.

(** [TempoTracesProvider.search]. *)
Definition tempo_search (p : HTTPProvider) (service : string) (window : TelemetryWindow)
    (namespace : string) : M (World X) TelemetryResult :=
  let q := tempo_query service namespace in
  let! payload := http_get p "/api/search"
    [("q", JStr q); ("start", JInt (whole_seconds window.(tw_start)));
     ("end", JInt (whole_seconds window.(tw_end))); ("limit", JInt (p.(max_samples) + 1))] in
  let '(samples, truncated) := bounded_samples p (tempo_traces payload) in
  ret {| tr_provider := "tempo"; tr_query := q; tr_window := window;
         tr_samples := samples; tr_truncated := truncated;
         tr_reference := Some (p.(base_url) +:+ "/api/search") |}.
End clients.

(** ** The evidence service *)

Record TelemetryTarget := { tt_service : string; tt_namespace : string }.

Definition label_char (c : ascii) : bool :=
  is_alnum c || bool_decide (c ∈ ["_"; "."; ":"; "/"; "-"]%char).

(** [SAFE_LABEL_VALUE.fullmatch]. *)
Definition safe_label_value (s : string) : bool :=
  (1 <=? str_len s) && (str_len s <=? 253) && str_forallb label_char s.

Definition TelemetryTarget_valid (t : TelemetryTarget) : bool :=
  safe_label_value t.(tt_service) && safe_label_value t.(tt_namespace).

Record IncidentEvidenceService := {
  ies_metrics : HTTPProvider;
  ies_logs : HTTPProvider;
  ies_traces : HTTPProvider;
  before_seconds : Z;
  max_incident_seconds : Z;
}.

(** [name="value"]. *)
Definition matcher (name value : string) : string := name +:+ "=" +:+ dquote +:+ value +:+ dquote.

Definition metric_queries (t : TelemetryTarget) : list (string * string) :=
  let namespace := matcher "namespace" t.(tt_namespace) in
  let service := matcher "service" t.(tt_service) in
  [("http_error_rate",
    "sum(rate(cloudward_demo_http_requests_total{" +:+ namespace +:+ "," +:+ service +:+
    ",status_code=~" +:+ dquote +:+ "5.." +:+ dquote +:+ "}[2m])) " +:+
    "/ clamp_min(sum(rate(cloudward_demo_http_requests_total{" +:+ namespace +:+ "," +:+
    service +:+ "}[2m])), 0.001)");
   ("p95_latency",
    "histogram_quantile(0.95, sum by (le) " +:+
    "(rate(cloudward_demo_http_request_duration_seconds_bucket{" +:+ namespace +:+ "," +:+
    service +:+ "}[2m])))");
   ("restart_count",
    "sum(kube_pod_container_status_restarts_total{" +:+ namespace +:+ "})")].

Definition log_query (t : TelemetryTarget) : string :=
  "{" +:+ matcher "k8s_namespace_name" t.(tt_namespace) +:+ "} | json | " +:+
  matcher "service" t.(tt_service).

Definition evidence_window (s : IncidentEvidenceService) (started collected : datetime)
  : TelemetryWindow :=
  {| tw_start := Z.max (started - seconds s.(before_seconds))
                   (collected - seconds s.(max_incident_seconds));
     tw_end := collected; tw_step_seconds := 15 |}.

(** The first exception in the order of the results, if any. *)
Fixpoint all_or_first {A} (l : list (A + exn)) : res (list A) :=
  match l with
  | [] => Ok []
  | inl a :: l => res_bind (all_or_first l) (λ r, Ok (a :: r))
  | inr e :: _ => Raise e
  end.

Definition sample_payload (r : TelemetryResult) : dict :=
  [("samples", JArr (map JObj r.(tr_samples))); ("truncated", JBool r.(tr_truncated))].

(** [str(len(...))]. *)
Definition count_str {A} (l : list A) : string := str_of_Z (Z.of_nat (length l)).

Section evidence.
Context {X : Type} `{!Runtime X, !TelemetryServer X}.
Context (service : IncidentEvidenceService) (incident_id : uuid) (correlation_id : string).
Context (target : TelemetryTarget) (phase : EvidencePhase).

(** [_snapshot], with the column defaults. *)
Definition telemetry_snapshot (evidence_type : EvidenceType) (window : TelemetryWindow)
    (q summary : string) (reference : option string) (payload : dict)
  : M (World X) EvidenceSnapshot :=
  let! id := uuid4 in
  let! now := utc_now in
  ret {| evd_id := id; evd_incident_id := incident_id; evd_created_at := now;
         evd_correlation_id := correlation_id; evd_evidence_type := evidence_type;
         evd_summary := summary; evd_reference := reference; evd_query := Some q;
         evd_window_start := Some window.(tw_start); evd_window_end := Some window.(tw_end);
         evd_phase := phase; evd_payload := JObj payload;
         evd_collected_by := "cloudward-observability" |}.

Definition metric_snapshot (window : TelemetryWindow) (r : (string * string) * TelemetryResult)
  : M (World X) EvidenceSnapshot :=
  let '((name, q), result) := r in
  telemetry_snapshot METRIC_SUMMARY window q
    ("Bounded " +:+ name +:+ " evidence (" +:+ count_str result.(tr_samples) +:+ " series)")
    result.(tr_reference) (("metric", JStr name) :: sample_payload result).

(** The queries, in the order in which they are started. *)
Definition evidence_queries (window : TelemetryWindow) : list (M (World X) TelemetryResult) :=
  map (λ q, query_range service.(ies_metrics) q.2 window) (metric_queries target) ++
  [loki_query_range service.(ies_logs) (log_query target) window;
   tempo_search service.(ies_traces) target.(tt_service) window target.(tt_namespace)].

(** [collect], without an explicit [now]. *)
Definition collect (incident_started_at : datetime) : M (World X) (list EvidenceSnapshot) :=
  let! collected_at := utc_now in
  let window := evidence_window service incident_started_at collected_at in
  do! raise_if (negb (TelemetryWindow_valid window)) (validation_error "TelemetryWindow");
  let! results := map_m attempt (evidence_queries window) in
  let! telemetry := lift (all_or_first results) in
  match telemetry with
  | [m1; m2; m3; logs; traces] =>
      let! metrics := map_m (metric_snapshot window)
                        (combine (metric_queries target) [m1; m2; m3]) in
      let! log_snapshot := telemetry_snapshot LOG_SUMMARY window (log_query target)
        ("Selected correlated logs (" +:+ count_str logs.(tr_samples) +:+ " samples)")
        logs.(tr_reference) (sample_payload logs) in
      let! trace_snapshot := telemetry_snapshot TRACE_SUMMARY window traces.(tr_query)
        ("Selected trace summaries (" +:+ count_str traces.(tr_samples) +:+ " traces)")
        traces.(tr_reference) (sample_payload traces) in
      let snapshots := metrics ++ [log_snapshot; trace_snapshot] in
      do! update_db (upd_evidence_snapshots (λ l, l ++ snapshots));
      do! flush;
      ret snapshots
  | _ => raise (PyError "ValueError" "zip() argument 2 is shorter than argument 1")
  end.
End evidence.

(** ** Properties *)

Section properties.
Context {X : Type} `{!Runtime X, !TelemetryServer X}.
Context (service : IncidentEvidenceService) (incident_id : uuid) (correlation_id : string).
Context (target : TelemetryTarget) (phase : EvidencePhase).
Abbreviation untouched m := (evolves (same_db (X:=X) (λ d, d)) m).

Lemma http_get_same p path params : untouched (http_get p path params).
Proof. unfold http_get. evolve. Qed.
Hint Resolve http_get_same : cw_pres.

(** The window ends when the evidence is collected, and is never longer than the
    bound of the service. *)
Lemma evidence_window_bounded started now :
  let window := evidence_window service started now in
  window.(tw_end) = now ∧
  now - window.(tw_start) ≤ seconds service.(max_incident_seconds) ∧
  started - seconds service.(before_seconds) ≤ window.(tw_start).
Proof. simpl. lia. Qed.

Lemma length_omap_le {A B} (f : A → option B) l : (length (omap f l) ≤ length l)%nat.
Proof.
  induction l as [|a l IH]; simpl; [done|]. destruct (f a); simpl; [by apply le_n_S|by apply le_S].
Qed.

Lemma bounded_samples_length p l :
  Z.of_nat (length (bounded_samples p l).1) ≤ Z.max 0 p.(max_samples).
Proof.
  unfold bounded_samples. cbn [fst]. etrans; [apply inj_le, length_omap_le|].
  rewrite length_map, length_take. lia.
Qed.

(** No provider returns more samples than it may. *)
Definition most_samples : Z :=
  Z.max 0 (Z.max service.(ies_metrics).(max_samples)
             (Z.max service.(ies_logs).(max_samples) service.(ies_traces).(max_samples))).

Definition bounded_result (r : TelemetryResult) : Prop :=
  Z.of_nat (length r.(tr_samples)) ≤ most_samples.

(** A query reads only, and its answer is bounded. *)
Definition bounded_query (q : M (World X) TelemetryResult) : Prop :=
  untouched q ∧ ∀ w r w', q w = (Ok r, w') → bounded_result r.

Ltac bounded_run :=
  split; [evolve|intros w r w' Hrun; run_inv Hrun;
    match goal with |- context [take _ (take (S (Z.to_nat (max_samples ?p))) (omap as_object ?l))] =>
      pose proof (bounded_samples_length p l) end;
    unfold bounded_result, most_samples, bounded_samples in *; cbn [fst tr_samples] in *; lia].

Lemma queries_bounded window : Forall bounded_query (evidence_queries service target window).
Proof.
  unfold evidence_queries, metric_queries, query_range, loki_query_range, tempo_search. simpl.
  repeat apply Forall_cons_2; [..|apply Forall_nil_2]; bounded_run.
Qed.

Lemma map_attempt_run (l : list (M (World X) TelemetryResult)) (w : World X) :
  Forall bounded_query l →
  ∃ results w', map_m attempt l w = (Ok results, w') ∧ w'.(work) = w.(work) ∧
    length results = length l ∧
    Forall (λ o, match o with inl r => bounded_result r | inr _ => True end) results.
Proof.
  intros Hl. revert w. induction Hl as [|q l [Hq Hb] _ IH]; intros w; [by exists [], w|].
  simpl. rewrite (bind_step _ _ _ _ _ (attempt_run q w)).
  destruct (IH (q w).2) as (results & w' & Hrun & Hw & Hlen & Hall).
  rewrite (bind_step _ _ _ _ _ Hrun). eexists _, w'. split_and!; [done| | |].
  - rewrite Hw. exact (Hq w).
  - simpl. by rewrite Hlen.
  - constructor; [|done]. destruct (q w) as [[r|e] w1] eqn:E; [|done]. by eapply Hb.
Qed.

Lemma all_or_first_ok {A} (P : A → Prop) (l : list (A + exn)) r :
  Forall (λ o, match o with inl a => P a | inr _ => True end) l →
  all_or_first l = Ok r → length r = length l ∧ Forall P r.
Proof.
  intros Hl. revert r. induction Hl as [|[a|e] l Ha _ IH]; intros r; simpl; [by intros [= <-]| |done].
  destruct (all_or_first l) as [r'|]; simpl; [|done]. intros [= <-].
  destruct (IH r' eq_refl). simpl. split; [lia|by constructor].
Qed.

(** What is known of a snapshot. *)
Definition snapshot_ok (window : TelemetryWindow) (s : EvidenceSnapshot) : Prop :=
  s.(evd_incident_id) = incident_id ∧ s.(evd_correlation_id) = correlation_id ∧
  s.(evd_phase) = phase ∧ s.(evd_window_start) = Some window.(tw_start) ∧
  s.(evd_window_end) = Some window.(tw_end) ∧
  ∃ d samples, s.(evd_payload) = JObj d ∧ dict_get "samples" d = Some (JArr samples) ∧
    Z.of_nat (length samples) ≤ most_samples.

Lemma snapshot_run et window q summary ref r d (w : World X) :
  dict_get "samples" d = None → bounded_result r →
  ∃ s w', telemetry_snapshot incident_id correlation_id phase et window q summary ref
            (d ++ sample_payload r) w = (Ok s, w') ∧
    w'.(work) = w.(work) ∧ snapshot_ok window s ∧ s.(evd_evidence_type) = et.
Proof.
  intros Hd Hr. eexists _, _. split_and!; [reflexivity|done| |done].
  split_and!; [done..|]. eexists _, (map JObj r.(tr_samples)). split_and!; [done| |].
  - assert (∀ e, dict_get "samples" (d ++ e) = dict_get "samples" e) as ->; [|done].
    intros e. induction d as [|[k v] d IH]; [done|]. simpl in *.
    destruct (String.eqb k "samples"); [done|by apply IH].
  - by rewrite length_map.
Qed.

Lemma metric_snapshots_run window l (w : World X) :
  Forall (λ r, bounded_result r.2) l →
  ∃ ss w', map_m (metric_snapshot incident_id correlation_id phase window) l w = (Ok ss, w') ∧
    w'.(work) = w.(work) ∧ Forall (snapshot_ok window) ss ∧
    map evd_evidence_type ss = map (λ _, METRIC_SUMMARY) l.
Proof.
  intros Hl. revert w. induction Hl as [|[[name q] r] l Hr _ IH]; intros w; [by exists [], w|].
  simpl. destruct (snapshot_run METRIC_SUMMARY window q
    ("Bounded " +:+ name +:+ " evidence (" +:+ count_str r.(tr_samples) +:+ " series)")
    r.(tr_reference) r [("metric", JStr name)] w) as (s & w1 & H1 & Hw1 & Hs & Het); [done|done|].
  rewrite (bind_step _ _ _ _ _ H1). destruct (IH w1) as (ss & w2 & H2 & Hw2 & Hss & Hets).
  rewrite (bind_step _ _ _ _ _ H2). exists (s :: ss), w2.
  split_and!; [done|congruence|by constructor|simpl; by f_equal].
Qed.

End properties.
