(* ===== verification/GitOps.v ===== *)
(** * The GitOps repository

    [remediation/gitops.py]: the writer that changes the image tag of the demo in
    the fixed local repository, and [gitops/drift.py]: the classification of
    persistent drift.  Git, the temporary worktree and the YAML file are the
    environment; the values file is read as the JSON value it denotes.  The writer's
    lock makes one run at a time, as one run of the model is. *)

From S2P Require Import Prelude PyFloat Json Effects Actions StateMachine Models World.
From S2P Require Import Config History Kubernetes.

Definition LOCAL_REPOSITORY_URL : string :=
  "git://host.docker.internal:19418/cloudward-gitops.git".
Definition LOCAL_BRANCH : string := "main".
Definition LOCAL_VALUES_PATH : string := "cloudward-gitops/environments/local/values.yaml".
Definition KNOWN_GOOD_TAG : string := "local".
Definition CONTROLLED_BAD_TAG : string := "local-bad".

Inductive GitOpsImageOperation : Type :=
| DEPLOY_CONTROLLED_BAD | REVERT_TO_KNOWN_GOOD | APPROVED_ROLLBACK.

Definition GitOpsImageOperation_value (o : GitOpsImageOperation) : string :=
  match o with
  | DEPLOY_CONTROLLED_BAD => "DEPLOY_CONTROLLED_BAD"
  | REVERT_TO_KNOWN_GOOD => "REVERT_TO_KNOWN_GOOD"
  | APPROVED_ROLLBACK => "APPROVED_ROLLBACK"
  end.

(** The repository, the branch and the path keep their defaults. *)
Record GitOpsImageWriteResult := {
  gw_operation : GitOpsImageOperation;
  gw_previous_tag : string;
  gw_target_tag : string;
  gw_previous_revision : string;
  gw_revision : string;
  gw_changed : bool;
}.

(** [model_dump(mode="json")]. *)
Definition GitOpsImageWriteResult_dump (r : GitOpsImageWriteResult) : dict :=
  [("operation", JStr (GitOpsImageOperation_value r.(gw_operation)));
   ("repository", JStr LOCAL_REPOSITORY_URL); ("branch", JStr LOCAL_BRANCH);
   ("values_path", JStr LOCAL_VALUES_PATH); ("previous_tag", JStr r.(gw_previous_tag));
   ("target_tag", JStr r.(gw_target_tag));
   ("previous_revision", JStr r.(gw_previous_revision));
   ("revision", JStr r.(gw_revision)); ("changed", JBool r.(gw_changed))].

(** ** The environment of the writer *)

(** Standard output of a finished [git], or how it did not finish. *)
Inductive git_answer : Type :=
| GitOutput (stdout : string) | GitTimedOut | GitFailed.

(** [yaml.safe_load] of the values file; [ReadFailed] is an exception of the classes
    [_load_values] handles. *)
Inductive read_answer : Type :=
| ReadDocument (document : json) | ReadFailed | ReadRaised (e : exn).

Class GitRepository (X : Type) := {
  git_run : list string → X → git_answer * X;
  temporary_directory : X → string * X;
  values_available : X → bool * X;
  read_values : X → read_answer * X;
  replace_values : json → X → option exn * X;
}.
#[export] Hint Mode GitRepository ! : typeclass_instances.

Definition invalid_values (message : string) : exn :=
  cw_error_status "INVALID_GITOPS_VALUES" message 409.

(** [document["cloudward-demo"]["image"]["tag"]]. *)
Definition image_tag (document : json) : option json :=
  match document with
  | JObj d =>
      match dict_get "cloudward-demo" d with
      | Some (JObj demo) =>
          match dict_get "image" demo with Some (JObj image) => dict_get "tag" image | _ => None end
      | _ => None
      end
  | _ => None
  end.

(** [image["tag"] = tag], in the document that holds it. *)
Definition set_image_tag (tag : string) (document : json) : json :=
  match document with
  | JObj d =>
      match dict_get "cloudward-demo" d with
      | Some (JObj demo) =>
          match dict_get "image" demo with
          | Some (JObj image) =>
              JObj (dict_set "cloudward-demo"
                      (JObj (dict_set "image" (JObj (dict_set "tag" (JStr tag) image)) demo)) d)
          | _ => document
          end
      | _ => document
      end
  | _ => document
  end.

(** [s.split()]. *)
Fixpoint split_blank_aux (s acc : string) : list string :=
  match s with
  | EmptyString => if truthy_str acc then [str_rev acc] else []
  | String.String c s =>
      if is_blank c then
        (if truthy_str acc then [str_rev acc] else []) ++ split_blank_aux s EmptyString
      else split_blank_aux s (String.String c acc)
  end.
Definition split_blank (s : string) : list string := split_blank_aux s EmptyString.

Example split_blank_1 : split_blank " a bc  d" = ["a"; "bc"; "d"].
Proof. reflexivity. Qed.

Section writer.
Context {X : Type} `{!GitRepository X}.
Context (settings : Settings).

Definition require_available : M (World X) unit :=
  do! raise_if (negb settings.(local_gitops_write_enabled))
        (cw_error_status "LOCAL_GITOPS_WRITER_DISABLED"
           "The typed local GitOps writer is disabled" 503);
  do! raise_if (negb (bool_decide (settings.(app_env) ∈ ["development"; "test"])))
        (cw_error_status "LOCAL_GITOPS_WRITER_DENIED"
           "The local GitOps writer is forbidden outside local/test" 403);
  raise_if (negb (String.eqb settings.(local_gitops_repo_url) LOCAL_REPOSITORY_URL))
    (cw_error_status "LOCAL_GITOPS_REPOSITORY_DENIED"
       "Only the fixed ephemeral CloudWard demo repository is allowed" 403).

(** [_git]. *)
Definition git (arguments : list string) : M (World X) string :=
  do! record_call (CallGit arguments);
  let! answer := external (git_run arguments) in
  match answer with
  | GitOutput stdout => ret (str_take 8192 stdout)
  | GitTimedOut => raise (cw_error_status "GITOPS_OPERATION_TIMEOUT"
                            "The bounded local GitOps operation timed out" 504)
  | GitFailed =>
      raise (CloudWardError "GITOPS_OPERATION_FAILED" "The fixed local Git operation failed" 502
               (JObj [("operation", JStr (hd "unknown" arguments))]))
  end.

(** [_load_values], with the tag of the document. *)
Definition load_values : M (World X) (json * string) :=
  let! answer := external read_values in
  match answer with
  | ReadRaised e => raise e
  | ReadFailed => raise (invalid_values
                           "The fixed CloudWard values document has an invalid shape")
  | ReadDocument document =>
      match image_tag document with
      | None => raise (invalid_values
                         "The fixed CloudWard values document has an invalid shape")
      | Some (JStr tag) => ret (document, tag)
      | Some _ => raise (invalid_values "The fixed CloudWard image tag is invalid")
      end
  end.

(** [_atomic_write]. *)
Definition atomic_write (document : json) : M (World X) unit :=
  do! record_call (CallWriteValues document);
  let! failure := external (replace_values document) in
  match failure with Some e => raise e | None => ret tt end.

Definition clone_arguments (worktree : string) : list string :=
  ["clone"; "--depth"; "1"; "--single-branch"; "--branch"; LOCAL_BRANCH; "--";
   settings.(local_gitops_repo_url); worktree].

Definition commit_arguments (message : string) : list string :=
  ["-c"; "user.name=CloudWard Reliability"; "-c"; "user.email=reliability@cloudward.invalid";
   "commit"; "--no-gpg-sign"; "-m"; message].

Definition push_arguments : list string := ["push"; "origin"; "HEAD:refs/heads/" +:+ LOCAL_BRANCH].
Definition revision_arguments : list string := ["rev-parse"; "HEAD"].
Definition remote_arguments : list string := ["ls-remote"; "origin"; "refs/heads/" +:+ LOCAL_BRANCH].

(** From the assignment of the tag on. *)
Definition publish (operation : GitOpsImageOperation) (document : json)
    (previous_tag target_tag previous_revision audit_reference : string)
  : M (World X) GitOpsImageWriteResult :=
  do! atomic_write (set_image_tag target_tag document);
  do! git ["add"; "--"; LOCAL_VALUES_PATH];
  do! git (commit_arguments ("CloudWard " +:+ GitOpsImageOperation_value operation +:+ ": " +:+
                             audit_reference));
  let! output := git revision_arguments in
  let revision := str_strip output in
  do! git push_arguments;
  let! listed := git remote_arguments in
  do! raise_if (negb (bool_decide (head (split_blank listed) = Some revision)))
        (cw_error_status "GITOPS_REVISION_NOT_VISIBLE"
           "The pushed GitOps revision is not visible to Argo CD" 502);
  ret {| gw_operation := operation; gw_previous_tag := previous_tag;
         gw_target_tag := target_tag; gw_previous_revision := previous_revision;
         gw_revision := revision; gw_changed := true |}.

(** [_write]. *)
Definition write_tag (operation : GitOpsImageOperation) (expected_tags : list string)
    (target_tag audit_reference : string) : M (World X) GitOpsImageWriteResult :=
  do! require_available;
  let! temporary := external temporary_directory in
  do! git (clone_arguments (temporary +:+ "/repository"));
  let! output := git revision_arguments in
  let previous_revision := str_strip output in
  let! available := external values_available in
  do! raise_if (negb available)
        (cw_error_status "GITOPS_VALUES_PATH_INVALID"
           "The fixed CloudWard local values file is unavailable" 409);
  let! '(document, previous_tag) := load_values in
  if negb (bool_decide (previous_tag ∈ expected_tags)) then
    raise (CloudWardError "STALE_GITOPS_TARGET"
             "The current image tag is outside the recorded R1 transition" 409
             (JObj [("expected_tags", JArr (map JStr (isort str_leb expected_tags)));
                    ("actual_tag", JStr previous_tag)]))
  else if String.eqb previous_tag target_tag then
    ret {| gw_operation := operation; gw_previous_tag := previous_tag;
           gw_target_tag := target_tag; gw_previous_revision := previous_revision;
           gw_revision := previous_revision; gw_changed := false |}
  else publish operation document previous_tag target_tag previous_revision audit_reference.

Definition deploy_controlled_bad (execution_id : uuid) : M (World X) GitOpsImageWriteResult :=
  write_tag DEPLOY_CONTROLLED_BAD [KNOWN_GOOD_TAG; CONTROLLED_BAD_TAG] CONTROLLED_BAD_TAG
    ("scenario-" +:+ uuid_str execution_id).

Definition revert_to_known_good (incident_id : uuid) : M (World X) GitOpsImageWriteResult :=
  write_tag REVERT_TO_KNOWN_GOOD [CONTROLLED_BAD_TAG; KNOWN_GOOD_TAG] KNOWN_GOOD_TAG
    ("incident-" +:+ uuid_str incident_id).

Definition ensure_known_good (execution_id : uuid) : M (World X) GitOpsImageWriteResult :=
  write_tag REVERT_TO_KNOWN_GOOD [CONTROLLED_BAD_TAG; KNOWN_GOOD_TAG] KNOWN_GOOD_TAG
    ("cleanup-" +:+ uuid_str execution_id).

Definition approved_rollback (incident_id : uuid) (recorded_previous_tag : string)
    (approved : bool) : M (World X) GitOpsImageWriteResult :=
  do! raise_if (negb approved || negb (String.eqb recorded_previous_tag CONTROLLED_BAD_TAG))
        (cw_error_status "GITOPS_ROLLBACK_APPROVAL_REQUIRED"
           "A persistent image rollback requires explicit approval and the recorded prior tag"
           403);
  write_tag APPROVED_ROLLBACK [KNOWN_GOOD_TAG] CONTROLLED_BAD_TAG
    ("approved-rollback-" +:+ uuid_str incident_id).
End writer.

(** ** Drift *)

Inductive DriftClassification : Type :=
| RECONCILED | PERSISTENT_GITOPS_DRIFT | SUPPLY_CHAIN_VIOLATION.
#[export] Instance DriftClassification_eq_dec : EqDecision DriftClassification.
Proof. solve_decision. Defined.

Record GitOpsDriftSnapshot := {
  drift_environment : string;
  drift_application : ArgoApplicationState;
  drift_deployment : string;
  deployed_images : list string;
  all_images_digest_pinned : bool;
  classification : DriftClassification;
  persistent_drift : bool;
}.

Definition digest_pinned (images : list string) : bool :=
  negb (bool_decide (images = [])) && forallb (contains "@sha256:") images.

Definition classify_drift (immutable drifted : bool) : DriftClassification :=
  if negb immutable then SUPPLY_CHAIN_VIOLATION
  else if drifted then PERSISTENT_GITOPS_DRIFT
  else RECONCILED.

Section drift.
Context {X : Type} `{!KubeApi X} (exe : Executor).

(** The snapshot keeps the whole observed application. *)
Definition observe_drift (environment application_name namespace deployment_name : string)
  : M (World X) GitOpsDriftSnapshot :=
  let! application := get_argocd_application exe application_name in
  let! deployment := get_deployment namespace deployment_name in
  let images := deployment.(container_images) in
  let immutable := digest_pinned images in
  ret {| drift_environment := environment; drift_application := application;
         drift_deployment := deployment_name; deployed_images := images;
         all_images_digest_pinned := immutable;
         classification := classify_drift immutable (has_persistent_drift application);
         persistent_drift := has_persistent_drift application || negb immutable |}.
End drift.

(** ** What the writer may do *)

Lemma image_tag_set tag document t :
  image_tag document = Some t → image_tag (set_image_tag tag document) = Some (JStr tag).
Proof.
  unfold image_tag, set_image_tag. destruct document as [| | | | | |d]; try done.
  destruct (dict_get "cloudward-demo" d) as [[| | | | | |demo]|]; try done.
  destruct (dict_get "image" demo) as [[| | | | | |image]|]; try done.
  intros _. by rewrite !dict_get_set_eq.
Qed.

Section confinement.
Context {X : Type} `{!GitRepository X}.
Context (settings : Settings) (expected : list string) (target : string).

(** The writer is enabled, outside staging and production, on the fixed source. *)
Definition writable : Prop :=
  settings.(local_gitops_write_enabled) = true ∧
  settings.(app_env) ∈ ["development"; "test"] ∧
  settings.(local_gitops_repo_url) = LOCAL_REPOSITORY_URL.

(** A document whose tag is expected and differs from the target, with only the tag
    replaced. *)
Definition retagged (document : json) : Prop :=
  ∃ old tag, image_tag old = Some (JStr tag) ∧ tag ∈ expected ∧ tag ≠ target ∧
    document = set_image_tag target old.

(** The calls of the writer: the only push is of the fixed branch. *)
Definition writer_call (c : call) : Prop :=
  match c with
  | CallGit arguments =>
      writable ∧ (hd "" arguments = "push" → arguments = push_arguments)
  | CallWriteValues document => writable ∧ retagged document
  | _ => False
  end.

(** Nothing but the trace changes, by calls of the writer. *)
Definition writes : relation (World X) := λ w w',
  w'.(work) = w.(work) ∧ w'.(committed) = w.(committed) ∧ w'.(metrics) = w.(metrics) ∧
  log_extends writer_call w.(trace) w'.(trace).

#[global] Instance writes_evolution : Evolution writes.
Proof.
  split; [intros w; by split_and!|].
  intros w1 w2 w3 (? & ? & ? & ?) (? & ? & ? & ?). split_and!; [congruence..|by etrans].
Qed.

Lemma external_writes {A} (f : X → A * X) : evolves writes (external f).
Proof. intros w. by split_and!. Qed.

Lemma record_call_writes c : writer_call c → evolves writes (record_call c).
Proof. intros Hc w. split_and!; [done..|]. by apply log_extends_snoc. Qed.

Lemma git_writes arguments :
  writable → (hd "" arguments = "push" → arguments = push_arguments) →
  evolves writes (git (X:=X) arguments).
Proof.
  intros Hw Hp. unfold git. repeat evolve_step; [by apply record_call_writes|].
  apply external_writes.
Qed.

Lemma load_values_writes : evolves writes (load_values (X:=X)).
Proof. unfold load_values. repeat evolve_step. apply external_writes. Qed.

Lemma require_available_run (w w' : World X) r :
  require_available settings w = (r, w') → w' = w ∧ (r = Ok tt → writable).
Proof.
  unfold require_available, bind, raise_if.
  destruct (negb (local_gitops_write_enabled settings)) eqn:H1; simpl; [by intros [= <- <-]|].
  destruct (negb (bool_decide _)) eqn:H2; simpl; [by intros [= <- <-]|].
  destruct (negb (String.eqb _ _)) eqn:H3; intros [= <- <-]; [done|]. boolify.
  by split_and!.
Qed.

Lemma load_values_run (w w' : World X) document tag :
  load_values w = (Ok (document, tag), w') → image_tag document = Some (JStr tag).
Proof.
  unfold load_values. intros (a & w1 & _ & Hrun)%bind_ok. destruct a as [d| |e]; [|done|done].
  destruct (image_tag d) as [[]|] eqn:Ht; try done. by apply ret_ok in Hrun as [[= -> ->] _].
Qed.

Lemma publish_writes op document previous revision reference :
  writable → retagged (set_image_tag target document) →
  evolves writes (publish (X:=X) op document previous target revision reference).
Proof.
  intros Hw Hd. unfold publish, atomic_write.
  repeat first [evolve_step | apply git_writes; [done|done] | apply external_writes
               | apply record_call_writes; done].
Qed.
End confinement.

Section writer_properties.
Context {X : Type} `{!GitRepository X}.
Context (settings : Settings) (expected : list string) (target : string).

Lemma git_ok arguments s (w w' : World X) :
  git arguments w = (Ok s, w') → w'.(trace) = w.(trace) ++ [CallGit arguments].
Proof.
  unfold git. intros Hrun. apply bind_ok in Hrun as (u & w1 & H1 & Hrun). injection H1 as _ <-.
  apply bind_ok in Hrun as (a & w2 & H2 & Hrun). injection H2 as _ <-.
  by destruct a; [apply ret_ok in Hrun as [_ ->]|..].
Qed.

Lemma atomic_write_ok document u (w w' : World X) :
  atomic_write document w = (Ok u, w') → w'.(trace) = w.(trace) ++ [CallWriteValues document].
Proof.
  unfold atomic_write. intros Hrun.
  apply bind_ok in Hrun as (v & w1 & H1 & Hrun). injection H1 as _ <-.
  apply bind_ok in Hrun as (a & w2 & H2 & Hrun). injection H2 as _ <-.
  by destruct a; [|apply ret_ok in Hrun as [_ ->]].
Qed.

Lemma load_values_trace r (w w' : World X) : load_values w = (Ok r, w') → w'.(trace) = w.(trace).
Proof.
  unfold load_values. intros Hrun. apply bind_ok in Hrun as (a & w1 & H1 & Hrun).
  injection H1 as _ <-. destruct a as [d| |e]; [|done|done].
  by destruct (image_tag d) as [[]|]; try done; apply ret_ok in Hrun as [_ ->].
Qed.

(** The calls of a run that publishes. *)
Definition publish_calls (document : json) (message : string) : list call :=
  [CallWriteValues (set_image_tag target document); CallGit ["add"; "--"; LOCAL_VALUES_PATH];
   CallGit (commit_arguments message); CallGit revision_arguments; CallGit push_arguments;
   CallGit remote_arguments].

Lemma publish_ok op document previous revision reference r (w w' : World X) :
  publish op document previous target revision reference w = (Ok r, w') →
  (∃ message, w'.(trace) = w.(trace) ++ publish_calls document message) ∧
  r.(gw_operation) = op ∧ r.(gw_previous_tag) = previous ∧ r.(gw_target_tag) = target ∧
  r.(gw_changed) = true.
Proof.
  unfold publish. intros Hrun.
  apply bind_ok in Hrun as (u1 & w1 & H1%atomic_write_ok & Hrun).
  apply bind_ok in Hrun as (s2 & w2 & H2%git_ok & Hrun).
  apply bind_ok in Hrun as (s3 & w3 & H3%git_ok & Hrun).
  apply bind_ok in Hrun as (s4 & w4 & H4%git_ok & Hrun).
  apply bind_ok in Hrun as (s5 & w5 & H5%git_ok & Hrun).
  apply bind_ok in Hrun as (s6 & w6 & H6%git_ok & Hrun).
  apply bind_ok in Hrun as (u7 & w7 & H7 & Hrun). apply raise_if_ok in H7 as [_ ->].
  apply ret_ok in Hrun as [-> ->]. split_and!; [|done..].
  eexists. by rewrite H6, H5, H4, H3, H2, H1, <- !app_assoc.
Qed.

Lemma write_tag_writes op reference :
  evolves (writes settings expected target)
    (write_tag (X:=X) settings op expected target reference).
Proof.
  unfold write_tag. apply evolves_bind_post; [apply _| |].
  { intros w. destruct (require_available settings w) as [r w'] eqn:Hr.
    apply require_available_run in Hr as [-> _]. apply evolves_refl, _. }
  intros w0 [] w1 [-> Hw]%require_available_run. specialize (Hw eq_refl).
  do 3 (apply evolves_bind; [apply _| |intros ?];
        [first [apply external_writes|apply git_writes; [done|discriminate]]|]).
  do 2 (apply evolves_bind; [apply _|first [apply external_writes|evolve_step]|intros ?]).
  apply evolves_bind_post; [apply _|apply load_values_writes|].
  intros w1 [document tag] w2 Hl%load_values_run.
  destruct (bool_decide (tag ∈ expected)) eqn:Hin; cbn [negb]; [|evolve_step].
  destruct (String.eqb tag target) eqn:Ht; [evolve_step|]. boolify.
  apply publish_writes; [done|]. by exists document, tag.
Qed.

End writer_properties.

(** ** A concrete write *)

(** A repository at the bad tag. *)
Definition bad_values : json :=
  JObj [("cloudward-demo", JObj [("image", JObj [("tag", JStr CONTROLLED_BAD_TAG)])])].
#[export] Instance bench_repository : GitRepository Z := {|
  git_run _ x := (GitOutput "abc", x);
  temporary_directory x := ("/tmp/cloudward-gitops-1", x);
  values_available x := (true, x);
  read_values x := (ReadDocument bad_values, x);
  replace_values _ x := (None, x);
|}.

Definition local_settings : Settings := settings_in "development" true.

(** A write that returns: the bad tag is replaced and published. *)
Definition bench_revert : res GitOpsImageWriteResult * World Z :=
  revert_to_known_good local_settings 1%N (bench_world empty_database).

