(* ===== verification/Reliability.v ===== *)
(** * The reliability workflow

    [reliability/workflow.py]: what the worker does with an incident opened by an
    alert: evidence, runbook, risk, policy, and the one action the runbook names.
    The caller commits; an exception reaches it with the session as it is. *)

From S2P Require Import Prelude PyFloat Json JsonParse Effects Rbac Actions Risk StateMachine.
From S2P Require Import Models World Redaction Config AuditLog History Memory Notifications.
From S2P Require Import ApprovalRequests Incidents Kubernetes Opa Approvals Execution.
From S2P Require Import Verification Mutations Runbooks Pipeline Alerts Telemetry GitOps.

Definition ALERT_CONDITIONS : list (string * list string) :=
  [("HighHTTPErrorRate", ["high_http_error_rate"; "recent_deployment"]);
   ("HighCPUSaturation", ["cpu_saturated"; "latency_degraded"]);
   ("ContainerOOMKilled", ["container_oomkilled"; "restart_count_increased"]);
   ("WorkloadUnavailable", ["workload_disrupted"; "controller_reconciled"])].

Definition alert_conditions (name : string) : list string :=
  default ["prometheus_alert"] (dict_get name ALERT_CONDITIONS).

(** [sorted(conditions)] as JSON. *)
Definition sorted_conditions (conditions : list string) : json :=
  JArr (map JStr (isort str_leb conditions)).

Record ReliabilityProcessingResult := {
  rp_incident_id : uuid;
  rp_state : IncidentState;
  rp_runbook_id : option string;
  rp_action : option ActionType;
  rp_risk_score : option Z;
  rp_detail : string;
}.

Definition STAGING : string := "cloudward-staging".
Definition DEMO_SELECTOR : string := "cloudward.io/demo-target=true".

(** What the stages share about the target. *)
Record Target := {
  tg_namespace : string;
  tg_deployment_name : string;
  tg_pods : list PodState;
  tg_deployment : DeploymentState;
}.
Definition pod_count (t : Target) : Z := Z.of_nat (length t.(tg_pods)).

(** [parameters]. *)
Definition action_parameters (t : Target) (action : ActionType) : dict :=
  [("namespace", JStr t.(tg_namespace)); ("deployment", JStr t.(tg_deployment_name));
   ("label_selector", JStr DEMO_SELECTOR); ("target_count", JInt (pod_count t));
   ("observed_replicas", JInt t.(tg_deployment).(desired_replicas))] ++
  if bool_decide (action = REVERT_IMAGE) then
    [("expected_current_tag", JStr CONTROLLED_BAD_TAG); ("target_tag", JStr KNOWN_GOOD_TAG);
     ("values_path", JStr "cloudward-gitops/environments/local/values.yaml");
     ("branch", JStr "main")]
  else [].

Definition reliability_risk_context (environment : Environment) (action : ActionType)
    (t : Target) : RiskContext :=
  {| ctx_environment := Environment_value environment; ctx_action := action;
     ctx_target_count := pod_count t;
     ctx_reversible := Some (ACTION_REGISTRY action).(reversible);
     ctx_confidence := confidence_098; ctx_sensitivity := SENS_NONE;
     ctx_destructive_override := false |}.

Definition reliability_policy_input (environment : Environment) (action : ActionType)
    (risk : RiskResult) (t : Target) (pod : PodState) : PolicyInput :=
  {| pi_environment := Environment_value environment; pi_action := action;
     pi_risk_score := risk.(score); pi_risk_factors := risk.(factors);
     pi_confidence := confidence_098; pi_blast_radius := pod_count t;
     pi_reversible := (ACTION_REGISTRY action).(reversible);
     pi_service_criticality := "low";
     pi_target := {| ti_namespace := t.(tg_namespace); ti_pod_name := pod.(ps_name);
                     ti_labels := pod.(labels);
                     ti_controller_managed := pod.(controller_managed);
                     ti_target_pods := pod_count t |};
     pi_approval := no_approval |}.

Section workflow.
Context {X : Type}.
Context `{!Runtime X, !KubeApi X, !Pydantic, !PolicyServer X, !TelemetryServer X}.
Context `{!GitRepository X}.
Context (settings : Settings) (exe : Executor) (evidence : IncidentEvidenceService).
Context (loader : RunbookLoader) (opa : OPAClient).
Context (incident_id : uuid) (alert : NormalizedAlert).

Definition WORKER : string := "reliability-worker".

Definition advance (state : IncidentState) (details : option dict) : M (World X) unit :=
  change_incident_state settings incident_id state WORKER ACTOR_SERVICE details false.

(** [_result]. *)
Definition processing_result (action : option ActionType) (detail : string)
  : M (World X) ReliabilityProcessingResult :=
  let! incident := the_incident incident_id in
  ret {| rp_incident_id := incident.(inc_id); rp_state := incident.(inc_state);
         rp_runbook_id := incident.(inc_runbook_id); rp_action := action;
         rp_risk_score := incident.(inc_risk_score); rp_detail := detail |}.

(** An audit event of the worker, and one with the default actor. *)
Definition audit_worker (event result : string) (metadata : dict) : M (World X) unit :=
  let! incident := the_incident incident_id in
  record_audit event incident.(inc_correlation_id) (Some incident.(inc_id)) WORKER
    ACTOR_SERVICE None None None None result metadata.
Definition audit_action (event : string) (action : ActionType) (risk : option Z)
    (decision : option string) (metadata : dict) : M (World X) unit :=
  let! incident := the_incident incident_id in
  record_audit event incident.(inc_correlation_id) (Some incident.(inc_id)) "cloudward"
    ACTOR_SYSTEM None (Some (ActionType_value action)) risk decision "SUCCEEDED" metadata.

Definition kubernetes_snapshot (type : EvidenceType) (summary : string) (payload : dict)
  : M (World X) unit :=
  let! incident := the_incident incident_id in
  let! id := uuid4 in
  let! now := utc_now in
  update_db (upd_evidence_snapshots (λ l, l ++
    [{| evd_id := id; evd_incident_id := incident.(inc_id); evd_created_at := now;
        evd_correlation_id := incident.(inc_correlation_id); evd_evidence_type := type;
        evd_summary := summary; evd_reference := None; evd_query := None;
        evd_window_start := None; evd_window_end := None; evd_phase := PHASE_INCIDENT;
        evd_payload := JObj payload; evd_collected_by := WORKER |}])).

(** Read the target. *)
Definition observe_target : M (World X) Target :=
  let namespace := opt_str_or alert.(al_namespace) STAGING in
  do! raise_if (negb (String.eqb namespace STAGING))
        (cw_error_status "RELIABILITY_TARGET_DENIED" "Part 2 remediation is staging-only" 403);
  let deployment_name := label "deployment" "cloudward-demo" alert.(al_labels) in
  let! pods := get_pods namespace DEMO_SELECTOR in
  do! raise_if (bool_decide (pods = []))
        (cw_error_status "RELIABILITY_TARGET_UNAVAILABLE" "No demo target pods were found" 409);
  let! deployment := get_deployment namespace deployment_name in
  let! events := get_events namespace deployment_name in
  do! kubernetes_snapshot KUBERNETES_STATE "Bounded deployment and pod state"
        [("deployment", JObj (DeploymentState_dict deployment));
         ("pods", JArr (map (λ p, JObj (PodState_dict p)) pods))];
  do! kubernetes_snapshot KUBERNETES_EVENT "Selected Kubernetes events"
        [("events", JArr (map JObj (last_items 50 events)))];
  ret {| tg_namespace := namespace; tg_deployment_name := deployment_name; tg_pods := pods;
         tg_deployment := deployment |}.

(** Observe the target and the telemetry of the incident. *)
Definition collect_evidence : M (World X) Target :=
  let! t := observe_target in
  let! incident := the_incident incident_id in
  let telemetry := {| tt_service := alert.(al_service); tt_namespace := t.(tg_namespace) |} in
  do! raise_if (negb (TelemetryTarget_valid telemetry)) (validation_error "TelemetryTarget");
  do! collect evidence incident.(inc_id) incident.(inc_correlation_id) telemetry PHASE_INCIDENT
        alert.(al_starts_at);
  do! audit_worker "EVIDENCE_COLLECTED" "SUCCEEDED"
        [("bounded", JBool true);
         ("providers", JArr (map JStr ["kubernetes"; "prometheus"; "loki"; "tempo"]))];
  ret t.

(** No runbook matches: recorded, and nothing is proposed. *)
Definition no_runbook (conditions : list string) : M (World X) ReliabilityProcessingResult :=
  do! audit_worker "DETERMINISTIC_RUNBOOK_UNAVAILABLE" "UNAVAILABLE"
        [("alert_name", JStr alert.(al_alert_name));
         ("conditions", sorted_conditions conditions);
         ("supplemental_diagnosis_candidate", JBool true)];
  let! incident := the_incident incident_id in
  do! append_stream_event "incident.deterministic_diagnosis_unavailable" (Some incident.(inc_id))
        [("alert_name", JStr alert.(al_alert_name));
         ("state", JStr (IncidentState_value incident.(inc_state)));
         ("supplemental_diagnosis_candidate", JBool true)];
  ret {| rp_incident_id := incident.(inc_id); rp_state := incident.(inc_state);
         rp_runbook_id := None; rp_action := None; rp_risk_score := None;
         rp_detail := "no deterministic runbook matched; no action was proposed" |}.

(** Record the runbook that was selected. *)
Definition select_runbook (runbook : RunbookDocument) (conditions : list string)
  : M (World X) unit :=
  do! set_incident incident_id (λ i, set_inc_runbook_version (Some runbook.(rb_version))
                                       (set_inc_runbook_id (Some runbook.(rb_id)) i));
  let! id := uuid4 in
  let! now := utc_now in
  do! insert_row runbook_executions upd_runbook_executions (λ _, true) id
        {| rbx_id := id; rbx_created_at := now; rbx_incident_id := incident_id;
           rbx_runbook_id := runbook.(rb_id); rbx_runbook_version := runbook.(rb_version);
           rbx_status := RUNNING;
           rbx_context := JObj [("alert_name", JStr alert.(al_alert_name));
                                ("conditions", sorted_conditions conditions)] |};
  do! audit_action "RUNBOOK_SELECTED" runbook.(rb_action) None None
        [("runbook_id", JStr runbook.(rb_id)); ("version", JInt runbook.(rb_version))];
  advance ACTION_PROPOSED None.

(** Assess and store the proposal; its identifier and the risk. *)
Definition propose_action (action : ActionType) (t : Target) : M (World X) (uuid * RiskResult) :=
  let! incident := the_incident incident_id in
  let! risk := lift (calculate_risk
                       (reliability_risk_context incident.(inc_environment) action t)) in
  do! set_incident incident_id (set_inc_risk_score (Some risk.(score)));
  let! id := uuid4 in
  let! now := utc_now in
  do! insert_row action_proposals upd_action_proposals
        (λ _, (0 <=? risk.(score)) && (risk.(score) <=? 100)) id
        {| prop_id := id; prop_created_at := now; prop_incident_id := incident_id;
           prop_correlation_id := incident.(inc_correlation_id); prop_action_type := action;
           prop_parameters := action_parameters t action; prop_status := PENDING;
           prop_risk_score := risk.(score); prop_risk_calculation := risk_dict risk;
           prop_proposed_by := "cloudward" |};
  do! flush;
  do! advance POLICY_EVALUATION None;
  ret (id, risk).

(** Ask the policy and store the decision. *)
Definition ask_policy (action : ActionType) (t : Target) (proposal : uuid) (risk : RiskResult)
  : M (World X) PolicyResult :=
  let! incident := the_incident incident_id in
  let! pod := lift (match t.(tg_pods) with
                    | pod :: _ => Ok pod
                    | [] => Raise (PyError "IndexError" "list index out of range")
                    end) in
  let! policy_input := lift (validated "PolicyInput" PolicyInput_valid
    (reliability_policy_input incident.(inc_environment) action risk t pod)) in
  let! policy := evaluate opa policy_input in
  let! id := uuid4 in
  let! now := utc_now in
  do! update_db (upd_policy_decisions (λ l, l ++
    [{| pol_id := id; pol_created_at := now; pol_incident_id := incident_id;
        pol_proposal_id := proposal; pol_correlation_id := incident.(inc_correlation_id);
        pol_policy_path := settings.(opa_decision_path); pol_allowed := policy.(pr_allowed);
        pol_requires_approval := policy.(pr_requires_approval);
        pol_reason := policy.(pr_reason); pol_input_digest := policy_digest policy_input;
        pol_result := PolicyResult_dump policy |}]));
  do! audit_action "OPA_EVALUATED" action (Some risk.(score))
        (Some (if policy.(pr_allowed) then "ALLOW" else "DENY"))
        [("reason", JStr policy.(pr_reason));
         ("requires_approval", JBool policy.(pr_requires_approval))];
  ret policy.

(** The policy does not allow the action. *)
Definition deny (action : ActionType) (proposal : uuid) (policy : PolicyResult)
  : M (World X) ReliabilityProcessingResult :=
  let waits := policy.(pr_requires_approval) in
  do! advance (if waits then AWAITING_APPROVAL else BLOCKED)
        (Some [("policy_reason", JStr policy.(pr_reason))]);
  do! set_proposal proposal (set_prop_status (if waits then PENDING else REJECTED));
  processing_result (Some action) policy.(pr_reason).

(** The one call of a claimed execution, and its end. *)
Definition run_action (action : ActionType) (t : Target) (execution : uuid) : M (World X) unit :=
  let finish := finish_action_execution incident_id execution in
  match action with
  | SCALE_STAGING_DEPLOYMENT =>
      let desired := Z.min (t.(tg_deployment).(desired_replicas) + 1)
                       settings.(max_temporary_replicas) in
      let! result := scale_staging_deployment exe t.(tg_namespace) t.(tg_deployment_name) desired
                       settings.(max_temporary_replicas)
                       (Some t.(tg_deployment).(desired_replicas)) in
      finish true (DeploymentScaleResult_dict result) None
  | DELETE_UNHEALTHY_POD =>
      match first_such (λ p, negb p.(ready)) t.(tg_pods) with
      | None => finish false [("recommendation", JStr "review container memory limit and request")]
                  (Some "NO_UNHEALTHY_POD_REMAINED")
      | Some unhealthy =>
          let! result := delete_pod exe t.(tg_namespace) unhealthy.(ps_name) in
          finish true (PodDeletionResult_dict result) None
      end
  | REVERT_IMAGE =>
      let! result := revert_to_known_good settings incident_id in
      finish true (GitOpsImageWriteResult_dump result) None
  | _ => ret tt
  end.

Definition execute_action (runbook : RunbookDocument) (t : Target) (proposal : uuid)
  : M (World X) unit :=
  let action := runbook.(rb_action) in
  if bool_decide (action = NO_ACTION) then set_proposal proposal (set_prop_status SUCCEEDED)
  else
    let! claim := claim_action_execution incident_id proposal runbook.(rb_id)
                    (action_parameters t action) 1 in
    do! when claim.(claimed) (run_action action t claim.(claim_execution));
    let! e := the_execution claim.(claim_execution) in
    set_proposal proposal (set_prop_status e.(exec_status)).

(** What follows the policy. *)
Definition carry_out (runbook : RunbookDocument) (t : Target) (proposal : uuid)
    (policy : PolicyResult) : M (World X) ReliabilityProcessingResult :=
  let action := runbook.(rb_action) in
  if negb policy.(pr_allowed) then deny action proposal policy
  else if bool_decide (action = REVERT_IMAGE) && negb settings.(local_gitops_write_enabled) then
    do! set_proposal proposal (set_prop_status PENDING);
    do! advance AWAITING_APPROVAL
          (Some [("reason", JStr "typed local GitOps image writer is disabled")]);
    processing_result (Some action) "GitOps revert awaits the enabled local writer"
  else
    do! set_proposal proposal (set_prop_status RUNNING);
    do! advance EXECUTING None;
    do! execute_action runbook t proposal;
    do! advance VERIFYING (Some [("verification", JStr "multi_signal_pending")]);
    processing_result (Some action) "action processed; multi-signal verification queued".

(** Match a runbook and follow it. *)
Definition follow_runbook (t : Target) : M (World X) ReliabilityProcessingResult :=
  do! advance CLASSIFYING None;
  let conditions := alert_conditions alert.(al_alert_name) in
  let! incident := the_incident incident_id in
  match match_runbook loader incident.(inc_incident_type) conditions
          (Environment_value incident.(inc_environment)) with
  | Raise e => if String.eqb (error_code e) "RUNBOOK_NOT_FOUND" then no_runbook conditions
               else raise e
  | Ok runbook =>
      do! select_runbook runbook conditions;
      let! '(proposal, risk) := propose_action runbook.(rb_action) t in
      let! policy := ask_policy runbook.(rb_action) t proposal risk in
      carry_out runbook t proposal policy
  end.

(** [process]. *)
Definition process_alert : M (World X) ReliabilityProcessingResult :=
  let! existing := query (λ db, latest prop_created_at
    (λ p, bool_decide (p.(prop_incident_id) = incident_id)) (rows db.(action_proposals))) in
  match existing with
  | Some p => processing_result (Some p.(prop_action_type)) "alert was already processed"
  | None =>
      let! incident := the_incident incident_id in
      do! when (bool_decide (incident.(inc_state) = DETECTED)) (advance COLLECTING_EVIDENCE None);
      let! t := collect_evidence in
      follow_runbook t
  end.
End workflow.

(** ** Mutations *)

Section frames.
Context {X : Type}.
Context `{!Runtime X, !KubeApi X, !Pydantic, !PolicyServer X, !TelemetryServer X}.
Context `{!GitRepository X}.
Context (settings : Settings) (exe : Executor) (evidence : IncidentEvidenceService).
Context (loader : RunbookLoader) (opa : OPAClient).
Context (iid : uuid) (alert : NormalizedAlert).
Abbreviation mutates_ok P m := (evolves (mutates (X:=X) P) m).
Abbreviation step_ok m := (evolves (session_step (X:=X)) m).

Lemma advance_mutates P s d : mutates_ok P (advance settings iid s d).
Proof. apply change_incident_state_mutates. Qed.
Hint Resolve advance_mutates : cw_pres.
Lemma processing_result_mutates P a d : mutates_ok P (processing_result iid a d).
Proof. unfold processing_result. evolve. Qed.
Hint Resolve processing_result_mutates : cw_pres.
Lemma audit_worker_mutates P e r m : mutates_ok P (audit_worker iid e r m).
Proof. unfold audit_worker. evolve. Qed.
Lemma audit_action_mutates P e a r d m : mutates_ok P (audit_action iid e a r d m).
Proof. unfold audit_action. evolve. Qed.
Lemma kubernetes_snapshot_mutates P t s p : mutates_ok P (kubernetes_snapshot iid t s p).
Proof. unfold kubernetes_snapshot. evolve. Qed.
Hint Resolve audit_worker_mutates audit_action_mutates kubernetes_snapshot_mutates : cw_pres.
Lemma observe_target_mutates P : mutates_ok P (observe_target iid alert).
Proof. unfold observe_target. evolve. Qed.
Hint Resolve observe_target_mutates : cw_pres.
Lemma collect_mutates P i c t ph s : mutates_ok P (collect evidence i c t ph s).
Proof.
  unfold collect, evidence_queries, metric_queries, metric_snapshot, telemetry_snapshot,
    query_range, loki_query_range, tempo_search, http_get, attempt. simpl. evolve.
Qed.
Hint Resolve collect_mutates : cw_pres.
Lemma collect_evidence_mutates P : mutates_ok P (collect_evidence evidence iid alert).
Proof. unfold collect_evidence. evolve. Qed.
Lemma no_runbook_mutates P c : mutates_ok P (no_runbook iid alert c).
Proof. unfold no_runbook. evolve. Qed.
Lemma select_runbook_mutates P r c : mutates_ok P (select_runbook settings iid alert r c).
Proof. unfold select_runbook. evolve. Qed.
Lemma propose_action_mutates P a t : mutates_ok P (propose_action settings iid a t).
Proof. unfold propose_action. evolve. Qed.
Lemma ask_policy_mutates P a t p r : mutates_ok P (ask_policy settings opa iid a t p r).
Proof. unfold ask_policy. evolve. Qed.
Lemma deny_mutates P a p r : mutates_ok P (deny settings iid a p r).
Proof. unfold deny. evolve. Qed.
Hint Resolve collect_evidence_mutates no_runbook_mutates select_runbook_mutates
  propose_action_mutates ask_policy_mutates deny_mutates : cw_pres.

(** The calls an action may make on a target. *)
Definition permitted (action : ActionType) (t : Target) (c : call) : Prop :=
  match action with
  | DELETE_UNHEALTHY_POD => ∃ pod, pod ∈ t.(tg_pods) ∧ pod.(ready) = false ∧
      t.(tg_namespace) ∈ exe.(allowed_namespaces) ∧
      c = CallDeletePod t.(tg_namespace) pod.(ps_name)
  | SCALE_STAGING_DEPLOYMENT => ∃ replicas,
      t.(tg_namespace) ∈ exe.(allowed_namespaces) ∧
      1 ≤ replicas ≤ settings.(max_temporary_replicas) ∧
      c = CallScale t.(tg_namespace) t.(tg_deployment_name) replicas
  | REVERT_IMAGE => writer_call settings [CONTROLLED_BAD_TAG; KNOWN_GOOD_TAG] KNOWN_GOOD_TAG c
  | _ => False
  end.

Lemma require_namespace_ok ns u (w w' : World X) :
  require_namespace exe ns w = (Ok u, w') → w' = w ∧ ns ∈ exe.(allowed_namespaces).
Proof.
  unfold require_namespace, validate_name. intros Hrun. run_inv Hrun. by boolify.
Qed.

Lemma require_namespace_bind P {A} ns (k : unit → M (World X) A) :
  (ns ∈ exe.(allowed_namespaces) → ∀ u, mutates_ok P (k u)) →
  mutates_ok P (bind (require_namespace exe ns) k).
Proof.
  intros Hk. apply evolves_bind_post; [apply _|unfold require_namespace, validate_name; evolve|].
  intros w u w' [_ Hns]%require_namespace_ok. by apply Hk.
Qed.

Lemma delete_pod_mutates (P : call → Prop) ns n :
  (ns ∈ exe.(allowed_namespaces) → P (CallDeletePod ns n)) → mutates_ok P (delete_pod exe ns n).
Proof.
  intros HP. unfold delete_pod. apply require_namespace_bind. intros Hns _.
  repeat first [evolve_step | apply record_call_mutates; auto
               | apply mutates_same_trace, api_trace; intros ?; apply api_failure_trace
               | solve [eauto with cw_pres]].
Qed.

Lemma scale_mutates (P : call → Prop) ns n replicas maximum e :
  (ns ∈ exe.(allowed_namespaces) → 1 ≤ replicas ≤ maximum → P (CallScale ns n replicas)) →
  mutates_ok P (scale_staging_deployment exe ns n replicas maximum e).
Proof.
  intros HP. unfold scale_staging_deployment. apply require_namespace_bind. intros Hns _.
  do 2 (apply evolves_bind; [apply _|unfold validate_name; evolve|intros ?]).
  apply evolves_bind_post; [apply _|evolve|].
  intros w u w' [Hb _]%raise_if_ok. boolify.
  assert (P (CallScale ns n replicas)) by (apply HP; [done|lia]).
  repeat first [evolve_step | apply record_call_mutates; auto
               | apply mutates_same_trace, api_trace; intros ?; apply api_failure_trace
               | solve [eauto with cw_pres]].
Qed.

Lemma revert_mutates :
  mutates_ok (writer_call settings [CONTROLLED_BAD_TAG; KNOWN_GOOD_TAG] KNOWN_GOOD_TAG)
    (revert_to_known_good settings iid).
Proof.
  intros w. unfold revert_to_known_good.
  pose proof (write_tag_writes settings [CONTROLLED_BAD_TAG; KNOWN_GOOD_TAG] KNOWN_GOOD_TAG
    REVERT_TO_KNOWN_GOOD ("incident-" +:+ uuid_str iid) w) as (_ & _ & _ & new & Ht & Hnew).
  exists (List.filter is_mutation new). unfold mutations. rewrite Ht, List.filter_app.
  split; [done|]. apply Forall_forall. intros c Hc%list_elem_of_In%filter_In.
  rewrite Forall_forall in Hnew. apply Hnew, list_elem_of_In, Hc.
Qed.

Lemma run_action_mutates action t e :
  mutates_ok (permitted action t) (run_action settings exe iid action t e).
Proof.
  destruct action; simpl; try solve [evolve].
  - destruct (first_such _ _) as [pod|] eqn:Hp; [|evolve].
    apply first_such_Some in Hp as [Hin Hr]. apply negb_true_iff in Hr.
    apply evolves_bind; [apply _|apply delete_pod_mutates|intros ?; evolve].
    intros Hns. by exists pod.
  - apply evolves_bind; [apply _|apply scale_mutates|intros ?; evolve].
    intros Hns Hb. by eexists.
  - apply evolves_bind; [apply _|apply revert_mutates|intros ?; evolve].
Qed.
Hint Resolve run_action_mutates : cw_pres.

Lemma carry_out_mutates r t p policy :
  mutates_ok (permitted r.(rb_action) t) (carry_out settings exe iid r t p policy).
Proof. unfold carry_out, execute_action. evolve. Qed.

(** *** The session only grows *)

Lemma writes_step {A} expected target (m : M (World X) A) :
  evolves (writes settings expected target) m → step_ok m.
Proof.
  intros Hm. apply ext_only_step. intros w. destruct (Hm w) as (? & ? & _ & new & -> & _).
  split_and!; [done..|]. by exists new.
Qed.

Lemma advance_step s d : step_ok (advance settings iid s d).
Proof. unfold advance. evolve. Qed.
Hint Resolve advance_step : cw_pres.
Lemma processing_result_step a d : step_ok (processing_result iid a d).
Proof. unfold processing_result. evolve. Qed.
Lemma audit_worker_step e r m : step_ok (audit_worker iid e r m).
Proof. unfold audit_worker. evolve. Qed.
Lemma audit_action_step e a r d m : step_ok (audit_action iid e a r d m).
Proof. unfold audit_action. evolve. Qed.
Lemma kubernetes_snapshot_step t s p : step_ok (kubernetes_snapshot iid t s p).
Proof. unfold kubernetes_snapshot. evolve. Qed.
Hint Resolve processing_result_step audit_worker_step audit_action_step
  kubernetes_snapshot_step : cw_pres.
Lemma collect_evidence_step : step_ok (collect_evidence evidence iid alert).
Proof.
  unfold collect_evidence, observe_target, collect, evidence_queries, metric_queries,
    metric_snapshot, telemetry_snapshot, query_range, loki_query_range, tempo_search,
    http_get, attempt. simpl.
  repeat first [evolve_step | solve [eauto with cw_pres]].
  all: apply update_db_step; intros db; split; cbn; try reflexivity.
  all: eexists; split; [reflexivity|by apply Forall_true].
Qed.
Lemma no_runbook_step c : step_ok (no_runbook iid alert c).
Proof. unfold no_runbook. evolve. Qed.
Lemma select_runbook_step r c : step_ok (select_runbook settings iid alert r c).
Proof. unfold select_runbook. evolve. Qed.
Lemma propose_action_step a t : step_ok (propose_action settings iid a t).
Proof. unfold propose_action. evolve. Qed.
Lemma ask_policy_step a t p r : step_ok (ask_policy settings opa iid a t p r).
Proof. unfold ask_policy. evolve. Qed.
Lemma finish_step e ok r c : step_ok (finish_action_execution iid e ok r c).
Proof. unfold finish_action_execution, finished. evolve. Qed.
Lemma claim_step p rb t n : step_ok (claim_action_execution iid p rb t n).
Proof.
  unfold claim_action_execution, claim_new, require_unclaimed, claim_approval, mark_claimed,
    insert_execution. evolve.
Qed.
Hint Resolve finish_step claim_step : cw_pres.
Lemma run_action_step action t e : step_ok (run_action settings exe iid action t e).
Proof.
  destruct action; simpl; try solve [evolve].
  apply evolves_bind; [apply _|eapply writes_step, write_tag_writes|intros ?; evolve].
Qed.
Hint Resolve run_action_step : cw_pres.
Lemma carry_out_step r t p policy : step_ok (carry_out settings exe iid r t p policy).
Proof. unfold carry_out, deny, execute_action. evolve. Qed.

(** *** The policy in the run *)

(** A decision of this run for a proposal of the incident: the policy was asked
    about the action in the run, and allowed it. *)
Definition granted_in (w w' : World X) (p : ActionProposal) : Prop :=
  p.(prop_incident_id) = iid ∧
  ∃ pid d input,
    w.(work).(action_proposals) !! pid = None ∧
    proposal_identity <$> w'.(work).(action_proposals) !! pid = Some (proposal_identity p) ∧
    d ∈ w'.(work).(policy_decisions) ∧ d.(pol_proposal_id) = pid ∧ d.(pol_allowed) = true ∧
    d.(pol_input_digest) = policy_digest input ∧ input.(pi_action) = p.(prop_action_type) ∧
    CallOpa (JObj [("input", PolicyInput_dump input)]) ∈ drop (length w.(trace)) w'.(trace).

Lemma granted_later w w1 w' p :
  session_step w1 w' → granted_in w w1 p → granted_in w w' p.
Proof.
  intros (Hdb & _ & Htr) (Hi & pid & d & input & Hn & Hp & Hd & Hrest). split; [done|].
  exists pid, d, input. destruct Hrest as (? & ? & ? & ? & Hc). split_and!; try done.
  - apply fmap_Some in Hp as (q & Hq & Eq). apply (ext_proposals _ _ Hdb) in Hq as (q' & -> & E).
    simpl. f_equal. rewrite Eq. exact E.
  - destruct (ext_policy _ _ Hdb) as (new & -> & _). apply elem_of_app. by left.
  - destruct Htr as [new ->]. destruct (decide (length w.(trace) ≤ length w1.(trace))%nat).
    + rewrite drop_app_le by done. apply elem_of_app. by left.
    + rewrite (drop_ge w1.(trace)) in Hc by lia. by apply elem_of_nil in Hc.
Qed.

(** A run that mutates nothing, or does what its granted proposal permits. *)
Definition sanctioned (w w' : World X) : Prop :=
  mutates (λ _, False) w w' ∨
  ∃ p t, granted_in w w' p ∧ t.(tg_namespace) = STAGING ∧
    mutates (permitted p.(prop_action_type) t) w w'.

Lemma sanctioned_none w w' : mutates (λ _, False) w w' → sanctioned w w'.
Proof. by left. Qed.

Lemma sanctioned_after w w1 w' :
  mutates (λ _, False) w w1 → session_step w w1 → sanctioned w1 w' → sanctioned w w'.
Proof.
  intros Hm (Hdb & _ & Htr) [Hn|(p & t & (Hi & pid & d & input & Hn & Hp & Hd & Hpid & Hal & Hdig & Hact & Hc) & Hns & Hrun)].
  - left. unfold mutates in *. by etrans.
  - right. exists p, t. split_and!; [|done|].
    + split; [done|]. exists pid, d, input. split_and!; try done.
      * destruct (w.(work).(action_proposals) !! pid) as [q|] eqn:Hq; [|done].
        apply (ext_proposals _ _ Hdb) in Hq as (q' & Hq' & _). congruence.
      * destruct Htr as [new Hw1]. rewrite Hw1, length_app, <- drop_drop in Hc.
        by apply (subseteq_drop (length new)).
    + refine (evolves_trans (mutates _) _ _ _ _ Hrun).
      by apply (mutates_weaken (λ _, False)).
Qed.

(** A step that mutates nothing, then the rest. *)
Lemma sanctioned_bind {A B} (m : M (World X) A) (k : A → M (World X) B) w :
  mutates_ok (λ _, False) m → step_ok m →
  (∀ a w1, m w = (Ok a, w1) → sanctioned w1 (k a w1).2) → sanctioned w (bind m k w).2.
Proof.
  intros Hm Hs Hk. specialize (Hm w). specialize (Hs w). unfold bind.
  destruct (m w) as [[a|e] w1]; simpl in *; [|by left].
  eapply sanctioned_after; [done..|by apply Hk].
Qed.

Lemma sanctioned_quiet {A} (m : M (World X) A) w : mutates_ok (λ _, False) m → sanctioned w (m w).2.
Proof. intros Hm. left. apply Hm. Qed.

(** The proposal as it is stored. *)
Lemma propose_action_run action t (w w' : World X) pid risk :
  propose_action settings iid action t w = (Ok (pid, risk), w') →
  w.(work).(action_proposals) !! pid = None ∧
  ∃ p, p.(prop_incident_id) = iid ∧ p.(prop_action_type) = action ∧
    proposal_identity <$> w'.(work).(action_proposals) !! pid = Some (proposal_identity p).
Proof.
  intros Hrun. unfold propose_action in Hrun.
  apply bind_ok in Hrun as (i & w1 & H1 & Hrun). run_inv H1.
  apply bind_ok in Hrun as (r & w2 & H2 & Hrun). injection H2 as Hr <-.
  apply bind_ok in Hrun as (u & w3 & H3 & Hrun). injection H3 as _ <-.
  apply bind_ok in Hrun as (id & w4 & H4 & Hrun). injection H4 as _ <-.
  apply bind_ok in Hrun as (now & w5 & H5 & Hrun). injection H5 as _ <-.
  apply bind_ok in Hrun as (u6 & w6 & H6 & Hrun). apply insert_row_ok in H6 as (Hn & _ & H6).
  apply bind_ok in Hrun as (u7 & w7 & H7 & Hrun). apply ret_ok in H7 as [_ ->].
  apply bind_ok in Hrun as (u8 & w8 & H8 & Hrun). apply ret_ok in Hrun as [[= -> ->] ->].
  split; [done|]. apply (evolves_run _ _ _ _ _ (advance_step _ _)) in H8 as (Hdb & _ & _).
  match type of Hn with _ = None => idtac end.
  match goal with E : w6 = set_work (upd_action_proposals (λ t, <[id := ?p]> t) _) _ |- _ =>
    exists p; destruct (ext_proposals _ _ Hdb id p) as (p' & -> & Hid);
      [rewrite E; simpl; apply lookup_insert_eq|] end.
  split_and!; [done..|]. simpl. f_equal. exact Hid.
Qed.

(** The policy that is asked about an action. *)
Lemma ask_policy_run action t pid risk (w w' : World X) policy :
  ask_policy settings opa iid action t pid risk w = (Ok policy, w') →
  ∃ d input, d ∈ w'.(work).(policy_decisions) ∧ d.(pol_proposal_id) = pid ∧
    d.(pol_allowed) = policy.(pr_allowed) ∧ d.(pol_input_digest) = policy_digest input ∧
    input.(pi_action) = action ∧
    CallOpa (JObj [("input", PolicyInput_dump input)]) ∈ drop (length w.(trace)) w'.(trace).
Proof.
  intros Hrun. unfold ask_policy in Hrun.
  apply bind_ok in Hrun as (i & w1 & H1 & Hrun). run_inv H1.
  apply bind_ok in Hrun as (pod & w2 & H2 & Hrun). injection H2 as _ <-.
  apply bind_ok in Hrun as (input & w3 & H3 & Hrun). injection H3 as Hin <-.
  apply bind_ok in Hrun as (r & w4 & H4%evaluate_run & Hrun). destruct H4 as (Hw & _ & _ & Ht).
  apply bind_ok in Hrun as (id & w5 & H5 & Hrun). injection H5 as _ <-.
  apply bind_ok in Hrun as (now & w6 & H6 & Hrun). injection H6 as _ <-.
  apply bind_ok in Hrun as (u & w7 & H7 & Hrun). injection H7 as _ <-.
  apply bind_ok in Hrun as (u8 & w8 & H8 & Hrun). apply ret_ok in Hrun as [-> ->].
  apply (evolves_run _ _ _ _ _ (audit_action_step _ _ _ _ _)) in H8 as (Hdb & _ & Htr).
  eexists _, input. split_and!.
  - destruct (ext_policy _ _ Hdb) as (new & -> & _). simpl.
    apply elem_of_app. left. apply elem_of_app. right. by left.
  - done.
  - done.
  - done.
  - unfold validated in Hin. destruct (PolicyInput_valid _); [|done]. by injection Hin as <-.
  - destruct Htr as [new ->]. simpl. rewrite Ht, <- app_assoc, drop_app_length. by left.
Qed.

Lemma collect_evidence_staging (w w' : World X) t :
  collect_evidence evidence iid alert w = (Ok t, w') → t.(tg_namespace) = STAGING.
Proof.
  intros (t' & w1 & H1 & Hrun)%bind_ok. assert (t = t') as ->.
  { apply bind_ok in Hrun as (i & w2 & _ & Hrun). apply bind_ok in Hrun as (u & w3 & _ & Hrun).
    apply bind_ok in Hrun as (s & w4 & _ & Hrun). apply bind_ok in Hrun as (v & w5 & _ & Hrun).
    by apply ret_ok in Hrun as [-> _]. }
  unfold observe_target in H1. apply bind_ok in H1 as (u & w2 & H2 & H1).
  apply raise_if_ok in H2 as [Hns ->]. boolify.
  apply bind_ok in H1 as (pods & w3 & _ & H1). apply bind_ok in H1 as (v & w4 & _ & H1).
  apply bind_ok in H1 as (d & w5 & _ & H1). apply bind_ok in H1 as (es & w6 & _ & H1).
  apply bind_ok in H1 as (x & w7 & _ & H1). apply bind_ok in H1 as (y & w8 & _ & H1).
  by apply ret_ok in H1 as [-> _].
Qed.

(** From the proposal to the end of the run. *)
Lemma propose_and_act_sanctioned runbook t (w : World X) :
  t.(tg_namespace) = STAGING →
  sanctioned w ((let! '(proposal, risk) := propose_action settings iid runbook.(rb_action) t in
                 let! policy := ask_policy settings opa iid runbook.(rb_action) t proposal risk in
                 carry_out settings exe iid runbook t proposal policy) w).2.
Proof.
  intros Hns. unfold bind at 1.
  pose proof (propose_action_mutates (λ _, False) runbook.(rb_action) t w) as Hm1.
  pose proof (propose_action_step runbook.(rb_action) t w) as Hs1.
  destruct (propose_action _ _ _ _ w) as [[[pid risk]|e] w1] eqn:H1; simpl in *; [|by left].
  apply propose_action_run in H1 as (Hn & p & Hpi & Hpa & Hp). unfold bind.
  pose proof (ask_policy_mutates (λ _, False) runbook.(rb_action) t pid risk w1) as Hm2.
  pose proof (ask_policy_step runbook.(rb_action) t pid risk w1) as Hs2.
  destruct (ask_policy _ _ _ _ _ _ _ w1) as [[policy|e] w2] eqn:H2; simpl in *;
    [|left; refine (evolves_trans (mutates _) _ _ _ Hm1 Hm2)].
  apply ask_policy_run in H2 as (d & input & Hd & Hdp & Hal & Hdig & Hact & Hopa).
  assert (mutates (λ _, False) w w2) as Hm by exact (evolves_trans (mutates _) _ _ _ Hm1 Hm2).
  destruct (pr_allowed policy) eqn:Hpol.
  - right. exists p, t. split_and!; [|done|].
    + eapply granted_later; [apply carry_out_step|]. split; [done|].
      exists pid, d, input. split_and!; try done; [|by rewrite Hpa|].
      * apply fmap_Some in Hp as (q & Hq & Eq). destruct Hs2 as (Hdb & _ & _).
        apply (ext_proposals _ _ Hdb) in Hq as (q' & -> & E). simpl. f_equal. rewrite Eq. exact E.
      * destruct Hs1 as (_ & _ & [new Ht]). rewrite Ht, length_app, <- drop_drop in Hopa.
        by apply (subseteq_drop (length new)).
    + rewrite Hpa. refine (evolves_trans (mutates _) _ _ _ _ (carry_out_mutates _ _ _ _ w2)).
      by apply (mutates_weaken (λ _, False)).
  - left. refine (evolves_trans (mutates _) _ _ _ Hm _). unfold carry_out. rewrite Hpol. simpl.
    apply deny_mutates.
Qed.
End frames.

(** *** The proposals, up to their status *)

Definition proposals_view (d : Database) := proposal_identity <$> d.(action_proposals).

Section proposals.
Context {X : Type}.
Context `{!Runtime X, !KubeApi X, !Pydantic, !PolicyServer X, !TelemetryServer X}.
Context `{!GitRepository X}.
Context (settings : Settings) (exe : Executor) (evidence : IncidentEvidenceService).
Context (opa : OPAClient) (iid : uuid) (alert : NormalizedAlert).
Abbreviation view_ok m := (evolves (same_db (X:=X) proposals_view) m).

Lemma set_status_view pid s : view_ok (set_proposal pid (set_prop_status s)).
Proof.
  intros w. unfold same_db, stable, proposals_view. simpl. apply map_eq. intros k.
  rewrite !lookup_fmap. destruct (decide (pid = k)) as [<-|Hne];
    [rewrite lookup_alter_eq|by rewrite lookup_alter_ne].
  by destruct (action_proposals (work w) !! pid).
Qed.
Hint Resolve set_status_view : cw_pres.
Lemma advance_view s d : view_ok (advance settings iid s d).
Proof.
  intros w. unfold same_db, stable, proposals_view.
  f_equal. exact (change_incident_state_proposals settings iid s WORKER ACTOR_SERVICE d false w).
Qed.
Hint Resolve advance_view : cw_pres.
Lemma collect_evidence_view : view_ok (collect_evidence evidence iid alert).
Proof.
  unfold collect_evidence, observe_target, collect, evidence_queries, metric_queries,
    metric_snapshot, telemetry_snapshot, query_range, loki_query_range, tempo_search,
    http_get, attempt, audit_worker, kubernetes_snapshot. simpl. evolve.
Qed.
Lemma select_runbook_view r c : view_ok (select_runbook settings iid alert r c).
Proof. unfold select_runbook, audit_action. evolve. Qed.
Lemma ask_policy_view a t p r : view_ok (ask_policy settings opa iid a t p r).
Proof. unfold ask_policy, audit_action. evolve. Qed.
Lemma finish_view e ok r c : view_ok (finish_action_execution iid e ok r c).
Proof. unfold finish_action_execution. evolve. Qed.
Lemma claim_view p rb t n : view_ok (claim_action_execution iid p rb t n).
Proof.
  unfold claim_action_execution, claim_new, require_unclaimed, claim_approval,
    insert_execution. evolve.
Qed.
Hint Resolve finish_view claim_view : cw_pres.
Lemma run_action_view action t e : view_ok (run_action settings exe iid action t e).
Proof.
  destruct action; simpl; try solve [evolve].
  apply evolves_bind; [apply _| |intros ?; evolve].
  intros w. unfold same_db, stable. pose proof (write_tag_writes settings
    [CONTROLLED_BAD_TAG; KNOWN_GOOD_TAG] KNOWN_GOOD_TAG REVERT_TO_KNOWN_GOOD
    ("incident-" +:+ uuid_str iid) w) as (Hw & _). unfold revert_to_known_good. by rewrite Hw.
Qed.
Hint Resolve run_action_view : cw_pres.
Lemma carry_out_view r t p policy : view_ok (carry_out settings exe iid r t p policy).
Proof. unfold carry_out, deny, execute_action, processing_result. evolve. Qed.

(** The new proposal is the only change. *)
Lemma propose_action_view action t (w w' : World X) pid risk :
  propose_action settings iid action t w = (Ok (pid, risk), w') →
  ∃ p, p.(prop_incident_id) = iid ∧ p.(prop_action_type) = action ∧
    proposals_view w'.(work) = <[pid := proposal_identity p]> (proposals_view w.(work)).
Proof.
  intros Hrun. unfold propose_action in Hrun.
  apply bind_ok in Hrun as (i & w1 & H1 & Hrun). run_inv H1.
  apply bind_ok in Hrun as (r & w2 & H2 & Hrun). injection H2 as Hr <-.
  apply bind_ok in Hrun as (u & w3 & H3 & Hrun). injection H3 as _ <-.
  apply bind_ok in Hrun as (id & w4 & H4 & Hrun). injection H4 as _ <-.
  apply bind_ok in Hrun as (now & w5 & H5 & Hrun). injection H5 as _ <-.
  apply bind_ok in Hrun as (u6 & w6 & H6 & Hrun). apply insert_row_ok in H6 as (_ & _ & H6).
  apply bind_ok in Hrun as (u7 & w7 & H7 & Hrun). apply ret_ok in H7 as [_ ->].
  apply bind_ok in Hrun as (u8 & w8 & H8 & Hrun). apply ret_ok in Hrun as [[= -> ->] ->].
  apply (evolves_run _ _ _ _ _ (advance_view _ _)) in H8. unfold same_db, stable in H8.
  rewrite H8, H6. unfold proposals_view. simpl. eexists. rewrite fmap_insert.
  by split_and!; [| |reflexivity].
Qed.

Lemma same_identity (p q : ActionProposal) :
  proposal_identity p = proposal_identity q →
  p.(prop_incident_id) = q.(prop_incident_id) ∧ p.(prop_action_type) = q.(prop_action_type).
Proof.
  intros E. split; [change (p.(prop_incident_id)) with ((proposal_identity p).(prop_incident_id))
                   |change (p.(prop_action_type)) with ((proposal_identity p).(prop_action_type))];
    by rewrite E.
Qed.

(** A proposal of the incident in a view is one in the table, and conversely. *)
Lemma view_lookup d k q :
  d.(action_proposals) !! k = Some q → proposals_view d !! k = Some (proposal_identity q).
Proof. intros Hq. unfold proposals_view. by rewrite lookup_fmap, Hq. Qed.

Definition incident_proposal (d : Database) : option ActionProposal :=
  latest prop_created_at (λ p, bool_decide (p.(prop_incident_id) = iid)) (rows d.(action_proposals)).

(** The only proposal of the incident is the latest. *)
Lemma incident_proposal_new d d' pid p :
  incident_proposal d = None → p.(prop_incident_id) = iid →
  proposals_view d' = <[pid := proposal_identity p]> (proposals_view d) →
  ∃ q, incident_proposal d' = Some q ∧ q.(prop_action_type) = p.(prop_action_type).
Proof.
  intros Hnone Hp Hview. unfold incident_proposal in *. rewrite latest_None in Hnone.
  destruct (latest _ _ (rows d'.(action_proposals))) as [q|] eqn:Hq.
  - exists q. split; [done|]. apply latest_Some in Hq as (Hin & Hi & _).
    apply bool_decide_eq_true in Hi. apply elem_of_rows in Hin as [k Hk].
    apply view_lookup in Hk. rewrite Hview in Hk.
    apply lookup_insert_Some in Hk as [[_ E]|[_ Hk]]; [by apply same_identity in E as [_ ->]|].
    unfold proposals_view in Hk. apply lookup_fmap_Some in Hk as (q0 & [E _]%same_identity & Hq0).
    assert (bool_decide (prop_incident_id q0 = iid) = false) as Hf
      by (apply Hnone, elem_of_rows; by exists k).
    apply bool_decide_eq_false in Hf. congruence.
  - rewrite latest_None in Hq. exfalso.
    assert (proposals_view d' !! pid = Some (proposal_identity p)) as Hl
      by (rewrite Hview; apply lookup_insert_eq).
    unfold proposals_view in Hl. apply lookup_fmap_Some in Hl as (q & [E _]%same_identity & Hl).
    assert (bool_decide (prop_incident_id q = iid) = false) as Hf
      by (apply Hq, elem_of_rows; by exists pid).
    apply bool_decide_eq_false in Hf. congruence.
Qed.
End proposals.

#[export] Hint Resolve advance_mutates processing_result_mutates advance_step
  processing_result_step : cw_pres.

(** ** Properties *)

Section properties.
Context {X : Type}.
Context `{!Runtime X, !KubeApi X, !Pydantic, !PolicyServer X, !TelemetryServer X}.
Context `{!GitRepository X}.
Context (settings : Settings) (exe : Executor) (evidence : IncidentEvidenceService).
Context (loader : RunbookLoader) (opa : OPAClient).
Context (iid : uuid) (alert : NormalizedAlert).
Abbreviation run_process := (process_alert (X:=X) settings exe evidence loader opa iid alert).


Lemma processing_result_ok a d (w w' : World X) r :
  processing_result iid a d w = (Ok r, w') → w' = w ∧ r.(rp_action) = a ∧
  ∃ i, w.(work).(incidents) !! iid = Some i ∧ r.(rp_incident_id) = i.(inc_id) ∧
    r.(rp_state) = i.(inc_state) ∧ r.(rp_risk_score) = i.(inc_risk_score).
Proof.
  unfold processing_result. intros Hrun. apply bind_ok in Hrun as (i & w1 & H1 & Hrun). run_inv H1.
  apply ret_ok in Hrun as [-> ->]. split_and!; [done..|]. by exists i.
Qed.

(** A processed incident: the result reports its proposal and nothing happens. *)
Lemma process_again alert' (w : World X) q i :
  incident_proposal iid w.(work) = Some q → w.(work).(incidents) !! iid = Some i →
  ∃ r, process_alert settings exe evidence loader opa iid alert' w = (Ok r, w) ∧
    r.(rp_action) = Some q.(prop_action_type) ∧
    r.(rp_incident_id) = i.(inc_id) ∧ r.(rp_state) = i.(inc_state) ∧
    r.(rp_risk_score) = i.(inc_risk_score).
Proof.
  intros Hq Hi. unfold process_alert.
  rewrite (bind_step _ _ w (incident_proposal iid w.(work)) w) by done. rewrite Hq.
  unfold processing_result. rewrite (bind_step _ _ w i w) by by apply deref_ok.
  eexists. split; [reflexivity|]. by split_and!.
Qed.

Lemma carry_out_result runbook t pid policy (w w' : World X) r :
  carry_out settings exe iid runbook t pid policy w = (Ok r, w') →
  r.(rp_action) = Some runbook.(rb_action) ∧
  ∃ i, w'.(work).(incidents) !! iid = Some i ∧ r.(rp_incident_id) = i.(inc_id) ∧
    r.(rp_state) = i.(inc_state) ∧ r.(rp_risk_score) = i.(inc_risk_score).
Proof.
  intros Hrun. assert (∃ w0 d, processing_result iid (Some runbook.(rb_action)) d w0 = (Ok r, w'))
    as (w0 & d & H0).
  { unfold carry_out, deny in Hrun. destruct (negb (pr_allowed policy)); [|destruct (_ && _)];
      repeat lazymatch type of Hrun with
      | processing_result _ _ _ _ = _ => fail
      | bind _ _ _ = _ => apply bind_ok in Hrun as (? & ? & _ & Hrun)
      end; eauto. }
  by apply processing_result_ok in H0 as (-> & ? & ?).
Qed.

(** C5: an incident is acted on once.  When a run returned with an action, running
    the workflow again for the same incident, with the same alert or another,
    reports the same action, state and risk, and changes nothing at all: it reads
    no cluster, asks no policy and issues no call. *)
Theorem process_once alert' (w w1 : World X) r action :
  run_process w = (Ok r, w1) → r.(rp_action) = Some action →
  ∃ r', process_alert settings exe evidence loader opa iid alert' w1 = (Ok r', w1) ∧
    r'.(rp_action) = Some action ∧ r'.(rp_incident_id) = r.(rp_incident_id) ∧
    r'.(rp_state) = r.(rp_state) ∧ r'.(rp_risk_score) = r.(rp_risk_score).
Proof.
  intros Hrun Hact.
  enough (∃ q i, incident_proposal iid w1.(work) = Some q ∧ q.(prop_action_type) = action ∧
    w1.(work).(incidents) !! iid = Some i ∧ r.(rp_incident_id) = i.(inc_id) ∧
    r.(rp_state) = i.(inc_state) ∧ r.(rp_risk_score) = i.(inc_risk_score))
    as (q & i & Hq & <- & Hi & -> & -> & ->).
  { exact (process_again alert' w1 q i Hq Hi). }
  unfold process_alert in Hrun. apply bind_ok in Hrun as (o & w0 & H0 & Hrun).
  injection H0 as <- <-. fold (incident_proposal iid w.(work)) in Hrun.
  destruct (incident_proposal iid w.(work)) as [p|] eqn:Hp.
  { apply processing_result_ok in Hrun as (-> & Ha & i & Hi). exists p, i.
    split_and!; [done|congruence|by destruct Hi as (? & ? & ? & ?)..]. }
  apply bind_ok in Hrun as (i & w2 & H2 & Hrun). apply deref_ok in H2 as [_ ->].
  apply bind_ok in Hrun as (u & w3 & H3 & Hrun). apply bind_ok in Hrun as (t & w4 & H4 & Hrun).
  apply (evolves_run (same_db proposals_view)) in H3; [|by destruct (bool_decide _); evolve; apply advance_view].
  apply (evolves_run _ _ _ _ _ (collect_evidence_view _ _ _)) in H4.
  unfold follow_runbook in Hrun. apply bind_ok in Hrun as (v & w5 & H5 & Hrun).
  apply (evolves_run _ _ _ _ _ (advance_view _ _ _ _)) in H5.
  apply bind_ok in Hrun as (j & w6 & H6 & Hrun). apply deref_ok in H6 as [_ ->].
  destruct (match_runbook _ _ _ _) as [runbook|e] eqn:Hm.
  2: { destruct (String.eqb _ _); [|done]. unfold no_runbook in Hrun.
       apply bind_ok in Hrun as (a & w7 & _ & Hrun). apply bind_ok in Hrun as (b & w8 & _ & Hrun).
       apply bind_ok in Hrun as (c & w9 & _ & Hrun). by apply ret_ok in Hrun as [-> _]. }
  apply bind_ok in Hrun as (x & w7 & H7 & Hrun).
  apply (evolves_run _ _ _ _ _ (select_runbook_view _ _ _ _ _)) in H7.
  apply bind_ok in Hrun as ([pid risk] & w8 & H8 & Hrun).
  apply bind_ok in Hrun as (policy & w9 & H9 & Hrun).
  apply propose_action_view in H8 as (p & Hpi & Hpa & Hview).
  apply (evolves_run _ _ _ _ _ (ask_policy_view _ _ _ _ _ _ _)) in H9.
  pose proof (carry_out_result _ _ _ _ _ _ _ Hrun) as (Ha & k & Hk).
  apply (evolves_run _ _ _ _ _ (carry_out_view _ _ _ _ _ _ _)) in Hrun.
  unfold same_db, stable in *.
  destruct (incident_proposal_new iid w.(work) w1.(work) pid p Hp Hpi) as (q & Hq & Hqa).
  { by rewrite Hrun, H9, Hview, H7, H5, H4, H3. }
  exists q, k. split_and!; [done|congruence|by destruct Hk as (? & ? & ? & ?)..].
Qed.
End properties.

(** ** A concrete run *)

(** A cluster with one unready pod, seven replicas wanted. *)
Definition busy_kube : KubeApi Z := {|
  read_namespaced_pod := read_namespaced_pod;
  list_namespaced_pod := list_namespaced_pod;
  delete_namespaced_pod := delete_namespaced_pod;
  patch_namespaced_pod := patch_namespaced_pod;
  read_namespaced_deployment _ _ x :=
    (inl {| v1d_replicas := Some 7; v1d_template_labels := bench_deployment.(v1d_template_labels);
            v1d_images := bench_deployment.(v1d_images); v1d_ready := Some 7;
            v1d_available := Some 7; v1d_observed_generation := Some 1 |}, x);
  patch_namespaced_deployment_scale := patch_namespaced_deployment_scale;
  list_namespaced_event := list_namespaced_event;
  service_proxy_get := service_proxy_get;
  pod_proxy_get := pod_proxy_get;
  get_custom_object := get_custom_object;
  create_custom_object := create_custom_object;
  delete_custom_object := delete_custom_object;
|}.

Definition cpu_staging_alert : NormalizedAlert := from_alertmanager
  {| am_status := ALERT_FIRING;
     am_labels := [("alertname", "HighCPUSaturation"); ("service", "api");
                   ("deployment", "demo"); ("environment", "staging")];
     am_annotations := []; am_starts_at := {| instant := 1699999900000000;
                                              iso_text := "2023-11-14T22:11:40+00:00" |};
     am_ends_at := None; am_generator_url := ""; am_fingerprint := None |}.

Definition cpu_incident : Incident :=
  new_incident 1%N 1700000000000000 "corr-1" "reliability.cpu-saturation" "CPU" ENV_STAGING
    None None None.

(** One runbook: scale on saturation. *)
Definition cpu_loader : RunbookLoader :=
  {| loaded_runbooks :=
       [{| rb_id := "reliability.cpu-saturation"; rb_version := 1;
           rb_environments := [ENV_STAGING];
           rb_match := {| match_incident_type := "reliability.cpu-saturation";
                          match_conditions := ["cpu_saturated"] |};
           rb_evidence := []; rb_preconditions := {| max_target_pods := 1;
                                                     pre_controller_managed := true |};
           rb_action := SCALE_STAGING_DEPLOYMENT;
           rb_verify := {| verify_timeout := "60s"; verify_conditions := [] |};
           rb_rollback := false |}] |}.

Definition bench_evidence : IncidentEvidenceService :=
  {| ies_metrics := prometheus; ies_logs := prometheus; ies_traces := prometheus;
     before_seconds := 300; max_incident_seconds := 1800 |}.

Definition bench_process (w : World Z) : res ReliabilityProcessingResult * World Z :=
  process_alert (Runtime0 := bench_runtime) (KubeApi0 := busy_kube) (H := strict_pydantic)
    example_settings bench_executor bench_evidence cpu_loader
    (opa_client "http://opa:8181/" "/v1/data/cloudward/remediation/decision") 1%N
    cpu_staging_alert w.
Definition cpu_world : World Z :=
  bench_world (upd_incidents (λ _, {[1%N := cpu_incident]}) empty_database).
Definition scaled_run : res ReliabilityProcessingResult * World Z := bench_process cpu_world.

(** The workflow scales a saturated deployment down when it already wants more
    replicas than the temporary maximum. *)
Example saturated_deployment_is_scaled_down :
  List.filter is_mutation scaled_run.2.(trace) = [CallScale "cloudward-staging" "demo" 5].
Proof. vm_compute. reflexivity. Qed.


Lemma process_once_witness :
  ∃ r, bench_process scaled_run.2 = (Ok r, scaled_run.2) ∧
    r.(rp_action) = Some SCALE_STAGING_DEPLOYMENT.
Proof.
  assert (∃ r, scaled_run.1 = Ok r ∧ r.(rp_action) = Some SCALE_STAGING_DEPLOYMENT)
    as (r & Hr & Ha) by (eexists; split; vm_compute; reflexivity).
  destruct (process_once (Runtime0 := bench_runtime) (KubeApi0 := busy_kube)
    (H := strict_pydantic) example_settings bench_executor bench_evidence cpu_loader
    (opa_client "http://opa:8181/" "/v1/data/cloudward/remediation/decision") 1%N
    cpu_staging_alert cpu_staging_alert cpu_world scaled_run.2 r SCALE_STAGING_DEPLOYMENT)
    as (r' & Hrun & Ha' & _); [exact (run_of _ _ Hr)|exact Ha|].
  exists r'. exact (conj Hrun Ha').
Defined.
