(* ===== verification/WebhookAuth.v ===== *)
(** * Authentication of the runtime-security webhook

    [security/webhook_auth.py]: the bounded body, the HMAC signature with its clock
    skew, the claim of the nonce and the rate, and the fixed-window limiter of
    [security/rate_limit.py].  The module's two dictionaries and the limiter's are
    state; Redis and the two clocks are the environment, read in microseconds. *)

From S2P Require Import Prelude Json Effects Models Config Sha256 ApprovalRequests.

(** ** State and environment *)

(** How a Redis command ends: its answer, a [RedisError], an [AttributeError] (the
    object is not a client), or another exception. *)
Inductive redis_answer (A : Type) : Type :=
| RedisOk (a : A) | RedisError | RedisNoAttribute | RedisRaised (e : exn).
Arguments RedisOk {A} a.
Arguments RedisError {A}.
Arguments RedisNoAttribute {A}.
Arguments RedisRaised {A} e.

Class GuardEnv (X : Type) := {
  wall_time : X → Z * X;
  mono_time : X → Z * X;
  redis_configured : X → bool;
  redis_set_nx : string → Z → X → redis_answer bool * X;
  redis_incr : string → X → redis_answer Z * X;
  redis_expire : string → Z → X → redis_answer unit * X;
}.
#[export] Hint Mode GuardEnv ! : typeclass_instances.

(** [_development_nonces] and [_development_rates]. *)
Record GuardState (X : Type) := {
  gs_env : X;
  development_nonces : list (string * Z);
  development_rates : list (Z * Z);
}.
Arguments gs_env {X} g.
Arguments development_nonces {X} g.
Arguments development_rates {X} g.

Section state.
Context {X : Type}.

Definition set_gs_env (x : X) (g : GuardState X) : GuardState X :=
  {| gs_env := x; development_nonces := g.(development_nonces);
     development_rates := g.(development_rates) |}.
Definition set_nonces (l : list (string * Z)) (g : GuardState X) : GuardState X :=
  {| gs_env := g.(gs_env); development_nonces := l;
     development_rates := g.(development_rates) |}.
Definition set_rates (l : list (Z * Z)) (g : GuardState X) : GuardState X :=
  {| gs_env := g.(gs_env); development_nonces := g.(development_nonces);
     development_rates := l |}.

Definition environ {A} (f : X → A * X) : M (GuardState X) A := λ g,
  let '(a, x) := f g.(gs_env) in (Ok a, set_gs_env x g).
End state.

(** A dictionary with integer keys. *)
Fixpoint zdict_get (k : Z) (d : list (Z * Z)) : option Z :=
  match d with
  | [] => None
  | (k', v) :: d => if k' =? k then Some v else zdict_get k d
  end.
Fixpoint zdict_set (k v : Z) (d : list (Z * Z)) : list (Z * Z) :=
  match d with
  | [] => [(k, v)]
  | (k', v') :: d => if k' =? k then (k, v) :: d else (k', v') :: zdict_set k v d
  end.

(** ** The request *)

(** The headers the module reads, and the chunks of the body as bytes. *)
Record WebhookRequest := {
  content_length : option string;
  header_timestamp : string;
  header_nonce : string;
  header_signature : string;
  body_chunks : list (list N);
}.

(** [str.isalnum] of one code point below 256. *)
Definition latin_alnum (c : ascii) : bool :=
  is_alnum c || bool_decide (code_of c ∈ [170; 178; 179; 181; 185; 186; 188; 189; 190]) ||
  in_range 192 214 c || in_range 216 246 c || in_range 248 255 c.

(** [s.replace("-", "")]. *)
Fixpoint drop_dashes (s : string) : string :=
  match s with
  | EmptyString => EmptyString
  | String.String c s =>
      if Ascii.eqb c "-" then drop_dashes s else String.String c (drop_dashes s)
  end.

(** [s.isalnum()]: not empty. *)
Definition str_isalnum (s : string) : bool := truthy_str s && str_forallb latin_alnum s.

Definition nonce_valid (nonce : string) : bool :=
  (16 <=? str_len nonce) && (str_len nonce <=? 128) && str_isalnum (drop_dashes nonce).

(** [s.removeprefix(p)]. *)
Definition removeprefix (p s : string) : string :=
  if starts_with p s
  then String.substring (String.length p) (String.length s - String.length p) s
  else s.

Definition str_ascii (s : string) : bool := str_forallb (in_range 0 127) s.

Definition authentication_failed : exn :=
  cw_error_status "WEBHOOK_AUTHENTICATION_FAILED" "Invalid webhook authentication" 401.

(** [hmac.compare_digest] of two strings. *)
Definition compare_digest (a b : string) : res bool :=
  if str_ascii a && str_ascii b then Ok (String.eqb a b)
  else Raise (PyError "TypeError" "comparing strings with non-ASCII characters is not supported").

(** [timestamp + b"." + nonce + b"." + body]. *)
Definition signed_message (timestamp nonce : string) (body : list N) : list N :=
  bytes_of timestamp ++ [46%N] ++ bytes_of nonce ++ [46%N] ++ body.

(** ** The body *)

Definition too_large (error_code : string) : exn :=
  cw_error_status error_code "Request exceeds the body limit" 413.
Definition invalid_length : exn :=
  cw_error_status "INVALID_CONTENT_LENGTH" "Invalid Content-Length header" 400.

Fixpoint read_chunks (maximum : Z) (error_code : string) (body : list N)
    (chunks : list (list N)) : res (list N) :=
  match chunks with
  | [] => Ok body
  | c :: chunks =>
      if maximum <? Z.of_nat (length body) + Z.of_nat (length c) then Raise (too_large error_code)
      else read_chunks maximum error_code (body ++ c) chunks
  end.

Definition read_bounded_body (request : WebhookRequest) (maximum : Z) (error_code : string)
  : res (list N) :=
  res_bind
    match request.(content_length) with
    | None => Ok tt
    | Some text =>
        match int_of_str text with
        | None => Raise invalid_length
        | Some n => if n <? 0 then Raise invalid_length
                    else if maximum <? n then Raise (too_large error_code) else Ok tt
        end
    end
    (λ _, read_chunks maximum error_code [] request.(body_chunks)).

Section guard.
Context {X : Type} `{!GuardEnv X}.
Context (settings : Settings).
Abbreviation G := (M (GuardState X)).

Definition in_development : bool := bool_decide (settings.(app_env) ∈ ["development"; "test"]).

(** ** The nonce *)

Definition replay_detected : exn :=
  cw_error_status "WEBHOOK_REPLAY_DETECTED" "Webhook nonce was already used" 409.

Definition nonce_key (nonce : string) : string :=
  "cloudward:tetragon:nonce:" +:+ sha256_hex nonce.
Definition nonce_ttl : Z := settings.(tetragon_webhook_max_clock_skew_seconds) * 2.

(** Entries that have not expired. *)
Definition unexpired (now : Z) (l : list (string * Z)) : list (string * Z) :=
  List.filter (λ kv, negb (kv.2 <=? now)) l.

(** The process's own memory. *)
Definition claim_development (nonce : string) : G unit :=
  do! raise_if (negb in_development)
        (cw_error_status "WEBHOOK_REPLAY_PROTECTION_UNAVAILABLE"
           "Webhook replay protection is unavailable" 503);
  let! now := environ mono_time in
  let! nonces := gets development_nonces in
  do! modify (set_nonces (unexpired now nonces));
  let! kept := gets development_nonces in
  do! raise_if (dict_has nonce kept) replay_detected;
  modify (set_nonces (dict_set nonce (now + seconds nonce_ttl) kept)).

(** [_claim_nonce]. *)
Definition claim_nonce (nonce : string) : G unit :=
  let! configured := gets (λ g, redis_configured g.(gs_env)) in
  if configured : bool then
    let! answer := environ (redis_set_nx (nonce_key nonce) nonce_ttl) in
    match answer with
    | RedisOk claimed => raise_if (negb claimed) replay_detected
    | RedisError | RedisNoAttribute => claim_development nonce
    | RedisRaised e => raise e
    end
  else claim_development nonce.

(** ** The rate *)

Definition rate_limited : exn :=
  cw_error_status "SECURITY_EVENT_RATE_LIMITED" "Security event rate exceeded" 429.
Definition minute_of (now : Z) : Z := now / 1000000 / 60.
Definition rate_key (minute : Z) : string := "cloudward:tetragon:rate:" +:+ str_of_Z minute.

Definition rate_development (minute : Z) : G unit :=
  do! raise_if (negb in_development)
        (cw_error_status "SECURITY_RATE_CONTROL_UNAVAILABLE"
           "Security event rate control is unavailable" 503);
  let! rates := gets development_rates in
  let kept := List.filter (λ kv, negb (kv.1 <? minute - 1)) rates in
  let count := default 0 (zdict_get minute kept) + 1 in
  do! modify (set_rates (zdict_set minute count kept));
  raise_if (settings.(tetragon_webhook_max_events_per_minute) <? count) rate_limited.

(** [_check_rate]. *)
Definition check_rate : G unit :=
  let! now := environ wall_time in
  let minute := minute_of now in
  let! configured := gets (λ g, redis_configured g.(gs_env)) in
  if configured : bool then
    let! answer := environ (redis_incr (rate_key minute)) in
    match answer with
    | RedisOk count =>
        let! expired := (if count =? 1 then environ (redis_expire (rate_key minute) 61)
                         else ret (RedisOk tt)) in
        match expired with
        | RedisOk _ =>
            raise_if (settings.(tetragon_webhook_max_events_per_minute) <? count) rate_limited
        | RedisError => rate_development minute
        | RedisNoAttribute => raise (PyError "AttributeError" "expire")
        | RedisRaised e => raise e
        end
    | RedisError => rate_development minute
    | RedisNoAttribute => raise (PyError "AttributeError" "incr")
    | RedisRaised e => raise e
    end
  else rate_development minute.

(** ** Authentication *)

Definition signature_of (request : WebhookRequest) (body : list N) : string :=
  hmac_sha256 (bytes_of settings.(tetragon_webhook_secret))
    (signed_message request.(header_timestamp) request.(header_nonce) body).

(** [authenticate_tetragon_request]. *)
Definition authenticate (request : WebhookRequest) (body : list N) : G unit :=
  let! timestamp := lift (match int_of_str request.(header_timestamp) with
                          | Some t => Ok t | None => Raise authentication_failed end) in
  let! time := environ wall_time in
  let now := time / 1000000 in
  do! raise_if (settings.(tetragon_webhook_max_clock_skew_seconds) <? Z.abs (now - timestamp))
        authentication_failed;
  do! raise_if (negb (nonce_valid request.(header_nonce))) authentication_failed;
  let expected := signature_of request body in
  let supplied := removeprefix "sha256=" request.(header_signature) in
  do! raise_if (negb (str_len supplied =? 64)) authentication_failed;
  let! equal := lift (compare_digest expected supplied) in
  do! raise_if (negb equal) authentication_failed;
  do! claim_nonce request.(header_nonce);
  check_rate.
End guard.

(** ** The limiter of the browser-facing routes *)

(** [_development_counts], by hashed address: the count and the end of its window. *)
Record RateLimit := { rl_name : string; rl_limit : Z; rl_window_seconds : Z }.

Definition auth_rate_limit : RateLimit :=
  {| rl_name := "auth"; rl_limit := 20; rl_window_seconds := 60 |}.
Definition demo_rate_limit : RateLimit :=
  {| rl_name := "demo-trigger"; rl_limit := 5; rl_window_seconds := 60 |}.
Definition alertmanager_rate_limit : RateLimit :=
  {| rl_name := "alertmanager-webhook"; rl_limit := 120; rl_window_seconds := 60 |}.

Definition too_many_requests : exn := cw_error_status "RATE_LIMITED" "Too many requests" 429.

Definition client_identity (address : option string) : string :=
  str_take 24 (sha256_hex (default "unknown" address)).

Section limiter.
Context {X : Type} `{!GuardEnv X}.
Context (limit : RateLimit) (settings : Settings).
Abbreviation L := (M (X * list (string * (Z * Z)))).

Definition limiter_env {A} (f : X → A * X) : L A := λ '(x, d),
  let '(a, x) := f x in (Ok a, (x, d)).

Definition limit_development (identity : string) : L unit :=
  do! raise_if (negb (in_development settings))
        (cw_error_status "RATE_LIMIT_UNAVAILABLE" "Rate limit service unavailable" 503);
  let! counts := gets snd in
  let '(count, expires) := default (0, 0) (dict_get identity counts) in
  let! now := limiter_env mono_time in
  let '(count, expires) :=
    if expires <=? now then (0, now + seconds limit.(rl_window_seconds)) else (count, expires) in
  let count := count + 1 in
  do! modify (λ '(x, d), (x, dict_set identity (count, expires) d));
  raise_if (limit.(rl_limit) <? count) too_many_requests.

(** [RateLimit.__call__]. *)
Definition rate_limit (address : option string) : L unit :=
  let identity := client_identity address in
  let! time := limiter_env wall_time in
  let window := time / 1000000 / limit.(rl_window_seconds) in
  let key := "cloudward:rate:" +:+ limit.(rl_name) +:+ ":" +:+ identity +:+ ":" +:+
             str_of_Z window in
  let! configured := gets (λ s, redis_configured s.1) in
  if configured : bool then
    let! answer := limiter_env (redis_incr key) in
    match answer with
    | RedisOk count =>
        let! expired := (if count =? 1
                         then limiter_env (redis_expire key (limit.(rl_window_seconds) + 1))
                         else ret (RedisOk tt)) in
        match expired with
        | RedisOk _ => raise_if (limit.(rl_limit) <? count) too_many_requests
        | RedisError => limit_development identity
        | RedisNoAttribute => raise (PyError "AttributeError" "expire")
        | RedisRaised e => raise e
        end
    | RedisError => limit_development identity
    | RedisNoAttribute => raise (PyError "AttributeError" "incr")
    | RedisRaised e => raise e
    end
  else limit_development identity.
End limiter.

(** ** What the nonces promise *)

(** The memory of used nonces, as the authentication relies on it: a clock that the
    wall clock follows at a fixed offset, and which nonces are refused until when. *)
Class NonceMemory (X : Type) `{!GuardEnv X} (settings : Settings) := {
  guard_now : GuardState X → Z;
  wall_offset : Z;
  remembers : string → Z → GuardState X → Prop;
  (** Time does not run back, and a nonce is forgotten only when it expires. *)
  memory_kept : relation (GuardState X) := λ g g',
    guard_now g ≤ guard_now g' ∧
    ∀ n e, remembers n e g → remembers n e g' ∨ e ≤ guard_now g';
  wall_kept g : memory_kept g (environ wall_time g).2;
  wall_follows g : guard_now g + wall_offset ≤ (wall_time g.(gs_env)).1 ≤
                   guard_now (environ wall_time g).2 + wall_offset;
  claim_kept n : evolves memory_kept (claim_nonce settings n);
  rate_kept : evolves memory_kept (check_rate settings);
  (** A claim that succeeds is of a nonce that was not held, and holds it. *)
  claim_holds n g g' :
    claim_nonce settings n g = (Ok tt, g') →
    ∃ t, guard_now g ≤ t ≤ guard_now g' ∧
      remembers n (t + seconds (nonce_ttl settings)) g' ∧
      ∀ e, remembers n e g → e ≤ t;
}.

Section replay.
Context {X : Type} `{!GuardEnv X} (settings : Settings) `{!NonceMemory X settings}.

#[global] Instance memory_kept_evolution : Evolution (memory_kept (settings := settings)).
Proof.
  split; [intros g; split; [lia|by left]|].
  intros g1 g2 g3 [Ht1 H1] [Ht2 H2]. split; [lia|].
  intros n e [Hr|He]%H1; [by apply H2|right; lia].
Qed.

Lemma environ_wall_kept : evolves memory_kept (environ (wall_time (X:=X))).
Proof. intros g. apply wall_kept. Qed.

Lemma authenticate_kept r body : evolves memory_kept (authenticate settings r body).
Proof.
  unfold authenticate. repeat first [evolve_step | apply environ_wall_kept
    | apply claim_kept | apply rate_kept].
Qed.

(** Requests are served, and time passes between them. *)
Inductive served : relation (GuardState X) :=
| served_request r body g : served g (authenticate settings r body g).2
| served_idle g g' : memory_kept g g' → served g g'.

Lemma served_kept g g' : rtc served g g' → memory_kept g g'.
Proof.
  induction 1 as [g|g g2 g' Hs _ IH]; [apply evolves_refl, _|].
  eapply evolves_trans; [apply _| |exact IH]. destruct Hs; [apply authenticate_kept|done].
Qed.

(** What a request that was accepted satisfied. *)
Lemma authenticate_ok r body g g' :
  authenticate settings r body g = (Ok tt, g') →
  ∃ ts t, int_of_str r.(header_timestamp) = Some ts ∧
    removeprefix "sha256=" r.(header_signature) = signature_of settings r body ∧
    Z.abs ((wall_time g.(gs_env)).1 / 1000000 - ts) ≤
      settings.(tetragon_webhook_max_clock_skew_seconds) ∧
    guard_now g + wall_offset ≤ (wall_time g.(gs_env)).1 ≤ guard_now g' + wall_offset ∧
    guard_now g ≤ t ≤ guard_now g' ∧
    (∀ e, remembers r.(header_nonce) e g → e ≤ t) ∧
    memory_kept g g' ∧
    (remembers r.(header_nonce) (t + seconds (nonce_ttl settings)) g' ∨
     t + seconds (nonce_ttl settings) ≤ guard_now g').
Proof.
  intros Hrun. pose proof (evolves_run _ _ _ _ _ (authenticate_kept r body) Hrun) as Hkept.
  unfold authenticate in Hrun. apply bind_ok in Hrun as (ts & g0 & H0 & Hrun).
  unfold lift in H0. injection H0 as H0 <-.
  destruct (int_of_str (header_timestamp r)) as [ts'|]; [|done]. injection H0 as ->.
  apply bind_ok in Hrun as (time & g1 & H1 & Hrun).
  assert (time = (wall_time g.(gs_env)).1 ∧ g1 = (environ wall_time g).2) as [Htime Hg].
  { by rewrite H1; unfold environ in H1; destruct (wall_time _) as [a x]; injection H1 as <- _. }
  pose proof (wall_follows g) as Hw. rewrite <- Hg in Hw.
  pose proof (evolves_run _ _ _ _ _ environ_wall_kept H1) as [Hg1 Hr1].
  apply bind_ok in Hrun as ([] & g2 & H2 & Hrun). apply raise_if_ok in H2 as [H2 ->].
  apply bind_ok in Hrun as ([] & g3 & H3 & Hrun). apply raise_if_ok in H3 as [H3 ->].
  apply bind_ok in Hrun as ([] & g4 & H4 & Hrun). apply raise_if_ok in H4 as [H4 ->].
  apply bind_ok in Hrun as (eq & g5 & H5 & Hrun). unfold lift in H5. injection H5 as H5 <-.
  apply bind_ok in Hrun as ([] & g6 & H6 & Hrun). apply raise_if_ok in H6 as [H6 ->].
  apply bind_ok in Hrun as ([] & g7 & H7 & Hrun). boolify. subst.
  unfold compare_digest in H5. destruct (_ && _); [|done]. injection H5 as H5. boolify.
  pose proof (evolves_run _ _ _ _ _ rate_kept Hrun) as [Hg7 Hr7].
  pose proof (evolves_run _ _ _ _ _ (claim_kept _) H7) as [Hg6 Hr6].
  apply claim_holds in H7 as (t & Ht & Hheld & Hfree). exists ts, t.
  split_and!; [done|by symmetry|done|lia|lia|lia|lia| |done|].
  - intros e [He|He]%Hr1; [by apply Hfree|lia].
  - by apply Hr7.
Qed.

End replay.

(** ** The memories implement the promise *)

(** The clocks of one host: they do not run back, and the wall clock is the
    monotonic one at an offset. *)
Class HostClock (X : Type) `{!GuardEnv X} := {
  host_now : X → Z;
  host_offset : Z;
  host_mono x : host_now x ≤ (mono_time x).1 ≤ host_now (mono_time x).2;
  host_wall x : host_now x + host_offset ≤ (wall_time x).1 ≤ host_now (wall_time x).2 + host_offset;
}.

(** No Redis: the dictionary of the process. *)
Section development.
Context {X : Type} `{!GuardEnv X, !HostClock X} (settings : Settings).
Context (Hlocal : ∀ x : X, redis_configured x = false).

Definition dev_now (g : GuardState X) : Z := host_now g.(gs_env).
Definition dev_remembers (n : string) (e : Z) (g : GuardState X) : Prop :=
  dict_get n g.(development_nonces) = Some e.
Definition dev_kept : relation (GuardState X) := λ g g',
  dev_now g ≤ dev_now g' ∧ ∀ n e, dev_remembers n e g → dev_remembers n e g' ∨ e ≤ dev_now g'.

#[local] Instance dev_kept_evolution : Evolution dev_kept.
Proof.
  split; [intros g; split; [lia|by left]|].
  intros g1 g2 g3 [Ht1 H1] [Ht2 H2]. split; [lia|].
  intros n e [Hr|He]%H1; [by apply H2|right; lia].
Qed.

Lemma dev_wall : evolves dev_kept (environ (wall_time (X:=X))).
Proof.
  intros g. pose proof (host_wall g.(gs_env)). unfold environ, dev_kept, dev_now.
  destruct (wall_time (gs_env g)) as [t x]. simpl in *. split; [lia|by left].
Qed.

Lemma unexpired_get n e now l :
  dict_get n l = Some e → now < e → dict_get n (unexpired now l) = Some e.
Proof.
  intros Hn He. induction l as [|[k v] l IH]; simpl in *; [done|].
  destruct (String.eqb k n) eqn:Hk.
  - injection Hn as ->. assert (e <=? now = false) as -> by (apply Z.leb_gt; lia).
    simpl. by rewrite Hk.
  - destruct (v <=? now); simpl; [by apply IH|]. rewrite Hk. by apply IH.
Qed.

(** A run of the local claim, whatever its result. *)
Lemma claim_development_run n (g : GuardState X) :
  ∃ t, dev_now g ≤ t ∧
    let '(r, g') := claim_development settings n g in
    (g' = g ∨ t ≤ dev_now g') ∧ dev_kept g g' ∧
    (r = Ok tt → dev_remembers n (t + seconds (nonce_ttl settings)) g' ∧ t ≤ dev_now g' ∧
                 ∀ e, dev_remembers n e g → e ≤ t).
Proof.
  pose proof (host_mono g.(gs_env)) as Hm. exists (mono_time g.(gs_env)).1. split; [apply Hm|].
  unfold claim_development. unfold raise_if at 1. destruct (negb (in_development settings)); simpl.
  { split_and!; [by left|apply evolves_refl, _|done]. }
  unfold bind, environ, gets, modify, raise_if, raise, ret. unfold dev_now in *.
  destruct (mono_time (gs_env g)) as [t x]. simpl in *.
  assert (∀ k e, dict_get k (development_nonces g) = Some e →
            dict_get k (unexpired t (development_nonces g)) = Some e ∨ e ≤ host_now x) as Hkeep.
  { intros k e He. destruct (Z.le_gt_cases e t); [right; lia|left]. apply unexpired_get; [done|lia]. }
  unfold dict_has. destruct (dict_get n (unexpired t (development_nonces g))) as [e|] eqn:Hn; simpl.
  - split_and!; [by right; lia| |done]. split; unfold dev_now; simpl; [lia|exact Hkeep].
  - split_and!; [by right; lia| |intros _; split_and!].
    + split; unfold dev_now, dev_remembers; simpl; [lia|]. intros k e He.
      destruct (decide (k = n)) as [->|Hne].
      * apply Hkeep in He as [He|He]; [congruence|by right].
      * rewrite dict_get_set_ne by congruence. by apply Hkeep.
    + unfold dev_remembers. simpl. by rewrite dict_get_set_eq.
    + lia.
    + intros e He. destruct (Z.le_gt_cases e t); [done|].
      rewrite (unexpired_get n e t) in Hn; [done|exact He|lia].
Qed.

Lemma dev_claim n : evolves dev_kept (claim_nonce settings n).
Proof.
  intros g. unfold claim_nonce, bind, gets. rewrite Hlocal.
  destruct (claim_development_run n g) as (t & _ & Hrun).
  destruct (claim_development settings n g). by destruct Hrun as (_ & Hk & _).
Qed.

Lemma dev_rate : evolves dev_kept (check_rate settings).
Proof.
  intros g. pose proof (dev_wall g) as Hw. unfold check_rate, bind at 1.
  destruct (environ wall_time g) as [[time|e] g1]; [|done]. simpl in Hw.
  eapply evolves_trans; [tc_solve|exact Hw|].
  rewrite (bind_step _ _ g1 false g1) by (unfold gets; by rewrite Hlocal).
  unfold rate_development. apply evolves_bind; [tc_solve|evolve_step|intros ?].
  apply evolves_bind; [tc_solve|evolve_step|intros rates].
  apply evolves_bind; [tc_solve| |intros ?; evolve_step].
  apply evolves_modify. intros g2. split; [done|by left].
Qed.

Lemma dev_claim_holds n g g' :
  claim_nonce settings n g = (Ok tt, g') →
  ∃ t, dev_now g ≤ t ≤ dev_now g' ∧
    dev_remembers n (t + seconds (nonce_ttl settings)) g' ∧ ∀ e, dev_remembers n e g → e ≤ t.
Proof.
  unfold claim_nonce, bind, gets. rewrite Hlocal. intros Hrun.
  destruct (claim_development_run n g) as (t & Ht & Hc). rewrite Hrun in Hc.
  destruct Hc as (_ & _ & Hok). destruct (Hok eq_refl) as (? & ? & ?). by exists t.
Qed.

Lemma dev_follows (g : GuardState X) :
  dev_now g + host_offset ≤ (wall_time g.(gs_env)).1 ≤ dev_now (environ wall_time g).2 + host_offset.
Proof.
  pose proof (host_wall g.(gs_env)). unfold environ, dev_now. by destruct (wall_time (gs_env g)).
Qed.

Definition development_memory : NonceMemory X settings := {|
  guard_now := dev_now; wall_offset := host_offset; remembers := dev_remembers;
  wall_kept := dev_wall; wall_follows := dev_follows;
  claim_kept := dev_claim; rate_kept := dev_rate; claim_holds := dev_claim_holds;
|}.
End development.

(** Redis always configured, outside development: its keys.  What the code relies
    on: [SET key NX EX] succeeds exactly by creating the key for that long on the
    server's clock, and no other command used here drops a key before it expires. *)
Class RedisServer (X : Type) `{!GuardEnv X} := {
  redis_now : X → Z;
  redis_holds : string → Z → X → Prop;
  redis_kept : relation X := λ x x',
    redis_now x ≤ redis_now x' ∧ ∀ k e, redis_holds k e x → redis_holds k e x' ∨ e ≤ redis_now x';
  redis_wall x : redis_kept x (wall_time x).2;
  redis_incr_kept k x : redis_kept x (redis_incr k x).2;
  redis_expire_kept m ex x : redis_kept x (redis_expire (rate_key m) ex x).2;
  redis_set_kept k ex x : redis_kept x (redis_set_nx k ex x).2;
  redis_set_new k ex x x' :
    redis_set_nx k ex x = (RedisOk true, x') →
    ∃ t, redis_now x ≤ t ≤ redis_now x' ∧ redis_holds k (t + seconds ex) x' ∧
      ∀ e, redis_holds k e x → e ≤ t;
  redis_offset : Z;
  redis_follows x : redis_now x + redis_offset ≤ (wall_time x).1 ≤
                    redis_now (wall_time x).2 + redis_offset;
}.

Section redis.
Context {X : Type} `{!GuardEnv X, !RedisServer X} (settings : Settings).
Context (Hconfigured : ∀ x : X, redis_configured x = true).
Context (Hdeployed : in_development settings = false).

Definition shared_kept : relation (GuardState X) := λ g g', redis_kept g.(gs_env) g'.(gs_env).

#[local] Instance shared_kept_evolution : Evolution shared_kept.
Proof.
  split; [intros g; split; [lia|by left]|].
  intros g1 g2 g3 [Ht1 H1] [Ht2 H2]. split; [lia|].
  intros k e [Hr|He]%H1; [by apply H2|right; lia].
Qed.

Lemma environ_shared {A} (f : X → A * X) :
  (∀ x, redis_kept x (f x).2) → evolves shared_kept (environ f).
Proof. intros Hf g. specialize (Hf g.(gs_env)). unfold environ. by destruct (f _). Qed.

Lemma claim_unavailable n (g : GuardState X) :
  ∃ e, claim_development settings n g = (Raise e, g).
Proof. unfold claim_development, raise_if. rewrite Hdeployed. by eexists. Qed.

Lemma shared_claim n : evolves shared_kept (claim_nonce settings n).
Proof.
  unfold claim_nonce. apply evolves_bind; [tc_solve|evolve_step|intros configured].
  assert (evolves shared_kept (claim_development settings n)) as Hdev.
  { intros g. destruct (claim_unavailable n g) as [e ->]. apply evolves_refl, _. }
  destruct configured; [|done].
  apply evolves_bind; [tc_solve|apply environ_shared, redis_set_kept|intros []]; by evolve.
Qed.

Lemma shared_rate : evolves shared_kept (check_rate settings).
Proof.
  assert (∀ m, evolves shared_kept (rate_development settings m)) as Hdev.
  { intros m g. unfold rate_development, raise_if. rewrite Hdeployed. apply evolves_refl, _. }
  unfold check_rate. repeat first [evolve_step | apply Hdev
    | apply environ_shared; first [apply redis_wall|apply redis_incr_kept|apply redis_expire_kept]].
Qed.

(** The promise speaks of the nonces only, not of every key. *)
Definition nonces_kept : relation (GuardState X) := λ g g',
  redis_now g.(gs_env) ≤ redis_now g'.(gs_env) ∧
  ∀ n e, redis_holds (nonce_key n) e g.(gs_env) →
    redis_holds (nonce_key n) e g'.(gs_env) ∨ e ≤ redis_now g'.(gs_env).

Lemma shared_nonces {A} (m : M (GuardState X) A) : evolves shared_kept m → evolves nonces_kept m.
Proof. intros Hm g. destruct (Hm g) as [Ht Hk]. split; [done|]. intros n e. apply Hk. Qed.

Definition shared_claim_kept n := shared_nonces _ (shared_claim n).
Definition shared_rate_kept := shared_nonces _ shared_rate.
Lemma shared_wall (g : GuardState X) : nonces_kept g (environ wall_time g).2.
Proof. apply (shared_nonces (environ wall_time)), environ_shared, redis_wall. Qed.
Lemma shared_follows (g : GuardState X) :
  redis_now g.(gs_env) + redis_offset ≤ (wall_time g.(gs_env)).1 ≤
  redis_now (environ wall_time g).2.(gs_env) + redis_offset.
Proof.
  pose proof (redis_follows g.(gs_env)). unfold environ. by destruct (wall_time (gs_env g)).
Qed.

Lemma shared_claim_holds n (g g' : GuardState X) :
  claim_nonce settings n g = (Ok tt, g') →
  ∃ t, redis_now g.(gs_env) ≤ t ≤ redis_now g'.(gs_env) ∧
    redis_holds (nonce_key n) (t + seconds (nonce_ttl settings)) g'.(gs_env) ∧
    ∀ e, redis_holds (nonce_key n) e g.(gs_env) → e ≤ t.
Proof.
  unfold claim_nonce, bind at 1, gets. rewrite Hconfigured. intros Hrun.
  apply bind_ok in Hrun as (a & g1 & H1 & Hrun). unfold environ in H1.
  destruct (redis_set_nx _ _ _) as [a' x] eqn:Hset. injection H1 as -> <-.
  destruct a as [claimed| | |e]; [|destruct (claim_unavailable n (set_gs_env x g)) as [e He]; congruence..|done].
  apply raise_if_ok in Hrun as [Hc ->]. apply negb_false_iff in Hc as ->.
  by apply redis_set_new in Hset.
Qed.

Definition redis_memory : NonceMemory X settings := {|
  guard_now := λ g, redis_now g.(gs_env); wall_offset := redis_offset;
  remembers := λ n e g, redis_holds (nonce_key n) e g.(gs_env);
  wall_kept := shared_wall; wall_follows := shared_follows;
  claim_kept := shared_claim_kept; rate_kept := shared_rate_kept;
  claim_holds := shared_claim_holds;
|}.
End redis.

(** ** The rate counts *)

Section rate.
Context {X : Type} `{!GuardEnv X} (settings : Settings).
Abbreviation maximum := (settings.(tetragon_webhook_max_events_per_minute)).

(** The minutes of the requests, served one after another. *)
Fixpoint rate_run (minutes : list Z) (g : GuardState X) : list (res unit) :=
  match minutes with
  | [] => []
  | m :: minutes => let '(r, g') := rate_development settings m g in r :: rate_run minutes g'
  end.

Definition calls_in (m : Z) (past : list Z) : Z := Z.of_nat (count_occ Z.eq_dec past m).

(** The reference: a request is admitted when its minute has had fewer than the
    maximum, however many of those were refused. *)
Fixpoint admitted (past minutes : list Z) : list (res unit) :=
  match minutes with
  | [] => []
  | m :: minutes =>
      (if calls_in m past <? maximum then Ok tt else Raise rate_limited)
      :: admitted (m :: past) minutes
  end.

Lemma zdict_get_set k v k' d :
  zdict_get k' (zdict_set k v d) = if k =? k' then Some v else zdict_get k' d.
Proof.
  induction d as [|[k0 v0] d IH]; simpl; [done|].
  destruct (Z.eqb_spec k0 k) as [->|Hk]; simpl; [by destruct (k =? k')|].
  rewrite IH. destruct (Z.eqb_spec k0 k') as [->|]; [|done].
  by destruct (Z.eqb_spec k k'); [congruence|].
Qed.

Lemma zdict_get_recent k m d :
  m - 1 ≤ k → zdict_get k (List.filter (λ kv, negb (kv.1 <? m - 1)) d) = zdict_get k d.
Proof.
  intros Hk. induction d as [|[k0 v0] d IH]; simpl; [done|].
  destruct (Z.ltb_spec k0 (m - 1)); simpl; rewrite IH; [|done].
  by destruct (Z.eqb_spec k0 k); [lia|].
Qed.

(** The dictionary counts the calls of the minutes that are not past. *)
Definition counts (last : Z) (past : list Z) (d : list (Z * Z)) : Prop :=
  ∀ m, last ≤ m → default 0 (zdict_get m d) = calls_in m past.

Lemma rate_development_step m last past (g : GuardState X) :
  in_development settings = true → last ≤ m → counts last past g.(development_rates) →
  ∃ g', rate_development settings m g =
          (if calls_in m past <? maximum then Ok tt else Raise rate_limited, g') ∧
        counts m (m :: past) g'.(development_rates).
Proof.
  intros Hdev Hm Hc. unfold rate_development, raise_if at 1. rewrite Hdev. cbn [negb].
  assert (∀ k, m ≤ k → default 0 (zdict_get k (List.filter (λ kv, negb (kv.1 <? m - 1))
            g.(development_rates))) = calls_in k past) as Hkept.
  { intros k Hk. rewrite zdict_get_recent by lia. apply Hc. lia. }
  unfold bind, gets, modify, ret. generalize dependent (List.filter (λ kv : Z * Z, negb (kv.1 <? m - 1))
    g.(development_rates)). intros kept Hkept. rewrite Hkept by lia.
  exists (set_rates (zdict_set m (calls_in m past + 1) kept) g). split.
  - unfold raise_if, raise, ret.
    by destruct (Z.ltb_spec maximum (calls_in m past + 1)), (Z.ltb_spec (calls_in m past) maximum);
      try lia.
  - intros k Hk. simpl. rewrite zdict_get_set. unfold calls_in at 2. simpl.
    destruct (Z.eqb_spec m k), (Z.eq_dec m k); try congruence; simpl; [|by apply Hkept].
    subst k. unfold calls_in. lia.
Qed.

(** How many requests of a minute were admitted. *)
Definition admitted_in (m : Z) (minutes : list Z) (results : list (res unit)) : Z :=
  Z.of_nat (length (List.filter (λ p, is_ok p.2 && (p.1 =? m)) (combine minutes results))).

Lemma admitted_bound past minutes m :
  admitted_in m minutes (admitted past minutes) ≤ Z.max 0 (maximum - calls_in m past).
Proof.
  unfold admitted_in. revert past. induction minutes as [|m' minutes IH]; intros past; simpl; [lia|].
  specialize (IH (m' :: past)). unfold calls_in in IH at 1. simpl in IH.
  destruct (Z.ltb_spec (calls_in m' past) maximum); simpl;
    destruct (Z.eqb_spec m' m), (Z.eq_dec m' m); subst; simpl; try congruence;
    unfold calls_in in *; lia.
Qed.

End rate.

(** ** Concrete runs *)

(** A host whose clocks show the state, without Redis. *)
#[export] Instance bench_guard : GuardEnv Z := {|
  wall_time x := (x, x);
  mono_time x := (x, x);
  redis_configured _ := false;
  redis_set_nx _ _ x := (RedisError, x);
  redis_incr _ x := (RedisError, x);
  redis_expire _ _ x := (RedisError, x);
|}.
#[export] Program Instance bench_clock_host : HostClock Z :=
  {| host_now := λ x : Z, x; host_offset := 0 |}.
Solve Obligations with (simpl; lia).

Definition guard_settings : Settings := settings_in "development" false.
Definition bench_memory : NonceMemory Z guard_settings :=
  development_memory guard_settings (λ _, eq_refl).
Definition fresh_guard (now : Z) : GuardState Z :=
  {| gs_env := now; development_nonces := []; development_rates := [] |}.

(** A request of second 1000, stamped the whole clock skew ahead. *)
Definition ahead_request : WebhookRequest :=
  let unsigned := {| content_length := None; header_timestamp := "1300";
                     header_nonce := "nonce-0123456789-abc"; header_signature := EmptyString;
                     body_chunks := [] |} in
  {| content_length := None; header_timestamp := "1300"; header_nonce := "nonce-0123456789-abc";
     header_signature := "sha256=" +:+ signature_of guard_settings unsigned [123%N; 125%N];
     body_chunks := [] |}.
Definition accept (g : GuardState Z) : res unit * GuardState Z :=
  authenticate guard_settings ahead_request [123%N; 125%N] g.
Definition guard_at (second : Z) (g : GuardState Z) : GuardState Z :=
  set_gs_env (seconds second) g.
Definition first_accept : GuardState Z := (accept (fresh_guard (seconds 1000))).2.

(** The replay is refused one second before twice the skew has passed, and accepted
    in the second after: the nonce has expired while its timestamp still is within
    the skew. *)
Example replay_gap :
  (accept (fresh_guard (seconds 1000))).1 = Ok tt ∧
  (accept (guard_at 1599 first_accept)).1 = Raise replay_detected ∧
  (accept (guard_at 1600 first_accept)).1 = Ok tt ∧
  (accept (guard_at 1601 first_accept)).1 = Raise authentication_failed.
Proof. vm_compute. by split_and!. Qed.

Lemma guard_at_kept second g :
  g.(gs_env) ≤ seconds second →
  @memory_kept Z bench_guard guard_settings bench_memory g (guard_at second g).
Proof. intros Hg. split; [exact Hg|]. intros n e He. left. exact He. Qed.


Definition two_a_minute : Settings :=
  settings_where "test" false (seconds 1) (seconds 1) 2.

