(* ===== verification/Security.v ===== *)
(** * Runtime-security events

    [security/schemas.py], [security/normalization.py] and [security/service.py]:
    the strict schema of an event of the forwarder, its canonical fingerprint and
    its redacted payload, and its ingestion, which opens an incident and proposes a
    quarantine that nothing here carries out.  The caller commits. *)

From S2P Require Import Prelude PyFloat Json Sha256 Effects Rbac Actions Risk StateMachine.
From S2P Require Import Models World Redaction Config AuditLog History Memory Notifications.
From S2P Require Import ApprovalRequests Incidents Kubernetes Opa Mutations Pipeline Alerts.
From S2P Require Import Telemetry.

(** ** The schema *)

Record ProcessDetails := { binary : string; parent_binary : option string }.
Record NetworkDetails := {
  destination_host : string;
  destination_port : Z;
  protocol : string;
}.

Definition ProcessDetails_valid (p : ProcessDetails) : bool :=
  length_within 1 512 p.(binary) &&
  match p.(parent_binary) with Some s => str_len s <=? 512 | None => true end.
Definition NetworkDetails_valid (n : NetworkDetails) : bool :=
  length_within 1 253 n.(destination_host) && bounded 1 65535 n.(destination_port) &&
  bool_decide (n.(protocol) ∈ ["tcp"; "udp"]).

Definition ProcessDetails_dump (p : ProcessDetails) : json :=
  JObj [("binary", JStr p.(binary)); ("parent_binary", JOptStr p.(parent_binary))].
Definition NetworkDetails_dump (n : NetworkDetails) : json :=
  JObj [("destination_host", JStr n.(destination_host));
        ("destination_port", JInt n.(destination_port)); ("protocol", JStr n.(protocol))].

Record TetragonSecurityEvent := {
  ts_source : string;
  ts_event_type : SecurityCategory;
  ts_severity : string;
  ts_environment : Environment;
  ts_namespace : string;
  ts_pod : string;
  ts_workload : option string;
  ts_container : string;
  ts_process : option ProcessDetails;
  ts_network : option NetworkDetails;
  ts_policy : string;
  ts_timestamp : datetime;
  ts_evidence_ref : string;
  ts_workload_labels : list (string * string);
  ts_secrets_or_data_exposure : bool;
}.

(** [KUBERNETES_NAME.fullmatch]. *)
Definition name_edge (c : ascii) : bool := is_lower c || is_digit c.
Definition name_middle (c : ascii) : bool := name_edge c || Ascii.eqb c "-" || Ascii.eqb c ".".
Definition kubernetes_name (s : string) : bool :=
  match s, str_rev s with
  | String.String first _, String.String last _ =>
      name_edge first && str_forallb name_middle s && name_edge last
  | _, _ => false
  end.

(** [EVIDENCE_REFERENCE.fullmatch]. *)
Definition reference_char (c : ascii) : bool := is_alnum c || one_of "._:/-" c.
Definition evidence_reference (s : string) : bool :=
  starts_with "tetragon:" s &&
  let tail := String.substring 9 (String.length s - 9) s in
  (1 <=? str_len tail) && (str_len tail <=? 500) && str_forallb reference_char tail.

Definition ALLOWED_LABELS : list string :=
  ["cloudward.io/demo-target"; "cloudward.io/environment"; "cloudward.io/criticality";
   "app.kubernetes.io/name"].

Definition bound_labels (labels : list (string * string)) : bool :=
  (Z.of_nat (length labels) <=? 12) &&
  forallb (λ kv, bool_decide (kv.1 ∈ ALLOWED_LABELS)) labels &&
  forallb (λ kv, (str_len kv.1 <=? 128) && (str_len kv.2 <=? 128)) labels.

(** The policies that may report, with their category. *)
Definition EXPECTED_POLICIES : list (string * SecurityCategory) :=
  [("cloudward-s1-unexpected-shell", SUSPICIOUS_PROCESS);
   ("cloudward-s2-unexpected-egress", UNEXPECTED_EGRESS);
   ("cloudward-s3-privilege-attempt", PRIVILEGE_BEHAVIOR)].

Definition category_matches (e : TetragonSecurityEvent) : bool :=
  bool_decide (dict_get e.(ts_policy) EXPECTED_POLICIES = Some e.(ts_event_type)) &&
  String.eqb e.(ts_namespace) "cloudward-staging" &&
  bool_decide (e.(ts_environment) = ENV_STAGING) &&
  bool_decide (dict_get "cloudward.io/demo-target" e.(ts_workload_labels) = Some "true") &&
  (if bool_decide (e.(ts_event_type) = UNEXPECTED_EGRESS)
   then match e.(ts_network) with Some _ => true | None => false end
   else match e.(ts_process) with Some _ => true | None => false end).

Definition TetragonSecurityEvent_valid (e : TetragonSecurityEvent) : bool :=
  String.eqb e.(ts_source) "tetragon" &&
  bool_decide (e.(ts_severity) ∈ ["info"; "warning"; "high"; "critical"]) &&
  forallb (λ s, length_within 1 253 s && kubernetes_name s)
    ([e.(ts_namespace); e.(ts_pod); e.(ts_container)]) &&
  match e.(ts_workload) with Some w => (str_len w <=? 253) && kubernetes_name w | None => true end &&
  match e.(ts_process) with Some p => ProcessDetails_valid p | None => true end &&
  match e.(ts_network) with Some n => NetworkDetails_valid n | None => true end &&
  length_within 1 253 e.(ts_policy) && length_within 1 512 e.(ts_evidence_ref) &&
  evidence_reference e.(ts_evidence_ref) && bound_labels e.(ts_workload_labels) &&
  category_matches e.

(** ** Normalization *)

(** The four further patterns. *)
Definition SECRET_PATTERNS : list regex :=
  let not_space := RPlus (RNot is_space) in
  [ (* \b(?:bearer|basic)\s+[A-Za-z0-9._~+/=-]+ *)
    RSeqs [RWordB; RAlt (RLitI "bearer") (RLitI "basic"); RPlus (RChr is_space);
           RPlus (RChr (λ c, is_alnum c || one_of "._~+/=-" c))];
    (* (?:password|passwd|token|secret|api[_-]?key)\s*[=:]\s*[^\s,;]+ *)
    RSeqs [RAlts [RLitI "password"; RLitI "passwd"; RLitI "token"; RLitI "secret";
                  RSeqs [RLitI "api"; ROpt (RChr (one_of "_-")); RLitI "key"]];
           RSpaces; RChr (one_of "=:"); RSpaces; RPlus (RNot (λ c, is_space c || one_of ",;" c))];
    (* \b(?:postgres(?:ql)?|mysql|redis|mongodb(?:\+srv)?)://[^\s]+ *)
    RSeqs [RWordB;
           RAlts [RSeq (RLitI "postgres") (ROpt (RLitI "ql")); RLitI "mysql"; RLitI "redis";
                  RSeq (RLitI "mongodb") (ROpt (RLitI "+srv"))];
           RLitI "://"; not_space];
    (* -----BEGIN [A-Z ]*PRIVATE KEY-----[\s\S]*?-----END [A-Z ]*PRIVATE KEY----- *)
    RSeqs [RLit "-----BEGIN "; RStar true (RChr (λ c, is_upper c || Ascii.eqb c " "));
           RLit "PRIVATE KEY-----"; RStar false (RChr (λ _, true)); RLit "-----END ";
           RStar true (RChr (λ c, is_upper c || Ascii.eqb c " ")); RLit "PRIVATE KEY-----"] ].

Definition redact_security_text (s : string) : string :=
  string_of_list_ascii
    (foldl (λ s r, rsub (length s) r (list_ascii_of_string REDACTED) None s)
       (list_ascii_of_string s) SECRET_PATTERNS).

(** [redact_security_value], by a bound on the depth: the redaction it begins with
    cuts every value at [MAX_REDACTION_DEPTH]. *)
Fixpoint redact_security_levels (levels : nat) (value : json) : json :=
  match levels with
  | O => redact value
  | S levels =>
      match redact value with
      | JStr s => JStr (redact_security_text s)
      | JObj d => JObj (map (λ kv, (kv.1, redact_security_levels levels kv.2)) d)
      | JArr l => JArr (map (redact_security_levels levels) l)
      | j => j
      end
  end.
Definition redact_security_value (value : json) : json :=
  redact_security_levels (S MAX_REDACTION_DEPTH) value.

Definition security_payload (e : TetragonSecurityEvent) : dict :=
  [("process", opt_json ProcessDetails_dump e.(ts_process));
   ("network", opt_json NetworkDetails_dump e.(ts_network));
   ("workload_labels", JStrDict e.(ts_workload_labels));
   ("secrets_or_data_exposure", JBool e.(ts_secrets_or_data_exposure))].

(** [normalized_payload]. *)
Definition normalized_payload (e : TetragonSecurityEvent) : dict :=
  match redact_security_value (JObj (security_payload e)) with JObj d => d | _ => [] end.

(** [event_fingerprint]. *)
Definition event_canonical (e : TetragonSecurityEvent) (window_seconds : Z) : json :=
  JObj [("source", JStr e.(ts_source));
        ("event_type", JStr (SecurityCategory_value e.(ts_event_type)));
        ("namespace", JStr e.(ts_namespace)); ("pod", JStr e.(ts_pod));
        ("container", JStr e.(ts_container)); ("policy", JStr e.(ts_policy));
        ("process", opt_json ProcessDetails_dump e.(ts_process));
        ("network", opt_json NetworkDetails_dump e.(ts_network));
        ("bucket", JInt (whole_seconds e.(ts_timestamp) / window_seconds))].
Definition event_fingerprint (e : TetragonSecurityEvent) (window_seconds : Z) : string :=
  sha256_hex (dumps (event_canonical e window_seconds)).

(** ** Tables of the service *)

Definition incident_title (e : TetragonSecurityEvent) : string :=
  match e.(ts_event_type) with
  | SUSPICIOUS_PROCESS => "Unexpected shell process detected"
  | UNEXPECTED_EGRESS => "Unexpected internal egress detected"
  | PRIVILEGE_BEHAVIOR => "Privilege-related behavior detected"
  end +:+ " " +:+ String.String "183" (" " +:+ e.(ts_pod)).

Definition security_runbook_id (c : SecurityCategory) : string :=
  match c with
  | SUSPICIOUS_PROCESS => "security.suspicious-shell-pattern"
  | UNEXPECTED_EGRESS => "security.unexpected-egress"
  | PRIVILEGE_BEHAVIOR => "security.privilege-related-behavior"
  end.

Definition diagnostic_confidence (c : SecurityCategory) : float :=
  match c with
  | SUSPICIOUS_PROCESS => float_of_decimal 96 (-2)
  | UNEXPECTED_EGRESS => float_of_decimal 94 (-2)
  | PRIVILEGE_BEHAVIOR => float_of_decimal 95 (-2)
  end.

Definition CRITICALITY : string := "cloudward.io/criticality".
Definition criticality (labels : list (string * string)) : string :=
  default "low" (dict_get CRITICALITY labels).

Definition event_sensitivity (e : TetragonSecurityEvent) : Sensitivity :=
  let c := criticality e.(ts_workload_labels) in
  if bool_decide (e.(ts_event_type) = PRIVILEGE_BEHAVIOR) || e.(ts_secrets_or_data_exposure) ||
     bool_decide (c ∈ ["high"; "critical"]) then SENS_HIGH
  else if bool_decide (e.(ts_event_type) = UNEXPECTED_EGRESS) || String.eqb c "medium"
  then SENS_MODERATE
  else SENS_LOW.

Definition SECURITY_EVENTS_TOTAL (category severity result : string) : list string :=
  ["cloudward_security_events_total"; category; severity; result].
Definition WEBHOOK_EVENTS_TOTAL (source result : string) : list string :=
  ["cloudward_webhook_events_total"; source; result].

(** ** Ingestion *)

Record IngestionResult := { ing_event : uuid; ing_duplicate : bool }.

(** The rows a new event may join: [uq_security_events_source_fingerprint]. *)
Definition reported_as (source fingerprint : string) (e : SecurityEvent) : bool :=
  String.eqb e.(sev_source) source && String.eqb e.(sev_fingerprint) fingerprint.
Definition security_event_constraints (e : SecurityEvent) (t : gmap uuid SecurityEvent) : bool :=
  forallb (λ e', negb (reported_as e.(sev_source) e.(sev_fingerprint) e')) (rows t).

(** [dict(payload.get("workload_labels") or {})], the values being strings. *)
Definition string_entries (d : dict) : list (string * string) :=
  omap (λ kv, match kv.2 with JStr s => Some (kv.1, s) | _ => None end) d.
Definition payload_labels (payload : dict) : list (string * string) :=
  match dict_get "workload_labels" payload with Some (JObj d) => string_entries d | _ => [] end.

Definition quarantine_risk_context (environment : Environment) (confidence : float)
    (sensitivity : Sensitivity) (action : ActionType) : RiskContext :=
  {| ctx_environment := Environment_value environment; ctx_action := action;
     ctx_target_count := 1; ctx_reversible := Some true; ctx_confidence := confidence;
     ctx_sensitivity := sensitivity; ctx_destructive_override := false |}.

Definition quarantine_policy_input (environment : Environment) (action : ActionType)
    (risk : RiskResult) (confidence : float) (namespace pod : string)
    (labels : list (string * string)) (managed : bool) (approval : ApprovalInput) : PolicyInput :=
  {| pi_environment := Environment_value environment; pi_action := action;
     pi_risk_score := risk.(score); pi_risk_factors := risk.(factors);
     pi_confidence := confidence; pi_blast_radius := 1; pi_reversible := true;
     pi_service_criticality := criticality labels;
     pi_target := {| ti_namespace := namespace; ti_pod_name := pod; ti_labels := labels;
                     ti_controller_managed := managed; ti_target_pods := 1 |};
     pi_approval := approval |}.

(** [str(decision.model_dump(...).get("decision", "ALLOW" or "DENY"))]. *)
Definition decision_name (r : PolicyResult) : string :=
  match dict_get "decision" r.(pr_extra) with
  | Some j => py_str j
  | None => if r.(pr_allowed) then "ALLOW" else "DENY"
  end.

Section ingestion.
Context {X : Type} `{!Runtime X, !Pydantic, !PolicyServer X}.
Context (settings : Settings) (opa : OPAClient) (event : TetragonSecurityEvent).

Definition FORWARDER : string := "tetragon-forwarder".
Definition fingerprint_of : string :=
  event_fingerprint event settings.(security_dedup_window_seconds).
Definition security_correlation : string := "security-" +:+ str_take 24 fingerprint_of.

Definition count_event (category severity result : string) : M (World X) unit :=
  do! metric_add (SECURITY_EVENTS_TOTAL category severity result) 1;
  metric_add (WEBHOOK_EVENTS_TOTAL "tetragon" result) 1.

(** The audit event and the count of a repeated report. *)
Definition report_duplicate (id : uuid) : M (World X) unit :=
  let! e := the_security_event id in
  do! record_audit "SECURITY_EVENT_DEDUPLICATED" e.(sev_correlation_id) e.(sev_incident_id)
        FORWARDER ACTOR_SERVICE None None None None "SUCCEEDED"
        [("fingerprint", JStr fingerprint_of); ("dedup_count", JInt e.(sev_dedup_count))];
  do! flush;
  count_event (SecurityCategory_value e.(sev_event_type)) e.(sev_severity) "deduplicated".

(** The event is known. *)
Definition deduplicate_event (id : uuid) : M (World X) IngestionResult :=
  let! known := the_security_event id in
  do! set_security_event id (set_sev_dedup_count (known.(sev_dedup_count) + 1));
  let! now := utc_now in
  do! set_security_event id (set_sev_last_seen_at now);
  do! report_duplicate id;
  ret {| ing_event := id; ing_duplicate := true |}.

(** The incident of a new event. *)
Definition open_security_incident : M (World X) uuid :=
  let! id := create_incident security_correlation
      ("security." +:+ lower (SecurityCategory_value event.(ts_event_type)))
      (incident_title event) event.(ts_environment)
      (Some ("Tetragon policy " +:+ event.(ts_policy) +:+
             " detected controlled runtime behavior in " +:+ event.(ts_namespace) +:+ "/" +:+
             event.(ts_pod) +:+ "."))
      None None FORWARDER ACTOR_SERVICE in
  do! set_incident id (set_inc_severity event.(ts_severity));
  do! when (String.eqb (lower event.(ts_severity)) "critical")
        (do! queue_incident_notification settings "critical_incident_detected" id
               (Some [("service", JStr (opt_str_or event.(ts_workload) event.(ts_pod)));
                      ("cause", JStr event.(ts_policy))]);
         ret tt);
  do! set_incident id (λ i, set_inc_runbook_version (Some 1)
        (set_inc_runbook_id (Some (security_runbook_id event.(ts_event_type))) i));
  ret id.

Definition new_security_event (id incident : uuid) (created seen : datetime) : SecurityEvent :=
  {| sev_id := id; sev_created_at := created; sev_correlation_id := security_correlation;
     sev_incident_id := Some incident; sev_source := event.(ts_source);
     sev_fingerprint := fingerprint_of; sev_event_type := event.(ts_event_type);
     sev_severity := event.(ts_severity); sev_environment := event.(ts_environment);
     sev_namespace := event.(ts_namespace); sev_pod := event.(ts_pod);
     sev_workload := event.(ts_workload); sev_container_name := event.(ts_container);
     sev_policy := event.(ts_policy); sev_evidence_ref := event.(ts_evidence_ref);
     sev_occurred_at := event.(ts_timestamp); sev_last_seen_at := seen; sev_dedup_count := 1;
     sev_risk_score := None; sev_policy_decision := None;
     sev_containment_status := NOT_PROPOSED; sev_payload := JObj (normalized_payload event) |}.

(** Audit events of the ingestion: of the forwarder, and with the default actor. *)
Definition audit_ingestion (incident : uuid) (event_type actor : string) (kind : ActorType)
    (metadata : dict) : M (World X) unit :=
  record_audit event_type security_correlation (Some incident) actor kind None None None None
    "SUCCEEDED" metadata.
Definition audit_quarantine (incident : uuid) (event_type : string) (risk : Z)
    (decision : option string) (metadata : dict) : M (World X) unit :=
  record_audit event_type security_correlation (Some incident) "cloudward" ACTOR_SYSTEM None
    (Some (ActionType_value APPLY_QUARANTINE)) (Some risk) decision "SUCCEEDED" metadata.

Definition step_to (incident : uuid) (target : IncidentState) (details : option dict)
  : M (World X) unit :=
  change_incident_state settings incident target "cloudward" ACTOR_SYSTEM details false.

(** Store the event. *)
Definition insert_event (incident : uuid) : M (World X) uuid :=
  let! seen := utc_now in
  let! id := uuid4 in
  let! created := utc_now in
  let e := new_security_event id incident created seen in
  do! insert_row security_events upd_security_events (security_event_constraints e) id e;
  ret id.

(** Its audit events and its evidence. *)
Definition describe_event (incident id : uuid) : M (World X) unit :=
  do! audit_ingestion incident "TETRAGON_DETECTION_RECEIVED" FORWARDER ACTOR_SERVICE
        [("event_id", JStr (uuid_str id)); ("policy", JStr event.(ts_policy))];
  do! audit_ingestion incident "SECURITY_EVENT_NORMALIZED" "cloudward-security" ACTOR_SYSTEM
        [("event_type", JStr (SecurityCategory_value event.(ts_event_type)));
         ("fingerprint", JStr fingerprint_of)];
  let! eid := uuid4 in
  let! at_ := utc_now in
  update_db (upd_evidence_snapshots (λ l, l ++
    [{| evd_id := eid; evd_incident_id := incident; evd_created_at := at_;
        evd_correlation_id := security_correlation; evd_evidence_type := SECURITY_EVENT;
        evd_summary := SecurityCategory_value event.(ts_event_type) +:+ " observed by " +:+
                       event.(ts_policy) +:+ " on " +:+ event.(ts_namespace) +:+ "/" +:+
                       event.(ts_pod);
        evd_reference := Some event.(ts_evidence_ref); evd_query := None;
        evd_window_start := None; evd_window_end := None; evd_phase := PHASE_INCIDENT;
        evd_payload := JObj (dict_update
          [("security_event_id", JStr (uuid_str id)); ("policy", JStr event.(ts_policy));
           ("severity", JStr event.(ts_severity))] (normalized_payload event));
        evd_collected_by := FORWARDER |}])).

Definition record_event (incident : uuid) : M (World X) uuid :=
  let! id := insert_event incident in
  do! flush;
  do! describe_event incident id;
  ret id.

(** Assess the risk of a quarantine. *)
Definition assess_quarantine (incident : uuid) : M (World X) RiskResult :=
  do! step_to incident COLLECTING_EVIDENCE None;
  do! step_to incident CLASSIFYING None;
  let! risk := lift (calculate_risk
    (quarantine_risk_context event.(ts_environment) (diagnostic_confidence event.(ts_event_type))
       (event_sensitivity event) APPLY_QUARANTINE)) in
  do! set_incident incident (set_inc_risk_score (Some risk.(score)));
  do! audit_quarantine incident "SECURITY_RISK_CALCULATED" risk.(score) None (risk_dict risk);
  do! step_to incident ACTION_PROPOSED None;
  ret risk.

(** Store the proposal. *)
Definition insert_proposal (incident event_id : uuid) (risk : RiskResult) : M (World X) uuid :=
  let! id := uuid4 in
  let! now := utc_now in
  do! insert_row action_proposals upd_action_proposals
        (λ _, (0 <=? risk.(score)) && (risk.(score) <=? 100)) id
        {| prop_id := id; prop_created_at := now; prop_incident_id := incident;
           prop_correlation_id := security_correlation; prop_action_type := APPLY_QUARANTINE;
           prop_parameters := [("security_event_id", JStr (uuid_str event_id));
                               ("namespace", JStr event.(ts_namespace));
                               ("pod", JStr event.(ts_pod)); ("target_count", JInt 1);
                               ("policy", JStr "targeted-cilium-egress-deny")];
           prop_status := PENDING; prop_risk_score := risk.(score);
           prop_risk_calculation := risk_dict risk; prop_proposed_by := "cloudward-security" |};
  ret id.

Definition propose_quarantine (incident event_id : uuid) : M (World X) (uuid * RiskResult) :=
  let! risk := assess_quarantine incident in
  let! id := insert_proposal incident event_id risk in
  do! flush;
  do! audit_quarantine incident "QUARANTINE_PROPOSED" risk.(score) None
        [("proposal_id", JStr (uuid_str id)); ("target_pods", JInt 1)];
  do! step_to incident POLICY_EVALUATION None;
  ret (id, risk).

(** Store a decision of the policy on the event. *)
Definition record_evaluation (incident event_id proposal : uuid) (risk : RiskResult)
    (policy_input : PolicyInput) (decision : PolicyResult) : M (World X) unit :=
  do! set_security_event event_id (λ e, set_sev_policy_decision (Some (decision_name decision))
                                          (set_sev_risk_score (Some risk.(score)) e));
  let! id := uuid4 in
  let! now := utc_now in
  do! update_db (upd_policy_decisions (λ l, l ++
    [{| pol_id := id; pol_created_at := now; pol_incident_id := incident;
        pol_proposal_id := proposal; pol_correlation_id := security_correlation;
        pol_policy_path := settings.(opa_decision_path); pol_allowed := decision.(pr_allowed);
        pol_requires_approval := decision.(pr_requires_approval);
        pol_reason := decision.(pr_reason); pol_input_digest := policy_digest policy_input;
        pol_result := PolicyResult_dump decision |}]));
  audit_quarantine incident "SECURITY_OPA_EVALUATED" risk.(score)
    (Some (decision_name decision))
    [("requires_approval", JBool decision.(pr_requires_approval));
     ("reason", JStr decision.(pr_reason))].

(** Ask the policy. *)
Definition decide_quarantine (incident event_id proposal : uuid) (risk : RiskResult)
  : M (World X) PolicyResult :=
  let labels := payload_labels (normalized_payload event) in
  let! policy_input := lift (validated "PolicyInput" PolicyInput_valid
    (quarantine_policy_input event.(ts_environment) APPLY_QUARANTINE risk
       (diagnostic_confidence event.(ts_event_type)) event.(ts_namespace) event.(ts_pod) labels
       true no_approval)) in
  let! decision := evaluate opa policy_input in
  do! record_evaluation incident event_id proposal risk policy_input decision;
  ret decision.

(** What the decision leads to. *)
Definition settle (incident event_id proposal : uuid) (decision : PolicyResult)
  : M (World X) unit :=
  if decision.(pr_allowed) then
    set_security_event event_id (set_sev_containment_status PROPOSED)
  else if decision.(pr_requires_approval) then
    do! set_security_event event_id (set_sev_containment_status CONTAINMENT_AWAITING_APPROVAL);
    step_to incident AWAITING_APPROVAL None
  else
    do! set_proposal proposal (set_prop_status REJECTED);
    step_to incident BLOCKED (Some [("policy_reason", JStr decision.(pr_reason))]).

(** The stream event is added directly, without the redaction of the outbox. *)
Definition publish_event (incident event_id : uuid) : M (World X) unit :=
  let! e := the_security_event event_id in
  let! now := utc_now in
  do! update_db (upd_stream_events (λ l, l ++
    [{| str_id := Z.of_nat (length l) + 1; str_created_at := now;
        str_event_type := "security.event"; str_incident_id := Some incident;
        str_payload := JObj
          [("type", JStr "security.event"); ("security_event_id", JStr (uuid_str event_id));
           ("incident_id", JStr (uuid_str incident));
           ("event_type", JStr (SecurityCategory_value e.(sev_event_type)));
           ("severity", JStr e.(sev_severity)); ("namespace", JStr e.(sev_namespace));
           ("containment_status", JStr (ContainmentStatus_value e.(sev_containment_status)))] |}]));
  flush.

(** [ingest_security_event]. *)
Definition ingest_security_event : M (World X) IngestionResult :=
  let! existing := query (λ db,
    select_one (reported_as event.(ts_source) fingerprint_of) db.(security_events)) in
  match existing with
  | Some e => deduplicate_event e.(sev_id)
  | None =>
      let! incident := open_security_incident in
      let! event_id := record_event incident in
      let! '(proposal, risk) := propose_quarantine incident event_id in
      let! decision := decide_quarantine incident event_id proposal risk in
      do! settle incident event_id proposal decision;
      do! publish_event incident event_id;
      do! count_event (SecurityCategory_value event.(ts_event_type)) event.(ts_severity) "accepted";
      ret {| ing_event := event_id; ing_duplicate := false |}
  end.
End ingestion.

(** ** Properties *)

(** What a decision leads to: the state of the incident, of the containment and of
    the proposal. *)
Definition settlement (allowed requires_approval : bool)
  : IncidentState * ContainmentStatus * RecordStatus :=
  if allowed then (POLICY_EVALUATION, PROPOSED, PENDING)
  else if requires_approval then (AWAITING_APPROVAL, CONTAINMENT_AWAITING_APPROVAL, PENDING)
  else (BLOCKED, NOT_PROPOSED, REJECTED).

Section properties.
Context {X : Type} `{!Runtime X, !Pydantic, !PolicyServer X}.
Context (settings : Settings) (opa : OPAClient) (event : TetragonSecurityEvent).
Abbreviation ingest := (ingest_security_event (X:=X) settings opa event).
Abbreviation harmless m := (evolves (mutates (X:=X) (λ _, False)) m).
Abbreviation same_ok f m := (evolves (same_db (X:=X) f) m).

Lemma move_harmless i s d : harmless (step_to settings i s d).
Proof. apply change_incident_state_mutates. Qed.
Hint Resolve move_harmless : cw_pres.

Ltac stages :=
  unfold ingest_security_event, deduplicate_event, report_duplicate, open_security_incident, create_incident,
    add_incident_event, record_event, insert_event, describe_event, propose_quarantine,
    assess_quarantine, insert_proposal, decide_quarantine, record_evaluation, settle, publish_event,
    count_event, audit_ingestion, audit_quarantine.

Lemma ingest_harmless : harmless ingest.
Proof. stages. evolve. Qed.

(** The tables the stages leave alone. *)
Lemma move_events i s d : same_ok security_events (step_to settings i s d).
Proof. apply change_incident_state_events. Qed.
Lemma move_proposals i s d : same_ok action_proposals (step_to settings i s d).
Proof. apply change_incident_state_proposals. Qed.
Hint Resolve move_events move_proposals : cw_pres.

Lemma open_events : same_ok security_events (open_security_incident settings event).
Proof.
  stages. unfold queue_incident_notification, queue, queue_channel, ensure_runtime_approval.
  evolve.
Qed.
Lemma propose_events i e : same_ok security_events (propose_quarantine settings event i e).
Proof. stages. evolve. Qed.
Lemma decide_incidents i e p r : same_ok incidents (decide_quarantine settings opa event i e p r).
Proof. stages. evolve. Qed.
Lemma decide_proposals i e p r :
  same_ok action_proposals (decide_quarantine settings opa event i e p r).
Proof. stages. evolve. Qed.
Lemma publish_same {A} (f : Database → A) i e :
  (∀ g d, f (upd_stream_events g d) = f d) → same_ok f (publish_event i e).
Proof. intros Hf. stages. evolve. intros w. apply Hf. Qed.
Lemma count_same {A} (f : Database → A) c s r : same_ok f (count_event c s r).
Proof. stages. evolve. Qed.

Lemma record_event_run i (w w' : World X) id :
  record_event settings event i w = (Ok id, w') →
  w.(work).(security_events) !! id = None ∧
  ∃ created seen, w'.(work).(security_events) =
    <[id := new_security_event settings event id i created seen]> w.(work).(security_events).
Proof.
  unfold record_event. intros Hrun. apply bind_ok in Hrun as (id' & w1 & H1 & Hrun).
  apply bind_ok in Hrun as (u & w2 & H2 & Hrun). apply ret_ok in H2 as [_ ->].
  apply bind_ok in Hrun as (v & w3 & H3 & Hrun). apply ret_ok in Hrun as [-> ->].
  assert (same_ok security_events (describe_event settings event i id')) as Hd by (stages; evolve).
  apply (evolves_run _ _ _ _ _ Hd) in H3. unfold same_db, stable in H3. rewrite H3.
  unfold insert_event in H1. run_inv H1. split; [done|]. eexists _, _. reflexivity.
Qed.
Lemma audit_decisions i t r d m :
  same_ok policy_decisions (audit_quarantine settings event i t r d m).
Proof. stages. evolve. Qed.
Lemma audit_events_same i t r d m :
  same_ok security_events (audit_quarantine settings event i t r d m).
Proof. stages. evolve. Qed.
Lemma audit_proposals i t r d m :
  same_ok action_proposals (audit_quarantine settings event i t r d m).
Proof. stages. evolve. Qed.

Lemma insert_proposal_run i e risk (w w' : World X) id :
  insert_proposal settings event i e risk w = (Ok id, w') →
  ∃ p, w'.(work).(action_proposals) !! id = Some p ∧ p.(prop_action_type) = APPLY_QUARANTINE ∧
    p.(prop_incident_id) = i ∧ p.(prop_status) = PENDING.
Proof.
  unfold insert_proposal. intros Hrun. run_inv Hrun.
  eexists. simpl. rewrite lookup_insert_eq. done.
Qed.

(** A quarantine that was proposed left its incident in evaluation. *)
Lemma propose_quarantine_run i e (w w' : World X) id risk :
  propose_quarantine settings event i e w = (Ok (id, risk), w') →
  (∃ j, w'.(work).(incidents) !! i = Some j ∧ j.(inc_state) = POLICY_EVALUATION) ∧
  ∃ p, w'.(work).(action_proposals) !! id = Some p ∧ p.(prop_action_type) = APPLY_QUARANTINE ∧
    p.(prop_incident_id) = i ∧ p.(prop_status) = PENDING.
Proof.
  unfold propose_quarantine. intros Hrun.
  apply bind_ok in Hrun as (risk' & w1 & _ & Hrun).
  apply bind_ok in Hrun as (id' & w2 & H2 & Hrun).
  apply bind_ok in Hrun as (u3 & w3 & H3 & Hrun).
  apply bind_ok in Hrun as (u4 & w4 & H4 & Hrun).
  apply bind_ok in Hrun as (u5 & w5 & H5 & Hrun). apply ret_ok in Hrun as [[= -> ->] ->].
  split; [by apply change_incident_state_reached in H5|].
  apply insert_proposal_run in H2 as (p & Hp & ?). exists p. split; [|done].
  apply (evolves_run _ _ _ _ _ (move_proposals _ _ _)) in H5.
  apply (evolves_run _ _ _ _ _ (audit_proposals _ _ _ _ _)) in H4. unfold same_db, stable in H4, H5.
  run_inv H3. rewrite H5, H4. done.
Qed.

(** The decision is stored; it is the one returned. *)
Lemma decide_quarantine_run i e id risk (w w' : World X) d :
  decide_quarantine settings opa event i e id risk w = (Ok d, w') →
  (∃ p, p ∈ w'.(work).(policy_decisions) ∧ p.(pol_proposal_id) = id ∧
    p.(pol_allowed) = d.(pr_allowed) ∧ p.(pol_requires_approval) = d.(pr_requires_approval)) ∧
  w'.(work).(security_events) = alter (λ e, set_sev_policy_decision (Some (decision_name d))
    (set_sev_risk_score (Some risk.(score)) e)) e w.(work).(security_events).
Proof.
  unfold decide_quarantine. cbv zeta. intros Hrun.
  apply bind_ok in Hrun as (pi & w1 & H1 & Hrun). injection H1 as _ ->.
  apply bind_ok in Hrun as (d' & w2 & H2 & Hrun).
  apply bind_ok in Hrun as (u & w3 & H3 & Hrun). apply ret_ok in Hrun as [-> ->].
  assert (same_ok security_events (evaluate opa pi)) as He by (unfold evaluate; evolve).
  apply (evolves_run _ _ _ _ _ He) in H2. unfold same_db, stable in H2.
  unfold record_evaluation in H3.
  apply bind_ok in H3 as (u1 & w4 & H4 & H3). run_inv H4.
  apply bind_ok in H3 as (n & w5 & H5 & H3). run_inv H5.
  apply bind_ok in H3 as (t & w6 & H6 & H3). run_inv H6.
  apply bind_ok in H3 as (u2 & w7 & H7 & H3). run_inv H7.
  split.
  - apply (evolves_run _ _ _ _ _ (audit_decisions _ _ _ _ _)) in H3. unfold same_db, stable in H3.
    rewrite H3. simpl. eexists. split; [apply elem_of_app; right; by apply list_elem_of_singleton|].
    done.
  - apply (evolves_run _ _ _ _ _ (audit_events_same _ _ _ _ _)) in H3.
    unfold same_db, stable in H3. rewrite H3. simpl. by rewrite H2.
Qed.

Lemma settle_run i e id d (w w' : World X) u j ev p :
  settle settings i e id d w = (Ok u, w') →
  w.(work).(incidents) !! i = Some j → j.(inc_state) = POLICY_EVALUATION →
  w.(work).(security_events) !! e = Some ev → ev.(sev_containment_status) = NOT_PROPOSED →
  w.(work).(action_proposals) !! id = Some p → p.(prop_status) = PENDING →
  ∃ j' c st, w'.(work).(incidents) !! i = Some j' ∧
    w'.(work).(security_events) !! e = Some (set_sev_containment_status c ev) ∧
    w'.(work).(action_proposals) !! id = Some (set_prop_status st p) ∧
    (j'.(inc_state), c, st) = settlement d.(pr_allowed) d.(pr_requires_approval).
Proof.
  unfold settle, settlement. intros Hrun Hj Hs He Hc Hp Ht.
  destruct d.(pr_allowed); [|destruct d.(pr_requires_approval)].
  - run_inv Hrun. simpl. exists j, PROPOSED, PENDING.
    rewrite lookup_alter_eq, He, Hs. destruct p; simpl in *; by subst.
  - apply bind_ok in Hrun as (v & w1 & H1 & Hrun). run_inv H1.
    pose proof (evolves_run _ _ _ _ _ (move_events _ _ _) Hrun) as E1.
    pose proof (evolves_run _ _ _ _ _ (move_proposals _ _ _) Hrun) as E2.
    apply change_incident_state_reached in Hrun as (j' & Hj' & Hs').
    unfold same_db, stable in E1, E2. rewrite E1, E2. simpl.
    exists j', CONTAINMENT_AWAITING_APPROVAL, PENDING.
    rewrite lookup_alter_eq, He, Hs'. destruct p; simpl in *; by subst.
  - apply bind_ok in Hrun as (v & w1 & H1 & Hrun). run_inv H1.
    pose proof (evolves_run _ _ _ _ _ (move_events _ _ _) Hrun) as E1.
    pose proof (evolves_run _ _ _ _ _ (move_proposals _ _ _) Hrun) as E2.
    apply change_incident_state_reached in Hrun as (j' & Hj' & Hs').
    unfold same_db, stable in E1, E2. rewrite E1, E2. simpl.
    exists j', NOT_PROPOSED, REJECTED.
    rewrite lookup_alter_eq, Hp, Hs'. destruct ev; simpl in *; by subst.
Qed.

Lemma settle_decisions i e id d : same_ok policy_decisions (settle settings i e id d).
Proof. stages. evolve. Qed.
Lemma publish_count_same {A B} (f : Database → A) i e c s (r : B) (w w' : World X) u :
  (∀ g d, f (upd_stream_events g d) = f d) →
  bind (publish_event i e) (λ _, bind (count_event c s "accepted") (λ _, ret r)) w = (Ok u, w') →
  u = r ∧ f w'.(work) = f w.(work).
Proof.
  intros Hf Hrun. apply bind_ok in Hrun as (v1 & w1 & H1 & Hrun).
  apply bind_ok in Hrun as (v2 & w2 & H2 & Hrun). apply ret_ok in Hrun as [-> ->].
  apply (evolves_run _ _ _ _ _ (publish_same f _ _ Hf)) in H1.
  apply (evolves_run _ _ _ _ _ (count_same f _ _ _)) in H2.
  unfold same_db, stable in H1, H2. split; congruence.
Qed.

(** A new event, stored. *)
Definition settled (w w' : World X) (id : uuid) : Prop :=
  w.(work).(security_events) !! id = None ∧
  ∃ incident proposal e j p d,
    w'.(work).(security_events) !! id = Some e ∧
    e.(sev_fingerprint) = fingerprint_of settings event ∧ e.(sev_dedup_count) = 1 ∧
    e.(sev_incident_id) = Some incident ∧ w'.(work).(incidents) !! incident = Some j ∧
    w'.(work).(action_proposals) !! proposal = Some p ∧ p.(prop_incident_id) = incident ∧
    p.(prop_action_type) = APPLY_QUARANTINE ∧
    d ∈ w'.(work).(policy_decisions) ∧ d.(pol_proposal_id) = proposal ∧
    (j.(inc_state), e.(sev_containment_status), p.(prop_status)) =
      settlement d.(pol_allowed) d.(pol_requires_approval).

(** A known event, counted. *)
Definition counted (w w' : World X) (id : uuid) : Prop :=
  w'.(trace) = w.(trace) ∧ w'.(work).(incidents) = w.(work).(incidents) ∧
  w'.(work).(action_proposals) = w.(work).(action_proposals) ∧
  w'.(work).(policy_decisions) = w.(work).(policy_decisions) ∧
  ∃ e now, w.(work).(security_events) !! id = Some e ∧
    w'.(work).(security_events) = <[id := set_sev_last_seen_at now
      (set_sev_dedup_count (e.(sev_dedup_count) + 1) e)]> w.(work).(security_events).

(** The part of a repeated report that follows the update of the event. *)
Lemma report_same {A} (f : Database → A) id :
  (∀ g d, f (upd_audit_events g d) = f d) →
  same_ok f (report_duplicate settings event id).
Proof. intros Hf. stages. evolve. intros w. apply Hf. Qed.
Lemma report_trace id : evolves (same_trace (X:=X)) (report_duplicate settings event id).
Proof. stages. evolve. Qed.

Lemma deduplicate_event_run (w w' : World X) id r :
  deduplicate_event settings event id w = (Ok r, w') →
  r = {| ing_event := id; ing_duplicate := true |} ∧ counted w w' id.
Proof.
  unfold deduplicate_event. intros Hrun.
  apply bind_ok in Hrun as (e & w1 & H1 & Hrun). run_inv H1.
  apply bind_ok in Hrun as (u & w2 & H2 & Hrun). run_inv H2.
  apply bind_ok in Hrun as (now & w3 & H3 & Hrun). run_inv H3.
  apply bind_ok in Hrun as (u' & w4 & H4 & Hrun). run_inv H4.
  apply bind_ok in Hrun as (u'' & w5 & H5 & Hrun). apply ret_ok in Hrun as [-> ->].
  split; [done|]. unfold counted.
  pose proof (evolves_run _ _ _ _ _ (report_trace _) H5) as Et.
  pose proof (evolves_run _ _ _ _ _ (report_same incidents _ (λ _ _, eq_refl)) H5) as Ei.
  pose proof (evolves_run _ _ _ _ _ (report_same action_proposals _ (λ _ _, eq_refl)) H5) as Ep.
  pose proof (evolves_run _ _ _ _ _ (report_same policy_decisions _ (λ _ _, eq_refl)) H5) as Ed.
  pose proof (evolves_run _ _ _ _ _ (report_same security_events _ (λ _ _, eq_refl)) H5) as Ee.
  unfold same_db, stable, same_trace in *.
  rewrite Et, Ei, Ep, Ed, Ee. simpl. split_and!; [done..|].
  exists e. eexists. split; [done|]. apply map_eq. intros k.
  destruct (decide (k = id)) as [->|]; [|by rewrite !lookup_alter_ne, lookup_insert_ne].
  by rewrite !lookup_alter_eq, lookup_insert_eq, Hlk.
Qed.

End properties.

(** ** An example *)

Definition shell_report : TetragonSecurityEvent := {|
  ts_source := "tetragon"; ts_event_type := SUSPICIOUS_PROCESS; ts_severity := "high";
  ts_environment := ENV_STAGING; ts_namespace := "cloudward-staging"; ts_pod := "checkout-1";
  ts_workload := Some "checkout"; ts_container := "app";
  ts_process := Some {| binary := "/bin/sh"; parent_binary := None |}; ts_network := None;
  ts_policy := "cloudward-s1-unexpected-shell"; ts_timestamp := 1700000000000000;
  ts_evidence_ref := "tetragon:1";
  ts_workload_labels := [("cloudward.io/demo-target", "true");
                         ("cloudward.io/environment", "staging")];
  ts_secrets_or_data_exposure := true |}.

Example shell_report_valid : TetragonSecurityEvent_valid shell_report = true.
Proof. vm_compute. reflexivity. Qed.

Definition report_shell : M (World Z) IngestionResult :=
  ingest_security_event (Runtime0 := bench_runtime) (H := strict_pydantic) example_settings
    {| opa_client_url := "http://opa" |} shell_report.

(** The first report makes an event, the second one counts against it. *)
Example shell_reported_twice :
  let '(first, w) := report_shell (bench_world empty_database) in
  let '(second, w') := report_shell w in
  match first, second with
  | Ok a, Ok b => a.(ing_duplicate) = false ∧ b.(ing_duplicate) = true ∧
      a.(ing_event) = b.(ing_event) ∧
      option_map sev_dedup_count (w'.(work).(security_events) !! b.(ing_event)) = Some 2
  | _, _ => False
  end.
Proof. vm_compute. repeat split. Qed.

(** The flag of an exposure never reaches the stored payload: its key is one of the
    sensitive ones. *)
Example exposure_flag_redacted :
  dict_get "secrets_or_data_exposure" (normalized_payload shell_report) = Some (JStr REDACTED).
Proof. vm_compute. reflexivity. Qed.
