(* ===== verification/Quarantine.v ===== *)
(** * Quarantine

    [security/quarantine.py]: the containment of the pod of a security event and its
    removal.  A request is authorised by a policy decision of its own on the live
    labels of the pod, the cluster is changed, and the change is verified within a
    deadline; a failure the code foresees is recorded and committed before it is
    raised again.

    [_wait_for_containment] and [_wait_for_release] are one loop over a round of
    observations; its fuel is [wait_fuel], enough for every clock that does not run
    backwards ([wait_returns]). *)

From S2P Require Import Prelude PyFloat Json Effects Sha256 Actions Risk StateMachine Models.
From S2P Require Import World Config AuditLog History Memory Notifications ApprovalRequests.
From S2P Require Import Incidents Kubernetes Opa Approvals Execution Mutations Verification.
From S2P Require Import Pipeline Security.

(** ** Names and values *)

(** [event.id.hex[:12]]. *)
Definition quarantine_name (event : uuid) : string := str_take 12 (hex_pad 32 event).

Definition quarantine_sensitivity (c : SecurityCategory) : Sensitivity :=
  match c with
  | SUSPICIOUS_PROCESS => SENS_LOW
  | UNEXPECTED_EGRESS => SENS_MODERATE
  | PRIVILEGE_BEHAVIOR => SENS_HIGH
  end.

Definition CONFIDENCE : float := float_of_decimal 95 (-2).

(** [asdict] and the derived flag. *)
Definition QuarantinePolicyState_dict (s : QuarantinePolicyState) : dict :=
  [("namespace", JStr s.(qps_namespace)); ("pod_name", JStr s.(qps_pod_name));
   ("policy_name", JStr s.(qps_policy_name)); ("policy_exists", JBool s.(policy_exists));
   ("target_label_matches", JBool s.(target_label_matches));
   ("deny_all_egress", JBool s.(deny_all_egress)); ("enforced", JBool (enforced s))].

(** A named check, and whether all of a list passed. *)
Definition check_json (c : string * bool) : json :=
  JObj [("name", JStr c.1); ("passed", JBool c.2)].
Definition checks_json (l : list (string * bool)) : json := JArr (map check_json l).
Definition all_passed (l : list (string * bool)) : bool := forallb snd l.

(** [verification["success"]]. *)
Definition successful (verification : dict) : res bool :=
  match dict_get "success" verification with
  | Some j => Ok (truthy j)
  | None => Raise (PyError "KeyError" "success")
  end.

(** [cast(list, verification["checks"])]. *)
Definition verified_checks (verification : dict) : list json :=
  match dict_get "checks" verification with Some (JArr l) => l | _ => [] end.

Definition target_outside_boundary : exn :=
  cw_error_status "KUBERNETES_TARGET_DENIED"
    "Live quarantine target is outside the demo safety boundary" 403.

(** The name of a policy is unique. *)
Definition quarantine_constraints (q : QuarantineRecord) (t : gmap uuid QuarantineRecord)
  : bool :=
  forallb (λ q', negb (String.eqb q.(qrt_policy_name) q'.(qrt_policy_name))) (rows t).

Definition quarantine_of (event : uuid) (q : QuarantineRecord) : bool :=
  bool_decide (q.(qrt_security_event_id) = event).
Definition standing_quarantine (event : uuid) (q : QuarantineRecord) : bool :=
  quarantine_of event q && negb (bool_decide (q.(qrt_status) = REMOVED)).

(** [int(highest or 0) + 1]. *)
Definition next_attempt (incident : uuid) (l : list ActionExecution) : Z :=
  foldr (λ e m, if bool_decide (e.(exec_incident_id) = incident) then Z.max e.(exec_attempt) m
                else m) 0 l + 1.

(** ** Waiting *)

Section waiting.
Context {X : Type} `{!Runtime X}.

(** The loop: [round] observes the cluster and tells whether all is as expected. *)
Fixpoint wait_loop (fuel : nat) (deadline poll : Z) (round : M (World X) (bool * dict))
    (latest : dict) : M (World X) (option dict) :=
  match fuel with
  | O => ret None
  | S fuel =>
      let! now := monotonic in
      if now <? deadline then
        let! '(success, observed) := round in
        if success : bool then ret (Some observed)
        else do! sleep poll; wait_loop fuel deadline poll round observed
      else ret (Some latest)
  end.

Definition wait_fuel (timeout poll : Z) : nat := Z.to_nat (timeout / poll) + 2.

Definition wait_until (timeout poll : Z) (round : M (World X) (bool * dict)) (initial : dict)
  : M (World X) dict :=
  let! start := monotonic in
  let! r := wait_loop (wait_fuel timeout poll) (start + timeout) poll round initial in
  match r with Some d => ret d | None => raise out_of_fuel end.
End waiting.

(** ** The service *)

Section quarantine.
Context {X : Type} `{!Runtime X, !KubeApi X, !Pydantic, !PolicyServer X}.
Context (settings : Settings) (opa : OPAClient) (exe : Executor).
Context (event_id : uuid) (actor : string).

Definition by_user (incident : uuid) (target : IncidentState) : M (World X) unit :=
  change_incident_state settings incident target actor ACTOR_USER None false.

(** [_event_and_incident]: the incident of the event. *)
Definition event_and_incident : M (World X) uuid :=
  let! found := query (λ db, db.(security_events) !! event_id) in
  match found with
  | None => raise (cw_error_status "SECURITY_EVENT_NOT_FOUND" "Security event was not found" 404)
  | Some e =>
      match e.(sev_incident_id) with
      | None => raise (cw_error_status "SECURITY_EVENT_NOT_ACTIONABLE"
                         "Security event has no linked incident" 409)
      | Some incident =>
          let! o := query (λ db, db.(incidents) !! incident) in
          match o with
          | Some _ => ret incident
          | None => raise (PyError "NoResultFound" "No row was found when one was required")
          end
      end
  end.

(** [_proposal_for_apply]. *)
Definition proposal_for_apply (incident : uuid) : M (World X) uuid :=
  let! found := query (λ db, latest prop_created_at
    (λ p, bool_decide (p.(prop_incident_id) = incident) &&
          bool_decide (p.(prop_action_type) = APPLY_QUARANTINE)) (rows db.(action_proposals))) in
  match found with
  | Some p => ret p.(prop_id)
  | None => raise (cw_error_status "QUARANTINE_PROPOSAL_NOT_FOUND"
                     "No policy-evaluated quarantine proposal exists" 409)
  end.

(** [_authorize]: the request counts as the approval. *)
Definition authorize_quarantine (action : ActionType) (pod : PodState)
  : M (World X) (RiskResult * PolicyInput * PolicyResult) :=
  let! e := the_security_event event_id in
  let! risk := lift (calculate_risk
    (quarantine_risk_context e.(sev_environment) CONFIDENCE
       (quarantine_sensitivity e.(sev_event_type)) action)) in
  let! policy_input := lift (validated "PolicyInput" PolicyInput_valid
    (quarantine_policy_input e.(sev_environment) action risk CONFIDENCE e.(sev_namespace)
       e.(sev_pod) pod.(labels) pod.(controller_managed)
       {| ai_approved := true; ai_approval_id := Some ("manual-" +:+ uuid_str event_id);
          ai_approved_by := Some actor |})) in
  let! decision := evaluate opa policy_input in
  ret (risk, policy_input, decision).

(** [_persist_decision]. *)
Definition persist_decision (incident proposal : uuid) (policy_input : PolicyInput)
    (decision : PolicyResult) (risk_score : Z) : M (World X) unit :=
  let! e := the_security_event event_id in
  let! id := uuid4 in
  let! now := utc_now in
  do! update_db (upd_policy_decisions (λ l, l ++
    [{| pol_id := id; pol_created_at := now; pol_incident_id := incident;
        pol_proposal_id := proposal; pol_correlation_id := e.(sev_correlation_id);
        pol_policy_path := settings.(opa_decision_path); pol_allowed := decision.(pr_allowed);
        pol_requires_approval := decision.(pr_requires_approval);
        pol_reason := decision.(pr_reason); pol_input_digest := policy_digest policy_input;
        pol_result := PolicyResult_dump decision |}]));
  do! set_security_event event_id (set_sev_risk_score (Some risk_score));
  do! set_security_event event_id
        (set_sev_policy_decision (Some (if decision.(pr_allowed) then "ALLOW" else "DENY")));
  flush.

(** [_new_execution]. *)
Definition execution_key (incident : uuid) (action : ActionType) (e : SecurityEvent)
    (attempt : Z) : string :=
  sha256_hex (uuid_str incident +:+ ":" +:+ ActionType_value action +:+ ":" +:+
              e.(sev_namespace) +:+ ":" +:+ e.(sev_pod) +:+ ":" +:+ str_of_Z attempt).

Definition new_quarantine_execution (incident proposal : uuid) (action : ActionType)
  : M (World X) uuid :=
  let! attempt := query (λ db, next_attempt incident (rows db.(action_executions))) in
  do! raise_if (3 <? attempt)
        (cw_error_status "ACTION_ATTEMPT_LIMIT_REACHED"
           "The incident action attempt limit has been reached" 409);
  let! e := the_security_event event_id in
  let! id := uuid4 in
  let! now := utc_now in
  do! insert_execution
        {| exec_id := id; exec_created_at := now; exec_incident_id := incident;
           exec_proposal_id := proposal; exec_correlation_id := e.(sev_correlation_id);
           exec_action_type := action; exec_attempt := attempt; exec_status := RUNNING;
           exec_result := []; exec_error_code := None; exec_started_at := now;
           exec_completed_at := None;
           exec_idempotency_key := Some (execution_key incident action e attempt);
           exec_rollback_of_execution_id := None; exec_rolled_back_at := None |};
  do! flush;
  ret id.

(** [_publish_containment]. *)
Definition publish_containment (incident record : uuid) : M (World X) unit :=
  let! q := the_quarantine record in
  let! now := utc_now in
  update_db (upd_stream_events (λ l, l ++
    [{| str_id := Z.of_nat (length l) + 1; str_created_at := now;
        str_event_type := "security.containment"; str_incident_id := Some incident;
        str_payload := JObj
          [("type", JStr "security.containment"); ("security_event_id", JStr (uuid_str event_id));
           ("incident_id", JStr (uuid_str incident));
           ("containment_status", JStr (ContainmentStatus_value q.(qrt_status)))] |}])).

(** An audit event of the request. *)
Definition audit_containment (incident : uuid) (event_type who : string) (kind : ActorType)
    (action : ActionType) (risk_score : Z) (decision : option string) (result : string)
    (metadata : dict) : M (World X) unit :=
  let! e := the_security_event event_id in
  record_audit event_type e.(sev_correlation_id) (Some incident) who kind None
    (Some (ActionType_value action)) (Some risk_score) decision result metadata.

(** The rounds of the two loops. *)
Definition containment_round (policy_name : string) : M (World X) (bool * dict) :=
  let! e := the_security_event event_id in
  let! state := get_quarantine_policy_state exe e.(sev_namespace) e.(sev_pod) policy_name
                  (quarantine_name event_id) in
  let! probe := probe_controlled_security_egress exe e.(sev_namespace) e.(sev_pod) in
  let! pod := get_pod_health e.(sev_namespace) e.(sev_pod) in
  let checks := [("cilium_policy_enforced", enforced state);
                 ("target_label_matches", state.(target_label_matches));
                 ("forbidden_egress_blocked", negb probe.(reachable));
                 ("pod_health_preserved", pod.(ready))] in
  ret (all_passed checks, [("success", JBool (all_passed checks)); ("checks", checks_json checks)]).

Definition release_round (initial : dict) (policy_name : string) : M (World X) (bool * dict) :=
  let! e := the_security_event event_id in
  let! state := get_quarantine_policy_state exe e.(sev_namespace) e.(sev_pod) policy_name
                  (quarantine_name event_id) in
  let! probe := probe_controlled_security_egress exe e.(sev_namespace) e.(sev_pod) in
  let checks := [("cilium_policy_removed", negb state.(policy_exists));
                 ("target_label_removed", negb state.(target_label_matches));
                 ("controlled_egress_restored", probe.(reachable))] in
  ret (all_passed checks, initial ++ [("success", JBool (all_passed checks));
                                      ("checks", checks_json checks)]).

Definition wait (round : M (World X) (bool * dict)) (initial : dict) : M (World X) dict :=
  wait_until settings.(security_quarantine_verify_timeout)
    settings.(security_quarantine_verify_poll) round initial.

(** [_wait_for_containment]; the [or] replaces the empty dictionary. *)
Definition wait_for_containment (policy_name : string) : M (World X) dict :=
  let! latest := wait (containment_round policy_name) [] in
  ret (match latest with [] => [("success", JBool false); ("checks", JArr [])] | _ => latest end).

(** [_wait_for_release]. *)
Definition wait_for_release (policy_name : string) (state : QuarantinePolicyState)
  : M (World X) dict :=
  let initial := [("initial_policy_state", JObj (QuarantinePolicyState_dict state))] in
  wait (release_round initial policy_name) initial.

(** *** Applying *)

(** The decision denies the quarantine. *)
Definition deny_quarantine (incident : uuid) (risk : RiskResult) (decision : PolicyResult)
  : M (World X) uuid :=
  do! audit_containment incident "QUARANTINE_POLICY_DENIED" actor ACTOR_USER APPLY_QUARANTINE
        risk.(score) (Some "DENY") "REJECTED" [("reason", JStr decision.(pr_reason))];
  do! commit;
  raise (cw_error_status "QUARANTINE_DENIED" decision.(pr_reason) 403).

Definition new_record (id : uuid) (now : datetime) (incident : uuid) (e : SecurityEvent)
    (risk_score : Z) : QuarantineRecord :=
  let name := quarantine_name event_id in
  {| qrt_id := id; qrt_created_at := now; qrt_incident_id := incident;
     qrt_security_event_id := event_id; qrt_namespace := e.(sev_namespace);
     qrt_pod := e.(sev_pod); qrt_workload := e.(sev_workload);
     qrt_policy_name := "cloudward-quarantine-" +:+ name;
     qrt_selector := JObj [(QUARANTINE_LABEL, JStr name)];
     qrt_reason := "Contain " +:+ SecurityCategory_value e.(sev_event_type) +:+
                   " detected by " +:+ e.(sev_policy);
     qrt_risk_score := risk_score; qrt_opa_decision := "ALLOW"; qrt_status := APPLYING;
     qrt_verification := []; qrt_applied_at := None; qrt_removed_at := None |}.

(** [existing or QuarantineRecord(...)], applying. *)
Definition open_record (incident : uuid) (existing : option QuarantineRecord) (risk_score : Z)
  : M (World X) uuid :=
  let! e := the_security_event event_id in
  let mark := set_security_event event_id (set_sev_containment_status APPLYING) in
  match existing with
  | Some q =>
      do! set_quarantine q.(qrt_id) (set_qrt_status APPLYING);
      do! mark;
      ret q.(qrt_id)
  | None =>
      do! mark;
      let! id := uuid4 in
      let! now := utc_now in
      let q := new_record id now incident e risk_score in
      do! insert_row quarantine_records upd_quarantine_records (quarantine_constraints q) id q;
      ret id
  end.

(** Record and execution of a permitted quarantine. *)
Definition begin_quarantine (incident proposal : uuid) (existing : option QuarantineRecord)
    (risk : RiskResult) : M (World X) (uuid * uuid) :=
  let! record := open_record incident existing risk.(score) in
  let! i := the_incident incident in
  do! when (bool_decide (i.(inc_state) ∈ [POLICY_EVALUATION; AWAITING_APPROVAL]))
        (by_user incident EXECUTING);
  let! execution := new_quarantine_execution incident proposal APPLY_QUARANTINE in
  do! flush;
  ret (record, execution).

(** Change the cluster and wait until the change shows. *)
Definition enforce_quarantine (incident record : uuid) : M (World X) dict :=
  let! e := the_security_event event_id in
  let! before_probe := probe_controlled_security_egress exe e.(sev_namespace) e.(sev_pod) in
  do! raise_if (negb before_probe.(reachable))
        (cw_error_status "QUARANTINE_BASELINE_FAILED"
           "Controlled internal egress was not reachable before quarantine" 409);
  do! apply_quarantine_policy exe e.(sev_namespace) e.(sev_pod) (quarantine_name event_id)
        (uuid_str incident);
  let! now := utc_now in
  do! set_quarantine record (set_qrt_applied_at (Some now));
  do! by_user incident VERIFYING;
  let! q := the_quarantine record in
  let! verification := wait_for_containment q.(qrt_policy_name) in
  let! success := lift (successful verification) in
  do! raise_if (negb success)
        (cw_error_status "QUARANTINE_VERIFICATION_FAILED"
           "Cilium quarantine could not be verified" 502);
  ret verification.

(** The end of an execution. *)
Definition succeed_execution (execution : uuid) (verification : dict) : M (World X) unit :=
  do! set_execution execution (set_exec_status SUCCEEDED);
  do! set_execution execution (set_exec_result verification);
  let! now := utc_now in
  set_execution execution (set_exec_completed_at (Some now)).
Definition fail_execution (execution : uuid) (code : string) : M (World X) unit :=
  do! set_execution execution (set_exec_status FAILED);
  do! set_execution execution (set_exec_error_code (Some code));
  let! now := utc_now in
  set_execution execution (set_exec_completed_at (Some now)).

Definition record_containment (incident execution : uuid) (verification : dict)
  : M (World X) unit :=
  let! x := the_execution execution in
  let! id := uuid4 in
  let! now := utc_now in
  insert_verification
    {| ver_id := id; ver_created_at := now; ver_incident_id := incident;
       ver_action_execution_id := Some execution; ver_attempt := x.(exec_attempt);
       ver_success := true; ver_checks := verified_checks verification;
       ver_before_values := [("controlled_internal_egress_reachable", JBool true)];
       ver_after_values := [("controlled_internal_egress_reachable", JBool false)];
       ver_started_at := now; ver_completed_at := now |}.

(** The quarantine holds: the rows, and what is told about it. *)
Definition mark_held (proposal record execution : uuid) (verification : dict)
  : M (World X) unit :=
  do! set_quarantine record (set_qrt_status CONTAINED);
  do! set_quarantine record (set_qrt_verification verification);
  do! set_security_event event_id (set_sev_containment_status CONTAINED);
  do! succeed_execution execution verification;
  set_proposal proposal (set_prop_status SUCCEEDED).
Definition report_held (incident record execution : uuid) (risk : RiskResult)
    (decision : PolicyResult) (verification : dict) : M (World X) unit :=
  do! record_containment incident execution verification;
  let! q := the_quarantine record in
  do! audit_containment incident "QUARANTINE_EXECUTED" actor ACTOR_USER APPLY_QUARANTINE
        risk.(score) (Some "ALLOW") "SUCCEEDED"
        [("policy_name", JStr q.(qrt_policy_name)); ("target_pods", JInt 1)];
  let! e := the_security_event event_id in
  do! queue_incident_notification settings "security_containment_executed" incident
        (Some [("service", JStr (opt_str_or e.(sev_workload) e.(sev_pod)));
               ("cause", JStr (SecurityCategory_value e.(sev_event_type)));
               ("policy_reason", JStr decision.(pr_reason))]);
  do! audit_containment incident "CONTAINMENT_VERIFIED" "cloudward-verifier" ACTOR_SYSTEM
        APPLY_QUARANTINE risk.(score) None "SUCCEEDED" verification;
  publish_containment incident record.

(** [except CloudWardError]. *)
Definition mark_failed (record execution : uuid) (code : string) : M (World X) unit :=
  do! set_quarantine record (set_qrt_status VERIFICATION_FAILED);
  do! set_quarantine record
        (set_qrt_verification [("success", JBool false); ("error_code", JStr code)]);
  do! set_security_event event_id (set_sev_containment_status VERIFICATION_FAILED);
  fail_execution execution code.
Definition escalate_failed (incident : uuid) (code : string) : M (World X) unit :=
  let! i := the_incident incident in
  when (bool_decide (i.(inc_state) ∈ [EXECUTING; VERIFYING]))
    (change_incident_state settings incident ESCALATED "cloudward" ACTOR_SYSTEM
       (Some [("reason", JStr "containment verification failed"); ("error_code", JStr code)])
       false).
Definition report_failed (incident record : uuid) (risk : RiskResult) (code : string)
  : M (World X) unit :=
  do! audit_containment incident "CONTAINMENT_VERIFICATION_FAILED" "cloudward-verifier"
        ACTOR_SYSTEM APPLY_QUARANTINE risk.(score) None "FAILED" [("error_code", JStr code)];
  publish_containment incident record.
Definition quarantine_failed (incident record execution : uuid) (risk : RiskResult) (e : exn)
  : M (World X) uuid :=
  do! mark_failed record execution (error_code e);
  do! escalate_failed incident (error_code e);
  do! report_failed incident record risk (error_code e);
  do! commit;
  raise e.

Definition contain (incident proposal record execution : uuid) (risk : RiskResult)
    (decision : PolicyResult) : M (World X) uuid :=
  catch
    (let! verification := enforce_quarantine incident record in
     do! mark_held proposal record execution verification;
     do! report_held incident record execution risk decision verification;
     do! commit;
     ret record)
    (λ e, if is_cloudward_error e then quarantine_failed incident record execution risk e
          else raise e).

Definition start_quarantine (incident : uuid) (existing : option QuarantineRecord)
  : M (World X) uuid :=
  let! i := the_incident incident in
  do! raise_if (bool_decide (i.(inc_state) ∈ [BLOCKED; ESCALATED; RESOLVED]))
        (cw_error_status "INCIDENT_NOT_ACTIONABLE"
           "The security incident is in a terminal state" 409);
  let! e := the_security_event event_id in
  let! pod := get_pod_health e.(sev_namespace) e.(sev_pod) in
  do! raise_if (negb (is_demo_target pod.(labels))) target_outside_boundary;
  let! '(risk, policy_input, decision) := authorize_quarantine APPLY_QUARANTINE pod in
  let! proposal := proposal_for_apply incident in
  do! persist_decision incident proposal policy_input decision risk.(score);
  if negb decision.(pr_allowed) then deny_quarantine incident risk decision
  else
    let! '(record, execution) := begin_quarantine incident proposal existing risk in
    contain incident proposal record execution risk decision.

(** [apply_quarantine]. *)
Definition apply_quarantine : M (World X) uuid :=
  let! incident := event_and_incident in
  let! existing := query (λ db, latest qrt_created_at (standing_quarantine event_id)
                                  (rows db.(quarantine_records))) in
  match existing with
  | Some q =>
      if bool_decide (q.(qrt_status) ∈ [CONTAINED; APPLYING]) then ret q.(qrt_id)
      else start_quarantine incident (Some q)
  | None => start_quarantine incident None
  end.

(** *** Removing *)

Definition propose_removal (incident record : uuid) (risk : RiskResult) : M (World X) uuid :=
  let! e := the_security_event event_id in
  let! q := the_quarantine record in
  let! id := uuid4 in
  let! now := utc_now in
  do! insert_row action_proposals upd_action_proposals
        (λ _, (0 <=? risk.(score)) && (risk.(score) <=? 100)) id
        {| prop_id := id; prop_created_at := now; prop_incident_id := incident;
           prop_correlation_id := e.(sev_correlation_id); prop_action_type := REMOVE_QUARANTINE;
           prop_parameters := [("security_event_id", JStr (uuid_str event_id));
                               ("namespace", JStr e.(sev_namespace));
                               ("pod", JStr e.(sev_pod));
                               ("policy_name", JStr q.(qrt_policy_name))];
           prop_status := PENDING; prop_risk_score := risk.(score);
           prop_risk_calculation := risk_dict risk; prop_proposed_by := actor |};
  do! flush;
  ret id.

(** Change the cluster and wait until the change shows. *)
Definition lift_quarantine (record : uuid) : M (World X) dict :=
  let! e := the_security_event event_id in
  let! q := the_quarantine record in
  let! state := remove_quarantine_policy exe e.(sev_namespace) e.(sev_pod) q.(qrt_policy_name)
                  (quarantine_name event_id) in
  let! verification := wait_for_release q.(qrt_policy_name) state in
  let! success := lift (successful verification) in
  do! raise_if (negb success)
        (cw_error_status "QUARANTINE_REMOVAL_VERIFICATION_FAILED"
           "Quarantine removal could not be verified" 502);
  ret verification.

(** The quarantine is gone. *)
Definition quarantine_removed (incident proposal record execution : uuid) (risk : RiskResult)
    (verification : dict) : M (World X) unit :=
  do! set_quarantine record (set_qrt_status REMOVED);
  let! now := utc_now in
  do! set_quarantine record (set_qrt_removed_at (Some now));
  do! set_quarantine record (set_qrt_verification verification);
  do! set_security_event event_id (set_sev_containment_status REMOVED);
  do! succeed_execution execution verification;
  do! set_proposal proposal (set_prop_status SUCCEEDED);
  let! i := the_incident incident in
  do! when (bool_decide (i.(inc_state) = VERIFYING))
        (do! set_incident incident (set_inc_resolution_source (Some CLOUDWARD_REMEDIATION));
         by_user incident RESOLVED);
  let! q := the_quarantine record in
  do! audit_containment incident "QUARANTINE_REMOVED" actor ACTOR_USER REMOVE_QUARANTINE
        risk.(score) (Some "ALLOW") "SUCCEEDED" [("policy_name", JStr q.(qrt_policy_name))];
  do! publish_containment incident record;
  commit.

(** [except CloudWardError]; the incident keeps its state. *)
Definition removal_failed (incident record execution : uuid) (risk : RiskResult) (e : exn)
  : M (World X) uuid :=
  let code := error_code e in
  do! set_quarantine record (set_qrt_status VERIFICATION_FAILED);
  do! set_security_event event_id (set_sev_containment_status VERIFICATION_FAILED);
  do! fail_execution execution code;
  do! audit_containment incident "QUARANTINE_REMOVAL_FAILED" actor ACTOR_USER REMOVE_QUARANTINE
        risk.(score) None "FAILED" [("error_code", JStr code)];
  do! publish_containment incident record;
  do! commit;
  raise e.

Definition release (incident proposal record execution : uuid) (risk : RiskResult)
  : M (World X) uuid :=
  catch
    (let! verification := lift_quarantine record in
     do! quarantine_removed incident proposal record execution risk verification;
     ret record)
    (λ e, if is_cloudward_error e then removal_failed incident record execution risk e
          else raise e).

Definition start_removal (incident record : uuid) : M (World X) uuid :=
  let! e := the_security_event event_id in
  let! pod := get_pod_health e.(sev_namespace) e.(sev_pod) in
  let! '(risk, policy_input, decision) := authorize_quarantine REMOVE_QUARANTINE pod in
  let! proposal := propose_removal incident record risk in
  do! persist_decision incident proposal policy_input decision risk.(score);
  if negb decision.(pr_allowed) then
    do! set_proposal proposal (set_prop_status REJECTED);
    do! commit;
    raise (cw_error_status "QUARANTINE_REMOVAL_DENIED" decision.(pr_reason) 403)
  else
    do! set_quarantine record (set_qrt_status REMOVING);
    do! set_security_event event_id (set_sev_containment_status REMOVING);
    let! execution := new_quarantine_execution incident proposal REMOVE_QUARANTINE in
    release incident proposal record execution risk.

(** [remove_quarantine]. *)
Definition remove_quarantine : M (World X) uuid :=
  let! incident := event_and_incident in
  let! found := query (λ db, latest qrt_created_at (quarantine_of event_id)
                               (rows db.(quarantine_records))) in
  match found with
  | None => raise (cw_error_status "QUARANTINE_NOT_FOUND"
                     "No quarantine exists for this security event" 404)
  | Some q =>
      if bool_decide (q.(qrt_status) = REMOVED) then ret q.(qrt_id)
      else start_removal incident q.(qrt_id)
  end.
End quarantine.

(** ** Waiting ends *)

Section termination.
Context {X : Type} `{!Runtime X}.

(** What the loop relies on: the clock does not run backwards, not even during a
    round, and [asyncio.sleep(d)] takes at least [d]. *)
Class WaitingClock := {
  waiting_clock : X → Z;
  waiting_monotonic x : waiting_clock x ≤ (rt_monotonic x).1 ≤ waiting_clock (rt_monotonic x).2;
  waiting_sleep d x : 0 ≤ d → waiting_clock x + d ≤ waiting_clock (rt_sleep d x);
}.
Context `{!WaitingClock}.

Definition never_back : relation (World X) := λ w w',
  waiting_clock w.(ext) ≤ waiting_clock w'.(ext).
#[export] Instance never_back_evolution : Evolution never_back.
Proof. split; [intros w|intros w1 w2 w3]; unfold never_back; lia. Qed.

(** The result of a wait: the last round, which found all as expected, or the last
    one of all once the deadline has passed, or what a round raised. *)
Definition waited (round : M (World X) (bool * dict)) (deadline : Z) (initial : dict)
    (r : res dict) (w' : World X) : Prop :=
  match r with
  | Ok d => (∃ w1, round w1 = (Ok (true, d), w')) ∨
            (deadline ≤ waiting_clock w'.(ext) ∧
             (d = initial ∨ ∃ w1 w2, round w1 = (Ok (false, d), w2)))
  | Raise e => ∃ w1, round w1 = (Raise e, w')
  end.

Lemma wait_loop_returns round deadline poll k n latest (w : World X) :
  evolves never_back round → 0 < poll →
  deadline - waiting_clock w.(ext) ≤ Z.of_nat k * poll → (k < n)%nat →
  ∃ r w', wait_loop n deadline poll round latest w =
            (match r with Ok d => Ok (Some d) | Raise e => Raise e end, w') ∧
    waited round deadline latest r w'.
Proof.
  intros Hround Hpoll. revert n latest w.
  induction k as [|k IH]; intros n latest w Hk Hn; (destruct n as [|n]; [lia|]);
    cbn [wait_loop]; pose proof (waiting_monotonic w.(ext)) as [Hm1 Hm2];
    set (now := (rt_monotonic w.(ext)).1) in *; set (w1 := (monotonic w).2) in *;
    rewrite (bind_step _ _ w now w1) by done; destruct (Z.ltb_spec now deadline) as [Hd|Hd].
  1: lia.
  1, 3: exists (Ok latest), w1; split; [done|]; right; split; [|by left];
    change (waiting_clock (ext w1)) with (waiting_clock (rt_monotonic (ext w)).2); lia.
  pose proof (Hround w1) as Hback. unfold never_back in Hback. unfold bind at 1.
  destruct (round w1) as [[[success d]|e] w2] eqn:Hr; cbn [fst snd] in *.
  2: { exists (Raise e), w2. split; [done|]. by exists w1. }
  destruct success; [exists (Ok d), w2; split; [done|]; left; by exists w1|].
  set (w3 := set_ext (rt_sleep poll w2.(ext)) w2).
  rewrite (bind_step (sleep poll) _ w2 tt w3) by done.
  pose proof (waiting_sleep poll w2.(ext)) as Hs.
  change (waiting_clock (ext w1)) with (waiting_clock (rt_monotonic (ext w)).2) in Hback.
  destruct (IH n d w3) as (r & w' & Hrun & Hw).
  { change (ext w3) with (rt_sleep poll w2.(ext)). nia. }
  { lia. }
  exists r, w'. split; [exact Hrun|]. destruct r as [d'|e]; [|done].
  destruct Hw as [Hok|[Hlate [->|Hlast]]]; [by left|right..]; (split; [done|]); right; eauto.
Qed.

Lemma wait_until_returns round timeout poll initial (w : World X) :
  evolves never_back round → 0 ≤ timeout → 0 < poll →
  ∃ r w', wait_until timeout poll round initial w = (r, w') ∧
    waited round (waiting_clock w.(ext) + timeout) initial r w'.
Proof.
  intros Hround Ht Hp. unfold wait_until. pose proof (waiting_monotonic w.(ext)) as [Hm1 Hm2].
  set (start := (rt_monotonic w.(ext)).1) in *. set (w1 := (monotonic w).2) in *.
  rewrite (bind_step _ _ w start w1) by done.
  assert (0 ≤ timeout / poll) as Hq by (apply Z.div_pos; lia).
  pose proof (Z.div_mod timeout poll). pose proof (Z.mod_pos_bound timeout poll).
  destruct (wait_loop_returns round (start + timeout) poll (Z.to_nat (timeout / poll) + 1)
    (wait_fuel timeout poll) initial w1) as (r & w' & Hrun & Hw);
    [done|done| |unfold wait_fuel; lia|].
  { change (waiting_clock (ext w1)) with (waiting_clock (rt_monotonic (ext w)).2). nia. }
  exists r, w'. destruct r as [d|e].
  - rewrite (bind_step _ _ _ _ _ Hrun). split; [done|].
    destruct Hw as [Hok|[Hlate Hlast]]; [by left|right]. split; [lia|done].
  - rewrite (bind_step_raise _ _ _ _ _ Hrun). done.
Qed.
End termination.

(** ** Authorisation *)

(** What a request never changes about its event, and about a record. *)
Definition event_view (event_id : uuid) (d : Database)
  : option (option uuid * string * string) :=
  (λ e, (e.(sev_incident_id), e.(sev_namespace), e.(sev_pod))) <$>
    d.(security_events) !! event_id.
Definition record_view (event_id record : uuid) (d : Database)
  : option (option uuid * string * string * string) :=
  match event_view event_id d, d.(quarantine_records) !! record with
  | Some t, Some q => Some (t, q.(qrt_policy_name))
  | _, _ => None
  end.

(** The calls of a containment, and of its removal. *)
Definition containing (event_id : uuid) (t : option uuid * string * string) (c : call) : Prop :=
  let '(incident, namespace, pod) := t in
  let name := quarantine_name event_id in
  namespace = "cloudward-staging" ∧
  (c = CallPatchPodLabels namespace pod [(QUARANTINE_LABEL, JStr name)] ∨
   c = CallPatchPodLabels namespace pod [(QUARANTINE_LABEL, JNull)] ∨
   ∃ i, incident = Some i ∧
     c = CallCreateObject namespace "ciliumnetworkpolicies"
           (quarantine_body namespace pod ("cloudward-quarantine-" +:+ name) name (uuid_str i))).
Definition releasing (t : option uuid * string * string * string) (c : call) : Prop :=
  let '(incident, namespace, pod, policy_name) := t in
  c = CallPatchPodLabels namespace pod [(QUARANTINE_LABEL, JNull)] ∨
  c = CallDeleteObject namespace "ciliumnetworkpolicies" policy_name.

Section under.
Context {X V : Type} (view : Database → option V) (t : V).

(** [R], where the view of the database is [t]; it stays [t]. *)
Definition under (R : relation (World X)) : relation (World X) := λ w w',
  view w.(work) = Some t → view w'.(work) = Some t ∧ R w w'.
#[export] Instance under_evolution R `{!Evolution R} : Evolution (under R).
Proof.
  split; [intros w Hv; split; [done|by apply evolves_refl]|].
  intros w1 w2 w3 H1 H2 Hv. destruct (H1 Hv) as [Hv2 HR1]. destruct (H2 Hv2) as [Hv3 HR2].
  split; [done|]. by eapply evolves_trans.
Qed.

(** Mutations within [P], and decisions only added. *)
Definition acts (P : call → Prop) : relation (World X) := λ w w',
  mutates P w w' ∧
  log_extends (λ _, True) w.(work).(policy_decisions) w'.(work).(policy_decisions).
#[export] Instance acts_evolution P : Evolution (acts P).
Proof.
  split; [intros w; split; [apply evolves_refl; tc_solve|done]|].
  intros w1 w2 w3 [H1 D1] [H2 D2]. split; [by eapply evolves_trans; [tc_solve|..]|by etrans].
Qed.

(** No mutation without a granted decision that is new. *)
Definition acts_granted (P : call → Prop) (granted : PolicyDecision → Prop)
  : relation (World X) := λ w w',
  log_extends (λ _, True) w.(work).(policy_decisions) w'.(work).(policy_decisions) ∧
  (mutations w' = mutations w ∨
   mutates P w w' ∧ ∃ d, granted d ∧
     d ∈ drop (length w.(work).(policy_decisions)) w'.(work).(policy_decisions)).
Lemma elem_of_added {A} (x : A) l k : x ∈ drop (length l) (l ++ k) ↔ x ∈ k.
Proof. by rewrite drop_app_length. Qed.
#[export] Instance acts_granted_evolution P granted : Evolution (acts_granted P granted).
Proof.
  split; [intros w; split; [done|by left]|].
  intros w1 w2 w3 [(l1 & E1 & F1) H1] [(l2 & E2 & F2) H2]. split.
  { exists (l1 ++ l2). rewrite E2, E1, app_assoc. split; [done|]. by apply Forall_app. }
  rewrite E2, E1, <- app_assoc. setoid_rewrite elem_of_added.
  rewrite E1 in H1. setoid_rewrite elem_of_added in H1.
  rewrite E2 in H2. setoid_rewrite elem_of_added in H2.
  destruct H1 as [H1|(H1 & d & Hg & Hd)], H2 as [H2|(H2 & d' & Hg' & Hd')].
  - left. by rewrite H2.
  - right. split; [unfold mutates in *; by rewrite <- H1|].
    exists d'. split; [done|]. apply elem_of_app. by right.
  - right. split; [unfold mutates in *; by rewrite H2|].
    exists d. split; [done|]. apply elem_of_app. by left.
  - right. split; [by eapply (evolves_trans (mutates P))|].
    exists d. split; [done|]. apply elem_of_app. by left.
Qed.

Abbreviation same_ok f m := (evolves (same_db (X:=X) f) m).

Lemma quiet_acts P {A} (m : M (World X) A) :
  same_ok view m → same_ok policy_decisions m → evolves (mutates (λ _, False)) m →
  evolves (under (acts P)) m.
Proof.
  intros Hv Hd Hm w Hw. unfold same_db, stable in *. split; [by rewrite Hv|]. split.
  - eapply mutates_weaken, Hm. done.
  - rewrite (Hd w). done.
Qed.
Lemma loud_acts P {A} (m : M (World X) A) :
  same_ok view m → same_ok policy_decisions m → evolves (mutates P) m →
  evolves (under (acts P)) m.
Proof.
  intros Hv Hd Hm w Hw. unfold same_db, stable in *. split; [by rewrite Hv|].
  split; [apply Hm|]. by rewrite (Hd w).
Qed.
Lemma quiet_granted P granted {A} (m : M (World X) A) :
  evolves (under (acts (λ _, False))) m → evolves (under (acts_granted P granted)) m.
Proof.
  intros Hm w Hw. destruct (Hm w Hw) as (Hv & (l & Hl & HF) & Hd). split; [done|].
  split; [done|]. left. rewrite Hl. destruct l as [|c l]; [by rewrite app_nil_r|].
  by apply Forall_inv in HF.
Qed.
End under.

Section authorisation.
Context {X : Type} `{!Runtime X, !KubeApi X, !Pydantic, !PolicyServer X}.
Context (settings : Settings) (opa : OPAClient) (exe : Executor).
Context (event_id : uuid) (actor : string).
Abbreviation same_ok f m := (evolves (same_db (X:=X) f) m).

(** *** The views are stable *)

Lemma set_event_view (g : SecurityEvent → SecurityEvent) :
  (∀ e, (g e).(sev_incident_id) = e.(sev_incident_id) ∧
        (g e).(sev_namespace) = e.(sev_namespace) ∧ (g e).(sev_pod) = e.(sev_pod)) →
  same_ok (event_view event_id) (set_security_event event_id g).
Proof.
  intros Hg w. unfold same_db, stable, event_view. simpl. rewrite lookup_alter_eq.
  destruct (_ !! event_id) as [e|]; [|done]. simpl. by destruct (Hg e) as (-> & -> & ->).
Qed.
Lemma events_view {A} (m : M (World X) A) :
  same_ok security_events m → same_ok (event_view event_id) m.
Proof. intros Hm w. unfold same_db, stable, event_view in *. by rewrite Hm. Qed.

Lemma set_record_view record (g : QuarantineRecord → QuarantineRecord) :
  (∀ q, (g q).(qrt_policy_name) = q.(qrt_policy_name)) →
  same_ok (record_view event_id record) (set_quarantine record g).
Proof.
  intros Hg w. unfold same_db, stable, record_view, event_view. simpl.
  rewrite lookup_alter_eq. destruct (_ <$> _); [|done].
  destruct (quarantine_records _ !! record) as [q|]; [|done]. simpl. by rewrite Hg.
Qed.
Lemma tables_view record {A} (m : M (World X) A) :
  same_ok (event_view event_id) m → same_ok quarantine_records m →
  same_ok (record_view event_id record) m.
Proof. intros Hm Hq w. unfold same_db, stable, record_view in *. by rewrite Hm, Hq. Qed.
End authorisation.

#[export] Hint Extern 1 (evolves (same_db (event_view _)) (set_security_event _ _)) =>
  apply set_event_view; intros []; done : cw_pres.
#[export] Hint Extern 1 (evolves (same_db (record_view _ _)) (set_quarantine _ _)) =>
  apply set_record_view; intros []; done : cw_pres.
#[export] Hint Extern 5 (evolves (same_db (event_view _)) _) =>
  apply events_view; solve [evolve] : cw_pres.
#[export] Hint Extern 5 (evolves (same_db (record_view _ _)) _) =>
  apply tables_view; solve [evolve] : cw_pres.

(** *** The calls of the executor *)

Section calls.
Context {X : Type} `{!Runtime X, !KubeApi X}.
Context (exe : Executor).
Abbreviation mutates_ok P m := (evolves (mutates (X:=X) P) m).

Abbreviation quiet m := (evolves (same_trace (X:=X)) m).
Ltac observe :=
  unfold require_namespace, validate_name, require_custom, get_default_object, member;
  repeat first [ evolve_step | apply api_trace; intros ?; unfold api_failure
               | solve [eauto with cw_pres] ].

Lemma require_custom_trace c m : quiet (require_custom exe c m).
Proof. observe. Qed.
Hint Resolve require_custom_trace : cw_pres.
Lemma quarantine_state_trace ns p n q : quiet (get_quarantine_policy_state exe ns p n q).
Proof. unfold get_quarantine_policy_state. observe. Qed.
Lemma egress_probe_trace ns p : quiet (probe_controlled_security_egress exe ns p).
Proof. unfold probe_controlled_security_egress. observe. Qed.
Hint Resolve quarantine_state_trace egress_probe_trace : cw_pres.

Lemma patch_label_mutates (P : call → Prop) ns pod v :
  P (CallPatchPodLabels ns pod [(QUARANTINE_LABEL, v)]) → mutates_ok P (patch_label ns pod v).
Proof.
  intros HP. unfold patch_label. apply evolves_bind; [apply _| |intros _].
  - by apply record_call_mutates.
  - apply mutates_same_trace, api_trace. intros s. evolve.
Qed.

Lemma apply_policy_mutates (P : call → Prop) ns pod q i :
  (ns = "cloudward-staging" →
     P (CallPatchPodLabels ns pod [(QUARANTINE_LABEL, JStr q)]) ∧
     P (CallPatchPodLabels ns pod [(QUARANTINE_LABEL, JNull)]) ∧
     P (CallCreateObject ns "ciliumnetworkpolicies"
          (quarantine_body ns pod ("cloudward-quarantine-" +:+ q) q i))) →
  mutates_ok P (apply_quarantine_policy exe ns pod q i).
Proof.
  intros HP. unfold apply_quarantine_policy, require_namespace, validate_name.
  apply evolves_bind; [apply _|evolve|intros _].
  apply evolves_bind_post; [apply _|evolve|].
  intros w u w' [Hns%negb_false_iff%String.eqb_eq _]%raise_if_ok.
  destruct (HP Hns) as (H1 & H2 & H3).
  repeat first [ evolve_step | apply patch_label_mutates; assumption
    | apply record_call_mutates; intros _; assumption | solve [eauto with cw_pres] ].
Qed.

Lemma remove_policy_mutates (P : call → Prop) ns pod name q :
  P (CallPatchPodLabels ns pod [(QUARANTINE_LABEL, JNull)]) →
  P (CallDeleteObject ns "ciliumnetworkpolicies" name) →
  mutates_ok P (remove_quarantine_policy exe ns pod name q).
Proof.
  intros H1 H2. unfold remove_quarantine_policy, delete_object, require_namespace, validate_name.
  repeat first [ evolve_step | apply patch_label_mutates; assumption
    | apply record_call_mutates; intros _; assumption
    | apply mutates_same_trace, api_trace; intros ?; evolve
    | solve [eauto with cw_pres] ].
Qed.
End calls.

#[export] Hint Resolve quarantine_state_trace egress_probe_trace : cw_pres.

(** *** The flow *)

Section flow.
Context {X : Type} `{!Runtime X, !KubeApi X, !Pydantic, !PolicyServer X}.
Context (settings : Settings) (opa : OPAClient) (exe : Executor).
Context (event_id : uuid) (actor : string).
Abbreviation same_ok f m := (evolves (same_db (X:=X) f) m).

(** A stored permission for an action on the pod of the event, obtained from the
    policy engine. *)
Definition granted (action : ActionType) (t : option uuid * string * string)
    (d : PolicyDecision) : Prop :=
  let '(incident, namespace, pod) := t in
  d.(pol_allowed) = true ∧ incident = Some d.(pol_incident_id) ∧
  ∃ (policy_input : PolicyInput) decision (w w' : World X),
    evaluate opa policy_input w = (Ok decision, w') ∧ decision.(pr_allowed) = true ∧
    policy_input.(pi_action) = action ∧
    policy_input.(pi_target).(ti_namespace) = namespace ∧
    policy_input.(pi_target).(ti_pod_name) = pod ∧
    d.(pol_input_digest) = policy_digest policy_input.

Lemma under_bind {V A B} (view : Database → option V) t R `{!Evolution R}
    (m : M (World X) A) (k : A → M (World X) B) :
  evolves (under view t R) m →
  (∀ w a w', view w.(work) = Some t → m w = (Ok a, w') → evolves (under view t R) (k a)) →
  evolves (under view t R) (bind m k).
Proof.
  intros Hm Hk w Hw. unfold bind. specialize (Hm w Hw). specialize (Hk w).
  destruct (m w) as [[a|e] w']; simpl in *; [|done]. destruct Hm as [Hv HR].
  destruct (Hk a w' Hw eq_refl w' Hv) as [Hv' HR']. split; [done|]. by eapply evolves_trans.
Qed.

Lemma authorize_run action pod (w w' : World X) risk pi decision i ns p :
  authorize_quarantine opa event_id actor action pod w = (Ok (risk, pi, decision), w') →
  event_view event_id w.(work) = Some (i, ns, p) →
  (∃ w1, evaluate opa pi w1 = (Ok decision, w')) ∧ pi.(pi_action) = action ∧
  pi.(pi_target).(ti_namespace) = ns ∧ pi.(pi_target).(ti_pod_name) = p.
Proof.
  unfold authorize_quarantine. intros Hrun Hv. apply bind_ok in Hrun as (e & w1 & H1 & Hrun). run_inv H1.
  apply bind_ok in Hrun as (r & w2 & H2 & Hrun). injection H2 as _ ->.
  apply bind_ok in Hrun as (pi' & w3 & H3 & Hrun).
  unfold lift, validated in H3. destruct (PolicyInput_valid _); [|done]. injection H3 as <- ->.
  apply bind_ok in Hrun as (d & w4 & H4 & Hrun). apply ret_ok in Hrun as [[= -> -> ->] ->].
  unfold event_view in Hv. rewrite Hlk in Hv. injection Hv as <- <- <-.
  split; [by eexists|]. done.
Qed.

Lemma event_and_incident_pure (w : World X) : ∃ r, event_and_incident event_id w = (r, w).
Proof.
  unfold event_and_incident, bind, query, gets. simpl.
  repeat case_match; simplify_eq; eauto.
Qed.

Lemma event_and_incident_run (w w' : World X) i incident ns p :
  event_and_incident event_id w = (Ok incident, w') →
  event_view event_id w.(work) = Some (i, ns, p) → i = Some incident.
Proof.
  unfold event_and_incident, event_view. intros Hrun Hv.
  apply bind_ok in Hrun as (o & w1 & H1 & Hrun). run_inv H1.
  destruct (security_events (work w1) !! event_id) as [e|]; [|done]. injection Hv as <- <- <-.
  destruct e.(sev_incident_id) as [j|]; [|done].
  apply bind_ok in Hrun as (o & w2 & H2 & Hrun). destruct o; [|done].
  by apply ret_ok in Hrun as [-> _].
Qed.

Lemma persist_decision_run incident proposal pi decision score (w : World X) :
  match persist_decision settings event_id incident proposal pi decision score w with
  | (Ok _, w') => ∃ d, w'.(work).(policy_decisions) = w.(work).(policy_decisions) ++ [d] ∧
      d.(pol_allowed) = decision.(pr_allowed) ∧ d.(pol_incident_id) = incident ∧
      d.(pol_input_digest) = policy_digest pi
  | (Raise _, w') => w' = w
  end.
Proof.
  unfold persist_decision. unfold deref, query, bind at 1 2, gets.
  destruct (security_events (work w) !! event_id) as [e|]; [|done].
  eexists. split; [reflexivity|]. done.
Qed.

Lemma persist_acts {V} (view : Database → option V) t P incident proposal pi decision score :
  same_ok view (persist_decision settings event_id incident proposal pi decision score) →
  evolves (under view t (acts P))
    (persist_decision settings event_id incident proposal pi decision score).
Proof.
  intros Hview w Hw. split; [by rewrite (Hview w)|]. split.
  - revert w Hw. assert (evolves (mutates (X:=X) P)
      (persist_decision settings event_id incident proposal pi decision score)) as Hm
      by (unfold persist_decision; evolve). intros w _. apply Hm.
  - pose proof (persist_decision_run incident proposal pi decision score w) as Hrun.
    destruct (persist_decision _ _ _ _ _ _ _ w) as [[u|e] w1]; [|by subst].
    destruct Hrun as (d & Hd & _). exists [d]. split; [done|]. by apply Forall_forall.
Qed.

(** Storing an allowed decision grants what follows. *)
Lemma granted_after {V A} (view : Database → option V) t P (granted : PolicyDecision → Prop)
    incident proposal pi decision score (k : unit → M (World X) A) :
  same_ok view (persist_decision settings event_id incident proposal pi decision score) →
  (∀ d, d.(pol_allowed) = decision.(pr_allowed) → d.(pol_incident_id) = incident →
        d.(pol_input_digest) = policy_digest pi → granted d) →
  (∀ u, evolves (under view t (acts P)) (k u)) →
  evolves (under view t (acts_granted P granted))
    (bind (persist_decision settings event_id incident proposal pi decision score) k).
Proof.
  intros Hview Hg Hk w Hw.
  assert (evolves (mutates (X:=X) (λ _, False))
    (persist_decision settings event_id incident proposal pi decision score)) as Hm
    by (unfold persist_decision; evolve).
  specialize (Hview w). specialize (Hm w).
  pose proof (persist_decision_run incident proposal pi decision score w) as Hrun. unfold bind.
  destruct (persist_decision _ _ _ _ _ _ _ w) as [[u|e] w1]; cbn [fst snd] in *;
    unfold same_db, stable in Hview.
  2: { subst w1. split; [done|]. split; [done|by left]. }
  destruct Hrun as (d & Hd & Hal & Hi & Hdig).
  destruct (Hk u w1 (eq_trans Hview Hw)) as (Hv & Hm' & l & Hl & HF).
  split; [done|]. rewrite Hd, <- app_assoc in Hl. split; [exists ([d] ++ l)|right].
  - split; [exact Hl|]. by apply Forall_forall.
  - split; [eapply evolves_trans; [tc_solve| |exact Hm'];
      by apply (mutates_weaken (λ _, False))|].
    exists d. split; [by apply Hg|]. rewrite Hl, drop_app_length. by left.
Qed.
End flow.

Ltac request_stages :=
  unfold contain, release, enforce_quarantine, mark_held, report_held, quarantine_failed,
    mark_failed, escalate_failed, report_failed, begin_quarantine, open_record, deny_quarantine, propose_removal, lift_quarantine,
    quarantine_removed, removal_failed, new_quarantine_execution, insert_execution,
    record_containment, insert_verification, succeed_execution, fail_execution,
    publish_containment, audit_containment, by_user, authorize_quarantine, proposal_for_apply,
    event_and_incident, wait_for_containment, wait_for_release, wait, containment_round,
    release_round.

Section frames.
Context {X : Type} `{!Runtime X, !KubeApi X, !Pydantic, !PolicyServer X}.
Context (settings : Settings) (opa : OPAClient) (exe : Executor).
Context (event_id : uuid) (actor : string).
Abbreviation same_ok f m := (evolves (same_db (X:=X) f) m).
Abbreviation mutates_ok P m := (evolves (mutates (X:=X) P) m).

Lemma wait_evolves R `{!Evolution R} timeout poll round initial :
  evolves R round → evolves R (monotonic (X:=X)) → (∀ d, evolves R (sleep (X:=X) d)) →
  evolves R (wait_until timeout poll round initial).
Proof.
  intros Hr Hm Hs. unfold wait_until. apply evolves_bind; [tc_solve|done|intros start].
  apply evolves_bind; [tc_solve| |intros []; evolve].
  generalize (wait_fuel timeout poll) initial. intros n.
  induction n as [|n IH]; intros latest; cbn [wait_loop]; [evolve|].
  apply evolves_bind; [tc_solve|done|intros now]. destruct (now <? _); [|evolve].
  apply evolves_bind; [tc_solve|done|intros [[] d]]; [evolve|].
  apply evolves_bind; [tc_solve|done|intros _; apply IH].
Qed.
Hint Extern 1 (evolves _ (wait_until _ _ _ _)) => apply wait_evolves; [tc_solve|..] : cw_pres.

Lemma insert_execution_mutates P e : mutates_ok P (insert_execution e).
Proof. unfold insert_execution. evolve. Qed.

Lemma containment_round_same {A} (f : Database → A) n :
  same_ok f (containment_round exe event_id n).
Proof. request_stages. evolve. Qed.
Lemma release_round_same {A} (f : Database → A) i n : same_ok f (release_round exe event_id i n).
Proof. request_stages. evolve. Qed.
Lemma containment_round_mutates P n : mutates_ok P (containment_round exe event_id n).
Proof. request_stages. evolve. Qed.
Lemma release_round_mutates P i n : mutates_ok P (release_round exe event_id i n).
Proof. request_stages. evolve. Qed.
Hint Resolve insert_execution_mutates containment_round_same release_round_same
  containment_round_mutates release_round_mutates : cw_pres.

Lemma notify_events e i d :
  same_ok security_events (queue_incident_notification settings e i d).
Proof. unfold queue_incident_notification, queue, queue_channel. evolve. Qed.
Lemma notify_decisions e i d :
  same_ok policy_decisions (queue_incident_notification settings e i d).
Proof. unfold queue_incident_notification, queue, queue_channel. evolve. Qed.
Lemma notify_quarantines e i d :
  same_ok quarantine_records (queue_incident_notification settings e i d).
Proof. unfold queue_incident_notification, queue, queue_channel. evolve. Qed.
Hint Resolve notify_events notify_decisions notify_quarantines : cw_pres.

(** A step that mutates nothing and stores no decision. *)
Ltac quietly := apply quiet_acts; request_stages; evolve.

Section applying.
Context (t : option uuid * string * string).
Abbreviation contained m := (evolves (under (X:=X) (event_view event_id) t
  (acts (containing event_id t))) m).

Lemma enforce_contained incident record : t.1.1 = Some incident →
  contained (enforce_quarantine settings exe event_id actor incident record).
Proof.
  destruct t as [[i ns] p]. simpl. intros ->. unfold enforce_quarantine.
  apply under_bind; [tc_solve|quietly|]. intros w e w' Hw [He _]%deref_ok.
  unfold event_view in Hw. rewrite He in Hw. injection Hw as _ <- <-.
  apply evolves_bind; [tc_solve|quietly|intros probe].
  apply evolves_bind; [tc_solve|quietly|intros _].
  apply evolves_bind; [tc_solve| |intros q; quietly].
  apply loud_acts; [evolve|evolve|]. apply apply_policy_mutates. intros Hns.
  refine (conj _ (conj _ _)); (split; [done|]); [by left|by right; left|].
  right. right. by eexists.
Qed.

Lemma contain_contained incident proposal record execution risk decision :
  t.1.1 = Some incident →
  contained (contain settings exe event_id actor incident proposal record execution risk decision).
Proof.
  intros Ht. unfold contain. apply evolves_catch; [tc_solve| |intros e].
  - apply evolves_bind; [tc_solve|by apply enforce_contained|intros v]. quietly.
  - destruct (is_cloudward_error e); quietly.
Qed.

Lemma apply_granted : evolves
  (under (X:=X) (event_view event_id) t
     (acts_granted (containing event_id t) (granted (X:=X) opa APPLY_QUARANTINE t)))
  (apply_quarantine settings opa exe event_id actor).
Proof.
  unfold apply_quarantine. apply under_bind; [tc_solve|apply quiet_granted; quietly|].
  intros w incident w' Hw Hinc. destruct t as [[i ns] p] eqn:Ht.
  pose proof (event_and_incident_run _ _ _ _ _ _ _ Hinc Hw) as ->. clear w w' Hw Hinc.
  rewrite <- Ht.
  apply evolves_bind; [tc_solve|apply quiet_granted; quietly|intros existing].
  assert (∀ o, evolves
    (under (X:=X) (event_view event_id) t
       (acts_granted (containing event_id t) (granted (X:=X) opa APPLY_QUARANTINE t)))
    (start_quarantine settings opa exe event_id actor incident o)) as Hstart.
  2: { destruct existing as [q|]; [|done].
       destruct (bool_decide _); [apply quiet_granted; quietly|done]. }
  intros o. unfold start_quarantine.
  apply evolves_bind; [tc_solve|apply quiet_granted; quietly|intros j].
  apply evolves_bind; [tc_solve|apply quiet_granted; quietly|intros _].
  apply evolves_bind; [tc_solve|apply quiet_granted; quietly|intros e].
  apply evolves_bind; [tc_solve|apply quiet_granted; quietly|intros pod].
  apply evolves_bind; [tc_solve|apply quiet_granted; quietly|intros _].
  apply under_bind; [tc_solve|apply quiet_granted; quietly|].
  intros w [[risk pi] decision] w' Hw Hauth. rewrite Ht in Hw.
  eapply authorize_run in Hauth as ((w1 & He) & Ha & Hns & Hp); [|exact Hw].
  apply evolves_bind; [tc_solve|apply quiet_granted; quietly|intros proposal].
  destruct (pr_allowed decision) eqn:Hal.
  - apply granted_after; [unfold persist_decision; evolve| |].
    + intros d Hd Hi Hdig. rewrite Ht. split; [congruence|]. split; [by rewrite Hi|].
      exists pi, decision, w1, w'. by split_and!.
    + intros u. simpl. apply evolves_bind; [tc_solve|quietly|intros [record execution]].
      apply contain_contained. by rewrite Ht.
  - apply quiet_granted. apply evolves_bind; [tc_solve| |intros u; simpl; quietly].
    apply persist_acts. unfold persist_decision. evolve.
Qed.
End applying.

Section removing.
Context (record : uuid) (t : option uuid * string * string * string).
Abbreviation view := (record_view event_id record).
Abbreviation released m := (evolves (under (X:=X) view t (acts (releasing t))) m).
Abbreviation permitted m := (evolves (under (X:=X) view t
  (acts_granted (releasing t) (granted (X:=X) opa REMOVE_QUARANTINE t.1))) m).

Lemma record_view_event d : view d = Some t → event_view event_id d = Some t.1.
Proof.
  unfold record_view. destruct (event_view event_id d), (quarantine_records d !! record);
    by intros [= <-].
Qed.

Lemma lift_released : released (lift_quarantine settings exe event_id record).
Proof.
  destruct t as [[[i ns] p] name] eqn:Ht. rewrite <- Ht. unfold lift_quarantine.
  apply under_bind; [tc_solve|quietly|]. intros w e w' Hw [He _]%deref_ok.
  apply record_view_event in Hw as Hv. unfold event_view in Hv. rewrite He, Ht in Hv.
  injection Hv as _ Hns Hp.
  apply under_bind; [tc_solve|quietly|]. intros w1 q w1' Hw1 [Hq _]%deref_ok.
  unfold record_view in Hw1. rewrite Hq, Ht in Hw1.
  destruct (event_view event_id _); [|done]. injection Hw1 as _ Hname. rewrite Hns, Hp, Hname.
  apply evolves_bind; [tc_solve| |intros state; quietly].
  apply loud_acts; [evolve|evolve|].
  apply remove_policy_mutates; rewrite Ht; [by left|by right].
Qed.

Lemma release_released incident proposal execution risk :
  released (release settings exe event_id actor incident proposal record execution risk).
Proof.
  unfold release. apply evolves_catch; [tc_solve| |intros e].
  - apply evolves_bind; [tc_solve|apply lift_released|intros v]. quietly.
  - destruct (is_cloudward_error e); quietly.
Qed.

Lemma removal_granted incident : t.1.1.1 = Some incident →
  permitted (start_removal settings opa exe event_id actor incident record).
Proof.
  intros Hi. destruct t.1 as [[i ns] p] eqn:Ht. simpl in Hi. subst i. rewrite <- Ht.
  unfold start_removal.
  apply evolves_bind; [tc_solve|apply quiet_granted; quietly|intros e].
  apply evolves_bind; [tc_solve|apply quiet_granted; quietly|intros pod].
  apply under_bind; [tc_solve|apply quiet_granted; quietly|].
  intros w [[risk pi] decision] w' Hw Hauth. apply record_view_event in Hw. rewrite Ht in Hw.
  eapply authorize_run in Hauth as ((w1 & He) & Ha & Hns & Hp); [|exact Hw].
  apply evolves_bind; [tc_solve|apply quiet_granted; quietly|intros proposal].
  destruct (pr_allowed decision) eqn:Hal.
  - apply granted_after; [unfold persist_decision; evolve| |].
    + intros d Hd Hinc Hdig. rewrite Ht. split; [congruence|]. split; [by rewrite Hinc|].
      exists pi, decision, w1, w'. by split_and!.
    + intros u. simpl. apply evolves_bind; [tc_solve|quietly|intros _].
      apply evolves_bind; [tc_solve|quietly|intros _].
      apply evolves_bind; [tc_solve|quietly|intros execution]. apply release_released.
  - apply quiet_granted. apply evolves_bind; [tc_solve| |intros u; simpl; quietly].
    apply persist_acts. unfold persist_decision. evolve.
Qed.
End removing.

(** A request that changed the cluster had a permission of its own. *)
Definition authorised (action : ActionType)
    (allowed : option uuid * string * string → call → Prop) (w w' : World X) : Prop :=
  mutations w' = mutations w ∨
  ∃ t d, event_view event_id w.(work) = Some t ∧ mutates (allowed t) w w' ∧
    granted (X:=X) opa action t d ∧
    d ∈ drop (length w.(work).(policy_decisions)) w'.(work).(policy_decisions).

Lemma under_authorised {V} (view : Database → option V) v t action P (w w' : World X) :
  view w.(work) = Some v → event_view event_id w.(work) = Some t →
  under view v (acts_granted (P t) (granted (X:=X) opa action t)) w w' →
  authorised action P w w'.
Proof.
  intros Hv Ht Hu. destruct (Hu Hv) as (_ & _ & [Hm|(Hm & d & Hg & Hd)]); [by left|].
  right. by exists t, d.
Qed.

Definition records_keyed (w : World X) : Prop :=
  ∀ k q, w.(work).(quarantine_records) !! k = Some q → q.(qrt_id) = k.

(** The removal of a policy this program recorded. *)
Definition releasing_recorded (w : World X) (t : option uuid * string * string) (c : call)
  : Prop :=
  ∃ q, q ∈ rows w.(work).(quarantine_records) ∧ q.(qrt_security_event_id) = event_id ∧
    releasing (t, q.(qrt_policy_name)) c.
End frames.

Section requests.
Context {X : Type} `{!Runtime X, !KubeApi X, !Pydantic, !PolicyServer X}.
Context (settings : Settings) (opa : OPAClient) (exe : Executor).
Context (event_id : uuid) (actor : string).

Lemma remove_authorised (w : World X) : records_keyed w →
  authorised opa event_id REMOVE_QUARANTINE (releasing_recorded event_id w) w
    (remove_quarantine settings opa exe event_id actor w).2.
Proof.
  intros Hkeyed. unfold remove_quarantine, bind at 1.
  pose proof (event_and_incident_pure event_id w) as [r Hi]. rewrite Hi.
  destruct r as [incident|e]; [|by left].
  unfold query, gets, bind at 1.
  destruct (latest _ _ _) as [q|] eqn:Hq; [|by left].
  apply latest_Some in Hq as (Hin & Hev & _). apply bool_decide_eq_true in Hev.
  destruct (bool_decide _); [by left|].
  apply elem_of_rows in Hin as Hk. destruct Hk as [k Hk]. rewrite (Hkeyed _ _ Hk).
  destruct (event_view event_id w.(work)) as [t|] eqn:Ht.
  - assert (record_view event_id k w.(work) = Some (t, q.(qrt_policy_name))) as Hv
      by (unfold record_view; by rewrite Ht, Hk).
    eapply under_authorised; [exact Hv|exact Ht|].
    intros Hv'. destruct t as [[i ns] p].
    pose proof (event_and_incident_run event_id _ _ _ _ _ _ Hi Ht) as ->.
    destruct (removal_granted settings opa exe event_id actor k
      ((Some incident, ns, p), q.(qrt_policy_name)) incident eq_refl w Hv') as (H1 & H2 & H3).
    split; [done|]. split; [done|]. destruct H3 as [H3|[H3 H4]]; [by left|right].
    split; [|done]. eapply mutates_weaken, H3. intros c Hc. by exists q.
  - exfalso. revert Hi Ht. unfold event_and_incident, event_view, bind, query, gets. simpl.
    by destruct (security_events (work w) !! event_id).
Qed.

(** C7: no request changes the cluster without a permission of its own.  However the
    call ends, applying a quarantine and removing one either issue no mutating call,
    or a decision was stored in the run that allows this action for the incident of
    the event, and is what the policy engine answered about the namespace and the
    pod of the event; and every mutating call is then a label of that pod or the one
    typed policy that selects it, in [cloudward-staging], or for a removal a policy
    recorded for this event. *)
Theorem requests_authorised (w : World X) : records_keyed w →
  authorised opa event_id APPLY_QUARANTINE (containing event_id) w
    (apply_quarantine settings opa exe event_id actor w).2 ∧
  authorised opa event_id REMOVE_QUARANTINE (releasing_recorded event_id w) w
    (remove_quarantine settings opa exe event_id actor w).2.
Proof.
  intros Hkeyed. split; [|by apply remove_authorised].
  destruct (event_view event_id w.(work)) as [t|] eqn:Ht.
  - eapply under_authorised; [exact Ht|exact Ht|]. apply apply_granted.
  - left. unfold apply_quarantine, bind at 1.
    assert (∃ e, event_and_incident event_id w = (Raise e, w)) as [e ->]; [|done].
    revert Ht. unfold event_and_incident, event_view, bind at 1, query, gets. cbn [fst snd].
    destruct (security_events (work w) !! event_id); [done|]. by eexists.
Qed.
End requests.

(** ** Outcomes *)

Section outcomes.
Context {X : Type} `{!Runtime X, !KubeApi X, !Pydantic, !PolicyServer X}.
Context (settings : Settings) (exe : Executor) (event_id : uuid) (actor : string).
Context (incident proposal record execution : uuid).
Abbreviation durable_same m := (evolves (same_committed (X:=X)) m).
Abbreviation same_ok f m := (evolves (same_db (X:=X) f) m).

Lemma enforce_committed : durable_same (enforce_quarantine settings exe event_id actor incident record).
Proof.
  request_stages. repeat first [apply wait_evolves; [tc_solve|..] | progress evolve].
Qed.
Lemma mark_held_committed v : durable_same (mark_held event_id proposal record execution v).
Proof. request_stages. evolve. Qed.
Lemma report_held_committed risk d v :
  durable_same (report_held settings event_id actor incident record execution risk d v).
Proof. request_stages. evolve. Qed.
Lemma mark_failed_committed c : durable_same (mark_failed event_id record execution c).
Proof. request_stages. evolve. Qed.
Lemma escalate_committed c : durable_same (escalate_failed settings incident c).
Proof. request_stages. evolve. Qed.
Lemma report_failed_committed risk c :
  durable_same (report_failed event_id incident record risk c).
Proof. request_stages. evolve. Qed.

(** What the reports leave alone. *)
Lemma notify_executions e i d :
  same_ok action_executions (queue_incident_notification settings e i d).
Proof. unfold queue_incident_notification, queue, queue_channel. evolve. Qed.
Lemma notify_proposals e i d :
  same_ok action_proposals (queue_incident_notification settings e i d).
Proof. unfold queue_incident_notification, queue, queue_channel. evolve. Qed.
Hint Resolve notify_executions notify_proposals notify_events notify_quarantines : cw_pres.

Definition outcome_tables (d : Database) :=
  (d.(quarantine_records), d.(security_events), d.(action_executions), d.(action_proposals)).
Lemma same_outcome_tables {A} (m : M (World X) A) :
  same_ok quarantine_records m → same_ok security_events m → same_ok action_executions m →
  same_ok action_proposals m → same_ok outcome_tables m.
Proof.
  intros H1 H2 H3 H4 w. unfold same_db, stable, outcome_tables in *. by rewrite H1, H2, H3, H4.
Qed.
Lemma report_held_same risk d v :
  same_ok outcome_tables (report_held settings event_id actor incident record execution risk d v).
Proof. apply same_outcome_tables; request_stages; evolve. Qed.
Lemma escalate_same c : same_ok outcome_tables (escalate_failed settings incident c).
Proof. apply same_outcome_tables; request_stages; evolve. Qed.
Lemma report_failed_same risk c :
  same_ok outcome_tables (report_failed event_id incident record risk c).
Proof. apply same_outcome_tables; request_stages; evolve. Qed.
Lemma report_failed_incidents risk c :
  same_ok incidents (report_failed event_id incident record risk c).
Proof. request_stages. evolve. Qed.

(** The rows of a request, in a database. *)
Definition outcome (containment : ContainmentStatus) (result : RecordStatus) (d : Database)
  : Prop :=
  (∀ q, d.(quarantine_records) !! record = Some q → q.(qrt_status) = containment) ∧
  (∀ e, d.(security_events) !! event_id = Some e → e.(sev_containment_status) = containment) ∧
  (∀ x, d.(action_executions) !! execution = Some x → x.(exec_status) = result).
Lemma outcome_same c r d d' :
  outcome_tables d' = outcome_tables d → outcome c r d → outcome c r d'.
Proof. intros [= E1 E2 E3 E4] (H1 & H2 & H3). unfold outcome. by rewrite E1, E2, E3. Qed.

(** The row after its assignments. *)
Ltac assigned_row :=
  let r := fresh in let r0 := fresh in
  intros r; rewrite !lookup_alter_eq;
  match goal with |- context [?m !! ?k] => destruct (m !! k) as [r0|] end;
  simpl; [intros [= <-]; by destruct r0|done].

Lemma mark_held_outcome v (w w' : World X) u :
  mark_held event_id proposal record execution v w = (Ok u, w') →
  outcome CONTAINED SUCCEEDED w'.(work) ∧
  (∀ q, w'.(work).(quarantine_records) !! record = Some q → q.(qrt_verification) = v) ∧
  (∀ p, w'.(work).(action_proposals) !! proposal = Some p → p.(prop_status) = SUCCEEDED).
Proof.
  unfold mark_held, succeed_execution. intros Hrun. run_inv Hrun. unfold outcome. simpl.
  split_and!; assigned_row.
Qed.
Lemma mark_failed_outcome c (w w' : World X) u :
  mark_failed event_id record execution c w = (Ok u, w') →
  outcome VERIFICATION_FAILED FAILED w'.(work).
Proof.
  unfold mark_failed, fail_execution. intros Hrun. run_inv Hrun. unfold outcome. simpl.
  split_and!; assigned_row.
Qed.

(** A wait that succeeded ended with a round that did. *)
Lemma wait_loop_success n deadline poll round latest (w w' : World X) d :
  wait_loop n deadline poll round latest w = (Ok (Some d), w') →
  (∀ w1 d' w2, round w1 = (Ok (false, d'), w2) → successful d' = Ok false) →
  successful d = Ok true → (∃ w1, round w1 = (Ok (true, d), w')) ∨ d = latest.
Proof.
  intros Hrun Hfalse Hd. revert latest w Hrun.
  induction n as [|n IH]; intros latest w Hrun; [done|]. cbn [wait_loop] in Hrun.
  apply bind_ok in Hrun as (now & w1 & _ & Hrun).
  destruct (now <? deadline); [|by apply ret_ok in Hrun as [[= ->] _]; right].
  apply bind_ok in Hrun as ([success d'] & w2 & H2 & Hrun).
  destruct success; [apply ret_ok in Hrun as [[= ->] ->]; left; by exists w1|].
  apply bind_ok in Hrun as (u & w3 & _ & Hrun).
  apply IH in Hrun as [?| ->]; [by left|]. apply Hfalse in H2. congruence.
Qed.

Lemma containment_round_reports n (w w' : World X) b d :
  containment_round exe event_id n w = (Ok (b, d), w') → successful d = Ok b.
Proof.
  unfold containment_round. intros Hrun.
  apply bind_ok in Hrun as (e & w1 & _ & Hrun). apply bind_ok in Hrun as (st & w2 & _ & Hrun).
  apply bind_ok in Hrun as (pr & w3 & _ & Hrun). apply bind_ok in Hrun as (pod & w4 & _ & Hrun).
  by apply ret_ok in Hrun as [[= -> ->] _].
Qed.

Lemma containment_verified n (w w' : World X) d :
  wait_for_containment settings exe event_id n w = (Ok d, w') → successful d = Ok true →
  ∃ w1, containment_round exe event_id n w1 = (Ok (true, d), w').
Proof.
  unfold wait_for_containment, wait, wait_until. intros Hrun Hd.
  apply bind_ok in Hrun as (l & w1 & H1 & Hrun). apply ret_ok in Hrun as [-> ->].
  apply bind_ok in H1 as (start & w2 & H2 & H1). apply bind_ok in H1 as (o & w3 & H3 & H1).
  destruct o as [d'|]; [|done]. apply ret_ok in H1 as [-> ->].
  destruct d' as [|kv d']; [done|].
  apply wait_loop_success in H3 as [?|?]; [done|done| |done].
  intros ? ? ? Hr%containment_round_reports. done.
Qed.

Lemma enforce_verified (w w' : World X) d :
  enforce_quarantine settings exe event_id actor incident record w = (Ok d, w') →
  ∃ n w1, containment_round exe event_id n w1 = (Ok (true, d), w').
Proof.
  unfold enforce_quarantine. intros Hrun.
  do 7 (apply bind_ok in Hrun as (? & ? & _ & Hrun)).
  apply bind_ok in Hrun as (q & w7 & H7 & Hrun).
  apply bind_ok in Hrun as (v & w8 & H8 & Hrun).
  apply bind_ok in Hrun as (b & w9 & H9 & Hrun). injection H9 as Hb ->.
  apply bind_ok in Hrun as (u & w10 & H10 & Hrun). apply raise_if_ok in H10 as [Hs%negb_false_iff ->].
  apply ret_ok in Hrun as [-> ->]. subst b.
  apply containment_verified in H8 as [w1 H8]; [by eexists _, w1|done].
Qed.

Lemma escalate_left c (w w' : World X) u i :
  escalate_failed settings incident c w = (Ok u, w') →
  w'.(work).(incidents) !! incident = Some i → i.(inc_state) ∉ [EXECUTING; VERIFYING].
Proof.
  unfold escalate_failed. intros Hrun Hi. apply bind_ok in Hrun as (j & w1 & H1 & Hrun).
  run_inv H1. case_bool_decide as Hj; simpl in Hrun.
  - apply change_incident_state_reached in Hrun as (j' & Hj' & Hs).
    rewrite Hi in Hj'. injection Hj' as <-. rewrite Hs. set_solver.
  - apply ret_ok in Hrun as [_ ->]. congruence.
Qed.

(** A containment that returned was observed; all of it is durable. *)
Definition contained_durably (w' : World X) : Prop :=
  w'.(committed) = w'.(work) ∧ outcome CONTAINED SUCCEEDED w'.(work) ∧
  (∀ p, w'.(work).(action_proposals) !! proposal = Some p → p.(prop_status) = SUCCEEDED) ∧
  ∃ n d (w1 w2 : World X), containment_round exe event_id n w1 = (Ok (true, d), w2) ∧
    (∀ q, w'.(work).(quarantine_records) !! record = Some q → q.(qrt_verification) = d).

(** A failure that is durable left no row waiting. *)
Definition failed_durably (w' : World X) : Prop :=
  w'.(committed) = w'.(work) ∧ outcome VERIFICATION_FAILED FAILED w'.(work) ∧
  (∀ i, w'.(work).(incidents) !! incident = Some i → i.(inc_state) ∉ [EXECUTING; VERIFYING]).

Lemma raised_uncommitted {A B} (m : M (World X) A) (k : A → M (World X) B) (w w' : World X) e :
  durable_same m →
  (∀ a w1, k a w1 = (Raise e, w') → w'.(committed) = w1.(committed)) →
  bind m k w = (Raise e, w') → w'.(committed) = w.(committed).
Proof.
  intros Hm Hk Hrun. specialize (Hm w). unfold bind in Hrun.
  destruct (m w) as [[a|e'] w1]; cbn [snd] in Hm; unfold same_committed, stable in Hm.
  - apply Hk in Hrun. congruence.
  - by injection Hrun as _ <-.
Qed.
Lemma bind_cases {A B} (m : M (World X) A) (k : A → M (World X) B) (w w' : World X) r :
  bind m k w = (r, w') →
  (∃ e, m w = (Raise e, w') ∧ r = Raise e) ∨ (∃ a w1, m w = (Ok a, w1) ∧ k a w1 = (r, w')).
Proof.
  unfold bind. destruct (m w) as [[a|e] w1]; [right; by eexists _, _|].
  intros [= <- <-]. left. by eexists.
Qed.

Lemma held_run risk decision (w w' : World X) r :
  (let! v := enforce_quarantine settings exe event_id actor incident record in
   do! mark_held event_id proposal record execution v;
   do! report_held settings event_id actor incident record execution risk decision v;
   do! commit;
   ret record) w = (r, w') →
  match r with
  | Ok id => id = record ∧ contained_durably w'
  | Raise _ => w'.(committed) = w.(committed)
  end.
Proof.
  intros Hrun. destruct r as [id|e].
  - apply bind_ok in Hrun as (v & w1 & H1 & Hrun). apply bind_ok in Hrun as (u & w2 & H2 & Hrun).
    apply bind_ok in Hrun as (u' & w3 & H3 & Hrun). apply bind_ok in Hrun as (u'' & w4 & H4 & Hrun).
    run_inv H4. apply ret_ok in Hrun as [-> ->]. split; [done|].
    apply enforce_verified in H1 as (n & w0 & Hr). apply mark_held_outcome in H2 as (Ho & Hv & Hp).
    apply (evolves_run _ _ _ _ _ (report_held_same _ _ _)) in H3. unfold same_db, stable in H3.
    split; [done|]. split; [by eapply outcome_same|]. injection H3 as E1 E2 E3 E4.
    simpl. rewrite E4, E1. split; [done|]. by exists n, v, w0, w1.
  - eapply raised_uncommitted, Hrun; [apply enforce_committed|intros v w1 Hr].
    eapply raised_uncommitted, Hr; [apply mark_held_committed|intros u w2 Hr2].
    eapply raised_uncommitted, Hr2; [apply report_held_committed|]. by intros.
Qed.

Lemma failed_run risk e0 (w w' : World X) r :
  quarantine_failed settings event_id incident record execution risk e0 w = (r, w') →
  ∃ e, r = Raise e ∧ (w'.(committed) = w.(committed) ∨ e = e0 ∧ failed_durably w').
Proof.
  unfold quarantine_failed. intros Hrun.
  apply bind_cases in Hrun as [(e & H1 & ->)|(u1 & w1 & H1 & Hrun)].
  { exists e. split; [done|]. left.
    by apply (evolves_run _ _ _ _ _ (mark_failed_committed _)) in H1. }
  pose proof (evolves_run _ _ _ _ _ (mark_failed_committed _) H1) as C1.
  apply bind_cases in Hrun as [(e & H2 & ->)|(u2 & w2 & H2 & Hrun)];
    pose proof (evolves_run _ _ _ _ _ (escalate_committed _) H2) as C2.
  { exists e. split; [done|]. left. unfold same_committed, stable in *. congruence. }
  apply bind_cases in Hrun as [(e & H3 & ->)|(u3 & w3 & H3 & Hrun)];
    pose proof (evolves_run _ _ _ _ _ (report_failed_committed _ _) H3) as C3.
  { exists e. split; [done|]. left. unfold same_committed, stable in *. congruence. }
  injection Hrun as <- <-. exists e0. split; [done|]. right. split; [done|].
  pose proof (evolves_run _ _ _ _ _ (report_failed_incidents _ _) H3) as Hinc.
  pose proof (evolves_run _ _ _ _ _ (escalate_same _) H2) as Ht2.
  pose proof (evolves_run _ _ _ _ _ (report_failed_same _ _) H3) as Ht3.
  unfold same_db, stable in *. split; [done|]. split.
  - apply mark_failed_outcome in H1. eapply outcome_same; [|exact H1]. simpl. congruence.
  - simpl. rewrite Hinc. intros i. eapply escalate_left, H2.
Qed.

End outcomes.

(** ** The waits of the service *)

(** The clock does not run backwards during a request to the API server either. *)
Class ObservationClock (X : Type) `{!Runtime X, !KubeApi X, !WaitingClock (X:=X)} := {
  clock_pod name ns x : waiting_clock x ≤ waiting_clock (read_namespaced_pod name ns x).2;
  clock_object g v ns pl name x :
    waiting_clock x ≤ waiting_clock (get_custom_object g v ns pl name x).2;
  clock_pod_proxy port name ns path x :
    waiting_clock x ≤ waiting_clock (pod_proxy_get port name ns path x).2;
}.

Section waits.
Context {X : Type} `{!Runtime X, !KubeApi X, !WaitingClock (X:=X), !ObservationClock X}.
Context (settings : Settings) (exe : Executor) (event_id : uuid).
Abbreviation forward m := (evolves (never_back (X:=X)) m).

Lemma api_forward {A} (f : X → (A + api_error) * X) h :
  (∀ x, waiting_clock x ≤ waiting_clock (f x).2) → (∀ s, forward (h s)) → forward (api f h).
Proof.
  intros Hf Hh. unfold api.
  repeat first [evolve_step | intros w; apply Hf | apply Hh].
Qed.
Lemma deref_forward {R} (table : Database → gmap uuid R) id : forward (deref table id).
Proof.
  intros w. unfold deref, query, bind, gets, never_back. by destruct (table (work w) !! id).
Qed.
Ltac goes_forward :=
  unfold require_namespace, validate_name, require_custom, get_default_object, member;
  repeat first [ evolve_step | apply deref_forward
    | apply api_forward; [|intros ?; unfold api_failure] | apply clock_pod
    | apply clock_pod_proxy | solve [eauto with cw_pres] ].

Lemma pod_forward ns p : forward (get_pod_health ns p).
Proof. unfold get_pod_health. goes_forward. Qed.
Hint Resolve pod_forward : cw_pres.
Lemma state_forward ns p n q : forward (get_quarantine_policy_state exe ns p n q).
Proof.
  unfold get_quarantine_policy_state. goes_forward. intros x.
  pose proof (clock_object "cilium.io" "v2" ns "ciliumnetworkpolicies" n x) as Hc.
  by destruct (get_custom_object _ _ _ _ _ x).
Qed.
Lemma probe_forward ns p : forward (probe_controlled_security_egress exe ns p).
Proof. unfold probe_controlled_security_egress. goes_forward. Qed.
Hint Resolve state_forward probe_forward : cw_pres.
Lemma containment_round_forward n : forward (containment_round exe event_id n).
Proof. unfold containment_round. goes_forward. Qed.
Lemma release_round_forward d n : forward (release_round exe event_id d n).
Proof. unfold release_round. goes_forward. Qed.

End waits.

(** ** A concrete request *)

Definition checkout_pod : V1Pod :=
  {| v1_namespace := "cloudward-staging"; v1_name := "checkout-1";
     v1_labels := Some [("cloudward.io/demo-target", "true");
                        (QUARANTINE_LABEL, quarantine_name 9%N)];
     v1_owners := Some [{| own_kind := "ReplicaSet"; own_controller := Some true |}];
     v1_phase := Some "Running";
     v1_conditions := Some [{| con_type := "Ready"; con_status := JStr "True" |}];
     v1_statuses := Some [{| cst_restart_count := Some 0; cst_terminated := None |}] |}.

(** The egress of the pod is open until the time [blocked]. *)
Definition quarantine_kube (blocked : Z) : KubeApi Z := {|
  read_namespaced_pod _ _ x := (inl checkout_pod, x);
  list_namespaced_pod _ _ x := (inl [checkout_pod], x);
  delete_namespaced_pod _ _ x := (inl tt, x);
  patch_namespaced_pod _ _ _ x := (inl tt, x);
  read_namespaced_deployment _ _ x := (inl bench_deployment, x);
  patch_namespaced_deployment_scale _ _ _ x := (inl tt, x);
  list_namespaced_event _ _ x := (inl [], x);
  service_proxy_get _ _ _ x := (inl (JObj [("status", JStr "ok")]), x);
  pod_proxy_get _ _ _ _ x := (inl (JObj [("reachable", JBool (x <? blocked))]), x);
  get_custom_object _ _ _ _ _ x :=
    (inl (quarantine_body "cloudward-staging" "checkout-1"
            ("cloudward-quarantine-" +:+ quarantine_name 9%N) (quarantine_name 9%N)
            (uuid_str 1%N)), x);
  create_custom_object _ _ _ _ _ x := (inl JNull, x);
  delete_custom_object _ _ _ _ _ x := (inl tt, x);
|}.

Definition reported_world : World Z := (report_shell (bench_world empty_database)).2.
Definition request_quarantine (blocked : Z) : res uuid * World Z :=
  apply_quarantine (Runtime0 := bench_runtime) (KubeApi0 := quarantine_kube blocked)
    (H := strict_pydantic) example_settings {| opa_client_url := "http://opa" |} bench_executor
    9%N "alice" reported_world.
Definition status_of (w : World Z) : option ContainmentStatus :=
  option_map sev_containment_status (w.(committed).(security_events) !! 9%N).

(** The egress is blocked in time, and is not. *)
Example quarantine_holds :
  is_ok (request_quarantine 100).1 = true ∧ status_of (request_quarantine 100).2 = Some CONTAINED.
Proof. vm_compute. done. Qed.
Example quarantine_is_not_verified :
  (request_quarantine 100000000000).1 = Raise (cw_error_status "QUARANTINE_VERIFICATION_FAILED"
    "Cilium quarantine could not be verified" 502) ∧
  status_of (request_quarantine 100000000000).2 = Some VERIFICATION_FAILED.
Proof. vm_compute. done. Qed.

Lemma requests_authorised_witness :
  let w := reported_world in
  authorised (X := Z) (H := strict_pydantic) {| opa_client_url := "http://opa" |} 9%N APPLY_QUARANTINE
    (containing 9%N) w (request_quarantine 100).2 ∧
  mutations (request_quarantine 100).2 ≠ mutations w.
Proof.
  split; [|vm_compute; discriminate].
  refine (proj1 (requests_authorised (Runtime0 := bench_runtime)
    (KubeApi0 := quarantine_kube 100) (H := strict_pydantic) example_settings
    {| opa_client_url := "http://opa" |} bench_executor 9%N "alice" reported_world _)).
  intros k q. vm_compute. discriminate.
Defined.

#[export] Program Instance waiting_bench : @WaitingClock Z bench_runtime :=
  {| waiting_clock := λ x : Z, x * 1000 |}.
Next Obligation. intros x. cbn. lia. Qed.
Next Obligation.
  intros d x Hd. cbn. pose proof (Z.div_mod d 1000). pose proof (Z.mod_pos_bound d 1000). lia.
Qed.
#[export] Program Instance observation_bench b :
  @ObservationClock Z bench_runtime (quarantine_kube b) waiting_bench.
Solve Obligations with (intros; cbn; lia).

