(* ===== verification/Diagnosis.v ===== *)
(** * Advisory diagnosis

    [ai/schemas.py], [ai/openrouter.py], [ai/service.py], [ai/persistence.py],
    [ai/safety.py] and [ai/application.py]: the schema a model's answer must
    satisfy, the provider, the router that retries, falls back and escalates within
    a budget, the admission control, and the row that keeps the outcome.  The model
    is the class [LlmServer]; what the router needs of a provider is the class
    [LLMProvider]. *)

From S2P Require Import Prelude PyFloat Json JsonParse Sha256 Effects Actions StateMachine.
From S2P Require Import Models World Redaction Config AuditLog History Memory Runbooks.
From S2P Require Import AiContext.

(** ** The model's answer ([schemas.py]) *)

Record RelatedChange := {
  rc_repository : string;
  rc_commit_sha : string;
  rc_files : list string;
  rc_correlation : string;
}.

Record DiagnosisProposal := {
  dp_suspected_root_cause : string;
  dp_root_cause_category : string;
  dp_confidence : float;
  dp_evidence_refs : list string;
  dp_related_change : option RelatedChange;
  dp_suggested_runbook : option string;
  dp_action_candidates : list ActionType;
  dp_explanation : string;
}.

Definition is_hex (c : ascii) : bool := is_digit c || in_range 97 102 c || in_range 65 70 c.

Definition RelatedChange_validate (j : json) : option RelatedChange :=
  d ← fields_of ["repository"; "commit_sha"; "files"; "correlation"] j;
  repository ← field "repository" (text 1 255) d;
  commit ← field "commit_sha" (checked (str_forallb is_hex) (text 7 64)) d;
  files ← field_or "files" [] (checked (forallb (len_between 1 500)) (strings 20)) d;
  correlation ← field "correlation" (text 1 1000) d;
  Some {| rc_repository := repository; rc_commit_sha := commit; rc_files := files;
          rc_correlation := correlation |}.

(** A strict [float]: a float or an integer, no string and no boolean. *)
Definition strict_float (j : json) : option float :=
  match j with JFloat f => Some f | JInt z => Some (float_of_Z z) | _ => None end.

Definition proposal_fields : list string :=
  ["suspected_root_cause"; "root_cause_category"; "confidence"; "evidence_refs";
   "related_change"; "suggested_runbook"; "action_candidates"; "explanation"].

(** [DiagnosisProposal.model_validate]; [None] is a [ValidationError]. *)
Definition DiagnosisProposal_validate (j : json) : option DiagnosisProposal :=
  d ← fields_of proposal_fields j;
  cause ← field "suspected_root_cause" (text 1 1000) d;
  category ← field "root_cause_category" (checked (str_forallb type_char) (text 1 128)) d;
  confidence ← field "confidence"
                 (checked (λ f, fleb fzero f && fleb f fone) strict_float) d;
  refs ← field "evidence_refs"
           (checked (λ l, lengths 1 20 l && bool_decide (NoDup l) &&
                          forallb (len_between 1 255) l) (list_of a_string)) d;
  change ← field_or "related_change" None (nullable RelatedChange_validate) d;
  runbook ← field_or "suggested_runbook" None (nullable (checked (slug false) (text 3 255))) d;
  candidates ← field_or "action_candidates" []
                 (checked (λ l, lengths 0 5 l && bool_decide (NoDup l)) (list_of an_action)) d;
  explanation ← field "explanation" (text 1 2000) d;
  Some {| dp_suspected_root_cause := cause; dp_root_cause_category := category;
          dp_confidence := confidence; dp_evidence_refs := refs; dp_related_change := change;
          dp_suggested_runbook := runbook; dp_action_candidates := candidates;
          dp_explanation := explanation |}.

Record TokenUsage := {
  tu_prompt_tokens : option Z;
  tu_completion_tokens : option Z;
  tu_total_tokens : option Z;
}.

Definition DIAGNOSE_INCIDENT : string := "diagnose_incident".

Record ProviderResult := {
  pvr_requested_model : string;
  pvr_actual_model : string;
  pvr_output : DiagnosisProposal;
  pvr_latency_ms : Z;
  pvr_usage : TokenUsage;
  pvr_input_digest : string;
}.

Record InvocationAttempt := {
  att_requested_model : string;
  att_actual_model : option string;
  att_success : bool;
  att_fallback : bool;
  att_escalation : bool;
  att_latency_ms : Z;
  att_error_code : option string;
}.

Inductive AIStatus := AVAILABLE | AI_UNAVAILABLE.
#[export] Instance AIStatus_eq_dec : EqDecision AIStatus.
Proof. solve_decision. Defined.
Definition AIStatus_value (s : AIStatus) : string :=
  match s with AVAILABLE => "AVAILABLE" | AI_UNAVAILABLE => "AI_UNAVAILABLE" end.

Record DiagnosisOutcome := {
  out_status : AIStatus;
  out_proposal : option DiagnosisProposal;
  out_model_used : option string;
  out_fallback_used : bool;
  out_escalation_used : bool;
  out_attempts : list InvocationAttempt;
  out_failure_code : option string;
}.

(** The bound on the attempts and [validate_status_contract]. *)
Definition DiagnosisOutcome_valid (o : DiagnosisOutcome) : bool :=
  (length o.(out_attempts) <=? 3)%nat &&
  match o.(out_status), o.(out_proposal) with
  | AVAILABLE, None | AI_UNAVAILABLE, Some _ => false
  | _, _ => true
  end.

Definition unavailable_outcome (fallback : bool) (attempts : list InvocationAttempt)
    (failure_code : option string) : DiagnosisOutcome :=
  {| out_status := AI_UNAVAILABLE; out_proposal := None; out_model_used := None;
     out_fallback_used := fallback; out_escalation_used := false; out_attempts := attempts;
     out_failure_code := failure_code |}.

(** ** Grounding ([validate_proposal]) *)

(** [LLMProviderError(code, ...)]; the message carries the code. *)
Definition llm_error (code : string) : exn := PyError "LLMProviderError" code.
(** The code an attempt records for an exception. *)
Definition llm_code (e : exn) : string :=
  match e with
  | PyError cls code =>
      if String.eqb cls "LLMProviderError" then code else "AI_PROVIDER_FAILURE"
  | CloudWardError _ _ _ _ => "AI_PROVIDER_FAILURE"
  end.

Definition subset_of (l l' : list string) : bool :=
  forallb (λ s, bool_decide (s ∈ l')) l.

Definition validate_proposal (p : DiagnosisProposal) (c : IncidentContext) : res unit :=
  if negb (subset_of p.(dp_evidence_refs) (evidence_refs c))
  then Raise (llm_error "AI_EVIDENCE_REFERENCE_INVALID")
  else if truthy_opt p.(dp_suggested_runbook) &&
          negb (bool_decide (from_option id EmptyString p.(dp_suggested_runbook)
                             ∈ runbook_ids c))
  then Raise (llm_error "AI_RUNBOOK_INVALID")
  else match p.(dp_related_change) with
       | None => Ok tt
       | Some change =>
           let matching := List.filter (λ item,
             String.eqb item.(sd_repository) change.(rc_repository) &&
             String.eqb (lower item.(sd_commit_sha)) (lower change.(rc_commit_sha)))
             c.(ctx_untrusted_evidence).(ue_git_changes) in
           if bool_decide (matching = []) || negb (subset_of change.(rc_files) (map sd_file matching))
           then Raise (llm_error "AI_CHANGE_REFERENCE_INVALID")
           else Ok tt
       end.

(** [uncertainty_risk_factor]. *)
Definition uncertainty_risk_factor (confidence : float) : Z :=
  let bounded := fmin (fmax confidence fzero) fone in
  fround (fmul (fsub fone bounded) (float_of_Z 20)).

(** ** The provider ([provider.py], [openrouter.py]) *)

(** What the router needs: an answer for a context and a model. *)
Class LLMProvider (X : Type) :=
  diagnose_incident : IncidentContext → string → M (World X) ProviderResult.
#[global] Hint Mode LLMProvider ! : typeclass_instances.

(** How a request to the model ends: a timeout, another [httpx.HTTPError], any
    other exception, or a response. *)
Inductive llm_answer : Type :=
| LlmTimeout
| LlmHttpError
| LlmOther (e : exn)
| LlmResponse (status : Z) (content : string).

(** The chat endpoint. *)
Class LlmServer (X : Type) := llm_post : json → X → llm_answer * X.
#[global] Hint Mode LlmServer ! : typeclass_instances.

(** [OpenRouterProvider(...)], with the bounds of its constructor. *)
Record OpenRouterProvider := {
  or_api_key : string;
  or_max_retries : Z;
  or_max_context_tokens : Z;
}.

Definition openrouter (api_key : option string) (max_retries max_context_tokens : Z)
  : OpenRouterProvider :=
  {| or_api_key := default EmptyString api_key;
     or_max_retries := clamp 0 3 max_retries;
     or_max_context_tokens := clamp 512 131072 max_context_tokens |}.

Definition retryable_status (status : Z) : bool :=
  bool_decide (status ∈ [408; 409; 429]) || (500 <=? status).

(** [max(0, round((time.monotonic() - started) * 1000))]; clocks are in
    microseconds. *)
Definition latency_ms (started ended : Z) : Z := Z.max 0 (round_half_even (ended - started) 1000).

Definition nonnegative_int (j : json) : option Z :=
  match j with JInt z => if 0 <=? z then Some z else None | _ => None end.

(** The text of the first choice. *)
Definition choice_content (body : dict) : option string :=
  match dict_get "choices" body with
  | Some (JArr (JObj first :: _)) =>
      match dict_get "message" first with
      | Some (JObj message) =>
          match dict_get "content" message with Some (JStr s) => Some s | _ => None end
      | _ => None
      end
  | _ => None
  end.

Definition usage_of (body : dict) : TokenUsage :=
  let usage := match dict_get "usage" body with Some (JObj d) => d | _ => [] end in
  let count k := dict_get k usage ≫= nonnegative_int in
  {| tu_prompt_tokens := count "prompt_tokens"; tu_completion_tokens := count "completion_tokens";
     tu_total_tokens := count "total_tokens" |}.

(** The body of a response: the object and the validated answer in it. *)
Definition parse_completion (content : string) : option (dict * DiagnosisProposal) :=
  match json_loads content with
  | Some (JObj body) =>
      text ← choice_content body;
      parsed ← json_loads text;
      output ← DiagnosisProposal_validate parsed;
      Some (body, output)
  | _ => None
  end.

Section provider.
Context {X : Type} `{!Runtime X} `{!PydanticDump} `{!LlmServer X}.

(** [_post_with_retries]: [remaining = max_retries - attempt]. *)
Fixpoint post_with_retries (remaining : nat) (attempt : Z) (payload : json)
  : M (World X) string :=
  do! record_call (CallLlm payload);
  let! answer := external (llm_post payload) in
  match answer, remaining with
  | LlmResponse status content, S remaining =>
      if retryable_status status then
        do! sleep (Z.min (100000 * 2 ^ attempt) 500000);
        post_with_retries remaining (attempt + 1) payload
      else if (200 <=? status) && (status <? 300) then ret content
      else raise (llm_error "AI_PROVIDER_FAILURE")
  | LlmResponse status content, O =>
      if (200 <=? status) && (status <? 300) then ret content
      else raise (llm_error "AI_PROVIDER_FAILURE")
  | LlmTimeout, S remaining => post_with_retries remaining (attempt + 1) payload
  | LlmTimeout, O => raise (llm_error "AI_TIMEOUT")
  | LlmHttpError, S remaining => post_with_retries remaining (attempt + 1) payload
  | LlmHttpError, O => raise (llm_error "AI_PROVIDER_FAILURE")
  | LlmOther e, _ => raise e
  end.

Definition completion_payload (model prompt : string) (max_tokens : Z) : json :=
  JObj [("model", JStr model);
        ("messages", JArr
           [JObj [("role", JStr "system"); ("content", JStr SYSTEM_PROMPT)];
            JObj [("role", JStr "user"); ("content", JStr prompt)]]);
        ("temperature", JInt 0); ("max_tokens", JInt max_tokens);
        ("response_format", JObj
           [("type", JStr "json_schema");
            ("json_schema", JObj
               [("name", JStr DIAGNOSE_INCIDENT); ("strict", JBool true);
                ("schema", diagnosis_schema)])])].

(** [_structured_completion]. *)
Definition structured_completion (p : OpenRouterProvider) (context : IncidentContext)
    (model : string) : M (World X) ProviderResult :=
  do! raise_if (negb (truthy_str p.(or_api_key))) (llm_error "AI_NOT_CONFIGURED");
  let prompt := render_diagnosis_prompt context in
  let estimated := Z.max 1 ((str_len SYSTEM_PROMPT + str_len prompt + 3) / 4) in
  do! raise_if (p.(or_max_context_tokens) <? estimated + 256)
        (llm_error "AI_CONTEXT_TOO_LARGE");
  let input_digest := sha256_hex prompt in
  let payload := completion_payload model prompt
                   (Z.min 4096 (p.(or_max_context_tokens) - estimated)) in
  let! started := monotonic in
  let! content := post_with_retries (Z.to_nat p.(or_max_retries)) 0 payload in
  let! ended := monotonic in
  match parse_completion content with
  | None => raise (llm_error "AI_OUTPUT_INVALID")
  | Some (body, output) =>
      ret {| pvr_requested_model := model;
             pvr_actual_model := match dict_get "model" body with
                                 | Some (JStr m) => m | _ => model end;
             pvr_output := output; pvr_latency_ms := latency_ms started ended;
             pvr_usage := usage_of body; pvr_input_digest := input_digest |}
  end.
End provider.

(** ** Recording ([persistence.py]) *)

Definition JFlags (fallback escalation : bool) (latency : Z) : dict :=
  [("fallback_used", JBool fallback); ("escalation_used", JBool escalation);
   ("latency_ms", JInt latency)].

(** [usage.model_dump(exclude_none=True)]. *)
Definition TokenUsage_dump (u : TokenUsage) : dict :=
  let entry k o := match o with Some z => [(k, JInt z)] | None => [] end in
  entry "prompt_tokens" u.(tu_prompt_tokens) ++
  entry "completion_tokens" u.(tu_completion_tokens) ++
  entry "total_tokens" u.(tu_total_tokens).

Section recorder.
Context {X : Type} `{!Runtime X}.
Context (incident_id : uuid) (correlation_id : string) (fallback escalation : bool).

Definition add_invocation (model status digest : string) (usage : dict) : M (World X) unit :=
  let! id := uuid4 in
  let! now := utc_now in
  update_db (upd_model_invocations (λ l, l ++
    [{| inv_id := id; inv_created_at := now; inv_incident_id := Some incident_id;
        inv_provider := "openrouter"; inv_model := str_take 128 model;
        inv_purpose := DIAGNOSE_INCIDENT; inv_status := status; inv_input_digest := digest;
        inv_usage := usage |}])).

Definition audit_invocation (event result : string) (metadata : dict) : M (World X) unit :=
  record_audit_system event correlation_id (Some incident_id) None None result metadata.

(** [DatabaseInvocationRecorder.success]. *)
Definition recorder_success (r : ProviderResult) : M (World X) unit :=
  let models := [("requested_model", JStr r.(pvr_requested_model));
                 ("actual_model", JStr r.(pvr_actual_model))] in
  let usage := TokenUsage_dump r.(pvr_usage) ++ models ++
               JFlags fallback escalation r.(pvr_latency_ms) in
  do! add_invocation r.(pvr_actual_model) "SUCCEEDED" r.(pvr_input_digest) usage;
  do! audit_invocation "AI_INVOCATION_COMPLETED" "SUCCEEDED" usage;
  do! when fallback (audit_invocation "AI_FALLBACK_USED" "SUCCEEDED" models);
  when escalation (audit_invocation "AI_ESCALATION_USED" "SUCCEEDED" models).

(** [DatabaseInvocationRecorder.failure]. *)
Definition recorder_failure (requested_model error_code : string) (latency : Z)
  : M (World X) unit :=
  let metadata := [("requested_model", JStr requested_model); ("actual_model", JNull)] ++
                  JFlags fallback escalation latency ++ [("error_code", JStr error_code)] in
  do! add_invocation requested_model "FAILED" (zeros 64) metadata;
  audit_invocation "AI_INVOCATION_FAILED" "FAILED" metadata.
End recorder.

(** ** The router ([service.py]) *)

Record DiagnosisRouter := {
  primary_model : string;
  fallback_model : string;
  escalation_model : string;
  low_confidence_threshold : float;
  escalation_complexity_threshold : Z;
}.

(** The constructor, with the default thresholds 0.55 and 70. *)
Definition diagnosis_router (primary fallback escalation : string) : DiagnosisRouter :=
  {| primary_model := primary; fallback_model := fallback; escalation_model := escalation;
     low_confidence_threshold := fmin (fmax (float_of_decimal 55 (-2)) fzero) fone;
     escalation_complexity_threshold := clamp 0 100 70 |}.

Section router.
Context {X : Type} `{!Runtime X} `{!LLMProvider X}.
Context (router : DiagnosisRouter) (incident_id : uuid) (correlation_id : string).
Context (context : IncidentContext).

(** The [try] block of [_attempt]: the result, or the code of the failure. *)
Definition checked_answer (model : string) : M (World X) (ProviderResult + string) :=
  catch (let! result := diagnose_incident context model in
         do! lift (validate_proposal result.(pvr_output) context);
         ret (inl result))
        (λ e, ret (inr (llm_code e))).

(** [_attempt]: the result and the attempts with this one added. *)
Definition attempt (model : string) (fallback escalation : bool)
    (attempts : list InvocationAttempt)
  : M (World X) (option ProviderResult * list InvocationAttempt) :=
  let! started := monotonic in
  let! answer := checked_answer model in
  match answer with
  | inr code =>
      let! ended := monotonic in
      let latency := latency_ms started ended in
      do! recorder_failure incident_id correlation_id fallback escalation model code latency;
      ret (None, attempts ++
        [{| att_requested_model := model; att_actual_model := None; att_success := false;
            att_fallback := fallback; att_escalation := escalation; att_latency_ms := latency;
            att_error_code := Some code |}])
  | inl result =>
      do! recorder_success incident_id correlation_id fallback escalation result;
      ret (Some result, attempts ++
        [{| att_requested_model := model; att_actual_model := Some result.(pvr_actual_model);
            att_success := true; att_fallback := fallback; att_escalation := escalation;
            att_latency_ms := result.(pvr_latency_ms); att_error_code := None |}])
  end.

Definition make_outcome (o : DiagnosisOutcome) : M (World X) DiagnosisOutcome :=
  lift (validated "DiagnosisOutcome" DiagnosisOutcome_valid o).

(** The fallback after a failed first attempt. *)
Definition with_fallback (limit : Z)
    (primary : option ProviderResult * list InvocationAttempt)
  : M (World X) (bool * (option ProviderResult * list InvocationAttempt)) :=
  let '(selected, attempts) := primary in
  if match selected with None => true | Some _ => false end &&
     (Z.of_nat (length attempts) <? limit) &&
     negb (String.eqb router.(fallback_model) router.(primary_model))
  then let! r := attempt router.(fallback_model) true false attempts in ret (true, r)
  else ret (false, primary).

Definition should_escalate (limit : Z) (allow : bool) (selected : ProviderResult)
    (attempts : list InvocationAttempt) : bool :=
  allow && (Z.of_nat (length attempts) <? limit) &&
  fltb selected.(pvr_output).(dp_confidence) router.(low_confidence_threshold) &&
  (router.(escalation_complexity_threshold) <=? context.(ctx_complexity_score)) &&
  negb (bool_decide (router.(escalation_model) ∈
          [selected.(pvr_requested_model); selected.(pvr_actual_model)])).

(** The escalation of an uncertain diagnosis of a complex incident: the better
    answer wins. *)
Definition with_escalation (limit : Z) (allow : bool) (selected : ProviderResult)
    (attempts : list InvocationAttempt)
  : M (World X) (bool * ProviderResult * list InvocationAttempt) :=
  if should_escalate limit allow selected attempts then
    let! '(escalated, attempts) := attempt router.(escalation_model) false true attempts in
    ret (true,
         match escalated with
         | Some e => if fleb selected.(pvr_output).(dp_confidence) e.(pvr_output).(dp_confidence)
                     then e else selected
         | None => selected
         end, attempts)
  else ret (false, selected, attempts).

(** [diagnose]. *)
Definition diagnose (allow_escalation : bool) (max_attempts : Z) : M (World X) DiagnosisOutcome :=
  let limit := clamp 0 3 max_attempts in
  if limit =? 0 then
    make_outcome (unavailable_outcome false [] (Some "AI_CALL_BUDGET_EXHAUSTED"))
  else
    let! primary := attempt router.(primary_model) false false [] in
    let! '(fallback_used, (selected, attempts)) := with_fallback limit primary in
    match selected with
    | None =>
        make_outcome (unavailable_outcome fallback_used attempts
          (match last attempts with Some a => a.(att_error_code) | None => Some "AI_UNAVAILABLE" end))
    | Some selected =>
        let! '(escalation_used, selected, attempts) :=
          with_escalation limit allow_escalation selected attempts in
        make_outcome
          {| out_status := AVAILABLE; out_proposal := Some selected.(pvr_output);
             out_model_used := Some selected.(pvr_actual_model);
             out_fallback_used := fallback_used; out_escalation_used := escalation_used;
             out_attempts := attempts; out_failure_code := None |}
    end.
End router.

(** ** Admission ([safety.py]) *)

Record AIAdmission := {
  adm_allowed : bool;
  adm_remaining_calls : Z;
  adm_failure_code : option string;
}.

(** The calls to the provider made for an incident. *)
Definition used_calls (incident_id : uuid) (l : list ModelInvocation) : Z :=
  Z.of_nat (length (List.filter (λ i,
    bool_decide (i.(inv_incident_id) = Some incident_id) &&
    String.eqb i.(inv_provider) "openrouter") l)).

(** The newest calls within the window. *)
Definition recent_statuses (cutoff : datetime) (n : Z) (l : list ModelInvocation) : list string :=
  map inv_status (take (Z.to_nat n)
    (isort (λ a b, b.(inv_created_at) <=? a.(inv_created_at))
      (List.filter (λ i, String.eqb i.(inv_provider) "openrouter" &&
                         (cutoff <=? i.(inv_created_at))) l))).

Section application.
Context {X : Type} `{!Runtime X}.
Context (settings : Settings).

Definition evaluate_ai_admission (incident_id : uuid) : M (World X) AIAdmission :=
  let! used := query (λ db, used_calls incident_id db.(model_invocations)) in
  let remaining := settings.(ai_max_model_calls_per_incident) - used in
  if remaining <=? 0
  then ret {| adm_allowed := false; adm_remaining_calls := 0;
              adm_failure_code := Some "AI_CALL_BUDGET_EXHAUSTED" |}
  else
    let! now := utc_now in
    let cutoff := now - seconds settings.(ai_circuit_breaker_window_seconds) in
    let threshold := settings.(ai_circuit_breaker_failure_threshold) in
    let! statuses := query (λ db, recent_statuses cutoff threshold db.(model_invocations)) in
    ret (if (threshold <=? Z.of_nat (length statuses)) &&
            forallb (λ s, String.eqb s "FAILED") statuses
         then {| adm_allowed := false; adm_remaining_calls := 0;
                 adm_failure_code := Some "AI_CIRCUIT_OPEN" |}
         else {| adm_allowed := true; adm_remaining_calls := Z.min remaining 3;
                 adm_failure_code := None |}).

Definition context_within_budget `{!PydanticDump} (c : IncidentContext) : bool :=
  str_len (model_dump_json c) <=? settings.(ai_max_evidence_chars).

(** ** The stored diagnosis ([store_diagnosis], [application.py]) *)

Definition RelatedChange_dump (c : RelatedChange) : json :=
  JObj [("repository", JStr c.(rc_repository)); ("commit_sha", JStr c.(rc_commit_sha));
        ("files", JStrs c.(rc_files)); ("correlation", JStr c.(rc_correlation))].

Definition candidate_values (o : DiagnosisOutcome) : list string :=
  match o.(out_proposal) with
  | Some p => map ActionType_value p.(dp_action_candidates)
  | None => []
  end.

Definition diagnosis_record (id : uuid) (now : datetime) (incident_id : uuid)
    (o : DiagnosisOutcome) : AIDiagnosisRecord :=
  let p {A} (f : DiagnosisProposal → A) := f <$> o.(out_proposal) in
  {| dia_id := id; dia_created_at := now; dia_incident_id := incident_id;
     dia_status := AIStatus_value o.(out_status);
     dia_suspected_root_cause := p dp_suspected_root_cause;
     dia_root_cause_category := p dp_root_cause_category;
     dia_confidence := p dp_confidence; dia_evidence_refs := default [] (p dp_evidence_refs);
     dia_related_change := RelatedChange_dump <$> (o.(out_proposal) ≫= dp_related_change);
     dia_suggested_runbook := o.(out_proposal) ≫= dp_suggested_runbook;
     dia_action_candidates := candidate_values o; dia_explanation := p dp_explanation;
     dia_model := match o.(out_model_used) with
                  | Some m => if truthy_str m then Some (str_take 128 m) else None
                  | None => None
                  end;
     dia_fallback_used := o.(out_fallback_used);
     dia_escalation_used := o.(out_escalation_used);
     dia_failure_code := o.(out_failure_code) |}.

Definition public_details (o : DiagnosisOutcome) : dict :=
  [("status", JStr (AIStatus_value o.(out_status))); ("model", JOptStr o.(out_model_used));
   ("fallback_used", JBool o.(out_fallback_used));
   ("escalation_used", JBool o.(out_escalation_used));
   ("confidence", opt_json JFloat (dp_confidence <$> o.(out_proposal)));
   ("suggested_runbook", JOptStr (o.(out_proposal) ≫= dp_suggested_runbook));
   ("action_candidates", JStrs (candidate_values o));
   ("failure_code", JOptStr o.(out_failure_code)); ("advisory_only", JBool true)].

Definition store_diagnosis (incident_id : uuid) (correlation_id : string)
    (o : DiagnosisOutcome) : M (World X) AIDiagnosisRecord :=
  let! id := uuid4 in
  let! now := utc_now in
  let record := diagnosis_record id now incident_id o in
  do! update_db (upd_ai_diagnoses (λ l, l ++ [record]));
  let! event_id := uuid4 in
  let! event_now := utc_now in
  do! update_db (upd_incident_events (λ l, l ++
        [{| iev_id := event_id; iev_incident_id := incident_id; iev_created_at := event_now;
            iev_correlation_id := correlation_id; iev_event_type := "AI_DIAGNOSIS";
            iev_from_state := None; iev_to_state := None; iev_actor := "cloudward-ai";
            iev_actor_type := ACTOR_SERVICE; iev_details := JObj (public_details o) |}]));
  do! append_stream_event "incident.ai_diagnosis" (Some incident_id) (public_details o);
  let present := match o.(out_proposal) with Some _ => true | None => false end in
  do! record_audit_system
        (if present then "AI_DIAGNOSIS_GENERATED" else "AI_DIAGNOSIS_UNAVAILABLE")
        correlation_id (Some incident_id) None None
        (if present then "SUCCEEDED" else "UNAVAILABLE")
        (public_details o ++
         [("evidence_refs", JStrs (default [] (dp_evidence_refs <$> o.(out_proposal))))]);
  do! flush;
  ret record.

(** [_persist_outcome]. *)
Definition persist_outcome (incident_id : uuid) (o : DiagnosisOutcome)
  : M (World X) AIDiagnosisRecord :=
  let! incident := the_incident incident_id in
  let! record := store_diagnosis incident_id incident.(inc_correlation_id) o in
  do! when (bool_decide (incident.(inc_state) ∈ [RESOLVED; BLOCKED; ESCALATED]))
        (capture_terminal_incident incident_id);
  ret record.

Definition latest_diagnosis (incident_id : uuid) : M (World X) (option AIDiagnosisRecord) :=
  query (λ db, latest dia_created_at
    (λ d, bool_decide (d.(dia_incident_id) = incident_id)) db.(ai_diagnoses)).

Definition value_or_type_error (e : exn) : bool :=
  match e with
  | PyError cls _ => bool_decide (cls ∈ ["TypeError"; "ValueError"; "ValidationError";
                                         "UnicodeDecodeError"; "UnicodeEncodeError"])
  | CloudWardError _ _ _ _ => false
  end.

Context `{!Pydantic} `{!PydanticDump} `{!LlmServer X}.

(** The context, or [None] where [build_incident_context] raised [TypeError] or
    [ValueError]. *)
Definition try_context (incident_id : uuid) (loader : RunbookLoader)
  : M (World X) (option IncidentContext) :=
  catch (let! c := build_incident_context incident_id loader 80 5 in ret (Some c))
        (λ e, if value_or_type_error e then ret None else raise e).

Definition settings_provider : OpenRouterProvider :=
  openrouter settings.(openrouter_api_key) settings.(openrouter_max_retries)
    settings.(openrouter_max_context_tokens).

Definition settings_router : DiagnosisRouter :=
  diagnosis_router settings.(cloudward_llm_primary_model)
    settings.(cloudward_llm_fallback_model) settings.(cloudward_llm_escalation_model).

(** [diagnose_and_store]. *)
Definition diagnose_and_store (incident_id : uuid) (loader : RunbookLoader)
    (reuse_existing : bool) : M (World X) AIDiagnosisRecord :=
  let refuse_with code := persist_outcome incident_id (unavailable_outcome false [] code) in
  let! existing := if reuse_existing then latest_diagnosis incident_id else ret None in
  match existing with
  | Some record => ret record
  | None =>
      if negb settings.(ai_diagnosis_enabled) then refuse_with (Some "AI_DISABLED")
      else
        let! admission := evaluate_ai_admission incident_id in
        if negb admission.(adm_allowed) then refuse_with admission.(adm_failure_code)
        else
          let! context := try_context incident_id loader in
          match context with
          | None => refuse_with (Some "AI_CONTEXT_INVALID")
          | Some context =>
              if negb (context_within_budget context)
              then refuse_with (Some "AI_EVIDENCE_BUDGET_EXCEEDED")
              else
                let! incident := the_incident incident_id in
                let! outcome :=
                  diagnose (LLMProvider0 := structured_completion settings_provider)
                    settings_router incident_id incident.(inc_correlation_id) context true
                    admission.(adm_remaining_calls) in
                persist_outcome incident_id outcome
          end
  end.
End application.
