(* ===== verification/DiagnosisRuns.v ===== *)
(** * What a diagnosis does

    The router against the interface of a provider ([AdvisoryProvider]: it changes
    nothing and sends a bounded number of requests to the model), which the
    OpenRouter adapter implements; the budget of an incident; and where the
    evidence a stored diagnosis cites comes from. *)

From S2P Require Import Prelude PyFloat Json JsonParse Sha256 Effects Actions StateMachine.
From S2P Require Import Models World Redaction Config AuditLog History Memory Runbooks.
From S2P Require Import AiContext Diagnosis.

(** ** Requests to the model *)

Definition is_llm (c : call) : bool := match c with CallLlm _ => true | _ => false end.

Section requests.
Context {X : Type}.

(** At most [n] calls were made, all of them to the model. *)
Definition llm_requests (n : nat) (w w' : World X) : Prop :=
  ∃ calls, w'.(trace) = w.(trace) ++ calls ∧ (length calls ≤ n)%nat ∧
    Forall (λ c, is_llm c = true) calls.

Lemma llm_requests_refl w w' : w'.(trace) = w.(trace) → llm_requests 0 w w'.
Proof. intros E. exists []. rewrite E, app_nil_r. by split_and!; [|simpl; lia|]. Qed.

Lemma llm_requests_trans n m (w1 w2 w3 : World X) :
  llm_requests n w1 w2 → llm_requests m w2 w3 → llm_requests (n + m) w1 w3.
Proof.
  intros (c1 & E1 & L1 & F1) (c2 & E2 & L2 & F2). exists (c1 ++ c2).
  rewrite E2, E1, <- app_assoc, length_app, Forall_app. split_and!; [done|lia|done|done].
Qed.

Lemma llm_requests_weaken n m (w w' : World X) :
  (n ≤ m)%nat → llm_requests n w w' → llm_requests m w w'.
Proof. intros Hle (c & ? & ? & ?). exists c. split_and!; [done|lia|done]. Qed.

(** A run that changes nothing but the environment, within [n] requests. *)
Definition consults (n : nat) (w w' : World X) : Prop :=
  w'.(work) = w.(work) ∧ w'.(committed) = w.(committed) ∧ w'.(metrics) = w.(metrics) ∧
  llm_requests n w w'.

Lemma consults_trans n m (w1 w2 w3 : World X) :
  consults n w1 w2 → consults m w2 w3 → consults (n + m) w1 w3.
Proof.
  intros (? & ? & ? & ?) (? & ? & ? & ?). split_and!; [congruence..|].
  by eapply llm_requests_trans.
Qed.

Lemma consults_weaken n m (w w' : World X) :
  (n ≤ m)%nat → consults n w w' → consults m w w'.
Proof. intros ? (? & ? & ? & ?). split_and!; [done..|]. by eapply llm_requests_weaken. Qed.

Lemma consults_refl w : consults 0 w w.
Proof. split_and!; [done..|]. by apply llm_requests_refl. Qed.

(** The interface of a provider. *)
Class AdvisoryProvider `{!LLMProvider X} (n : nat) : Prop :=
  provider_consults c model w : consults n w (diagnose_incident (X:=X) c model w).2.
End requests.

(** ** The OpenRouter adapter *)

Section adapter.
Context {X : Type} `{!Runtime X} `{!PydanticDump} `{!LlmServer X}.

Lemma monotonic_consults (w : World X) : consults 0 w (monotonic w).2.
Proof. split_and!; [done..|]. by apply llm_requests_refl. Qed.

Lemma post_consults remaining attempt payload (w : World X) :
  consults (S remaining) w (post_with_retries remaining attempt payload w).2.
Proof.
  revert attempt w. induction remaining as [|remaining IH]; intros attempt w;
    cbn [post_with_retries]; unfold bind at 1; cbn [record_call modify];
    set (w1 := add_trace (CallLlm payload) w);
    unfold bind at 1, external; cbn [fst snd];
    set (w2 := set_ext _ w1);
    assert (consults 1 w w2) as H1
      by (split_and!; try done; exists [CallLlm payload]; split_and!; [done|done|];
          by constructor);
    destruct (llm_post payload (ext w1)).1 as [| |e|status content];
    try (exact H1).
  - by destruct (_ && _).
  - eapply (consults_weaken (1 + S remaining)); [lia|]. eapply consults_trans; [exact H1|apply IH].
  - eapply (consults_weaken (1 + S remaining)); [lia|]. eapply consults_trans; [exact H1|apply IH].
  - eapply consults_weaken; [|exact H1]. lia.
  - destruct (retryable_status status).
    + unfold bind, sleep, external. cbn [fst snd]. set (w3 := set_ext _ w2).
      eapply (consults_weaken (1 + (0 + S remaining))); [lia|].
      eapply consults_trans; [exact H1|]. eapply consults_trans; [|apply IH].
      split_and!; [done..|]. by apply llm_requests_refl.
    + destruct (_ && _); (eapply consults_weaken; [|exact H1]); lia.
Qed.

#[global] Instance openrouter_advisory (p : OpenRouterProvider) :
  AdvisoryProvider (LLMProvider0 := structured_completion p) (S (Z.to_nat p.(or_max_retries))).
Proof.
  intros c model w. change diagnose_incident with (structured_completion p).
  unfold structured_completion.
  destruct (truthy_str _); simpl raise_if; cbv zeta; [|eapply consults_weaken; [|apply consults_refl]; lia].
  destruct (_ <? _); [eapply consults_weaken; [|apply consults_refl]; lia|].
  unfold bind at 1 2. cbn [raise_if ret negb].
  unfold bind at 1, monotonic, external. cbn [fst snd]. set (w1 := set_ext _ w).
  pose proof (post_consults (Z.to_nat p.(or_max_retries)) 0
    (completion_payload model (render_diagnosis_prompt c)
       (Z.min 4096 (p.(or_max_context_tokens) -
          Z.max 1 ((str_len SYSTEM_PROMPT + str_len (render_diagnosis_prompt c) + 3) / 4)))) w1)
    as Hpost.
  assert (consults 0 w w1) as H1 by (split_and!; [done..|by apply llm_requests_refl]).
  unfold bind at 1. destruct (post_with_retries _ _ _ w1) as [[content|e] w2]; simpl in Hpost.
  - eapply (consults_weaken (0 + (S (Z.to_nat p.(or_max_retries)) + 0))); [lia|].
    eapply consults_trans; [exact H1|]. eapply consults_trans; [exact Hpost|].
    unfold bind, external. cbn [fst snd].
    destruct (parse_completion content) as [[body output]|];
      split_and!; try done; by apply llm_requests_refl.
  - exact (consults_trans 0 _ _ _ _ H1 Hpost).
Qed.
End adapter.

(** ** One attempt *)

(** What the proposal cites is in the context. *)
Definition grounded (p : DiagnosisProposal) (c : IncidentContext) : Prop :=
  (∀ r, r ∈ p.(dp_evidence_refs) → r ∈ evidence_refs c) ∧
  (∀ r, p.(dp_suggested_runbook) = Some r → r ≠ "" → r ∈ runbook_ids c) ∧
  (∀ change, p.(dp_related_change) = Some change →
     let cited item := item.(sd_repository) = change.(rc_repository) ∧
                       lower item.(sd_commit_sha) = lower change.(rc_commit_sha) in
     let changes := c.(ctx_untrusted_evidence).(ue_git_changes) in
     (∃ item, item ∈ changes ∧ cited item) ∧
     ∀ f, f ∈ change.(rc_files) → ∃ item, item ∈ changes ∧ cited item ∧ item.(sd_file) = f).

Lemma subset_of_ok l l' : subset_of l l' = true ↔ ∀ s, s ∈ l → s ∈ l'.
Proof.
  unfold subset_of. rewrite forallb_elem_of. by setoid_rewrite bool_decide_eq_true.
Qed.

Lemma validate_proposal_ok p c : validate_proposal p c = Ok tt → grounded p c.
Proof.
  unfold validate_proposal, grounded.
  destruct (subset_of (dp_evidence_refs p) _) eqn:Hrefs; simpl; [|done].
  rewrite subset_of_ok in Hrefs.
  destruct (_ && negb _) eqn:Hbook; [done|]. intros Hchange. split_and!; [done| |].
  - intros r Hr Hne. rewrite Hr in Hbook. simpl in Hbook.
    apply andb_false_iff in Hbook as [Hb|Hb]; boolify; [|done].
    unfold truthy_str in Hb. boolify. done.
  - intros change Hc. rewrite Hc in Hchange.
    destruct (_ || _) eqn:Hor in Hchange; [done|]. apply orb_false_iff in Hor as [Hne Hfiles].
    apply bool_decide_eq_false in Hne. apply negb_false_iff in Hfiles.
    rewrite subset_of_ok in Hfiles. set (matching := List.filter _ _) in *.
    assert (∀ item, item ∈ matching → item ∈ c.(ctx_untrusted_evidence).(ue_git_changes) ∧
              item.(sd_repository) = change.(rc_repository) ∧
              lower item.(sd_commit_sha) = lower change.(rc_commit_sha)) as Hm.
    { intros item Hin. apply list_elem_of_In, filter_In in Hin as [Hin Ht].
      rewrite andb_true_iff, !String.eqb_eq in Ht. by rewrite list_elem_of_In. }
    split.
    + destruct matching as [|item l]; [done|]. exists item. apply Hm. left.
    + intros f Hf. apply Hfiles, list_elem_of_fmap in Hf as (item & -> & Hin).
      exists item. destruct (Hm item Hin) as (? & ? & ?). split_and!; done.
Qed.

(** The tables through which anything is decided, done or remembered of an action:
    a diagnosis writes none of them. *)
Definition acted (db : Database) :=
  (db.(services), db.(incidents), db.(alert_records), db.(action_proposals),
   db.(action_executions), db.(approvals), db.(runbook_executions), db.(policy_decisions),
   db.(verification_records), db.(evidence_snapshots), db.(notifications),
   db.(security_events), db.(quarantine_records)).

(** The row that records an attempt. *)
Definition records (incident_id : uuid) (a : InvocationAttempt) (i : ModelInvocation) : Prop :=
  i.(inv_incident_id) = Some incident_id ∧ i.(inv_provider) = "openrouter" ∧
  i.(inv_status) = (if a.(att_success) then "SUCCEEDED" else "FAILED").

Section attempts.
Context {X : Type} `{!Runtime X} `{!LLMProvider X} {n : nat} `{!AdvisoryProvider (X:=X) n}.
Context (router : DiagnosisRouter) (incident_id : uuid) (correlation_id : string).
Context (context : IncidentContext).

Lemma checked_answer_run model (w : World X) :
  ∃ a w', checked_answer context model w = (Ok a, w') ∧ consults n w w' ∧
    ∀ r, a = inl r → grounded r.(pvr_output) context.
Proof.
  unfold checked_answer, catch, bind. pose proof (provider_consults context model w) as Hc.
  destruct (diagnose_incident context model w) as [[r|e] w1]; simpl in *.
  - unfold lift. destruct (validate_proposal _ _) as [[]|e] eqn:Hv; eexists _, _;
      (split; [reflexivity|split; [done|]]); intros r' [= <-]. by apply validate_proposal_ok.
  - eexists _, _. split; [reflexivity|]. by split.
Qed.

(** Auditing an invocation touches only the audit log. *)
Lemma audit_invocation_run event result metadata (w : World X) :
  ∃ w', audit_invocation incident_id correlation_id event result metadata w = (Ok tt, w') ∧
    w'.(trace) = w.(trace) ∧ w'.(committed) = w.(committed) ∧ acted w'.(work) = acted w.(work) ∧
    w'.(work).(model_invocations) = w.(work).(model_invocations) ∧
    w'.(work).(ai_diagnoses) = w.(work).(ai_diagnoses).
Proof. eexists. split; [reflexivity|]. by split_and!. Qed.

Lemma when_audit_run (c : bool) event result metadata (w : World X) :
  ∃ w', when c (audit_invocation incident_id correlation_id event result metadata) w
        = (Ok tt, w') ∧
    w'.(trace) = w.(trace) ∧ w'.(committed) = w.(committed) ∧ acted w'.(work) = acted w.(work) ∧
    w'.(work).(model_invocations) = w.(work).(model_invocations) ∧
    w'.(work).(ai_diagnoses) = w.(work).(ai_diagnoses).
Proof. destruct c; [apply audit_invocation_run|]. exists w. by split_and!. Qed.

Definition recorded (status : string) (w w' : World X) : Prop :=
  w'.(trace) = w.(trace) ∧ w'.(committed) = w.(committed) ∧ acted w'.(work) = acted w.(work) ∧
  w'.(work).(ai_diagnoses) = w.(work).(ai_diagnoses) ∧
  ∃ i, w'.(work).(model_invocations) = w.(work).(model_invocations) ++ [i] ∧
    i.(inv_incident_id) = Some incident_id ∧ i.(inv_provider) = "openrouter" ∧
    i.(inv_status) = status.

Lemma add_invocation_run model status digest usage (w : World X) :
  ∃ w', add_invocation incident_id model status digest usage w = (Ok tt, w') ∧
    recorded status w w'.
Proof. eexists. split; [reflexivity|]. split_and!; try done. eexists. by split_and!. Qed.

Lemma recorder_failure_run fallback escalation model code latency (w : World X) :
  ∃ w', recorder_failure incident_id correlation_id fallback escalation model code latency w
        = (Ok tt, w') ∧ recorded "FAILED" w w'.
Proof.
  unfold recorder_failure. cbv zeta.
  edestruct add_invocation_run as (w1 & E1 & T1 & C1 & A1 & D1 & i & I1 & Hi).
  rewrite (bind_step _ _ _ _ _ E1).
  edestruct audit_invocation_run as (w2 & E2 & T2 & C2 & A2 & I2 & D2). exists w2.
  split; [exact E2|]. split_and!; [congruence..|]. exists i. by rewrite I2.
Qed.

Lemma recorder_success_run fallback escalation r (w : World X) :
  ∃ w', recorder_success incident_id correlation_id fallback escalation r w = (Ok tt, w') ∧
    recorded "SUCCEEDED" w w'.
Proof.
  unfold recorder_success. cbv zeta.
  edestruct add_invocation_run as (w1 & E1 & T1 & C1 & A1 & D1 & i & I1 & Hi).
  rewrite (bind_step _ _ _ _ _ E1).
  edestruct audit_invocation_run as (w2 & E2 & T2 & C2 & A2 & I2 & D2).
  rewrite (bind_step _ _ _ _ _ E2).
  edestruct (when_audit_run fallback) as (w3 & E3 & T3 & C3 & A3 & I3 & D3).
  rewrite (bind_step _ _ _ _ _ E3).
  edestruct (when_audit_run escalation) as (w4 & E4 & T4 & C4 & A4 & I4 & D4). exists w4.
  split; [exact E4|]. split_and!; [congruence..|]. exists i. by rewrite I4, I3, I2.
Qed.

(** An attempt: its result is grounded, it is recorded, and it did nothing else. *)
Record attempted (a : InvocationAttempt) (r : option ProviderResult) (w w' : World X) : Prop := {
  atd_acted : acted w'.(work) = acted w.(work);
  atd_committed : w'.(committed) = w.(committed);
  atd_diagnoses : w'.(work).(ai_diagnoses) = w.(work).(ai_diagnoses);
  atd_requests : llm_requests n w w';
  atd_record : ∃ i, w'.(work).(model_invocations) = w.(work).(model_invocations) ++ [i] ∧
    records incident_id a i;
  atd_result : match r with
               | Some r => grounded r.(pvr_output) context ∧ a.(att_success) = true ∧
                           a.(att_actual_model) = Some r.(pvr_actual_model)
               | None => a.(att_success) = false ∧ is_Some a.(att_error_code)
               end;
}.

Lemma diagnosis_attempt_run model fallback escalation attempts (w : World X) :
  ∃ a r w', attempt incident_id correlation_id context model fallback escalation attempts w
            = (Ok (r, attempts ++ [a]), w') ∧ attempted a r w w'.
Proof.
  unfold attempt. rewrite (bind_step monotonic _ _ _ _ eq_refl). set (w0 := set_ext _ w).
  destruct (checked_answer_run model w0) as (ans & w1 & E1 & (W1 & C1 & M1 & R1) & G1).
  rewrite (bind_step _ _ _ _ _ E1). destruct ans as [r|code].
  - destruct (recorder_success_run fallback escalation r w1)
      as (w2 & E2 & T2 & C2 & A2 & D2 & i & I2 & Hi).
    rewrite (bind_step _ _ _ _ _ E2). eexists _, (Some r), w2. split; [reflexivity|].
    split; simpl; [rewrite A2, W1; done|rewrite C2, C1; done|rewrite D2, W1; done| | |].
    + destruct R1 as (calls & E & ? & ?). exists calls. by rewrite T2.
    + exists i. rewrite I2, W1. by split.
    + by auto.
  - rewrite (bind_step monotonic _ _ _ _ eq_refl). set (w2 := set_ext _ w1). cbv zeta.
    edestruct (recorder_failure_run fallback escalation model code)
      as (w3 & E2 & T2 & C2 & A2 & D2 & i & I2 & Hi).
    rewrite (bind_step _ _ _ _ _ E2). eexists _, None, w3. split; [reflexivity|].
    split; simpl; [rewrite A2; simpl; rewrite W1; done|rewrite C2; simpl; rewrite C1; done
      |rewrite D2; simpl; rewrite W1; done| | |].
    + destruct R1 as (calls & E & ? & ?). exists calls. by rewrite T2.
    + exists i. rewrite I2. simpl. rewrite W1. by split.
    + by eauto.
Qed.

(** ** The router *)

(** Where a run of the router stands after [attempts]. *)
Record progress (attempts : list InvocationAttempt) (selected : option ProviderResult)
    (w w' : World X) : Prop := {
  pg_acted : acted w'.(work) = acted w.(work);
  pg_committed : w'.(committed) = w.(committed);
  pg_diagnoses : w'.(work).(ai_diagnoses) = w.(work).(ai_diagnoses);
  pg_requests : llm_requests (n * length attempts) w w';
  pg_records : ∃ new, w'.(work).(model_invocations) = w.(work).(model_invocations) ++ new ∧
    Forall2 (records incident_id) attempts new;
  pg_selected : match selected with
                | Some r => grounded r.(pvr_output) context ∧
                            ∃ a, a ∈ attempts ∧ a.(att_success) = true ∧
                                 a.(att_actual_model) = Some r.(pvr_actual_model)
                | None => ∀ a, a ∈ attempts → a.(att_success) = false
                end;
}.

Lemma progress_nil (w : World X) : progress [] None w w.
Proof.
  split; try done; [|by exists []; rewrite app_nil_r|by intros a ?%not_elem_of_nil].
  rewrite Nat.mul_0_r. by apply llm_requests_refl.
Qed.

(** One more attempt; [chosen] is its result, or what was selected before. *)
Lemma progress_snoc attempts selected a r chosen (w w1 w2 : World X) :
  progress attempts selected w w1 → attempted a r w1 w2 →
  chosen = selected ∧ is_Some selected ∨ chosen = r ∧ (selected = None ∨ is_Some r) →
  progress (attempts ++ [a]) chosen w w2.
Proof.
  intros [A C D R (new & I & F) S] [A' C' D' R' (i & I' & Hi) S'] Hchosen.
  split; [congruence..| | |].
  - rewrite length_app, Nat.mul_add_distr_l. simpl. rewrite Nat.mul_1_r.
    by eapply llm_requests_trans.
  - exists (new ++ [i]). rewrite I', I, app_assoc. split; [done|]. by apply Forall2_app; [|constructor].
  - destruct Hchosen as [[-> [s ->]]|[-> Hs]].
    + destruct S as [Hg (b & Hb & Hrest)]. split; [done|]. exists b. split; [|done].
      apply elem_of_app. by left.
    + destruct r as [r|].
      * destruct S' as (Hg & Hok & Hm). split; [done|]. exists a. split; [|done].
        apply elem_of_app. right. by left.
      * destruct Hs as [->|[? [=]]]. destruct S' as [Hf _].
        intros b [Hb|Hb]%elem_of_app; [by apply S|]. by apply list_elem_of_singleton in Hb as ->.
Qed.

Lemma with_fallback_run limit a r (w0 w : World X) :
  progress [a] r w0 w →
  ∃ used r' attempts w', with_fallback router incident_id correlation_id context limit
      (r, [a]) w = (Ok (used, (r', attempts)), w') ∧ progress attempts r' w0 w' ∧
    (1 ≤ length attempts)%nat ∧ (Z.of_nat (length attempts) ≤ Z.max 1 limit).
Proof.
  intros Hp. unfold with_fallback. destruct (_ && _) eqn:Hc.
  - rewrite !andb_true_iff in Hc. destruct Hc as [[Hnone Hlim] _]. boolify.
    destruct r; [done|].
    edestruct (diagnosis_attempt_run router.(fallback_model) true false) as (b & r' & w' & E & Hb).
    rewrite (bind_step _ _ _ _ _ E). eexists true, r', ([a] ++ [b]), w'.
    split; [reflexivity|]. split; [|simpl in *; lia].
    eapply progress_snoc; [exact Hp|exact Hb|]. right. by split; [|left].
  - exists false, r, [a], w. split; [done|]. split; [done|]. simpl. lia.
Qed.

Lemma with_escalation_run limit allow s attempts (w0 w : World X) :
  progress attempts (Some s) w0 w → Z.of_nat (length attempts) ≤ Z.max 1 limit →
  ∃ used s' attempts' w', with_escalation router incident_id correlation_id context limit allow s
      attempts w = (Ok (used, s', attempts'), w') ∧ progress attempts' (Some s') w0 w' ∧
    Z.of_nat (length attempts') ≤ Z.max 1 limit ∧
    (used = true ↔ should_escalate router context limit allow s attempts = true) ∧
    (s' = s ∨ fleb s.(pvr_output).(dp_confidence) s'.(pvr_output).(dp_confidence) = true).
Proof.
  intros Hp Hl. unfold with_escalation. destruct (should_escalate _ _ _ _ _ _) eqn:Hc.
  - assert (Z.of_nat (length attempts) < limit) as Hlt
      by (unfold should_escalate in Hc; rewrite !andb_true_iff in Hc;
          destruct Hc as [[[[_ Hlt] _] _] _]; by boolify).
    edestruct (diagnosis_attempt_run router.(escalation_model) false true) as (b & r' & w' & E & Hb).
    rewrite (bind_step _ _ _ _ _ E). eexists true, _, (attempts ++ [b]), w'.
    split; [reflexivity|]. split_and!; [|rewrite length_app; simpl; lia|done|].
    + eapply progress_snoc; [exact Hp|exact Hb|].
      destruct r' as [r'|]; [|left; eauto]. destruct (fleb _ _); [right|left]; eauto.
    + destruct r' as [r'|]; [|by left]. destruct (fleb _ _) eqn:?; auto.
  - exists false, s, attempts, w. split_and!; auto; by intros.
Qed.

(** What [diagnose] promises. *)
Record diagnosed (o : DiagnosisOutcome) (limit : Z) (w w' : World X) : Prop := {
  dgd_attempts : Z.of_nat (length o.(out_attempts)) ≤ limit;
  dgd_requests : llm_requests (n * length o.(out_attempts)) w w';
  dgd_acted : acted w'.(work) = acted w.(work);
  dgd_committed : w'.(committed) = w.(committed);
  dgd_diagnoses : w'.(work).(ai_diagnoses) = w.(work).(ai_diagnoses);
  dgd_records : ∃ new,
    w'.(work).(model_invocations) = w.(work).(model_invocations) ++ new ∧
    Forall2 (records incident_id) o.(out_attempts) new;
  dgd_outcome :
    match o.(out_proposal) with
    | Some p => o.(out_status) = AVAILABLE ∧ grounded p context ∧
                ∃ a, a ∈ o.(out_attempts) ∧ a.(att_success) = true ∧
                     a.(att_actual_model) = o.(out_model_used)
    | None => o.(out_status) = AI_UNAVAILABLE ∧
              ∀ a, a ∈ o.(out_attempts) → a.(att_success) = false
    end;
}.

Lemma make_outcome_run o (w : World X) :
  DiagnosisOutcome_valid o = true → make_outcome o w = (Ok o, w).
Proof. intros Hv. unfold make_outcome, lift, validated. by rewrite Hv. Qed.

Lemma diagnose_run allow max_attempts (w : World X) :
  ∃ o w', diagnose router incident_id correlation_id context allow max_attempts w = (Ok o, w') ∧
    diagnosed o (clamp 0 3 max_attempts) w w'.
Proof.
  unfold diagnose. cbv zeta. set (limit := clamp 0 3 max_attempts).
  assert (0 ≤ limit ≤ 3) as Hlim by (unfold limit, clamp; lia).
  destruct (limit =? 0) eqn:Hzero; boolify.
  { rewrite make_outcome_run by done. eexists _, _. split; [reflexivity|].
    split; simpl; try done; [lia| | |].
    - rewrite Nat.mul_0_r. by apply llm_requests_refl.
    - by exists []; rewrite app_nil_r.
    - split; [done|]. by intros a ?%not_elem_of_nil. }
  edestruct (diagnosis_attempt_run router.(primary_model) false false [] w) as (a & r & w1 & E1 & Ha).
  rewrite (bind_step _ _ _ _ _ E1).
  assert (progress [a] r w w1) as Hp1
    by (eapply (progress_snoc []); [apply progress_nil|exact Ha|]; auto).
  destruct (with_fallback_run limit a r w w1 Hp1) as (used & s & atts & w2 & E2 & Hp2 & Hpos & Hl2).
  rewrite (bind_step _ _ _ _ _ E2). destruct s as [s|].
  - destruct (with_escalation_run limit allow s atts w w2 Hp2 Hl2)
      as (esc & s' & atts' & w3 & E3 & Hp3 & Hl3 & _).
    rewrite (bind_step _ _ _ _ _ E3). rewrite make_outcome_run
      by (unfold DiagnosisOutcome_valid; simpl; rewrite andb_true_r; apply Nat.leb_le; lia).
    eexists _, _. split; [reflexivity|]. destruct Hp3 as [? ? ? ? ? [? ?]].
    split; simpl; auto; lia.
  - rewrite make_outcome_run
      by (unfold DiagnosisOutcome_valid; simpl; rewrite andb_true_r; apply Nat.leb_le; lia).
    eexists _, _. split; [reflexivity|]. destruct Hp2. split; simpl; auto; lia.
Qed.

(** C13: a diagnosis only advises.  Whatever the model answers or however it fails,
    the router returns: it makes at most three attempts and no more than it was
    allowed, each recorded as one invocation of the incident; it changes no
    incident, proposal, approval, execution, decision or evidence, commits nothing
    and calls nothing but the model.  A proposal is returned only from an answer
    that passed validation, all of whose evidence references, runbook and Git
    change are in the context it was given; otherwise every attempt failed. *)
Theorem diagnose_advises allow max_attempts (w : World X) :
  let '(r, w') := diagnose router incident_id correlation_id context allow max_attempts w in
  ∃ o, r = Ok o ∧ diagnosed o (clamp 0 3 max_attempts) w w'.
Proof.
  destruct (diagnose_run allow max_attempts w) as (o & w' & E & Hd). rewrite E. eauto.
Qed.
End attempts.

(** ** The budget of an incident *)

Section budget.
Context {X : Type} `{!Runtime X}.
Context (incident_id : uuid).

(** A run that made at most [k] attempts at a diagnosis, each with at most four
    requests, and changed nothing through which something is done. *)
Definition spends (k : Z) (w w' : World X) : Prop :=
  acted w'.(work) = acted w.(work) ∧ w'.(committed) = w.(committed) ∧
  llm_requests (4 * Z.to_nat k) w w' ∧
  ∃ new, w'.(work).(model_invocations) = w.(work).(model_invocations) ++ new ∧
    (length new ≤ Z.to_nat k)%nat ∧ Forall (λ i, i.(inv_incident_id) = Some incident_id) new.

Lemma spends_trans j k (w1 w2 w3 : World X) : 0 ≤ j → 0 ≤ k →
  spends j w1 w2 → spends k w2 w3 → spends (j + k) w1 w3.
Proof.
  intros Hj Hk (A1 & C1 & R1 & n1 & I1 & L1 & F1) (A2 & C2 & R2 & n2 & I2 & L2 & F2).
  split_and!; [congruence..| |].
  - replace (4 * Z.to_nat (j + k))%nat with (4 * Z.to_nat j + 4 * Z.to_nat k)%nat by lia.
    by eapply llm_requests_trans.
  - exists (n1 ++ n2). rewrite I2, I1, app_assoc, length_app, Forall_app.
    split_and!; [done|lia|done|done].
Qed.

(** Operations that do not touch the model, its log or the tables. *)
Definition advisory_step {A} (m : M (World X) A) : Prop :=
  evolves session_step m ∧ evolves same_trace m ∧ evolves (same_db acted) m ∧
  evolves (same_db model_invocations) m.

Lemma advisory_spends {A} (m : M (World X) A) w : advisory_step m → spends 0 w (m w).2.
Proof.
  intros (Hs & Ht & Ha & Hi). destruct (Hs w) as (_ & Hc & _).
  split_and!; [apply Ha|done|apply llm_requests_refl, Ht|]. exists [].
  rewrite app_nil_r. split_and!; [apply Hi|simpl; lia|constructor].
Qed.

Lemma spends_bind {A B} (m : M (World X) A) (f : A → M (World X) B) k w : 0 ≤ k →
  advisory_step m → (∀ a w1, m w = (Ok a, w1) → spends k w1 (f a w1).2) →
  spends k w (bind m f w).2.
Proof.
  intros Hk Hm Hf. pose proof (advisory_spends m w Hm) as H0. unfold bind.
  destruct (m w) as [[a|e] w1] eqn:E; simpl in *.
  - replace k with (0 + k) by lia. eapply spends_trans; [lia|lia|exact H0|]. by apply Hf.
  - replace k with (0 + k) by lia. eapply spends_trans; [lia|lia|exact H0|].
    split_and!; [done..| |by exists []; rewrite app_nil_r; split_and!; [|simpl; lia|]].
    eapply llm_requests_weaken; [|by apply llm_requests_refl]. lia.
Qed.

(** The calls of an incident grow by its own rows only. *)
Lemma used_calls_app j l new :
  Forall (λ i, i.(inv_incident_id) = Some incident_id) new →
  used_calls j (l ++ new) ≤ used_calls j l + (if decide (j = incident_id) then Z.of_nat (length new) else 0).
Proof.
  intros Hnew. unfold used_calls. rewrite List.filter_app, length_app.
  assert (∀ p : ModelInvocation → bool, (length (List.filter p new) ≤ length new)%nat) as Hle
    by (intros p; clear; induction new as [|i new IH]; simpl; [lia|]; destruct (p i); simpl; lia).
  destruct (decide (j = incident_id)) as [->|Hne]; [specialize (Hle (λ i,
    bool_decide (i.(inv_incident_id) = Some incident_id) && String.eqb i.(inv_provider) "openrouter")); lia|].
  enough (List.filter (λ i, bool_decide (i.(inv_incident_id) = Some j) &&
    String.eqb i.(inv_provider) "openrouter") new = []) as -> by (simpl; lia).
  clear Hle. induction Hnew as [|i new Hi Hnew IH]; simpl; [done|].
  rewrite Hi, bool_decide_eq_false_2 by congruence. simpl. exact IH.
Qed.
End budget.

Section application.
Context {X : Type} `{!Runtime X} `{!Pydantic} `{!PydanticDump} `{!LlmServer X}.
Context (settings : Settings) (incident_id : uuid) (loader : RunbookLoader).

Ltac advise :=
  split_and!; unfold persist_outcome, store_diagnosis, capture_terminal_incident, remember,
    try_context, build_incident_context, find_similar, latest_diagnosis, evaluate_ai_admission;
  evolve.

Lemma persist_outcome_advisory o : advisory_step (persist_outcome (X:=X) incident_id o).
Proof. advise. Qed.
Lemma try_context_advisory : advisory_step (try_context incident_id loader : M (World X) _).
Proof. advise. Qed.
Lemma latest_diagnosis_advisory : advisory_step (latest_diagnosis (X:=X) incident_id).
Proof. advise. Qed.
Lemma evaluate_ai_admission_advisory :
  advisory_step (evaluate_ai_admission (X:=X) settings incident_id).
Proof. advise. Qed.
Lemma the_incident_advisory : advisory_step (the_incident incident_id : M (World X) _).
Proof. advise. Qed.
Lemma ret_advisory {A} (a : A) : advisory_step (ret (S:=World X) a).
Proof. advise. Qed.

(** Admission only reads; it grants what is left of the budget. *)
Lemma evaluate_ai_admission_run (w w' : World X) a :
  evaluate_ai_admission settings incident_id w = (Ok a, w') →
  w'.(work) = w.(work) ∧
  (a.(adm_allowed) = true →
     1 ≤ a.(adm_remaining_calls) ≤ settings.(ai_max_model_calls_per_incident) -
           used_calls incident_id w.(work).(model_invocations)).
Proof.
  unfold evaluate_ai_admission. intros Hrun.
  apply bind_ok in Hrun as (used & ? & Hq & Hrun). run_inv Hq.
  destruct (_ <=? 0) eqn:Hle; boolify; [run_inv Hrun; by split|].
  apply bind_ok in Hrun as (now & w1 & Hnow & Hrun). run_inv Hnow. cbv zeta in Hrun.
  apply bind_ok in Hrun as (statuses & ? & Hq & Hrun). run_inv Hq. run_inv Hrun.
  split; [done|]. destruct (_ && _); simpl; [done|]. intros _. lia.
Qed.

(** A diagnosis by the configured provider. *)
Lemma diagnose_spends correlation_id c k (w : World X) :
  spends incident_id (clamp 0 3 k) w
    (diagnose (LLMProvider0 := structured_completion (settings_provider settings))
       (settings_router settings) incident_id correlation_id c true k w).2.
Proof.
  edestruct (diagnose_run (LLMProvider0 := structured_completion (settings_provider settings))
    (n := S (Z.to_nat (settings_provider settings).(or_max_retries)))
    (settings_router settings) incident_id correlation_id c true k w) as (o & w' & E & Hd).
  rewrite E. destruct Hd as [Hn Hr Ha Hc _ (new & Hi & Hf) _].
  pose proof (Forall2_length _ _ _ Hf) as Hlen.
  split_and!; [done|done| |].
  - eapply llm_requests_weaken; [|exact Hr].
    assert (S (Z.to_nat (settings_provider settings).(or_max_retries)) ≤ 4)%nat
      by (unfold settings_provider, openrouter, clamp; simpl; lia). nia.
  - exists new. split_and!; [done|lia|]. apply Forall_forall. intros i [m Hm]%list_elem_of_lookup.
    by destruct (Forall2_lookup_r _ _ _ _ _ Hf Hm) as (a & _ & ? & _).
Qed.

(** Whatever happens, a diagnosis spends at most what is left of the budget. *)
Lemma diagnose_and_store_spends reuse (w : World X) :
  spends incident_id
    (clamp 0 3 (settings.(ai_max_model_calls_per_incident) -
                used_calls incident_id w.(work).(model_invocations))) w
    (diagnose_and_store settings incident_id loader reuse w).2.
Proof.
  set (left := _ - _). assert (0 ≤ clamp 0 3 left ≤ 3) as Hleft by (unfold clamp; lia).
  assert (∀ k (w1 w2 : World X), 0 ≤ k → spends incident_id 0 w1 w2 → spends incident_id k w1 w2)
    as Hmore.
  { intros k w1 w2 Hk (? & ? & ? & new & ? & ? & ?). split_and!; [done..| |].
    - eapply llm_requests_weaken; [|done]. lia.
    - exists new. split_and!; [done|lia|done]. }
  assert (∀ o w1, spends incident_id (clamp 0 3 left) w1
            (persist_outcome incident_id o w1).2) as Hpersist.
  { intros o w1. apply Hmore; [lia|]. apply advisory_spends, persist_outcome_advisory. }
  unfold diagnose_and_store. cbv zeta.
  apply spends_bind; [lia|destruct reuse; [apply latest_diagnosis_advisory|apply ret_advisory]|].
  intros existing w1 Hw1.
  assert (w1.(work) = w.(work)) as Hwork by (unfold latest_diagnosis in Hw1; destruct reuse; run_inv Hw1; done).
  destruct existing as [d|].
  { apply Hmore; [lia|]. apply advisory_spends, ret_advisory. }
  destruct (negb _); [apply Hpersist|].
  apply spends_bind; [lia|apply evaluate_ai_admission_advisory|]. intros admission w2 Hadm.
  apply evaluate_ai_admission_run in Hadm as [Hwork2 Hgrant].
  destruct (adm_allowed admission) eqn:Hal; simpl; [|apply Hpersist].
  specialize (Hgrant eq_refl).
  assert (clamp 0 3 admission.(adm_remaining_calls) ≤ clamp 0 3 left) as Hk.
  { subst left. rewrite Hwork in Hgrant. unfold clamp. lia. }
  apply spends_bind; [lia|apply try_context_advisory|]. intros [c|] w3 _; [|apply Hpersist].
  destruct (negb _); [apply Hpersist|].
  apply spends_bind; [lia|apply the_incident_advisory|]. intros incident w4 _.
  pose proof (diagnose_spends incident.(inc_correlation_id) c admission.(adm_remaining_calls) w4)
    as Hd.
  assert (0 ≤ clamp 0 3 admission.(adm_remaining_calls)) by (unfold clamp; lia).
  unfold bind. destruct (diagnose _ _ _ _ _ _ w4) as [[o|e] w5]; simpl in Hd.
  - replace (clamp 0 3 left) with (clamp 0 3 admission.(adm_remaining_calls) +
      (clamp 0 3 left - clamp 0 3 admission.(adm_remaining_calls))) by lia.
    eapply spends_trans; [lia|lia|exact Hd|]. apply Hmore; [lia|].
    apply advisory_spends, persist_outcome_advisory.
  - replace (clamp 0 3 left) with (clamp 0 3 admission.(adm_remaining_calls) +
      (clamp 0 3 left - clamp 0 3 admission.(adm_remaining_calls))) by lia.
    eapply spends_trans; [lia|lia|exact Hd|]. apply Hmore; [lia|].
    apply (advisory_spends incident_id (ret (S:=World X) tt)), ret_advisory.
Qed.

(** The budget of model calls holds across every diagnosis, repeated or
    failed: no incident ever has more recorded calls than the setting allows, the
    invariant being preserved by every run, returning or raising; and one run
    sends at most twelve requests. *)
Theorem calls_within_budget reuse :
  evolves (keeps (λ w : World X, ∀ i, used_calls i w.(work).(model_invocations) ≤
                                      settings.(ai_max_model_calls_per_incident)))
    (diagnose_and_store settings incident_id loader reuse) ∧
  ∀ w : World X, llm_requests 12 w (diagnose_and_store settings incident_id loader reuse w).2.
Proof.
  split.
  - intros w Hw i. destruct (diagnose_and_store_spends reuse w) as (_ & _ & _ & new & Hi & Hl & Hf).
    rewrite Hi. pose proof (used_calls_app incident_id i w.(work).(model_invocations) new Hf).
    specialize (Hw i) as Hwi. specialize (Hw incident_id). unfold clamp in Hl.
    destruct (decide (i = incident_id)) as [->|]; lia.
  - intros w. destruct (diagnose_and_store_spends reuse w) as (_ & _ & Hr & _).
    eapply llm_requests_weaken; [|exact Hr]. unfold clamp. lia.
Qed.
End application.

(** ** The stored diagnosis *)

Section stored.
Context {X : Type} `{!Runtime X} `{!Pydantic} `{!PydanticDump} `{!LlmServer X}.
Context (settings : Settings) (incident_id : uuid) (loader : RunbookLoader).

(** The row appended: unavailable and empty, or available and citing only what
    [db] has of the incident. *)
Definition honest (db : Database) (d : AIDiagnosisRecord) : Prop :=
  d.(dia_incident_id) = incident_id ∧
  (d.(dia_status) = "AI_UNAVAILABLE" ∧ d.(dia_evidence_refs) = [] ∧
   d.(dia_action_candidates) = [] ∧ d.(dia_suggested_runbook) = None ∧
   d.(dia_confidence) = None ∨
   d.(dia_status) = "AVAILABLE" ∧ settings.(ai_diagnosis_enabled) = true ∧
   used_calls incident_id db.(model_invocations) < settings.(ai_max_model_calls_per_incident) ∧
   ∀ r, r ∈ d.(dia_evidence_refs) → may_cite incident_id db r).

Lemma honest_unavailable db id now fallback attempts code :
  honest db (diagnosis_record id now incident_id (unavailable_outcome fallback attempts code)).
Proof. split; [done|]. by left. Qed.

Lemma persist_outcome_run o (w w' : World X) d :
  persist_outcome incident_id o w = (Ok d, w') →
  ∃ id now, d = diagnosis_record id now incident_id o ∧
    w'.(work).(ai_diagnoses) = w.(work).(ai_diagnoses) ++ [d].
Proof.
  unfold persist_outcome. intros Hrun.
  apply bind_ok in Hrun as (incident & ? & Hi & Hrun). run_inv Hi.
  apply bind_ok in Hrun as (record & w2 & Hs & Hrun).
  apply bind_ok in Hrun as ([] & w3 & Hc & Hrun). apply ret_ok in Hrun as [-> ->].
  assert (same_db ai_diagnoses w2 w3) as Hsame.
  { eapply evolves_run; [|exact Hc]. unfold capture_terminal_incident, remember. evolve. }
  unfold same_db, stable in Hsame. rewrite Hsame. clear Hsame Hc.
  unfold store_diagnosis in Hs.
  apply bind_ok in Hs as (id & ? & Hid & Hs). run_inv Hid.
  apply bind_ok in Hs as (now & ? & Hnow & Hs). run_inv Hnow. cbv zeta in Hs.
  apply bind_ok in Hs as (u & ? & Hup & Hs). run_inv Hup.
  match type of Hs with _ ?w1 = _ =>
    assert (same_db ai_diagnoses w1 w2) as Hsame by (eapply evolves_run; [|exact Hs]; evolve) end.
  unfold same_db, stable in Hsame. rewrite Hsame.
  assert (record = diagnosis_record (rt_uuid4 w.(ext)).1 (rt_now (rt_uuid4 w.(ext)).2).1
                     incident_id o) as ->.
  { clear Hsame. repeat (apply bind_ok in Hs as (? & ? & _ & Hs)). by run_inv Hs. }
  by eexists _, _.
Qed.

End stored.

(** ** A concrete diagnosis *)

Definition bench_dump : PydanticDump :=
  {| dump_number j := j; model_dump_json _ := "{}"; diagnosis_schema := JObj [] |}.

Definition bench_answer (confidence : Z) (refs : list string) : string :=
  dumps (JObj
    [("suspected_root_cause", JStr "crash loop"); ("root_cause_category", JStr "crash");
     ("confidence", JFloat (float_of_decimal confidence (-2)));
     ("evidence_refs", JStrs refs); ("action_candidates", JStrs ["RESTART_POD"]);
     ("explanation", JStr "restarts")]).

(** The first request times out, the second is answered. *)
Definition bench_llm : LlmServer Z := λ _ x,
  if x mod 2 =? 0 then (LlmTimeout, x + 1)
  else (LlmResponse 200 (dumps (JObj
          [("model", JStr "openai/gpt"); ("choices", JArr
             [JObj [("message", JObj
                [("content", JStr (bench_answer 90 ["incident:metadata"]))])]])])), x + 1).

Definition sick_incident : Incident :=
  {| inc_id := 7%N; inc_created_at := 0; inc_correlation_id := "c"; inc_cluster_id := None;
     inc_service_id := None; inc_incident_type := "unhealthy_pod"; inc_title := "Crash loop";
     inc_summary := None; inc_environment := ENV_STAGING; inc_state := COLLECTING_EVIDENCE;
     inc_severity := "high"; inc_risk_score := None; inc_retry_count := 0;
     inc_runbook_id := None; inc_runbook_version := None; inc_resolved_at := None;
     inc_resolution_source := None |}.

Definition sick_world : World Z :=
  bench_world (upd_incidents (λ _, {[ 7%N := sick_incident ]}) empty_database).

Definition bench_diagnosis : res AIDiagnosisRecord * World Z :=
  diagnose_and_store (Runtime0 := bench_runtime) (H := strict_pydantic) (H0 := bench_dump)
    (LlmServer0 := bench_llm) example_settings 7%N {| loaded_runbooks := [] |} false sick_world.

Example bench_diagnosed :
  match bench_diagnosis.1 with
  | Ok d => (d.(dia_status), d.(dia_evidence_refs), d.(dia_failure_code),
             length bench_diagnosis.2.(trace))
  | Raise e => (error_code e, [], None, 0%nat)
  end = ("AVAILABLE", ["incident:metadata"], None, 2%nat).
Proof. vm_compute. reflexivity. Qed.


Definition bench_context : IncidentContext :=
  {| ctx_incident := {| im_incident_id := "7"; im_service := "demo"; im_environment := "staging";
       im_severity := "high"; im_category := "unhealthy_pod"; im_alert := "a";
       im_namespace := None |};
     ctx_untrusted_evidence := {| ue_kubernetes_summary := []; ue_metrics := []; ue_logs := [];
       ue_traces := []; ue_deployment := []; ue_git_changes := [];
       ue_historical_incidents := [] |};
     ctx_available_runbooks := []; ctx_complexity_score := 80 |}.

(** A key, two retries: at most three requests per attempt. *)
Definition bench_provider : OpenRouterProvider := openrouter (Some "sk-test") 2 16000.

Definition bench_route (w : World Z) : res DiagnosisOutcome * World Z :=
  diagnose (Runtime0 := bench_runtime)
    (LLMProvider0 := structured_completion (Runtime0 := bench_runtime) (H := bench_dump)
                       (LlmServer0 := bench_llm) bench_provider)
    (diagnosis_router "a/b" "c/d" "e/f") 7%N "c" bench_context true 3 w.

Lemma diagnose_advises_witness :
  ∃ o, (bench_route sick_world).1 = Ok o ∧
       (∀ p, o.(out_proposal) = Some p → grounded p bench_context) ∧
       llm_requests (3 * length o.(out_attempts)) sick_world (bench_route sick_world).2.
Proof.
  pose proof (diagnose_advises (Runtime0 := bench_runtime)
    (LLMProvider0 := structured_completion (Runtime0 := bench_runtime) (H := bench_dump)
                       (LlmServer0 := bench_llm) bench_provider) (n := 3)
    (AdvisoryProvider0 := openrouter_advisory (Runtime0 := bench_runtime) (H := bench_dump)
                            (LlmServer0 := bench_llm) bench_provider)
    (diagnosis_router "a/b" "c/d" "e/f") 7%N "c" bench_context true 3 sick_world) as Hd.
  unfold bench_route. destruct (diagnose _ _ _ _ _ _ _) as [r w']. cbv iota in Hd.
  destruct Hd as (o & Hr & Hd). exists o. split; [exact Hr|]. destruct Hd as [_ Hreq _ _ _ _ Hout].
  split; [|exact Hreq]. intros p Hp. rewrite Hp in Hout. exact (proj1 (proj2 Hout)).
Defined.
