(* ===== verification/AiGate.v ===== *)
(** * The gate between advice and action

    [ai/action_boundary.py]: one action of the latest available diagnosis becomes a
    proposal with a deterministic risk and a policy decision.  Nothing is executed:
    the only call outside is the question to the policy engine. *)

From S2P Require Import Prelude PyFloat Json Sha256 Effects Actions Risk StateMachine.
From S2P Require Import Models World Redaction Config AuditLog History Memory Runbooks Opa.
From S2P Require Import AiContext Diagnosis DiagnosisRuns Mutations.

(** ** The request ([schemas.AIActionEvaluationRequest]) *)

Record AIActionEvaluationRequest := {
  aer_action : ActionType;
  aer_target_count : Z;
  aer_namespace : option string;
  aer_resource_name : option string;
  aer_labels : list (string * string);
  aer_controller_managed : bool;
  aer_sensitivity : Sensitivity;
}.

(** [^[a-z0-9](?:[-a-z0-9.]*[a-z0-9])?$]. *)
Definition namespace_pattern (s : string) : bool :=
  let edge c := is_lower c || is_digit c in
  str_forallb (λ c, edge c || bool_decide (c ∈ ["-"; "."]%char)) s &&
  match list_ascii_of_string s with c :: _ => edge c | [] => false end &&
  match last (list_ascii_of_string s) with Some c => edge c | None => false end.

Definition AIActionEvaluationRequest_valid (r : AIActionEvaluationRequest) : bool :=
  bounded 1 1000 r.(aer_target_count) &&
  match r.(aer_namespace) with
  | Some s => len_between 1 253 s && namespace_pattern s
  | None => true
  end &&
  match r.(aer_resource_name) with Some s => len_between 1 253 s | None => true end &&
  (length r.(aer_labels) <=? 30)%nat &&
  forallb (λ kv, len_between 1 253 kv.1 && len_between 1 253 kv.2) r.(aer_labels).

(** [_bounded_labels]: at most 30 non-empty string keys with string values. *)
Fixpoint gate_labels (items : dict) (labels : list (string * string)) : list (string * string) :=
  match items with
  | [] => labels
  | (key, item) :: items =>
      if (30 <=? length labels)%nat then labels
      else match item with
           | JStr v => if truthy_str key
                       then gate_labels items (dict_set (str_take 253 key) (str_take 253 v) labels)
                       else gate_labels items labels
           | _ => gate_labels items labels
           end
  end.
Definition labels_bounded (value : json) : list (string * string) :=
  match value with JObj d => gate_labels d [] | _ => [] end.

Record AIActionGateResult := {
  gate_diagnosis : AIDiagnosisRecord;
  gate_proposal : uuid;
  gate_decision : PolicyDecision;
}.

Definition AI_ADVISORY : string := "cloudward-ai-advisory".

(** The advisory proposals of an incident for an action. *)
Definition advisory_proposal (incident_id : uuid) (action : ActionType) (p : ActionProposal) : bool :=
  bool_decide (p.(prop_incident_id) = incident_id) && bool_decide (p.(prop_action_type) = action) &&
  String.eqb p.(prop_proposed_by) AI_ADVISORY.

Definition gated_decision (id : uuid) (db : Database) : option PolicyDecision :=
  latest pol_created_at (λ d, bool_decide (d.(pol_proposal_id) = id)) db.(policy_decisions).

Section first_gate.
Context (diagnosis_id : uuid) (db : Database).

(** The first proposal made for the diagnosis that has a decision. *)
Fixpoint first_gate (proposals : list ActionProposal) : option (uuid * PolicyDecision) :=
  match proposals with
  | [] => None
  | p :: proposals =>
      match dict_get "diagnosis_id" p.(prop_parameters) with
      | Some (JStr s) =>
          if String.eqb s (uuid_str diagnosis_id)
          then match gated_decision p.(prop_id) db with
               | Some d => Some (p.(prop_id), d)
               | None => first_gate proposals
               end
          else first_gate proposals
      | _ => first_gate proposals
      end
  end.
End first_gate.

(** [_existing_gate_result]. *)
Definition existing_gate (incident_id diagnosis_id : uuid) (action : ActionType) (db : Database)
  : option (uuid * PolicyDecision) :=
  first_gate diagnosis_id db (take 20
    (isort (λ a b, b.(prop_created_at) <=? a.(prop_created_at))
      (List.filter (advisory_proposal incident_id action) (rows db.(action_proposals))))).

Definition diagnosis_unavailable : exn :=
  cw_error_status "AI_DIAGNOSIS_UNAVAILABLE"
    "An available AI diagnosis is required before evaluating a candidate" 409.
Definition not_suggested : exn :=
  cw_error_status "AI_ACTION_NOT_SUGGESTED"
    "The selected action is not present in the latest AI diagnosis" 422.
Definition environment_denied (action : ActionType) (environment : string) : exn :=
  cw_error_status "ACTION_ENVIRONMENT_DENIED"
    (ActionType_value action +:+ " is not allowed in " +:+ environment) 403.

Definition as_dict (j : json) : dict := match j with JObj d => d | _ => [] end.

Section gate.
Context {X : Type} `{!Runtime X} `{!Pydantic} `{!PolicyServer X}.
Context (opa : OPAClient) (policy_path : string).
Context (incident_id : uuid) (request : AIActionEvaluationRequest).

(** The newest diagnosis, if it is available and suggests the action in an
    environment the action may run in. *)
Definition suggested : M (World X) AIDiagnosisRecord :=
  let! diagnosis := latest_diagnosis incident_id in
  match diagnosis with
  | None => raise diagnosis_unavailable
  | Some d =>
      do! raise_if (negb (String.eqb d.(dia_status) "AVAILABLE")) diagnosis_unavailable;
      do! raise_if (negb (bool_decide
            (ActionType_value request.(aer_action) ∈ d.(dia_action_candidates)))) not_suggested;
      let! metadata := lift (get_action_metadata (inl request.(aer_action))) in
      let! incident := the_incident incident_id in
      let environment := Environment_value incident.(inc_environment) in
      do! raise_if (negb (bool_decide (environment ∈ metadata.(allowed_environments))))
            (environment_denied request.(aer_action) environment);
      ret d
  end.

(** What the request and the service say of the target. *)
Record GateTarget := {
  gt_namespace : string;
  gt_resource_name : string;
  gt_labels : list (string * string);
  gt_criticality : string;
}.

Definition gate_target (service : option Service) : GateTarget :=
  {| gt_namespace := match service with
                     | Some s => opt_str_or request.(aer_namespace) s.(svc_namespace)
                     | None => opt_str_or request.(aer_namespace) "default"
                     end;
     gt_resource_name := match service with
                         | Some s => opt_str_or request.(aer_resource_name) s.(svc_deployment_name)
                         | None => opt_str_or request.(aer_resource_name) "unspecified"
                         end;
     gt_labels := labels_bounded
       (match request.(aer_labels), service with
        | _ :: _, _ => JObj (map (λ kv, (kv.1, JStr kv.2)) request.(aer_labels))
        | [], Some s => s.(svc_labels)
        | [], None => JObj []
        end);
     gt_criticality := match service with Some s => s.(svc_criticality) | None => "unknown" end |}.

Definition gate_confidence (d : AIDiagnosisRecord) : float := default fzero d.(dia_confidence).

Definition gate_risk_context (environment : string) (d : AIDiagnosisRecord) : RiskContext :=
  {| ctx_environment := environment; ctx_action := request.(aer_action);
     ctx_target_count := request.(aer_target_count);
     ctx_reversible := Some (ACTION_REGISTRY request.(aer_action)).(reversible);
     ctx_confidence := gate_confidence d; ctx_sensitivity := request.(aer_sensitivity);
     ctx_destructive_override := false |}.

Definition gate_policy_input (environment : string) (d : AIDiagnosisRecord) (t : GateTarget)
    (risk : RiskResult) : PolicyInput :=
  {| pi_environment := environment; pi_action := request.(aer_action);
     pi_risk_score := risk.(score); pi_risk_factors := risk.(factors);
     pi_confidence := gate_confidence d; pi_blast_radius := request.(aer_target_count);
     pi_reversible := (ACTION_REGISTRY request.(aer_action)).(reversible);
     pi_service_criticality := t.(gt_criticality);
     pi_target := {| ti_namespace := t.(gt_namespace); ti_pod_name := t.(gt_resource_name);
                     ti_labels := t.(gt_labels);
                     ti_controller_managed := request.(aer_controller_managed);
                     ti_target_pods := request.(aer_target_count) |};
     pi_approval := no_approval |}.

Definition gate_parameters (d : AIDiagnosisRecord) (t : GateTarget) : dict :=
  [("source", JStr "ai_advisory"); ("diagnosis_id", JStr (uuid_str d.(dia_id)));
   ("evidence_refs", JStrs (take 20 d.(dia_evidence_refs)));
   ("target", JObj
      [("namespace", JStr t.(gt_namespace)); ("resource_name", JStr t.(gt_resource_name));
       ("labels", JObj (map (λ kv, (kv.1, JStr kv.2)) t.(gt_labels)));
       ("target_count", JInt request.(aer_target_count));
       ("controller_managed", JBool request.(aer_controller_managed))])].

Definition gate_event (d : AIDiagnosisRecord) (proposal : uuid) (risk : RiskResult)
    (policy : PolicyResult) : dict :=
  [("diagnosis_id", JStr (uuid_str d.(dia_id))); ("proposal_id", JStr (uuid_str proposal));
   ("action", JStr (ActionType_value request.(aer_action))); ("risk_score", JInt risk.(score));
   ("risk_classification", JStr (RiskClassification_value risk.(classification)));
   ("policy_allowed", JBool policy.(pr_allowed));
   ("requires_approval", JBool policy.(pr_requires_approval));
   ("execution_started", JBool false); ("advisory_only", JBool true)].

(** The proposal and its decision. *)
Definition propose_candidate (incident : Incident) (d : AIDiagnosisRecord) (t : GateTarget)
    (risk : RiskResult) (policy_input : PolicyInput) (policy : PolicyResult)
  : M (World X) (uuid * PolicyDecision) :=
  let! id := uuid4 in
  let! now := utc_now in
  do! insert_row action_proposals upd_action_proposals
        (λ _, (0 <=? risk.(score)) && (risk.(score) <=? 100)) id
        {| prop_id := id; prop_created_at := now; prop_incident_id := incident.(inc_id);
           prop_correlation_id := incident.(inc_correlation_id);
           prop_action_type := request.(aer_action);
           prop_parameters := as_dict (redact (JObj (gate_parameters d t)));
           prop_status := if policy.(pr_allowed) || policy.(pr_requires_approval)
                          then PENDING else REJECTED;
           prop_risk_score := risk.(score);
           prop_risk_calculation := as_dict (RiskResult_dump risk);
           prop_proposed_by := AI_ADVISORY |};
  let! decision_id := uuid4 in
  let! decision_now := utc_now in
  let decision :=
    {| pol_id := decision_id; pol_created_at := decision_now;
       pol_incident_id := incident.(inc_id); pol_proposal_id := id;
       pol_correlation_id := incident.(inc_correlation_id); pol_policy_path := policy_path;
       pol_allowed := policy.(pr_allowed);
       pol_requires_approval := policy.(pr_requires_approval); pol_reason := policy.(pr_reason);
       pol_input_digest := policy_digest policy_input; pol_result := PolicyResult_dump policy |} in
  do! update_db (upd_policy_decisions (λ l, l ++ [decision]));
  ret (id, decision).

(** [evaluate_ai_action_candidate]. *)
Definition evaluate_ai_action_candidate (actor : string) (actor_id : uuid)
  : M (World X) AIActionGateResult :=
  let! d := suggested in
  let! existing := query (existing_gate incident_id d.(dia_id) request.(aer_action)) in
  match existing with
  | Some (proposal, decision) =>
      ret {| gate_diagnosis := d; gate_proposal := proposal; gate_decision := decision |}
  | None =>
      let! incident := the_incident incident_id in
      let environment := Environment_value incident.(inc_environment) in
      let! service := query (λ db, incident.(inc_service_id) ≫= λ s, db.(services) !! s) in
      let target := gate_target service in
      let! risk := lift (calculate_risk (gate_risk_context environment d)) in
      let! policy_input := lift (validated "PolicyInput" PolicyInput_valid
                                   (gate_policy_input environment d target risk)) in
      let! policy := evaluate opa policy_input in
      let! '(proposal, decision) :=
        propose_candidate incident d target risk policy_input policy in
      let details := gate_event d proposal risk policy in
      do! record_audit "AI_ACTION_CANDIDATE_GATED" incident.(inc_correlation_id)
            (Some incident_id) actor ACTOR_USER (Some actor_id)
            (Some (ActionType_value request.(aer_action))) (Some risk.(score))
            (Some (if policy.(pr_allowed) then "ALLOW" else "DENY")) "SUCCEEDED"
            (details ++ [("policy_reason", JStr policy.(pr_reason))]);
      do! append_stream_event "incident.ai_action_evaluated" (Some incident_id) details;
      do! flush;
      ret {| gate_diagnosis := d; gate_proposal := proposal; gate_decision := decision |}
  end.

Lemma evaluate_ai_action_candidate_step a i :
  evolves session_step (evaluate_ai_action_candidate a i).
Proof.
  unfold evaluate_ai_action_candidate, suggested, latest_diagnosis, propose_candidate. evolve.
Qed.

(** ** What the gate does *)

(** The tables the gate leaves alone, whatever happens. *)
Definition ungated (db : Database) :=
  (db.(incidents), db.(action_executions), db.(approvals), db.(runbook_executions),
   db.(quarantine_records), db.(evidence_snapshots), db.(ai_diagnoses),
   db.(model_invocations), db.(incident_events)).

Lemma evaluate_ai_action_candidate_ungated a i :
  evolves (same_db ungated) (evaluate_ai_action_candidate a i).
Proof.
  unfold evaluate_ai_action_candidate, suggested, latest_diagnosis, propose_candidate, evaluate.
  evolve.
Qed.

Lemma evaluate_ai_action_candidate_mutates a i :
  evolves (mutates (λ _, False)) (evaluate_ai_action_candidate a i).
Proof.
  unfold evaluate_ai_action_candidate, suggested, latest_diagnosis, propose_candidate, evaluate.
  evolve.
Qed.

(** The diagnosis an evaluation is based on. *)
Definition supports (db : Database) (d : AIDiagnosisRecord) : Prop :=
  d ∈ db.(ai_diagnoses) ∧ d.(dia_incident_id) = incident_id ∧
  (∀ d', d' ∈ db.(ai_diagnoses) → d'.(dia_incident_id) = incident_id →
         d'.(dia_created_at) ≤ d.(dia_created_at)) ∧
  d.(dia_status) = "AVAILABLE" ∧
  ActionType_value request.(aer_action) ∈ d.(dia_action_candidates) ∧
  ∃ incident, db.(incidents) !! incident_id = Some incident ∧
    Environment_value incident.(inc_environment) ∈
      (ACTION_REGISTRY request.(aer_action)).(allowed_environments).

Lemma suggested_run (w w' : World X) d :
  suggested w = (Ok d, w') → w' = w ∧ supports w.(work) d.
Proof.
  unfold suggested, latest_diagnosis. intros Hrun.
  apply bind_ok in Hrun as (o & ? & Hq & Hrun). run_inv Hq.
  destruct (latest _ _ _) as [d0|] eqn:Hl in Hrun; [|done].
  apply bind_ok in Hrun as (u1 & w1 & H1 & Hrun). apply raise_if_ok in H1 as [H1 ->].
  apply bind_ok in Hrun as (u2 & w1 & H2 & Hrun). apply raise_if_ok in H2 as [H2 ->].
  apply bind_ok in Hrun as (m & w1 & Hm & Hrun). unfold lift in Hm. injection Hm as <- <-.
  apply bind_ok in Hrun as (incident & ? & Hi & Hrun). run_inv Hi. cbv zeta in Hrun.
  apply bind_ok in Hrun as (u3 & w1 & H3 & Hrun). apply raise_if_ok in H3 as [H3 ->].
  apply ret_ok in Hrun as [-> ->]. split; [done|]. boolify.
  apply latest_Some in Hl as (Hin & Hinc & Hmax). boolify.
  split_and!; [done|done| |done|done|by exists incident].
  intros d' Hd' Hi'. apply Hmax; [done|]. by apply bool_decide_eq_true.
Qed.

(** The proposal written for a decision. *)
Definition proposed (d : AIDiagnosisRecord) (decision : PolicyDecision) (p : ActionProposal)
  : Prop :=
  p.(prop_id) = decision.(pol_proposal_id) ∧ p.(prop_incident_id) = incident_id ∧
  p.(prop_action_type) = request.(aer_action) ∧ p.(prop_proposed_by) = AI_ADVISORY ∧
  p.(prop_status) = (if decision.(pol_allowed) || decision.(pol_requires_approval)
                     then PENDING else REJECTED) ∧
  dict_get "diagnosis_id" p.(prop_parameters) = Some (JStr (uuid_str d.(dia_id))).
(** One proposal and its decision, after one question to the policy engine. *)
Record created (w w' : World X) (r : AIActionGateResult) : Prop := {
  cr_proposal : ∃ p, w.(work).(action_proposals) !! r.(gate_proposal) = None ∧
    w'.(work).(action_proposals) = <[r.(gate_proposal) := p]> w.(work).(action_proposals) ∧
    proposed r.(gate_diagnosis) r.(gate_decision) p;
  cr_decision : r.(gate_decision).(pol_proposal_id) = r.(gate_proposal) ∧
    r.(gate_decision).(pol_incident_id) = incident_id ∧
    w'.(work).(policy_decisions) = w.(work).(policy_decisions) ++ [r.(gate_decision)];
  cr_asked : ∃ input policy,
    w'.(trace) = w.(trace) ++ [CallOpa (JObj [("input", PolicyInput_dump input)])] ∧
    input.(pi_action) = request.(aer_action) ∧
    r.(gate_decision).(pol_allowed) = policy.(pr_allowed) ∧
    r.(gate_decision).(pol_input_digest) = policy_digest input;
}.

Lemma gate_parameters_diagnosis d t :
  dict_get "diagnosis_id" (as_dict (redact (JObj (gate_parameters d t)))) =
  Some (JStr (uuid_str d.(dia_id))).
Proof.
  rewrite redact_levels. change MAX_REDACTION_DEPTH with (S 15).
  destruct (redact_get 15 "diagnosis_id" (gate_parameters d t)
    (JStr (uuid_str d.(dia_id))) ltac:(vm_compute; reflexivity) eq_refl) as (d' & -> & Hd').
  simpl as_dict. rewrite Hd'. simpl. by rewrite redact_uuid.
Qed.

Lemma propose_candidate_run incident d t risk input policy (w w' : World X) id decision :
  propose_candidate incident d t risk input policy w
    = (Ok (id, decision), w') →
  w'.(trace) = w.(trace) ∧
  decision.(pol_proposal_id) = id ∧ decision.(pol_incident_id) = incident.(inc_id) ∧
  decision.(pol_allowed) = policy.(pr_allowed) ∧
  decision.(pol_input_digest) = policy_digest input ∧
  w'.(work).(policy_decisions) = w.(work).(policy_decisions) ++ [decision] ∧
  ∃ p, w.(work).(action_proposals) !! id = None ∧
    w'.(work).(action_proposals) = <[id := p]> w.(work).(action_proposals) ∧
    (incident.(inc_id) = incident_id → proposed d decision p).
Proof.
  unfold propose_candidate. intros Hrun.
  apply bind_ok in Hrun as (id0 & ? & Hid & Hrun). run_inv Hid.
  apply bind_ok in Hrun as (now & ? & Hnow & Hrun). run_inv Hnow.
  apply bind_ok in Hrun as (u & ? & Hins & Hrun). run_inv Hins.
  apply bind_ok in Hrun as (did & ? & Hid & Hrun). run_inv Hid.
  apply bind_ok in Hrun as (dnow & ? & Hnow & Hrun). run_inv Hnow. cbv zeta in Hrun.
  apply bind_ok in Hrun as (u' & ? & Hup & Hrun). run_inv Hup.
  apply ret_ok in Hrun as [E ->]. injection E as -> ->. simpl in *. split_and!; try done.
  eexists. split_and!; [exact Hnew|reflexivity|]. intros Hi. split_and!; try done.
  simpl. apply gate_parameters_diagnosis.
Qed.

Lemma gate_run actor actor_id (w w' : World X) r :
  (∀ i inc, w.(work).(incidents) !! i = Some inc → inc.(inc_id) = i) →
  evaluate_ai_action_candidate actor actor_id w = (Ok r, w') →
  suggested w = (Ok r.(gate_diagnosis), w) ∧ supports w.(work) r.(gate_diagnosis) ∧
  match existing_gate incident_id r.(gate_diagnosis).(dia_id) request.(aer_action) w.(work) with
  | Some (proposal, decision) =>
      w' = w ∧ r.(gate_proposal) = proposal ∧ r.(gate_decision) = decision
  | None => created w w' r
  end.
Proof.
  intros Hkeys. unfold evaluate_ai_action_candidate. intros Hrun.
  apply bind_ok in Hrun as (d & w1 & Hsug & Hrun). pose proof (suggested_run _ _ _ Hsug) as [-> Hs].
  apply bind_ok in Hrun as (existing & w1 & Hq & Hrun). injection Hq as <- <-.
  destruct (existing_gate incident_id (dia_id d) (aer_action request) (work w)) as [[p0 d0]|] eqn:He
    in Hrun.
  { apply ret_ok in Hrun as [-> ->]. simpl. by rewrite He. }
  apply bind_ok in Hrun as (incident & w1 & Hi & Hrun). apply deref_ok in Hi as [Hi ->].
  cbv zeta in Hrun.
  apply bind_ok in Hrun as (service & w1 & Hq & Hrun). injection Hq as <- <-.
  apply bind_ok in Hrun as (risk & w1 & Hr & Hrun). unfold lift in Hr. injection Hr as Hr <-.
  apply bind_ok in Hrun as (input & w1 & Hin & Hrun). unfold lift in Hin. injection Hin as Hin <-.
  apply bind_ok in Hrun as (policy & w2 & Hpol & Hrun).
  apply evaluate_run in Hpol as (Hw2 & _ & _ & Ht2).
  apply bind_ok in Hrun as ([id decision] & w3 & Hp & Hrun).
  apply propose_candidate_run in Hp as (Ht3 & Hd1 & Hd2 & Hd3 & Hd4 & Hd5 & p & Hp1 & Hp2 & Hp3).
  assert (w'.(work).(action_proposals) = w3.(work).(action_proposals) ∧
          w'.(work).(policy_decisions) = w3.(work).(policy_decisions) ∧
          w'.(trace) = w3.(trace) ∧
          r = {| gate_diagnosis := d; gate_proposal := id; gate_decision := decision |})
    as (Hap & Hpd & Htr & ->).
  { split_and!.
    - eapply (evolves_run (same_db action_proposals)); [|exact Hrun]. evolve.
    - eapply (evolves_run (same_db policy_decisions)); [|exact Hrun]. evolve.
    - eapply (evolves_run same_trace); [|exact Hrun]. evolve.
    - do 3 apply bind_ok in Hrun as (? & ? & _ & Hrun). by apply ret_ok in Hrun as [-> _]. }
  simpl. rewrite He. split; [done|split; [done|]]. rewrite Hw2 in *.
  apply Hkeys in Hi.
  split; simpl.
  - exists p. rewrite Hap, Hp2. split_and!; [done|done|]. by apply Hp3.
  - rewrite Hpd, Hd5, Hd1, Hd2. by split_and!.
  - exists input, policy. rewrite Htr, Ht3, Ht2. split_and!; try done.
    unfold validated in Hin. destruct (PolicyInput_valid _); [|done]. by injection Hin as <-.
Qed.
(** Rows are stored under their identifiers, and a decision belongs to a proposal
    that exists. *)
Record gate_keys (db : Database) : Prop := {
  gk_incidents i inc : db.(incidents) !! i = Some inc → inc.(inc_id) = i;
  gk_proposals i p : db.(action_proposals) !! i = Some p → p.(prop_id) = i;
  gk_decisions d : d ∈ db.(policy_decisions) → is_Some (db.(action_proposals) !! d.(pol_proposal_id));
}.


(** *** Asking again *)

(** A proposal the search passes over. *)
Definition passed_over (diagnosis_id : uuid) (db : Database) (q : ActionProposal) : Prop :=
  dict_get "diagnosis_id" q.(prop_parameters) = Some (JStr (uuid_str diagnosis_id)) →
  gated_decision q.(prop_id) db = None.

Lemma first_gate_None diagnosis_id db l :
  first_gate diagnosis_id db l = None → ∀ q, q ∈ l → passed_over diagnosis_id db q.
Proof.
  induction l as [|p l IH]; simpl; intros Hn q; [by intros ?%not_elem_of_nil|].
  intros [->|Hq]%elem_of_cons.
  - intros Hd. rewrite Hd, String.eqb_refl in Hn. by destruct (gated_decision _ db).
  - apply IH; [|done]. destruct (dict_get _ _) as [[]|]; try done.
    destruct (String.eqb _ _); [|done]. by destruct (gated_decision _ db).
Qed.

Lemma first_gate_found diagnosis_id db l p d :
  p ∈ l → (∀ q, q ∈ l → q = p ∨ passed_over diagnosis_id db q) →
  dict_get "diagnosis_id" p.(prop_parameters) = Some (JStr (uuid_str diagnosis_id)) →
  gated_decision p.(prop_id) db = Some d →
  first_gate diagnosis_id db l = Some (p.(prop_id), d).
Proof.
  intros Hin Hother Hdiag Hdec. induction l as [|q l IH]; [by apply not_elem_of_nil in Hin|].
  simpl. destruct (Hother q) as [->|Hpass]; [left|by rewrite Hdiag, String.eqb_refl, Hdec|].
  apply elem_of_cons in Hin as [->|Hin]; [by rewrite Hpass in Hdec|].
  assert (first_gate diagnosis_id db l = Some (p.(prop_id), d)) as Hrest
    by (apply IH; [done|]; intros q' Hq'; apply Hother; by right).
  destruct (dict_get "diagnosis_id" (prop_parameters q)) as [[| | | |s| |]|] eqn:Hs; try done.
  destruct (String.eqb s _) eqn:Heq; [|done]. apply String.eqb_eq in Heq as ->.
  by rewrite (Hpass Hs).
Qed.
Definition gate_rows (db : Database) : list ActionProposal :=
  List.filter (advisory_proposal incident_id request.(aer_action)) (rows db.(action_proposals)).

(** The search among at most twenty proposals sees them all. *)
Lemma existing_gate_rows diagnosis_id db : (length (gate_rows db) ≤ 20)%nat →
  ∃ l, existing_gate incident_id diagnosis_id request.(aer_action) db
         = first_gate diagnosis_id db l ∧ ∀ q, q ∈ l ↔ q ∈ gate_rows db.
Proof.
  intros Hlen. unfold existing_gate. fold (gate_rows db). eexists. split; [reflexivity|].
  intros q. rewrite take_ge; [by rewrite isort_elem|]. by rewrite isort_perm.
Qed.

Lemma gate_rows_insert db db' id p :
  db.(action_proposals) !! id = None → db'.(action_proposals) = <[id:=p]> db.(action_proposals) →
  advisory_proposal incident_id request.(aer_action) p = true →
  Permutation (gate_rows db') (p :: gate_rows db).
Proof.
  intros Hid Hdb Hp. unfold gate_rows. rewrite Hdb, (list_filter_perm _ _ _ (rows_insert _ _ p Hid)).
  simpl. by rewrite Hp.
Qed.

Lemma suggested_again (w w' : World X) d :
  suggested w = (Ok d, w) → w'.(work).(ai_diagnoses) = w.(work).(ai_diagnoses) →
  w'.(work).(incidents) = w.(work).(incidents) → suggested w' = (Ok d, w').
Proof.
  unfold suggested, latest_diagnosis, deref, query, gets, bind, raise_if, lift, ret, raise.
  intros Hs Hd Hi. rewrite Hd.
  destruct (latest _ _ _) as [d0|]; [|done].
  destruct (negb _); [done|]. destruct (negb _) in *; [done|].
  destruct (get_action_metadata _) as [m|]; [|done]. rewrite Hi.
  destruct (incidents (work w) !! incident_id) as [inc|]; [|done].
  destruct (negb _); [done|]. by injection Hs as ->.
Qed.

(** Asking again changes nothing.  After an evaluation that returned, the same
    request for the same diagnosis returns the very same proposal and decision,
    makes no row, asks nobody and reports nothing, whoever asks. *)
Theorem gate_idempotent actor actor_id actor' actor_id' (w w' : World X) r :
  gate_keys w.(work) → (length (gate_rows w.(work)) < 20)%nat →
  evaluate_ai_action_candidate actor actor_id w = (Ok r, w') →
  evaluate_ai_action_candidate actor' actor_id' w' = (Ok r, w').
Proof.
  intros Hkeys Hfew Hrun.
  pose proof (evaluate_ai_action_candidate_ungated actor actor_id w) as Hu. rewrite Hrun in Hu.
  unfold same_db, stable, ungated in Hu. simpl in Hu.
  apply gate_run in Hrun as (Hsug & Hs & Hout); [|apply Hkeys].
  assert (suggested w' = (Ok r.(gate_diagnosis), w')) as Hsug'
    by (eapply suggested_again; [exact Hsug|congruence..]).
  unfold evaluate_ai_action_candidate. rewrite (bind_step _ _ _ _ _ Hsug').
  rewrite (bind_step (query _) _ _ _ _ eq_refl).
  enough (existing_gate incident_id r.(gate_diagnosis).(dia_id) request.(aer_action) w'.(work)
    = Some (r.(gate_proposal), r.(gate_decision))) as -> by by destruct r.
  destruct (existing_gate _ _ _ w.(work)) as [[p0 d0]|] eqn:He.
  { destruct Hout as (-> & -> & ->). exact He. }
  destruct Hout as [(p & Hnew & Hap & Hp) (Hd1 & Hd2 & Hpd) _].
  destruct Hp as (Hp1 & Hp2 & Hp3 & Hp4 & _ & Hp6). rewrite Hd1 in Hp1.
  destruct (existing_gate_rows r.(gate_diagnosis).(dia_id) w.(work)) as (l & El & Hl); [lia|].
  rewrite El in He. pose proof (first_gate_None _ _ _ He) as Hpass.
  pose proof (gate_rows_insert w.(work) w'.(work) _ p Hnew Hap) as Hperm.
  assert (advisory_proposal incident_id request.(aer_action) p = true) as Hadv.
  { unfold advisory_proposal. by rewrite !andb_true_iff, !bool_decide_eq_true, String.eqb_eq. }
  specialize (Hperm Hadv).
  destruct (existing_gate_rows r.(gate_diagnosis).(dia_id) w'.(work)) as (l' & -> & Hl').
  { rewrite Hperm. simpl. lia. }
  rewrite <- Hp1. apply first_gate_found; [by apply Hl'; rewrite Hperm; left| |done|].
  - intros q Hq. apply Hl' in Hq. rewrite Hperm in Hq.
    apply elem_of_cons in Hq as [->|Hq]; [by left|right]. intros Hdiag.
    specialize (Hpass q (proj2 (Hl q) Hq) Hdiag).
    unfold gate_rows in Hq. apply filter_elem, proj1, elem_of_rows in Hq as [k Hk].
    apply (gk_proposals _ Hkeys) in Hk as Hid.
    unfold gated_decision. rewrite Hpd, latest_snoc.
    rewrite bool_decide_eq_false_2; [exact Hpass|]. intros Heq. congruence.
  - unfold gated_decision. rewrite Hpd, latest_snoc, bool_decide_eq_true_2 by congruence.
    replace (latest _ _ _) with (None (A:=PolicyDecision)); [done|]. symmetry.
    apply latest_None. intros d Hd. apply bool_decide_eq_false_2. intros Heq.
    apply (gk_decisions _ Hkeys) in Hd as [x Hx]. congruence.
Qed.
End gate.

(** ** A concrete candidate *)

Definition advised_db : Database :=
  upd_ai_diagnoses (λ _, [diagnosis_record 40%N 5 7%N
    {| out_status := AVAILABLE;
       out_proposal := Some
         {| dp_suspected_root_cause := "crash loop"; dp_root_cause_category := "crash";
            dp_confidence := float_of_decimal 9 (-1); dp_evidence_refs := ["incident:metadata"];
            dp_related_change := None; dp_suggested_runbook := None;
            dp_action_candidates := [RESTART_POD]; dp_explanation := "restarts" |};
       out_model_used := Some "m"; out_fallback_used := false; out_escalation_used := false;
       out_attempts := []; out_failure_code := None |}]) sick_world.(work).

Definition restart_request : AIActionEvaluationRequest :=
  {| aer_action := RESTART_POD; aer_target_count := 1; aer_namespace := Some "demo";
     aer_resource_name := Some "pod"; aer_labels := []; aer_controller_managed := true;
     aer_sensitivity := SENS_NONE |}.

Definition bench_gate (w : World Z) : res AIActionGateResult * World Z :=
  evaluate_ai_action_candidate (Runtime0 := bench_runtime) (H := strict_pydantic)
    (PolicyServer0 := bench_opa) (opa_client "http://opa" "/v1/data/x") "/v1/data/x" 7%N
    restart_request "op" 9%N w.

Definition advised_world : World Z := bench_world advised_db.

Lemma advised_keys : gate_keys advised_db.
Proof.
  split; simpl.
  - intros i inc [<- <-]%lookup_singleton_Some. done.
  - by intros i p ?%lookup_empty_Some.
  - by intros d ?%not_elem_of_nil.
Qed.

Definition gated_proposal (r : res AIActionGateResult) : option uuid :=
  match r with Ok r => Some r.(gate_proposal) | Raise _ => None end.

Lemma bench_gate_proposes : gated_proposal (bench_gate advised_world).1 = Some 1%N.
Proof. vm_compute. reflexivity. Qed.


Lemma gate_idempotent_witness :
  ∃ r, bench_gate (bench_gate advised_world).2 = (Ok r, (bench_gate advised_world).2).
Proof.
  destruct (bench_gate advised_world).1 as [r|e] eqn:E;
    [|discriminate (eq_trans (eq_sym (f_equal gated_proposal E)) bench_gate_proposes)].
  exists r. refine (gate_idempotent (Runtime0 := bench_runtime) (H := strict_pydantic)
    (PolicyServer0 := bench_opa) (opa_client "http://opa" "/v1/data/x") "/v1/data/x" 7%N
    restart_request "op" 9%N "op" 9%N advised_world _ r advised_keys _ (run_of _ _ E)).
  vm_compute. lia.
Defined.
