(* ===== verification/Encoding.v ===== *)
(** * Bytes as text

    [base64.b64encode], [base64.b64decode] without validation,
    [urllib.parse.quote] and [bytes.decode("utf-8", errors="replace")].  A code point that the strings of this development cannot
    hold, the replacement character included, stands as the substitute character. *)

From S2P Require Import Prelude Effects Sha256.

(** ** Base64 *)

(** [base64.b64encode]. *)
Definition base64_digit (n : N) : ascii :=
  let n := (n mod 64)%N in
  ascii_of_N (if n <? 26 then n + 65 else if n <? 52 then n + 71 else if n <? 62 then n - 4
              else if n =? 62 then 43 else 47)%N.

Fixpoint base64 (l : list N) : string :=
  let digit n s := String.String (base64_digit n) s in
  match l with
  | a :: b :: c :: l =>
      digit (a / 4)%N (digit (a mod 4 * 16 + b / 16)%N (digit (b mod 16 * 4 + c / 64)%N
        (digit c (base64 l))))
  | [a; b] => digit (a / 4)%N (digit (a mod 4 * 16 + b / 16)%N (digit (b mod 16 * 4)%N "="))
  | [a] => digit (a / 4)%N (digit (a mod 4 * 16)%N "==")
  | [] => EmptyString
  end.

Example base64_examples : map (λ s, base64 (bytes_of s)) ["Cloud"; "Ward!?"; "x"; "~~~"]
  = ["Q2xvdWQ="; "V2FyZCE/"; "eA=="; "fn5+"].
Proof. vm_compute. reflexivity. Qed.

Definition base64_value (n : N) : option N :=
  if ((65 <=? n) && (n <=? 90))%N then Some (n - 65)%N
  else if ((97 <=? n) && (n <=? 122))%N then Some (n - 71)%N
  else if ((48 <=? n) && (n <=? 57))%N then Some (n + 4)%N
  else if (n =? 43)%N then Some 62%N
  else if (n =? 47)%N then Some 63%N
  else None.

(** The state of [binascii.a2b_base64]: the characters of the current group, the bits
    left over, the padding characters in a row.  Other characters are skipped. *)
Fixpoint b64_loop (l : list N) (group : nat) (left : N) (pads : nat) : option (list N) :=
  match l with
  | [] => match group with O => Some [] | _ => None end
  | c :: l =>
      if (c =? 61)%N then
        if Nat.leb 2 group && Nat.leb 4 (group + S pads) then Some []
        else b64_loop l group left (if Nat.leb 2 group then S pads else pads)
      else match base64_value c with
           | None => b64_loop l group left pads
           | Some v =>
               match group with
               | 0%nat => b64_loop l 1 v 0
               | 1%nat => cons (left * 4 + v / 16)%N <$> b64_loop l 2 (v mod 16)%N 0
               | 2%nat => cons (left * 16 + v / 4)%N <$> b64_loop l 3 (v mod 4)%N 0
               | _ => cons (left * 64 + v)%N <$> b64_loop l 0 0%N 0
               end
           end
  end.

(** [None] stands for the [ValueError] of text that is not ASCII and for the
    [binascii.Error] of a truncated group. *)
Definition b64decode (s : string) : option (list N) :=
  if str_forallb (λ c, code_of c <? 128) s then b64_loop (bytes_of s) 0 0%N 0 else None.

Example b64decode_examples :
  map b64decode ["Q2xv dWQ="; "eA=="; "eA="; "e"; ""; "eA==eA=="]
  = [Some (bytes_of "Cloud"); Some (bytes_of "x"); None; None; Some []; Some (bytes_of "x")].
Proof. vm_compute. reflexivity. Qed.

(** What is encoded is decoded. *)
Lemma base64_digit_spec n :
  base64_value (N_of_ascii (base64_digit n)) = Some (n mod 64)%N ∧
  (N_of_ascii (base64_digit n) < 128)%N.
Proof.
  unfold base64_digit. set (m := (n mod 64)%N).
  assert (m < 64)%N as Hm by (apply N.mod_lt; done). clearbody m.
  assert (forallb (λ m, bool_decide (base64_value (N_of_ascii (base64_digit m)) = Some m ∧
      (N_of_ascii (base64_digit m) < 128)%N))
    (map N.of_nat (seq 0 64)) = true) as Hall by (vm_compute; reflexivity).
  rewrite forallb_forall in Hall. specialize (Hall m).
  assert (In m (map N.of_nat (seq 0 64))) as Hin.
  { apply in_map_iff. exists (N.to_nat m). rewrite in_seq. lia. }
  apply Hall, bool_decide_eq_true in Hin. unfold base64_digit in Hin.
  by rewrite N.mod_small in Hin.
Qed.

Lemma base64_digit_byte n s :
  bytes_of (String.String (base64_digit n) s) = N_of_ascii (base64_digit n) :: bytes_of s ∧
  code_of (base64_digit n) < 128.
Proof.
  destruct (base64_digit_spec n) as [_ Hlt]. unfold bytes_of. simpl. unfold utf8, code_of.
  replace (N_of_ascii (base64_digit n) <? 128)%N with true by (symmetry; by apply N.ltb_lt).
  split; [done|lia].
Qed.

Lemma b64_loop_digit n l group left pads :
  b64_loop (N_of_ascii (base64_digit n) :: l) group left pads =
  let v := (n mod 64)%N in
  match group with
  | 0%nat => b64_loop l 1 v 0
  | 1%nat => cons (left * 4 + v / 16)%N <$> b64_loop l 2 (v mod 16)%N 0
  | 2%nat => cons (left * 16 + v / 4)%N <$> b64_loop l 3 (v mod 4)%N 0
  | _ => cons (left * 64 + v)%N <$> b64_loop l 0 0%N 0
  end.
Proof.
  destruct (base64_digit_spec n) as [Hv _]. cbn [b64_loop]. rewrite Hv.
  destruct (N_of_ascii (base64_digit n) =? 61)%N eqn:E; [|done].
  apply N.eqb_eq in E. by rewrite E in Hv.
Qed.

Ltac by_euclid := zify; Z.to_euclidean_division_equations; lia.

Lemma b64_loop_base64 l : Forall (λ n, n < 256)%N l → b64_loop (bytes_of (base64 l)) 0 0 0 = Some l.
Proof.
  assert (∀ k, length l ≤ k → Forall (λ n, n < 256)%N l →
    b64_loop (bytes_of (base64 l)) 0 0 0 = Some l)%nat as H; [|by eapply H].
  intros k. revert l. induction k as [|k IH]; intros l Hk Hl.
  { by destruct l; [|simpl in Hk; lia]. }
  destruct l as [|a [|b [|c l]]]; cbn [base64]; rewrite ?(proj1 (base64_digit_byte _ _));
    repeat (rewrite b64_loop_digit; cbv beta zeta match); rewrite ?Forall_cons in Hl.
  - done.
  - change (b64_loop (bytes_of "==") 2 _ 0) with (Some (@nil N)). simpl fmap. do 2 f_equal. by_euclid.
  - change (b64_loop (bytes_of "=") 3 _ 0) with (Some (@nil N)). simpl fmap.
    f_equal. f_equal; [by_euclid|]. f_equal. by_euclid.
  - rewrite IH; [|simpl in Hk; lia|apply Hl]. simpl fmap.
    f_equal. f_equal; [by_euclid|]. f_equal; [by_euclid|]. f_equal. by_euclid.
Qed.

Lemma b64decode_base64 l : Forall (λ n, n < 256)%N l → b64decode (base64 l) = Some l.
Proof.
  intros Hl. unfold b64decode.
  assert (str_forallb (λ c, code_of c <? 128) (base64 l) = true) as ->; [|by apply b64_loop_base64].
  clear Hl. assert (∀ k l, (length l ≤ k)%nat →
    str_forallb (λ c, code_of c <? 128) (base64 l) = true) as H; [|by eapply H].
  intros k. induction k as [|k IH]; intros [|a [|b [|c l']]] Hk; simpl in Hk; try lia;
    cbn [base64 str_forallb]; rewrite ?andb_true_iff, ?Z.ltb_lt; split_and?;
    try apply (base64_digit_byte _ EmptyString); try done. apply IH. lia.
Qed.

(** [urllib.parse.quote(path, safe="/")]. *)
Definition hex_upper (n : N) : ascii := ascii_of_N (if n <? 10 then n + 48 else n + 55)%N.
Definition quote_byte (n : N) : string :=
  let c := ascii_of_N n in
  if is_alnum c || bool_decide (c ∈ ["_"; "."; "-"; "~"; "/"]%char)
  then String.String c EmptyString
  else String.String "%" (String.String (hex_upper (n / 16)%N)
         (String.String (hex_upper (n mod 16)%N) EmptyString)).
Definition url_quote (s : string) : string := String.concat "" (map quote_byte (bytes_of s)).

Example url_quote_1 : url_quote "a b/c+é.yaml" = "a%20b/c%2B%C3%83%C2%A9.yaml".
Proof. vm_compute. reflexivity. Qed.

(** ** UTF-8 *)

Definition SUBSTITUTE : ascii := "026".
Definition code_point (n : N) : ascii := if (n <? 256)%N then ascii_of_N n else SUBSTITUTE.

Definition continuation (lo hi n : N) : bool := ((lo <=? n) && (n <=? hi))%N.

(** How many bytes follow the first one, and the bounds of the next. *)
Definition utf8_shape (b : N) : option (nat * N * N) :=
  if continuation 194 223 b then Some (1%nat, 128, 191)%N
  else if (b =? 224)%N then Some (2%nat, 160, 191)%N
  else if (b =? 237)%N then Some (2%nat, 128, 159)%N
  else if continuation 225 239 b then Some (2%nat, 128, 191)%N
  else if (b =? 240)%N then Some (3%nat, 144, 191)%N
  else if continuation 241 243 b then Some (3%nat, 128, 191)%N
  else if (b =? 244)%N then Some (3%nat, 128, 143)%N
  else None.

Definition leading_bits (need : nat) (b : N) : N :=
  (b mod (match need with 1%nat => 32 | 2%nat => 16 | _ => 8 end))%N.

(** The continuation bytes of a character that has [need] to come: a byte out of
    bounds ends it with one replacement and is read again. *)
Fixpoint utf8_loop (l : list N) (need : nat) (acc lo hi : N) : string :=
  let replaced s := match need with O => s | _ => String.String SUBSTITUTE s end in
  match l with
  | [] => replaced EmptyString
  | b :: l =>
      let first := match utf8_shape b with
        | Some (n, lo, hi) => utf8_loop l n (leading_bits n b) lo hi
        | None => String.String (if (b <? 128)%N then ascii_of_N b else SUBSTITUTE)
                    (utf8_loop l 0 0%N 0%N 0%N)
        end in
      match need with
      | S more =>
          let acc := (acc * 64 + b mod 64)%N in
          if negb (continuation lo hi b) then replaced first
          else match more with
               | O => String.String (code_point acc) (utf8_loop l 0 0%N 0%N 0%N)
               | S _ => utf8_loop l more acc 128%N 191%N
               end
      | O => first
      end
  end.

Definition utf8_decode (l : list N) : string := utf8_loop l 0 0%N 0%N 0%N.

(** Text that the strings can hold reads back. *)
Lemma utf8_round s : utf8_decode (bytes_of s) = s.
Proof.
  unfold utf8_decode, bytes_of. induction s as [|c s IH]; [done|].
  assert (utf8_loop (utf8 c ++ flat_map utf8 (list_ascii_of_string s)) 0 0 0 0
          = String.String c (utf8_loop (flat_map utf8 (list_ascii_of_string s)) 0 0 0 0)) as Hc.
  { generalize (flat_map utf8 (list_ascii_of_string s)).
    destruct c as [[] [] [] [] [] [] [] []]; intros l; reflexivity. }
  simpl. rewrite Hc. by f_equal.
Qed.

Lemma bytes_of_bounded s : Forall (λ n, n < 256)%N (bytes_of s).
Proof.
  unfold bytes_of. induction s as [|c s IH]; simpl; [constructor|]. apply Forall_app. split; [|done].
  by destruct c as [[] [] [] [] [] [] [] []]; vm_compute; repeat constructor.
Qed.
