(* ===== verification/GitHubPolicy.v ===== *)
(** * What the GitHub App may touch

    [github/policy.py] and the configuration part of [github/factory.py]: the
    allowlists of repositories and of paths, with [fnmatch.fnmatchcase] as the
    language has it ([*] runs over every character, the slash too). *)

From S2P Require Import Prelude PyFloat Json JsonParse Effects Models Config.

(** ** Path patterns ([fnmatch.fnmatchcase]) *)

Inductive pattern_token : Type :=
| PStar
| PAny
| PChar (c : ascii)
| PSet (negated : bool) (ranges : list (ascii * ascii)).

(** The ranges of a bracket expression: [a-z], or a character by itself. *)
Fixpoint bracket_ranges (l : list ascii) : list (ascii * ascii) :=
  match l with
  | a :: (("-"%char :: b :: l') as rest) => (a, b) :: bracket_ranges l'
  | a :: l' => (a, a) :: bracket_ranges l'
  | [] => []
  end.

(** The characters up to the next closing bracket, and what follows it. *)
Fixpoint to_bracket (acc l : list ascii) : option (list ascii * list ascii) :=
  match l with
  | [] => None
  | "]"%char :: l => Some (rev acc, l)
  | c :: l => to_bracket (c :: acc) l
  end.

(** The expression after an opening bracket: the first character may be a closing
    bracket, also after the negation. *)
Definition bracket (l : list ascii) : option (pattern_token * list ascii) :=
  let '(negated, l) := match l with "!"%char :: l => (true, l) | _ => (false, l) end in
  '(stuff, rest) ← match l with
                   | "]"%char :: l => to_bracket ["]"%char] l
                   | _ => to_bracket [] l
                   end;
  Some (PSet negated (bracket_ranges stuff), rest).

Fixpoint parse_pattern (fuel : nat) (l : list ascii) : list pattern_token :=
  match fuel, l with
  | S fuel, "*"%char :: l => PStar :: parse_pattern fuel l
  | S fuel, "?"%char :: l => PAny :: parse_pattern fuel l
  | S fuel, "["%char :: l =>
      match bracket l with
      | Some (t, rest) => t :: parse_pattern fuel rest
      | None => PChar "[" :: parse_pattern fuel l
      end
  | S fuel, c :: l => PChar c :: parse_pattern fuel l
  | _, _ => []
  end.

Definition token_matches (t : pattern_token) (c : ascii) : bool :=
  match t with
  | PStar => false
  | PAny => true
  | PChar d => Ascii.eqb c d
  | PSet negated ranges =>
      xorb negated (existsb (λ r, (code_of r.1 <=? code_of c) && (code_of c <=? code_of r.2)) ranges)
  end.

Fixpoint tokens_match (p : list pattern_token) : list ascii → bool :=
  match p with
  | [] => λ s, match s with [] => true | _ => false end
  | PStar :: p => fix star s :=
      tokens_match p s || match s with [] => false | _ :: s => star s end
  | t :: p => λ s, match s with [] => false | c :: s => token_matches t c && tokens_match p s end
  end.

Definition fnmatchcase (name pattern : string) : bool :=
  let p := list_ascii_of_string pattern in
  tokens_match (parse_pattern (length p) p) (list_ascii_of_string name).

Example fnmatch_1 : map (λ n, fnmatchcase n "values/*.yaml")
  ["values/a.yaml"; "values/a/b.yaml"; "values/a.yml"; "other/a.yaml"] = [true; true; false; false].
Proof. vm_compute. reflexivity. Qed.
Example fnmatch_2 : map (λ n, fnmatchcase n "[!a-c]?[]x-z]") ["dq]"; "dqy"; "aq]"; "dq"]
  = [true; true; false; false].
Proof. vm_compute. reflexivity. Qed.
Example fnmatch_3 : fnmatchcase "a[b" "a[b" = true.
Proof. vm_compute. reflexivity. Qed.

(** ** Repositories and paths *)

Definition forbidden_repository (message : string) : exn :=
  cw_error_status "GITHUB_REPOSITORY_FORBIDDEN" message 403.
Definition forbidden_path (message : string) : exn :=
  cw_error_status "GITHUB_PATH_FORBIDDEN" message 403.

(** The parts between slashes. *)
Fixpoint split_slash_aux (s acc : string) : list string :=
  match s with
  | EmptyString => [str_rev acc]
  | String.String "/" s => str_rev acc :: split_slash_aux s EmptyString
  | String.String c s => split_slash_aux s (String.String c acc)
  end.
Definition split_slash (s : string) : list string := split_slash_aux s EmptyString.

Definition repository_char (c : ascii) : bool :=
  is_alnum c || bool_decide (c ∈ ["_"; "."; "-"]%char).

(** [REPOSITORY_PATTERN.fullmatch]. *)
Definition REPOSITORY_PATTERN (s : string) : bool :=
  match split_slash s with
  | [owner; name] => truthy_str owner && truthy_str name &&
                     str_forallb repository_char owner && str_forallb repository_char name
  | _ => false
  end.

Definition normalize_repository (value : string) : res string :=
  let normalized := str_strip value in
  if REPOSITORY_PATTERN normalized then Ok (lower normalized)
  else Raise (forbidden_repository "GitHub repository is not valid").

(** The parts of a [PurePosixPath] that is not absolute: neither empty nor ".". *)
Definition path_parts (value : string) : list string :=
  List.filter (λ p, truthy_str p && negb (String.eqb p ".")) (split_slash value).

(** [str(path)]. *)
Definition path_str (parts : list string) : string :=
  match parts with [] => "." | _ => join "/" parts end.

Definition normalize_path (value : string) : res string :=
  if negb (truthy_str value) || contains "\" value || starts_with "/" value
  then Raise (forbidden_path "GitHub path is forbidden")
  else
    let parts := path_parts value in
    if bool_decide (".." ∈ parts) || bool_decide ("." ∈ parts)
    then Raise (forbidden_path "GitHub path is forbidden")
    else
      let normalized := path_str parts in
      if 1024 <? str_len normalized then Raise (forbidden_path "GitHub path exceeds limit")
      else Ok normalized.

Example normalize_path_1 : map (λ p, is_ok (normalize_path p))
  ["a/b.yaml"; "/a"; "a/../b"; "a\b"; ""; "a//./b"] = [true; false; false; false; false; true].
Proof. vm_compute. reflexivity. Qed.

(** ** The policy *)

Record GitHubAutomationPolicy := {
  read_repositories : list string;
  issue_repositories : list string;
  write_paths : list (string * list string);
}.

Fixpoint normalize_all (l : list string) : res (list string) :=
  match l with
  | [] => Ok []
  | r :: l => res_bind (normalize_repository r) (λ r, res_bind (normalize_all l) (λ l, Ok (r :: l)))
  end.

(** The dictionary of normalized repositories: of two that normalize to the same,
    the later one. *)
Fixpoint normalize_write_paths (l acc : list (string * list string))
  : res (list (string * list string)) :=
  match l with
  | [] => Ok acc
  | (repository, patterns) :: l =>
      res_bind (normalize_repository repository) (λ repository,
      normalize_write_paths l (dict_set repository patterns acc))
  end.

Definition patterns_ok (patterns : list string) : bool :=
  negb (bool_decide (patterns = [])) &&
  forallb (λ p, negb (starts_with "/" p) && negb (contains ".." p)) patterns.

(** The constructor. *)
Definition make_policy (read issue : list string) (write : list (string * list string))
  : res GitHubAutomationPolicy :=
  res_bind (normalize_all read) (λ read,
  res_bind (normalize_all issue) (λ issue,
  res_bind (normalize_write_paths write []) (λ write,
  if forallb (λ e, patterns_ok e.2) write
  then Ok {| read_repositories := read; issue_repositories := issue; write_paths := write |}
  else Raise (PyError "ValueError"
                "GitHub write allowlist patterns must be relative and non-empty")))).

Section policy.
Context (policy : GitHubAutomationPolicy).

Definition require_listed (allowed : list string) (message : string) (repository : string)
  : res string :=
  res_bind (normalize_repository repository) (λ normalized,
  if bool_decide (normalized ∈ allowed) then Ok normalized
  else Raise (forbidden_repository message)).

Definition require_read : string → res string :=
  require_listed policy.(read_repositories) "Repository is outside the GitHub read allowlist".

Definition require_issue_write : string → res string :=
  require_listed policy.(issue_repositories) "Repository is outside the GitHub Issue allowlist".

Definition require_pull_request : string → res string :=
  require_listed (map fst policy.(write_paths))
    "Repository is outside the GitHub pull-request allowlist".

Definition require_path_write (repository path : string) : res (string * string) :=
  res_bind (normalize_repository repository) (λ repository,
  res_bind (normalize_path path) (λ path,
  if existsb (fnmatchcase path) (default [] (dict_get repository policy.(write_paths)))
  then Ok (repository, path)
  else Raise (forbidden_path "Path is outside the GitHub write allowlist"))).
End policy.

(** ** Configuration ([factory.py]) *)

(** [_csv]. *)
Definition csv (value : string) : list string :=
  List.filter truthy_str (map str_strip (split_comma value)).

Definition allowlist_invalid (message : string) : exn :=
  cw_error_status "GITHUB_ALLOWLIST_INVALID" message 503.

Definition string_list (j : json) : option (list string) :=
  match j with
  | JArr l => mapM (λ j, match j with JStr s => Some s | _ => None end) l
  | _ => None
  end.

(** [_write_allowlist]. *)
Definition write_allowlist (value : string) : res (list (string * list string)) :=
  match json_loads value with
  | None => Raise (allowlist_invalid "GitHub write allowlist is not valid JSON")
  | Some raw =>
      match match raw with
            | JObj d => mapM (λ kv, (λ l, (kv.1, l)) <$> string_list kv.2) d
            | _ => None
            end with
      | Some l => Ok l
      | None => Raise (allowlist_invalid
                         "GitHub write allowlist must map repositories to path lists")
      end
  end.

(** [build_github_app_client], up to the policy the client is built with. *)
Definition settings_policy (settings : Settings) : res GitHubAutomationPolicy :=
  match settings.(github_app_id), settings.(github_app_installation_id),
        settings.(github_app_private_key) with
  | Some _, Some _, Some _ =>
      res_bind (write_allowlist settings.(github_app_write_allowlist)) (λ write,
      make_policy (csv settings.(github_app_read_repositories))
        (csv settings.(github_app_issue_repositories)) write)
  | _, _, _ => Raise (cw_error_status "GITHUB_APP_NOT_CONFIGURED"
                        "GitHub App credentials are not configured" 503)
  end.

(** ** Normal paths *)

Definition no_char (c : ascii) (s : string) : bool := str_forallb (λ d, negb (Ascii.eqb d c)) s.

Lemma contains_char c s : contains (String.String c EmptyString) s = negb (no_char c s).
Proof.
  induction s as [|d s IH]; [done|]. cbn [contains no_char str_forallb String.prefix].
  rewrite IH. unfold no_char. destruct (Ascii.eqb d c) eqn:E.
  - apply Ascii.eqb_eq in E as ->. destruct (ascii_dec c c); [by destruct s|done].
  - destruct (ascii_dec c d) as [->|]; [by rewrite Ascii.eqb_refl in E|]. done.
Qed.

Lemma split_slash_aux_app a s acc : no_char "/" a = true →
  split_slash_aux (a +:+ s) acc = split_slash_aux s (str_rev a +:+ acc).
Proof.
  revert acc. induction a as [|c a IH]; intros acc Ha; [done|].
  cbn [no_char str_forallb] in Ha. apply andb_true_iff in Ha as [Hc Ha].
  rewrite str_rev_cons, app_assoc_str. rewrite <- (IH _ Ha). simpl.
  destruct c as [[] [] [] [] [] [] [] []]; done.
Qed.

Lemma split_slash_join p l : Forall (λ q, no_char "/" q = true) (p :: l) →
  split_slash (join "/" (p :: l)) = p :: l.
Proof.
  revert p. induction l as [|q l IH]; intros p Hall; apply Forall_cons in Hall as [Hp Hl].
  - unfold split_slash. simpl. rewrite <- (app_nil_r_str p), split_slash_aux_app by done.
    simpl. by rewrite app_nil_r_str, str_rev_involutive, app_nil_r_str.
  - change (join "/" (p :: q :: l)) with (p +:+ String.String "/" (join "/" (q :: l))).
    unfold split_slash. rewrite split_slash_aux_app by done. cbn [split_slash_aux].
    rewrite app_nil_r_str, str_rev_involutive. f_equal. by apply IH.
Qed.

(** What holds of every character of the value holds of every part. *)
Lemma split_slash_chars p s acc : str_forallb p acc = true → str_forallb p s = true →
  Forall (λ q, str_forallb p q = true) (split_slash_aux s acc).
Proof.
  revert acc. induction s as [|c s IH]; intros acc Hacc Hs.
  - constructor; [by rewrite str_forallb_rev|done].
  - simpl in Hs. apply andb_true_iff in Hs as [Hc Hs].
    assert (Forall (λ q, str_forallb p q = true) (str_rev acc :: split_slash_aux s EmptyString))
      by (constructor; [by rewrite str_forallb_rev|by apply IH]).
    assert (Forall (λ q, str_forallb p q = true) (split_slash_aux s (String.String c acc)))
      by (apply IH; [simpl; by rewrite Hc|done]).
    simpl. destruct c as [[] [] [] [] [] [] [] []]; done.
Qed.

Lemma split_slash_no_slash s acc : no_char "/" acc = true →
  Forall (λ q, no_char "/" q = true) (split_slash_aux s acc).
Proof.
  revert acc. induction s as [|c s IH]; intros acc Hacc.
  - constructor; [unfold no_char; by rewrite str_forallb_rev|done].
  - destruct (Ascii.eqb c "/") eqn:E.
    + apply Ascii.eqb_eq in E as ->. simpl. constructor; [|by apply IH].
      unfold no_char. by rewrite str_forallb_rev.
    + assert (Forall (λ q, no_char "/" q = true) (split_slash_aux s (String.String c acc))) as H
        by (apply IH; unfold no_char in *; simpl; by rewrite E, Hacc).
      destruct c as [[] [] [] [] [] [] [] []]; try exact H; discriminate E.
Qed.

(** A path in normal form, that stays below the root of the repository. *)
Record normal_path (p : string) : Prop := {
  np_normal : normalize_path p = Ok p;
  np_relative : starts_with "/" p = false;
  np_no_parent : ".." ∉ split_slash p;
  np_no_backslash : contains "\" p = false;
  np_length : str_len p ≤ 1024;
}.

Lemma str_forallb_join p l : str_forallb p "/" = true → Forall (λ q, str_forallb p q = true) l →
  str_forallb p (join "/" l) = true.
Proof.
  intros Hp Hl. induction Hl as [|q l Hq Hl IH]; [done|].
  destruct l as [|q' l]; [done|].
  change (join "/" (q :: q' :: l)) with (q +:+ "/" +:+ join "/" (q' :: l)).
  by rewrite !str_forallb_app, Hq, Hp, IH.
Qed.

(** The parts of a path: not empty, not ".", without slashes. *)
Definition part_ok (q : string) : Prop :=
  (truthy_str q && negb (String.eqb q ".")) = true ∧ no_char "/" q = true.

Lemma path_parts_ok v : Forall part_ok (path_parts v).
Proof.
  apply Forall_forall. intros q [Hin Hq]%filter_elem. split; [done|].
  assert (Forall (λ q, no_char "/" q = true) (split_slash v)) as H
    by by apply split_slash_no_slash.
  rewrite Forall_forall in H. by apply H.
Qed.

Lemma path_parts_join q l : Forall part_ok (q :: l) →
  split_slash (join "/" (q :: l)) = q :: l ∧ path_parts (join "/" (q :: l)) = q :: l.
Proof.
  intros Hok.
  assert (split_slash (join "/" (q :: l)) = q :: l) as Hs
    by (apply split_slash_join; eapply Forall_impl; [exact Hok|by intros ? [? ?]]).
  split; [done|]. unfold path_parts. rewrite Hs. apply filter_all.
  eapply Forall_impl; [exact Hok|by intros ? [? ?]].
Qed.

Lemma starts_with_slash s : starts_with "/" s = true → EmptyString ∈ split_slash s.
Proof.
  destruct s as [|c s]; [done|]. unfold starts_with. cbn [String.prefix].
  destruct (ascii_dec "/" c) as [<-|]; [|done]. intros _. by left.
Qed.

(** Whatever is asked for, the path that is used is in normal form: relative,
    without a parent directory or a backslash in it. *)
Lemma normalize_path_normal v p : normalize_path v = Ok p → normal_path p.
Proof.
  unfold normalize_path. destruct (_ || _ || _) eqn:Hg; [done|].
  destruct (bool_decide _ || _) eqn:Hd; [done|]. destruct (1024 <? _) eqn:Hl; [done|].
  intros [= <-]. apply orb_false_iff in Hg as [[_ Hb]%orb_false_iff _].
  apply orb_false_iff in Hd as [Hup%bool_decide_eq_false _]. apply Z.ltb_ge in Hl.
  assert (contains "\" (path_str (path_parts v)) = false) as Hback.
  { rewrite contains_char, negb_false_iff in *.
    assert (Forall (λ q, no_char "\" q = true) (path_parts v)) as Hc.
    { apply Forall_forall. intros q [Hin _]%filter_elem.
      assert (Forall (λ q, no_char "\" q = true) (split_slash v)) as H
        by by apply split_slash_chars. rewrite Forall_forall in H. by apply H. }
    destruct (path_parts v) as [|q l]; [done|]. by apply str_forallb_join. }
  pose proof (path_parts_ok v) as Hok.
  destruct (path_parts v) as [|q l] eqn:Hparts.
  - by split; try (by vm_compute); set_solver.
  - destruct (path_parts_join _ _ Hok) as [Hsplit Hagain]. unfold path_str in *.
    assert (starts_with "/" (join "/" (q :: l)) = false) as Hrel.
    { apply not_true_iff_false. intros Hs%starts_with_slash. rewrite Hsplit in Hs.
      rewrite Forall_forall in Hok. by apply Hok in Hs as [? _]. }
    split; [|done|by rewrite Hsplit|done|lia].
    unfold normalize_path. rewrite Hagain, Hback, Hrel. unfold path_str.
    rewrite (bool_decide_eq_false_2 (".." ∈ _)) by done.
    rewrite (bool_decide_eq_false_2 ("." ∈ _)).
    2: { intros Hdot. rewrite Forall_forall in Hok. by apply Hok in Hdot as [? _]. }
    destruct (truthy_str (join "/" (q :: l))) eqn:Ht; cbn [negb orb].
    + by rewrite (proj2 (Z.ltb_ge _ _) Hl).
    + exfalso. unfold truthy_str in Ht. apply negb_false_iff, String.eqb_eq in Ht.
      rewrite Ht in Hsplit. inversion Hsplit; subst. apply Forall_cons in Hok as [[? _] _]. done.
Qed.

Section policy_facts.
Context (policy : GitHubAutomationPolicy).

(** The path is one the repository's patterns allow. *)
Definition writable_path (repository path : string) : Prop :=
  normal_path path ∧ ∃ patterns, dict_get repository policy.(write_paths) = Some patterns ∧
    existsb (fnmatchcase path) patterns = true.

Lemma require_listed_ok allowed message repository r :
  require_listed allowed message repository = Ok r → r ∈ allowed ∧ normalize_repository repository = Ok r.
Proof.
  unfold require_listed. destruct (normalize_repository repository) as [n|]; [|done]. simpl.
  destruct (bool_decide _) eqn:Hin; [|done]. boolify. by intros [= <-].
Qed.

Lemma require_path_write_ok repository path r p :
  require_path_write policy repository path = Ok (r, p) → writable_path r p.
Proof.
  unfold require_path_write. destruct (normalize_repository repository) as [n|]; [|done]. simpl.
  destruct (normalize_path path) as [q|] eqn:Hq; [|done]. simpl.
  destruct (existsb _ _) eqn:He; [|done]. intros [= <- <-].
  split; [by eapply normalize_path_normal|].
  destruct (dict_get n (write_paths policy)) as [l|] eqn:Hl; [|done]. by exists l.
Qed.
End policy_facts.
