(* ===== verification/GitHub.v ===== *)
(** * The GitHub App: source evidence, issues and reviewed changes

    [github/app.py] (the client), [github/schemas.py] and [github/service.py].  The
    source of installation tokens and the REST API are the environment; the minting of
    tokens is not modelled. *)

From S2P Require Import Prelude PyFloat Json Sha256 Effects Actions StateMachine Models.
From S2P Require Import World Redaction Config AuditLog History Memory AiContext Encoding GitHubPolicy.

(** ** Contracts ([schemas.py]) *)

Record CommitEvidence := {
  cme_repository : string;
  cme_sha : string;
  cme_message : string;
  cme_author : option string;
  cme_committed_at : option datetime;
  cme_url : option string;
}.

Definition CommitEvidence_valid (c : CommitEvidence) : bool :=
  len_between 0 1000 c.(cme_message) && opt_max 255 c.(cme_author) && opt_max 2048 c.(cme_url).

Record FileDiffEvidence := {
  fde_path : string;
  fde_status : string;
  fde_additions : Z;
  fde_deletions : Z;
  fde_patch : string;
}.

Definition FileDiffEvidence_valid (f : FileDiffEvidence) : bool :=
  len_between 1 500 f.(fde_path) && len_between 1 32 f.(fde_status) &&
  (0 <=? f.(fde_additions)) && (0 <=? f.(fde_deletions)) && len_between 0 4000 f.(fde_patch).

Definition FileDiffEvidence_dump (f : FileDiffEvidence) : json :=
  JObj [("path", JStr f.(fde_path)); ("status", JStr f.(fde_status));
        ("additions", JInt f.(fde_additions)); ("deletions", JInt f.(fde_deletions));
        ("patch", JStr f.(fde_patch))].

Record ComparisonEvidence := {
  cmp_repository : string;
  cmp_base_sha : string;
  cmp_head_sha : string;
  cmp_ahead_by : Z;
  cmp_total_commits : Z;
  cmp_files : list FileDiffEvidence;
  cmp_truncated : bool;
}.

Record SourceFileEvidence := {
  sfe_repository : string;
  sfe_path : string;
  sfe_ref : string;
  sfe_content : string;
  sfe_sha : option string;
}.

Definition SourceFileEvidence_valid (f : SourceFileEvidence) : bool :=
  str_len f.(sfe_content) <=? 20000.

Record GitHubIssueResult := {
  gir_repository : string;
  gir_number : Z;
  gir_url : string;
  gir_title : string;
}.

Record GitHubPullRequestResult := {
  gpr_repository : string;
  gpr_number : Z;
  gpr_url : string;
  gpr_head : string;
  gpr_base : string;
}.

Record SourceCorrelationRequest := {
  scr_repository : string;
  scr_running_commit : string;
  scr_previous_healthy_commit : string;
  scr_branch : option string;
  scr_image_digest : option string;
}.

Definition SourceCorrelationRequest_valid (r : SourceCorrelationRequest) : bool :=
  len_between 7 64 r.(scr_running_commit) && len_between 7 64 r.(scr_previous_healthy_commit) &&
  opt_max 255 r.(scr_branch) && opt_max 255 r.(scr_image_digest).

Record SourceCorrelationEvidence := {
  sce_repository : string;
  sce_running_commit : CommitEvidence;
  sce_previous_healthy_commit : string;
  sce_comparison : ComparisonEvidence;
  sce_branch : option string;
  sce_image_digest : option string;
}.

Definition CAVEAT : string := "Temporal correlation is evidence, not proof of causation.".

Record GitHubIssueContent := {
  gic_title : string;
  gic_body : string;
  gic_labels : list string;
}.

Definition GitHubIssueContent_valid (c : GitHubIssueContent) : bool :=
  len_between 1 200 c.(gic_title) && len_between 1 10000 c.(gic_body) &&
  (Z.of_nat (length c.(gic_labels)) <=? 10).

Record GitHubPRContent := {
  gpc_title : string;
  gpc_body : string;
  gpc_head : string;
  gpc_base : string;
  gpc_draft : bool;
}.

Definition GitHubPRContent_valid (c : GitHubPRContent) : bool :=
  len_between 1 200 c.(gpc_title) && len_between 1 20000 c.(gpc_body) &&
  len_between 1 255 c.(gpc_head) && len_between 1 255 c.(gpc_base).

(** [^cloudward/[A-Za-z0-9][A-Za-z0-9._/-]*$]. *)
Definition branch_char (c : ascii) : bool :=
  is_alnum c || bool_decide (c ∈ ["."; "_"; "/"; "-"]%char).
Definition cloudward_branch (s : string) : bool :=
  starts_with "cloudward/" s &&
  match String.substring 10 (String.length s - 10) s with
  | String.String c rest => is_alnum c && str_forallb branch_char rest
  | EmptyString => false
  end.

Record GitHubChangeProposalRequest := {
  gcr_repository : string;
  gcr_path : string;
  gcr_base : string;
  gcr_base_commit_sha : string;
  gcr_head : string;
  gcr_expected_blob_sha : option string;
  gcr_proposed_content : string;
  gcr_commit_message : string;
  gcr_title : string;
  gcr_reason : string;
  gcr_current_state : dict;
  gcr_proposed_state : dict;
  gcr_evidence : dict;
  gcr_risk_score : Z;
  gcr_verification_plan : string;
  gcr_rollback_plan : string;
  gcr_draft : bool;
}.

Definition GitHubChangeProposalRequest_valid (r : GitHubChangeProposalRequest) : bool :=
  len_between 1 1024 r.(gcr_path) && len_between 1 255 r.(gcr_base) &&
  len_between 7 64 r.(gcr_base_commit_sha) && len_between 12 255 r.(gcr_head) &&
  cloudward_branch r.(gcr_head) &&
  match r.(gcr_expected_blob_sha) with Some s => len_between 7 64 s | None => true end &&
  len_between 1 100000 r.(gcr_proposed_content) && len_between 1 500 r.(gcr_commit_message) &&
  len_between 1 200 r.(gcr_title) && len_between 1 2000 r.(gcr_reason) &&
  (0 <=? r.(gcr_risk_score)) && (r.(gcr_risk_score) <=? 100) &&
  len_between 1 2000 r.(gcr_verification_plan) && len_between 1 2000 r.(gcr_rollback_plan).

Record GitHubChangeProposalResponse := {
  gcp_subject_id : string;
  gcp_path : string;
  gcp_commit_sha : string;
  gcp_pull_request : GitHubPullRequestResult;
  gcp_created : bool;
}.

(** [json.dumps(v, sort_keys=True)], with the default separators. *)
Fixpoint dumps_spaced (j : json) : string :=
  match j with
  | JArr l => "[" +:+ join ", " (map dumps_spaced l) +:+ "]"
  | JObj d =>
      let entries :=
        isort (λ a b : string * string, str_leb a.1 b.1)
          ((fix go (d : list (string * json)) : list (string * string) :=
              match d with
              | [] => []
              | (k, v) :: d => (k, quote k +:+ ": " +:+ dumps_spaced v) :: go d
              end) d) in
      "{" +:+ join ", " (map snd entries) +:+ "}"
  | _ => dumps j
  end.

(** ** References *)

Definition is_hex_digit (c : ascii) : bool := is_digit c || in_range 97 102 c || in_range 65 70 c.
Definition SHA_PATTERN (s : string) : bool := len_between 7 64 s && str_forallb is_hex_digit s.

(** [^[A-Za-z0-9](?:[A-Za-z0-9._/-]{0,253}[A-Za-z0-9])?$]. *)
Definition BRANCH_PATTERN (s : string) : bool :=
  let edge s := match s with String.String c _ => is_alnum c | EmptyString => false end in
  len_between 1 255 s && str_forallb branch_char s && edge s && edge (str_rev s).

Definition reference_invalid (message : string) : exn :=
  cw_error_status "GITHUB_REF_INVALID" message 422.
Definition response_invalid (message : string) : exn :=
  cw_error_status "GITHUB_RESPONSE_INVALID" message 502.

Definition require_sha (value : string) : res unit :=
  if SHA_PATTERN value then Ok tt
  else Raise (reference_invalid "GitHub commit reference is invalid").

Definition require_branch (value : string) : res unit :=
  if negb (BRANCH_PATTERN value) || contains ".." value || contains "//" value ||
     ends_with ".lock" value
  then Raise (reference_invalid "GitHub branch name is invalid") else Ok tt.

Example branches : map (λ b, is_ok (require_branch b))
  ["cloudward/fix-1"; "a"; "a..b"; "a/"; "x.lock"; "a b"; EmptyString]
  = [true; true; false; false; false; false; false].
Proof. vm_compute. reflexivity. Qed.

Definition safe_int (j : option json) : Z :=
  match j with Some (JInt z) => Z.max 0 z | _ => 0 end.

Definition positive_int (j : option json) : res Z :=
  match j with
  | Some (JInt z) => if z <? 1 then Raise (response_invalid "GitHub response has no record number")
                     else Ok z
  | _ => Raise (response_invalid "GitHub response has no record number")
  end.

(** ** The client ([app.py]) *)

(** The source of tokens, the API (no answer stands for the errors [_request]
    handles), and [datetime.fromisoformat] after the replacement of [Z]. *)
Class GitHubServer (X : Type) := {
  github_token : X → res string * X;
  github_answer : string → string → json → X → option json * X;
  parse_datetime : string → option datetime;
}.
#[export] Hint Mode GitHubServer ! : typeclass_instances.

(** [payload.get(key)] where the payload is an object, [{}] otherwise. *)
Definition sub_object (key : string) (d : dict) : dict :=
  match dict_get key d with Some (JObj d) => d | _ => [] end.

(** [str(d.get(key, default))]. *)
Definition str_get (key dflt : string) (d : dict) : string := py_str (get_or key (JStr dflt) d).

(** [str(d.get(key))[:n] if d.get(key) else None]. *)
Definition opt_get (n : nat) (key : string) (d : dict) : option string :=
  (λ j, str_take n (py_str j)) <$> get_truthy key d.

(** [str(payload.get("html_url"))]. *)
Definition html_url (payload : dict) : string := py_str (get_or "html_url" JNull payload).

Section client.
Context {X : Type} `{!GitHubServer X}.
Context (policy : GitHubAutomationPolicy).

(** [_request]. *)
Definition request (method path : string) (body : json) : M (World X) dict :=
  let! token := external github_token in
  do! lift (res_bind token (λ _, Ok tt));
  do! record_call (CallGitHub method path body);
  let! answer := external (github_answer method path body) in
  match answer with
  | Some (JObj payload) => ret payload
  | _ => raise (cw_error_status "GITHUB_API_FAILURE" "GitHub App request failed" 502)
  end.

Definition read_commit (repository sha : string) : M (World X) CommitEvidence :=
  let! repository := lift (require_read policy repository) in
  do! lift (require_sha sha);
  let! payload := request "GET" ("/repos/" +:+ repository +:+ "/commits/" +:+ sha) JNull in
  let commit := sub_object "commit" payload in
  let author := sub_object "author" commit in
  let evidence :=
    {| cme_repository := repository; cme_sha := str_get "sha" sha payload;
       cme_message := str_take 1000 (redact_text (str_get "message" "" commit));
       cme_author := opt_get 255 "name" author;
       cme_committed_at := match dict_get "date" author with
                           | Some (JStr s) => parse_datetime (X:=X) s | _ => None end;
       cme_url := opt_get 2048 "html_url" payload |} in
  if CommitEvidence_valid evidence then ret evidence
  else raise (response_invalid "GitHub commit response is invalid").

(** One entry of ["files"]. *)
Definition file_diff (item : dict) : res FileDiffEvidence :=
  res_bind (normalize_path (str_get "filename" "" item)) (λ path,
  validated "FileDiffEvidence" FileDiffEvidence_valid
    {| fde_path := path; fde_status := str_take 32 (str_get "status" "unknown" item);
       fde_additions := safe_int (dict_get "additions" item);
       fde_deletions := safe_int (dict_get "deletions" item);
       fde_patch := str_take 4000 (redact_text (str_get "patch" "" item)) |}).

Fixpoint file_diffs (l : list json) : res (list FileDiffEvidence) :=
  match l with
  | [] => Ok []
  | JObj item :: l =>
      res_bind (file_diff item) (λ f, res_bind (file_diffs l) (λ fs, Ok (f :: fs)))
  | _ :: l => file_diffs l
  end.

Definition compare_commits (repository base_sha head_sha : string)
  : M (World X) ComparisonEvidence :=
  let! repository := lift (require_read policy repository) in
  do! lift (require_sha base_sha);
  do! lift (require_sha head_sha);
  let! payload := request "GET" ("/repos/" +:+ repository +:+ "/compare/" +:+ base_sha +:+
                                 "..." +:+ head_sha) JNull in
  let raw_files := match dict_get "files" payload with Some (JArr l) => l | _ => [] end in
  let! files := lift (file_diffs (take 20 raw_files)) in
  ret {| cmp_repository := repository; cmp_base_sha := base_sha; cmp_head_sha := head_sha;
         cmp_ahead_by := safe_int (dict_get "ahead_by" payload);
         cmp_total_commits := safe_int (dict_get "total_commits" payload);
         cmp_files := files;
         cmp_truncated := bool_decide (length files < length raw_files)%nat |}.

Definition issue_body (c : GitHubIssueContent) : json :=
  JObj [("title", JStr (redact_text c.(gic_title))); ("body", JStr (redact_text c.(gic_body)));
        ("labels", JStrs (map (λ l, str_take 50 (redact_text l)) c.(gic_labels)))].

Definition create_issue (repository : string) (content : GitHubIssueContent)
  : M (World X) GitHubIssueResult :=
  let! repository := lift (require_issue_write policy repository) in
  let! payload := request "POST" ("/repos/" +:+ repository +:+ "/issues") (issue_body content) in
  let! number := lift (positive_int (dict_get "number" payload)) in
  ret {| gir_repository := repository; gir_number := number; gir_url := html_url payload;
         gir_title := content.(gic_title) |}.

Definition contents_path (repository path : string) : string :=
  "/repos/" +:+ repository +:+ "/contents/" +:+ url_quote path.

Definition file_body (branch message content : string) (expected : option string) : json :=
  JObj ([("message", JStr (str_take 500 (redact_text message)));
         ("content", JStr (base64 (bytes_of content))); ("branch", JStr branch)] ++
        match expected with Some s => [("sha", JStr s)] | None => [] end).

Definition MAX_SOURCE_BYTES : Z := 20000.

(** The text of a file, as the contents API serves it. *)
Definition file_content (payload : dict) : res string :=
  match dict_get "content" payload with
  | Some (JStr encoded) =>
      if negb (json_eqb (default JNull (dict_get "encoding" payload)) (JStr "base64"))
      then Raise (response_invalid "GitHub content response is invalid")
      else match b64decode encoded with
           | None => Raise (response_invalid "GitHub content response is invalid")
           | Some decoded =>
               if MAX_SOURCE_BYTES <? Z.of_nat (length decoded)
               then Raise (cw_error_status "GITHUB_SOURCE_TOO_LARGE"
                             "Source file exceeds diagnosis bound" 422)
               else Ok (redact_text (utf8_decode decoded))
           end
  | _ => Raise (response_invalid "GitHub content response is invalid")
  end.

(** [read_file]; the query parameters are the body of the recorded request. *)
Definition read_file (repository path ref : string) : M (World X) SourceFileEvidence :=
  let! repository := lift (require_read policy repository) in
  let! path := lift (normalize_path path) in
  let! payload := request "GET" (contents_path repository path) (JObj [("ref", JStr ref)]) in
  let! content := lift (file_content payload) in
  lift (validated "SourceFileEvidence" SourceFileEvidence_valid
    {| sfe_repository := repository; sfe_path := path; sfe_ref := ref; sfe_content := content;
       sfe_sha := py_str <$> get_truthy "sha" payload |}).

Definition update_file (repository path branch message content : string)
    (expected_blob_sha : option string) : M (World X) string :=
  let! '(repository, path) := lift (require_path_write policy repository path) in
  let expected := match expected_blob_sha with
                  | Some s => if truthy_str s then Some s else None | None => None end in
  do! match expected with Some s => lift (require_sha s) | None => ret tt end;
  let! payload := request "PUT" (contents_path repository path)
                    (file_body branch message content expected) in
  match dict_get "sha" (sub_object "commit" payload) with
  | Some (JStr sha) => ret sha
  | _ => raise (response_invalid "GitHub write response is invalid")
  end.

Definition branch_body (branch from_sha : string) : json :=
  JObj [("ref", JStr ("refs/heads/" +:+ branch)); ("sha", JStr from_sha)].

Definition create_branch (repository branch from_sha : string) : M (World X) unit :=
  let! repository := lift (require_pull_request policy repository) in
  do! lift (require_branch branch);
  do! lift (require_sha from_sha);
  do! request "POST" ("/repos/" +:+ repository +:+ "/git/refs") (branch_body branch from_sha);
  ret tt.

Definition newline : string := String.String "010" EmptyString.
Definition MARKER : string := "Created by CloudWard".

Definition pull_body (c : GitHubPRContent) : json :=
  let body := redact_text c.(gpc_body) in
  let body := if contains MARKER body then body else MARKER +:+ newline +:+ newline +:+ body in
  JObj [("title", JStr (redact_text c.(gpc_title))); ("body", JStr body);
        ("head", JStr c.(gpc_head)); ("base", JStr c.(gpc_base)); ("draft", JBool c.(gpc_draft))].

Definition create_pull_request (repository : string) (content : GitHubPRContent)
  : M (World X) GitHubPullRequestResult :=
  let! repository := lift (require_pull_request policy repository) in
  let! payload := request "POST" ("/repos/" +:+ repository +:+ "/pulls") (pull_body content) in
  let! number := lift (positive_int (dict_get "number" payload)) in
  ret {| gpr_repository := repository; gpr_number := number; gpr_url := html_url payload;
         gpr_head := content.(gpc_head); gpr_base := content.(gpc_base) |}.
End client.

(** ** Source correlation ([service.py]) *)

(** [scalar_one_or_none] on a table that is a list. *)
Definition one_or_none {A} (l : list A) : res (option A) :=
  match l with
  | [] => Ok None
  | [a] => Ok (Some a)
  | _ => Raise (PyError "MultipleResultsFound" "scalar_one_or_none")
  end.

Section services.
Context {X : Type} `{!Runtime X} `{!GitHubServer X}.
Context (policy : GitHubAutomationPolicy).

(** [SourceCorrelationService.correlate]. *)
Definition correlate (r : SourceCorrelationRequest) : M (World X) SourceCorrelationEvidence :=
  let! running := read_commit policy r.(scr_repository) r.(scr_running_commit) in
  let! comparison := compare_commits policy r.(scr_repository) r.(scr_previous_healthy_commit)
                       r.(scr_running_commit) in
  ret {| sce_repository := running.(cme_repository); sce_running_commit := running;
         sce_previous_healthy_commit := r.(scr_previous_healthy_commit);
         sce_comparison := comparison; sce_branch := r.(scr_branch);
         sce_image_digest := r.(scr_image_digest) |}.

Definition source_reference (e : SourceCorrelationEvidence) : string :=
  "github://" +:+ e.(sce_repository) +:+ "/compare/" +:+ e.(sce_previous_healthy_commit) +:+
  "..." +:+ e.(sce_running_commit).(cme_sha).

Definition same_source (incident_id : uuid) (reference : string) (s : EvidenceSnapshot) : bool :=
  bool_decide (s.(evd_incident_id) = incident_id) &&
  bool_decide (s.(evd_evidence_type) = GIT_CHANGE) &&
  bool_decide (s.(evd_reference) = Some reference).

Definition source_snapshot (id : uuid) (now : datetime) (incident : Incident) (reference actor : string)
    (e : SourceCorrelationEvidence) : EvidenceSnapshot :=
  let sha := e.(sce_running_commit).(cme_sha) in
  {| evd_id := id; evd_incident_id := incident.(inc_id); evd_created_at := now;
     evd_correlation_id := incident.(inc_correlation_id); evd_evidence_type := GIT_CHANGE;
     evd_summary := "Bounded comparison of running " +:+ str_take 12 sha +:+
       " against previous healthy " +:+ str_take 12 e.(sce_previous_healthy_commit) +:+
       "; correlation is not proof";
     evd_reference := Some reference; evd_query := None; evd_window_start := None;
     evd_window_end := None; evd_phase := PHASE_INCIDENT;
     evd_payload := JObj
       [("repository", JStr e.(sce_repository)); ("commit", JStr sha);
        ("previous_commit", JStr e.(sce_previous_healthy_commit));
        ("branch", JOptStr e.(sce_branch)); ("image_digest", JOptStr e.(sce_image_digest));
        ("commit_message", JStr e.(sce_running_commit).(cme_message));
        ("files", JArr (map FileDiffEvidence_dump e.(sce_comparison).(cmp_files)));
        ("truncated", JBool e.(sce_comparison).(cmp_truncated)); ("caveat", JStr CAVEAT)];
     evd_collected_by := actor |}.

Definition source_details (e : SourceCorrelationEvidence) : dict :=
  [("repository", JStr e.(sce_repository));
   ("running_commit", JStr e.(sce_running_commit).(cme_sha));
   ("previous_healthy_commit", JStr e.(sce_previous_healthy_commit));
   ("files_returned", JInt (Z.of_nat (length e.(sce_comparison).(cmp_files))));
   ("truncated", JBool e.(sce_comparison).(cmp_truncated));
   ("correlation_is_not_causation", JBool true)].

(** [IncidentSourceCorrelationService.correlate_and_store]. *)
Definition correlate_and_store (incident_id : uuid) (r : SourceCorrelationRequest)
    (actor : string) : M (World X) SourceCorrelationEvidence :=
  let! evidence := correlate r in
  let reference := source_reference evidence in
  let! incident := the_incident incident_id in
  let! rows := query (λ db,
    List.filter (same_source incident.(inc_id) reference) db.(evidence_snapshots)) in
  let! existing := lift (one_or_none rows) in
  match existing with
  | Some _ => ret evidence
  | None =>
      let! id := uuid4 in
      let! now := utc_now in
      do! update_db (upd_evidence_snapshots (λ l, l ++
            [source_snapshot id now incident reference actor evidence]));
      do! record_audit "GIT_EVIDENCE_COLLECTED" incident.(inc_correlation_id)
            (Some incident.(inc_id)) actor ACTOR_SERVICE None None None None "SUCCEEDED"
            (source_details evidence);
      do! append_stream_event "incident.source_correlated" (Some incident.(inc_id))
            (source_details evidence);
      do! flush;
      ret evidence
  end.

(** ** Metadata of a deployment *)

Definition REPOSITORY_KEYS : list string :=
  ["cloudward.io/source-repository"; "github_repository"; "repository"].
Definition RUNNING_KEYS : list string :=
  ["cloudward.io/running-commit"; "running_commit"; "commit_sha"; "revision"].
Definition PREVIOUS_KEYS : list string :=
  ["cloudward.io/previous-healthy-commit"; "previous_healthy_commit"; "previous_commit_sha"].
Definition BRANCH_KEYS : list string := ["cloudward.io/source-branch"; "branch"].
Definition DIGEST_KEYS : list string := ["cloudward.io/image-digest"; "image_digest"].
Definition SOURCE_METADATA_KEYS : list string :=
  REPOSITORY_KEYS ++ RUNNING_KEYS ++ PREVIOUS_KEYS ++ BRANCH_KEYS ++ DIGEST_KEYS.

(** [_first_metadata]. *)
Fixpoint first_metadata (values : list (string * string)) (keys : list string) : option string :=
  match keys with
  | [] => None
  | k :: keys =>
      match dict_get k values with
      | Some v => if truthy_str (str_strip v) then Some (str_strip v)
                  else first_metadata values keys
      | None => first_metadata values keys
      end
  end.

Definition source_request_from_metadata (labels annotations : list (string * string))
  : res (option SourceCorrelationRequest) :=
  let values := dict_update annotations labels in
  if negb (existsb (λ k, dict_has k values) SOURCE_METADATA_KEYS) then Ok None
  else
    match first_metadata values REPOSITORY_KEYS, first_metadata values RUNNING_KEYS,
          first_metadata values PREVIOUS_KEYS with
    | Some repository, Some running, Some previous =>
        let r := {| scr_repository := repository; scr_running_commit := running;
                    scr_previous_healthy_commit := previous;
                    scr_branch := first_metadata values BRANCH_KEYS;
                    scr_image_digest := first_metadata values DIGEST_KEYS |} in
        if SourceCorrelationRequest_valid r then Ok (Some r)
        else Raise (cw_error_status "GITHUB_SOURCE_METADATA_INVALID"
                      "Source correlation metadata is invalid" 422)
    | _, _, _ =>
        Raise (cw_error_status "GITHUB_SOURCE_METADATA_INCOMPLETE"
          "Source correlation metadata requires repository, running commit, and previous healthy commit"
          422)
    end.

(** ** Issues *)

Definition find_record (dedupe_key : string) (db : Database) : option GitHubAutomationRecord :=
  select_one (λ r, String.eqb r.(gar_dedupe_key) dedupe_key) db.(github_records).

(** [existing and existing.external_number and existing.external_url]. *)
Definition bound_reference (existing : option GitHubAutomationRecord)
  : option (GitHubAutomationRecord * Z * string) :=
  match existing with
  | Some r =>
      match r.(gar_external_number), r.(gar_external_url) with
      | Some n, Some u => if negb (n =? 0) && truthy_str u then Some (r, n, u) else None
      | _, _ => None
      end
  | None => None
  end.

Definition unique_key (key : string) (t : gmap uuid GitHubAutomationRecord) : bool :=
  negb (existsb (λ r, String.eqb r.(gar_dedupe_key) key) (rows t)).

Definition issue_key (incident_id : uuid) (repository : string) : string :=
  sha256_hex ("incident-issue:" +:+ uuid_str incident_id +:+ ":" +:+ repository).

Definition set_github_record := assign (X:=X) upd_github_records.

(** The attributes assigned after the issue was opened. *)
Definition bind_issue (issue : GitHubIssueResult) (content : GitHubIssueContent)
    (r : GitHubAutomationRecord) : GitHubAutomationRecord :=
  set_gar_details [("labels", JStrs (map (λ l, str_take 50 (redact_text l)) content.(gic_labels)))]
  (set_gar_summary (Some (str_take 2000 (redact_text content.(gic_body))))
  (set_gar_title (Some (str_take 255 (redact_text issue.(gir_title))))
  (set_gar_status "CREATED"
  (set_gar_external_url (Some issue.(gir_url))
  (set_gar_external_number (Some issue.(gir_number)) r))))).

(** The record of the issue: the one already there, or a new one. *)
Definition store_issue (existing : option GitHubAutomationRecord) (key : string)
    (incident_id : uuid) (issue : GitHubIssueResult) (content : GitHubIssueContent)
  : M (World X) unit :=
  match existing with
  | Some r => set_github_record r.(gar_id) (bind_issue issue content)
  | None =>
      let! id := uuid4 in
      let! now := utc_now in
      insert_row github_records upd_github_records (unique_key key) id
        (bind_issue issue content
           {| gar_id := id; gar_created_at := now; gar_dedupe_key := key;
              gar_incident_id := Some incident_id; gar_operation := "ISSUE";
              gar_repository := issue.(gir_repository); gar_external_number := None;
              gar_external_url := None; gar_status := ""; gar_title := None;
              gar_summary := None; gar_details := [] |})
  end.

Definition GitHubIssueResult_valid (r : GitHubIssueResult) : bool := 1 <=? r.(gir_number).
Definition GitHubPullRequestResult_valid (r : GitHubPullRequestResult) : bool :=
  1 <=? r.(gpr_number).

(** [GitHubIssueService.create_once]: the issue, and whether it was created. *)
Definition create_issue_once (incident_id : uuid) (correlation_id repository : string)
    (content : GitHubIssueContent) : M (World X) (GitHubIssueResult * bool) :=
  let! repository := lift (require_issue_write policy repository) in
  let key := issue_key incident_id repository in
  let! existing := query (find_record key) in
  match bound_reference existing with
  | Some (r, n, u) =>
      let! issue := lift (validated "GitHubIssueResult" GitHubIssueResult_valid
        {| gir_repository := r.(gar_repository); gir_number := n; gir_url := u;
           gir_title := opt_str_or r.(gar_title) "CloudWard incident" |}) in
      ret (issue, false)
  | None =>
      let! issue := create_issue policy repository content in
      do! store_issue existing key incident_id issue content;
      do! flush;
      do! record_audit_system "GITHUB_ISSUE_CREATED" correlation_id (Some incident_id)
            (Some "CREATE_GITHUB_ISSUE") None "SUCCEEDED"
            [("repository", JStr issue.(gir_repository));
             ("issue_number", JInt issue.(gir_number)); ("issue_url", JStr issue.(gir_url));
             ("dedupe_key", JStr key)];
      ret (issue, true)
  end.

(** ** Proposed changes *)

Definition fenced (title : string) (value : json) : string :=
  title +:+ ":" +:+ newline +:+ "```json" +:+ newline +:+ str_take 3000 (dumps_spaced value) +:+
  newline +:+ "```".

(** [_change_pr_body]. *)
Definition change_pr_body (subject_id : uuid) (operation : string)
    (r : GitHubChangeProposalRequest) : string :=
  join (newline +:+ newline)
    ["Created by CloudWard";
     "Automation: `" +:+ str_take 64 (redact_text operation) +:+ "`";
     "Subject ID: `" +:+ uuid_str subject_id +:+ "`";
     "Reason: " +:+ str_take 2000 (redact_text r.(gcr_reason));
     fenced "Current state" (redact (JObj r.(gcr_current_state)));
     fenced "Proposed state" (redact (JObj r.(gcr_proposed_state)));
     "Risk: " +:+ str_of_Z r.(gcr_risk_score) +:+ "/100";
     fenced "Evidence" (redact (JObj r.(gcr_evidence)));
     "Verification plan: " +:+ redact_text r.(gcr_verification_plan);
     "Rollback plan: " +:+ redact_text r.(gcr_rollback_plan);
     "CloudWard made no direct persistent change; merge remains a human decision."].

Definition change_key (operation : string) (subject_id : uuid) (repository path : string) : string :=
  sha256_hex ("change-pr:" +:+ operation +:+ ":" +:+ uuid_str subject_id +:+ ":" +:+
              repository +:+ ":" +:+ path).

Definition change_content (subject_id : uuid) (operation : string)
    (r : GitHubChangeProposalRequest) : GitHubPRContent :=
  {| gpc_title := r.(gcr_title); gpc_body := change_pr_body subject_id operation r;
     gpc_head := r.(gcr_head); gpc_base := r.(gcr_base); gpc_draft := r.(gcr_draft) |}.

(** The answer from a stored record. *)
Definition recorded_change (subject_id : uuid) (path : string) (r : GitHubChangeProposalRequest)
    (record : GitHubAutomationRecord) (number : Z) (url : string)
  : res GitHubChangeProposalResponse :=
  let commit_sha := str_get "commit_sha" "" record.(gar_details) in
  if negb (truthy_str commit_sha) then
    Raise (cw_error_status "GITHUB_AUTOMATION_RECORD_INVALID"
             "Stored GitHub automation record is incomplete" 500)
  else
    res_bind (validated "GitHubPullRequestResult" GitHubPullRequestResult_valid
      {| gpr_repository := record.(gar_repository); gpr_number := number; gpr_url := url;
         gpr_head := str_get "head" r.(gcr_head) record.(gar_details);
         gpr_base := str_get "base" r.(gcr_base) record.(gar_details) |}) (λ pull,
    Ok {| gcp_subject_id := uuid_str subject_id; gcp_path := path; gcp_commit_sha := commit_sha;
          gcp_pull_request := pull; gcp_created := false |}).

Definition change_record (id : uuid) (now : datetime) (key : string) (subject_id : uuid)
    (operation : string) (incident_id : option uuid) (path commit_sha : string)
    (r : GitHubChangeProposalRequest) (content : GitHubPRContent)
    (pull : GitHubPullRequestResult) : GitHubAutomationRecord :=
  {| gar_id := id; gar_created_at := now; gar_dedupe_key := key; gar_incident_id := incident_id;
     gar_operation := str_take 32 operation; gar_repository := pull.(gpr_repository);
     gar_external_number := Some pull.(gpr_number); gar_external_url := Some pull.(gpr_url);
     gar_status := "CREATED"; gar_title := Some content.(gpc_title);
     gar_summary := Some (str_take 2000 (redact_text content.(gpc_body)));
     gar_details := [("subject_id", JStr (uuid_str subject_id)); ("path", JStr path);
                     ("head", JStr r.(gcr_head)); ("base", JStr r.(gcr_base));
                     ("commit_sha", JStr commit_sha)] |}.

(** The branch, the file and the pull request. *)
Definition publish_change (subject_id : uuid) (operation repository path : string)
    (r : GitHubChangeProposalRequest)
  : M (World X) (string * GitHubPRContent * GitHubPullRequestResult) :=
  do! create_branch policy repository r.(gcr_head) r.(gcr_base_commit_sha);
  let! commit_sha := update_file policy repository path r.(gcr_head) r.(gcr_commit_message)
                       r.(gcr_proposed_content) r.(gcr_expected_blob_sha) in
  let! content := lift (validated "GitHubPRContent" GitHubPRContent_valid
                          (change_content subject_id operation r)) in
  let! pull := create_pull_request policy repository content in
  ret (commit_sha, content, pull).

(** [GitHubChangeProposalService.create_once]. *)
Definition propose_change (subject_id : uuid) (operation correlation_id : string)
    (incident_id : option uuid) (r : GitHubChangeProposalRequest)
  : M (World X) GitHubChangeProposalResponse :=
  let! '(repository, path) := lift (require_path_write policy r.(gcr_repository) r.(gcr_path)) in
  let key := change_key operation subject_id repository path in
  let! existing := query (find_record key) in
  match bound_reference existing with
  | Some (record, n, u) => lift (recorded_change subject_id path r record n u)
  | None =>
      let! '(commit_sha, content, pull) := publish_change subject_id operation repository path r in
      let! id := uuid4 in
      let! now := utc_now in
      do! insert_row github_records upd_github_records (unique_key key) id
            (change_record id now key subject_id operation incident_id path commit_sha r content pull);
      do! record_audit_system "GITHUB_PR_CREATED" correlation_id incident_id
            (Some "CREATE_GITOPS_PR") (Some r.(gcr_risk_score)) "SUCCEEDED"
            [("subject_id", JStr (uuid_str subject_id)); ("operation", JStr operation);
             ("repository", JStr repository); ("path", JStr path);
             ("commit_sha", JStr commit_sha); ("pull_request_number", JInt pull.(gpr_number));
             ("pull_request_url", JStr pull.(gpr_url)); ("direct_change", JBool false)];
      do! flush;
      ret {| gcp_subject_id := uuid_str subject_id; gcp_path := path;
             gcp_commit_sha := commit_sha; gcp_pull_request := pull; gcp_created := true |}
  end.
End services.
