(* ===== verification/GitHubRuns.v ===== *)
(** * What the GitHub App does

    The requests of the client stay inside the allowlists, a proposed change is a
    branch, a file on it and a pull request, and it is proposed once. *)

From S2P Require Import Prelude PyFloat Json JsonRound Sha256 Effects Actions StateMachine Models.
From S2P Require Import World Redaction Config AuditLog History Memory AiContext Encoding.
From S2P Require Import GitHubPolicy GitHub.

(** ** Normalized repositories *)

Lemma lower_app a b : lower (a +:+ b) = lower a +:+ lower b.
Proof. induction a as [|c a IH]; [done|]. by apply (f_equal (String.String (to_lower c))). Qed.

Lemma lower_rev s : lower (str_rev s) = str_rev (lower s).
Proof.
  induction s as [|c s IH]; [done|]. rewrite str_rev_cons, lower_app, IH. simpl.
  by rewrite str_rev_cons.
Qed.

Lemma to_lower_idem c : to_lower (to_lower c) = to_lower c.
Proof. by destruct c as [[] [] [] [] [] [] [] []]. Qed.

Lemma to_lower_repository c : repository_char c = true → repository_char (to_lower c) = true.
Proof. by destruct c as [[] [] [] [] [] [] [] []]; vm_compute. Qed.

Lemma repository_not_blank c : repository_char c = true → negb (is_blank c) = true.
Proof. by destruct c as [[] [] [] [] [] [] [] []]; vm_compute. Qed.

Lemma lower_idem s : lower (lower s) = lower s.
Proof. induction s as [|c s IH]; simpl; [done|]. by rewrite to_lower_idem, IH. Qed.

Lemma split_slash_lower s acc :
  split_slash_aux (lower s) (lower acc) = map lower (split_slash_aux s acc).
Proof.
  revert acc. induction s as [|c s IH]; intros acc; simpl; [by rewrite lower_rev|].
  pose proof (IH (String.String c acc)) as Hacc. pose proof (IH EmptyString) as Hnil.
  simpl in Hacc, Hnil. rewrite <- lower_rev.
  by destruct c as [[] [] [] [] [] [] [] []]; simpl; rewrite ?Hacc, ?Hnil.
Qed.

Lemma str_forallb_lower s :
  str_forallb repository_char s = true → str_forallb repository_char (lower s) = true.
Proof.
  induction s as [|c s IH]; simpl; [done|]. rewrite !andb_true_iff. intros [Hc Hs].
  by rewrite to_lower_repository, IH.
Qed.

Lemma truthy_lower s : truthy_str (lower s) = truthy_str s.
Proof. by destruct s. Qed.

Lemma REPOSITORY_PATTERN_lower s : REPOSITORY_PATTERN s = true → REPOSITORY_PATTERN (lower s) = true.
Proof.
  unfold REPOSITORY_PATTERN, split_slash. pose proof (split_slash_lower s EmptyString) as Hl.
  simpl lower in Hl. rewrite Hl.
  destruct (split_slash_aux s _) as [|owner [|name [|]]]; try done. simpl.
  rewrite !truthy_lower, !andb_true_iff. intros [[[-> ->] Ho] Hn].
  by rewrite !str_forallb_lower.
Qed.

Lemma drop_blank_id s : str_forallb (λ c, negb (is_blank c)) s = true → drop_blank s = s.
Proof.
  destruct s as [|c s]; [done|]. simpl. rewrite andb_true_iff, negb_true_iff. by intros [-> _].
Qed.

Lemma str_strip_id s : str_forallb (λ c, negb (is_blank c)) s = true → str_strip s = s.
Proof.
  intros Hs. unfold str_strip. rewrite (drop_blank_id s) by done.
  rewrite drop_blank_id by (by rewrite str_forallb_rev). apply str_rev_involutive.
Qed.

(** The parts of a text, joined again. *)
Lemma split_slash_aux_join s acc :
  join "/" (split_slash_aux s acc) = str_rev acc +:+ s ∧ split_slash_aux s acc ≠ [].
Proof.
  revert acc. induction s as [|c s IH]; intros acc; [by rewrite app_nil_r_str|].
  assert (join "/" (split_slash_aux s (String.String c acc)) = str_rev acc +:+ String.String c s ∧
          split_slash_aux s (String.String c acc) ≠ []) as Hc.
  { destruct (IH (String.String c acc)) as [-> ?]. by rewrite str_rev_cons, app_assoc_str. }
  assert (c = "/"%char → join "/" (str_rev acc :: split_slash_aux s EmptyString)
          = str_rev acc +:+ String.String c s) as Hslash.
  { intros ->. destruct (IH EmptyString) as [Hj Hn].
    destruct (split_slash_aux s EmptyString) as [|q l]; [done|].
    change (join "/" (str_rev acc :: q :: l)) with (str_rev acc +:+ "/" +:+ join "/" (q :: l)).
    by rewrite Hj. }
  by destruct c as [[] [] [] [] [] [] [] []]; first [exact Hc|split; [apply Hslash|]].
Qed.

Lemma repository_no_blank s : REPOSITORY_PATTERN s = true →
  str_forallb (λ c, negb (is_blank c)) s = true.
Proof.
  unfold REPOSITORY_PATTERN, split_slash. pose proof (split_slash_aux_join s EmptyString) as [Hj _].
  destruct (split_slash_aux s _) as [|owner [|name [|]]]; try done.
  rewrite !andb_true_iff. intros [[_ Ho] Hn]. change (str_rev "") with "" in Hj.
  rewrite <- (app_nil_str s), <- Hj.
  change (join "/" [owner; name]) with (owner +:+ "/" +:+ name). rewrite !str_forallb_app.
  assert (∀ q, str_forallb repository_char q = true →
               str_forallb (λ c, negb (is_blank c)) q = true) as Hq.
  { induction q as [|c q IH]; simpl; [done|]. rewrite !andb_true_iff. intros [Hc Hr].
    split; [by apply repository_not_blank|by apply IH]. }
  by rewrite (Hq _ Ho), (Hq _ Hn).
Qed.

Lemma normalize_repository_idem v r : normalize_repository v = Ok r → normalize_repository r = Ok r.
Proof.
  unfold normalize_repository at 1. destruct (REPOSITORY_PATTERN (str_strip v)) eqn:Hp; [|done].
  intros [= <-]. apply REPOSITORY_PATTERN_lower in Hp. unfold normalize_repository.
  rewrite str_strip_id by (by apply repository_no_blank). by rewrite Hp, lower_idem.
Qed.

(** ** The requests of the client *)

Section requests.
Context {X : Type} `{!Runtime X} `{!GitHubServer X}.
Context (policy : GitHubAutomationPolicy).

(** A read of a readable repository, an issue of an issue repository, or a branch, a
    pull request or a file of a repository with writable paths, on such a path. *)
Inductive allowed_request : call → Prop :=
| request_read r rest body :
    r ∈ policy.(read_repositories) →
    allowed_request (CallGitHub "GET" ("/repos/" +:+ r +:+ "/" +:+ rest) body)
| request_issue r body :
    r ∈ policy.(issue_repositories) →
    allowed_request (CallGitHub "POST" ("/repos/" +:+ r +:+ "/issues") body)
| request_reference r kind body :
    r ∈ map fst policy.(write_paths) → kind ∈ ["/git/refs"; "/pulls"] →
    allowed_request (CallGitHub "POST" ("/repos/" +:+ r +:+ kind) body)
| request_file r p body :
    writable_path policy r p → allowed_request (CallGitHub "PUT" (contents_path r p) body).

(** Nothing but the trace changes, by allowed requests. *)
Definition asks : relation (World X) := λ w w',
  w'.(work) = w.(work) ∧ w'.(committed) = w.(committed) ∧ w'.(metrics) = w.(metrics) ∧
  log_extends allowed_request w.(trace) w'.(trace).

#[global] Instance asks_evolution : Evolution asks.
Proof.
  split; [intros w; by split_and!|].
  intros w1 w2 w3 (? & ? & ? & ?) (? & ? & ? & ?). split_and!; [congruence..|by etrans].
Qed.

Lemma request_asks method path body :
  allowed_request (CallGitHub method path body) → evolves asks (request (X:=X) method path body).
Proof.
  intros Hr. unfold request. repeat evolve_step; intros w; split_and!; try done.
  by apply log_extends_snoc.
Qed.

Ltac asks_tac :=
  repeat first
    [ apply evolves_lift_bind; [tc_solve|intros] | apply request_asks | evolve_step ].

Lemma read_commit_asks repository sha : evolves asks (read_commit (X:=X) policy repository sha).
Proof.
  unfold read_commit. asks_tac.
  by eapply (request_read _ (_ +:+ _)), (require_listed_ok _ _ _ _ ltac:(eassumption)).
Qed.

Lemma compare_commits_asks repository base head :
  evolves asks (compare_commits (X:=X) policy repository base head).
Proof.
  unfold compare_commits. asks_tac.
  by eapply (request_read _ (_ +:+ _)), (require_listed_ok _ _ _ _ ltac:(eassumption)).
Qed.

Lemma read_file_asks repository path ref :
  evolves asks (read_file (X:=X) policy repository path ref).
Proof.
  unfold read_file, contents_path. asks_tac.
  by eapply (request_read _ (_ +:+ _)), (require_listed_ok _ _ _ _ ltac:(eassumption)).
Qed.

Lemma create_issue_asks repository content :
  evolves asks (create_issue (X:=X) policy repository content).
Proof.
  unfold create_issue. asks_tac.
  by eapply request_issue, (require_listed_ok _ _ _ _ ltac:(eassumption)).
Qed.

Lemma create_branch_asks repository branch sha :
  evolves asks (create_branch (X:=X) policy repository branch sha).
Proof.
  unfold create_branch. asks_tac.
  eapply request_reference; [by eapply (require_listed_ok _ _ _ _ ltac:(eassumption))|by left].
Qed.

Lemma create_pull_request_asks repository content :
  evolves asks (create_pull_request (X:=X) policy repository content).
Proof.
  unfold create_pull_request. asks_tac.
  eapply request_reference; [by eapply (require_listed_ok _ _ _ _ ltac:(eassumption))|].
  by right; left.
Qed.

Lemma update_file_asks repository path branch message content sha :
  evolves asks (update_file (X:=X) policy repository path branch message content sha).
Proof.
  unfold update_file. asks_tac. by eapply request_file, require_path_write_ok.
Qed.

(** One call of any operation of the client, with any arguments. *)
Inductive client_step : relation (World X) :=
| gh_read_commit r s w : client_step w (read_commit policy r s w).2
| gh_compare r b h w : client_step w (compare_commits policy r b h w).2
| gh_read_file r p ref w : client_step w (read_file policy r p ref w).2
| gh_issue r c w : client_step w (create_issue policy r c w).2
| gh_branch r b s w : client_step w (create_branch policy r b s w).2
| gh_file r p b m c s w : client_step w (update_file policy r p b m c s w).2
| gh_pull r c w : client_step w (create_pull_request policy r c w).2.

(** C16: no sequence of operations of the GitHub client, whatever its arguments and
    whatever GitHub answers, sends a request outside the allowlists: it reads only
    readable repositories, opens issues only where issues are allowed, makes branches
    and pull requests only in repositories with writable paths, and writes a file
    only under a path in normal form that one of the repository's patterns matches.
    Nothing it sends merges or deletes, and it touches neither the database nor the
    metrics. *)
Theorem client_confined (w w' : World X) :
  rtc client_step w w' →
  w'.(work) = w.(work) ∧ w'.(committed) = w.(committed) ∧ w'.(metrics) = w.(metrics) ∧
  ∃ new, w'.(trace) = w.(trace) ++ new ∧ Forall allowed_request new.
Proof.
  intros Hsteps. change (asks w w'). induction Hsteps as [w|w w1 w2 Hs _ IH].
  - apply evolves_refl. tc_solve.
  - eapply evolves_trans; [tc_solve| |exact IH]. clear IH.
    destruct Hs; first
      [ apply read_commit_asks | apply compare_commits_asks | apply read_file_asks
      | apply create_issue_asks
      | apply create_branch_asks | apply update_file_asks | apply create_pull_request_asks ].
Qed.
End requests.


(** ** A proposed change *)

Section changes.
Context {X : Type} `{!Runtime X} `{!GitHubServer X}.
Context (policy : GitHubAutomationPolicy).

(** The three requests of a change, in order. *)
Definition change_calls (subject_id : uuid) (operation repository path : string)
    (r : GitHubChangeProposalRequest) : list call :=
  [CallGitHub "POST" ("/repos/" +:+ repository +:+ "/git/refs")
     (branch_body r.(gcr_head) r.(gcr_base_commit_sha));
   CallGitHub "PUT" (contents_path repository path)
     (file_body r.(gcr_head) r.(gcr_commit_message) r.(gcr_proposed_content)
        (match r.(gcr_expected_blob_sha) with
         | Some s => if truthy_str s then Some s else None | None => None end));
   CallGitHub "POST" ("/repos/" +:+ repository +:+ "/pulls")
     (pull_body (change_content subject_id operation r))].

(** A run that sends at most [c], and sends it if it returns. *)
Definition sends {A} (c : call) (m : M (World X) A) : Prop := ∀ w r w', m w = (r, w') →
  asks policy w w' ∧
  match r with
  | Ok _ => w'.(trace) = w.(trace) ++ [c]
  | Raise _ => w'.(trace) = w.(trace) ∨ w'.(trace) = w.(trace) ++ [c]
  end.

Lemma request_sends method path body :
  allowed_request policy (CallGitHub method path body) →
  sends (CallGitHub method path body) (request method path body).
Proof.
  intros Hc w r w' Hrun. split.
  { by apply (evolves_run _ _ _ _ _ (request_asks policy _ _ _ Hc)) in Hrun. }
  revert Hrun. unfold request, external, lift, record_call, modify, bind. simpl.
  destruct (github_token (ext w)).1 as [t|e]; simpl; [|intros [= <- <-]; by left].
  destruct (github_answer _ _ _ _).1 as [[]|]; intros [= <- <-]; simpl; by first [right|idtac].
Qed.

Lemma sends_guard {A B} (g : res A) c (k : A → M (World X) B) :
  (∀ a, g = Ok a → sends c (k a)) → sends c (bind (lift g) k).
Proof.
  intros Hk w r w'. unfold bind, lift. destruct g as [a|e]; [by apply Hk|].
  intros [= <- <-]. split; [apply evolves_refl; tc_solve|by left].
Qed.

(** After the request nothing more is sent. *)
Lemma sends_then {A B} c (m : M (World X) A) (k : A → M (World X) B) :
  sends c m → (∀ a w, ∃ r, k a w = (r, w)) → sends c (bind m k).
Proof.
  intros Hm Hk w r w'. unfold bind. destruct (m w) as [[a|e] w1] eqn:E;
    apply Hm in E as [Ha Ht].
  - destruct (Hk a w1) as [r' ->]. intros [= <- <-]. split; [done|]. destruct r'; [done|by right].
  - by intros [= <- <-].
Qed.

Lemma create_branch_sends repository branch sha :
  normalize_repository repository = Ok repository →
  sends (CallGitHub "POST" ("/repos/" +:+ repository +:+ "/git/refs") (branch_body branch sha))
    (create_branch policy repository branch sha).
Proof.
  intros Hn. unfold create_branch. apply sends_guard. intros a Ha.
  apply require_listed_ok in Ha as [Hin Ha]. rewrite Hn in Ha. injection Ha as <-.
  do 2 (apply sends_guard; intros ? _). apply sends_then; [|intros; by eexists].
  apply request_sends. by eapply request_reference; [|left].
Qed.

Lemma create_pull_request_sends repository content :
  normalize_repository repository = Ok repository →
  sends (CallGitHub "POST" ("/repos/" +:+ repository +:+ "/pulls") (pull_body content))
    (create_pull_request policy repository content).
Proof.
  intros Hn. unfold create_pull_request. apply sends_guard. intros a Ha.
  apply require_listed_ok in Ha as [Hin Ha]. rewrite Hn in Ha. injection Ha as <-.
  apply sends_then.
  - apply request_sends. by eapply request_reference; [|right; left].
  - intros a w. unfold bind, lift. destruct (positive_int _); by eexists.
Qed.

Lemma update_file_sends repository path branch message content expected :
  require_path_write policy repository path = Ok (repository, path) →
  sends (CallGitHub "PUT" (contents_path repository path)
           (file_body branch message content
              (match expected with
               | Some s => if truthy_str s then Some s else None | None => None end)))
    (update_file policy repository path branch message content expected).
Proof.
  intros Hp. unfold update_file. apply sends_guard. intros [r p] Ha. rewrite Hp in Ha.
  injection Ha as <- <-. cbv zeta.
  assert (∀ k : dict → M (World X) string, (∀ a w, ∃ r, k a w = (r, w)) → ∀ o,
    sends (CallGitHub "PUT" (contents_path repository path) (file_body branch message content o))
      (do! match o with Some s => lift (require_sha s) | None => ret tt end;
       bind (request "PUT" (contents_path repository path) (file_body branch message content o)) k))
    as Hsend.
  { intros k Hk o. destruct o as [s|]; [change (sends ?c (bind (lift (require_sha s)) ?k'))
      with (sends c (bind (lift (require_sha s)) k'))|change (ret tt) with (lift (S:=World X) (Ok tt))];
      apply sends_guard; intros ? _; (apply sends_then; [|done]);
      apply request_sends, request_file; by eapply require_path_write_ok. }
  apply Hsend. intros a w. destruct (dict_get _ _) as [[]|]; by eexists.
Qed.

Lemma require_path_write_again v q r p : require_path_write policy v q = Ok (r, p) →
  normalize_repository r = Ok r ∧ require_path_write policy r p = Ok (r, p).
Proof.
  intros Hok. pose proof (require_path_write_ok _ _ _ _ _ Hok) as [[Hnorm _ _ _ _] _]. revert Hok.
  unfold require_path_write. destruct (normalize_repository v) as [n|] eqn:Hn; [|done]. simpl.
  destruct (normalize_path q) as [n'|]; [|done]. simpl. destruct (existsb _ _) eqn:He; [|done].
  intros [= -> ->]. apply normalize_repository_idem in Hn. split; [done|].
  rewrite Hn. simpl. rewrite Hnorm. simpl. by rewrite He.
Qed.

(** The pull request a run returns is of the repository it was asked for. *)
Lemma create_pull_request_result repository content (w w' : World X) pull :
  normalize_repository repository = Ok repository →
  create_pull_request policy repository content w = (Ok pull, w') →
  pull.(gpr_repository) = repository ∧ 1 ≤ pull.(gpr_number) ∧
  pull.(gpr_head) = content.(gpc_head) ∧ pull.(gpr_base) = content.(gpc_base).
Proof.
  intros Hn. unfold create_pull_request. intros Hrun.
  apply bind_ok in Hrun as (r & w1 & [Hr _]%lift_ok & Hrun).
  apply require_listed_ok in Hr as [_ Hr]. rewrite Hn in Hr. injection Hr as <-.
  apply bind_ok in Hrun as (payload & w2 & _ & Hrun).
  apply bind_ok in Hrun as (number & w3 & [Hp _]%lift_ok & Hrun).
  apply ret_ok in Hrun as [-> _]. simpl. split_and!; try done.
  unfold positive_int in Hp. destruct (dict_get _ _) as [[]|]; try done.
  destruct (_ <? 1) eqn:Hlt; [done|]. injection Hp as <-. boolify. lia.
Qed.

(** What publishing sends: the three requests in order, all of them if it returns. *)
Lemma publish_sends subject_id operation repository path r (w w' : World X) res :
  require_path_write policy repository path = Ok (repository, path) →
  publish_change policy subject_id operation repository path r w = (res, w') →
  asks policy w w' ∧
  ∃ l, w'.(trace) = w.(trace) ++ l ∧
       l `prefix_of` change_calls subject_id operation repository path r ∧
       match res with
       | Ok (_, content, pull) =>
           l = change_calls subject_id operation repository path r ∧
           content = change_content subject_id operation r ∧
           pull.(gpr_repository) = repository ∧ 1 ≤ pull.(gpr_number) ∧
           pull.(gpr_head) = r.(gcr_head) ∧ pull.(gpr_base) = r.(gcr_base)
       | Raise _ => True
       end.
Proof.
  intros Hpath. pose proof (require_path_write_again _ _ _ _ Hpath) as [Hn _].
  unfold publish_change, bind, lift, change_calls.
  set (c1 := CallGitHub "POST" (_ +:+ repository +:+ "/git/refs") _).
  set (c2 := CallGitHub "PUT" _ _). set (c3 := CallGitHub "POST" _ (pull_body _)).
  destruct (create_branch _ _ _ _ w) as [[u|e] w1] eqn:E1;
    apply (create_branch_sends _ _ _ Hn) in E1 as [Ha1 Ht1].
  2: { intros [= <- <-]. split; [done|].
       destruct Ht1 as [Ht|Ht]; rewrite Ht; [exists []|exists [c1]]; rewrite ?app_nil_r;
         (split_and!; [done| |done]); [by apply prefix_nil|by exists [c2; c3]]. }
  destruct (update_file _ _ _ _ _ _ _ w1) as [[sha|e] w2] eqn:E2;
    apply (update_file_sends _ _ _ _ _ _ Hpath) in E2 as [Ha2 Ht2];
    (assert (asks policy w w2) as Ha by (eapply evolves_trans; [tc_solve|exact Ha1|exact Ha2])).
  2: { intros [= <- <-]. split; [done|].
       destruct Ht2 as [Ht|Ht]; rewrite Ht, Ht1, <- ?app_assoc; [exists [c1]|exists [c1; c2]];
         (split_and!; [done| |done]); [by exists [c2; c3]|by exists [c3]]. }
  destruct (validated _ _ _) as [content|e] eqn:Hv.
  2: { intros [= <- <-]. split; [done|]. exists [c1; c2]. rewrite Ht2, Ht1, <- app_assoc.
       split_and!; [done|by exists [c3]|done]. }
  assert (content = change_content subject_id operation r) as ->
    by (unfold validated in Hv; by destruct (GitHubPRContent_valid _); [injection Hv as <-|]).
  destruct (create_pull_request _ _ _ w2) as [[pull|e] w3] eqn:E3;
    pose proof E3 as E3'; apply (create_pull_request_sends _ _ Hn) in E3' as [Ha3 Ht3];
    (assert (asks policy w w3) as Hall by (eapply evolves_trans; [tc_solve|exact Ha|exact Ha3])).
  - intros [= <- <-]. split; [done|]. exists [c1; c2; c3]. rewrite Ht3, Ht2, Ht1, <- !app_assoc.
    apply (create_pull_request_result _ _ _ _ _ Hn) in E3 as (? & ? & ? & ?). by split_and!.
  - intros [= <- <-]. split; [done|].
    destruct Ht3 as [Ht|Ht]; rewrite Ht, Ht2, Ht1, <- ?app_assoc;
      [exists [c1; c2]|exists [c1; c2; c3]];
      (split_and!; [done| |done]); [by exists [c3]|done].
Qed.

(** The record of a change is found again. *)
Definition change_of (key : string) (url commit_sha : string) (pull : GitHubPullRequestResult)
    (r : GitHubAutomationRecord) : Prop :=
  r.(gar_dedupe_key) = key ∧ r.(gar_external_number) = Some pull.(gpr_number) ∧
  r.(gar_external_url) = Some url ∧ r.(gar_repository) = pull.(gpr_repository) ∧
  dict_get "commit_sha" r.(gar_details) = Some (JStr commit_sha) ∧
  dict_get "head" r.(gar_details) = Some (JStr pull.(gpr_head)) ∧
  dict_get "base" r.(gar_details) = Some (JStr pull.(gpr_base)).

Lemma find_record_inserted key id r (t : gmap uuid GitHubAutomationRecord) db :
  unique_key key t = true → t !! id = None → r.(gar_dedupe_key) = key →
  db.(github_records) = <[id := r]> t → find_record key db = Some r.
Proof.
  intros Hu Hid Hkey Hdb. unfold find_record. rewrite Hdb.
  apply select_one_insert; [|done|by rewrite Hkey, String.eqb_refl].
  apply select_one_None. intros id' r' Hr'. unfold unique_key in Hu.
  destruct (String.eqb _ key) eqn:Hk; [|done]. apply negb_true_iff in Hu.
  enough (existsb (λ r, String.eqb r.(gar_dedupe_key) key) (rows t) = true) by congruence.
  apply existsb_elem_of. exists r'. split; [|done]. apply elem_of_rows. by exists id'.
Qed.

(** A proposal that returns either answers from the record, changing nothing, or has
    sent the three requests and stored the record. *)
Lemma propose_run subject_id operation correlation_id incident_id r (w w' : World X) resp :
  propose_change policy subject_id operation correlation_id incident_id r w = (Ok resp, w') →
  ∃ repository path,
    require_path_write policy r.(gcr_repository) r.(gcr_path) = Ok (repository, path) ∧
    resp.(gcp_path) = path ∧
    let key := change_key operation subject_id repository path in
    if resp.(gcp_created) then
      w'.(trace) = w.(trace) ++ change_calls subject_id operation repository path r ∧
      bound_reference (find_record key w.(work)) = None ∧
      resp.(gcp_pull_request).(gpr_head) = r.(gcr_head) ∧
      resp.(gcp_pull_request).(gpr_base) = r.(gcr_base) ∧
      resp.(gcp_pull_request).(gpr_repository) = repository ∧
      1 ≤ resp.(gcp_pull_request).(gpr_number) ∧
      ∃ record, find_record key w'.(work) = Some record ∧
        change_of key resp.(gcp_pull_request).(gpr_url) resp.(gcp_commit_sha)
          resp.(gcp_pull_request) record
    else w' = w ∧ ∃ record n u,
      bound_reference (find_record key w.(work)) = Some (record, n, u) ∧
      recorded_change subject_id path r record n u = Ok resp.
Proof.
  unfold propose_change. intros Hrun.
  apply bind_ok in Hrun as ([repository path] & w1 & [Hp ->]%lift_ok & Hrun).
  exists repository, path. split; [done|]. cbv zeta in *.
  apply bind_ok in Hrun as (o & w1 & Hq & Hrun). injection Hq as <- <-.
  destruct (bound_reference _) as [[[record n] u]|] eqn:Hb.
  - apply lift_ok in Hrun as [Hr ->]. pose proof Hr as Hr'. unfold recorded_change in Hr'.
    destruct (negb _) in Hr'; [done|]. destruct (validated _ _ _) in Hr'; [|done].
    injection Hr' as <-. split; [done|]. split; [done|]. by exists record, n, u.
  - apply bind_ok in Hrun as ([[sha content] pull] & w1 & Hpub & Hrun).
    apply (require_path_write_again) in Hp as [_ Hp].
    apply (publish_sends _ _ _ _ _ _ _ _ Hp) in Hpub as
      ((_ & _ & _ & _) & l & Ht & _ & -> & -> & Hrepo & Hnum & Hhead & Hbase).
    apply bind_ok in Hrun as (id & w2 & Hid & Hrun). injection Hid as _ <-.
    apply bind_ok in Hrun as (now & w3 & Hnow & Hrun). injection Hnow as _ <-.
    apply bind_ok in Hrun as (? & w4 & (Hnew & Hok & ->)%insert_row_ok & Hrun).
    apply bind_ok in Hrun as (? & w5 & Haudit & Hrun).
    apply bind_ok in Hrun as (? & w6 & Hf & Hrun). injection Hf as _ <-.
    apply ret_ok in Hrun as [-> ->]. cbn [gcp_path gcp_created gcp_pull_request gcp_commit_sha].
    split; [done|]. split_and!; try done.
    + apply (evolves_run same_trace _ _ _ _ (record_audit_system_trace _ _ _ _ _ _ _)) in Haudit.
      unfold same_trace, stable in Haudit. rewrite Haudit. simpl. exact Ht.
    + match type of Haudit with _ ?w4 = _ =>
        assert (same_db github_records w4 w5) as Hsame
          by (eapply (evolves_run (same_db github_records)); [|exact Haudit]; evolve) end.
      eexists. split.
      * by eapply (find_record_inserted _ id); [exact Hok|exact Hnew| |exact Hsame].
      * unfold change_of. rewrite Hhead, Hbase. by split_and!.
Qed.

(** What a proposal sends, however it ends. *)
Lemma propose_sends subject_id operation correlation_id incident_id r (w w' : World X) res :
  propose_change policy subject_id operation correlation_id incident_id r w = (res, w') →
  ∃ l, w'.(trace) = w.(trace) ++ l ∧
    (l = [] ∨ ∃ repository path,
       writable_path policy repository path ∧ repository ∈ map fst policy.(write_paths) ∧
       l `prefix_of` change_calls subject_id operation repository path r).
Proof.
  intros Hrun. unfold propose_change in Hrun.
  destruct (require_path_write policy (gcr_repository r) (gcr_path r)) as [[repository path]|e] eqn:Hp.
  2: { injection Hrun as _ <-. exists []. rewrite app_nil_r. auto. }
  rewrite (bind_step _ _ w (repository, path) w eq_refl) in Hrun.
  rewrite (bind_step (query _) _ _ _ _ eq_refl) in Hrun.
  destruct (bound_reference _) as [[[record n] u]|].
  { injection Hrun as _ <-. exists []. rewrite app_nil_r. auto. }
  pose proof (require_path_write_ok _ _ _ _ _ Hp) as Hwrite.
  assert (repository ∈ map fst policy.(write_paths)) as Hrepo.
  { destruct Hwrite as (_ & l & Hl & _).
    destruct (decide (repository ∈ map fst policy.(write_paths))) as [?|Hn]; [done|].
    apply dict_get_None in Hn. congruence. }
  apply require_path_write_again in Hp as [_ Hp].
  destruct (publish_change policy subject_id operation repository path r w) as [[[[sha content] pull]|e] w1] eqn:Hpub;
    pose proof (publish_sends _ _ _ _ _ _ _ _ Hp Hpub) as (_ & l & Ht & Hl & _).
  - rewrite (bind_step _ _ _ _ _ Hpub) in Hrun.
    assert (w'.(trace) = w1.(trace)) as ->
      by (eapply (evolves_run same_trace); [|exact Hrun]; evolve).
    exists l. split; [done|right; by exists repository, path].
  - rewrite (bind_step_raise _ _ _ _ _ Hpub) in Hrun. injection Hrun as _ <-.
    exists l. split; [done|right; by exists repository, path].
Qed.

(** C17: a change is proposed for review and nothing else.  However a proposal ends,
    the requests it sent are an initial part of three: a new branch at the base
    commit, the file on that branch, and a pull request from it; the branch is one
    of CloudWard's own, and repository and path are the ones the allowlist grants.
    A proposal that returns has sent all three and found the pull request's number,
    or answers from its record and has sent nothing. *)
Theorem change_reviewed subject_id operation correlation_id incident_id r (w w' : World X) res :
  GitHubChangeProposalRequest_valid r = true →
  propose_change policy subject_id operation correlation_id incident_id r w = (res, w') →
  starts_with "cloudward/" r.(gcr_head) = true ∧
  ∃ l, w'.(trace) = w.(trace) ++ l ∧
    (l = [] ∨ ∃ repository path,
       writable_path policy repository path ∧ repository ∈ map fst policy.(write_paths) ∧
       l `prefix_of` change_calls subject_id operation repository path r) ∧
    ∀ resp, res = Ok resp →
      length l = (if resp.(gcp_created) then 3 else 0)%nat ∧
      (resp.(gcp_created) = true → 1 ≤ resp.(gcp_pull_request).(gpr_number) ∧
         resp.(gcp_pull_request).(gpr_head) = r.(gcr_head)).
Proof.
  intros Hvalid Hrun. split.
  { unfold GitHubChangeProposalRequest_valid, cloudward_branch in Hvalid. by boolify. }
  pose proof (propose_sends _ _ _ _ _ _ _ _ Hrun) as (l & Ht & Hl). exists l.
  split_and!; [done..|]. intros resp ->.
  apply propose_run in Hrun as (repository & path & _ & _ & Hcase). cbv zeta in Hcase.
  destruct (gcp_created resp).
  - destruct Hcase as (Ht' & _ & ? & _ & _ & ? & _). rewrite Ht in Ht'. by simplify_list_eq.
  - destruct Hcase as [-> _]. split; [|done]. rewrite <- (app_nil_r w.(trace)) in Ht at 1.
    by simplify_list_eq.
Qed.

(** Two responses name the same pull request. *)
Definition same_change (a b : GitHubChangeProposalResponse) : Prop :=
  a.(gcp_subject_id) = b.(gcp_subject_id) ∧ a.(gcp_path) = b.(gcp_path) ∧
  a.(gcp_commit_sha) = b.(gcp_commit_sha) ∧
  a.(gcp_pull_request).(gpr_repository) = b.(gcp_pull_request).(gpr_repository) ∧
  a.(gcp_pull_request).(gpr_number) = b.(gcp_pull_request).(gpr_number) ∧
  a.(gcp_pull_request).(gpr_url) = b.(gcp_pull_request).(gpr_url).

Lemma bound_reference_of record pull url key sha :
  change_of key url sha pull record → 1 ≤ pull.(gpr_number) → truthy_str url = true →
  bound_reference (Some record) = Some (record, pull.(gpr_number), url).
Proof.
  intros (_ & Hn & Hu & _) Hpos Htrue. simpl. rewrite Hn, Hu, Htrue.
  by rewrite (proj2 (Z.eqb_neq _ _)) by lia.
Qed.

Lemma recorded_change_of subject_id path r record resp :
  let pull := resp.(gcp_pull_request) in
  (∃ key, change_of key pull.(gpr_url) resp.(gcp_commit_sha) pull record) →
  1 ≤ pull.(gpr_number) → truthy_str resp.(gcp_commit_sha) = true →
  recorded_change subject_id path r record pull.(gpr_number) pull.(gpr_url)
  = Ok {| gcp_subject_id := uuid_str subject_id; gcp_path := path;
          gcp_commit_sha := resp.(gcp_commit_sha); gcp_pull_request := pull;
          gcp_created := false |}.
Proof.
  intros pull (key & _ & _ & _ & Hrepo & Hsha & Hhead & Hbase) Hpos Htrue.
  unfold recorded_change, str_get, get_or. rewrite Hsha, Hhead, Hbase, Hrepo. cbn [from_option id py_str].
  rewrite Htrue. cbn [negb]. unfold validated, GitHubPullRequestResult_valid. cbn [gpr_number].
  rewrite (proj2 (Z.leb_le _ _) Hpos). cbn [res_bind]. unfold pull. by destruct (gcp_pull_request resp).
Qed.

(** Answering from a record does not depend on the rest of the request. *)
Lemma recorded_change_same subject_id path r r2 record n u resp :
  recorded_change subject_id path r record n u = Ok resp →
  ∃ resp2, recorded_change subject_id path r2 record n u = Ok resp2 ∧ same_change resp2 resp ∧
    resp2.(gcp_created) = false.
Proof.
  unfold recorded_change, validated, GitHubPullRequestResult_valid. destruct (negb _); [done|].
  cbn [gpr_number]. destruct (1 <=? n); [|done]. intros [= <-]. eexists. by split_and!.
Qed.

Lemma propose_subject subject_id operation correlation_id incident_id r (w w' : World X) resp :
  propose_change policy subject_id operation correlation_id incident_id r w = (Ok resp, w') →
  resp.(gcp_subject_id) = uuid_str subject_id.
Proof.
  unfold propose_change. intros Hrun.
  apply bind_ok in Hrun as ([repository path] & w1 & _ & Hrun).
  apply bind_ok in Hrun as (o & w2 & _ & Hrun).
  destruct (bound_reference _) as [[[record n] u]|].
  - apply lift_ok in Hrun as [Hr _]. unfold recorded_change in Hr.
    destruct (negb _); [done|]. destruct (validated _ _ _); [|done]. by injection Hr as <-.
  - apply bind_ok in Hrun as ([[sha content] pull] & w3 & _ & Hrun).
    do 5 (apply bind_ok in Hrun as (? & ? & _ & Hrun)). by apply ret_ok in Hrun as [-> _].
Qed.

(** C18: a change is proposed once.  After a proposal that returned with a link and a
    commit, proposing again for the same subject, operation, repository and path,
    with whatever else in the request and whatever GitHub would answer, returns the
    same pull request, sends nothing and changes nothing. *)
Theorem change_proposed_once subject_id operation correlation_id incident_id r (w w' : World X)
    resp correlation_id2 incident_id2 r2 :
  propose_change policy subject_id operation correlation_id incident_id r w = (Ok resp, w') →
  truthy_str resp.(gcp_pull_request).(gpr_url) = true →
  truthy_str resp.(gcp_commit_sha) = true →
  require_path_write policy r2.(gcr_repository) r2.(gcr_path)
  = require_path_write policy r.(gcr_repository) r.(gcr_path) →
  ∃ resp2,
    propose_change policy subject_id operation correlation_id2 incident_id2 r2 w' = (Ok resp2, w') ∧
    same_change resp2 resp ∧ resp2.(gcp_created) = false.
Proof.
  intros Hrun Hurl Hsha Hsame. pose proof Hrun as Hrun0.
  apply propose_run in Hrun as (repository & path & Hp & Hpath & Hcase). cbv zeta in Hcase.
  assert (∃ record n u, bound_reference (find_record
      (change_key operation subject_id repository path) w'.(work)) = Some (record, n, u) ∧
    ∃ resp2, recorded_change subject_id path r2 record n u = Ok resp2 ∧ same_change resp2 resp ∧
      resp2.(gcp_created) = false) as (record & n & u & Hb & resp2 & Hrec & ? & ?).
  { destruct (gcp_created resp).
    - destruct Hcase as (_ & _ & _ & _ & _ & Hpos & record & Hfind & Hof).
      exists record, resp.(gcp_pull_request).(gpr_number), resp.(gcp_pull_request).(gpr_url).
      rewrite Hfind. split; [by eapply bound_reference_of|].
      eexists. split; [by eapply recorded_change_of; [eexists|..]|].
      apply propose_subject in Hrun0. by split_and!.
    - destruct Hcase as [-> (record & n & u & Hb & Hrec)].
      exists record, n, u. split; [done|]. by eapply recorded_change_same. }
  exists resp2. split_and!; [|done..]. unfold propose_change.
  rewrite Hsame, Hp. rewrite (bind_step _ _ w' (repository, path) w' eq_refl).
  rewrite (bind_step (query _) _ _ _ _ eq_refl), Hb. unfold lift. by rewrite Hrec.
Qed.
End changes.

(** ** Issues *)

(** The table of records: rows under their own identifier, keys unique. *)
Record records_ok (t : gmap uuid GitHubAutomationRecord) : Prop := {
  ro_id i r : t !! i = Some r → r.(gar_id) = i;
  ro_key i j r s : t !! i = Some r → t !! j = Some s → r.(gar_dedupe_key) = s.(gar_dedupe_key) → i = j;
}.

Lemma find_record_of key db i r :
  records_ok db.(github_records) → db.(github_records) !! i = Some r → r.(gar_dedupe_key) = key →
  find_record key db = Some r.
Proof.
  intros Hok Hi Hkey. destruct (find_record key db) as [r'|] eqn:Hf.
  - apply select_one_Some in Hf as [Hk%String.eqb_eq [j Hj]].
    assert (i = j) as <- by (eapply ro_key; [done..|congruence]). congruence.
  - unfold find_record in Hf. rewrite select_one_None in Hf. apply Hf in Hi.
    by rewrite Hkey, String.eqb_refl in Hi.
Qed.

Lemma github_records_alter t i f :
  (∀ r, (f r).(gar_id) = r.(gar_id) ∧ (f r).(gar_dedupe_key) = r.(gar_dedupe_key)) →
  records_ok t → records_ok (alter f i t).
Proof.
  intros Hf Hok.
  assert (∀ j r, alter f i t !! j = Some r → ∃ s, t !! j = Some s ∧
    s.(gar_id) = r.(gar_id) ∧ s.(gar_dedupe_key) = r.(gar_dedupe_key)) as Hback.
  { intros j r. destruct (decide (i = j)) as [->|Hne].
    - rewrite lookup_alter_eq. intros (s & -> & ->)%fmap_Some. exists s. by destruct (Hf s).
    - rewrite lookup_alter_ne by done. by exists r. }
  split.
  - intros j r (s & Hs & <- & _)%Hback. by eapply ro_id.
  - intros j k r r' (s & Hs & _ & <-)%Hback (s' & Hs' & _ & <-)%Hback. by eapply ro_key.
Qed.

Section issues.
Context {X : Type} `{!Runtime X} `{!GitHubServer X}.
Context (policy : GitHubAutomationPolicy).

Lemma bind_issue_bound issue content r :
  1 ≤ issue.(gir_number) → truthy_str issue.(gir_url) = true →
  bound_reference (Some (bind_issue issue content r))
  = Some (bind_issue issue content r, issue.(gir_number), issue.(gir_url)).
Proof.
  intros Hpos Hurl. simpl. rewrite Hurl. by rewrite (proj2 (Z.eqb_neq _ _)) by lia.
Qed.

(** After the issue is stored its record is found, bound to it. *)
Lemma store_issue_bound key incident_id issue content (w w' : World X) u :
  records_ok w.(work).(github_records) → 1 ≤ issue.(gir_number) →
  truthy_str issue.(gir_url) = true →
  (∀ r, find_record key w.(work) = Some r → r.(gar_repository) = issue.(gir_repository)) →
  store_issue (find_record key w.(work)) key incident_id issue content w = (Ok u, w') →
  ∃ r, bound_reference (find_record key w'.(work)) = Some (r, issue.(gir_number), issue.(gir_url)) ∧
       r.(gar_repository) = issue.(gir_repository).
Proof.
  intros Hok Hpos Hurl Hrepo. unfold store_issue.
  destruct (find_record key (work w)) as [r|] eqn:Hf.
  - intros Hrun. injection Hrun as _ <-.
    apply select_one_Some in Hf as [Hk%String.eqb_eq [i Hi]].
    pose proof (ro_id _ Hok _ _ Hi) as <-. exists (bind_issue issue content r).
    rewrite (find_record_of key _ r.(gar_id) (bind_issue issue content r));
      [split; [by apply bind_issue_bound|exact (Hrepo r eq_refl)]| | |done].
    + by apply github_records_alter.
    + simpl. by rewrite lookup_alter_eq, Hi.
  - intros Hrun. apply bind_ok in Hrun as (id & w1 & Hid & Hrun). injection Hid as _ <-.
    apply bind_ok in Hrun as (now & w2 & Hnow & Hrun). injection Hnow as _ <-.
    apply insert_row_ok in Hrun as (Hnew & Hu & ->). eexists.
    erewrite find_record_inserted; [|exact Hu|exact Hnew| |reflexivity]; [|done].
    by rewrite bind_issue_bound.
Qed.

Lemma create_issue_result repository content (w w' : World X) issue :
  create_issue policy repository content w = (Ok issue, w') →
  normalize_repository repository = Ok issue.(gir_repository) ∧ 1 ≤ issue.(gir_number) ∧
  asks policy w w'.
Proof.
  intros Hrun. pose proof Hrun as Ha.
  apply (evolves_run _ _ _ _ _ (create_issue_asks policy _ _)) in Ha. revert Hrun.
  unfold create_issue. intros Hrun.
  apply bind_ok in Hrun as (r & w1 & [Hr _]%lift_ok & Hrun).
  apply require_listed_ok in Hr as [_ Hr].
  apply bind_ok in Hrun as (payload & w2 & _ & Hrun).
  apply bind_ok in Hrun as (number & w3 & [Hp _]%lift_ok & Hrun).
  apply ret_ok in Hrun as [-> _]. cbn [gir_repository gir_number]. split_and!; [done| |done].
  unfold positive_int in Hp. destruct (dict_get _ _) as [[]|]; try done.
  destruct (_ <? 1) eqn:Hlt; [done|]. injection Hp as <-. boolify. lia.
Qed.

(** The records of issues name the repository their key was made of. *)
Definition issue_records_ok (incident_id : uuid) (db : Database) : Prop :=
  records_ok db.(github_records) ∧
  ∀ repository r, find_record (issue_key incident_id repository) db = Some r →
    r.(gar_repository) = repository.

Lemma create_issue_once_run incident_id correlation_id repository content (w w' : World X) issue created :
  issue_records_ok incident_id w.(work) →
  create_issue_once policy incident_id correlation_id repository content w = (Ok (issue, created), w') →
  truthy_str issue.(gir_url) = true →
  ∃ name r, require_issue_write policy repository = Ok name ∧
    issue.(gir_repository) = name ∧ 1 ≤ issue.(gir_number) ∧
    bound_reference (find_record (issue_key incident_id name) w'.(work))
      = Some (r, issue.(gir_number), issue.(gir_url)) ∧ r.(gar_repository) = name.
Proof.
  intros [Hok Hrepo] Hrun Hurl. unfold create_issue_once in Hrun.
  apply bind_ok in Hrun as (name & w1 & [Hn ->]%lift_ok & Hrun).
  apply bind_ok in Hrun as (o & w1 & Hq & Hrun). injection Hq as <- <-. cbv zeta in Hrun.
  exists name. destruct (bound_reference _) as [[[r n] u]|] eqn:Hb.
  - apply bind_ok in Hrun as (i & w1 & [Hv ->]%lift_ok & Hrun). apply ret_ok in Hrun as [[= -> ->] ->].
    unfold validated, GitHubIssueResult_valid in Hv. cbn [gir_number] in Hv.
    destruct (1 <=? n) eqn:Hpos; [|done]. injection Hv as <-. boolify. exists r.
    cbn [gir_repository gir_number gir_url].
    assert (r.(gar_repository) = name) as ->.
    { apply Hrepo. destruct (find_record _ _) as [r'|]; [|done]. simpl in Hb.
      destruct (gar_external_number r'), (gar_external_url r'); try done.
      destruct (_ && _); [|done]. by injection Hb as <- _ _. }
    by split_and!.
  - apply bind_ok in Hrun as (i & w1 & Hi & Hrun).
    apply create_issue_result in Hi as (Hname & Hpos & Hw & _ & _ & _).
    apply bind_ok in Hrun as (u & w2 & Hs & Hrun).
    apply bind_ok in Hrun as (? & w3 & Hf & Hrun). injection Hf as _ <-.
    apply bind_ok in Hrun as (? & w4 & Haudit & Hrun). apply ret_ok in Hrun as [[= -> ->] ->].
    assert (i.(gir_repository) = name) as Hin.
    { apply require_listed_ok in Hn as [_ Hn]. apply normalize_repository_idem in Hn. congruence. }
    assert (same_db github_records w2 w4) as Hsame
      by (eapply (evolves_run (same_db github_records)); [|exact Haudit]; evolve).
    rewrite <- Hw in Hs. apply store_issue_bound in Hs as (r & Hbound & Hr); try done.
    + exists r. split_and!; [done..| |congruence].
      unfold find_record, same_db, stable in *. by rewrite Hsame.
    + by rewrite Hw.
    + intros r Hr. rewrite Hin. apply Hrepo. by rewrite <- Hw.
Qed.

(** An incident gets one issue per repository.  After a run that returned an
    issue with a link, running again for the same incident and repository, with any
    content and whatever GitHub would answer, returns the same issue as not created,
    sends nothing and changes nothing. *)
Theorem issue_opened_once incident_id correlation_id repository content (w w' : World X) issue created
    correlation_id2 repository2 content2 :
  issue_records_ok incident_id w.(work) →
  create_issue_once policy incident_id correlation_id repository content w = (Ok (issue, created), w') →
  truthy_str issue.(gir_url) = true →
  require_issue_write policy repository2 = require_issue_write policy repository →
  ∃ issue2,
    create_issue_once policy incident_id correlation_id2 repository2 content2 w'
    = (Ok (issue2, false), w') ∧
    issue2.(gir_repository) = issue.(gir_repository) ∧
    issue2.(gir_number) = issue.(gir_number) ∧ issue2.(gir_url) = issue.(gir_url).
Proof.
  intros Hok Hrun Hurl Hsame.
  destruct (create_issue_once_run _ _ _ _ _ _ _ _ Hok Hrun Hurl)
    as (name & r & Hn & Hrepo & Hpos & Hb & Hr).
  exists {| gir_repository := r.(gar_repository); gir_number := issue.(gir_number);
            gir_url := issue.(gir_url);
            gir_title := opt_str_or r.(gar_title) "CloudWard incident" |}.
  split; [|cbn [gir_repository]; split_and!; [congruence|done..]].
  unfold create_issue_once. rewrite Hsame, Hn.
  rewrite (bind_step _ _ w' name w' eq_refl). cbv zeta.
  rewrite (bind_step (query _) _ _ _ _ eq_refl), Hb. unfold validated, GitHubIssueResult_valid.
  cbn [gir_number]. rewrite (proj2 (Z.leb_le _ _) Hpos). done.
Qed.
End issues.

(** ** A concrete repository *)

Definition bench_answer : json :=
  JObj [("number", JInt 7); ("html_url", JStr "https://github.com/acme/gitops/pull/7");
        ("commit", JObj [("sha", JStr "0123abc")])].
#[export] Instance bench_github : GitHubServer Z := {|
  github_token x := (Ok "token", x);
  github_answer _ _ _ x := (Some bench_answer, x);
  parse_datetime _ := None;
|}.

Definition bench_policy : GitHubAutomationPolicy :=
  {| read_repositories := ["acme/gitops"]; issue_repositories := ["acme/gitops"];
     write_paths := [("acme/gitops", ["values/*.yaml"])] |}.

Definition bench_change : GitHubChangeProposalRequest :=
  {| gcr_repository := "Acme/GitOps"; gcr_path := "values//staging.yaml"; gcr_base := "main";
     gcr_base_commit_sha := "0123abc"; gcr_head := "cloudward/finops-1";
     gcr_expected_blob_sha := None; gcr_proposed_content := "a: 1"; gcr_commit_message := "m";
     gcr_title := "t"; gcr_reason := "r"; gcr_current_state := []; gcr_proposed_state := [];
     gcr_evidence := []; gcr_risk_score := 10; gcr_verification_plan := "v";
     gcr_rollback_plan := "b"; gcr_draft := true |}.

Definition bench_issue : GitHubIssueContent :=
  {| gic_title := "Incident"; gic_body := "body"; gic_labels := ["cloudward"] |}.

Definition bench_propose (w : World Z) : res GitHubChangeProposalResponse * World Z :=
  propose_change (Runtime0 := bench_runtime) bench_policy 5%N "FINOPS" "c" None bench_change w.

Lemma client_confined_witness :
  (create_issue bench_policy "acme/gitops" bench_issue (bench_world empty_database)).2.(trace) ≠ [] ∧
  ∃ new, (create_issue bench_policy "acme/gitops" bench_issue
            (bench_world empty_database)).2.(trace) = [] ++ new ∧
    Forall (allowed_request bench_policy) new.
Proof.
  split; [vm_compute; discriminate|].
  exact (proj2 (proj2 (proj2 (client_confined bench_policy (bench_world empty_database) _
    (rtc_once _ _ (gh_issue bench_policy "acme/gitops" bench_issue (bench_world empty_database))))))).
Defined.

Definition bench_proposed : World Z := (bench_propose (bench_world empty_database)).2.

Definition bench_response : GitHubChangeProposalResponse :=
  {| gcp_subject_id := uuid_str 5%N; gcp_path := "values/staging.yaml";
     gcp_commit_sha := "0123abc";
     gcp_pull_request := {| gpr_repository := "acme/gitops"; gpr_number := 7;
       gpr_url := "https://github.com/acme/gitops/pull/7"; gpr_head := "cloudward/finops-1";
       gpr_base := "main" |};
     gcp_created := true |}.

Lemma bench_proposes : (bench_propose (bench_world empty_database)).1 = Ok bench_response.
Proof. vm_compute. reflexivity. Qed.

Lemma change_reviewed_witness :
  ∃ l, bench_proposed.(trace) = [] ++ l ∧ length l = 3%nat.
Proof.
  destruct (change_reviewed (Runtime0 := bench_runtime) bench_policy 5%N "FINOPS" "c" None
    bench_change (bench_world empty_database) _ _ ltac:(vm_compute; reflexivity)
    (run_of _ _ bench_proposes)) as (_ & l & Ht & _ & Hok).
  exists l. split; [exact Ht|]. exact (proj1 (Hok _ eq_refl)).
Defined.

Lemma change_proposed_once_witness :
  ∃ resp, bench_propose bench_proposed = (Ok resp, bench_proposed) ∧ resp.(gcp_created) = false.
Proof.
  destruct (change_proposed_once (Runtime0 := bench_runtime) bench_policy 5%N "FINOPS" "c" None
    bench_change (bench_world empty_database) _ bench_response "c" None bench_change
    (run_of _ _ bench_proposes) eq_refl eq_refl eq_refl) as (resp & Hrun & _ & Hc).
  exists resp. exact (conj Hrun Hc).
Defined.

Definition bench_open (w : World Z) : res (GitHubIssueResult * bool) * World Z :=
  create_issue_once (Runtime0 := bench_runtime) bench_policy 7%N "c" "acme/gitops" bench_issue w.

Definition bench_opened : GitHubIssueResult :=
  {| gir_repository := "acme/gitops"; gir_number := 7;
     gir_url := "https://github.com/acme/gitops/pull/7"; gir_title := "Incident" |}.

Lemma issue_opened_once_witness :
  let w := (bench_open (bench_world empty_database)).2 in
  ∃ issue, bench_open w = (Ok (issue, false), w) ∧ issue.(gir_number) = 7.
Proof.
  assert ((bench_open (bench_world empty_database)).1 = Ok (bench_opened, true)) as Hrun
    by (vm_compute; reflexivity).
  assert (issue_records_ok 7%N (bench_world empty_database).(work)) as Hok.
  { split; [split; intros * Hl; cbn in Hl; by apply lookup_empty_Some in Hl|].
    intros repository r Hf. apply select_one_Some in Hf as [_ [id Hid]]. cbn in Hid.
    by apply lookup_empty_Some in Hid. }
  destruct (issue_opened_once (Runtime0 := bench_runtime) bench_policy 7%N "c" "acme/gitops"
    bench_issue (bench_world empty_database) _ bench_opened true "c" "acme/gitops" bench_issue
    Hok (run_of _ _ Hrun) eq_refl eq_refl) as (issue & Hagain & _ & Hn & _).
  exists issue. exact (conj Hagain Hn).
Defined.

Definition served_file : dict :=
  [("encoding", JStr "base64"); ("content", JStr "cmVwbGljYXM6IDI=")].

