(* ===== verification/Url.v ===== *)
(** * Splitting a URL, and other text the library reads

    [urllib.parse.urlsplit], as far as the code reads its result. *)

From S2P Require Import Prelude PyFloat Json Effects Models.

Record SplitUrl := {
  url_scheme : string;
  url_username : option string;
  url_hostname : option string;
}.

Definition url_space (c : ascii) : bool := code_of c <=? 32.
Fixpoint drop_url_space (s : string) : string :=
  match s with
  | String.String c s' => if url_space c then drop_url_space s' else s
  | EmptyString => EmptyString
  end.
Fixpoint drop_controls (s : string) : string :=
  match s with
  | String.String c s =>
      if bool_decide (code_of c ∈ [9; 10; 13]) then drop_controls s
      else String.String c (drop_controls s)
  | EmptyString => EmptyString
  end.

(** [s.partition(c)], and whether the separator was there. *)
Fixpoint partition (c : ascii) (s : string) : string * bool * string :=
  match s with
  | EmptyString => (EmptyString, false, EmptyString)
  | String.String d s' =>
      if Ascii.eqb d c then (EmptyString, true, s')
      else let '(a, found, b) := partition c s' in (String.String d a, found, b)
  end.
Definition rpartition (c : ascii) (s : string) : string * bool * string :=
  let '(b, found, a) := partition c (str_rev s) in (str_rev a, found, str_rev b).

Fixpoint take_until (p : ascii → bool) (s : string) : string :=
  match s with
  | String.String c s => if p c then EmptyString else String.String c (take_until p s)
  | EmptyString => EmptyString
  end.

Definition scheme_char (c : ascii) : bool :=
  is_alnum c || bool_decide (c ∈ ["+"; "-"; "."]%char).

(** The scheme and the rest. *)
Definition split_scheme (url : string) : string * string :=
  let '(scheme, found, rest) := partition ":" url in
  match scheme with
  | String.String c _ =>
      if found && is_alpha c && str_forallb scheme_char scheme then (lower scheme, rest)
      else (EmptyString, url)
  | EmptyString => (EmptyString, url)
  end.

Definition netloc_of (rest : string) : string :=
  if starts_with "//" rest
  then take_until (λ c, bool_decide (c ∈ ["/"; "?"; "#"]%char)) (String.substring 2 (String.length rest) rest)
  else EmptyString.

(** The host of an authority with an IP literal in brackets, or the [ValueError]; and
    the identifier a text stands for ([uuid.UUID]). *)
Class UrlLibrary := {
  ip_literal : string → res (option string);
  parse_uuid : string → option uuid;
}.

Definition urlsplit `{!UrlLibrary} (url : string) : res SplitUrl :=
  let '(scheme, rest) := split_scheme (drop_controls (drop_url_space url)) in
  let netloc := netloc_of rest in
  let '(userinfo, have_info, hostinfo) := rpartition "@" netloc in
  let host := if contains "[" netloc || contains "]" netloc then ip_literal netloc
              else let '(h, _, _) := partition ":" hostinfo in
                   Ok (if truthy_str h then Some (lower h) else None) in
  res_bind host (λ host,
  Ok {| url_scheme := scheme;
        url_username := if have_info then Some (partition ":" userinfo).1.1 else None;
        url_hostname := host |}).

(** No IP literals, one identifier. *)
#[export] Instance bench_urls : UrlLibrary := {|
  ip_literal _ := Ok None; parse_uuid _ := Some 7%N;
|}.
