(* ===== verification/Delivery.v ===== *)
(** * Delivery of notifications

    [notifications/notifiers.py], [NotificationService.deliver] and the worker's
    entry to it in [api/notifications.py].  The Teams workflow and GitHub are the
    environment. *)

From S2P Require Import Prelude PyFloat Json Sha256 Effects Actions StateMachine Models.
From S2P Require Import World Redaction Config AuditLog History Memory Runbooks Notifications.
From S2P Require Import AiContext GitHubPolicy GitHub GitHubRuns Url.

(** ** The environment *)

(** The workflow's answer. *)
Inductive teams_answer : Type :=
| TeamsAccepted | TeamsHttpError | TeamsRaised (e : exn).

Class TeamsServer (X : Type) := {
  teams_post : string → json → X → teams_answer * X;
}.
#[export] Hint Mode TeamsServer ! : typeclass_instances.

Section notifiers.
Context {X : Type} `{!Runtime X} `{!GitHubServer X} `{!TeamsServer X} {urls : UrlLibrary}.
Context (settings : Settings).

(** ** The notifiers *)

Record DeliveryResult := {
  dlv_channel : string;
  dlv_destination_reference : string;
  dlv_external_reference : option string;
}.

(** [DashboardNotifier.deliver]. *)
Definition deliver_dashboard (m : NotificationMessage) : M (World X) DeliveryResult :=
  do! append_stream_event "notification.dashboard" m.(msg_incident_id) (NotificationMessage_dump m);
  ret {| dlv_channel := "dashboard"; dlv_destination_reference := "authenticated-sse";
         dlv_external_reference := None |}.

Definition TEAMS_HOST_SUFFIXES : list string :=
  [".logic.azure.com"; ".webhook.office.com"; ".powerplatform.com"; ".powerautomate.com"].

Definition fact (title value : string) : json := JObj [("title", JStr title); ("value", JStr value)].

Definition risk_text (m : NotificationMessage) (suffix : string) : string :=
  match m.(msg_risk_score) with Some z => str_of_Z z +:+ suffix | None => "n/a" end.

(** [_adaptive_card]. *)
Definition adaptive_card (m : NotificationMessage) : json :=
  let facts :=
    [fact "Severity" m.(msg_severity); fact "Service" m.(msg_service);
     fact "Environment" m.(msg_environment);
     fact "Incident" (match m.(msg_incident_id) with Some u => uuid_str u | None => "n/a" end);
     fact "Cause" m.(msg_cause); fact "Risk" (risk_text m "/100"); fact "Policy" m.(msg_policy);
     fact "Current state" m.(msg_current_state)] in
  let body :=
    [JObj [("type", JStr "TextBlock"); ("text", JStr "CloudWard Incident");
           ("weight", JStr "Bolder"); ("size", JStr "Medium")];
     JObj [("type", JStr "TextBlock"); ("text", JStr m.(msg_title)); ("wrap", JBool true)];
     JObj [("type", JStr "FactSet"); ("facts", JArr facts)]] ++
    match m.(msg_dashboard_url) with
    | Some url =>
        if truthy_str url then
          [JObj [("type", JStr "ActionSet");
                 ("actions", JArr [JObj [("type", JStr "Action.OpenUrl");
                                         ("title", JStr "Open CloudWard"); ("url", JStr url)]])]]
        else []
    | None => []
    end in
  let payload := redact
    (JObj [("type", JStr "message");
           ("attachments", JArr [JObj
              [("contentType", JStr "application/vnd.microsoft.card.adaptive");
               ("content", JObj
                  [("$schema", JStr "http://adaptivecards.io/schemas/adaptive-card.json");
                   ("type", JStr "AdaptiveCard"); ("version", JStr "1.4");
                   ("body", JArr body)])]])]) in
  match payload with JObj d => JObj d | _ => JObj [] end.

(** The host of the workflow, inside the boundary. *)
Definition teams_host (s : SplitUrl) : option string :=
  let host := lower (default EmptyString s.(url_hostname)) in
  if negb (String.eqb s.(url_scheme) "https") ||
     match s.(url_username) with Some _ => true | None => false end ||
     negb (existsb (λ suffix, ends_with suffix host) TEAMS_HOST_SUFFIXES)
  then None else Some host.

(** [TeamsNotifier.deliver]. *)
Definition deliver_teams (m : NotificationMessage) : M (World X) DeliveryResult :=
  match settings.(teams_workflow_webhook_url) with
  | None => raise (cw_error_status "TEAMS_NOT_CONFIGURED"
                     "Microsoft Teams workflow webhook is not configured" 503)
  | Some url =>
      let! parsed := lift (urlsplit url) in
      match teams_host parsed with
      | None =>
          raise (cw_error_status "TEAMS_WEBHOOK_DENIED"
            "Microsoft Teams webhook is outside the configured HTTPS host boundary" 503)
      | Some host =>
          let card := adaptive_card m in
          do! record_call (CallTeams url card);
          let! answer := external (teams_post url card) in
          match answer with
          | TeamsAccepted =>
              ret {| dlv_channel := "teams";
                     dlv_destination_reference := "teams-workflow:" +:+ host;
                     dlv_external_reference := None |}
          | TeamsHttpError => raise (cw_error_status "TEAMS_DELIVERY_FAILED"
                                       "Microsoft Teams rejected the notification" 502)
          | TeamsRaised e => raise e
          end
      end
  end.

(** [_github_issue_body]. *)
Definition github_issue_body (m : NotificationMessage) : string :=
  let dashboard := match m.(msg_dashboard_url) with
                   | Some url => if truthy_str url then newline +:+ "- Dashboard: " +:+ url
                                 else EmptyString
                   | None => EmptyString
                   end in
  "Created by CloudWard" +:+ newline +:+ newline +:+
  "- Event: " +:+ m.(msg_event_type) +:+ newline +:+
  "- Incident: " +:+
    match m.(msg_incident_id) with Some u => uuid_str u | None => "None" end +:+ newline +:+
  "- Severity: " +:+ m.(msg_severity) +:+ newline +:+
  "- Service: " +:+ m.(msg_service) +:+ newline +:+
  "- Environment: " +:+ m.(msg_environment) +:+ newline +:+
  "- Current state: " +:+ m.(msg_current_state) +:+ newline +:+
  "- Risk: " +:+ risk_text m "" +:+ newline +:+
  "- Cause: " +:+ m.(msg_cause) +:+ newline +:+
  "- Policy: " +:+ m.(msg_policy) +:+ dashboard +:+ newline +:+ newline +:+
  "Review the complete evidence and audit trail in CloudWard before taking action.".

(** [GitHubIssueNotifier.deliver]. *)
Definition deliver_github_issue (m : NotificationMessage) : M (World X) DeliveryResult :=
  match m.(msg_incident_id) with
  | None => raise (cw_error_status "GITHUB_ISSUE_INCIDENT_REQUIRED"
                     "GitHub Issue notifications require an incident" 409)
  | Some incident_id =>
      match csv settings.(github_app_issue_repositories) with
      | [] => raise (cw_error_status "GITHUB_ISSUE_NOT_CONFIGURED"
                       "No allowlisted GitHub Issue repository is configured" 503)
      | repository :: _ =>
          let! policy := lift (settings_policy settings) in
          let! content := lift (validated "GitHubIssueContent" GitHubIssueContent_valid
            {| gic_title := str_take 200 ("CloudWard: " +:+ m.(msg_title));
               gic_body := github_issue_body m;
               gic_labels := ["cloudward"; "incident"; str_take 50 (lower m.(msg_severity))] |}) in
          let! '(issue, _) := create_issue_once policy incident_id m.(msg_correlation_id)
                                repository content in
          ret {| dlv_channel := "github_issue";
                 dlv_destination_reference := issue.(gir_repository);
                 dlv_external_reference := Some issue.(gir_url) |}
      end
  end.

(** [_notifier(channel).deliver]. *)
Definition notifier (channel : string) : res (NotificationMessage → M (World X) DeliveryResult) :=
  if String.eqb channel "dashboard" then Ok deliver_dashboard
  else if String.eqb channel "teams" then Ok deliver_teams
  else if String.eqb channel "github_issue" then Ok deliver_github_issue
  else Raise (cw_error_status "NOTIFIER_UNKNOWN" "Notification channel is not registered" 422).

(** ** The service *)

Context `{!Pydantic}.

Definition a_uuid (j : json) : option uuid :=
  match j with JStr s => parse_uuid s | _ => None end.

(** [NotificationMessage.model_validate]. *)
Definition NotificationMessage_validate (j : json) : option NotificationMessage :=
  d ← fields_of ["event_type"; "title"; "incident_id"; "correlation_id"; "severity"; "service";
                 "environment"; "cause"; "risk_score"; "policy"; "current_state";
                 "dashboard_url"; "details"] j;
  event_type ← field "event_type" (text 1 128) d;
  title ← field "title" (text 1 200) d;
  incident_id ← field_or "incident_id" None (nullable a_uuid) d;
  correlation_id ← field "correlation_id" (text 1 128) d;
  severity ← field_or "severity" "info" (text 0 16) d;
  service ← field_or "service" "unknown" (text 0 255) d;
  environment ← field_or "environment" "unknown" (text 0 32) d;
  cause ← field_or "cause" "Not yet established" (text 0 1000) d;
  risk_score ← field_or "risk_score" None
                 (nullable (checked (λ z, (0 <=? z) && (z <=? 100)) lax_int)) d;
  policy ← field_or "policy" "See CloudWard policy record" (text 0 1000) d;
  current_state ← field_or "current_state" "UNKNOWN" (text 0 64) d;
  dashboard_url ← field_or "dashboard_url" None (nullable (text 0 2048)) d;
  details ← field_or "details" [] an_object d;
  Some {| msg_event_type := event_type; msg_title := title; msg_incident_id := incident_id;
          msg_correlation_id := correlation_id; msg_severity := severity; msg_service := service;
          msg_environment := environment; msg_cause := cause; msg_risk_score := risk_score;
          msg_policy := policy; msg_current_state := current_state;
          msg_dashboard_url := dashboard_url; msg_details := details |}.

Abbreviation the_notification := (deref notifications).
Abbreviation set_notification := (assign upd_notifications).

(** [timedelta(seconds=min(2**attempts, 300))]. *)
Definition retry_delay (attempts : Z) : Z := seconds (Z.min (2 ^ attempts) 300).

(** The [except CloudWardError] branch, up to the re-raise. *)
Definition record_delivery_failure (id : uuid) (m : NotificationMessage) (code : string)
  : M (World X) unit :=
  let! n := the_notification id in
  do! set_notification id (set_ntf_status
        (if n.(ntf_max_attempts) <=? n.(ntf_attempts) then FAILED else PENDING));
  do! set_notification id (set_ntf_last_error (Some code));
  let! now := utc_now in
  do! set_notification id
        (set_ntf_next_attempt_at (Some (now + retry_delay n.(ntf_attempts))));
  record_audit_system
    (if String.eqb n.(ntf_channel) "teams" then "TEAMS_NOTIFICATION_FAILED"
     else "NOTIFICATION_FAILED")
    m.(msg_correlation_id) m.(msg_incident_id) (Some n.(ntf_channel)) None "FAILED"
    [("notification_id", JStr (uuid_str id)); ("attempt", JInt n.(ntf_attempts));
     ("max_attempts", JInt n.(ntf_max_attempts)); ("error_code", JStr code);
     ("remediation_rolled_back", JBool false)].

(** After the notifier returned. *)
Definition record_delivery (id : uuid) (m : NotificationMessage) (delivery : DeliveryResult)
  : M (World X) unit :=
  let! n := the_notification id in
  do! set_notification id (set_ntf_status SUCCEEDED);
  do! set_notification id
        (set_ntf_destination_reference (Some delivery.(dlv_destination_reference)));
  do! set_notification id (set_ntf_last_error None);
  do! set_notification id (set_ntf_next_attempt_at None);
  let! now := utc_now in
  do! set_notification id (set_ntf_delivered_at (Some now));
  record_audit_system
    (if String.eqb n.(ntf_channel) "teams" then "TEAMS_NOTIFICATION_SENT" else "NOTIFICATION_SENT")
    m.(msg_correlation_id) m.(msg_incident_id) (Some n.(ntf_channel)) None "SUCCEEDED"
    [("notification_id", JStr (uuid_str id)); ("attempt", JInt n.(ntf_attempts));
     ("destination_reference", JStr delivery.(dlv_destination_reference));
     ("external_reference", JOptStr delivery.(dlv_external_reference))].

(** [NotificationService.deliver]; the row that is returned is the one named by [id]. *)
Definition deliver (id : uuid) : M (World X) unit :=
  let! o := query (λ db, db.(notifications) !! id) in
  match o with
  | None => raise (cw_error_status "NOTIFICATION_NOT_FOUND" "Notification was not found" 404)
  | Some n =>
      if bool_decide (n.(ntf_status) = SUCCEEDED) then ret tt
      else
        do! raise_if (n.(ntf_max_attempts) <=? n.(ntf_attempts))
              (cw_error_status "NOTIFICATION_RETRIES_EXHAUSTED"
                 "Notification exhausted its bounded retries" 409);
        do! set_notification id (set_ntf_status RUNNING);
        do! set_notification id (set_ntf_attempts (n.(ntf_attempts) + 1));
        match NotificationMessage_validate n.(ntf_payload) with
        | None => raise (validation_error "NotificationMessage")
        | Some m =>
            let! send := lift (notifier n.(ntf_channel)) in
            let! delivery :=
              catch (send m)
                (λ e, do! when (is_cloudward_error e)
                            (record_delivery_failure id m (error_code e));
                      raise e) in
            record_delivery id m delivery
        end
  end.

(** [deliver_notification_job], behind its token: a refused delivery keeps its count;
    any other exception leaves the session to be discarded. *)
Definition deliver_notification_job (authorization : option string) (id : uuid)
  : M (World X) unit :=
  do! raise_if (negb (bool_decide
         (authorization = Some ("Bearer " +:+ settings.(worker_internal_token)))))
        (cw_error_status "WORKER_AUTHENTICATION_FAILED" "Worker authentication failed" 401);
  do! catch (deliver id)
        (λ e, do! (if is_cloudward_error e then commit else rollback); raise e);
  commit.
End notifiers.

Example url_1 : map (λ u, teams_host <$> match urlsplit u with
    Ok s => Some s | _ => None end)
  ["HTTPS://Prod.webhook.office.com:443/x"; "http://prod.webhook.office.com/x";
   "https://evil.com/prod.webhook.office.com"; "https://prod.webhook.office.com@evil.com/";
   "https://u@prod.webhook.office.com/"]
  = [Some (Some "prod.webhook.office.com"); Some None; Some None; Some None; Some None].
Proof. vm_compute. reflexivity. Qed.

(** ** What delivering leaves alone *)

Section frame.
Context {X : Type} `{!Runtime X} `{!GitHubServer X} `{!TeamsServer X} {urls : UrlLibrary} `{!Pydantic}.
Context (settings : Settings).

Lemma asks_session_step policy (w w' : World X) : asks policy w w' → session_step w w'.
Proof.
  intros (Hw & Hc & _ & l & Hl & _). split_and!; [by rewrite Hw|done|]. by exists l.
Qed.

Lemma create_issue_once_step policy i c r content :
  evolves session_step (create_issue_once (X:=X) policy i c r content).
Proof.
  unfold create_issue_once, store_issue, set_github_record. evolve.
  intros w. eapply asks_session_step, create_issue_asks.
Qed.

Lemma notifier_step channel send m :
  notifier settings channel = Ok send → evolves session_step (send m).
Proof.
  unfold notifier. repeat case_match; intros [= <-].
  - unfold deliver_dashboard. evolve.
  - unfold deliver_teams. evolve.
  - unfold deliver_github_issue. evolve. apply create_issue_once_step.
Qed.

(** A notifier writes at most the outbox, the records of GitHub and the audit log. *)
Lemma notifier_same {A} (f : Database → A) channel send m :
  (∀ g d, f (upd_stream_events g d) = f d) → (∀ g d, f (upd_github_records g d) = f d) →
  (∀ g d, f (upd_audit_events g d) = f d) →
  notifier settings channel = Ok send → evolves (same_db f) (send m).
Proof.
  intros Hs Hg Ha. unfold notifier. repeat case_match; intros [= <-].
  - unfold deliver_dashboard.
    repeat first [evolve_step | by apply append_stream_event_same | solve [eauto with cw_pres]].
  - unfold deliver_teams. evolve.
  - unfold deliver_github_issue, create_issue_once, store_issue, set_github_record, assign.
    repeat first [ evolve_step | by apply record_audit_same | by apply update_db_same
                 | by apply insert_row_same | solve [eauto with cw_pres] ].
    intros w. unfold same_db, stable. f_equal. eapply create_issue_asks.
Qed.


(** ** What becomes of the row *)

(** The row after a refused delivery, and after one that returned. *)
Definition failed_row (code : string) (now : datetime) (n : Notification) : Notification :=
  set_ntf_next_attempt_at (Some (now + retry_delay n.(ntf_attempts)))
    (set_ntf_last_error (Some code)
      (set_ntf_status (if n.(ntf_max_attempts) <=? n.(ntf_attempts) then FAILED else PENDING) n)).

Definition sent_row (reference : string) (now : datetime) (n : Notification) : Notification :=
  set_ntf_delivered_at (Some now) (set_ntf_next_attempt_at None (set_ntf_last_error None
    (set_ntf_destination_reference (Some reference) (set_ntf_status SUCCEEDED n)))).

(** [m] turns the row [id] into [f] of it and leaves the rest of the table. *)
Definition rewrites (id : uuid) (n n' : Notification) (w w' : World X) : Prop :=
  w.(work).(notifications) !! id = Some n ∧
  w'.(work).(notifications) = <[id := n']> w.(work).(notifications).

Lemma rewrites_assign id f n n0 (w w1 : World X) :
  rewrites id n0 n w w1 →
  ∃ w2, assign upd_notifications id f w1 = (Ok tt, w2) ∧ rewrites id n0 (f n) w w2.
Proof.
  intros [Hl Hn]. eexists. split; [reflexivity|]. split; [done|]. simpl. rewrite Hn.
  apply map_eq. intros i. destruct (decide (i = id)) as [->|].
  - by rewrite lookup_alter_eq, !lookup_insert_eq.
  - by rewrite lookup_alter_ne, !lookup_insert_ne by done.
Qed.

Lemma rewrites_refl id n (w : World X) : w.(work).(notifications) !! id = Some n → rewrites id n n w w.
Proof. intros Hl. split; [done|]. by rewrite insert_id. Qed.

Lemma rewrites_same id n n' (w w1 w2 : World X) :
  same_db notifications w1 w2 → rewrites id n n' w w1 → rewrites id n n' w w2.
Proof. unfold same_db, stable. intros Hs [Hl Hn]. split; [done|]. by rewrite Hs. Qed.

Lemma rewrites_row id n n' (w w' : World X) : rewrites id n n' w w' → w'.(work).(notifications) !! id = Some n'.
Proof. intros [_ ->]. by rewrite lookup_insert_eq. Qed.

Lemma audit_rewrites et ci ii a rs res md id n n' (w w1 : World X) : rewrites id n n' w w1 →
  ∃ w2, record_audit_system et ci ii a rs res md w1 = (Ok tt, w2) ∧ rewrites id n n' w w2.
Proof.
  intros Hr. unfold record_audit_system.
  destruct (record_audit_returns et ci ii "cloudward" ACTOR_SYSTEM None a rs None res md w1)
    as ([] & w2 & E). exists w2. split; [exact E|]. eapply rewrites_same; [|exact Hr].
  eapply (evolves_run (same_db notifications)); [|exact E]. evolve.
Qed.

Ltac rewrite_row H :=
  match goal with |- context [bind (assign upd_notifications ?id ?f) _ _] =>
    let w2 := fresh "w" in let E := fresh in let H' := fresh in
    destruct (rewrites_assign id f _ _ _ _ H) as (w2 & E & H');
    rewrite (bind_step _ _ _ _ _ E); clear E H; rename H' into H end.

Lemma record_delivery_failure_run id m code n n0 (w w1 : World X) :
  rewrites id n0 n w w1 →
  ∃ now w2, record_delivery_failure id m code w1 = (Ok tt, w2) ∧
    rewrites id n0 (failed_row code now n) w w2.
Proof.
  intros Hr. unfold record_delivery_failure.
  rewrite (bind_step _ _ w1 n w1) by (apply deref_ok; split; [by eapply rewrites_row|done]).
  rewrite_row Hr. rewrite_row Hr.
  match goal with |- context [bind utc_now ?k ?w0] =>
    rewrite (bind_step utc_now k w0 _ _ eq_refl);
    assert (rewrites id n0 (set_ntf_last_error (Some code) (set_ntf_status
      (if n.(ntf_max_attempts) <=? n.(ntf_attempts) then FAILED else PENDING) n)) w (utc_now w0).2)
      as Hr' by exact Hr end.
  clear Hr. rewrite_row Hr'.
  match goal with |- context [record_audit_system ?a ?b ?c ?d ?e ?f ?g _] =>
    destruct (audit_rewrites a b c d e f g _ _ _ _ _ Hr') as (w9 & E & ?) end.
  eexists _, w9. split; [exact E|done].
Qed.

Lemma record_delivery_run id m d n n0 (w w1 : World X) :
  rewrites id n0 n w w1 →
  ∃ now w2, record_delivery id m d w1 = (Ok tt, w2) ∧
    rewrites id n0 (sent_row d.(dlv_destination_reference) now n) w w2.
Proof.
  intros Hr. unfold record_delivery.
  rewrite (bind_step _ _ w1 n w1) by (apply deref_ok; split; [by eapply rewrites_row|done]).
  do 4 rewrite_row Hr.
  match goal with |- context [bind utc_now ?k ?w0] =>
    rewrite (bind_step utc_now k w0 _ _ eq_refl);
    match type of Hr with rewrites _ _ ?r _ _ =>
      assert (rewrites id n0 r w (utc_now w0).2) as Hr' by exact Hr end end.
  clear Hr. rewrite_row Hr'.
  match goal with |- context [record_audit_system ?a ?b ?c ?d ?e ?f ?g _] =>
    destruct (audit_rewrites a b c d e f g _ _ _ _ _ Hr') as (w9 & E & ?) end.
  eexists _, w9. split; [exact E|done].
Qed.

(** The row of an attempt. *)
Definition attempted (n : Notification) : Notification :=
  set_ntf_attempts (n.(ntf_attempts) + 1) (set_ntf_status RUNNING n).

(** How a delivery ends, and the row it leaves: it had succeeded before, its retries
    were exhausted, it was sent, it was refused by the notifier, its channel has no
    notifier, or an exception that is no [CloudWardError] took the session with it. *)
Inductive delivered (n : Notification) : res unit → Notification → Prop :=
| delivered_before : n.(ntf_status) = SUCCEEDED → delivered n (Ok tt) n
| delivered_exhausted e :
    n.(ntf_status) ≠ SUCCEEDED → n.(ntf_max_attempts) ≤ n.(ntf_attempts) →
    is_cloudward_error e = true → delivered n (Raise e) n
| delivered_sent reference now :
    n.(ntf_status) ≠ SUCCEEDED → n.(ntf_attempts) < n.(ntf_max_attempts) →
    delivered n (Ok tt) (sent_row reference now (attempted n))
| delivered_refused e now :
    n.(ntf_status) ≠ SUCCEEDED → n.(ntf_attempts) < n.(ntf_max_attempts) →
    is_cloudward_error e = true →
    delivered n (Raise e) (failed_row (error_code e) now (attempted n))
| delivered_nowhere e :
    n.(ntf_status) ≠ SUCCEEDED → n.(ntf_attempts) < n.(ntf_max_attempts) →
    notifier settings n.(ntf_channel) = Raise e → delivered n (Raise e) (attempted n)
| delivered_lost e :
    n.(ntf_status) ≠ SUCCEEDED → n.(ntf_attempts) < n.(ntf_max_attempts) →
    is_cloudward_error e = false → delivered n (Raise e) n.

Lemma notifier_known channel e : notifier settings channel = Raise e → is_cloudward_error e = true.
Proof. unfold notifier. repeat case_match; by intros [= <-]. Qed.

(** The service, before the job commits or rolls back. *)
Lemma deliver_run id n (w w' : World X) r :
  w.(work).(notifications) !! id = Some n → deliver settings id w = (r, w') →
  ∃ n', rewrites id n n' w w' ∧
    (delivered n r n' ∨ ∃ e, r = Raise e ∧ is_cloudward_error e = false ∧
       n.(ntf_status) ≠ SUCCEEDED ∧ n.(ntf_attempts) < n.(ntf_max_attempts)).
Proof.
  intros Hn. unfold deliver. rewrite (bind_step (query _) _ w _ w eq_refl), Hn.
  destruct (bool_decide _) eqn:Hst; boolify.
  { intros [= <- <-]. exists n. split; [by apply rewrites_refl|left; by apply delivered_before]. }
  destruct (_ <=? _) eqn:Hmax; boolify.
  { intros [= <- <-]. exists n. split; [by apply rewrites_refl|left; by apply delivered_exhausted]. }
  rewrite (bind_step (raise_if false _) _ w tt w eq_refl).
  pose proof (rewrites_refl _ _ _ Hn) as Hr. do 2 rewrite_row Hr.
  change (set_ntf_attempts _ _) with (attempted n) in Hr.
  match goal with |- ?m ?w1 = _ → _ => rename w1 into wa end.
  destruct (NotificationMessage_validate _) as [m|].
  2: { intros [= <- <-]. exists (attempted n). split; [done|right]. by eexists. }
  destruct (notifier settings (ntf_channel n)) as [send|e] eqn:Hch.
  2: { intros [= <- <-]. exists (attempted n). split; [done|left]. by apply delivered_nowhere. }
  rewrite (bind_step (lift (Ok send)) _ wa send wa eq_refl). unfold bind at 1, catch.
  destruct (send m wa) as [[d|e] wb] eqn:Hsend;
    (assert (rewrites id n (attempted n) w wb) as Hb
      by (eapply rewrites_same; [|exact Hr]; eapply evolves_run; [|exact Hsend];
          eapply notifier_same; [..|exact Hch]; reflexivity)).
  - destruct (record_delivery_run id m d _ _ _ _ Hb) as (now & wc & -> & Hc).
    intros [= <- <-]. eexists. split; [exact Hc|left]. by apply delivered_sent.
  - unfold bind. destruct (is_cloudward_error e) eqn:He; simpl.
    + destruct (record_delivery_failure_run id m (error_code e) _ _ _ _ Hb) as (now & wc & -> & Hc).
      intros [= <- <-]. eexists. split; [exact Hc|left]. by apply delivered_refused.
    + intros [= <- <-]. exists (attempted n). split; [done|right]. by eexists.
Qed.

Lemma deliver_step id : evolves session_step (deliver settings id).
Proof.
  unfold deliver, record_delivery, record_delivery_failure.
  repeat first [ apply evolves_lift_bind; [tc_solve|intros] | evolve_step
               | by eapply notifier_step | solve [eauto with cw_pres] ].
Qed.

(** Delivering writes at most these four tables. *)
Lemma deliver_same {A} (f : Database → A) id :
  (∀ g d, f (upd_notifications g d) = f d) → (∀ g d, f (upd_stream_events g d) = f d) →
  (∀ g d, f (upd_github_records g d) = f d) → (∀ g d, f (upd_audit_events g d) = f d) →
  evolves (same_db f) (deliver settings id).
Proof.
  intros Hn Hs Hg Ha. unfold deliver, record_delivery, record_delivery_failure, assign.
  repeat first [ apply evolves_lift_bind; [tc_solve|intros] | evolve_step
               | by eapply notifier_same | by apply update_db_same | by apply record_audit_same
               | solve [eauto with cw_pres] ].
Qed.

(** What a delivery has no business with. *)
Definition untouched_tables (db : Database) :=
  (db.(incidents), db.(action_proposals), db.(action_executions), db.(approvals),
   db.(policy_decisions), db.(verification_records), db.(incident_events)).

(** ** The calls to Teams *)

Definition is_teams (c : call) : bool := match c with CallTeams _ _ => true | _ => false end.
Definition teams_calls (w : World X) : nat := length (List.filter is_teams w.(trace)).

Lemma same_trace_teams {A} (m : M (World X) A) : evolves same_trace m → evolves (stable teams_calls) m.
Proof. intros Hm w. unfold stable, teams_calls. by rewrite (Hm w). Qed.

Lemma asks_teams policy (w w' : World X) : asks policy w w' → teams_calls w' = teams_calls w.
Proof.
  intros (_ & _ & _ & l & Hl & Hall). unfold teams_calls. rewrite Hl, List.filter_app, length_app.
  replace (List.filter is_teams l) with (@nil call); [simpl; lia|].
  clear Hl. induction Hall as [|c l Hc Hall IH]; [done|]. destruct Hc; exact IH.
Qed.

Lemma notifier_teams channel send m (w w' : World X) r :
  notifier settings channel = Ok send → send m w = (r, w') →
  (teams_calls w' ≤ teams_calls w + 1)%nat.
Proof.
  unfold notifier. repeat case_match; intros [= <-] Hrun.
  - assert (teams_calls w' = teams_calls w) as ->; [|lia].
    eapply (evolves_run (stable teams_calls)); [|exact Hrun].
    apply same_trace_teams. unfold deliver_dashboard. evolve.
  - revert Hrun. unfold deliver_teams, lift, bind, external, record_call, modify.
    destruct (teams_workflow_webhook_url settings) as [url|]; [|intros [= _ <-]; lia].
    destruct (urlsplit url) as [s|e]; [|intros [= _ <-]; lia].
    destruct (teams_host s) as [host|]; [|intros [= _ <-]; lia].
    destruct (teams_post _ _ _).1; intros [= _ <-]; unfold teams_calls; simpl;
      rewrite List.filter_app, length_app; simpl; lia.
  - assert (teams_calls w' = teams_calls w) as ->; [|lia].
    eapply (evolves_run (stable teams_calls)); [|exact Hrun].
    unfold deliver_github_issue, create_issue_once, store_issue, set_github_record.
    repeat first [ evolve_step | apply same_trace_teams; solve [eauto with cw_pres]
                 | by intros ?; eapply asks_teams, create_issue_asks ].
Qed.

Lemma deliver_teams_calls id n (w w' : World X) r :
  w.(work).(notifications) !! id = Some n → deliver settings id w = (r, w') →
  (teams_calls w' ≤ teams_calls w + 1)%nat ∧
  ((n.(ntf_status) = SUCCEEDED ∨ n.(ntf_max_attempts) ≤ n.(ntf_attempts)) → w' = w).
Proof.
  intros Hn. unfold deliver. rewrite (bind_step (query _) _ w _ w eq_refl), Hn.
  destruct (bool_decide _) eqn:Hst; [intros [= _ <-]; split; [lia|done]|].
  destruct (_ <=? _) eqn:Hmax; boolify; [intros [= _ <-]; split; [lia|done]|].
  rewrite (bind_step (raise_if false _) _ w tt w eq_refl). intros Hrun. split; [|intros []; [done|lia]].
  revert Hrun.
  do 2 (rewrite (bind_step (assign _ _ _) _ _ tt _ eq_refl)).
  match goal with |- ?m ?w1 = _ → _ => assert (teams_calls w1 = teams_calls w) as Hc by done;
    revert Hc; generalize w1; intros wa Hc end.
  destruct (NotificationMessage_validate _) as [m|]; [|intros [= _ <-]; lia].
  destruct (notifier settings (ntf_channel n)) as [send|e] eqn:Hch; [|intros [= _ <-]; lia].
  rewrite (bind_step (lift (Ok send)) _ wa send wa eq_refl). unfold bind at 1, catch.
  destruct (send m wa) as [[d|e] wb] eqn:Hsend;
    pose proof (notifier_teams _ _ _ _ _ _ Hch Hsend) as Hb; intros Hrun;
    (assert (teams_calls w' = teams_calls wb) as ->; [|lia]).
  - eapply (evolves_run (stable teams_calls)); [|exact Hrun]. apply same_trace_teams.
    unfold record_delivery. evolve.
  - change (bind (do! when (is_cloudward_error e) (record_delivery_failure id m (error_code e));
                  raise e) (record_delivery id m) wb = (r, w')) in Hrun.
    eapply (evolves_run (stable teams_calls)); [|exact Hrun]. apply same_trace_teams.
    unfold record_delivery, record_delivery_failure. evolve.
Qed.

Definition bearer : option string := Some ("Bearer " +:+ settings.(worker_internal_token)).

(** The whole of one job, from a clean session. *)
Lemma delivery_run id n (w w' : World X) r :
  w.(committed) = w.(work) → w.(work).(notifications) !! id = Some n →
  deliver_notification_job settings bearer id w = (r, w') →
  w'.(committed) = w'.(work) ∧ (teams_calls w' ≤ teams_calls w + 1)%nat ∧
  (n.(ntf_status) = SUCCEEDED ∨ n.(ntf_max_attempts) ≤ n.(ntf_attempts) →
     w'.(trace) = w.(trace)) ∧
  ∃ n', delivered n r n' ∧
    w'.(work).(notifications) = <[id := n']> w.(work).(notifications) ∧
    untouched_tables w'.(work) = untouched_tables w.(work).
Proof.
  intros Hclean Hn. unfold deliver_notification_job.
  rewrite (bool_decide_eq_true_2 (bearer = _)) by done. cbn [negb].
  rewrite (bind_step (raise_if false _) _ w tt w eq_refl). unfold bind at 1, catch.
  destruct (deliver settings id w) as [[[]|e] w1] eqn:Hrun;
    pose proof (evolves_run _ _ _ _ _ (deliver_step id) Hrun) as (_ & Hc & _);
    pose proof (deliver_same untouched_tables id (λ _ _, eq_refl) (λ _ _, eq_refl)
      (λ _ _, eq_refl) (λ _ _, eq_refl) w) as Hu;
    pose proof (deliver_teams_calls _ _ _ _ _ Hn Hrun) as [Ht Hquiet];
    (assert (n.(ntf_status) = SUCCEEDED ∨ n.(ntf_max_attempts) ≤ n.(ntf_attempts) →
             w1.(trace) = w.(trace)) as Hq by (intros Hs; by rewrite (Hquiet Hs)));
    rewrite Hrun in Hu; unfold same_db, stable in Hu; simpl in Hu;
    apply (deliver_run _ _ _ _ _ Hn) in Hrun as (n' & [_ Htab] & Hout).
  - intros [= <- <-]. do 3 (split; [done|]).
    destruct Hout as [Hd|(e & [=] & _)]. by exists n'.
  - unfold bind. destruct (is_cloudward_error e) eqn:He; intros [= <- <-].
    + do 3 (split; [done|]). destruct Hout as [Hd|(e' & [= <-] & He' & _)]; [|congruence].
      by exists n'.
    + simpl. rewrite Hc, Hclean. do 3 (split; [done|]). exists n.
      split; [|by rewrite insert_id]. destruct Hout as [Hd|(e' & [= <-] & _ & ? & ?)];
        [|by apply delivered_lost].
      inversion Hd; simplify_eq; try congruence.
      match goal with H : notifier _ _ = _ |- _ => apply notifier_known in H end. congruence.
Qed.

(** C19: a delivery settles its notification and disturbs nothing else.  A job that
    starts from a clean session ends with everything durable and with the row in one
    of the six outcomes of [delivered]: a success is final; a refusal counts its
    attempt, stores its code and the time of the next attempt (at most 300 seconds
    later), and becomes FAILED with the last attempt allowed; exhausted retries send
    nothing.  No incident, proposal, execution, approval, decision, verification or
    incident event changes, and no other notification. *)
Theorem delivery_settles id n (w w' : World X) r :
  w.(committed) = w.(work) → w.(work).(notifications) !! id = Some n →
  deliver_notification_job settings bearer id w = (r, w') →
  w'.(committed) = w'.(work) ∧ (teams_calls w' ≤ teams_calls w + 1)%nat ∧
  (n.(ntf_status) = SUCCEEDED ∨ n.(ntf_max_attempts) ≤ n.(ntf_attempts) →
     w'.(trace) = w.(trace)) ∧
  ∃ n', delivered n r n' ∧
    w'.(work).(notifications) = <[id := n']> w.(work).(notifications) ∧
    untouched_tables w'.(work) = untouched_tables w.(work).
Proof. apply delivery_run. Qed.

(** Deliveries of one notification that ended in a way the job handles. *)
Definition handled {A} (r : res A) : bool :=
  match r with Ok _ => true | Raise e => is_cloudward_error e end.
Definition delivery_step (id : uuid) (w w' : World X) : Prop :=
  ∃ r, deliver_notification_job settings bearer id w = (r, w') ∧ handled r = true.

End frame.

(** ** A concrete delivery *)

#[export] Instance bench_teams : TeamsServer Z := {|
  teams_post _ _ x := ((if x mod 2 =? 0 then TeamsAccepted else TeamsHttpError), x + 1);
|}.

Definition bench_notification : Notification :=
  {| ntf_id := 9%N; ntf_created_at := 0; ntf_incident_id := Some 7%N; ntf_channel := "dashboard";
     ntf_status := PENDING; ntf_destination_reference := None;
     ntf_event_type := "incident_resolved"; ntf_dedupe_key := "k"; ntf_attempts := 0;
     ntf_max_attempts := 5; ntf_last_error := None; ntf_delivered_at := None;
     ntf_next_attempt_at := None;
     ntf_payload := redact (JObj (NotificationMessage_dump witness_message)) |}.

Definition notified_world : World Z :=
  bench_world (upd_notifications (λ _, {[9%N := bench_notification]}) empty_database).

Definition bench_deliver (w : World Z) : res unit * World Z :=
  deliver_notification_job (Runtime0 := bench_runtime) (H := strict_pydantic) example_settings
    (bearer example_settings) 9%N w.

Lemma bench_delivers : (bench_deliver notified_world).1 = Ok tt.
Proof. vm_compute. reflexivity. Qed.

Lemma bench_run :
  deliver_notification_job (Runtime0 := bench_runtime) (H := strict_pydantic) example_settings
    (bearer example_settings) 9%N notified_world = (Ok tt, (bench_deliver notified_world).2).
Proof. exact (run_of (bench_deliver notified_world) tt bench_delivers). Qed.

Lemma notified_row : notified_world.(work).(notifications) !! 9%N = Some bench_notification.
Proof. apply lookup_singleton_eq. Qed.

Lemma delivery_settles_witness :
  let w' := (bench_deliver notified_world).2 in
  w'.(committed) = w'.(work) ∧
  ∃ n', delivered (Runtime0 := bench_runtime) (GitHubServer0 := bench_github)
      (TeamsServer0 := bench_teams) (urls := bench_urls) example_settings bench_notification (Ok tt) n' ∧
    w'.(work).(notifications) = <[9%N := n']> notified_world.(work).(notifications).
Proof.
  destruct (delivery_settles (Runtime0 := bench_runtime) (H := strict_pydantic) example_settings
    9%N bench_notification notified_world _ _ eq_refl notified_row bench_run)
    as (Hc & _ & _ & n' & Hd & Ht & _).
  split; [exact Hc|]. exists n'. exact (conj Hd Ht).
Defined.

