(* ===== verification/PyNumber.v ===== *)
(** * Python numbers

    An [int] or a [float], with the comparisons, [min], [max], true division and
    [math.ceil] of mixed operands.  An integer is compared with a float exactly, and
    divided by an integer with one rounding; elsewhere it is converted first, which
    fails when it is beyond the floats. *)

From S2P Require Import Prelude PyFloat Json Effects JsonParse.
From Stdlib Require Import SpecFloat.

Inductive number : Type := NInt (z : Z) | NFloat (f : float).

#[export] Instance number_eq_dec : EqDecision number.
Proof. solve_decision. Defined.

Definition number_json (n : number) : json :=
  match n with NInt z => JInt z | NFloat f => JFloat f end.

Definition overflow (message : string) : exn := PyError "OverflowError" message.
Definition zero_division : exn := PyError "ZeroDivisionError" "division by zero".

(** The integer [z] against the float [f], without rounding. *)
Definition compare_int (z : Z) (f : float) : option comparison :=
  match f with
  | S754_nan => None
  | S754_infinity s => Some (if s then Gt else Lt)
  | _ => let '(n, d) := to_ratio f in Some (z * Zpos d ?= n)
  end.

Definition num_ltb (a b : number) : bool :=
  match a, b with
  | NInt x, NInt y => x <? y
  | NFloat x, NFloat y => fltb x y
  | NInt x, NFloat y => bool_decide (compare_int x y = Some Lt)
  | NFloat x, NInt y => bool_decide (compare_int y x = Some Gt)
  end.

(** The first argument on ties. *)
Definition num_min (a b : number) : number := if num_ltb b a then b else a.
Definition num_max (a b : number) : number := if num_ltb a b then b else a.

Definition float_of_int (z : Z) : res float :=
  let f := float_of_Z z in
  if is_finite f then Ok f else Raise (overflow "int too large to convert to float").

Definition num_float (n : number) : res float :=
  match n with NInt z => float_of_int z | NFloat f => Ok f end.

Definition float_div (x y : float) : res float :=
  if feqb y fzero then Raise zero_division else Ok (fdiv x y).

Definition int_ratio (a b : Z) : float :=
  match a, b with
  | Zpos p, Zpos q | Zneg p, Zneg q => float_of_ratio false p q
  | Zpos p, Zneg q | Zneg p, Zpos q => float_of_ratio true p q
  | _, _ => fzero
  end.

(** [a / b]. *)
Definition num_div (a b : number) : res float :=
  match a, b with
  | NInt x, NInt y =>
      if y =? 0 then Raise zero_division
      else if is_finite (int_ratio x y) then Ok (int_ratio x y)
      else Raise (overflow "integer division result too large for a float")
  | _, _ => res_bind (num_float a) (λ x, res_bind (num_float b) (λ y, float_div x y))
  end.

Definition finite_only {A} (f : float) (a : A) : res A :=
  match f with
  | S754_nan => Raise (PyError "ValueError" "cannot convert float NaN to integer")
  | S754_infinity _ => Raise (overflow "cannot convert float infinity to integer")
  | _ => Ok a
  end.

(** [math.ceil], [math.floor], [round] and [int] of a float. *)
Definition py_ceil (f : float) : res Z := finite_only f (fceil f).
Definition py_floor (f : float) : res Z := finite_only f (ffloor f).
Definition py_round (f : float) : res Z := finite_only f (fround f).
Definition py_trunc (f : float) : res Z := finite_only f (ftrunc f).

Example num_ltb_exact :
  num_ltb (NInt (2 ^ 53)) (NFloat (float_of_Z (2 ^ 53 + 1))) = false ∧
  num_ltb (NFloat (float_of_Z (2 ^ 53))) (NInt (2 ^ 53 + 1)) = true.
Proof. vm_compute. done. Qed.

Lemma num_min_cases a b : num_min a b = a ∨ num_min a b = b ∧ num_ltb b a = true.
Proof. unfold num_min. destruct (num_ltb b a) eqn:?; auto. Qed.

(** ** Exact roundings

    A value of at most 53 significant bits is never changed by rounding, so dividing
    by a power of two is exact, and a positive float divided by itself is one. *)

Lemma digits_unique p d : 2 ^ (d - 1) ≤ Zpos p < 2 ^ d → Zpos (digits2_pos p) = d.
Proof.
  intros [Hlo Hhi]. pose proof (digits2_bounds p) as [Hlo' Hhi'].
  assert (d - 1 < Zpos (digits2_pos p)).
  { apply (Z.pow_lt_mono_r_iff 2); lia. }
  assert (Zpos (digits2_pos p) - 1 < d); [|lia].
  destruct (Z_lt_le_dec d 0) as [Hd|Hd]; [rewrite (Z.pow_neg_r 2 d) in Hhi by lia; lia|].
  apply (Z.pow_lt_mono_r_iff 2); lia.
Qed.

Lemma digits_shift m n : 0 < m → 0 ≤ n → Zdigits2 (m * 2 ^ n) = Zdigits2 m + n.
Proof.
  intros Hm Hn. assert (0 < 2 ^ n) by (apply Z.pow_pos_nonneg; lia).
  destruct m as [|p|]; try lia. destruct (Zpos p * 2 ^ n) as [|q|] eqn:Hq; try nia.
  simpl Zdigits2. apply digits_unique. rewrite <- Hq.
  pose proof (digits2_bounds p) as [Hlo Hhi].
  replace (Zpos (digits2_pos p) + n - 1) with (Zpos (digits2_pos p) - 1 + n) by lia.
  rewrite !Z.pow_add_r by lia. nia.
Qed.

Lemma digits_at_most m k : 0 < m → m < 2 ^ k → 0 ≤ k → Zdigits2 m ≤ k.
Proof.
  intros Hm Hlt Hk. destruct m as [|p|]; try lia. simpl.
  pose proof (digits2_bounds p) as [Hlo _].
  assert (Zpos (digits2_pos p) - 1 < k) by (apply (Z.pow_lt_mono_r_iff 2); lia). lia.
Qed.

Lemma shr_fexp_exact a n e r e1 :
  0 < a < 2 ^ 53 → 0 ≤ n → -1074 ≤ e + n →
  shr_fexp prec emax (a * 2 ^ n) e loc_Exact = (r, e1) →
  loc_of_shr_record r = loc_Exact ∧ e ≤ e1 ≤ e + n ∧ shr_m r = a * 2 ^ (e + n - e1).
Proof.
  intros Ha Hn He. unfold shr_fexp, shr, fexp. rewrite digits_shift by lia. simpl shr_record_of_loc.
  pose proof (digits_at_most a 53 ltac:(lia) ltac:(lia) ltac:(lia)) as Hd.
  unfold SpecFloat.emin, prec, emax.
  destruct (Z.max _ _ - e) as [|k|k] eqn:Hk; intros Heq; simplify_eq; simpl.
  - split_and!; [done|lia..|]. f_equal. f_equal. lia.
  - rewrite iter_pos_iter.
    pose proof (shr_iter_inv (a * 2 ^ n) (Pos.to_nat k) ltac:(nia)) as [Hq Hx].
    rewrite positive_nat_Z in Hq, Hx. set (r := Nat.iter _ _ _) in *.
    assert (a * 2 ^ n = a * 2 ^ (n - Zpos k) * 2 ^ Zpos k) as Hsplit.
    { rewrite <- Z.mul_assoc, <- Z.pow_add_r by lia. do 2 f_equal. lia. }
    assert (2 ^ Zpos k ≠ 0) by (apply Z.pow_nonzero; lia).
    split_and!; [|lia..|].
    + destruct (loc_of_shr_record r) as [|c]; [done|].
      exfalso. apply Hx; [done|]. rewrite Hsplit. by apply Z.mod_mul.
    + rewrite Hq, Hsplit, Z.div_mul by done. do 2 f_equal. lia.
  - split_and!; [done|lia..|]. f_equal. f_equal. lia.
Qed.

Lemma round_exact a n e :
  0 < a < 2 ^ 53 → 0 ≤ n → -1074 ≤ e + n ≤ 971 →
  ∃ m' e', binary_round_aux prec emax false (a * 2 ^ n) e loc_Exact = S754_finite false m' e' ∧
    e' ≤ e + n ∧ Zpos m' = a * 2 ^ (e + n - e').
Proof.
  intros Ha Hn He. unfold binary_round_aux.
  destruct (shr_fexp prec emax (a * 2 ^ n) e loc_Exact) as [r1 e1] eqn:E1.
  apply shr_fexp_exact in E1 as (Hl1 & He1 & Hm1); [|lia..].
  rewrite Hl1, Hm1. simpl round_nearest_even.
  destruct (shr_fexp prec emax _ e1 loc_Exact) as [r2 e2] eqn:E2.
  apply shr_fexp_exact in E2 as (_ & He2 & Hm2); [|lia..].
  assert (0 < shr_m r2) as Hpos.
  { rewrite Hm2. apply Z.mul_pos_pos; [lia|]. apply Z.pow_pos_nonneg; lia. }
  destruct (shr_m r2) as [|p|p] eqn:Hp; try lia.
  replace (e2 <=? emax - prec) with true
    by (symmetry; apply Z.leb_le; unfold emax, prec; lia).
  exists p, e2. split_and!; [done|lia|]. rewrite Hm2. do 2 f_equal. lia.
Qed.

(** A rounded mantissa has at most 53 bits and a rounded exponent is in range. *)
Lemma shr_m_iter r n : 0 ≤ shr_m r → shr_m (Nat.iter n shr_1 r) = shr_m r / 2 ^ Z.of_nat n.
Proof.
  intros Hr. induction n as [|n IH]; simpl Nat.iter; [by rewrite Z.div_1_r|].
  assert (0 < 2 ^ Z.of_nat n) by (apply Z.pow_pos_nonneg; lia).
  destruct (Nat.iter n shr_1 r) as [q b s]. simpl in IH.
  destruct (shr_1_step q b s) as [-> _]; [subst q; apply Z.div_pos; lia|].
  rewrite IH, Z.div_div by lia. f_equal.
  replace (Z.of_nat (S n)) with (Z.of_nat n + 1) by lia. rewrite pow2_succ by lia. lia.
Qed.

Lemma shr_fexp_small m e l r e1 :
  0 ≤ m → shr_fexp prec emax m e l = (r, e1) → 0 ≤ shr_m r < 2 ^ 53.
Proof.
  intros Hm. unfold shr_fexp, shr, fexp.
  assert (shr_m (shr_record_of_loc m l) = m) as Hl by (by destruct l as [|[]]).
  destruct m as [|p|p]; [| |lia].
  { intros Heq. destruct (Z.max _ _ - e) as [|k|k]; simplify_eq; rewrite ?Hl; try lia.
    rewrite iter_pos_iter, shr_m_iter; rewrite Hl; [|lia].
    rewrite Z.div_0_l by (apply Z.pow_nonzero; lia). lia. }
  pose proof (digits2_bounds p) as [_ Hd]. simpl Zdigits2. unfold SpecFloat.emin, prec, emax.
  assert (∀ k, Zpos (digits2_pos p) ≤ k → 2 ^ Zpos (digits2_pos p) ≤ 2 ^ k)
    as Hmono by (intros; apply Z.pow_le_mono_r; lia).
  destruct (Z.max _ _ - e) as [|k|k] eqn:Hk; intros Heq; simplify_eq; rewrite ?Hl.
  - specialize (Hmono 53). lia.
  - rewrite iter_pos_iter, shr_m_iter; rewrite Hl; [|lia]. rewrite positive_nat_Z.
    assert (0 < 2 ^ Zpos k) by (apply Z.pow_pos_nonneg; lia).
    split; [by apply Z.div_pos|]. apply Z.div_lt_upper_bound; [done|].
    rewrite Z.mul_comm, <- Z.pow_add_r by lia. specialize (Hmono (53 + Zpos k)). lia.
  - specialize (Hmono 53). lia.
Qed.

Lemma round_small s m e l s' m' e' :
  0 ≤ m → binary_round_aux prec emax s m e l = S754_finite s' m' e' →
  Zpos m' < 2 ^ 53 ∧ e' ≤ 971.
Proof.
  intros Hm. unfold binary_round_aux. destruct (shr_fexp prec emax m e l) as [r1 e1] eqn:E1.
  pose proof (shr_fexp_small _ _ _ _ _ Hm E1) as H1.
  set (m2 := round_nearest_even _ _).
  assert (0 ≤ m2) as Hm2.
  { unfold m2. destruct (round_nearest_even_cases (shr_m r1) (loc_of_shr_record r1))
      as [->|[-> _]]; lia. }
  destruct (shr_fexp prec emax m2 e1 loc_Exact) as [r2 e2] eqn:E2.
  pose proof (shr_fexp_small _ _ _ _ _ Hm2 E2) as H2.
  destruct (shr_m r2) as [|p|p]; [done| |done].
  destruct (e2 <=? emax - prec) eqn:He; intros [= <- <- <-].
  apply Z.leb_le in He. unfold emax, prec in He. lia.
Qed.

Lemma fmul_small x y s m e : fmul x y = S754_finite s m e → Zpos m < 2 ^ 53 ∧ e ≤ 971.
Proof.
  unfold fmul, SFmul. destruct x as [|[]| |sx mx ex], y as [|[]| |sy my ey]; try done.
  apply round_small. lia.
Qed.

(** [f / 2 ** k] is exact while it stays a normal number. *)
Definition mib_float : float := float_of_Z 1048576.

Lemma fdiv_mib m e :
  Zpos m < 2 ^ 53 → -1054 ≤ e ≤ 971 →
  ∃ m' e', fdiv (S754_finite false m e) mib_float = S754_finite false m' e' ∧
    e' ≤ e - 20 ∧ Zpos m' = Zpos m * 2 ^ (e - 20 - e').
Proof.
  intros Hm He. change mib_float with (S754_finite false 4503599627370496 (-32)).
  unfold fdiv, SFdiv, SFdiv_core_binary, fexp.
  pose proof (digits_at_most (Zpos m) 53 ltac:(lia) Hm ltac:(lia)) as Hd.
  change (Zdigits2 4503599627370496) with 53. unfold SpecFloat.emin, prec, emax.
  set (e1 := Z.min _ _). set (s := e - -32 - e1).
  assert (52 ≤ s) as Hs by (unfold s, e1; lia).
  assert (match s with Z0 => Zpos m | Zpos _ => Z.shiftl (Zpos m) s | Zneg _ => 0 end
          = Zpos m * 2 ^ (s - 52) * 4503599627370496) as ->.
  { destruct s as [|s0|s0] eqn:Hs0; try lia. rewrite Z.shiftl_mul_pow2 by lia.
    change 4503599627370496 with (2 ^ 52). rewrite <- Z.mul_assoc, <- Z.pow_add_r by lia.
    do 2 f_equal. lia. }
  destruct (Z.div_eucl _ 4503599627370496) as [q r] eqn:Hqr.
  assert (q = Zpos m * 2 ^ (s - 52) ∧ r = 0) as [-> ->].
  { pose proof (Z_div_mod (Zpos m * 2 ^ (s - 52) * 4503599627370496) 4503599627370496
      ltac:(lia)) as Hdm. rewrite Hqr in Hdm. lia. }
  change (new_location 4503599627370496 0) with loc_Exact.
  destruct (round_exact (Zpos m) (s - 52) e1) as (m' & e' & Hr & He' & Hm'); [lia..|].
  exists m', e'. split; [exact Hr|]. replace (e - 20) with (e1 + (s - 52)) by (unfold s; lia).
  by split.
Qed.

Lemma fdiv_self m e : fdiv (S754_finite false m e) (S754_finite false m e) = fone.
Proof.
  unfold fdiv, SFdiv, SFdiv_core_binary. rewrite !Z.sub_diag.
  change (Z.min (fexp prec emax 0) 0) with (-53). change (0 - -53) with 53. cbv iota.
  rewrite Z.shiftl_mul_pow2 by lia.
  destruct (Z.div_eucl _ _) as [q r] eqn:Hqr.
  assert (q = 2 ^ 53 ∧ r = 0) as [-> ->].
  { pose proof (Z_div_mod (Zpos m * 2 ^ 53) (Zpos m) ltac:(lia)) as Hdm. rewrite Hqr in Hdm.
    assert (Zpos m * (q - 2 ^ 53) = - r) by lia. assert (q = 2 ^ 53) by nia. lia. }
  replace (new_location (Zpos m) 0) with loc_Exact by (destruct m; reflexivity).
  vm_compute. reflexivity.
Qed.

(** Rounding a size up to a whole number of mebibytes never makes it smaller. *)
Lemma ceil_mib f n :
  ∀ m e, f = S754_finite false m e → Zpos m < 2 ^ 53 → -1054 ≤ e ≤ 971 →
  py_ceil (fdiv f mib_float) = Ok n → num_ltb (NInt (n * 1048576)) (NFloat f) = false.
Proof.
  intros m e -> Hm He. destruct (fdiv_mib m e Hm He) as (m' & e' & -> & He' & Hm').
  intros [= <-]. unfold num_ltb. apply bool_decide_eq_false. unfold compare_int, fceil, to_ratio.
  simpl cond_Zopp. destruct (0 <=? e') eqn:Hz'; cbv beta iota.
  - boolify. replace (0 <=? e) with true by (symmetry; apply Z.leb_le; lia). cbv iota.
    intros [= Hlt]. revert Hlt. rewrite Z.div_1_r, Z.compare_lt_iff, Hm'.
    replace (2 ^ e) with (2 ^ (e - 20 - e') * 2 ^ e' * 2 ^ 20); [lia|].
    rewrite <- !Z.pow_add_r by lia. f_equal. lia.
  - boolify. rewrite Z2Pos.id by (apply Z.pow_pos_nonneg; lia).
    assert (0 < 2 ^ (- e')) as Hp by (apply Z.pow_pos_nonneg; lia).
    set (q := (- Zpos m') / 2 ^ (- e')).
    assert (Zpos m' ≤ - q * 2 ^ (- e')) as Hq
      by (pose proof (Z.mul_div_le (- Zpos m') (2 ^ (- e')) Hp); unfold q; lia).
    rewrite Hm' in Hq. assert (0 < 2 ^ (e - 20 - e')) by (apply Z.pow_pos_nonneg; lia).
    destruct (0 <=? e) eqn:Hz; boolify; cbv beta iota; intros [= Hlt]; revert Hlt;
      rewrite Z.compare_lt_iff.
    + assert (2 ^ e * 2 ^ (- e') = 2 ^ (e - 20 - e') * 1048576) as Hsplit.
      { change 1048576 with (2 ^ 20). rewrite <- !Z.pow_add_r by lia. f_equal. lia. }
      intros Hlt. apply (Z.mul_lt_mono_pos_r (2 ^ (- e'))) in Hlt; [|done]. nia.
    + rewrite Z2Pos.id by (apply Z.pow_pos_nonneg; lia).
      assert (2 ^ (- e') = 2 ^ (e - 20 - e') * (1048576 * 2 ^ (- e))) as Hsplit.
      { change 1048576 with (2 ^ 20). rewrite <- !Z.pow_add_r by lia. f_equal. lia. }
      rewrite Hsplit in Hq. nia.
Qed.

(** ** Inversion of fallible code *)

Lemma validated_is {A} model valid (a b : A) : validated model valid a = Ok b → b = a ∧ valid a = true.
Proof. unfold validated. destruct (valid a) eqn:?; naive_solver. Qed.

(** Read a chain of fallible steps that succeeded. *)
Ltac run_res H :=
  repeat match type of H with
  | res_bind _ _ = Ok _ =>
      let a := fresh "a" in let Ha := fresh "Ha" in
      apply res_bind_ok in H as (a & Ha & H); cbv beta in H
  end.
