(* ===== verification/FinOpsEngine.v ===== *)
(** * The FinOps engine

    [finops/schemas.py] and [finops/engine.py]: rightsizing of a workload and the
    efficiency of nodes, from observed series only. *)

From S2P Require Import Prelude PyFloat Json Sha256 Effects Actions StateMachine Models World.
From S2P Require Import Config Memory PyNumber.
From Stdlib Require Import SpecFloat.

(** ** The contracts ([schemas.py]) *)

Record EvidenceWindow := {
  ew_start : datetime;
  ew_end : datetime;
  ew_requested_seconds : Z;
  ew_observed_seconds : Z;
  ew_sample_count : Z;
  ew_demo_oriented : bool;
}.

Definition EvidenceWindow_valid (w : EvidenceWindow) : bool :=
  (60 <=? w.(ew_requested_seconds)) && (0 <=? w.(ew_observed_seconds)) &&
  (0 <=? w.(ew_sample_count)) && (w.(ew_start) <? w.(ew_end)).

Record UsageSeries := {
  us_values : list float;
  us_first_timestamp : option datetime;
  us_last_timestamp : option datetime;
}.

Record CostAllocation := {
  ca_total_cost : option float;
  ca_cpu_cost : option float;
  ca_memory_cost : option float;
  ca_currency : string;
}.

(** [model: Literal["opencost-local"]]. *)
Definition ALLOCATION_MODEL : string := "opencost-local".

Definition opt_all {A} (p : A → bool) (o : option A) : bool :=
  match o with Some a => p a | None => true end.

Definition CostAllocation_valid (a : CostAllocation) : bool :=
  opt_all (fleb fzero) a.(ca_total_cost) && opt_all (fleb fzero) a.(ca_cpu_cost) &&
  opt_all (fleb fzero) a.(ca_memory_cost) && len_between 3 8 a.(ca_currency).

Record WorkloadObservation := {
  wo_service : string;
  wo_environment : string;
  wo_namespace : string;
  wo_deployment : string;
  wo_replicas : Z;
  wo_cpu_request_cores : float;
  wo_cpu_limit_cores : option float;
  wo_memory_request_bytes : float;
  wo_memory_limit_bytes : option float;
  wo_cpu_usage_cores : UsageSeries;
  wo_memory_usage_bytes : UsageSeries;
  wo_allocation : CostAllocation;
  wo_window : EvidenceWindow;
  wo_source_queries : list (string * string);
}.

Definition OBSERVED_ENVIRONMENTS : list string := ["local"; "staging"; "production"].

Definition WorkloadObservation_valid (o : WorkloadObservation) : bool :=
  len_between 1 253 o.(wo_service) &&
  bool_decide (o.(wo_environment) ∈ OBSERVED_ENVIRONMENTS) &&
  len_between 1 253 o.(wo_namespace) && len_between 1 253 o.(wo_deployment) &&
  (1 <=? o.(wo_replicas)) &&
  fltb fzero o.(wo_cpu_request_cores) && opt_all (fltb fzero) o.(wo_cpu_limit_cores) &&
  fltb fzero o.(wo_memory_request_bytes) && opt_all (fltb fzero) o.(wo_memory_limit_bytes).

Record NodeObservation := {
  no_environment : string;
  no_node_count : Z;
  no_allocatable_cpu_cores : float;
  no_allocatable_memory_bytes : float;
  no_requested_cpu_cores : float;
  no_requested_memory_bytes : float;
  no_cpu_usage_cores : UsageSeries;
  no_memory_usage_bytes : UsageSeries;
  no_pod_count : Z;
  no_allocation : CostAllocation;
  no_window : EvidenceWindow;
  no_source_queries : list (string * string);
}.

Definition NodeObservation_valid (o : NodeObservation) : bool :=
  bool_decide (o.(no_environment) ∈ OBSERVED_ENVIRONMENTS) && (1 <=? o.(no_node_count)) &&
  fltb fzero o.(no_allocatable_cpu_cores) && fltb fzero o.(no_allocatable_memory_bytes) &&
  fleb fzero o.(no_requested_cpu_cores) && fleb fzero o.(no_requested_memory_bytes) &&
  (0 <=? o.(no_pod_count)).

Record Percentiles := { p50 : float; p95 : float; p99 : float }.

Definition Percentiles_valid (p : Percentiles) : bool :=
  fleb fzero p.(p50) && fleb fzero p.(p95) && fleb fzero p.(p99).

Inductive RecommendationType := WORKLOAD_RIGHTSIZING | NODE_EFFICIENCY.

#[export] Instance RecommendationType_eq_dec : EqDecision RecommendationType.
Proof. solve_decision. Defined.

Definition RecommendationType_value (t : RecommendationType) : string :=
  match t with
  | WORKLOAD_RIGHTSIZING => "WORKLOAD_RIGHTSIZING"
  | NODE_EFFICIENCY => "NODE_EFFICIENCY"
  end.

Record RecommendationDraft := {
  rd_recommendation_type : RecommendationType;
  rd_service : string;
  rd_environment : string;
  rd_why : string;
  rd_current_config : dict;
  rd_recommended_config : dict;
  rd_evidence : dict;
  rd_estimated_savings : dict;
  rd_risk_score : Z;
  rd_confidence : float;
  rd_limitations : list string;
  rd_evidence_window : EvidenceWindow;
  rd_source_fingerprint : string;
}.

Definition RecommendationDraft_valid (d : RecommendationDraft) : bool :=
  within 0 100 d.(rd_risk_score) &&
  fleb fzero d.(rd_confidence) && fleb d.(rd_confidence) fone &&
  len_between 64 64 d.(rd_source_fingerprint).

Inductive Outcome := RECOMMENDED | NO_RECOMMENDATION | INSUFFICIENT_DATA.

#[export] Instance Outcome_eq_dec : EqDecision Outcome.
Proof. solve_decision. Defined.

Definition Outcome_value (o : Outcome) : string :=
  match o with
  | RECOMMENDED => "RECOMMENDED"
  | NO_RECOMMENDATION => "NO_RECOMMENDATION"
  | INSUFFICIENT_DATA => "INSUFFICIENT_DATA"
  end.

Record AnalysisResult := {
  ar_scenario_id : string;
  ar_outcome : Outcome;
  ar_reason : string;
  ar_recommendation : option RecommendationDraft;
  ar_observed : dict;
}.

(** ** Serialization

    [model_dump(mode="json")]: how pydantic writes a float and a time. *)

Class FinOpsDump := {
  dump_float : float → json;
  dump_datetime : datetime → string;
}.

Definition JQueries (queries : list (string * string)) : json :=
  JObj (map (λ '(k, v), (k, JStr v)) queries).

(** [model_dump()], which leaves floats alone. *)
Definition Percentiles_dump (p : Percentiles) : json :=
  JObj [("p50", JFloat p.(p50)); ("p95", JFloat p.(p95)); ("p99", JFloat p.(p99))].

Definition CostAllocation_dump_with (f : float → json) (a : CostAllocation) : json :=
  JObj [("total_cost", opt_json f a.(ca_total_cost)); ("cpu_cost", opt_json f a.(ca_cpu_cost));
        ("memory_cost", opt_json f a.(ca_memory_cost)); ("currency", JStr a.(ca_currency));
        ("model", JStr ALLOCATION_MODEL)].
Definition CostAllocation_dump : CostAllocation → json := CostAllocation_dump_with JFloat.

Section dump.
Context {dump : FinOpsDump}.

Definition JTime (t : datetime) : json := JStr (dump_datetime t).

Definition UsageSeries_dump (s : UsageSeries) : json :=
  JObj [("values", JArr (map dump_float s.(us_values)));
        ("first_timestamp", opt_json JTime s.(us_first_timestamp));
        ("last_timestamp", opt_json JTime s.(us_last_timestamp))].

Definition EvidenceWindow_dump (w : EvidenceWindow) : json :=
  JObj [("start", JTime w.(ew_start)); ("end", JTime w.(ew_end));
        ("requested_seconds", JInt w.(ew_requested_seconds));
        ("observed_seconds", JInt w.(ew_observed_seconds));
        ("sample_count", JInt w.(ew_sample_count));
        ("demo_oriented", JBool w.(ew_demo_oriented))].

Definition WorkloadObservation_dump (o : WorkloadObservation) : dict :=
  [("service", JStr o.(wo_service)); ("environment", JStr o.(wo_environment));
   ("namespace", JStr o.(wo_namespace)); ("deployment", JStr o.(wo_deployment));
   ("replicas", JInt o.(wo_replicas)); ("cpu_request_cores", dump_float o.(wo_cpu_request_cores));
   ("cpu_limit_cores", opt_json dump_float o.(wo_cpu_limit_cores));
   ("memory_request_bytes", dump_float o.(wo_memory_request_bytes));
   ("memory_limit_bytes", opt_json dump_float o.(wo_memory_limit_bytes));
   ("cpu_usage_cores", UsageSeries_dump o.(wo_cpu_usage_cores));
   ("memory_usage_bytes", UsageSeries_dump o.(wo_memory_usage_bytes));
   ("allocation", CostAllocation_dump_with dump_float o.(wo_allocation));
   ("window", EvidenceWindow_dump o.(wo_window));
   ("source_queries", JQueries o.(wo_source_queries))].

Definition NodeObservation_dump (o : NodeObservation) : dict :=
  [("environment", JStr o.(no_environment)); ("node_count", JInt o.(no_node_count));
   ("allocatable_cpu_cores", dump_float o.(no_allocatable_cpu_cores));
   ("allocatable_memory_bytes", dump_float o.(no_allocatable_memory_bytes));
   ("requested_cpu_cores", dump_float o.(no_requested_cpu_cores));
   ("requested_memory_bytes", dump_float o.(no_requested_memory_bytes));
   ("cpu_usage_cores", UsageSeries_dump o.(no_cpu_usage_cores));
   ("memory_usage_bytes", UsageSeries_dump o.(no_memory_usage_bytes));
   ("pod_count", JInt o.(no_pod_count));
   ("allocation", CostAllocation_dump_with dump_float o.(no_allocation));
   ("window", EvidenceWindow_dump o.(no_window));
   ("source_queries", JQueries o.(no_source_queries))].
End dump.

(** ** The engine ([engine.py]) *)

Definition MIB : Z := 1024 * 1024.

Record FinOpsPolicy := {
  fp_cpu_headroom_factor : float;
  fp_memory_headroom_factor : float;
  fp_minimum_cpu_cores : float;
  fp_minimum_memory_bytes : Z;
  fp_minimum_reduction_fraction : float;
  fp_minimum_samples : Z;
  fp_minimum_demo_window_seconds : Z;
  fp_minimum_production_window_seconds : Z;
  fp_minimum_coverage : float;
  fp_node_request_utilization_threshold : float;
  fp_node_actual_utilization_threshold : float;
}.

(** [_quantile]: linear interpolation between the two closest ranks. *)
Definition usable (f : float) : bool := is_finite f && fleb fzero f.
Definition ordered_values (values : list float) : list float :=
  isort (λ a b, negb (fltb b a)) (List.filter usable values).

Definition no_samples : exn :=
  PyError "ValueError" "usage series has no finite non-negative values".
Definition nth_value (l : list float) (i : Z) : res float :=
  match l !! Z.to_nat i with
  | Some f => Ok f
  | None => Raise (PyError "IndexError" "list index out of range")
  end.

Definition quantile (values : list float) (q : float) : res float :=
  let ordered := ordered_values values in
  if bool_decide (ordered = []) then Raise no_samples
  else
    let position := fmul (float_of_Z (Z.of_nat (length ordered) - 1)) q in
    res_bind (py_floor position) (λ lower,
    res_bind (py_ceil position) (λ upper,
    res_bind (nth_value ordered lower) (λ low,
    if lower =? upper then Ok low
    else res_bind (nth_value ordered upper) (λ high,
      Ok (fadd low (fmul (fsub high low) (fsub position (float_of_Z lower)))))))).

Definition percentiles (s : UsageSeries) : res Percentiles :=
  res_bind (quantile s.(us_values) (float_of_decimal 50 (-2))) (λ q50,
  res_bind (quantile s.(us_values) (float_of_decimal 95 (-2))) (λ q95,
  res_bind (quantile s.(us_values) (float_of_decimal 99 (-2))) (λ q99,
  validated "Percentiles" Percentiles_valid {| p50 := q50; p95 := q95; p99 := q99 |}))).

Definition round_cpu_up (value : float) : res float :=
  res_bind (py_ceil (fmul value (float_of_Z 100))) (λ n, num_div (NInt n) (NInt 100)).

Definition round_memory_up (value : number) : res Z :=
  res_bind (num_div value (NInt MIB)) (λ m, res_bind (py_ceil m) (λ n, Ok (n * MIB))).

(** [json.dumps(payload, sort_keys=True, separators=(",", ":"), default=str)], hashed. *)
Definition digest (payload : dict) : string := sha256_hex (dumps (JObj payload)).

Definition F1 : string := "finops.overprovisioned-workload".
Definition F2 : string := "finops.wasted-node-capacity".

Definition insufficient_data (scenario reason : string) (observed : dict) : AnalysisResult :=
  {| ar_scenario_id := scenario; ar_outcome := INSUFFICIENT_DATA; ar_reason := reason;
     ar_recommendation := None; ar_observed := observed |}.
Definition no_recommendation (scenario reason : string) (observed : dict) : AnalysisResult :=
  {| ar_scenario_id := scenario; ar_outcome := NO_RECOMMENDATION; ar_reason := reason;
     ar_recommendation := None; ar_observed := observed |}.
Definition recommended (scenario : string) (draft : RecommendationDraft) (observed : dict)
  : AnalysisResult :=
  {| ar_scenario_id := scenario; ar_outcome := RECOMMENDED; ar_reason := draft.(rd_why);
     ar_recommendation := Some draft; ar_observed := observed |}.

Section engine.
Context {dump : FinOpsDump} (policy : FinOpsPolicy).

(** [_window_problem]. *)
Definition required_window (environment : string) : Z :=
  if String.eqb environment "production"
  then policy.(fp_minimum_production_window_seconds)
  else policy.(fp_minimum_demo_window_seconds).

Definition window_problem (environment : string) (requested observed samples : Z)
  : res (option string) :=
  let required := required_window environment in
  if requested <? required then
    Ok (Some ("The requested observation window is below the " +:+ str_of_Z required +:+
              "-second minimum."))
  else res_bind (float_of_int requested) (λ r,
    if num_ltb (NInt observed) (NFloat (fmul r policy.(fp_minimum_coverage))) then
      Ok (Some "Observed samples do not cover enough of the requested evidence window.")
    else if samples <? policy.(fp_minimum_samples) then
      Ok (Some "Too few utilization samples were observed for a safe recommendation.")
    else Ok None).

(** [min(len(cpu.values), len(memory.values))]. *)
Definition sample_count (cpu memory : UsageSeries) : Z :=
  Z.min (Z.of_nat (length cpu.(us_values))) (Z.of_nat (length memory.(us_values))).

(** The requests that would do: p95 with headroom, at least the minimum, rounded up. *)
Definition cpu_target (cpu : Percentiles) : res float :=
  round_cpu_up (fmax (fmul cpu.(p95) policy.(fp_cpu_headroom_factor))
                     policy.(fp_minimum_cpu_cores)).
Definition memory_need (memory : Percentiles) : number :=
  num_max (NFloat (fmul memory.(p95) policy.(fp_memory_headroom_factor)))
          (NInt policy.(fp_minimum_memory_bytes)).
Definition memory_target (memory : Percentiles) : res Z := round_memory_up (memory_need memory).

(** A recommendation too close to the current request is dropped: the value kept
    and the fraction it saves. *)
Definition kept (current : float) (target : number) : res (number * float) :=
  res_bind (num_div target (NFloat current)) (λ ratio,
  let reduction := fsub fone ratio in
  Ok (if fltb reduction policy.(fp_minimum_reduction_fraction)
      then (NFloat current, fzero) else (target, reduction))).

Record Sizing := {
  sz_cpu_percentiles : Percentiles;
  sz_memory_percentiles : Percentiles;
  sz_cpu : number;
  sz_cpu_reduction : float;
  sz_memory : number;
  sz_memory_reduction : float;
}.

Definition sizing (o : WorkloadObservation) : res Sizing :=
  res_bind (percentiles o.(wo_cpu_usage_cores)) (λ cpu,
  res_bind (percentiles o.(wo_memory_usage_bytes)) (λ memory,
  res_bind (cpu_target cpu) (λ tc,
  res_bind (memory_target memory) (λ tm,
  res_bind (kept o.(wo_cpu_request_cores)
              (num_min (NFloat o.(wo_cpu_request_cores)) (NFloat tc))) (λ '(c, rc),
  res_bind (kept o.(wo_memory_request_bytes)
              (num_min (NFloat o.(wo_memory_request_bytes)) (NInt tm))) (λ '(m, rm),
  Ok {| sz_cpu_percentiles := cpu; sz_memory_percentiles := memory; sz_cpu := c;
        sz_cpu_reduction := rc; sz_memory := m; sz_memory_reduction := rm |})))))).

(** ** Rightsizing *)

Definition workload_coverage (w : EvidenceWindow) : res float :=
  num_div (NInt w.(ew_observed_seconds)) (NInt w.(ew_requested_seconds)).

Definition workload_confidence (o : WorkloadObservation) : res float :=
  res_bind (workload_coverage o.(wo_window)) (λ ratio,
  let coverage := fmin fone ratio in
  let completeness := match o.(wo_allocation).(ca_total_cost) with
                      | Some _ => fone | None => float_of_decimal 85 (-2) end in
  Ok (fround_digits (fmin (float_of_decimal 99 (-2)) (fmul coverage completeness)) 2)).

Definition production_risk (environment : string) : Z :=
  if String.eqb environment "production" then 20 else 0.

Definition workload_risk (environment : string) (reduction confidence : float) : res Z :=
  res_bind (py_round
    (fadd (fadd (fadd (float_of_Z 10) (fmul reduction (float_of_Z 35)))
                (fmul (fsub fone confidence) (float_of_Z 25)))
          (float_of_Z (production_risk environment)))) (λ r, Ok (Z.min 100 r)).

Definition savings (a : CostAllocation) (cpu_reduction memory_reduction : float) : option float :=
  match a.(ca_cpu_cost), a.(ca_memory_cost) with
  | Some cpu, Some memory =>
      Some (fround_digits (fadd (fmul cpu cpu_reduction) (fmul memory memory_reduction)) 4)
  | _, _ => None
  end.

Definition workload_limitations (o : WorkloadObservation) (savings_value : option float)
  : list string :=
  ["The estimate uses the local OpenCost model and is not an AWS savings claim.";
   "A pull request requires human review; CloudWard will not resize a live production Deployment."] ++
  (if o.(wo_window).(ew_demo_oriented)
   then ["The evidence window is shortened for the local demo and is not production-grade."]
   else []) ++
  (match savings_value with
   | None => ["OpenCost did not provide CPU and memory cost components, so monetary savings are not estimated."]
   | Some _ => []
   end).

Definition workload_evidence (o : WorkloadObservation) (s : Sizing) : dict :=
  [("cpu_usage_cores", Percentiles_dump s.(sz_cpu_percentiles));
   ("memory_usage_bytes", Percentiles_dump s.(sz_memory_percentiles));
   ("replicas", JInt o.(wo_replicas));
   ("allocation", CostAllocation_dump o.(wo_allocation));
   ("queries", JQueries o.(wo_source_queries));
   ("headroom", JObj
      [("cpu_factor", JFloat policy.(fp_cpu_headroom_factor));
       ("memory_factor", JFloat policy.(fp_memory_headroom_factor));
       ("minimum_cpu_cores", JFloat policy.(fp_minimum_cpu_cores));
       ("minimum_memory_bytes", JInt policy.(fp_minimum_memory_bytes))])].

(** The configuration with the given requests; [limits] are never touched. *)
Definition workload_limits (o : WorkloadObservation) : json :=
  JObj [("cpu_cores", opt_json JFloat o.(wo_cpu_limit_cores));
        ("memory_bytes", opt_json JFloat o.(wo_memory_limit_bytes))].
Definition workload_config (o : WorkloadObservation) (cpu memory : json) : dict :=
  [("replicas", JInt o.(wo_replicas));
   ("requests", JObj [("cpu_cores", cpu); ("memory_bytes", memory)]);
   ("limits", workload_limits o)].
Definition current_config (o : WorkloadObservation) : dict :=
  workload_config o (JFloat o.(wo_cpu_request_cores)) (JFloat o.(wo_memory_request_bytes)).
Definition recommended_config (o : WorkloadObservation) (s : Sizing) : dict :=
  workload_config o (number_json s.(sz_cpu)) (number_json s.(sz_memory)).

Definition workload_fingerprint (o : WorkloadObservation) (s : Sizing) : string :=
  digest [("service", JStr o.(wo_service)); ("environment", JStr o.(wo_environment));
          ("window", EvidenceWindow_dump o.(wo_window));
          ("current", JObj (current_config o));
          ("recommended", JObj (recommended_config o s));
          ("evidence", JObj (workload_evidence o s))].

Definition workload_why : string :=
  "Sustained p95 CPU and/or memory usage remains below the current request after deterministic safety headroom.".
Definition workload_no_reduction : string :=
  "Observed p95 usage plus configured safety headroom does not support a safe reduction.".

Definition workload_draft (o : WorkloadObservation) (s : Sizing) : res RecommendationDraft :=
  res_bind (workload_confidence o) (λ confidence,
  res_bind (workload_risk o.(wo_environment)
              (fmax s.(sz_cpu_reduction) s.(sz_memory_reduction)) confidence) (λ risk,
  let savings_value := savings o.(wo_allocation) s.(sz_cpu_reduction) s.(sz_memory_reduction) in
  validated "RecommendationDraft" RecommendationDraft_valid
    {| rd_recommendation_type := WORKLOAD_RIGHTSIZING;
       rd_service := o.(wo_service); rd_environment := o.(wo_environment);
       rd_why := workload_why;
       rd_current_config := current_config o;
       rd_recommended_config := recommended_config o s;
       rd_evidence := workload_evidence o s;
       rd_estimated_savings :=
         [("value", opt_json JFloat savings_value);
          ("currency", JStr o.(wo_allocation).(ca_currency)); ("window", JStr "observed");
          ("model", JStr ALLOCATION_MODEL); ("is_aws_estimate", JBool false)];
       rd_risk_score := risk; rd_confidence := confidence;
       rd_limitations := workload_limitations o savings_value;
       rd_evidence_window := o.(wo_window);
       rd_source_fingerprint := workload_fingerprint o s |})).

(** [FinOpsEngine.analyze_workload]. *)
Definition analyze_workload (o : WorkloadObservation) : res AnalysisResult :=
  let w := o.(wo_window) in
  let observed := WorkloadObservation_dump o in
  res_bind (window_problem o.(wo_environment) w.(ew_requested_seconds) w.(ew_observed_seconds)
              (sample_count o.(wo_cpu_usage_cores) o.(wo_memory_usage_bytes))) (λ problem,
  match problem with
  | Some reason => Ok (insufficient_data F1 reason observed)
  | None =>
      res_bind (sizing o) (λ s,
      if feqb s.(sz_cpu_reduction) fzero && feqb s.(sz_memory_reduction) fzero then
        Ok (no_recommendation F1 workload_no_reduction
          (dict_update observed
             [("cpu_percentiles", Percentiles_dump s.(sz_cpu_percentiles));
              ("memory_percentiles", Percentiles_dump s.(sz_memory_percentiles))]))
      else res_bind (workload_draft o s) (λ draft, Ok (recommended F1 draft observed)))
  end).

(** ** Node efficiency *)

Record Utilization := {
  ut_cpu : Percentiles; ut_memory : Percentiles; ut_request : float; ut_actual : float;
}.

Definition utilization (o : NodeObservation) : res Utilization :=
  res_bind (percentiles o.(no_cpu_usage_cores)) (λ cpu,
  res_bind (percentiles o.(no_memory_usage_bytes)) (λ memory,
  res_bind (float_div o.(no_requested_cpu_cores) o.(no_allocatable_cpu_cores)) (λ rc,
  res_bind (float_div o.(no_requested_memory_bytes) o.(no_allocatable_memory_bytes)) (λ rm,
  res_bind (float_div cpu.(p95) o.(no_allocatable_cpu_cores)) (λ ac,
  res_bind (float_div memory.(p95) o.(no_allocatable_memory_bytes)) (λ am,
  Ok {| ut_cpu := cpu; ut_memory := memory; ut_request := fmax rc rm;
        ut_actual := fmax ac am |})))))).

Definition underutilized (u : Utilization) : bool :=
  negb (fleb policy.(fp_node_request_utilization_threshold) u.(ut_request) ||
        fleb policy.(fp_node_actual_utilization_threshold) u.(ut_actual)).

Definition node_current (o : NodeObservation) : dict :=
  [("node_count", JInt o.(no_node_count));
   ("allocatable_cpu_cores", JFloat o.(no_allocatable_cpu_cores));
   ("allocatable_memory_bytes", JFloat o.(no_allocatable_memory_bytes));
   ("requested_cpu_cores", JFloat o.(no_requested_cpu_cores));
   ("requested_memory_bytes", JFloat o.(no_requested_memory_bytes));
   ("pod_count", JInt o.(no_pod_count))].

Definition node_recommended : dict :=
  [("actions", JArr
      [JStr "Review whether the baseline node count can be reduced.";
       JStr "Adjust future autoscaler/Karpenter capacity strategy after topology and disruption review."]);
   ("automatic_change", JBool false)].

Definition node_evidence (o : NodeObservation) (u : Utilization) : dict :=
  [("cpu_usage_cores", Percentiles_dump u.(ut_cpu));
   ("memory_usage_bytes", Percentiles_dump u.(ut_memory));
   ("request_utilization", JFloat (fround_digits u.(ut_request) 4));
   ("actual_p95_utilization", JFloat (fround_digits u.(ut_actual) 4));
   ("allocation", CostAllocation_dump o.(no_allocation));
   ("queries", JQueries o.(no_source_queries))].

Definition node_why : string :=
  "Both scheduled requests and observed p95 usage are below the configured node-efficiency thresholds.".
Definition node_no_reduction : string :=
  "Observed node requests or p95 usage do not meet the configured underutilization thresholds.".

Definition node_draft (o : NodeObservation) (u : Utilization) : res RecommendationDraft :=
  res_bind (workload_coverage o.(no_window)) (λ ratio,
  validated "RecommendationDraft" RecommendationDraft_valid
    {| rd_recommendation_type := NODE_EFFICIENCY;
       rd_service := "cluster-capacity"; rd_environment := o.(no_environment);
       rd_why := node_why;
       rd_current_config := node_current o;
       rd_recommended_config := node_recommended;
       rd_evidence := node_evidence o u;
       rd_estimated_savings :=
         [("value", JNull); ("currency", JStr o.(no_allocation).(ca_currency));
          ("model", JStr ALLOCATION_MODEL); ("is_aws_estimate", JBool false)];
       rd_risk_score := Z.min 100 (20 + production_risk o.(no_environment));
       rd_confidence := fround_digits (fmin (float_of_decimal 95 (-2)) ratio) 2;
       rd_limitations :=
         ["No monetary savings are claimed because node topology and an avoidable-node price were not proven.";
          "The result uses a local OpenCost model and is not an AWS or EKS validation.";
          "CloudWard does not change node count or production infrastructure automatically."];
       rd_evidence_window := o.(no_window);
       rd_source_fingerprint :=
         digest [("environment", JStr o.(no_environment));
                 ("window", EvidenceWindow_dump o.(no_window));
                 ("current", JObj (node_current o)); ("evidence", JObj (node_evidence o u))] |}).

(** [FinOpsEngine.analyze_nodes]. *)
Definition analyze_nodes (o : NodeObservation) : res AnalysisResult :=
  let w := o.(no_window) in
  let observed := NodeObservation_dump o in
  res_bind (window_problem o.(no_environment) w.(ew_requested_seconds) w.(ew_observed_seconds)
              (sample_count o.(no_cpu_usage_cores) o.(no_memory_usage_bytes))) (λ problem,
  match problem with
  | Some reason => Ok (insufficient_data F2 reason observed)
  | None =>
      res_bind (utilization o) (λ u,
      if underutilized u then
        res_bind (node_draft o u) (λ draft, Ok (recommended F2 draft observed))
      else Ok (no_recommendation F2 node_no_reduction
                 (dict_update observed
                    [("request_utilization", JFloat u.(ut_request));
                     ("actual_p95_utilization", JFloat u.(ut_actual))])))
  end).
End engine.

(** ** Rightsizing only lowers, within the headroom *)

(** The policy of validated settings, as far as the results rely on it. *)
Record policy_safe (p : FinOpsPolicy) : Prop := {
  positive_reduction : fltb fzero p.(fp_minimum_reduction_fraction) = true;
  whole_mebibytes : ∃ mib, 16 ≤ mib ≤ 4096 ∧ p.(fp_minimum_memory_bytes) = mib * 1024 * 1024;
}.

Definition whole_mib (k : Z) : bool :=
  match round_memory_up (NInt (k * 1024 * 1024)) with
  | Ok z => z =? k * 1024 * 1024 | Raise _ => false end.
Lemma whole_mib_all : forallb whole_mib (seqZ 16 4081) = true.
Proof. vm_compute. reflexivity. Qed.

Lemma round_whole_mib k : 16 ≤ k ≤ 4096 →
  round_memory_up (NInt (k * 1024 * 1024)) = Ok (k * 1024 * 1024).
Proof.
  intros Hk. pose proof whole_mib_all as H. rewrite forallb_forall in H.
  specialize (H k ltac:(apply list_elem_of_In, elem_of_seqZ; lia)). unfold whole_mib in H.
  destruct (round_memory_up _) as [z|]; [|done]. apply Z.eqb_eq in H. by rewrite H.
Qed.

Lemma num_ltb_irrefl z : num_ltb (NInt z) (NInt z) = false.
Proof. apply Z.ltb_irrefl. Qed.

(** A float that is not below a positive integer. *)
Lemma at_least_positive z f :
  0 < z → num_ltb (NFloat f) (NInt z) = false →
  f = S754_nan ∨ f = S754_infinity false ∨ ∃ m e, f = S754_finite false m e ∧
    (Zpos m < 2 ^ 53 → -53 ≤ e).
Proof.
  intros Hz. unfold num_ltb. rewrite bool_decide_eq_false. unfold compare_int, to_ratio.
  destruct f as [s|[]| |[] m e]; try (simpl; tauto); simpl cond_Zopp.
  - intros H. destruct H. f_equal. apply Z.compare_gt_iff. lia.
  - intros H. destruct H. destruct (0 <=? e) eqn:He; cbv beta iota; f_equal; apply Z.compare_gt_iff;
      boolify; [|rewrite Z2Pos.id by (apply Z.pow_pos_nonneg; lia)].
    + assert (0 < 2 ^ e) by (apply Z.pow_pos_nonneg; lia). nia.
    + assert (0 < 2 ^ (- e)) by (apply Z.pow_pos_nonneg; lia). nia.
  - intros H. right; right. exists m, e. split; [done|]. intros Hm.
    destruct (0 <=? e) eqn:He; boolify; [lia|].
    rewrite Z2Pos.id in H by (apply Z.pow_pos_nonneg; lia).
    destruct (Z_lt_le_dec e (-53)) as [Hlt|]; [|done]. exfalso. apply H. f_equal.
    apply Z.compare_gt_iff. assert (2 ^ 53 < 2 ^ (- e)) by (apply Z.pow_lt_mono_r; lia). nia.
Qed.

(** The memory that is kept is never less than p95 with its headroom, nor than the
    floor of the policy. *)
Lemma memory_target_enough policy memory z :
  policy_safe policy → memory_target policy memory = Ok z →
  num_ltb (NInt z) (memory_need policy memory) = false.
Proof.
  intros [_ (mib & Hmib & Hmin)]. unfold memory_target, memory_need, num_max. rewrite Hmin.
  destruct (num_ltb _ _) eqn:Hlt.
  - rewrite round_whole_mib by done. intros [= <-]. apply num_ltb_irrefl.
  - intros Hz. apply at_least_positive in Hlt as Hf; [|lia]. clear Hlt.
    set (f := fmul _ _) in *. unfold round_memory_up, num_div in Hz.
    change (num_float (NInt MIB)) with (Ok mib_float) in Hz. simpl res_bind in Hz.
    change (feqb mib_float fzero) with false in Hz. unfold float_div in Hz.
    change (feqb mib_float fzero) with false in Hz. simpl res_bind in Hz.
    apply res_bind_ok in Hz as (n & Hn & [= <-]).
    destruct Hf as [Hf|[Hf|(m & e & Hf & He)]]; [by rewrite Hf in Hn..|].
    destruct (fmul_small _ _ _ _ _ Hf) as [Hm ?]. specialize (He Hm).
    change (n * MIB) with (n * 1048576). eapply ceil_mib; [exact Hf|done|lia|exact Hn].
Qed.

(** A request that is kept: unchanged, or lower by at least the minimum fraction. *)
Definition lowered (minimum current : float) (target : number) : Prop :=
  num_ltb target (NFloat current) = true ∧
  ∃ ratio, num_div target (NFloat current) = Ok ratio ∧ fltb (fsub fone ratio) minimum = false.

Definition positive (f : float) : Prop := fltb fzero f = true ∧ is_finite f = true.

Lemma positive_finite f : positive f → ∃ m e, f = S754_finite false m e.
Proof. intros [Hlt Hf]. destruct f as [| | |[] m e]; try done. by exists m, e. Qed.

Lemma kept_cases policy current t k r :
  fltb fzero policy.(fp_minimum_reduction_fraction) = true → positive current →
  kept policy current (num_min (NFloat current) t) = Ok (k, r) →
  (k = NFloat current ∧ r = fzero) ∨
  (k = t ∧ lowered policy.(fp_minimum_reduction_fraction) current t).
Proof.
  intros Hmin Hpos. apply positive_finite in Hpos as (m & e & ->). unfold kept.
  destruct (num_min_cases (NFloat (S754_finite false m e)) t) as [->|[-> Hlt]]; intros H;
    apply res_bind_ok in H as (ratio & Hr & H); cbv beta zeta in H.
  - cbn [num_div num_float res_bind] in Hr. unfold float_div in Hr.
    change (feqb (S754_finite false m e) fzero) with false in Hr.
    rewrite fdiv_self in Hr. assert (ratio = fone) as -> by congruence. change (fsub fone fone) with fzero in H. rewrite Hmin in H.
    injection H as <- <-. by left.
  - destruct (fltb (fsub fone ratio) _) eqn:Hd; injection H as <- <-; [by left|right].
    split; [done|]. split; [done|]. by exists ratio.
Qed.

(** The evidence a recommendation needs. *)
Definition enough_evidence (policy : FinOpsPolicy) (environment : string) (w : EvidenceWindow)
    (cpu memory : UsageSeries) : Prop :=
  required_window policy environment ≤ w.(ew_requested_seconds) ∧
  num_ltb (NInt w.(ew_observed_seconds))
    (NFloat (fmul (float_of_Z w.(ew_requested_seconds)) policy.(fp_minimum_coverage))) = false ∧
  policy.(fp_minimum_samples) ≤ Z.of_nat (length cpu.(us_values)) ∧
  policy.(fp_minimum_samples) ≤ Z.of_nat (length memory.(us_values)).

Lemma window_problem_none policy environment w cpu memory :
  window_problem policy environment w.(ew_requested_seconds) w.(ew_observed_seconds)
    (sample_count cpu memory) = Ok None → enough_evidence policy environment w cpu memory.
Proof.
  unfold window_problem. destruct (Z.ltb_spec w.(ew_requested_seconds) (required_window policy environment));
    [done|].
  unfold float_of_int. destruct (is_finite _); [|done]. cbn [res_bind].
  destruct (num_ltb _ _) eqn:Hc; [done|]. unfold sample_count.
  destruct (Z.ltb_spec (Z.min (Z.of_nat (length (us_values cpu)))
    (Z.of_nat (length (us_values memory)))) policy.(fp_minimum_samples)); [done|]. intros _.
  split_and!; [done|done|lia..].
Qed.

Section properties.
Context {dump : FinOpsDump} (policy : FinOpsPolicy).

(** What the two kept requests are. *)
Record sized (o : WorkloadObservation) (s : Sizing) : Prop := {
  sized_cpu : s.(sz_cpu) = NFloat o.(wo_cpu_request_cores) ∧ s.(sz_cpu_reduction) = fzero ∨
    lowered policy.(fp_minimum_reduction_fraction) o.(wo_cpu_request_cores) s.(sz_cpu);
  sized_memory : s.(sz_memory) = NFloat o.(wo_memory_request_bytes) ∧
      s.(sz_memory_reduction) = fzero ∨
    lowered policy.(fp_minimum_reduction_fraction) o.(wo_memory_request_bytes) s.(sz_memory) ∧
    num_ltb s.(sz_memory) (memory_need policy s.(sz_memory_percentiles)) = false;
  sized_percentiles : percentiles o.(wo_cpu_usage_cores) = Ok s.(sz_cpu_percentiles) ∧
    percentiles o.(wo_memory_usage_bytes) = Ok s.(sz_memory_percentiles);
}.

Lemma sizing_sized o s :
  policy_safe policy → positive o.(wo_cpu_request_cores) → positive o.(wo_memory_request_bytes) →
  sizing policy o = Ok s → sized o s.
Proof.
  intros Hp Hcpu Hmem. unfold sizing. intros H.
  apply res_bind_ok in H as (cpu & Hpc & H). apply res_bind_ok in H as (memory & Hpm & H).
  apply res_bind_ok in H as (tc & Htc & H). apply res_bind_ok in H as (tm & Htm & H).
  apply res_bind_ok in H as ([c rc] & Hc & H). apply res_bind_ok in H as ([m rm] & Hm & H).
  injection H as <-.
  apply kept_cases in Hc; [|apply Hp|done]. apply kept_cases in Hm; [|apply Hp|done].
  split; simpl; [naive_solver| |done].
  destruct Hm as [?|[-> Hm]]; [by left|right]. split; [done|]. by apply memory_target_enough.
Qed.

(** A recommendation that only lowers: the evidence covers the window the environment
    requires with enough samples; only the two requests differ from the observed
    configuration, neither is raised, each that changes falls by at least the minimum
    fraction, and one of them does; the memory that is kept is never below p95 with its
    headroom nor below the floor, whatever the rounding. *)
Definition lowers (o : WorkloadObservation) (d : RecommendationDraft) : Prop :=
  enough_evidence policy o.(wo_environment) o.(wo_window) o.(wo_cpu_usage_cores)
    o.(wo_memory_usage_bytes) ∧
  d.(rd_environment) = o.(wo_environment) ∧ d.(rd_current_config) = current_config o ∧
  0 ≤ d.(rd_risk_score) ≤ 100 ∧ fleb fzero d.(rd_confidence) = true ∧
  fleb d.(rd_confidence) fone = true ∧
  ∃ cpu memory usage,
    d.(rd_recommended_config) = workload_config o (number_json cpu) (number_json memory) ∧
    percentiles o.(wo_memory_usage_bytes) = Ok usage ∧
    let low := lowered policy.(fp_minimum_reduction_fraction) in
    (cpu = NFloat o.(wo_cpu_request_cores) ∨ low o.(wo_cpu_request_cores) cpu) ∧
    (memory = NFloat o.(wo_memory_request_bytes) ∨
     low o.(wo_memory_request_bytes) memory ∧
     num_ltb memory (memory_need policy usage) = false) ∧
    (low o.(wo_cpu_request_cores) cpu ∨ low o.(wo_memory_request_bytes) memory).

Lemma workload_lowers o r :
  policy_safe policy → positive o.(wo_cpu_request_cores) → positive o.(wo_memory_request_bytes) →
  analyze_workload policy o = Ok r →
  match r.(ar_recommendation) with
  | None => r.(ar_outcome) ≠ RECOMMENDED
  | Some d => r.(ar_outcome) = RECOMMENDED ∧ lowers o d
  end.
Proof.
  intros Hp Hcpu Hmem H. unfold analyze_workload in H. cbv zeta in H.
  apply res_bind_ok in H as (problem & Hw & H).
  destruct problem as [reason|]; [by injection H as <-|].
  apply res_bind_ok in H as (s & Hs & H).
  destruct (feqb _ _ && feqb _ _) eqn:Hzero; [by injection H as <-|].
  apply res_bind_ok in H as (d & Hd & H). injection H as <-. split; [done|].
  apply window_problem_none in Hw. apply sizing_sized in Hs as [Hsc Hsm [_ Hu]]; [|done..].
  unfold workload_draft in Hd. apply res_bind_ok in Hd as (confidence & _ & Hd).
  apply res_bind_ok in Hd as (risk & _ & Hd). apply validated_is in Hd as [-> Hv].
  unfold RecommendationDraft_valid in Hv. rewrite !andb_true_iff in Hv. unfold lowers.
  simpl in Hv |- *.
  destruct Hv as (((Hrisk & Hc0) & Hc1) & _). unfold within in Hrisk.
  rewrite andb_true_iff, !Z.leb_le in Hrisk. split_and!; try done; try lia.
  exists s.(sz_cpu), s.(sz_memory), s.(sz_memory_percentiles). split_and!; [done..|tauto|tauto|].
  destruct Hsc as [[_ Hrc]|?]; [|by left]. destruct Hsm as [[_ Hrm]|[? _]]; [|by right].
  by rewrite Hrc, Hrm in Hzero.
Qed.
End properties.

(** ** A concrete analysis *)

#[export] Instance bench_dump : FinOpsDump := {|
  dump_float := JFloat; dump_datetime := isoformat;
|}.

Definition bench_policy : FinOpsPolicy := {|
  fp_cpu_headroom_factor := float_of_decimal 15 (-1);
  fp_memory_headroom_factor := float_of_decimal 135 (-2);
  fp_minimum_cpu_cores := float_of_decimal 5 (-2);
  fp_minimum_memory_bytes := 64 * 1024 * 1024;
  fp_minimum_reduction_fraction := float_of_decimal 20 (-2);
  fp_minimum_samples := 5;
  fp_minimum_demo_window_seconds := 900;
  fp_minimum_production_window_seconds := 604800;
  fp_minimum_coverage := float_of_decimal 80 (-2);
  fp_node_request_utilization_threshold := float_of_decimal 45 (-2);
  fp_node_actual_utilization_threshold := float_of_decimal 35 (-2);
|}.

Definition bench_series (l : list Z) (unit : float) : UsageSeries :=
  {| us_values := map (λ z, fmul (float_of_Z z) unit) l; us_first_timestamp := Some 0;
     us_last_timestamp := Some (seconds 3600) |}.

Definition bench_workload : WorkloadObservation := {|
  wo_service := "cloudward-demo"; wo_environment := "staging";
  wo_namespace := "cloudward-staging"; wo_deployment := "cloudward-demo"; wo_replicas := 2;
  wo_cpu_request_cores := float_of_Z 1; wo_cpu_limit_cores := None;
  wo_memory_request_bytes := float_of_Z (512 * 1048576); wo_memory_limit_bytes := None;
  wo_cpu_usage_cores := bench_series [9; 10; 12; 11; 10; 30] (float_of_decimal 1 (-2));
  wo_memory_usage_bytes := bench_series [100; 101; 99; 120; 103; 110] (float_of_Z 1048576);
  wo_allocation := {| ca_total_cost := None; ca_cpu_cost := None; ca_memory_cost := None;
                      ca_currency := "USD" |};
  wo_window := {| ew_start := 0; ew_end := seconds 3600; ew_requested_seconds := 3600;
                  ew_observed_seconds := 3600; ew_sample_count := 6; ew_demo_oriented := true |};
  wo_source_queries := [];
|}.

Lemma bench_policy_safe : policy_safe bench_policy.
Proof. split; [vm_compute; reflexivity|]. exists 64. split; [lia|reflexivity]. Qed.

Definition bench_outcome : option Z :=
  match analyze_workload bench_policy bench_workload with
  | Ok r => rd_risk_score <$> r.(ar_recommendation)
  | Raise _ => None
  end.

Lemma bench_recommends : bench_outcome = Some 38.
Proof. vm_compute. reflexivity. Qed.
