(* ===== verification/FinOpsProviders.v ===== *)
(** * The readers of the FinOps engine

    [finops/providers.py]: OpenCost and Prometheus, read within bounds.  The tasks
    of [_collect_metrics] run in the order in which they are created. *)

From S2P Require Import Prelude PyFloat Json JsonParse Effects PyNumber Actions StateMachine Models World Config.
From S2P Require Import Memory ApprovalRequests Kubernetes Url Verification Telemetry FinOpsEngine.
From Stdlib Require Import SpecFloat.

(** One GET, read under the timeout: an exception of the classes [get] handles, one
    it does not, or a response with its status, its declared length, the number of
    bytes of its body, and the body as text when it is UTF-8. *)
Inductive finops_answer : Type :=
| FinOpsFailed
| FinOpsRaised (e : exn)
| FinOpsResponse (status : Z) (declared : option string) (size : Z) (body : option string).

Class FinOpsServer (X : Type) := finops_get : string → list (string * string) → X → finops_answer * X.
#[export] Hint Mode FinOpsServer ! : typeclass_instances.

(** ** The bounded client *)

Record BoundedJSONClient := {
  bc_base_url : string;
  bc_provider : string;
  bc_max_response_bytes : Z;
}.

(** [_safe_base_url]. *)
Definition url_invalid (provider : string) : exn :=
  cw_error_status "FINOPS_PROVIDER_URL_INVALID" (provider +:+ " URL is not a valid HTTP endpoint") 500.

Definition safe_base_url `{!UrlLibrary} (value provider : string) : res string :=
  res_bind (urlsplit value) (λ parsed,
  if negb (bool_decide (parsed.(url_scheme) ∈ ["http"; "https"])) ||
     negb (truthy_opt parsed.(url_hostname)) || truthy_opt parsed.(url_username)
  then Raise (url_invalid provider)
  else Ok (rstrip "/" value)).

Definition bounded_client `{!UrlLibrary} (base_url provider : string) (max_bytes : Z)
  : res BoundedJSONClient :=
  res_bind (safe_base_url base_url provider) (λ url,
  Ok {| bc_base_url := url; bc_provider := provider; bc_max_response_bytes := max_bytes |}).

(** [_number]: a finite non-negative number, or nothing; an integer beyond the
    floats raises. *)
Definition number_of (value : json) : res (option float) :=
  match py_float value with
  | Ok f => Ok (if usable f then Some f else None)
  | Raise e => if bool_decide (error_code e ∈ ["TypeError"; "ValueError"]) then Ok None else Raise e
  end.

Definition response_too_large (c : BoundedJSONClient) : exn :=
  cw_error_status "FINOPS_PROVIDER_RESPONSE_TOO_LARGE"
    (c.(bc_provider) +:+ " response exceeded the configured bound") 502.
Definition provider_unavailable (c : BoundedJSONClient) : exn :=
  cw_error_status "FINOPS_PROVIDER_UNAVAILABLE"
    (c.(bc_provider) +:+ " did not return a valid bounded response") 502.

(** [get] after the request. *)
Definition bounded_payload (c : BoundedJSONClient) (status : Z) (declared : option string)
    (size : Z) (body : option string) : res dict :=
  if negb ((200 <=? status) && (status <? 300)) then Raise (provider_unavailable c)
  else
    res_bind (match declared with
              | Some d =>
                  if truthy_str d then
                    match int_of_str d with
                    | Some n => if c.(bc_max_response_bytes) <? n
                                then Raise (response_too_large c) else Ok tt
                    | None => Raise (provider_unavailable c)
                    end
                  else Ok tt
              | None => Ok tt
              end) (λ _,
    if c.(bc_max_response_bytes) <? size then Raise (response_too_large c)
    else match body with
         | None => Raise (provider_unavailable c)
         | Some text =>
             match json_loads text with
             | Some (JObj d) => Ok d
             | _ => Raise (provider_unavailable c)
             end
         end).

Section clients.
Context {X : Type} `{!Runtime X} `{!FinOpsServer X}.

(** [_BoundedJSONClient.get]. *)
Definition bounded_get (c : BoundedJSONClient) (path : string) (params : list (string * string))
  : M (World X) dict :=
  let! answer := external (finops_get (c.(bc_base_url) +:+ path) params) in
  match answer with
  | FinOpsFailed => raise (provider_unavailable c)
  | FinOpsRaised e => raise e
  | FinOpsResponse status declared size body =>
      lift (bounded_payload c status declared size body)
  end.

(** ** OpenCost *)

Definition data_missing : exn :=
  cw_error_status "FINOPS_OPENCOST_DATA_MISSING"
    "OpenCost returned no allocation data for the requested window" 409.

(** [_allocations]. *)
Definition allocations (payload : dict) : res (list (string * dict)) :=
  match dict_get "data" payload with
  | Some (JArr l) =>
      match last l with
      | Some (JObj d) => Ok (omap (λ '(name, v), pair name <$> as_object v) d)
      | _ => Raise data_missing
      end
  | _ => Raise data_missing
  end.

(** [_find_allocation]. *)
Definition target_matches (namespace deployment name : string) : bool :=
  contains deployment name && (contains namespace name || String.eqb name deployment).

Definition find_allocation (payload : dict) (namespace deployment : string) : res dict :=
  res_bind (allocations payload) (λ l,
  match List.filter (λ a, target_matches namespace deployment a.1) l with
  | [(_, d)] => Ok d
  | _ => Raise (cw_error_status "FINOPS_OPENCOST_TARGET_AMBIGUOUS"
                  "OpenCost did not return exactly one allocation for the fixed workload target" 409)
  end).

(** [f"{max(1, math.ceil(window_seconds / 60))}m"]. *)
Definition window_param (window_seconds : Z) : res string :=
  res_bind (num_div (NInt window_seconds) (NInt 60)) (λ m,
  res_bind (py_ceil m) (λ n, Ok (str_of_Z (Z.max 1 n) +:+ "m"))).

Definition cost_field (key : string) (allocation : dict) : res (option float) :=
  number_of (default JNull (dict_get key allocation)).

Definition make_allocation (total cpu memory : option float) : res CostAllocation :=
  validated "CostAllocation" CostAllocation_valid
    {| ca_total_cost := total; ca_cpu_cost := cpu; ca_memory_cost := memory;
       ca_currency := "USD" |}.

(** [workload_allocation]. *)
Definition workload_allocation (c : BoundedJSONClient) (namespace deployment : string)
    (window_seconds : Z) : M (World X) CostAllocation :=
  let! window := lift (window_param window_seconds) in
  let! payload := bounded_get c "/allocation/compute"
    [("window", window); ("aggregate", "deployment"); ("filterNamespaces", namespace);
     ("accumulate", "true"); ("includeIdle", "false")] in
  lift (res_bind (find_allocation payload namespace deployment) (λ allocation,
        res_bind (cost_field "totalCost" allocation) (λ total,
        res_bind (cost_field "cpuCost" allocation) (λ cpu,
        res_bind (cost_field "ramCost" allocation) (λ memory,
        make_allocation total cpu memory))))).

(** The sum of one cost over the allocations that have it. *)
Definition add_cost (acc : option float) (v : option float) : option float :=
  match v with
  | Some f => Some (fadd (default fzero acc) f)
  | None => acc
  end.

Fixpoint sum_costs (l : list (string * dict)) (total cpu memory : option float)
  : res (option float * option float * option float) :=
  match l with
  | [] => Ok (total, cpu, memory)
  | (_, a) :: l =>
      res_bind (cost_field "totalCost" a) (λ t,
      res_bind (cost_field "cpuCost" a) (λ c,
      res_bind (cost_field "ramCost" a) (λ m,
      sum_costs l (add_cost total t) (add_cost cpu c) (add_cost memory m))))
  end.

(** [cluster_allocation]. *)
Definition cluster_allocation (c : BoundedJSONClient) (window_seconds : Z)
  : M (World X) CostAllocation :=
  let! window := lift (window_param window_seconds) in
  let! payload := bounded_get c "/allocation/compute"
    [("window", window); ("aggregate", "node"); ("accumulate", "true");
     ("includeIdle", "true")] in
  lift (res_bind (allocations payload) (λ l,
        res_bind (sum_costs l None None None) (λ '(total, cpu, memory),
        let round6 f := fround_digits f 6 in
        make_allocation (round6 <$> total) (round6 <$> cpu) (round6 <$> memory)))).

(** ** Prometheus *)

Record PrometheusClient := { pc_http : BoundedJSONClient; pc_max_samples : Z }.

Definition data_invalid (message : string) : exn :=
  cw_error_status "FINOPS_PROMETHEUS_DATA_INVALID" message 502.
Definition data_ambiguous (what : string) : exn :=
  cw_error_status "FINOPS_PROMETHEUS_DATA_AMBIGUOUS"
    ("Prometheus did not return exactly one " +:+ what +:+ " for a FinOps input") 409.

(** [_result]. *)
Definition prometheus_result (payload : dict) (expected : string) : res (list dict) :=
  match dict_get "data" payload with
  | Some (JObj data) =>
      if negb (field_is "status" "success" payload)
      then Raise (data_invalid "Prometheus returned an unsuccessful FinOps query response")
      else match dict_get "result" data with
           | Some (JArr l) =>
               if field_is "resultType" expected data then Ok (omap as_object l)
               else Raise (data_invalid "Prometheus returned an unexpected FinOps result type")
           | _ => Raise (data_invalid "Prometheus returned an unexpected FinOps result type")
           end
  | _ => Raise (data_invalid "Prometheus returned an unsuccessful FinOps query response")
  end.

Definition invalid_value : exn := data_invalid "Prometheus returned an invalid FinOps value".

(** [instant_scalar]. *)
Definition scalar_value (required : bool) (result : list dict) : res (option float) :=
  match result with
  | [d] =>
      match dict_get "value" d with
      | Some (JArr [_; v]) =>
          res_bind (number_of v) (λ o,
          match o with Some f => Ok (Some f) | None => Raise invalid_value end)
      | _ => Raise invalid_value
      end
  | [] => if required then Raise (data_ambiguous "value") else Ok None
  | _ => Raise (data_ambiguous "value")
  end.

Definition instant_scalar (p : PrometheusClient) (q : string) (at_ : datetime) (required : bool)
  : M (World X) (option float) :=
  let! payload := bounded_get p.(pc_http) "/api/v1/query"
    [("query", q); ("time", float_repr (timestamp at_))] in
  lift (res_bind (prometheus_result payload "vector") (scalar_value required)).

(** [datetime.fromtimestamp(t, tz=UTC)] for [t >= 0]. *)
Definition fromtimestamp (t : float) : res datetime :=
  res_bind (py_trunc t) (λ whole,
  let us := fround (fmul (fsub t (float_of_Z whole)) (float_of_Z 1000000)) in
  if 253402300800 <=? whole + us / 1000000
  then Raise (PyError (if 2 ^ 63 <=? whole then "OverflowError"
                       else if 67768036191676800 <=? whole then "OSError" else "ValueError")
                "timestamp out of range")
  else Ok (seconds whole + us)).

(** The samples of one series. *)
Definition pair_of (item : json) : option (json * json) :=
  match item with JArr [a; b] => Some (a, b) | _ => None end.

Fixpoint range_samples (l : list (json * json)) : res (list (datetime * float)) :=
  match l with
  | [] => Ok []
  | (t, v) :: l =>
      res_bind (number_of t) (λ ot,
      res_bind (number_of v) (λ ov,
      match ot, ov with
      | Some t, Some v =>
          res_bind (fromtimestamp t) (λ at_,
          res_bind (range_samples l) (λ r, Ok ((at_, v) :: r)))
      | _, _ => range_samples l
      end))
  end.

Definition usage_series (max_samples : Z) (result : list dict) : res UsageSeries :=
  match result with
  | [d] =>
      match dict_get "values" d with
      | Some (JArr raw) =>
          if max_samples <? Z.of_nat (length raw)
          then Raise (data_invalid "Prometheus returned a missing or oversized FinOps series")
          else res_bind (range_samples (omap pair_of raw)) (λ samples,
            if bool_decide (samples = [])
            then Raise (cw_error_status "FINOPS_PROMETHEUS_DATA_MISSING"
                          "Prometheus returned no usable samples for a FinOps input" 409)
            else Ok {| us_values := map snd samples;
                       us_first_timestamp := fst <$> head samples;
                       us_last_timestamp := fst <$> last samples |})
      | _ => Raise (data_invalid "Prometheus returned a missing or oversized FinOps series")
      end
  | _ => Raise (data_ambiguous "series")
  end.

(** [range_query]. *)
Definition finops_range (p : PrometheusClient) (q : string) (start end_ : datetime) (step : Z)
  : M (World X) UsageSeries :=
  let! payload := bounded_get p.(pc_http) "/api/v1/query_range"
    [("query", q); ("start", float_repr (timestamp start)); ("end", float_repr (timestamp end_));
     ("step", str_of_Z step)] in
  lift (res_bind (prometheus_result payload "matrix") (usage_series p.(pc_max_samples))).

(** [_collect_metrics]: everything is awaited before the first failure is raised. *)
Definition scalar_queries (queries : list (string * string)) : list (string * string) :=
  List.filter (λ q, negb (bool_decide (q.1 ∈ ["cpu_usage"; "memory_usage"]))) queries.

Definition collect_metrics (p : PrometheusClient) (queries : list (string * string))
    (start end_ : datetime) (step : Z) (optional : list string)
  : M (World X) (UsageSeries * UsageSeries * list (string * option float)) :=
  let q name := default EmptyString (dict_get name queries) in
  let! cpu := attempt (finops_range p (q "cpu_usage") start end_ step) in
  let! memory := attempt (finops_range p (q "memory_usage") start end_ step) in
  let! scalars := map_m (λ kq, attempt
      (let! v := instant_scalar p kq.2 end_ (negb (bool_decide (kq.1 ∈ optional))) in
       ret (kq.1, v))) (scalar_queries queries) in
  match cpu, memory with
  | inr e, _ => raise e
  | _, inr e => raise e
  | inl cpu, inl memory =>
      let! values := lift (all_or_first scalars) in
      ret (cpu, memory, values)
  end.

(** [_overlap_seconds]. *)
Definition overlap_seconds (first second : UsageSeries) : res Z :=
  match first.(us_first_timestamp), first.(us_last_timestamp),
        second.(us_first_timestamp), second.(us_last_timestamp) with
  | Some a, Some b, Some c, Some d =>
      res_bind (num_div (NInt (Z.min b d - Z.max a c)) (NInt 1000000)) (λ s,
      res_bind (py_round s) (λ n, Ok (Z.max 0 n)))
  | _, _, _, _ => Ok 0
  end.

Definition make_window (start end_ : datetime) (requested observed : Z) (cpu memory : UsageSeries)
    (environment : string) : res EvidenceWindow :=
  validated "EvidenceWindow" EvidenceWindow_valid
    {| ew_start := start; ew_end := end_; ew_requested_seconds := requested;
       ew_observed_seconds := observed; ew_sample_count := sample_count cpu memory;
       ew_demo_oriented := negb (String.eqb environment "production") |}.

(** [values[name] or 0]. *)
Definition scalar (name : string) (values : list (string * option float)) : option float :=
  default None (dict_get name values).
Definition scalar_or_zero (name : string) (values : list (string * option float)) : float :=
  let f := default fzero (scalar name values) in if feqb f fzero then fzero else f.

Definition workload_queries (namespace deployment pod_pattern : string) : list (string * string) :=
  let dq s := dquote +:+ s +:+ dquote in
  let matcher := "namespace=" +:+ dq namespace +:+ ",pod=~" +:+ dq pod_pattern in
  let containers := matcher +:+ ",container!=" +:+ dq "" +:+ ",image!=" +:+ dq "" in
  let resource kind name unit :=
    "max(sum by (pod) (kube_pod_container_resource_" +:+ kind +:+ "{" +:+ matcher +:+
    ",resource=" +:+ dq name +:+ ",unit=" +:+ dq unit +:+ "}))" in
  [("cpu_usage", "max(sum by (pod) (rate(container_cpu_usage_seconds_total{" +:+ containers +:+
                 "}[5m])))");
   ("memory_usage", "max(sum by (pod) (container_memory_working_set_bytes{" +:+ containers +:+
                    "}))");
   ("cpu_requests", resource "requests" "cpu" "core");
   ("memory_requests", resource "requests" "memory" "byte");
   ("cpu_limits", resource "limits" "cpu" "core");
   ("memory_limits", resource "limits" "memory" "byte");
   ("replicas", "kube_deployment_spec_replicas{namespace=" +:+ dq namespace +:+
                ",deployment=" +:+ dq deployment +:+ "}")].

(** [collect_workload]. *)
Definition collect_workload (p : PrometheusClient) (namespace deployment pod_pattern environment : string)
    (window_seconds step_seconds : Z) (allocation : CostAllocation)
  : M (World X) WorkloadObservation :=
  let! end_ := utc_now in
  let start := end_ - seconds window_seconds in
  let queries := workload_queries namespace deployment pod_pattern in
  let! '(cpu, memory, values) := collect_metrics p queries start end_ step_seconds
                                   ["cpu_limits"; "memory_limits"] in
  lift (
    res_bind (overlap_seconds cpu memory) (λ observed,
    res_bind (py_round (scalar_or_zero "replicas" values)) (λ replicas,
    res_bind (make_window start end_ window_seconds observed cpu memory environment) (λ window,
    validated "WorkloadObservation" WorkloadObservation_valid
      {| wo_service := deployment; wo_environment := environment; wo_namespace := namespace;
         wo_deployment := deployment; wo_replicas := Z.max 1 replicas;
         wo_cpu_request_cores := scalar_or_zero "cpu_requests" values;
         wo_cpu_limit_cores := scalar "cpu_limits" values;
         wo_memory_request_bytes := scalar_or_zero "memory_requests" values;
         wo_memory_limit_bytes := scalar "memory_limits" values;
         wo_cpu_usage_cores := cpu; wo_memory_usage_bytes := memory;
         wo_allocation := allocation; wo_window := window;
         wo_source_queries := queries |})))).

Definition node_queries : list (string * string) :=
  let dq s := dquote +:+ s +:+ dquote in
  let allocatable name unit :=
    "sum(kube_node_status_allocatable{resource=" +:+ dq name +:+ ",unit=" +:+ dq unit +:+ "})" in
  let requests name unit :=
    "sum(kube_pod_container_resource_requests{resource=" +:+ dq name +:+ ",unit=" +:+ dq unit +:+
    "})" in
  [("cpu_usage", "sum(rate(node_cpu_seconds_total{mode!=" +:+ dq "idle" +:+ "}[5m]))");
   ("memory_usage", "sum(node_memory_MemTotal_bytes - node_memory_MemAvailable_bytes)");
   ("allocatable_cpu", allocatable "cpu" "core");
   ("allocatable_memory", allocatable "memory" "byte");
   ("requested_cpu", requests "cpu" "core");
   ("requested_memory", requests "memory" "byte");
   ("node_count", "count(kube_node_info)");
   ("pod_count", "count(kube_pod_info{created_by_kind!=" +:+ dq "Job" +:+ "})")].

(** [collect_nodes]. *)
Definition collect_nodes (p : PrometheusClient) (environment : string)
    (window_seconds step_seconds : Z) (allocation : CostAllocation)
  : M (World X) NodeObservation :=
  let! end_ := utc_now in
  let start := end_ - seconds window_seconds in
  let! '(cpu, memory, values) := collect_metrics p node_queries start end_ step_seconds [] in
  lift (
    res_bind (py_round (scalar_or_zero "node_count" values)) (λ nodes,
    res_bind (py_round (scalar_or_zero "pod_count" values)) (λ pods,
    res_bind (overlap_seconds cpu memory) (λ observed,
    res_bind (make_window start end_ window_seconds observed cpu memory environment) (λ window,
    validated "NodeObservation" NodeObservation_valid
      {| no_environment := environment; no_node_count := Z.max 1 nodes;
         no_allocatable_cpu_cores := scalar_or_zero "allocatable_cpu" values;
         no_allocatable_memory_bytes := scalar_or_zero "allocatable_memory" values;
         no_requested_cpu_cores := scalar_or_zero "requested_cpu" values;
         no_requested_memory_bytes := scalar_or_zero "requested_memory" values;
         no_cpu_usage_cores := cpu; no_memory_usage_bytes := memory;
         no_pod_count := Z.max 0 pods; no_allocation := allocation; no_window := window;
         no_source_queries := node_queries |}))))).
End clients.
