(* ===== verification/FinOps.v ===== *)
(** * Stored FinOps recommendations

    [finops/service.py] and the handlers of [api/finops.py]: an analysis, the
    recommendation it stores, the pull request a recommendation becomes, and the jobs
    of the worker.  A handler that raises leaves its session to be discarded. *)

From S2P Require Import Prelude PyFloat Json Sha256 Effects JsonParse Rbac Actions StateMachine.
From S2P Require Import Models World Redaction Config AuditLog History Memory ApprovalRequests.
From S2P Require Import Kubernetes Runbooks AiContext GitHubPolicy GitHub GitHubRuns Url.
From S2P Require Import PyNumber FinOpsEngine FinOpsProviders.
From Stdlib Require Import SpecFloat.

(** ** The environment *)

(** [yaml.safe_load] of a document without anchors, with the exceptions that are not
    a [YAMLError], and [yaml.safe_dump(document, sort_keys=False)]. *)
Inductive yaml_answer : Type :=
| YamlLoaded (v : yaml) | YamlError | YamlRaised (e : exn).

Class YamlLibrary := {
  yaml_safe_load : string → yaml_answer;
  yaml_safe_dump : yaml → string;
}.

(** [document.get(key)] and [document[key] = value] for a string key. *)
Fixpoint ydict_get (key : string) (l : list (yaml * yaml)) : option yaml :=
  match l with
  | [] => None
  | (k, v) :: l => if key_eqb k (YScalar (JStr key)) then Some v else ydict_get key l
  end.
Fixpoint ydict_set (key : string) (value : yaml) (l : list (yaml * yaml)) : list (yaml * yaml) :=
  match l with
  | [] => [(YScalar (JStr key), value)]
  | (k, v) :: l => if key_eqb k (YScalar (JStr key)) then (k, value) :: l
                   else (k, v) :: ydict_set key value l
  end.

(** [json.dumps(v, sort_keys=True, indent=2)], at a depth. *)
Definition indentation (depth : nat) : string := newline +:+ String.concat "" (repeat "  " depth).

Fixpoint dumps_indent (depth : nat) (j : json) : string :=
  match j with
  | JArr [] => "[]"
  | JArr l =>
      "[" +:+ indentation (S depth) +:+
      join ("," +:+ indentation (S depth)) (map (dumps_indent (S depth)) l) +:+
      indentation depth +:+ "]"
  | JObj [] => "{}"
  | JObj d =>
      let entries :=
        isort (λ a b : string * string, str_leb a.1 b.1)
          ((fix go (d : list (string * json)) : list (string * string) :=
              match d with
              | [] => []
              | (k, v) :: d => (k, quote k +:+ ": " +:+ dumps_indent (S depth) v) :: go d
              end) d) in
      "{" +:+ indentation (S depth) +:+ join ("," +:+ indentation (S depth)) (map snd entries) +:+
      indentation depth +:+ "}"
  | _ => dumps j
  end.

Example dumps_indent_1 :
  dumps_indent 0 (JObj [("b", JArr [JInt 1; JNull]); ("a", JObj [])]) =
  "{" +:+ newline +:+ "  " +:+ dquote +:+ "a" +:+ dquote +:+ ": {}," +:+ newline +:+
  "  " +:+ dquote +:+ "b" +:+ dquote +:+ ": [" +:+ newline +:+ "    1," +:+ newline +:+
  "    null" +:+ newline +:+ "  ]" +:+ newline +:+ "}".
Proof. vm_compute. reflexivity. Qed.

(** [f"{f:.2f}"]. *)
Definition fixed2 (f : float) : string :=
  match f with
  | S754_nan => "nan"
  | S754_infinity s => if s then "-inf" else "inf"
  | S754_zero s | S754_finite s _ _ =>
      let '(n, d) := to_ratio f in
      let z := Z.abs (round_half_even (100 * n) d) in
      (if s then "-" else "") +:+ str_of_Z (z / 100) +:+ "." +:+ zpad 2 (str_of_Z (z mod 100))
  end.

Example fixed2_1 : map fixed2 [float_of_decimal 985 (-3); fone; fzero; float_of_decimal (-5) (-3)]
                   = ["0.98"; "1.00"; "0.00"; "-0.01"].
Proof. vm_compute. reflexivity. Qed.

(** ** Quantities *)

(** [f"{math_ceil(cores * 1000)}m"] and [f"{math_ceil(bytes / (1024 * 1024))}Mi"]. *)
Definition cpu_text (cores : float) : res string :=
  res_bind (py_ceil (fmul cores (float_of_Z 1000))) (λ n, Ok (str_of_Z n +:+ "m")).
Definition memory_text (bytes : Z) : res string :=
  res_bind (num_div (NInt bytes) (NInt MIB)) (λ m,
  res_bind (py_ceil m) (λ n, Ok (str_of_Z n +:+ "Mi"))).

Definition quantity_invalid (what : string) : exn :=
  cw_error_status "FINOPS_GITOPS_QUANTITY_INVALID" ("GitOps " +:+ what +:+ " request is invalid") 409.

(** [value[:-n]]. *)
Definition drop_last (n : nat) (s : string) : string := str_take (String.length s - n) s.

(** [_parse_cpu]. *)
Definition parse_cpu (value : option yaml) : res float :=
  match value with
  | Some (YScalar (JStr s)) =>
      let whole := match float_of_str s with
                   | Some f => Ok f | None => Raise (quantity_invalid "CPU") end in
      if ends_with "m" s then
        match float_of_str (drop_last 1 s) with
        | Some f => float_div f (float_of_Z 1000)
        | None => whole
        end
      else whole
  | Some (YScalar ((JInt _ | JFloat _ | JBool _) as j)) => py_float j
  | _ => Raise (quantity_invalid "CPU")
  end.

(** [int(value)]. *)
Definition to_int (j : json) : res Z :=
  match j with JFloat f => py_trunc f | _ => py_int j end.

(** [_parse_memory]. *)
Definition MEMORY_UNITS : list (string * Z) :=
  [("Ki", 1024); ("Mi", 1024 ^ 2); ("Gi", 1024 ^ 3)].

Fixpoint parse_memory_units (units : list (string * Z)) (s : string) : res Z :=
  match units with
  | [] => Raise (quantity_invalid "memory")
  | (suffix, multiplier) :: units =>
      if ends_with suffix s then
        match float_of_str (drop_last (String.length suffix) s) with
        | Some f => match py_round (fmul f (float_of_Z multiplier)) with
                    | Raise e => if String.eqb (error_code e) "ValueError"
                                 then Raise (quantity_invalid "memory") else Raise e
                    | r => r
                    end
        | None => Raise (quantity_invalid "memory")
        end
      else parse_memory_units units s
  end.

Definition parse_memory (value : option yaml) : res Z :=
  match value with
  | Some (YScalar ((JInt _ | JFloat _ | JBool _) as j)) => to_int j
  | Some (YScalar (JStr s)) => parse_memory_units MEMORY_UNITS s
  | _ => Raise (quantity_invalid "memory")
  end.

Example parse_memory_1 :
  map (λ s, parse_memory (Some (YScalar (JStr s)))) ["64Mi"; "1.5Gi"; "488281Ki"; "64M"; "nanMi"]
  = [Ok 67108864; Ok 1610612736; Ok 499999744; Raise (quantity_invalid "memory");
     Raise (quantity_invalid "memory")].
Proof. vm_compute. reflexivity. Qed.
Example cpu_text_1 : map cpu_text [float_of_decimal 5 (-2); float_of_decimal 403 (-2)]
                     = [Ok "50m"; Ok "4031m"].
Proof. vm_compute. reflexivity. Qed.

(** [config["requests"]]: the two entries, as the code reads them. *)
Definition key_error (k : string) : exn := PyError "KeyError" k.
Definition item (k : string) (d : dict) : res json :=
  match dict_get k d with Some j => Ok j | None => Raise (key_error k) end.
Definition requests_of (config : dict) : option dict :=
  match dict_get "requests" config with Some (JObj d) => Some d | _ => None end.
Definition request_cores (requests : dict) : res float :=
  res_bind (item "cpu_cores" requests) py_float.
Definition request_bytes (requests : dict) : res Z :=
  res_bind (item "memory_bytes" requests) to_int.

(** ** The service *)

Record FinOpsRecommendationService := {
  fs_policy : FinOpsPolicy;
  fs_opencost : BoundedJSONClient;
  fs_prometheus : PrometheusClient;
}.

Record GitOpsChangeProposal := {
  gop_repository : string;
  gop_branch_prefix : string;
  gop_path : string;
  gop_title : string;
  gop_body : string;
  gop_content : string;
  gop_recommendation_id : string;
  gop_expected_state_digest : string;
}.

Definition FINOPS_SCENARIOS : list string := [F1; F2].

Definition finops_error (code message : string) : exn := cw_error_status code message 409.
Definition scenario_not_found : exn :=
  cw_error_status "FINOPS_SCENARIO_NOT_FOUND" "FinOps scenario is not in the fixed catalog" 404.
Definition recommendation_not_found : exn :=
  cw_error_status "FINOPS_RECOMMENDATION_NOT_FOUND" "FinOps recommendation was not found" 404.
Definition recommendation_stale (message : string) : exn :=
  finops_error "FINOPS_RECOMMENDATION_STALE" message.

(** The policy of the settings. *)
Definition finops_policy (s : Settings) : res FinOpsPolicy :=
  res_bind (num_div (NInt s.(finops_minimum_cpu_millicores)) (NInt 1000)) (λ cores,
  res_bind (num_div (NInt s.(finops_minimum_reduction_percent)) (NInt 100)) (λ fraction,
  Ok {| fp_cpu_headroom_factor := s.(finops_cpu_headroom_factor);
        fp_memory_headroom_factor := s.(finops_memory_headroom_factor);
        fp_minimum_cpu_cores := cores;
        fp_minimum_memory_bytes := s.(finops_minimum_memory_mib) * 1024 * 1024;
        fp_minimum_reduction_fraction := fraction;
        fp_minimum_samples := s.(finops_minimum_samples);
        fp_minimum_demo_window_seconds := s.(finops_demo_minimum_window_seconds);
        fp_minimum_production_window_seconds := s.(finops_production_minimum_window_seconds);
        fp_minimum_coverage := s.(finops_minimum_window_coverage);
        fp_node_request_utilization_threshold := s.(finops_node_request_threshold);
        fp_node_actual_utilization_threshold := s.(finops_node_usage_threshold) |})).

(** [Environment(value)]. *)
Definition environment_of (value : string) : res Environment :=
  match first_such (λ e, String.eqb (Environment_value e) value)
          [ENV_LOCAL; ENV_STAGING; ENV_PRODUCTION] with
  | Some e => Ok e
  | None => Raise (PyError "ValueError" "not a valid Environment")
  end.

Definition finops_correlation (id : uuid) : string := "finops-" +:+ uuid_str id.

(** [table_args] of the recommendations: what a new row must satisfy. *)
Definition recommendation_fits (r : FinOpsRecommendation) (t : gmap uuid FinOpsRecommendation)
  : bool :=
  negb (existsb (λ s, String.eqb s.(fin_source_fingerprint) r.(fin_source_fingerprint)) (rows t)) &&
  within 0 100 r.(fin_risk_score) && fleb fzero r.(fin_confidence) && fleb r.(fin_confidence) fone.

(** Attributes of the two tables these handlers change. *)
Abbreviation the_recommendation := (deref finops_recommendations).
Abbreviation set_recommendation := (assign upd_finops_recommendations).
Abbreviation set_chaos_execution := (assign upd_chaos_executions).

Section service.
Context {X : Type} `{!Runtime X} `{!FinOpsServer X} `{!GitHubServer X}.
Context {urls : UrlLibrary} {dump : FinOpsDump} {codec : YamlLibrary}.
Context (settings : Settings).

(** [FinOpsRecommendationService.__init__]. *)
Definition finops_service : res FinOpsRecommendationService :=
  res_bind (finops_policy settings) (λ policy,
  let bound := settings.(finops_max_response_bytes) in
  res_bind (bounded_client settings.(opencost_url) "OpenCost" bound) (λ opencost,
  res_bind (bounded_client settings.(prometheus_url) "Prometheus" bound) (λ prometheus,
  Ok {| fs_policy := policy; fs_opencost := opencost;
        fs_prometheus := {| pc_http := prometheus;
                            pc_max_samples := settings.(finops_max_samples) |} |}))).

(** ** Analysis *)

(** What is stored of a draft; the digest binds the configuration it was made for. *)
Definition recommendation_row (id : uuid) (created expires : datetime) (scenario_id : string)
    (environment : Environment) (d : RecommendationDraft) : FinOpsRecommendation :=
  {| fin_id := id; fin_created_at := created; fin_service := d.(rd_service);
     fin_environment := environment;
     fin_recommendation_type := RecommendationType_value d.(rd_recommendation_type);
     fin_status := FINOPS_RECOMMENDED; fin_estimated_monthly_savings := None;
     fin_current_config := d.(rd_current_config);
     fin_recommended_config := d.(rd_recommended_config);
     fin_evidence := d.(rd_evidence); fin_estimated_savings := d.(rd_estimated_savings);
     fin_risk_score := d.(rd_risk_score); fin_confidence := d.(rd_confidence);
     fin_limitations := d.(rd_limitations);
     fin_evidence_window_start := d.(rd_evidence_window).(ew_start);
     fin_evidence_window_end := d.(rd_evidence_window).(ew_end);
     fin_source_fingerprint := d.(rd_source_fingerprint); fin_proposal_version := 1;
     fin_expected_state_digest := digest d.(rd_current_config); fin_expires_at := expires;
     fin_pr_reference := None; fin_pr_url := None; fin_approved_at := None;
     fin_rejected_at := None;
     fin_details := [("why", JStr d.(rd_why)); ("scenario_id", JStr scenario_id);
                     ("deterministic", JBool true); ("ai_calculated", JBool false);
                     ("data_period", EvidenceWindow_dump d.(rd_evidence_window))] |}.

Definition same_fingerprint (fingerprint : string) (r : FinOpsRecommendation) : bool :=
  String.eqb r.(fin_source_fingerprint) fingerprint.

Definition generated_metadata (id : uuid) (d : RecommendationDraft) : dict :=
  [("recommendation_id", JStr (uuid_str id)); ("confidence", JFloat d.(rd_confidence));
   ("source_fingerprint", JStr d.(rd_source_fingerprint));
   ("evidence_window_start", JStr (isoformat d.(rd_evidence_window).(ew_start)));
   ("evidence_window_end", JStr (isoformat d.(rd_evidence_window).(ew_end)));
   ("deterministic", JBool true)].

(** [persist_result]: the identifier of the recommendation, a new one or the one
    already stored for the same evidence. *)
Definition persist_result (result : AnalysisResult) (actor : string) (actor_type : ActorType)
  : M (World X) (option uuid) :=
  match result.(ar_recommendation) with
  | None =>
      do! record_audit "FINOPS_ANALYSIS_COMPLETED" ("finops-" +:+ result.(ar_scenario_id)) None
            actor actor_type None (Some result.(ar_scenario_id)) None None
            (Outcome_value result.(ar_outcome))
            [("reason", JStr result.(ar_reason)); ("deterministic", JBool true)];
      ret None
  | Some draft =>
      let! existing := query (λ db,
        select_one (same_fingerprint draft.(rd_source_fingerprint)) db.(finops_recommendations)) in
      match existing with
      | Some r => ret (Some r.(fin_id))
      | None =>
          let! environment := lift (environment_of draft.(rd_environment)) in
          let! now := utc_now in
          let! id := uuid4 in
          let! created := utc_now in
          let r := recommendation_row id created
                     (now + seconds settings.(finops_recommendation_ttl_seconds))
                     result.(ar_scenario_id) environment draft in
          do! insert_row finops_recommendations upd_finops_recommendations
                (recommendation_fits r) id r;
          do! flush;
          do! record_audit "FINOPS_RECOMMENDATION_GENERATED" (finops_correlation id) None
                actor actor_type None (Some r.(fin_recommendation_type))
                (Some draft.(rd_risk_score)) None "RECOMMENDED" (generated_metadata id draft);
          do! append_stream_event "finops.recommendation" None
                [("recommendation_id", JStr (uuid_str id));
                 ("recommendation_type", JStr r.(fin_recommendation_type));
                 ("service", JStr r.(fin_service));
                 ("environment", JStr (Environment_value r.(fin_environment)));
                 ("status", JStr (FinOpsStatus_value r.(fin_status)));
                 ("risk_score", JInt r.(fin_risk_score));
                 ("confidence", JFloat r.(fin_confidence))];
          ret (Some id)
      end
  end.

(** What is observed of the fixed target, and the engine's verdict. *)
Definition analyze_target (s : FinOpsRecommendationService) (scenario_id : string)
  : M (World X) AnalysisResult :=
  let window := settings.(finops_demo_observation_window_seconds) in
  let environment := Environment_value ENV_STAGING in
  if String.eqb scenario_id F1 then
    let! allocation := workload_allocation s.(fs_opencost) settings.(finops_demo_namespace)
                         settings.(finops_demo_deployment) window in
    let! observation := collect_workload s.(fs_prometheus) settings.(finops_demo_namespace)
                          settings.(finops_demo_deployment) settings.(finops_demo_pod_pattern)
                          environment window settings.(finops_query_step_seconds) allocation in
    lift (analyze_workload s.(fs_policy) observation)
  else
    let! allocation := cluster_allocation s.(fs_opencost) window in
    let! observation := collect_nodes s.(fs_prometheus) environment window
                          settings.(finops_query_step_seconds) allocation in
    lift (analyze_nodes s.(fs_policy) observation).

(** [analyze_scenario]. *)
Definition analyze_scenario (s : FinOpsRecommendationService) (scenario_id actor : string)
    (actor_type : ActorType) : M (World X) (AnalysisResult * option uuid) :=
  do! raise_if (negb (bool_decide (scenario_id ∈ FINOPS_SCENARIOS))) scenario_not_found;
  let! result := analyze_target s scenario_id in
  let! recommendation := persist_result result actor actor_type in
  ret (result, recommendation).

(** ** A recommendation read for an update *)

(** [get_for_update]; its identifier names the object it returns. *)
Definition UNEXPIRING : list FinOpsStatus :=
  [FINOPS_APPROVED; FINOPS_REJECTED; FINOPS_APPLIED; FINOPS_VERIFIED; FINOPS_EXPIRED].

Definition get_for_update (id : uuid) : M (World X) unit :=
  let! o := query (λ db, db.(finops_recommendations) !! id) in
  match o with
  | None => raise recommendation_not_found
  | Some r =>
      let! now := utc_now in
      when ((r.(fin_expires_at) <=? now) && negb (bool_decide (r.(fin_status) ∈ UNEXPIRING)))
        (do! set_recommendation id (set_fin_status FINOPS_EXPIRED);
         record_audit_system "FINOPS_RECOMMENDATION_EXPIRED" (finops_correlation id) None
           (Some r.(fin_recommendation_type)) (Some r.(fin_risk_score)) "EXPIRED"
           [("recommendation_id", JStr (uuid_str id))])
  end.

(** ** The proposal *)

Definition proposed_content (id : uuid) (version : Z) (cpu memory : string) : string :=
  "# Created by CloudWard; human review and merge are required." +:+ newline +:+
  "recommendationId: " +:+ uuid_str id +:+ newline +:+
  "proposalVersion: " +:+ str_of_Z version +:+ newline +:+
  "resources:" +:+ newline +:+ "  requests:" +:+ newline +:+
  "    cpu: " +:+ dquote +:+ cpu +:+ dquote +:+ newline +:+
  "    memory: " +:+ dquote +:+ memory +:+ dquote +:+ newline.

Definition WHY_DEFAULT : string := "Deterministic rightsizing analysis".
Definition why_of (r : FinOpsRecommendation) : string :=
  py_str (get_or "why" (JStr WHY_DEFAULT) r.(fin_details)).

Definition fenced_json (title : string) (config : dict) : string :=
  title +:+ ":" +:+ newline +:+ "```json" +:+ newline +:+ dumps_indent 0 (JObj config) +:+
  newline +:+ "```".

Definition proposal_body (r : FinOpsRecommendation) : string :=
  join (newline +:+ newline)
    [MARKER;
     "Recommendation: `" +:+ uuid_str r.(fin_id) +:+ "` (version " +:+
       str_of_Z r.(fin_proposal_version) +:+ ")";
     "Reason: " +:+ why_of r;
     fenced_json "Current state" r.(fin_current_config);
     fenced_json "Proposed state" r.(fin_recommended_config);
     "Estimated impact: `" +:+ dumps_spaced (JObj r.(fin_estimated_savings)) +:+ "`";
     "Risk: " +:+ str_of_Z r.(fin_risk_score) +:+ "/100; confidence: " +:+
       fixed2 r.(fin_confidence);
     "Evidence window: " +:+ isoformat r.(fin_evidence_window_start) +:+ " to " +:+
       isoformat r.(fin_evidence_window_end);
     "Verification plan: observe CPU/memory p95, restarts, readiness, latency, and errors after rollout.";
     "Rollback plan: revert this pull request to restore the previous resource requests.";
     "CloudWard will not merge this pull request or resize the live production Deployment."].

(** The proposal of a recommendation that passed the checks. *)
Definition proposal_of (r : FinOpsRecommendation) : res GitOpsChangeProposal :=
  match requests_of r.(fin_recommended_config) with
  | None => Raise (finops_error "FINOPS_RECOMMENDATION_INVALID"
                     "Recommendation has no typed resource requests")
  | Some requests =>
      res_bind (request_cores requests) (λ cores,
      res_bind (request_bytes requests) (λ bytes,
      res_bind (cpu_text cores) (λ cpu,
      res_bind (memory_text bytes) (λ memory,
      Ok {| gop_repository := settings.(finops_gitops_repository);
            gop_branch_prefix := "cloudward/finops-" +:+ str_take 12 (hex_pad 32 r.(fin_id));
            gop_path := settings.(finops_gitops_values_path);
            gop_title := "CloudWard: rightsize " +:+ r.(fin_service);
            gop_body := proposal_body r;
            gop_content := proposed_content r.(fin_id) r.(fin_proposal_version) cpu memory;
            gop_recommendation_id := uuid_str r.(fin_id);
            gop_expected_state_digest := r.(fin_expected_state_digest) |}))))
  end.

(** [build_gitops_proposal]. *)
Definition build_gitops_proposal (id : uuid) : M (World X) GitOpsChangeProposal :=
  let! r := the_recommendation id in
  do! raise_if (negb (String.eqb r.(fin_recommendation_type) "WORKLOAD_RIGHTSIZING"))
        (finops_error "FINOPS_PR_NOT_APPLICABLE"
           "Only a workload rightsizing recommendation can produce this GitOps change");
  do! raise_if (negb (bool_decide (r.(fin_status) ∈ [FINOPS_RECOMMENDED; FINOPS_PR_CREATED])))
        (finops_error "FINOPS_RECOMMENDATION_NOT_PROPOSABLE"
           "Recommendation is not in a PR-proposable state");
  let! now := utc_now in
  do! when (r.(fin_expires_at) <=? now)
        (do! set_recommendation id (set_fin_status FINOPS_EXPIRED);
         raise (finops_error "FINOPS_RECOMMENDATION_EXPIRED"
                  "Recommendation evidence expired before PR creation"));
  do! when (negb (String.eqb (digest r.(fin_current_config)) r.(fin_expected_state_digest)))
        (do! set_recommendation id (set_fin_status FINOPS_EXPIRED);
         raise (recommendation_stale
                  "Recommendation current state no longer matches its bound proposal version"));
  lift (proposal_of r).

(** ** The values file *)

Definition values_invalid (message : string) : exn :=
  finops_error "FINOPS_GITOPS_VALUES_INVALID" message.
Definition target_missing (message : string) : exn :=
  finops_error "FINOPS_GITOPS_TARGET_MISSING" message.

(** The document and the mappings on the way to the requests of the fixed target. *)
Record ValuesDocument := {
  vd_document : list (yaml * yaml);
  vd_workload : list (yaml * yaml);
  vd_resources : list (yaml * yaml);
  vd_requests : list (yaml * yaml);
}.

Definition values_document (content : string) : res ValuesDocument :=
  match yaml_safe_load content with
  | YamlError => Raise (values_invalid "Allowlisted GitOps values are not valid YAML")
  | YamlRaised e => Raise e
  | YamlLoaded (YDict document) =>
      match ydict_get "cloudward-demo" document with
      | Some (YDict workload) =>
          match ydict_get "resources" workload with
          | Some (YDict resources) =>
              match ydict_get "requests" resources with
              | Some (YDict requests) =>
                  Ok {| vd_document := document; vd_workload := workload;
                        vd_resources := resources; vd_requests := requests |}
              | _ => Raise (target_missing "Fixed resource requests target is missing")
              end
          | _ => Raise (target_missing "Fixed resource requests target is missing")
          end
      | _ => Raise (target_missing "Fixed cloudward-demo values target is missing")
      end
  | YamlLoaded _ => Raise (values_invalid "Allowlisted GitOps values are not an object")
  end.

(** The document after [requests] was assigned to. *)
Definition with_requests (d : ValuesDocument) (requests : list (yaml * yaml)) : yaml :=
  YDict (ydict_set "cloudward-demo"
    (YDict (ydict_set "resources"
      (YDict (ydict_set "requests" (YDict requests) d.(vd_resources))) d.(vd_workload)))
    d.(vd_document)).

(** Whether the file still has the requests the evidence was collected for. *)
Definition requests_match (cpu expected_cpu : float) (memory expected_memory : Z) : bool :=
  negb (fltb (float_of_decimal 1 (-3)) (SFabs (fsub cpu expected_cpu))) &&
  (memory =? expected_memory).

(** A quantity that is not a number is never seen to have changed. *)
Example nan_matches : requests_match S754_nan (float_of_Z 1) 0 0 = true.
Proof. vm_compute. reflexivity. Qed.

(** [patch_gitops_values]. *)
Definition patch_gitops_values (id : uuid) (existing_content : string) : M (World X) string :=
  let! r := the_recommendation id in
  let! d := lift (values_document existing_content) in
  match requests_of r.(fin_current_config), requests_of r.(fin_recommended_config) with
  | Some current, Some proposed =>
      let! current_cpu := lift (parse_cpu (ydict_get "cpu" d.(vd_requests))) in
      let! current_memory := lift (parse_memory (ydict_get "memory" d.(vd_requests))) in
      let! expected_cpu := lift (request_cores current) in
      let! expected_memory := lift (request_bytes current) in
      do! when (negb (requests_match current_cpu expected_cpu current_memory expected_memory))
            (do! set_recommendation id (set_fin_status FINOPS_EXPIRED);
             raise (recommendation_stale
                      "GitOps resource requests changed after recommendation evidence collection"));
      lift (res_bind (res_bind (request_cores proposed) cpu_text) (λ cpu,
            res_bind (res_bind (request_bytes proposed) memory_text) (λ memory,
            Ok (yaml_safe_dump (with_requests d
                  (ydict_set "memory" (YScalar (JStr memory))
                    (ydict_set "cpu" (YScalar (JStr cpu)) d.(vd_requests))))))))
  | _, _ => raise (finops_error "FINOPS_RECOMMENDATION_INVALID"
                     "Recommendation resource requests are invalid")
  end.

(** [record_pr_created]. *)
Definition record_pr_created (id : uuid) (pr_reference pr_url actor : string)
  : M (World X) unit :=
  let! r := the_recommendation id in
  do! raise_if (match r.(fin_pr_reference) with
                | Some s => truthy_str s && negb (String.eqb s pr_reference)
                | None => false end)
        (finops_error "FINOPS_PR_ALREADY_CREATED"
           "A different pull request is already bound to this recommendation");
  do! set_recommendation id (λ r, set_fin_pr_url (Some pr_url)
        (set_fin_pr_reference (Some pr_reference) (set_fin_status FINOPS_PR_CREATED r)));
  do! record_audit "FINOPS_GITHUB_PR_CREATED" (finops_correlation id) None actor ACTOR_USER None
        (Some "CREATE_GITOPS_PR") (Some r.(fin_risk_score)) None "SUCCEEDED"
        [("recommendation_id", JStr (uuid_str id)); ("pr_reference", JStr pr_reference);
         ("approval_authority", JStr "GITHUB_PULL_REQUEST")];
  append_stream_event "finops.pr_created" None
    [("recommendation_id", JStr (uuid_str id));
     ("status", JStr (FinOpsStatus_value FINOPS_PR_CREATED));
     ("pr_reference", JStr pr_reference); ("pr_url", JStr pr_url)].
End service.
