(* ===== verification/FinOpsApi.v ===== *)
(** * The FinOps handlers

    [api/finops.py]: what a viewer reads, the analysis and the pull request of an
    operator, and the two jobs of the worker.  FastAPI's validation of a request and
    its rendering of a response are outside; a dependency that refuses is the first
    step of its handler. *)

From S2P Require Import Prelude PyFloat Json Effects JsonParse Rbac Actions StateMachine Models.
From S2P Require Import World Config AuditLog Memory Runbooks WebhookAuth AiContext GitHubPolicy.
From S2P Require Import GitHub Url.
From S2P Require Import PyNumber FinOpsEngine FinOpsProviders FinOps.
From Stdlib Require Import SpecFloat.

(** ** Requests and responses *)

Record FinOpsSummaryResponse := {
  sum_recommendation_count : Z;
  sum_open_recommendation_count : Z;
  sum_recommendations_with_cost_estimate : Z;
  sum_potential_savings_observed_window : float;
  sum_currency : string;
  sum_node_efficiency_recommendations : Z;
}.

Record FinOpsPullRequestRequest := {
  fpr_base_commit_sha : string;
  fpr_expected_blob_sha : option string;
}.

Definition FinOpsPullRequestRequest_valid (p : FinOpsPullRequestRequest) : bool :=
  SHA_PATTERN p.(fpr_base_commit_sha) &&
  match p.(fpr_expected_blob_sha) with Some s => SHA_PATTERN s | None => true end.

Record InternalFinOpsScenarioResponse := {
  isr_execution_id : uuid;
  isr_status : ExperimentStatus;
  isr_outcome : string;
  isr_recommendation_id : option uuid;
}.

Definition execution_not_found (message : string) : exn :=
  cw_error_status "EXECUTION_NOT_FOUND" message 404.

(** ** Reading *)

(** [order_by(created_at.desc())]. *)
Definition newest_first (l : list FinOpsRecommendation) : list FinOpsRecommendation :=
  isort (λ a b, b.(fin_created_at) <=? a.(fin_created_at)) l.

Definition OPEN_STATES : list FinOpsStatus :=
  [FINOPS_DETECTED; FINOPS_ANALYZED; FINOPS_RECOMMENDED; FINOPS_PR_CREATED; FINOPS_APPROVED].

(** A value that is a non-negative number, as a float. *)
Definition cost_estimate (r : FinOpsRecommendation) : res (option float) :=
  match dict_get "value" r.(fin_estimated_savings) with
  | Some (JFloat f) => Ok (if fleb fzero f then Some f else None)
  | Some (JInt z) => if 0 <=? z then res_bind (float_of_int z) (λ f, Ok (Some f)) else Ok None
  | Some (JBool b) => Ok (Some (float_of_Z (Z.b2z b)))
  | _ => Ok None
  end.

Fixpoint sum_savings (l : list FinOpsRecommendation) (savings : float) (estimated : Z)
    (currency : string) : res (float * Z * string) :=
  match l with
  | [] => Ok (savings, estimated, currency)
  | r :: l =>
      res_bind (cost_estimate r) (λ o,
      match o with
      | Some f => sum_savings l (fadd savings f) (estimated + 1)
                    (py_str (get_or "currency" (JStr "USD") r.(fin_estimated_savings)))
      | None => sum_savings l savings estimated currency
      end)
  end.

Definition count_if {A} (p : A → bool) (l : list A) : Z := Z.of_nat (length (List.filter p l)).

Definition summary_of (recommendations : list FinOpsRecommendation) : res FinOpsSummaryResponse :=
  res_bind (sum_savings recommendations fzero 0 "USD") (λ '(savings, estimated, currency),
  Ok {| sum_recommendation_count := Z.of_nat (length recommendations);
        sum_open_recommendation_count :=
          count_if (λ r, bool_decide (r.(fin_status) ∈ OPEN_STATES)) recommendations;
        sum_recommendations_with_cost_estimate := estimated;
        sum_potential_savings_observed_window := fround_digits savings 4;
        sum_currency := currency;
        sum_node_efficiency_recommendations :=
          count_if (λ r, String.eqb r.(fin_recommendation_type) "NODE_EFFICIENCY")
            recommendations |}).

Definition selected (status : option FinOpsStatus) (environment : option Environment)
    (r : FinOpsRecommendation) : bool :=
  match status with Some s => bool_decide (r.(fin_status) = s) | None => true end &&
  match environment with Some e => bool_decide (r.(fin_environment) = e) | None => true end.

Section handlers.
Context {X : Type} `{!Runtime X} `{!FinOpsServer X} `{!GitHubServer X}.
Context {urls : UrlLibrary} {dump : FinOpsDump} {codec : YamlLibrary}.
Context (settings : Settings).

(** The session of a request: what a handler that raises did is discarded. *)
Definition in_session {A} (m : M (World X) A) : M (World X) A :=
  catch m (λ e, do! rollback; raise e).

(** [finops_summary]. *)
Definition finops_summary (viewer : Principal) : M (World X) FinOpsSummaryResponse :=
  in_session (
    do! lift (require_permission PLATFORM_READ viewer);
    let! l := query (λ db, newest_first (rows db.(finops_recommendations))) in
    lift (summary_of l)).

(** [list_recommendations]. *)
Definition list_recommendations (viewer : Principal) (status : option FinOpsStatus)
    (environment : option Environment) (limit offset : Z) : M (World X) (list FinOpsRecommendation) :=
  in_session (
    do! lift (require_permission PLATFORM_READ viewer);
    query (λ db, take (Z.to_nat limit) (drop (Z.to_nat offset)
      (newest_first (List.filter (selected status environment) (rows db.(finops_recommendations))))))).

(** [get_recommendation]. *)
Definition get_recommendation (viewer : Principal) (id : uuid) : M (World X) FinOpsRecommendation :=
  in_session (
    do! lift (require_permission PLATFORM_READ viewer);
    let! o := query (λ db, db.(finops_recommendations) !! id) in
    match o with Some r => ret r | None => raise recommendation_not_found end).

(** ** The operator *)

(** [analyze_finops_scenario]. *)
Definition analyze_finops_scenario (operator : Principal) (scenario_id : string)
  : M (World X) (AnalysisResult * option uuid) :=
  in_session (
    do! lift (require_permission DEMO_TRIGGER operator);
    let! s := lift (finops_service settings) in
    let! answer := analyze_scenario settings s scenario_id operator.(login) ACTOR_USER in
    do! commit;
    ret answer).

(** [preview_finops_pr]. *)
Definition preview_finops_pr (operator : Principal) (id : uuid)
  : M (World X) GitOpsChangeProposal :=
  in_session (
    do! lift (require_permission DEMO_TRIGGER operator);
    do! lift (finops_service settings);
    do! get_for_update id;
    let! proposal := build_gitops_proposal settings id in
    do! commit;
    ret proposal).

Definition FINOPS_OPERATION : string := "FINOPS_RIGHTSIZING".

(** The change asked of GitHub. *)
Definition change_request (r : FinOpsRecommendation) (p : GitOpsChangeProposal)
    (base_commit_sha blob_sha content : string) : GitHubChangeProposalRequest :=
  {| gcr_repository := p.(gop_repository); gcr_path := p.(gop_path); gcr_base := "main";
     gcr_base_commit_sha := base_commit_sha; gcr_head := p.(gop_branch_prefix);
     gcr_expected_blob_sha := Some blob_sha; gcr_proposed_content := content;
     gcr_commit_message := "CloudWard FinOps recommendation " +:+ uuid_str r.(fin_id);
     gcr_title := p.(gop_title); gcr_reason := why_of r;
     gcr_current_state := r.(fin_current_config);
     gcr_proposed_state := r.(fin_recommended_config);
     gcr_evidence := dict_update r.(fin_evidence)
       [("evidence_window_start", JStr (isoformat r.(fin_evidence_window_start)));
        ("evidence_window_end", JStr (isoformat r.(fin_evidence_window_end)));
        ("estimated_savings", JObj r.(fin_estimated_savings));
        ("confidence", JFloat r.(fin_confidence));
        ("limitations", JStrs r.(fin_limitations))];
     gcr_risk_score := r.(fin_risk_score);
     gcr_verification_plan :=
       "Observe workload CPU/memory p95, readiness, restarts, latency, and error rate after rollout.";
     gcr_rollback_plan := "Revert the pull request to restore the previous resource requests.";
     gcr_draft := true |}.

Definition pr_reference_of (pull : GitHubPullRequestResult) : string :=
  pull.(gpr_repository) +:+ "#" +:+ str_of_Z pull.(gpr_number).

(** The file at the commit the operator named, and its blob. *)
Definition read_values (policy : GitHubAutomationPolicy) (p : GitOpsChangeProposal)
    (payload : FinOpsPullRequestRequest) : M (World X) (string * string) :=
  let! source := read_file policy p.(gop_repository) p.(gop_path) payload.(fpr_base_commit_sha) in
  match source.(sfe_sha) with
  | None => raise (cw_error_status "FINOPS_GITOPS_BLOB_MISSING"
                     "GitHub did not return the current values blob" 502)
  | Some sha =>
      do! raise_if (match payload.(fpr_expected_blob_sha) with
                    | Some s => negb (String.eqb s sha) | None => false end)
            (recommendation_stale "GitOps values blob changed before pull request creation");
      ret (source.(sfe_content), sha)
  end.

(** [create_finops_pr] up to the request: everything that is checked before GitHub is
    asked to change anything. *)
Definition prepare_pr (operator : Principal) (id : uuid) (payload : FinOpsPullRequestRequest)
  : M (World X) (GitHubAutomationPolicy * GitHubChangeProposalRequest) :=
  do! lift (require_permission DEMO_TRIGGER operator);
  do! lift (finops_service settings);
  do! get_for_update id;
  let! proposal := build_gitops_proposal settings id in
  let! policy := lift (settings_policy settings) in
  let! '(content, sha) := read_values policy proposal payload in
  let! patched := patch_gitops_values id content in
  let! r := the_recommendation id in
  let! request := lift (validated "GitHubChangeProposalRequest" GitHubChangeProposalRequest_valid
    (change_request r proposal payload.(fpr_base_commit_sha) sha patched)) in
  ret (policy, request).

(** [create_finops_pr]. *)
Definition create_pr (operator : Principal) (id : uuid) (payload : FinOpsPullRequestRequest)
  : M (World X) GitHubChangeProposalResponse :=
  let! '(policy, request) := prepare_pr operator id payload in
  let! result := propose_change policy id FINOPS_OPERATION (finops_correlation id) None request in
  do! record_pr_created id (pr_reference_of result.(gcp_pull_request))
        result.(gcp_pull_request).(gpr_url) operator.(login);
  do! commit;
  ret result.

Definition create_finops_pr (operator : Principal) (id : uuid) (payload : FinOpsPullRequestRequest)
  : M (World X) GitHubChangeProposalResponse := in_session (create_pr operator id payload).

(** ** The worker *)

(** [_require_worker]. *)
Definition require_worker (authorization : option string) : res unit :=
  let failed := Raise (cw_error_status "WORKER_AUTHENTICATION_FAILED"
                         "Worker authentication failed" 401) in
  match authorization with
  | None => failed
  | Some text => res_bind (compare_digest text ("Bearer " +:+ settings.(worker_internal_token)))
                   (λ same, if same : bool then Ok tt else failed)
  end.

Definition opt_id (o : option uuid) : json := opt_json (λ u, JStr (uuid_str u)) o.

(** The answer for an execution that already succeeded. *)
Definition recorded_execution (e : ChaosExecution) : res InternalFinOpsScenarioResponse :=
  res_bind (match dict_get "recommendation_id" e.(chx_details) with
            | Some (JStr s) =>
                match parse_uuid s with
                | Some u => Ok (Some u)
                | None => Raise (PyError "ValueError" "badly formed hexadecimal UUID string")
                end
            | _ => Ok None
            end) (λ recommendation,
  Ok {| isr_execution_id := e.(chx_id); isr_status := e.(chx_status);
        isr_outcome := py_str (get_or "outcome" (JStr "RECOMMENDED") e.(chx_details));
        isr_recommendation_id := recommendation |}).

Definition complete_finops_execution (now : datetime) (result : AnalysisResult)
    (recommendation : option uuid) (e : ChaosExecution) : ChaosExecution :=
  set_chx_details (dict_update e.(chx_details)
    [("current_step", JStr "ANALYSIS_COMPLETE");
     ("outcome", JStr (Outcome_value result.(ar_outcome)));
     ("reason", JStr result.(ar_reason)); ("recommendation_id", opt_id recommendation);
     ("cleanup_verified", JBool true)])
  (set_chx_cleanup_completed_at (Some now)
  (set_chx_completed_at (Some now)
  (set_chx_status EXPERIMENT_SUCCEEDED e))).

(** [run_finops_scenario_job]. *)
Definition run_finops_scenario_job (authorization : option string) (scenario_id : string)
    (execution_id : uuid) : M (World X) InternalFinOpsScenarioResponse :=
  in_session (
    do! lift (require_worker authorization);
    do! raise_if (negb (bool_decide (scenario_id ∈ FINOPS_SCENARIOS))) scenario_not_found;
    let! o := query (λ db, db.(chaos_executions) !! execution_id) in
    match o with
    | None => raise (execution_not_found "Matching FinOps execution was not found")
    | Some e =>
        do! raise_if (negb (String.eqb e.(chx_scenario_id) scenario_id))
              (execution_not_found "Matching FinOps execution was not found");
        if bool_decide (e.(chx_status) = EXPERIMENT_SUCCEEDED) then lift (recorded_execution e)
        else
          do! raise_if (negb (bool_decide (e.(chx_status) ∈
                  [EXPERIMENT_PENDING; EXPERIMENT_RUNNING])))
                (finops_error "EXECUTION_NOT_ACTIONABLE"
                   "FinOps execution is no longer actionable");
          let! s := lift (finops_service settings) in
          let! '(result, recommendation) :=
            analyze_scenario settings s scenario_id "finops-worker" ACTOR_SERVICE in
          let! now := utc_now in
          do! set_chaos_execution execution_id (complete_finops_execution now result recommendation);
          do! append_stream_event "incident_lab.execution" None
                [("execution_id", JStr (uuid_str execution_id)); ("scenario_id", JStr scenario_id);
                 ("status", JStr (ExperimentStatus_value EXPERIMENT_SUCCEEDED));
                 ("current_step", JStr "ANALYSIS_COMPLETE");
                 ("outcome", JStr (Outcome_value result.(ar_outcome)));
                 ("recommendation_id", opt_id recommendation)];
          do! commit;
          ret {| isr_execution_id := execution_id; isr_status := EXPERIMENT_SUCCEEDED;
                 isr_outcome := Outcome_value result.(ar_outcome);
                 isr_recommendation_id := recommendation |}
    end).

Definition fail_finops_execution (now : datetime) (error_code : string) (e : ChaosExecution)
  : ChaosExecution :=
  set_chx_details (dict_update e.(chx_details)
    [("current_step", JStr "FAILED"); ("error_code", JStr error_code);
     ("cleanup_verified", JBool true)])
  (set_chx_failure_reason (Some "FinOps providers did not produce a valid bounded analysis")
  (set_chx_cleanup_completed_at (Some now)
  (set_chx_completed_at (Some now)
  (set_chx_status EXPERIMENT_FAILED e)))).

(** [fail_finops_scenario_job]. *)
Definition fail_finops_scenario_job (authorization : option string) (execution_id : uuid)
    (error_code : string) : M (World X) InternalFinOpsScenarioResponse :=
  in_session (
    do! lift (require_worker authorization);
    let! o := query (λ db, db.(chaos_executions) !! execution_id) in
    match o with
    | None => raise (execution_not_found "FinOps execution was not found")
    | Some e =>
        do! raise_if (negb (bool_decide (e.(chx_scenario_id) ∈ FINOPS_SCENARIOS)))
              (execution_not_found "FinOps execution was not found");
        let! status :=
          (if bool_decide (e.(chx_status) ∈ [EXPERIMENT_PENDING; EXPERIMENT_RUNNING]) then
             let! now := utc_now in
             do! set_chaos_execution execution_id (fail_finops_execution now error_code);
             do! append_stream_event "incident_lab.execution" None
                   [("execution_id", JStr (uuid_str execution_id));
                    ("scenario_id", JStr e.(chx_scenario_id));
                    ("status", JStr (ExperimentStatus_value EXPERIMENT_FAILED));
                    ("current_step", JStr "FAILED"); ("error_code", JStr error_code);
                    ("cleanup_verified", JBool true)];
             do! commit;
             ret EXPERIMENT_FAILED
           else ret e.(chx_status)) in
        ret {| isr_execution_id := execution_id; isr_status := status; isr_outcome := "FAILED";
               isr_recommendation_id := None |}
    end).
End handlers.
