(* ===== verification/FinOpsRuns.v ===== *)
(** * What the FinOps handlers do

    Runs of the handlers of [FinOpsApi]: the evidence of a recommendation is stored
    once, a pull request is made only of a current one, and no sequence of handlers
    leads a recommendation anywhere else. *)

From S2P Require Import Prelude PyFloat Json Sha256 Effects JsonParse Rbac Actions StateMachine Models.
From S2P Require Import World Config AuditLog History Memory Runbooks Verification Telemetry.
From S2P Require Import Encoding GitHubPolicy GitHub GitHubRuns Url.
From S2P Require Import PyNumber FinOpsEngine FinOpsProviders FinOps FinOpsApi.
From Stdlib Require Import SpecFloat.

(** ** Reading the environment *)

(** Nothing but the environment changes. *)
Definition reads {X} : relation (World X) := λ w w', w' = set_ext w'.(ext) w.

#[export] Instance reads_evolution {X} : Evolution (reads (X:=X)).
Proof.
  split; [by intros []|]. intros w1 w2 w3 H1 H2. unfold reads in *. rewrite H2, H1. done.
Qed.

Section reading.
Context {X : Type} `{!Runtime X} `{!FinOpsServer X} {dump : FinOpsDump} {urls : UrlLibrary}.

Lemma external_reads {A} (f : X → A * X) : evolves reads (external f).
Proof. by intros w. Qed.
Lemma query_reads {A} (f : Database → A) : evolves (reads (X:=X)) (query f).
Proof. by intros []. Qed.
Lemma deref_reads {R} (table : Database → gmap uuid R) id : evolves (reads (X:=X)) (deref table id).
Proof. intros []. unfold deref, query, gets, bind. simpl. by case_match. Qed.
Lemma utc_now_reads : evolves (reads (X:=X)) utc_now.
Proof. apply external_reads. Qed.
Hint Resolve external_reads query_reads deref_reads utc_now_reads : cw_pres.

Lemma attempt_reads {A} (m : M (World X) A) : evolves reads m → evolves reads (attempt m).
Proof. intros. unfold attempt. evolve. Qed.

Lemma bounded_get_reads c path params : evolves (reads (X:=X)) (bounded_get c path params).
Proof. unfold bounded_get. evolve. Qed.
Hint Resolve attempt_reads bounded_get_reads : cw_pres.

Lemma collect_metrics_reads p queries start end_ step optional :
  evolves (reads (X:=X)) (collect_metrics p queries start end_ step optional).
Proof. unfold collect_metrics, finops_range, instant_scalar. evolve;
  apply attempt_reads; evolve. Qed.
Hint Resolve collect_metrics_reads : cw_pres.

Lemma analyze_target_reads settings s scenario_id :
  evolves (reads (X:=X)) (analyze_target settings s scenario_id).
Proof.
  unfold analyze_target, workload_allocation, cluster_allocation, collect_workload, collect_nodes.
  cbv zeta. evolve.
Qed.
End reading.

#[export] Hint Resolve external_reads query_reads deref_reads utc_now_reads
  analyze_target_reads : cw_pres.

(** ** Storing an analysis *)

(** A row as [persist_result] stores it. *)
Definition stored_of (settings : Settings) (scenario_id : string) (d : RecommendationDraft)
    `{FinOpsDump} (id : uuid) (r : FinOpsRecommendation) : Prop :=
  ∃ now created environment, environment_of d.(rd_environment) = Ok environment ∧
    r = recommendation_row id created (now + seconds settings.(finops_recommendation_ttl_seconds))
          scenario_id environment d.

Section storing.
Context {X : Type} `{!Runtime X} `{!FinOpsServer X} {dump : FinOpsDump} {urls : UrlLibrary}.
Context (settings : Settings).

Lemma persist_result_executions result actor actor_type :
  evolves (same_db (X:=X) chaos_executions) (persist_result settings result actor actor_type).
Proof. unfold persist_result. cbv zeta. evolve. Qed.

Lemma persist_result_step result actor actor_type :
  evolves (session_step (X:=X)) (persist_result settings result actor actor_type).
Proof. unfold persist_result. cbv zeta. evolve. Qed.

Lemma persist_result_trace result actor actor_type :
  evolves (same_trace (X:=X)) (persist_result settings result actor actor_type).
Proof. unfold persist_result. cbv zeta. evolve. Qed.

(** What is stored: nothing, the row already there, or one new row. *)
Lemma persist_run result actor actor_type (w w' : World X) o :
  persist_result settings result actor actor_type w = (Ok o, w') →
  let t := w.(work).(finops_recommendations) in
  let t' := w'.(work).(finops_recommendations) in
  match result.(ar_recommendation) with
  | None => o = None ∧ t' = t
  | Some d =>
      let p := same_fingerprint d.(rd_source_fingerprint) in
      (∃ r, select_one p t = Some r ∧ o = Some r.(fin_id) ∧ w' = w) ∨
      (select_one p t = None ∧ ∃ id r, o = Some id ∧ t !! id = None ∧
         stored_of settings result.(ar_scenario_id) d id r ∧ t' = <[id := r]> t)
  end.
Proof.
  unfold persist_result. destruct (ar_recommendation result) as [d|]; cbv zeta; intros Hrun.
  - apply bind_ok in Hrun as (o' & w1 & Hq & Hrun). injection Hq as <- <-.
    destruct (select_one _ _) as [r|] eqn:Hsel.
    { apply ret_ok in Hrun as [-> ->]. left. by exists r. }
    right. split; [done|].
    apply bind_ok in Hrun as (env & w2 & [Henv ->]%lift_ok & Hrun).
    apply bind_ok in Hrun as (now & w2 & Hnow & Hrun). injection Hnow as _ <-.
    apply bind_ok in Hrun as (id & w3 & Hid & Hrun). injection Hid as _ <-.
    apply bind_ok in Hrun as (created & w4 & Hc & Hrun). injection Hc as _ <-.
    apply bind_ok in Hrun as (? & w5 & (Hnew & Hok & ->)%insert_row_ok & Hrun).
    apply bind_ok in Hrun as (? & w6 & Hf & Hrun). injection Hf as _ <-.
    set (r := recommendation_row _ _ _ _ _ _) in *.
    match type of Hrun with _ ?w5 = _ =>
      assert (w'.(work).(finops_recommendations) = w5.(work).(finops_recommendations)) as Hsame
        by (eapply (evolves_run (same_db finops_recommendations)); [|exact Hrun]; evolve) end.
    apply bind_ok in Hrun as (? & w7 & _ & Hrun). apply bind_ok in Hrun as (? & w8 & _ & Hrun).
    apply ret_ok in Hrun as [-> _]. exists id, r. split_and!; [done|exact Hnew| |exact Hsame].
    by exists now, created, env.
  - apply bind_ok in Hrun as (? & w1 & Haudit & [-> ->]%ret_ok). split; [done|].
    eapply (evolves_run (same_db finops_recommendations)); [|exact Haudit]. evolve.
Qed.
End storing.

(** ** Proposing a stored recommendation *)

(** What a proposal requires of a recommendation; the clock reads [now]. *)
Record proposable (now : datetime) (r : FinOpsRecommendation) : Prop := {
  pro_type : r.(fin_recommendation_type) = "WORKLOAD_RIGHTSIZING";
  pro_status : r.(fin_status) ∈ [FINOPS_RECOMMENDED; FINOPS_PR_CREATED];
  pro_current : now < r.(fin_expires_at);
  pro_unchanged : digest r.(fin_current_config) = r.(fin_expected_state_digest);
}.

Section proposing.
Context {X : Type} `{!Runtime X} `{!FinOpsServer X} `{!GitHubServer X}.
Context {dump : FinOpsDump} {urls : UrlLibrary} {codec : YamlLibrary}.
Context (settings : Settings).

Lemma when_raise_ok {A} c e (m : M (World X) A) w u w' :
  when c (bind m (λ _, raise e)) w = (Ok u, w') → c = false ∧ w' = w.
Proof.
  destruct c; simpl; [|by intros [= <- <-]].
  intros (? & ? & _ & Hr)%bind_ok. done.
Qed.

(** A proposal is built only of a recommendation that is current, and then reading it
    for the update has changed nothing. *)
Lemma build_run id (w w' : World X) p :
  build_gitops_proposal settings id w = (Ok p, w') →
  reads w w' ∧ ∃ r now, w.(work).(finops_recommendations) !! id = Some r ∧
    proposable now r ∧ proposal_of settings r = Ok p.
Proof.
  unfold build_gitops_proposal. intros Hrun.
  apply bind_ok in Hrun as (r & w1 & [Hr ->]%deref_ok & Hrun).
  apply bind_ok in Hrun as (? & w1 & [Ht ->]%raise_if_ok & Hrun).
  apply bind_ok in Hrun as (? & w1 & [Hs ->]%raise_if_ok & Hrun).
  apply bind_ok in Hrun as (now & w1 & Hnow & Hrun). injection Hnow as _ <-.
  apply bind_ok in Hrun as (? & w1 & [He ->]%when_raise_ok & Hrun).
  apply bind_ok in Hrun as (? & w1 & [Hd ->]%when_raise_ok & Hrun).
  apply lift_ok in Hrun as [Hp ->]. split; [by destruct w|]. exists r, now.
  split; [done|]. split; [|done].
  apply negb_false_iff in Ht, Hs, Hd. apply String.eqb_eq in Ht, Hd.
  apply bool_decide_eq_true in Hs. split; [done..|lia|done].
Qed.

Lemma get_for_update_run id (w w' : World X) :
  get_for_update id w = (Ok tt, w') →
  reads w w' ∨ ∃ r, w'.(work).(finops_recommendations) !! id = Some r ∧
    r.(fin_status) = FINOPS_EXPIRED.
Proof.
  unfold get_for_update. intros Hrun.
  apply bind_ok in Hrun as (o & w1 & Hq & Hrun). injection Hq as <- <-.
  destruct (finops_recommendations (work w) !! id) as [r|] eqn:Hr; [|done].
  apply bind_ok in Hrun as (now & w1 & Hnow & Hrun). injection Hnow as _ <-.
  destruct (_ && _); [|injection Hrun as <-; left; by destruct w].
  right. exists (set_fin_status FINOPS_EXPIRED r). split; [|done].
  unfold when in Hrun. apply bind_ok in Hrun as (? & w1 & Hset & Hrun). injection Hset as _ <-.
  apply (evolves_run (same_db finops_recommendations)) in Hrun; [|evolve].
  unfold same_db, stable in Hrun. rewrite Hrun. simpl. by rewrite lookup_alter_eq, Hr.
Qed.

Lemma prepared_run id (w w1 w' : World X) p :
  get_for_update id w = (Ok tt, w1) → build_gitops_proposal settings id w1 = (Ok p, w') →
  reads w w' ∧ ∃ r now, w.(work).(finops_recommendations) !! id = Some r ∧
    proposable now r ∧ proposal_of settings r = Ok p.
Proof.
  intros H1 H2. apply build_run in H2 as (Hreads & r & now & Hr & Hp & Hof).
  apply get_for_update_run in H1 as [H1|(r' & Hr' & He)].
  - split; [by eapply evolves_trans; [tc_solve|..]|]. exists r, now.
    rewrite H1 in Hr. by split_and!.
  - destruct Hp as [_ Hs _ _]. assert (r' = r) as -> by congruence. rewrite He in Hs.
    by apply list_elem_of_In in Hs as [?|[?|[]]].
Qed.

(** ** The values file *)

(** The file names the requests the evidence was collected for, and the patched text
    is the document with two requests replaced. *)
Definition patches (r : FinOpsRecommendation) (content patched : string) : Prop :=
  ∃ d current proposed cpu memory cores bytes new_cpu new_memory,
    values_document content = Ok d ∧
    requests_of r.(fin_current_config) = Some current ∧
    requests_of r.(fin_recommended_config) = Some proposed ∧
    parse_cpu (ydict_get "cpu" d.(vd_requests)) = Ok cpu ∧
    parse_memory (ydict_get "memory" d.(vd_requests)) = Ok memory ∧
    request_cores current = Ok cores ∧ request_bytes current = Ok bytes ∧
    requests_match cpu cores memory bytes = true ∧
    res_bind (request_cores proposed) cpu_text = Ok new_cpu ∧
    res_bind (request_bytes proposed) memory_text = Ok new_memory ∧
    patched = yaml_safe_dump (with_requests d
      (ydict_set "memory" (YScalar (JStr new_memory))
        (ydict_set "cpu" (YScalar (JStr new_cpu)) d.(vd_requests)))).

Lemma patch_run id content (w w' : World X) patched :
  patch_gitops_values id content w = (Ok patched, w') →
  w' = w ∧ ∃ r, w.(work).(finops_recommendations) !! id = Some r ∧ patches r content patched.
Proof.
  unfold patch_gitops_values. intros Hrun.
  apply bind_ok in Hrun as (r & w1 & [Hr ->]%deref_ok & Hrun).
  apply bind_ok in Hrun as (d & w1 & [Hd ->]%lift_ok & Hrun).
  destruct (requests_of (fin_current_config r)) as [current|] eqn:Hcur; [|done].
  destruct (requests_of (fin_recommended_config r)) as [proposed|] eqn:Hpro; [|done].
  apply bind_ok in Hrun as (cpu & w1 & [Hcpu ->]%lift_ok & Hrun).
  apply bind_ok in Hrun as (memory & w1 & [Hmem ->]%lift_ok & Hrun).
  apply bind_ok in Hrun as (cores & w1 & [Hcores ->]%lift_ok & Hrun).
  apply bind_ok in Hrun as (bytes & w1 & [Hbytes ->]%lift_ok & Hrun).
  apply bind_ok in Hrun as (? & w1 & [Hm ->]%when_raise_ok & Hrun).
  apply lift_ok in Hrun as [Hp ->]. split; [done|]. exists r. split; [done|].
  apply res_bind_ok in Hp as (nc & Hnc & Hp). apply res_bind_ok in Hp as (nm & Hnm & [= <-]).
  apply negb_false_iff in Hm.
  exists d, current, proposed, cpu, memory, cores, bytes, nc, nm. by split_and!.
Qed.

(** ** Asking GitHub *)

(** Only reads are sent. *)
Definition is_read (c : call) : Prop := ∃ path body, c = CallGitHub "GET" path body.
Definition asks_reads : relation (World X) := λ w w',
  w'.(work) = w.(work) ∧ w'.(committed) = w.(committed) ∧
  log_extends is_read w.(trace) w'.(trace).

#[global] Instance asks_reads_evolution : Evolution asks_reads.
Proof.
  split; [intros w; by split_and!|].
  intros w1 w2 w3 (? & ? & ?) (? & ? & ?). split_and!; [congruence..|by etrans].
Qed.

Lemma request_get_reads path body : evolves asks_reads (request (X:=X) "GET" path body).
Proof.
  unfold request. repeat evolve_step; intros w; split_and!; try done.
  apply log_extends_snoc. by eexists _, _.
Qed.

Lemma read_values_reads policy p payload :
  evolves asks_reads (read_values (X:=X) policy p payload).
Proof.
  unfold read_values, read_file. repeat first [apply request_get_reads | evolve_step].
Qed.

Lemma publish_asks policy id operation repository path r :
  evolves (asks (X:=X) policy) (publish_change policy id operation repository path r).
Proof.
  unfold publish_change.
  repeat first [ apply (create_branch_asks (X:=X)) | apply (update_file_asks (X:=X))
               | apply (create_pull_request_asks (X:=X))
               | evolve_step ].
Qed.

Lemma propose_change_same {A} (f : Database → A) policy id operation correlation incident r :
  (∀ g d, f (upd_audit_events g d) = f d) → (∀ g d, f (upd_github_records g d) = f d) →
  evolves (same_db (X:=X) f) (propose_change policy id operation correlation incident r).
Proof.
  intros Ha Hg. unfold propose_change.
  repeat first [ evolve_step | by apply record_audit_same | by apply insert_row_same
               | solve [eauto with cw_pres] | idtac ].
  intros w. destruct (publish_asks policy id operation s s0 r w) as [Hw _].
  unfold same_db, stable. by rewrite Hw.
Qed.

Lemma propose_change_committed policy id operation correlation incident r :
  evolves (stable (committed (X:=X))) (propose_change policy id operation correlation incident r).
Proof.
  assert (∀ A (m : M (World X) A), evolves session_step m → evolves (stable committed) m) as Hs
    by (intros A m H w; apply H).
  unfold propose_change.
  repeat first [ evolve_step | solve [apply Hs; eauto with cw_pres] | idtac ].
  intros w. apply (publish_asks policy id operation s s0 r w).
Qed.

(** ** The pull request *)

(** The recommendation bound to its pull request. *)
Definition pr_created (reference url : string) (r : FinOpsRecommendation) : FinOpsRecommendation :=
  set_fin_pr_url (Some url) (set_fin_pr_reference (Some reference)
    (set_fin_status FINOPS_PR_CREATED r)).

(** Not bound to another pull request. *)
Definition bindable (reference : string) (r : FinOpsRecommendation) : Prop :=
  match r.(fin_pr_reference) with
  | Some s => s = reference ∨ truthy_str s = false
  | None => True
  end.

Lemma record_pr_created_quiet id reference url actor (w w' : World X) res :
  record_pr_created id reference url actor w = (res, w') →
  w'.(trace) = w.(trace) ∧ w'.(committed) = w.(committed).
Proof.
  intros Hrun. split;
    [eapply (evolves_run same_trace); [|exact Hrun]|
     apply (evolves_run session_step) in Hrun as (_ & ? & _); [done|]];
    unfold record_pr_created; evolve.
Qed.

Lemma record_pr_created_run id reference url actor (w w' : World X) :
  record_pr_created id reference url actor w = (Ok tt, w') →
  w'.(trace) = w.(trace) ∧
  ∃ r, w.(work).(finops_recommendations) !! id = Some r ∧ bindable reference r ∧
    w'.(work).(finops_recommendations)
    = <[id := pr_created reference url r]> w.(work).(finops_recommendations).
Proof.
  intros Hrun. split; [by destruct (record_pr_created_quiet _ _ _ _ _ _ _ Hrun)|].
  unfold record_pr_created in Hrun.
  apply bind_ok in Hrun as (r & w1 & [Hr ->]%deref_ok & Hrun).
  apply bind_ok in Hrun as (? & w1 & [Hb ->]%raise_if_ok & Hrun).
  apply bind_ok in Hrun as (? & w1 & Hset & Hrun). injection Hset as _ <-.
  exists r. split; [done|]. split.
  { unfold bindable. destruct (fin_pr_reference r) as [s|]; [|done].
    apply andb_false_iff in Hb as [?|Hb]; [by right|left].
    apply negb_false_iff in Hb. by apply String.eqb_eq. }
  apply (evolves_run (same_db finops_recommendations)) in Hrun; [|evolve].
  unfold same_db, stable in Hrun. rewrite Hrun. simpl. apply map_eq. intros k.
  destruct (decide (k = id)) as [->|Hne].
  - by rewrite lookup_alter_eq, lookup_insert_eq, Hr.
  - by rewrite lookup_alter_ne, lookup_insert_ne.
Qed.
End proposing.

(** ** Creating a pull request *)

Section creating.
Context {X : Type} `{!Runtime X} `{!FinOpsServer X} `{!GitHubServer X}.
Context {dump : FinOpsDump} {urls : UrlLibrary} {codec : YamlLibrary}.
Context (settings : Settings).

(** A session in which nothing is durable yet and nothing was written outside. *)
Definition preparing : relation (World X) := λ w w',
  w'.(committed) = w.(committed) ∧ log_extends is_read w.(trace) w'.(trace).

#[global] Instance preparing_evolution : Evolution preparing.
Proof.
  split; [intros w; by split_and!|].
  intros w1 w2 w3 (? & ?) (? & ?). split_and!; [congruence..|by etrans].
Qed.

Lemma preparing_of {A} (m : M (World X) A) :
  evolves session_step m → evolves same_trace m → evolves preparing m.
Proof.
  intros H1 H2 w. destruct (H1 w) as (_ & Hc & _). split; [done|]. by rewrite (H2 w).
Qed.

Lemma prepare_preparing operator id payload :
  evolves preparing (prepare_pr settings operator id payload).
Proof.
  assert (∀ A (m : M (World X) A), evolves asks_reads m → evolves preparing m) as Hreads
    by (intros A m H w; destruct (H w) as (_ & ? & ?); by split).
  assert (evolves preparing (get_for_update (X:=X) id)) as H1
    by (apply preparing_of; unfold get_for_update; evolve).
  assert (evolves preparing (build_gitops_proposal settings id)) as H2
    by (apply preparing_of; unfold build_gitops_proposal; evolve).
  assert (∀ content, evolves preparing (patch_gitops_values (X:=X) id content)) as H3
    by (intros; apply preparing_of; unfold patch_gitops_values; evolve).
  unfold prepare_pr.
  repeat first [ evolve_step | apply H1 | apply H2 | apply H3
               | apply Hreads, read_values_reads ].
  apply preparing_of; eauto with cw_pres.
Qed.

(** What a change asked of GitHub rests on: an operator, a current recommendation, and
    the values file as GitHub serves it at the commit the operator named, which still
    has the requests the evidence was collected for. *)
Record warranted (operator : Principal) (id : uuid) (payload : FinOpsPullRequestRequest)
    (r : FinOpsRecommendation) (policy : GitHubAutomationPolicy)
    (request : GitHubChangeProposalRequest) : Prop := {
  war_operator : has_permission operator.(role) DEMO_TRIGGER = true;
  war_current : ∃ now, proposable now r;
  war_policy : settings_policy settings = Ok policy;
  war_valid : GitHubChangeProposalRequest_valid request = true;
  war_request : ∃ p w w' content sha patched,
    proposal_of settings r = Ok p ∧
    read_values (X:=X) policy p payload w = (Ok (content, sha), w') ∧
    patches r content patched ∧
    request = change_request r p payload.(fpr_base_commit_sha) sha patched;
}.

Lemma prepare_run operator id payload (w w' : World X) policy request :
  prepare_pr settings operator id payload w = (Ok (policy, request), w') →
  asks_reads w w' ∧ ∃ r, w.(work).(finops_recommendations) !! id = Some r ∧
    warranted operator id payload r policy request.
Proof.
  unfold prepare_pr. intros Hrun.
  apply bind_ok in Hrun as (? & w1 & [Hperm ->]%lift_ok & Hrun).
  apply bind_ok in Hrun as (? & w1 & [_ ->]%lift_ok & Hrun).
  apply bind_ok in Hrun as ([] & w1 & Hget & Hrun).
  apply bind_ok in Hrun as (p & w2 & Hbuild & Hrun).
  apply (prepared_run _ _ _ _ _ _ Hget) in Hbuild as (Hreads & r & now & Hr & Hpro & Hp).
  apply bind_ok in Hrun as (policy' & w3 & [Hpol ->]%lift_ok & Hrun).
  apply bind_ok in Hrun as ([content sha] & w3 & Hread & Hrun).
  pose proof (evolves_run _ _ _ _ _ (read_values_reads _ _ _) Hread) as (Hw & Hc & Ht).
  apply bind_ok in Hrun as (patched & w4 & Hpatch & Hrun).
  apply patch_run in Hpatch as [-> (r' & Hr' & Hpatch)].
  rewrite Hw, Hreads in Hr'. simpl in Hr'. assert (r' = r) as -> by congruence.
  apply bind_ok in Hrun as (r' & w4 & [Hr2 ->]%deref_ok & Hrun).
  rewrite Hw, Hreads in Hr2. simpl in Hr2. assert (r' = r) as -> by congruence.
  apply bind_ok in Hrun as (request' & w4 & [[Hreq Hv]%validated_is ->]%lift_ok & Hrun).
  apply ret_ok in Hrun as [[= <- <-] ->]. rewrite <- Hreq in Hv.
  split; [rewrite Hreads in Hw, Hc, Ht; done|]. exists r. split; [done|]. split.
  - unfold require_permission in Hperm. by destruct (has_permission _ _).
  - by exists now.
  - done.
  - done.
  - by exists p, w2, w3, content, sha, patched.
Qed.

(** Leaving the session of a request: durable, or as before. *)
Lemma in_session_run {A} (m : M (World X) A) (w w' : World X) res :
  w.(committed) = w.(work) → in_session m w = (res, w') →
  ∃ w1, m w = (res, w1) ∧ w'.(trace) = w1.(trace) ∧
    match res with
    | Ok _ => w' = w1
    | Raise _ => w1.(committed) = w.(committed) →
                 w'.(work) = w.(work) ∧ w'.(committed) = w.(committed)
    end.
Proof.
  intros Hclean. unfold in_session, catch. destruct (m w) as [[a|e] w1] eqn:Hm.
  - intros [= <- <-]. by exists w1.
  - unfold bind, rollback, modify, raise. intros [= <- <-]. exists w1. split; [done|].
    split; [done|]. simpl. intros Hc. by rewrite Hc.
Qed.

(** What was written to GitHub for one request. *)
Definition writes_of (policy : GitHubAutomationPolicy) (id : uuid)
    (request : GitHubChangeProposalRequest) (writes : list call) : Prop :=
  writes = [] ∨ ∃ repository path, writable_path policy repository path ∧
    writes `prefix_of` change_calls id FINOPS_OPERATION repository path request.

Lemma propose_writes policy id correlation request (w w' : World X) res :
  propose_change policy id FINOPS_OPERATION correlation None request w = (res, w') →
  (∃ writes, w'.(trace) = w.(trace) ++ writes ∧ writes_of policy id request writes) ∧
  w'.(committed) = w.(committed) ∧
  w'.(work).(finops_recommendations) = w.(work).(finops_recommendations).
Proof.
  intros Hrun. split_and!.
  - apply propose_sends in Hrun as (writes & ? & Hw). exists writes. split; [done|].
    destruct Hw as [?|(repository & path & ? & _ & ?)]; [by left|right; by exists repository, path].
  - apply (evolves_run _ _ _ _ _ (propose_change_committed _ _ _ _ _ _) Hrun).
  - apply (evolves_run (same_db finops_recommendations) _ _ _ _
      (propose_change_same finops_recommendations _ _ _ _ _ _ (λ _ _, eq_refl) (λ _ _, eq_refl)) Hrun).
Qed.

(** The whole of one run, before its session is left. *)
Lemma create_pr_run operator id payload (w w1 : World X) res :
  create_pr settings operator id payload w = (res, w1) →
  (preparing w w1 ∧ is_ok res = false) ∨
  ∃ r policy request w2, asks_reads w w2 ∧ w.(work).(finops_recommendations) !! id = Some r ∧
    warranted operator id payload r policy request ∧
    (∃ writes, w1.(trace) = w2.(trace) ++ writes ∧ writes_of policy id request writes) ∧
    match res with
    | Raise _ => w1.(committed) = w.(committed)
    | Ok resp =>
        let reference := pr_reference_of resp.(gcp_pull_request) in
        w1.(committed) = w1.(work) ∧ bindable reference r ∧
        w1.(work).(finops_recommendations)
        = <[id := pr_created reference resp.(gcp_pull_request).(gpr_url) r]>
            w.(work).(finops_recommendations)
    end.
Proof.
  unfold create_pr. intros Hrun.
  destruct (prepare_pr settings operator id payload w) as [[[policy request]|e] w2] eqn:Hprep.
  2: { rewrite (bind_step_raise _ _ _ _ _ Hprep) in Hrun. injection Hrun as <- <-. left.
       split; [|done]. by apply (evolves_run _ _ _ _ _ (prepare_preparing _ _ _) Hprep). }
  right. rewrite (bind_step _ _ _ _ _ Hprep) in Hrun.
  apply prepare_run in Hprep as [Hasks (r & Hr & Hwar)].
  exists r, policy, request, w2. do 3 (split; [done|]). destruct Hasks as (Hw & Hc & _).
  destruct (propose_change policy id FINOPS_OPERATION (finops_correlation id) None request w2)
    as [[resp|e] w3] eqn:Hpropose;
    pose proof (propose_writes _ _ _ _ _ _ _ Hpropose) as (Hsent & Hc3 & Hs3).
  2: { rewrite (bind_step_raise _ _ _ _ _ Hpropose) in Hrun. injection Hrun as <- <-.
       split; [done|]. congruence. }
  rewrite (bind_step _ _ _ _ _ Hpropose) in Hrun.
  match type of Hrun with bind ?m _ _ = _ => destruct (m w3) as [[[]|e] w4] eqn:Hrec end.
  - rewrite (bind_step _ _ _ _ _ Hrec) in Hrun. injection Hrun as <- <-. simpl.
    apply record_pr_created_run in Hrec as (Ht4 & r' & Hr' & Hb & Htab).
    rewrite Hs3, Hw in Hr', Htab. assert (r' = r) as -> by congruence.
    split; [by rewrite Ht4|]. by split_and!.
  - rewrite (bind_step_raise _ _ _ _ _ Hrec) in Hrun. injection Hrun as <- <-.
    destruct (record_pr_created_quiet _ _ _ _ _ _ _ Hrec) as [-> ->].
    split; [done|congruence].
Qed.

End creating.

(** ** The life of a recommendation *)

(** A row as it is first stored. *)
Record fresh_recommendation (r : FinOpsRecommendation) : Prop := {
  fresh_status : r.(fin_status) = FINOPS_RECOMMENDED;
  fresh_reference : r.(fin_pr_reference) = None;
  fresh_digest : digest r.(fin_current_config) = r.(fin_expected_state_digest);
}.

(** The table changes by a new row of new evidence, or by binding one that may be
    proposed to its pull request. *)
Inductive recs_step : relation (gmap uuid FinOpsRecommendation) :=
| recs_new t id r :
    t !! id = None → recommendation_fits r t = true → fresh_recommendation r →
    recs_step t (<[id := r]> t)
| recs_bound t id r reference url :
    t !! id = Some r → (∃ now, proposable now r) → bindable reference r →
    truthy_str reference = true → recs_step t (<[id := pr_created reference url r]> t).

(** What holds of every stored recommendation. *)
Record recommendation_ok (r : FinOpsRecommendation) : Prop := {
  rok_state : r.(fin_status) = FINOPS_RECOMMENDED ∧ r.(fin_pr_reference) = None ∨
    r.(fin_status) = FINOPS_PR_CREATED ∧
    ∃ s, r.(fin_pr_reference) = Some s ∧ truthy_str s = true;
  rok_digest : digest r.(fin_current_config) = r.(fin_expected_state_digest);
}.

Record recommendations_ok (t : gmap uuid FinOpsRecommendation) : Prop := {
  recs_ok id r : t !! id = Some r → recommendation_ok r;
  recs_unique i j r s : t !! i = Some r → t !! j = Some s →
    r.(fin_source_fingerprint) = s.(fin_source_fingerprint) → i = j;
}.

(** Everything but the state and the pull request. *)
Definition contents (r : FinOpsRecommendation) : FinOpsRecommendation :=
  set_fin_pr_url None (set_fin_pr_reference None (set_fin_status FINOPS_RECOMMENDED r)).

(** A stored recommendation later on: the same, bound at most once. *)
Definition later_recommendation : relation FinOpsRecommendation := λ r r',
  contents r' = contents r ∧ ∀ s, r.(fin_pr_reference) = Some s → r'.(fin_pr_reference) = Some s.

#[export] Instance later_recommendation_preorder : PreOrder later_recommendation.
Proof. split; [done|]. intros r1 r2 r3 [? ?] [? ?]. split; [congruence|auto]. Qed.

Definition later_recommendations (t t' : gmap uuid FinOpsRecommendation) : Prop :=
  ∀ id r, t !! id = Some r → ∃ r', t' !! id = Some r' ∧ later_recommendation r r'.

#[export] Instance later_recommendations_preorder : PreOrder later_recommendations.
Proof.
  split; [intros t id r ?; by exists r|].
  intros t1 t2 t3 H1 H2 id r (r2 & H & ?)%H1. apply H2 in H as (r3 & ? & ?).
  exists r3. split; [done|]. by etrans.
Qed.

Lemma recommendation_fits_unique r t id s :
  recommendation_fits r t = true → t !! id = Some s →
  s.(fin_source_fingerprint) ≠ r.(fin_source_fingerprint).
Proof.
  unfold recommendation_fits. rewrite !andb_true_iff. intros (((Hn & _) & _) & _) Hs Heq.
  apply negb_true_iff in Hn.
  assert (existsb (λ s, String.eqb s.(fin_source_fingerprint) r.(fin_source_fingerprint)) (rows t)
          = true); [|congruence].
  apply existsb_elem_of. exists s. split; [apply elem_of_rows; by exists id|by apply String.eqb_eq].
Qed.

Lemma recs_step_ok t t' :
  recommendations_ok t → recs_step t t' → recommendations_ok t' ∧ later_recommendations t t'.
Proof.
  intros [Hok Hu] Hstep.
  destruct Hstep as [t id r Hn Hfits [Hs Hp Hd]|t id r reference url Hr _ Hb Ht]; split.
  - split.
    + intros k s [[<- <-]|[_ Hk]]%lookup_insert_Some; [by split; [left|]|by eapply Hok].
    + intros i j a b [[<- <-]|[Hi Ha]]%lookup_insert_Some [[<- <-]|[Hj Hb]]%lookup_insert_Some Heq;
        [done|by destruct (recommendation_fits_unique _ _ _ _ Hfits Hb)|
         by destruct (recommendation_fits_unique _ _ _ _ Hfits Ha)|by eapply Hu].
  - intros k s Hk. exists s. split; [|done]. rewrite lookup_insert_ne by congruence. done.
  - destruct (Hok _ _ Hr) as [_ Hd]. split.
    + intros k s [[<- <-]|[_ Hk]]%lookup_insert_Some; [|by eapply Hok].
      split; [right; split; [done|by exists reference]|done].
    + assert (∀ k s, <[id := pr_created reference url r]> t !! k = Some s → ∃ s',
        t !! k = Some s' ∧ s'.(fin_source_fingerprint) = s.(fin_source_fingerprint)) as Hback.
      { intros k s [[<- <-]|[_ Hk]]%lookup_insert_Some; [by exists r|by exists s]. }
      intros i j a b (a' & Ha & Hfa)%Hback (b' & Hb' & Hfb)%Hback Heq. eapply Hu; [done..|congruence].
  - intros k s Hk. destruct (decide (id = k)) as [<-|Hne].
    + assert (s = r) as -> by congruence. rewrite lookup_insert_eq. eexists. split; [done|].
      split; [done|]. intros s Hs. unfold bindable in Hb. rewrite Hs in Hb.
      destruct Hb as [->|Hb]; [done|]. destruct (Hok _ _ Hr) as [[[_ ?]|(_ & s' & ? & ?)] _]; congruence.
    + exists s. by rewrite lookup_insert_ne.
Qed.

Lemma recs_steps_ok t t' :
  recommendations_ok t → rtc recs_step t t' → recommendations_ok t' ∧ later_recommendations t t'.
Proof.
  intros Hok Hs. induction Hs as [t|t1 t2 t3 H12 _ IH]; [done|].
  apply (recs_step_ok _ _ Hok) in H12 as [Hok2 Hl]. destruct (IH Hok2). split; [done|by etrans].
Qed.

(** ** Every handler *)

(** The table of recommendations moves by its steps. *)
Definition recs_evolve {X} : relation (World X) := λ w w',
  rtc recs_step w.(work).(finops_recommendations) w'.(work).(finops_recommendations).

#[export] Instance recs_evolve_evolution {X} : Evolution (recs_evolve (X:=X)).
Proof. split; [intros w; apply rtc_refl|]. intros w1 w2 w3. apply rtc_trans. Qed.

Section handlers.
Context {X : Type} `{!Runtime X} `{!FinOpsServer X} `{!GitHubServer X}.
Context {dump : FinOpsDump} {urls : UrlLibrary} {codec : YamlLibrary}.
Context (settings : Settings).

Lemma recs_evolve_same {A} (m : M (World X) A) :
  evolves (same_db finops_recommendations) m → evolves recs_evolve m.
Proof. intros H w. unfold recs_evolve. rewrite (H w). apply rtc_refl. Qed.

Lemma insert_recommendation_evolves id r : fresh_recommendation r →
  evolves (recs_evolve (X:=X)) (insert_row finops_recommendations upd_finops_recommendations
                                  (recommendation_fits r) id r).
Proof.
  intros Hr w. unfold insert_row, query, gets, bind, raise_if, recs_evolve. simpl.
  destruct (bool_decide _) eqn:Hn; simpl; [|apply rtc_refl].
  destruct (recommendation_fits _ _) eqn:Hf; simpl; [|apply rtc_refl].
  apply bool_decide_eq_true in Hn. apply rtc_once. by constructor.
Qed.

Lemma persist_result_evolves result actor actor_type :
  evolves (recs_evolve (X:=X)) (persist_result settings result actor actor_type).
Proof.
  unfold persist_result. cbv zeta.
  repeat first [ evolve_step | by apply insert_recommendation_evolves
               | solve [apply recs_evolve_same; eauto with cw_pres] ].
Qed.

Lemma analyze_scenario_evolves s scenario_id actor actor_type :
  evolves (recs_evolve (X:=X)) (analyze_scenario settings s scenario_id actor actor_type).
Proof.
  unfold analyze_scenario.
  repeat first [ evolve_step | apply persist_result_evolves ].
  apply recs_evolve_same. intros w. unfold same_db, stable.
  by rewrite (analyze_target_reads settings s scenario_id w).
Qed.

(** A run that ends durable, or with nothing durable that was not. *)
Definition settling {A} (m : M (World X) A) : Prop := ∀ w r w', m w = (r, w') →
  match r with
  | Ok _ => w'.(committed) = w'.(work) ∨ w'.(committed) = w.(committed) ∧ w'.(work) = w.(work)
  | Raise _ => w'.(committed) = w.(committed)
  end.

Lemma settling_reads {A} (m : M (World X) A) : evolves reads m → settling m.
Proof.
  intros Hm w r w' Hrun. apply (evolves_run _ _ _ _ _ Hm) in Hrun. rewrite Hrun.
  destruct r; [by right|done].
Qed.

Lemma settling_reads_bind {A B} (m : M (World X) A) (k : A → M (World X) B) :
  evolves reads m → (∀ a, settling (k a)) → settling (bind m k).
Proof.
  intros Hm Hk w r w'. unfold bind. destruct (m w) as [[a|e] w1] eqn:E;
    apply (evolves_run _ _ _ _ _ Hm) in E; [|intros [= <- <-]; by rewrite E].
  intros Hrun%Hk. rewrite E in Hrun. exact Hrun.
Qed.

(** Once a session ends in a commit, what came before may have written. *)
Definition commits {A} (m : M (World X) A) : Prop := ∀ w r w', m w = (r, w') →
  w'.(committed) = if is_ok r then w'.(work) else w.(committed).

Lemma commits_settling {A} (m : M (World X) A) : commits m → settling m.
Proof. intros Hm w r w' Hrun%Hm. destruct r; [by left|done]. Qed.

Lemma commits_bind {A B} (m : M (World X) A) (k : A → M (World X) B) :
  evolves same_committed m → (∀ a, commits (k a)) → commits (bind m k).
Proof.
  intros Hm Hk w r w'. unfold bind. destruct (m w) as [[a|e] w1] eqn:E;
    apply (evolves_run _ _ _ _ _ Hm) in E; unfold same_committed, stable in E;
    [|by intros [= <- <-]].
  intros Hrun%Hk. by rewrite <- E.
Qed.

Lemma commits_end {A} (a : A) : commits (do! commit; ret a).
Proof. intros w r w' [= <- <-]. done. Qed.

Lemma settling_ret {A B} (m : M (World X) A) (f : A → B) :
  settling m → settling (let! a := m in ret (f a)).
Proof.
  intros Hm w r w'. unfold bind. destruct (m w) as [[a|e] w1] eqn:E; apply Hm in E;
    by intros [= <- <-].
Qed.

(** The session of one request is clean again after it. *)
Lemma clean_session {A} (m : M (World X) A) (w : World X) :
  settling m → w.(committed) = w.(work) →
  (∀ a w1, m w = (Ok a, w1) → recs_evolve w w1) →
  let w' := (in_session m w).2 in w'.(committed) = w'.(work) ∧ recs_evolve w w'.
Proof.
  intros Hm Hclean Hok. destruct (in_session m w) as [r w'] eqn:Hrun. simpl.
  apply (in_session_run _ _ _ _ Hclean) in Hrun as (w1 & Hrun & _ & Hend).
  pose proof (Hm _ _ _ Hrun) as Hs. destruct r as [a|e].
  - subst w'. split; [destruct Hs as [?|[? ?]]; congruence|by eapply Hok].
  - destruct (Hend Hs) as [Hw Hc]. split; [congruence|]. unfold recs_evolve. rewrite Hw.
    apply rtc_refl.
Qed.

Lemma ok_of_evolves {A} (m : M (World X) A) w a w1 :
  evolves recs_evolve m → m w = (Ok a, w1) → recs_evolve w w1.
Proof. intros He. by apply (evolves_run _ _ _ _ _ He). Qed.

Lemma reads_recs {A} (m : M (World X) A) w a w1 :
  evolves reads m → m w = (Ok a, w1) → recs_evolve w w1.
Proof.
  intros He Hrun. apply (evolves_run _ _ _ _ _ He) in Hrun. rewrite Hrun. apply rtc_refl.
Qed.

Lemma analyze_scenario_step s scenario_id actor actor_type :
  evolves (session_step (X:=X)) (analyze_scenario settings s scenario_id actor actor_type).
Proof.
  unfold analyze_scenario. repeat first [ evolve_step | apply persist_result_step ].
  intros w. rewrite (analyze_target_reads settings s scenario_id w). by split_and!.
Qed.
Hint Resolve analyze_scenario_step : cw_pres.

Lemma get_for_update_step id : evolves (session_step (X:=X)) (get_for_update id).
Proof. unfold get_for_update. evolve. Qed.
Lemma build_step id : evolves (session_step (X:=X)) (build_gitops_proposal settings id).
Proof. unfold build_gitops_proposal. evolve. Qed.
Hint Resolve get_for_update_step build_step : cw_pres.

(** One handler, in a session of its own. *)
Inductive finops_step : relation (World X) :=
| step_summary viewer w : finops_step w (finops_summary viewer w).2
| step_list viewer status environment limit offset w :
    finops_step w (list_recommendations viewer status environment limit offset w).2
| step_get viewer id w : finops_step w (get_recommendation viewer id w).2
| step_analyze operator scenario_id w :
    finops_step w (analyze_finops_scenario settings operator scenario_id w).2
| step_preview operator id w : finops_step w (preview_finops_pr settings operator id w).2
| step_create operator id payload w :
    finops_step w (create_finops_pr settings operator id payload w).2
| step_run_job authorization scenario_id execution_id w :
    finops_step w (run_finops_scenario_job settings authorization scenario_id execution_id w).2
| step_fail_job authorization execution_id error_code w :
    finops_step w (fail_finops_scenario_job settings authorization execution_id error_code w).2.

Lemma truthy_reference pull : truthy_str (pr_reference_of pull) = true.
Proof. unfold pr_reference_of. by destruct (gpr_repository pull). Qed.

Lemma create_settling operator id payload : settling (create_pr settings operator id payload).
Proof.
  intros w r w' Hrun. apply create_pr_run in Hrun as [[[Hc _] Hr]|(? & ? & ? & ? & _ & _ & _ & _ & Hr)].
  - by destruct r.
  - destruct r; [left; by destruct Hr|done].
Qed.

Lemma create_evolves operator id payload (w : World X) resp w1 :
  create_pr settings operator id payload w = (Ok resp, w1) → recs_evolve w w1.
Proof.
  intros Hrun. apply create_pr_run in Hrun as [[_ ?]|(r & policy & request & w2 & _ & Hr & Hwar & _ & Hend)];
    [done|]. destruct Hend as (_ & Hb & Htab). unfold recs_evolve. rewrite Htab. apply rtc_once.
  destruct Hwar. constructor; [done..|apply truthy_reference].
Qed.

Lemma preview_evolves operator id (w w1 : World X) a :
  (do! lift (require_permission DEMO_TRIGGER operator);
   do! lift (finops_service settings);
   do! get_for_update id;
   let! proposal := build_gitops_proposal settings id in
   do! commit; ret proposal) w = (Ok a, w1) → recs_evolve w w1.
Proof.
  intros Hrun. apply bind_ok in Hrun as (? & w2 & [_ ->]%lift_ok & Hrun).
  apply bind_ok in Hrun as (? & w2 & [_ ->]%lift_ok & Hrun).
  apply bind_ok in Hrun as ([] & w2 & Hget & Hrun).
  apply bind_ok in Hrun as (p & w3 & Hbuild & Hrun). injection Hrun as _ <-.
  apply (prepared_run _ _ _ _ _ _ Hget) in Hbuild as [Hreads _]. unfold recs_evolve. simpl.
  rewrite Hreads. apply rtc_refl.
Qed.

Ltac commits_tac := repeat first [ apply commits_end | apply commits_bind; [evolve|intros ?] ].

Lemma analyze_settling operator scenario_id : settling (
  do! lift (require_permission DEMO_TRIGGER operator);
  let! s := lift (finops_service settings) in
  let! answer := analyze_scenario settings s scenario_id operator.(login) ACTOR_USER in
  do! commit; ret answer).
Proof. apply commits_settling. commits_tac. Qed.

Lemma preview_settling operator id : settling (
  do! lift (require_permission DEMO_TRIGGER operator);
  do! lift (finops_service settings);
  do! get_for_update id;
  let! proposal := build_gitops_proposal settings id in
  do! commit; ret proposal).
Proof. apply commits_settling. commits_tac. Qed.

(** The jobs without their session. *)
Lemma run_job_settling authorization scenario_id execution_id (w : World X) :
  w.(committed) = w.(work) →
  let w' := (run_finops_scenario_job settings authorization scenario_id execution_id w).2 in
  w'.(committed) = w'.(work) ∧ recs_evolve w w'.
Proof.
  intros Hclean. apply clean_session; [|done|].
  - do 2 (apply settling_reads_bind; [evolve|intros ?]).
    apply settling_reads_bind; [evolve|]. intros [e|]; [|by apply settling_reads; evolve].
    apply settling_reads_bind; [evolve|intros ?].
    destruct (bool_decide _); [by apply settling_reads; evolve|].
    apply commits_settling. apply commits_bind; [evolve|intros ?].
    apply commits_bind; [evolve|intros s]. apply commits_bind; [evolve|intros [result rec]].
    commits_tac.
  - intros a w1. apply ok_of_evolves.
    repeat first [ evolve_step | apply analyze_scenario_evolves
                 | solve [apply recs_evolve_same; eauto with cw_pres] ].
Qed.

Lemma fail_job_settling authorization execution_id error_code (w : World X) :
  w.(committed) = w.(work) →
  let w' := (fail_finops_scenario_job settings authorization execution_id error_code w).2 in
  w'.(committed) = w'.(work) ∧ recs_evolve w w'.
Proof.
  intros Hclean. apply clean_session; [|done|].
  - apply settling_reads_bind; [evolve|intros ?].
    apply settling_reads_bind; [evolve|]. intros [e|]; [|by apply settling_reads; evolve].
    apply settling_reads_bind; [evolve|intros ?]. apply settling_ret.
    destruct (bool_decide _); [|by apply settling_reads; evolve].
    apply commits_settling. commits_tac.
  - intros a w1. apply ok_of_evolves.
    repeat first [ evolve_step | solve [apply recs_evolve_same; eauto with cw_pres] ].
Qed.

Lemma finops_step_clean (w w' : World X) :
  w.(committed) = w.(work) → finops_step w w' → w'.(committed) = w'.(work) ∧ recs_evolve w w'.
Proof.
  intros Hclean Hstep. destruct Hstep.
  1-3: apply clean_session; [apply settling_reads; evolve|done|
                             intros a w1; apply reads_recs; evolve].
  - apply clean_session; [apply analyze_settling|done|]. intros a w1. apply ok_of_evolves.
    repeat first [ evolve_step | apply analyze_scenario_evolves
                 | solve [apply recs_evolve_same; eauto with cw_pres] ].
  - apply clean_session; [apply preview_settling|done|intros a w1; apply (preview_evolves _ _ w)].
  - apply clean_session; [apply create_settling|done|intros a w1; apply create_evolves].
  - by apply run_job_settling.
  - by apply fail_job_settling.
Qed.

(** C24: the life of a recommendation.  Over any sequence of handlers, each in a session
    of its own, from a clean session in which the stored recommendations are in
    order: every session ends clean; every stored recommendation is either waiting and
    unbound or has its pull request, its digest binds its configuration, and no two
    rest on the same evidence; what was stored stays, with the same contents, and a
    pull request once bound is never replaced.  In particular an expiry that
    [get_for_update] or [build_gitops_proposal] notes in the session is never stored. *)
Theorem recommendation_lifecycle (w w' : World X) :
  w.(committed) = w.(work) → recommendations_ok w.(work).(finops_recommendations) →
  rtc finops_step w w' →
  w'.(committed) = w'.(work) ∧ recommendations_ok w'.(work).(finops_recommendations) ∧
  later_recommendations w.(work).(finops_recommendations) w'.(work).(finops_recommendations).
Proof.
  intros Hclean Hok Hsteps. induction Hsteps as [w|w1 w2 w3 Hstep _ IH]; [done|].
  apply (finops_step_clean _ _ Hclean) in Hstep as [Hclean2 Hs].
  apply (recs_steps_ok _ _ Hok) in Hs as [Hok2 Hl].
  destruct (IH Hclean2 Hok2) as (? & ? & Hl'). split_and!; [done..|by etrans].
Qed.
End handlers.

(** ** A concrete pull request *)

Definition bench_row : FinOpsRecommendation := {|
  fin_id := 42%N; fin_created_at := 0; fin_service := "cloudward-demo";
  fin_environment := ENV_STAGING; fin_recommendation_type := "WORKLOAD_RIGHTSIZING";
  fin_status := FINOPS_RECOMMENDED; fin_estimated_monthly_savings := None;
  fin_current_config := current_config bench_workload;
  fin_recommended_config :=
    workload_config bench_workload (JFloat (float_of_decimal 45 (-2))) (JInt (162 * 1048576));
  fin_evidence := []; fin_estimated_savings := [("value", JNull)]; fin_risk_score := 38;
  fin_confidence := float_of_decimal 85 (-2); fin_limitations := ["local"];
  fin_evidence_window_start := 0; fin_evidence_window_end := seconds 3600;
  fin_source_fingerprint := "f"; fin_proposal_version := 1;
  fin_expected_state_digest := digest (current_config bench_workload);
  fin_expires_at := 1800000000000000; fin_pr_reference := None; fin_pr_url := None;
  fin_approved_at := None; fin_rejected_at := None; fin_details := [("why", JStr "idle")];
|}.

Definition yaml_entry (key : string) (v : yaml) : yaml * yaml := (YScalar (JStr key), v).
Definition yaml_text (s : string) : yaml := YScalar (JStr s).

(** A library that reads one document and writes its requests. *)
#[export] Instance bench_yaml : YamlLibrary := {|
  yaml_safe_load _ := YamlLoaded (YDict [yaml_entry "cloudward-demo"
    (YDict [yaml_entry "resources" (YDict [yaml_entry "requests"
      (YDict [yaml_entry "cpu" (yaml_text "1000m"); yaml_entry "memory" (yaml_text "512Mi")])])])]);
  yaml_safe_dump v :=
    match v with
    | YDict [(_, YDict [(_, YDict [(_, YDict [(_, YScalar cpu); (_, YScalar memory)])])])] =>
        "cpu: " +:+ py_str cpu +:+ " memory: " +:+ py_str memory
    | _ => "?"
    end;
|}.

(** GitHub serves a file and accepts a change; the telemetry is never asked. *)
Definition values_github : GitHubServer Z := {|
  github_token x := (Ok "token", x);
  github_answer method _ _ x :=
    (Some (if String.eqb method "GET"
           then JObj [("encoding", JStr "base64"); ("content", JStr (base64 (bytes_of "values")));
                      ("sha", JStr "0123abcd")]
           else bench_answer), x);
  parse_datetime _ := None;
|}.
Definition no_telemetry : FinOpsServer Z := λ _ _ x, (FinOpsFailed, x).

Definition bench_operator : Principal :=
  {| user_id := 1; login := "ops"; role := OPERATOR; persisted := true |}.
Definition bench_payload : FinOpsPullRequestRequest :=
  {| fpr_base_commit_sha := "0123abc"; fpr_expected_blob_sha := Some "0123abcd" |}.
Definition bench_recommended : World Z :=
  bench_world (upd_finops_recommendations (λ _, {[42%N := bench_row]}) empty_database).

Definition bench_create : res GitHubChangeProposalResponse * World Z :=
  create_finops_pr (Runtime0 := bench_runtime) (GitHubServer0 := values_github) example_settings
    bench_operator 42%N
    bench_payload bench_recommended.

Lemma bench_creates : is_ok bench_create.1 = true.
Proof. vm_compute. reflexivity. Qed.


Lemma bench_recommendations_ok :
  recommendations_ok bench_recommended.(work).(finops_recommendations).
Proof.
  assert (∀ i r, ({[42%N := bench_row]} : gmap uuid FinOpsRecommendation) !! i = Some r →
    i = 42%N ∧ r = bench_row) as Hone by (intros i r [<- <-]%lookup_singleton_Some; done).
  split.
  - intros i r [_ ->]%Hone. by split; [left|].
  - intros i j r s [-> _]%Hone [-> _]%Hone _. done.
Qed.

Lemma recommendation_lifecycle_witness :
  rtc (finops_step (Runtime0 := bench_runtime) (FinOpsServer0 := no_telemetry)
         (GitHubServer0 := values_github) example_settings)
    bench_recommended bench_create.2 ∧
  recommendations_ok bench_create.2.(work).(finops_recommendations).
Proof.
  assert (rtc (finops_step (Runtime0 := bench_runtime) (FinOpsServer0 := no_telemetry)
    (GitHubServer0 := values_github) example_settings) bench_recommended bench_create.2) as Hs
    by (apply rtc_once, step_create).
  split; [exact Hs|].
  exact (proj1 (proj2 (recommendation_lifecycle (Runtime0 := bench_runtime)
    (FinOpsServer0 := no_telemetry)
    (GitHubServer0 := values_github) example_settings bench_recommended bench_create.2
    eq_refl bench_recommendations_ok Hs))).
Defined.
