(* ===== verification/FinOpsAnalysis.v ===== *)
(** * From what is observed to what is stored

    The readers of [FinOpsProviders], the engine and the store composed: whatever
    OpenCost and Prometheus answer, an analysis of the workload raises or stores a
    recommendation that only lowers, once for the same evidence. *)

From S2P Require Import Prelude PyFloat Json Effects JsonParse Rbac Actions StateMachine Models.
From S2P Require Import World Config AuditLog History Memory Runbooks Verification Telemetry.
From S2P Require Import GitHubPolicy GitHub GitHubRuns Url PyNumber.
From S2P Require Import FinOpsEngine FinOpsProviders FinOps FinOpsApi FinOpsRuns.
From Stdlib Require Import SpecFloat.

(** ** The policy of validated settings *)

Definition percent_safe (z : Z) : bool :=
  match num_div (NInt z) (NInt 100) with Ok f => fltb fzero f | Raise _ => false end.
Lemma percent_safe_all : forallb percent_safe (seqZ 5 56) = true.
Proof. vm_compute. reflexivity. Qed.

Lemma finops_policy_safe s p :
  Settings_valid s = true → finops_policy s = Ok p → policy_safe p.
Proof.
  intros (_ & Hmib & Hpct)%settings_finops. unfold finops_policy. intros Hp.
  apply res_bind_ok in Hp as (cores & _ & Hp). apply res_bind_ok in Hp as (fraction & Hf & [= <-]).
  split; simpl; [|by exists s.(finops_minimum_memory_mib)].
  pose proof percent_safe_all as H. rewrite forallb_forall in H.
  specialize (H s.(finops_minimum_reduction_percent)
    ltac:(apply list_elem_of_In, elem_of_seqZ; lia)).
  unfold percent_safe in H. by rewrite Hf in H.
Qed.

(** ** What is read is finite *)

Definition usable_value (kv : string * option float) : Prop :=
  match kv.2 with Some f => is_finite f = true | None => True end.

Lemma number_of_finite j f : number_of j = Ok (Some f) → is_finite f = true.
Proof.
  unfold number_of. destruct (py_float j) as [g|e]; [|by case_match].
  unfold usable. destruct (is_finite g) eqn:Hg; simpl; [|done].
  destruct (fleb _ _); [|done]. by intros [= <-].
Qed.

Lemma scalar_value_finite required l f :
  scalar_value required l = Ok (Some f) → is_finite f = true.
Proof.
  unfold scalar_value.
  destruct l as [|d [|]]; [by destruct required| |done].
  destruct (dict_get "value" d) as [[| | | | |[|? [|v []]]|]|]; try done. intros H.
  apply res_bind_ok in H as ([g|] & Hg & H); [|done]. injection H as <-.
  by eapply number_of_finite.
Qed.

Section reading.
Context {X : Type} `{!Runtime X} `{!FinOpsServer X}.

Lemma attempt_inl {A} (m : M (World X) A) w o w' : attempt m w = (Ok o, w') →
  match o with inl a => m w = (Ok a, w') | inr _ => True end.
Proof.
  unfold attempt, catch, bind, ret. destruct (m w) as [[a|e] w1]; by intros [= <- <-].
Qed.

Lemma map_m_ok {A B} (P : B → Prop) (f : A → M (World X) B) l (w w' : World X) r :
  (∀ a w b w', f a w = (Ok b, w') → P b) → map_m f l w = (Ok r, w') → Forall P r.
Proof.
  intros Hf. revert w w' r. induction l as [|a l IH]; intros w w' r Hrun.
  - apply ret_ok in Hrun as [-> _]. constructor.
  - apply bind_ok in Hrun as (b & w1 & Hb & Hrun).
    apply bind_ok in Hrun as (bs & w2 & Hbs & Hrun). apply ret_ok in Hrun as [-> _].
    constructor; [by eapply Hf|by eapply IH].
Qed.

Lemma collect_metrics_usable p queries start end_ step optional (w w' : World X) cpu memory values :
  collect_metrics p queries start end_ step optional w = (Ok (cpu, memory, values), w') →
  Forall usable_value values.
Proof.
  unfold collect_metrics. cbv zeta. intros Hrun.
  apply bind_ok in Hrun as (c & w1 & _ & Hrun). apply bind_ok in Hrun as (m & w2 & _ & Hrun).
  apply bind_ok in Hrun as (scalars & w3 & Hs & Hrun).
  destruct c as [c|]; [|done]. destruct m as [m|]; [|done].
  apply bind_ok in Hrun as (vs & w4 & [Hv _]%lift_ok & Hrun).
  apply ret_ok in Hrun as [[= -> -> ->] _].
  apply (all_or_first_ok usable_value) in Hv as [_ Hv]; [done|].
  apply (map_m_ok (λ o, match o with inl a => usable_value a | inr _ => True end)) in Hs; [done|].
  intros [k q] u [kv|e] u' Ha; [|done]. apply attempt_inl in Ha.
  apply bind_ok in Ha as (v & u1 & Hv' & Ha). apply ret_ok in Ha as [-> _].
  unfold instant_scalar in Hv'. apply bind_ok in Hv' as (d & u2 & _ & Hv').
  apply lift_ok in Hv' as [Hv' _]. apply res_bind_ok in Hv' as (l & _ & Hv').
  unfold usable_value. simpl. destruct v as [f|]; [|done]. by eapply scalar_value_finite.
Qed.

Lemma dict_get_found {A} k (d : list (string * A)) v : dict_get k d = Some v → (k, v) ∈ d.
Proof.
  induction d as [|[k' v'] d IH]; simpl; [done|]. destruct (String.eqb _ _) eqn:Hk.
  - intros [= ->]. apply String.eqb_eq in Hk as ->. by left.
  - intros ?. right. by apply IH.
Qed.

Lemma scalar_or_zero_finite name values :
  Forall usable_value values → is_finite (scalar_or_zero name values) = true.
Proof.
  intros Hv. unfold scalar_or_zero, scalar.
  destruct (dict_get name values) as [[f|]|] eqn:Hg; simpl; [|done..].
  apply dict_get_found in Hg. rewrite Forall_forall in Hv. specialize (Hv _ Hg).
  unfold usable_value in Hv. simpl in Hv. by destruct (feqb _ _).
Qed.

Lemma collect_workload_ok p namespace deployment pattern environment window step allocation
    (w w' : World X) o :
  collect_workload p namespace deployment pattern environment window step allocation w = (Ok o, w') →
  o.(wo_environment) = environment ∧ o.(wo_deployment) = deployment ∧
  positive o.(wo_cpu_request_cores) ∧ positive o.(wo_memory_request_bytes).
Proof.
  unfold collect_workload. cbv zeta. intros Hrun.
  apply bind_ok in Hrun as (end_ & w1 & _ & Hrun).
  apply bind_ok in Hrun as ([[cpu memory] values] & w2 & Hm & Hrun).
  apply collect_metrics_usable in Hm. apply lift_ok in Hrun as [H _].
  apply res_bind_ok in H as (observed & _ & H). apply res_bind_ok in H as (replicas & _ & H).
  apply res_bind_ok in H as (ew & _ & H). apply validated_is in H as [-> Hv].
  unfold WorkloadObservation_valid in Hv. simpl in Hv. rewrite !andb_true_iff in Hv.
  destruct Hv as ((((_ & Hc) & _) & Hmem) & _). simpl. split_and!; [done..|split|split]; try done;
    by apply scalar_or_zero_finite.
Qed.
End reading.

(** ** The analysis of the workload *)

Section analysis.
Context {X : Type} `{!Runtime X} `{!FinOpsServer X} `{!GitHubServer X}.
Context {dump : FinOpsDump} {urls : UrlLibrary} {codec : YamlLibrary}.
Context (settings : Settings).

Lemma workload_scenario policy o r : analyze_workload policy o = Ok r → r.(ar_scenario_id) = F1.
Proof.
  unfold analyze_workload. cbv zeta. intros H. apply res_bind_ok in H as ([reason|] & _ & H);
    [by injection H as <-|].
  apply res_bind_ok in H as (s & _ & H). destruct (_ && _); [by injection H as <-|].
  apply res_bind_ok in H as (d & _ & [= <-]). done.
Qed.

Lemma target_lowers s (w w' : World X) result :
  policy_safe s.(fs_policy) → analyze_target settings s F1 w = (Ok result, w') →
  result.(ar_scenario_id) = F1 ∧
  match result.(ar_recommendation) with
  | None => result.(ar_outcome) ≠ RECOMMENDED
  | Some d => result.(ar_outcome) = RECOMMENDED ∧ ∃ o, o.(wo_environment) = "staging" ∧
      o.(wo_deployment) = settings.(finops_demo_deployment) ∧ lowers s.(fs_policy) o d
  end.
Proof.
  intros Hsafe. unfold analyze_target. rewrite (String.eqb_refl F1). intros Hrun.
  apply bind_ok in Hrun as (allocation & w1 & _ & Hrun).
  apply bind_ok in Hrun as (o & w2 & Ho & Hrun). apply lift_ok in Hrun as [Hr _].
  apply collect_workload_ok in Ho as (Henv & Hdep & Hc & Hm).
  split; [by eapply workload_scenario|]. apply (workload_lowers _ _ _ Hsafe Hc Hm) in Hr.
  destruct (ar_recommendation result) as [d|]; [|done]. destruct Hr as [? Hl].
  split; [done|]. by exists o.
Qed.

Lemma analyze_trace operator scenario_id :
  evolves (same_trace (X:=X)) (analyze_finops_scenario settings operator scenario_id).
Proof.
  assert (∀ s, evolves (same_trace (X:=X)) (analyze_target settings s scenario_id)) as Ht.
  { intros s w. unfold same_trace, stable. by rewrite (analyze_target_reads settings s scenario_id w). }
  unfold analyze_finops_scenario, in_session, analyze_scenario.
  repeat first [ evolve_step | apply Ht | apply persist_result_trace | solve [eauto with cw_pres] ].
Qed.

(** Where the recommendation of a draft is stored: under the identifier it already
    has, or as one new row. *)
Definition stored_at (t t' : gmap uuid FinOpsRecommendation) (d : RecommendationDraft)
    (id : uuid) : Prop :=
  (t' = t ∧ ∃ k r, t !! k = Some r ∧ r.(fin_id) = id ∧
     r.(fin_source_fingerprint) = d.(rd_source_fingerprint)) ∨
  (t !! id = None ∧
   (∀ k r, t !! k = Some r → r.(fin_source_fingerprint) ≠ d.(rd_source_fingerprint)) ∧
   ∃ r, stored_of settings F1 d id r ∧ t' = <[id := r]> t).

Lemma persist_stored result actor actor_type (w w' : World X) o :
  result.(ar_scenario_id) = F1 →
  persist_result settings result actor actor_type w = (Ok o, w') →
  let t := w.(work).(finops_recommendations) in
  let t' := w'.(work).(finops_recommendations) in
  match result.(ar_recommendation), o with
  | None, None => t' = t
  | Some d, Some id => stored_at t t' d id
  | _, _ => False
  end.
Proof.
  intros Hid Hrun. apply persist_run in Hrun. cbv zeta in *.
  destruct (ar_recommendation result) as [d|]; [|by destruct Hrun as [-> ?]].
  destruct Hrun as [(r & [Hf [k Hk]]%select_one_Some & -> & ->)|(Hn & id & r & -> & Hnew & Hof & Htab)].
  - left. split; [done|]. exists k, r. by apply String.eqb_eq in Hf.
  - right. split; [done|]. split; [|exists r; by rewrite <- Hid].
    intros k r' Hk. rewrite select_one_None in Hn. apply Hn in Hk. by apply String.eqb_neq.
Qed.

End analysis.

(** ** A concrete analysis *)

Definition served (j : json) : finops_answer :=
  let text := dumps j in FinOpsResponse 200 None (Z.of_nat (String.length text)) (Some text).

Definition query_answer (type : string) (l : list json) : json :=
  JObj [("status", JStr "success");
        ("data", JObj [("resultType", JStr type); ("result", JArr l)])].

(** A workload of one core and 512 MiB that uses a tenth of a core and 100 MiB. *)
Definition observed_value (query : string) : string :=
  if contains "resource_requests" query
  then if contains "memory" query then "536870912" else "1"
  else if contains "memory" query then "104857600"
  else if contains "cpu" query then "0.1" else "2".

Definition bench_telemetry : FinOpsServer Z := λ url params x,
  let q := default EmptyString (dict_get "query" params) in
  (served
    (if ends_with "/allocation/compute" url then
       JObj [("data", JArr [JObj [("cloudward-staging/cloudward-demo",
         JObj [("totalCost", JInt 3); ("cpuCost", JInt 2); ("ramCost", JInt 1)])]])]
     else if ends_with "/query_range" url then
       query_answer "matrix" [JObj [("values",
         JArr (map (λ i, JArr [JInt (1700000000 + 60 * i); JStr (observed_value q)]) (seqZ 0 31)))]]
     else if contains "limits" q then query_answer "vector" []
     else query_answer "vector" [JObj [("value", JArr [JInt 1700000000; JStr (observed_value q)])]]),
   x).

Definition bench_analyze : res (AnalysisResult * option uuid) * World Z :=
  analyze_finops_scenario (Runtime0 := bench_runtime) (FinOpsServer0 := bench_telemetry)
    example_settings bench_operator F1 (bench_world empty_database).

Definition stores (r : res (AnalysisResult * option uuid)) : bool :=
  match r with
  | Ok (a, Some _) => match a.(ar_recommendation) with Some _ => true | None => false end
  | _ => false
  end.
Lemma bench_stores : stores bench_analyze.1 = true.
Proof. vm_compute. reflexivity. Qed.

