(* ===== verification/Scenarios.v ===== *)
(** * The Incident Lab catalog, its policy and its chaos objects

    [demo/scenarios.py]: the closed catalog of scenarios; [policies/chaos.py]: the
    client that asks the policy engine whether a scenario may start;
    [demo/executor.py]: the Chaos Mesh object of a scenario, its creation and its
    deletion.  The policy engine is the class [PolicyServer] of [Opa]. *)

From S2P Require Import Prelude PyFloat Json JsonParse Effects Models World Config AuditLog History.
From S2P Require Import Kubernetes Opa Memory.

(** ** The catalog *)

Definition DEMO_NAMESPACE : string := "cloudward-staging".
Definition DEMO_TARGET_SELECTOR : list (string * string) := [("cloudward.io/demo-target", "true")].

Inductive ScenarioCategory : Type := RELIABILITY | SECURITY | FINOPS.

Inductive ScenarioMechanism : Type :=
| GITOPS_RELEASE | STRESS_CHAOS | POD_CHAOS | SAFE_DEMO_ENDPOINT | FINOPS_ANALYSIS.
#[export] Instance ScenarioMechanism_eq_dec : EqDecision ScenarioMechanism.
Proof. solve_decision. Defined.

Definition ScenarioMechanism_value (m : ScenarioMechanism) : string :=
  match m with
  | GITOPS_RELEASE => "GITOPS_RELEASE" | STRESS_CHAOS => "STRESS_CHAOS"
  | POD_CHAOS => "POD_CHAOS" | SAFE_DEMO_ENDPOINT => "SAFE_DEMO_ENDPOINT"
  | FINOPS_ANALYSIS => "FINOPS_ANALYSIS"
  end.

Record ChaosScenario := {
  scn_id : string;
  scn_name : string;
  scn_description : string;
  scn_category : ScenarioCategory;
  scn_mechanism : ScenarioMechanism;
  scn_target_namespace : string;
  scn_target_selector : list (string * string);
  scn_duration_seconds : Z;
  scn_expected_alert : string;
  scn_expected_runbook : string;
  scn_expected_signals : list string;
  scn_cleanup_strategy : string;
  scn_max_runtime_seconds : Z;
}.

Definition ChaosScenario_valid (s : ChaosScenario) : bool :=
  (5 <=? s.(scn_duration_seconds)) && (s.(scn_duration_seconds) <=? 300) &&
  (30 <=? s.(scn_max_runtime_seconds)) && (s.(scn_max_runtime_seconds) <=? 600).

Definition SCENARIOS : list ChaosScenario := [
  {| scn_id := "reliability.bad-deployment"; scn_name := "Bad deployment";
     scn_description :=
       "Deploy a fixed bad demo image and recover its known-good GitOps revision.";
     scn_category := RELIABILITY; scn_mechanism := GITOPS_RELEASE;
     scn_target_namespace := DEMO_NAMESPACE; scn_target_selector := DEMO_TARGET_SELECTOR;
     scn_duration_seconds := 120; scn_expected_alert := "HighHTTPErrorRate";
     scn_expected_runbook := "reliability.bad-deployment";
     scn_expected_signals := ["http_5xx_rate"; "deployment_revision"; "logs"; "traces"];
     scn_cleanup_strategy := "restore_known_good_gitops_revision";
     scn_max_runtime_seconds := 300 |};
  {| scn_id := "reliability.cpu-saturation"; scn_name := "CPU saturation";
     scn_description := "Apply bounded Chaos Mesh CPU pressure to demo-labeled staging pods.";
     scn_category := RELIABILITY; scn_mechanism := STRESS_CHAOS;
     scn_target_namespace := DEMO_NAMESPACE; scn_target_selector := DEMO_TARGET_SELECTOR;
     scn_duration_seconds := 90; scn_expected_alert := "HighCPUSaturation";
     scn_expected_runbook := "reliability.cpu-saturation";
     scn_expected_signals := ["container_cpu"; "p95_latency"; "ready_replicas"];
     scn_cleanup_strategy := "delete_stresschaos"; scn_max_runtime_seconds := 240 |};
  {| scn_id := "reliability.memory-pressure"; scn_name := "Memory pressure / OOM";
     scn_description := "Apply bounded container memory stress without exhausting the host.";
     scn_category := RELIABILITY; scn_mechanism := STRESS_CHAOS;
     scn_target_namespace := DEMO_NAMESPACE; scn_target_selector := DEMO_TARGET_SELECTOR;
     scn_duration_seconds := 60; scn_expected_alert := "ContainerOOMKilled";
     scn_expected_runbook := "reliability.memory-pressure";
     scn_expected_signals := ["memory_working_set"; "oom_reason"; "restart_count"; "events"];
     scn_cleanup_strategy := "delete_stresschaos"; scn_max_runtime_seconds := 240 |};
  {| scn_id := "reliability.platform-self-healing"; scn_name := "Kubernetes self-healing";
     scn_description := "Kill one demo pod and attribute its replacement to Kubernetes.";
     scn_category := RELIABILITY; scn_mechanism := POD_CHAOS;
     scn_target_namespace := DEMO_NAMESPACE; scn_target_selector := DEMO_TARGET_SELECTOR;
     scn_duration_seconds := 30; scn_expected_alert := "WorkloadUnavailable";
     scn_expected_runbook := "reliability.platform-self-healing";
     scn_expected_signals := ["pod_uid_changed"; "ready_replicas"; "health_check"];
     scn_cleanup_strategy := "delete_podchaos"; scn_max_runtime_seconds := 180 |};
  {| scn_id := "security.suspicious-shell-pattern"; scn_name := "Suspicious shell pattern";
     scn_description :=
       "Run one harmless fixed shell child and an internal-only connectivity probe.";
     scn_category := SECURITY; scn_mechanism := SAFE_DEMO_ENDPOINT;
     scn_target_namespace := DEMO_NAMESPACE; scn_target_selector := DEMO_TARGET_SELECTOR;
     scn_duration_seconds := 30; scn_expected_alert := "TetragonUnexpectedShell";
     scn_expected_runbook := "security.suspicious-shell-pattern";
     scn_expected_signals := ["tetragon_process_exec"; "normalized_security_event"];
     scn_cleanup_strategy := "remove_quarantine_and_demo_state";
     scn_max_runtime_seconds := 180 |};
  {| scn_id := "security.unexpected-egress"; scn_name := "Unexpected internal egress";
     scn_description :=
       "Connect only to the in-cluster c2-simulator before and after quarantine.";
     scn_category := SECURITY; scn_mechanism := SAFE_DEMO_ENDPOINT;
     scn_target_namespace := DEMO_NAMESPACE; scn_target_selector := DEMO_TARGET_SELECTOR;
     scn_duration_seconds := 30; scn_expected_alert := "TetragonUnexpectedEgress";
     scn_expected_runbook := "security.unexpected-egress";
     scn_expected_signals := ["internal_connect"; "cilium_policy_verification"];
     scn_cleanup_strategy := "remove_quarantine_and_demo_state";
     scn_max_runtime_seconds := 180 |};
  {| scn_id := "security.privilege-related-behavior"; scn_name := "Privilege-related behavior";
     scn_description := "Attempt a benign denied read of /proc/1/mem; no exploit or escape.";
     scn_category := SECURITY; scn_mechanism := SAFE_DEMO_ENDPOINT;
     scn_target_namespace := DEMO_NAMESPACE; scn_target_selector := DEMO_TARGET_SELECTOR;
     scn_duration_seconds := 30; scn_expected_alert := "TetragonPrivilegeBehavior";
     scn_expected_runbook := "security.privilege-related-behavior";
     scn_expected_signals := ["tetragon_privilege_event"; "denied_operation"];
     scn_cleanup_strategy := "remove_quarantine_and_demo_state";
     scn_max_runtime_seconds := 180 |};
  {| scn_id := "finops.overprovisioned-workload"; scn_name := "Overprovisioned workload";
     scn_description :=
       "Analyze observed demo workload utilization and OpenCost allocation with deterministic safety headroom.";
     scn_category := FINOPS; scn_mechanism := FINOPS_ANALYSIS;
     scn_target_namespace := DEMO_NAMESPACE; scn_target_selector := DEMO_TARGET_SELECTOR;
     scn_duration_seconds := 30; scn_expected_alert := "FinOpsAnalysisComplete";
     scn_expected_runbook := "finops.workload-rightsizing";
     scn_expected_signals :=
       ["cpu_p95"; "memory_p95"; "resource_requests"; "opencost_allocation"];
     scn_cleanup_strategy := "analysis_only_no_live_mutation";
     scn_max_runtime_seconds := 180 |};
  {| scn_id := "finops.wasted-node-capacity"; scn_name := "Wasted node capacity";
     scn_description :=
       "Analyze node allocatable capacity, requests, observed usage, pod distribution, and local OpenCost allocation.";
     scn_category := FINOPS; scn_mechanism := FINOPS_ANALYSIS;
     scn_target_namespace := DEMO_NAMESPACE; scn_target_selector := DEMO_TARGET_SELECTOR;
     scn_duration_seconds := 30; scn_expected_alert := "FinOpsAnalysisComplete";
     scn_expected_runbook := "finops.node-efficiency";
     scn_expected_signals :=
       ["node_allocatable"; "scheduled_requests"; "node_usage_p95"; "opencost_allocation"];
     scn_cleanup_strategy := "analysis_only_no_live_mutation";
     scn_max_runtime_seconds := 180 |}].

(** [get_scenario]. *)
Definition get_scenario (scenario_id : string) : res ChaosScenario :=
  match first_such (λ s, String.eqb s.(scn_id) scenario_id) SCENARIOS with
  | Some s => Ok s
  | None => Raise (cw_error_status "SCENARIO_NOT_FOUND" "Incident Lab scenario was not found" 404)
  end.

(** Every entry satisfies the constraints of the class, is looked up by its own
    identifier, and targets the demo workload of the staging namespace. *)
Lemma catalog_sound : Forall (λ s, ChaosScenario_valid s = true ∧ get_scenario s.(scn_id) = Ok s ∧
  s.(scn_target_namespace) = DEMO_NAMESPACE ∧
  s.(scn_target_selector) = DEMO_TARGET_SELECTOR) SCENARIOS.
Proof. repeat constructor. Qed.

Lemma get_scenario_ok id s : get_scenario id = Ok s → s ∈ SCENARIOS ∧ s.(scn_id) = id.
Proof.
  unfold get_scenario. destruct (first_such _ _) as [t|] eqn:Hf; [|done].
  intros [= <-]. apply first_such_Some in Hf as [Hin Heq]. by apply String.eqb_eq in Heq.
Qed.

(** ** The chaos policy *)

Record ChaosPolicyInput := {
  cpi_scenario_id : string;
  cpi_actor_role : string;
  cpi_namespace : string;
  cpi_selector : list (string * string);
  cpi_duration_seconds : Z;
}.
Definition ChaosPolicyInput_valid (i : ChaosPolicyInput) : bool :=
  (1 <=? i.(cpi_duration_seconds)) && (i.(cpi_duration_seconds) <=? 600).

(** [model_dump(mode="json")]. *)
Definition ChaosPolicyInput_dump (i : ChaosPolicyInput) : json :=
  JObj [("scenario_id", JStr i.(cpi_scenario_id)); ("actor_role", JStr i.(cpi_actor_role));
        ("namespace", JStr i.(cpi_namespace)); ("selector", labels_json i.(cpi_selector));
        ("duration_seconds", JInt i.(cpi_duration_seconds))].

Record ChaosPolicyResult := { cpr_allowed : bool; cpr_reason : string }.

Definition ChaosPolicyResult_dump (r : ChaosPolicyResult) : dict :=
  [("allowed", JBool r.(cpr_allowed)); ("reason", JStr r.(cpr_reason))].

Section chaos_policy.
Context `{!Pydantic}.

(** [ChaosPolicyResult.model_validate] of an object; no other key is accepted. *)
Definition ChaosPolicyResult_validate (d : dict) : option ChaosPolicyResult :=
  if forallb (λ kv, bool_decide (kv.1 ∈ ["allowed"; "reason"])) d then
    match required_bool "allowed" d, dict_get "reason" d with
    | Some allowed, Some (JStr reason) => Some {| cpr_allowed := allowed; cpr_reason := reason |}
    | _, _ => None
    end
  else None.

Definition chaos_policy_unavailable : exn :=
  cw_error_status "OPA_UNAVAILABLE" "Chaos policy evaluation is unavailable" 503.
Definition no_chaos_decision : exn :=
  cw_error_status "INVALID_OPA_RESPONSE" "OPA returned no chaos decision" 502.
Definition invalid_chaos_decision : exn :=
  cw_error_status "INVALID_OPA_RESPONSE" "OPA chaos decision was invalid" 502.

(** From [raise_for_status] on. *)
Definition chaos_decision_of (status : Z) (content : string) : res ChaosPolicyResult :=
  if negb ((200 <=? status) && (status <? 300)) then Raise chaos_policy_unavailable
  else match json_loads content with
       | None => Raise chaos_policy_unavailable
       | Some (JObj envelope) =>
           match dict_get "result" envelope with
           | Some (JObj d) =>
               match ChaosPolicyResult_validate d with
               | Some r => Ok r
               | None => Raise invalid_chaos_decision
               end
           | _ => Raise no_chaos_decision
           end
       | Some _ => Raise no_chaos_decision
       end.

(** [ChaosPolicyClient(base_url, decision_path)]: the address it asks. *)
Record ChaosPolicyClient := { chaos_policy_url : string }.
Definition chaos_policy_client (base_url decision_path : string) : ChaosPolicyClient :=
  {| chaos_policy_url := rstrip "/" base_url +:+ decision_path |}.

Context {X : Type} `{!PolicyServer X}.

(** [ChaosPolicyClient.evaluate]. *)
Definition evaluate_chaos (client : ChaosPolicyClient) (policy_input : ChaosPolicyInput)
  : M (World X) ChaosPolicyResult :=
  let document := JObj [("input", ChaosPolicyInput_dump policy_input)] in
  do! record_call (CallOpa document);
  let! answer := external (opa_post client.(chaos_policy_url) document) in
  match answer with
  | HttpError _ => raise chaos_policy_unavailable
  | HttpOther e => raise e
  | HttpResponse status content => lift (chaos_decision_of status content)
  end.

Lemma evaluate_chaos_same {A} (f : Database → A) client i :
  evolves (same_db f) (evaluate_chaos client i).
Proof. unfold evaluate_chaos. evolve. Qed.

Lemma evaluate_chaos_step client i : evolves session_step (evaluate_chaos client i).
Proof. unfold evaluate_chaos. evolve. Qed.
End chaos_policy.
#[export] Hint Resolve evaluate_chaos_same evaluate_chaos_step : cw_pres.

(** ** Chaos Mesh objects *)

Definition CHAOS_GROUP : string := "chaos-mesh.org".
Definition CHAOS_VERSION : string := "v1alpha1".

Record StartedScenarioResource := { ssr_kind : string; ssr_plural : string; ssr_name : string }.

Definition resource_name (execution_id : uuid) : string :=
  "cloudward-" +:+ str_take 12 (uuid_str execution_id).

(** [_metadata]. *)
Definition chaos_metadata (execution_id : uuid) (s : ChaosScenario) : json :=
  JObj [("name", JStr (resource_name execution_id)); ("namespace", JStr s.(scn_target_namespace));
        ("labels", JObj
          [("app.kubernetes.io/managed-by", JStr "cloudward");
           ("cloudward.io/scenario", JStr (str_take 63 (replace_char "." "-" s.(scn_id))));
           ("cloudward.io/execution", JStr (uuid_str execution_id))])].

Definition chaos_target_denied (message : string) : exn :=
  cw_error_status "CHAOS_TARGET_DENIED" message 403.

(** The selector of every chaos object. *)
Definition demo_selector_json : json :=
  JObj [("namespaces", JArr [JStr "cloudward-staging"]);
        ("labelSelectors", JObj [("cloudward.io/demo-target", JStr "true")])].

(** [_selector]. *)
Definition chaos_selector (s : ChaosScenario) : res json :=
  if negb (String.eqb s.(scn_target_namespace) "cloudward-staging") ||
     negb (bool_decide (s.(scn_target_selector) = [("cloudward.io/demo-target", "true")]))
  then Raise (chaos_target_denied "Chaos target violates the immutable staging policy")
  else Ok demo_selector_json.

Definition chaos_object (kind : string) (metadata : json) (spec : dict) : json :=
  JObj [("apiVersion", JStr (CHAOS_GROUP +:+ "/" +:+ CHAOS_VERSION)); ("kind", JStr kind);
        ("metadata", metadata); ("spec", JObj spec)].

Definition duration_text (s : ChaosScenario) : json :=
  JStr (str_of_Z s.(scn_duration_seconds) +:+ "s").

(** The stressors of a scenario. *)
Definition stressors (s : ChaosScenario) : res json :=
  if String.eqb s.(scn_id) "reliability.cpu-saturation" then
    Ok (JObj [("cpu", JObj [("workers", JInt 1); ("load", JInt 80)])])
  else if String.eqb s.(scn_id) "reliability.memory-pressure" then
    Ok (JObj [("memory", JObj [("workers", JInt 1); ("size", JStr "96MB")])])
  else Raise (cw_error "SCENARIO_NOT_EXECUTABLE" "Unknown stress scenario").

(** The kind, the plural and the body [start] creates. *)
Definition chaos_body (s : ChaosScenario) (execution_id : uuid) : res (string * string * json) :=
  let metadata := chaos_metadata execution_id s in
  match s.(scn_mechanism) with
  | STRESS_CHAOS =>
      res_bind (stressors s) (λ stress,
      res_bind (chaos_selector s) (λ selector,
      Ok ("StressChaos", "stresschaos", chaos_object "StressChaos" metadata
            [("mode", JStr "one"); ("selector", selector); ("stressors", stress);
             ("duration", duration_text s)])))
  | POD_CHAOS =>
      res_bind (chaos_selector s) (λ selector,
      Ok ("PodChaos", "podchaos", chaos_object "PodChaos" metadata
            [("action", JStr "pod-kill"); ("mode", JStr "one"); ("selector", selector);
             ("duration", duration_text s); ("gracePeriod", JInt 0)]))
  | _ => Raise (cw_error_status "SCENARIO_REQUIRES_TYPED_WORKER"
                  "This scenario is executed by its fixed GitOps or security worker" 409)
  end.

(** The plural of a kind the cleanup deletes. *)
Definition chaos_plural (kind : string) : option string :=
  if String.eqb kind "StressChaos" then Some "stresschaos"
  else if String.eqb kind "PodChaos" then Some "podchaos" else None.

Section executor.
Context {X : Type} `{!KubeApi X} (exe : Executor).

(** [ChaosMeshScenarioExecutor.start]. *)
Definition start_chaos (s : ChaosScenario) (execution_id : uuid)
  : M (World X) StartedScenarioResource :=
  let! '(kind, plural, body) := lift (chaos_body s execution_id) in
  do! create_typed_custom_object exe s.(scn_target_namespace) CHAOS_GROUP CHAOS_VERSION plural body;
  ret {| ssr_kind := kind; ssr_plural := plural; ssr_name := resource_name execution_id |}.

(** [ChaosMeshScenarioExecutor.cleanup]. *)
Definition cleanup_chaos (namespace kind name : string) : M (World X) unit :=
  match chaos_plural kind with
  | None => ret tt
  | Some plural =>
      delete_typed_custom_object exe namespace name CHAOS_GROUP CHAOS_VERSION plural
  end.
End executor.
