(* ===== verification/IncidentLab.v ===== *)
(** * The Incident Lab

    [api/incident_lab.py]: a scenario of the catalog is started, listed and stopped
    by an operator.  A started execution waits for the worker of [Reconcile]; the
    functions that restore what a scenario changed are shared with it. *)

From S2P Require Import Prelude PyFloat Json Effects Rbac Actions StateMachine Models World Config.
From S2P Require Import AuditLog History Memory ApprovalRequests Kubernetes Opa Approvals Execution GitOps Verification.
From S2P Require Import Quarantine Url FinOps FinOpsApi Scenarios.

(** The identifier of the message [send_task] just sent. *)
Class TaskResults (X : Type) := sent_task_id : X → string * X.
#[global] Hint Mode TaskResults ! : typeclass_instances.

Definition ACTIVE_EXPERIMENT_STATES : list ExperimentStatus :=
  [EXPERIMENT_PENDING; EXPERIMENT_RUNNING; EXPERIMENT_STOPPING].
Definition experiment_active (s : ExperimentStatus) : bool :=
  bool_decide (s ∈ ACTIVE_EXPERIMENT_STATES).

Definition MONITOR_TASK : string := "cloudward.tasks.scenarios.monitor".
Definition FINOPS_TASK : string := "cloudward.tasks.finops.scenario".

(** [send_task(task, kwargs=..., queue=...)], with the keywords as a document. *)
Definition task_document (kwargs : dict) (queue : string) : json :=
  JObj [("kwargs", JObj kwargs); ("queue", JStr queue)].

(** [SecurityScenarioTriggerResult.to_dict]. *)
Definition SecurityScenarioTriggerResult_dict (r : SecurityScenarioTriggerResult) : dict :=
  [("scenario_id", JStr r.(sst_scenario_id)); ("namespace", JStr r.(sst_namespace));
   ("pod_name", JStr r.(sst_pod_name)); ("endpoint", JStr r.(sst_endpoint));
   ("result", JObj r.(sst_result))].

(** [_enforce_scenario_target]. *)
Definition enforce_scenario_target (settings : Settings) (s : ChaosScenario) : res unit :=
  if bool_decide (s.(scn_target_namespace) ∈ denied_chaos_namespaces) then
    Raise (chaos_target_denied "Protected namespace cannot be targeted")
  else if negb (String.eqb s.(scn_target_namespace) settings.(incident_lab_namespace)) then
    Raise (chaos_target_denied "Only cloudward-staging may be targeted")
  else if negb (bool_decide (s.(scn_target_selector) = [("cloudward.io/demo-target", "true")])) then
    Raise (chaos_target_denied "Demo target label is required")
  else Ok tt.

(** How long an execution may last. *)
Definition runtime_bound (settings : Settings) (s : ChaosScenario) : Z :=
  Z.min s.(scn_max_runtime_seconds) settings.(chaos_max_runtime_seconds).

(** The decision an execution records. *)
Definition opa_decision (policy : option ChaosPolicyResult) : json :=
  match policy with
  | Some r => JObj (ChaosPolicyResult_dump r)
  | None => JObj [("allowed", JBool true); ("requires_approval", JBool false);
                  ("reason",
                     JStr "Read-only fixed FinOps analysis; no chaos or live mutation")]
  end.

Definition new_chaos_execution (settings : Settings) (id : uuid) (created now : datetime)
    (requested_by : string) (s : ChaosScenario) (policy : option ChaosPolicyResult)
  : ChaosExecution :=
  {| chx_id := id; chx_created_at := created; chx_scenario_id := s.(scn_id);
     chx_status := EXPERIMENT_PENDING; chx_requested_by := requested_by;
     chx_target_namespace := s.(scn_target_namespace);
     chx_target_selector := s.(scn_target_selector);
     chx_expected_alert := s.(scn_expected_alert);
     chx_expected_runbook := s.(scn_expected_runbook);
     chx_resource_kind := None; chx_resource_name := None;
     chx_max_runtime_seconds := runtime_bound settings s;
     chx_cleanup_deadline := now + seconds (runtime_bound settings s);
     chx_started_at := None; chx_completed_at := None; chx_cleanup_completed_at := None;
     chx_failure_reason := None;
     chx_details := [("current_step", JStr "STARTING");
                     ("cleanup_strategy", JStr s.(scn_cleanup_strategy));
                     ("expected_signals", JArr (map JStr s.(scn_expected_signals)));
                     ("mechanism", JStr (ScenarioMechanism_value s.(scn_mechanism)));
                     ("opa_decision", opa_decision policy)] |}.

(** [execution.details = {**execution.details, ...}]. *)
Definition add_details (d : dict) (e : ChaosExecution) : ChaosExecution :=
  set_chx_details (dict_update e.(chx_details) d) e.

(** The resource of an execution is recorded and the execution is running. *)
Definition started (kind name : string) (now : datetime) (d : dict) (e : ChaosExecution)
  : ChaosExecution :=
  add_details d
    (set_chx_started_at (Some now)
    (set_chx_status EXPERIMENT_RUNNING
    (set_chx_resource_name (Some name)
    (set_chx_resource_kind (Some kind) e)))).

Definition no_target (message : string) : exn :=
  cw_error_status "SCENARIO_TARGET_UNAVAILABLE" message 409.

(** [sorted((pod for pod in pods if pod.ready), key=lambda pod: pod.name)]. *)
Definition ready_targets (pods : list PodState) : list PodState :=
  isort (λ a b, str_leb a.(ps_name) b.(ps_name)) (List.filter ready pods).

(** An execution that still occupies a scenario. *)
Definition occupies (scenario_id : string) (e : ChaosExecution) : bool :=
  String.eqb e.(chx_scenario_id) scenario_id && experiment_active e.(chx_status).

(** [ScenarioExecutionResponse.current_step]. *)
Definition current_step (e : ChaosExecution) : string :=
  py_str (default (JStr (ExperimentStatus_value e.(chx_status)))
            (dict_get "current_step" e.(chx_details))).

Abbreviation the_chaos_execution := (deref chaos_executions).

(** *** Undoing a temporary scale *)

(** The scale of an incident that may have to be undone, the newest. *)
Definition scale_of (incident_id : uuid) (e : ActionExecution) : bool :=
  bool_decide (e.(exec_incident_id) = incident_id) &&
  bool_decide (e.(exec_action_type) = SCALE_STAGING_DEPLOYMENT) &&
  bool_decide (e.(exec_rollback_of_execution_id) = None).

Definition standing_scale (e : ActionExecution) : bool :=
  bool_decide (e.(exec_status) = SUCCEEDED) && bool_decide (e.(exec_rolled_back_at) = None).

(** [bool(latest_policy and latest_policy.allowed)]. *)
Definition latest_allowed (incident_id : uuid) (db : Database) : bool :=
  match latest pol_created_at (λ p, bool_decide (p.(pol_incident_id) = incident_id))
          db.(policy_decisions) with
  | Some p => p.(pol_allowed)
  | None => false
  end.

Definition scale_cleanup_denied : exn :=
  cw_error_status "SCENARIO_SCALE_CLEANUP_DENIED" "Temporary scale cleanup was not authorized" 409.
Definition scale_cleanup_failed : exn :=
  cw_error_status "SCENARIO_SCALE_CLEANUP_FAILED" "Temporary replica count was not restored" 502.

Section lab.
Context {X : Type} `{!Runtime X, !KubeApi X, !Pydantic, !PolicyServer X, !GitRepository X}.
Context `{!TaskResults X} {urls : UrlLibrary}.
Context (settings : Settings) (exe : Executor) (opa : OPAClient).

(** [get_session]: what a handler did not commit is discarded when it ends. *)
Definition with_session {A} (m : M (World X) A) : M (World X) A :=
  in_session (let! a := m in do! rollback; ret a).

Definition publish_execution (payload : dict) : M (World X) unit :=
  append_stream_event "incident_lab.execution" None payload.

(** [task_publisher.send_task(...)]: the identifier of the message. *)
Definition publish_task (task : string) (kwargs : dict) (queue : string) : M (World X) string :=
  do! send_task task (task_document kwargs queue);
  external sent_task_id.

(** ** Undoing a temporary scale *)

Definition temporary_scale (incident_id : uuid) : M (World X) (option ActionExecution) :=
  query (λ db, match latest exec_attempt (scale_of incident_id) (rows db.(action_executions)) with
               | Some e => if standing_scale e then Some e else None
               | None => None
               end).

(** The coordinator's verdict on undoing an action of an incident. *)
Definition rollback_disposition (incident : Incident) (action : ActionType) (allowed : bool)
  : RollbackDisposition :=
  decide_rollback {| automatic_max_risk := settings.(automatic_rollback_max_risk) |} action
    (default 100 incident.(inc_risk_score)) true allowed.

(** Undo a scale and check the replicas of the deployment. *)
Definition undo_scale (namespace_of : dict → res string) (incident_id : uuid)
    (scale : ActionExecution) : M (World X) dict :=
  let! allowed := query (latest_allowed incident_id) in
  let! incident := the_incident incident_id in
  do! raise_if (negb (bool_decide
        (rollback_disposition incident scale.(exec_action_type) allowed = AUTOMATIC)))
        scale_cleanup_denied;
  let! undone := rollback_scale exe incident_id scale.(exec_id) settings.(max_temporary_replicas) in
  let! execution := the_execution undone in
  let! restored := lift (res_bind (item "requested_replicas" execution.(exec_result)) py_int) in
  let! deployment_name := lift (res_bind (item "deployment" execution.(exec_result))
                                  (λ j, Ok (py_str j))) in
  let! namespace := lift (namespace_of execution.(exec_result)) in
  let! deployment := get_deployment namespace deployment_name in
  do! raise_if (negb (deployment.(desired_replicas) =? restored)) scale_cleanup_failed;
  ret [("rollback_execution_id", JStr (uuid_str undone)); ("restored_replicas", JInt restored);
       ("verified", JBool true)].

(** [uuid.UUID(details.get(key))] of a text that is an identifier. *)
Definition detail_uuid (key : string) (details : dict) : option uuid :=
  match dict_get key details with Some (JStr s) => parse_uuid s | _ => None end.

(** [_restore_temporary_scale]: [None] when there is nothing to undo. *)
Definition restore_temporary_scale (namespace_of : dict → res string) (execution_id : uuid)
  : M (World X) (option dict) :=
  let! e := the_chaos_execution execution_id in
  match detail_uuid "incident_id" e.(chx_details) with
  | None => ret None
  | Some incident_id =>
      let! incident := query (λ db, db.(incidents) !! incident_id) in
      match incident with
      | None => ret None
      | Some _ =>
          let! scale := temporary_scale incident_id in
          match scale with
          | None => ret None
          | Some scale =>
              let! result := undo_scale namespace_of incident_id scale in
              ret (Some result)
          end
      end
  end.

Definition recorded_namespace (result : dict) : res string :=
  res_bind (item "namespace" result) (λ j, Ok (py_str j)).

(** ** Reading *)

(** [list_scenarios]. *)
Definition list_scenarios (viewer : Principal) : res (list ChaosScenario) :=
  res_bind (require_permission PLATFORM_READ viewer) (λ _, Ok SCENARIOS).

(** [list_executions]. *)
Definition list_executions (viewer : Principal) (status : option ExperimentStatus)
    (limit offset : Z) : M (World X) (list ChaosExecution) :=
  with_session (
    do! lift (require_permission PLATFORM_READ viewer);
    query (λ db, take (Z.to_nat limit) (drop (Z.to_nat offset)
      (isort (λ a b, b.(chx_created_at) <=? a.(chx_created_at))
        (List.filter (λ e, match status with
                           | Some s => bool_decide (e.(chx_status) = s)
                           | None => true end) (rows db.(chaos_executions))))))).

(** [get_execution]. *)
Definition get_execution (viewer : Principal) (execution_id : uuid) : M (World X) ChaosExecution :=
  with_session (
    do! lift (require_permission PLATFORM_READ viewer);
    let! o := query (λ db, db.(chaos_executions) !! execution_id) in
    match o with
    | Some e => ret e
    | None => raise (execution_not_found "Scenario execution was not found")
    end).

(** ** Starting *)

(** The policy engine must allow a scenario that changes something. *)
Definition ask_chaos_policy (client : ChaosPolicyClient) (operator : Principal) (s : ChaosScenario)
  : M (World X) (option ChaosPolicyResult) :=
  if bool_decide (s.(scn_mechanism) = FINOPS_ANALYSIS) then ret None
  else
    let! policy_input := lift (validated "ChaosPolicyInput" ChaosPolicyInput_valid
      {| cpi_scenario_id := s.(scn_id); cpi_actor_role := Role_value operator.(role);
         cpi_namespace := s.(scn_target_namespace); cpi_selector := s.(scn_target_selector);
         cpi_duration_seconds := s.(scn_duration_seconds) |}) in
    let! policy := evaluate_chaos client policy_input in
    do! raise_if (negb policy.(cpr_allowed))
          (cw_error_status "CHAOS_POLICY_DENIED" policy.(cpr_reason) 403);
    ret (Some policy).

(** The pods of a scenario that changes something. *)
Definition scenario_pods (s : ChaosScenario) : M (World X) (list PodState) :=
  if bool_decide (s.(scn_mechanism) = FINOPS_ANALYSIS) then ret []
  else
    let! pods := get_pods s.(scn_target_namespace) "cloudward.io/demo-target=true" in
    do! raise_if (bool_decide (pods = [])) (no_target
          "No live demo-labeled staging target is available");
    ret pods.

(** The mechanism of a scenario: what is created, and what the execution records. *)
Definition launch (operator : Principal) (s : ChaosScenario) (pods : list PodState)
    (id : uuid) (now : datetime) : M (World X) unit :=
  match s.(scn_mechanism) with
  | STRESS_CHAOS | POD_CHAOS =>
      let! resource := start_chaos exe s id in
      set_chaos_execution id (started resource.(ssr_kind) resource.(ssr_name) now
        [("current_step", JStr "WAITING_FOR_EXPECTED_ALERT")])
  | GITOPS_RELEASE =>
      let! gitops := deploy_controlled_bad settings id in
      do! set_chaos_execution id (started "GitOpsRevision" gitops.(gw_revision) now
            [("current_step", JStr "WAITING_FOR_GITOPS_ROLLOUT_AND_ALERT");
             ("gitops_trigger", JObj (GitOpsImageWriteResult_dump gitops))]);
      record_audit "SCENARIO_GITOPS_RELEASE_CREATED" (uuid_str id) None operator.(login) ACTOR_USER
        None None None None "SUCCEEDED"
        [("execution_id", JStr (uuid_str id)); ("scenario_id", JStr s.(scn_id));
         ("revision", JStr gitops.(gw_revision));
         ("previous_revision", JStr gitops.(gw_previous_revision));
         ("target_tag", JStr gitops.(gw_target_tag))]
  | SAFE_DEMO_ENDPOINT =>
      match ready_targets pods with
      | [] => raise (no_target "No ready demo-labeled staging target is available")
      | target :: _ =>
          let! trigger := trigger_controlled_security_scenario exe s.(scn_target_namespace)
                            target.(ps_name) s.(scn_id) (seconds 5) in
          set_chaos_execution id (started "SafeDemoEndpoint" target.(ps_name) now
            [("current_step", JStr "WAITING_FOR_SECURITY_EVENT");
             ("triggered_at", JStr (isoformat now)); ("trigger_timeout_seconds", JInt 5);
             ("trigger", JObj (SecurityScenarioTriggerResult_dict trigger))])
      end
  | FINOPS_ANALYSIS =>
      set_chaos_execution id (started "FinOpsAnalysis" s.(scn_id) now
        [("current_step", JStr "COLLECTING_OPENCOST_AND_PROMETHEUS"); ("read_only", JBool true);
         ("live_mutation", JBool false)])
  end.

(** [details.get(key)], where an absent key reads [None]. *)
Definition detail (key : string) (e : ChaosExecution) : json :=
  default JNull (dict_get key e.(chx_details)).

(** The worker that follows an execution. *)
Definition dispatch_monitor (s : ChaosScenario) (id : uuid) : M (World X) string :=
  if bool_decide (s.(scn_mechanism) = FINOPS_ANALYSIS) then
    publish_task FINOPS_TASK
      [("scenario_id", JStr s.(scn_id)); ("execution_id", JStr (uuid_str id))] "evidence"
  else publish_task MONITOR_TASK [("execution_id", JStr (uuid_str id))] "verification".

(** Insert the execution of a scenario and set it off. *)
Definition open_execution (operator : Principal) (s : ChaosScenario)
    (policy : option ChaosPolicyResult) (pods : list PodState) : M (World X) uuid :=
  let! now := utc_now in
  let! id := uuid4 in
  let! created := utc_now in
  do! insert_row chaos_executions upd_chaos_executions (λ _, true) id
        (new_chaos_execution settings id created now operator.(login) s policy);
  do! flush;
  do! launch operator s pods id now;
  let! e := the_chaos_execution id in
  do! publish_execution
        [("execution_id", JStr (uuid_str id)); ("scenario_id", JStr e.(chx_scenario_id));
         ("status", JStr (ExperimentStatus_value e.(chx_status)));
         ("current_step", detail "current_step" e)];
  ret id.

(** The execution is durable before the worker hears of it. *)
Definition monitor (s : ChaosScenario) (id : uuid) : M (World X) ChaosExecution :=
  do! commit;
  let! task := dispatch_monitor s id in
  do! set_chaos_execution id (add_details [("monitor_task_id", JStr task)]);
  do! commit;
  the_chaos_execution id.

(** [start_scenario]. *)
Definition start_scenario (client : ChaosPolicyClient) (operator : Principal) (scenario_id : string)
  : M (World X) ChaosExecution :=
  with_session (
    do! lift (require_permission DEMO_TRIGGER operator);
    let! s := lift (get_scenario scenario_id) in
    do! lift (enforce_scenario_target settings s);
    let! policy := ask_chaos_policy client operator s in
    let! active := query (λ db, select_one (occupies s.(scn_id)) db.(chaos_executions)) in
    do! raise_if (bool_decide (is_Some active))
          (cw_error_status "SCENARIO_ALREADY_RUNNING"
             "This scenario already has an active execution" 409);
    let! pods := scenario_pods s in
    let! id := open_execution operator s policy pods in
    monitor s id).

(** ** Stopping *)

(** What is left of the resource of an execution is removed. *)
Definition remove_resource (operator : Principal) (id : uuid) (e : ChaosExecution)
  : M (World X) unit :=
  match e.(chx_resource_kind), e.(chx_resource_name) with
  | Some kind, Some name =>
      if negb (truthy_str kind && truthy_str name) then ret tt
      else if String.eqb kind "FinOpsAnalysis" then
        set_chaos_execution id (add_details
          [("finops_cleanup", JObj [("verified", JBool true);
                                    ("reason", JStr "read-only analysis")])])
      else if String.eqb kind "GitOpsRevision" then
        let! cleanup := ensure_known_good settings id in
        do! set_chaos_execution id (add_details
              [("gitops_cleanup", JObj (GitOpsImageWriteResult_dump cleanup))]);
        record_audit "SCENARIO_GITOPS_CLEANUP" (uuid_str id) None operator.(login) ACTOR_USER
          None None None None "SUCCEEDED"
          [("execution_id", JStr (uuid_str id)); ("revision", JStr cleanup.(gw_revision));
           ("changed", JBool cleanup.(gw_changed))]
      else cleanup_chaos exe e.(chx_target_namespace) kind name
  | _, _ => ret tt
  end.

(** The containment of a security scenario is lifted, or it never was in force. *)
Definition lift_containment (operator : Principal) (execution_id : uuid) : M (World X) unit :=
  let! e := the_chaos_execution execution_id in
  let! event := match detail_uuid "security_event_id" e.(chx_details) with
                | Some event_id => query (λ db, db.(security_events) !! event_id)
                | None => ret None
                end in
  match event with
  | None => ret tt
  | Some event =>
      if bool_decide (event.(sev_containment_status) ∈
           [NOT_PROPOSED; PROPOSED; CONTAINMENT_AWAITING_APPROVAL; REMOVED]) then ret tt
      else
        let! record := remove_quarantine settings opa exe event.(sev_id) operator.(login) in
        let! q := the_quarantine record in
        raise_if (negb (bool_decide (q.(qrt_status) = REMOVED) &&
                        truthy (default JNull (dict_get "success" q.(qrt_verification)))))
          (cw_error_status "SCENARIO_CLEANUP_FAILED"
             "Security scenario containment cleanup could not be verified" 502)
  end.

Definition cancelled (now : datetime) (stopped_by : string) (e : ChaosExecution) : ChaosExecution :=
  add_details [("current_step", JStr "CANCELLED"); ("stopped_by", JStr stopped_by);
               ("cleanup_verified", JBool true)]
    (set_chx_cleanup_completed_at (Some now)
    (set_chx_completed_at (Some now)
    (set_chx_status EXPERIMENT_CANCELLED e))).

(** What [stop_execution] undoes before the execution is cancelled. *)
Definition undo_execution (operator : Principal) (execution_id : uuid) (e : ChaosExecution)
  : M (World X) unit :=
  do! remove_resource operator execution_id e;
  do! when (String.eqb e.(chx_scenario_id) "reliability.cpu-saturation") (
        let! cleanup := restore_temporary_scale recorded_namespace execution_id in
        match cleanup with
        | Some c => set_chaos_execution execution_id (add_details [("scale_cleanup", JObj c)])
        | None => ret tt
        end);
  when (bool_decide (e.(chx_resource_kind) = Some "SafeDemoEndpoint"))
    (lift_containment operator execution_id).

(** The execution is stopped. *)
Definition cancel (operator : Principal) (execution_id : uuid) (e : ChaosExecution)
  : M (World X) ChaosExecution :=
  do! set_chaos_execution execution_id (set_chx_status EXPERIMENT_STOPPING);
  do! undo_execution operator execution_id e;
  let! now := utc_now in
  do! set_chaos_execution execution_id (cancelled now operator.(login));
  do! publish_execution
        [("execution_id", JStr (uuid_str execution_id)); ("scenario_id", JStr e.(chx_scenario_id));
         ("status", JStr (ExperimentStatus_value EXPERIMENT_CANCELLED));
         ("current_step", JStr "CANCELLED"); ("cleanup_verified", JBool true)];
  do! commit;
  the_chaos_execution execution_id.

(** [stop_execution]. *)
Definition stop_execution (operator : Principal) (execution_id : uuid)
  : M (World X) ChaosExecution :=
  with_session (
    do! lift (require_permission DEMO_TRIGGER operator);
    let! o := query (λ db, db.(chaos_executions) !! execution_id) in
    match o with
    | None => raise (execution_not_found "Scenario execution was not found")
    | Some e => if experiment_active e.(chx_status) then cancel operator execution_id e else ret e
    end).
End lab.
