(* ===== verification/Reconcile.v ===== *)
(** * The callbacks of the worker

    [api/internal_reliability.py]: the worker processes an alert, with the source
    correlation and the advisory diagnosis that may follow it, and reconciles the
    execution of a scenario with what the alert, the incident or the security event
    became, until the execution is terminal. *)

From S2P Require Import Prelude PyFloat Json JsonParse Effects Rbac Actions StateMachine Models World.
From S2P Require Import Config AuditLog History Memory Incidents Kubernetes Opa Approvals Execution.
From S2P Require Import Verification Runbooks Alerts Telemetry GitOps Reliability Quarantine.
From S2P Require Import GitHubPolicy GitHub Url FinOps FinOpsApi Scenarios IncidentLab.

Definition AI_DIAGNOSIS_TASK : string := "cloudward.tasks.ai.diagnose".
Definition AI_DIAGNOSIS_QUEUE : string := "evidence".

Record AlertJobRequest := {
  ajr_incident_id : uuid;
  ajr_alert : NormalizedAlert;
  ajr_correlation_id : string;
}.

Record ReconcileResult := {
  rec_terminal : bool;
  rec_status : ExperimentStatus;
  rec_retry_after_seconds : Z;
  rec_detail : string;
}.

(** A result with the default delay. *)
Definition reconciled (terminal : bool) (status : ExperimentStatus) (message : string)
  : ReconcileResult :=
  {| rec_terminal := terminal; rec_status := status; rec_retry_after_seconds := 5;
     rec_detail := message |}.

Definition incident_not_found : exn :=
  cw_error_status "INCIDENT_NOT_FOUND" "Incident was not found" 404.

(** ** The uncertainty an alert declares *)

(** The annotations of an alert are texts. *)
Definition annotation_texts (alert : NormalizedAlert) : text_dict :=
  omap (λ kv, match kv.2 with JStr s => Some (kv.1, s) | _ => None end) alert.(al_annotations).

(** [_alert_marks_uncertainty]. *)
Definition alert_marks_uncertainty (alert : NormalizedAlert) : bool :=
  let values := dict_update (annotation_texts alert) alert.(al_labels) in
  let explicit := lower (str_strip (default EmptyString
                    (dict_get "cloudward.io/diagnosis-uncertain" values))) in
  if bool_decide (explicit ∈ ["1"; "true"; "yes"]) then true
  else match dict_get "cloudward.io/deterministic-confidence" values with
       | None => false
       | Some raw => match py_float (JStr raw) with
                     | Ok confidence => fltb confidence (float_of_decimal 8 (-1))
                     | Raise _ => true
                     end
       end.

(** ** Scenarios and executions *)

(** The category of event a security scenario waits for. *)
Definition security_category (scenario_id : string) : option SecurityCategory :=
  if String.eqb scenario_id "security.suspicious-shell-pattern" then Some SUSPICIOUS_PROCESS
  else if String.eqb scenario_id "security.unexpected-egress" then Some UNEXPECTED_EGRESS
  else if String.eqb scenario_id "security.privilege-related-behavior" then
    Some PRIVILEGE_BEHAVIOR
  else None.

(** The execution ends. *)
Definition concluded (status : ExperimentStatus) (now : datetime) (cleaned_up : bool)
    (reason : option string) (d : dict) (e : ChaosExecution) : ChaosExecution :=
  let e := set_chx_cleanup_completed_at (if cleaned_up then Some now else None)
             (set_chx_completed_at (Some now) (set_chx_status status e)) in
  add_details d (match reason with Some r => set_chx_failure_reason (Some r) e | None => e end).

(** The alert an execution waits for: its name, received since the execution began. *)
Definition expected_alert (e : ChaosExecution) (a : AlertRecord) : bool :=
  String.eqb a.(alr_alert_name) e.(chx_expected_alert) &&
  (e.(chx_created_at) <=? a.(alr_last_received_at)).

(** The event a security execution waits for. *)
Definition expected_event (category : SecurityCategory) (e : ChaosExecution) (s : SecurityEvent)
  : bool :=
  bool_decide (s.(sev_event_type) = category) &&
  String.eqb s.(sev_namespace) e.(chx_target_namespace) &&
  (e.(chx_created_at) <=? s.(sev_created_at)) &&
  match e.(chx_resource_name) with
  | Some name => negb (truthy_str name) || String.eqb s.(sev_pod) name
  | None => true
  end.

(** [alert.labels.get("deployment", "cloudward-demo")]. *)
Definition alert_deployment (a : AlertRecord) : res string :=
  match a.(alr_labels) with
  | JObj d => match dict_get "deployment" d with
              | Some (JStr s) => Ok s
              | Some _ => Raise (PyError "TypeError" "expected string")
              | None => Ok "cloudward-demo"
              end
  | _ => Raise (PyError "AttributeError" "get")
  end.

Definition verification_of (incident_id : uuid) (v : VerificationRecord) : bool :=
  bool_decide (v.(ver_incident_id) = incident_id).
Definition count_verifications (incident_id : uuid) (db : Database) : Z :=
  Z.of_nat (length (List.filter (verification_of incident_id) db.(verification_records))).
(** [func.max(VerificationRecord.completed_at)]. *)
Definition last_completed (incident_id : uuid) (db : Database) : option datetime :=
  ver_completed_at <$> latest ver_completed_at (verification_of incident_id)
                         db.(verification_records).

Definition of_incident (incident_id : uuid) (e : ActionExecution) : bool :=
  bool_decide (e.(exec_incident_id) = incident_id).

(** What resolved the incident, if the verification succeeds. *)
Definition attributed (scenario_id : string) (action : option ActionExecution)
  : ResolutionSource :=
  if String.eqb scenario_id "reliability.platform-self-healing" then PLATFORM_SELF_HEALING
  else match action with
       | Some a => if bool_decide (a.(exec_status) = SUCCEEDED) then CLOUDWARD_REMEDIATION
                   else PLATFORM_SELF_HEALING
       | None => PLATFORM_SELF_HEALING
       end.

(** The plan of the verification; the bounds are the defaults of the class. *)
Definition scenario_plan (e : ChaosExecution) (deployment service : string) (replicas : Z)
  : VerificationPlan :=
  {| vp_namespace := e.(chx_target_namespace); vp_deployment := deployment;
     vp_label_selector := "cloudward.io/demo-target=true"; vp_service_name := service;
     vp_expected_replicas := replicas; error_rate_threshold := float_of_decimal 5 (-2);
     p95_latency_threshold_seconds := float_of_decimal 25 (-1);
     vp_health_path := "health/ready" |}.

Definition before_scenario : dict :=
  [("ready_replicas", JNull); ("error_rate", JNull); ("p95_latency", JNull);
   ("source", JStr "bounded incident evidence snapshots")].

(** A failed verification of a scale that stands is followed by its rollback. *)
Definition scale_to_undo (success : bool) (action : option ActionExecution)
  : option ActionExecution :=
  match action with
  | Some a => if negb success && bool_decide (a.(exec_action_type) = SCALE_STAGING_DEPLOYMENT) &&
                 bool_decide (a.(exec_rollback_of_execution_id) = None) &&
                 bool_decide (a.(exec_rolled_back_at) = None)
              then Some a else None
  | None => None
  end.

(** The containment states in which nothing is enforced on the pod. *)
Definition not_enforced : list ContainmentStatus :=
  [NOT_PROPOSED; PROPOSED; CONTAINMENT_AWAITING_APPROVAL; REMOVED].

Section worker.
Context {X : Type} `{!Runtime X, !KubeApi X, !Pydantic, !PolicyServer X, !TelemetryServer X}.
Context `{!GitRepository X, !GitHubServer X, !TaskResults X} {urls : UrlLibrary}.
Context (settings : Settings) (exe : Executor) (opa : OPAClient) (loader : RunbookLoader).

(** The telemetry providers of the settings. *)
Definition provider (url class : string) : HTTPProvider :=
  {| base_url := rstrip "/" url; max_samples := settings.(telemetry_max_samples);
     provider_class := class |}.
Definition prometheus_provider : HTTPProvider :=
  provider settings.(prometheus_url) "PrometheusMetricsProvider".
Definition evidence_service : IncidentEvidenceService :=
  {| ies_metrics := prometheus_provider;
     ies_logs := provider settings.(loki_url) "LokiLogsProvider";
     ies_traces := provider settings.(tempo_url) "TempoTracesProvider";
     before_seconds := settings.(evidence_before_seconds); max_incident_seconds := 1800 |}.

Definition audit_reliability (incident_id : uuid) (event result : string) (metadata : dict)
  : M (World X) unit :=
  let! incident := the_incident incident_id in
  record_audit event incident.(inc_correlation_id) (Some incident.(inc_id)) WORKER ACTOR_SYSTEM
    None None None None result metadata.

(** ** Processing an alert *)

(** [_collect_source_correlation]: a failure is recorded and goes no further. *)
Definition collect_source_correlation (incident_id : uuid) (alert : NormalizedAlert)
  : M (World X) unit :=
  catch
    (let! source := lift (source_request_from_metadata alert.(al_labels)
                            (annotation_texts alert)) in
     match source with
     | None => ret tt
     | Some r =>
         let! policy := lift (settings_policy settings) in
         let! _ := correlate_and_store policy incident_id r WORKER in
         commit
     end)
    (λ e,
     do! rollback;
     let d := [("error_code", JStr (error_code e)); ("remediation_continued", JBool true)] in
     catch
       (do! audit_reliability incident_id "GIT_EVIDENCE_UNAVAILABLE" "UNAVAILABLE" d;
        do! append_stream_event "incident.source_correlation_unavailable" (Some incident_id) d;
        commit)
       (λ _, rollback)).

(** [_supplemental_ai_reason]. *)
Definition supplemental_ai_reason (incident_id : uuid) (alert : NormalizedAlert)
    (result : ReliabilityProcessingResult) : M (World X) (option string) :=
  let! diagnosed := query (λ db,
    existsb (λ d, bool_decide (d.(dia_incident_id) = incident_id)) db.(ai_diagnoses)) in
  if diagnosed : bool then ret None
  else if negb (bool_decide (is_Some result.(rp_runbook_id)) &&
                bool_decide (is_Some result.(rp_action))) then ret (Some "no_deterministic_runbook")
  else if negb (dict_has alert.(al_alert_name) ALERT_CONDITIONS) then ret (Some "unknown_alert")
  else if alert_marks_uncertainty alert then ret (Some "deterministic_diagnosis_uncertain")
  else
    let! incident := the_incident incident_id in
    let! q := lift (validated "FingerprintInput" FingerprintInput_valid
      {| fp_service := alert.(al_service); fp_incident_type := incident.(inc_incident_type);
         fp_alert_name := alert.(al_alert_name); fp_namespace := alert.(al_namespace);
         fp_root_cause_category := None;
         fp_labels := List.filter (λ kv, bool_decide (kv.1 ∈ DEFAULT_STABLE_LABELS))
                        alert.(al_labels) |}) in
    let! similar := find_similar q (Some incident_id) 5 None in
    match similar with
    | [] => ret (Some "no_similar_incident_memory")
    | _ => if existsb (λ s, s.(sim_record).(mem_successful)) similar then ret None
           else ret (Some "no_verified_successful_memory")
    end.

(** The reason, or none when finding it failed. *)
Definition supplemental_reason (incident_id : uuid) (alert : NormalizedAlert)
    (result : ReliabilityProcessingResult) : M (World X) (option string) :=
  if negb settings.(ai_diagnosis_enabled) then ret None
  else catch (supplemental_ai_reason incident_id alert result) (λ e,
    do! rollback;
    do! catch
          (do! audit_reliability incident_id "AI_DIAGNOSIS_ELIGIBILITY_FAILED" "UNAVAILABLE"
                 [("error_type", JStr (class_name e))];
           commit)
          (λ _, rollback);
    ret None).

(** The advisory diagnosis is scheduled, or its failure recorded. *)
Definition schedule_diagnosis (incident_id : uuid) (reason : string) : M (World X) unit :=
  let! sent := attempt (publish_task AI_DIAGNOSIS_TASK
                          [("incident_id", JStr (uuid_str incident_id))] AI_DIAGNOSIS_QUEUE) in
  do! match sent with
      | inr e => audit_reliability incident_id "AI_DIAGNOSIS_SCHEDULING_FAILED" "FAILED"
                   [("error_type", JStr (class_name e)); ("supplemental_reason", JStr reason)]
      | inl task =>
          do! append_stream_event "incident.ai_diagnosis_queued" (Some incident_id)
                [("task_id", JStr task); ("advisory_only", JBool true);
                 ("supplemental_reason", JStr reason)];
          audit_reliability incident_id "AI_DIAGNOSIS_QUEUED" "QUEUED"
            [("task_id", JStr task); ("queue", JStr AI_DIAGNOSIS_QUEUE);
             ("supplemental_reason", JStr reason)]
      end;
  commit.

(** [process_alert_job]. *)
Definition process_alert_job (authorization : option string) (payload : AlertJobRequest)
  : M (World X) ReliabilityProcessingResult :=
  with_session (
    do! lift (require_worker settings authorization);
    let incident_id := payload.(ajr_incident_id) in
    let alert := payload.(ajr_alert) in
    let! o := query (λ db, db.(incidents) !! incident_id) in
    match o with
    | None => raise incident_not_found
    | Some _ =>
        let! result := process_alert settings exe evidence_service loader opa incident_id alert in
        do! commit;
        do! collect_source_correlation incident_id alert;
        let! reason := supplemental_reason incident_id alert result in
        do! match reason with
            | Some reason => schedule_diagnosis incident_id reason
            | None => ret tt
            end;
        ret result
    end).

(** ** Reconciling a reliability scenario *)

(** [_stream_execution]. *)
Definition stream_execution (id : uuid) : M (World X) unit :=
  let! e := the_chaos_execution id in
  publish_execution
    [("execution_id", JStr (uuid_str id)); ("scenario_id", JStr e.(chx_scenario_id));
     ("status", JStr (ExperimentStatus_value e.(chx_status)));
     ("current_step", detail "current_step" e); ("incident_id", detail "incident_id" e);
     ("cleanup_verified", detail "cleanup_verified" e)].

(** The execution ends: the row, the outbox, the commit and the result. *)
Definition conclude (id : uuid) (status : ExperimentStatus) (now : datetime) (cleaned_up : bool)
    (reason : option string) (d : dict) (message : string) : M (World X) ReconcileResult :=
  do! set_chaos_execution id (concluded status now cleaned_up reason d);
  do! stream_execution id;
  do! commit;
  ret (reconciled true status message).

(** The execution goes on; what the round recorded is kept. *)
Definition go_on (id : uuid) (retry : Z) (message : string) : M (World X) ReconcileResult :=
  do! stream_execution id;
  do! commit;
  let! e := the_chaos_execution id in
  ret {| rec_terminal := false; rec_status := e.(chx_status); rec_retry_after_seconds := retry;
         rec_detail := message |}.

(** [_cleanup]. *)
Definition cleanup (id : uuid) : M (World X) unit :=
  let! e := the_chaos_execution id in
  do! match e.(chx_resource_kind), e.(chx_resource_name) with
      | Some kind, Some name =>
          if negb (truthy_str kind && truthy_str name) then ret tt
          else if String.eqb kind "GitOpsRevision" then
            let! result := ensure_known_good settings id in
            do! set_chaos_execution id (add_details
                  [("gitops_cleanup", JObj (GitOpsImageWriteResult_dump result))]);
            record_audit "SCENARIO_GITOPS_CLEANUP" (uuid_str id) None "incident-lab-worker"
              ACTOR_SYSTEM None None None None "SUCCEEDED"
              [("execution_id", JStr (uuid_str id)); ("revision", JStr result.(gw_revision));
               ("changed", JBool result.(gw_changed))]
          else cleanup_chaos exe e.(chx_target_namespace) kind name
      | _, _ => ret tt
      end;
  when (String.eqb e.(chx_scenario_id) "reliability.cpu-saturation") (
    let! restored := restore_temporary_scale settings exe
                       (λ _, Ok e.(chx_target_namespace)) id in
    match restored with
    | Some c => set_chaos_execution id (add_details [("scale_cleanup", JObj c)])
    | None => ret tt
    end).

(** A scale whose verification failed is undone when the coordinator allows it. *)
Definition undo_failed_scale (incident_id : uuid) (scale : ActionExecution) : M (World X) unit :=
  let! allowed := query (latest_allowed incident_id) in
  let! incident := the_incident incident_id in
  if bool_decide (rollback_disposition settings incident scale.(exec_action_type) allowed =
                  AUTOMATIC)
  then let! _ := rollback_scale exe incident_id scale.(exec_id)
                   settings.(max_temporary_replicas) in ret tt
  else ret tt.

(** One verification of the scenario, recorded as attempt [attempt]. *)
Definition verify_attempt (e : ChaosExecution) (incident_id : uuid) (alert : AlertRecord)
    (deployment_name : string) (replicas attempt : Z) : M (World X) unit :=
  let! plan := lift (validated "VerificationPlan" VerificationPlan_valid
                       (scenario_plan e deployment_name alert.(alr_service) replicas)) in
  let! verification := verify_signals prometheus_provider plan before_scenario in
  let! action := query (λ db, latest exec_attempt (of_incident incident_id)
                                (rows db.(action_executions))) in
  let! _ := persist_verification settings incident_id verification attempt (exec_id <$> action)
              (attributed e.(chx_scenario_id) action) in
  match scale_to_undo verification.(ms_success) action with
  | Some scale => undo_failed_scale incident_id scale
  | None => ret tt
  end.

(** The incident is being verified: the result of the round, if the round ends here. *)
Definition verify_scenario (id incident_id : uuid) (alert : AlertRecord) (now : datetime)
  : M (World X) (option ReconcileResult) :=
  let! e := the_chaos_execution id in
  let! deployment_name := lift (alert_deployment alert) in
  let! deployment := get_deployment e.(chx_target_namespace) deployment_name in
  let bad_deployment := String.eqb e.(chx_scenario_id) "reliability.bad-deployment" in
  if bad_deployment && negb (existsb (ends_with ":local") deployment.(container_images)) then
    do! set_chaos_execution id (add_details
          [("current_step", JStr "WAITING_FOR_ARGO_KNOWN_GOOD_REVISION");
           ("observed_images", JArr (map JStr deployment.(container_images)))]);
    let! r := go_on id 10 "waiting for Argo CD to roll out the known-good image" in
    ret (Some r)
  else
    let! count := query (count_verifications incident_id) in
    let! last := query (last_completed incident_id) in
    if bad_deployment && (0 <? count) &&
       match last with Some t => now <? t + seconds 60 | None => false end
    then ret (Some {| rec_terminal := false; rec_status := e.(chx_status);
                      rec_retry_after_seconds := 10;
                      rec_detail := "waiting for the bounded post-remediation metric window" |})
    else
      do! when (count <? 3)
            (verify_attempt e incident_id alert deployment_name deployment.(desired_replicas)
               (count + 1));
      ret None.

(** What the state of the incident makes of the execution. *)
Definition settle (id incident_id : uuid) (now : datetime) : M (World X) ReconcileResult :=
  let! incident := the_incident incident_id in
  match incident.(inc_state) with
  | RESOLVED =>
      do! cleanup id;
      conclude id EXPERIMENT_SUCCEEDED now true None [("current_step", JStr "COMPLETED")]
        "incident verified"
  | BLOCKED | ESCALATED =>
      let reason := "incident ended in " +:+ IncidentState_value incident.(inc_state) in
      do! cleanup id;
      conclude id EXPERIMENT_FAILED now true (Some reason) [("current_step", JStr "FAILED")] reason
  | _ => go_on id 5 "incident workflow is still active"
  end.

Definition past_deadline : string :=
  "expected verified incident lifecycle did not finish before deadline".

(** [reconcile_execution], for a scenario that is not a security scenario. *)
Definition reconcile_reliability (id : uuid) (e : ChaosExecution) (now : datetime)
  : M (World X) ReconcileResult :=
  if e.(chx_cleanup_deadline) <=? now then
    do! cleanup id;
    conclude id EXPERIMENT_TIMED_OUT now true (Some past_deadline)
      [("current_step", JStr "TIMED_OUT")] past_deadline
  else
    let! alert := query (λ db, latest alr_last_received_at (expected_alert e)
                                 (rows db.(alert_records))) in
    let waiting := ret (reconciled false e.(chx_status)
                          "waiting for the expected authenticated alert") in
    match alert with
    | None => waiting
    | Some alert =>
        match alert.(alr_incident_id) with
        | None => waiting
        | Some incident_id =>
            let! o := query (λ db, db.(incidents) !! incident_id) in
            match o with
            | None => ret (reconciled false e.(chx_status) "waiting for correlated incident")
            | Some incident =>
                do! set_chaos_execution id (add_details
                      [("incident_id", JStr (uuid_str incident_id));
                       ("current_step",
                          JStr ("INCIDENT_" +:+ IncidentState_value incident.(inc_state)))]);
                let! round := (if bool_decide (incident.(inc_state) = VERIFYING)
                               then verify_scenario id incident_id alert now
                               else ret None) in
                match round with
                | Some result => ret result
                | None => settle id incident_id now
                end
            end
        end
    end.

(** ** Reconciling a security scenario *)

(** [record.status == REMOVED and bool(record.verification.get("success"))]. *)
Definition removal_verified (q : QuarantineRecord) : bool :=
  bool_decide (q.(qrt_status) = REMOVED) &&
  truthy (default JNull (dict_get "success" q.(qrt_verification))).

Definition LAB_WORKER : string := "incident-lab-worker".

(** [_remove_security_containment]. *)
Definition remove_security_containment (event_id : uuid) : M (World X) bool :=
  let! event := the_security_event event_id in
  if bool_decide (event.(sev_containment_status) ∈ not_enforced) then ret true
  else catch
    (let! record := remove_quarantine settings opa exe event_id LAB_WORKER in
     let! q := the_quarantine record in
     ret (removal_verified q))
    (λ e, if is_cloudward_error e then ret false else raise e).

Definition containment_text (s : ContainmentStatus) : json := JStr (ContainmentStatus_value s).

(** Whether the incident of an event, if there is one, is in a state [p] accepts. *)
Definition linked_incident (event_id : uuid) (p : IncidentState → bool) (db : Database) : bool :=
  match db.(security_events) !! event_id with
  | Some event =>
      match event.(sev_incident_id) with
      | Some i => match db.(incidents) !! i with Some i => p i.(inc_state) | None => false end
      | None => false
      end
  | None => false
  end.

Definition contained (id event_id : uuid) : M (World X) ReconcileResult :=
  let! record := apply_quarantine settings opa exe event_id LAB_WORKER in
  let! q := the_quarantine record in
  do! set_chaos_execution id (add_details
        [("current_step", JStr "CONTAINMENT_VERIFIED");
         ("containment_status", containment_text q.(qrt_status));
         ("quarantine_id", JStr (uuid_str record));
         ("containment_verification", JObj q.(qrt_verification))]);
  go_on id 5 "targeted containment verified; cleanup scheduled".

Definition released (id event_id : uuid) : M (World X) unit :=
  let! record := remove_quarantine settings opa exe event_id LAB_WORKER in
  let! q := the_quarantine record in
  set_chaos_execution id (add_details
    [("current_step", JStr "CLEANUP_VERIFIED");
     ("containment_status", containment_text q.(qrt_status));
     ("cleanup_verification", JObj q.(qrt_verification))]).

(** What the event and its incident make of the execution. *)
Definition settle_security (id event_id : uuid) (now : datetime) : M (World X) ReconcileResult :=
  let! event := the_security_event event_id in
  let! resolved := query (linked_incident event_id (λ s, bool_decide (s = RESOLVED))) in
  let! stuck := query (linked_incident event_id (λ s, bool_decide (s ∈ [BLOCKED; ESCALATED]))) in
  if bool_decide (event.(sev_containment_status) = REMOVED) && resolved then
    conclude id EXPERIMENT_SUCCEEDED now true None
      [("current_step", JStr "COMPLETED"); ("cleanup_verified", JBool true)]
      "security incident contained, verified, and cleaned up"
  else if bool_decide (event.(sev_containment_status) = VERIFICATION_FAILED) || stuck then
    let! cleaned_up := remove_security_containment event_id in
    let reason := "security incident containment or policy verification failed" in
    conclude id EXPERIMENT_FAILED now cleaned_up (Some reason)
      [("current_step", JStr "FAILED"); ("cleanup_verified", JBool cleaned_up)] reason
  else go_on id 5 "security incident workflow is still active".

(** The event has arrived. *)
Definition follow_event (id event_id : uuid) (deadline now : datetime)
  : M (World X) ReconcileResult :=
  let! event := the_security_event event_id in
  let status := event.(sev_containment_status) in
  do! set_chaos_execution id (add_details
        [("security_event_id", JStr (uuid_str event_id));
         ("incident_id", opt_id event.(sev_incident_id));
         ("containment_status", containment_text status);
         ("current_step", JStr ("SECURITY_" +:+ ContainmentStatus_value status))]);
  if deadline <=? now then
    let! cleaned_up := remove_security_containment event_id in
    let reason := "security scenario did not complete before its bounded deadline" in
    conclude id EXPERIMENT_TIMED_OUT now cleaned_up (Some reason)
      [("current_step", JStr "TIMED_OUT"); ("cleanup_verified", JBool cleaned_up)] reason
  else if bool_decide (status ∈ [PROPOSED; CONTAINMENT_AWAITING_APPROVAL]) then
    contained id event_id
  else
    do! when (bool_decide (status = CONTAINED)) (released id event_id);
    settle_security id event_id now.

(** [_reconcile_security_execution]. *)
Definition reconcile_security (id : uuid) (e : ChaosExecution) (category : SecurityCategory)
    (now : datetime) : M (World X) ReconcileResult :=
  let! event := query (λ db, latest sev_created_at (expected_event category e)
                               (rows db.(security_events))) in
  match event with
  | Some event => follow_event id event.(sev_id) e.(chx_cleanup_deadline) now
  | None =>
      if e.(chx_cleanup_deadline) <=? now then
        let reason := "expected normalized Tetragon event did not arrive before deadline" in
        conclude id EXPERIMENT_TIMED_OUT now true (Some reason)
          [("current_step", JStr "TIMED_OUT")] reason
      else ret (reconciled false e.(chx_status)
                  "waiting for the expected normalized Tetragon event")
  end.

(** [reconcile_execution]. *)
Definition reconcile_execution (authorization : option string) (id : uuid)
  : M (World X) ReconcileResult :=
  with_session (
    do! lift (require_worker settings authorization);
    let! o := query (λ db, db.(chaos_executions) !! id) in
    match o with
    | None => raise (execution_not_found "Scenario execution was not found")
    | Some e =>
        if negb (experiment_active e.(chx_status)) then
          ret (reconciled true e.(chx_status) "execution is already terminal")
        else
          let! now := utc_now in
          match security_category e.(chx_scenario_id) with
          | Some category => reconcile_security id e category now
          | None => reconcile_reliability id e now
          end
    end).
End worker.
