(* ===== verification/LabFrames.v ===== *)
(** * What the operations of the Incident Lab leave alone

    Each operation the handlers of [IncidentLab] and [Reconcile] call keeps the
    history of the session ([session_step], [durable]) and does not touch the
    executions of scenarios. *)

From S2P Require Import Prelude PyFloat Json JsonParse Effects Rbac Actions StateMachine Models World.
From S2P Require Import Config AuditLog History Memory Notifications ApprovalRequests Incidents Kubernetes Opa.
From S2P Require Import Approvals Execution Mutations Verification Runbooks Alerts Telemetry GitOps.
From S2P Require Import Reliability Security Quarantine GitHubPolicy GitHub GitHubRuns Url Delivery.
From S2P Require Import FinOps FinOpsApi Scenarios IncidentLab Reconcile.

(** ** The operations the lab is made of *)

Ltac typed_operation :=
  first [ apply create_typed_confined | apply delete_typed_confined | apply trigger_confined ].
#[export] Hint Extern 2 (evolves session_step _) =>
  eapply confined_session_step; typed_operation : cw_pres.
#[export] Hint Extern 2 (evolves (same_db _) _) =>
  eapply confined_same; typed_operation : cw_pres.

Section operations.
Context {X : Type} `{!Runtime X, !KubeApi X, !Pydantic, !PolicyServer X, !TelemetryServer X}.
Context `{!GitRepository X, !GitHubServer X, !TaskResults X} {urls : UrlLibrary}.
Context (settings : Settings) (exe : Executor) (opa : OPAClient).
Abbreviation step_ok m := (evolves (session_step (X:=X)) m).
Abbreviation same_ok f m := (evolves (same_db (X:=X) f) m).

Lemma write_tag_step op expected target reference :
  step_ok (write_tag settings op expected target reference).
Proof. eapply writes_step, write_tag_writes. Qed.
Lemma write_tag_same {A} (f : Database → A) op expected target reference :
  same_ok f (write_tag settings op expected target reference).
Proof.
  intros w. destruct (write_tag_writes settings expected target op reference w) as (Hw & _).
  unfold same_db, stable. by rewrite Hw.
Qed.

Lemma rollback_scale_step i e n : step_ok (rollback_scale exe i e n).
Proof.
  unfold rollback_scale, perform_rollback, insert_execution, report_rollback, finished. evolve.
Qed.
Lemma rollback_scale_executions i e n :
  same_ok chaos_executions (rollback_scale exe i e n).
Proof.
  unfold rollback_scale, perform_rollback, insert_execution, report_rollback. evolve.
Qed.
Lemma rollback_scale_incidents i e n : same_ok incidents (rollback_scale exe i e n).
Proof.
  unfold rollback_scale, perform_rollback, insert_execution, report_rollback. evolve.
Qed.

Lemma verify_signals_step api plan before : step_ok (verify_signals api plan before).
Proof.
  unfold verify_signals, cluster_signals, telemetry_signals, health_signals, scalar_query,
    query_range, http_get, attempt. evolve.
Qed.
Lemma verify_signals_same {A} (f : Database → A) api plan before :
  same_ok f (verify_signals api plan before).
Proof.
  unfold verify_signals, cluster_signals, telemetry_signals, health_signals, scalar_query,
    query_range, http_get, attempt. evolve.
Qed.

Lemma change_state_executions i s a ty d f :
  same_ok chaos_executions (change_incident_state settings i s a ty d f).
Proof.
  unfold_change. repeat first [ evolve_step | solve [eauto with cw_pres]
    | progress unfold queue_incident_notification, queue, queue_channel, ensure_runtime_approval ].
Qed.
Hint Resolve change_state_executions : cw_pres.

Lemma persist_verification_step i r n e s : step_ok (persist_verification settings i r n e s).
Proof.
  unfold persist_verification, insert_verification, apply_verification, withhold_rollback. evolve.
Qed.
Lemma persist_verification_executions i r n e s :
  same_ok chaos_executions (persist_verification settings i r n e s).
Proof.
  unfold persist_verification, insert_verification, apply_verification, withhold_rollback. evolve.
Qed.
(** *** Quarantines *)

(** The executions of scenarios, in the session and durable, are those of before. *)
Definition kept_executions : relation (World X) := λ w w',
  w'.(work).(chaos_executions) = w.(work).(chaos_executions) ∧
  (w'.(committed).(chaos_executions) = w.(committed).(chaos_executions) ∨
   w'.(committed).(chaos_executions) = w.(work).(chaos_executions)).
#[global] Instance kept_executions_evolution : Evolution kept_executions.
Proof.
  split; [intros w; split; auto|].
  intros w1 w2 w3 [W1 C1] [W2 C2]. split; [congruence|].
  destruct C1, C2; intuition congruence.
Qed.

Lemma kept_same {A} (m : M (World X) A) :
  same_ok chaos_executions m → evolves same_committed m → evolves kept_executions m.
Proof.
  intros H1 H2 w. split; [apply H1|]. left. specialize (H2 w).
  unfold same_committed, stable in H2. by rewrite H2.
Qed.
Lemma commit_kept : evolves kept_executions commit.
Proof. intros w. split; [done|by right]. Qed.
Hint Resolve commit_kept : cw_pres.
Hint Extern 3 (evolves kept_executions _) => apply kept_same; solve [evolve] : cw_pres.
Hint Extern 1 (evolves _ (wait_until _ _ _ _)) => apply wait_evolves; [tc_solve|..] : cw_pres.

Lemma containment_round_step event n : step_ok (containment_round exe event n).
Proof. request_stages. evolve. Qed.
Lemma release_round_step event i n : step_ok (release_round exe event i n).
Proof. request_stages. evolve. Qed.
Hint Resolve containment_round_step release_round_step : cw_pres.

Lemma notify_chaos e i d :
  same_ok chaos_executions (queue_incident_notification settings e i d).
Proof. unfold queue_incident_notification, queue, queue_channel. evolve. Qed.
Hint Resolve notify_chaos containment_round_same release_round_same : cw_pres.

Lemma apply_quarantine_kept event actor :
  evolves kept_executions (apply_quarantine settings opa exe event actor).
Proof. unfold apply_quarantine, start_quarantine, persist_decision. request_stages. evolve. Qed.
Lemma remove_quarantine_kept event actor :
  evolves kept_executions (remove_quarantine settings opa exe event actor).
Proof. unfold remove_quarantine, start_removal, persist_decision. request_stages. evolve. Qed.

(** *** Alerts *)

Hint Resolve collect_evidence_step no_runbook_step select_runbook_step propose_action_step
  ask_policy_step carry_out_step : cw_pres.
Lemma process_alert_step evidence loader i a :
  step_ok (process_alert settings exe evidence loader opa i a).
Proof. unfold process_alert, follow_runbook. evolve. Qed.

Lemma correlate_step policy i r actor : step_ok (correlate_and_store policy i r actor).
Proof. unfold correlate_and_store, correlate, read_commit, compare_commits, request. evolve. Qed.
Lemma correlate_executions policy i r actor :
  same_ok chaos_executions (correlate_and_store policy i r actor).
Proof. unfold correlate_and_store, correlate, read_commit, compare_commits, request. evolve. Qed.

Lemma find_similar_session_step q x n c : step_ok (find_similar q x n c).
Proof. unfold find_similar. evolve. Qed.
Lemma find_similar_same {A} (f : Database → A) q x n : same_ok f (find_similar q x n None).
Proof. unfold find_similar. evolve. Qed.

Lemma claim_chaos i p rb t n : same_ok chaos_executions (claim_action_execution i p rb t n).
Proof.
  unfold claim_action_execution, claim_new, require_unclaimed, claim_approval, insert_execution.
  evolve.
Qed.
Lemma finish_chaos i e ok r c :
  same_ok chaos_executions (finish_action_execution i e ok r c).
Proof. unfold finish_action_execution. evolve. Qed.
Hint Resolve claim_chaos finish_chaos : cw_pres.
Lemma run_action_chaos i action t e :
  same_ok chaos_executions (run_action settings exe i action t e).
Proof.
  destruct action; simpl; try solve [evolve].
  apply evolves_bind; [apply _|apply write_tag_same|intros ?; evolve].
Qed.
Hint Resolve run_action_chaos : cw_pres.
Lemma process_alert_executions evidence loader i a :
  same_ok chaos_executions (process_alert settings exe evidence loader opa i a).
Proof.
  unfold process_alert, follow_runbook, collect_evidence, observe_target, collect, evidence_queries,
    metric_queries, metric_snapshot, telemetry_snapshot, query_range, loki_query_range,
    tempo_search, http_get, attempt, no_runbook, select_runbook, propose_action, ask_policy,
    carry_out, execute_action, deny, advance, processing_result, audit_worker, audit_action,
    kubernetes_snapshot. simpl. evolve.
Qed.
End operations.
#[export] Hint Resolve write_tag_step write_tag_same rollback_scale_step rollback_scale_executions
  rollback_scale_incidents verify_signals_step verify_signals_same persist_verification_step
  persist_verification_executions apply_quarantine_kept remove_quarantine_kept
  process_alert_step process_alert_executions correlate_step correlate_executions
  find_similar_session_step find_similar_same commit_kept : cw_pres.
#[export] Hint Extern 3 (evolves kept_executions _) => apply kept_same; solve [evolve] : cw_pres.
