(* ===== verification/LabRuns.v ===== *)
(** * What the Incident Lab does

    Runs of the handlers of [IncidentLab] and [Reconcile]: what a scenario may create,
    how an execution ends, and what no sequence of handlers can do to one. *)

From S2P Require Import Prelude PyFloat Json JsonParse Effects Rbac Actions StateMachine Models World.
From S2P Require Import Config AuditLog History Memory Incidents Kubernetes Opa Approvals Execution.
From S2P Require Import Mutations Verification Runbooks Alerts Telemetry GitOps Reliability Security.
From S2P Require Import Quarantine GitHubPolicy GitHub Url FinOps FinOpsApi Scenarios IncidentLab.
From S2P Require Import Reconcile LabFrames.

(** ** The life of an execution *)

(** What a scenario execution was asked to do. *)
Definition chaos_identity (e : ChaosExecution) :=
  (e.(chx_id), e.(chx_created_at), e.(chx_scenario_id), e.(chx_requested_by),
   e.(chx_target_namespace), e.(chx_target_selector), e.(chx_expected_alert),
   e.(chx_expected_runbook), e.(chx_max_runtime_seconds), e.(chx_cleanup_deadline)).

(** Pending, running, stopping, ended. *)
Definition experiment_rank (s : ExperimentStatus) : Z :=
  match s with
  | EXPERIMENT_PENDING => 0 | EXPERIMENT_RUNNING => 1 | EXPERIMENT_STOPPING => 2 | _ => 3
  end.

Lemma experiment_active_rank s : experiment_active s = (experiment_rank s <? 3).
Proof. by destruct s. Qed.

(** An execution moves forward, and one that ended is left as it is. *)
Record chaos_progress (e e' : ChaosExecution) : Prop := {
  prg_identity : chaos_identity e' = chaos_identity e;
  prg_forward : experiment_rank e.(chx_status) ≤ experiment_rank e'.(chx_status);
  prg_ended : experiment_active e.(chx_status) = false → e' = e;
}.
#[export] Instance chaos_progress_preorder : PreOrder chaos_progress.
Proof.
  split; [done|]. intros e1 e2 e3 [I1 F1 E1] [I2 F2 E2]. split; [congruence|lia|].
  intros H. pose proof (E1 H) as ->. auto.
Qed.

(** One change of the table: a scenario that has no active execution gets one, or an
    execution moves forward. *)
Inductive lab_change : relation (gmap uuid ChaosExecution) :=
| lab_open t id e :
    t !! id = None → select_one (occupies e.(chx_scenario_id)) t = None →
    experiment_active e.(chx_status) = true → lab_change t (<[id := e]> t)
| lab_move t id e e' :
    t !! id = Some e → chaos_progress e e' → lab_change t (<[id := e']> t).

(** No scenario has two active executions. *)
Definition one_active (t : gmap uuid ChaosExecution) : Prop := ∀ i j e f,
  t !! i = Some e → t !! j = Some f → e.(chx_scenario_id) = f.(chx_scenario_id) →
  experiment_active e.(chx_status) = true → experiment_active f.(chx_status) = true → i = j.

Lemma chaos_progress_active e e' :
  chaos_progress e e' → experiment_active e'.(chx_status) = true →
  experiment_active e.(chx_status) = true ∧ e'.(chx_scenario_id) = e.(chx_scenario_id).
Proof.
  intros [Hid Hf _]. rewrite !experiment_active_rank, !Z.ltb_lt. intros. split; [lia|].
  by injection Hid.
Qed.

Lemma lab_change_keeps t t' :
  lab_change t t' → table_extends chaos_progress t t' ∧ (one_active t → one_active t').
Proof.
  intros [t0 id e Hn Hfree Ha|t0 id e e' He Hp]; split.
  - by apply table_extends_insert; [apply _|].
  - intros Ho i j e1 e2 H1 H2 Hs A1 A2. rewrite select_one_None in Hfree.
    apply lookup_insert_Some in H1 as [[<- <-]|[Hi H1]];
    apply lookup_insert_Some in H2 as [[<- <-]|[Hj H2]]; [done|..|by eapply Ho].
    + specialize (Hfree _ _ H2). unfold occupies in Hfree.
      by rewrite <- Hs, String.eqb_refl, A2 in Hfree.
    + specialize (Hfree _ _ H1). unfold occupies in Hfree.
      by rewrite Hs, String.eqb_refl, A1 in Hfree.
  - intros i f Hf. destruct (decide (id = i)) as [<-|Hne].
    + exists e'. rewrite lookup_insert_eq. by simplify_eq.
    + exists f. rewrite lookup_insert_ne by done. split; [done|reflexivity].
  - intros Ho i j e1 e2 H1 H2 Hs A1 A2.
    apply lookup_insert_Some in H1 as [[<- <-]|[Hi H1]];
    apply lookup_insert_Some in H2 as [[<- <-]|[Hj H2]]; [done|..|by eapply Ho].
    + apply (chaos_progress_active _ _ Hp) in A1 as [A1 E].
      apply (Ho id j e e2); [done..|congruence|done|done].
    + apply (chaos_progress_active _ _ Hp) in A2 as [A2 E].
      apply (Ho i id e1 e); [done..|congruence|done|done].
Qed.

Lemma lab_changes_keep t t' :
  rtc lab_change t t' → table_extends chaos_progress t t' ∧ (one_active t → one_active t').
Proof.
  induction 1 as [t|t1 t2 t3 H _ [IH1 IH2]]; [split; [reflexivity|done]|].
  apply lab_change_keeps in H as [H1 H2]. split; [by etrans|auto].
Qed.

(** ** A table up to the details of one execution *)

Lemma details_only e f :
  set_chx_details [] f = set_chx_details [] e → f = set_chx_details f.(chx_details) e.
Proof.
  intros H. assert (set_chx_details f.(chx_details) (set_chx_details [] f) =
    set_chx_details f.(chx_details) (set_chx_details [] e)) as E by (f_equal; exact H).
  change (set_chx_details f.(chx_details) f = set_chx_details f.(chx_details) e) in E.
  rewrite <- E. by destruct f.
Qed.

Definition bare (id : uuid) (t : gmap uuid ChaosExecution) : gmap uuid ChaosExecution :=
  alter (set_chx_details []) id t.

Lemma bare_details id d t : bare id (alter (set_chx_details d) id t) = bare id t.
Proof. unfold bare. rewrite alter_alter_eq. by apply alter_ext. Qed.

Lemma bare_added id d t : bare id (alter (add_details d) id t) = bare id t.
Proof. unfold bare. rewrite alter_alter_eq. by apply alter_ext. Qed.

(** The row of a table that is [t] up to details. *)
Lemma bare_row id t u e :
  bare id u = bare id t → t !! id = Some e → ∃ d, u = <[id := set_chx_details d e]> t.
Proof.
  intros Hb He. assert (∃ f, u !! id = Some f ∧ set_chx_details [] f = set_chx_details [] e)
    as (f & Hf & Hfe).
  { assert (bare id u !! id = bare id t !! id) as Hl by by rewrite Hb.
    unfold bare in Hl. rewrite !lookup_alter_eq, He in Hl.
    destruct (u !! id) as [f|] eqn:Hf; [|done]. exists f. split; [done|]. cbn [fmap option_fmap option_map] in Hl. congruence. }
  exists f.(chx_details). apply map_eq. intros j. destruct (decide (id = j)) as [<-|Hne].
  - rewrite lookup_insert_eq, Hf. f_equal. by apply details_only.
  - rewrite lookup_insert_ne by done.
    assert (bare id u !! j = bare id t !! j) as Hl by by rewrite Hb.
    unfold bare in Hl. by rewrite !lookup_alter_ne in Hl.
Qed.

Section sessions.
Context {X : Type} (id : uuid).

(** Only the details of the execution change, in the session and in what is durable. *)
Definition kept_but_details : relation (World X) := λ w w',
  bare id w'.(work).(chaos_executions) = bare id w.(work).(chaos_executions) ∧
  (bare id w'.(committed).(chaos_executions) = bare id w.(committed).(chaos_executions) ∨
   bare id w'.(committed).(chaos_executions) = bare id w.(work).(chaos_executions)).
#[global] Instance kept_but_details_evolution : Evolution kept_but_details.
Proof.
  split; [intros w; split; auto|].
  intros w1 w2 w3 [W1 C1] [W2 C2]. split; [congruence|]. destruct C1, C2; intuition congruence.
Qed.

Lemma kept_details {A} (m : M (World X) A) :
  evolves kept_executions m → evolves kept_but_details m.
Proof.
  intros H w. destruct (H w) as [Hw Hc]. split; [by rewrite Hw|].
  destruct Hc as [->| ->]; auto.
Qed.

Lemma add_details_kept d : evolves kept_but_details (set_chaos_execution id (add_details d)).
Proof. intros w. split; [apply bare_added|by left]. Qed.

(** The session works on [t]; what is durable is [t0] or [t], up to details. *)
Definition at_table (t0 t : gmap uuid ChaosExecution) (w : World X) : Prop :=
  bare id w.(work).(chaos_executions) = bare id t ∧
  (bare id w.(committed).(chaos_executions) = bare id t0 ∨
   bare id w.(committed).(chaos_executions) = bare id t).

Lemma at_table_kept t0 t w w' : kept_but_details w w' → at_table t0 t w → at_table t0 t w'.
Proof.
  intros [Hw Hc] [H1 H2]. split; [congruence|]. destruct Hc as [->| ->]; [done|by right].
Qed.

Lemma at_table_run {A} (m : M (World X) A) t0 t w r w' :
  evolves kept_but_details m → m w = (r, w') → at_table t0 t w → at_table t0 t w'.
Proof. intros Hm Hr. apply at_table_kept. by apply (evolves_run _ _ _ _ _ Hm Hr). Qed.
End sessions.
#[export] Hint Resolve add_details_kept : cw_pres.
#[export] Hint Extern 4 (evolves (kept_but_details _) _) =>
  apply kept_details; solve [evolve] : cw_pres.

Section session.
Context {X : Type}.

(** A session: what the handler did, then a rollback. *)
Lemma with_session_run {A} (m : M (World X) A) w r w' :
  with_session m w = (r, w') →
  ∃ w1, m w = (r, w1) ∧ w' = set_work w1.(committed) w1.
Proof.
  unfold with_session, in_session, catch, bind. intros Hrun.
  destruct (m w) as [[a|e] w1] eqn:Hm; injection Hrun as <- <-; by eexists.
Qed.
End session.

(** ** What the handlers do to an execution they follow *)

Section handlers.
Context {X : Type} `{!Runtime X, !KubeApi X, !Pydantic, !PolicyServer X, !TelemetryServer X}.
Context `{!GitRepository X, !GitHubServer X, !TaskResults X} {urls : UrlLibrary}.
Context (settings : Settings) (exe : Executor) (opa : OPAClient) (loader : RunbookLoader).
Context (id : uuid).
Abbreviation keeping m := (evolves (kept_executions (X:=X)) m).
Abbreviation kept_but m := (evolves (kept_but_details (X:=X) id) m).

Lemma restore_scale_kept ns i : keeping (restore_temporary_scale settings exe ns i).
Proof. unfold restore_temporary_scale, undo_scale, temporary_scale. evolve. Qed.
Hint Resolve restore_scale_kept : cw_pres.

Lemma cleanup_chaos_kept ns k n : keeping (cleanup_chaos exe ns k n).
Proof. unfold cleanup_chaos. evolve. Qed.
Hint Resolve cleanup_chaos_kept : cw_pres.

Lemma cleanup_kept : kept_but (cleanup settings exe id).
Proof. unfold cleanup, ensure_known_good. evolve. Qed.

Lemma go_on_kept n m : keeping (go_on id n m).
Proof. unfold go_on, stream_execution, publish_execution. evolve. Qed.
Hint Resolve go_on_kept : cw_pres.

Lemma verify_attempt_kept e i a d n k :
  keeping (Reconcile.verify_attempt settings exe e i a d n k).
Proof. unfold Reconcile.verify_attempt, undo_failed_scale. evolve. Qed.
Hint Resolve verify_attempt_kept : cw_pres.

Lemma verify_scenario_kept i a now : kept_but (verify_scenario settings exe id i a now).
Proof. unfold verify_scenario. evolve. Qed.

Lemma remove_containment_kept event :
  keeping (remove_security_containment settings exe opa event).
Proof. unfold remove_security_containment. evolve. Qed.

Lemma contained_kept event : kept_but (contained settings exe opa id event).
Proof. unfold contained. evolve. Qed.
Lemma released_kept event : kept_but (released settings exe opa id event).
Proof. unfold released. evolve. Qed.

Lemma undo_execution_kept operator e : kept_but (undo_execution settings exe opa operator id e).
Proof. unfold undo_execution, remove_resource, lift_containment, ensure_known_good. evolve. Qed.

(** *** How a round ends *)

Lemma query_then {A B} (f : Database → A) (k : A → M (World X) B) w :
  bind (query f) k w = k (f w.(work)) w.
Proof. done. Qed.
Lemma ret_eq {A} (a : A) (w w' : World X) r : ret a w = (r, w') → r = Ok a ∧ w' = w.
Proof. by intros [= <- <-]. Qed.

Lemma assign_then {R A} upd i (f : R → R) (k : unit → M (World X) A) w :
  bind (assign upd i f) k w = k tt (set_work (upd (λ t, alter f i t) w.(work)) w).
Proof. done. Qed.

Context (t : gmap uuid ChaosExecution) (e : ChaosExecution) (He : t !! id = Some e).

(** The round of an execution [e] of the table [t]: a round that fails leaves only
    details behind. *)
Definition round (P : ReconcileResult → ChaosExecution → Database → Prop)
    (r : res ReconcileResult) (w : World X) : Prop :=
  ∃ e', w.(committed).(chaos_executions) = <[id := e']> t ∧
    match r with
    | Ok a => P a e' w.(committed)
    | Raise _ => ∃ d, e' = set_chx_details d e
    end.

(** The execution goes on, or it ended with a status. *)
Definition goes_on (a : ReconcileResult) (e' : ChaosExecution) : Prop :=
  a.(rec_terminal) = false ∧ a.(rec_status) = e.(chx_status) ∧ ∃ d, e' = set_chx_details d e.
Definition ended (now : datetime) (status : ExperimentStatus) (a : ReconcileResult)
    (e' : ChaosExecution) : Prop :=
  a.(rec_terminal) = true ∧ a.(rec_status) = status ∧
  ∃ d0 cleaned_up reason d, e' = concluded status now cleaned_up reason d (set_chx_details d0 e).

Lemma round_weaken (P Q : ReconcileResult → ChaosExecution → Database → Prop) r w :
  (∀ a e' db, P a e' db → Q a e' db) → round P r w → round Q r w.
Proof. intros HPQ (e' & Hw & Hr). exists e'. split; [done|]. destruct r; auto. Qed.

(** Up to details, the session still works on [t]. *)
Abbreviation on_table := (at_table (X:=X) id t t).

Lemma on_table_round P x w : on_table w → round P (Raise x) w.
Proof.
  intros [_ Hc]. assert (bare id w.(committed).(chaos_executions) = bare id t) as Hb
    by (by destruct Hc).
  destruct (bare_row _ _ _ _ Hb He) as [d Hd]. exists (set_chx_details d e).
  split; [done|by exists d].
Qed.

Lemma on_table_work w : on_table w → ∃ d, w.(work).(chaos_executions) = <[id := set_chx_details d e]> t.
Proof. intros [Hb _]. by apply bare_row. Qed.

(** A prefix that changes only details. *)
Lemma round_bind {A} (m : M (World X) A) k P w r w' :
  kept_but m → on_table w → bind m k w = (r, w') →
  (∀ a w1, m w = (Ok a, w1) → on_table w1 → k a w1 = (r, w') → round P r w') → round P r w'.
Proof.
  intros Hm Ht Hrun Hk. unfold bind in Hrun. destruct (m w) as [[a|x] w1] eqn:E;
    pose proof (at_table_run _ _ _ _ _ _ _ Hm E Ht) as Ht1.
  - by eapply Hk.
  - injection Hrun as <- <-. by apply on_table_round.
Qed.

Lemma conclude_run status now c reason d message w r w' :
  on_table w → conclude id status now c reason d message w = (r, w') →
  r = Ok (reconciled true status message) ∧ w'.(committed) = w'.(work) ∧
  w'.(work).(incidents) = w.(work).(incidents) ∧
  w'.(work).(security_events) = w.(work).(security_events) ∧
  ∃ d0, w'.(work).(chaos_executions)
        = <[id := concluded status now c reason d (set_chx_details d0 e)]> t.
Proof.
  intros [d0 Hd]%on_table_work. unfold conclude. rewrite assign_then.
  set (w1 := set_work _ _). intros Hrun.
  assert (w1.(work).(chaos_executions)
          = <[id := concluded status now c reason d (set_chx_details d0 e)]> t) as H1.
  { subst w1. simpl. rewrite Hd, (alter_alt_Some _ _ _ _ (lookup_insert_eq _ _ _)).
    by rewrite insert_insert_eq. }
  assert (∃ w2, stream_execution id w1 = (Ok tt, w2) ∧
    w2.(work).(chaos_executions) = w1.(work).(chaos_executions) ∧
    w2.(work).(incidents) = w1.(work).(incidents) ∧
    w2.(work).(security_events) = w1.(work).(security_events)) as (w2 & Hs & Hc & Hi & Hv).
  { unfold stream_execution. rewrite (bind_step _ _ w1 (concluded status now c reason d
      (set_chx_details d0 e)) w1); [by eexists; split_and!|].
    apply deref_ok. by rewrite H1, lookup_insert_eq. }
  rewrite (bind_step _ _ _ _ _ Hs) in Hrun. injection Hrun as <- <-. simpl.
  rewrite Hc, Hi, Hv. split_and!; try done. by exists d0.
Qed.

Lemma goes_on_round a w :
  on_table w → a.(rec_terminal) = false → a.(rec_status) = e.(chx_status) →
  round (λ a e' _, goes_on a e') (Ok a) w.
Proof.
  intros Ht Hf Hs. destruct (on_table_round (λ _ _ _, True) (PyError "" "") w Ht) as (e' & Hw & d & ->).
  eexists. split; [exact Hw|]. split_and!; [done..|by exists d].
Qed.

Lemma go_on_run n m w a w' :
  on_table w → go_on id n m w = (Ok a, w') →
  a.(rec_terminal) = false ∧ a.(rec_status) = e.(chx_status).
Proof.
  intros Ht Hrun. unfold go_on in Hrun.
  apply bind_ok in Hrun as (u & w1 & Hs & Hrun). apply bind_ok in Hrun as (u' & w2 & Hc & Hrun).
  injection Hc as _ <-. apply bind_ok in Hrun as (f & w3 & [Hf ->]%deref_ok & Hrun).
  injection Hrun as <- <-. split; [done|]. simpl in *.
  assert (on_table w1) as [d Hd]%on_table_work
    by (eapply at_table_run; [|exact Hs|exact Ht];
        unfold stream_execution, publish_execution; evolve).
  rewrite Hd, lookup_insert_eq in Hf. by injection Hf as <-.
Qed.

Lemma go_on_round n m w r w' :
  on_table w → go_on id n m w = (r, w') → round (λ a e' _, goes_on a e') r w'.
Proof.
  intros Ht Hrun.
  pose proof (at_table_run _ _ _ _ _ _ _ (kept_details id _ (go_on_kept n m)) Hrun Ht) as Ht'.
  destruct r as [a|x]; [|by apply on_table_round].
  destruct (go_on_run _ _ _ _ _ Ht Hrun). by apply goes_on_round.
Qed.

(** *** A reliability scenario *)

Lemma cleanup_incidents : evolves (same_db (X:=X) incidents) (cleanup settings exe id).
Proof.
  unfold cleanup, ensure_known_good, restore_temporary_scale, undo_scale, temporary_scale,
    cleanup_chaos. evolve.
Qed.

(** An incident in one of these states. *)
Definition incident_in (i : uuid) (states : list IncidentState) (db : Database) : Prop :=
  ∃ inc, db.(incidents) !! i = Some inc ∧ inc.(inc_state) ∈ states.

Definition settled (i : uuid) (now : datetime) (a : ReconcileResult) (e' : ChaosExecution)
    (db : Database) : Prop :=
  goes_on a e' ∨ (ended now EXPERIMENT_SUCCEEDED a e' ∧ incident_in i [RESOLVED] db) ∨
  (ended now EXPERIMENT_FAILED a e' ∧ incident_in i [BLOCKED; ESCALATED] db).

(** A conclusion after the cleanup. *)
Lemma clean_conclude_round (P : ReconcileResult → ChaosExecution → Database → Prop)
    status now reason d message w r w' :
  on_table w →
  (∀ a e' db, ended now status a e' → db.(incidents) = w.(work).(incidents) → P a e' db) →
  (do! cleanup settings exe id; conclude id status now true reason d message) w = (r, w') →
  round P r w'.
Proof.
  intros Ht HP Hrun. eapply round_bind; [apply cleanup_kept|exact Ht|exact Hrun|].
  intros [] w1 Hclean Ht1 Hend.
  apply (conclude_run _ _ _ _ _ _ _ _ _ Ht1) in Hend as (-> & Hc & Hi & _ & d0 & Hchaos).
  eexists. rewrite Hc. split; [exact Hchaos|]. apply HP.
  - split_and!; [done|done|]. by repeat eexists.
  - rewrite Hi. by apply (evolves_run _ _ _ _ _ cleanup_incidents Hclean).
Qed.

Lemma settle_round i now w r w' :
  on_table w → settle settings exe id i now w = (r, w') → round (settled i now) r w'.
Proof.
  intros Ht Hrun. unfold settle in Hrun.
  eapply round_bind; [|exact Ht|exact Hrun|]; [evolve|].
  intros inc w1 [Hinc ->]%deref_ok _ Hk.
  assert (∀ db, db.(incidents) = w.(work).(incidents) → incident_in i [inc.(inc_state)] db) as Hin.
  { intros db Hdb. exists inc. rewrite Hdb. split; [done|by left]. }
  destruct (inc_state inc) eqn:Hs;
    try (apply (round_weaken (λ a e' _, goes_on a e')); [by intros; left|by eapply go_on_round]).
  - eapply clean_conclude_round; [exact Ht| |exact Hk].
    intros a e' db Ha Hdb. right; left. split; [done|by apply Hin].
  - eapply clean_conclude_round; [exact Ht| |exact Hk].
    intros a e' db Ha Hdb. right; right. split; [done|].
    destruct (Hin db Hdb) as (inc' & Hl & ?). exists inc'. split; [done|set_solver].
  - eapply clean_conclude_round; [exact Ht| |exact Hk].
    intros a e' db Ha Hdb. right; right. split; [done|].
    destruct (Hin db Hdb) as (inc' & Hl & ?). exists inc'. split; [done|set_solver].
Qed.

(** A verification that ends the round leaves the execution as it goes on. *)
Lemma verify_scenario_run i al now w a w' :
  on_table w → verify_scenario settings exe id i al now w = (Ok (Some a), w') →
  a.(rec_terminal) = false ∧ a.(rec_status) = e.(chx_status).
Proof.
  intros Ht Hrun. destruct (on_table_work w Ht) as [d Hd]. unfold verify_scenario in Hrun.
  apply bind_ok in Hrun as (f & w1 & [Hf ->]%deref_ok & Hrun).
  rewrite Hd, lookup_insert_eq in Hf. injection Hf as <-.
  apply bind_ok in Hrun as (name & w1 & [_ ->]%lift_ok & Hrun).
  apply bind_ok in Hrun as (dep & w1 & Hdep & Hrun).
  assert (on_table w1) as Ht1 by (eapply at_table_run; [|exact Hdep|exact Ht]; evolve).
  destruct (_ && _) in Hrun.
  - rewrite assign_then in Hrun. apply bind_ok in Hrun as (b & w2 & Hgo & [[= ->] _]%ret_ok).
    eapply go_on_run; [|exact Hgo]. by eapply at_table_kept; [apply add_details_kept|].
  - apply bind_ok in Hrun as (n & w2 & Hn & Hrun). injection Hn as _ <-.
    apply bind_ok in Hrun as (c & w2 & Hc & Hrun). injection Hc as _ <-.
    destruct (_ && _) in Hrun; [by apply ret_ok in Hrun as [[= ->] _]|].
    by apply bind_ok in Hrun as (u & w2 & _ & [? _]%ret_ok).
Qed.

(** An incident the alert the execution waits for is linked to. *)
Definition correlated (db : Database) (i : uuid) : Prop :=
  ∃ k al, db.(alert_records) !! k = Some al ∧ expected_alert e al = true ∧
          al.(alr_incident_id) = Some i.

Definition reliability_outcome (before : Database) (now : datetime) (a : ReconcileResult)
    (e' : ChaosExecution) (db : Database) : Prop :=
  if e.(chx_cleanup_deadline) <=? now then ended now EXPERIMENT_TIMED_OUT a e'
  else goes_on a e' ∨ ∃ i, correlated before i ∧ settled i now a e' db.

Lemma reliability_round now w r w' :
  on_table w → reconcile_reliability settings exe id e now w = (r, w') →
  round (reliability_outcome w.(work) now) r w'.
Proof.
  intros Ht Hrun. unfold reconcile_reliability in Hrun. unfold reliability_outcome.
  destruct (_ <=? now); [by eapply clean_conclude_round; [exact Ht| |exact Hrun]|].
  assert (∀ m, r = Ok (reconciled false e.(chx_status) m) → w' = w →
    round (λ a e' db, goes_on a e' ∨ ∃ i, correlated w.(work) i ∧ settled i now a e' db) r w')
    as Hwait.
  { intros m -> ->. apply (round_weaken (λ a e' _, goes_on a e')); [by intros; left|].
    by apply goes_on_round. }
  rewrite query_then in Hrun; cbn beta zeta in Hrun.
  destruct (latest alr_last_received_at _ _) as [al|] eqn:Hal; [|by eapply Hwait; injection Hrun].
  destruct (alr_incident_id al) as [i|] eqn:Hi; [|by eapply Hwait; injection Hrun].
  rewrite query_then in Hrun; cbn beta zeta in Hrun.
  destruct (_ !! i) as [inc|]; [|by eapply Hwait; injection Hrun].
  apply latest_Some in Hal as (Hin & Hexp & _). apply elem_of_rows in Hin as [k Hk].
  assert (correlated w.(work) i) as Hcor by (by exists k, al).
  rewrite assign_then in Hrun. set (w1 := set_work _ _) in Hrun.
  assert (on_table w1) as Ht1 by (by eapply at_table_kept; [apply add_details_kept|]).
  eapply round_bind; [|exact Ht1|exact Hrun|].
  { destruct (bool_decide _); [apply verify_scenario_kept|evolve]. }
  intros [a|] w2 Hv Ht2 Hend; cbn beta iota in Hend.
  - apply ret_eq in Hend as [-> ->]. apply (round_weaken (λ a e' _, goes_on a e')); [by intros; left|].
    destruct (bool_decide _); [|done].
    destruct (verify_scenario_run _ _ _ _ _ _ Ht1 Hv). by apply goes_on_round.
  - apply (round_weaken (settled i now)); [|by eapply settle_round].
    intros a e' db Hset. right. by exists i.
Qed.

(** *** A security scenario *)

(** The containment of the event was lifted and its incident resolved. *)
Definition released_and_resolved (event_id : uuid) (db : Database) : Prop :=
  (∃ ev, db.(security_events) !! event_id = Some ev ∧ ev.(sev_containment_status) = REMOVED) ∧
  linked_incident event_id (λ s, bool_decide (s = RESOLVED)) db = true.

Definition settled_event (event_id : uuid) (now : datetime) (a : ReconcileResult)
    (e' : ChaosExecution) (db : Database) : Prop :=
  goes_on a e' ∨ ended now EXPERIMENT_FAILED a e' ∨
  (ended now EXPERIMENT_SUCCEEDED a e' ∧ released_and_resolved event_id db).

(** A conclusion. *)
Lemma conclude_round (P : ReconcileResult → ChaosExecution → Database → Prop)
    status now c reason d message w r w' :
  on_table w →
  (∀ a e' db, ended now status a e' → db.(incidents) = w.(work).(incidents) →
     db.(security_events) = w.(work).(security_events) → P a e' db) →
  conclude id status now c reason d message w = (r, w') → round P r w'.
Proof.
  intros Ht HP Hrun.
  apply (conclude_run _ _ _ _ _ _ _ _ _ Ht) in Hrun as (-> & Hc & Hi & Hv & d0 & Hchaos).
  eexists. rewrite Hc. split; [exact Hchaos|]. apply HP; [|done|done].
  split_and!; [done|done|]. by repeat eexists.
Qed.

(** A conclusion once the containment was removed, or could not be. *)
Lemma remove_conclude_round (P : ReconcileResult → ChaosExecution → Database → Prop)
    event_id status now reason (d : bool → dict) message w r w' :
  on_table w → (∀ a e' db, ended now status a e' → P a e' db) →
  (let! c := remove_security_containment settings exe opa event_id in
   conclude id status now c reason (d c) message) w = (r, w') → round P r w'.
Proof.
  intros Ht HP Hrun.
  eapply round_bind; [apply kept_details, remove_containment_kept|exact Ht|exact Hrun|].
  intros c w1 _ Ht1 Hend. eapply conclude_round; [exact Ht1| |exact Hend]. auto.
Qed.

Lemma settle_security_round event_id now w r w' :
  on_table w → settle_security settings exe opa id event_id now w = (r, w') →
  round (settled_event event_id now) r w'.
Proof.
  intros Ht Hrun. unfold settle_security in Hrun.
  eapply round_bind; [|exact Ht|exact Hrun|]; [evolve|].
  intros ev w1 [Hev ->]%deref_ok _ Hk. rewrite !query_then in Hk.
  destruct (bool_decide (sev_containment_status ev = REMOVED) && _) eqn:Hres.
  - apply andb_true_iff in Hres as [Hrem%bool_decide_eq_true Hres].
    eapply conclude_round; [exact Ht| |exact Hk]. intros a e' db Ha Hi Hv. right; right.
    split; [done|]. split; [exists ev; by rewrite Hv|].
    unfold linked_incident in *. by rewrite Hi, Hv.
  - destruct (_ || _).
    + eapply (remove_conclude_round _ event_id _ _ _
        (λ c, [("current_step", JStr "FAILED"); ("cleanup_verified", JBool c)]));
        [exact Ht| |exact Hk]. by intros; right; left.
    + apply (round_weaken (λ a e' _, goes_on a e')); [by intros; left|by eapply go_on_round].
Qed.

Definition event_outcome (event_id : uuid) (now : datetime) (a : ReconcileResult)
    (e' : ChaosExecution) (db : Database) : Prop :=
  if e.(chx_cleanup_deadline) <=? now then ended now EXPERIMENT_TIMED_OUT a e'
  else settled_event event_id now a e' db.

Lemma follow_event_round event_id now w r w' :
  on_table w →
  follow_event settings exe opa id event_id e.(chx_cleanup_deadline) now w = (r, w') →
  round (event_outcome event_id now) r w'.
Proof.
  intros Ht Hrun. unfold follow_event in Hrun. unfold event_outcome.
  eapply round_bind; [|exact Ht|exact Hrun|]; [evolve|].
  intros ev w1 [Hev ->]%deref_ok _ Hk. cbn beta zeta in Hk. rewrite assign_then in Hk.
  set (w1 := set_work _ _) in Hk.
  assert (on_table w1) as Ht1 by (by eapply at_table_kept; [apply add_details_kept|]).
  destruct (_ <=? now).
  - eapply (remove_conclude_round _ event_id _ _ _
      (λ c, [("current_step", JStr "TIMED_OUT"); ("cleanup_verified", JBool c)]));
      [exact Ht1| |exact Hk]. auto.
  - destruct (bool_decide _).
    + apply (round_weaken (λ a e' _, goes_on a e')); [by intros; left|]. unfold contained in Hk.
      eapply round_bind; [|exact Ht1|exact Hk|]; [evolve|]. intros q w2 _ Ht2 Hk2.
      eapply round_bind; [|exact Ht2|exact Hk2|]; [evolve|]. intros c w3 _ Ht3 Hk3.
      eapply round_bind; [|exact Ht3|exact Hk3|]; [evolve|]. intros u w4 _ Ht4 Hk4.
      eapply go_on_round; [exact Ht4|exact Hk4].
    + eapply round_bind; [|exact Ht1|exact Hk|].
      { apply evolves_when; [tc_solve|apply released_kept]. }
      intros ? w2 _ Ht2 Hend. by eapply settle_security_round.
Qed.

(** An event the security scenario waits for. *)
Definition awaited (category : SecurityCategory) (db : Database) (event_id : uuid) : Prop :=
  ∃ k ev, db.(security_events) !! k = Some ev ∧ expected_event category e ev = true ∧
          ev.(sev_id) = event_id.

Definition security_outcome (category : SecurityCategory) (before : Database) (now : datetime)
    (a : ReconcileResult) (e' : ChaosExecution) (db : Database) : Prop :=
  if e.(chx_cleanup_deadline) <=? now then ended now EXPERIMENT_TIMED_OUT a e'
  else goes_on a e' ∨ ∃ event_id, awaited category before event_id ∧
         settled_event event_id now a e' db.

Lemma security_round category now w r w' :
  on_table w → reconcile_security settings exe opa id e category now w = (r, w') →
  round (security_outcome category w.(work) now) r w'.
Proof.
  intros Ht Hrun. unfold reconcile_security in Hrun. rewrite query_then in Hrun. cbn beta in Hrun.
  destruct (latest sev_created_at _ _) as [ev|] eqn:Hev.
  - apply latest_Some in Hev as (Hin & Hexp & _). apply elem_of_rows in Hin as [k Hk].
    apply (round_weaken (event_outcome ev.(sev_id) now)); [|by eapply follow_event_round].
    unfold event_outcome, security_outcome. intros a e' db. destruct (_ <=? now); [done|].
    intros Hset. right. exists ev.(sev_id). split; [by exists k, ev|done].
  - unfold security_outcome. destruct (_ <=? now).
    + eapply conclude_round; [exact Ht| |exact Hrun]. auto.
    + apply ret_eq in Hrun as [-> ->].
      apply (round_weaken (λ a e' _, goes_on a e')); [by intros; left|]. by apply goes_on_round.
Qed.

(** What one round makes of an execution that is still active. *)
Definition round_outcome (before : Database) (now : datetime) (a : ReconcileResult)
    (e' : ChaosExecution) (db : Database) : Prop :=
  match security_category e.(chx_scenario_id) with
  | Some category => security_outcome category before now a e' db
  | None => reliability_outcome before now a e' db
  end.
End handlers.

Section reconciling.
Context {X : Type} `{!Runtime X, !KubeApi X, !Pydantic, !PolicyServer X, !TelemetryServer X}.
Context `{!GitRepository X, !GitHubServer X, !TaskResults X} {urls : UrlLibrary}.
Context (settings : Settings) (exe : Executor) (opa : OPAClient) (loader : RunbookLoader).

Lemma reconcile_run authorization id (w w' : World X) r e :
  w.(committed) = w.(work) → w.(work).(chaos_executions) !! id = Some e →
  reconcile_execution settings exe opa authorization id w = (r, w') →
  w'.(committed) = w'.(work) ∧
  ∃ e', w'.(work).(chaos_executions) = <[id := e']> w.(work).(chaos_executions) ∧
    match r with
    | Raise _ => e' = e ∨ experiment_active e.(chx_status) = true ∧ ∃ d, e' = set_chx_details d e
    | Ok a =>
        if experiment_active e.(chx_status)
        then round_outcome e w.(work) (rt_now w.(ext)).1 a e' w'.(work)
        else a.(rec_terminal) = true ∧ a.(rec_status) = e.(chx_status) ∧ e' = e
    end.
Proof.
  intros Hclean He Hrun. unfold reconcile_execution in Hrun.
  apply with_session_run in Hrun as (w1 & Hrun & ->). split; [done|]. cbn [work set_work].
  assert (at_table id w.(work).(chaos_executions) w.(work).(chaos_executions) w) as Ht
    by (split; [done|left; by rewrite Hclean]).
  unfold bind at 1, lift in Hrun. destruct (require_worker settings authorization) as [[]|x].
  2: { injection Hrun as <- <-. rewrite Hclean. exists e. rewrite insert_id by done. by split; [|left]. }
  rewrite query_then in Hrun. cbn beta in Hrun. rewrite He in Hrun.
  destruct (experiment_active e.(chx_status)) eqn:Hact; cbn [negb] in Hrun.
  2: { apply ret_eq in Hrun as [-> ->]. rewrite Hclean. exists e. by rewrite insert_id. }
  unfold bind at 1, utc_now, external in Hrun. set (now := (rt_now w.(ext)).1) in *.
  set (w2 := set_ext _ w) in Hrun. change w.(work) with w2.(work).
  assert (round id w.(work).(chaos_executions) e (round_outcome e w2.(work) now) r w1)
    as (e' & Hw & Hr).
  { unfold round_outcome. destruct (security_category _) as [category|].
    - by eapply security_round in Hrun.
    - by eapply reliability_round in Hrun. }
  exists e'. split; [exact Hw|]. destruct r; [done|by right].
Qed.

Lemma details_progress e d :
  experiment_active e.(chx_status) = true → chaos_progress e (set_chx_details d e).
Proof. intros Ha. split; [done|done|]. by rewrite Ha. Qed.

Lemma concluded_progress e status now c reason d d0 :
  experiment_active e.(chx_status) = true → experiment_rank status = 3 →
  chaos_progress e (concluded status now c reason d (set_chx_details d0 e)).
Proof.
  intros Ha Hr. split; [by destruct reason|destruct reason; simpl; rewrite Hr; by destruct (chx_status e)|].
  by rewrite Ha.
Qed.

Lemma round_progress e before now a e' db :
  experiment_active e.(chx_status) = true → round_outcome e before now a e' db →
  chaos_progress e e'.
Proof.
  intros Ha Hr.
  assert (∀ status, experiment_rank status = 3 → ended e now status a e' → chaos_progress e e')
    as Hend by (intros status H3 (_ & _ & d0 & c & rs & d & ->); by apply concluded_progress).
  assert (goes_on e a e' → chaos_progress e e') as Hgo
    by (intros (_ & _ & d & ->); by apply details_progress).
  unfold round_outcome, security_outcome, reliability_outcome, settled, settled_event in Hr.
  destruct (security_category _); destruct (_ <=? now);
    repeat match goal with
           | Hr : _ ∨ _ |- _ => destruct Hr as [Hr|Hr]
           | Hr : ∃ _, _ |- _ => destruct Hr as [? Hr]
           | Hr : _ ∧ _ |- _ => destruct Hr as [? Hr]
           end; first [by apply Hgo | by eapply Hend; [|eassumption]].
Qed.

(** ** Handlers as changes of the table *)

(** From a clean session to a clean session, by changes of the table. *)
Definition lab_session (w w' : World X) : Prop :=
  w'.(committed) = w'.(work) ∧
  rtc lab_change w.(work).(chaos_executions) w'.(work).(chaos_executions).

Lemma moved w w' id e e' :
  w'.(committed) = w'.(work) → w.(work).(chaos_executions) !! id = Some e →
  w'.(work).(chaos_executions) = <[id := e']> w.(work).(chaos_executions) →
  chaos_progress e e' → lab_session w w'.
Proof. intros Hc He Hw Hp. split; [done|]. rewrite Hw. apply rtc_once. by eapply lab_move. Qed.

Lemma unmoved w w' :
  w'.(committed) = w'.(work) → w'.(work).(chaos_executions) = w.(work).(chaos_executions) →
  lab_session w w'.
Proof. intros Hc Hw. split; [done|]. rewrite Hw. apply rtc_refl. Qed.

(** A session of a handler that does not touch the executions. *)
Lemma quiet_session {A} (m : M (World X) A) w :
  w.(committed) = w.(work) → evolves kept_executions m → lab_session w (with_session m w).2.
Proof.
  intros Hclean Hm. destruct (with_session m w) as [r w'] eqn:Hrun.
  apply with_session_run in Hrun as (w1 & Hrun & ->).
  apply (evolves_run _ _ _ _ _ Hm) in Hrun as [_ Hc]. apply unmoved; [done|]. simpl.
  destruct Hc as [->| ->]; [by rewrite Hclean|done].
Qed.

Lemma reconcile_session authorization id w :
  w.(committed) = w.(work) →
  lab_session w (reconcile_execution settings exe opa authorization id w).2.
Proof.
  intros Hclean. destruct (w.(work).(chaos_executions) !! id) as [e|] eqn:He.
  - destruct (reconcile_execution settings exe opa authorization id w) as [r w'] eqn:Hrun.
    destruct (reconcile_run _ _ _ _ _ _ Hclean He Hrun) as (Hc & e' & Hw & Hr).
    apply (moved _ _ id e e' Hc He Hw). destruct r as [a|x].
    + destruct (experiment_active _) eqn:Ha; [by eapply round_progress|].
      by destruct Hr as (_ & _ & ->).
    + destruct Hr as [->|[Ha [d ->]]]; [done|by apply details_progress].
  - destruct (reconcile_execution settings exe opa authorization id w) as [r w'] eqn:Hrun.
    apply with_session_run in Hrun as (w1 & Hrun & ->). apply unmoved; [done|]. simpl.
    unfold bind at 1, lift in Hrun. destruct (require_worker _ _) as [[]|x].
    + rewrite query_then in Hrun. cbn beta in Hrun. rewrite He in Hrun.
      injection Hrun as <- <-. by rewrite Hclean.
    + injection Hrun as <- <-. by rewrite Hclean.
Qed.

(** A stop that fails may leave the execution stopping; one that returns cancels it. *)
Definition stopped (e e' : ChaosExecution) : Prop :=
  let stopping := set_chx_status EXPERIMENT_STOPPING e in
  (∃ d, e' = set_chx_details d e ∨ e' = set_chx_details d stopping) ∨
  ∃ now who d, e' = cancelled now who (set_chx_details d stopping).

Lemma stopped_progress e e' :
  experiment_active e.(chx_status) = true → stopped e e' → chaos_progress e e'.
Proof.
  intros Ha Hcase. assert (∀ f, chaos_identity f = chaos_identity e →
    2 ≤ experiment_rank f.(chx_status) → chaos_progress e f) as Hp.
  { intros f Hid Hf. rewrite experiment_active_rank, Z.ltb_lt in Ha. split; [done|lia|].
    rewrite experiment_active_rank, Z.ltb_ge. lia. }
  destruct Hcase as [[d [->| ->]]|(now & who & d & ->)]; [by apply details_progress|by apply Hp..].
Qed.

Lemma cancel_run operator id e (w w1 : World X) r :
  w.(committed) = w.(work) → w.(work).(chaos_executions) !! id = Some e →
  cancel settings exe opa operator id e w = (r, w1) →
  ∃ e', w1.(committed).(chaos_executions) = <[id := e']> w.(work).(chaos_executions) ∧ stopped e e'.
Proof.
  intros Hclean He Hrun. set (t := w.(work).(chaos_executions)) in *.
  set (stopping := set_chx_status EXPERIMENT_STOPPING e). set (t1 := <[id := stopping]> t).
  unfold cancel in Hrun. rewrite assign_then in Hrun. set (w2 := set_work _ _) in Hrun.
  assert (w2.(work).(chaos_executions) = t1) as Ht1 by (by apply alter_alt_Some).
  assert (t1 !! id = Some stopping) as Hrow by apply lookup_insert_eq.
  assert (∀ d, <[id := d]> t1 = <[id := d]> t) as Hins by (intros; apply insert_insert_eq).
  unfold bind at 1 in Hrun.
  destruct (undo_execution settings exe opa operator id e w2) as [[[]|x] w3] eqn:Hundo;
    apply (at_table_run _ _ t t1 _ _ _ (undo_execution_kept _ _ _ _ _ _)) in Hundo as [Hb3 Hc3];
    try (split; [by rewrite Ht1|left; simpl; by rewrite Hclean]).
  - destruct (bare_row _ _ _ _ Hb3 Hrow) as [d Hd]. rewrite Hins in Hd.
    unfold bind at 1, utc_now, external in Hrun. rewrite assign_then in Hrun.
    set (now := (rt_now _).1) in Hrun. set (w4 := set_work _ _) in Hrun.
    assert (w1.(committed).(chaos_executions) = w4.(work).(chaos_executions)) as Hend.
    { unfold bind, publish_execution, append_stream_event, utc_now, external, update_db, modify,
        flush, ret, commit, deref, query, gets in Hrun. cbn in Hrun.
      destruct (alter _ id _ !! id) in Hrun; injection Hrun as <- <-; reflexivity. }
    exists (cancelled now operator.(login) (set_chx_details d stopping)). rewrite Hend. split.
    + simpl. rewrite Hd, (alter_alt_Some _ _ _ _ (lookup_insert_eq _ _ _)).
      by rewrite insert_insert_eq.
    + right. by repeat eexists.
  - injection Hrun as <- <-. destruct Hc3 as [Hc3|Hc3].
    + destruct (bare_row _ _ _ _ Hc3 He) as [d Hd]. eexists. split; [exact Hd|].
      left. exists d. by left.
    + destruct (bare_row _ _ _ _ Hc3 Hrow) as [d Hd]. rewrite Hins in Hd. eexists.
      split; [exact Hd|]. left. exists d. by right.
Qed.

Lemma stop_session operator id w :
  w.(committed) = w.(work) →
  lab_session w (stop_execution settings exe opa operator id w).2.
Proof.
  intros Hclean. destruct (stop_execution settings exe opa operator id w) as [r w'] eqn:Hrun.
  apply with_session_run in Hrun as (w1 & Hrun & ->). simpl.
  assert (w1 = w → lab_session w (set_work w1.(committed) w1)) as Hno
    by (intros ->; apply unmoved; [done|simpl; by rewrite Hclean]).
  unfold bind at 1, lift in Hrun. destruct (require_permission _ _) as [p|x];
    [|injection Hrun as <- <-; by apply Hno].
  rewrite query_then in Hrun. cbn beta in Hrun.
  destruct (w.(work).(chaos_executions) !! id) as [e|] eqn:He;
    [|injection Hrun as <- <-; by apply Hno].
  destruct (experiment_active e.(chx_status)) eqn:Ha; [|injection Hrun as <- <-; by apply Hno].
  apply (cancel_run _ _ _ _ _ _ Hclean He) in Hrun as (e' & Hw & Hs).
  apply (moved _ _ id e e'); [done..|by apply stopped_progress].
Qed.

(** ** Starting a scenario *)

(** A running execution of a scenario, new in the table. *)
Definition opened (s : ChaosScenario) (t t' : gmap uuid ChaosExecution) (id : uuid) : Prop :=
  ∃ e, t !! id = None ∧ t' = <[id := e]> t ∧ e.(chx_status) = EXPERIMENT_RUNNING ∧
       e.(chx_scenario_id) = s.(scn_id).

Lemma start_chaos_kept s id : evolves (kept_executions (X:=X)) (start_chaos exe s id).
Proof. unfold start_chaos. evolve. Qed.
Hint Resolve start_chaos_kept : cw_pres.
Lemma start_chaos_step s id : evolves (session_step (X:=X)) (start_chaos exe s id).
Proof. unfold start_chaos. evolve. Qed.
Hint Resolve start_chaos_step : cw_pres.

Lemma launch_run operator s pods id now t e0 (w w1 : World X) :
  w.(work).(chaos_executions) = <[id := e0]> t →
  launch settings exe operator s pods id now w = (Ok tt, w1) →
  ∃ kind name d, w1.(work).(chaos_executions) = <[id := started kind name now d e0]> t.
Proof.
  intros Hw Hrun.
  assert (∀ kind name d (w2 : World X),
    w2.(work).(chaos_executions) = w.(work).(chaos_executions) →
    alter (started kind name now d) id w2.(work).(chaos_executions)
    = <[id := started kind name now d e0]> t) as Hset.
  { intros kind name d w2 ->. rewrite Hw, (alter_alt_Some _ _ _ _ (lookup_insert_eq _ _ _)).
    by rewrite insert_insert_eq. }
  unfold launch in Hrun. destruct (scn_mechanism s).
  - apply bind_ok in Hrun as (g & w2 & Hg & Hrun). rewrite assign_then in Hrun.
    set (w3 := set_work _ _) in Hrun. do 3 eexists.
    assert (w1.(work).(chaos_executions) = w3.(work).(chaos_executions)) as ->
      by (eapply (evolves_run (same_db chaos_executions)); [|exact Hrun]; evolve).
    apply Hset. eapply (evolves_run (same_db chaos_executions)); [|exact Hg].
    unfold deploy_controlled_bad. evolve.
  - apply bind_ok in Hrun as (g & w2 & Hg & [= <-]). do 3 eexists. apply Hset.
    by apply (evolves_run _ _ _ _ _ (start_chaos_kept _ _) Hg).
  - apply bind_ok in Hrun as (g & w2 & Hg & [= <-]). do 3 eexists. apply Hset.
    by apply (evolves_run _ _ _ _ _ (start_chaos_kept _ _) Hg).
  - destruct (ready_targets pods) as [|p l]; [done|].
    apply bind_ok in Hrun as (g & w2 & Hg & [= <-]). do 3 eexists. apply Hset.
    eapply (evolves_run (same_db chaos_executions)); [|exact Hg]. evolve.
  - injection Hrun as <-. do 3 eexists. by apply Hset.
Qed.

Lemma launch_committed operator s pods id now :
  evolves (same_committed (X:=X)) (launch settings exe operator s pods id now).
Proof. unfold launch, deploy_controlled_bad. evolve. Qed.

Lemma open_run operator s policy pods (w w1 : World X) r :
  open_execution settings exe operator s policy pods w = (r, w1) →
  w1.(committed) = w.(committed) ∧
  ∀ id, r = Ok id → opened s w.(work).(chaos_executions) w1.(work).(chaos_executions) id.
Proof.
  intros Hrun. split.
  { eapply (evolves_run same_committed); [|exact Hrun]. unfold open_execution, publish_execution.
    repeat first [apply launch_committed | evolve_step | solve [eauto with cw_pres]]. }
  intros id ->. unfold open_execution in Hrun.
  apply bind_ok in Hrun as (now & w2 & Hn & Hrun). injection Hn as _ <-.
  apply bind_ok in Hrun as (i & w2 & Hi & Hrun). injection Hi as _ <-.
  apply bind_ok in Hrun as (c & w2 & Hc & Hrun). injection Hc as _ <-.
  apply bind_ok in Hrun as (u & w2 & (Hnew & _ & ->)%insert_row_ok & Hrun).
  apply bind_ok in Hrun as (u' & w2 & Hf & Hrun). injection Hf as _ <-.
  apply bind_ok in Hrun as ([] & w3 & Hl & Hrun).
  eapply (launch_run _ _ _ _ _ w.(work).(chaos_executions)) in Hl as (kind & name & d & Hl);
    [|reflexivity].
  apply bind_ok in Hrun as (e & w4 & [He ->]%deref_ok & Hrun).
  apply bind_ok in Hrun as (u'' & w4 & Hp & Hrun). injection Hrun as <- <-.
  assert (w4.(work).(chaos_executions) = w3.(work).(chaos_executions)) as ->
    by (eapply (evolves_run (same_db chaos_executions)); [|exact Hp]; unfold publish_execution; evolve).
  eexists. split; [exact Hnew|]. split; [exact Hl|]. done.
Qed.

Lemma monitor_run s id e t (w w1 : World X) r :
  w.(work).(chaos_executions) = <[id := e]> t → monitor s id w = (r, w1) →
  ∃ d, w1.(committed).(chaos_executions) = <[id := set_chx_details d e]> t.
Proof.
  intros Hw Hrun. unfold monitor in Hrun. unfold bind at 1, commit at 1, modify in Hrun.
  set (w2 := Build_World _ _ _ _ _ _) in Hrun. unfold bind at 1 in Hrun.
  destruct (dispatch_monitor s id w2) as [r2 w3] eqn:Hd.
  assert (w3.(committed) = w.(work) ∧ w3.(work).(chaos_executions) = <[id := e]> t) as [Hc Ht].
  { split; [change w.(work) with w2.(committed)|rewrite <- Hw; change w.(work) with w2.(work)].
    - eapply (evolves_run same_committed); [|exact Hd]. unfold dispatch_monitor, publish_task. evolve.
    - eapply (evolves_run (same_db chaos_executions)); [|exact Hd].
      unfold dispatch_monitor, publish_task. evolve. }
  destruct r2 as [task|x].
  - rewrite assign_then in Hrun. unfold bind, commit, modify, deref, query, gets in Hrun. cbn in Hrun.
    exists (dict_update e.(chx_details) [("monitor_task_id", JStr task)]).
    assert (w1.(committed).(chaos_executions) = alter (add_details [("monitor_task_id", JStr task)])
      id w3.(work).(chaos_executions)) as ->
      by (destruct (alter _ id _ !! id) in Hrun; by injection Hrun as <- <-).
    rewrite Ht, (alter_alt_Some _ _ _ _ (lookup_insert_eq _ _ _)). by rewrite insert_insert_eq.
  - injection Hrun as <- <-. exists e.(chx_details). rewrite Hc, Hw. by destruct e.
Qed.

(** A step before the execution is opened: it raises, or the handler goes on with the
    same table. *)
Lemma before_opening {A B} (m : M (World X) A) (k : A → M (World X) B) P w r w1 :
  evolves (same_db chaos_executions) m → evolves same_committed m →
  (∀ w2 : World X, w2.(committed) = w.(committed) → P w2) → bind m k w = (r, w1) →
  (∀ a w2, w2.(committed) = w.(committed) →
     w2.(work).(chaos_executions) = w.(work).(chaos_executions) → k a w2 = (r, w1) → P w1) →
  P w1.
Proof.
  intros Hs Hc Hno Hrun Hk. unfold bind in Hrun. destruct (m w) as [[a|x] w2] eqn:E;
    apply (evolves_run _ _ _ _ _ Hc) in E as E1; apply (evolves_run _ _ _ _ _ Hs) in E as E2.
  - by eapply Hk.
  - injection Hrun as <- <-. by apply Hno.
Qed.

Ltac opening H :=
  refine (before_opening _ _ _ _ _ _ _ _ _ H _);
  [ unfold ask_chaos_policy, scenario_pods; evolve
  | unfold ask_chaos_policy, scenario_pods; evolve
  | intros ? ?; match goal with Hno : _ |- _ => apply Hno; congruence end
  | clear H; intros ? ? ? ? H ].

Lemma start_session client operator scenario_id w :
  w.(committed) = w.(work) →
  lab_session w (start_scenario settings exe client operator scenario_id w).2.
Proof.
  intros Hclean.
  destruct (start_scenario settings exe client operator scenario_id w) as [r w'] eqn:Hrun.
  apply with_session_run in Hrun as (w1 & Hrun & ->). split; [done|]. simpl.
  set (t := w.(work).(chaos_executions)).
  set (P := λ w2 : World X, rtc lab_change t w2.(committed).(chaos_executions)). change (P w1).
  assert (∀ w2 : World X, w2.(committed) = w.(committed) → P w2) as Hno
    by (intros w2 Hw2; unfold P; rewrite Hw2, Hclean; apply rtc_refl).
  do 4 opening Hrun. rewrite query_then in Hrun. cbn beta in Hrun.
  destruct (select_one (occupies _) _) as [f|] eqn:Hsel; [injection Hrun as <- <-; apply Hno; congruence|].
  do 2 opening Hrun. unfold bind at 1 in Hrun.
  destruct (open_execution _ _ _ _ _ _ _) as [[id|x] w8] eqn:Hopen;
    apply open_run in Hopen as [Hc8 Hnew]; [|injection Hrun as <- <-; apply Hno; congruence].
  destruct (Hnew id eq_refl) as (e & Hid & Ht & Hst & Hsc).
  destruct (monitor_run _ _ _ _ _ _ _ Ht Hrun) as [d Hend]. unfold P. rewrite Hend.
  match type of Hid with ?u !! _ = _ => assert (u = t) as Hu by (unfold t; congruence) end.
  rewrite Hu in Hid. rewrite Hu. apply rtc_once, lab_open; [done| |simpl; by rewrite Hst].
  simpl. rewrite Hsc. unfold t. congruence.
Qed.

(** ** The other handlers *)

(** Both the session and what is durable have the executions [t]. *)
Definition has_table (t : gmap uuid ChaosExecution) (w : World X) : Prop :=
  w.(work).(chaos_executions) = t ∧ w.(committed).(chaos_executions) = t.

Lemma kept_has_table {A} t (m : M (World X) A) :
  evolves kept_executions m → evolves (keeps (has_table t)) m.
Proof.
  intros Hm w [Hw Hc]. destruct (Hm w) as [Hw' Hc']. split; [congruence|].
  destruct Hc'; congruence.
Qed.
Lemma rollback_has_table t : evolves (keeps (has_table t)) rollback.
Proof. by intros w [_ Hc]. Qed.
Hint Resolve rollback_has_table : cw_pres.
Hint Extern 4 (evolves (keeps (has_table _)) _) => apply kept_has_table; solve [evolve] : cw_pres.

Lemma process_alert_job_table t authorization payload :
  evolves (keeps (has_table t)) (process_alert_job settings exe opa loader authorization payload).
Proof.
  unfold process_alert_job, with_session, in_session, collect_source_correlation,
    supplemental_reason, supplemental_ai_reason, schedule_diagnosis, audit_reliability, attempt,
    publish_task. evolve.
Qed.

Lemma with_session_clean {A} (m : M (World X) A) w :
  (with_session m w).2.(committed) = (with_session m w).2.(work).
Proof.
  destruct (with_session m w) as [r w'] eqn:E. by apply with_session_run in E as (w1 & _ & ->).
Qed.

Lemma process_session authorization payload w :
  w.(committed) = w.(work) →
  lab_session w (process_alert_job settings exe opa loader authorization payload w).2.
Proof.
  intros Hclean. apply unmoved; [apply with_session_clean|].
  by apply (process_alert_job_table w.(work).(chaos_executions)); split; [|rewrite Hclean].
Qed.
End reconciling.
