(* ===== verification/LabStart.v ===== *)
(** * What starting a scenario does outside the process

    [start_scenario] asks the policy engine, creates at most one object or pushes one
    release, and tells a worker: here, which of these calls a start may make and what
    must have held before it. *)

From S2P Require Import Prelude PyFloat Json Effects Rbac Actions StateMachine Models World.
From S2P Require Import Config AuditLog History Incidents Kubernetes Opa Approvals Execution.
From S2P Require Import Mutations GitOps Quarantine Url PyNumber FinOps FinOpsApi Scenarios IncidentLab.
From S2P Require Import LabFrames LabRuns.

(** A change of the GitOps repository. *)
Definition release_call (c : call) : Prop :=
  match c with CallWriteValues _ | CallGit _ => True | _ => False end.

(** A chaos object for one labelled pod of the demo namespace, for a bounded time. *)
Definition bounded_chaos (body : json) : Prop :=
  ∃ kind metadata spec duration, body = chaos_object kind metadata spec ∧
    dict_get "mode" spec = Some (JStr "one") ∧
    dict_get "selector" spec = Some demo_selector_json ∧
    dict_get "duration" spec = Some (JStr (str_of_Z duration +:+ "s")) ∧ 5 ≤ duration ≤ 300.

(** The calls that change something when a scenario starts. *)
Definition launch_calls (s : ChaosScenario) (id : uuid) (new : list call) : Prop :=
  match s.(scn_mechanism) with
  | STRESS_CHAOS | POD_CHAOS =>
      new = [] ∨ ∃ kind plural body, chaos_body s id = Ok (kind, plural, body) ∧
                   plural ∈ ["stresschaos"; "podchaos"] ∧ bounded_chaos body ∧
                   new = [CallCreateObject DEMO_NAMESPACE plural body]
  | GITOPS_RELEASE => Forall release_call new
  | SAFE_DEMO_ENDPOINT | FINOPS_ANALYSIS => new = []
  end.

Lemma catalog_target s : s ∈ SCENARIOS → s.(scn_target_namespace) = DEMO_NAMESPACE.
Proof.
  intros Hs. by destruct (proj1 (List.Forall_forall _ _) catalog_sound s
    (proj1 (list_elem_of_In _ _) Hs)) as (_ & _ & ? & _).
Qed.

(** What the executor creates for a scenario of the catalog. *)
Lemma chaos_body_bounded s id kind plural body :
  s ∈ SCENARIOS → chaos_body s id = Ok (kind, plural, body) →
  bounded_chaos body ∧ plural ∈ ["stresschaos"; "podchaos"].
Proof.
  intros Hs Hb.
  pose proof (proj1 (List.Forall_forall _ _) catalog_sound s (proj1 (list_elem_of_In _ _) Hs))
    as (Hv & _). unfold ChaosScenario_valid in Hv.
  apply andb_true_iff in Hv as [[[H5 H300]%andb_true_iff _]%andb_true_iff _].
  unfold chaos_body in Hb. destruct (scn_mechanism s); try discriminate Hb.
  - apply res_bind_ok in Hb as (stress & _ & Hb). apply res_bind_ok in Hb as (sel & Hsel & Hb).
    unfold chaos_selector in Hsel. destruct (_ || _); [done|]. injection Hsel as <-.
    injection Hb as <- <- <-. split; [|left]. do 3 eexists. exists s.(scn_duration_seconds).
    split; [reflexivity|]. split_and!; [done..|lia|lia].
  - apply res_bind_ok in Hb as (sel & Hsel & Hb).
    unfold chaos_selector in Hsel. destruct (_ || _); [done|]. injection Hsel as <-.
    injection Hb as <- <- <-. split; [|right; left]. do 3 eexists. exists s.(scn_duration_seconds).
    split; [reflexivity|]. split_and!; [done..|lia|lia].
Qed.

Section start.
Context {X : Type} `{!Runtime X, !KubeApi X, !Pydantic, !PolicyServer X, !GitRepository X}.
Context `{!TaskResults X}.
Context (settings : Settings) (exe : Executor).
Abbreviation silent m := (evolves (mutates (X:=X) (λ _, False)) m).

Lemma silent_run {A} (m : M (World X) A) w r w' :
  silent m → m w = (r, w') → mutations w' = mutations w.
Proof.
  intros Hm Hrun. apply (evolves_run _ _ _ _ _ Hm) in Hrun as ([|c l] & -> & Hc).
  - by rewrite app_nil_r.
  - by apply Forall_cons in Hc as [[] _].
Qed.

(** A step that changes nothing outside: the run goes on from where it left. *)
Lemma silent_bind {A B} (P : list call → Prop) (w0 : World X) (m : M (World X) A) (k : A → M (World X) B)
    w r w' :
  silent m → mutations w = mutations w0 → P (mutations w0) → bind m k w = (r, w') →
  (∀ a w1, m w = (Ok a, w1) → mutations w1 = mutations w0 → k a w1 = (r, w') →
     P (mutations w')) → P (mutations w').
Proof.
  intros Hm H0 HP Hrun Hk. unfold bind in Hrun. destruct (m w) as [[a|e] w1] eqn:E;
    pose proof (silent_run _ _ _ _ Hm E) as H1; rewrite H0 in H1.
  - by eapply Hk.
  - injection Hrun as <- <-. by rewrite H1.
Qed.

(** The remaining steps change nothing. *)
Lemma silent_after {A B} (m : M (World X) A) (k : A → M (World X) B) w r w' :
  (∀ a, silent (k a)) → bind m k w = (r, w') →
  ∃ r1 w1, m w = (r1, w1) ∧ mutations w' = mutations w1.
Proof.
  intros Hk Hrun. unfold bind in Hrun. destruct (m w) as [[a|e] w1].
  - exists (Ok a), w1. split; [done|]. by eapply silent_run.
  - injection Hrun as _ <-. by exists (Raise e), w1.
Qed.

Ltac silently Heq Hrun :=
  eapply (silent_bind _ _ _ _ _ _ _); [|exact Heq| |exact Hrun|];
  [evolve|try assumption|clear Heq Hrun; intros ? ? ? Heq Hrun; cbn beta in Hrun].

Lemma evaluate_chaos_silent client i : silent (evaluate_chaos client i).
Proof. unfold evaluate_chaos. evolve. Qed.
Hint Resolve evaluate_chaos_silent : cw_pres.

Lemma ask_chaos_policy_silent client operator s : silent (ask_chaos_policy client operator s).
Proof. unfold ask_chaos_policy. evolve. Qed.

Lemma scenario_pods_silent s : silent (scenario_pods s).
Proof. unfold scenario_pods. evolve. Qed.

Lemma require_namespace_silent ns : silent (require_namespace exe ns).
Proof. unfold require_namespace, validate_name. evolve. Qed.
Lemma require_custom_silent c m : silent (require_custom exe c m).
Proof. unfold require_custom. evolve. Qed.
Lemma validate_name_silent v l : silent (validate_name v l).
Proof. unfold validate_name. evolve. Qed.
Hint Resolve require_namespace_silent require_custom_silent validate_name_silent : cw_pres.
Lemma trigger_silent ns name id t : silent (trigger_controlled_security_scenario exe ns name id t).
Proof. unfold trigger_controlled_security_scenario, api_failure. evolve. Qed.
Hint Resolve ask_chaos_policy_silent scenario_pods_silent trigger_silent : cw_pres.

Lemma publish_task_silent t d q : silent (publish_task t d q).
Proof. unfold publish_task, send_task. evolve. Qed.
Hint Resolve publish_task_silent : cw_pres.

Lemma monitor_silent s id : silent (monitor s id).
Proof. unfold monitor, dispatch_monitor. evolve. Qed.

(** The writer of releases only runs Git and writes the values. *)
Lemma record_release c : release_call c → evolves (mutates (X:=X) release_call) (record_call c).
Proof. intros Hc. by apply record_call_mutates. Qed.
Hint Extern 1 (evolves (mutates release_call) (record_call _)) => by apply record_release : cw_pres.

Lemma deploy_controlled_bad_calls id :
  evolves (mutates (X:=X) release_call) (deploy_controlled_bad settings id).
Proof. unfold deploy_controlled_bad, write_tag, publish, require_available, git, atomic_write, load_values. evolve. Qed.
Hint Resolve deploy_controlled_bad_calls : cw_pres.

Lemma start_chaos_calls s id (w w' : World X) r :
  start_chaos exe s id w = (r, w') →
  mutations w' = mutations w ∨
  ∃ kind plural body, chaos_body s id = Ok (kind, plural, body) ∧
    mutations w' = mutations w ++ [CallCreateObject s.(scn_target_namespace) plural body].
Proof.
  intros Hrun. unfold start_chaos in Hrun. unfold bind at 1, lift in Hrun.
  destruct (chaos_body s id) as [[[kind plural] body]|e]; [|injection Hrun as <- <-; by left].
  apply silent_after in Hrun as (r1 & w1 & Hrun & ->); [|intros; evolve].
  unfold create_typed_custom_object in Hrun.
  set (P := λ l, l = mutations w ∨ ∃ kind0 plural0 body0,
    Ok (kind, plural, body) = Ok (kind0, plural0, body0) ∧
    l = mutations w ++ [CallCreateObject s.(scn_target_namespace) plural0 body0]).
  change (P (mutations w1)).
  assert (P (mutations w)) as HP by (by left). assert (mutations w = mutations w) as Heq by done.
  do 2 silently Heq Hrun. unfold bind at 1, record_call, modify in Hrun.
  right. do 3 eexists. split; [reflexivity|].
  apply silent_run in Hrun as ->; [|unfold api, api_failure; evolve].
  unfold mutations in *. simpl. rewrite List.filter_app. simpl. congruence.
Qed.

Lemma launch_mutations operator s pods id now (w w' : World X) r :
  s ∈ SCENARIOS →
  launch settings exe operator s pods id now w = (r, w') →
  ∃ new, mutations w' = mutations w ++ new ∧ launch_calls s id new.
Proof.
  intros Hs Hrun. unfold launch in Hrun. unfold launch_calls. destruct (scn_mechanism s).
  - apply (evolves_run (mutates release_call)) in Hrun; [exact Hrun|evolve].
  - apply silent_after in Hrun as (r1 & w1 & Hrun & ->); [|intros; evolve].
    apply start_chaos_calls in Hrun as [->|(k & pl & b & Hb & ->)].
    + exists []. rewrite app_nil_r. split; [done|by left].
    + eexists. split; [reflexivity|]. right. rewrite (catalog_target s Hs).
      destruct (chaos_body_bounded s id k pl b Hs Hb). by exists k, pl, b.
  - apply silent_after in Hrun as (r1 & w1 & Hrun & ->); [|intros; evolve].
    apply start_chaos_calls in Hrun as [->|(k & pl & b & Hb & ->)].
    + exists []. rewrite app_nil_r. split; [done|by left].
    + eexists. split; [reflexivity|]. right. rewrite (catalog_target s Hs).
      destruct (chaos_body_bounded s id k pl b Hs Hb). by exists k, pl, b.
  - apply silent_run in Hrun as ->; [|destruct (ready_targets pods); evolve].
    exists []. by rewrite app_nil_r.
  - apply silent_run in Hrun as ->; [|evolve]. exists []. by rewrite app_nil_r.
Qed.

Lemma open_mutations operator s policy pods (w w' : World X) r :
  s ∈ SCENARIOS →
  open_execution settings exe operator s policy pods w = (r, w') →
  ∃ id new, mutations w' = mutations w ++ new ∧ launch_calls s id new.
Proof.
  intros Hs Hrun. unfold open_execution in Hrun.
  assert (∀ id, launch_calls s id [] ) as Hnone
    by (intros id; unfold launch_calls; destruct (scn_mechanism s); auto).
  set (P := λ l, ∃ id new, l = mutations w ++ new ∧ launch_calls s id new).
  assert (P (mutations w)) as HP by (exists 0%N, []; by rewrite app_nil_r).
  change (P (mutations w')).
  assert (mutations w = mutations w) as Heq by done.
  do 5 silently Heq Hrun.
  apply silent_after in Hrun as (r1 & w9 & Hrun & ->);
    [|intros []; unfold publish_execution; evolve].
  apply (launch_mutations _ _ _ _ _ _ _ _ Hs) in Hrun as (new & -> & Hnew).
  rewrite Heq. by do 2 eexists.
Qed.

(** The policy engine, asked in the state [x] about a scenario, answered that it may run. *)
Definition chaos_permitted (client : ChaosPolicyClient) (operator : Principal)
    (s : ChaosScenario) (x : X) : Prop :=
  let policy_input := {| cpi_scenario_id := s.(scn_id); cpi_actor_role := Role_value operator.(role);
                         cpi_namespace := s.(scn_target_namespace);
                         cpi_selector := s.(scn_target_selector);
                         cpi_duration_seconds := s.(scn_duration_seconds) |} in
  ∃ status content x' p,
    opa_post client.(chaos_policy_url) (JObj [("input", ChaosPolicyInput_dump policy_input)]) x
      = (HttpResponse status content, x') ∧
    chaos_decision_of status content = Ok p ∧ p.(cpr_allowed) = true.

Lemma ask_chaos_policy_ok client operator s policy (w w1 : World X) :
  ask_chaos_policy client operator s w = (Ok policy, w1) →
  s.(scn_mechanism) ≠ FINOPS_ANALYSIS → chaos_permitted client operator s w.(ext).
Proof.
  intros Hrun Hmech. unfold ask_chaos_policy in Hrun. rewrite bool_decide_eq_false_2 in Hrun by done.
  apply bind_ok in Hrun as (i & w2 & [[-> _]%validated_is ->]%lift_ok & Hrun).
  apply bind_ok in Hrun as (p & w2 & He & Hrun).
  apply bind_ok in Hrun as (u & w3 & [Hallow _]%raise_if_ok & _). apply negb_false_iff in Hallow.
  unfold evaluate_chaos in He. unfold bind, record_call, modify, external in He. cbn [ext] in He.
  destruct (opa_post _ _ _) as [answer x'] eqn:Hpost. destruct answer; try discriminate He.
  apply lift_ok in He as [Hd _]. do 4 eexists. split; [exact Hpost|]. by split.
Qed.

(** What must have held before a start changed something. *)
Definition sanctioned_start (client : ChaosPolicyClient) (operator : Principal)
    (scenario_id : string) (w : World X) (new : list call) : Prop :=
  new = [] ∨ ∃ s id p,
    require_permission DEMO_TRIGGER operator = Ok p ∧
    s ∈ SCENARIOS ∧ s.(scn_id) = scenario_id ∧
    chaos_permitted client operator s w.(ext) ∧
    select_one (occupies scenario_id) w.(work).(chaos_executions) = None ∧
    launch_calls s id new.

End start.

(** ** A concrete start *)

#[export] Instance bench_tasks : TaskResults Z := λ x, ("task", x + 1).

(** Allows every scenario. *)
Definition chaos_body_allowing : string :=
  "{" +:+ json_field "result" ("{" +:+ json_field "allowed" "true" +:+ "," +:+
    json_field "reason" (dquote +:+ "ok" +:+ dquote) +:+ "}") +:+ "}".
Definition allowing_opa : PolicyServer Z := λ _ _ x, (HttpResponse 200 chaos_body_allowing, x).

Definition lab_operator : Principal :=
  {| user_id := 1; login := "ops"; role := OPERATOR; persisted := true |}.
Definition lab_client : ChaosPolicyClient :=
  chaos_policy_client "http://opa:8181/" "/v1/data/cloudward/chaos/decision".

(** Memory pressure, on the demo deployment of the concrete cluster. *)
Definition bench_start : res ChaosExecution * World Z :=
  start_scenario (Runtime0 := bench_runtime) (H := strict_pydantic)
    (PolicyServer0 := allowing_opa) example_settings bench_executor lab_client
    lab_operator "reliability.memory-pressure" (bench_world empty_database).

Example memory_pressure_starts :
  is_ok bench_start.1 = true ∧
  map call_namespace (mutations bench_start.2) = [Some "cloudward-staging"].
Proof. vm_compute. split; reflexivity. Qed.

