(* ===== verification/LabLife.v ===== *)
(** * The life of a scenario execution

    The properties of the Incident Lab: what a scenario creates on the cluster, what a
    round of the worker makes of an execution, and what any sequence of the handlers
    that share the table of executions can do to it. *)

From S2P Require Import Prelude PyFloat Json JsonParse Effects Rbac Actions StateMachine Models World.
From S2P Require Import Config AuditLog History Memory Incidents Kubernetes Opa Approvals Execution.
From S2P Require Import Mutations Verification Runbooks Alerts Telemetry GitOps Reliability Security.
From S2P Require Import Quarantine GitHubPolicy GitHub Url PyNumber FinOpsEngine FinOpsProviders FinOps.
From S2P Require Import FinOpsApi FinOpsRuns Scenarios IncidentLab Reconcile LabFrames LabRuns.
From S2P Require Import LabStart.

Section lab.
Context {X : Type} `{!Runtime X, !KubeApi X, !Pydantic, !PolicyServer X, !TelemetryServer X}.
Context `{!GitRepository X, !GitHubServer X, !TaskResults X, !FinOpsServer X} {urls : UrlLibrary}.
Context {dump : FinOpsDump} {codec : YamlLibrary}.
Context (settings : Settings) (exe : Executor) (opa : OPAClient) (loader : RunbookLoader).

(** ** The FinOps jobs *)

Lemma analyze_scenario_executions s scenario_id actor actor_type :
  evolves (same_db (X:=X) chaos_executions)
    (analyze_scenario settings s scenario_id actor actor_type).
Proof.
  unfold analyze_scenario. repeat first [ evolve_step | apply persist_result_executions ].
  intros w. rewrite (analyze_target_reads settings s scenario_id w). done.
Qed.
Hint Resolve analyze_scenario_step analyze_scenario_executions : cw_pres.

(** A job that ends an execution that is pending or running. *)
Lemma job_moves {A} (f : ChaosExecution → ChaosExecution) id event d (a : A) e t (w w1 : World X) r :
  w.(work).(chaos_executions) = t → t !! id = Some e → chaos_progress e (f e) →
  (do! set_chaos_execution id f; do! append_stream_event event None d; do! commit; ret a) w
    = (r, w1) →
  rtc lab_change t w1.(committed).(chaos_executions).
Proof.
  intros Hw He Hp Hrun. rewrite assign_then in Hrun.
  unfold bind, append_stream_event, utc_now, external, update_db, modify, flush, commit, ret in Hrun.
  injection Hrun as <- <-. simpl. rewrite Hw, (alter_alt_Some _ _ _ _ He).
  apply rtc_once. by eapply lab_move.
Qed.

Lemma finops_end_progress e f :
  e.(chx_status) ∈ [EXPERIMENT_PENDING; EXPERIMENT_RUNNING] →
  chaos_identity f = chaos_identity e → experiment_rank f.(chx_status) = 3 → chaos_progress e f.
Proof.
  intros Hs Hid Hf. split; [done|destruct (chx_status e); simpl; lia|].
  rewrite experiment_active_rank, Z.ltb_ge. intros Hr.
  apply elem_of_cons in Hs as [Hs|Hs]; [by rewrite Hs in Hr|].
  apply list_elem_of_singleton in Hs. by rewrite Hs in Hr.
Qed.

Ltac before Hrun :=
  refine (before_opening _ _ _ _ _ _ _ _ _ Hrun _);
  [ evolve | evolve
  | intros ? ?; match goal with Hno : _ |- _ => apply Hno; congruence end
  | clear Hrun; intros ? ? ? ? Hrun ].

(** The session of a request makes durable what its handler made durable. *)
Lemma in_session_committed {A} (m : M (World X) A) w r w' :
  in_session m w = (r, w') → ∃ w1, m w = (r, w1) ∧ w'.(committed) = w1.(committed).
Proof.
  unfold in_session, catch. destruct (m w) as [[a|x] w1]; intros [= <- <-]; by exists w1.
Qed.

Lemma run_job_moves authorization scenario_id id (w : World X) :
  w.(committed) = w.(work) →
  lab_session w (run_finops_scenario_job settings authorization scenario_id id w).2.
Proof.
  intros Hclean. destruct (run_job_settling settings authorization scenario_id id w Hclean) as [Hc _].
  destruct (run_finops_scenario_job _ _ _ _ w) as [r w'] eqn:Hrun. simpl in Hc.
  split; [done|]. cbn [snd] in *. rewrite <- Hc. clear Hc.
  apply in_session_committed in Hrun as (w1 & Hrun & ->).
  set (t := w.(work).(chaos_executions)).
  set (P := λ w2 : World X, rtc lab_change t w2.(committed).(chaos_executions)). change (P w1).
  assert (∀ w2 : World X, w2.(committed) = w.(committed) → P w2) as Hno
    by (intros w3 Hw3; unfold P; rewrite Hw3, Hclean; apply rtc_refl).
  do 2 before Hrun. rewrite query_then in Hrun. cbn beta in Hrun.
  destruct (_ !! id) as [e|] eqn:He; [|injection Hrun as <- <-; apply Hno; congruence].
  before Hrun. destruct (bool_decide (chx_status e = _)); [unfold lift in Hrun; injection Hrun as <- <-; apply Hno; congruence|].
  unfold bind at 1, raise_if in Hrun. destruct (bool_decide _) eqn:Hact; cbn [negb] in Hrun;
    [|injection Hrun as <- <-; apply Hno; congruence].
  apply bool_decide_eq_true in Hact. unfold ret at 1 in Hrun.
  do 2 before Hrun.
  match goal with o : AnalysisResult * option uuid |- _ => destruct o end. before Hrun.
  eapply job_moves, Hrun; [unfold t; congruence| |by apply finops_end_progress].
  assert (t = w0.(work).(chaos_executions)) as -> by (unfold t; congruence). exact He.
Qed.

Lemma fail_job_moves authorization id error_code (w : World X) :
  w.(committed) = w.(work) →
  lab_session w (fail_finops_scenario_job settings authorization id error_code w).2.
Proof.
  intros Hclean. destruct (fail_job_settling settings authorization id error_code w Hclean) as [Hc _].
  destruct (fail_finops_scenario_job _ _ _ _ w) as [r w'] eqn:Hrun. cbn [snd] in *.
  split; [done|]. rewrite <- Hc. clear Hc.
  apply in_session_committed in Hrun as (w1 & Hrun & ->).
  set (t := w.(work).(chaos_executions)).
  set (P := λ w2 : World X, rtc lab_change t w2.(committed).(chaos_executions)). change (P w1).
  assert (∀ w2 : World X, w2.(committed) = w.(committed) → P w2) as Hno
    by (intros w3 Hw3; unfold P; rewrite Hw3, Hclean; apply rtc_refl).
  before Hrun. rewrite query_then in Hrun. cbn beta in Hrun.
  destruct (_ !! id) as [e|] eqn:He; [|injection Hrun as <- <-; apply Hno; congruence].
  before Hrun. destruct (bool_decide _) eqn:Hact; [|injection Hrun as <- <-; apply Hno; congruence].
  apply bool_decide_eq_true in Hact.
  unfold bind at 1 in Hrun. destruct (bind utc_now _ _) as [r2 w4] eqn:Hjob.
  assert (w1 = w4) as -> by (by destruct r2; injection Hrun as _ <-). clear Hrun.
  before Hjob. eapply job_moves, Hjob; [unfold t; congruence| |by apply finops_end_progress].
  match type of He with ?u !! _ = _ => assert (t = u) as -> by (unfold t; congruence) end. exact He.
Qed.

(** ** Every sequence of handlers *)

(** A request, a job of the worker or a poll that touches the executions. *)
Inductive lab_step : relation (World X) :=
| step_start client operator scenario_id w :
    lab_step w (start_scenario settings exe client operator scenario_id w).2
| step_stop operator id w : lab_step w (stop_execution settings exe opa operator id w).2
| step_list viewer status limit offset w :
    lab_step w (list_executions viewer status limit offset w).2
| step_get viewer id w : lab_step w (get_execution viewer id w).2
| step_reconcile authorization id w :
    lab_step w (reconcile_execution settings exe opa authorization id w).2
| step_alert authorization payload w :
    lab_step w (process_alert_job settings exe opa loader authorization payload w).2
| step_finops_run authorization scenario_id id w :
    lab_step w (run_finops_scenario_job settings authorization scenario_id id w).2
| step_finops_fail authorization id error_code w :
    lab_step w (fail_finops_scenario_job settings authorization id error_code w).2.

Lemma lab_step_session w w' : w.(committed) = w.(work) → lab_step w w' → lab_session w w'.
Proof.
  intros Hclean Hstep. destruct Hstep.
  - by apply start_session.
  - by apply stop_session.
  - apply quiet_session; [done|evolve].
  - apply quiet_session; [done|evolve].
  - by apply reconcile_session.
  - by apply process_session.
  - by apply run_job_moves.
  - by apply fail_job_moves.
Qed.

(** C12: whatever the requests, the jobs and the polls that reach the Incident Lab, and
    in whatever order: every session ends with what it stored durable; no scenario ever
    has two active executions; no execution is lost, or changed in what it was asked to
    do (its scenario, target, expected alert, bound and deadline); an execution only
    moves forward (pending, running, stopping, ended); and one that ended is never
    touched again. *)
Theorem execution_lifecycle (w w' : World X) :
  w.(committed) = w.(work) → one_active w.(work).(chaos_executions) →
  rtc lab_step w w' →
  w'.(committed) = w'.(work) ∧ one_active w'.(work).(chaos_executions) ∧
  table_extends chaos_progress w.(work).(chaos_executions) w'.(work).(chaos_executions).
Proof.
  intros Hclean Hone Hsteps. induction Hsteps as [w|w1 w2 w3 Hstep _ IH].
  - split_and!; [done..|reflexivity].
  - apply (lab_step_session _ _ Hclean) in Hstep as [Hclean2 Hs].
    apply lab_changes_keep in Hs as [He Ho].
    destruct (IH Hclean2 (Ho Hone)) as (? & ? & He'). split_and!; [done..|by etrans].
Qed.

(** ** What a round reports *)

(** The report of a round is the state of the execution. *)
Definition faithful_report (a : ReconcileResult) (e' : ChaosExecution) : Prop :=
  a.(rec_status) = e'.(chx_status) ∧
  a.(rec_terminal) = negb (experiment_active e'.(chx_status)).

(** Why an execution may have succeeded: the incident of the expected alert is resolved;
    for a security scenario, the containment of the expected event was removed as well. *)
Definition success_evidence (e : ChaosExecution) (before after : Database) : Prop :=
  match security_category e.(chx_scenario_id) with
  | None => ∃ i, correlated e before i ∧ incident_in i [RESOLVED] after
  | Some category => ∃ event_id, awaited e category before event_id ∧
                                 released_and_resolved event_id after
  end.

(** Why an execution that is not of a security scenario may have failed. *)
Definition failure_evidence (e : ChaosExecution) (before after : Database) : Prop :=
  security_category e.(chx_scenario_id) = None →
  ∃ i, correlated e before i ∧ incident_in i [BLOCKED; ESCALATED] after.

(** What a round that returned made of an active execution. *)
Definition truthful (e e' : ChaosExecution) (now : datetime) (before after : Database) : Prop :=
  if e.(chx_cleanup_deadline) <=? now
  then e'.(chx_status) = EXPERIMENT_TIMED_OUT ∧ e'.(chx_completed_at) = Some now
  else e'.(chx_status) = e.(chx_status) ∨
       e'.(chx_completed_at) = Some now ∧
       (e'.(chx_status) = EXPERIMENT_SUCCEEDED ∧ success_evidence e before after ∨
        e'.(chx_status) = EXPERIMENT_FAILED ∧ failure_evidence e before after).

Lemma ended_facts e now status a e' :
  ended e now status a e' → experiment_active status = false →
  faithful_report a e' ∧ e'.(chx_status) = status ∧ e'.(chx_completed_at) = Some now.
Proof.
  intros (Ht & Hs & d0 & c & rs & d & ->) Ha. unfold faithful_report. rewrite Ht, Hs.
  destruct rs; simpl; by rewrite Ha.
Qed.

Lemma goes_on_facts e a e' :
  goes_on e a e' → experiment_active e.(chx_status) = true →
  faithful_report a e' ∧ e'.(chx_status) = e.(chx_status).
Proof. intros (Ht & Hs & d & ->) Ha. unfold faithful_report. rewrite Ht, Hs. simpl. by rewrite Ha. Qed.

Lemma round_truthful e before now a e' db :
  experiment_active e.(chx_status) = true → round_outcome e before now a e' db →
  faithful_report a e' ∧ truthful e e' now before db.
Proof.
  intros Ha Hr.
  assert (goes_on e a e' → faithful_report a e' ∧ e'.(chx_status) = e.(chx_status)) as Hgo
    by (intros H0; by apply goes_on_facts).
  unfold round_outcome, security_outcome, reliability_outcome in Hr.
  unfold truthful, success_evidence, failure_evidence.
  destruct (security_category _) as [category|] eqn:Hc; destruct (_ <=? now);
    try (by apply ended_facts in Hr as (? & ? & ?)); destruct Hr as [Hr|(i & Hi & Hr)];
    try (apply Hgo in Hr as [? ?]; by split; [|left]);
    unfold settled, settled_event in Hr; destruct Hr as [Hr|[Hr|Hr]];
    try (apply Hgo in Hr as [? ?]; by split; [|left]).
  - apply ended_facts in Hr as (? & ? & ?); [|done]. split; [done|right]. split; [done|by right].
  - destruct Hr as [Hr Hev]. apply ended_facts in Hr as (? & ? & ?); [|done].
    split; [done|right]. split; [done|left]. split; [done|by exists i].
  - destruct Hr as [Hr Hev]. apply ended_facts in Hr as (? & ? & ?); [|done].
    split; [done|right]. split; [done|left]. split; [done|by exists i].
  - destruct Hr as [Hr Hev]. apply ended_facts in Hr as (? & ? & ?); [|done].
    split; [done|right]. split; [done|right]. split; [done|]. intros _. by exists i.
Qed.

End lab.

(** ** A concrete execution *)

Definition lab_alert : AlertRecord := {|
  alr_id := 7%N; alr_created_at := 1700000100000000; alr_incident_id := Some 9%N;
  alr_source := "alertmanager"; alr_fingerprint := "f"; alr_payload_digest := "d";
  alr_alert_name := "ContainerOOMKilled"; alr_status := ALERT_FIRING; alr_severity := "critical";
  alr_service := "cloudward-demo"; alr_environment := ENV_STAGING;
  alr_namespace := Some "cloudward-staging"; alr_labels := JObj []; alr_annotations := JObj [];
  alr_starts_at := 1700000100000000; alr_ends_at := None;
  alr_last_received_at := 1700000100000000; alr_repeat_count := 0;
|}.

Definition lab_incident : Incident :=
  set_inc_state RESOLVED
    (new_incident 9%N 1700000100000000 "corr-9" "reliability.memory-pressure" "OOM" ENV_STAGING
       None None None).

(** The started execution, its alert and its resolved incident. *)
Definition lab_world : World Z :=
  bench_world (upd_alert_records (λ _, {[7%N := lab_alert]})
              (upd_incidents (λ _, {[9%N := lab_incident]}) bench_start.2.(work))).

Definition worker_token : option string :=
  Some ("Bearer " +:+ example_settings.(worker_internal_token)).
Definition lab_opa : OPAClient := opa_client "http://opa:8181/" "/v1/data/cloudward/remediation/decision".

Definition bench_reconcile (w : World Z) : res ReconcileResult * World Z :=
  reconcile_execution (Runtime0 := bench_runtime) (H := strict_pydantic) example_settings
    bench_executor lab_opa worker_token 2%N w.

(** What became of the execution. *)
Definition lab_status (w : World Z) : option ExperimentStatus :=
  chx_status <$> w.(work).(chaos_executions) !! 2%N.

Example bench_lab :
  lab_status lab_world = Some EXPERIMENT_RUNNING ∧
  lab_status (bench_reconcile lab_world).2 = Some EXPERIMENT_SUCCEEDED ∧
  map call_namespace (mutations (bench_reconcile lab_world).2) = [Some "cloudward-staging"].
Proof. vm_compute. split_and!; reflexivity. Qed.

Lemma bench_row : ∃ e, lab_world.(work).(chaos_executions) !! 2%N = Some e ∧
  experiment_active e.(chx_status) = true.
Proof. vm_compute. by eexists. Qed.


(** The scenario is started, refused a second time while it runs, and stopped. *)
Definition bench_again (w : World Z) : World Z :=
  (start_scenario (Runtime0 := bench_runtime) (H := strict_pydantic)
     (PolicyServer0 := allowing_opa) example_settings bench_executor lab_client lab_operator
     "reliability.memory-pressure" w).2.
Definition bench_stop (w : World Z) : World Z :=
  (stop_execution (Runtime0 := bench_runtime) (H := strict_pydantic)
     (PolicyServer0 := allowing_opa) example_settings bench_executor lab_opa lab_operator 2%N w).2.
Definition bench_stopped : World Z :=
  bench_stop (bench_again (bench_again (bench_world empty_database))).

Lemma execution_lifecycle_witness :
  lab_status bench_stopped = Some EXPERIMENT_CANCELLED ∧
  one_active bench_stopped.(work).(chaos_executions).
Proof.
  split; [vm_compute; reflexivity|].
  destruct (execution_lifecycle (Runtime0 := bench_runtime) (H := strict_pydantic)
    (PolicyServer0 := allowing_opa) (FinOpsServer0 := no_telemetry)
    (GitHubServer0 := values_github) example_settings bench_executor lab_opa cpu_loader
    (bench_world empty_database) bench_stopped) as (_ & Hone & _); [reflexivity| | |exact Hone].
  - intros i j e f Hi. change ((∅ : gmap uuid ChaosExecution) !! i = Some e) in Hi.
    by rewrite lookup_empty in Hi.
  - eapply rtc_l; [apply step_start|]. eapply rtc_l; [apply step_start|].
    eapply rtc_l; [apply step_stop|]. apply rtc_refl.
Defined.

(** A start whose message to the worker is refused raises, and the execution it made
    durable stays active with nobody to follow it. *)
Example unmonitored_execution :
  let run := start_scenario (Runtime0 := bench_runtime) (H := strict_pydantic)
    (PolicyServer0 := allowing_opa) example_settings bench_executor lab_client lab_operator
    "reliability.memory-pressure" (set_ext 2 (bench_world empty_database)) in
  is_ok run.1 = false ∧
  map chx_status (rows run.2.(committed).(chaos_executions)) = [EXPERIMENT_RUNNING].
Proof. vm_compute. split; reflexivity. Qed.
