(* ===== verification/ClusterAgent.v ===== *)
(** * The cluster agent's observations

    [cluster_agent/]: the bounded report a cluster agent sends, its intake
    ([ingest_report], with the routes), and the latest observation kept per cluster.
    How pydantic reads and writes a report is the class [AgentReports].  A report's
    times are UTC, as the collector makes them. *)

From S2P Require Import Prelude PyFloat Json Sha256 Effects Rbac Actions StateMachine Models World.
From S2P Require Import Config AuditLog History Incidents Redaction Memory Verification Telemetry.
From S2P Require Import WebhookAuth AiContext FinOpsEngine FinOps FinOpsApi Scenarios IncidentLab.

(** ** The schema *)

(** [KubernetesName]: [^[a-z0-9][a-z0-9.-]*$], at most 253 characters. *)
Definition name_start (c : ascii) : bool := is_lower c || is_digit c.
Definition kubernetes_name (s : string) : bool :=
  len_between 1 253 s &&
  match s with
  | String.String c s =>
      name_start c && str_forallb (λ c, name_start c || Ascii.eqb c "." || Ascii.eqb c "-") s
  | EmptyString => false
  end.

Record AgentTarget := {
  agt_namespace : string;
  agt_service : string;
  agt_deployment : string;
}.
#[export] Instance AgentTarget_eq_dec : EqDecision AgentTarget.
Proof. solve_decision. Defined.

Definition AgentTarget_valid (t : AgentTarget) : bool :=
  bool_decide (t.(agt_namespace) ∈ ["cloudward-staging"; "cloudward-production"]) &&
  kubernetes_name t.(agt_service) && kubernetes_name t.(agt_deployment).

Record PodObservation := {
  pob_name : string;
  pob_phase : string;
  pob_ready : bool;
  pob_restarts : Z;
}.

Definition PodObservation_valid (p : PodObservation) : bool :=
  kubernetes_name p.(pob_name) &&
  bool_decide (p.(pob_phase) ∈ ["Pending"; "Running"; "Succeeded"; "Failed"; "Unknown"]) &&
  within 0 1000000 p.(pob_restarts).

Record DeploymentObservation := {
  dob_generation : Z;
  dob_observed_generation : Z;
  dob_desired_replicas : Z;
  dob_ready_replicas : Z;
  dob_updated_replicas : Z;
  dob_pods : list PodObservation;
  dob_truncated : bool;
}.

Definition DeploymentObservation_valid (d : DeploymentObservation) : bool :=
  (1 <=? d.(dob_generation)) && (0 <=? d.(dob_observed_generation)) &&
  within 0 100000 d.(dob_desired_replicas) && within 0 100000 d.(dob_ready_replicas) &&
  within 0 100000 d.(dob_updated_replicas) &&
  (Z.of_nat (length d.(dob_pods)) <=? 50) && forallb PodObservation_valid d.(dob_pods).

(** An error code: [^[A-Z_]{1,64}$]. *)
Definition error_name (s : string) : bool :=
  len_between 1 64 s && str_forallb (λ c, is_upper c || Ascii.eqb c "_") s.

Record WorkloadReport := {
  wrp_target : AgentTarget;
  wrp_deployment : option DeploymentObservation;
  wrp_telemetry : list TelemetryResult;
  wrp_cost : option CostAllocation;
  wrp_errors : list string;
}.

(** [bounded_evidence], for one item. *)
Definition bounded_item (r : TelemetryResult) : bool :=
  bool_decide (r.(tr_provider) ∈ ["prometheus"; "loki"; "tempo"]) &&
  (Z.of_nat (length r.(tr_samples)) <=? 10) && (str_len r.(tr_query) <=? 2000).

Definition is_empty {A} (l : list A) : bool := match l with [] => true | _ => false end.

Definition WorkloadReport_valid (w : WorkloadReport) : bool :=
  AgentTarget_valid w.(wrp_target) &&
  match w.(wrp_deployment) with
  | Some d => DeploymentObservation_valid d
  | None => negb (is_empty w.(wrp_errors))
  end &&
  (Z.of_nat (length w.(wrp_telemetry)) <=? 5) &&
  forallb (λ r, TelemetryWindow_valid r.(tr_window) && bounded_item r) w.(wrp_telemetry) &&
  opt_all CostAllocation_valid w.(wrp_cost) &&
  (Z.of_nat (length w.(wrp_errors)) <=? 8) && forallb error_name w.(wrp_errors).

Record AgentReport := {
  rpt_report_id : uuid;
  rpt_cluster_id : uuid;
  rpt_observed_at : datetime;
  rpt_workloads : list WorkloadReport;
}.

Definition target_key (w : WorkloadReport) : string * string :=
  (w.(wrp_target).(agt_namespace), w.(wrp_target).(agt_service)).

(** [consistent_observations]. *)
Definition consistent_observations (r : AgentReport) : bool :=
  bool_decide (NoDup (map target_key r.(rpt_workloads))) &&
  forallb (λ w, forallb (λ t, Z.abs (t.(tr_window).(tw_end) - r.(rpt_observed_at)) <=? seconds 120)
                  w.(wrp_telemetry)) r.(rpt_workloads).

Definition AgentReport_valid (r : AgentReport) : bool :=
  (1 <=? Z.of_nat (length r.(rpt_workloads))) && (Z.of_nat (length r.(rpt_workloads)) <=? 4) &&
  forallb WorkloadReport_valid r.(rpt_workloads) && consistent_observations r.

Record AgentReceipt := {
  rcp_report_id : uuid;
  rcp_duplicate : bool;
  rcp_attached_incidents : Z;
  rcp_status : string;
}.

(** [model_dump_json()], and the shape of [model_validate_json] before the constraints. *)
Class AgentReports := {
  report_json : AgentReport → string;
  parse_report : list N → option AgentReport;
}.

(** ** Documents *)

Section documents.
Context {dump : FinOpsDump}.

(** A value of a sample in a document: only a float is written differently. *)
Fixpoint dump_any (j : json) : json :=
  match j with
  | JFloat f => dump_float f
  | JArr l => JArr (map dump_any l)
  | JObj d => JObj (map (λ kv, (kv.1, dump_any kv.2)) d)
  | _ => j
  end.

Definition AgentTarget_dump (t : AgentTarget) : json :=
  JObj [("namespace", JStr t.(agt_namespace)); ("service", JStr t.(agt_service));
        ("deployment", JStr t.(agt_deployment))].

Definition PodObservation_dump (p : PodObservation) : json :=
  JObj [("name", JStr p.(pob_name)); ("phase", JStr p.(pob_phase)); ("ready", JBool p.(pob_ready));
        ("restarts", JInt p.(pob_restarts))].

Definition DeploymentObservation_dump (d : DeploymentObservation) : json :=
  JObj [("generation", JInt d.(dob_generation));
        ("observed_generation", JInt d.(dob_observed_generation));
        ("desired_replicas", JInt d.(dob_desired_replicas));
        ("ready_replicas", JInt d.(dob_ready_replicas));
        ("updated_replicas", JInt d.(dob_updated_replicas));
        ("pods", JArr (map PodObservation_dump d.(dob_pods)));
        ("truncated", JBool d.(dob_truncated))].

Definition TelemetryResult_dump (r : TelemetryResult) : json :=
  JObj [("provider", JStr r.(tr_provider)); ("query", JStr r.(tr_query));
        ("window", JObj [("start", JTime r.(tr_window).(tw_start));
                         ("end", JTime r.(tr_window).(tw_end));
                         ("step_seconds", JInt r.(tr_window).(tw_step_seconds))]);
        ("samples", JArr (map (λ d, dump_any (JObj d)) r.(tr_samples)));
        ("truncated", JBool r.(tr_truncated)); ("reference", JOptStr r.(tr_reference))].

Definition WorkloadReport_dump (w : WorkloadReport) : json :=
  JObj [("target", AgentTarget_dump w.(wrp_target));
        ("deployment", opt_json DeploymentObservation_dump w.(wrp_deployment));
        ("telemetry", JArr (map TelemetryResult_dump w.(wrp_telemetry)));
        ("cost", opt_json (CostAllocation_dump_with dump_float) w.(wrp_cost));
        ("errors", JStrs w.(wrp_errors))].

(** [report.model_dump(mode="json")]. *)
Definition AgentReport_dump (r : AgentReport) : json :=
  JObj [("schema_version", JInt 1); ("report_id", JStr (uuid_str r.(rpt_report_id)));
        ("cluster_id", JStr (uuid_str r.(rpt_cluster_id)));
        ("observed_at", JTime r.(rpt_observed_at));
        ("workloads", JArr (map WorkloadReport_dump r.(rpt_workloads)))].
End documents.

(** ** The intake *)

Definition COLLECTOR : string := "cloudward-cluster-agent".
(** The states an observation is no longer attached in; not [StateMachine.TERMINAL_STATES]. *)
Definition AGENT_TERMINAL_STATES : list IncidentState := [RESOLVED].
Definition MAX_REPORT_BYTES : Z := 524288.

(** [connection_status]. *)
Definition connection_status (state : ClusterAgentState) (max_age : Z) (current : datetime)
  : string :=
  let age := current - state.(cas_observed_at) in
  if (- seconds 30 <=? age) && (age <=? seconds max_age) then state.(cas_status) else "STALE".

Definition agent_denied (code message : string) (status : Z) : exn :=
  cw_error_status code message status.

(** Whether a service is the target of a workload. *)
Definition serves (cluster_id : uuid) (t : AgentTarget) (s : Service) : bool :=
  bool_decide (s.(svc_cluster_id) = cluster_id) &&
  String.eqb s.(svc_namespace) t.(agt_namespace) && String.eqb s.(svc_name) t.(agt_service) &&
  String.eqb s.(svc_deployment_name) t.(agt_deployment).

(** [registered.get((namespace, service, deployment))]: the last service of the key. *)
Definition registered (cluster_id : uuid) (t : AgentTarget) (db : Database) : option Service :=
  last (List.filter (serves cluster_id t) (rows db.(services))).

(** ["DEGRADED" if any(item.errors for item in report.workloads) else "CONNECTED"]. *)
Definition reported_status (r : AgentReport) : string :=
  if existsb (λ w, negb (is_empty w.(wrp_errors))) r.(rpt_workloads)
  then "DEGRADED" else "CONNECTED".

(** The incidents an observation of a service is attached to, the newest first. *)
Definition open_incidents (cluster_id service_id : uuid) (db : Database) : list Incident :=
  take 20 (isort (λ a b, b.(inc_created_at) <=? a.(inc_created_at))
    (List.filter (λ i, bool_decide (i.(inc_cluster_id) = Some cluster_id) &&
                       bool_decide (i.(inc_service_id) = Some service_id) &&
                       negb (bool_decide (i.(inc_state) ∈ AGENT_TERMINAL_STATES)))
       (rows db.(incidents)))).

(** [func.max(EvidenceSnapshot.created_at)] of the evidence the agent collected. *)
Definition agent_evidence (incident_id : uuid) (e : EvidenceSnapshot) : bool :=
  bool_decide (e.(evd_incident_id) = incident_id) && String.eqb e.(evd_collected_by) COLLECTOR.
Definition last_observed (incident_id : uuid) (l : list EvidenceSnapshot) : option datetime :=
  evd_created_at <$> latest evd_created_at (agent_evidence incident_id) l.

(** Less than a minute since the last observation of an incident. *)
Definition observed_recently (current : datetime) (seen : option datetime) : bool :=
  match seen with Some t => current - t <? seconds 60 | None => false end.

(** The type of evidence of a provider. *)
Definition telemetry_kind (provider : string) : res EvidenceType :=
  if String.eqb provider "prometheus" then Ok METRIC_SUMMARY
  else if String.eqb provider "loki" then Ok LOG_SUMMARY
  else if String.eqb provider "tempo" then Ok TRACE_SUMMARY
  else Raise (PyError "KeyError" provider).

Section intake.
Context {X : Type} `{!Runtime X} {dump : FinOpsDump} {reports : AgentReports}.
Context (settings : Settings).

(** The row of one observation. *)
Definition agent_snapshot (id : uuid) (now : datetime) (incident : Incident)
    (evidence_type : EvidenceType) (summary : string) (query_text : option string)
    (window_start window_end : option datetime) (payload : json) : EvidenceSnapshot :=
  {| evd_id := id; evd_incident_id := incident.(inc_id); evd_created_at := now;
     evd_correlation_id := incident.(inc_correlation_id); evd_evidence_type := evidence_type;
     evd_summary := summary; evd_reference := None; evd_query := query_text;
     evd_window_start := window_start; evd_window_end := window_end;
     evd_phase := PHASE_INCIDENT; evd_payload := payload; evd_collected_by := COLLECTOR |}.

Definition add_snapshot (snapshot : uuid → EvidenceSnapshot) : M (World X) unit :=
  let! id := uuid4 in
  update_db (upd_evidence_snapshots (λ l, l ++ [snapshot id])).

(** Where an observation comes from. *)
Definition provenance (r : AgentReport) (w : WorkloadReport) : dict :=
  [("report_id", JStr (uuid_str r.(rpt_report_id)));
   ("observed_at", JStr (isoformat r.(rpt_observed_at)));
   ("target", AgentTarget_dump w.(wrp_target)); ("source", JStr COLLECTOR)].

(** [add_incident_evidence]. *)
Definition add_agent_evidence (r : AgentReport) (w : WorkloadReport) (incident : Incident)
    (now : datetime) : M (World X) unit :=
  do! add_snapshot (λ id, agent_snapshot id now incident KUBERNETES_STATE
        "Agent-observed deployment state; not an authorization or verification result" None None
        (Some r.(rpt_observed_at))
        (redact (JObj (dict_update (provenance r w)
           [("deployment", opt_json DeploymentObservation_dump w.(wrp_deployment));
            ("collection_errors", JStrs w.(wrp_errors))]))));
  do! for_each w.(wrp_telemetry) (λ item,
        let! kind := lift (telemetry_kind item.(tr_provider)) in
        add_snapshot (λ id, agent_snapshot id now incident kind
          ("Bounded agent " +:+ item.(tr_provider) +:+ " observation")
          (Some (redact_text item.(tr_query))) (Some item.(tr_window).(tw_start))
          (Some item.(tr_window).(tw_end))
          (redact (JObj (dict_update (provenance r w)
             [("samples", JArr (map JObj item.(tr_samples)));
              ("truncated", JBool item.(tr_truncated))])))));
  match w.(wrp_cost) with
  | None => ret tt
  | Some cost =>
      add_snapshot (λ id, agent_snapshot id now incident EVIDENCE_FINOPS
        "Agent-observed OpenCost allocation; not an estimated saving" None None
        (Some r.(rpt_observed_at))
        (JObj (dict_update (provenance r w)
           [("allocation", CostAllocation_dump_with dump_float cost)])))
  end.

(** An incident gets the observation, unless it got one within the minute. *)
Definition attach (r : AgentReport) (w : WorkloadReport) (current : datetime)
    (seen : list EvidenceSnapshot) (attached : Z) (incident : Incident) : M (World X) Z :=
  if observed_recently current (last_observed incident.(inc_id) seen) then ret attached
  else
    do! add_agent_evidence r w incident current;
    do! append_stream_event "incident.evidence_added" (Some incident.(inc_id))
          [("source", JStr COLLECTOR); ("report_id", JStr (uuid_str r.(rpt_report_id)))];
    ret (attached + 1).

Fixpoint attach_all (r : AgentReport) (w : WorkloadReport) (current : datetime)
    (seen : list EvidenceSnapshot) (attached : Z) (l : list Incident) : M (World X) Z :=
  match l with
  | [] => ret attached
  | incident :: l =>
      let! attached := attach r w current seen attached incident in
      attach_all r w current seen attached l
  end.

(** The open incidents of a workload. *)
Definition attach_workload (r : AgentReport) (current : datetime) (attached : Z)
    (w : WorkloadReport) : M (World X) Z :=
  let! service := query (registered r.(rpt_cluster_id) w.(wrp_target)) in
  match service with
  | None => raise (PyError "KeyError" "registered")
  | Some service =>
      let! l := query (open_incidents r.(rpt_cluster_id) service.(svc_id)) in
      let! seen := query evidence_snapshots in
      attach_all r w current seen attached l
  end.

Fixpoint attach_workloads (r : AgentReport) (current : datetime) (attached : Z)
    (l : list WorkloadReport) : M (World X) Z :=
  match l with
  | [] => ret attached
  | w :: l =>
      let! attached := attach_workload r current attached w in
      attach_workloads r current attached l
  end.

(** The receipt of a report that is already the current one. *)
Definition known_report (state : ClusterAgentState) (r : AgentReport) (digest : string)
  : res AgentReceipt :=
  if String.eqb state.(cas_report_digest) digest then
    Ok {| rcp_report_id := r.(rpt_report_id); rcp_duplicate := true; rcp_attached_incidents := 0;
          rcp_status := if String.eqb state.(cas_status) "CONNECTED" then "CONNECTED"
                        else "DEGRADED" |}
  else Raise (agent_denied "AGENT_REPORT_CONFLICT"
                "Report ID was reused with different content" 409).

(** What a new report must satisfy against the current one. *)
Definition follows (state : option ClusterAgentState) (r : AgentReport) (current : datetime)
  : res unit :=
  match state with
  | None => Ok tt
  | Some s =>
      if r.(rpt_observed_at) <=? s.(cas_observed_at) then
        Raise (agent_denied "AGENT_REPORT_OUT_OF_ORDER"
                 "An older observation cannot replace current evidence" 409)
      else if current - s.(cas_received_at) <? seconds 10 then
        Raise (agent_denied "AGENT_REPORT_RATE_LIMITED"
                 "At most one report per ten seconds is accepted" 429)
      else Ok tt
  end.

(** Every workload names a registered target. *)
Definition all_registered (r : AgentReport) (db : Database) : bool :=
  forallb (λ w, bool_decide (is_Some (registered r.(rpt_cluster_id) w.(wrp_target) db)))
    r.(rpt_workloads).

Definition observed_state (r : AgentReport) (digest : string) (current : datetime)
    (payload : json) : ClusterAgentState :=
  {| cas_cluster_id := r.(rpt_cluster_id); cas_report_id := r.(rpt_report_id);
     cas_report_digest := digest; cas_observed_at := r.(rpt_observed_at);
     cas_received_at := current; cas_status := reported_status r; cas_payload := payload |}.

(** A report of a registered cluster that is not the current one, from the check of its
    order on. *)
Definition accept_report (r : AgentReport) (state : option ClusterAgentState) (digest : string)
    (current : datetime) : M (World X) AgentReceipt :=
  do! lift (follows state r current);
  let! known := query (all_registered r) in
  do! raise_if (negb known)
        (agent_denied "AGENT_TARGET_DENIED" "Agent may report only registered workload targets" 403);
  let status := reported_status r in
  let previous := (λ s, connection_status s settings.(cluster_agent_freshness_seconds) current)
                  <$> state in
  let payload := redact (AgentReport_dump r) in
  do! raise_if (MAX_REPORT_BYTES <? str_len (dumps payload))
        (agent_denied "AGENT_REPORT_TOO_LARGE" "Normalized report exceeded its byte bound" 413);
  do! update_db (upd_cluster_agent_states
        (λ t, <[r.(rpt_cluster_id) := observed_state r digest current payload]> t));
  let! attached := attach_workloads r current 0 r.(rpt_workloads) in
  do! when (negb (bool_decide (previous = Some status)))
        (record_audit_system "CLUSTER_AGENT_STATUS_CHANGED" (uuid_str r.(rpt_report_id)) None None
           None status
           [("cluster_id", JStr (uuid_str r.(rpt_cluster_id)));
            ("previous_status", JOptStr previous); ("status", JStr status)]);
  do! append_stream_event "cluster.observation" None
        [("cluster_id", JStr (uuid_str r.(rpt_cluster_id)));
         ("observed_at", JStr (isoformat r.(rpt_observed_at))); ("status", JStr status)];
  do! flush;
  ret {| rcp_report_id := r.(rpt_report_id); rcp_duplicate := false;
         rcp_attached_incidents := attached; rcp_status := status |}.

(** Neither too old nor from the future. *)
Definition fresh (r : AgentReport) (current : datetime) : bool :=
  let age := current - r.(rpt_observed_at) in
  (- seconds 30 <=? age) && (age <=? seconds settings.(cluster_agent_freshness_seconds)).
Definition stale_report : exn :=
  agent_denied "AGENT_REPORT_STALE" "Report is stale or its clock is ahead" 422.

(** [ingest_report]. *)
Definition ingest_report (r : AgentReport) : M (World X) AgentReceipt :=
  let! current := utc_now in
  do! raise_if (negb (bool_decide (settings.(cluster_agent_cluster_id) = Some r.(rpt_cluster_id))))
        (agent_denied "AGENT_CLUSTER_DENIED" "Agent identity is not authorized for this cluster" 403);
  do! raise_if (negb (fresh r current)) stale_report;
  let! cluster := query (λ db, db.(clusters) !! r.(rpt_cluster_id)) in
  do! raise_if (bool_decide (cluster = None))
        (agent_denied "CLUSTER_NOT_FOUND" "Register the cluster before enabling its agent" 404);
  let! state := query (λ db, db.(cluster_agent_states) !! r.(rpt_cluster_id)) in
  let digest := sha256_hex (report_json r) in
  match state with
  | Some s =>
      if bool_decide (s.(cas_report_id) = r.(rpt_report_id)) then lift (known_report s r digest)
      else accept_report r (Some s) digest current
  | None => accept_report r None digest current
  end.

(** ** The routes *)

(** The part of a request the route reads. *)
Record AgentRequest := {
  agq_authorization : string;
  agq_body : WebhookRequest;
}.

Definition invalid_report : exn :=
  agent_denied "AGENT_REPORT_INVALID" "Agent report did not match the bounded schema" 422.

(** [AgentReport.model_validate_json]. *)
Definition validate_report (raw : list N) : res AgentReport :=
  match parse_report raw with
  | Some r => if AgentReport_valid r then Ok r else Raise invalid_report
  | None => Raise invalid_report
  end.

(** The token of the agent. *)
Definition authenticate_agent (authorization : string) : res unit :=
  res_bind (compare_digest authorization ("Bearer " +:+ settings.(cluster_agent_token)))
    (λ same, if same : bool then Ok tt
             else Raise (agent_denied "AGENT_AUTHENTICATION_FAILED" "Agent authentication failed" 401)).

(** [agent_report]. *)
Definition agent_report (q : AgentRequest) : M (World X) AgentReceipt :=
  with_session (
    do! raise_if (negb settings.(cluster_agent_enabled))
          (agent_denied "AGENT_DISABLED" "Cluster agent intake is disabled" 503);
    do! lift (authenticate_agent q.(agq_authorization));
    let! raw := lift (read_bounded_body q.(agq_body) MAX_REPORT_BYTES "AGENT_REPORT_TOO_LARGE") in
    let! r := lift (validate_report raw) in
    let! receipt := ingest_report r in
    do! commit;
    ret receipt).

(** [agent_status]. *)
Definition agent_status (viewer : Principal) (cluster_id : uuid) : M (World X) dict :=
  with_session (
    do! lift (require_permission PLATFORM_READ viewer);
    let! cluster := query (λ db, db.(clusters) !! cluster_id) in
    do! raise_if (bool_decide (cluster = None))
          (agent_denied "CLUSTER_NOT_FOUND" "Cluster was not found" 404);
    let! state := query (λ db, db.(cluster_agent_states) !! cluster_id) in
    match state with
    | None => ret [("cluster_id", JStr (uuid_str cluster_id)); ("status", JStr "NOT_REPORTED");
                   ("observation", JNull)]
    | Some s =>
        let! now := utc_now in
        ret [("cluster_id", JStr (uuid_str cluster_id));
             ("status",
                JStr (connection_status s settings.(cluster_agent_freshness_seconds) now));
             ("received_at", JTime s.(cas_received_at)); ("observed_at", JTime s.(cas_observed_at));
             ("observation", s.(cas_payload)); ("authority", JStr "evidence_only")]
    end).
End intake.
