(* ===== verification/AgentRuns.v ===== *)
(** * What the cluster agent can do

    Runs of the intake of [ClusterAgent]: an observation adds evidence and replaces the
    latest observation of its cluster, and nothing else; a report counts once; what is
    kept only moves forward. *)

From S2P Require Import Prelude PyFloat Json Sha256 Effects Rbac Actions StateMachine Models World.
From S2P Require Import Config AuditLog History Incidents Redaction Memory Verification Telemetry.
From S2P Require Import WebhookAuth FinOpsEngine FinOps FinOpsApi Scenarios IncidentLab LabFrames.
From S2P Require Import LabRuns ClusterAgent.

(** Everything but the observations, the audit log and the outbox. *)
Definition besides_observations (db : Database) : Database :=
  upd_evidence_snapshots (λ _, []) (upd_cluster_agent_states (λ _, ∅)
    (upd_audit_events (λ _, []) (upd_stream_events (λ _, []) db))).

(** Evidence an observation may add: it is the collector's, of the time of the intake,
    for an incident that is still open, and at least a minute after what the collector
    saw of that incident before. *)
Record observed_now (current : datetime) (seen : list EvidenceSnapshot) (open : list Incident)
    (e : EvidenceSnapshot) : Prop := {
  obs_collector : e.(evd_collected_by) = COLLECTOR;
  obs_created : e.(evd_created_at) = current;
  obs_incident : ∃ i, i ∈ open ∧ i.(inc_id) = e.(evd_incident_id) ∧ i.(inc_state) ≠ RESOLVED;
  obs_spaced : ∀ f, f ∈ seen → agent_evidence e.(evd_incident_id) f = true →
                 f.(evd_created_at) + seconds 60 ≤ current;
}.

(** No two observations of an incident within a minute of each other. *)
Definition spaced (l : list EvidenceSnapshot) : Prop := ∀ i e f,
  e ∈ l → f ∈ l → agent_evidence i e = true → agent_evidence i f = true →
  e.(evd_created_at) = f.(evd_created_at) ∨
  seconds 60 ≤ Z.abs (e.(evd_created_at) - f.(evd_created_at)).

Lemma observed_now_self e current seen open :
  observed_now current seen open e → agent_evidence e.(evd_incident_id) e = true.
Proof.
  intros [Hc _ _ _]. unfold agent_evidence. by rewrite Hc, bool_decide_eq_true_2, String.eqb_refl.
Qed.

Lemma agent_evidence_incident i e : agent_evidence i e = true → e.(evd_incident_id) = i.
Proof. unfold agent_evidence. intros [H%bool_decide_eq_true _]%andb_true_iff. done. Qed.

Lemma spaced_app l new current open :
  spaced l → Forall (observed_now current l open) new → spaced (l ++ new).
Proof.
  intros Hl Hnew i e f He Hf Hie Hif. rewrite Forall_forall in Hnew.
  apply elem_of_app in He as [He|He]; apply elem_of_app in Hf as [Hf|Hf]; [by eapply Hl|..].
  - pose proof (Hnew _ Hf) as [_ Hc _ Hs]. apply agent_evidence_incident in Hif as Hi.
    rewrite <- Hi in Hie. specialize (Hs _ He Hie). right. lia.
  - pose proof (Hnew _ He) as [_ Hc _ Hs]. apply agent_evidence_incident in Hie as Hi.
    rewrite <- Hi in Hif. specialize (Hs _ Hf Hif). right. lia.
  - left. by rewrite (obs_created _ _ _ _ (Hnew _ He)), (obs_created _ _ _ _ (Hnew _ Hf)).
Qed.

(** Not observed within the minute. *)
Lemma not_observed_recently current i l :
  observed_recently current (last_observed i l) = false →
  ∀ f, f ∈ l → agent_evidence i f = true → f.(evd_created_at) + seconds 60 ≤ current.
Proof.
  unfold observed_recently, last_observed. destruct (latest _ _ l) as [e|] eqn:He; simpl.
  - apply latest_Some in He as (_ & _ & Hmax). rewrite Z.ltb_ge. intros Hle f Hf Hif.
    specialize (Hmax f Hf Hif). lia.
  - rewrite latest_None in He. intros _ f Hf Hif. by rewrite He in Hif.
Qed.

Lemma observed_now_prefix current l l' open e :
  (∀ f, f ∈ l → f ∈ l') → observed_now current l' open e → observed_now current l open e.
Proof. intros Hsub [Hc Ht Hi Hs]. split; [done..|]. intros f Hf. apply Hs. auto. Qed.

Section runs.
Context {X : Type} `{!Runtime X} {dump : FinOpsDump} {reports : AgentReports}.
Context (settings : Settings).
Abbreviation ev w := w.(work).(evidence_snapshots).

(** ** Frames *)

(** Neither the trace, nor what is durable, nor another table. *)
Definition observing (w w' : World X) : Prop :=
  w'.(trace) = w.(trace) ∧ w'.(committed) = w.(committed) ∧
  besides_observations w'.(work) = besides_observations w.(work).
#[global] Instance observing_evolution : Evolution observing.
Proof.
  split; [by intros w|]. intros w1 w2 w3 (? & ? & ?) (? & ? & ?). split_and!; congruence.
Qed.

Lemma observing_intro {A} (m : M (World X) A) :
  evolves same_trace m → evolves same_committed m → evolves (same_db besides_observations) m →
  evolves observing m.
Proof. intros H1 H2 H3 w. split_and!; [apply H1|apply H2|apply H3]. Qed.

Lemma attach_all_frame R `{!Evolution R} r w current seen n l :
  (∀ i n, evolves R (attach r w current seen n i)) →
  evolves R (attach_all (X:=X) r w current seen n l).
Proof.
  intros Hi. revert n. induction l as [|i l IH]; intros n; simpl; [evolve|].
  apply evolves_bind; [tc_solve|apply Hi|auto].
Qed.

Lemma attach_workloads_frame R `{!Evolution R} r current n l :
  (∀ n w, evolves R (attach_workload r current n w)) →
  evolves R (attach_workloads (X:=X) r current n l).
Proof.
  intros Hi. revert n. induction l as [|i l IH]; intros n; simpl; [evolve|].
  apply evolves_bind; [tc_solve|apply Hi|auto].
Qed.

Lemma attach_observing r w current seen n i :
  evolves observing (attach (X:=X) r w current seen n i).
Proof.
  apply observing_intro; unfold attach, add_agent_evidence, add_snapshot; evolve.
Qed.

Lemma attach_states r w current seen n i :
  evolves (same_db (X:=X) cluster_agent_states) (attach r w current seen n i).
Proof. unfold attach, add_agent_evidence, add_snapshot. evolve. Qed.

(** ** The evidence that is added *)

Definition collects (P : EvidenceSnapshot → Prop) : relation (World X) := λ w w',
  log_extends P (ev w) (ev w').
#[global] Instance collects_evolution P : Evolution (collects P).
Proof.
  split; [intros w; by unfold collects|]. intros w1 w2 w3 H1 H2. unfold collects in *. by etrans.
Qed.

Lemma collects_same {A} P (m : M (World X) A) :
  evolves (same_db evidence_snapshots) m → evolves (collects P) m.
Proof. intros Hm w. unfold collects. rewrite (Hm w). reflexivity. Qed.

Lemma add_snapshot_collects P s : (∀ id, P (s id)) → evolves (collects P) (add_snapshot (X:=X) s).
Proof.
  intros HP w. unfold add_snapshot, bind, uuid4, external, update_db, modify, collects. simpl.
  by apply log_extends_snoc.
Qed.

(** An incident of [open] that was not observed within the minute. *)
Lemma attach_collects r w current seen open n i :
  i ∈ open → i.(inc_state) ≠ RESOLVED →
  evolves (collects (observed_now current seen open)) (attach (X:=X) r w current seen n i).
Proof.
  intros Hin Hst. unfold attach. destruct (observed_recently _ _) eqn:Hr; [evolve|].
  assert (∀ id type summary q a b p,
    observed_now current seen open (agent_snapshot id current i type summary q a b p)) as Hobs.
  { intros. split; [done|done|by exists i|]. by apply not_observed_recently. }
  unfold add_agent_evidence.
  repeat first [ evolve_step | apply add_snapshot_collects; intros; apply Hobs
               | apply collects_same; evolve ].
Qed.

Lemma attach_all_collects r w current seen open n l :
  (∀ i, i ∈ l → i ∈ open ∧ i.(inc_state) ≠ RESOLVED) →
  evolves (collects (observed_now current seen open)) (attach_all (X:=X) r w current seen n l).
Proof.
  revert n. induction l as [|i l IH]; intros n Hl; simpl; [evolve|].
  apply evolves_bind; [tc_solve| |intros n'].
  - destruct (Hl i) as [Hi Hs]; [by left|]. by apply attach_collects.
  - apply IH. intros j Hj. apply Hl. by right.
Qed.

Lemma open_incidents_elem cluster service db i :
  i ∈ open_incidents cluster service db → i ∈ rows db.(incidents) ∧ i.(inc_state) ≠ RESOLVED.
Proof.
  unfold open_incidents. intros (k & Hi%list_elem_of_lookup_2 & _)%elem_of_take.
  rewrite isort_elem in Hi. apply list_elem_of_In, filter_In in Hi as [Hi Hp].
  split; [by apply list_elem_of_In|]. intros Hr. apply andb_true_iff in Hp as [_ Hp].
  by rewrite Hr in Hp.
Qed.

(** Evidence added by a run is all spaced from what was there before the run. *)
Definition observes (current : datetime) : relation (World X) := λ w w',
  observing w w' ∧ w'.(work).(cluster_agent_states) = w.(work).(cluster_agent_states) ∧
  log_extends (observed_now current (ev w) (rows w.(work).(incidents))) (ev w) (ev w').

Lemma besides_incidents (db db' : Database) :
  besides_observations db' = besides_observations db → db'.(incidents) = db.(incidents).
Proof. intros H. exact (f_equal incidents H). Qed.

#[global] Instance observes_evolution current : Evolution (observes current).
Proof.
  split.
  - intros w. by split_and!.
  - intros w1 w2 w3 (O1 & C1 & l1 & E1 & P1) (O2 & C2 & l2 & E2 & P2).
    split; [eapply (evolves_trans observing); eassumption|]. split; [congruence|].
    exists (l1 ++ l2). rewrite E2, E1, app_assoc. split; [done|]. apply Forall_app. split; [done|].
    destruct O1 as (_ & _ & Hb). apply besides_incidents in Hb. rewrite Hb in P2.
    eapply Forall_impl; [exact P2|]. intros e. apply observed_now_prefix. intros f Hf.
    rewrite E1. apply elem_of_app. by left.
Qed.

Lemma attach_workload_observes r current n w :
  evolves (observes current) (attach_workload (X:=X) r current n w).
Proof.
  intros w0. split; [|split].
  - unfold attach_workload. revert w0. change (evolves observing (attach_workload (X:=X) r current n w)).
    unfold attach_workload. apply evolves_bind; [tc_solve|by apply observing_intro; evolve|].
    intros [service|]; [|by apply observing_intro; evolve].
    apply evolves_bind; [tc_solve|by apply observing_intro; evolve|intros l].
    apply evolves_bind; [tc_solve|by apply observing_intro; evolve|intros seen].
    apply attach_all_frame; [tc_solve|]. intros. apply attach_observing.
  - revert w0. change (evolves (same_db (X:=X) cluster_agent_states) (attach_workload r current n w)).
    unfold attach_workload. evolve. apply attach_all_frame; [tc_solve|]. intros. apply attach_states.
  - unfold attach_workload, bind at 1, query, gets.
    destruct (registered _ _ _) as [service|]; [|reflexivity].
    unfold bind. apply attach_all_collects. intros i Hi. by apply open_incidents_elem in Hi.
Qed.

Lemma attach_workloads_observes r current n l :
  evolves (observes current) (attach_workloads (X:=X) r current n l).
Proof. apply attach_workloads_frame; [tc_solve|]. intros. apply attach_workload_observes. Qed.

(** ** A report *)

Ltac observing_step :=
  lazymatch goal with
  | |- evolves observing (bind _ _) => apply evolves_bind; [tc_solve| |intros ?]
  | |- evolves observing (attach_workloads _ _ _ _) =>
      intros ?; apply attach_workloads_observes
  | |- _ => by apply observing_intro; evolve
  end.

Lemma accept_report_observing r state digest current :
  evolves observing (accept_report settings r state digest current).
Proof. unfold accept_report. cbv zeta. repeat observing_step. Qed.

Lemma ingest_report_observing r : evolves observing (ingest_report settings r).
Proof.
  unfold ingest_report. cbv zeta. repeat observing_step.
  match goal with o : option ClusterAgentState |- _ => destruct o end;
    [destruct (bool_decide _)|]; try apply accept_report_observing.
  by apply observing_intro; evolve.
Qed.

(** The payload that is kept of a report. *)
Definition kept_payload (r : AgentReport) : json := redact (AgentReport_dump r).

(** What an accepted report did. *)
Definition accepted (state : option ClusterAgentState) (r : AgentReport) (current : datetime)
    (c : AgentReceipt) (w w' : World X) : Prop :=
  follows state r current = Ok tt ∧ c.(rcp_duplicate) = false ∧
  c.(rcp_report_id) = r.(rpt_report_id) ∧ c.(rcp_status) = reported_status r ∧
  str_len (dumps (kept_payload r)) ≤ MAX_REPORT_BYTES ∧
  w'.(work).(cluster_agent_states)
    = <[r.(rpt_cluster_id) := observed_state r (sha256_hex (report_json r)) current
                                (kept_payload r)]> w.(work).(cluster_agent_states) ∧
  log_extends (observed_now current (ev w) (rows w.(work).(incidents))) (ev w) (ev w').

Lemma accept_report_run r state current c (w w' : World X) :
  accept_report settings r state (sha256_hex (report_json r)) current w = (Ok c, w') →
  accepted state r current c w w'.
Proof.
  intros Hrun. unfold accept_report in Hrun.
  apply bind_ok in Hrun as (v & w1 & [Hf ->]%lift_ok & Hrun).
  apply bind_ok in Hrun as (known & w1 & Hk & Hrun). injection Hk as _ <-.
  apply bind_ok in Hrun as (u & w1 & [_ ->]%raise_if_ok & Hrun). cbv zeta in Hrun.
  apply bind_ok in Hrun as (u' & w1 & [Hsize ->]%raise_if_ok & Hrun).
  apply bind_ok in Hrun as (u'' & w1 & Hup & Hrun). injection Hup as _ <-.
  apply bind_ok in Hrun as (n & w2 & Hat & Hrun).
  apply (evolves_run _ _ _ _ _ (attach_workloads_observes _ _ _ _)) in Hat as (_ & Hc & He).
  apply bind_ok in Hrun as (u3 & w3 & Hau & Hrun).
  apply bind_ok in Hrun as (u4 & w4 & Hst & Hrun).
  apply bind_ok in Hrun as (u5 & w5 & Hfl & Hrun). injection Hfl as _ <-. injection Hrun as <- <-.
  apply (evolves_run (same_db (λ db, (db.(cluster_agent_states), db.(evidence_snapshots)))))
    in Hau; [|evolve].
  apply (evolves_run (same_db (λ db, (db.(cluster_agent_states), db.(evidence_snapshots)))))
    in Hst; [|evolve].
  unfold same_db, stable in Hau, Hst. rewrite Hau in Hst. injection Hst as Hc4 He4.
  destruct v. split_and!; [done..|by apply Z.ltb_ge|rewrite Hc4; exact Hc|rewrite He4; exact He].
Qed.

(** What a report that was taken did: it was the current one already, or it was new. *)
Definition taken (r : AgentReport) (current : datetime) (c : AgentReceipt) (w w' : World X)
  : Prop :=
  settings.(cluster_agent_cluster_id) = Some r.(rpt_cluster_id) ∧
  fresh settings r current = true ∧
  is_Some (w.(work).(clusters) !! r.(rpt_cluster_id)) ∧
  match w.(work).(cluster_agent_states) !! r.(rpt_cluster_id) with
  | Some s =>
      if bool_decide (s.(cas_report_id) = r.(rpt_report_id))
      then known_report s r (sha256_hex (report_json r)) = Ok c ∧ w'.(work) = w.(work)
      else accepted (Some s) r current c w w'
  | None => accepted None r current c w w'
  end.

Lemma ingest_report_run r c (w w' : World X) :
  ingest_report settings r w = (Ok c, w') → taken r (rt_now w.(ext)).1 c w w'.
Proof.
  intros Hrun. unfold ingest_report in Hrun.
  unfold bind at 1, utc_now, external in Hrun. set (current := (rt_now w.(ext)).1) in *.
  set (w0 := set_ext _ w) in Hrun.
  apply bind_ok in Hrun as (u & w1 & [Hc ->]%raise_if_ok & Hrun).
  apply negb_false_iff, bool_decide_eq_true in Hc.
  apply bind_ok in Hrun as (u' & w1 & [Hf ->]%raise_if_ok & Hrun). apply negb_false_iff in Hf.
  apply bind_ok in Hrun as (cluster & w1 & Hq & Hrun). injection Hq as Hcl <-.
  apply bind_ok in Hrun as (u'' & w1 & [Hn ->]%raise_if_ok & Hrun).
  apply bool_decide_eq_false in Hn.
  apply bind_ok in Hrun as (state & w1 & Hq & Hrun). injection Hq as Hs <-. cbv zeta in Hrun.
  split; [done|]. split; [done|]. split; [rewrite Hcl; by apply not_eq_None_Some|].
  change (work w0) with (work w) in Hs. rewrite Hs. destruct state as [s|].
  - destruct (bool_decide _); [by apply lift_ok in Hrun as [? ->]|by apply accept_report_run in Hrun].
  - by apply accept_report_run in Hrun.
Qed.

Lemma authenticate_agent_ok authorization :
  authenticate_agent settings authorization = Ok tt →
  authorization = "Bearer " +:+ settings.(cluster_agent_token).
Proof.
  intros (same & Hcmp & Hsame)%res_bind_ok. destruct same; [|done].
  unfold compare_digest in Hcmp. destruct (_ && _); [|done]. injection Hcmp as Heq.
  by apply String.eqb_eq.
Qed.

Lemma agent_report_run q (w w' : World X) res :
  w.(committed) = w.(work) → agent_report settings q w = (res, w') →
  w'.(committed) = w'.(work) ∧ w'.(trace) = w.(trace) ∧
  match res with
  | Raise _ => w'.(work) = w.(work)
  | Ok c =>
      besides_observations w'.(work) = besides_observations w.(work) ∧
      settings.(cluster_agent_enabled) = true ∧
      authenticate_agent settings q.(agq_authorization) = Ok tt ∧
      ∃ raw r, read_bounded_body q.(agq_body) MAX_REPORT_BYTES "AGENT_REPORT_TOO_LARGE" = Ok raw ∧
        validate_report raw = Ok r ∧ taken r (rt_now w.(ext)).1 c w w'
  end.
Proof.
  intros Hclean Hrun. apply with_session_run in Hrun as (w1 & Hrun & ->).
  split; [done|]. cbn [trace set_work work].
  unfold bind at 1, raise_if in Hrun. destruct (cluster_agent_enabled settings) eqn:Hen;
    cbn [negb] in Hrun; [|injection Hrun as <- <-; by rewrite Hclean].
  unfold ret at 1 in Hrun. unfold bind at 1, lift in Hrun.
  destruct (authenticate_agent _ _) as [u|x] eqn:Hauth; [|injection Hrun as <- <-; by rewrite Hclean].
  unfold bind at 1, lift in Hrun.
  destruct (read_bounded_body _ _ _) as [raw|x] eqn:Hraw; [|injection Hrun as <- <-; by rewrite Hclean].
  unfold bind at 1, lift in Hrun.
  destruct (validate_report raw) as [r|x] eqn:Hr; [|injection Hrun as <- <-; by rewrite Hclean].
  unfold bind at 1 in Hrun. destruct (ingest_report settings r w) as [[c|x] w2] eqn:Hi;
    pose proof (evolves_run _ _ _ _ _ (ingest_report_observing r) Hi) as (Ht & Hc & Hb).
  2: { injection Hrun as <- <-. rewrite Ht, Hc. by rewrite Hclean. }
  injection Hrun as <- <-. cbn [trace committed work]. split; [done|]. split; [done|].
  split; [done|]. destruct u. split; [done|].
  exists raw, r. split; [done|]. split; [done|]. exact (ingest_report_run _ _ _ _ Hi).
Qed.

(** ** What an observation may change *)

(** C43: an observation is evidence and grants nothing.  Whatever is sent to the intake:
    no call leaves the process, the session ends durable, and no incident, proposal,
    approval, policy decision or execution changes, nor any other table besides the
    observations, the audit log and the outbox.  A refused report changes nothing at
    all; a report is taken only with the agent's own token, for the agent's own
    registered cluster and within its freshness; then only that cluster's observation
    is replaced, and the evidence that is added is the collector's, for incidents that
    are still open, at most once a minute each. *)
Theorem observation_is_evidence q (w w' : World X) res :
  w.(committed) = w.(work) → agent_report settings q w = (res, w') →
  w'.(committed) = w'.(work) ∧ w'.(trace) = w.(trace) ∧
  besides_observations w'.(work) = besides_observations w.(work) ∧
  match res with
  | Raise _ => w'.(work) = w.(work)
  | Ok c =>
      q.(agq_authorization) = "Bearer " +:+ settings.(cluster_agent_token) ∧
      ∃ r, settings.(cluster_agent_cluster_id) = Some r.(rpt_cluster_id) ∧
        is_Some (w.(work).(clusters) !! r.(rpt_cluster_id)) ∧
        fresh settings r (rt_now w.(ext)).1 = true ∧
        (∀ id, id ≠ r.(rpt_cluster_id) →
           w'.(work).(cluster_agent_states) !! id = w.(work).(cluster_agent_states) !! id) ∧
        log_extends (observed_now (rt_now w.(ext)).1 (ev w) (rows w.(work).(incidents)))
          (ev w) (ev w')
  end.
Proof.
  intros Hclean Hrun. apply agent_report_run in Hrun as (Hc & Ht & Hr); [|done].
  split; [done|]. split; [done|]. destruct res as [c|x]; [|by rewrite Hr].
  destruct Hr as (Hb & _ & Hauth%authenticate_agent_ok & raw & r & _ & _ & Hid & Hf & Hcl & Hcase).
  split; [done|]. split; [done|]. exists r. split; [done|]. split; [done|]. split; [done|].
  assert (∀ state, accepted state r (rt_now w.(ext)).1 c w w' →
    (∀ id, id ≠ r.(rpt_cluster_id) →
       w'.(work).(cluster_agent_states) !! id = w.(work).(cluster_agent_states) !! id) ∧
    log_extends (observed_now (rt_now w.(ext)).1 (ev w) (rows w.(work).(incidents))) (ev w) (ev w'))
    as Hacc.
  { intros state (_ & _ & _ & _ & _ & Hst & He). split; [|done].
    intros id Hne. by rewrite Hst, lookup_insert_ne. }
  destruct (w.(work).(cluster_agent_states) !! _) as [s|]; [|by eapply Hacc].
  destruct (bool_decide _); [|by eapply Hacc]. destruct Hcase as [_ ->]. by split.
Qed.

(** ** A report counts once *)

Lemma known_report_same s r (digest : string) c :
  s.(cas_report_digest) = digest → s.(cas_status) = c.(rcp_status) →
  c.(rcp_status) = reported_status r →
  known_report s r digest =
    Ok {| rcp_report_id := r.(rpt_report_id); rcp_duplicate := true; rcp_attached_incidents := 0;
          rcp_status := c.(rcp_status) |}.
Proof.
  intros Hd Hs Hc. unfold known_report. rewrite Hd, Hs, String.eqb_refl, Hc.
  unfold reported_status. by destruct (existsb _ _).
Qed.

(** Delivering a report that was taken. *)
Lemma ingest_known r s c (w : World X) :
  settings.(cluster_agent_cluster_id) = Some r.(rpt_cluster_id) →
  is_Some (w.(work).(clusters) !! r.(rpt_cluster_id)) →
  w.(work).(cluster_agent_states) !! r.(rpt_cluster_id) = Some s →
  s.(cas_report_id) = r.(rpt_report_id) →
  known_report s r (sha256_hex (report_json r)) = Ok c →
  ingest_report settings r w =
    (if fresh settings r (rt_now w.(ext)).1 then Ok c else Raise stale_report,
     set_ext (rt_now w.(ext)).2 w).
Proof.
  intros Hid [cl Hcl] Hs Hrep Hk. unfold ingest_report, bind, utc_now, external.
  rewrite bool_decide_eq_true_2 by done. simpl.
  destruct (fresh _ _ _); [|done]. unfold raise_if, query, gets, ret. simpl.
  rewrite Hcl. rewrite bool_decide_eq_false_2 by done. simpl.
  rewrite Hs, bool_decide_eq_true_2 by done. unfold lift. by rewrite Hk.
Qed.

Lemma taken_report_id r current c (w w' : World X) :
  taken r current c w w' → c.(rcp_report_id) = r.(rpt_report_id).
Proof.
  intros (_ & _ & _ & Hcase).
  destruct (w.(work).(cluster_agent_states) !! _) as [s|]; [|by destruct Hcase as (_ & _ & ? & _)].
  destruct (bool_decide _); [|by destruct Hcase as (_ & _ & ? & _)].
  destruct Hcase as [Hk _]. unfold known_report in Hk.
  destruct (String.eqb _ _); [|done]. by injection Hk as <-.
Qed.

(** The row a taken report leaves makes its cluster know it. *)
Lemma taken_known r current c (w w' : World X) :
  taken r current c w w' → ∃ s,
    w'.(work).(cluster_agent_states) !! r.(rpt_cluster_id) = Some s ∧
    s.(cas_report_id) = r.(rpt_report_id) ∧
    known_report s r (sha256_hex (report_json r)) =
      Ok {| rcp_report_id := r.(rpt_report_id); rcp_duplicate := true;
            rcp_attached_incidents := 0; rcp_status := c.(rcp_status) |}.
Proof.
  intros (_ & _ & _ & Hcase).
  assert (∀ state, accepted state r current c w w' → ∃ s,
    w'.(work).(cluster_agent_states) !! r.(rpt_cluster_id) = Some s ∧
    s.(cas_report_id) = r.(rpt_report_id) ∧
    known_report s r (sha256_hex (report_json r)) =
      Ok {| rcp_report_id := r.(rpt_report_id); rcp_duplicate := true;
            rcp_attached_incidents := 0; rcp_status := c.(rcp_status) |}) as Hacc.
  { intros state (_ & _ & _ & Hs & _ & Hst & _). eexists. rewrite Hst, lookup_insert_eq.
    split; [done|]. split; [done|]. by apply known_report_same. }
  destruct (w.(work).(cluster_agent_states) !! _) as [s|] eqn:Hlk; [|by eapply Hacc].
  destruct (bool_decide _) eqn:Hid; [|by eapply Hacc].
  apply bool_decide_eq_true in Hid. destruct Hcase as [Hk ->]. exists s.
  split; [done|]. split; [done|]. rewrite Hk. unfold known_report in Hk.
  destruct (String.eqb _ _); [|done]. by injection Hk as <-.
Qed.

(** C44: a report counts once.  When a report was taken, delivering it again, whenever
    that happens before another one is taken, changes nothing: it is acknowledged as a
    duplicate, with the same status and nothing attached, or refused once it is stale. *)
Theorem report_once q c (w w' w2 w3 : World X) res :
  w.(committed) = w.(work) → agent_report settings q w = (Ok c, w') →
  w2.(committed) = w2.(work) → w2.(work) = w'.(work) → agent_report settings q w2 = (res, w3) →
  w3.(work) = w2.(work) ∧ w3.(committed) = w2.(committed) ∧ w3.(trace) = w2.(trace) ∧
  (res = Raise stale_report ∨
   res = Ok {| rcp_report_id := c.(rcp_report_id); rcp_duplicate := true;
               rcp_attached_incidents := 0; rcp_status := c.(rcp_status) |}).
Proof.
  intros Hclean Hrun Hclean2 Hwork Hagain.
  apply agent_report_run in Hrun as (_ & _ & Hb & Hen & Hauth & raw & r & Hraw & Hr & Ht); [|done].
  destruct (taken_known _ _ _ _ _ Ht) as (s & Hs & Hrep & Hk).
  assert (is_Some (w2.(work).(clusters) !! r.(rpt_cluster_id))) as Hcl.
  { rewrite Hwork. pose proof (f_equal clusters Hb : w'.(work).(clusters) = w.(work).(clusters))
      as ->. by destruct Ht as (_ & _ & ? & _). }
  pose proof (taken_report_id _ _ _ _ _ Ht) as ->. destruct Ht as (Hid & _).
  apply with_session_run in Hagain as (w4 & Hagain & ->). cbn [work committed trace set_work].
  unfold bind at 1 in Hagain. rewrite Hen in Hagain. cbn [negb] in Hagain.
  unfold raise_if, ret at 1 in Hagain.
  unfold bind at 1, lift at 1 in Hagain. rewrite Hauth in Hagain.
  unfold bind at 1, lift at 1 in Hagain. rewrite Hraw in Hagain.
  unfold bind at 1, lift at 1 in Hagain. rewrite Hr in Hagain.
  unfold bind at 1 in Hagain. rewrite <- Hwork in Hs.
  rewrite (ingest_known _ _ _ _ Hid Hcl Hs Hrep Hk) in Hagain.
  destruct (fresh _ _ _); injection Hagain as <- <-; cbn [committed work trace set_ext];
    rewrite Hclean2; auto.
Qed.

(** ** Every sequence of requests *)

(** The observation of a cluster is kept, or replaced by a later one, received at least
    ten seconds after it. *)
Definition moves_on (s s' : ClusterAgentState) : Prop :=
  s' = s ∨ s.(cas_observed_at) < s'.(cas_observed_at) ∧
           s.(cas_received_at) + seconds 10 ≤ s'.(cas_received_at).
#[global] Instance moves_on_preorder : PreOrder moves_on.
Proof.
  split; [by left|]. intros s1 s2 s3 [->|[H1 H2]] [->|[H3 H4]]; [by left|by right..|].
  right. unfold seconds in *. lia.
Qed.

(** What is kept of a cluster is its own, redacted and bounded. *)
Definition kept_sound (id : uuid) (s : ClusterAgentState) : Prop :=
  s.(cas_cluster_id) = id ∧ redacted s.(cas_payload) = true ∧
  str_len (dumps s.(cas_payload)) ≤ MAX_REPORT_BYTES ∧
  s.(cas_status) ∈ ["CONNECTED"; "DEGRADED"].

Record observations_sound (db : Database) : Prop := {
  snd_spaced : spaced db.(evidence_snapshots);
  snd_kept : map_Forall kept_sound db.(cluster_agent_states);
}.

Inductive agent_step : relation (World X) :=
| step_report q w : agent_step w (agent_report settings q w).2
| step_status viewer id w : agent_step w (agent_status settings viewer id w).2.

Lemma follows_moves_on s r digest current payload :
  follows (Some s) r current = Ok tt → moves_on s (observed_state r digest current payload).
Proof.
  unfold follows. destruct (_ <=? _) eqn:Ho; [done|]. destruct (_ <? _) eqn:Hc; [done|].
  intros _. right. simpl. unfold seconds in *. lia.
Qed.

Lemma accepted_sound state r current c (w w' : World X) :
  state = w.(work).(cluster_agent_states) !! r.(rpt_cluster_id) →
  observations_sound w.(work) → accepted state r current c w w' →
  observations_sound w'.(work) ∧
  table_extends moves_on w.(work).(cluster_agent_states) w'.(work).(cluster_agent_states).
Proof.
  intros Hstate [Hsp Hk] (Hf & _ & _ & _ & Hsize & Hst & new & Hnew & Hobs). split; [split|].
  - rewrite Hnew. by eapply spaced_app.
  - rewrite Hst. apply map_Forall_insert_2; [|done]. split; [done|].
    split; [apply redact_redacted|]. split; [done|]. simpl. unfold reported_status.
    destruct (existsb _ _); [right; left|left].
  - rewrite Hst. intros id s Hs. destruct (decide (r.(rpt_cluster_id) = id)) as [<-|Hne].
    + rewrite lookup_insert_eq. eexists. split; [done|]. rewrite Hs in Hstate. rewrite Hstate in Hf.
      by apply follows_moves_on.
    + rewrite lookup_insert_ne by done. exists s. split; [done|reflexivity].
Qed.

Lemma agent_step_sound (w w' : World X) :
  w.(committed) = w.(work) → observations_sound w.(work) → agent_step w w' →
  w'.(committed) = w'.(work) ∧ observations_sound w'.(work) ∧
  table_extends moves_on w.(work).(cluster_agent_states) w'.(work).(cluster_agent_states).
Proof.
  intros Hclean Hok Hstep. destruct Hstep as [q w|viewer id w].
  - destruct (agent_report settings q w) as [res w'] eqn:Hrun. cbn [snd].
    apply agent_report_run in Hrun as (Hc & _ & Hr); [|done]. split; [done|].
    destruct res as [c|x]; [|rewrite Hr; by split].
    destruct Hr as (_ & _ & _ & raw & r & _ & _ & _ & _ & _ & Hcase).
    destruct (w.(work).(cluster_agent_states) !! _) as [s|] eqn:Hlk;
      [destruct (bool_decide _)|]; [destruct Hcase as [_ ->]; by split|..];
      by apply (accepted_sound _ _ _ _ _ _ (eq_sym Hlk)) in Hcase.
  - destruct (agent_status settings viewer id w) as [res w'] eqn:Hrun. cbn [snd].
    apply with_session_run in Hrun as (w1 & Hrun & ->). split; [done|]. cbn [work set_work].
    apply (evolves_run same_committed) in Hrun; [|evolve].
    rewrite Hrun, Hclean. by split.
Qed.

(** C45: what is kept of the clusters only moves forward.  Whatever reports arrive, in
    whatever order, from whomever: the sessions end durable; no two observations are
    attached to one incident within a minute of each other; what is kept of a cluster is
    its own, redacted, bounded, and connected or degraded; and it is never replaced but
    by a later observation, received at least ten seconds after it. *)
Theorem observations_move_on (w w' : World X) :
  w.(committed) = w.(work) → observations_sound w.(work) → rtc agent_step w w' →
  w'.(committed) = w'.(work) ∧ observations_sound w'.(work) ∧
  table_extends moves_on w.(work).(cluster_agent_states) w'.(work).(cluster_agent_states).
Proof.
  intros Hclean Hok Hsteps. induction Hsteps as [w|w1 w2 w3 Hstep _ IH].
  - split_and!; [done..|reflexivity].
  - apply (agent_step_sound _ _ Hclean Hok) in Hstep as (Hc2 & Hok2 & He).
    destruct (IH Hc2 Hok2) as (? & ? & He'). split_and!; [done..|by etrans].
Qed.
End runs.

(** ** A concrete report *)

Definition bench_agent_target : AgentTarget :=
  {| agt_namespace := "cloudward-staging"; agt_service := "cloudward-demo";
     agt_deployment := "cloudward-demo" |}.
Definition bench_agent_report : AgentReport := {|
  rpt_report_id := 77%N; rpt_cluster_id := 500%N; rpt_observed_at := 1700000000000000;
  rpt_workloads := [{|
    wrp_target := bench_agent_target;
    wrp_deployment := Some {| dob_generation := 3; dob_observed_generation := 3;
      dob_desired_replicas := 2; dob_ready_replicas := 1; dob_updated_replicas := 2;
      dob_pods := [{| pob_name := "demo-1"; pob_phase := "Running"; pob_ready := true;
                      pob_restarts := 0 |}]; dob_truncated := false |};
    wrp_telemetry := [{| tr_provider := "prometheus"; tr_query := "up";
      tr_window := {| tw_start := 1699999700000000; tw_end := 1700000000000000;
                      tw_step_seconds := 15 |};
      tr_samples := [[("value", JInt 1)]]; tr_truncated := false; tr_reference := None |}];
    wrp_cost := None; wrp_errors := [] |}];
|}.

(** Every body is the report. *)
#[export] Instance bench_reports : AgentReports :=
  {| report_json r := dumps (AgentReport_dump r); parse_report _ := Some bench_agent_report |}.

Definition bench_service : Service :=
  {| svc_id := 8%N; svc_cluster_id := 500%N; svc_name := "cloudward-demo";
     svc_namespace := "cloudward-staging"; svc_deployment_name := "cloudward-demo";
     svc_criticality := "low"; svc_labels := JObj [] |}.
Definition agent_incident : Incident :=
  new_incident 9%N 1699999000000000 "corr-9" "reliability.memory-pressure" "OOM" ENV_STAGING
    None (Some 8%N) (Some 500%N).

(** A registered cluster with one service and one open incident. *)
Definition agent_world : World Z := bench_world
  {| services := {[8%N := bench_service]}; incidents := {[9%N := agent_incident]};
     alert_records := ∅; ai_diagnoses := []; action_proposals := ∅; action_executions := ∅;
     approvals := ∅; runbook_executions := ∅; notifications := ∅; incident_memory := ∅;
     policy_decisions := []; verification_records := []; evidence_snapshots := [];
     incident_events := []; audit_events := []; stream_events := []; security_events := ∅;
     quarantine_records := ∅; model_invocations := [];
     clusters := {[500%N := {| clu_id := 500%N; clu_name := "aws"; clu_environment := ENV_STAGING |}]};
     cluster_agent_states := ∅; github_records := ∅; finops_recommendations := ∅;
     chaos_executions := ∅ |}.

Definition agent_request (token : string) : AgentRequest :=
  {| agq_authorization := "Bearer " +:+ token;
     agq_body := {| content_length := None; header_timestamp := EmptyString;
                    header_nonce := EmptyString; header_signature := EmptyString;
                    body_chunks := [[1%N]] |} |}.
Definition send_report (w : World Z) : res AgentReceipt * World Z :=
  agent_report (Runtime0 := bench_runtime) example_settings
    (agent_request example_settings.(cluster_agent_token)) w.

Definition first_report : res AgentReceipt * World Z := send_report agent_world.
Definition first_receipt : AgentReceipt :=
  {| rcp_report_id := 77%N; rcp_duplicate := false; rcp_attached_incidents := 1;
     rcp_status := "CONNECTED" |}.

Example bench_report_taken :
  first_report.1 = Ok first_receipt ∧
  map evd_evidence_type first_report.2.(work).(evidence_snapshots) = [KUBERNETES_STATE; METRIC_SUMMARY]
  ∧ is_ok (agent_report (Runtime0 := bench_runtime) example_settings (agent_request "guess")
             agent_world).1 = false.
Proof. vm_compute. split_and!; reflexivity. Qed.

Lemma observation_is_evidence_witness :
  length first_report.2.(work).(evidence_snapshots) = 2%nat ∧
  first_report.2.(trace) = [] ∧
  besides_observations first_report.2.(work) = besides_observations agent_world.(work).
Proof.
  split; [vm_compute; reflexivity|].
  destruct (observation_is_evidence (Runtime0 := bench_runtime) example_settings
    (agent_request example_settings.(cluster_agent_token)) agent_world first_report.2
    first_report.1 eq_refl (surjective_pairing _)) as (_ & Ht & Hb & _).
  split; [exact Ht|exact Hb].
Defined.

Lemma report_once_witness :
  ∃ c, (send_report first_report.2).1 = Ok c ∧ c.(rcp_duplicate) = true ∧
  (send_report first_report.2).2.(work) = first_report.2.(work).
Proof.
  assert (is_ok (send_report first_report.2).1 = true) as Hok by (vm_compute; reflexivity).
  assert (first_report = (Ok first_receipt, first_report.2)) as Hrun
    by (apply run_of; exact (proj1 bench_report_taken)).
  assert (first_report.2.(committed) = first_report.2.(work)) as Hclean by (vm_compute; reflexivity).
  destruct (report_once (Runtime0 := bench_runtime) example_settings
    (agent_request example_settings.(cluster_agent_token)) first_receipt agent_world first_report.2
    first_report.2 (send_report first_report.2).2 (send_report first_report.2).1 eq_refl Hrun
    Hclean eq_refl (surjective_pairing _)) as (Hw & _ & _ & [Hr|Hr]).
  - rewrite Hr in Hok. discriminate Hok.
  - eexists. split; [exact Hr|]. split; [reflexivity|exact Hw].
Defined.

Lemma observations_move_on_witness :
  observations_sound (send_report first_report.2).2.(work) ∧
  (cas_status <$> (send_report first_report.2).2.(work).(cluster_agent_states) !! 500%N)
    = Some "CONNECTED".
Proof.
  split; [|vm_compute; reflexivity].
  destruct (observations_move_on (Runtime0 := bench_runtime) example_settings agent_world
    (send_report first_report.2).2) as (_ & Hok & _); [reflexivity| | |exact Hok].
  - split; [|apply map_Forall_empty]. intros i e f He. by apply elem_of_nil in He.
  - eapply rtc_l; [apply step_report|]. eapply rtc_l; [apply step_report|]. apply rtc_refl.
Defined.
